(* ===== verification/_CoqProject ===== *)
-Q . S2P
Prelude.v
PyStr.v
PyFloat.v
PyVal.v
PyRegex.v
Avocado.v
Logic.v
DlparApi.v
DlparTests.v
DlparPayload.v
DlparHmc.v
DlparErrors.v
DlparConfig.v
DlparSystem.v
DlparSim.v
Ppc64Cpu.v
PpcParse.v
PpcSystem.v
PpcRandom.v
PpcSim.v
IrqBalance.v
IrqText.v
IrqSystem.v
IrqSim.v
Sched.v
SchedTunables.v
SchedSim.v
Ndctl.v
NdctlSpace.v
NdctlVerdicts.v
NdctlConfine.v
NdctlLabels.v
NdctlSim.v
Nvme.v
NvmeSystem.v
NvmeSim.v
CpuDie.v
CpuDieVerdicts.v
CpuDieSim.v
StressMem.v
StressLog.v
StressVerdicts.v
StressSim.v
VirtualFc.v
VfcSystem.v
VfcConsole.v
VfcSim.v
NetVirt.v
NetSystem.v
NetBacking.v
NetSim.v
Bonding.v
BondSystem.v
BondSetup.v
BondSim.v
FuncGraph.v
GraphTrace.v
GraphSystem.v
GraphVerdict.v
GraphCleanup.v
GraphSim.v
Iozone.v
IozoneTable.v
IozoneLayers.v
IozoneSim.v
Lsvpd.v
LsvpdText.v
LsvpdSpyre.v
LsvpdPci.v
LsvpdSim.v
PyJson.v
NvmeTcp.v
NvmeTcpSystem.v
NvmeTcpNetwork.v
NvmeTcpConnect.v
NvmeTcpRun.v
NvmeTcpSim.v
PciDlpar.v
PciSystem.v
PciSim.v
