(* ===== verification/Prelude.v ===== *)
(** * Avocado misc tests: a verification development

    The repository holds functional tests for Linux on POWER, written for the harness avocado.
    Each file under src/ is a class of tests: setUp, test methods, tearDown, and the helpers they
    share.  A test drives a system under test with commands and files, keeps what it learns in
    attributes of [self], and ends by returning, by a failure ([self.fail]), by a cancellation
    ([self.cancel]) or by another exception.  What makes such a program correct is its verdict:
    it passes on a machine that behaves and reports one that does not; and its effect: it asks
    for what it means to ask for, and leaves the machine as it promises.

    ** What is modelled

    Seventeen files, each class with its whole state and every operation on it.

    - dlpar/dlpar_api/api.py: DlparApi.  Dynamic partitioning through a management console
      (HMC): sessions, the commands of the console, adding, removing and moving processors,
      processing units and memory, and their validation.
    - dlpar/dlpar_main.py: DlparTests.  The tests on top of it: the payload loops that choose
      the amounts, the file config.txt, the test methods.  It calls DlparApi.
    - cpu/ppc64_cpu_test.py: Ppc64Cpu.  Threads and cores by ppc64_cpu.
    - io/net/irqbalance.py: IrqBalance.  Affinity of interrupts and of processes.
    - cpu/scheduler_tunables_test.py: Sched.  Tunables of the scheduler under load.
    - memory/ndctl.py: Ndctl.  Persistent memory: regions, namespaces, labels.
    - io/disk/ssd/nvmetest.py: Nvme.  Namespaces, block formats and firmware of NVMe devices.
    - cpu/cpu_die_topology.py: CpuDie.  Die identifiers of the CPUs and a benchmark on them.
    - memory/stressng_mem.py: StressMem.  Memory stressors and the search of the kernel log.
    - io/disk/vfc-tests/virtual_fc.py: VirtualFc.  Virtual Fibre Channel adapters of a
      partition, through the management console.
    - io/net/virt-net/network_virtualization.py: NetVirt.  Virtual network adapters of a
      partition, their backing devices and the failover between them.
    - io/net/bonding.py: Bonding.  A bond of network interfaces, set up on two machines, and
      what it carries while its interfaces fail.
    - trace/function_graph_retval.py: FuncGraph.  The function graph tracer with return values,
      on a kernel module that is built for it.
    - io/disk/iozone.py: Iozone.  A benchmark of file systems: its table, the averages and
      comparisons, the layers (RAID, logical volume, file system) it puts on a disk.
    - ras/ras_lsvpd.py: Lsvpd.  The tools for vital product data, and the comparison of what
      they print with what the system knows of its PCI devices and Spyre cards.
    - io/disk/nvmetcp/nvme_tcp_initiator.py: NvmeTcp.  The initiator of NVMe over TCP: the
      addresses of the interfaces, discovery and connection, multipath, persistence, cleanup.
    - io/pci/dlpar.py: PciDlpar.  PCI slots taken out of a partition, put back and moved to
      another one, through the management console or by drmgr, and what the adapters recover.

    A method [m] of a class is the definition [m] of the file; private names lose their leading
    underscores, and a private [__m] of a class [C] with namesakes is [C_m].  The body of a loop
    is a definition of its own ([mode_step], [slot_step], ..), so that it can be reasoned about.
    The attributes are a record; an attribute that need not be set is optional, and reading it
    raises AttributeError.  The parts meet in the shared layers only, except that DlparTests
    calls DlparApi.

    ** The layers

    - Prelude (this file): tactics, lemmas on lists and integers, [Zrange].
    - PyStr, PyFloat, PyVal, PyRegex, PyJson: Python's text, floats (IEEE doubles, exactly),
      values of unknown type with their operators and exceptions, patterns, and the reader of
      JSON with the grammar it is complete for.
    - Avocado: the monad [M W S] of a test over a world [W] with attributes [S]: the world is
      passed along, every call is recorded in a trace, exceptions are values.  The class [Env]
      has the functions of avocado and of the system as parameters.
    - Logic: how to state what a computation does, with composition rules: [wp], [guar] and
      [emits] for all environments, [runs] for one execution, [keeps] and [keeps_post] for
      invariants of the whole state, whatever is raised; [triple] for a computation over what a
      client sees of the world, with [answers] for a call of the environment.

    For each component, the files that follow its model state what the environment has to
    satisfy (a class: [Hmc], [Lab], [PpcMachine], [IrqMachine], [TunableMachine],
    [NvdimmMachine], [LabelMachine], [DieMachine], [StressMachine], [VfcMachine], [VnConsole],
    [BondMachine], [GraphMachine], [IoStack], [SpyreMachine],
    [PciMachine], [TcpHost], [PciConsole], ..) and prove the theorems against that interface; the Sim
    files give an environment that decodes the text of the commands, prove it an instance, and
    apply the theorems to it.  So the hypotheses can hold, and the commands are the ones the
    model prints.

    ** What the theorems show

    - DlparHmc, DlparErrors: the methods of the API refine the operations of an abstract
      console (addition, removal and move within the bounds of the partitions); what the
      validations raise when they do not hold; the verdict when the console refuses; that the
      processor tests send only what they should.
    - DlparPayload: the loops terminate, the amounts stay within the maximum and exhaust it,
      for integers and for floats on a binary grid, where the sums are exact.
    - DlparConfig, DlparSystem: config.txt is read back as it was written; the processor tests
      fill a partition, addition followed by removal restores it, and a removal that the console
      refuses ends the test where it is.
    - PpcParse, PpcSystem, PpcRandom: the parser reads back any machine that ppc64_cpu prints;
      the state check holds exactly of the expected state; the tests pass on every machine of
      3 to 256 cores, where they leave it, and how many cores they can turn off.
    - IrqText, IrqSystem: what the patterns find; the verdicts of the affinity, the hotplug and
      the taskset tests, with the machines they wrongly refuse.
    - SchedTunables, SchedSim: whatever happens in a test, tearDown gives every tunable its old
      value; the values that the default factors give.
    - NdctlSpace: the unit of sizes is the least common multiple of the alignments;
      the tests divide a region among its slots.  NdctlVerdicts, NdctlLabels: which machines the
      tests of modes, labels and reconfiguration accept, which tests lack the decorator of
      the others, what tearDown leaves.  NdctlConfine: tests on one region leave the others alone.
    - NvmeSystem: which namespaces are deleted, which block format is chosen, when the upgrade
      passes.
    - CpuDieVerdicts: the checks of the dies accept a machine exactly when its CPUs agree in
      pairs; which CPUs the benchmark gets.
    - StressLog, StressVerdicts: the call traces that are reported are those of the one way to
      divide a log into traces and other lines, and what that means for logs with time stamps;
      which codes and logs the stress tests accept, and how long the stressors run.
    - VfcSystem, VfcConsole: which value is read from a listing; the tests that unmap adapters or
      take them out pass exactly when every step does what it should; the test that deletes
      them passes on a console that deletes nothing.
    - NetSystem, NetBacking: the listings of the console are read back; the failover
      test passes on a console that works and leaves it as it was; the wait for an interface
      notices it; the lists of the backing devices stay in step, but for the names of the servers.
    - BondSystem, BondSetup: the test passes exactly on a bond that survives the failure of each
      of its interfaces and carries every packet size, and leaves the interfaces up; the set-up
      makes a bond of exactly the interfaces that are given, and the removal leaves none.
    - GraphTrace: the trace file is read back as it was printed.  GraphSystem, GraphVerdict: the
      limit of the search loses nothing; the test passes exactly when the trace shows the
      functions of the module.  GraphCleanup: the tracer is reset whatever a step raises.
    - IozoneTable: the table of iozone is read back and recorded, each line in one
      group of the averages; of other output nothing is recorded.  IozoneLayers: setUp puts
      each layer on the device of the one below, and tearDown takes them off again.
    - LsvpdText: the fields of lscfg are read back, and the blocks of lsvpd go to their cards.
      LsvpdSpyre, LsvpdPci: which cards the test accepts, by the fields of the two listings; the
      errors of the PCI devices are exactly their disagreements.
    - NvmeTcpSystem: the controllers are read from the listing whatever its layout.
      NvmeTcpNetwork: the network phase meets a specification of the host after it.
      NvmeTcpConnect, NvmeTcpRun: a host without paths gets one for each target, and the cleanup
      takes them away again, leaving the other subsystems alone; what the multipath check accepts.
    - PciSystem: the listings of the slots are read back; the test with removal, addition and
      move leaves every slot where it was, or one in the other partition when the identifier of
      that partition has two digits; which devices count as recovered.

    ** Bounds and fuel

    - The payload loops are [while] loops.  Their fuel is twice the distance to the maximum
      ([cpu_payload_fuel]) or the number of memory blocks that fit ([mem_payload_fuel]), each
      plus ten; the theorems show that it is not used up, for amounts below 2^50.
    - [unassign_loop] removes one CPU per round: its fuel is the number of CPUs.  [hex_chars]
      has more fuel than hexadecimal digits.  [extract_from] consumes a line of the log per
      round: its fuel is the number of lines; [split_seq] a character, and its fuel is the
      number of characters.  The waits of NetVirt and Bonding are counted loops.  A star of a
      pattern repeats at most once per character that is left, since a round that matches
      nothing ends it.  Each round of [json_value] takes a character: twice their number is enough.
    - Theorems on the parser of ppc64_cpu are for up to 256 cores, on processor units for up to
      255 float literals (32640 processors): the bound within which the quantities are checked
      by evaluation.  Python's integers are unbounded, and so are they here.

    ** What is not modelled

    - The decorators of virtual_fc.py, network_virtualization.py and ras_lsvpd.py that skip the
      tests on other platforms.
    - The libraries: avocado with its PMem, nvme, pci and multipath modules, Python's os, shutil
      and subprocess beyond what is in the Py files, the package managers.  They are parameters.
    - Of json.loads, the escapes of characters beyond ASCII and the message of JSONDecodeError;
      NvmeTcp calls the model, the other classes have json.loads as a parameter.
    - Of Python: text beyond ASCII other than what is printed, float("nan") and float("inf"),
      formatting of text that a parameter gives, the compensated sum that
      recent versions make of floats ([sum] adds from the left).
    - The other files of src/.  Most of them build and run an external program and look at its
      status; the classes above have the most logic of their own.  Candidates for the next
      steps are io/net/nmcli_bonding and ras/ras_ppcutils. *)

From Stdlib Require Export ZArith Lia Ascii String.
From stdpp Require Export base list strings numbers.

Set Default Proof Using "Type".
#[export] Set Default Goal Selector "!".

(** ** Notations *)

Declare Scope py_scope.
Delimit Scope py_scope with py.

(** ** Tactics *)

(** Case analysis on the innermost match of the goal (or of a hypothesis). *)
Ltac case_match_eqn :=
  match goal with
  | |- context [match ?x with _ => _ end] => destruct x eqn:?
  end.

Ltac case_match_in H :=
  match type of H with
  | context [match ?x with _ => _ end] => destruct x eqn:?
  end.

(** Booleans of integer comparisons turned into arithmetic facts. *)
Ltac bool_to_Z :=
  repeat match goal with
  | H : Z.leb _ _ = true |- _ => apply Z.leb_le in H
  | H : Z.leb _ _ = false |- _ => apply Z.leb_gt in H
  | H : Z.ltb _ _ = true |- _ => apply Z.ltb_lt in H
  | H : Z.ltb _ _ = false |- _ => apply Z.ltb_ge in H
  | H : Z.eqb _ _ = true |- _ => apply Z.eqb_eq in H
  | H : Z.eqb _ _ = false |- _ => apply Z.eqb_neq in H
  | H : andb _ _ = true |- _ => apply andb_true_iff in H as [? ?]
  | H : negb _ = true |- _ => apply negb_true_iff in H
  | H : negb _ = false |- _ => apply negb_false_iff in H
  end.

(** ** Lists *)

Section lists.
Context {A : Type}.
Implicit Types (l : list A) (x : A).

(** [l[-1]] of a possibly empty list. *)
Fixpoint last_opt l : option A :=
  match l with
  | [] => None
  | [x] => Some x
  | _ :: l' => last_opt l'
  end.

Lemma last_opt_snoc l x : last_opt (l ++ [x]) = Some x.
Proof.
  induction l as [|y l IH]; [done|].
  simpl. rewrite IH. by destruct (l ++ [x]) eqn:E; [destruct l|].
Qed.

Lemma last_opt_app l1 l2 : l2 ≠ [] → last_opt (l1 ++ l2) = last_opt l2.
Proof.
  destruct l2 as [|x l2 _] using rev_ind; [done|]. intros _.
  by rewrite app_assoc, !last_opt_snoc.
Qed.

Lemma last_opt_elem l x : last_opt l = Some x → x ∈ l.
Proof.
  destruct l as [|y l _] using rev_ind; [done|]. rewrite last_opt_snoc. intros [= <-].
  apply elem_of_app. right. left.
Qed.

Lemma last_opt_None l : last_opt l = None ↔ l = [].
Proof.
  split; [|by intros ->]. destruct l as [|x l] using rev_ind; [done|].
  by rewrite last_opt_snoc.
Qed.

(** The longest prefix of [l] whose elements satisfy [p], and the rest. *)
Fixpoint span (p : A → bool) l : list A * list A :=
  match l with
  | [] => ([], [])
  | x :: l' => if p x then let '(a, b) := span p l' in (x :: a, b) else ([], l)
  end.

Lemma span_app (p : A → bool) l1 l2 :
  Forall (λ x, p x = true) l1 →
  match l2 with [] => True | y :: _ => p y = false end →
  span p (l1 ++ l2) = (l1, l2).
Proof.
  intros H1 H2. induction H1 as [|x l1 Hx _ IH]; simpl.
  - destruct l2 as [|y l2]; [done|]. simpl. by rewrite H2.
  - by rewrite Hx, IH.
Qed.

Lemma span_eq (p : A → bool) l a b : span p l = (a, b) → l = a ++ b.
Proof.
  revert a b. induction l as [|x l IH]; intros a b; simpl; [naive_solver|].
  destruct (p x).
  - destruct (span p l) as [a' b'] eqn:E. intros [= <- <-]. simpl. by rewrite (IH a' b').
  - by intros [= <- <-].
Qed.

(** Predicates that agree on a list. *)
Lemma existsb_same (p q : A → bool) l : (∀ a, a ∈ l → p a = q a) → existsb p l = existsb q l.
Proof.
  intros H. induction l as [|a l IH]; [done|]. cbn. rewrite (H a) by left. f_equal. apply IH. intros c Hc. apply H. by right.
Qed.
Lemma forallb_same (p q : A → bool) l : (∀ a, a ∈ l → p a = q a) → forallb p l = forallb q l.
Proof.
  intros H. induction l as [|a l IH]; [done|]. cbn. rewrite (H a) by left. f_equal. apply IH. intros c Hc. apply H. by right.
Qed.
End lists.

(** Sum of a list of integers. *)
Definition Zsum (l : list Z) : Z := foldr Z.add 0%Z l.

Lemma Zsum_app l1 l2 : Zsum (l1 ++ l2) = (Zsum l1 + Zsum l2)%Z.
Proof. unfold Zsum. induction l1 as [|x l1 IH]; simpl; [done|]. rewrite IH. lia. Qed.

Lemma Zsum_nonneg l : Forall (λ x, 0 ≤ x)%Z l → (0 ≤ Zsum l)%Z.
Proof. unfold Zsum. induction 1; simpl; lia. Qed.

(** The integers [a, a+1, .., b-1]: Python's [range(a, b)]. *)
Definition Zrange (a b : Z) : list Z := seqZ a (b - a).

Lemma Zrange_cons a b : (a < b)%Z → Zrange a b = a :: Zrange (a + 1) b.
Proof.
  intros H. unfold Zrange. rewrite seqZ_cons by lia. do 2 f_equal; lia.
Qed.

Lemma elem_of_Zrange a b x : x ∈ Zrange a b ↔ (a ≤ x < b)%Z.
Proof. unfold Zrange. rewrite elem_of_seqZ. lia. Qed.

(** ** Options *)

Lemma option_bool_iff (b1 b2 : bool) : (b1 = true ↔ b2 = true) → b1 = b2.
Proof. destruct b1, b2; naive_solver. Qed.
