(* ===== verification/PyStr.v ===== *)
(** * Python text

    The [str] operations the tests use, on strings of bytes: [strip], [split],
    [splitlines], [join], [in], [len], [str(int)] and [int(str)].  Text is ASCII
    (UTF-8 bytes for the few other characters), so the Unicode white space beyond
    code 127 does not occur. *)

From S2P Require Import Prelude.
Open Scope Z_scope.

Abbreviation chars := (list ascii).

Definition chars_of (s : string) : chars := list_ascii_of_string s.
Definition str_of (l : chars) : string := string_of_list_ascii l.

(** ** Characters *)

Definition ch_code (c : ascii) : Z := Z.of_nat (nat_of_ascii c).
Definition is_digit (c : ascii) : bool := (48 <=? ch_code c) && (ch_code c <=? 57).
Definition digit_val (c : ascii) : Z := ch_code c - 48.
Definition digit_char (d : Z) : ascii := ascii_of_nat (Z.to_nat (d + 48)).

(** [str.isspace] on ASCII: tab, line feed, vertical tab, form feed, carriage
    return, the four separators 0x1c-0x1f and space. *)
Definition is_space (c : ascii) : bool :=
  ((9 <=? ch_code c) && (ch_code c <=? 13)) || ((28 <=? ch_code c) && (ch_code c <=? 32)).

(** The line boundaries of [str.splitlines] on ASCII. *)
Definition is_linebreak (c : ascii) : bool :=
  ((10 <=? ch_code c) && (ch_code c <=? 13)) || ((28 <=? ch_code c) && (ch_code c <=? 30)).

Definition LF : ascii := ascii_of_nat 10.
Definition CR : ascii := ascii_of_nat 13.
Definition NL : string := String LF EmptyString.
(** The double quote as a string. *)
Definition DQ : string := String (ascii_of_nat 34) EmptyString.

(** ** strip *)

Fixpoint drop_while (p : ascii → bool) (l : chars) : chars :=
  match l with
  | [] => []
  | c :: l' => if p c then drop_while p l' else l
  end.

Definition strip_chars (p : ascii → bool) (l : chars) : chars :=
  rev (drop_while p (rev (drop_while p l))).

(** [s.strip()] *)
Definition py_strip (s : string) : string := str_of (strip_chars is_space (chars_of s)).

(** [s.strip(cs)] *)
Definition py_strip_of (cs s : string) : string :=
  str_of (strip_chars (λ c, bool_decide (c ∈ chars_of cs)) (chars_of s)).

(** ** split *)

(** Pieces of [l] between the characters that satisfy [p]. *)
Fixpoint pieces (p : ascii → bool) (l : chars) : list chars :=
  match l with
  | [] => [[]]
  | c :: l' =>
      if p c then [] :: pieces p l'
      else match pieces p l' with
           | [] => [[c]]
           | w :: ws => (c :: w) :: ws
           end
  end.

Definition nonempty_chars (l : chars) : bool := match l with [] => false | _ => true end.

(** [s.split()] *)
Definition py_split (s : string) : list string :=
  map str_of (List.filter nonempty_chars (pieces is_space (chars_of s))).

(** [s.split(c)] for a one-character separator. *)
Definition py_split_on (c : ascii) (s : string) : list string :=
  map str_of (pieces (Ascii.eqb c) (chars_of s)).

(** [s.splitlines()] *)
Fixpoint lines_of (cur : chars) (l : chars) : list chars :=
  match l with
  | [] => match cur with [] => [] | _ => [rev cur] end
  | c :: l' =>
      if is_linebreak c then
        rev cur ::
          match l' with
          | c' :: l'' => if Ascii.eqb c CR && Ascii.eqb c' LF then lines_of [] l'' else lines_of [] l'
          | [] => lines_of [] l'
          end
      else lines_of (c :: cur) l'
  end.

Definition py_splitlines (s : string) : list string := map str_of (lines_of [] (chars_of s)).

(** [sep.join(l)] *)
Fixpoint py_join (sep : string) (l : list string) : string :=
  match l with
  | [] => ""
  | [s] => s
  | s :: l' => s +:+ sep +:+ py_join sep l'
  end.

(** ** in, prefixes *)

Fixpoint starts_with (p l : chars) : bool :=
  match p, l with
  | [], _ => true
  | a :: p', b :: l' => Ascii.eqb a b && starts_with p' l'
  | _ :: _, [] => false
  end.

(** What follows a prefix. *)
Fixpoint drop_prefix (p l : chars) : option chars :=
  match p, l with
  | [], _ => Some l
  | a :: p', b :: l' => if Ascii.eqb a b then drop_prefix p' l' else None
  | _ :: _, [] => None
  end.

Fixpoint contains_chars (p l : chars) : bool :=
  starts_with p l || match l with [] => false | _ :: l' => contains_chars p l' end.

(** [p in s] *)
Definition py_in (p s : string) : bool := contains_chars (chars_of p) (chars_of s).

(** [s.lower()] of ASCII *)
Definition lower_char (c : ascii) : ascii :=
  if (65 <=? ch_code c) && (ch_code c <=? 90) then ascii_of_nat (Z.to_nat (ch_code c + 32)) else c.
Definition py_lower (s : string) : string := str_of (map lower_char (chars_of s)).

(** [s.replace(old, new)], for a text [old] that is not empty *)
Fixpoint replace_chars (fuel : nat) (old new l : chars) : chars :=
  match fuel, l with
  | S f, c :: l' =>
      match drop_prefix old l with
      | Some rest => new ++ replace_chars f old new rest
      | None => c :: replace_chars f old new l'
      end
  | _, _ => l
  end.
Definition py_replace (old new s : string) : string :=
  str_of (replace_chars (length (chars_of s)) (chars_of old) (chars_of new) (chars_of s)).

Definition py_empty (s : string) : bool := match s with EmptyString => true | _ => false end.

(** [s.startswith(p)] *)
Definition py_startswith (p s : string) : bool := starts_with (chars_of p) (chars_of s).

(** [file.readlines()]: the lines with their line feeds. *)
Fixpoint readlines_of (cur l : chars) : list chars :=
  match l with
  | [] => match cur with [] => [] | _ => [rev cur] end
  | c :: l' => if Ascii.eqb c LF then rev (c :: cur) :: readlines_of [] l' else readlines_of (c :: cur) l'
  end.
Definition readlines (s : string) : list string := map str_of (readlines_of [] (chars_of s)).

(** ** Integers *)

Fixpoint digits_of (fuel : nat) (n : Z) (acc : chars) : chars :=
  match fuel with
  | O => acc
  | S f =>
      let acc' := digit_char (n mod 10) :: acc in
      if n / 10 =? 0 then acc' else digits_of f (n / 10) acc'
  end.

Definition nat_chars (n : Z) : chars := digits_of (S (Z.to_nat (Z.log2 n))) n [].

(** [str(z)] *)
Definition py_str_Z (z : Z) : string :=
  if z <? 0 then "-" +:+ str_of (nat_chars (- z)) else str_of (nat_chars z).

Fixpoint digits_val (acc : Z) (l : chars) : Z :=
  match l with
  | [] => acc
  | c :: l' => digits_val (acc * 10 + digit_val c) l'
  end.

(** The digits of an [int] literal: an underscore may stand between two digits. *)
Fixpoint int_digits (after_digit : bool) (acc : Z) (l : chars) : option Z :=
  match l with
  | [] => if after_digit then Some acc else None
  | c :: l' =>
      if is_digit c then int_digits true (acc * 10 + digit_val c) l'
      else if Ascii.eqb c "_" && after_digit
           then match l' with
                | c' :: _ => if is_digit c' then int_digits false acc l' else None
                | [] => None
                end
           else None
  end.

(** [int(s)]; [None] is [ValueError]. *)
Definition int_of_chars (l : chars) : option Z :=
  match strip_chars is_space l with
  | [] => None
  | c :: l' =>
      if Ascii.eqb c "-" then Z.opp <$> int_digits false 0 l'
      else if Ascii.eqb c "+" then int_digits false 0 l'
      else int_digits false 0 (c :: l')
  end.

Definition py_int_of_str (s : string) : option Z := int_of_chars (chars_of s).

(** [int(s, 16)] of plain hexadecimal text, with an optional [0x]. *)
Definition hex_val (c : ascii) : option Z :=
  let k := ch_code c in
  if is_digit c then Some (k - 48)
  else if (97 <=? k) && (k <=? 102) then Some (k - 87)
  else if (65 <=? k) && (k <=? 70) then Some (k - 55)
  else None.

Fixpoint hex_digits (acc : Z) (l : chars) : option Z :=
  match l with
  | [] => Some acc
  | c :: l' => match hex_val c with Some d => hex_digits (acc * 16 + d) l' | None => None end
  end.

Definition py_int16_of_str (s : string) : option Z :=
  let body l := match l with
                | [] => None
                | "0"%char :: "x"%char :: (_ :: _) as l' => hex_digits 0 (drop 2 l)
                | _ => hex_digits 0 l
                end in
  match strip_chars is_space (chars_of s) with
  | "-"%char :: l => Z.opp <$> body l
  | "+"%char :: l => body l
  | l => body l
  end.

(** ** Bytes and paths *)

(** [str(b)] of bytes: what [repr] writes. *)
Definition hex_char (d : Z) : ascii := if d <? 10 then digit_char d else ascii_of_nat (Z.to_nat (d + 87)).

Definition bytes_char (q c : ascii) : chars :=
  let k := ch_code c in
  if Ascii.eqb c q || Ascii.eqb c "\" then ["\"%char; c]
  else if k =? 9 then ["\"; "t"]%char
  else if k =? 10 then ["\"; "n"]%char
  else if k =? 13 then ["\"; "r"]%char
  else if (k <? 32) || (127 <=? k) then ["\"%char; "x"%char; hex_char (k / 16); hex_char (k mod 16)]
  else [c].

Definition bytes_repr (s : string) : string :=
  let l := chars_of s in
  let has c := existsb (Ascii.eqb c) l in
  let dq := ascii_of_nat 34 in
  let q := if has "'"%char && negb (has dq) then dq else "'"%char in
  str_of ("b"%char :: q :: flat_map (bytes_char q) l ++ [q]).

(** [os.path.join(a, b)] and [os.path.basename(p)] *)
Definition path_join (a b : string) : string :=
  if starts_with ["/"%char] (chars_of b) then b
  else if py_empty a then b
  else match last_opt (chars_of a) with
       | Some c => if Ascii.eqb c "/" then a +:+ b else a +:+ "/" +:+ b
       | None => b
       end.

Definition basename (p : string) : string :=
  match last_opt (pieces (Ascii.eqb "/") (chars_of p)) with Some l => str_of l | None => p end.

(** [s.split(sep)[0]] for a separator that is not empty: the text before its first
    occurrence. *)
Fixpoint chars_before (sep l : chars) : chars :=
  if starts_with sep l then []
  else match l with [] => [] | c :: l' => c :: chars_before sep l' end.

Definition before_first (sep s : string) : string := str_of (chars_before (chars_of sep) (chars_of s)).

(** ** Lemmas: conversion *)

Lemma str_of_chars_of s : str_of (chars_of s) = s.
Proof. apply string_of_list_ascii_of_string. Qed.

Lemma chars_of_str_of l : chars_of (str_of l) = l.
Proof. apply list_ascii_of_string_of_list_ascii. Qed.

Lemma chars_of_app s1 s2 : chars_of (s1 +:+ s2) = chars_of s1 ++ chars_of s2.
Proof. induction s1 as [|c s1 IH]; [done|]. unfold chars_of in *. simpl. by rewrite IH. Qed.

Lemma str_of_inj l1 l2 : str_of l1 = str_of l2 → l1 = l2.
Proof. intros H. by rewrite <- (chars_of_str_of l1), H, chars_of_str_of. Qed.

Lemma chars_of_inj s1 s2 : chars_of s1 = chars_of s2 → s1 = s2.
Proof. intros H. by rewrite <- (str_of_chars_of s1), H, str_of_chars_of. Qed.

Create Rewrite HintDb pystr.
#[export] Hint Rewrite chars_of_app chars_of_str_of str_of_chars_of : pystr.

Lemma string_app_nil_r s : s +:+ "" = s.
Proof. apply chars_of_inj. by rewrite chars_of_app, app_nil_r. Qed.

Lemma string_app_assoc s1 s2 s3 : s1 +:+ (s2 +:+ s3) = (s1 +:+ s2) +:+ s3.
Proof. apply chars_of_inj. by rewrite !chars_of_app, app_assoc. Qed.

Lemma drop_prefix_app pre l : drop_prefix pre (pre ++ l) = Some l.
Proof. induction pre as [|c pre IH]; simpl; [done|]. by rewrite Ascii.eqb_refl. Qed.

(** ** Lemmas: strip *)

Section strip.
Context (p : ascii → bool).

Lemma drop_while_all l1 l2 :
  Forall (λ c, p c = true) l1 → drop_while p (l1 ++ l2) = drop_while p l2.
Proof. induction 1 as [|c l1 Hc _ IH]; simpl; [done|]. by rewrite Hc. Qed.

(** Nothing to strip at either end. *)
Definition trimmed (l : chars) : Prop :=
  match l with [] => True | c :: _ => p c = false end ∧
  match last_opt l with None => True | Some c => p c = false end.

Lemma drop_while_trimmed l : trimmed l → drop_while p l = l.
Proof. intros [H _]. destruct l as [|c l]; [done|]. simpl. by rewrite H. Qed.

Lemma trimmed_rev l : trimmed l → trimmed (rev l).
Proof.
  intros [H1 H2]. destruct l as [|c l]; [done|].
  split.
  - destruct (rev (c :: l)) as [|d r] eqn:E; [done|].
    assert (c :: l = rev r ++ [d]) as E'.
    { rewrite <- (rev_involutive (c :: l)), E. done. }
    rewrite E', last_opt_snoc in H2. done.
  - simpl. by rewrite last_opt_snoc.
Qed.

Lemma strip_trimmed l : trimmed l → strip_chars p l = l.
Proof.
  intros H. unfold strip_chars.
  by rewrite (drop_while_trimmed l H), (drop_while_trimmed _ (trimmed_rev _ H)), rev_involutive.
Qed.

(** Stripping removes exactly the padding around trimmed text. *)
Lemma strip_padded l1 l l2 :
  Forall (λ c, p c = true) l1 → Forall (λ c, p c = true) l2 → trimmed l → l ≠ [] →
  strip_chars p (l1 ++ l ++ l2) = l.
Proof.
  intros H1 H2 Ht Hne. unfold strip_chars.
  rewrite drop_while_all by done.
  assert (drop_while p (l ++ l2) = l ++ l2) as ->.
  { destruct l as [|c l]; [done|]. destruct Ht as [Ht _]. simpl. by rewrite Ht. }
  rewrite rev_app_distr, drop_while_all.
  - by rewrite (drop_while_trimmed _ (trimmed_rev _ Ht)), rev_involutive.
  - rewrite List.Forall_forall in *. intros c Hc. apply H2. by apply in_rev.
Qed.
End strip.

(** ** Lemmas: split *)

Lemma pieces_app (p : ascii → bool) l1 c l2 :
  Forall (λ c, p c = false) l1 → p c = true → pieces p (l1 ++ c :: l2) = l1 :: pieces p l2.
Proof.
  intros H1 Hc. induction H1 as [|d l1 Hd _ IH]; simpl.
  - by rewrite Hc.
  - by rewrite Hd, IH.
Qed.

Lemma pieces_none (p : ascii → bool) l :
  Forall (λ c, p c = false) l → pieces p l = [l].
Proof. induction 1 as [|c l Hc _ IH]; simpl; [done|]. by rewrite Hc, IH. Qed.

(** ** Lemmas: integers *)

Lemma ch_code_ascii_of n : 0 ≤ n < 256 → ch_code (ascii_of_nat (Z.to_nat n)) = n.
Proof. intros H. unfold ch_code. rewrite nat_ascii_embedding; lia. Qed.

Lemma digit_char_code d : 0 ≤ d < 10 → ch_code (digit_char d) = d + 48.
Proof. intros H. unfold digit_char. apply ch_code_ascii_of. lia. Qed.

Lemma digit_char_spec d :
  0 ≤ d < 10 → is_digit (digit_char d) = true ∧ digit_val (digit_char d) = d.
Proof.
  intros H. unfold is_digit, digit_val. rewrite digit_char_code by done.
  split; [apply andb_true_iff; split; apply Z.leb_le; lia|lia].
Qed.

Lemma digit_not_space c : is_digit c = true → is_space c = false.
Proof.
  unfold is_digit, is_space. intros H. bool_to_Z.
  apply orb_false_iff; split; apply andb_false_iff; rewrite !Z.leb_gt; lia.
Qed.

Abbreviation all_digits l := (Forall (λ c, is_digit c = true) l).

Lemma digits_of_spec fuel n acc :
  0 ≤ n < 2 ^ Z.of_nat fuel → fuel ≠ O →
  ∃ ds, digits_of fuel n acc = ds ++ acc ∧ ds ≠ [] ∧ all_digits ds ∧
        ∀ a k, digits_val a (ds ++ k) = digits_val (a * 10 ^ Z.of_nat (length ds) + n) k.
Proof.
  revert n acc. induction fuel as [|f IH]; intros n acc Hn Hf; [done|]. simpl.
  destruct (digit_char_spec (n mod 10)) as [Hd Hv]; [apply Z.mod_pos_bound; lia|].
  pose proof (Z.div_mod n 10 ltac:(lia)) as Hdm.
  destruct (Z.eqb_spec (n / 10) 0) as [H0|H0].
  - exists [digit_char (n mod 10)]. repeat split; [done|by constructor|].
    intros a k. simpl. rewrite Hv. f_equal. lia.
  - assert (0 ≤ n / 10 < 2 ^ Z.of_nat f) as Hn'.
    { split; [apply Z.div_pos; lia|]. apply Z.div_lt_upper_bound; [lia|].
      rewrite Nat2Z.inj_succ, Z.pow_succ_r in Hn by lia. lia. }
    assert (f ≠ O) as Hf'. { intros ->. simpl in Hn'. lia. }
    destruct (IH (n / 10) (digit_char (n mod 10) :: acc) Hn' Hf')
      as (ds & -> & Hne & Hall & Hval).
    exists (ds ++ [digit_char (n mod 10)]). repeat split.
    + by rewrite <- app_assoc.
    + by destruct ds.
    + apply Forall_app; split; [done|]. by constructor.
    + intros a k. rewrite <- app_assoc, Hval. simpl. rewrite Hv, length_app. simpl.
      f_equal. rewrite Nat2Z.inj_add, Z.pow_add_r by lia. simpl. lia.
Qed.

Lemma nat_chars_spec n :
  0 ≤ n →
  nat_chars n ≠ [] ∧ all_digits (nat_chars n) ∧ digits_val 0 (nat_chars n) = n.
Proof.
  intros Hn. unfold nat_chars.
  destruct (digits_of_spec (S (Z.to_nat (Z.log2 n))) n []) as (ds & -> & Hne & Hall & Hval).
  - split; [done|]. rewrite Nat2Z.inj_succ, Z2Nat.id by apply Z.log2_nonneg.
    destruct (Z.eq_dec n 0) as [->|]; [done|]. apply Z.log2_spec. lia.
  - done.
  - rewrite app_nil_r. split; [done|]. split; [done|].
    specialize (Hval 0 []). rewrite app_nil_r in Hval. rewrite Hval. done.
Qed.

Lemma all_digits_trimmed l : all_digits l → trimmed is_space l.
Proof.
  intros H. split.
  - destruct H as [|c l Hc _]; [done|]. by apply digit_not_space.
  - destruct (last_opt l) as [c|] eqn:E; [|done]. apply digit_not_space.
    destruct l as [|c' l' _] using rev_ind; [done|].
    rewrite last_opt_snoc in E. injection E as <-.
    apply Forall_app in H as [_ H]. by inversion H.
Qed.

Lemma int_digits_all b acc l :
  all_digits l → (l ≠ [] ∨ b = true) → int_digits b acc l = Some (digits_val acc l).
Proof.
  intros H. revert b acc. induction H as [|c l Hc _ IH]; intros b acc Hb; simpl.
  - destruct b; [done|]. by destruct Hb.
  - rewrite Hc. apply IH. by right.
Qed.

Lemma digit_not_sign c :
  is_digit c = true → Ascii.eqb c "-" = false ∧ Ascii.eqb c "+" = false.
Proof.
  intros H. split; destruct (Ascii.eqb_spec c "-"), (Ascii.eqb_spec c "+"); subst; done.
Qed.

Lemma int_digits_nat_chars n : 0 ≤ n → int_digits false 0 (nat_chars n) = Some n.
Proof.
  intros Hn. destruct (nat_chars_spec n Hn) as (Hne & Hall & Hval).
  rewrite int_digits_all by auto. by rewrite Hval.
Qed.

Lemma chars_of_str_Z z :
  chars_of (py_str_Z z) =
    if z <? 0 then "-"%char :: nat_chars (- z) else nat_chars z.
Proof. unfold py_str_Z. destruct (z <? 0); by autorewrite with pystr. Qed.

(** [str(z)] is never empty and has no white space at either end. *)
Lemma str_Z_trimmed z : trimmed is_space (chars_of (py_str_Z z)) ∧ chars_of (py_str_Z z) ≠ [].
Proof.
  rewrite chars_of_str_Z. destruct (Z.ltb_spec z 0) as [Hz|Hz].
  - destruct (nat_chars_spec (- z)) as (Hne & Hall & _); [lia|].
    split; [|done]. split; [done|]. apply all_digits_trimmed in Hall as [_ H].
    destruct (nat_chars (- z)); done.
  - destruct (nat_chars_spec z) as (Hne & Hall & _); [lia|].
    split; [by apply all_digits_trimmed|done].
Qed.

(** [int(str(z)) = z], white space around the text included. *)
Lemma int_of_padded ws1 ws2 z :
  Forall (λ c, is_space c = true) ws1 → Forall (λ c, is_space c = true) ws2 →
  int_of_chars (ws1 ++ chars_of (py_str_Z z) ++ ws2) = Some z.
Proof.
  intros H1 H2. unfold int_of_chars. destruct (str_Z_trimmed z) as [Ht Hne].
  rewrite strip_padded by done. clear Ht Hne.
  rewrite chars_of_str_Z. destruct (Z.ltb_spec z 0) as [Hz|Hz].
  - rewrite Ascii.eqb_refl, int_digits_nat_chars by lia. simpl. f_equal. lia.
  - destruct (nat_chars_spec z Hz) as (Hne & Hall & _).
    rewrite <- (int_digits_nat_chars z Hz).
    destruct (nat_chars z) as [|c l]; [done|].
    assert (is_digit c = true) as Hc by by inversion Hall.
    by destruct (digit_not_sign c Hc) as [-> ->].
Qed.

Lemma py_int_of_str_Z z : py_int_of_str (py_str_Z z) = Some z.
Proof.
  unfold py_int_of_str. rewrite <- (app_nil_r (chars_of (py_str_Z z))).
  exact (int_of_padded [] [] z (Forall_nil_2 _) (Forall_nil_2 _)).
Qed.

Lemma py_str_Z_inj z1 z2 : py_str_Z z1 = py_str_Z z2 → z1 = z2.
Proof.
  intros H. apply (f_equal py_int_of_str) in H. rewrite !py_int_of_str_Z in H.
  by injection H.
Qed.

(** Stripping [str(z)] with a line feed after it, as command output has it. *)
Lemma py_strip_str_Z_NL z : py_strip (py_str_Z z +:+ NL) = py_str_Z z.
Proof.
  unfold py_strip. rewrite chars_of_app. destruct (str_Z_trimmed z) as [Ht Hne].
  rewrite <- (app_nil_l (_ ++ _)), strip_padded; [|by constructor| |done|done].
  - apply str_of_chars_of.
  - by repeat constructor.
Qed.

#[export] Hint Rewrite py_int_of_str_Z py_strip_str_Z_NL : pystr.

(** ** Lemmas: words *)

Abbreviation spaces l := (Forall (λ c, is_space c = true) l).
Abbreviation no_spaces l := (Forall (λ c, is_space c = false) l).

Lemma pieces_split (p : ascii → bool) l1 c l2 :
  p c = true → pieces p (l1 ++ c :: l2) = pieces p l1 ++ pieces p l2.
Proof.
  intros Hc. induction l1 as [|d l1 IH]; simpl; [by rewrite Hc|].
  rewrite IH. destruct (p d); [done|].
  destruct (pieces p l1) as [|w ws] eqn:E; [|done].
  by destruct l1 as [|e l1]; simpl in E; [|destruct (p e); [|destruct (pieces p l1)]].
Qed.

(** The words of a text. *)
Definition words_of (l : chars) : list chars := List.filter nonempty_chars (pieces is_space l).

Lemma words_app l1 c l2 :
  is_space c = true → words_of (l1 ++ c :: l2) = words_of l1 ++ words_of l2.
Proof. intros Hc. unfold words_of. by rewrite pieces_split, filter_app by done. Qed.

Lemma words_space c l : is_space c = true → words_of (c :: l) = words_of l.
Proof. intros Hc. apply (words_app [] c l Hc). Qed.

Lemma words_spaces_l ws l : spaces ws → words_of (ws ++ l) = words_of l.
Proof. induction 1 as [|c ws Hc _ IH]; [done|]. simpl. by rewrite words_space. Qed.

Lemma words_spaces_r l ws : spaces ws → words_of (l ++ ws) = words_of l.
Proof.
  intros H. destruct H as [|c ws Hc H]; [by rewrite app_nil_r|].
  rewrite words_app by done. rewrite <- (app_nil_r ws), words_spaces_l by done. apply app_nil_r.
Qed.

Lemma words_word w : no_spaces w → w ≠ [] → words_of w = [w].
Proof. intros H Hne. unfold words_of. rewrite pieces_none by done. by destruct w. Qed.

Lemma drop_while_spaces l : ∃ ws, spaces ws ∧ l = ws ++ drop_while is_space l.
Proof.
  induction l as [|c l (ws & H & IH)]; [by exists []|]. simpl.
  destruct (is_space c) eqn:E; [|by exists []]. exists (c :: ws).
  split; [by constructor|]. simpl. by rewrite <- IH.
Qed.

Lemma strip_decompose l :
  ∃ ws1 ws2, spaces ws1 ∧ spaces ws2 ∧ l = ws1 ++ strip_chars is_space l ++ ws2.
Proof.
  destruct (drop_while_spaces l) as (ws1 & H1 & E1).
  destruct (drop_while_spaces (rev (drop_while is_space l))) as (ws2 & H2 & E2).
  exists ws1, (rev ws2). split; [done|]. split.
  - rewrite List.Forall_forall in *. intros c Hc. apply H2. by apply in_rev.
  - unfold strip_chars. rewrite <- rev_app_distr, <- E2, rev_involutive. done.
Qed.

Lemma words_strip l : words_of (strip_chars is_space l) = words_of l.
Proof.
  destruct (strip_decompose l) as (ws1 & ws2 & H1 & H2 & E). rewrite E at 2.
  by rewrite words_spaces_l, words_spaces_r.
Qed.

Lemma py_split_words s : py_split s = map str_of (words_of (chars_of s)).
Proof. done. Qed.

Lemma py_in_char c s : py_in (String c "") s = bool_decide (c ∈ chars_of s).
Proof.
  unfold py_in. change (chars_of (String c "")) with [c]. induction (chars_of s) as [|d l IH]; [done|].
  simpl. rewrite IH. destruct (Ascii.eqb_spec c d) as [->|Hne]; simpl.
  - symmetry. apply bool_decide_true. left.
  - apply bool_decide_ext. rewrite elem_of_cons. naive_solver.
Qed.

(** Blanks. *)
Definition blanks (n : nat) : chars := repeat " "%char n.

Lemma blanks_spaces n : spaces (blanks n).
Proof. unfold blanks. induction n; simpl; by constructor. Qed.

(** ** Lemmas: in *)

Lemma starts_with_app p s b : starts_with p s = true → starts_with p (s ++ b) = true.
Proof.
  revert s. induction p as [|c p IH]; intros [|d s]; simpl; try done.
  rewrite !andb_true_iff. naive_solver.
Qed.

Lemma starts_with_incl p l c : starts_with p l = true → c ∈ p → c ∈ l.
Proof.
  revert l. induction p as [|a p IH]; intros l H Hc; [by apply not_elem_of_nil in Hc|].
  destruct l as [|b l]; [done|]. simpl in H. apply andb_prop in H as [Hab H].
  apply Ascii.eqb_eq in Hab as <-. apply elem_of_cons in Hc as [->|Hc]; [left|right; by apply IH].
Qed.

(** A text with a character that another lacks is not in it. *)
Lemma py_in_missing c p s : c ∈ chars_of p → c ∉ chars_of s → py_in p s = false.
Proof.
  unfold py_in. intros Hp Hs. apply not_true_iff_false. intros H. apply Hs. clear Hs.
  induction (chars_of s) as [|d l IH]; simpl in H; apply orb_true_iff in H as [H|H].
  - by eapply starts_with_incl.
  - done.
  - by eapply starts_with_incl.
  - right. by apply IH.
Qed.

Lemma starts_with_refl p : starts_with p p = true.
Proof. induction p as [|c p IH]; simpl; [done|]. by rewrite (proj2 (Ascii.eqb_eq c c)). Qed.

Lemma py_in_prefix p s : py_in p (p +:+ s) = true.
Proof.
  unfold py_in. rewrite chars_of_app. generalize (chars_of p). intros l.
  assert (starts_with l (l ++ chars_of s) = true) as H by apply starts_with_app, starts_with_refl.
  destruct (l ++ chars_of s); simpl; by rewrite H.
Qed.

(** ** Lines *)

(** The characters of a line: none ends a line. *)
Definition inline (c : ascii) : bool := negb (is_linebreak c).

Lemma no_space_inline c : is_space c = false → inline c = true.
Proof.
  unfold inline, is_space, is_linebreak. intros H.
  apply negb_true_iff, orb_false_iff. apply orb_false_iff in H as [H1 H2].
  split; [|destruct (28 <=? ch_code c); simpl in *; [apply Z.leb_gt in H2; apply Z.leb_gt; lia|done]].
  destruct (Z.leb_spec 10 (ch_code c)), (Z.leb_spec (ch_code c) 13); try done.
  destruct (Z.leb_spec 9 (ch_code c)); [done|lia].
Qed.

Abbreviation one_line l := (Forall (λ c, inline c = true) l).

Lemma blanks_inline n : one_line (blanks n).
Proof. unfold blanks. induction n; simpl; by constructor. Qed.

Lemma word_inline w : no_spaces w → one_line w.
Proof. intros H. eapply List.Forall_impl; [apply no_space_inline|exact H]. Qed.

Lemma lines_of_line cur l rest :
  one_line l → lines_of cur (l ++ LF :: rest) = (rev cur ++ l) :: lines_of [] rest.
Proof.
  intros H. revert cur. induction H as [|c l Hc _ IH]; intros cur; cbn [app lines_of].
  - change (is_linebreak LF) with true. cbv iota. rewrite app_nil_r.
    destruct rest as [|c' rest]; [done|]. by change (Ascii.eqb LF CR) with false.
  - unfold inline in Hc. apply negb_true_iff in Hc. rewrite Hc, IH. simpl. by rewrite <- app_assoc.
Qed.

Lemma lines_of_last cur l : one_line l → l ≠ [] → lines_of cur l = [rev cur ++ l].
Proof.
  intros H. revert cur. induction H as [|c l Hc H IH]; intros cur Hne; [done|]. cbn [lines_of].
  unfold inline in Hc. apply negb_true_iff in Hc. rewrite Hc.
  destruct l as [|d l]; [done|]. rewrite IH by done. simpl. by rewrite <- app_assoc.
Qed.

(** Lines that are each ended. *)
Lemma splitlines_ended (ls : list chars) :
  Forall (λ l, one_line l) ls →
  py_splitlines (str_of (concat (map (λ l, l ++ [LF]) ls))) = map str_of ls.
Proof.
  intros H. unfold py_splitlines. rewrite chars_of_str_of. f_equal.
  induction H as [|l ls Hl H IH]; [done|]. cbn [map concat]. rewrite <- app_assoc. cbn [app].
  rewrite lines_of_line by done. by rewrite IH.
Qed.

(** ** Splitting what was joined *)

(** No character of the text is [c]. *)
Definition without (c : ascii) (s : string) : Prop := Forall (λ d, Ascii.eqb c d = false) (chars_of s).

Lemma split_join c l : Forall (without c) l → l ≠ [] → py_split_on c (py_join (String c "") l) = l.
Proof.
  unfold py_split_on. intros H Hne. induction H as [|s l Hs H IH]; [done|]. destruct l as [|t l].
  - cbn [py_join]. rewrite pieces_none by done. cbn [map]. by rewrite str_of_chars_of.
  - change (py_join (String c "") (s :: t :: l)) with (s +:+ String c "" +:+ py_join (String c "") (t :: l)).
    rewrite !chars_of_app. change (chars_of (String c "")) with [c]. cbn [app].
    rewrite pieces_app by (done || apply Ascii.eqb_refl). cbn [map]. rewrite str_of_chars_of. by rewrite IH.
Qed.

Lemma without_app c s t : without c (s +:+ t) ↔ without c s ∧ without c t.
Proof. unfold without. rewrite chars_of_app. apply Forall_app. Qed.

Lemma join_without c sep l : without c sep → Forall (without c) l → without c (py_join sep l).
Proof.
  intros Hs H. induction H as [|s l Hc H IH]; [by constructor|]. destruct l as [|t l]; [done|].
  change (without c (s +:+ sep +:+ py_join sep (t :: l))). by rewrite !without_app.
Qed.

Lemma join_first sep s l : ∃ r, py_join sep (s :: l) = s +:+ r.
Proof. destruct l as [|t l]; cbn [py_join]; [exists ""%string; by rewrite string_app_nil_r|by eexists]. Qed.

Lemma join_last sep l s : chars_of s ≠ [] → last_opt (chars_of (py_join sep (l ++ [s]))) = last_opt (chars_of s).
Proof.
  intros Hs. induction l as [|t l IH]; [done|]. cbn [app py_join]. destruct (l ++ [s]) as [|u k] eqn:E; [by destruct l|].
  rewrite !chars_of_app, !last_opt_app; [exact IH|..].
  - intros E2. rewrite E2 in IH. symmetry in IH. by apply last_opt_None in IH.
  - intros E2. apply app_eq_nil in E2 as [_ E2]. rewrite E2 in IH. symmetry in IH. by apply last_opt_None in IH.
Qed.

(** ** Lines of a file *)

Lemma readlines_line cur l rest :
  Forall (λ c, Ascii.eqb c LF = false) l →
  readlines_of cur (l ++ LF :: rest) = (rev cur ++ l ++ [LF]) :: readlines_of [] rest.
Proof.
  intros H. revert cur. induction H as [|c l Hc _ IH]; intros cur; simpl.
  - done.
  - rewrite Hc, IH. simpl. by rewrite <- app_assoc.
Qed.
