(* ===== verification/PyFloat.v ===== *)
(** * Python floats

    A Python [float] is an IEEE 754 double.  The operations are those of the
    Standard Library's [SpecFloat] at precision 53 and exponent bound 1024; this
    file adds the conversions Python defines on top of them ([float(str)],
    [repr(float)], [int(float)], [%]) and the comparison of an [int] with a
    [float], which Python makes on the exact values.

    The theorems say when the arithmetic is exact: sums, differences and
    comparisons of numbers on a common binary grid with mantissas below 2^53. *)

From S2P Require Import Prelude PyStr.
From Stdlib Require Export SpecFloat.
Open Scope Z_scope.

Abbreviation float := spec_float.
Abbreviation f_prec := 53.
Abbreviation f_emax := 1024.

(** The double nearest to [m * 2^e]. *)
Definition fl (m e : Z) : float := binary_normalize f_prec f_emax m e false.

Definition f_add : float → float → float := SFadd f_prec f_emax.
Definition f_sub : float → float → float := SFsub f_prec f_emax.
Definition f_mul : float → float → float := SFmul f_prec f_emax.
Definition f_div : float → float → float := SFdiv f_prec f_emax.

(** The double nearest to [n / d], [d > 0]. *)
Definition fl_ratio (n d : Z) : float :=
  if n =? 0 then S754_zero false
  else let '(mz, ez, lz) := SFdiv_core_binary f_prec f_emax (Z.abs n) 0 d 0 in
       binary_round_aux f_prec f_emax (n <? 0) mz ez lz.

(** The double nearest to [n * 10^k]: what a decimal literal denotes. *)
Definition fl_decimal (n k : Z) : float :=
  if 0 <=? k then fl (n * 10 ^ k) 0 else fl_ratio n (10 ^ (- k)).

(** ** Exact values *)

(** [Dy m e] is [m * 2^e]. *)
Inductive exact :=
| Dy (m e : Z)
| EInf (neg : bool)
| ENaN.

Definition exact_of_float (f : float) : exact :=
  match f with
  | S754_zero _ => Dy 0 0
  | S754_finite s m e => Dy (if s then Zneg m else Zpos m) e
  | S754_infinity s => EInf s
  | S754_nan => ENaN
  end.

Definition exact_compare (x y : exact) : option comparison :=
  match x, y with
  | ENaN, _ | _, ENaN => None
  | EInf s1, EInf s2 => Some (if s1 then (if s2 then Eq else Lt) else (if s2 then Gt else Eq))
  | EInf s, Dy _ _ => Some (if s then Lt else Gt)
  | Dy _ _, EInf s => Some (if s then Gt else Lt)
  | Dy m1 e1, Dy m2 e2 =>
      let e := Z.min e1 e2 in
      Some (Z.compare (m1 * 2 ^ (e1 - e)) (m2 * 2 ^ (e2 - e)))
  end.

(** [int(f)]: truncation towards zero; [None] on infinities and NaN. *)
Definition f_trunc (f : float) : option Z :=
  match exact_of_float f with
  | Dy m e => Some (if 0 <=? e then m * 2 ^ e else Z.quot m (2 ^ (- e)))
  | _ => None
  end.

(** [math.ceil] of a float. *)
Definition f_ceil (f : float) : option Z :=
  match exact_of_float f with
  | Dy m e => Some (if 0 <=? e then m * 2 ^ e else - ((- m) / 2 ^ (- e)))
  | _ => None
  end.

(** [x % y] for finite [x] and finite non-zero [y]: C's [fmod], moved to the sign
    of [y]. *)
Definition f_mod (x y : float) : float :=
  match exact_of_float x, exact_of_float y with
  | Dy m1 e1, Dy m2 e2 =>
      let e := Z.min e1 e2 in
      let r := Z.rem (m1 * 2 ^ (e1 - e)) (m2 * 2 ^ (e2 - e)) in
      if r =? 0 then S754_zero (m2 <? 0)
      else if Bool.eqb (r <? 0) (m2 <? 0) then fl r e else f_add (fl r e) y
  | _, EInf _ => x
  | _, _ => S754_nan
  end.

(** [math.floor] of a float, as a float. *)
Definition f_floor (f : float) : float :=
  match exact_of_float f with
  | Dy m e => if 0 <=? e then f else fl (m / 2 ^ (- e)) 0
  | _ => f
  end.

(** C's [fmod] of finite [x] and finite non-zero [y]. *)
Definition f_fmod (x y : float) : float :=
  match exact_of_float x, exact_of_float y with
  | Dy m1 e1, Dy m2 e2 =>
      let e := Z.min e1 e2 in fl (Z.rem (m1 * 2 ^ (e1 - e)) (m2 * 2 ^ (e2 - e))) e
  | _, EInf _ => x
  | _, _ => S754_nan
  end.

(** [x // y]: the division of what [fmod] leaves, less one when the signs differ, brought
    to an integer. *)
Definition f_floordiv (x y : float) : float :=
  let zero := S754_zero false in
  let m := f_fmod x y in
  let d := f_div (f_sub x m) y in
  let div := if negb (SFeqb m zero) && negb (Bool.eqb (SFltb y zero) (SFltb m zero))
             then f_sub d (fl 1 0) else d in
  let fd := f_floor div in
  if SFltb (fl 1 (-1)) (f_sub div fd) then f_add fd (fl 1 0) else fd.

(** ** [float(str)] *)

(** The digits of a decimal text: mantissa and number of digits after the point. *)
Fixpoint dec_digits (seen point : bool) (acc k : Z) (l : chars) : bool * Z * Z * chars :=
  match l with
  | [] => (seen, acc, k, [])
  | c :: l' =>
      if is_digit c then
        dec_digits true point (acc * 10 + digit_val c) (if point then k + 1 else k) l'
      else if Ascii.eqb c "." && negb point then dec_digits seen true acc k l'
      else (seen, acc, k, l)
  end.

Definition signed {A} (opp : A → A) (f : chars → option A) (l : chars) : option A :=
  match l with
  | [] => None
  | c :: l' => if Ascii.eqb c "-" then opp <$> f l' else if Ascii.eqb c "+" then f l' else f l
  end.

Definition dec_float (l : chars) : option float :=
  let '(seen, n, k, rest) := dec_digits false false 0 0 l in
  if seen then
    match rest with
    | [] => Some (fl_decimal n (- k))
    | c :: e =>
        if Ascii.eqb c "e" || Ascii.eqb c "E" then
          x ← signed Z.opp (int_digits false 0) e; Some (fl_decimal n (x - k))
        else None
    end
  else None.

(** [float(s)] of decimal text; [None] is [ValueError].  The spellings of
    infinity and NaN are not read. *)
Definition py_float_of_str (s : string) : option float :=
  signed SFopp dec_float (strip_chars is_space (chars_of s)).

(** ** [repr(float)] *)

(** A decimal approximation [d * 10^x] of [m * 2^e] with [n] digits, from below
    ([up = 0]) or above ([up = 1]); [x0] is the decimal exponent of the value. *)
Definition dec_scale (m e x : Z) : Z * Z :=
  let num := m * (if 0 <=? e then 2 ^ e else 1) * (if x <=? 0 then 10 ^ (- x) else 1) in
  let den := (if 0 <=? e then 1 else 2 ^ (- e)) * (if x <=? 0 then 1 else 10 ^ x) in
  (num, den).

(** The greatest [x] with [10^x <= m * 2^e]; the estimate is off by one at most. *)
Definition dec_exponent (m e : Z) : Z :=
  let est := (Z.log2 m + e) * 30103 / 100000 in
  let ge x := let '(n, d) := dec_scale m e x in d <=? n in
  if ge (est + 1) then est + 1 else if ge est then est else est - 1.

Definition float_eqb (f g : float) : bool := SFeqb f g.

(** The shortest digits that read back as [m * 2^e], at most 17 of them: the
    nearer of the two neighbours that do. *)
Fixpoint shortest (f : float) (m e x0 : Z) (todo : nat) (n : Z) : Z * Z :=
  let x := x0 - (n - 1) in
  let '(num, den) := dec_scale m e x in
  let lo := num / den in
  let ok d := float_eqb (fl_decimal d x) f in
  let lower_nearer := 2 * (num - lo * den) <=? den in
  if ok lo && (lower_nearer || negb (ok (lo + 1))) then (lo, x)
  else if ok (lo + 1) then (lo + 1, x)
  else match todo with
       | O => (lo, x)
       | S todo' => shortest f m e x0 todo' (n + 1)
       end.

Definition zeros (n : Z) : chars := repeat "0"%char (Z.to_nat n).

(** Trailing zeros of the digit string belong to the exponent. *)
Fixpoint drop_zeros (fuel : nat) (d x : Z) : Z * Z :=
  match fuel with
  | O => (d, x)
  | S f => if (d mod 10 =? 0) && negb (d =? 0) then drop_zeros f (d / 10) (x + 1) else (d, x)
  end.

Definition repr_digits (d x : Z) : chars :=
  let ds := nat_chars d in
  let nd := Z.of_nat (length ds) in
  let e10 := nd + x - 1 in
  if (-4 <=? e10) && (e10 <? 16) then
    if 0 <=? x then ds ++ zeros x ++ chars_of ".0"
    else if 0 <? nd + x then take (Z.to_nat (nd + x)) ds ++ ["."%char] ++ drop (Z.to_nat (nd + x)) ds
    else chars_of "0." ++ zeros (- (nd + x)) ++ ds
  else
    take 1 ds ++ (if 1 <? nd then "."%char :: drop 1 ds else []) ++
    chars_of (if e10 <? 0 then "e-" else "e+") ++
    (if Z.abs e10 <? 10 then ["0"%char] else []) ++ nat_chars (Z.abs e10).

(** [repr(f)], which is also [str(f)]. *)
Definition py_repr_float (f : float) : string :=
  match f with
  | S754_nan => "nan"
  | S754_infinity s => if s then "-inf" else "inf"
  | S754_zero s => if s then "-0.0" else "0.0"
  | S754_finite s m e =>
      let '(d, x) := shortest (S754_finite false m e) (Zpos m) e (dec_exponent (Zpos m) e) 16 1 in
      let '(d, x) := drop_zeros 400 d x in
      str_of ((if s then ["-"%char] else []) ++ repr_digits d x)
  end.

(** ** [%.nf] *)

(** [n / d] rounded to the nearest integer, ties to even; [n >= 0], [d > 0]. *)
Definition round_half_even (n d : Z) : Z :=
  let q := n / d in
  match 2 * (n mod d) ?= d with
  | Lt => q
  | Gt => q + 1
  | Eq => if Z.even q then q else q + 1
  end.

(** The decimal text of [n / 10^p]. *)
Definition fixed_digits (p : nat) (n : Z) : chars :=
  let d := 10 ^ Z.of_nat p in
  let fraction := nat_chars (n mod d) in
  nat_chars (n / d) ++
    match p with
    | O => []
    | _ => "."%char :: zeros (Z.of_nat p - Z.of_nat (length fraction)) ++ fraction
    end.

(** ['%.pf' % f], or ['%+.pf' % f]. *)
Definition fmt_fixed (p : nat) (plus : bool) (f : float) : string :=
  let sign (s : bool) (t : string) := if s then "-" +:+ t else if plus then "+" +:+ t else t in
  match f with
  | S754_nan => sign false "nan"
  | S754_infinity s => sign s "inf"
  | S754_zero s => sign s (str_of (fixed_digits p 0))
  | S754_finite s m e =>
      let n := Zpos m * 10 ^ Z.of_nat p * (if 0 <=? e then 2 ^ e else 1) in
      sign s (str_of (fixed_digits p (round_half_even n (if 0 <=? e then 1 else 2 ^ (- e)))))
  end.

(** ** Exactness *)

Abbreviation f_exp := (fexp f_prec f_emax).
Abbreviation digits p := (Zpos (digits2_pos p)).

Lemma digits_bounds p : 2 ^ (digits p - 1) ≤ Zpos p < 2 ^ digits p.
Proof.
  assert (digits p = Z.log2 (Zpos p) + 1) as ->.
  { induction p as [p IH|p IH|]; simpl digits2_pos; [| |done].
    - rewrite Pos2Z.inj_succ, IH. rewrite (Pos2Z.inj_xI p), Z.log2_succ_double by lia. lia.
    - rewrite Pos2Z.inj_succ, IH. rewrite (Pos2Z.inj_xO p), Z.log2_double by lia. lia. }
  pose proof (Z.log2_spec (Zpos p) ltac:(lia)) as H.
  replace (Z.log2 (Zpos p) + 1 - 1) with (Z.log2 (Zpos p)) by lia.
  by rewrite Z.add_1_r.
Qed.

Lemma digits_shift p q n :
  0 ≤ n → Zpos q = Zpos p * 2 ^ n → digits q = digits p + n.
Proof.
  intros Hn Hq. pose proof (digits_bounds p) as [Hp1 Hp2].
  pose proof (digits_bounds q) as [Hq1 Hq2].
  rewrite Hq in Hq1, Hq2.
  assert (2 ^ (digits p + n - 1) = 2 ^ (digits p - 1) * 2 ^ n) as E1.
  { rewrite <- Z.pow_add_r by lia. f_equal. lia. }
  assert (2 ^ (digits p + n) = 2 ^ digits p * 2 ^ n) as E2 by (apply Z.pow_add_r; lia).
  assert (0 < 2 ^ n) by (apply Z.pow_pos_nonneg; lia).
  assert (digits q - 1 < digits p + n).
  { apply (Z.pow_lt_mono_r_iff 2); [lia|lia|]. nia. }
  assert (digits p + n - 1 < digits q).
  { apply (Z.pow_lt_mono_r_iff 2); [lia|lia|]. nia. }
  lia.
Qed.

Lemma digits_le_prec p k : 0 ≤ k → Zpos p < 2 ^ k → digits p ≤ k.
Proof.
  intros Hk H. pose proof (digits_bounds p) as [H1 _].
  assert (digits p - 1 < k) by (apply (Z.pow_lt_mono_r_iff 2); lia). lia.
Qed.

Lemma iter_pos_nat {A} (f : A → A) n x : iter_pos f n x = Nat.iter (Pos.to_nat n) f x.
Proof.
  revert x. induction n as [n IH|n IH|]; intros x; cbn [iter_pos]; [| |done].
  - rewrite !IH, <- Nat.iter_add, <- Nat.iter_succ_r.
    enough (Pos.to_nat (xI n) = S (Pos.to_nat n + Pos.to_nat n)) as -> by done. lia.
  - rewrite !IH, <- Nat.iter_add.
    enough (Pos.to_nat (xO n) = Pos.to_nat n + Pos.to_nat n)%nat as -> by done. lia.
Qed.

(** Shifting out zeros loses nothing. *)
Lemma shr_exact p q n :
  Zpos q = Zpos p * 2 ^ Z.of_nat n →
  Nat.iter n shr_1 {| shr_m := Zpos q; shr_r := false; shr_s := false |} =
  {| shr_m := Zpos p; shr_r := false; shr_s := false |}.
Proof.
  revert q. induction n as [|n IH]; intros q Hq.
  - simpl in *. do 2 f_equal. lia.
  - rewrite Nat2Z.inj_succ, Z.pow_succ_r in Hq by lia.
    rewrite Nat.iter_succ_r.
    destruct q as [q|q|]; [lia| |lia]. simpl. apply IH.
    rewrite (Pos2Z.inj_xO q) in Hq. lia.
Qed.

Lemma shr_fexp_exact p q n e :
  0 ≤ n → Zpos q = Zpos p * 2 ^ n → f_exp (digits q + e) = e + n →
  shr_fexp f_prec f_emax (Zpos q) e loc_Exact =
  ({| shr_m := Zpos p; shr_r := false; shr_s := false |}, e + n).
Proof.
  intros Hn Hq He. unfold shr_fexp. simpl Zdigits2. rewrite He.
  replace (e + n - e) with n by lia. simpl shr_record_of_loc.
  destruct n as [|n|n]; [|simpl|lia].
  - assert (q = p) as -> by (simpl in Hq; lia). by rewrite Z.add_0_r.
  - f_equal. rewrite iter_pos_nat. apply shr_exact. by rewrite positive_nat_Z.
Qed.

Lemma f_exp_eq x : f_exp x = Z.max (x - 53) (-1074).
Proof. done. Qed.

(** Rounding a mantissa whose low [n] bits are zero and whose other bits fit. *)
Lemma round_aux_exact s p q n e :
  0 ≤ n → Zpos q = Zpos p * 2 ^ n → f_exp (digits q + e) = e + n → e + n ≤ 971 →
  binary_round_aux f_prec f_emax s (Zpos q) e loc_Exact = S754_finite s p (e + n).
Proof.
  intros Hn Hq He Hmax. unfold binary_round_aux.
  rewrite (shr_fexp_exact p q n e) by done. simpl shr_m. simpl loc_of_shr_record.
  simpl round_nearest_even.
  assert (f_exp (digits p + (e + n)) = e + n + 0) as He'.
  { rewrite Z.add_0_r. etransitivity; [|exact He]. f_equal.
    rewrite (digits_shift p q n) by done. lia. }
  rewrite (shr_fexp_exact p p 0 (e + n)) by (done || lia).
  simpl shr_m. cbv iota beta. rewrite Z.add_0_r.
  destruct (Z.leb_spec (e + n) (f_emax - f_prec)) as [|H]; [done|lia].
Qed.

Lemma iter_xO_spec m d : Zpos (Pos.iter xO m d) = Zpos m * 2 ^ Zpos d.
Proof.
  revert m. induction d as [|d IH] using Pos.peano_ind; intros m.
  - simpl. lia.
  - rewrite Pos.iter_succ, Pos2Z.inj_succ, Z.pow_succ_r by lia.
    rewrite Pos2Z.inj_xO, IH. lia.
Qed.

(** The exponent of the double [m * 2^e]. *)
Definition canon_e (m : positive) (e : Z) : Z := f_exp (digits m + e).

Lemma canon_e_le m e : Zpos m < 2 ^ 53 → -1074 ≤ e → canon_e m e ≤ e.
Proof.
  intros Hm He. unfold canon_e. rewrite f_exp_eq.
  pose proof (digits_le_prec m 53 ltac:(lia) Hm). lia.
Qed.

Lemma Zpos_mul_pow2 m n : 0 ≤ n → ∃ p, Zpos p = Zpos m * 2 ^ n.
Proof.
  intros Hn. assert (0 < 2 ^ n) by (apply Z.pow_pos_nonneg; lia).
  exists (Z.to_pos (Zpos m * 2 ^ n)). rewrite Z2Pos.id; lia.
Qed.

(** A value [m * 2^e] with a mantissa that fits is not rounded, however it is
    scaled. *)
Lemma round_exact s m p k q e :
  Zpos m < 2 ^ 53 → 0 ≤ k → -1074 ≤ e ≤ 971 →
  Zpos p = Zpos m * 2 ^ (e - canon_e m e) → Zpos q = Zpos m * 2 ^ k →
  binary_round f_prec f_emax s q (e - k) = S754_finite s p (canon_e m e).
Proof.
  intros Hm Hk He Hp Hq. pose proof (canon_e_le m e Hm ltac:(lia)) as Hc.
  assert (f_exp (digits q + (e - k)) = canon_e m e) as Hcq.
  { unfold canon_e. rewrite (digits_shift m q k) by done. f_equal. lia. }
  unfold binary_round, shl_align. rewrite Hcq.
  destruct (canon_e m e - (e - k)) as [|d|d] eqn:Hd.
  - rewrite (round_aux_exact s q q 0 (e - k)); [..|lia];
      [|lia|lia|rewrite Hcq; lia].
    f_equal; [|lia]. apply Pos2Z.inj. rewrite Hp, Hq. do 2 f_equal. lia.
  - rewrite (round_aux_exact s p q (Zpos d) (e - k)); [..|lia];
      [|lia| |rewrite Hcq; lia].
    + f_equal. lia.
    + rewrite Hq, Hp, <- Z.mul_assoc, <- Z.pow_add_r by lia. do 2 f_equal. lia.
  - assert (Pos.iter xO q d = p) as ->.
    { apply Pos2Z.inj. rewrite iter_xO_spec, Hq, Hp, <- Z.mul_assoc, <- Z.pow_add_r by lia.
      do 2 f_equal. lia. }
    rewrite (round_aux_exact s p p 0 (canon_e m e)); [..|lia]; [f_equal; lia|lia|lia|].
    rewrite (digits_shift m p (e - canon_e m e)) by (done || lia).
    rewrite Z.add_0_r. unfold canon_e at 3. f_equal. lia.
Qed.

(** The double [m * 2^e] in canonical form, for a signed mantissa that fits. *)
Lemma fl_canon m e :
  0 < m < 2 ^ 53 → -1074 ≤ e ≤ 971 →
  ∃ p c, c ≤ e ∧ Zpos p = m * 2 ^ (e - c) ∧
    (∀ k, 0 ≤ k → fl (m * 2 ^ k) (e - k) = S754_finite false p c) ∧
    (∀ k, 0 ≤ k → fl (- m * 2 ^ k) (e - k) = S754_finite true p c).
Proof.
  intros Hm He. destruct m as [|m|m]; [lia| |lia].
  pose proof (canon_e_le m e ltac:(lia) ltac:(lia)) as Hc.
  destruct (Zpos_mul_pow2 m (e - canon_e m e) ltac:(lia)) as [p Hp].
  exists p, (canon_e m e). split; [done|]. split; [done|].
  split; intros k Hk; destruct (Zpos_mul_pow2 m k Hk) as [q Hq].
  - rewrite <- Hq. unfold fl. simpl. apply (round_exact false m p k q e); done || lia.
  - rewrite Z.mul_opp_l, <- Hq. unfold fl. simpl. apply (round_exact true m p k q e); done || lia.
Qed.

(** A mantissa that fits, of either sign, and an exponent in the range of doubles. *)
Definition fits (m e : Z) : Prop := Z.abs m < 2 ^ 53 ∧ -1074 ≤ e ≤ 971.

(** Scaling the mantissa does not change the double. *)
Lemma fl_scale m e k : fits m e → 0 ≤ k → fl (m * 2 ^ k) (e - k) = fl m e.
Proof.
  intros [Hm He] Hk. destruct (Z.eq_dec m 0) as [->|Hne]; [done|].
  destruct (fl_canon (Z.abs m) e) as (p & c & _ & _ & Hpos & Hneg); [lia|lia|].
  pose proof (Hpos 0 ltac:(lia)) as Hpos0. pose proof (Hneg 0 ltac:(lia)) as Hneg0.
  specialize (Hpos k Hk). specialize (Hneg k Hk).
  rewrite Z.pow_0_r, Z.sub_0_r, Z.mul_1_r in Hpos0, Hneg0.
  destruct (Z.abs_spec m) as [[Hs Ha]|[Hs Ha]]; rewrite Ha in *.
  - congruence.
  - rewrite Z.opp_involutive in *. congruence.
Qed.

(** The shape of [fl m e] for any fitting mantissa. *)
Lemma fl_shape m e :
  fits m e →
  (m = 0 ∧ fl m e = S754_zero false) ∨
  (∃ s p c, fl m e = S754_finite s p c ∧ c ≤ e ∧
            cond_Zopp s (Zpos p) = m * 2 ^ (e - c)).
Proof.
  intros [Hm He]. destruct (Z.eq_dec m 0) as [->|Hne]; [by left|right].
  destruct (fl_canon (Z.abs m) e) as (p & c & Hc & Hp & Hpos & Hneg); [lia|lia|].
  specialize (Hpos 0 ltac:(lia)). specialize (Hneg 0 ltac:(lia)).
  rewrite Z.pow_0_r, Z.sub_0_r, Z.mul_1_r in Hpos, Hneg.
  destruct (Z.abs_spec m) as [[Hs Ha]|[Hs Ha]]; rewrite Ha in *.
  - exists false, p, c. done.
  - exists true, p, c. rewrite Z.opp_involutive in Hneg. split; [done|]. split; [done|].
    simpl cond_Zopp. lia.
Qed.

Lemma shl_align_spec p c z :
  z ≤ c → Zpos (fst (shl_align p c z)) = Zpos p * 2 ^ (c - z).
Proof.
  intros Hz. unfold shl_align. destruct (z - c) as [|d|d] eqn:Hd; [| |].
  - replace (c - z) with 0 by lia. simpl. lia.
  - lia.
  - simpl. rewrite iter_xO_spec. do 2 f_equal. lia.
Qed.

Lemma cond_Zopp_mul s a b : cond_Zopp s (a * b) = cond_Zopp s a * b.
Proof. destruct s; simpl; lia. Qed.

(** Aligning both operands of a sum to the smaller exponent. *)
Lemma align_eq s p c m e z :
  c ≤ e → z ≤ c → cond_Zopp s (Zpos p) = m * 2 ^ (e - c) →
  cond_Zopp s (Zpos (fst (shl_align p c z))) = m * 2 ^ (e - z).
Proof.
  intros Hc Hz Hp. rewrite shl_align_spec, cond_Zopp_mul, Hp by done.
  rewrite <- Z.mul_assoc, <- Z.pow_add_r by lia. do 2 f_equal. lia.
Qed.

(** Sums on a common grid are exact. *)
Lemma f_add_exact m1 m2 e :
  fits m1 e → fits m2 e → fits (m1 + m2) e → f_add (fl m1 e) (fl m2 e) = fl (m1 + m2) e.
Proof.
  intros H1 H2 H12.
  destruct (fl_shape m1 e H1) as [[-> E1]|(s1 & p1 & c1 & E1 & Hc1 & Hp1)].
  { rewrite E1. destruct (fl_shape m2 e H2) as [[-> E2]|(s2 & p2 & c2 & E2 & _ & _)];
      rewrite E2; simpl; by rewrite <- E2. }
  destruct (fl_shape m2 e H2) as [[-> E2]|(s2 & p2 & c2 & E2 & Hc2 & Hp2)].
  { rewrite E1, E2. simpl. by rewrite <- E1, Z.add_0_r. }
  rewrite E1, E2. unfold f_add, SFadd.
  set (z := Z.min c1 c2). cbv zeta.
  rewrite (align_eq s1 p1 c1 m1 e z), (align_eq s2 p2 c2 m2 e z) by (done || lia).
  rewrite <- Z.mul_add_distr_r.
  change (fl ((m1 + m2) * 2 ^ (e - z)) z = fl (m1 + m2) e).
  replace z with (e - (e - z)) at 2 by lia. apply fl_scale; [done|lia].
Qed.

(** Differences on a common grid are exact. *)
Lemma f_sub_exact m1 m2 e :
  fits m1 e → fits m2 e → fits (m1 - m2) e → m2 ≠ 0 →
  f_sub (fl m1 e) (fl m2 e) = fl (m1 - m2) e.
Proof.
  intros H1 H2 H12 Hne.
  destruct (fl_shape m2 e H2) as [[-> _]|(s2 & p2 & c2 & E2 & Hc2 & Hp2)]; [done|].
  destruct (fl_shape m1 e H1) as [[-> E1]|(s1 & p1 & c1 & E1 & Hc1 & Hp1)].
  { rewrite E1, E2.
    assert (fits (- m2) e) as H2' by (destruct H2; split; lia).
    destruct (fl_canon (Z.abs m2) e) as (p & c & _ & _ & Hpos & Hneg);
      [destruct H2; lia|destruct H2; lia|].
    specialize (Hpos 0 ltac:(lia)). specialize (Hneg 0 ltac:(lia)).
    rewrite Z.pow_0_r, Z.sub_0_r, Z.mul_1_r in Hpos, Hneg.
    destruct (Z.abs_spec m2) as [[Hs Ha]|[Hs Ha]]; rewrite Ha in *.
    - assert (S754_finite s2 p2 c2 = S754_finite false p c) as [= -> -> ->] by congruence.
      transitivity (S754_finite true p c); [done|]. by rewrite <- Hneg.
    - rewrite Z.opp_involutive in Hneg.
      assert (S754_finite s2 p2 c2 = S754_finite true p c) as [= -> -> ->] by congruence.
      transitivity (S754_finite false p c); [done|]. by rewrite <- Hpos. }
  rewrite E1, E2. unfold f_sub, SFsub.
  set (z := Z.min c1 c2). cbv zeta.
  rewrite (align_eq s1 p1 c1 m1 e z), (align_eq s2 p2 c2 m2 e z) by (done || lia).
  rewrite <- Z.mul_sub_distr_r.
  change (fl ((m1 - m2) * 2 ^ (e - z)) z = fl (m1 - m2) e).
  replace z with (e - (e - z)) at 2 by lia. apply fl_scale; [done|lia].
Qed.

(** A double whose mantissa fits, in canonical form. *)
Lemma fl_canonical m e :
  Zpos m < 2 ^ 53 → -1074 ≤ e ≤ 971 →
  ∃ p, fl (Zpos m) e = S754_finite false p (canon_e m e) ∧ Zpos p = Zpos m * 2 ^ (e - canon_e m e).
Proof.
  intros Hm He. pose proof (canon_e_le m e Hm ltac:(lia)) as Hc.
  destruct (Zpos_mul_pow2 m (e - canon_e m e) ltac:(lia)) as [p Hp]. exists p. split; [|done].
  pose proof (round_exact false m p 0 m e Hm ltac:(lia) He Hp ltac:(lia)) as H.
  by rewrite Z.sub_0_r in H.
Qed.

Lemma digits_mul a b : digits a + digits b - 1 ≤ digits (a * b).
Proof.
  pose proof (digits_bounds a) as [Ha _]. pose proof (digits_bounds b) as [Hb _].
  pose proof (digits_bounds (a * b)) as [_ Hab]. rewrite Pos2Z.inj_mul in Hab.
  assert (0 < digits a ∧ 0 < digits b) as [Ha0 Hb0] by (split; lia).
  assert (2 ^ (digits a - 1 + (digits b - 1)) < 2 ^ digits (a * b)) as H.
  { rewrite Z.pow_add_r by lia. eapply Z.le_lt_trans; [|exact Hab]. apply Z.mul_le_mono_nonneg; try lia;
      apply Z.pow_nonneg; lia. }
  apply Z.pow_lt_mono_r_iff in H; lia.
Qed.

(** Products are exact when the product of the mantissas fits, away from the ends of the
    range of exponents. *)
Lemma f_mul_exact m1 e1 m2 e2 :
  0 < m1 < 2 ^ 53 → 0 < m2 < 2 ^ 53 → m1 * m2 < 2 ^ 53 → -400 ≤ e1 ≤ 400 → -400 ≤ e2 ≤ 400 →
  f_mul (fl m1 e1) (fl m2 e2) = fl (m1 * m2) (e1 + e2).
Proof.
  intros H1 H2 H12 He1 He2. destruct m1 as [|a|a], m2 as [|b|b]; try lia.
  destruct (fl_canonical a e1) as (p & E1 & Hp); [lia|lia|].
  destruct (fl_canonical b e2) as (q & E2 & Hq); [lia|lia|].
  change (Zpos a * Zpos b) with (Zpos (a * b)) in *.
  destruct (fl_canonical (a * b) (e1 + e2)) as (r & E & Hr); [lia|lia|].
  rewrite E1, E2, E. unfold f_mul, SFmul. simpl xorb.
  pose proof (digits_mul a b) as Hd. pose proof (canon_e_le a e1 ltac:(lia) ltac:(lia)) as Hc1.
  pose proof (canon_e_le b e2 ltac:(lia) ltac:(lia)) as Hc2.
  pose proof (canon_e_le (a * b) (e1 + e2) H12 ltac:(lia)) as Hc.
  assert (canon_e a e1 = digits a + e1 - 53) as Ha by (unfold canon_e; rewrite f_exp_eq; lia).
  assert (canon_e b e2 = digits b + e2 - 53) as Hb by (unfold canon_e; rewrite f_exp_eq; lia).
  assert (canon_e (a * b) (e1 + e2) = digits (a * b) + (e1 + e2) - 53) as Hab
    by (unfold canon_e; rewrite f_exp_eq; lia).
  pose proof (digits_le_prec a 53 ltac:(lia) ltac:(lia)). pose proof (digits_le_prec b 53 ltac:(lia) ltac:(lia)).
  set (E0 := canon_e a e1 + canon_e b e2) in *.
  assert (Zpos (p * q) = Zpos (a * b) * 2 ^ (e1 + e2 - E0)) as Hpq.
  { rewrite !Pos2Z.inj_mul, Hp, Hq. unfold E0.
    replace (e1 + e2 - (canon_e a e1 + canon_e b e2)) with ((e1 - canon_e a e1) + (e2 - canon_e b e2)) by lia.
    rewrite Z.pow_add_r by lia. ring. }
  rewrite (round_aux_exact false r (p * q) (canon_e (a * b) (e1 + e2) - E0) E0); [f_equal; lia|unfold E0; lia| | |].
  - rewrite Hpq, Hr, <- Z.mul_assoc, <- Z.pow_add_r by (unfold E0 in *; lia). do 2 f_equal. lia.
  - rewrite (digits_shift (a * b) (p * q) (e1 + e2 - E0)) by (done || unfold E0; lia).
    replace (digits (a * b) + (e1 + e2 - E0) + E0) with (digits (a * b) + (e1 + e2)) by lia.
    unfold canon_e at 1. lia.
  - replace (E0 + (canon_e (a * b) (e1 + e2) - E0)) with (canon_e (a * b) (e1 + e2)) by lia. lia.
Qed.

(** [float(str(z))] *)
Lemma dec_digits_all seen point acc k l :
  all_digits l → l ≠ [] ∨ seen = true →
  dec_digits seen point acc k l = (true, digits_val acc l, if point then k + Z.of_nat (length l) else k, []).
Proof.
  intros H. revert seen acc k. induction H as [|c l Hc _ IH]; intros seen acc k Hs; simpl.
  - destruct Hs as [Hs|Hs]; [done|]. rewrite Hs. destruct point; [|done]. by rewrite Z.add_0_r.
  - rewrite Hc, IH by (by right). destruct point; [|done].
    replace (k + Z.of_nat (S (length l))) with (k + 1 + Z.of_nat (length l)) by lia. done.
Qed.

Lemma float_of_str_Z z : 0 ≤ z → py_float_of_str (py_str_Z z) = Some (fl z 0).
Proof.
  intros Hz. unfold py_float_of_str. destruct (str_Z_trimmed z) as [Ht _]. rewrite strip_trimmed by done.
  rewrite chars_of_str_Z. destruct (Z.ltb_spec z 0); [lia|].
  destruct (nat_chars_spec z Hz) as (Hne & Hd & Hv). destruct (nat_chars z) as [|c l] eqn:E; [done|].
  unfold signed. assert (is_digit c = true) as Hc by (by inversion Hd).
  destruct (digit_not_sign c Hc) as [Hm Hp]. rewrite Hm, Hp.
  unfold dec_float. rewrite dec_digits_all by (done || by left). rewrite Hv. cbv iota. unfold fl_decimal.
  simpl. by rewrite Z.mul_1_r.
Qed.

(** ** Exact comparison *)

Lemma mul_pow2_compare a b k : 0 ≤ k → (a * 2 ^ k ?= b * 2 ^ k) = (a ?= b).
Proof. intros Hk. symmetry. apply Zmult_compare_compat_r, Z.lt_gt, Z.pow_pos_nonneg; lia. Qed.

(** Two exact numbers compare as their mantissas at any common exponent below both. *)
Lemma exact_compare_at z m1 e1 m2 e2 :
  z ≤ e1 → z ≤ e2 →
  exact_compare (Dy m1 e1) (Dy m2 e2) = Some (m1 * 2 ^ (e1 - z) ?= m2 * 2 ^ (e2 - z)).
Proof.
  intros H1 H2. simpl. f_equal. set (e := Z.min e1 e2).
  rewrite <- (mul_pow2_compare _ _ (e - z)) by lia.
  rewrite <- !Z.mul_assoc, <- !Z.pow_add_r by lia.
  f_equal; do 2 f_equal; lia.
Qed.

(** The double [fl m e] has the value [m * 2^e] in every comparison. *)
Lemma exact_compare_fl m e x :
  fits m e →
  exact_compare (exact_of_float (fl m e)) x = exact_compare (Dy m e) x ∧
  exact_compare x (exact_of_float (fl m e)) = exact_compare x (Dy m e).
Proof.
  intros Hm.
  assert (∃ a c, exact_of_float (fl m e) = Dy a c ∧
            ((m = 0 ∧ a = 0) ∨ (c ≤ e ∧ a = m * 2 ^ (e - c)))) as (a & c & -> & D).
  { destruct (fl_shape m e Hm) as [[-> E]|(s & p & c & E & Hc & Hp)]; rewrite E.
    - exists 0, 0. auto.
    - eexists _, c. split; [done|]. right. split; [done|]. rewrite <- Hp. by destruct s. }
  assert (∀ z, z ≤ c → z ≤ e → a * 2 ^ (c - z) = m * 2 ^ (e - z)) as Hz.
  { intros z Hzc Hze. destruct D as [[-> ->]|[Hc ->]]; [done|].
    rewrite <- Z.mul_assoc, <- Z.pow_add_r by lia. do 2 f_equal. lia. }
  destruct x as [m' e'|s|]; [|done|done].
  set (z := Z.min (Z.min c e) e').
  split.
  - by rewrite !(exact_compare_at z), Hz by lia.
  - by rewrite !(exact_compare_at z), Hz by lia.
Qed.
