(* ===== verification/PyVal.v ===== *)
(** * Python values

    The values that reach the tests from outside with no fixed type (entries of the
    YAML parameter file, elements of the payload lists) and the Python operators on
    them: each operator returns a value or raises, as Python's dynamic typing does.
    The exceptions of the whole development are declared here. *)

From S2P Require Import Prelude PyStr PyFloat.
Open Scope Z_scope.

(** ** Exceptions *)

(** The exception classes the tests raise or catch.  [TestFail] and [TestCancel]
    are what [self.fail] and [self.cancel] raise; [TestException] is the class of
    the DLPAR API; [CmdError] and [PMemException] are avocado's, the rest Python's own. *)
Inductive exn_class :=
| TestFail | TestCancel | TestException | CmdError | PMemException
| ValueError | TypeError | IndexError | KeyError | AttributeError
| ZeroDivisionError | OverflowError | OSError | OtherError.

#[export] Instance exn_class_eq_dec : EqDecision exn_class.
Proof. solve_decision. Defined.

Record exn := Exn { ex_class : exn_class; ex_msg : string }.

(** A computation that returned or raised. *)
Inductive result (A : Type) :=
| Ret (a : A)
| Raise (e : exn).
Arguments Ret {A} a.
Arguments Raise {A} e.

#[export] Instance result_ret : MRet result := λ A a, Ret a.
#[export] Instance result_bind : MBind result := λ A B f m,
  match m with Ret a => f a | Raise e => Raise e end.

Definition raise_ {A} (c : exn_class) (msg : string) : result A := Raise (Exn c msg).

(** ** Dictionaries *)

(** A dictionary with text keys, in the order of insertion. *)
Abbreviation dict V := (list (string * V)).

Fixpoint dict_put {V} (k : string) (v : V) (d : dict V) : dict V :=
  match d with
  | [] => [(k, v)]
  | (k', v') :: d' => if String.eqb k' k then (k', v) :: d' else (k', v') :: dict_put k v d'
  end.

(** [d.get(k)] *)
Fixpoint dict_find {V} (k : string) (d : dict V) : option V :=
  match d with
  | [] => None
  | (k', v) :: d' => if String.eqb k' k then Some v else dict_find k d'
  end.

(** The same with integers for keys: [d[k] = v] and [d.get(k)]. *)
Fixpoint dict_set {V} (k : Z) (v : V) (d : list (Z * V)) : list (Z * V) :=
  match d with
  | [] => [(k, v)]
  | (k', v') :: d' => if k' =? k then (k', v) :: d' else (k', v') :: dict_set k v d'
  end.
Fixpoint dict_get {V} (k : Z) (d : list (Z * V)) : option V :=
  match d with
  | [] => None
  | (k', v) :: d' => if k' =? k then Some v else dict_get k d'
  end.

(** ** Values *)

Inductive pyval :=
| VNone
| VBool (b : bool)
| VInt (z : Z)
| VFloat (f : float)
| VStr (s : string)
| VList (l : list pyval)
| VDict (d : dict pyval).

(** The numeric view of a value: [bool] counts as [int]. *)
Inductive num := NInt (z : Z) | NFloat (f : float).

Definition as_num (v : pyval) : option num :=
  match v with
  | VBool b => Some (NInt (if b then 1 else 0))
  | VInt z => Some (NInt z)
  | VFloat f => Some (NFloat f)
  | _ => None
  end.

Definition of_num (n : num) : pyval :=
  match n with NInt z => VInt z | NFloat f => VFloat f end.

Definition is_inf (f : float) : bool := match f with S754_infinity _ => true | _ => false end.
Definition is_zero (f : float) : bool := match f with S754_zero _ => true | _ => false end.

(** [float(z)] *)
Definition float_of_int (z : Z) : result float :=
  let f := fl z 0 in
  if is_inf f then raise_ OverflowError "int too large to convert to float" else Ret f.

Definition num_float (n : num) : result float :=
  match n with NInt z => float_of_int z | NFloat f => Ret f end.

Definition num_exact (n : num) : exact :=
  match n with NInt z => Dy z 0 | NFloat f => exact_of_float f end.

Definition num_arith (fz : Z → Z → Z) (ff : float → float → float) (a b : num) : result num :=
  match a, b with
  | NInt x, NInt y => Ret (NInt (fz x y))
  | _, _ => x ← num_float a; y ← num_float b; Ret (NFloat (ff x y))
  end.

Definition num_add := num_arith Z.add f_add.
Definition num_sub := num_arith Z.sub f_sub.
Definition num_mul := num_arith Z.mul f_mul.

Definition num_is_zero (n : num) : bool :=
  match n with NInt z => z =? 0 | NFloat f => is_zero f end.

(** [a / b]: true division; of two integers it is correctly rounded. *)
Definition num_div (a b : num) : result num :=
  if num_is_zero b then raise_ ZeroDivisionError "division by zero"
  else match a, b with
       | NInt x, NInt y =>
           let f := fl_ratio (if y <? 0 then - x else x) (Z.abs y) in
           if is_inf f then raise_ OverflowError "integer division result too large for a float"
           else Ret (NFloat f)
       | _, _ => x ← num_float a; y ← num_float b; Ret (NFloat (f_div x y))
       end.

(** [a % b] *)
Definition num_mod (a b : num) : result num :=
  if num_is_zero b then raise_ ZeroDivisionError "modulo by zero"
  else num_arith Z.modulo f_mod a b.

(** Comparisons are made on the exact values, NaN excepted. *)
Definition num_compare (a b : num) : option comparison := exact_compare (num_exact a) (num_exact b).
Definition num_le (a b : num) : bool :=
  match num_compare a b with Some Lt | Some Eq => true | _ => false end.
Definition num_lt (a b : num) : bool :=
  match num_compare a b with Some Lt => true | _ => false end.
Definition num_eq (a b : num) : bool :=
  match num_compare a b with Some Eq => true | _ => false end.

(** [int(n)] of a number. *)
Definition num_int (n : num) : result Z :=
  match n with
  | NInt z => Ret z
  | NFloat f =>
      match f_trunc f with
      | Some z => Ret z
      | None => if is_inf f then raise_ OverflowError "cannot convert float infinity to integer"
                else raise_ ValueError "cannot convert float NaN to integer"
      end
  end.

Definition num_str (n : num) : string :=
  match n with NInt z => py_str_Z z | NFloat f => py_repr_float f end.

(** ** Operators on values *)

Definition quote (s : string) : string := "'" +:+ s +:+ "'".

Definition type_error {A} : result A := raise_ TypeError "unsupported operand type(s)".

Definition lift_num (f : num → num → result num) (a b : pyval) : result pyval :=
  match as_num a, as_num b with
  | Some x, Some y => r ← f x y; Ret (of_num r)
  | _, _ => type_error
  end.

(** [a + b] *)
Definition py_add (a b : pyval) : result pyval :=
  match a, b with
  | VStr s, VStr t => Ret (VStr (s +:+ t))
  | VList l, VList k => Ret (VList (l ++ k))
  | _, _ => lift_num num_add a b
  end.

(** [a // b] of two numbers. *)
Definition num_floordiv (a b : num) : result num :=
  if num_is_zero b then raise_ ZeroDivisionError "integer division or modulo by zero"
  else num_arith Z.div f_floordiv a b.

Definition py_floordiv : pyval → pyval → result pyval := lift_num num_floordiv.

(** [a % b] of two numbers; of text it is formatting, here of text that has no place for the
    argument. *)
Definition py_mod : pyval → pyval → result pyval := lift_num num_mod.

(** [a - b] *)
Definition py_sub : pyval → pyval → result pyval := lift_num num_sub.

(** [a * b] of two numbers; repetition of sequences is not used. *)
Definition py_mul : pyval → pyval → result pyval := lift_num num_mul.

(** [v[i]] of a list, [i] not negative. *)
Definition py_getitem (v : pyval) (i : nat) : result pyval :=
  match v with
  | VList l => match l !! i with
               | Some x => Ret x
               | None => raise_ IndexError "list index out of range"
               end
  | _ => raise_ TypeError "object is not subscriptable"
  end.

(** [v[k]] with a text key *)
Definition py_getkey (v : pyval) (k : string) : result pyval :=
  match v with
  | VDict d => match dict_find k d with Some x => Ret x | None => raise_ KeyError (quote k) end
  | _ => raise_ TypeError "indices must be integers"
  end.

(** [d.get(k, default)] *)
Definition py_get (v : pyval) (k : string) (default : pyval) : result pyval :=
  match v with
  | VDict d => Ret (match dict_find k d with Some x => x | None => default end)
  | _ => raise_ AttributeError "object has no attribute 'get'"
  end.

(** [len(v)] *)
Definition py_len (v : pyval) : result Z :=
  match v with
  | VStr s => Ret (Z.of_nat (String.length s))
  | VList l => Ret (Z.of_nat (length l))
  | VDict d => Ret (Z.of_nat (length d))
  | _ => raise_ TypeError "object has no len()"
  end.

(** The elements of an iterable: characters, elements, keys. *)
Definition py_iter (v : pyval) : result (list pyval) :=
  match v with
  | VStr s => Ret (map (λ c, VStr (str_of [c])) (chars_of s))
  | VList l => Ret l
  | VDict d => Ret (map (λ kv, VStr kv.1) d)
  | _ => raise_ TypeError "object is not iterable"
  end.

(** A value whose [split] method is called: only text has one. *)
Definition as_text (v : pyval) : result string :=
  match v with VStr s => Ret s | _ => raise_ AttributeError "object has no attribute 'split'" end.

(** [range(a, v)]: the bounds are integers. *)
Definition py_range (a : Z) (v : pyval) : result (list Z) :=
  match as_num v with
  | Some (NInt z) => Ret (Zrange a z)
  | _ => raise_ TypeError "object cannot be interpreted as an integer"
  end.

(** A chain [a + b + ..] that starts with text: every operand must be text. *)
Fixpoint py_cat (l : list pyval) : result string :=
  match l with
  | [] => Ret ""
  | VStr s :: l' => t ← py_cat l'; Ret (s +:+ t)
  | _ :: _ => raise_ TypeError "can only concatenate str to str"
  end.

(** [a <= b] *)
Definition py_le (a b : pyval) : result bool :=
  match a, b with
  | VStr s, VStr t => Ret (String.leb s t)
  | _, _ => match as_num a, as_num b with
            | Some x, Some y => Ret (num_le x y)
            | _, _ => type_error
            end
  end.

(** [a == b]: values of unrelated types are different. *)
Fixpoint py_eq (a b : pyval) : bool :=
  match a, b with
  | VNone, VNone => true
  | VStr s, VStr t => String.eqb s t
  | VList l, VList k =>
      (fix go l k := match l, k with
                     | [], [] => true
                     | x :: l', y :: k' => py_eq x y && go l' k'
                     | _, _ => false
                     end) l k
  | VDict d, VDict e =>
      Nat.eqb (length d) (length e) &&
      (fix go d := match d with
                   | [] => true
                   | (k, x) :: d' =>
                       match dict_find k e with Some y => py_eq x y && go d' | None => false end
                   end) d
  | _, _ => match as_num a, as_num b with Some x, Some y => num_eq x y | _, _ => false end
  end.

(** [a < b]: lists are compared at their first difference. *)
Fixpoint py_lt (a b : pyval) : result bool :=
  match a, b with
  | VStr s, VStr t => Ret (String.ltb s t)
  | VList l, VList k =>
      (fix go l k := match l, k with
                     | _, [] => Ret false
                     | [], _ => Ret true
                     | x :: l', y :: k' => if py_eq x y then go l' k' else py_lt x y
                     end) l k
  | _, _ => match as_num a, as_num b with
            | Some x, Some y => Ret (num_lt x y)
            | _, _ => type_error
            end
  end.

(** [c in v] of text, a list or a dictionary. *)
Definition py_contains (c v : pyval) : result bool :=
  match c, v with
  | VStr p, VStr s => Ret (py_in p s)
  | _, VList l => Ret (existsb (py_eq c) l)
  | VStr k, VDict d => Ret (bool_decide (is_Some (dict_find k d)))
  | VList _, VDict _ | VDict _, VDict _ => raise_ TypeError "unhashable type"
  | _, VDict _ => Ret false
  | _, _ => raise_ TypeError "argument is not iterable"
  end.

(** [sorted(l, key=.., reverse=True)] of pairs of a key and an element: stable, by [<]
    on the keys. *)
Fixpoint insert_desc {A} (x : pyval * A) (l : list (pyval * A)) : result (list (pyval * A)) :=
  match l with
  | [] => Ret [x]
  | y :: l' =>
      b ← py_lt y.1 x.1;
      if (b : bool) then Ret (x :: y :: l') else r ← insert_desc x l'; Ret (y :: r)
  end.

Fixpoint sort_desc {A} (acc todo : list (pyval * A)) : result (list (pyval * A)) :=
  match todo with
  | [] => Ret acc
  | x :: todo' => acc' ← insert_desc x acc; sort_desc acc' todo'
  end.

Definition is_None (v : pyval) : bool := match v with VNone => true | _ => false end.

(** The truth value of a value. *)
Definition truthy (v : pyval) : bool :=
  match v with
  | VNone => false
  | VStr s => negb (py_empty s)
  | VList l => match l with [] => false | _ => true end
  | VDict d => match d with [] => false | _ => true end
  | _ => match as_num v with Some n => negb (num_is_zero n) | None => true end
  end.

(** [repr(v)]; text without quotes or control characters, as the tests log it. *)
Fixpoint py_repr (v : pyval) : string :=
  match v with
  | VNone => "None"
  | VBool b => if b then "True" else "False"
  | VInt z => py_str_Z z
  | VFloat f => py_repr_float f
  | VStr s => quote s
  | VList l => "[" +:+ py_join ", " (map py_repr l) +:+ "]"
  | VDict d => "{" +:+ py_join ", " (map (λ '(k, x), quote k +:+ ": " +:+ py_repr x) d) +:+ "}"
  end.

(** [str(v)], which is also what [%s] prints. *)
Definition py_str (v : pyval) : string := match v with VStr s => s | _ => py_repr v end.

(** [int(v)] *)
Definition py_int (v : pyval) : result Z :=
  match v with
  | VStr s => match py_int_of_str s with
              | Some z => Ret z
              | None => raise_ ValueError ("invalid literal for int() with base 10: " +:+ quote s)
              end
  | _ => match as_num v with
         | Some n => num_int n
         | None => raise_ TypeError "int() argument must be a string or a number"
         end
  end.

(** [float(v)] *)
Definition py_float (v : pyval) : result float :=
  match v with
  | VStr s => match py_float_of_str s with
              | Some f => Ret f
              | None => raise_ ValueError ("could not convert string to float: " +:+ quote s)
              end
  | _ => match as_num v with
         | Some n => num_float n
         | None => raise_ TypeError "float() argument must be a string or a number"
         end
  end.

(** ['%d' % v] *)
Definition fmt_d (v : pyval) : result string :=
  match as_num v with
  | Some n => z ← num_int n; Ret (py_str_Z z)
  | None => raise_ TypeError "%d format: a number is required"
  end.

(** [sum(values)], from left to right. *)
Fixpoint num_sum (acc : num) (l : list num) : result num :=
  match l with
  | [] => Ret acc
  | x :: l' => acc' ← num_add acc x; num_sum acc' l'
  end.

(** [sum(values) / len(values)] *)
Definition mean_of (values : list num) : result num :=
  s ← num_sum (NInt 0) values; num_div s (NInt (Z.of_nat (length values))).

(** [%d] and [%.nf] of numbers *)
Definition d_of (n : num) : result string := fmt_d (of_num n).
Definition f_of (p : nat) (plus : bool) (n : num) : result string := f ← num_float n; Ret (fmt_fixed p plus f).

(** The elements of a list comprehension, in order; the first exception ends it. *)
Fixpoint results {A} (l : list (result A)) : result (list A) :=
  match l with
  | [] => Ret []
  | r :: l' => x ← r; xs ← results l'; Ret (x :: xs)
  end.

(** ** Lemmas *)

Lemma num_le_int x y : num_le (NInt x) (NInt y) = (x <=? y).
Proof.
  unfold num_le, num_compare, exact_compare, num_exact, Z.leb. simpl. rewrite !Z.mul_1_r.
  by destruct (x ?= y).
Qed.

Lemma num_lt_int x y : num_lt (NInt x) (NInt y) = (x <? y).
Proof.
  unfold num_lt, num_compare, exact_compare, num_exact, Z.ltb. simpl. rewrite !Z.mul_1_r.
  by destruct (x ?= y).
Qed.

Lemma num_eq_int x y : num_eq (NInt x) (NInt y) = (x =? y).
Proof.
  unfold num_eq, num_compare, exact_compare, num_exact. simpl. rewrite !Z.mul_1_r.
  rewrite Z.eqb_compare. by destruct (x ?= y).
Qed.

Lemma py_lt_int x y : py_lt (VInt x) (VInt y) = Ret (x <? y).
Proof. simpl. by rewrite num_lt_int. Qed.

Create Rewrite HintDb pyval.
#[export] Hint Rewrite num_le_int num_lt_int num_eq_int : pyval.

Lemma py_int_str z : py_int (VStr (py_str_Z z)) = Ret z.
Proof. unfold py_int. by rewrite py_int_of_str_Z. Qed.

Lemma py_int_int z : py_int (VInt z) = Ret z.
Proof. done. Qed.

#[export] Hint Rewrite py_int_str py_int_int : pyval.

Lemma dict_set_fresh {V} k (v : V) d : k ∉ map fst d → dict_set k v d = d ++ [(k, v)].
Proof.
  induction d as [|[k' v'] d IH]; [done|]. cbn [map fst dict_set]. rewrite not_elem_of_cons. intros [Hk Hd].
  destruct (Z.eqb_spec k' k); [congruence|]. by rewrite IH.
Qed.

Lemma dict_find_put {V} k (v : V) d q :
  dict_find q (dict_put k v d) = if String.eqb k q then Some v else dict_find q d.
Proof.
  induction d as [|[k' v'] d IH]; simpl; [done|]. destruct (String.eqb_spec k' k) as [->|Hne]; simpl.
  - by destruct (String.eqb k q).
  - rewrite IH. destruct (String.eqb_spec k' q) as [->|]; [|done]. by destruct (String.eqb_spec k q).
Qed.

(** ** Numbers on a binary grid

    [on_grid e n z]: the number [n], an [int] or a [float], is [z * 2^e] and its
    mantissa fits, so that sums, differences and comparisons are exact. *)

Definition on_grid (e : Z) (n : num) (z : Z) : Prop :=
  e ≤ 0 ∧ fits z e ∧
  match n with NInt x => z = x * 2 ^ (- e) | NFloat f => f = fl z e end.

Lemma fl_not_inf m e : fits m e → is_inf (fl m e) = false.
Proof.
  intros H. destruct (fl_shape m e H) as [[_ ->]|(s & p & c & -> & _)]; done.
Qed.

Lemma on_grid_float e n z : on_grid e n z → num_float n = Ret (fl z e).
Proof.
  intros (He & Hf & Hn). destruct n as [x|f]; simpl.
  - unfold float_of_int. subst z.
    assert (fits x 0) as Hx.
    { destruct Hf as [Hf _]. split; [|lia]. rewrite Z.abs_mul in Hf.
      assert (0 < 2 ^ (- e)) by (apply Z.pow_pos_nonneg; lia).
      rewrite (Z.abs_eq (2 ^ (- e))) in Hf by lia. nia. }
    rewrite (fl_not_inf x 0 Hx). f_equal.
    rewrite <- (fl_scale x 0 (- e)) by (done || lia). f_equal. lia.
  - by subst.
Qed.

(** The value of a number, whether or not the mantissa fits. *)
Definition grid_value (e : Z) (n : num) (z : Z) : Prop :=
  match n with NInt x => z = x * 2 ^ (- e) | NFloat f => fits z e ∧ f = fl z e end.

Lemma grid_value_compare e n z x :
  e ≤ 0 → grid_value e n z →
  exact_compare (num_exact n) x = exact_compare (Dy z e) x ∧
  exact_compare x (num_exact n) = exact_compare x (Dy z e).
Proof.
  intros He En. destruct n as [y|f]; simpl num_exact.
  - simpl in En. subst z. destruct x as [m' e'|s|]; [|done|done].
    set (k := Z.min e e').
    assert (y * 2 ^ (0 - k) = y * 2 ^ (- e) * 2 ^ (e - k)) as Hk.
    { rewrite <- Z.mul_assoc, <- Z.pow_add_r by lia. do 2 f_equal. lia. }
    split; rewrite !(exact_compare_at k) by lia; by rewrite Hk.
  - destruct En as [Hf ->]. by apply exact_compare_fl.
Qed.

Lemma grid_compare_exact e n1 n2 z1 z2 :
  e ≤ 0 → grid_value e n1 z1 → grid_value e n2 z2 → num_compare n1 n2 = Some (z1 ?= z2).
Proof.
  intros He H1 H2. unfold num_compare.
  rewrite (proj1 (grid_value_compare e n1 z1 _ He H1)), (proj2 (grid_value_compare e n2 z2 _ He H2)).
  rewrite (exact_compare_at e) by lia. by rewrite Z.sub_diag, !Z.mul_1_r.
Qed.

Lemma on_grid_value e n z : on_grid e n z → grid_value e n z.
Proof. intros (_ & Hf & Hn). destruct n; done. Qed.

Lemma on_grid_compare e n1 n2 z1 z2 :
  on_grid e n1 z1 → on_grid e n2 z2 → num_compare n1 n2 = Some (z1 ?= z2).
Proof.
  intros H1 H2. apply (grid_compare_exact e); [apply H1|by apply on_grid_value..].
Qed.

Lemma on_grid_le e n1 n2 z1 z2 :
  on_grid e n1 z1 → on_grid e n2 z2 → num_le n1 n2 = (z1 <=? z2).
Proof.
  intros H1 H2. unfold num_le, Z.leb. rewrite (on_grid_compare e n1 n2 z1 z2) by done.
  by destruct (z1 ?= z2).
Qed.

Lemma on_grid_lt e n1 n2 z1 z2 :
  on_grid e n1 z1 → on_grid e n2 z2 → num_lt n1 n2 = (z1 <? z2).
Proof.
  intros H1 H2. unfold num_lt, Z.ltb. rewrite (on_grid_compare e n1 n2 z1 z2) by done.
  by destruct (z1 ?= z2).
Qed.

Lemma on_grid_add e n1 n2 z1 z2 :
  on_grid e n1 z1 → on_grid e n2 z2 → fits (z1 + z2) e →
  ∃ n, num_add n1 n2 = Ret n ∧ on_grid e n (z1 + z2).
Proof.
  intros H1 H2 H12.
  pose proof (on_grid_float e n1 z1 H1) as F1. pose proof (on_grid_float e n2 z2 H2) as F2.
  assert (on_grid e (NFloat (f_add (fl z1 e) (fl z2 e))) (z1 + z2)) as Hf.
  { split; [apply H1|]. split; [done|]. apply f_add_exact; [apply H1|apply H2|done]. }
  destruct n1 as [x1|f1], n2 as [x2|f2].
  - exists (NInt (x1 + x2)). split; [done|]. destruct H1 as (He & _ & ->), H2 as (_ & _ & ->).
    split; [done|]. split; [done|]. lia.
  - eexists. split; [|exact Hf]. unfold num_add, num_arith. rewrite F1, F2. done.
  - eexists. split; [|exact Hf]. unfold num_add, num_arith. rewrite F1, F2. done.
  - eexists. split; [|exact Hf]. unfold num_add, num_arith. rewrite F1, F2. done.
Qed.

Lemma on_grid_sub e n1 n2 z1 z2 :
  on_grid e n1 z1 → on_grid e n2 z2 → fits (z1 - z2) e → z2 ≠ 0 →
  ∃ n, num_sub n1 n2 = Ret n ∧ on_grid e n (z1 - z2).
Proof.
  intros H1 H2 H12 Hne.
  pose proof (on_grid_float e n1 z1 H1) as F1. pose proof (on_grid_float e n2 z2 H2) as F2.
  assert (on_grid e (NFloat (f_sub (fl z1 e) (fl z2 e))) (z1 - z2)) as Hf.
  { split; [apply H1|]. split; [done|]. apply f_sub_exact; [apply H1|apply H2|done|done]. }
  destruct n1 as [x1|f1], n2 as [x2|f2].
  - exists (NInt (x1 - x2)). split; [done|]. destruct H1 as (He & _ & ->), H2 as (_ & _ & ->).
    split; [done|]. split; [done|]. lia.
  - eexists. split; [|exact Hf]. unfold num_sub, num_arith. rewrite F1, F2. done.
  - eexists. split; [|exact Hf]. unfold num_sub, num_arith. rewrite F1, F2. done.
  - eexists. split; [|exact Hf]. unfold num_sub, num_arith. rewrite F1, F2. done.
Qed.

Lemma on_grid_int e x : e ≤ 0 → fits (x * 2 ^ (- e)) e → on_grid e (NInt x) (x * 2 ^ (- e)).
Proof. intros He Hf. done. Qed.

Lemma on_grid_is_zero e n z : on_grid e n z → num_is_zero n = (z =? 0).
Proof.
  intros (He & Hf & Hn). assert (0 < 2 ^ (- e)) by (apply Z.pow_pos_nonneg; lia).
  destruct n as [x|f]; simpl; subst.
  - destruct (Z.eqb_spec x 0) as [->|Hx]; [done|]. symmetry. apply Z.eqb_neq. nia.
  - destruct (fl_shape z e Hf) as [[-> ->]|(s & p & c & E & Hc & Hp)]; [done|].
    rewrite E. simpl. symmetry. apply Z.eqb_neq. intros ->. by destruct s.
Qed.

Lemma fl_trunc z e : fits z e → e ≤ 0 → f_trunc (fl z e) = Some (Z.quot z (2 ^ (- e))).
Proof.
  intros Hf He. unfold f_trunc.
  destruct (fl_shape z e Hf) as [[-> ->]|(s & p & c & E & Hc & Hp)]; [done|].
  rewrite E. simpl exact_of_float.
  assert ((if s then Z.neg p else Z.pos p) = z * 2 ^ (e - c)) as -> by (by destruct s).
  destruct (Z.leb_spec 0 c) as [H0|H0].
  - assert (c = 0) as -> by lia. assert (e = 0) as -> by lia. f_equal. simpl. by rewrite Z.quot_1_r, !Z.mul_1_r.
  - f_equal. replace (2 ^ (- c)) with (2 ^ (- e) * 2 ^ (e - c)).
    + apply Z.quot_mul_cancel_r; apply Z.pow_nonzero; lia.
    + rewrite <- Z.pow_add_r by lia. f_equal. lia.
Qed.

Lemma fl_trunc_int z : fits z 0 → f_trunc (fl z 0) = Some z.
Proof. intros Hf. rewrite fl_trunc by (done || lia). by rewrite Z.quot_1_r. Qed.

(** [int(n)] of a number on a grid. *)
Lemma on_grid_trunc e n z : on_grid e n z → num_int n = Ret (Z.quot z (2 ^ (- e))).
Proof.
  intros (He & Hf & Hn). destruct n as [x|f]; simpl; subst.
  - rewrite Z.quot_mul; [done|]. apply Z.pow_nonzero; lia.
  - by rewrite fl_trunc.
Qed.

(** [int(n)] of a number on the integer grid. *)
Lemma on_grid_num_int n z : on_grid 0 n z → num_int n = Ret z.
Proof.
  intros (_ & Hf & Hn). destruct n as [x|f]; simpl.
  - subst. f_equal. simpl. lia.
  - subst. by rewrite fl_trunc_int.
Qed.

(** ** Exact numbers

    The interface the loops over numbers are verified against: a representation [G]
    of integers (in units of [1 / unit]) by Python numbers on which sums, differences
    and comparisons are exact as long as the results are [ok].  Plain integers are one
    instance, numbers on a binary grid another. *)

Class ExactNum (unit : Z) (G : num → Z → Prop) (ok : Z → Prop) := {
  ex_add a b x y : G a x → G b y → ok (x + y) → ∃ c, num_add a b = Ret c ∧ G c (x + y);
  ex_sub a b x y : G a x → G b y → ok (x - y) → y ≠ 0 → ∃ c, num_sub a b = Ret c ∧ G c (x - y);
  ex_le a b x y : G a x → G b y → num_le a b = (x <=? y);
  ex_lt a b x y : G a x → G b y → num_lt a b = (x <? y);
  ex_zero a x : G a x → num_is_zero a = (x =? 0);
  ex_int z : ok (z * unit) → G (NInt z) (z * unit);
  ex_int_lt a x z : G a x → num_lt a (NInt z) = (x <? z * unit);
}.

Definition is_int (n : num) (z : Z) : Prop := n = NInt z.

#[export] Instance exact_int : ExactNum 1 is_int (λ _, True).
Proof.
  split; unfold is_int.
  - intros a b x y -> -> _. eexists. done.
  - intros a b x y -> -> _ _. eexists. done.
  - intros a b x y -> ->. apply num_le_int.
  - intros a b x y -> ->. apply num_lt_int.
  - intros a x ->. done.
  - intros z _. f_equal. lia.
  - intros a x z ->. rewrite num_lt_int. f_equal. lia.
Qed.

#[export] Instance exact_grid e : ExactNum (2 ^ (- e)) (on_grid e) (λ z, e ≤ 0 ∧ fits z e).
Proof.
  split.
  - intros a b x y Ha Hb [_ Hok]. by apply on_grid_add.
  - intros a b x y Ha Hb [_ Hok] Hne. by apply on_grid_sub.
  - intros a b x y. apply on_grid_le.
  - intros a b x y. apply on_grid_lt.
  - intros a x. apply on_grid_is_zero.
  - intros z [He Hok]. by apply on_grid_int.
  - intros a x z (He & Hf & Ha). unfold num_lt, Z.ltb.
    rewrite (grid_compare_exact e a (NInt z) x (z * 2 ^ (- e))); [|done| |done].
    { by destruct (x ?= _). }
    by apply on_grid_value.
Qed.
