(* ===== verification/PyRegex.v ===== *)
(** * Python regular expressions

    The part of the [re] module the tests use: literals, character classes, [*] and
    [+] (greedy), [|] and [?], groups, [^] with [re.MULTILINE], and the functions [re.match],
    [re.search] and [re.findall].  The matcher backtracks as Python's does: it tries
    the greedy alternative first and takes the first overall match.  Each pattern of
    the sources is written as a term of [re] next to the code that uses it. *)

From S2P Require Import Prelude PyStr.
Open Scope Z_scope.

Inductive re :=
| RClass (p : ascii → bool)       (* one character of a class *)
| RSeq (r1 r2 : re)
| RStar (r : re)                  (* r*, greedy *)
| RAlt (r1 r2 : re)               (* r1|r2, the first one first *)
| RGroup (n : nat) (r : re)       (* capturing group n *)
| RBol                            (* ^ *)
| REmpty.

Definition RChar (c : ascii) : re := RClass (Ascii.eqb c).
Definition RPlus (r : re) : re := RSeq r (RStar r).
Definition ROpt (r : re) : re := RAlt r REmpty.

Fixpoint RLit_chars (l : chars) : re :=
  match l with
  | [] => REmpty
  | [c] => RChar c
  | c :: l' => RSeq (RChar c) (RLit_chars l')
  end.
Definition RLit (s : string) : re := RLit_chars (chars_of s).

(** The classes: [\d], [\s], [\S], [\w], [.]. *)
Definition Rdigit : re := RClass is_digit.
Definition Rspace : re := RClass is_space.
Definition Rnonspace : re := RClass (λ c, negb (is_space c)).
Definition is_word_char (c : ascii) : bool :=
  is_digit c || ((65 <=? ch_code c) && (ch_code c <=? 90)) || ((97 <=? ch_code c) && (ch_code c <=? 122)) || Ascii.eqb c "_".
Definition Rword : re := RClass is_word_char.
Definition Rdot : re := RClass (λ c, negb (Ascii.eqb c LF)).

Declare Scope re_scope.
Delimit Scope re_scope with re.
Bind Scope re_scope with re.
Infix "~>" := RSeq (at level 60, right associativity) : re_scope.

(** ** The matcher *)

(** A position: the character before it and the text that remains. *)
Record pos := Pos { before : option ascii; rest : chars }.

Definition start (l : chars) : pos := Pos None l.

Definition step (p : pos) : option (ascii * pos) :=
  match rest p with
  | [] => None
  | c :: l => Some (c, Pos (Some c) l)
  end.

(** Captured groups, the most recent first. *)
Definition groups := list (nat * chars).

(** The text between two positions of one match. *)
Definition text_between (p q : pos) : chars :=
  take (length (rest p) - length (rest q)) (rest p).

Section matcher.
Context (multiline : bool) {R : Type}.

Definition at_bol (p : pos) : bool :=
  match before p with
  | None => true
  | Some c => multiline && Ascii.eqb c LF
  end.

(** [run r p g k]: match [r] at [p] and continue with [k]; the iterations of a star
    are bounded by the text that remains, an empty iteration ends it. *)
Fixpoint run (r : re) (p : pos) (g : groups) (k : pos → groups → option R) {struct r}
    : option R :=
  match r with
  | RClass q =>
      match step p with
      | Some (c, p') => if q c then k p' g else None
      | None => None
      end
  | RSeq r1 r2 => run r1 p g (λ p' g', run r2 p' g' k)
  | RStar r' =>
      (fix star (fuel : nat) (p : pos) (g : groups) : option R :=
         match fuel with
         | O => k p g
         | S f =>
             match run r' p g (λ p' g',
                     if Nat.ltb (length (rest p')) (length (rest p)) then star f p' g'
                     else None) with
             | Some x => Some x
             | None => k p g
             end
         end) (length (rest p)) p g
  | RAlt r1 r2 => match run r1 p g k with Some x => Some x | None => run r2 p g k end
  | RGroup n r' => run r' p g (λ p' g', k p' ((n, text_between p p') :: g'))
  | RBol => if at_bol p then k p g else None
  | REmpty => k p g
  end.
End matcher.

(** A match object: the matched text, the groups and the position after it. *)
Record rmatch := RMatch { m_text : chars; m_groups : groups; m_end : pos }.

Definition match_at (ml : bool) (r : re) (p : pos) : option rmatch :=
  run ml r p [] (λ q g, Some (RMatch (text_between p q) g q)).

Fixpoint group_chars (n : nat) (g : groups) : option chars :=
  match g with
  | [] => None
  | (m, t) :: g' => if Nat.eqb m n then Some t else group_chars n g'
  end.

(** [m.group(n)]; a group that did not take part is the empty text here: the tests use one
    only where both are false. *)
Definition m_group (n : nat) (m : rmatch) : string :=
  str_of (match group_chars n (m_groups m) with Some t => t | None => [] end).

(** [re.match(r, s)] *)
Definition re_match (r : re) (s : string) : option rmatch := match_at false r (start (chars_of s)).

(** [re.search(r, s)] *)
Fixpoint search_from (ml : bool) (r : re) (fuel : nat) (p : pos) : option rmatch :=
  match match_at ml r p with
  | Some m => Some m
  | None =>
      match fuel, step p with
      | S f, Some (_, p') => search_from ml r f p'
      | _, _ => None
      end
  end.

Definition re_search (r : re) (s : string) : option rmatch :=
  let p := start (chars_of s) in search_from false r (length (rest p)) p.

(** The successive matches [re.findall] visits; after an empty match it moves on by
    one character. *)
Fixpoint find_from (ml : bool) (r : re) (fuel : nat) (p : pos) : list rmatch :=
  match fuel with
  | O => []
  | S f =>
      match match_at ml r p with
      | Some m =>
          if Nat.ltb (length (rest (m_end m))) (length (rest p))
          then m :: find_from ml r f (m_end m)
          else m :: match step p with Some (_, p') => find_from ml r f p' | None => [] end
      | None => match step p with Some (_, p') => find_from ml r f p' | None => [] end
      end
  end.

Definition re_findall (ml : bool) (r : re) (s : string) : list rmatch :=
  let p := start (chars_of s) in find_from ml r (S (length (rest p))) p.

(** ** Lemmas *)

Section run_lemmas.
Context (ml : bool) {R : Type}.
Implicit Types (k : pos → groups → option R) (g : groups).

Lemma run_seq r1 r2 p g k :
  run ml (RSeq r1 r2) p g k = run ml r1 p g (λ p' g', run ml r2 p' g' k).
Proof. done. Qed.

Lemma run_bol p g k : run ml RBol p g k = if at_bol ml p then k p g else None.
Proof. done. Qed.

Lemma run_class q c l b g k :
  q c = true → run ml (RClass q) (Pos b (c :: l)) g k = k (Pos (Some c) l) g.
Proof. intros H. simpl. by rewrite H. Qed.

Lemma run_class_no q p g k :
  match rest p with [] => True | c :: _ => q c = false end →
  run ml (RClass q) p g k = None.
Proof. destruct p as [b [|c l]]; simpl; [done|]. by intros ->. Qed.

(** The character before the position reached after reading [w]. *)
Definition after (b : option ascii) (w : chars) : option ascii :=
  match last_opt w with Some c => Some c | None => b end.

Lemma after_cons b c w : after b (c :: w) = after (Some c) w.
Proof.
  unfold after. destruct w as [|d w] using rev_ind; [done|].
  by rewrite app_comm_cons, !last_opt_snoc.
Qed.

(** A starred class reads the longest run of its characters when the continuation
    accepts there. *)
Lemma run_star_class q w l b g k x :
  Forall (λ c, q c = true) w →
  match l with [] => True | c :: _ => q c = false end →
  k (Pos (after b w) l) g = Some x →
  run ml (RStar (RClass q)) (Pos b (w ++ l)) g k = Some x.
Proof.
  intros Hw Hl Hk. simpl.
  enough (∀ fuel b, (length w ≤ fuel)%nat → k (Pos (after b w) l) g = Some x →
    (fix star (fuel : nat) (p : pos) (g : groups) : option R :=
         match fuel with
         | O => k p g
         | S f =>
             match run ml (RClass q) p g (λ p' g',
                     if Nat.ltb (length (rest p')) (length (rest p)) then star f p' g'
                     else None) with
             | Some x => Some x
             | None => k p g
             end
         end) fuel (Pos b (w ++ l)) g = Some x) as H.
  { apply H; [|done]. rewrite length_app. lia. }
  clear Hk b. induction Hw as [|c w Hc Hw IH]; intros fuel b Hf Hk.
  - simpl app. destruct fuel as [|f]; [done|].
    rewrite run_class_no by done. done.
  - destruct fuel as [|f]; [simpl in Hf; lia|]. simpl app.
    rewrite run_class by done. cbn [rest].
    assert (Nat.ltb (length (w ++ l)) (length (c :: w ++ l)) = true) as -> by (apply Nat.ltb_lt; simpl; lia).
    rewrite IH; [done|simpl in Hf; lia|]. by rewrite after_cons in Hk.
Qed.

(** ... and fails when the continuation fails after every shorter run. *)
Lemma run_star_class_none q w l b g k :
  Forall (λ c, q c = true) w →
  match l with [] => True | c :: _ => q c = false end →
  (∀ w1 w2, w = w1 ++ w2 → k (Pos (after b w1) (w2 ++ l)) g = None) →
  run ml (RStar (RClass q)) (Pos b (w ++ l)) g k = None.
Proof.
  intros Hw Hl Hk. simpl. generalize (length (w ++ l)) as fuel.
  revert b Hk. induction Hw as [|c w Hc Hw IH]; intros b Hk fuel.
  - specialize (Hk [] [] eq_refl). simpl app in *. destruct fuel as [|f]; [done|].
    destruct l as [|d l]; cbn; [done|]. by rewrite Hl.
  - pose proof (Hk [] (c :: w) eq_refl) as Hk0. simpl app in *. destruct fuel as [|f]; [done|].
    cbn [step rest]. rewrite Hc.
    assert (Nat.ltb (length (w ++ l)) (length (c :: w ++ l)) = true) as -> by (apply Nat.ltb_lt; simpl; lia).
    rewrite IH; [done|]. intros w1 w2 ->. rewrite <- (after_cons b). by apply (Hk (c :: w1)).
Qed.

Lemma run_plus_class_none q c w l b g k :
  Forall (λ c, q c = true) (c :: w) →
  match l with [] => True | c :: _ => q c = false end →
  (∀ w1 w2, w = w1 ++ w2 → k (Pos (after b (c :: w1)) (w2 ++ l)) g = None) →
  run ml (RPlus (RClass q)) (Pos b ((c :: w) ++ l)) g k = None.
Proof.
  intros Hw Hl Hk. inversion Hw as [|? ? Hc Hw']; subst.
  unfold RPlus. cbn [app]. rewrite run_seq, run_class by done.
  apply run_star_class_none; [done|done|]. intros w1 w2 E. rewrite <- (after_cons b). by apply Hk.
Qed.

Lemma run_plus_class q c w l b g k x :
  Forall (λ c, q c = true) (c :: w) →
  match l with [] => True | c :: _ => q c = false end →
  k (Pos (after b (c :: w)) l) g = Some x →
  run ml (RPlus (RClass q)) (Pos b ((c :: w) ++ l)) g k = Some x.
Proof.
  intros Hw Hl Hk. assert (q c = true) as Hc by (by inversion Hw).
  unfold RPlus. cbn [app]. rewrite run_seq, run_class by done.
  apply run_star_class; [by inversion Hw|done|]. by rewrite after_cons in Hk.
Qed.

(** A class that does not match the next character fails under [+]. *)
Lemma run_plus_no q p g k :
  match rest p with [] => True | c :: _ => q c = false end →
  run ml (RPlus (RClass q)) p g k = None.
Proof. intros H. unfold RPlus. rewrite run_seq. by apply run_class_no. Qed.

Lemma text_between_app b w l b' :
  text_between (Pos b (w ++ l)) (Pos b' l) = w.
Proof.
  unfold text_between. simpl. rewrite length_app, Nat.add_sub. apply take_app_length.
Qed.

Lemma run_group n r p g k :
  run ml (RGroup n r) p g k = run ml r p g (λ p' g', k p' ((n, text_between p p') :: g')).
Proof. done. Qed.

Lemma run_alt r1 r2 p g k :
  run ml (RAlt r1 r2) p g k = match run ml r1 p g k with Some x => Some x | None => run ml r2 p g k end.
Proof. done. Qed.

Lemma run_alt_first r1 r2 p g k x : run ml r1 p g k = Some x → run ml (RAlt r1 r2) p g k = Some x.
Proof. intros H. by rewrite run_alt, H. Qed.

Lemma run_alt_second r1 r2 p g k : run ml r1 p g k = None → run ml (RAlt r1 r2) p g k = run ml r2 p g k.
Proof. intros H. by rewrite run_alt, H. Qed.

Lemma run_char c l b g k : run ml (RChar c) (Pos b (c :: l)) g k = k (Pos (Some c) l) g.
Proof. apply run_class, Ascii.eqb_refl. Qed.

(** A literal. *)
Lemma run_lit l r b g k : run ml (RLit_chars l) (Pos b (l ++ r)) g k = k (Pos (after b l) r) g.
Proof.
  revert b. induction l as [|c l IH]; intros b; [done|]. destruct l as [|d l].
  - apply run_char.
  - change (RLit_chars (c :: d :: l)) with (RSeq (RChar c) (RLit_chars (d :: l))). cbn [app]. rewrite run_seq, run_char, after_cons. apply IH.
Qed.

Lemma run_lit_no l p g k : starts_with l (rest p) = false → run ml (RLit_chars l) p g k = None.
Proof.
  revert p. induction l as [|c l IH]; intros [b r] H; [done|]. cbn [rest] in H. destruct r as [|d r].
  { destruct l; [by apply run_class_no|]. cbn. done. }
  cbn [starts_with] in H. destruct (Ascii.eqb c d) eqn:E; cbn [andb] in H.
  - destruct l as [|e l]; [done|]. change (RLit_chars (c :: e :: l)) with (RSeq (RChar c) (RLit_chars (e :: l))).
    apply Ascii.eqb_eq in E as <-. rewrite run_seq, run_char. by apply IH.
  - destruct l as [|e l]; [by apply run_class_no|]. change (RLit_chars (c :: e :: l)) with (RSeq (RChar c) (RLit_chars (e :: l))).
    rewrite run_seq. by apply run_class_no.
Qed.

(** *** What a match needs

    [Needs c r]: every text that [r] matches has the character [c]. *)
Inductive Needs (c : ascii) : re → Prop :=
| NeedsClass q : (∀ d, q d = true → d = c) → Needs c (RClass q)
| NeedsLeft r1 r2 : Needs c r1 → Needs c (RSeq r1 r2)
| NeedsRight r1 r2 : Needs c r2 → Needs c (RSeq r1 r2)
| NeedsGroup n r : Needs c r → Needs c (RGroup n r).

Lemma needs_char c : Needs c (RChar c).
Proof. constructor. intros d Hd. symmetry. by apply Ascii.eqb_eq. Qed.

(** A match that ends well consumes some text, and continues after it. *)
Lemma run_consumes r p g k x : run ml r p g k = Some x →
  ∃ w p' g', rest p = w ++ rest p' ∧ k p' g' = Some x ∧ (∀ c, Needs c r → c ∈ w).
Proof.
  revert p g k. induction r as [q|r1 IH1 r2 IH2|r IH|r1 IH1 r2 IH2|n r IH| |]; intros p g k.
  - destruct p as [b [|d l]]; simpl; [done|]. destruct (q d) eqn:Hd; [|done]. intros Hk.
    exists [d], (Pos (Some d) l), g. split_and!; [done..|]. intros c Hc. inversion Hc as [? Hq| | |]; subst.
    rewrite (Hq d Hd). left.
  - intros (w1 & p1 & g1 & E1 & H1 & N1)%IH1. apply IH2 in H1 as (w2 & p2 & g2 & E2 & H2 & N2).
    exists (w1 ++ w2), p2, g2. rewrite E1, E2, <- app_assoc. split_and!; [done..|].
    intros c Hc. apply elem_of_app. inversion Hc; subst; [left|right]; auto.
  - intros H. enough (∃ w p' g', rest p = w ++ rest p' ∧ k p' g' = Some x) as (w & p' & g' & E & Hk).
    { exists w, p', g'. split_and!; [done..|]. intros c Hc. by inversion Hc. }
    simpl in H. revert H. generalize (length (rest p)) as fuel. intros fuel. revert p g.
    induction fuel as [|f IHf]; intros p g; simpl; [by exists [], p, g|].
    destruct (run ml r p g _) as [y|] eqn:Hr; [|by exists [], p, g].
    intros [= ->]. apply IH in Hr as (w1 & p1 & g1 & E1 & H1 & _). destruct (Nat.ltb _ _); [|done].
    apply IHf in H1 as (w2 & p2 & g2 & E2 & H2). exists (w1 ++ w2), p2, g2. by rewrite E1, E2, <- app_assoc.
  - rewrite run_alt. destruct (run ml r1 p g k) as [y|] eqn:Hr.
    + intros [= ->]. apply IH1 in Hr as (w & p' & g' & E & H & _). exists w, p', g'. split_and!; [done..|]. intros c Hc. by inversion Hc.
    + intros (w & p' & g' & E & H & _)%IH2. exists w, p', g'. split_and!; [done..|]. intros c Hc. by inversion Hc.
  - rewrite run_group. intros (w & p' & g' & E & H & N)%IH. eexists w, p', _. split_and!; [done..|].
    intros c Hc. inversion Hc; subst. auto.
  - simpl. destruct (at_bol ml p); [|done]. intros Hk. exists [], p, g. split_and!; [done..|]. intros c Hc. by inversion Hc.
  - intros Hk. exists [], p, g. split_and!; [done..|]. intros c Hc. by inversion Hc.
Qed.

Lemma run_needs c r p g k : Needs c r → c ∉ rest p → run ml r p g k = None.
Proof.
  intros Hc Hp. destruct (run ml r p g k) as [x|] eqn:E; [|done]. apply run_consumes in E as (w & p' & g' & Ew & _ & N).
  destruct Hp. rewrite Ew. apply elem_of_app. left. auto.
Qed.
End run_lemmas.

(** ** Searching *)

(** The search goes on where the pattern does not match. *)
Lemma search_next ml r f p c p' :
  match_at ml r p = None → step p = Some (c, p') → search_from ml r (S f) p = search_from ml r f p'.
Proof. intros H Hs. cbn [search_from]. by rewrite H, Hs. Qed.

(** A text without a character that the pattern needs. *)
Lemma search_from_none ml c r f p : Needs c r → c ∉ rest p → search_from ml r f p = None.
Proof.
  intros Hc. revert p. induction f as [|f IH]; intros p Hp; cbn [search_from]; unfold match_at; rewrite (run_needs ml c) by done; [done|].
  destruct p as [b [|d l]]; simpl; [done|]. apply IH. intros H. apply Hp. by right.
Qed.

Lemma re_search_none c r s : Needs c r → c ∉ chars_of s → re_search r s = None.
Proof. intros Hc Hs. unfold re_search. by apply search_from_none with c. Qed.

(** A pattern that begins with a literal: the search passes over a text without it. *)
Section literal.
Context (ml : bool) (l : chars) (r : re).

Lemma match_lit_no p : starts_with l (rest p) = false → match_at ml (RSeq (RLit_chars l) r) p = None.
Proof. intros H. unfold match_at. rewrite run_seq. by apply run_lit_no. Qed.

Lemma search_lit_none f p : contains_chars l (rest p) = false → search_from ml (RSeq (RLit_chars l) r) f p = None.
Proof.
  revert p. induction f as [|f IH]; intros [b t] H; cbn [search_from].
  - rewrite match_lit_no; [done|]. cbn [rest] in *. destruct t; cbn [contains_chars] in H; by apply orb_false_iff in H as [-> _].
  - destruct t as [|c t]; cbn [rest contains_chars] in H; apply orb_false_iff in H as [H1 H2]; rewrite match_lit_no by done; [done|].
    by apply IH.
Qed.

Lemma search_lit_skip pre t f b :
  (∀ i, (i < length pre)%nat → starts_with l (drop i pre ++ t) = false) →
  ∃ b', search_from ml (RSeq (RLit_chars l) r) (length pre + f) (Pos b (pre ++ t)) = search_from ml (RSeq (RLit_chars l) r) f (Pos b' t).
Proof.
  revert b. induction pre as [|c pre IH]; intros b H; [by exists b|]. destruct (IH (Some c)) as [b' E].
  { intros i Hi. apply (H (S i)). simpl. lia. }
  exists b'. rewrite <- E. cbn [length Nat.add app]. apply search_next with c; [|done]. apply match_lit_no.
  apply (H 0%nat). simpl. lia.
Qed.
End literal.
