(* ===== verification/Avocado.v ===== *)
(** * The test harness

    The effects of a test: commands, files, library calls, logging, random numbers
    and exceptions.  A test method is a computation [M W S A]: it reads and changes
    the world [W] (the machine under test, the HMC, the network), appends to the
    trace of what it did, updates the attributes of [self] (a record [S]) and returns
    or raises.

    What is not in this repository is a parameter: the class [Env] has the functions
    of avocado ([process], [Session], [params]) and the operating system that the
    tests call, over an arbitrary world.  A call that raises in the environment raises
    in the test. *)

From S2P Require Import Prelude PyStr PyFloat PyVal.
Open Scope Z_scope.

(** ** Events *)

Inductive level := Debug | Info | Warning | Error.

(** Keyword arguments of the [process] functions. *)
Inductive flag := Shell | Sudo | IgnoreStatus.

(** What a test does, in order: local commands, commands on a remote session, calls
    into a library, log lines. *)
Inductive event :=
| EvRun (cmd : string) (flags : list flag)
| EvSsh (host cmd : string)
| EvCall (fn : string) (args : list pyval)
| EvLog (l : level) (msg : string).

Record cmd_result := CmdResult { exit_status : Z; stdout_text : string }.

(** ** The environment *)

Class Env (W : Type) := {
  (* avocado.utils.process *)
  env_run : string → list flag → W → result cmd_result * W;
  env_system : string → list flag → W → result Z * W;
  env_system_output : string → list flag → W → result string * W;
  (* avocado.utils.ssh.Session(host).cmd; True when connect() succeeds *)
  env_ssh : string → string → W → result cmd_result * W;
  env_connect : pyval → pyval → pyval → W → result bool * W;
  (* str() of a CmdResult *)
  env_show : cmd_result → string;
  (* self.params.get(key, default) *)
  env_param : string → pyval → pyval;
  (* the file system *)
  env_exists : string → W → bool * W;
  env_read : string → W → result string * W;
  env_append : string → string → W → result () * W;
  env_remove : string → W → result () * W;
  (* the state of the random module: an integer per draw *)
  env_random : W → Z * W;
}.

(** ** Computations *)

Record pstate (W S : Type) := PState { ps_world : W; ps_trace : list event; ps_self : S }.
Arguments PState {W S}.
Arguments ps_world {W S}.
Arguments ps_trace {W S}.
Arguments ps_self {W S}.

Definition M (W S A : Type) : Type := pstate W S → result A * pstate W S.

#[export] Instance M_ret {W S} : MRet (M W S) := λ A a s, (Ret a, s).
#[export] Instance M_bind {W S} : MBind (M W S) := λ A B f m s,
  match m s with
  | (Ret a, s') => f a s'
  | (Raise e, s') => (Raise e, s')
  end.

Section computations.
Context {W S : Type}.
Implicit Types (s : pstate W S).

Definition lift {A} (r : result A) : M W S A := λ s, (r, s).

Definition throw {A} (c : exn_class) (msg : string) : M W S A := lift (raise_ c msg).

(** [self.fail(msg)] and [self.cancel(msg)] *)
Definition test_fail {A} (msg : string) : M W S A := throw TestFail msg.
Definition test_cancel {A} (msg : string) : M W S A := throw TestCancel msg.

(** Reading and updating the attributes of [self]. *)
Definition gets {A} (f : S → A) : M W S A := λ s, (Ret (f (ps_self s)), s).
Definition modify (f : S → S) : M W S () :=
  λ s, (Ret (), PState (ps_world s) (ps_trace s) (f (ps_self s))).

(** An attribute that may not be set yet. *)
Definition attr {A} (name : string) (f : S → option A) : M W S A :=
  λ s, (match f (ps_self s) with
        | Some a => Ret a
        | None => raise_ AttributeError name
        end, s).

(** One call into the environment, recorded in the trace. *)
Definition ext {A} (ev : event) (f : W → result A * W) : M W S A := λ s,
  let '(r, w) := f (ps_world s) in (r, PState w (ps_trace s ++ [ev]) (ps_self s)).

(** A call that is not recorded: reading files or the random state. *)
Definition silent {A} (f : W → result A * W) : M W S A := λ s,
  let '(r, w) := f (ps_world s) in (r, PState w (ps_trace s) (ps_self s)).

Definition log (l : level) (msg : string) : M W S () := ext (EvLog l msg) (λ w, (Ret (), w)).

(** [try: m except <class satisfying p>: h] *)
Definition try_except {A} (m : M W S A) (p : exn_class → bool) (h : exn → M W S A) : M W S A :=
  λ s, match m s with
       | (Ret a, s') => (Ret a, s')
       | (Raise e, s') => if p (ex_class e) then h e s' else (Raise e, s')
       end.

(** [try: m finally: fin] *)
Definition try_finally {A} (m : M W S A) (fin : M W S ()) : M W S A :=
  λ s, let '(r, s') := m s in
       match fin s' with
       | (Ret _, s'') => (r, s'')
       | (Raise e, s'') => (Raise e, s'')
       end.

Definition when (b : bool) (m : M W S ()) : M W S () := if b then m else mret ().

Fixpoint for_each {X} (l : list X) (body : X → M W S ()) : M W S () :=
  match l with
  | [] => mret ()
  | x :: l' => body x ;; for_each l' body
  end.

(** A loop that carries local variables. *)
Fixpoint for_acc {X B} (l : list X) (b : B) (body : B → X → M W S B) : M W S B :=
  match l with
  | [] => mret b
  | x :: l' => b' ← body b x; for_acc l' b' body
  end.

(** Running a method of another object [o], which is returned in its new state. *)
Definition call_on {T A} (o : T) (m : M W T A) : M W S (A * T) := λ s,
  let '(r, s') := m (PState (ps_world s) (ps_trace s) o) in
  (match r with Ret a => Ret (a, ps_self s') | Raise e => Raise e end,
   PState (ps_world s') (ps_trace s') (ps_self s)).

(** ** Library calls *)

Context {HE : Env W}.

Definition process_run (cmd : string) (fl : list flag) : M W S cmd_result :=
  ext (EvRun cmd fl) (env_run cmd fl).
Definition process_system (cmd : string) (fl : list flag) : M W S Z :=
  ext (EvRun cmd fl) (env_system cmd fl).
Definition process_system_output (cmd : string) (fl : list flag) : M W S string :=
  ext (EvRun cmd fl) (env_system_output cmd fl).
Definition ssh_cmd (host cmd : string) : M W S cmd_result :=
  ext (EvSsh host cmd) (env_ssh host cmd).

Definition get_param (key : string) (default : pyval) : M W S pyval :=
  mret (env_param key default).

Definition path_exists (path : string) : M W S bool :=
  silent (λ w, let '(b, w') := env_exists path w in (Ret b, w')).
Definition read_file (path : string) : M W S string := silent (env_read path).

(** [time.sleep(v)] *)
Definition sleep (v : pyval) : M W S () :=
  match as_num v with
  | Some n => if num_lt n (NInt 0) then throw ValueError "sleep length must be non-negative"
              else ext (EvCall "time.sleep" [v]) (λ w, (Ret (), w))
  | None => throw TypeError "sleep"
  end.

(** [random.randint(a, b)]: a draw brought into the interval. *)
Definition randint (a b : Z) : M W S Z :=
  if b <? a then throw ValueError "empty range for randrange()"
  else silent (λ w, let '(x, w') := env_random w in (Ret (a + x mod (b - a + 1)), w')).

(** [random.choice(l)] *)
Definition choice {A} (l : list A) : M W S A :=
  match l with
  | [] => throw IndexError "Cannot choose from an empty sequence"
  | x :: _ =>
      i ← randint 0 (Z.of_nat (length l) - 1);
      mret (default x (l !! Z.to_nat i))
  end.

(** [random.sample(l, k)]: [k] times a choice among what is left. *)
Fixpoint sample_nat {A} (l : list A) (k : nat) : M W S (list A) :=
  match k with
  | O => mret []
  | Datatypes.S k' =>
      i ← randint 0 (Z.of_nat (length l) - 1);
      match l !! Z.to_nat i with
      | Some x => r ← sample_nat (delete (Z.to_nat i) l) k'; mret (x :: r)
      | None => throw IndexError "sample"
      end
  end.

Definition sample {A} (l : list A) (k : Z) : M W S (list A) :=
  if (k <? 0) || (Z.of_nat (length l) <? k)
  then throw ValueError "Sample larger than population or is negative"
  else sample_nat l (Z.to_nat k).
End computations.

(** [self.log.info(format, ...)]: an exception while formatting is not raised, and nothing
    is logged. *)
Definition log_fmt {W S} (l : level) (text : result string) : M W S () :=
  match text with Ret s => log l s | Raise _ => mret () end.

Abbreviation log_debug := (log Debug).
Abbreviation log_info := (log Info).
Abbreviation log_warning := (log Warning).
Abbreviation log_error := (log Error).

(** [except Exception], which [TestFail] and [TestCancel] are subclasses of. *)
Definition any_exn (c : exn_class) : bool := true.

(** ** Verdicts *)

Inductive verdict := PASS | FAIL | CANCEL | ERROR.

(** What avocado reports for a test method that returned or raised. *)
Definition verdict_of {A} (r : result A) : verdict :=
  match r with
  | Ret _ => PASS
  | Raise e => match ex_class e with
               | TestFail => FAIL
               | TestCancel => CANCEL
               | _ => ERROR
               end
  end.

(** ** A quiet environment

    Every command succeeds and prints what the function [answer] says; files are empty
    and the parameters have their defaults.  The world counts the commands. *)

Section quiet.
Context (answer : string → Z → string).

Definition quiet_run {A} (f : string → A) (cmd : string) (w : Z) : result A * Z :=
  (Ret (f (answer cmd w)), w + 1).

Definition quiet_env : Env Z := {|
  env_run := λ cmd _, quiet_run (CmdResult 0) cmd;
  env_system := λ cmd _, quiet_run (λ _, 0) cmd;
  env_system_output := λ cmd _, quiet_run id cmd;
  env_ssh := λ _ cmd, quiet_run (CmdResult 0) cmd;
  env_connect := λ _ _ _ w, (Ret true, w);
  env_show := λ r, stdout_text r;
  env_param := λ _ d, d;
  env_exists := λ _ w, (true, w);
  env_read := λ _ w, (Ret ""%string, w);
  env_append := λ _ _ w, (Ret (), w);
  env_remove := λ _ w, (Ret (), w);
  env_random := λ w, (w, w + 1);
|}.
End quiet.
