(* ===== verification/Logic.v ===== *)
(** * Reasoning about tests

    Ways of stating what a computation does, with their composition rules:

    - [wp m s Q]: run from [s], [m] ends with a result and a state in [Q];
    - [guar R m]: whatever the state, the world and the trace before and after [m]
      are related by the preorder [R].  [emits P] is the instance "the events that [m]
      adds to the trace satisfy [P]";
    - [runs m w x r w' x']: from the world [w] and the attributes [x], [m] ends with the result
      [r], in [w'] and [x'], whatever the trace is;
    - [keeps I m]: [m] preserves the invariant [I] of the whole state, whatever it raises;
      [keeps_post I m Q] adds that a value it returns satisfies [Q];
    - [triple ok view m x v Q]: the result, what the test sees of the world and the attributes after
      [m] are in [Q]. *)

From S2P Require Import Prelude PyStr PyFloat PyVal Avocado.

(** ** Weakest preconditions *)

Section wp.
Context {W S : Type}.
Implicit Types (s : pstate W S).

Definition wp {A} (m : M W S A) s (Q : result A → pstate W S → Prop) : Prop :=
  Q (m s).1 (m s).2.

(** The continuation of a bind: only a returned value goes on. *)
Definition after_ret {A B} (Q : result B → pstate W S → Prop)
    (k : A → pstate W S → Prop) (r : result A) s : Prop :=
  match r with Ret a => k a s | Raise e => Q (Raise e) s end.

Lemma wp_mono {A} (m : M W S A) s (Q Q' : result A → pstate W S → Prop) :
  (∀ r s', Q r s' → Q' r s') → wp m s Q → wp m s Q'.
Proof. unfold wp. auto. Qed.

Lemma wp_ret {A} (a : A) s Q : wp (mret a) s Q ↔ Q (Ret a) s.
Proof. done. Qed.

Lemma wp_bind {A B} (m : M W S A) (f : A → M W S B) s Q :
  wp (m ≫= f) s Q ↔ wp m s (after_ret Q (λ a s', wp (f a) s' Q)).
Proof.
  unfold wp, mbind, M_bind, after_ret. destruct (m s) as [[a|e] s']; done.
Qed.

(** Running a bind whose first part is known to return, or to raise. *)
Lemma bind_ret {A B} (m : M W S A) (f : A → M W S B) s s' a :
  m s = (Ret a, s') → (m ≫= f) s = f a s'.
Proof. unfold mbind, M_bind. by intros ->. Qed.

Lemma bind_raise {A B} (m : M W S A) (f : A → M W S B) s s' e :
  m s = (Raise e, s') → (m ≫= f) s = (Raise e, s').
Proof. unfold mbind, M_bind. by intros ->. Qed.

(** A bind that returned: both parts did. *)
Lemma bind_returns {A B} (m : M W S A) (f : A → M W S B) s s' b :
  (m ≫= f) s = (Ret b, s') → ∃ a s1, m s = (Ret a, s1) ∧ f a s1 = (Ret b, s').
Proof. unfold mbind, M_bind. destruct (m s) as [[a|e] s1]; [by exists a, s1|done]. Qed.

Lemma wp_lift {A} (r : result A) s Q : wp (lift r) s Q ↔ Q r s.
Proof. done. Qed.

Lemma wp_gets {A} (f : S → A) s Q : wp (gets f) s Q ↔ Q (Ret (f (ps_self s))) s.
Proof. done. Qed.

Lemma wp_ext {A} ev (f : W → result A * W) s Q :
  wp (ext ev f) s Q ↔
  Q (f (ps_world s)).1 (PState (f (ps_world s)).2 (ps_trace s ++ [ev]) (ps_self s)).
Proof. unfold wp, ext. by destruct (f (ps_world s)). Qed.

Lemma wp_log l msg s Q :
  wp (log l msg) s Q ↔
  Q (Ret ()) (PState (ps_world s) (ps_trace s ++ [EvLog l msg]) (ps_self s)).
Proof. done. Qed.

Lemma wp_when (b : bool) (m : M W S ()) s Q :
  wp (when b m) s Q ↔ if b then wp m s Q else Q (Ret ()) s.
Proof. by destruct b. Qed.

(** Loop rule: an invariant [I] on the elements done and to do, kept by every
    iteration that returns; an exception leaves the loop. *)
Lemma wp_for_each {X} (body : X → M W S ()) (I : list X → list X → pstate W S → Prop)
    (Q : result () → pstate W S → Prop) l0 s0 :
  (∀ done x todo s, l0 = done ++ x :: todo → I done (x :: todo) s →
     wp (body x) s (after_ret Q (λ _ s', I (done ++ [x]) todo s'))) →
  (∀ s, I l0 [] s → Q (Ret ()) s) →
  I [] l0 s0 → wp (for_each l0 body) s0 Q.
Proof.
  intros Hbody Hend.
  enough (∀ l done s, l0 = done ++ l → I done l s → wp (for_each l body) s Q) as H
    by (intros HI; by apply (H l0 [])).
  induction l as [|x l IH]; intros done s Hl HI; simpl.
  - apply wp_ret, Hend. rewrite app_nil_r in Hl. by subst.
  - apply wp_bind. eapply wp_mono; [|by apply Hbody].
    intros [[]|e] s'; simpl; [|done]. intros HI'. apply IH in HI'; [done|].
    by rewrite <- app_assoc.
Qed.
End wp.

(** ** Runs

    [runs m w x r w' x']: from the world [w] and the attributes [x], whatever the trace,
    [m] ends with the result [r] in the world [w'] with the attributes [x']. *)

Section runs.
Context {W S : Type}.

Definition runs {A} (m : M W S A) (w : W) (x : S) (r : result A) (w' : W) (x' : S) : Prop :=
  ∀ tr, ∃ tr', m (PState w tr x) = (r, PState w' tr' x').

Lemma runs_ret {A} (a : A) w x : runs (mret a) w x (Ret a) w x.
Proof. intros tr. by eexists. Qed.

Lemma runs_lift {A} (r : result A) w x : runs (lift r) w x r w x.
Proof. intros tr. by eexists. Qed.

Lemma runs_throw {A} c msg w x : runs (A:=A) (throw c msg) w x (raise_ c msg) w x.
Proof. intros tr. by eexists. Qed.

Lemma runs_bind {A B} (m : M W S A) (f : A → M W S B) w x a w1 x1 r w2 x2 :
  runs m w x (Ret a) w1 x1 → runs (f a) w1 x1 r w2 x2 → runs (m ≫= f) w x r w2 x2.
Proof.
  intros Hm Hf tr. destruct (Hm tr) as [tr1 E]. destruct (Hf tr1) as [tr2 E2].
  exists tr2. by rewrite (bind_ret _ _ _ _ _ E).
Qed.

Lemma runs_bind_raise {A B} (m : M W S A) (f : A → M W S B) w x e w1 x1 :
  runs m w x (Raise e) w1 x1 → runs (m ≫= f) w x (Raise e) w1 x1.
Proof.
  intros Hm tr. destruct (Hm tr) as [tr1 E]. exists tr1. by rewrite (bind_raise _ _ _ _ _ E).
Qed.

Lemma runs_gets {A} (f : S → A) w x : runs (gets f) w x (Ret (f x)) w x.
Proof. intros tr. by eexists. Qed.

Lemma runs_modify (f : S → S) w x : runs (modify f) w x (Ret ()) w (f x).
Proof. intros tr. by eexists. Qed.

Lemma runs_attr {A} name (f : S → option A) a w x :
  f x = Some a → runs (attr name f) w x (Ret a) w x.
Proof. intros Hf tr. eexists. unfold attr. simpl. by rewrite Hf. Qed.

Lemma runs_ext {A} ev (f : W → result A * W) r w w' x :
  f w = (r, w') → runs (ext ev f) w x r w' x.
Proof. intros Hf tr. eexists. unfold ext. simpl. by rewrite Hf. Qed.

Lemma runs_silent {A} (f : W → result A * W) r w w' x :
  f w = (r, w') → runs (silent f) w x r w' x.
Proof. intros Hf tr. eexists. unfold silent. simpl. by rewrite Hf. Qed.

Lemma runs_log l msg w x : runs (log l msg) w x (Ret ()) w x.
Proof. by apply runs_ext. Qed.

Lemma runs_when_true (m : M W S ()) r w x w' x' :
  runs m w x r w' x' → runs (when true m) w x r w' x'.
Proof. done. Qed.

Lemma runs_when_false (m : M W S ()) w x : runs (when false m) w x (Ret ()) w x.
Proof. intros tr. by eexists. Qed.

(** A number of seconds that [time.sleep] accepts. *)
Definition sleepable (v : pyval) : bool :=
  match as_num v with Some n => negb (num_lt n (NInt 0)) | None => false end.

Lemma runs_sleep v w x : sleepable v = true → runs (sleep v) w x (Ret ()) w x.
Proof.
  unfold sleepable, sleep. destruct (as_num v) as [n|]; [|done].
  destruct (num_lt n (NInt 0)); [done|]. intros _. by apply runs_ext.
Qed.

Lemma runs_try_ret {A} (m : M W S A) p h a w x w' x' :
  runs m w x (Ret a) w' x' → runs (try_except m p h) w x (Ret a) w' x'.
Proof. intros H tr. destruct (H tr) as [tr' E]. exists tr'. unfold try_except. by rewrite E. Qed.

Lemma runs_try_raise {A} (m : M W S A) (p : exn_class → bool) h e r w x w1 x1 w2 x2 :
  runs m w x (Raise e) w1 x1 → p (ex_class e) = true → runs (h e) w1 x1 r w2 x2 →
  runs (try_except m p h) w x r w2 x2.
Proof.
  intros H Hp Hh tr. destruct (H tr) as [tr1 E]. destruct (Hh tr1) as [tr2 E2].
  exists tr2. unfold try_except. by rewrite E, Hp.
Qed.

(** The verdict of a computation is the one of its run. *)
Lemma runs_result {A} (m : M W S A) w x r w' x' tr :
  runs m w x r w' x' → (m (PState w tr x)).1 = r ∧ ps_world (m (PState w tr x)).2 = w'.
Proof. intros H. by destruct (H tr) as [tr' ->]. Qed.

(** A loop that carries a variable: the states before each iteration. *)
Lemma runs_for_acc {X B} (l : list X) (body : B → X → M W S B)
    (I : list X → B → W → S → Prop) b w x :
  (∀ done y todo b w x, l = done ++ y :: todo → I done b w x →
     ∃ b' w' x', runs (body b y) w x (Ret b') w' x' ∧ I (done ++ [y]) b' w' x') →
  I [] b w x →
  ∃ b' w' x', runs (for_acc l b body) w x (Ret b') w' x' ∧ I l b' w' x'.
Proof.
  intros Hbody.
  enough (∀ todo done b w x, l = done ++ todo → I done b w x →
    ∃ b' w' x', runs (for_acc todo b body) w x (Ret b') w' x' ∧ I l b' w' x') as H
    by (intros HI; by apply (H l [])).
  clear b w x. induction todo as [|y todo IH]; intros dn b w x Hl HI; simpl.
  - rewrite app_nil_r in Hl. subst. eauto using runs_ret.
  - destruct (Hbody dn y todo b w x Hl HI) as (b1 & w1 & x1 & H1 & HI1).
    destruct (IH (dn ++ [y]) b1 w1 x1) as (b2 & w2 & x2 & H2 & HI2); [|done|].
    + by rewrite <- app_assoc.
    + eauto 10 using runs_bind.
Qed.

(** A loop whose body only computes the variable. *)
Lemma runs_foldl {X B} (l : list X) (body : B → X → M W S B) (f : B → X → B) b w x :
  (∀ b y, y ∈ l → runs (body b y) w x (Ret (f b y)) w x) →
  runs (for_acc l b body) w x (Ret (foldl f b l)) w x.
Proof.
  intros Hb. revert b. induction l as [|y l IH]; intros b; simpl; [apply runs_ret|].
  eapply runs_bind; [apply Hb; left|]. apply IH. intros b' z Hz. apply Hb. by right.
Qed.

(** A loop whose body changes nothing. *)
Lemma runs_each {X} (l : list X) (body : X → M W S ()) w x :
  (∀ y, y ∈ l → runs (body y) w x (Ret ()) w x) → runs (for_each l body) w x (Ret ()) w x.
Proof.
  intros Hb. induction l as [|y l IH]; simpl; [apply runs_ret|].
  eapply runs_bind; [apply Hb; left|]. apply IH. intros z Hz. apply Hb. by right.
Qed.

(** A loop without a variable. *)
Lemma runs_for_each {X} (l : list X) (body : X → M W S ()) (I : list X → W → S → Prop) w x :
  (∀ done y todo w x, l = done ++ y :: todo → I done w x →
     ∃ w' x', runs (body y) w x (Ret ()) w' x' ∧ I (done ++ [y]) w' x') →
  I [] w x →
  ∃ w' x', runs (for_each l body) w x (Ret ()) w' x' ∧ I l w' x'.
Proof.
  intros Hbody.
  enough (∀ todo done w x, l = done ++ todo → I done w x →
    ∃ w' x', runs (for_each todo body) w x (Ret ()) w' x' ∧ I l w' x') as H
    by (intros HI; by apply (H l [])).
  clear w x. induction todo as [|y todo IH]; intros dn w x Hl HI; simpl.
  - rewrite app_nil_r in Hl. subst. eauto using runs_ret.
  - destruct (Hbody dn y todo w x Hl HI) as (w1 & x1 & H1 & HI1).
    destruct (IH (dn ++ [y]) w1 x1) as (w2 & x2 & H2 & HI2); [|done|].
    + by rewrite <- app_assoc.
    + eauto 10 using runs_bind.
Qed.

(** A loop that an iteration leaves with an exception. *)
Lemma runs_for_each_raise {X} (l1 : list X) y l2 (body : X → M W S ()) (I : list X → W → S → Prop)
    e (Q : W → S → Prop) w x :
  (∀ done y todo w x, l1 = done ++ y :: todo → I done w x →
     ∃ w' x', runs (body y) w x (Ret ()) w' x' ∧ I (done ++ [y]) w' x') →
  (∀ w x, I l1 w x → ∃ w' x', runs (body y) w x (Raise e) w' x' ∧ Q w' x') →
  I [] w x →
  ∃ w' x', runs (for_each (l1 ++ y :: l2) body) w x (Raise e) w' x' ∧ Q w' x'.
Proof.
  intros Hbody Hy HI. destruct (runs_for_each l1 body I w x Hbody HI) as (w1 & x1 & H1 & HI1).
  destruct (Hy w1 x1 HI1) as (w2 & x2 & H2 & HQ). exists w2, x2. split; [|done].
  intros tr. destruct (H1 tr) as [tr1 E1]. destruct (H2 tr1) as [tr2 E2]. exists tr2.
  clear -E1 E2. revert w x tr E1. induction l1 as [|z l1 IH]; intros w x tr; simpl.
  - intros [= <- <- <-]. by apply bind_raise.
  - unfold mbind, M_bind. destruct (body z _) as [[[]|e'] [w3 tr3 x3]]; [|done]. apply IH.
Qed.
End runs.

(** A method of another object. *)
Lemma runs_call_on {W S T A} (o o' : T) (m : M W T A) (a : A) w w' (x : S) :
  runs m w o (Ret a) w' o' → runs (call_on o m) w x (Ret (a, o')) w' x.
Proof. intros H tr. destruct (H tr) as [tr' E]. exists tr'. unfold call_on. simpl. by rewrite E. Qed.

Create HintDb runs.
#[export] Hint Resolve runs_ret runs_lift runs_throw runs_gets runs_modify runs_log runs_when_false
  runs_sleep : runs.

(** [run_step] does the next statement of a block when a hint tells how it runs;
    [run_with tac] uses [tac] for the others. *)
Ltac run_leaf :=
  lazymatch goal with
  | |- runs (mret _) _ _ _ _ _ => apply runs_ret
  | |- runs (lift _) _ _ _ _ _ => apply runs_lift
  | |- runs (throw _ _) _ _ _ _ _ => apply runs_throw
  | |- runs (test_fail _) _ _ _ _ _ => apply runs_throw
  | |- runs (test_cancel _) _ _ _ _ _ => apply runs_throw
  | |- runs (gets _) _ _ _ _ _ => apply runs_gets
  | |- runs (modify _) _ _ _ _ _ => apply runs_modify
  | |- runs (log _ _) _ _ _ _ _ => apply runs_log
  | |- runs (get_param _ _) _ _ _ _ _ => apply runs_ret
  | |- runs (attr _ _) _ _ _ _ _ => apply runs_attr; first [eassumption | reflexivity]
  | |- runs (when false _) _ _ _ _ _ => apply runs_when_false
  | |- runs (sleep _) _ _ _ _ _ => apply runs_sleep; first [eassumption | reflexivity]
  | |- runs (when true _) _ _ _ _ _ => apply runs_when_true; run_leaf
  | |- runs (_ ≫= _) _ _ _ _ _ => solve [run]
  | |- _ => solve [eauto 3 with runs]
  end
with run_step := eapply runs_bind; [run_leaf|]; cbv beta iota
with run := cbv beta iota; repeat run_step; try run_leaf.
(** A statement with the given lemma. *)
Tactic Notation "run_by" uconstr(H) := eapply runs_bind; [eapply H|]; cbv beta iota.

(** ** Invariants

    [keeps I m]: whatever [m] does, an invariant of the state (world, trace and attributes)
    that holds before it holds after it, also when it raises. *)

Section keeps.
Context {W S : Type} (I : pstate W S → Prop).

Definition keeps {A} (m : M W S A) : Prop := ∀ s, I s → I (m s).2.

Lemma keeps_ret {A} (a : A) : keeps (mret a).
Proof. by intros s. Qed.

Lemma keeps_lift {A} (r : result A) : keeps (lift r).
Proof. by intros s. Qed.

Lemma keeps_throw {A} c msg : keeps (A:=A) (throw c msg).
Proof. by intros s. Qed.

Lemma keeps_gets {A} (f : S → A) : keeps (gets f).
Proof. by intros s. Qed.

Lemma keeps_bind {A B} (m : M W S A) (f : A → M W S B) :
  keeps m → (∀ a, keeps (f a)) → keeps (m ≫= f).
Proof.
  intros Hm Hf s Hs. unfold mbind, M_bind. specialize (Hm s Hs).
  destruct (m s) as [[a|e] s']; simpl in *; [by apply Hf|done].
Qed.

Lemma keeps_when (b : bool) (m : M W S ()) : keeps m → keeps (when b m).
Proof. destruct b; [done|]. intros _. apply keeps_ret. Qed.

Lemma keeps_for_each {X} (l : list X) (body : X → M W S ()) :
  (∀ x, x ∈ l → keeps (body x)) → keeps (for_each l body).
Proof.
  induction l as [|x l IH]; simpl; intros Hb; [apply keeps_ret|].
  apply keeps_bind; [apply Hb; left|]. intros _. apply IH. intros y Hy. apply Hb. by right.
Qed.

Lemma keeps_for_acc {X B} (l : list X) (b : B) (body : B → X → M W S B) :
  (∀ b x, keeps (body b x)) → keeps (for_acc l b body).
Proof.
  intros Hb. revert b. induction l as [|x l IH]; simpl; intros b; [apply keeps_ret|].
  apply keeps_bind; [apply Hb|]. intros b'. apply IH.
Qed.

Lemma keeps_try_except {A} (m : M W S A) p h :
  keeps m → (∀ e, keeps (h e)) → keeps (try_except m p h).
Proof.
  intros Hm Hh s Hs. unfold try_except. specialize (Hm s Hs).
  destruct (m s) as [[a|e] s']; simpl in *; [done|]. destruct (p (ex_class e)); [|done]. by apply Hh.
Qed.

Lemma keeps_ext {A} ev (f : W → result A * W) :
  (∀ w tr x, I (PState w tr x) → I (PState (f w).2 (tr ++ [ev]) x)) → keeps (ext ev f).
Proof. intros Hf [w tr x] Hs. unfold ext. simpl. specialize (Hf w tr x Hs). by destruct (f w). Qed.

Lemma keeps_silent {A} (f : W → result A * W) :
  (∀ w tr x, I (PState w tr x) → I (PState (f w).2 tr x)) → keeps (silent f).
Proof. intros Hf [w tr x] Hs. unfold silent. simpl. specialize (Hf w tr x Hs). by destruct (f w). Qed.

(** [keeps_post m P]: moreover, a value that [m] returns satisfies [P]. *)
Definition keeps_post {A} (m : M W S A) (P : A → Prop) : Prop :=
  ∀ s, I s → I (m s).2 ∧ match (m s).1 with Ret a => P a | Raise _ => True end.

Lemma keeps_post_ret {A} (a : A) (P : A → Prop) : P a → keeps_post (mret a) P.
Proof. by intros HP s. Qed.

Lemma keeps_post_bind {A B} (m : M W S A) (f : A → M W S B) (P : B → Prop) :
  keeps m → (∀ a, keeps_post (f a) P) → keeps_post (m ≫= f) P.
Proof.
  intros Hm Hf s Hs. unfold mbind, M_bind. specialize (Hm s Hs).
  destruct (m s) as [[a|e] s']; simpl in *; [by apply Hf|done].
Qed.

Lemma keeps_post_cut {A B} (m : M W S A) (f : A → M W S B) (Q : A → Prop) (P : B → Prop) :
  keeps_post m Q → (∀ a, Q a → keeps_post (f a) P) → keeps_post (m ≫= f) P.
Proof.
  intros Hm Hf s Hs. unfold mbind, M_bind. destruct (Hm s Hs) as [Hs' Ha].
  destruct (m s) as [[a|e] s']; simpl in *; [by apply Hf|done].
Qed.

Lemma keeps_bind_post {A B} (m : M W S A) (f : A → M W S B) (Q : A → Prop) :
  keeps_post m Q → (∀ a, Q a → keeps (f a)) → keeps (m ≫= f).
Proof.
  intros Hm Hf s Hs. unfold mbind, M_bind. destruct (Hm s Hs) as [Hs' Ha].
  destruct (m s) as [[a|e] s']; simpl in *; [by apply Hf|done].
Qed.
End keeps.

Create HintDb keeps.

(** Follows the structure of the computation; the leaves are left to the [keeps] hints
    and to [tac]. *)
Ltac keeps_with tac :=
  repeat match goal with
  | |- ∀ _, keeps _ _ => intros ?
  | |- keeps _ (mret _) => apply keeps_ret
  | |- keeps _ (lift _) => apply keeps_lift
  | |- keeps _ (throw _ _) => apply keeps_throw
  | |- keeps _ (test_fail _) => apply keeps_throw
  | |- keeps _ (test_cancel _) => apply keeps_throw
  | |- keeps _ (gets _) => apply keeps_gets
  | |- keeps _ (get_param _ _) => apply keeps_ret
  | |- keeps _ (_ ≫= _) => apply keeps_bind; [|intros ?]
  | |- keeps _ (when _ _) => apply keeps_when
  | |- keeps _ (for_each _ _) => apply keeps_for_each; intros ? ?
  | |- keeps _ (for_acc _ _ _) => apply keeps_for_acc; intros ? ?
  | |- keeps _ (try_except _ _ _) => apply keeps_try_except; [|intros ?]
  | |- keeps _ (match ?x with _ => _ end) => destruct x eqn:?
  | |- keeps _ _ => solve [eauto 2 with keeps]
  | |- keeps _ _ => progress tac
  end.

(** ** Guarantees *)

(** The part of the state that survives a change of [self]. *)
Abbreviation wtrace W := (W * list event)%type.

Definition wt {W S} (s : pstate W S) : wtrace W := (ps_world s, ps_trace s).

Section guar.
Context {W : Type} (R : wtrace W → wtrace W → Prop) `{!PreOrder R}.

Definition guar {S A} (m : M W S A) : Prop := ∀ s, R (wt s) (wt (m s).2).

Section rules.
Context {S : Type}.

Lemma guar_ret {A} (a : A) : guar (S:=S) (mret a).
Proof using All. by intros s. Qed.

Lemma guar_lift {A} (r : result A) : guar (S:=S) (lift r).
Proof using All. by intros s. Qed.

Lemma guar_throw {A} c msg : guar (S:=S) (A:=A) (throw c msg).
Proof using All. by intros s. Qed.

Lemma guar_gets {A} (f : S → A) : guar (gets f).
Proof using All. by intros s. Qed.

Lemma guar_attr {A} name (f : S → option A) : guar (attr name f).
Proof using All. by intros s. Qed.

Lemma guar_modify (f : S → S) : guar (modify f).
Proof using All. by intros s. Qed.

Lemma guar_bind {A B} (m : M W S A) (f : A → M W S B) :
  guar m → (∀ a, guar (f a)) → guar (m ≫= f).
Proof using All.
  intros Hm Hf s. unfold mbind, M_bind. specialize (Hm s).
  destruct (m s) as [[a|e] s']; simpl in *; [|done]. by etransitivity; [|apply Hf].
Qed.

Lemma guar_bind_lift {A B} (r : result A) (f : A → M W S B) :
  (∀ a, r = Ret a → guar (f a)) → guar (lift r ≫= f).
Proof using All.
  intros Hf s. unfold mbind, M_bind, lift. destruct r as [a|e]; [|done]. by apply Hf.
Qed.

(** A bind, knowing that the value is one that the first part returns. *)
Lemma guar_bind_value {A B} (m : M W S A) (f : A → M W S B) :
  guar m → (∀ a, (∃ s, (m s).1 = Ret a) → guar (f a)) → guar (m ≫= f).
Proof using All.
  intros Hm Hf s. unfold mbind, M_bind. specialize (Hm s).
  destruct (m s) as [[a|e] s'] eqn:E; simpl in *; [|done]. etransitivity; [done|].
  apply Hf. exists s. by rewrite E.
Qed.

Lemma guar_when (b : bool) (m : M W S ()) : guar m → guar (when b m).
Proof using All. destruct b; [done|]. intros _. apply guar_ret. Qed.

Lemma guar_for_each {X} (l : list X) (body : X → M W S ()) :
  (∀ x, x ∈ l → guar (body x)) → guar (for_each l body).
Proof using All.
  induction l as [|x l IH]; simpl; intros Hb; [apply guar_ret|].
  apply guar_bind; [apply Hb; left|]. intros _. apply IH. intros y Hy. apply Hb. by right.
Qed.

Lemma guar_for_acc {X B} (l : list X) (b : B) (body : B → X → M W S B) :
  (∀ b x, x ∈ l → guar (body b x)) → guar (for_acc l b body).
Proof using All.
  revert b. induction l as [|x l IH]; simpl; intros b Hb; [apply guar_ret|].
  apply guar_bind; [apply Hb; left|]. intros b'. apply IH. intros b'' y Hy. apply Hb. by right.
Qed.

Lemma guar_try_except {A} (m : M W S A) p h :
  guar m → (∀ e, guar (h e)) → guar (try_except m p h).
Proof using All.
  intros Hm Hh s. unfold try_except. specialize (Hm s).
  destruct (m s) as [[a|e] s']; simpl in *; [done|].
  destruct (p (ex_class e)); [|done]. by etransitivity; [|apply Hh].
Qed.

Lemma guar_try_finally {A} (m : M W S A) fin :
  guar m → guar fin → guar (try_finally m fin).
Proof using All.
  intros Hm Hf s. unfold try_finally. specialize (Hm s).
  destruct (m s) as [r s']. simpl in *. specialize (Hf s').
  destruct (fin s') as [[u|e] s'']; simpl in *; by etransitivity.
Qed.

Lemma guar_call_on {A T} (o : T) (m : M W T A) : guar m → guar (S:=S) (call_on o m).
Proof using All.
  intros Hm s. unfold call_on. specialize (Hm (PState (ps_world s) (ps_trace s) o)).
  by destruct (m _) as [r s'].
Qed.

Lemma guar_ext {A} ev (f : W → result A * W) :
  (∀ w tr, R (w, tr) ((f w).2, tr ++ [ev])) → guar (S:=S) (ext ev f).
Proof using All.
  intros Hf [w tr x]. unfold ext, wt. simpl. specialize (Hf w tr). by destruct (f w).
Qed.

Lemma guar_silent {A} (f : W → result A * W) :
  (∀ w tr, R (w, tr) ((f w).2, tr)) → guar (S:=S) (silent f).
Proof using All.
  intros Hf [w tr x]. unfold silent, wt. simpl. specialize (Hf w tr). by destruct (f w).
Qed.
End rules.
End guar.

Lemma randint_value {W S} {HE : Env W} a b (s : pstate W S) z : (randint a b s).1 = Ret z → (a ≤ z ≤ b)%Z.
Proof.
  unfold randint. destruct (Z.ltb_spec b a); [done|]. unfold silent. destruct (env_random _) as [x w].
  simpl. intros [= <-]. pose proof (Z.mod_pos_bound x (b - a + 1)). lia.
Qed.

Create HintDb guar.

(** Follows the structure of the computation; the leaves are left to the [guar]
    hints and to [tac]. *)
Ltac guar_with tac :=
  repeat match goal with
  | |- ∀ _, guar _ _ => intros ?
  | |- guar _ (mret _) => apply guar_ret, _
  | |- guar _ (lift _) => apply guar_lift, _
  | |- guar _ (throw _ _) => apply guar_throw, _
  | |- guar _ (test_fail _) => apply guar_throw, _
  | |- guar _ (test_cancel _) => apply guar_throw, _
  | |- guar _ (gets _) => apply guar_gets, _
  | |- guar _ (attr _ _) => apply guar_attr, _
  | |- guar _ (modify _) => apply guar_modify, _
  | |- guar _ (get_param _ _) => apply guar_ret, _
  | |- guar _ (randint _ _ ≫= _) =>
      apply guar_bind_value; [apply _|solve [eauto 2 with guar]|
        let v := fresh "v" in let Hv := fresh "Hv" in intros v [? Hv%randint_value]]
  | |- guar _ (lift _ ≫= _) => apply guar_bind_lift; [apply _|intros ? ?]
  | |- guar _ (_ ≫= _) => apply guar_bind; [apply _| |intros ?]
  | |- guar _ (when _ _) => apply guar_when; [apply _|]
  | |- guar _ (for_each _ _) => apply guar_for_each; [apply _|intros ? ?]
  | |- guar _ (for_acc _ _ _) => apply guar_for_acc; [apply _|intros ? ? ?]
  | |- guar _ (try_except _ _ _) => apply guar_try_except; [apply _| |intros ?]
  | |- guar _ (try_finally _ _) => apply guar_try_finally; [apply _| |]
  | |- guar _ (call_on _ _) => apply guar_call_on; [apply _|]
  | |- guar _ (match ?x with _ => _ end) => destruct x eqn:?
  | |- guar _ _ => solve [eauto 2 with guar]
  | |- guar _ _ => progress tac
  end.

(** ** Emitted events *)

Section emits.
Context {W : Type}.

(** The trace grew by events that satisfy [P]. *)
Definition grows (P : event → Prop) : wtrace W → wtrace W → Prop :=
  λ x y, ∃ tr, y.2 = x.2 ++ tr ∧ Forall P tr.

#[export] Instance grows_preorder P : PreOrder (grows P).
Proof.
  split.
  - intros [w tr]. exists []. simpl. by rewrite app_nil_r.
  - intros [w1 t1] [w2 t2] [w3 t3] (a & Ha & Pa) (b & Hb & Pb). exists (a ++ b).
    simpl in *. subst. rewrite app_assoc. split; [done|]. by apply Forall_app.
Qed.

Lemma grows_snoc (P : event → Prop) w w' tr ev : P ev → grows P (w, tr) (w', tr ++ [ev]).
Proof. intros HP. exists [ev]. simpl. eauto. Qed.

Lemma grows_nil (P : event → Prop) w w' tr : grows P (w, tr) (w', tr).
Proof. exists []. simpl. by rewrite app_nil_r. Qed.
End emits.

Abbreviation emits P m := (guar (grows P) m).

Section emits_rules.
Context {W S : Type} {HE : Env W} (P : event → Prop).

Lemma emits_ext {A} ev (f : W → result A * W) : P ev → emits P (ext (S:=S) ev f).
Proof. intros HP. apply guar_ext; [apply _|]. intros w tr. by apply grows_snoc. Qed.

Lemma emits_silent {A} (f : W → result A * W) : emits P (silent (S:=S) f).
Proof. apply guar_silent; [apply _|]. intros w tr. apply grows_nil. Qed.

Lemma emits_log l msg : P (EvLog l msg) → emits P (log (W:=W) (S:=S) l msg).
Proof. apply emits_ext. Qed.

Lemma emits_run cmd fl : P (EvRun cmd fl) → emits P (process_run (S:=S) cmd fl).
Proof. apply emits_ext. Qed.

Lemma emits_system cmd fl : P (EvRun cmd fl) → emits P (process_system (S:=S) cmd fl).
Proof. apply emits_ext. Qed.

Lemma emits_system_output cmd fl :
  P (EvRun cmd fl) → emits P (process_system_output (S:=S) cmd fl).
Proof. apply emits_ext. Qed.

Lemma emits_ssh host cmd : P (EvSsh host cmd) → emits P (ssh_cmd (S:=S) host cmd).
Proof. apply emits_ext. Qed.

Lemma emits_sleep v : P (EvCall "time.sleep" [v]) → emits P (sleep (S:=S) (W:=W) v).
Proof.
  intros HP. unfold sleep. destruct (as_num v); [|apply guar_throw, _].
  destruct (num_lt _ _); [apply guar_throw, _|]. by apply emits_ext.
Qed.

Lemma emits_randint a b : emits P (randint (S:=S) a b).
Proof.
  unfold randint. destruct (b <? a)%Z; [apply guar_throw, _|]. apply emits_silent.
Qed.

Lemma emits_choice {A} (l : list A) : emits P (choice (S:=S) l).
Proof.
  destruct l as [|x l]; [apply guar_throw, _|]. unfold choice.
  apply guar_bind; [apply _|apply emits_randint|]. intros i. apply guar_ret, _.
Qed.

Lemma emits_sample_nat {A} (l : list A) k : emits P (sample_nat (S:=S) l k).
Proof.
  revert l. induction k as [|k IH]; intros l; simpl; [apply guar_ret, _|].
  apply guar_bind; [apply _|apply emits_randint|]. intros i.
  destruct (l !! Z.to_nat i); [|apply guar_throw, _].
  apply guar_bind; [apply _|apply IH|]. intros r. apply guar_ret, _.
Qed.

Lemma emits_sample {A} (l : list A) k : emits P (sample (S:=S) l k).
Proof. unfold sample. destruct (_ || _)%Z; [apply guar_throw, _|]. apply emits_sample_nat. Qed.

Lemma emits_read_file path : emits P (read_file (S:=S) path).
Proof. apply emits_silent. Qed.

Lemma emits_path_exists path : emits P (path_exists (S:=S) path).
Proof. apply emits_silent. Qed.

(** The events that [m] adds satisfy [P]. *)
Lemma emits_trace {A} (m : M W S A) s :
  emits P m → ∃ tr, ps_trace (m s).2 = ps_trace s ++ tr ∧ Forall P tr.
Proof. intros Hm. apply (Hm s). Qed.
End emits_rules.

#[export] Hint Resolve emits_log emits_run emits_system emits_system_output emits_ssh
  emits_sleep emits_randint emits_choice emits_sample emits_read_file emits_path_exists
  emits_silent : guar.

(** ** Triples over a view of the world

    [triple ok view m x v Q]: from the attributes [x] and a world that is [ok] and of which the test
    sees [v], [m] ends in a world that is [ok], with a result, a view and attributes in [Q].  The
    trace is left out. *)

(** What a call answers in a world with the view [v], and the view after it. *)
Definition answers {W V A} (ok : W → Prop) (view : W → V) (f : W → result A * W) (v : V) (Q : result A → V → Prop) : Prop :=
  ∀ w, ok w → view w = v → ok (f w).2 ∧ Q (f w).1 (view (f w).2).

Definition triple {W S V A} (ok : W → Prop) (view : W → V) (m : M W S A) (x : S) (v : V) (Q : result A → V → S → Prop) : Prop :=
  ∀ s, ok (ps_world s) → view (ps_world s) = v → ps_self s = x →
    wp m s (λ r s', ok (ps_world s') ∧ Q r (view (ps_world s')) (ps_self s')).

Section triples.
Context {W S V : Type} (ok : W → Prop) (view : W → V).
Implicit Types (x : S) (v : V).
Local Abbreviation does := (triple ok view).

Lemma triple_mono {A} (m : M W S A) x v (Q Q' : result A → V → S → Prop) :
  does m x v Q → (∀ r v' x', Q r v' x' → Q' r v' x') → does m x v Q'.
Proof. intros H Hq s H1 H2 H3. eapply wp_mono; [|exact (H s H1 H2 H3)]. intros r s' [Hk Hp]. split; [done|]. by apply Hq. Qed.

Lemma triple_bind {A B} (m : M W S A) (f : A → M W S B) x v (Q : result B → V → S → Prop) :
  does m x v (λ r v' x', match r with Ret a => does (f a) x' v' Q | Raise e => Q (Raise e) v' x' end) → does (m ≫= f) x v Q.
Proof.
  intros H s H1 H2 H3. apply wp_bind. eapply wp_mono; [|exact (H s H1 H2 H3)].
  intros [a|e] s' [Hk Hp]; cbn [after_ret]; [by apply Hp|done].
Qed.

Lemma triple_try {A} (m : M W S A) (p : exn_class → bool) (h : exn → M W S A) x v (Q : result A → V → S → Prop) :
  does m x v (λ r v' x', match r with Ret a => Q (Ret a) v' x' | Raise e => if p (ex_class e) then does (h e) x' v' Q else Q (Raise e) v' x' end) →
  does (try_except m p h) x v Q.
Proof.
  intros H s H1 H2 H3. specialize (H s H1 H2 H3). unfold wp, try_except in *. destruct (m s) as [[a|e] s']; cbn in *; [done|].
  destruct H as [Hk H]. destruct (p (ex_class e)); [by apply H|done].
Qed.

Lemma triple_lift {A} (r : result A) x v (Q : result A → V → S → Prop) : Q r v x → does (lift r) x v Q.
Proof. by intros H s H1 <- <-. Qed.
Lemma triple_ret {A} (a : A) x v (Q : result A → V → S → Prop) : Q (Ret a) v x → does (mret a) x v Q.
Proof. by intros H s H1 <- <-. Qed.
Lemma triple_gets {A} (f : S → A) x v (Q : result A → V → S → Prop) : Q (Ret (f x)) v x → does (gets f) x v Q.
Proof. by intros H s H1 <- <-. Qed.
Lemma triple_attr {A} name (f : S → option A) a x v (Q : result A → V → S → Prop) : f x = Some a → Q (Ret a) v x → does (attr name f) x v Q.
Proof. intros Ha H s H1 <- <-. unfold wp, attr. cbn. rewrite Ha. done. Qed.
Lemma triple_modify (f : S → S) x v (Q : result () → V → S → Prop) : Q (Ret ()) v (f x) → does (modify f) x v Q.
Proof. by intros H s H1 <- <-. Qed.
Lemma triple_log l msg x v (Q : result () → V → S → Prop) : Q (Ret ()) v x → does (log l msg) x v Q.
Proof. by intros H s H1 <- <-. Qed.
Lemma triple_log_fmt l text x v (Q : result () → V → S → Prop) : Q (Ret ()) v x → does (log_fmt l text) x v Q.
Proof. intros H. destruct text; [by apply triple_log|by apply triple_ret]. Qed.
Lemma triple_sleep n x v (Q : result () → V → S → Prop) : sleepable n = true → Q (Ret ()) v x → does (sleep n) x v Q.
Proof.
  intros Hn H s H1 <- <-. unfold wp, sleepable, sleep in *. destruct (as_num n) as [k|]; [|done]. by destruct (num_lt k (NInt 0)).
Qed.

Lemma triple_ext {A} ev (f : W → result A * W) x v (Q0 : result A → V → Prop) (Q : result A → V → S → Prop) :
  answers ok view f v Q0 → (∀ r v', Q0 r v' → Q r v' x) → does (ext ev f) x v Q.
Proof.
  intros Hf H s H1 H2 <-. apply wp_ext. cbn. specialize (Hf _ H1 H2) as [Hk Hq]. split; [done|]. by apply H.
Qed.
Lemma triple_silent {A} (f : W → result A * W) x v (Q0 : result A → V → Prop) (Q : result A → V → S → Prop) :
  answers ok view f v Q0 → (∀ r v', Q0 r v' → Q r v' x) → does (silent f) x v Q.
Proof.
  intros Hf H s H1 H2 <-. unfold wp, silent. specialize (Hf _ H1 H2) as [Hk Hq]. destruct (f (ps_world s)) as [r w']. cbn in *. split; [done|]. by apply H.
Qed.

(** A fact about the view that holds in every world that is [ok]. *)
Lemma triple_ok {A} (P : V → Prop) (m : M W S A) x v (Q : result A → V → S → Prop) :
  (∀ w, ok w → P (view w)) → (P v → does m x v Q) → does m x v Q.
Proof. intros HP H s H1 H2 H3. pose proof (HP _ H1) as Hv. rewrite H2 in Hv. by apply H. Qed.

(** A computation that changes neither the world nor the attributes. *)
Lemma triple_runs {A} (m : M W S A) x v (P : result A → Prop) (Q : result A → V → S → Prop) :
  (∀ w, ∃ r, runs m w x r w x ∧ P r) → (∀ r, P r → Q r v x) → does m x v Q.
Proof.
  intros H HQ [w tr x0] H1 H2 H3. cbn in *. subst. destruct (H w) as (r & Hr & Hp). destruct (Hr tr) as [tr' E].
  unfold wp. rewrite E. cbn. split; [done|]. by apply HQ.
Qed.

(** A loop whose body returns, and keeps the view and a property of the attributes. *)
Lemma triple_for_each {X} (I : S → Prop) (l : list X) (body : X → M W S ()) x v :
  (∀ y x, y ∈ l → I x → does (body y) x v (λ r v' x', r = Ret () ∧ v' = v ∧ I x')) → I x →
  does (for_each l body) x v (λ r v' x', r = Ret () ∧ v' = v ∧ I x').
Proof.
  revert x. induction l as [|y l IH]; intros x Hb Hx; cbn [for_each]; [by apply triple_ret|]. apply triple_bind.
  eapply triple_mono; [apply Hb; [by left|done]|]. intros r v' x' (-> & -> & Hx'). apply IH; [|done]. intros z x2 Hz. apply Hb. by right.
Qed.

(** The triple at one world. *)
Lemma triple_at {A} (m : M W S A) w x Q : ok w → does m x (view w) Q →
  Q (m (PState w [] x)).1 (view (ps_world (m (PState w [] x)).2)) (ps_self (m (PState w [] x)).2).
Proof. intros Hw H. by destruct (H (PState w [] x) Hw eq_refl eq_refl). Qed.
End triples.

(** Follows the structure of the computation. *)
Ltac triple_leaf :=
  lazymatch goal with
  | |- triple _ _ (mret _) _ _ _ => apply triple_ret
  | |- triple _ _ (lift _) _ _ _ => apply triple_lift
  | |- triple _ _ (throw _ _) _ _ _ => apply triple_lift
  | |- triple _ _ (test_fail _) _ _ _ => apply triple_lift
  | |- triple _ _ (test_cancel _) _ _ _ => apply triple_lift
  | |- triple _ _ (gets _) _ _ _ => apply triple_gets
  | |- triple _ _ (attr _ _) _ _ _ => eapply triple_attr; [first [eassumption|reflexivity]|]
  | |- triple _ _ (modify _) _ _ _ => apply triple_modify
  | |- triple _ _ (log _ _) _ _ _ => apply triple_log
  | |- triple _ _ (log_fmt _ _) _ _ _ => apply triple_log_fmt
  | |- triple _ _ (sleep _) _ _ _ => apply triple_sleep; [reflexivity|]
  | |- triple _ _ (when true _) _ _ _ => unfold when at 1
  | |- triple _ _ (when false _) _ _ _ => unfold when at 1
  | |- triple _ _ (_ ≫= _) _ _ _ => apply triple_bind
  | |- triple _ _ (try_except _ _ _) _ _ _ => apply triple_try
  | |- triple _ _ (let _ := _ in _) _ _ _ => cbv zeta
  end; cbv beta iota.
Ltac triple_run := cbv beta iota; repeat triple_leaf.
(** A call with the law [H], or a part of the test with the lemma [H]. *)
Tactic Notation "triple_call" uconstr(H) :=
  first [eapply triple_ext; [eapply H|] | eapply triple_silent; [eapply H|] | eapply triple_mono; [eapply H|]]; cbv beta iota.
