(* ===== verification/DlparApi.v ===== *)
(** * The DLPAR API: dlpar/dlpar_api/api.py

    [SshMachine], [TestLog] and the class [TestCase] with its subclasses
    [DedicatedCpu], [CpuUnit] and [Memory].  The object is the record [testcase]; a
    method is a computation on it.  A private method [__m] of a class [C] is [C_m].

    The HMC and the second partition are reached through [env_ssh]; the first
    partition is the local machine. *)

From S2P Require Import Prelude PyStr PyFloat PyVal PyRegex Avocado Logic.
From stdpp Require Export gmap.
Open Scope Z_scope.

(** ** Data *)

(** The parameters of the run: [config_payload], a dictionary. *)
Abbreviation payload := (gmap string pyval).
Definition cfg_get (k : string) (c : payload) : pyval := default VNone (c !! k).

(** [SshMachine]: the attributes that are not set for every machine type are
    optional; [sshcnx] is the host of the session. *)
Record machine := Machine {
  mc_con : Z;
  mc_name : pyval;
  mc_machine : pyval;
  mc_partition : pyval;
  mc_user : option pyval;
  mc_passwd : option pyval;
  mc_sshcnx : option string;
}.

(** [TestCase] and its subclasses. *)
Record testcase := TestCase {
  tc_cpu_per_processor : option Z;
  tc_hmc : option machine;
  tc_linux_1 : option machine;
  tc_linux_2 : option machine;
  tc_linux : option machine;
  tc_cmd_result : option cmd_result;
  tc_cmd_output : option cmd_result;
  tc_quant_to_test : pyval;
  tc_sleep_time : pyval;
  tc_value : option Z;
}.

Definition new_testcase : testcase :=
  TestCase None None None None None None None VNone VNone None.

Definition set_cpu_per_processor (z : Z) (t : testcase) : testcase :=
  TestCase (Some z) (tc_hmc t) (tc_linux_1 t) (tc_linux_2 t) (tc_linux t) (tc_cmd_result t)
    (tc_cmd_output t) (tc_quant_to_test t) (tc_sleep_time t) (tc_value t).
Definition set_hmc (m : machine) (t : testcase) : testcase :=
  TestCase (tc_cpu_per_processor t) (Some m) (tc_linux_1 t) (tc_linux_2 t) (tc_linux t)
    (tc_cmd_result t) (tc_cmd_output t) (tc_quant_to_test t) (tc_sleep_time t) (tc_value t).
Definition set_linux_1 (m : machine) (t : testcase) : testcase :=
  TestCase (tc_cpu_per_processor t) (tc_hmc t) (Some m) (tc_linux_2 t) (tc_linux t)
    (tc_cmd_result t) (tc_cmd_output t) (tc_quant_to_test t) (tc_sleep_time t) (tc_value t).
Definition set_linux_2 (m : machine) (t : testcase) : testcase :=
  TestCase (tc_cpu_per_processor t) (tc_hmc t) (tc_linux_1 t) (Some m) (tc_linux t)
    (tc_cmd_result t) (tc_cmd_output t) (tc_quant_to_test t) (tc_sleep_time t) (tc_value t).
Definition set_linux (m : machine) (t : testcase) : testcase :=
  TestCase (tc_cpu_per_processor t) (tc_hmc t) (tc_linux_1 t) (tc_linux_2 t) (Some m)
    (tc_cmd_result t) (tc_cmd_output t) (tc_quant_to_test t) (tc_sleep_time t) (tc_value t).
Definition set_cmd_result (r : cmd_result) (t : testcase) : testcase :=
  TestCase (tc_cpu_per_processor t) (tc_hmc t) (tc_linux_1 t) (tc_linux_2 t) (tc_linux t)
    (Some r) (tc_cmd_output t) (tc_quant_to_test t) (tc_sleep_time t) (tc_value t).
Definition set_cmd_output (r : cmd_result) (t : testcase) : testcase :=
  TestCase (tc_cpu_per_processor t) (tc_hmc t) (tc_linux_1 t) (tc_linux_2 t) (tc_linux t)
    (tc_cmd_result t) (Some r) (tc_quant_to_test t) (tc_sleep_time t) (tc_value t).
Definition set_quant_to_test (v : pyval) (t : testcase) : testcase :=
  TestCase (tc_cpu_per_processor t) (tc_hmc t) (tc_linux_1 t) (tc_linux_2 t) (tc_linux t)
    (tc_cmd_result t) (tc_cmd_output t) v (tc_sleep_time t) (tc_value t).
Definition set_sleep_time (v : pyval) (t : testcase) : testcase :=
  TestCase (tc_cpu_per_processor t) (tc_hmc t) (tc_linux_1 t) (tc_linux_2 t) (tc_linux t)
    (tc_cmd_result t) (tc_cmd_output t) (tc_quant_to_test t) v (tc_value t).
Definition set_value (z : Z) (t : testcase) : testcase :=
  TestCase (tc_cpu_per_processor t) (tc_hmc t) (tc_linux_1 t) (tc_linux_2 t) (tc_linux t)
    (tc_cmd_result t) (tc_cmd_output t) (tc_quant_to_test t) (tc_sleep_time t) (Some z).

(** The [linux_machine] argument: one partition, or the list of the source and the
    target of a move. *)
Inductive lpars :=
| One (m : machine)
| Pair (m1 m2 : machine).

(** ['processor.*:.*\n'] *)
Definition re_processor : re :=
  (RLit "processor" ~> RStar Rdot ~> RChar ":" ~> RStar Rdot ~> RChar LF)%re.

Section api.
Context {W : Type} {HE : Env W}.
Abbreviation T := (M W testcase).

(** ** SshMachine *)

(** [SshMachine.__init_ssh]: the session and [mac_con]. *)
Definition init_ssh {S} (user passwd name : pyval) : M W S (string * Z) :=
  ext (EvCall "Session.cleanup_master" [name]) (λ w, (Ret (), w)) ;;
  connected ← ext (EvCall "Session.connect" [name]) (env_connect name user passwd);
  if (connected : bool) then mret (py_str name, 0)
  else
    ext (EvCall "print" [VStr "failed connecting to HMC"]) (λ w, (Ret (), w)) ;;
    mret (py_str name, 1).

(** [SshMachine.__init__] *)
Definition new_machine {S} (c : payload) (machine_type : string) : M W S machine :=
  if String.eqb machine_type "linux_primary" then
    mret (Machine 0 (cfg_get "src_name" c) (cfg_get "hmc_manageSystem" c)
            (cfg_get "src_partition" c) None None None)
  else if String.eqb machine_type "linux_secondary" then
    let name := cfg_get "target_lpar_hostname" c in
    let user := cfg_get "target_user" c in
    let passwd := cfg_get "target_passwd" c in
    '(cnx, con) ← init_ssh user passwd name;
    mret (Machine con name (cfg_get "hmc_manageSystem" c) (cfg_get "target_partition" c)
            (Some user) (Some passwd) (Some cnx))
  else
    let name := cfg_get "hmc_name" c in
    let user := cfg_get "hmc_user" c in
    let passwd := cfg_get "hmc_passwd" c in
    (* the session is opened for the types hmc and linux_secondary *)
    '(cnx, con) ←
      (if String.eqb machine_type "hmc" then
         '(cnx, con) ← init_ssh user passwd name; mret (Some cnx, con)
       else mret (None, 0));
    mret (Machine con name (cfg_get "hmc_manageSystem" c) (cfg_get "hmc_manageSystem" c)
            (Some user) (Some passwd) cnx).

(** ** TestLog *)

(** [logging.DEBUG] and so on; a level that is not known is reported and taken for INFO. *)
Definition log_levels : list (string * Z) :=
  [("DEBUG", 10); ("INFO", 20); ("WARNING", 30); ("ERROR", 40); ("CRITICAL", 50)]%string.

(** [TestLog.__get_log_level] *)
Definition get_log_level {S} (log_level : string) : M W S Z :=
  match dict_find log_level log_levels with
  | Some z => mret z
  | None => log_warning ("Misconfigured log level " +:+ log_level +:+ ". Assuming INFO.") ;; mret 20
  end.

(** A handler of the log: a file or the screen, the level from which it writes, its format. *)
Record handler := Handler { lh_file : option string; lh_level : Z; lh_format : string; lh_datefmt : option string }.

(** [TestLog.__init__]: the handlers.  The file is opened for writing. *)
Definition TestLog_init {S} (logpath : string) : M W S (list handler) :=
  ext (EvCall "logging.FileHandler" [VStr logpath; VStr "w"]) (λ w, (Ret (), w)) ;;
  file_level ← get_log_level "DEBUG";
  let log_file := Handler (Some logpath) file_level "%(asctime)s %(levelname)-8s %(message)s" (Some "%a, %d %b %Y %H:%M:%S"%string) in
  console_level ← get_log_level "INFO";
  let console := Handler None console_level "%(levelname)-8s: %(message)s" None in
  mret [log_file; console].

(** The report of [TestLog.check_log]. *)
Definition report {S} (message : string) (ok die : bool) : M W S pyval :=
  if ok then log_info ("[PASS] " +:+ message) ;; mret (VBool true)
  else
    log_error ("[FAILED] " +:+ message) ;;
    when die (throw TestException "Check failed. Aborting test.") ;;
    mret (VBool false).

(** [TestLog.check_log]: [code] is an integer or a boolean; for any other type the
    method returns [None]. *)
Definition check_log {S} (message : string) (code : pyval) (die : bool) : M W S pyval :=
  match code with
  | VInt z => report message (negb (z <? 0)) die
  | VBool b => report message b die
  | _ => mret VNone
  end.

(** ** TestCase *)

(** [TestCase.__init__] *)
Definition TestCase_init (log_file test_name : string) (c : payload) : T () :=
  _ ← TestLog_init log_file;
  log_info ("Starting " +:+ test_name +:+ " Test Case.") ;;
  n ← lift (py_int (cfg_get "cfg_cpu_per_proc" c));
  modify (set_cpu_per_processor n).

(** [TestCase.get_connections] *)
Definition get_connections (c : payload) (clients : string) : T Z :=
  try_except
    (hmc ← new_machine c "hmc";
     modify (set_hmc hmc) ;;
     log_debug "Login to HMC successful." ;;
     when (String.eqb clients "primary" || String.eqb clients "both")
       (m ← new_machine c "linux_primary";
        modify (set_linux_1 m) ;;
        log_debug "Login to 1st linux LPAR successful.") ;;
     when (String.eqb clients "secondary" || String.eqb clients "both")
       (m ← new_machine c "linux_secondary";
        modify (set_linux_2 m) ;;
        log_debug "Login to 2nd linux LPAR successful.") ;;
     check_log "Getting Machine connections." (VBool true) true ;;
     m ← attr "linux_2" tc_linux_2;
     mret (mc_con m))
    any_exn
    (λ e, check_log "Getting Machine connections." (VBool false) false ;; lift (Raise e)).

(** [TestCase.run_test], which the subclasses do not override. *)
Definition run_test : T () := mret ().

(** [linux_machine.x] and [linux_machine[i].x] *)
Definition the_lpar {S} (l : lpars) : M W S machine :=
  match l with
  | One m => mret m
  | Pair _ _ => throw AttributeError "'list' object has no attribute"
  end.
Definition lpar_at {S} (l : lpars) (i : nat) : M W S machine :=
  match l, i with
  | Pair m _, O => mret m
  | Pair _ m, 1%nat => mret m
  | Pair _ _, _ => throw IndexError "list index out of range"
  | One _, _ => throw TypeError "'SshMachine' object is not subscriptable"
  end.

(** [self.hmc.sshcnx.cmd(cmd)] *)
Definition machine_cmd {S} (m : machine) (cmd : string) : M W S cmd_result :=
  match mc_sshcnx m with
  | Some host => ssh_cmd host cmd
  | None => throw AttributeError "sshcnx"
  end.
Definition hmc_cmd (cmd : string) : T cmd_result :=
  m ← attr "hmc" tc_hmc; machine_cmd m cmd.

(** The command of [Dlpar_engine] for an addition or a removal, and for a move. *)
Definition chhwres_cmd (f0 f1 f2 : string) (m : machine) (quantity : pyval) : result string :=
  py_cat [VStr "chhwres -m "; mc_machine m; VStr " -r "; VStr f0; VStr " -o "; VStr f1;
          VStr " "; VStr f2; VStr " "; VStr (py_str quantity); VStr (" -p " +:+ DQ);
          mc_partition m; VStr DQ; VStr " -w 0 "].
Definition chhwres_move_cmd (f0 f1 f2 : string) (m1 m2 : machine) (quantity : pyval)
    : result string :=
  py_cat [VStr "chhwres -m "; mc_machine m1; VStr " -r "; VStr f0; VStr " -o "; VStr f1;
          VStr " "; VStr f2; VStr " "; VStr (py_str quantity); VStr (" -p " +:+ DQ);
          mc_partition m1; VStr DQ; VStr (" -t " +:+ DQ); mc_partition m2; VStr DQ;
          VStr " -w 0 "].

(** [TestCase.Dlpar_engine]; the flag is the list [f0, f1, f2]. *)
Definition Dlpar_engine (f0 f1 f2 : string) (l : lpars) (quantity : pyval) : T cmd_result :=
  cmd ←
    (if String.eqb f1 "a" || String.eqb f1 "r" then
       m ← the_lpar l; lift (chhwres_cmd f0 f1 f2 m quantity)
     else if String.eqb f1 "m" then
       m1 ← lpar_at l 0; m2 ← lpar_at l 1; lift (chhwres_move_cmd f0 f1 f2 m1 m2 quantity)
     else
       log_error "Invalid DLPAR flag" ;; mret "");
  r ← hmc_cmd cmd;
  modify (set_cmd_result r) ;;
  mret r.

(** [TestCase.get_cpu_option], [get_mem_option] and [get_lmb_value] *)
Definition get_lpar_option (res : string) (m : machine) (option : string) : T string :=
  o_cmd ← lift (py_cat [VStr "lshwres -m "; mc_machine m;
                        VStr (" --level lpar -r " +:+ res +:+ " --filter lpar_names=" +:+ DQ);
                        mc_partition m; VStr (DQ +:+ " -F "); VStr option]);
  r ← hmc_cmd o_cmd;
  let opt_value := py_strip (stdout_text r) in
  d_msg ← lift (py_cat [VStr option; VStr ": "; VStr opt_value; VStr " for partition ";
                        mc_partition m]);
  log_debug d_msg ;;
  mret opt_value.

Definition get_cpu_option (m : machine) (option : string) : T string :=
  get_lpar_option "proc" m option.

Definition get_mem_option (m : machine) (option : string) : T string :=
  get_lpar_option "mem" m option.

Definition get_lmb_value (m : machine) (option : string) : T string :=
  o_cmd ← lift (py_cat [VStr "lshwres -r mem -m "; mc_machine m; VStr " --level sys -F ";
                        VStr option]);
  r ← hmc_cmd o_cmd;
  let opt_value := py_strip (stdout_text r) in
  d_msg ← lift (py_cat [VStr option; VStr ": "; VStr opt_value; VStr " for CEC ";
                        mc_machine m]);
  log_debug d_msg ;;
  mret opt_value.

(** [int(self.get_cpu_option(m, option))] and the same of the memory options. *)
Definition cpu_option_int (m : machine) (option : string) : T Z :=
  s ← get_cpu_option m option; lift (py_int (VStr s)).
Definition mem_option_int (m : machine) (option : string) : T Z :=
  s ← get_mem_option m option; lift (py_int (VStr s)).
(** [float(self.get_cpu_option(m, option))] *)
Definition cpu_option_float (m : machine) (option : string) : T float :=
  s ← get_cpu_option m option; lift (py_float (VStr s)).

(** [TestCase.linux_check_add_cpu] *)
Definition linux_check_add_cpu (m : machine) (quantity : pyval) : T () :=
  proc_before ← cpu_option_int m "curr_procs";
  r ← machine_cmd m "cat /proc/cpuinfo";
  let sdata := py_strip (stdout_text r) in
  let found := re_findall false re_processor sdata in
  n ← attr "cpu_per_processor" tc_cpu_per_processor;
  let d_condition := Z.of_nat (length found) =? proc_before * n in
  check_log "Checking if /proc/cpuinfo shows all processors correctly." (VBool d_condition) true ;;
  mret ().

(** [TestCase.linux_check_rm_cpu] *)
Definition linux_check_rm_cpu (m : machine) (quantity_before quantity_removed : pyval) : T () :=
  r ← process_run "cat /proc/cpuinfo" [];
  let cmd := stdout_text r in
  log_debug cmd ;;
  let found := re_findall false re_processor cmd in
  left ← lift (py_sub quantity_before quantity_removed);
  n ← attr "cpu_per_processor" tc_cpu_per_processor;
  expected ← lift (py_mul left (VInt n));
  let d_condition := py_eq (VInt (Z.of_nat (length found))) expected in
  check_log "Checking if /proc/cpuinfo shows all processors correctly." (VBool d_condition) true ;;
  mret ().

(** [if not self.log.check_log(msg, cond, False)]: logs and tells whether it failed. *)
Definition check_failed (msg : string) (cond : bool) : T bool :=
  r ← check_log msg (VBool cond) false; mret (negb (truthy r)).

(** [self.log.error(e_msg); raise TestException(e_msg)] *)
Definition log_and_raise (e_msg : string) : T () :=
  log_error e_msg ;; throw TestException e_msg.

(** [raise TestException()]: the constructor requires [value], so what is raised is
    the [TypeError] of the call. *)
Definition raise_TestException_without_value : T () :=
  throw TypeError "TestException.__init__() missing 1 required positional argument: 'value'".

(** [TestCase.Dlpar_cpu_validation]; [info] is a value before the operation, or the
    list of the two values before a move. *)
Definition Dlpar_cpu_validation (flag : string) (l : lpars) (quantity info : pyval)
    (res : cmd_result) : T () :=
  if String.eqb flag "a" then
    q ← lift (fmt_d quantity);
    m ← the_lpar l;
    let part := py_str (mc_partition m) in
    let a_msg := "Adding " +:+ q +:+ " dedicated cpus to partition " +:+ part +:+ "." in
    now ← cpu_option_int m "curr_procs";
    expected ← lift (py_add info quantity);
    failed ← check_failed a_msg (py_eq (VInt now) expected);
    when failed
      (log_and_raise ("Error adding " +:+ q +:+ " dedicated cpus to partition " +:+ part +:+ "."))
  else if String.eqb flag "r" then
    m ← the_lpar l;
    let q := py_str quantity in
    let part := py_str (mc_partition m) in
    let r_msg := "Removing " +:+ q +:+ " dedicated cpus from partition " +:+ part +:+ "." in
    now ← cpu_option_int m "curr_procs";
    expected ← lift (py_sub info quantity);
    failed ← check_failed r_msg (py_eq (VInt now) expected);
    when failed
      (log_and_raise ("Error removing " +:+ q +:+ " dedicated cpus from partition " +:+ part +:+ "."))
  else if String.eqb flag "m" then
    m1 ← lpar_at l 0;
    m2 ← lpar_at l 1;
    let m_msg := "Moving " +:+ py_str quantity +:+ " dedicated cpus from " +:+
                 py_str (mc_partition m1) +:+ " to " +:+ py_str (mc_partition m2) +:+ "." in
    now1 ← cpu_option_int m1 "curr_procs";
    info1 ← lift (py_getitem info 0);
    expected1 ← lift (py_sub info1 quantity);
    m_condition ←
      (if py_eq (VInt now1) expected1 then
         now2 ← cpu_option_int m2 "curr_procs";
         info2 ← lift (py_getitem info 1);
         expected2 ← lift (py_add info2 quantity);
         mret (py_eq (VInt now2) expected2)
       else mret false);
    failed ← check_failed m_msg m_condition;
    when failed
      (log_error "Error happened when moving cpu" ;; raise_TestException_without_value) ;;
    linux_check_rm_cpu m1 info1 quantity ;;
    linux_check_add_cpu m2 quantity
  else if String.eqb flag "cpu_a" then
    m ← the_lpar l;
    let q := py_str quantity in
    let part := py_str (mc_partition m) in
    let a_msg := "Adding " +:+ q +:+ " proc units to partition " +:+ part +:+ "." in
    now ← get_cpu_option m "curr_proc_units";
    expected ← lift (py_add info quantity);
    failed ← check_failed a_msg (String.eqb now (py_str expected));
    when failed
      (log_and_raise ("Error adding " +:+ q +:+ " proc units to partition " +:+ part +:+ "."))
  else if String.eqb flag "cpu_r" then
    m ← the_lpar l;
    let q := py_str quantity in
    let part := py_str (mc_partition m) in
    let r_msg := "Removing " +:+ q +:+ " proc units from partition " +:+ part +:+ "." in
    now ← get_cpu_option m "curr_proc_units";
    expected ← lift (py_sub info quantity);
    failed ← check_failed r_msg (String.eqb now (py_str expected));
    when failed
      (log_and_raise ("Error removing " +:+ q +:+ " proc units from partition " +:+ part +:+ "."))
  else if String.eqb flag "cpu_m" then
    m1 ← lpar_at l 0;
    m2 ← lpar_at l 1;
    let m_msg := "Moving " +:+ py_str quantity +:+ " proc units from " +:+
                 py_str (mc_partition m1) +:+ " to " +:+ py_str (mc_partition m2) +:+ "." in
    cpu_option_float m1 "curr_proc_units" ;;
    cpu_option_float m2 "curr_proc_units" ;;
    now1 ← get_cpu_option m1 "curr_proc_units";
    info1 ← lift (py_getitem info 0);
    expected1 ← lift (py_sub info1 quantity);
    m_condition ←
      (if String.eqb now1 (py_str expected1) then
         now2 ← get_cpu_option m2 "curr_proc_units";
         info2 ← lift (py_getitem info 1);
         expected2 ← lift (py_add info2 quantity);
         mret (String.eqb now2 (py_str expected2))
       else mret false);
    failed ← check_failed m_msg m_condition;
    when failed (log_and_raise m_msg)
  else mret ().

(** [TestCase.Dlpar_mem_validation] *)
Definition Dlpar_mem_validation (flag : string) (l : lpars) (quantity info : pyval)
    (res : cmd_result) : T () :=
  if String.eqb flag "a" then
    q ← lift (fmt_d quantity);
    m ← the_lpar l;
    let part := py_str (mc_partition m) in
    let a_msg := "Adding " +:+ q +:+ " memory to partition " +:+ part +:+ "." in
    now ← mem_option_int m "curr_mem";
    expected ← lift (py_add info quantity);
    failed ← check_failed a_msg (py_eq (VInt now) expected);
    when failed
      (log_and_raise ("Error adding " +:+ q +:+ " memory to partition " +:+ part +:+ "."))
  else if String.eqb flag "r" then
    m ← the_lpar l;
    let q := py_str quantity in
    let part := py_str (mc_partition m) in
    let r_msg := "Removing " +:+ q +:+ " memory from partition " +:+ part +:+ "." in
    now ← mem_option_int m "curr_mem";
    expected ← lift (py_sub info quantity);
    failed ← check_failed r_msg (py_eq (VInt now) expected);
    when failed
      (log_and_raise ("Error removing " +:+ q +:+ " memory from partition " +:+ part +:+ "."))
  else if String.eqb flag "m" then
    m1 ← lpar_at l 0;
    m2 ← lpar_at l 1;
    let m_msg := "Moving " +:+ py_str quantity +:+ " memory from " +:+
                 py_str (mc_partition m1) +:+ " to " +:+ py_str (mc_partition m2) +:+ "." in
    now1 ← mem_option_int m1 "curr_mem";
    info1 ← lift (py_getitem info 0);
    expected1 ← lift (py_sub info1 quantity);
    m_condition ←
      (if py_eq (VInt now1) expected1 then
         now2 ← mem_option_int m2 "curr_mem";
         info2 ← lift (py_getitem info 1);
         expected2 ← lift (py_add info2 quantity);
         mret (py_eq (VInt now2) expected2)
       else mret false);
    failed ← check_failed m_msg m_condition;
    when failed
      (log_error "Error happened when moving memory" ;; raise_TestException_without_value)
  else mret ().

(** The value of [add_ded_cpu] and its like: 1 is passed on, anything else is 0. *)
Definition op_value (rvalue : pyval) : T Z :=
  if py_eq rvalue (VInt 1) then mret 1
  else log_info "Test finished successfully." ;; mret 0.

(** [self.cmd_result.stdout_text != ""] *)
Definition hmc_complained : T bool :=
  r ← attr "cmd_result" tc_cmd_result; mret (negb (String.eqb (stdout_text r) "")).

(** The wait after an operation. *)
Definition settle : T () :=
  v ← gets tc_sleep_time;
  log_debug ("Sleeping for " +:+ py_str v +:+ " seconds before proceeding") ;;
  sleep v.

(** ** DedicatedCpu *)

(** [DedicatedCpu.__check_set_cfg] *)
Definition DedicatedCpu_check_set_cfg (m : machine) : T () :=
  let part := py_str (mc_partition m) in
  log_info ("Checking partition '" +:+ part +:+ "' configuration.") ;;
  log_debug ("Machine: " +:+ py_str (mc_name m)) ;;
  curr_proc_mode ← get_cpu_option m "curr_proc_mode";
  log_info ("DEBUG: curr_proc_node " +:+ curr_proc_mode) ;;
  check_log ("Checking if linux partition '" +:+ part +:+ "' is at dedicated mode")
    (VBool (String.eqb curr_proc_mode "ded")) true ;;
  curr_min_procs ← cpu_option_int m "curr_min_procs";
  curr_procs ← cpu_option_int m "curr_procs";
  log_debug ("curr_min_procs: " +:+ py_str_Z curr_min_procs) ;;
  log_debug ("curr_procs: " +:+ py_str_Z curr_procs) ;;
  log_info ("Configuration settings for partition " +:+ part +:+ " all correct.").

(** [DedicatedCpu.__init__] *)
Definition DedicatedCpu_init (c : payload) : T () :=
  TestCase_init "dedicated_cpu.log" "Dedicated CPU" c ;;
  let quant := cfg_get "ded_quantity_to_test" c in
  modify (set_quant_to_test quant) ;;
  modify (set_sleep_time (cfg_get "sleep_time" c)) ;;
  check_log "Getting Test configuration." (VBool (negb (is_None quant))) true ;;
  log_debug ("Testing with " +:+ py_str quant +:+ " Dedicated CPU units.") ;;
  v ← get_connections c "both";
  modify (set_value v) ;;
  m1 ← attr "linux_1" tc_linux_1;
  DedicatedCpu_check_set_cfg m1 ;;
  m2 ← attr "linux_2" tc_linux_2;
  DedicatedCpu_check_set_cfg m2.

Definition get_max_proc : T Z :=
  m ← attr "linux_1" tc_linux_1; cpu_option_int m "curr_max_procs".
Definition get_curr_proc : T Z :=
  m ← attr "linux_1" tc_linux_1; cpu_option_int m "curr_procs".

(** [DedicatedCpu.__add_dedicated_cpu]: 1 when the HMC printed something, else None. *)
Definition add_dedicated_cpu (m : machine) (quantity : pyval) : T pyval :=
  curr_procs_before ← cpu_option_int m "curr_procs";
  v ← gets tc_sleep_time;
  sleep v ;;
  r ← Dlpar_engine "proc" "a" "--procs" (One m) quantity;
  modify (set_cmd_result r) ;;
  settle ;;
  complained ← hmc_complained;
  if complained : bool then mret (VInt 1)
  else
    r ← attr "cmd_result" tc_cmd_result;
    Dlpar_cpu_validation "a" (One m) quantity (VInt curr_procs_before) r ;;
    mret VNone.

(** [DedicatedCpu.__move_dedicated_cpu] *)
Definition move_dedicated_cpu (m1 m2 : machine) (quantity : pyval) : T pyval :=
  before_1 ← cpu_option_int m1 "curr_procs";
  before_2 ← cpu_option_int m2 "curr_procs";
  r ← Dlpar_engine "proc" "m" "--procs" (Pair m1 m2) quantity;
  modify (set_cmd_result r) ;;
  complained ← hmc_complained;
  if complained : bool then mret (VInt 1)
  else
    settle ;;
    r ← attr "cmd_result" tc_cmd_result;
    Dlpar_cpu_validation "m" (Pair m1 m2) quantity (VList [VInt before_1; VInt before_2]) r ;;
    mret VNone.

(** [DedicatedCpu.__remove_dedicated_cpu] *)
Definition remove_dedicated_cpu (m : machine) (quantity : pyval) : T pyval :=
  curr_procs_before ← cpu_option_int m "curr_procs";
  r ← Dlpar_engine "proc" "r" "--procs" (One m) quantity;
  modify (set_cmd_result r) ;;
  complained ← hmc_complained;
  if complained : bool then mret (VInt 1)
  else
    settle ;;
    r ← attr "cmd_result" tc_cmd_result;
    Dlpar_cpu_validation "r" (One m) quantity (VInt curr_procs_before) r ;;
    mret VNone.

Definition add_ded_cpu (cpu : pyval) : T Z :=
  m ← attr "linux_1" tc_linux_1;
  rvalue ← add_dedicated_cpu m cpu; op_value rvalue.
Definition rem_ded_cpu (cpu : pyval) : T Z :=
  m ← attr "linux_1" tc_linux_1;
  rvalue ← remove_dedicated_cpu m cpu; op_value rvalue.
Definition move_ded_cpu : T Z :=
  m1 ← attr "linux_1" tc_linux_1;
  m2 ← attr "linux_2" tc_linux_2;
  q ← gets tc_quant_to_test;
  rvalue ← move_dedicated_cpu m1 m2 q; op_value rvalue.

(** ** CpuUnit *)

(** [CpuUnit.__check_set_cfg] *)
Definition CpuUnit_check_set_cfg (m : machine) : T () :=
  let part := py_str (mc_partition m) in
  log_info ("Checking partition '" +:+ part +:+ "' configuration.") ;;
  log_debug ("Machine: " +:+ py_str (mc_name m)) ;;
  curr_proc_mode ← get_cpu_option m "curr_proc_mode";
  check_log ("Checking if linux partition '" +:+ part +:+ "' is at shared mode")
    (VBool (String.eqb curr_proc_mode "shared")) true ;;
  cpu_option_int m "curr_max_procs" ;;
  curr_min_proc_units ← cpu_option_float m "curr_min_proc_units";
  curr_max_proc_units ← cpu_option_float m "curr_max_proc_units";
  log_debug ("curr_min_proc_units: " +:+ py_repr_float curr_min_proc_units) ;;
  log_debug ("curr_max_proc_units: " +:+ py_repr_float curr_max_proc_units) ;;
  log_info ("Configuration settings for partition " +:+ part +:+ " all correct.").

(** [CpuUnit.__init__] *)
Definition CpuUnit_init (c : payload) : T () :=
  TestCase_init "cpu_unit.log" "CPU Unit" c ;;
  let quant := cfg_get "cpu_quantity_to_test" c in
  modify (set_quant_to_test quant) ;;
  modify (set_sleep_time (cfg_get "sleep_time" c)) ;;
  check_log "Getting Test configuration." (VBool (negb (is_None quant))) true ;;
  log_debug ("Testing with " +:+ py_str quant +:+ " CPU Units.") ;;
  v ← get_connections c "both";
  modify (set_value v) ;;
  m1 ← attr "linux_1" tc_linux_1;
  CpuUnit_check_set_cfg m1 ;;
  m2 ← attr "linux_2" tc_linux_2;
  CpuUnit_check_set_cfg m2.

Definition get_shared_max_proc : T Z :=
  m ← attr "linux_1" tc_linux_1; cpu_option_int m "curr_max_procs".
Definition get_shared_curr_proc : T Z :=
  m ← attr "linux_1" tc_linux_1; cpu_option_int m "curr_procs".
Definition get_max_proc_units : T float :=
  m ← attr "linux_1" tc_linux_1;
  f ← cpu_option_float m "curr_max_proc_units";
  ext (EvCall "print" [VStr "<class 'float'>"]) (λ w, (Ret (), w)) ;;
  mret f.
Definition get_curr_proc_unit : T float :=
  m ← attr "linux_1" tc_linux_1; cpu_option_float m "curr_proc_units".

(** [CpuUnit.__add_cpu_units] *)
Definition add_cpu_units (m : machine) (quantity : pyval) (flag : string) : T pyval :=
  units_before ← cpu_option_float m "curr_proc_units";
  procs_before ← cpu_option_int m "curr_procs";
  r ← Dlpar_engine "proc" "a" flag (One m) quantity;
  modify (set_cmd_result r) ;;
  complained ← hmc_complained;
  if complained : bool then mret (VInt 1)
  else
    settle ;;
    r ← attr "cmd_result" tc_cmd_result;
    (if String.eqb flag "--procs"
     then Dlpar_cpu_validation "a" (One m) quantity (VInt procs_before) r
     else Dlpar_cpu_validation "cpu_a" (One m) quantity (VFloat units_before) r) ;;
    mret VNone.

(** [self.log.debug(self.cmd_output)] *)
Definition log_cmd_output : T () :=
  r ← attr "cmd_output" tc_cmd_output; log_debug (env_show r).

(** [CpuUnit.__move_cpu_units] *)
Definition move_cpu_units (m1 m2 : machine) (quantity : pyval) : T pyval :=
  before_1 ← cpu_option_float m1 "curr_proc_units";
  before_2 ← cpu_option_float m2 "curr_proc_units";
  r ← Dlpar_engine "proc" "m" "--procunits" (Pair m1 m2) quantity;
  modify (set_cmd_output r) ;;
  complained ← hmc_complained;
  if complained : bool then mret (VInt 1)
  else
    log_cmd_output ;;
    settle ;;
    r ← attr "cmd_output" tc_cmd_output;
    Dlpar_cpu_validation "cpu_m" (Pair m1 m2) quantity
      (VList [VFloat before_1; VFloat before_2]) r ;;
    mret VNone.

(** [CpuUnit.__remove_cpu_units] *)
Definition remove_cpu_units (m : machine) (quantity : pyval) (flag : string) : T pyval :=
  units_before ← cpu_option_float m "curr_proc_units";
  procs_before ← cpu_option_int m "curr_procs";
  r ← Dlpar_engine "proc" "r" flag (One m) quantity;
  modify (set_cmd_output r) ;;
  complained ← hmc_complained;
  if complained : bool then mret (VInt 1)
  else
    log_cmd_output ;;
    settle ;;
    (if String.eqb flag "--procs" then
       r ← attr "cmd_result" tc_cmd_result;
       Dlpar_cpu_validation "r" (One m) quantity (VInt procs_before) r
     else
       r ← attr "cmd_output" tc_cmd_output;
       Dlpar_cpu_validation "cpu_r" (One m) quantity (VFloat units_before) r) ;;
    mret VNone.

Definition add_proc (cpu : pyval) (flag : string) : T Z :=
  m ← attr "linux_1" tc_linux_1;
  rvalue ← add_cpu_units m cpu flag; op_value rvalue.
Definition remove_proc (cpu : pyval) (flag : string) : T Z :=
  m ← attr "linux_1" tc_linux_1;
  rvalue ← remove_cpu_units m cpu flag; op_value rvalue.
Definition move_proc : T Z :=
  m1 ← attr "linux_1" tc_linux_1;
  m2 ← attr "linux_2" tc_linux_2;
  q ← gets tc_quant_to_test;
  rvalue ← move_cpu_units m1 m2 q; op_value rvalue.

(** ** Memory *)

(** [Memory.__check_set_cfg] *)
Definition Memory_check_set_cfg (m : machine) (flag : option string) : T () :=
  let part := py_str (mc_partition m) in
  log_info ("Checking partition '" +:+ part +:+ "' configuration.") ;;
  log_debug ("Machine: " +:+ py_str (mc_name m)) ;;
  m_cmd ← lift (py_cat [VStr "lshwres -m "; mc_machine m;
                        VStr " --level sys -r mem -F curr_avail_sys_mem"]);
  r ← hmc_cmd m_cmd;
  curr_avail_sys_mem ← lift (py_int (VStr (py_strip (stdout_text r))));
  curr_max_mem ← mem_option_int m "curr_max_mem";
  curr_mem ← mem_option_int m "curr_mem";
  quant ← gets tc_quant_to_test;
  (if bool_decide (flag = Some "r"%string) then
     m_condition ← lift (py_le quant (VInt curr_mem));
     check_log "Checking if the system has enough available memory to remove."
       (VBool m_condition) true ;;
     left ← lift (py_sub (VInt curr_mem) quant);
     p_condition ← lift (py_le left (VInt curr_max_mem));
     check_log ("Checking if the system's profile supports " +:+ py_str left +:+ " of memory.")
       (VBool p_condition) true
   else
     m_condition ← lift (py_le quant (VInt curr_avail_sys_mem));
     check_log "Checking if the system has enough available memory to add."
       (VBool m_condition) true ;;
     total ← lift (py_add quant (VInt curr_mem));
     total' ← lift (py_add (VInt curr_mem) quant);
     p_condition ← lift (py_le total' (VInt curr_max_mem));
     check_log ("Checking if the system's profile supports " +:+ py_str total +:+ " of memory.")
       (VBool p_condition) true) ;;
  log_info ("Configuration data for LPAR " +:+ part +:+ " is OK.").

Definition is_AttributeError (c : exn_class) : bool := bool_decide (c = AttributeError).

(** [Memory.__init__] *)
Definition Memory_init (c : payload) (flag : option string) : T () :=
  TestCase_init "memory.log" "Memory" c ;;
  let quant := cfg_get "mem_quantity_to_test" c in
  modify (set_quant_to_test quant) ;;
  modify (set_sleep_time (cfg_get "sleep_time" c)) ;;
  v ← get_connections c "both";
  modify (set_value v) ;;
  let linux_machine := cfg_get "mem_linux_machine" c in
  (if py_eq linux_machine (VStr "primary") then
     get_connections c "primary" ;;
     m ← attr "linux_1" tc_linux_1; modify (set_linux m)
   else if py_eq linux_machine (VStr "secondary") then
     get_connections c "secondary" ;;
     m ← attr "linux_2" tc_linux_2; modify (set_linux m)
   else
     let e_msg_1 := "Invalid 'linux_machine' at the configuration file." in
     let e_msg_2 := "Please use either 'primary' or 'secondary'." in
     log_error e_msg_1 ;;
     log_error e_msg_2 ;;
     throw TestException (e_msg_1 +:+ " " +:+ e_msg_2)) ;;
  log_debug ("Testing with " +:+ py_str quant +:+ " megabytes of memory.") ;;
  check_log "Getting Test configuration." (VBool (negb (is_None quant))) true ;;
  try_except (m ← attr "linux_1" tc_linux_1; Memory_check_set_cfg m flag) is_AttributeError
    (λ _, log_debug "linux_1 not found, so not checking it.") ;;
  try_except (m ← attr "linux_2" tc_linux_2; Memory_check_set_cfg m flag) is_AttributeError
    (λ _, log_debug "linux_2 not found, so not checking it.").

Definition get_max_mem : T Z := m ← attr "linux" tc_linux; mem_option_int m "curr_max_mem".
Definition get_curr_mem : T Z := m ← attr "linux" tc_linux; mem_option_int m "curr_mem".
Definition get_lmb_size : T Z :=
  m ← attr "linux" tc_linux;
  s ← get_lmb_value m "mem_region_size"; lift (py_int (VStr s)).

(** [Memory.__add_memory] *)
Definition add_memory (m : machine) (quantity : pyval) : T pyval :=
  curr_mem_before ← mem_option_int m "curr_mem";
  r ← Dlpar_engine "mem" "a" "-q" (One m) quantity;
  modify (set_cmd_result r) ;;
  complained ← hmc_complained;
  if complained : bool then mret (VInt 1)
  else
    settle ;;
    r ← attr "cmd_result" tc_cmd_result;
    Dlpar_mem_validation "a" (One m) quantity (VInt curr_mem_before) r ;;
    mret VNone.

(** [Memory.__remove_memory] *)
Definition remove_memory (m : machine) (quantity : pyval) : T pyval :=
  curr_mem_before ← mem_option_int m "curr_mem";
  r ← Dlpar_engine "mem" "r" "-q" (One m) quantity;
  modify (set_cmd_result r) ;;
  complained ← hmc_complained;
  if complained : bool then mret (VInt 1)
  else
    settle ;;
    r ← attr "cmd_result" tc_cmd_result;
    Dlpar_mem_validation "r" (One m) quantity (VInt curr_mem_before) r ;;
    mret VNone.

(** [Memory.__move_memory] *)
Definition move_memory (m1 m2 : machine) (quantity : pyval) : T pyval :=
  before_1 ← mem_option_int m1 "curr_mem";
  before_2 ← mem_option_int m2 "curr_mem";
  r ← Dlpar_engine "mem" "m" "-q" (Pair m1 m2) quantity;
  modify (set_cmd_result r) ;;
  complained ← hmc_complained;
  if complained : bool then mret (VInt 1)
  else
    v ← gets tc_sleep_time;
    log_debug ("Going to sleep for " +:+ py_str v +:+ " s") ;;
    sleep v ;;
    r ← attr "cmd_result" tc_cmd_result;
    Dlpar_mem_validation "m" (Pair m1 m2) quantity (VList [VInt before_1; VInt before_2]) r ;;
    mret VNone.

Definition mem_add (mem : pyval) : T Z :=
  m ← attr "linux" tc_linux;
  rvalue ← add_memory m mem; op_value rvalue.
Definition mem_rem (mem : pyval) : T Z :=
  m ← attr "linux" tc_linux;
  rvalue ← remove_memory m mem; op_value rvalue.
Definition mem_move : T Z :=
  m1 ← attr "linux_1" tc_linux_1;
  m2 ← attr "linux_2" tc_linux_2;
  q ← gets tc_quant_to_test;
  rvalue ← move_memory m1 m2 q; op_value rvalue.
End api.
