(* ===== verification/DlparTests.v ===== *)
(** * The DLPAR tests: dlpar/dlpar_main.py

    The payload computations (which sizes are added or removed, in which order) and
    the test methods of [DlparTests], which drive the objects of [DlparApi]. *)

From S2P Require Import Prelude PyStr PyFloat PyVal PyRegex Avocado Logic DlparApi.
Open Scope Z_scope.

(** ** Payload computations *)

(** The loop of [cpu_payload_data]: [None] when the fuel runs out. *)
Fixpoint cpu_payload_loop (fuel : nat) (max_value step current_sum index : num)
    : option (result (list num)) :=
  match fuel with
  | O => None
  | S f =>
      match num_add current_sum index with
      | Raise e => Some (Raise e)
      | Ret next =>
          if num_lt max_value next then Some (Ret [])
          else match num_add index step with
               | Raise e => Some (Raise e)
               | Ret index' =>
                   r ← cpu_payload_loop f max_value step next index';
                   Some (l ← r; Ret (index :: l))
               end
      end
  end.

Definition nonzero (n : num) : bool := negb (num_is_zero n).

Definition float_zero : num := NFloat (S754_zero false).

(** [cpu_payload_data] *)
Definition cpu_payload_data (fuel : nat) (max_value curr_proc step : num)
    : option (result (list num)) :=
  r ← cpu_payload_loop fuel max_value step curr_proc float_zero;
  Some (l ← r; Ret (List.filter nonzero l)).

(** The iterations allowed: more than the distance to the maximum. *)
Definition cpu_payload_fuel (max_value curr_proc : num) : nat :=
  match num_int max_value, num_int curr_proc with
  | Ret m, Ret c => Z.to_nat (2 * Z.max 0 (m - c) + 10)
  | _, _ => 10
  end.

(** The loop of [mem_payload_data] *)
Fixpoint mem_payload_loop (fuel : nat) (max_value current_sum index_value : num)
    : option (result (list num)) :=
  match fuel with
  | O => None
  | S f =>
      match num_add current_sum index_value with
      | Raise e => Some (Raise e)
      | Ret next =>
          if num_le next max_value then
            match num_sub max_value next with
            | Raise e => Some (Raise e)
            | Ret remaining =>
                if num_le remaining (NInt 0) then Some (Ret [index_value])
                else if num_lt remaining index_value then
                  r ← mem_payload_loop f max_value next remaining;
                  Some (l ← r; Ret (index_value :: l))
                else
                  match num_mul index_value (NInt 2) with
                  | Raise e => Some (Raise e)
                  | Ret doubled =>
                      let index' := if num_lt remaining doubled then remaining else doubled in
                      r ← mem_payload_loop f max_value next index';
                      Some (l ← r; Ret (index_value :: l))
                  end
            end
          else Some (Ret [])
      end
  end.

(** The literals 0.4, 0.8, 0.75 and 0.05. *)
Definition lit_0_4 : num := NFloat (fl_decimal 4 (-1)).
Definition lit_0_8 : num := NFloat (fl_decimal 8 (-1)).
Definition lit_0_75 : num := NFloat (fl_decimal 75 (-2)).
Definition lit_0_05 : num := NFloat (fl_decimal 5 (-2)).

(** The maximum [mem_payload_data] takes when none is given: 40% or 80% of the
    memory, and then up to the next multiple of the block size. *)
Definition mem_payload_max (idle : bool) (curr_mem lmb : num) : result num :=
  m ← num_mul curr_mem (if idle then lit_0_8 else lit_0_4);
  r ← num_mod m lmb;
  d ← num_sub lmb r;
  num_add m d.

(** The iterations allowed: the blocks that fit, and a few. *)
Definition mem_payload_fuel (max_value lmb : num) : nat :=
  match num_int max_value, num_int lmb with
  | Ret m, Ret l => Z.to_nat (Z.max 0 m / Z.max 1 l + 10)
  | _, _ => 10
  end.

(** A loop that ran out of its iterations; the theorems show it does not happen. *)
Definition out_of_fuel {A} : result A := raise_ OtherError "out of fuel".
Definition fuelled {A} (o : option (result A)) : result A :=
  match o with Some r => r | None => out_of_fuel end.

(** [i = int(i * 0.8); i += lmb - (i % lmb)] *)
Definition mem_rem_size (lmb : Z) (add : num) : result Z :=
  x ← num_mul add lit_0_8;
  i ← num_int x;
  r ← num_mod (NInt i) (NInt lmb);
  d ← num_int r;
  Ret (i + (lmb - d)).

Fixpoint result_map {A B} (f : A → result B) (l : list A) : result (list B) :=
  match l with
  | [] => Ret []
  | x :: l' => y ← f x; ys ← result_map f l'; Ret (y :: ys)
  end.

(** ** The file config.txt *)

(** [str(payload_data)] and [eval(str(line))] of a list of number literals. *)
Definition num_list_repr (l : list num) : string := py_repr (VList (map of_num l)).

Definition eval_num (l : chars) : option num :=
  match int_of_chars l with
  | Some z => Some (NInt z)
  | None => NFloat <$> py_float_of_str (str_of l)
  end.

Definition eval_list (s : string) : result (list num) :=
  let l := strip_chars is_space (chars_of s) in
  let bad := raise_ OtherError "SyntaxError" in
  match l with
  | [] => bad
  | c :: l' =>
      if Ascii.eqb c "[" then
        match rev l' with
        | d :: body =>
            if Ascii.eqb d "]" then
              match strip_chars is_space (rev body) with
              | [] => Ret []
              | items => match mapM eval_num (pieces (Ascii.eqb ",") items) with
                         | Some ns => Ret ns
                         | None => bad
                         end
              end
            else bad
        | [] => bad
        end
      else bad
  end.

(** ** The test class *)

(** The attributes the tests read. *)
Record dlpar_tests := DlparSelf {
  dt_lpar_mode : pyval;
  dt_sorted_payload : payload;
  dt_iterations : pyval;
}.

Definition list_payload : list string :=
  ["cfg_cpu_per_proc"; "hmc_manageSystem"; "hmc_user"; "hmc_passwd"; "target_lpar_hostname";
   "target_partition"; "target_user"; "target_passwd"; "ded_quantity_to_test"; "sleep_time";
   "iterations"; "vir_quantity_to_test"; "cpu_quantity_to_test"; "mem_quantity_to_test";
   "mem_linux_machine"]%string.

(** What else the tests call: [wait.wait_for] and the [SoftwareManager] of avocado, [os.chmod]. *)
Class DlparLib (W : Type) := {
  wait_for : ∀ {S}, M W S string → Z → M W S (option string);
  smm_check_installed : string → W → result bool * W;
  smm_install : string → W → result bool * W;
  os_chmod : string → Z → W → result () * W;
}.

(** A library that asks once and has every package. *)
Definition simple_lib (W : Type) : DlparLib W := {|
  wait_for := λ S m _, s ← m; mret (Some s);
  smm_check_installed := λ _ w, (Ret true, w);
  smm_install := λ _ w, (Ret true, w);
  os_chmod := λ _ _ w, (Ret (), w);
|}.

(** The messages of the HMC that cancel a test. *)
Definition capacity_messages : list string :=
  ["The operation failed because the ratio of assigned processing units to assigned virtual processors";
   "processing units to exceed the maximum capacity allowed with the virtual processor setting";
   "The quantity to be added exceeds the available resources.";
   "Your memory request exceeds the profile's Maximum memory limit.";
   "Your memory request is below the profile’s Minimum memory limit.";
   "Not enough memory resources to meet the allocation setting"]%string.

Section tests.
Context {W : Type} {HE : Env W} {HL : DlparLib W}.
Abbreviation T := (M W dlpar_tests).

(** A line of the output of a command: the numbers of errors and of warnings. *)
Definition count_line (b : Z * Z) (line : string) : T (Z * Z) :=
  let '(errors, warns) := b in
  if py_in "FAILED" line then log_info line ;; mret (errors + 1, warns)
  else if py_in "WARNING" line then log_info line ;; mret (errors, warns + 1)
  else mret (errors, warns).

(** [run_cmd]; the test object has no method [warn]. *)
Definition run_cmd (test_cmd dlpar_type_flag : string) : T () :=
  ext (EvCall "os.chmod" [VStr test_cmd; VInt 493]) (os_chmod test_cmd 493) ;;
  let cmd := if py_empty dlpar_type_flag then test_cmd else test_cmd +:+ " " +:+ dlpar_type_flag in
  r ← process_run cmd [Shell];
  '(errors, warns) ← for_acc (py_splitlines (stdout_text r)) (0, 0) count_line;
  if (errors =? 0) && (0 <? warns) then throw AttributeError "object has no attribute 'warn'"
  else
    when (0 <? errors)
      (log_warning ("number of warnings is " +:+ py_str_Z warns) ;; test_fail ("number of errors is " +:+ py_str_Z errors)).

(** [get_mcp_component] *)
Definition get_mcp_component {S} (component : string) : M W S string :=
  out ← process_system_output ("lsrsrc IBM.MCP " +:+ component) [IgnoreStatus; Shell; Sudo];
  match List.find (λ line, py_in component line) (py_splitlines out) with
  | Some line =>
      match last_opt (py_split line) with
      | Some w => mret (py_strip_of ("{}" +:+ DQ) w)
      | None => throw IndexError "list index out of range"
      end
  | None => mret ""
  end.

(** [r'\s*Hostname:\s*(\S+)'] *)
Definition re_hostname : re :=
  (RStar Rspace ~> RLit "Hostname:" ~> RStar Rspace ~> RGroup 1 (RPlus Rnonspace))%re.

(** [get_hmc_from_mcproxy] *)
Definition get_hmc_from_mcproxy {S} : M W S string :=
  out ← process_system_output "lssrc -ls mcproxy" [IgnoreStatus; Shell; Sudo];
  mret (match list_find is_Some (map (re_match re_hostname) (py_splitlines out)) with
        | Some (_, Some m) => m_group 1 m
        | _ => ""
        end).

(** [get_partition_name] *)
Definition get_partition_name {S} (component : string) : M W S string :=
  out ← process_system_output "lparstat -i" [IgnoreStatus; Shell; Sudo];
  match List.find (λ line, py_in component line) (py_splitlines out) with
  | Some line =>
      let a := py_strip (default "" (last_opt (py_split_on ":" line))) in
      ext (EvCall "print" [VStr a]) (λ w, (Ret (), w)) ;;
      mret a
  | None => mret ""
  end.

(** [data_payload_backup] and [data_payload_extract] *)
Definition data_payload_backup (l : list num) : T () :=
  ext (EvCall "append" [VStr "config.txt"; VStr (num_list_repr l +:+ NL)])
    (env_append "config.txt" (num_list_repr l +:+ NL)).
Definition data_payload_extract : T (list string) :=
  s ← read_file "config.txt"; mret (readlines s).
(** [eval(str(lines[i]))] *)
Definition eval_line (lines : list string) (i : nat) : T (list num) :=
  match lines !! i with
  | Some s => lift (eval_list s)
  | None => throw IndexError "list index out of range"
  end.

(** The loop of [mix_payload_data]: every draw is at least 1. *)
Fixpoint mix_loop (fuel : nat) (remaining : Z) : T (list Z) :=
  if 0 <? remaining then
    match fuel with
    | O => lift out_of_fuel
    | S f =>
        value ← randint 1 remaining;
        r ← mix_loop f (remaining - value);
        mret (value :: r)
    end
  else mret [].

(** [mix_payload_data] *)
Definition mix_payload_data (values : list num) : T (list Z) :=
  s ← lift (num_sum (NInt 0) values);
  total_sum ← lift (num_int s);
  mix_loop (Z.to_nat total_sum) total_sum.

(** [mem_payload_data] *)
Definition mem_payload_data (curr_mem lmb max_value : Z) : T (list num) :=
  if max_value =? 0 then
    out ← process_system_output "htxcmdline -query  -mdt mdt.*" [IgnoreStatus];
    m ← lift (mem_payload_max (py_in "IDLE" out) (NInt curr_mem) (NInt lmb));
    lift (fuelled (mem_payload_loop (mem_payload_fuel m (NInt lmb)) m (NInt 0) (NInt lmb)))
  else
    lift (fuelled (mem_payload_loop (mem_payload_fuel (NInt (max_value - curr_mem)) (NInt lmb))
                     (NInt max_value) (NInt curr_mem) (NInt lmb))).

(** [setUp] *)
Definition setUp : T () :=
  lpar_mode ← get_param "lp_mode" (VStr "dedicated");
  let res : payload := list_to_map (map (λ k, (k, env_param k (VStr ""))) list_payload) in
  found ← wait_for (get_mcp_component "HMCIPAddr") 30;
  hmc_ip ←
    (if truthy (VStr (default "" found)) then mret (default "" found)
     else
       log_info ("HMCIPAddr not found via lsrsrc IBM.MCP, " +:+
                 "falling back to lssrc -ls mcproxy for hostname") ;;
       get_hmc_from_mcproxy);
  pri_partition ← get_partition_name "Partition Name";
  pri_name ← get_partition_name "Node Name";
  let pri_data : payload :=
    list_to_map [("src_partition", VStr pri_partition); ("src_name", VStr pri_name);
                 ("hmc_name", VStr hmc_ip)]%string in
  log_info "Calling Config file creation method--!!" ;;
  let sorted_payload := res ∪ pri_data in
  modify (λ _, DlparSelf lpar_mode sorted_payload (cfg_get "iterations" sorted_payload)).

(** [_cancel_on_capacity_exceeded] *)
Definition cancel_on_capacity_exceeded (stdout : string) : T () :=
  if negb (truthy (VStr stdout)) then mret ()
  else when (existsb (λ m, py_in m stdout) capacity_messages) (test_cancel stdout).

(** What follows every operation of the tests:
    [if rvalue == 1: stdout = obj.cmd_result.stdout_text;
     self._cancel_on_capacity_exceeded(stdout); self.fail(msg)] *)
Definition check_op (obj : testcase) (rvalue : Z) (msg : string) : T () :=
  when (rvalue =? 1)
    ('(r, _) ← call_on obj (attr "cmd_result" tc_cmd_result);
     cancel_on_capacity_exceeded (stdout_text r) ;;
     test_fail msg).

(** An operation of the object, checked and logged; the object in its new state. *)
Definition do_op (obj : testcase) (m : M W testcase Z) (fail_msg log_msg : string) : T testcase :=
  '(rvalue, obj') ← call_on obj m;
  check_op obj' rvalue fail_msg ;;
  log_info log_msg ;;
  mret obj'.

(** [DedicatedCpu(self.sorted_payload, log=..)] and its like *)
Definition new_obj (init : payload → M W testcase ()) : T testcase :=
  c ← gets dt_sorted_payload;
  '(_, obj) ← call_on new_testcase (init c);
  mret obj.

Definition mode_is (mode : string) : T bool :=
  v ← gets dt_lpar_mode; mret (py_eq v (VStr mode)).

Definition Z_repr_list (l : list Z) : string := py_repr (VList (map VInt l)).

Definition msg_cpu_add : string := "CPU add Command failed please check the logs".
Definition msg_units_add : string := "proc_units add Command failed please check the logs".
Definition msg_cpu_rm : string := "CPU remove Command failed please                               check the logs".
Definition msg_Cpu_rm : string := "Cpu remove Command failed please                               check the logs".
Definition msg_Cpu_rm_mix : string := "Cpu remove Command failed                               please check the logs".
Definition msg_units_rm : string := "proc units remove Command failed                               please check the logs".

(** ** CPU tests *)

(** The dedicated branch of [test_cpu_add]. *)
Definition test_cpu_add_dedicated : T () :=
  obj ← new_obj DedicatedCpu_init;
  '(max_procs, obj) ← call_on obj get_max_proc;
  '(curr_proc, obj) ← call_on obj get_curr_proc;
  cpu_payload ← lift (fuelled (cpu_payload_data (cpu_payload_fuel (NInt max_procs) (NInt curr_proc))
                                 (NInt max_procs) (NInt curr_proc) (NInt 1)));
  data_payload_backup cpu_payload ;;
  log_info ("======list of cpu's to be added :" +:+ num_list_repr cpu_payload +:+ "======") ;;
  for_acc cpu_payload obj (λ obj cpu,
    n ← lift (num_int cpu);
    do_op obj (add_ded_cpu (VInt n)) msg_cpu_add
      ("===============> " +:+ num_str cpu +:+ " cpu got added=======>" +:+ NL +:+ " ")) ;;
  mret ().

(** The pairs of processing units and virtual processors of the shared branch whose
    ratio is between 0.05 and 1: the lists [Pu] and [Vp]. *)
Fixpoint shared_pairs (proc_units virtual_procs : list num) : result (list (num * Z)) :=
  match proc_units, virtual_procs with
  | u :: us, v :: vs =>
      r ← num_div u v;
      if num_le lit_0_05 r && num_le r (NInt 1)
      then vz ← num_int v; l ← shared_pairs us vs; Ret ((u, vz) :: l)
      else shared_pairs us vs
  | _, _ => Ret []
  end.

(** The shared branch of [test_cpu_add]. *)
Definition test_cpu_add_shared : T () :=
  obj ← new_obj CpuUnit_init;
  '(max_proc_units, obj) ← call_on obj get_max_proc_units;
  log_info ("max proc units: " +:+ py_repr_float max_proc_units) ;;
  '(curr_proc_units, obj) ← call_on obj get_curr_proc_unit;
  log_info ("current proc units :" +:+ py_repr_float curr_proc_units) ;;
  '(max_procs, obj) ← call_on obj get_shared_max_proc;
  log_info ("max proc value:" +:+ py_str_Z max_procs) ;;
  '(curr_proc, obj) ← call_on obj get_shared_curr_proc;
  log_info ("current proc value :" +:+ py_str_Z curr_proc) ;;
  let payload_of max curr step :=
    lift (fuelled (cpu_payload_data (cpu_payload_fuel max curr) max curr step)) in
  virtual_procs ← payload_of (NInt max_procs) (NInt curr_proc) (NInt (if 20 <? max_procs then 2 else 1));
  proc_units ← payload_of (NFloat max_proc_units) (NFloat curr_proc_units) lit_0_75;
  let k := Nat.min (length proc_units) (length virtual_procs) in
  let proc_units := take k proc_units in
  let virtual_procs := take k virtual_procs in
  log_info ("proc units list: " +:+ num_list_repr proc_units) ;;
  log_info ("virtual procs list: " +:+ num_list_repr virtual_procs) ;;
  pairs ← lift (shared_pairs proc_units virtual_procs);
  data_payload_backup (map (λ x, NInt (snd x)) pairs) ;;
  data_payload_backup (map fst pairs) ;;
  for_acc pairs obj (λ obj '(pu, vp),
    obj ← do_op obj (add_proc (of_num pu) "--procunits") msg_units_add
            ("====>" +:+ num_str pu +:+ " procunits got added====>" +:+ NL +:+ " ");
    do_op obj (add_proc (VInt vp) "--procs") msg_cpu_add
      ("===============>" +:+ py_str_Z vp +:+ " cpus got added=======>" +:+ NL +:+ " ")) ;;
  mret ().

(** [test_cpu_add] *)
Definition test_cpu_add : T () :=
  dedicated ← mode_is "dedicated";
  if (dedicated : bool) then test_cpu_add_dedicated
  else shared ← mode_is "shared"; when shared test_cpu_add_shared.

(** [test_cpu_rm] *)
Definition test_cpu_rm_dedicated : T () :=
  obj ← new_obj DedicatedCpu_init;
  lines ← data_payload_extract;
  cpupayload ← eval_line lines 0;
  log_info ("list of cpu's to be removed :" +:+ num_list_repr cpupayload) ;;
  for_acc cpupayload obj (λ obj cpu,
    n ← lift (num_int cpu);
    do_op obj (rem_ded_cpu (VInt n)) msg_cpu_rm
      ("=====> " +:+ num_str cpu +:+ " cpus got removed====>" +:+ NL +:+ " ")) ;;
  mret ().

Definition test_cpu_rm_shared : T () :=
  obj ← new_obj CpuUnit_init;
  lines ← data_payload_extract;
  Vp ← eval_line lines 0;
  Pu ← eval_line lines 1;
  for_acc (zip (rev Vp) (rev Pu)) obj (λ obj '(vp, pu),
    obj ← do_op obj (remove_proc (of_num vp) "--procs") msg_Cpu_rm
            ("====>" +:+ num_str vp +:+ " cpu got removed====>" +:+ NL +:+ " ");
    do_op obj (remove_proc (of_num pu) "--procunits") msg_units_rm
      ("===============>" +:+ num_str pu +:+ " procunits got removed=======>" +:+ NL +:+ " ")) ;;
  mret ().

Definition test_cpu_rm : T () :=
  dedicated ← mode_is "dedicated";
  if (dedicated : bool) then test_cpu_rm_dedicated
  else shared ← mode_is "shared"; when shared test_cpu_rm_shared.

(** [test_mix_cpu] *)
Definition test_mix_cpu_dedicated : T () :=
  obj ← new_obj DedicatedCpu_init;
  lines ← data_payload_extract;
  cpu_payload ← eval_line lines 0;
  cpu_mix ← mix_payload_data cpu_payload;
  let cpu_mix := cpu_mix ++ [Zsum cpu_mix] in
  log_info ("list of cpu's :" +:+ Z_repr_list cpu_mix) ;;
  for_acc cpu_mix obj (λ obj cpu,
    obj ← do_op obj (add_ded_cpu (VInt cpu)) msg_cpu_add
            ("===============>" +:+ py_str_Z cpu +:+ " cpus got added=======>" +:+ NL +:+ " ");
    do_op obj (rem_ded_cpu (VInt cpu)) msg_cpu_rm
      ("===============>" +:+ py_str_Z cpu +:+ " cpus got removed=======>" +:+ NL +:+ " ")) ;;
  mret ().

Definition test_mix_cpu_shared : T () :=
  obj ← new_obj CpuUnit_init;
  lines ← data_payload_extract;
  Vp ← eval_line lines 0;
  Pu ← eval_line lines 1;
  for_acc (zip Pu Vp) obj (λ obj '(pu, vp),
    n ← lift (num_int vp);
    obj ← do_op obj (add_proc (VInt n) "--procs") msg_cpu_add
            ("===============>" +:+ num_str vp +:+ " cpus got added=======>" +:+ NL +:+ " ");
    obj ← do_op obj (add_proc (of_num pu) "--procunits") msg_units_add
            ("====>" +:+ num_str pu +:+ " procunits got added====>" +:+ NL +:+ " ");
    obj ← do_op obj (remove_proc (of_num pu) "--procunits") msg_units_rm
            ("===============>" +:+ num_str pu +:+ " procunits got removed=======>" +:+ NL +:+ " ");
    n ← lift (num_int vp);
    do_op obj (remove_proc (VInt n) "--procs") msg_Cpu_rm_mix
      ("====>" +:+ num_str vp +:+ " cpu got removed====>" +:+ NL +:+ " ")) ;;
  mret ().

Definition test_mix_cpu : T () :=
  dedicated ← mode_is "dedicated";
  (if (dedicated : bool) then test_mix_cpu_dedicated
   else shared ← mode_is "shared"; when shared test_mix_cpu_shared) ;;
  ext (EvCall "os.remove" [VStr "config.txt"]) (env_remove "config.txt").

(** ** Memory tests *)

(** [test_mem_add] *)
Definition test_mem_add : T () :=
  obj ← new_obj (λ c, Memory_init c None);
  '(max_mem, obj) ← call_on obj get_max_mem;
  '(curr_mem, obj) ← call_on obj get_curr_mem;
  '(lmb_value, obj) ← call_on obj get_lmb_size;
  mem_payload ← mem_payload_data curr_mem lmb_value max_mem;
  log_info ("=====list of memory to be added=====:" +:+ num_list_repr mem_payload) ;;
  for_acc (removelast mem_payload) obj (λ obj mem,
    do_op obj (mem_add (of_num mem))
      (num_str mem +:+ " Memory add Command failed please check the logs")
      ("===============> " +:+ num_str mem +:+ " Memory got added=======>" +:+ NL +:+ " ")) ;;
  mret ().

(** [test_mem_rem] *)
Definition test_mem_rem : T () :=
  obj ← new_obj (λ c, Memory_init c (Some "r"%string));
  '(curr_mem, obj) ← call_on obj get_curr_mem;
  '(lmb_value, obj) ← call_on obj get_lmb_size;
  mem_remove ← mem_payload_data curr_mem lmb_value 0;
  log_info ("==list of memory values to be removed==:" +:+ num_list_repr mem_remove +:+ " ") ;;
  for_acc (removelast mem_remove) obj (λ obj mem,
    do_op obj (mem_rem (of_num mem))
      "Memory remove Command failed please check the logs"
      ("===============> " +:+ num_str mem +:+ " memory got removed=======>" +:+ NL +:+ " ")) ;;
  mret ().

(** [test_mem_mix] *)
Definition test_mem_mix : T () :=
  obj ← new_obj (λ c, Memory_init c None);
  '(max_mem, obj) ← call_on obj get_max_mem;
  log_info (py_str_Z max_mem) ;;
  '(curr_mem, obj) ← call_on obj get_curr_mem;
  '(lmb_value, obj) ← call_on obj get_lmb_size;
  log_info (py_str_Z lmb_value) ;;
  mem_adds ← mem_payload_data curr_mem lmb_value max_mem;
  log_info ("memory add list values: " +:+ num_list_repr mem_adds) ;;
  mem_rems ← lift (result_map (mem_rem_size lmb_value) mem_adds);
  log_info ("memory remove list values: " +:+ Z_repr_list mem_rems) ;;
  for_acc (zip mem_adds mem_rems) obj (λ obj '(add, rem),
    obj ← do_op obj (mem_add (of_num add)) "MEM add Command failed please check the logs"
            ("=====>" +:+ num_str add +:+ " memory got added====>" +:+ NL +:+ " ");
    do_op obj (mem_rem (VInt rem)) "MEM remove Command failed please check the logs"
      ("====>" +:+ py_str_Z rem +:+ " memory got removed====>" +:+ NL +:+ " ")) ;;
  mret ().

(** ** Moves *)

(** [range(self.iterations)] *)
Definition range_of (v : pyval) : result (list Z) :=
  match v with
  | VInt n => Ret (Zrange 0 n)
  | VBool b => Ret (Zrange 0 (if b then 1 else 0))
  | _ => raise_ TypeError "object cannot be interpreted as an integer"
  end.

Definition move_loop (obj : testcase) (move : M W testcase Z) (msg : string) : T () :=
  n ← gets dt_iterations;
  l ← lift (range_of n);
  for_acc l obj (λ obj _,
    '(rvalue, obj) ← call_on obj move;
    when (rvalue =? 1) (test_fail msg) ;;
    mret obj) ;;
  mret ().

(** [test_cpu_move] *)
Definition test_cpu_move : T () :=
  dedicated ← mode_is "dedicated";
  if (dedicated : bool) then
    obj ← new_obj DedicatedCpu_init;
    move_loop obj move_ded_cpu "CPU move Command failed please check the logs"
  else
    shared ← mode_is "shared";
    when shared
      (obj ← new_obj CpuUnit_init;
       move_loop obj move_proc "Proc move Command failed please check the logs").

(** [test_mem_mov] *)
Definition test_mem_mov : T () :=
  obj ← new_obj (λ c, Memory_init c None);
  '(rvalue_move, _) ← call_on obj mem_move;
  when (rvalue_move =? 1) (test_fail "Memory move Command failed please check the logs").

(** ** State of the processors across DLPAR operations *)

(** The packages the tests below need. *)
Definition smt_deps : list string := ["powerpc-utils"; "util-linux"]%string.

(** [if not smm.check_installed(p) and not smm.install(p): self.cancel(..)] *)
Definition need_package (package : string) : T () :=
  installed ← ext (EvCall "check_installed" [VStr package]) (smm_check_installed package);
  if (installed : bool) then mret ()
  else
    done ← ext (EvCall "install" [VStr package]) (smm_install package);
    when (negb done) (test_cancel (package +:+ " is needed for the test to be run")).

Definition output (cmd : string) : T string := process_system_output cmd [Shell].

(** One round of the three tests below: on a dedicated partition the processor is
    added or removed, and the value is wrong unless it is 0; on a shared one the
    processors and the units are, and both values must be wrong. *)
Definition ded_round (obj : testcase) (add : bool) : T (testcase * bool) :=
  '(rvalue, obj) ← call_on obj (if add then add_ded_cpu (VInt 1) else rem_ded_cpu (VInt 1));
  mret (obj, negb (rvalue =? 0)).

Definition shared_round (obj : testcase) (add : bool) : T (testcase * bool) :=
  let op := if add then add_proc (VInt 1) else remove_proc (VInt 1) in
  '(rvalue, obj) ← call_on obj (op "--procs"%string);
  '(rvalue1, obj) ← call_on obj (op "--procunits"%string);
  mret (obj, negb (rvalue =? 0) && negb (rvalue1 =? 0)).

(** [test_check_smt_state] *)
Definition test_check_smt_state : T () :=
  for_each smt_deps need_package ;;
  output "ppc64_cpu --smt=8" ;;
  smt_state ← output "ppc64_cpu --smt";
  lscpu_smt_state ← output "lscpu | grep -i thread";
  lparstat_cmd_smt_state ← output "lparstat | grep -o 'smt=[0-9]*'";
  let compare lparstat_cmd mismatch :=
    new_smt_state ← output "ppc64_cpu --smt";
    new_lscpu_smt_state ← output "lscpu | grep -i thread";
    new_lparstat_smt_state ← output lparstat_cmd;
    if negb (String.eqb smt_state new_smt_state)
       || negb (String.eqb lscpu_smt_state new_lscpu_smt_state)
       || negb (String.eqb lparstat_cmd_smt_state new_lparstat_smt_state)
    then log_error mismatch
    else log_info "SMT state remained consistent,Test passed." in
  dedicated ← mode_is "dedicated";
  if (dedicated : bool) then
    obj ← new_obj DedicatedCpu_init;
    for_acc [true; false] obj (λ obj add,
      '(obj, wrong) ← ded_round obj add;
      when wrong (log_error "CPU operation failed,                            Please check the logs") ;;
      compare "lparstat | grep -o 'smt=[0-9]*'"%string
        "SMT state did not match after CPU operations.Test failed."%string ;;
      mret obj) ;;
    mret ()
  else
    shared ← mode_is "shared";
    when shared
      (obj ← new_obj CpuUnit_init;
       for_acc [true; false] obj (λ obj add,
         '(obj, wrong) ← shared_round obj add;
         when wrong (log_error "CPU operation failed.                            Please check the logs.") ;;
         compare "lparstat | grep -i smt"%string
           "SMT state did not match afterCPU operations. Test failed."%string ;;
         mret obj) ;;
       mret ()).

(** [test_offline_cpu_persistence]; any mode but dedicated takes the second branch. *)
Definition test_offline_cpu_persistence : T () :=
  for_each smt_deps need_package ;;
  output "echo 0 > /sys/devices/system/cpu/cpu1/online" ;;
  before_cpu1_state ← output "cat /sys/devices/system/cpu/cpu1/online";
  let compare :=
    after_cpu1_state ← output "cat /sys/devices/system/cpu/cpu1/online";
    if negb (String.eqb before_cpu1_state after_cpu1_state)
    then log_error "Failed since CPU state.changed after dlpar operation"
    else log_info "CPU is still offline even afterproc operation,Test passed." in
  dedicated ← mode_is "dedicated";
  (if (dedicated : bool) then
     obj ← new_obj DedicatedCpu_init;
     for_acc [true; false] obj (λ obj add,
       '(obj, wrong) ← ded_round obj add;
       when wrong (log_error "CPU operation failed,Please check the logs") ;;
       compare ;;
       mret obj) ;;
     mret ()
   else
     obj ← new_obj CpuUnit_init;
     for_acc [true; false] obj (λ obj add,
       '(obj, wrong) ← shared_round obj add;
       when wrong (log_error "CPU operation failed.Please check the logs.") ;;
       compare ;;
       mret obj) ;;
     mret ()) ;;
  log_info "Setting cpu online back after TC complete" ;;
  output "echo 1 > /sys/devices/system/cpu/cpu1/online" ;;
  mret ().

(** [r'=\s*(\d+)'] *)
Definition re_cores_on : re := (RChar "=" ~> RStar Rspace ~> RGroup 1 (RPlus Rdigit))%re.

(** [test_offline_proc_persistence] *)
Definition test_offline_proc_persistence : T () :=
  for_each smt_deps need_package ;;
  output "ppc64_cpu --smt=6" ;;
  r ← process_run "ppc64_cpu --cores-on" [];
  (match re_search re_cores_on (stdout_text r) with
   | Some m => lift (py_int (VStr (m_group 1 m)))
   | None => throw AttributeError "'NoneType' object has no attribute 'group'"
   end) ;;
  before_smt_state ← output "ppc64_cpu --smt";
  output "ppc64_cpu --offline-cores=1" ;;
  let compare good :=
    after_smt_state ← output "ppc64_cpu --smt";
    if negb (String.eqb before_smt_state after_smt_state)
    then log_error "Failed since SMT state.changed after dlpar operation"
    else log_info good in
  dedicated ← mode_is "dedicated";
  (if (dedicated : bool) then
     obj ← new_obj DedicatedCpu_init;
     for_acc [true; false] obj (λ obj add,
       '(obj, wrong) ← ded_round obj add;
       when wrong (log_error "CPU operation failed,Please check the logs") ;;
       compare "SMT is unchanged,Test passed."%string ;;
       mret obj) ;;
     mret ()
   else
     obj ← new_obj CpuUnit_init;
     for_acc [true; false] obj (λ obj add,
       '(obj, wrong) ← shared_round obj add;
       when wrong (log_error "CPU operation failed.Please check the logs.") ;;
       compare "SMT is unchanged ,Test passed."%string ;;
       mret obj) ;;
     mret ()) ;;
  log_info "Setting back the value after TC compelte" ;;
  output "ppc64_cpu --smt=8" ;;
  mret ().
End tests.
