(* ===== verification/DlparPayload.v ===== *)
(** * The payload computations: properties

    The lists of sizes that the DLPAR tests add and remove.  The loops are verified
    against the interface [ExactNum], so that the theorems hold of integers and of
    floats on a binary grid. *)

From S2P Require Import Prelude PyStr PyFloat PyVal Avocado Logic DlparApi DlparTests.
Open Scope Z_scope.

(** The steps [s*i, s*(i+1), ..] of a processor payload, [n] of them. *)
Definition steps (s : Z) (i n : nat) : list Z := map (λ j, s * Z.of_nat j) (seq i n).

(** The sizes of a memory payload all of whose elements but the last double. *)
Definition doubling (z : Z) (n : nat) : list Z := map (λ i, z * 2 ^ Z.of_nat i) (seq 0 n).

Section cpu.
Context {u : Z} {G : num → Z → Prop} {ok : Z → Prop} `{!ExactNum u G ok}.
Context (max_value step : num) (m s : Z) (Hmax : G max_value m) (Hstep : G step s) (Hs : 0 < s).
(** The sums stay exact up to this bound. *)
Context (B : Z) (Hok : ∀ x, 0 ≤ x ≤ B → ok x) (HmB : 2 * Z.max 0 m + 2 * s ≤ B).

Lemma cpu_payload_loop_spec fuel current_sum index c i :
  G current_sum c → G index (s * Z.of_nat i) → 0 ≤ c →
  s * Z.of_nat i ≤ Z.max 0 m + s → c ≤ Z.max 0 m →
  m - c < s * (Z.of_nat fuel - (if Nat.eqb i 0 then 2 else 1)) → (0 < fuel)%nat →
  ∃ l n, cpu_payload_loop fuel max_value step current_sum index = Some (Ret l) ∧
    Forall2 G l (steps s i n) ∧
    (c ≤ m ∨ n = 0%nat) ∧ (n = 0%nat ∨ c + Zsum (steps s i n) ≤ m) ∧
    m < c + Zsum (steps s i n) + s * Z.of_nat (i + n).
Proof using All.
  revert current_sum index c i. induction fuel as [|f IH]; [lia|].
  intros cur idx c i Hc Hi H0 Hib Hcm Hf _. simpl cpu_payload_loop.
  destruct (ex_add cur idx c (s * Z.of_nat i) Hc Hi) as (next & -> & Hnext).
  { apply Hok. lia. }
  rewrite (ex_lt max_value next m (c + s * Z.of_nat i) Hmax Hnext).
  destruct (Z.ltb_spec m (c + s * Z.of_nat i)) as [Hlt|Hle].
  - exists [], 0%nat. split; [done|]. split; [constructor|]. unfold steps. simpl.
    rewrite Nat.add_0_r. split; [by right|]. split; [by left|]. lia.
  - assert (s * Z.of_nat i ≤ m) as Him by lia.
    destruct (ex_add idx step (s * Z.of_nat i) s Hi Hstep) as (idx' & -> & Hidx').
    { apply Hok. lia. }
    assert (G idx' (s * Z.of_nat (S i))) as Hidx''.
    { replace (s * Z.of_nat (S i)) with (s * Z.of_nat i + s) by lia. done. }
    assert (f ≠ 0%nat) as Hfne.
    { intros ->. destruct (Nat.eqb_spec i 0); nia. }
    destruct (IH next idx' (c + s * Z.of_nat i) (S i) Hnext Hidx'')
      as (l & n & -> & HF & _ & Hsum & Hgt); [lia|lia|lia| |lia|].
    { simpl Nat.eqb. destruct (Nat.eqb_spec i 0) as [->|Hi0]; nia. }
    exists (idx :: l), (S n). split; [done|].
    change (steps s i (S n)) with (s * Z.of_nat i :: steps s (S i) n).
    split; [by constructor|]. split; [left; lia|].
    change (Zsum (s * Z.of_nat i :: steps s (S i) n)) with (s * Z.of_nat i + Zsum (steps s (S i) n)).
    split; [right|rewrite Nat.add_succ_r in *; simpl in *; lia].
    destruct Hsum as [->|Hsum]; [unfold steps; simpl; lia|lia].
Qed.

Lemma nonzero_filter l n i :
  Forall2 G l (steps s (S i) n) → List.filter nonzero l = l.
Proof using All.
  revert i l. induction n as [|n IH]; intros i l HF.
  - by inversion HF.
  - change (steps s (S i) (S n)) with (s * Z.of_nat (S i) :: steps s (S (S i)) n) in HF.
    inversion HF as [|x y l' k' Hx Hl]; subst. simpl.
    unfold nonzero at 1. rewrite (ex_zero x _ Hx).
    destruct (Z.eqb_spec (s * Z.of_nat (S i)) 0) as [Hz|Hz]; [lia|]. simpl.
    f_equal. by apply (IH (S i)).
Qed.

(** The payload: the steps [s, 2s, .., n*s], as many as fit between the current value
    and the maximum. *)
Lemma cpu_payload_data_spec fuel curr c :
  G curr c → G float_zero 0 → 0 ≤ c → c ≤ Z.max 0 m →
  m - c < s * (Z.of_nat fuel - 2) → (0 < fuel)%nat →
  ∃ l n, cpu_payload_data fuel max_value curr step = Some (Ret l) ∧
    Forall2 G l (steps s 1 n) ∧ (m < c → n = 0%nat) ∧
    (c ≤ m → c + Zsum (steps s 1 n) ≤ m < c + Zsum (steps s 1 n) + s * Z.of_nat (S n)).
Proof using All.
  intros Hc Hz H0 Hcm Hf Hf0.
  destruct (cpu_payload_loop_spec fuel curr float_zero c 0) as (l & n & El & HF & Hn & Hsum & Hgt);
    [done|by replace (s * Z.of_nat 0) with 0 by lia|done|lia|done|done|done|].
  unfold cpu_payload_data. rewrite El. simpl.
  destruct n as [|n].
  - inversion HF; subst. exists [], 0%nat. unfold steps in *. simpl in *.
    split; [done|]. split; [constructor|]. split; [done|]. lia.
  - change (steps s 0 (S n)) with (s * Z.of_nat 0 :: steps s 1 n) in *.
    inversion HF as [|x y l' k' Hx Hl]; subst.
    exists l', n.
    change (Zsum (s * Z.of_nat 0 :: steps s 1 n)) with (s * Z.of_nat 0 + Zsum (steps s 1 n)) in *.
    destruct Hn as [Hn|Hn]; [|done]. destruct Hsum as [Hsum|Hsum]; [done|].
    split.
    { simpl. unfold nonzero at 1. rewrite (ex_zero x _ Hx).
      replace (s * Z.of_nat 0 =? 0) with true by (symmetry; apply Z.eqb_eq; lia). simpl.
      by rewrite (nonzero_filter l' n 0). }
    split; [done|]. split; [lia|]. intros _. simpl Nat.add in *. lia.
Qed.
End cpu.

Lemma doubling_cons y n : y :: doubling (y * 2) n = doubling y (S n).
Proof.
  unfold doubling. simpl. rewrite <- seq_shift, List.map_map, Z.mul_1_r. f_equal.
  apply map_ext. intros i. rewrite Nat2Z.inj_succ, Z.pow_succ_r by lia. lia.
Qed.

Section mem.
Context {u : Z} {G : num → Z → Prop} {ok : Z → Prop} `{!ExactNum u G ok}.
Context (max_value : num) (m : Z) (Hmax : G max_value m) (Hu : 0 < u).
(** The sums stay exact up to this bound. *)
Context (B : Z) (Hok : ∀ x, 0 ≤ x ≤ B → ok x) (HmB : m ≤ B) (HB : 0 ≤ B).

Lemma exact_zero : G (NInt 0) 0.
Proof using All.
  replace 0 with (0 * u) at 2 by lia. apply ex_int. apply Hok. lia.
Qed.

(** One iteration that finds room. *)
Lemma mem_payload_iter f current_sum index c z :
  G current_sum c → G index z → 0 ≤ c → 0 < z → c + z ≤ m →
  ∃ next r, G next (c + z) ∧ G r (m - (c + z)) ∧
  mem_payload_loop (S f) max_value current_sum index =
    (if m - (c + z) <=? 0 then Some (Ret [index])
     else if m - (c + z) <? z then
       r0 ← mem_payload_loop f max_value next r; Some (l ← r0; Ret (index :: l))
     else match num_mul index (NInt 2) with
          | Raise e => Some (Raise e)
          | Ret doubled =>
              r0 ← mem_payload_loop f max_value next (if num_lt r doubled then r else doubled);
              Some (l ← r0; Ret (index :: l))
          end).
Proof using All.
  intros Hc Hz H0 Hz0 Hle. simpl mem_payload_loop.
  destruct (ex_add current_sum index c z Hc Hz) as (next & -> & Hnext); [apply Hok; lia|].
  rewrite (ex_le next max_value (c + z) m Hnext Hmax).
  destruct (Z.leb_spec (c + z) m) as [_|?]; [|lia].
  destruct (ex_sub max_value next m (c + z) Hmax Hnext) as (r & -> & Hr);
    [apply Hok; lia|lia|].
  exists next, r. split; [done|]. split; [done|].
  by rewrite (ex_le r (NInt 0) _ _ Hr exact_zero), (ex_lt r index _ _ Hr Hz).
Qed.

(** The last element: what was left. *)
Lemma mem_payload_last f current_sum index c z :
  G current_sum c → G index z → 0 ≤ c → 0 < z → c + z = m →
  mem_payload_loop (S f) max_value current_sum index = Some (Ret [index]).
Proof using All.
  intros Hc Hz H0 Hz0 Hm.
  destruct (mem_payload_iter f current_sum index c z) as (next & r & _ & _ & ->); [done..|lia|].
  destruct (Z.leb_spec (m - (c + z)) 0) as [_|?]; [done|lia].
Qed.

(** What a payload [l] with the sizes [zs], started at [x] with [d] to go, satisfies:
    positive sizes, all of them but the last doubling, that exhaust [d]. *)
Definition payload_ok (l : list num) (zs : list Z) (x d : Z) : Prop :=
  Forall2 G l zs ∧ Forall (λ z, 0 < z) zs ∧
  (∃ n, removelast l = map NInt (doubling x n) ∧ removelast zs = doubling (x * u) n) ∧
  Zsum zs = d.

Lemma payload_ok_one x : 0 < x * u → G (NInt x) (x * u) → payload_ok [NInt x] [x * u] x (x * u).
Proof using All.
  intros Hx HG. split; [by repeat constructor|]. split; [by repeat constructor|].
  split; [by exists 0%nat|]. unfold Zsum. simpl. lia.
Qed.

Lemma payload_ok_two x r z :
  0 < x * u → G (NInt x) (x * u) → 0 < z → G r z →
  payload_ok [NInt x; r] [x * u; z] x (x * u + z).
Proof using All.
  intros Hx HG Hz Hr. split; [by repeat constructor|]. split; [by repeat constructor|].
  split; [|unfold Zsum; simpl; lia].
  exists 1%nat. unfold doubling. simpl. by rewrite !Z.mul_1_r.
Qed.

Lemma payload_ok_cons x l zs d :
  0 < x * u → G (NInt x) (x * u) → 0 < d → payload_ok l zs (x * 2) d →
  payload_ok (NInt x :: l) (x * u :: zs) x (x * u + d).
Proof using All.
  intros Hx HG Hd (HF & Hpos & (n & Hn1 & Hn2) & Hsum).
  assert (zs ≠ []) as Hne. { intros ->. unfold Zsum in Hsum. simpl in Hsum. lia. }
  split; [by constructor|]. split; [by constructor|].
  split; [|unfold Zsum in *; simpl; lia].
  exists (S n). rewrite <- !doubling_cons.
  destruct l as [|y l]; [by inversion HF; subst|]. destruct zs as [|y' zs]; [done|]. split.
  - change (NInt x :: removelast (y :: l) = map NInt (x :: doubling (x * 2) n)).
    by rewrite Hn1.
  - change (x * u :: removelast (y' :: zs) = x * u :: doubling (x * u * 2) n).
    rewrite Hn2. do 2 f_equal. lia.
Qed.

(** The sizes double while they fit; the last one is what is left.  They exhaust the
    distance to the maximum, when there is room for the first of them. *)
Lemma mem_payload_loop_spec fuel current_sum c x z0 :
  G current_sum c → 0 ≤ c → 0 < z0 ≤ x * u → c + x * u ≤ m →
  m - c < z0 * (Z.of_nat fuel - 1) →
  ∃ l zs, mem_payload_loop fuel max_value current_sum (NInt x) = Some (Ret l) ∧
    payload_ok l zs x (m - c).
Proof using All.
  revert current_sum c x. induction fuel as [|f IH]; [nia|].
  intros cur c x Hc H0 Hx Hle Hf.
  assert (G (NInt x) (x * u)) as HG by (apply ex_int, Hok; lia).
  destruct (mem_payload_iter f cur (NInt x) c (x * u)) as (next & r & Hnext & Hr & ->);
    [done..|lia|done|].
  set (d := m - (c + x * u)) in *.
  destruct (Z.leb_spec d 0) as [Hr0|Hr0].
  { eexists _, _. split; [done|]. replace (m - c) with (x * u) by lia.
    apply payload_ok_one; [lia|done]. }
  assert (∃ f', f = S f') as [f' ->] by (destruct f; [exfalso; nia|eauto]).
  (* what is left becomes the last element *)
  assert (∃ l zs, (r0 ← mem_payload_loop (S f') max_value next r; Some (l ← r0; Ret (NInt x :: l)))
             = Some (Ret l) ∧ payload_ok l zs x (m - c)) as Hlast.
  { rewrite (mem_payload_last f' next r (c + x * u) d) by (done || lia).
    eexists _, _. split; [done|]. replace (m - c) with (x * u + d) by lia.
    apply payload_ok_two; done || lia. }
  destruct (Z.ltb_spec d (x * u)) as [Hlt|Hge]; [done|].
  change (num_mul (NInt x) (NInt 2)) with (Ret (NInt (x * 2))). cbv iota beta.
  rewrite (ex_int_lt r _ (x * 2) Hr).
  destruct (Z.ltb_spec d (x * 2 * u)) as [Hlt|Hge2]; [done|].
  destruct (IH next (c + x * u) (x * 2) Hnext) as (l & zs & -> & Hl); [lia|lia|lia|nia|].
  eexists _, _. split; [done|]. replace (m - c) with (x * u + (m - (c + x * u))) by lia.
  apply payload_ok_cons; [lia|done|lia|done].
Qed.

(** No room for the first size: the payload is empty. *)
Lemma mem_payload_loop_none fuel current_sum c x :
  G current_sum c → 0 ≤ c → 0 < x → m < c + x * u ≤ B → (0 < fuel)%nat →
  mem_payload_loop fuel max_value current_sum (NInt x) = Some (Ret []).
Proof using All.
  intros Hc H0 Hx Hlt Hf. destruct fuel as [|f]; [lia|]. simpl.
  assert (G (NInt x) (x * u)) as HG by (apply ex_int, Hok; nia).
  destruct (ex_add current_sum (NInt x) c (x * u) Hc HG) as (next & -> & Hnext); [apply Hok; nia|].
  rewrite (ex_le next max_value _ m Hnext Hmax).
  by destruct (Z.leb_spec (c + x * u) m) as [?|_]; [lia|].
Qed.
End mem.

(** ** From numbers to the integers the tests use *)

Lemma result_map_num_int l zs :
  Forall2 (on_grid 0) l zs → result_map num_int l = Ret zs.
Proof.
  induction 1 as [|x z l zs Hx _ IH]; [done|]. simpl.
  by rewrite (on_grid_num_int x z Hx), IH.
Qed.

Lemma Forall2_is_int l zs : Forall2 is_int l zs → l = map NInt zs.
Proof. induction 1 as [|x z l zs -> _ ->]; done. Qed.

Lemma fits_small z e B : Z.abs z ≤ B → B < 2 ^ 53 → -1074 ≤ e ≤ 971 → fits z e.
Proof. intros H1 H2 He. split; [lia|done]. Qed.

Lemma Zsum_steps s n : 2 * Zsum (steps s 1 n) = s * Z.of_nat n * (Z.of_nat n + 1).
Proof.
  unfold steps. induction n as [|n IH]; [unfold Zsum; simpl; lia|].
  rewrite seq_S, map_app, Zsum_app. simpl map. simpl Zsum.
  rewrite Nat2Z.inj_succ in *. lia.
Qed.

(** The sum of the payload of a step [s] on integers. *)
Lemma cpu_payload_int_spec m c s :
  0 ≤ c ≤ m → m < 2 ^ 50 → 0 < s < 2 ^ 50 →
  ∃ l n, cpu_payload_data (cpu_payload_fuel (NInt m) (NInt c)) (NInt m) (NInt c) (NInt s)
           = Some (Ret l) ∧
    Forall2 (on_grid 0) l (steps s 1 n) ∧
    c + Zsum (steps s 1 n) ≤ m < c + Zsum (steps s 1 n) + s * Z.of_nat (S n).
Proof.
  intros Hc Hm Hs.
  assert (∀ x, 0 ≤ x ≤ 2 ^ 52 → 0 ≤ 0 ∧ fits x 0) as Hok.
  { intros x Hx. split; [lia|]. apply (fits_small x 0 (2 ^ 52)); [lia|done|lia]. }
  assert (∀ x, 0 ≤ x ≤ 2 ^ 52 → on_grid 0 (NInt x) x) as HG.
  { intros x Hx. destruct (Hok x Hx). split; [done|]. split; [done|]. simpl. lia. }
  unfold cpu_payload_fuel. simpl num_int. cbv iota beta.
  destruct (cpu_payload_data_spec (G:=on_grid 0) (NInt m) (NInt s) m s (HG m ltac:(lia))
    (HG s ltac:(lia)) ltac:(lia) (2 ^ 52) Hok ltac:(lia)
    (Z.to_nat (2 * Z.max 0 (m - c) + 10)) (NInt c) c) as (l & n & El & HF & _ & Hsum);
    [apply HG; lia|by apply (conj (Z.le_refl 0)); split|lia|lia|nia|lia|].
  exists l, n. split; [done|]. split; [done|]. apply Hsum. lia.
Qed.

(** C11: [cpu_payload_data] on a dedicated partition (and on the virtual processors of a
    shared one, [s = 2]): for a current and a maximal number of processors, the loop
    terminates, the sizes handed to the HMC are [s, 2s, .., n*s] once [int] has been
    applied to them, all of them together stay within the maximum, and one more step
    would not. *)
Theorem cpu_payload_fills_partition (m c s : Z) :
  0 ≤ c ≤ m → m < 2 ^ 50 → 0 < s < 2 ^ 50 →
  ∃ l n, fuelled (cpu_payload_data (cpu_payload_fuel (NInt m) (NInt c))
                    (NInt m) (NInt c) (NInt s)) = Ret l ∧
    result_map num_int l = Ret (map (λ j, s * Z.of_nat j) (seq 1 n)) ∧
    2 * c + s * Z.of_nat n * (Z.of_nat n + 1) ≤ 2 * m ∧
    2 * m < 2 * c + s * (Z.of_nat n + 1) * (Z.of_nat n + 2).
Proof.
  intros Hc Hm Hs. destruct (cpu_payload_int_spec m c s Hc Hm Hs) as (l & n & El & HF & Hle).
  exists l, n. rewrite El. split; [done|]. split; [by apply result_map_num_int|].
  pose proof (Zsum_steps s n). lia.
Qed.

Lemma cpu_payload_fills_partition_witness :
  0 ≤ 4 ≤ 20 ∧ ∃ l n, fuelled (cpu_payload_data (cpu_payload_fuel (NInt 20) (NInt 4))
                    (NInt 20) (NInt 4) (NInt 1)) = Ret l ∧
    result_map num_int l = Ret (map (λ j, 1 * Z.of_nat j) (seq 1 n)) ∧
    2 * 4 + 1 * Z.of_nat n * (Z.of_nat n + 1) ≤ 2 * 20 ∧
    2 * 20 < 2 * 4 + 1 * (Z.of_nat n + 1) * (Z.of_nat n + 2).
Proof. split; [lia|]. apply (cpu_payload_fills_partition 20 4 1); lia. Defined.

(** The elements of a payload with a float step are floats. *)
Definition is_float (n : num) : Prop := match n with NFloat _ => True | _ => False end.

Lemma num_add_float f y n : num_add (NFloat f) y = Ret n → is_float n.
Proof.
  unfold num_add, num_arith. destruct y as [z|g]; simpl; [|by intros [= <-]].
  destruct (float_of_int z); simpl; [by intros [= <-]|done].
Qed.

Lemma cpu_payload_floats fuel m st cur idx l :
  is_float idx → cpu_payload_loop fuel m st cur idx = Some (Ret l) → Forall is_float l.
Proof.
  revert cur idx l. induction fuel as [|f IH]; [done|]. intros cur idx l Hidx. simpl.
  destruct (num_add cur idx) as [next|?]; [|done].
  destruct (num_lt m next); [by intros [= <-]|].
  destruct idx as [z|g]; [done|].
  destruct (num_add (NFloat g) st) as [idx'|?] eqn:E; [|done].
  destruct (cpu_payload_loop f m st next idx') as [[l'|?]|] eqn:E'; simpl; [|done|done].
  intros [= <-]. constructor; [done|]. eapply IH; [|exact E']. by apply num_add_float in E.
Qed.

Lemma floats_on_grid e l zs :
  Forall is_float l → Forall2 (on_grid e) l zs → Forall2 (λ x z, x = NFloat (fl z e)) l zs.
Proof.
  intros Hl HF. induction HF as [|x z l zs (_ & _ & Hx) _ IH]; [constructor|].
  inversion Hl; subst. constructor; [|by apply IH]. destruct x as [k|f]; [done|]. by subst.
Qed.

Lemma lit_0_75_quarters : lit_0_75 = NFloat (fl 3 (-2)).
Proof. vm_compute. reflexivity. Qed.

(** [q] quarters as a float. *)
Definition quarters (q : Z) : num := NFloat (fl q (-2)).

Lemma quarters_grid q : 0 ≤ q ≤ 2 ^ 52 → on_grid (-2) (quarters q) q.
Proof. intros Hq. split; [lia|]. split; [|done]. apply (fits_small q (-2) (2 ^ 52)); [lia|done|lia]. Qed.

Lemma quarters_num_int q : 0 ≤ q ≤ 2 ^ 52 → num_int (quarters q) = Ret (q / 4).
Proof.
  intros Hq. destruct (quarters_grid q Hq) as (_ & Hf & _). simpl.
  rewrite fl_trunc by (done || lia). simpl. by rewrite Z.quot_div_nonneg by lia.
Qed.

(** C29: [cpu_payload_data] on the processing units of a shared partition: the current
    and the maximal value are [c] and [m] quarters, the step is the float 0.75.  The
    loop terminates, the sizes are the floats 0.75, 1.5, 2.25, .. without any rounding
    error, all of them together stay within the maximum and one more would not. *)
Theorem cpu_payload_units (m c : Z) :
  0 ≤ c ≤ m → m < 2 ^ 48 →
  ∃ l n, fuelled (cpu_payload_data (cpu_payload_fuel (quarters m) (quarters c))
                    (quarters m) (quarters c) lit_0_75) = Ret l ∧
    Forall2 (λ x z, x = NFloat (fl z (-2))) l (map (λ j, 3 * Z.of_nat j) (seq 1 n)) ∧
    2 * c + 3 * Z.of_nat n * (Z.of_nat n + 1) ≤ 2 * m ∧
    2 * m < 2 * c + 3 * (Z.of_nat n + 1) * (Z.of_nat n + 2).
Proof.
  intros Hc Hm. rewrite lit_0_75_quarters.
  assert (∀ x, 0 ≤ x ≤ 2 ^ 52 → -2 ≤ 0 ∧ fits x (-2)) as Hok.
  { intros x Hx. split; [lia|]. apply (fits_small x (-2) (2 ^ 52)); [lia|done|lia]. }
  unfold cpu_payload_fuel. rewrite !quarters_num_int by lia. cbv iota beta.
  pose proof (Z.div_mod m 4 ltac:(lia)). pose proof (Z.mod_pos_bound m 4 ltac:(lia)).
  pose proof (Z.div_mod c 4 ltac:(lia)). pose proof (Z.mod_pos_bound c 4 ltac:(lia)).
  destruct (cpu_payload_data_spec (G:=on_grid (-2)) (quarters m) (NFloat (fl 3 (-2))) m 3
    (quarters_grid m ltac:(lia)) (quarters_grid 3 ltac:(lia)) ltac:(lia) (2 ^ 52) Hok ltac:(lia)
    (Z.to_nat (2 * Z.max 0 (m / 4 - c / 4) + 10)) (quarters c) c) as (l & n & El & HF & _ & Hsum);
    [apply quarters_grid; lia|by split|lia|lia|lia|lia|].
  exists l, n. rewrite El. split; [done|].
  pose proof (Zsum_steps 3 n). split; [|lia].
  apply floats_on_grid; [|done]. unfold cpu_payload_data in El.
  destruct (cpu_payload_loop _ _ _ _ _) as [[l'|?]|] eqn:E; simpl in El; [|done..].
  injection El as <-. apply cpu_payload_floats in E; [|done].
  rewrite List.Forall_forall in *. intros x Hx. apply filter_In in Hx as [Hx _]. by apply E.
Qed.

Lemma cpu_payload_units_witness :
  0 ≤ 2 ≤ 40 ∧ ∃ l n, fuelled (cpu_payload_data (cpu_payload_fuel (quarters 40) (quarters 2))
                    (quarters 40) (quarters 2) lit_0_75) = Ret l ∧
    Forall2 (λ x z, x = NFloat (fl z (-2))) l (map (λ j, 3 * Z.of_nat j) (seq 1 n)) ∧
    2 * 2 + 3 * Z.of_nat n * (Z.of_nat n + 1) ≤ 2 * 40 ∧
    2 * 40 < 2 * 2 + 3 * (Z.of_nat n + 1) * (Z.of_nat n + 2).
Proof. split; [lia|]. apply (cpu_payload_units 40 2); lia. Defined.

(** ** The mixed payload *)

Section mix.
Context {W : Type} {HE : Env W} {HL : DlparLib W}.

Lemma wp_randint {S} a b (s : pstate W S) Q :
  a ≤ b → (∀ v s', a ≤ v ≤ b → Q (Ret v) s') → wp (randint a b) s Q.
Proof.
  intros Hab HQ. unfold randint. destruct (Z.ltb_spec b a) as [?|_]; [lia|].
  unfold wp, silent. destruct (env_random (ps_world s)) as [x w]. simpl. apply HQ.
  pose proof (Z.mod_pos_bound x (b - a + 1) ltac:(lia)). lia.
Qed.

Lemma mix_loop_spec fuel r s :
  r ≤ Z.of_nat fuel →
  wp (mix_loop fuel r) s (λ res _, ∃ l, res = Ret l ∧ Forall (λ v, 1 ≤ v) l ∧ Zsum l = Z.max 0 r).
Proof.
  revert r s. induction fuel as [|f IH]; intros r s Hr; simpl.
  - destruct (Z.ltb_spec 0 r) as [?|_]; [lia|]. apply wp_ret. exists [].
    split; [done|]. split; [constructor|]. unfold Zsum. simpl. lia.
  - destruct (Z.ltb_spec 0 r) as [Hpos|Hneg].
    + apply wp_bind, wp_randint; [lia|]. intros v s' Hv. simpl.
      apply wp_bind. eapply wp_mono; [|apply (IH (r - v)); lia].
      intros res s'' (l & -> & Hl & Hsum). simpl. apply wp_ret.
      exists (v :: l). split; [done|]. split; [constructor; [lia|done]|].
      unfold Zsum in *. simpl. lia.
    + apply wp_ret. exists []. split; [done|]. split; [constructor|]. unfold Zsum. simpl. lia.
Qed.

(** [mix_payload_data] terminates whatever numbers are drawn: from sizes whose sum
    is [total] once truncated by [int], it returns positive sizes with the same sum. *)
Theorem mix_payload_same_total (values : list num) (sum : num) (total : Z) s :
  num_sum (NInt 0) values = Ret sum → num_int sum = Ret total → 0 ≤ total →
  ∃ l s', mix_payload_data values s = (Ret l, s') ∧ Forall (λ v, 1 ≤ v) l ∧ Zsum l = total.
Proof using All.
  intros Hsum Hint H0. unfold mix_payload_data.
  assert (wp (mix_payload_data values) s (λ res _, ∃ l, res = Ret l ∧ Forall (λ v, 1 ≤ v) l ∧ Zsum l = total)) as Hwp.
  { unfold mix_payload_data. rewrite Hsum. apply wp_bind, wp_lift. simpl.
    rewrite Hint. apply wp_bind, wp_lift. simpl.
    eapply wp_mono; [|apply (mix_loop_spec (Z.to_nat total) total s); lia].
    intros r s' (l & Hr & Hl & Hs). exists l. rewrite Hs. split; [done|]. split; [done|lia]. }
  unfold wp in Hwp. destruct (mix_payload_data values s) as [r s'] eqn:E.
  destruct Hwp as (l & Hr & Hl). simpl in Hr. subst r. exists l, s'.
  unfold mix_payload_data in E. done.
Qed.

(** ** The memory payload *)

Lemma doubling_divide x n : Forall (λ z, (x | z)) (doubling x n).
Proof.
  unfold doubling. apply Forall_forall. intros z Hz.
  apply list_elem_of_In, in_map_iff in Hz as (i & <- & _). apply Z.divide_factor_l.
Qed.

Lemma Zsum_divide d l : Forall (λ z, (d | z)) l → (d | Zsum l).
Proof.
  unfold Zsum. induction 1 as [|x l Hx _ IH]; simpl; [apply Z.divide_0_r|].
  by apply Z.divide_add_r.
Qed.

(** C14: [mem_payload_data] with a given maximum: the loop terminates; when at least one
    logical memory block [lmb] fits, the sizes are positive and together are exactly
    the distance to the maximum, all but the last double from [lmb], and all are
    multiples of [lmb] when the distance is one; otherwise there are none. *)
Theorem mem_payload_exhausts (curr_mem lmb max_value : Z) s :
  0 ≤ curr_mem → 0 < lmb → max_value ≠ 0 →
  ∃ zs, mem_payload_data curr_mem lmb max_value s = (Ret (map NInt zs), s) ∧
    if curr_mem + lmb <=? max_value then
      Zsum zs = max_value - curr_mem ∧ Forall (λ z, 0 < z) zs ∧
      (∃ n, removelast zs = map (λ i, lmb * 2 ^ Z.of_nat i) (seq 0 n)) ∧
      ((lmb | max_value - curr_mem) → Forall (λ z, (lmb | z)) zs)
    else zs = [].
Proof using All.
  intros Hc Hl Hm. unfold mem_payload_data, lift.
  destruct (Z.eqb_spec max_value 0) as [?|_]; [done|].
  set (fuel := mem_payload_fuel _ _).
  destruct (Z.leb_spec (curr_mem + lmb) max_value) as [Hle|Hgt].
  - assert (max_value - curr_mem < lmb * (Z.of_nat fuel - 1)) as Hfuel.
    { unfold fuel, mem_payload_fuel. simpl. rewrite (Z.max_r 1 lmb), Z.max_r by lia.
      pose proof (Z.div_mod (max_value - curr_mem) lmb ltac:(lia)).
      pose proof (Z.mod_pos_bound (max_value - curr_mem) lmb ltac:(lia)).
      pose proof (Z.div_pos (max_value - curr_mem) lmb ltac:(lia) ltac:(lia)). nia. }
    destruct (mem_payload_loop_spec (G:=is_int) (NInt max_value) max_value eq_refl Z.lt_0_1
      max_value (λ _ _, I) ltac:(lia) ltac:(lia) fuel (NInt curr_mem) curr_mem lmb lmb)
      as (l & zs & -> & HF & Hpos & (n & _ & Hn) & Hsum); [done|lia|lia|lia|done|].
    exists zs. rewrite (Forall2_is_int l zs HF). split; [done|].
    rewrite Z.mul_1_r in Hn. split; [done|]. split; [done|]. split; [by exists n|].
    intros Hd. destruct zs as [|z zs _] using rev_ind; [constructor|].
    rewrite removelast_last in Hn. apply Forall_app. subst zs.
    split; [apply doubling_divide|]. repeat constructor.
    rewrite Zsum_app in Hsum. unfold Zsum at 2 in Hsum. simpl in Hsum.
    replace z with (max_value - curr_mem - Zsum (doubling lmb n)) by lia.
    apply Z.divide_sub_r; [done|]. apply Zsum_divide, doubling_divide.
  - exists []. split; [|done].
    rewrite (mem_payload_loop_none (u:=1) (G:=is_int) (NInt max_value) max_value eq_refl Z.lt_0_1
      (Z.max max_value (curr_mem + lmb)) (λ _ _, I) ltac:(lia) ltac:(lia) fuel (NInt curr_mem) curr_mem lmb);
      [done|done|lia|lia|lia|].
    unfold fuel, mem_payload_fuel. simpl.
    pose proof (Z.div_pos (Z.max 0 (max_value - curr_mem)) (Z.max 1 lmb) ltac:(lia) ltac:(lia)). lia.
Qed.

(** [mem_payload_data] without a maximum, as [test_mem_rem] calls it, for a maximum
    (40% or 80% of the memory, then rounded up to a block) that is [m * 2^e]: the loop
    terminates, and the sizes that are removed, all but the last of the list, are the
    integers [lmb, 2*lmb, 4*lmb, ..]: only the last one, which the test drops, can be
    a float. *)
Theorem mem_payload_removal (curr_mem lmb e m : Z) (out : string) (max_value : num) s s' :
  process_system_output "htxcmdline -query  -mdt mdt.*" [IgnoreStatus] s = (Ret out, s') →
  mem_payload_max (py_in "IDLE" out) (NInt curr_mem) (NInt lmb) = Ret max_value →
  on_grid e max_value m → 0 < lmb → lmb * 2 ^ (- e) ≤ m →
  ∃ l zs n, mem_payload_data curr_mem lmb 0 s = (Ret l, s') ∧
    removelast l = map NInt (map (λ i, lmb * 2 ^ Z.of_nat i) (seq 0 n)) ∧
    Forall2 (on_grid e) l zs ∧ Zsum zs = m.
Proof using All.
  intros Hout Hmax Hgrid Hl Hle. unfold mem_payload_data, lift.
  assert (0 < 2 ^ (- e)) as Hu by (apply Z.pow_pos_nonneg; [lia|destruct Hgrid; lia]).
  assert (Z.abs m < 2 ^ 53 ∧ e ≤ 0 ∧ -1074 ≤ e ≤ 971) as (HB & He & Her)
    by (destruct Hgrid as (? & [? ?] & _); done).
  set (fuel := mem_payload_fuel max_value (NInt lmb)).
  assert (m - 0 < lmb * 2 ^ (- e) * (Z.of_nat fuel - 1)) as Hfuel.
  { unfold fuel, mem_payload_fuel. rewrite (on_grid_trunc e max_value m Hgrid). simpl num_int.
    rewrite Z.quot_div_nonneg by lia. rewrite (Z.max_r 1 lmb) by lia.
    set (b := 2 ^ (- e)) in *. cbv iota beta. rewrite Z.max_r by (apply Z.div_pos; lia).
    rewrite Z.div_div by lia.
    pose proof (Z.div_mod m (b * lmb) ltac:(lia)).
    pose proof (Z.mod_pos_bound m (b * lmb) ltac:(lia)).
    pose proof (Z.div_pos m (b * lmb) ltac:(lia) ltac:(lia)). nia. }
  assert (∀ x, 0 ≤ x ≤ m → e ≤ 0 ∧ fits x e) as Hok.
  { intros x Hx. split; [done|]. split; [lia|done]. }
  assert (on_grid e (NInt 0) 0) as Hz by (split; [done|]; split; [split; lia|done]).
  destruct (mem_payload_loop_spec (u:=2 ^ (- e)) (G:=on_grid e) max_value m Hgrid Hu m Hok
    ltac:(lia) ltac:(lia) fuel (NInt 0) 0 lmb (lmb * 2 ^ (- e)))
    as (l & zs & El & HF & Hpos & (n & Hn & _) & Hsum); [done|lia|lia|lia|lia|].
  exists l, zs, n. split; [|split; [done|split; [done|lia]]].
  rewrite Z.eqb_refl, (bind_ret _ _ s s' out Hout).
  erewrite bind_ret by (by rewrite Hmax). cbv beta.
  fold fuel. by rewrite El.
Qed.
End mix.

(** ** Witnesses *)

Section witnesses.
Let env : Env Z := quiet_env (λ _ _, "IDLE"%string).
Let lib : DlparLib Z := simple_lib Z.
Let s0 : pstate Z dlpar_tests := PState 0 [] (DlparSelf VNone ∅ VNone).

Lemma mix_payload_same_total_witness :
  ∃ l s', mix_payload_data (HE:=env) [NInt 3; NInt 4] s0 = (Ret l, s') ∧
          Forall (λ v, 1 ≤ v) l ∧ Zsum l = 7.
Proof.
  apply (mix_payload_same_total (HE:=env) (HL:=lib) _ (NInt 7) 7); [reflexivity|reflexivity|lia].
Defined.

Lemma mem_payload_exhausts_witness :
  ∃ zs, mem_payload_data (HE:=env) 1024 256 4096 s0 = (Ret (map NInt zs), s0) ∧
    if 1024 + 256 <=? 4096 then
      Zsum zs = 4096 - 1024 ∧ Forall (λ z, 0 < z) zs ∧
      (∃ n, removelast zs = map (λ i, 256 * 2 ^ Z.of_nat i) (seq 0 n)) ∧
      ((256 | 4096 - 1024) → Forall (λ z, (256 | z)) zs)
    else zs = [].
Proof. apply (mem_payload_exhausts (HE:=env) (HL:=lib) 1024 256 4096 s0); lia. Defined.

(** 80% of 5120 is 4096, a multiple of 256, and a further 256 is added to it. *)
Lemma mem_payload_removal_witness :
  ∃ l zs n, mem_payload_data (HE:=env) 5120 256 0 s0
    = (Ret l, (process_system_output (HE:=env) "htxcmdline -query  -mdt mdt.*" [IgnoreStatus] s0).2) ∧
    removelast l = map NInt (map (λ i, 256 * 2 ^ Z.of_nat i) (seq 0 n)) ∧
    Forall2 (on_grid 0) l zs ∧ Zsum zs = 4352.
Proof.
  apply (mem_payload_removal (HE:=env) (HL:=lib) 5120 256 0 4352 "IDLE" (NFloat (fl 4352 0)));
    [reflexivity|vm_compute; reflexivity| |lia|lia].
  split; [lia|]. split; [split; lia|reflexivity].
Defined.
End witnesses.
