(* ===== verification/DlparHmc.v ===== *)
(** * The DLPAR API against a hardware management console

    An abstract console: partitions with a current, a minimal and a maximal amount of a
    resource (dedicated processors or memory) and the operations that add to, remove from
    and move between partitions, which succeed exactly within the bounds.  The class [Hmc]
    states that an environment behaves as such a console over ssh (the documented effect
    of [lshwres] and [chhwres]).  The theorems show that the methods of [DlparApi]
    implement the abstract operations on every such environment, and what the tests of
    [DlparTests] do on it.  A simulated console is an instance. *)

From S2P Require Import Prelude PyStr PyFloat PyVal PyRegex Avocado Logic DlparApi.
Open Scope Z_scope.

(** ** Commands as text *)

Definition cat_str (l : list string) : string := foldr String.append "" l.

Lemma py_cat_str l : py_cat (map VStr l) = Ret (cat_str l).
Proof. induction l as [|s l IH]; [done|]. simpl. by rewrite IH. Qed.

(** The names of the system, the console and the two partitions. *)
Record names := Names { hn_sys : string; hn_host : string; hn_lpar1 : string; hn_lpar2 : string }.

(** A kind of resource: its name and flag in the commands, and the names of its
    attributes. *)
Record resource := Resource {
  rs_name : string; rs_flag : string; rs_curr : string; rs_min : string; rs_max : string;
}.
Definition proc_res : resource :=
  Resource "proc" "--procs" "curr_procs" "curr_min_procs" "curr_max_procs".
Definition mem_res : resource :=
  Resource "mem" "-q" "curr_mem" "curr_min_mem" "curr_max_mem".

Inductive hmc_op :=
| HAdd (p : string) (q : Z)
| HRemove (p : string) (q : Z)
| HMove (p1 p2 : string) (q : Z).

Definition query_text (N : names) (res part option : string) : string :=
  cat_str ["lshwres -m "; hn_sys N; " --level lpar -r " +:+ res +:+ " --filter lpar_names=" +:+ DQ;
           part; DQ +:+ " -F "; option].

Definition change_text (N : names) (R : resource) (op : string) (q : Z) (parts : list string) : string :=
  cat_str (["chhwres -m "; hn_sys N; " -r "; rs_name R; " -o "; op; " "; rs_flag R; " "; py_str_Z q;
            " -p " +:+ DQ] ++ parts ++ [" -w 0 "]).
Definition op_text (N : names) (R : resource) (op : hmc_op) : string :=
  match op with
  | HAdd p q => change_text N R "a" q [p; DQ]
  | HRemove p q => change_text N R "r" q [p; DQ]
  | HMove p1 p2 q => change_text N R "m" q [p1; DQ; " -t " +:+ DQ; p2; DQ]
  end.

Lemma query_text_cat N res part option :
  py_cat [VStr "lshwres -m "; VStr (hn_sys N);
          VStr (" --level lpar -r " +:+ res +:+ " --filter lpar_names=" +:+ DQ);
          VStr part; VStr (DQ +:+ " -F "); VStr option] = Ret (query_text N res part option).
Proof. unfold query_text. by rewrite <- py_cat_str. Qed.

Lemma chhwres_add N R m p q :
  mc_machine m = VStr (hn_sys N) → mc_partition m = VStr p →
  chhwres_cmd (rs_name R) "a" (rs_flag R) m (VInt q) = Ret (op_text N R (HAdd p q)).
Proof.
  intros Hm Hp. unfold chhwres_cmd. rewrite Hm, Hp. unfold op_text, change_text.
  by rewrite <- py_cat_str.
Qed.

Lemma chhwres_remove N R m p q :
  mc_machine m = VStr (hn_sys N) → mc_partition m = VStr p →
  chhwres_cmd (rs_name R) "r" (rs_flag R) m (VInt q) = Ret (op_text N R (HRemove p q)).
Proof.
  intros Hm Hp. unfold chhwres_cmd. rewrite Hm, Hp. unfold op_text, change_text.
  by rewrite <- py_cat_str.
Qed.

Lemma chhwres_move N R m1 m2 p1 p2 q :
  mc_machine m1 = VStr (hn_sys N) → mc_partition m1 = VStr p1 → mc_partition m2 = VStr p2 →
  chhwres_move_cmd (rs_name R) "m" (rs_flag R) m1 m2 (VInt q) = Ret (op_text N R (HMove p1 p2 q)).
Proof.
  intros Hm Hp1 Hp2. unfold chhwres_move_cmd. rewrite Hm, Hp1, Hp2. unfold op_text, change_text.
  by rewrite <- py_cat_str.
Qed.

(** ** The abstract console *)

(** Its state for one resource. *)
Class HmcState (W : Type) := {
  hmc_curr : string → W → Z;
  hmc_min : string → W → Z;
  hmc_max : string → W → Z;
  (* the world with another amount in a partition *)
  hmc_set : string → Z → W → W;
  hmc_curr_set p z w : hmc_curr p (hmc_set p z w) = z;
  hmc_curr_other p p' z w : p ≠ p' → hmc_curr p' (hmc_set p z w) = hmc_curr p' w;
  hmc_min_set p p' z w : hmc_min p' (hmc_set p z w) = hmc_min p' w;
  hmc_max_set p p' z w : hmc_max p' (hmc_set p z w) = hmc_max p' w;
}.

(** The world after an operation, or [None] when the console refuses it. *)
Definition hmc_step {W} `{!HmcState W} (op : hmc_op) (w : W) : option W :=
  match op with
  | HAdd p q =>
      if hmc_curr p w + q <=? hmc_max p w then Some (hmc_set p (hmc_curr p w + q) w) else None
  | HRemove p q =>
      if hmc_min p w <=? hmc_curr p w - q then Some (hmc_set p (hmc_curr p w - q) w) else None
  | HMove p1 p2 q =>
      if (hmc_min p1 w <=? hmc_curr p1 w - q) && (hmc_curr p2 w + q <=? hmc_max p2 w)
      then Some (hmc_set p2 (hmc_curr p2 w + q) (hmc_set p1 (hmc_curr p1 w - q) w)) else None
  end.

Definition is_lpar (N : names) (p : string) : Prop := p = hn_lpar1 N ∨ p = hn_lpar2 N.

(** The operations on the partitions of the tests. *)
Definition known_op (N : names) (op : hmc_op) : Prop :=
  match op with
  | HAdd p q | HRemove p q => is_lpar N p ∧ 0 ≤ q
  | HMove p1 p2 q => p1 = hn_lpar1 N ∧ p2 = hn_lpar2 N ∧ p1 ≠ p2 ∧ 0 ≤ q
  end.

(** The console behind [env_ssh].  [chhwres] prints nothing when it succeeds and a
    message when it refuses. *)
Class Hmc (W : Type) {HE : Env W} (N : names) (R : resource) {HS : HmcState W} := {
  hmc_query p opt z w :
    is_lpar N p →
    (opt, z) ∈ [(rs_curr R, hmc_curr p w); (rs_min R, hmc_min p w); (rs_max R, hmc_max p w)] →
    env_ssh (hn_host N) (query_text N (rs_name R) p opt) w =
      (Ret (CmdResult 0 (py_str_Z z +:+ NL)), w);
  hmc_refusal : hmc_op → W → string;
  hmc_refusal_nonempty op w : hmc_refusal op w ≠ ""%string;
  hmc_exec op w :
    known_op N op →
    env_ssh (hn_host N) (op_text N R op) w =
      match hmc_step op w with
      | Some w' => (Ret (CmdResult 0 ""), w')
      | None => (Ret (CmdResult 1 (hmc_refusal op w)), w)
      end;
}.

(** ** The object connected to the console *)

Definition lpar_machine (N : names) (p : string) (m : machine) : Prop :=
  mc_machine m = VStr (hn_sys N) ∧ mc_partition m = VStr p.

(** The object has a session with the console and can wait. *)
Definition connected (N : names) (t : testcase) : Prop :=
  (∃ hmc, tc_hmc t = Some hmc ∧ mc_sshcnx hmc = Some (hn_host N)) ∧
  sleepable (tc_sleep_time t) = true.

(** A query of [lshwres], for an answer of one word. *)
Lemma lpar_option_runs {W} {HE : Env W} N res p opt text w t m :
  (∃ hmc, tc_hmc t = Some hmc ∧ mc_sshcnx hmc = Some (hn_host N)) → lpar_machine N p m →
  env_ssh (hn_host N) (query_text N res p opt) w = (Ret (CmdResult 0 text), w) →
  runs (get_lpar_option res m opt) w t (Ret (py_strip text)) w t.
Proof.
  intros (hmc & Hhmc & Hcnx) (Hm & Hpart) Hssh.
  unfold get_lpar_option. rewrite Hm, Hpart, query_text_cat. run_step.
  eapply runs_bind.
  { unfold hmc_cmd. run_step. unfold machine_cmd. rewrite Hcnx. by apply runs_ext. }
  cbn [stdout_text].
  pose proof (py_cat_str [opt; ": "; py_strip text; " for partition "; p]) as Hcat. cbn [map] in Hcat.
  rewrite Hcat. run.
Qed.

Section hmc.
Context {W : Type} {HE : Env W} (N : names) (R : resource) {HS : HmcState W} {HH : Hmc W N R}.
Implicit Types (w : W) (t : testcase).

Lemma query_runs w t p m opt z :
  connected N t → is_lpar N p → lpar_machine N p m →
  (opt, z) ∈ [(rs_curr R, hmc_curr p w); (rs_min R, hmc_min p w); (rs_max R, hmc_max p w)] →
  runs (get_lpar_option (rs_name R) m opt) w t (Ret (py_str_Z z)) w t.
Proof using HH.
  intros [Ht _] Hp Hm Hopt. rewrite <- (py_strip_str_Z_NL z).
  eapply lpar_option_runs; [done..|]. by apply hmc_query.
Qed.

Lemma query_int_runs w t p m opt z :
  connected N t → is_lpar N p → lpar_machine N p m →
  (opt, z) ∈ [(rs_curr R, hmc_curr p w); (rs_min R, hmc_min p w); (rs_max R, hmc_max p w)] →
  runs (s ← get_lpar_option (rs_name R) m opt; lift (py_int (VStr s))) w t (Ret z) w t.
Proof using HH.
  intros Ht Hp Hm Hopt. run_by query_runs; [done..|]. rewrite py_int_str. run.
Qed.

(** What the console answers, and the object after the command. *)
Definition answer_of (op : hmc_op) (w : W) : cmd_result :=
  match hmc_step op w with
  | Some _ => CmdResult 0 ""
  | None => CmdResult 1 (hmc_refusal op w)
  end.
Definition after_op (op : hmc_op) (w : W) : W := default w (hmc_step op w).

Lemma exec_op op w :
  known_op N op → env_ssh (hn_host N) (op_text N R op) w = (Ret (answer_of op w), after_op op w).
Proof using HH.
  intros Hop. rewrite (hmc_exec op w Hop). unfold answer_of, after_op. by destruct (hmc_step op w).
Qed.

(** The partitions that an operation names. *)
Definition op_lpars (op : hmc_op) (l : lpars) : Prop :=
  match op, l with
  | HAdd p _, One m | HRemove p _, One m => lpar_machine N p m
  | HMove p1 p2 _, Pair m1 m2 => lpar_machine N p1 m1 ∧ lpar_machine N p2 m2
  | _, _ => False
  end.
Definition op_letter (op : hmc_op) : string :=
  match op with HAdd _ _ => "a" | HRemove _ _ => "r" | HMove _ _ _ => "m" end.
Definition op_quantity (op : hmc_op) : Z :=
  match op with HAdd _ q | HRemove _ q | HMove _ _ q => q end.

Lemma engine_runs op l w t :
  connected N t → known_op N op → op_lpars op l →
  runs (Dlpar_engine (rs_name R) (op_letter op) (rs_flag R) l (VInt (op_quantity op))) w t
    (Ret (answer_of op w)) (after_op op w) (set_cmd_result (answer_of op w) t).
Proof using HH.
  intros ((hmc & Hhmc & Hcnx) & _) Hop Hl.
  assert (∀ w t, tc_hmc t = Some hmc →
    runs (hmc_cmd (op_text N R op)) w t (Ret (answer_of op w)) (after_op op w) t) as Hcmd.
  { intros w' t' Ht'. unfold hmc_cmd. run_step. unfold machine_cmd. rewrite Hcnx.
    by apply runs_ext, exec_op. }
  unfold Dlpar_engine.
  destruct op as [p q|p q|p1 p2 q], l as [m|m1 m2]; try done; cbn [op_letter op_quantity String.eqb].
  - destruct Hl as [Hm Hp].
    eapply runs_bind; [eapply runs_bind; [apply runs_ret|]|].
    { erewrite chhwres_add by done. apply runs_lift. }
    run_by Hcmd; [done|]. run.
  - destruct Hl as [Hm Hp].
    eapply runs_bind; [eapply runs_bind; [apply runs_ret|]|].
    { erewrite chhwres_remove by done. apply runs_lift. }
    run_by Hcmd; [done|]. run.
  - destruct Hl as [[Hm1 Hp1] [Hm2 Hp2]].
    eapply runs_bind; [eapply runs_bind; [apply runs_ret|]; eapply runs_bind; [apply runs_ret|]|].
    { erewrite chhwres_move by done. apply runs_lift. }
    run_by Hcmd; [done|]. run.
Qed.

(** A method implements an operation of the console, for objects satisfying [P]: it
    returns 0 when the console makes the change, and 1 when it refuses; what the console
    printed is kept. *)
Definition implements (P : testcase → Prop) (m : M W testcase Z) (op : hmc_op) : Prop :=
  ∀ w t, P t → known_op N op →
    match hmc_step op w with
    | Some w' => runs m w t (Ret 0) w' (set_cmd_result (CmdResult 0 "") t)
    | None => runs m w t (Ret 1) w (set_cmd_result (CmdResult 1 (hmc_refusal op w)) t)
    end.

(** The value of the private method that does the operation. *)
Definition op_rvalue (op : hmc_op) (w : W) : pyval :=
  match hmc_step op w with Some _ => VNone | None => VInt 1 end.

Definition op_code (op : hmc_op) (w : W) : Z :=
  match hmc_step op w with Some _ => 0 | None => 1 end.

Lemma op_value_runs (f : M W testcase pyval) op w t w' t' :
  runs f w t (Ret (op_rvalue op w)) w' t' →
  runs (rvalue ← f; op_value rvalue) w t (Ret (op_code op w)) w' t'.
Proof.
  intros Hf. run_by Hf. unfold op_rvalue, op_code, op_value.
  destruct (hmc_step op w); [run|]. change (py_eq (VInt 1) (VInt 1)) with true. cbv iota. run.
Qed.

Lemma implements_intro P m op :
  (∀ w t, P t → known_op N op →
    runs m w t (Ret (op_code op w)) (after_op op w) (set_cmd_result (answer_of op w) t)) →
  implements P m op.
Proof.
  intros Hm w t HP Hop. specialize (Hm w t HP Hop). unfold op_code, after_op, answer_of in Hm.
  by destruct (hmc_step op w) as [w'|].
Qed.

Lemma connected_set_cmd_result r t : connected N t → connected N (set_cmd_result r t).
Proof. done. Qed.

Lemma settle_runs w t : connected N t → runs settle w t (Ret ()) w t.
Proof. intros [_ Ht]. unfold settle. run. Qed.

Lemma complained_runs w t r :
  tc_cmd_result t = Some r →
  runs hmc_complained w t (Ret (negb (String.eqb (stdout_text r) ""))) w t.
Proof. intros Ht. unfold hmc_complained. run. Qed.

Lemma refusal_complains op w : negb (String.eqb (hmc_refusal op w) "") = true.
Proof using HH. destruct (String.eqb_spec (hmc_refusal op w) ""); [|done]. by edestruct hmc_refusal_nonempty. Qed.

End hmc.

Lemma check_failed_true {W} msg (w : W) (x : testcase) :
  runs (check_failed msg true) w x (Ret false) w x.
Proof. unfold check_failed, check_log, report. run. Qed.

Lemma check_failed_false {W} msg (w : W) (x : testcase) :
  runs (check_failed msg false) w x (Ret true) w x.
Proof. unfold check_failed, check_log, report. run. Qed.

#[export] Hint Resolve check_failed_true check_failed_false settle_runs connected_set_cmd_result : runs.

Lemma py_eq_int x y : py_eq (VInt x) (of_num (NInt y)) = (x =? y).
Proof. apply num_eq_int. Qed.

(** ** Dedicated processors *)

Section procs.
Context {W : Type} {HE : Env W} (N : names) {HS : HmcState W} {HH : Hmc W N proc_res}.
Implicit Types (w : W) (t : testcase).

Lemma curr_procs_runs w t p m :
  connected N t → is_lpar N p → lpar_machine N p m →
  runs (cpu_option_int m "curr_procs") w t (Ret (hmc_curr p w)) w t.
Proof using HH. intros. apply (query_int_runs N proc_res w t p); [done..|]. left. Qed.

Lemma cpu_validation_add w t m p q before res :
  connected N t → is_lpar N p → lpar_machine N p m → hmc_curr p w = before + q →
  runs (Dlpar_cpu_validation "a" (One m) (VInt q) (VInt before) res) w t (Ret ()) w t.
Proof using HH.
  intros Ht Hp Hm Hq. unfold Dlpar_cpu_validation. simpl (String.eqb _ _). cbv iota.
  run_step. run_step. run_by curr_procs_runs; [done..|]. run_step.
  rewrite Hq, py_eq_int, Z.eqb_refl. run.
Qed.

Lemma cpu_validation_remove w t m p q before res :
  connected N t → is_lpar N p → lpar_machine N p m → hmc_curr p w = before - q →
  runs (Dlpar_cpu_validation "r" (One m) (VInt q) (VInt before) res) w t (Ret ()) w t.
Proof using HH.
  intros Ht Hp Hm Hq. unfold Dlpar_cpu_validation. simpl (String.eqb _ _). cbv iota.
  run_step. run_by curr_procs_runs; [done..|]. run_step.
  rewrite Hq, py_eq_int, Z.eqb_refl. run.
Qed.

Definition on_lpar1 (t : testcase) : Prop :=
  connected N t ∧ ∃ m, tc_linux_1 t = Some m ∧ lpar_machine N (hn_lpar1 N) m.

Lemma add_dedicated_cpu_runs w t m p q :
  connected N t → lpar_machine N p m → known_op N (HAdd p q) →
  runs (add_dedicated_cpu m (VInt q)) w t
    (Ret (op_rvalue (HAdd p q) w))
    (after_op (HAdd p q) w) (set_cmd_result (answer_of N proc_res (HAdd p q) w) t).
Proof using HH.
  intros Ht Hm Hop. destruct (Hop) as [Hp Hq].
  unfold add_dedicated_cpu. run_by curr_procs_runs; [done..|]. run_step.
  eapply runs_bind; [apply runs_sleep, Ht|]. cbv beta.
  run_by (engine_runs N proc_res (HAdd p q) (One m)); [done..|].
  run_step. run_by settle_runs; [done|]. run_by complained_runs; [done|].
  unfold op_rvalue, answer_of, after_op. destruct (hmc_step (HAdd p q) w) as [w'|] eqn:Hstep.
  - simpl (negb _). cbv iota. run_step. run_by cpu_validation_add; [done..| |run].
    simpl in Hstep. destruct (_ <=? _); [|done]. injection Hstep as <-. apply hmc_curr_set.
  - simpl stdout_text. rewrite refusal_complains. run.
Qed.

Lemma remove_dedicated_cpu_runs w t m p q :
  connected N t → lpar_machine N p m → known_op N (HRemove p q) →
  runs (remove_dedicated_cpu m (VInt q)) w t (Ret (op_rvalue (HRemove p q) w))
    (after_op (HRemove p q) w) (set_cmd_result (answer_of N proc_res (HRemove p q) w) t).
Proof using HH.
  intros Ht Hm Hop. destruct (Hop) as [Hp Hq].
  unfold remove_dedicated_cpu. run_by curr_procs_runs; [done..|].
  run_by (engine_runs N proc_res (HRemove p q) (One m)); [done..|].
  run_step. run_by complained_runs; [done|].
  unfold op_rvalue, answer_of, after_op. destruct (hmc_step (HRemove p q) w) as [w'|] eqn:Hstep.
  - simpl (negb _). cbv iota. run_by settle_runs; [done|]. run_step.
    run_by cpu_validation_remove; [done..| |run].
    simpl in Hstep. destruct (_ <=? _); [|done]. injection Hstep as <-. apply hmc_curr_set.
  - simpl stdout_text. rewrite refusal_complains. run.
Qed.

Lemma add_ded_cpu_implements_add (q : Z) :
  implements N proc_res on_lpar1 (add_ded_cpu (VInt q)) (HAdd (hn_lpar1 N) q).
Proof using HH.
  apply implements_intro. intros w t [Ht (m & Hm & Hlm)] Hop. unfold add_ded_cpu. run_step.
  by apply op_value_runs, add_dedicated_cpu_runs.
Qed.

Lemma rem_ded_cpu_implements_remove (q : Z) :
  implements N proc_res on_lpar1 (rem_ded_cpu (VInt q)) (HRemove (hn_lpar1 N) q).
Proof using HH.
  apply implements_intro. intros w t [Ht (m & Hm & Hlm)] Hop. unfold rem_ded_cpu. run_step.
  by apply op_value_runs, remove_dedicated_cpu_runs.
Qed.

(** C1: [add_ded_cpu] and [rem_ded_cpu] refine the console's operations: on every state of the
    partitions, they return 0 exactly when the console makes the change, which is then made
    once and found by the validation, and 1 exactly when it refuses, with nothing changed. *)
Theorem ded_cpu_implements_hmc (q : Z) :
  implements N proc_res on_lpar1 (add_ded_cpu (VInt q)) (HAdd (hn_lpar1 N) q) ∧
  implements N proc_res on_lpar1 (rem_ded_cpu (VInt q)) (HRemove (hn_lpar1 N) q).
Proof using HH. split; [apply add_ded_cpu_implements_add|apply rem_ded_cpu_implements_remove]. Qed.
End procs.

(** ** Memory *)

Section mem.
Context {W : Type} {HE : Env W} (N : names) {HS : HmcState W} {HH : Hmc W N mem_res}.
Implicit Types (w : W) (t : testcase).

Lemma curr_mem_runs w t p m :
  connected N t → is_lpar N p → lpar_machine N p m →
  runs (mem_option_int m "curr_mem") w t (Ret (hmc_curr p w)) w t.
Proof using HH. intros. apply (query_int_runs N mem_res w t p); [done..|]. left. Qed.

Lemma mem_validation_add w t m p q before res :
  connected N t → is_lpar N p → lpar_machine N p m → hmc_curr p w = before + q →
  runs (Dlpar_mem_validation "a" (One m) (VInt q) (VInt before) res) w t (Ret ()) w t.
Proof using HH.
  intros Ht Hp Hm Hq. unfold Dlpar_mem_validation. simpl (String.eqb _ _). cbv iota.
  run_step. run_step. run_by curr_mem_runs; [done..|]. run_step.
  rewrite Hq, py_eq_int, Z.eqb_refl. run.
Qed.

Lemma mem_validation_remove w t m p q before res :
  connected N t → is_lpar N p → lpar_machine N p m → hmc_curr p w = before - q →
  runs (Dlpar_mem_validation "r" (One m) (VInt q) (VInt before) res) w t (Ret ()) w t.
Proof using HH.
  intros Ht Hp Hm Hq. unfold Dlpar_mem_validation. simpl (String.eqb _ _). cbv iota.
  run_step. run_by curr_mem_runs; [done..|]. run_step.
  rewrite Hq, py_eq_int, Z.eqb_refl. run.
Qed.

Lemma mem_validation_move w t m1 m2 p1 p2 q before1 before2 res :
  connected N t → is_lpar N p1 → is_lpar N p2 → lpar_machine N p1 m1 → lpar_machine N p2 m2 →
  hmc_curr p1 w = before1 - q → hmc_curr p2 w = before2 + q →
  runs (Dlpar_mem_validation "m" (Pair m1 m2) (VInt q) (VList [VInt before1; VInt before2]) res)
    w t (Ret ()) w t.
Proof using HH.
  intros Ht Hp1 Hp2 Hm1 Hm2 Hq1 Hq2. unfold Dlpar_mem_validation. simpl (String.eqb _ _). cbv iota.
  run_step. run_step. run_by curr_mem_runs; [exact Ht|exact Hp1|done|]. run_step. run_step.
  rewrite Hq1, py_eq_int, Z.eqb_refl.
  eapply runs_bind.
  { run_by curr_mem_runs; [exact Ht|exact Hp2|done|]. run. }
  rewrite Hq2, py_eq_int, Z.eqb_refl. run.
Qed.

Definition mem_on (p : string) (t : testcase) : Prop :=
  connected N t ∧ ∃ m, tc_linux t = Some m ∧ lpar_machine N p m.

(** [mem_add] refines the console's addition of memory to any of the two partitions. *)
Theorem mem_add_implements_add (p : string) (q : Z) :
  implements N mem_res (mem_on p) (mem_add (VInt q)) (HAdd p q).
Proof using HH.
  apply implements_intro. intros w t [Ht (m & Hm & Hlm)] Hop. unfold mem_add. run_step.
  apply op_value_runs. destruct (Hop) as [Hp Hq].
  unfold add_memory. run_by curr_mem_runs; [done..|].
  run_by (engine_runs N mem_res (HAdd p q) (One m)); [done..|].
  run_step. run_by complained_runs; [done|].
  unfold op_rvalue, answer_of, after_op. destruct (hmc_step (HAdd p q) w) as [w'|] eqn:Hstep.
  - simpl (negb _). cbv iota. run_by settle_runs; [done|]. run_step.
    run_by mem_validation_add; [done..| |run].
    simpl in Hstep. destruct (_ <=? _); [|done]. injection Hstep as <-. apply hmc_curr_set.
  - simpl stdout_text. rewrite refusal_complains. run.
Qed.

(** [mem_rem] refines the console's removal of memory. *)
Theorem mem_rem_implements_remove (p : string) (q : Z) :
  implements N mem_res (mem_on p) (mem_rem (VInt q)) (HRemove p q).
Proof using HH.
  apply implements_intro. intros w t [Ht (m & Hm & Hlm)] Hop. unfold mem_rem. run_step.
  apply op_value_runs. destruct (Hop) as [Hp Hq].
  unfold remove_memory. run_by curr_mem_runs; [done..|].
  run_by (engine_runs N mem_res (HRemove p q) (One m)); [done..|].
  run_step. run_by complained_runs; [done|].
  unfold op_rvalue, answer_of, after_op. destruct (hmc_step (HRemove p q) w) as [w'|] eqn:Hstep.
  - simpl (negb _). cbv iota. run_by settle_runs; [done|]. run_step.
    run_by mem_validation_remove; [done..| |run].
    simpl in Hstep. destruct (_ <=? _); [|done]. injection Hstep as <-. apply hmc_curr_set.
  - simpl stdout_text. rewrite refusal_complains. run.
Qed.

(** The source and the target of a move, and the amount to move. *)
Definition mem_move_on (q : Z) (t : testcase) : Prop :=
  connected N t ∧ tc_quant_to_test t = VInt q ∧
  ∃ m1 m2, tc_linux_1 t = Some m1 ∧ tc_linux_2 t = Some m2 ∧
    lpar_machine N (hn_lpar1 N) m1 ∧ lpar_machine N (hn_lpar2 N) m2.

(** [mem_move] refines the console's move of memory between the partitions: what the
    source loses the target gets, or the console refuses and nothing changes. *)
Theorem mem_move_implements_move (q : Z) :
  implements N mem_res (mem_move_on q) mem_move (HMove (hn_lpar1 N) (hn_lpar2 N) q).
Proof using HH.
  apply implements_intro. intros w t (Ht & Hquant & m1 & m2 & Ht1 & Ht2 & Hm1 & Hm2) Hop.
  set (op := HMove _ _ _). destruct (Hop) as (_ & _ & Hne & Hq).
  assert (is_lpar N (hn_lpar1 N) ∧ is_lpar N (hn_lpar2 N)) as [Hp1 Hp2] by (split; [by left|by right]).
  unfold mem_move. do 3 run_step. rewrite Hquant. apply op_value_runs. unfold move_memory.
  run_by curr_mem_runs; [exact Ht|exact Hp1|done|].
  run_by curr_mem_runs; [exact Ht|exact Hp2|done|].
  run_by (engine_runs N mem_res op (Pair m1 m2)); [done..|].
  run_step. run_by complained_runs; [done|].
  unfold op_rvalue, answer_of, after_op. destruct (hmc_step op w) as [w'|] eqn:Hstep.
  - simpl (negb _). cbv iota. run_step. run_step.
    eapply runs_bind; [apply runs_sleep, Ht|]. run_step.
    run_by mem_validation_move; [done|exact Hp1|exact Hp2|done|done| | |run];
      simpl in Hstep; destruct (_ && _); try done; injection Hstep as <-; simpl default.
    + by rewrite hmc_curr_other, hmc_curr_set.
    + apply hmc_curr_set.
  - simpl stdout_text. rewrite refusal_complains. run.
Qed.
End mem.
