(* ===== verification/DlparErrors.v ===== *)
(** * The DLPAR tests: failures and safety

    What the validations of [DlparApi] report when the partition does not have the
    expected size, the verdict of a test whose operation the console refuses, and which
    commands the processor tests can send at all, whatever the environment answers. *)

From S2P Require Import Prelude PyStr PyFloat PyVal PyRegex Avocado Logic DlparApi DlparTests DlparHmc.
Open Scope Z_scope.

(** ** Validations *)

Section validation.
Context {W : Type} {HE : Env W} (N : names).
Implicit Types (w : W) (t : testcase).

(** The console answers [z] for an option of a partition. *)
Definition answers (res p opt : string) (z : Z) w : Prop :=
  env_ssh (hn_host N) (query_text N res p opt) w = (Ret (CmdResult 0 (py_str_Z z +:+ NL)), w).

Lemma answered_int_runs w t res p m opt z :
  connected N t → lpar_machine N p m → answers res p opt z w →
  runs (s ← get_lpar_option res m opt; lift (py_int (VStr s))) w t (Ret z) w t.
Proof.
  intros [Ht _] Hm Hz. run_by lpar_option_runs; [done..|].
  rewrite py_strip_str_Z_NL, py_int_str. run.
Qed.

Lemma report_failure_runs c (b : bool) msg err w t :
  runs (failed ← check_failed msg b; when failed (log_error err ;; throw c err)) w t
    (if b then Ret () else raise_ c err) w t.
Proof.
  destruct b; [run|]. run_by check_failed_false. apply runs_when_true. run.
Qed.

(** the validation of an added or removed number of dedicated processors compares what the
    HMC reports with the number before and the quantity: it returns when they agree, and
    raises [TestException] when they do not. *)
Theorem cpu_validation_verdict (add : bool) (p : string) (m : machine) (q before z : Z)
    (res : cmd_result) (w : W) (t : testcase) :
  connected N t → lpar_machine N p m → answers "proc" p "curr_procs" z w →
  let expected := if add then before + q else before - q in
  ∃ msg, runs (Dlpar_cpu_validation (if add then "a" else "r") (One m) (VInt q) (VInt before) res) w t
           (if z =? expected then Ret () else raise_ TestException msg) w t.
Proof.
  intros Ht Hm Hz expected. unfold Dlpar_cpu_validation, expected.
  destruct add; eexists; simpl (String.eqb _ _); cbv iota.
  - run_step. run_step. run_by answered_int_runs; [done..|]. run_step. rewrite py_eq_int.
    apply report_failure_runs.
  - run_step. run_by answered_int_runs; [done..|]. run_step. rewrite py_eq_int.
    apply report_failure_runs.
Qed.

(** the validation of a moved amount of memory: when the source or the target does not
    have the expected amount, what is raised is a [TypeError] and not [TestException], because
    [TestException] is constructed without its argument. *)
Theorem mem_move_validation_verdict (p1 p2 : string) (m1 m2 : machine)
    (q before1 before2 z1 z2 : Z) (res : cmd_result) (w : W) (t : testcase) :
  connected N t → lpar_machine N p1 m1 → lpar_machine N p2 m2 →
  answers "mem" p1 "curr_mem" z1 w → answers "mem" p2 "curr_mem" z2 w →
  ∃ msg,
    runs (Dlpar_mem_validation "m" (Pair m1 m2) (VInt q) (VList [VInt before1; VInt before2]) res) w t
      (if (z1 =? before1 - q) && (z2 =? before2 + q) then Ret () else raise_ TypeError msg) w t.
Proof.
  intros Ht Hm1 Hm2 Hz1 Hz2. eexists. unfold Dlpar_mem_validation. simpl (String.eqb _ _). cbv iota.
  run_step. run_step. eapply runs_bind; [by apply (answered_int_runs _ _ "mem" p1)|].
  run_step. run_step. rewrite py_eq_int. eapply runs_bind with (a := (z1 =? before1 - q) && (z2 =? before2 + q)).
  { destruct (z1 =? before1 - q); simpl; [|run].
    eapply runs_bind; [by apply (answered_int_runs _ _ "mem" p2)|]. run_step. run_step.
    rewrite <- num_eq_int. run. }
  destruct (_ && _); [run|]. run_by check_failed_false. apply runs_when_true. run.
Qed.
End validation.

(** ** Refused operations *)

(** What the text of the console makes of a test. *)
Definition refusal_verdict (text : string) : verdict :=
  if existsb (λ m, py_in m text) capacity_messages then CANCEL else FAIL.

Lemma no_capacity_message : existsb (λ m, py_in m "") capacity_messages = false.
Proof. reflexivity. Qed.

Section refused.
Context {W : Type} {HE : Env W} {HL : DlparLib W}.

Lemma check_op_refused obj r msg (w : W) (x : dlpar_tests) :
  tc_cmd_result obj = Some r →
  ∃ res, runs (check_op obj 1 msg) w x res w x ∧ verdict_of res = refusal_verdict (stdout_text r).
Proof.
  intros Hr. unfold check_op, refusal_verdict. simpl (1 =? 1).
  destruct (existsb (λ m, py_in m (stdout_text r)) capacity_messages) eqn:E; eexists; split.
  - apply runs_when_true. eapply runs_bind; [apply runs_call_on; run|]. cbv beta iota.
    eapply runs_bind_raise. unfold cancel_on_capacity_exceeded. rewrite E.
    assert (truthy (VStr (stdout_text r)) = true) as ->.
    { destruct (stdout_text r); [by rewrite no_capacity_message in E|done]. }
    simpl negb. cbv iota. apply runs_when_true, runs_throw.
  - done.
  - apply runs_when_true. eapply runs_bind; [apply runs_call_on; run|]. cbv beta iota.
    eapply runs_bind; [|run]. unfold cancel_on_capacity_exceeded. rewrite E.
    instantiate (1 := tt). destruct (negb _); run.
  - done.
Qed.

(** A refused operation ends a test, with the world as it was. *)
Lemma refused_operation (N : names) (R : resource) {HS : HmcState W} {HH : Hmc W N R}
    (P : testcase → Prop) (m : M W testcase Z) (op : hmc_op) (obj : testcase)
    (fail_msg log_msg : string) (w : W) (x : dlpar_tests) :
  implements N R P m op → P obj → known_op N op → hmc_step op w = None →
  ∃ e, runs (do_op obj m fail_msg log_msg) w x (Raise e) w x ∧
    verdict_of (A:=()) (Raise e) = refusal_verdict (hmc_refusal op w).
Proof.
  intros Hm HP Hop Hstep. specialize (Hm w obj HP Hop). rewrite Hstep in Hm.
  set (obj' := set_cmd_result _ obj) in Hm.
  destruct (check_op_refused obj' (CmdResult 1 (hmc_refusal op w)) fail_msg w x eq_refl) as (r & Hr & Hv).
  unfold do_op. destruct r as [u|e].
  - unfold refusal_verdict in Hv. by destruct (existsb _ _).
  - exists e. split; [|done]. eapply runs_bind; [by apply runs_call_on|]. cbv beta iota.
    by apply runs_bind_raise.
Qed.

(** The lines with an error, and those with a warning only. *)
Definition failed_lines (output : string) : nat := length (List.filter (py_in "FAILED") (py_splitlines output)).
Definition warned_lines (output : string) : nat :=
  length (List.filter (λ l, negb (py_in "FAILED" l) && py_in "WARNING" l) (py_splitlines output)).

Lemma count_lines_runs lines e v (w : W) (x : dlpar_tests) :
  runs (for_acc lines (e, v) count_line) w x
    (Ret (e + Z.of_nat (length (List.filter (py_in "FAILED") lines)),
          v + Z.of_nat (length (List.filter (λ l, negb (py_in "FAILED" l) && py_in "WARNING" l) lines)))) w x.
Proof.
  revert e v. induction lines as [|l lines IH]; intros e v; cbn [for_acc List.filter length].
  { rewrite !Z.add_0_r. apply runs_ret. }
  assert (∀ b, runs (count_line b l) w x (Ret (if py_in "FAILED" l then (b.1 + 1, b.2) else
    if py_in "WARNING" l then (b.1, b.2 + 1) else b)) w x) as Hl.
  { intros [e' v']. unfold count_line. destruct (py_in "FAILED" l); [|destruct (py_in "WARNING" l)]; run. }
  run_by Hl. destruct (py_in "FAILED" l); cbn [negb andb fst snd length]; [|destruct (py_in "WARNING" l)]; cbn [length];
    match goal with |- runs (for_acc lines ?b count_line) _ _ _ _ _ => pose proof (IH b.1 b.2) as H; cbn [fst snd] in H end;
    [rewrite (Nat2Z.inj_succ (length _)), <- Z.add_1_l, Z.add_assoc|rewrite (Nat2Z.inj_succ (length _)), <- Z.add_1_l, Z.add_assoc|]; exact H.
Qed.

(** [run_cmd] passes exactly when no line of the output has an error or a warning: with an error it
    fails, and with warnings only it ends with AttributeError. *)
Theorem run_cmd_verdict test_cmd flag r (w w1 w2 : W) (x : dlpar_tests) :
  os_chmod test_cmd 493 w = (Ret (), w1) →
  env_run (if py_empty flag then test_cmd else test_cmd +:+ " " +:+ flag) [Shell] w1 = (Ret r, w2) →
  ∃ res, runs (run_cmd test_cmd flag) w x res w2 x ∧
    verdict_of res = match failed_lines (stdout_text r), warned_lines (stdout_text r) with
                     | O, O => PASS | O, _ => ERROR | _, _ => FAIL end.
Proof.
  intros Hc Hr. unfold failed_lines, warned_lines.
  set (e := length (List.filter (py_in "FAILED") _)). set (v := length (List.filter _ (py_splitlines (stdout_text r)))).
  eexists (if (0 + Z.of_nat e =? 0) && (0 <? 0 + Z.of_nat v) then raise_ AttributeError _ else if 0 <? 0 + Z.of_nat e then raise_ TestFail _ else Ret ()).
  split.
  - unfold run_cmd. eapply runs_bind; [by apply runs_ext|]. cbv beta. eapply runs_bind; [by apply runs_ext|]. cbv beta.
    eapply runs_bind; [apply count_lines_runs|]. cbv beta iota. fold e v. destruct ((0 + Z.of_nat e =? 0) && (0 <? 0 + Z.of_nat v)); [apply runs_throw|].
    destruct (0 <? 0 + Z.of_nat e); [|run]. apply runs_when_true. run_step. apply runs_throw.
  - destruct e as [|e]; [|done]. by destruct v.
Qed.
End refused.

(** ** What the processor tests can send *)

(** A test that only adds ([letter] is "a") or only removes ("r") processors sends queries
    and such changes to the console, and runs nothing on the machine under test. *)
Definition only_changes (letter : string) (ev : event) : Prop :=
  match ev with
  | EvSsh _ cmd =>
      starts_with (chars_of "lshwres ") (chars_of cmd) = true ∨
      ∃ f2 m q, chhwres_cmd "proc" letter f2 m q = Ret cmd
  | EvRun _ _ => False
  | _ => True
  end.

Lemma py_cat_cons v l s : py_cat (v :: l) = Ret s → ∃ a b, v = VStr a ∧ s = a +:+ b.
Proof.
  destruct v; simpl; try done. destruct (py_cat l) as [b|e]; simpl; [|done]. intros [= <-]. eauto.
Qed.

Lemma lshwres_prefix s l cmd :
  starts_with (chars_of "lshwres ") (chars_of s) = true → py_cat (VStr s :: l) = Ret cmd →
  starts_with (chars_of "lshwres ") (chars_of cmd) = true.
Proof.
  intros Hs Hc. apply py_cat_cons in Hc as (a & b & [= <-] & ->). rewrite chars_of_app.
  by apply starts_with_app.
Qed.

Section only.
Context {W : Type} {HE : Env W} (letter : string).
Abbreviation P := (only_changes letter).

Lemma emits_machine_cmd {S} m cmd :
  (∀ host, P (EvSsh host cmd)) → emits P (machine_cmd (S:=S) m cmd).
Proof. intros H. unfold machine_cmd. guar_with idtac. Qed.

Lemma emits_hmc_cmd cmd : (∀ host, P (EvSsh host cmd)) → emits P (hmc_cmd cmd).
Proof. intros H. unfold hmc_cmd. guar_with ltac:(by apply emits_machine_cmd). Qed.

(** The leaves that are allowed: log lines, waits, library calls. *)
Ltac only_leaf :=
  first [ apply emits_log; exact I | apply emits_sleep; exact I | apply emits_ext; exact I ].

Lemma emits_get_lpar_option res m opt : emits P (get_lpar_option res m opt).
Proof.
  unfold get_lpar_option. guar_with only_leaf. apply emits_hmc_cmd. intros host. left.
  by eapply lshwres_prefix; [|eassumption].
Qed.

Lemma emits_option_int m opt : emits P (cpu_option_int m opt).
Proof. unfold cpu_option_int. guar_with ltac:(apply emits_get_lpar_option). Qed.

Lemma emits_option_float m opt : emits P (cpu_option_float m opt).
Proof. unfold cpu_option_float. guar_with ltac:(apply emits_get_lpar_option). Qed.

Lemma emits_check_log {S} msg v die : emits P (check_log (W:=W) (S:=S) msg v die).
Proof. unfold check_log, report. guar_with only_leaf. Qed.

Lemma emits_the_lpar {S} l : emits P (the_lpar (W:=W) (S:=S) l).
Proof. unfold the_lpar. guar_with only_leaf. Qed.

Lemma emits_engine flag l q :
  letter = "a"%string ∨ letter = "r"%string → emits P (Dlpar_engine "proc" letter flag l q).
Proof.
  intros Hl. unfold Dlpar_engine.
  assert ((String.eqb letter "a" || String.eqb letter "r") = true) as -> by (by destruct Hl as [-> | ->]).
  apply guar_bind_value; [apply _|guar_with ltac:(apply emits_the_lpar)|].
  intros cmd [s Hs]. guar_with idtac. apply emits_hmc_cmd. intros host. right.
  destruct l as [m|m1 m2]; simpl in Hs; [by exists flag, m, q|done].
Qed.

Hypothesis Hletter : letter = "a"%string ∨ letter = "r"%string.

Ltac only_call :=
  first [ only_leaf | apply emits_the_lpar | apply emits_option_int | apply emits_option_float | apply emits_get_lpar_option
        | apply emits_check_log | by apply emits_engine ].
Ltac sends_only := guar_with only_call.

Lemma emits_cpu_validation flag l q info res :
  flag = "a"%string ∨ flag = "r"%string ∨ flag = "cpu_a"%string ∨ flag = "cpu_r"%string →
  emits P (Dlpar_cpu_validation flag l q info res).
Proof.
  intros [-> |[-> |[-> | ->]]]; unfold Dlpar_cpu_validation; simpl (String.eqb _ _); cbv iota;
    unfold check_failed, log_and_raise; sends_only.
Qed.

Lemma emits_settle : emits P (settle (W:=W)).
Proof. unfold settle. sends_only. Qed.

Lemma emits_op_value v : emits P (op_value (W:=W) v).
Proof. unfold op_value. sends_only. Qed.

Lemma emits_complained : emits P (hmc_complained (W:=W)).
Proof. unfold hmc_complained. sends_only. Qed.

Lemma emits_init_ssh {S} u p n : emits P (init_ssh (S:=S) u p n).
Proof. unfold init_ssh. sends_only. Qed.

Lemma emits_new_machine {S} c ty : emits P (new_machine (S:=S) c ty).
Proof. unfold new_machine. guar_with ltac:(first [only_call | apply emits_init_ssh]). Qed.

Lemma emits_get_connections c clients : emits P (get_connections c clients).
Proof. unfold get_connections. guar_with ltac:(first [only_call | apply emits_new_machine]). Qed.

Lemma emits_TestLog_init {S} path : emits P (TestLog_init (W:=W) (S:=S) path).
Proof. unfold TestLog_init, get_log_level. simpl (dict_find _ _). sends_only. Qed.

Lemma emits_TestCase_init path n c : emits P (TestCase_init (W:=W) path n c).
Proof. unfold TestCase_init. guar_with ltac:(first [only_call | apply emits_TestLog_init]). Qed.

Lemma emits_DedicatedCpu_init c : emits P (DedicatedCpu_init c).
Proof.
  unfold DedicatedCpu_init, DedicatedCpu_check_set_cfg.
  guar_with ltac:(first [only_call | apply emits_get_connections | apply emits_TestCase_init]).
Qed.

Lemma emits_CpuUnit_init c : emits P (CpuUnit_init c).
Proof.
  unfold CpuUnit_init, CpuUnit_check_set_cfg.
  guar_with ltac:(first [only_call | apply emits_get_connections | apply emits_TestCase_init]).
Qed.

Ltac only_op :=
  guar_with ltac:(first
    [ only_call | apply emits_settle | apply emits_op_value | apply emits_complained
    | apply emits_DedicatedCpu_init | apply emits_CpuUnit_init
    | apply emits_cpu_validation; tauto ]).

Lemma emits_get_max_proc : emits P get_max_proc.
Proof. unfold get_max_proc. only_op. Qed.
Lemma emits_get_curr_proc : emits P get_curr_proc.
Proof. unfold get_curr_proc. only_op. Qed.
Lemma emits_get_max_proc_units : emits P get_max_proc_units.
Proof. unfold get_max_proc_units. only_op. Qed.
Lemma emits_get_curr_proc_unit : emits P get_curr_proc_unit.
Proof. unfold get_curr_proc_unit. only_op. Qed.
End only.

#[local] Hint Extern 1 (_ ∨ _) => solve [tauto | auto] : guar.
#[local] Hint Extern 1 (only_changes _ _) => exact I : guar.
#[local] Hint Resolve emits_get_lpar_option emits_option_int emits_option_float emits_check_log
  emits_engine emits_the_lpar emits_cpu_validation emits_settle emits_op_value emits_complained
  emits_DedicatedCpu_init emits_CpuUnit_init emits_get_max_proc emits_get_curr_proc
  emits_get_max_proc_units emits_get_curr_proc_unit emits_ext : guar.

Ltac sends_only := guar_with ltac:(solve [eauto 3 with guar]).

Section tests_only.
Context {W : Type} {HE : Env W}.

Lemma emits_add_ded_cpu q : emits (only_changes "a") (add_ded_cpu q).
Proof. unfold add_ded_cpu, add_dedicated_cpu. sends_only. Qed.

Lemma emits_rem_ded_cpu q : emits (only_changes "r") (rem_ded_cpu q).
Proof. unfold rem_ded_cpu, remove_dedicated_cpu. sends_only. Qed.

Lemma emits_add_proc q flag : emits (only_changes "a") (add_proc q flag).
Proof. unfold add_proc, add_cpu_units. sends_only. Qed.

Lemma emits_remove_proc q flag : emits (only_changes "r") (remove_proc q flag).
Proof. unfold remove_proc, remove_cpu_units, log_cmd_output. sends_only. Qed.

Lemma emits_check_op l obj v msg : emits (only_changes l) (check_op (W:=W) obj v msg).
Proof. unfold check_op, cancel_on_capacity_exceeded. sends_only. Qed.

Lemma emits_do_op l obj m fm lm :
  emits (only_changes l) m → emits (only_changes l) (do_op (W:=W) obj m fm lm).
Proof. intros Hm. unfold do_op. guar_with ltac:(first [exact Hm | apply emits_check_op | solve [eauto 3 with guar]]). Qed.

#[local] Hint Resolve emits_add_ded_cpu emits_rem_ded_cpu emits_add_proc emits_remove_proc emits_do_op : guar.

(** whatever the console and the machine answer, [test_cpu_add] sends the console only
    queries and additions of processors, and runs no command on the machine under test. *)
Theorem test_cpu_add_only_adds (s : pstate W dlpar_tests) :
  ∃ tr, ps_trace (test_cpu_add s).2 = ps_trace s ++ tr ∧ Forall (only_changes "a") tr.
Proof.
  apply emits_trace. unfold test_cpu_add, mode_is, test_cpu_add_dedicated, test_cpu_add_shared, new_obj,
    data_payload_backup.
  sends_only.
Qed.

(** and [test_cpu_rm] sends only queries and removals. *)
Theorem test_cpu_rm_only_removes (s : pstate W dlpar_tests) :
  ∃ tr, ps_trace (test_cpu_rm s).2 = ps_trace s ++ tr ∧ Forall (only_changes "r") tr.
Proof.
  apply emits_trace. unfold test_cpu_rm, mode_is, test_cpu_rm_dedicated, test_cpu_rm_shared, new_obj,
    data_payload_extract, eval_line.
  sends_only.
Qed.
End tests_only.
