(* ===== verification/DlparConfig.v ===== *)
(** * The file config.txt

    [test_cpu_add] and the memory tests write the sizes they used to config.txt with
    [str], and the other tests read them back with [eval].  The round trip holds for
    lists of literals: every integer, and the floats that the payloads consist of. *)

From S2P Require Import Prelude PyStr PyFloat PyVal PyRegex Avocado Logic DlparApi DlparTests.
Open Scope Z_scope.

#[export] Instance spec_float_eq_dec : EqDecision SpecFloat.spec_float.
Proof. solve_decision. Defined.
#[export] Instance num_eq_dec : EqDecision num.
Proof. solve_decision. Defined.

(** A number whose text [eval] reads back, alone or after a comma and a space. *)
Definition plain_char (c : ascii) : bool := negb (is_space c || Ascii.eqb "," c).
Definition literal (n : num) : bool :=
  let s := chars_of (num_str n) in
  bool_decide (s ≠ []) && forallb plain_char s &&
  bool_decide (eval_num s = Some n) && bool_decide (eval_num (" "%char :: s) = Some n).

(** The floats of a payload: [k], and [k * 0.75]. *)
Lemma float_literals :
  forallb (λ k, literal (NFloat (fl (Z.of_nat k) 0)) && literal (NFloat (fl (3 * Z.of_nat k) (-2))))
    (seq 1 255) = true.
Proof. by vm_compute. Qed.

Lemma float_literal k : 1 ≤ k ≤ 255 → literal (NFloat (fl k 0)) = true.
Proof.
  intros Hk. pose proof float_literals as H. rewrite forallb_forall in H.
  specialize (H (Z.to_nat k)). rewrite Z2Nat.id in H by lia.
  apply andb_prop in H; [tauto|]. apply in_seq. lia.
Qed.

Lemma digit_plain c : is_digit c = true → plain_char c = true.
Proof.
  intros Hc. unfold plain_char. rewrite (digit_not_space c Hc).
  by destruct (Ascii.eqb_spec "," c) as [<-|].
Qed.

Lemma int_literal z : literal (NInt z) = true.
Proof.
  unfold literal. simpl num_str. destruct (str_Z_trimmed z) as [_ Hne].
  assert (eval_num (chars_of (py_str_Z z)) = Some (NInt z)) as H1.
  { unfold eval_num. pose proof (int_of_padded [] [] z) as H. rewrite app_nil_r in H.
    rewrite app_nil_l in H. by rewrite H by constructor. }
  assert (eval_num (" "%char :: chars_of (py_str_Z z)) = Some (NInt z)) as H2.
  { unfold eval_num. pose proof (int_of_padded [" "%char] [] z) as H. rewrite app_nil_r in H.
    simpl app in H. rewrite H; [done|by repeat constructor|constructor]. }
  rewrite H1, H2, !bool_decide_true by done. rewrite !andb_true_r. simpl.
  rewrite forallb_forall. intros c Hc. rewrite chars_of_str_Z in Hc.
  assert (∀ n, 0 ≤ n → In c (nat_chars n) → plain_char c = true) as Hdigit.
  { intros n Hn Hin. destruct (nat_chars_spec n Hn) as (_ & Hall & _).
    rewrite List.Forall_forall in Hall. by apply digit_plain, Hall. }
  destruct (Z.ltb_spec z 0); [destruct Hc as [<-|Hc]; [done|]|]; (eapply Hdigit; [|exact Hc]; lia).
Qed.

(** ** The text of a list *)

Fixpoint items (l : list num) : chars :=
  match l with
  | [] => []
  | [x] => chars_of (num_str x)
  | x :: l' => chars_of (num_str x) ++ ","%char :: " "%char :: items l'
  end.

Lemma repr_items l : chars_of (num_list_repr l) = "["%char :: items l ++ ["]"%char].
Proof.
  unfold num_list_repr. simpl py_repr. rewrite !chars_of_app. simpl. do 2 f_equal.
  induction l as [|x l IH]; [done|]. destruct l as [|y l]; [by destruct x|].
  simpl in *. rewrite !chars_of_app. rewrite IH. by destruct x.
Qed.

Lemma literal_spec n :
  literal n = true →
  chars_of (num_str n) ≠ [] ∧ Forall (λ c, plain_char c = true) (chars_of (num_str n)) ∧
  eval_num (chars_of (num_str n)) = Some n ∧ eval_num (" "%char :: chars_of (num_str n)) = Some n.
Proof.
  unfold literal. rewrite !andb_true_iff, !bool_decide_eq_true, forallb_forall, List.Forall_forall.
  tauto.
Qed.

Lemma plain_not_space c : plain_char c = true → is_space c = false.
Proof. unfold plain_char. by destruct (is_space c). Qed.

Lemma plain_not_comma c : plain_char c = true → Ascii.eqb "," c = false.
Proof. unfold plain_char. rewrite negb_true_iff, orb_false_iff. tauto. Qed.

Lemma plain_trimmed l : Forall (λ c, plain_char c = true) l → trimmed is_space l.
Proof.
  intros H. rewrite List.Forall_forall in H. split.
  - destruct l as [|c l]; [done|]. apply plain_not_space, H. by left.
  - destruct l as [|c l _] using rev_ind; [done|]. rewrite last_opt_snoc.
    apply plain_not_space, H, in_or_app. right. by left.
Qed.

Lemma items_trimmed l :
  Forall (λ n, literal n = true) l → trimmed is_space (items l) ∧ (l ≠ [] → items l ≠ []).
Proof.
  induction 1 as [|x l Hx HF [IHt IHne]]; [done|]. apply literal_spec in Hx as (Hne & Hp & _).
  destruct l as [|y l]; [split; [by apply plain_trimmed|done]|].
  apply plain_trimmed in Hp. destruct Hp as [Hp _].
  change (items (x :: y :: l)) with (chars_of (num_str x) ++ [","; " "]%char ++ items (y :: l)).
  destruct (chars_of (num_str x)) as [|c s]; [done|]. split; [|done]. split; [done|].
  rewrite last_opt_app, last_opt_app by auto. apply IHt.
Qed.

(** The text between the brackets, with the spaces that follow a comma. *)
Lemma eval_items x l ws :
  Forall (λ n, literal n = true) (x :: l) → ws = [] ∨ ws = [" "%char] →
  mapM eval_num (pieces (Ascii.eqb ",") (ws ++ items (x :: l))) = Some (x :: l).
Proof.
  revert x ws. induction l as [|y l IH]; intros x ws HF Hws;
    inversion HF as [|? ? Hx HF']; subst; apply literal_spec in Hx as (Hne & Hp & He & He');
    assert (eval_num (ws ++ chars_of (num_str x)) = Some x) as Hev by (by destruct Hws as [->| ->]);
    assert (Forall (λ c, Ascii.eqb "," c = false) (ws ++ chars_of (num_str x))) as Hc
      by (apply Forall_app; split;
          [destruct Hws as [->| ->]; by repeat constructor|
           eapply Forall_impl; [exact Hp|apply plain_not_comma]]).
  - simpl items. rewrite pieces_none by done. simpl. by rewrite Hev.
  - change (items (x :: y :: l)) with (chars_of (num_str x) ++ ","%char :: [" "%char] ++ items (y :: l)).
    pose proof (IH y [" "%char] HF' (or_intror eq_refl)) as E.
    rewrite app_assoc, pieces_app by done. cbn [mapM]. rewrite Hev. cbn [mbind option_bind].
    by rewrite E.
Qed.

Lemma eval_list_repr l ws1 ws2 :
  Forall (λ n, literal n = true) l →
  Forall (λ c, is_space c = true) ws1 → Forall (λ c, is_space c = true) ws2 →
  eval_list (str_of (ws1 ++ chars_of (num_list_repr l) ++ ws2)) = Ret l.
Proof.
  intros HF H1 H2. unfold eval_list. rewrite chars_of_str_of, repr_items.
  rewrite strip_padded; [|done|done| |done].
  - simpl (Ascii.eqb "[" "["). cbv iota. rewrite rev_app_distr. simpl (rev ["]"%char] ++ _). cbv iota.
    simpl (Ascii.eqb "]" "]"). cbv iota. rewrite rev_involutive.
    destruct (items_trimmed l HF) as [Ht Hne]. rewrite strip_trimmed by done.
    destruct l as [|x l]; [done|]. specialize (Hne ltac:(done)).
    pose proof (eval_items x l [] HF (or_introl eq_refl)) as He. rewrite app_nil_l in He.
    destruct (items (x :: l)); [done|]. by rewrite He.
  - split; [done|]. by rewrite app_comm_cons, last_opt_snoc.
Qed.

(** ** Lines *)

Definition backup_text (l : list num) : string := num_list_repr l +:+ NL.

Lemma items_no_LF l :
  Forall (λ n, literal n = true) l → Forall (λ c, Ascii.eqb c LF = false) (items l).
Proof.
  assert (∀ c, plain_char c = true → Ascii.eqb c LF = false) as Hplain.
  { intros c Hc. apply plain_not_space in Hc. by destruct (Ascii.eqb_spec c LF) as [->|]. }
  induction 1 as [|x l Hx HF IH]; [done|]. apply literal_spec in Hx as (_ & Hp & _).
  assert (Forall (λ c, Ascii.eqb c LF = false) (chars_of (num_str x))) as H
    by (eapply Forall_impl; [exact Hp|apply Hplain]).
  destruct l as [|y l]; [done|].
  change (items (x :: y :: l)) with (chars_of (num_str x) ++ ","%char :: " "%char :: items (y :: l)).
  apply Forall_app. split; [done|]. by repeat constructor.
Qed.

Lemma readlines_backup l s :
  Forall (λ n, literal n = true) l →
  readlines (backup_text l +:+ s) = backup_text l :: readlines s.
Proof.
  intros HF. unfold readlines, backup_text. rewrite !chars_of_app, <- app_assoc.
  change (chars_of NL ++ chars_of s) with (LF :: chars_of s).
  rewrite readlines_line.
  - cbn [map]. f_equal. rewrite <- (str_of_chars_of (num_list_repr l +:+ NL)) at 1.
    by rewrite chars_of_app.
  - rewrite repr_items. constructor; [done|]. apply Forall_app. split; [by apply items_no_LF|].
    by repeat constructor.
Qed.

Lemma eval_backup l : Forall (λ n, literal n = true) l → eval_list (backup_text l) = Ret l.
Proof.
  intros HF. pose proof (eval_list_repr l [] [LF] HF) as H.
  rewrite <- (str_of_chars_of (backup_text l)). unfold backup_text. rewrite chars_of_app.
  apply H; by repeat constructor.
Qed.

(** ** The file *)

(** A file that is appended to and read. *)
Class ConfigFile (W : Type) {HE : Env W} := {
  cfg_file : W → string;
  cfg_write : string → W → W;
  cfg_append s w : env_append "config.txt" s w = (Ret (), cfg_write s w);
  cfg_read w : env_read "config.txt" w = (Ret (cfg_file w), w);
  cfg_file_write s w : cfg_file (cfg_write s w) = cfg_file w +:+ s;
}.

Section file.
Context {W : Type} {HE : Env W} {HL : DlparLib W} {HC : ConfigFile W}.

Definition file_of (ls : list (list num)) : string := foldr (λ l s, backup_text l +:+ s) ""%string ls.

Lemma file_of_snoc ls l : file_of (ls ++ [l]) = file_of ls +:+ backup_text l.
Proof.
  induction ls as [|k ls IH]; simpl; [by rewrite string_app_nil_r|].
  by rewrite IH, string_app_assoc.
Qed.

Lemma backup_runs l w (x : dlpar_tests) :
  runs (data_payload_backup l) w x (Ret ()) (cfg_write (backup_text l) w) x.
Proof using HC. apply runs_ext, cfg_append. Qed.

Lemma extract_runs w (x : dlpar_tests) :
  runs data_payload_extract w x (Ret (readlines (cfg_file w))) w x.
Proof using HC. unfold data_payload_extract. eapply runs_bind; [apply runs_silent, cfg_read|]. run. Qed.

Lemma eval_line_runs ls i l (w : W) (x : dlpar_tests) :
  Forall (Forall (λ n, literal n = true)) ls → ls !! i = Some l →
  runs (eval_line (readlines (file_of ls)) i) w x (Ret l) w x.
Proof.
  intros HF Hi. assert (readlines (file_of ls) !! i = Some (backup_text l)) as E.
  { revert i Hi. induction HF as [|k ls Hk HF IH]; intros i; [done|].
    change (file_of (k :: ls)) with (backup_text k +:+ file_of ls). rewrite readlines_backup by done.
    destruct i as [|i]; simpl; [by intros [= ->]|apply IH]. }
  unfold eval_line. rewrite E, eval_backup; [run|].
  rewrite Forall_lookup in HF. by eapply HF.
Qed.

(** C15: what [data_payload_backup] wrote, [data_payload_extract] and [eval] give back: after
    any number of lists of literals has been saved to an empty file, the [i]-th line
    evaluates to the [i]-th list.  Every integer is a literal, and so are the floats of
    the payloads. *)
Theorem config_txt_round_trip (ls : list (list num)) (i : nat) (l : list num) (w : W) (x : dlpar_tests) :
  cfg_file w = ""%string → Forall (Forall (λ n, literal n = true)) ls → ls !! i = Some l →
  ∃ w', runs (for_each ls data_payload_backup ;;
              lines ← data_payload_extract; eval_line lines i : M W dlpar_tests (list num))
          w x (Ret l) w' x.
Proof using HC.
  intros Hw HF Hi.
  assert (∀ todo done w, ls = done ++ todo → cfg_file w = file_of done →
    ∃ w', runs (for_each todo data_payload_backup) w x (Ret ()) w' x ∧ cfg_file w' = file_of ls) as Hloop.
  { intros todo. induction todo as [|k todo IH]; intros dn v Hls Hv; simpl.
    - exists v. split; [apply runs_ret|]. by rewrite Hls, app_nil_r.
    - destruct (IH (dn ++ [k]) (cfg_write (backup_text k) v)) as (w' & Hr & Hf).
      + by rewrite <- app_assoc.
      + by rewrite cfg_file_write, Hv, file_of_snoc.
      + exists w'. split; [|done]. run_by backup_runs. exact Hr. }
  destruct (Hloop ls [] w eq_refl Hw) as (w' & Hr & Hf). exists w'.
  run_by Hr. run_by extract_runs. rewrite Hf. by apply eval_line_runs.
Qed.
End file.
