(* ===== verification/DlparSystem.v ===== *)
(** * The DLPAR tests in a laboratory

    The processor tests of [DlparTests] from end to end: a configured test, a console
    with dedicated partitions, and the file config.txt that [test_cpu_add] leaves for
    [test_cpu_rm]. *)

From S2P Require Import Prelude PyStr PyFloat PyVal PyRegex Avocado Logic DlparApi DlparTests.
From S2P Require Import DlparPayload DlparHmc DlparErrors DlparConfig.
Open Scope Z_scope.

(** ** The laboratory *)

(** Besides the console: sessions connect, the partitions are in dedicated mode, and
    config.txt is appended to and read. *)
Class Lab (W : Type) {HE : Env W} (N : names) {HS : HmcState W} := {
  lab_console :: Hmc W N proc_res;
  lab_connect name user passwd w : env_connect name user passwd w = (Ret true, w);
  lab_mode p w :
    is_lpar N p →
    env_ssh (hn_host N) (query_text N "proc" p "curr_proc_mode") w = (Ret (CmdResult 0 ("ded" +:+ NL)), w);
  lab_config :: ConfigFile W;
  lab_file_set p z w : cfg_file (hmc_set p z w) = cfg_file w;
  lab_curr_write s p w : hmc_curr p (cfg_write s w) = hmc_curr p w;
  lab_min_write s p w : hmc_min p (cfg_write s w) = hmc_min p w;
  lab_max_write s p w : hmc_max p (cfg_write s w) = hmc_max p w;
}.

(** The parameters of a run on this laboratory. *)
Record configured (N : names) (c : payload) : Prop := {
  cf_host : cfg_get "hmc_name" c = VStr (hn_host N);
  cf_sys : cfg_get "hmc_manageSystem" c = VStr (hn_sys N);
  cf_lpar1 : cfg_get "src_partition" c = VStr (hn_lpar1 N);
  cf_lpar2 : cfg_get "target_partition" c = VStr (hn_lpar2 N);
  cf_threads : ∃ n, py_int (cfg_get "cfg_cpu_per_proc" c) = Ret n;
  cf_quantity : is_None (cfg_get "ded_quantity_to_test" c) = false;
  cf_sleep : sleepable (cfg_get "sleep_time" c) = true;
}.

Section lab.
Context {W : Type} {HE : Env W} {HL : DlparLib W} (N : names) {HS : HmcState W} {HLab : Lab W N}.
Implicit Types (w : W) (t : testcase) (c : payload).

Lemma init_ssh_runs {S} user passwd name w (x : S) :
  runs (init_ssh user passwd name) w x (Ret (py_str name, 0)) w x.
Proof using HLab.
  unfold init_ssh. eapply runs_bind; [by apply runs_ext|].
  eapply runs_bind; [apply runs_ext, lab_connect|]. run.
Qed.

Lemma check_log_runs {S} msg die w (x : S) :
  runs (check_log msg (VBool true) die) w x (Ret (VBool true)) w x.
Proof. unfold check_log, report. run. Qed.

(** Both sessions are opened and both partitions are known. *)
Lemma get_connections_runs c w t :
  configured N c →
  ∃ t', runs (get_connections c "both") w t (Ret 0) w t' ∧
    (∃ hmc, tc_hmc t' = Some hmc ∧ mc_sshcnx hmc = Some (hn_host N)) ∧
    (∃ m1, tc_linux_1 t' = Some m1 ∧ lpar_machine N (hn_lpar1 N) m1) ∧
    (∃ m2, tc_linux_2 t' = Some m2 ∧ lpar_machine N (hn_lpar2 N) m2) ∧
    tc_sleep_time t' = tc_sleep_time t.
Proof using HLab.
  intros Hc. eexists. split.
  { apply runs_try_ret. unfold new_machine. simpl (String.eqb _ _). cbv iota.
    eapply runs_bind.
    { eapply runs_bind.
      { eapply runs_bind; [apply init_ssh_runs|]. cbv beta iota. run. }
      cbv beta iota. run. }
    run_step. run_step. simpl (_ || _).
    eapply runs_bind; [apply runs_when_true; run|].
    eapply runs_bind.
    { apply runs_when_true. eapply runs_bind.
      { eapply runs_bind; [apply init_ssh_runs|]. cbv beta iota. run. }
      run. }
    eapply runs_bind; [apply check_log_runs|]. run. }
  simpl. rewrite (cf_host _ _ Hc). split; [|split; [|split]].
  - by eexists.
  - eexists. split; [done|]. split; apply Hc.
  - eexists. split; [done|]. split; apply Hc.
  - done.
Qed.

Lemma mode_runs w t p m :
  connected N t → is_lpar N p → lpar_machine N p m →
  runs (get_cpu_option m "curr_proc_mode") w t (Ret "ded"%string) w t.
Proof using HLab.
  intros ((hmc & Hhmc & Hcnx) & _) Hp Hm.
  apply (lpar_option_runs N "proc" p "curr_proc_mode" ("ded" +:+ NL)); [by exists hmc|done|].
  by apply lab_mode.
Qed.

Lemma min_procs_runs w t p m :
  connected N t → is_lpar N p → lpar_machine N p m →
  runs (cpu_option_int m "curr_min_procs") w t (Ret (hmc_min p w)) w t.
Proof using HLab. intros. apply (query_int_runs N proc_res w t p); [done..|]. right. left. Qed.

Lemma max_procs_runs w t p m :
  connected N t → is_lpar N p → lpar_machine N p m →
  runs (cpu_option_int m "curr_max_procs") w t (Ret (hmc_max p w)) w t.
Proof using HLab. intros. apply (query_int_runs N proc_res w t p); [done..|]. do 2 right. left. Qed.

Lemma check_set_cfg_runs w t p m :
  connected N t → is_lpar N p → lpar_machine N p m →
  runs (DedicatedCpu_check_set_cfg m) w t (Ret ()) w t.
Proof using HLab.
  intros. unfold DedicatedCpu_check_set_cfg. do 2 run_step.
  run_by mode_runs; [done..|]. run_step. simpl (String.eqb "ded" "ded").
  run_by check_log_runs. run_by min_procs_runs; [done..|]. run_by (curr_procs_runs N); [done..|]. run.
Qed.

Lemma TestLog_init_runs {S} path w (t : S) : ∃ l, runs (TestLog_init path) w t (Ret l) w t.
Proof using Type.
  eexists. unfold TestLog_init. eapply runs_bind; [by apply runs_ext|]. do 2 (eapply runs_bind; [apply (runs_ret _)|]). apply runs_ret.
Qed.

(** [DedicatedCpu(self.sorted_payload)] *)
Lemma DedicatedCpu_init_runs c w t :
  configured N c →
  ∃ t', runs (DedicatedCpu_init c) w t (Ret ()) w t' ∧ on_lpar1 N t'.
Proof using HLab.
  intros Hc. destruct (cf_threads _ _ Hc) as [n Hn].
  set (t1 := set_sleep_time (cfg_get "sleep_time" c)
               (set_quant_to_test (cfg_get "ded_quantity_to_test" c) (set_cpu_per_processor n t))).
  destruct (get_connections_runs c w t1 Hc) as (t2 & Hrun & Hhmc & (m1 & Hm1 & Hl1) & (m2 & Hm2 & Hl2) & Hs).
  assert (connected N (set_value 0 t2)) as Ht2.
  { split; [done|]. simpl. rewrite Hs. apply Hc. }
  exists (set_value 0 t2). split; [|by split; [|exists m1]].
  unfold DedicatedCpu_init, TestCase_init. rewrite Hn, (cf_quantity _ _ Hc).
  destruct (TestLog_init_runs "dedicated_cpu.log" w t) as [l Hlog]. eapply runs_bind; [eapply runs_bind; [exact Hlog|]|]; cbv beta.
  { do 2 run_step. apply runs_modify. }
  do 2 run_step. run_by check_log_runs. run_step. run_by Hrun. do 2 run_step.
  run_by check_set_cfg_runs; [exact Ht2|by left|exact Hl1|]. run_step.
  eapply check_set_cfg_runs; [exact Ht2|by right|exact Hl2].
Qed.

Lemma get_max_proc_runs w t :
  on_lpar1 N t → runs get_max_proc w t (Ret (hmc_max (hn_lpar1 N) w)) w t.
Proof using HLab.
  intros [Ht (m & Hm & Hl)]. unfold get_max_proc. run_step.
  by eapply max_procs_runs; [|left|].
Qed.

Lemma get_curr_proc_runs w t :
  on_lpar1 N t → runs get_curr_proc w t (Ret (hmc_curr (hn_lpar1 N) w)) w t.
Proof using HLab.
  intros [Ht (m & Hm & Hl)]. unfold get_curr_proc. run_step.
  by eapply (curr_procs_runs N); [|left|].
Qed.

(** An operation that the console accepts goes on to the next one. *)
Lemma do_op_runs obj m op fail_msg log_msg w w' (x : dlpar_tests) :
  implements N proc_res (on_lpar1 N) m op → on_lpar1 N obj → known_op N op →
  hmc_step op w = Some w' →
  runs (do_op obj m fail_msg log_msg) w x (Ret (set_cmd_result (CmdResult 0 "") obj)) w' x.
Proof.
  intros Hm Hobj Hop Hstep. specialize (Hm w obj Hobj Hop). rewrite Hstep in Hm.
  unfold do_op. run_by runs_call_on; [exact Hm|]. unfold check_op. simpl (0 =? 1). run.
Qed.

(** The world after a change of the first partition by [d]. *)
Definition lpar1_changed (d : Z) w w' : Prop :=
  hmc_curr (hn_lpar1 N) w' = hmc_curr (hn_lpar1 N) w + d ∧
  hmc_min (hn_lpar1 N) w' = hmc_min (hn_lpar1 N) w ∧
  hmc_max (hn_lpar1 N) w' = hmc_max (hn_lpar1 N) w ∧
  (∀ p, p ≠ hn_lpar1 N → hmc_curr p w' = hmc_curr p w) ∧
  cfg_file w' = cfg_file w.

Lemma lpar1_changed_refl w : lpar1_changed 0 w w.
Proof. unfold lpar1_changed. rewrite Z.add_0_r. auto. Qed.

Lemma lpar1_changed_set d w : lpar1_changed d w (hmc_set (hn_lpar1 N) (hmc_curr (hn_lpar1 N) w + d) w).
Proof.
  unfold lpar1_changed. rewrite hmc_curr_set, hmc_min_set, hmc_max_set, lab_file_set.
  split; [done|]. split; [done|]. split; [done|]. split; [|done]. intros p Hp. by rewrite hmc_curr_other.
Qed.

Lemma lpar1_changed_trans d1 d2 w1 w2 w3 :
  lpar1_changed d1 w1 w2 → lpar1_changed d2 w2 w3 → lpar1_changed (d1 + d2) w1 w3.
Proof.
  intros (H1 & H2 & H3 & H4 & H5) (G1 & G2 & G3 & G4 & G5). unfold lpar1_changed.
  rewrite G1, G2, G3, G5. split; [lia|]. split; [done|]. split; [done|]. split; [|done].
  intros p Hp. by rewrite G4, H4.
Qed.

(** A loop of operations of the first partition that change it by [sg] times the size of
    each step, while the total stays within the bounds. *)
Lemma change_loop (sg : Z) (f : Z → M W testcase Z) (op : Z → hmc_op) l zs fail_msg (log_msg : num → string) :
  (∀ q, implements N proc_res (on_lpar1 N) (f q) (op q)) →
  (∀ q w, 0 ≤ q → hmc_min (hn_lpar1 N) w ≤ hmc_curr (hn_lpar1 N) w + sg * q ≤ hmc_max (hn_lpar1 N) w →
     known_op N (op q) ∧
     hmc_step (op q) w = Some (hmc_set (hn_lpar1 N) (hmc_curr (hn_lpar1 N) w + sg * q) w)) →
  sg = 1 ∨ sg = -1 →
  Forall2 (on_grid 0) l zs → Forall (λ z, 0 ≤ z) zs → ∀ obj w (x : dlpar_tests),
  on_lpar1 N obj →
  hmc_min (hn_lpar1 N) w ≤ hmc_curr (hn_lpar1 N) w ≤ hmc_max (hn_lpar1 N) w →
  hmc_min (hn_lpar1 N) w ≤ hmc_curr (hn_lpar1 N) w + sg * Zsum zs ≤ hmc_max (hn_lpar1 N) w →
  ∃ obj' w',
    runs (for_acc l obj (λ obj cpu, n ← lift (num_int cpu);
            do_op obj (f n) fail_msg (log_msg cpu))) w x (Ret obj') w' x ∧
    on_lpar1 N obj' ∧ lpar1_changed (sg * Zsum zs) w w'.
Proof using HLab.
  intros Hf Hok Hsg HF. induction HF as [|cpu z l zs Hz HF IH]; intros Hpos obj w x Hobj Hc Hfit.
  - exists obj, w. split; [apply runs_ret|]. split; [done|]. change (Zsum []) with 0.
    rewrite Z.mul_0_r. apply lpar1_changed_refl.
  - inversion Hpos as [|? ? H0 Hpos']; subst. change (Zsum (z :: zs)) with (z + Zsum zs) in *.
    assert (0 ≤ Zsum zs) as Hnn by by apply Zsum_nonneg.
    destruct (Hok z w H0) as [Hop Hstep]; [destruct Hsg as [-> | ->]; lia|].
    set (w1 := hmc_set (hn_lpar1 N) (hmc_curr (hn_lpar1 N) w + sg * z) w) in *.
    pose proof (lpar1_changed_set (sg * z) w) as Hch. fold w1 in Hch.
    destruct (IH Hpos' (set_cmd_result (CmdResult 0 "") obj) w1 x) as (obj' & w' & Hrun & Hobj' & Hch').
    { done. }
    { destruct Hch as (-> & -> & -> & _). destruct Hsg as [-> | ->]; lia. }
    { destruct Hch as (-> & -> & -> & _). lia. }
    exists obj', w'. split; [|split; [done|]].
    + simpl for_acc. eapply runs_bind; [|exact Hrun]. rewrite (on_grid_num_int _ _ Hz). run_step.
      by eapply do_op_runs; [apply Hf| | |].
    + rewrite Z.mul_add_distr_l. by eapply lpar1_changed_trans.
Qed.

Lemma add_step q w :
  0 ≤ q → hmc_min (hn_lpar1 N) w ≤ hmc_curr (hn_lpar1 N) w + 1 * q ≤ hmc_max (hn_lpar1 N) w →
  known_op N (HAdd (hn_lpar1 N) q) ∧
  hmc_step (HAdd (hn_lpar1 N) q) w = Some (hmc_set (hn_lpar1 N) (hmc_curr (hn_lpar1 N) w + 1 * q) w).
Proof.
  rewrite Z.mul_1_l. intros Hq Hb. split; [split; [by left|done]|]. simpl. case_match_eqn; [done|lia].
Qed.

Lemma remove_step q w :
  0 ≤ q → hmc_min (hn_lpar1 N) w ≤ hmc_curr (hn_lpar1 N) w + -1 * q ≤ hmc_max (hn_lpar1 N) w →
  known_op N (HRemove (hn_lpar1 N) q) ∧
  hmc_step (HRemove (hn_lpar1 N) q) w = Some (hmc_set (hn_lpar1 N) (hmc_curr (hn_lpar1 N) w + -1 * q) w).
Proof.
  intros Hq Hb. split; [split; [by left|done]|]. simpl.
  replace (hmc_curr (hn_lpar1 N) w + -1 * q) with (hmc_curr (hn_lpar1 N) w - q) in * by lia.
  case_match_eqn; [done|lia].
Qed.

(** The state before the tests: bounds, and machine-size numbers of processors. *)
Definition sane w : Prop :=
  hmc_min (hn_lpar1 N) w ≤ hmc_curr (hn_lpar1 N) w ≤ hmc_max (hn_lpar1 N) w ∧
  0 ≤ hmc_curr (hn_lpar1 N) w ∧ hmc_max (hn_lpar1 N) w < 2 ^ 50.

Definition dedicated_self (x : dlpar_tests) : Prop :=
  dt_lpar_mode x = VStr "dedicated" ∧ configured N (dt_sorted_payload x).

Lemma new_obj_runs w (x : dlpar_tests) :
  configured N (dt_sorted_payload x) →
  ∃ obj, runs (new_obj DedicatedCpu_init) w x (Ret obj) w x ∧ on_lpar1 N obj.
Proof using HLab.
  intros Hc. destruct (DedicatedCpu_init_runs _ w new_testcase Hc) as (obj & Hrun & Hobj).
  exists obj. split; [|done]. unfold new_obj. run_step.
  eapply runs_bind; [by apply runs_call_on|]. run.
Qed.

Lemma dedicated_mode_runs w (x : dlpar_tests) :
  dedicated_self x → runs (mode_is "dedicated") w x (Ret true) w x.
Proof. intros [Hx _]. unfold mode_is. run_step. rewrite Hx. run. Qed.

(** The world after the operations of a test, which may have written to config.txt. *)
Lemma lpar1_changed_write s d w w' :
  lpar1_changed d (cfg_write s w) w' →
  hmc_curr (hn_lpar1 N) w' = hmc_curr (hn_lpar1 N) w + d ∧
  hmc_min (hn_lpar1 N) w' = hmc_min (hn_lpar1 N) w ∧
  hmc_max (hn_lpar1 N) w' = hmc_max (hn_lpar1 N) w ∧
  (∀ p, p ≠ hn_lpar1 N → hmc_curr p w' = hmc_curr p w) ∧
  cfg_file w' = cfg_file w +:+ s.
Proof.
  unfold lpar1_changed. rewrite lab_curr_write, lab_min_write, lab_max_write, cfg_file_write.
  intros (H1 & H2 & H3 & H4 & H5). split; [done|]. split; [done|]. split; [done|]. split; [|done].
  intros p Hp. by rewrite H4, lab_curr_write.
Qed.

Lemma steps_nonneg s i n : 0 ≤ s → Forall (λ z, 0 ≤ z) (steps s i n).
Proof.
  intros Hs. unfold steps. apply List.Forall_forall. intros z Hz.
  apply in_map_iff in Hz as (j & <- & _). nia.
Qed.

(** [test_cpu_add] runs, saves its payload [l] and leaves the partition as full as steps
    of 1, 2, .. make it. *)
Lemma test_cpu_add_runs w (x : dlpar_tests) :
  dedicated_self x → sane w →
  ∃ l n w', runs test_cpu_add w x (Ret ()) w' x ∧
    cpu_payload_data (cpu_payload_fuel (NInt (hmc_max (hn_lpar1 N) w)) (NInt (hmc_curr (hn_lpar1 N) w)))
      (NInt (hmc_max (hn_lpar1 N) w)) (NInt (hmc_curr (hn_lpar1 N) w)) (NInt 1) = Some (Ret l) ∧
    Forall2 (on_grid 0) l (steps 1 1 n) ∧
    hmc_curr (hn_lpar1 N) w + Zsum (steps 1 1 n) ≤ hmc_max (hn_lpar1 N) w ∧
    hmc_max (hn_lpar1 N) w < hmc_curr (hn_lpar1 N) w + Zsum (steps 1 1 n) + Z.of_nat (S n) ∧
    lpar1_changed (Zsum (steps 1 1 n)) (cfg_write (backup_text l) w) w'.
Proof using HLab.
  intros Hx (Hb & H0 & Hm).
  destruct (cpu_payload_int_spec _ _ 1 (conj H0 (proj2 Hb)) Hm ltac:(lia)) as (l & n & El & HF & Hle & Hlt).
  destruct (new_obj_runs w x (proj2 Hx)) as (obj & Hnew & Hobj).
  destruct (change_loop 1 (λ q, add_ded_cpu (VInt q)) (HAdd (hn_lpar1 N)) l (steps 1 1 n) msg_cpu_add
    (λ cpu, "===============> " +:+ num_str cpu +:+ " cpu got added=======>" +:+ NL +:+ " ")
    (λ q, add_ded_cpu_implements_add N q) add_step (or_introl eq_refl) HF (steps_nonneg 1 1 n ltac:(lia))
    obj (cfg_write (backup_text l) w) x Hobj) as (obj' & w' & Hloop & _ & Hch).
  { by rewrite lab_curr_write, lab_min_write, lab_max_write. }
  { rewrite lab_curr_write, lab_min_write, lab_max_write.
    pose proof (Zsum_nonneg _ (steps_nonneg 1 1 n ltac:(lia))). lia. }
  rewrite Z.mul_1_l in Hch.
  exists l, n, w'. split; [|by split_and!; try done; lia].
  unfold test_cpu_add. run_by dedicated_mode_runs; [done|]. unfold test_cpu_add_dedicated.
  run_by Hnew. run_by runs_call_on; [by apply get_max_proc_runs|].
  run_by runs_call_on; [by apply get_curr_proc_runs|]. rewrite El. run_step.
  run_by backup_runs. run_step. run_by Hloop. run.
Qed.

(** on a laboratory whose primary partition has [c] of at most [m] dedicated processors,
    [test_cpu_add] passes, the partition ends with [c + 1 + 2 + .. + n] processors within
    the maximum, [n] being the largest possible, and no other partition changes. *)
Theorem test_cpu_add_fills_partition (w : W) (x : dlpar_tests) :
  dedicated_self x → sane w →
  ∃ n w', runs test_cpu_add w x (Ret ()) w' x ∧
    2 * hmc_curr (hn_lpar1 N) w' = 2 * hmc_curr (hn_lpar1 N) w + Z.of_nat n * (Z.of_nat n + 1) ∧
    hmc_curr (hn_lpar1 N) w' ≤ hmc_max (hn_lpar1 N) w' < hmc_curr (hn_lpar1 N) w' + Z.of_nat n + 1 ∧
    (∀ p, p ≠ hn_lpar1 N → hmc_curr p w' = hmc_curr p w).
Proof using HLab.
  intros Hx Hw. destruct (test_cpu_add_runs w x Hx Hw) as (l & n & w' & Hrun & _ & _ & Hle & Hlt & Hch).
  exists n, w'. split; [done|]. apply lpar1_changed_write in Hch as (-> & _ & -> & Hother & _).
  pose proof (Zsum_steps 1 n). split; [lia|]. split; [lia|done].
Qed.

(** The payload of a machine of up to 32640 processors can be read back from config.txt. *)
Lemma payload_literals fuel m (curr : num) l n :
  cpu_payload_data fuel m curr (NInt 1) = Some (Ret l) → Forall2 (on_grid 0) l (steps 1 1 n) →
  (n ≤ 255)%nat → Forall (λ x, literal x = true) l.
Proof.
  intros El HF Hn.
  assert (Forall is_float l) as Hl.
  { unfold cpu_payload_data in El.
    destruct (cpu_payload_loop fuel m (NInt 1) curr float_zero) as [[l'|e]|] eqn:E; try done.
    simpl in El. injection El as <-. apply cpu_payload_floats in E; [|done].
    rewrite List.Forall_forall in *. intros y Hy. apply filter_In in Hy as [Hy _]. by apply E. }
  apply (floats_on_grid 0) in HF; [|done]. clear El Hl.
  assert (Forall (λ z, 1 ≤ z ≤ 255) (steps 1 1 n)) as Hs.
  { apply List.Forall_forall. intros z Hz. apply in_map_iff in Hz as (j & <- & Hj).
    apply in_seq in Hj. lia. }
  revert Hs. induction HF as [|y z l zs -> _ IH]; intros Hs; [constructor|].
  inversion Hs; subst. constructor; [by apply float_literal|by apply IH].
Qed.

(** [test_cpu_rm] on what the file says. *)
Lemma test_cpu_rm_runs l n w (x : dlpar_tests) :
  dedicated_self x → cfg_file w = backup_text l → Forall (λ y, literal y = true) l →
  Forall2 (on_grid 0) l (steps 1 1 n) →
  hmc_curr (hn_lpar1 N) w ≤ hmc_max (hn_lpar1 N) w →
  hmc_min (hn_lpar1 N) w + Zsum (steps 1 1 n) ≤ hmc_curr (hn_lpar1 N) w →
  ∃ w', runs test_cpu_rm w x (Ret ()) w' x ∧ lpar1_changed (-1 * Zsum (steps 1 1 n)) w w'.
Proof using HLab.
  intros Hx Hfile Hlit HF Hmax Hmin.
  pose proof (Zsum_nonneg _ (steps_nonneg 1 1 n ltac:(lia))) as Hnn.
  destruct (new_obj_runs w x (proj2 Hx)) as (obj & Hnew & Hobj).
  destruct (change_loop (-1) (λ q, rem_ded_cpu (VInt q)) (HRemove (hn_lpar1 N)) l (steps 1 1 n) msg_cpu_rm
    (λ cpu, "=====> " +:+ num_str cpu +:+ " cpus got removed====>" +:+ NL +:+ " ")
    (λ q, rem_ded_cpu_implements_remove N q) remove_step (or_intror eq_refl) HF (steps_nonneg 1 1 n ltac:(lia))
    obj w x Hobj) as (obj' & w' & Hloop & _ & Hch); [lia|lia|].
  exists w'. split; [|done].
  unfold test_cpu_rm. run_by dedicated_mode_runs; [done|]. unfold test_cpu_rm_dedicated.
  run_by Hnew. run_by extract_runs. rewrite Hfile.
  replace (backup_text l) with (file_of [l]) by apply string_app_nil_r.
  run_by (eval_line_runs [l] 0); [by constructor|done|]. run_step. run_by Hloop. run.
Qed.

(** *** Removals that the console refuses *)

(** The removals from [c] processors that keep the minimum [m], up to the first that does not. *)
Fixpoint accepted (m c : Z) (zs : list Z) : list Z :=
  match zs with z :: zs' => if m <=? c - z then z :: accepted m (c - z) zs' else [] | [] => [] end.

(** The texts of the console that cancel a test; with any other text it fails. *)
Definition shortages : list string :=
  ["The operation failed because the ratio of assigned processing units to assigned virtual processors";
   "processing units to exceed the maximum capacity allowed with the virtual processor setting";
   "The quantity to be added exceeds the available resources.";
   "Your memory request exceeds the profile's Maximum memory limit.";
   "Your memory request is below the profile’s Minimum memory limit.";
   "Not enough memory resources to meet the allocation setting"]%string.
Definition refused_with (text : string) : verdict := if existsb (λ m, py_in m text) shortages then CANCEL else FAIL.

(** What the removals come to, from the world [w] to [w']. *)
Definition removals_end (zs : list Z) w w' (pass : Prop) (refused : verdict → Prop) : Prop :=
  let taken := accepted (hmc_min (hn_lpar1 N) w) (hmc_curr (hn_lpar1 N) w) zs in
  lpar1_changed (- Zsum taken) w w' ∧
  match drop (length taken) zs with
  | [] => pass
  | z :: _ => refused (refused_with (hmc_refusal (HRemove (hn_lpar1 N) z) w'))
  end.

Lemma removal_loop fail_msg (log_msg : num → string) l zs : Forall2 (on_grid 0) l zs → Forall (λ z, 0 ≤ z) zs → ∀ obj w (x : dlpar_tests),
  on_lpar1 N obj →
  ∃ r w', runs (for_acc l obj (λ obj cpu, n ← lift (num_int cpu); do_op obj (rem_ded_cpu (VInt n)) fail_msg (log_msg cpu))) w x r w' x ∧
    removals_end zs w w' (∃ obj', r = Ret obj') (λ v, ∃ e, r = Raise e ∧ verdict_of (A:=()) (Raise e) = v).
Proof using HLab.
  intros HF. induction HF as [|cpu z l zs Hz HF IH]; intros Hpos obj w x Hobj.
  { exists (Ret obj), w. split; [apply runs_ret|]. split; [apply lpar1_changed_refl|by exists obj]. }
  apply list.Forall_cons in Hpos as [H0 Hpos]. unfold removals_end. cbn [accepted for_acc].
  assert (known_op N (HRemove (hn_lpar1 N) z)) as Hop by (split; [by left|done]).
  assert (Hstep : hmc_step (HRemove (hn_lpar1 N) z) w = if hmc_min (hn_lpar1 N) w <=? hmc_curr (hn_lpar1 N) w - z
    then Some (hmc_set (hn_lpar1 N) (hmc_curr (hn_lpar1 N) w - z) w) else None) by done.
  destruct (hmc_min (hn_lpar1 N) w <=? hmc_curr (hn_lpar1 N) w - z).
  - set (w1 := hmc_set _ _ w) in *. destruct (IH Hpos (set_cmd_result (CmdResult 0 "") obj) w1 x) as (r & w' & Hrun & Hch & Hend); [done|].
    pose proof (lpar1_changed_set (- z) w) as H1. rewrite Z.add_opp_r in H1. fold w1 in H1. destruct (H1) as (Ec & Em & _).
    rewrite Ec, Em, Z.add_opp_r in Hch, Hend. exists r, w'. split; [|split].
    + eapply runs_bind; [|exact Hrun]. rewrite (on_grid_num_int _ _ Hz). run_step.
      eapply do_op_runs; [apply rem_ded_cpu_implements_remove|done..].
    + cbn [Zsum foldr]. change (foldr Z.add 0) with Zsum. rewrite Z.opp_add_distr. by eapply lpar1_changed_trans.
    + exact Hend.
  - destruct (refused_operation N proc_res (on_lpar1 N) (rem_ded_cpu (VInt z)) _ obj fail_msg (log_msg cpu) w x
      (rem_ded_cpu_implements_remove N z) Hobj Hop Hstep) as (e & Hrun & Hv).
    exists (Raise e), w. split; [|split; [apply lpar1_changed_refl|by exists e]].
    apply runs_bind_raise. rewrite (on_grid_num_int _ _ Hz). run_step. exact Hrun.
Qed.

(** C28: [test_cpu_rm] in a laboratory with dedicated partitions, on any list of amounts in config.txt
    (numbers that are integers and not negative): the amounts are removed in their order as long as
    the minimum of the partition is kept.  If that is so to the end, the test passes; otherwise it
    ends at the first removal that the console refuses, cancelled when the text of the console has one
    of the messages on missing resources, failed with any other text.  The processors that were
    removed stay removed, no other partition changes, and config.txt stays. *)
Theorem test_cpu_rm_verdict l zs w (x : dlpar_tests) :
  dedicated_self x → cfg_file w = backup_text l → Forall (λ y, literal y = true) l →
  Forall2 (on_grid 0) l zs → Forall (λ z, 0 ≤ z) zs →
  ∃ r w', runs test_cpu_rm w x r w' x ∧ removals_end zs w w' (verdict_of r = PASS) (eq (verdict_of r)).
Proof using HLab.
  intros Hx Hfile Hlit HF Hpos. destruct (new_obj_runs w x (proj2 Hx)) as (obj & Hnew & Hobj).
  destruct (removal_loop msg_cpu_rm (λ cpu, "=====> " +:+ num_str cpu +:+ " cpus got removed====>" +:+ NL +:+ " ") l zs HF Hpos obj w x Hobj)
    as (r & w' & Hloop & Hch & Hend).
  exists (match r with Ret _ => Ret () | Raise e => Raise e end), w'. split; [|split; [exact Hch|]].
  - unfold test_cpu_rm. run_by dedicated_mode_runs; [done|]. unfold test_cpu_rm_dedicated.
    run_by Hnew. run_by extract_runs. rewrite Hfile. replace (backup_text l) with (file_of [l]) by apply string_app_nil_r.
    run_by (eval_line_runs [l] 0); [by constructor|done|]. run_step. destruct r as [obj'|e]; [run_by Hloop; run|by apply runs_bind_raise].
  - destruct (drop _ zs); [by destruct Hend as [obj' ->]|by destruct Hend as (e & -> & Hv)].
Qed.

(** C3: [test_cpu_add] followed by [test_cpu_rm] from an empty config.txt: both pass, and every
    partition has again the processors it had. *)
Theorem test_cpu_add_rm_restores (w : W) (x : dlpar_tests) :
  dedicated_self x → sane w → hmc_max (hn_lpar1 N) w ≤ 32640 → cfg_file w = ""%string →
  ∃ w1 w2, runs test_cpu_add w x (Ret ()) w1 x ∧ runs test_cpu_rm w1 x (Ret ()) w2 x ∧
    ∀ p, hmc_curr p w2 = hmc_curr p w.
Proof using HLab.
  intros Hx Hw Hsmall Hfile.
  destruct (test_cpu_add_runs w x Hx Hw) as (l & n & w1 & Hrun1 & El & HF & Hle & Hlt & Hch).
  apply lpar1_changed_write in Hch as (Hcurr & Hmin & Hmax & Hother & Hf1).
  rewrite Hfile in Hf1. destruct Hw as (Hb & H0 & _).
  pose proof (Zsum_steps 1 n) as Hsum.
  assert (n ≤ 255)%nat as Hn by nia.
  destruct (test_cpu_rm_runs l n w1 x Hx) as (w2 & Hrun2 & (Hc2 & _ & _ & Ho2 & _)).
  - done.
  - by eapply payload_literals.
  - done.
  - lia.
  - lia.
  - exists w1, w2. split; [done|]. split; [done|]. intros p.
    destruct (decide (p = hn_lpar1 N)) as [->|Hp]; [lia|by rewrite Ho2, Hother].
Qed.
End lab.
