(* ===== verification/DlparSim.v ===== *)
(** * A simulated console

    An environment that decodes the text of the commands and keeps the amounts in a
    finite map.  It is an instance of the classes [Hmc] and [Lab]: their laws can hold,
    and the theorems on [DlparApi] and [DlparTests] apply to it. *)

From S2P Require Import Prelude PyStr PyFloat PyVal PyRegex Avocado Logic DlparApi DlparTests.
From S2P Require Import DlparPayload DlparHmc DlparErrors DlparConfig DlparSystem.
Open Scope Z_scope.

(** The amount of each partition, and config.txt. *)
Abbreviation sim_world := (gmap string Z * string)%type.

Definition sim_names : names := Names "sys1" "hmc1" "lp1" "lp2".
Definition sim_min : Z := 1.
Definition sim_max : Z := 30.

Definition sim_curr (p : string) (w : sim_world) : Z := default 0 (w.1 !! p).
Definition sim_set (p : string) (z : Z) (w : sim_world) : sim_world := (<[p := z]> w.1, w.2).

#[export] Instance sim_state : HmcState sim_world.
Proof.
  refine {| hmc_curr := sim_curr; hmc_min := λ _ _, sim_min; hmc_max := λ _ _, sim_max;
            hmc_set := sim_set |}.
  - intros p z w. unfold sim_curr, sim_set. simpl. by rewrite lookup_insert_eq.
  - intros p p' z w Hp. unfold sim_curr, sim_set. simpl. by rewrite lookup_insert_ne.
  - done.
  - done.
Defined.

(** ** Decoding *)

(** The number between two texts. *)
Definition decode (pre suf cmd : chars) : option Z :=
  rest ← drop_prefix pre cmd;
  let '(ds, tl) := span is_digit rest in
  if bool_decide (tl = suf) then int_of_chars ds else None.

Lemma decode_app pre suf suf' q :
  0 ≤ q → match suf' with [] => True | c :: _ => is_digit c = false end →
  decode pre suf (pre ++ chars_of (py_str_Z q) ++ suf') = if bool_decide (suf' = suf) then Some q else None.
Proof.
  intros Hq Hs. unfold decode. rewrite drop_prefix_app. cbn [mbind option_bind].
  rewrite chars_of_str_Z. destruct (Z.ltb_spec q 0) as [?|_]; [lia|].
  destruct (nat_chars_spec q Hq) as (_ & Hd & _). rewrite span_app by done.
  pose proof (int_of_padded [] [] q (Forall_nil_2 _) (Forall_nil_2 _)) as H.
  rewrite app_nil_r, app_nil_l, chars_of_str_Z in H.
  destruct (Z.ltb_spec q 0) as [?|_]; [lia|]. by rewrite H.
Qed.

(** The operations, with the text before and after the quantity. *)
Definition sim_ops (R : resource) : list (chars * chars * (Z → hmc_op)) :=
  let pre op := chars_of ("chhwres -m sys1 -r " +:+ rs_name R +:+ " -o " +:+ op +:+ " " +:+
                          rs_flag R +:+ " ") in
  let suf p := chars_of (" -p " +:+ DQ +:+ p +:+ DQ +:+ " -w 0 ") in
  [(pre "a", suf "lp1", HAdd "lp1"); (pre "a", suf "lp2", HAdd "lp2");
   (pre "r", suf "lp1", HRemove "lp1"); (pre "r", suf "lp2", HRemove "lp2");
   (pre "m", chars_of (" -p " +:+ DQ +:+ "lp1" +:+ DQ +:+ " -t " +:+ DQ +:+ "lp2" +:+ DQ +:+ " -w 0 "),
    HMove "lp1" "lp2")]%string.

Fixpoint sim_decode (l : list (chars * chars * (Z → hmc_op))) (cmd : chars) : option hmc_op :=
  match l with
  | [] => None
  | (pre, suf, op) :: l' =>
      match decode pre suf cmd with Some q => Some (op q) | None => sim_decode l' cmd end
  end.

(** The queries and their answers. *)
Definition sim_queries (R : resource) (w : sim_world) : list (string * string) :=
  concat (map (λ p, [(query_text sim_names (rs_name R) p (rs_curr R), py_str_Z (sim_curr p w));
             (query_text sim_names (rs_name R) p (rs_min R), py_str_Z sim_min);
             (query_text sim_names (rs_name R) p (rs_max R), py_str_Z sim_max);
             (query_text sim_names (rs_name R) p "curr_proc_mode", "ded"%string)]) ["lp1"; "lp2"]%string).

Definition sim_refusal : string := "HSCL0000 The quantity to be added exceeds the available resources." +:+ NL.

Definition sim_ssh (R : resource) (host cmd : string) (w : sim_world) : result cmd_result * sim_world :=
  match List.find (λ x, String.eqb (fst x) cmd) (sim_queries R w) with
  | Some (_, answer) => (Ret (CmdResult 0 (answer +:+ NL)), w)
  | None =>
      match sim_decode (sim_ops R) (chars_of cmd) with
      | Some op => match hmc_step op w with
                   | Some w' => (Ret (CmdResult 0 ""), w')
                   | None => (Ret (CmdResult 1 sim_refusal), w)
                   end
      | None => (Ret (CmdResult 1 "command not found"), w)
      end
  end.

Definition sim_env (R : resource) : Env sim_world := {|
  env_run := λ _ _ w, (Ret (CmdResult 0 ""), w);
  env_system := λ _ _ w, (Ret 0, w);
  env_system_output := λ _ _ w, (Ret ""%string, w);
  env_ssh := sim_ssh R;
  env_connect := λ _ _ _ w, (Ret true, w);
  env_show := λ r, stdout_text r;
  env_param := λ _ d, d;
  env_exists := λ _ w, (true, w);
  env_read := λ _ w, (Ret w.2, w);
  env_append := λ _ s w, (Ret (), (w.1, w.2 +:+ s));
  env_remove := λ _ w, (Ret (), w);
  env_random := λ w, (0, w);
|}.

Lemma sim_query R w p opt z :
  R = proc_res ∨ R = mem_res → is_lpar sim_names p →
  (opt, z) ∈ [(rs_curr R, sim_curr p w); (rs_min R, sim_min); (rs_max R, sim_max)] →
  sim_ssh R "hmc1" (query_text sim_names (rs_name R) p opt) w = (Ret (CmdResult 0 (py_str_Z z +:+ NL)), w).
Proof.
  rewrite !elem_of_cons, elem_of_nil.
  intros [-> | ->] [-> | ->] [[= -> ->]|[[= -> ->]|[[= -> ->]|[]]]]; reflexivity.
Qed.

Definition op_pre (R : resource) (letter : string) : chars :=
  chars_of ("chhwres -m sys1 -r " +:+ rs_name R +:+ " -o " +:+ letter +:+ " " +:+ rs_flag R +:+ " ").
Definition op_suf (parts : list string) : chars := chars_of (" -p " +:+ DQ +:+ cat_str (parts ++ [" -w 0 "]))%string.

Lemma change_text_chars R letter q parts :
  chars_of (change_text sim_names R letter q parts) =
  op_pre R letter ++ chars_of (py_str_Z q) ++ op_suf parts.
Proof.
  unfold change_text, op_pre, op_suf. simpl cat_str. rewrite !chars_of_app.
  rewrite <- !app_assoc. reflexivity.
Qed.

Lemma sim_decode_hit R letter q parts (op : Z → hmc_op) l :
  0 ≤ q →
  sim_decode ((op_pre R letter, op_suf parts, op) :: l)
    (op_pre R letter ++ chars_of (py_str_Z q) ++ op_suf parts) = Some (op q).
Proof. intros Hq. cbn [sim_decode]. rewrite decode_app by done. by rewrite bool_decide_true. Qed.

Lemma sim_decode_same R letter q parts parts' (op : Z → hmc_op) l :
  0 ≤ q → op_suf parts' ≠ op_suf parts →
  sim_decode ((op_pre R letter, op_suf parts, op) :: l)
    (op_pre R letter ++ chars_of (py_str_Z q) ++ op_suf parts') =
  sim_decode l (op_pre R letter ++ chars_of (py_str_Z q) ++ op_suf parts').
Proof. intros Hq Hs. cbn [sim_decode]. rewrite decode_app by done. by rewrite bool_decide_false. Qed.

Lemma sim_decode_other R letter letter' suf (op : Z → hmc_op) l rest :
  drop_prefix (op_pre R letter) (op_pre R letter' ++ rest) = None →
  sim_decode ((op_pre R letter, suf, op) :: l) (op_pre R letter' ++ rest) =
  sim_decode l (op_pre R letter' ++ rest).
Proof. intros H. cbn [sim_decode]. unfold decode. by rewrite H. Qed.

(** Skips the entries of the table for other operations. *)
Ltac sim_skip :=
  repeat first
    [ rewrite sim_decode_hit by done
    | rewrite sim_decode_same by (done || discriminate)
    | rewrite sim_decode_other by reflexivity ].

Lemma sim_decode_op R op :
  R = proc_res ∨ R = mem_res → known_op sim_names op →
  sim_decode (sim_ops R) (chars_of (op_text sim_names R op)) = Some op.
Proof.
  intros HR Hop. unfold op_text.
  change (sim_ops R) with
    [(op_pre R "a", op_suf ["lp1"; DQ]%string, HAdd "lp1"); (op_pre R "a", op_suf ["lp2"; DQ]%string, HAdd "lp2");
     (op_pre R "r", op_suf ["lp1"; DQ]%string, HRemove "lp1"); (op_pre R "r", op_suf ["lp2"; DQ]%string, HRemove "lp2");
     (op_pre R "m", op_suf ["lp1"; DQ; " -t " +:+ DQ; "lp2"; DQ]%string, HMove "lp1" "lp2")].
  destruct op as [p q|p q|p1 p2 q]; rewrite change_text_chars.
  - destruct Hop as [[-> | ->] Hq], HR as [-> | ->]; by sim_skip.
  - destruct Hop as [[-> | ->] Hq], HR as [-> | ->]; by sim_skip.
  - destruct Hop as (-> & -> & _ & Hq), HR as [-> | ->]; by sim_skip.
Qed.

Lemma sim_not_query R w op :
  R = proc_res ∨ R = mem_res →
  List.find (λ x, String.eqb (fst x) (op_text sim_names R op)) (sim_queries R w) = None.
Proof. intros [-> | ->]; destruct op; reflexivity. Qed.

(** ** The instances *)

Section instances.
Context (R : resource) (HR : R = proc_res ∨ R = mem_res).

Definition sim_hmc : @Hmc sim_world (sim_env R) sim_names R sim_state.
Proof.
  refine (@Build_Hmc _ (sim_env R) _ _ _ _ (λ _ _, sim_refusal) _ _).
  - intros p opt z w Hp Hopt. by apply sim_query.
  - done.
  - intros op w Hop. simpl. unfold sim_ssh.
    rewrite sim_not_query, sim_decode_op by done. done.
Defined.
End instances.

#[export] Instance sim_proc_hmc : @Hmc sim_world (sim_env proc_res) sim_names proc_res sim_state :=
  sim_hmc proc_res (or_introl eq_refl).
#[export] Instance sim_mem_hmc : @Hmc sim_world (sim_env mem_res) sim_names mem_res sim_state :=
  sim_hmc mem_res (or_intror eq_refl).

#[export] Instance sim_config R : @ConfigFile sim_world (sim_env R).
Proof.
  refine (@Build_ConfigFile _ (sim_env R) (λ w, w.2) (λ s w, (w.1, w.2 +:+ s)) _ _ _).
  - reflexivity.
  - reflexivity.
  - reflexivity.
Defined.

#[export] Instance sim_lab : @Lab sim_world (sim_env proc_res) sim_names sim_state.
Proof.
  refine (@Build_Lab _ (sim_env proc_res) _ _ _ _ _ (sim_config proc_res) _ _ _ _).
  - reflexivity.
  - intros p w [-> | ->]; reflexivity.
  - reflexivity.
  - reflexivity.
  - reflexivity.
  - reflexivity.
Defined.

(** ** The theorems at work *)

Definition sim_machine (p : string) : machine :=
  Machine 0 (VStr p) (VStr "sys1") (VStr p) None None None.
Definition sim_obj : testcase :=
  TestCase (Some 8) (Some (Machine 0 (VStr "hmc1") (VStr "sys1") (VStr "sys1") None None (Some "hmc1"%string)))
    (Some (sim_machine "lp1")) (Some (sim_machine "lp2")) (Some (sim_machine "lp1"))
    None None (VInt 5) (VInt 1) (Some 0).
Definition sim_world0 : sim_world := (<["lp1"%string := 4]> (<["lp2"%string := 6]> ∅), ""%string).
Definition sim_payload : payload :=
  list_to_map [("hmc_name", VStr "hmc1"); ("hmc_manageSystem", VStr "sys1"); ("src_partition", VStr "lp1");
               ("target_partition", VStr "lp2"); ("cfg_cpu_per_proc", VStr "8");
               ("ded_quantity_to_test", VInt 1); ("sleep_time", VInt 1)]%string.
Definition sim_self : dlpar_tests := DlparSelf (VStr "dedicated") sim_payload VNone.

Lemma sim_connected : connected sim_names sim_obj.
Proof. split; [by eexists|reflexivity]. Qed.

Lemma sim_on_lpar1 : on_lpar1 sim_names sim_obj.
Proof. split; [apply sim_connected|]. by exists (sim_machine "lp1"). Qed.

Lemma sim_dedicated : dedicated_self sim_names sim_self.
Proof. split; [reflexivity|]. split; try reflexivity. by exists 8. Qed.

(** 3 processors are added to 4; 27 more are refused; 3 of 4 are removed; the last one is not. *)
Lemma ded_cpu_implements_hmc_witness :
  (runs (@add_ded_cpu sim_world (sim_env proc_res) (VInt 3)) sim_world0 sim_obj (Ret 0)
     (sim_set "lp1" 7 sim_world0) (set_cmd_result (CmdResult 0 "") sim_obj) ∧
   runs (@add_ded_cpu sim_world (sim_env proc_res) (VInt 27)) sim_world0 sim_obj (Ret 1)
     sim_world0 (set_cmd_result (CmdResult 1 sim_refusal) sim_obj)) ∧
  (runs (@rem_ded_cpu sim_world (sim_env proc_res) (VInt 3)) sim_world0 sim_obj (Ret 0)
     (sim_set "lp1" 1 sim_world0) (set_cmd_result (CmdResult 0 "") sim_obj) ∧
   runs (@rem_ded_cpu sim_world (sim_env proc_res) (VInt 4)) sim_world0 sim_obj (Ret 1)
     sim_world0 (set_cmd_result (CmdResult 1 sim_refusal) sim_obj)).
Proof.
  split; split.
  - refine (proj1 (ded_cpu_implements_hmc (HE:=sim_env proc_res) sim_names 3) sim_world0 sim_obj sim_on_lpar1 _).
    split; [by left|lia].
  - refine (proj1 (ded_cpu_implements_hmc (HE:=sim_env proc_res) sim_names 27) sim_world0 sim_obj sim_on_lpar1 _).
    split; [by left|lia].
  - refine (proj2 (ded_cpu_implements_hmc (HE:=sim_env proc_res) sim_names 3) sim_world0 sim_obj sim_on_lpar1 _).
    split; [by left|lia].
  - refine (proj2 (ded_cpu_implements_hmc (HE:=sim_env proc_res) sim_names 4) sim_world0 sim_obj sim_on_lpar1 _).
    split; [by left|lia].
Defined.

Lemma sim_mem_on : mem_on sim_names "lp1" sim_obj.
Proof. split; [apply sim_connected|]. by exists (sim_machine "lp1"). Qed.

Lemma mem_add_implements_add_witness :
  runs (@mem_add sim_world (sim_env mem_res) (VInt 26)) sim_world0 sim_obj (Ret 0)
    (sim_set "lp1" 30 sim_world0) (set_cmd_result (CmdResult 0 "") sim_obj).
Proof.
  refine (mem_add_implements_add (HE:=sim_env mem_res) sim_names "lp1" 26 sim_world0 sim_obj sim_mem_on _). split; [by left|lia].
Defined.

Lemma mem_rem_implements_remove_witness :
  runs (@mem_rem sim_world (sim_env mem_res) (VInt 4)) sim_world0 sim_obj (Ret 1)
    sim_world0 (set_cmd_result (CmdResult 1 sim_refusal) sim_obj).
Proof.
  refine (mem_rem_implements_remove (HE:=sim_env mem_res) sim_names "lp1" 4 sim_world0 sim_obj sim_mem_on _). split; [by left|lia].
Defined.

Definition sim_move_obj : testcase := set_quant_to_test (VInt 3) sim_obj.

Lemma mem_move_implements_move_witness :
  runs (@mem_move sim_world (sim_env mem_res)) sim_world0 sim_move_obj (Ret 0)
    (sim_set "lp2" 9 (sim_set "lp1" 1 sim_world0)) (set_cmd_result (CmdResult 0 "") sim_move_obj).
Proof.
  refine (mem_move_implements_move (HE:=sim_env mem_res) sim_names 3 sim_world0 sim_move_obj _ _).
  - split; [apply sim_connected|]. split; [done|]. by exists (sim_machine "lp1"), (sim_machine "lp2").
  - by split_and!; try lia.
Defined.

(** Two payloads, of integers and of floats, through config.txt. *)
Definition sim_payloads : list (list num) := [[NInt 2; NInt 4]; [NFloat (fl 3 (-2)); NFloat (fl 6 (-2))]].

Lemma config_txt_round_trip_witness :
  ∃ w', runs (for_each sim_payloads (data_payload_backup (HE:=sim_env proc_res)) ;;
              lines ← data_payload_extract (HE:=sim_env proc_res);
              eval_line lines 1 : M sim_world dlpar_tests (list num))
          sim_world0 sim_self (Ret [NFloat (fl 3 (-2)); NFloat (fl 6 (-2))]) w' sim_self.
Proof.
  apply (config_txt_round_trip (HE:=sim_env proc_res) sim_payloads 1).
  - reflexivity.
  - repeat constructor; vm_compute; reflexivity.
  - reflexivity.
Defined.

Lemma sim_sane : sane sim_names sim_world0.
Proof. vm_compute. repeat split; discriminate. Qed.

(** From 4 of 30 processors: 1, 2, .., 6 are added, 21 in all. *)
Lemma test_cpu_add_fills_partition_witness :
  ∃ n w', runs (test_cpu_add (HE:=sim_env proc_res)) sim_world0 sim_self (Ret ()) w' sim_self ∧
    2 * sim_curr "lp1" w' = 2 * 4 + Z.of_nat n * (Z.of_nat n + 1) ∧
    sim_curr "lp1" w' ≤ 30 < sim_curr "lp1" w' + Z.of_nat n + 1 ∧
    (∀ p, p ≠ "lp1"%string → sim_curr p w' = sim_curr p sim_world0).
Proof.
  refine (test_cpu_add_fills_partition (HE:=sim_env proc_res) sim_names sim_world0 sim_self _ _).
  - apply sim_dedicated.
  - apply sim_sane.
Defined.

Lemma test_cpu_add_rm_restores_witness :
  ∃ w1 w2, runs (test_cpu_add (HE:=sim_env proc_res)) sim_world0 sim_self (Ret ()) w1 sim_self ∧
    runs (test_cpu_rm (HE:=sim_env proc_res)) w1 sim_self (Ret ()) w2 sim_self ∧
    ∀ p, sim_curr p w2 = sim_curr p sim_world0.
Proof.
  refine (test_cpu_add_rm_restores (HE:=sim_env proc_res) sim_names sim_world0 sim_self _ _ _ _).
  - apply sim_dedicated.
  - apply sim_sane.
  - vm_compute. discriminate.
  - reflexivity.
Defined.

(** The partition has 4 processors: as expected after adding 3 to 1, but not to 2. *)
Lemma cpu_validation_verdict_witness :
  (∃ msg : string, runs (@Dlpar_cpu_validation sim_world (sim_env proc_res) "a" (One (sim_machine "lp1"))
      (VInt 3) (VInt 1) (CmdResult 0 "")) sim_world0 sim_obj (Ret ()) sim_world0 sim_obj) ∧
  (∃ msg, runs (@Dlpar_cpu_validation sim_world (sim_env proc_res) "a" (One (sim_machine "lp1"))
      (VInt 3) (VInt 2) (CmdResult 0 "")) sim_world0 sim_obj (raise_ TestException msg) sim_world0 sim_obj).
Proof.
  split.
  - refine (cpu_validation_verdict (HE:=sim_env proc_res) sim_names true "lp1" (sim_machine "lp1") 3 1 4
              (CmdResult 0 "") sim_world0 sim_obj sim_connected _ _); [by split|reflexivity].
  - refine (cpu_validation_verdict (HE:=sim_env proc_res) sim_names true "lp1" (sim_machine "lp1") 3 2 4
              (CmdResult 0 "") sim_world0 sim_obj sim_connected _ _); [by split|reflexivity].
Defined.

(** The source has what is expected and the target does not. *)
Lemma mem_move_validation_verdict_witness :
  ∃ msg, runs (@Dlpar_mem_validation sim_world (sim_env mem_res) "m"
      (Pair (sim_machine "lp1") (sim_machine "lp2")) (VInt 3) (VList [VInt 7; VInt 5]) (CmdResult 0 ""))
    sim_world0 sim_obj (raise_ TypeError msg) sim_world0 sim_obj.
Proof.
  refine (mem_move_validation_verdict (HE:=sim_env mem_res) sim_names "lp1" "lp2" (sim_machine "lp1")
    (sim_machine "lp2") 3 7 5 4 6 (CmdResult 0 "") sim_world0 sim_obj sim_connected _ _ _ _);
    [by split|by split|reflexivity|reflexivity].
Defined.

(** Of 4 processors, 2 and 1 can be removed; 2 and then 3 cannot: the test is cancelled with 2 left. *)
Lemma test_cpu_rm_verdict_witness :
  (∃ r w', runs (test_cpu_rm (HE:=sim_env proc_res)) (sim_world0.1, backup_text [NInt 2; NInt 1]) sim_self r w' sim_self ∧
    verdict_of r = PASS ∧ sim_curr "lp1" w' = 1) ∧
  (∃ r w', runs (test_cpu_rm (HE:=sim_env proc_res)) (sim_world0.1, backup_text [NInt 2; NInt 3; NInt 1]) sim_self r w' sim_self ∧
    verdict_of r = CANCEL ∧ sim_curr "lp1" w' = 2).
Proof.
  split.
  - destruct (test_cpu_rm_verdict (HE:=sim_env proc_res) (HLab:=sim_lab) sim_names [NInt 2; NInt 1] [2; 1] (sim_world0.1, backup_text [NInt 2; NInt 1]) sim_self
      sim_dedicated eq_refl ltac:(by repeat constructor) ltac:(repeat (apply Forall2_cons; split; [by vm_compute|]); constructor) ltac:(by repeat constructor))
      as (r & w' & H & (Hc & _) & Hv). exists r, w'. split; [exact H|]. split; [exact Hv|exact Hc].
  - destruct (test_cpu_rm_verdict (HE:=sim_env proc_res) (HLab:=sim_lab) sim_names [NInt 2; NInt 3; NInt 1] [2; 3; 1] (sim_world0.1, backup_text [NInt 2; NInt 3; NInt 1]) sim_self
      sim_dedicated eq_refl ltac:(by repeat constructor) ltac:(repeat (apply Forall2_cons; split; [by vm_compute|]); constructor) ltac:(by repeat constructor))
      as (r & w' & H & (Hc & _) & Hv). exists r, w'. split; [exact H|]. split; [exact Hv|exact Hc].
Defined.
