(* ===== verification/Ppc64Cpu.v ===== *)
(** * The ppc64_cpu tests: cpu/ppc64_cpu_test.py

    The class [PPC64Test]: setUp, the parser of [ppc64_cpu --info], the check of the
    system state, the test methods and tearDown.  [test_build_upstream], which downloads
    and builds powerpc-utils, is not modelled. *)

From S2P Require Import Prelude PyStr PyFloat PyVal PyRegex Avocado Logic.
Open Scope Z_scope.

(** ** Data *)

(** The test parameters that setUp reads. *)
Record ppc_params := PpcParams {
  pp_iteration : Z;
  pp_run_all_smt_operations : pyval;
  pp_run_dynamic_core_operations : pyval;
  pp_run_smt_core_interaction : pyval;
  pp_stress_iterations : Z;
  pp_parallel_iterations : Z;
  pp_random_iterations : Z;
  pp_num_parallel_threads : Z;
  pp_run_random_stress : pyval;
  pp_run_parallel_operations : pyval;
  pp_run_progressive_core_online : pyval;
  pp_run_specific_cores_offline : pyval;
  pp_enable_comprehensive_verification : pyval;
  pp_verify_after_each_operation : pyval;
  pp_sleep_after_smt_change : float;
  pp_sleep_after_core_change : float;
  pp_sleep_between_operations : float;
  pp_verbose_logging : pyval;
  pp_log_dmesg : pyval;
}.

(** The attributes of [self]; [smt_str] and [curr_smt] may not be set when tearDown
    runs. *)
Record ppc_self := PpcSelf {
  pc_smt_str : option string;
  pc_curr_smt : option string;
  pc_loop : Z;
  pc_run_type : pyval;
  pc_smt_subcores : Z;
  pc_failures : list string;
  pc_smt_values : list (Z * string);
  pc_key : Z;
  pc_value : string;
  pc_max_smt_value : Z;
  pc_total_cores : Z;
  pc_all_smt_values : list string;
  pc_params : option ppc_params;
}.

Definition new_ppc : ppc_self := PpcSelf None None 0 VNone 0 [] [] 0 "" 0 0 [] None.

Definition with_smt_str (s : string) (x : ppc_self) : ppc_self :=
  PpcSelf (Some s) (pc_curr_smt x) (pc_loop x) (pc_run_type x) (pc_smt_subcores x) (pc_failures x)
    (pc_smt_values x) (pc_key x) (pc_value x) (pc_max_smt_value x) (pc_total_cores x)
    (pc_all_smt_values x) (pc_params x).
Definition with_failures (l : list string) (x : ppc_self) : ppc_self :=
  PpcSelf (pc_smt_str x) (pc_curr_smt x) (pc_loop x) (pc_run_type x) (pc_smt_subcores x) l
    (pc_smt_values x) (pc_key x) (pc_value x) (pc_max_smt_value x) (pc_total_cores x)
    (pc_all_smt_values x) (pc_params x).
Definition with_smt_values (d : list (Z * string)) (x : ppc_self) : ppc_self :=
  PpcSelf (pc_smt_str x) (pc_curr_smt x) (pc_loop x) (pc_run_type x) (pc_smt_subcores x) (pc_failures x)
    d (pc_key x) (pc_value x) (pc_max_smt_value x) (pc_total_cores x)
    (pc_all_smt_values x) (pc_params x).
Definition with_key_value (k : Z) (v : string) (x : ppc_self) : ppc_self :=
  PpcSelf (pc_smt_str x) (pc_curr_smt x) (pc_loop x) (pc_run_type x) (pc_smt_subcores x) (pc_failures x)
    (pc_smt_values x) k v (pc_max_smt_value x) (pc_total_cores x)
    (pc_all_smt_values x) (pc_params x).

(** What [parse_ppc64_cpu_info] returns. *)
Record cpu_info := CpuInfo {
  ci_cores : list (Z * (list string * Z));
  ci_total_cores : Z;
  ci_online_cores : list Z;
  ci_offline_cores : list Z;
  ci_actual_threads_per_core : list (Z * Z);
  ci_smt_mode : option Z;
  ci_inconsistent : bool;
}.

(** The functions of avocado that only these tests call. *)
Class PpcLib (W : Type) := {
  distro_arch : string;
  ppc_check_installed : string → W → result bool * W;
  ppc_install : string → W → result bool * W;
  (* cpu.online_count() *)
  cpu_online_count : W → result Z * W;
  (* distro.detect().name, self.workdir, and functions of archive, build, os and of the test *)
  ppc_distro : string;
  ppc_workdir : string;
  ppc_lib : string → list pyval → W → result pyval * W;
}.

(** ** Output of the commands *)

(** [s.strip().split("=")[-1]] *)
Definition after_equal (s : string) : string := default "" (last_opt (py_split_on "=" (py_strip s))).

(** [s.split()[-1]] *)
Definition last_word (s : string) : result string :=
  match last_opt (py_split s) with
  | Some w => Ret w
  | None => raise_ IndexError "list index out of range"
  end.

(** [s.strip().split("=")[-1].split()[-1]] *)
Definition smt_of_output (s : string) : result string := last_word (after_equal s).

(** [int(s.strip().split("=")[-1])] *)
Definition cores_of_output (s : string) : result Z := py_int (VStr (after_equal s)).

(** [int(s.strip().split()[-1])] *)
Definition present_of_output (s : string) : result Z :=
  w ← last_word (py_strip s); py_int (VStr w).

(** The pattern of a line: [Core], blanks, the number (group 1), a colon, blanks, and the
    rest of the line (group 2). *)
Definition re_core : re :=
  (RLit "Core" ~> RPlus Rspace ~> RGroup 1 (RPlus Rdigit) ~> RChar ":" ~> RPlus Rspace ~>
   RGroup 2 (RStar Rdot))%re.

Definition empty_info : cpu_info := CpuInfo [] 0 [] [] [] None false.

(** Threads marked with a star. *)
Definition count_online (threads : list string) : Z :=
  Z.of_nat (length (List.filter (py_in "*") threads)).

(** One line of [ppc64_cpu --info]. *)
Definition parse_line (info : cpu_info) (line : string) : result cpu_info :=
  match re_match re_core line with
  | None => Ret info
  | Some m =>
      core_num ← py_int (VStr (m_group 1 m));
      let threads := py_split (py_strip (m_group 2 m)) in
      let online_threads := count_online threads in
      Ret (CpuInfo
             (dict_set core_num (threads, online_threads) (ci_cores info))
             (ci_total_cores info)
             (if 0 <? online_threads then ci_online_cores info ++ [core_num] else ci_online_cores info)
             (if 0 <? online_threads then ci_offline_cores info else ci_offline_cores info ++ [core_num])
             (dict_set core_num online_threads (ci_actual_threads_per_core info))
             (ci_smt_mode info) (ci_inconsistent info))
  end.

(** The loop over the lines: the dictionary as far as it was filled, and the exception
    that ended it. *)
Fixpoint parse_lines (info : cpu_info) (lines : list string) : cpu_info * option exn :=
  match lines with
  | [] => (info, None)
  | line :: lines' =>
      match parse_line info line with
      | Ret info' => parse_lines info' lines'
      | Raise e => (info, Some e)
      end
  end.

Definition set_total (info : cpu_info) : cpu_info :=
  CpuInfo (ci_cores info) (Z.of_nat (length (ci_cores info))) (ci_online_cores info)
    (ci_offline_cores info) (ci_actual_threads_per_core info) (ci_smt_mode info) (ci_inconsistent info).

(** The thread counts of the online cores: the dictionary
    [{core: actual[core] for core in online}]. *)
Definition online_threads (info : cpu_info) : list (Z * Z) :=
  foldl (λ d core, dict_set core (default 0 (dict_get core (ci_actual_threads_per_core info))) d)
    [] (ci_online_cores info).

(** [list(set(l))], without the order, which only matters for a single element. *)
Definition unique (l : list Z) : list Z := nodup Z.eq_dec l.

(** The check among the online cores. *)
Definition check_consistency (info : cpu_info) : cpu_info :=
  match unique (map snd (online_threads info)) with
  | [] => info
  | [n] => CpuInfo (ci_cores info) (ci_total_cores info) (ci_online_cores info) (ci_offline_cores info)
             (ci_actual_threads_per_core info) (Some n) (ci_inconsistent info)
  | _ => CpuInfo (ci_cores info) (ci_total_cores info) (ci_online_cores info) (ci_offline_cores info)
           (ci_actual_threads_per_core info) (ci_smt_mode info) true
  end.

(** [str(d)] of a dictionary of integers. *)
Definition dict_repr (d : list (Z * Z)) : string :=
  "{" +:+ py_join ", " (map (λ '(k, v), py_str_Z k +:+ ": " +:+ py_str_Z v) d) +:+ "}".
Definition ints_repr (l : list Z) : string := py_repr (VList (map VInt l)).
Definition strs_repr (l : list string) : string := py_repr (VList (map VStr l)).

(** ["=" * n] *)
Definition ruler (n : nat) : string := str_of (repeat "="%char n).

(** The scenarios of [test_dynamic_core_operations]: a number of cores and a text, each
    number once. *)
Fixpoint dedup_scenarios (total : Z) (seen : list Z) (l : list (Z * string)) : list (Z * string) :=
  match l with
  | [] => []
  | (c, d) :: l' =>
      if negb (bool_decide (c ∈ seen)) && (c <=? total)
      then (c, d) :: dedup_scenarios total (c :: seen) l'
      else dedup_scenarios total seen l'
  end.

(** [max(1, int(total * pct))] with its text, for the fractions of the source. *)
Definition pct_scenario (total : Z) (pct : num) : result (Z * string) :=
  x ← num_mul (NInt total) pct;
  c ← num_int x;
  p ← num_mul pct (NInt 100);
  z ← num_int p;
  Ret (Z.max 1 c, py_str_Z z +:+ "% cores online").
Definition fractions : list num :=
  [NFloat (fl_decimal 1 (-1)); NFloat (fl_decimal 25 (-2)); NFloat (fl_decimal 5 (-1));
   NFloat (fl_decimal 75 (-2)); NFloat (fl_decimal 10 (-1))].

Definition scenarios (total : Z) : result (list (Z * string)) :=
  l ← results (map (pct_scenario total) fractions);
  let l := (1, "Single core online"%string) ::
           (if 1 <? total then [(2, "Two cores online"%string)] else []) ++ l in
  Ret (dedup_scenarios total [] l).

(** [max(1, int(total * p / 100))] of [test_smt_with_core_operations]. *)
Definition percentage_cores (total p : Z) : result Z :=
  x ← num_div (NInt (total * p)) (NInt 100);
  z ← num_int x;
  Ret (Z.max 1 z).

(** The core counts of [test_progressive_core_online_with_smt], sorted. *)
Fixpoint insert_sorted (z : Z) (l : list Z) : list Z :=
  match l with
  | [] => [z]
  | y :: l' => if z <? y then z :: l else y :: insert_sorted z l'
  end.
Definition sort (l : list Z) : list Z := foldr insert_sorted [] l.
Definition append_new (z : Z) (l : list Z) : list Z := if bool_decide (z ∈ l) then l else l ++ [z].

Definition progressive_counts (total : Z) : result (list Z) :=
  let l := (if 2 <=? total then [2] else []) ++ (if 3 <=? total then [3] else []) in
  let half_cores := Z.max 2 (total / 2) in
  x ← num_mul (NInt total) (NFloat (fl_decimal 75 (-2)));
  z ← num_int x;
  let three_quarter_cores := Z.max 2 z in
  Ret (sort (append_new total (append_new three_quarter_cores (append_new half_cores l)))).

(** The bounds of the number of cores to take offline, for [random.randint]. *)
Definition offline_bounds (total : Z) : result (Z * Z) :=
  x ← num_mul (NInt total) (NFloat (fl_decimal 2 (-1)));
  lo ← num_int x;
  y ← num_mul (NInt total) (NFloat (fl_decimal 4 (-1)));
  hi ← num_int y;
  Ret (Z.max 2 lo, Z.min (total - 2) hi).

(** [_generate_smt_values] *)
Definition generate_smt_values (max_smt_value : Z) : list string :=
  "off"%string :: map py_str_Z (Zrange 2 (max_smt_value + 1)) ++ ["on"%string].

Definition half_second : pyval := VFloat (fl_decimal 5 (-1)).
Definition third_second : pyval := VFloat (fl_decimal 3 (-1)).

Section tests.
Context {W : Type} {HE : Env W} {HL : PpcLib W}.
Abbreviation T := (M W ppc_self).

(** ** Helpers *)

(** [process.system(cmd, shell=True)]: raises when the command fails; and with
    [ignore_status=True]. *)
Definition sys (cmd : string) : T () := process_system cmd [Shell] ;; mret ().
Definition sys_ignore (cmd : string) : T () := process_system cmd [Shell; IgnoreStatus] ;; mret ().
Definition output (cmd : string) : T string := process_system_output cmd [Shell].

Definition add_failure (msg : string) : T () :=
  modify (λ x, with_failures (pc_failures x ++ [msg]) x).

(** [if self.failures: self.fail(text % self.failures)] *)
Definition fail_if_failures (text : string) : T () :=
  l ← gets pc_failures;
  when (negb (bool_decide (l = []))) (test_fail (text +:+ strs_repr l)).

(** [_reset_system_state] *)
Definition reset_system_state : T () :=
  sys "ppc64_cpu --cores-on=all" ;;
  sys "ppc64_cpu --smt=on" ;;
  sleep (VInt 1).

(** [int(self.params.get(key, default))] and the same with [float] *)
Definition int_param (key : string) (default : Z) : T Z :=
  v ← get_param key (VInt default); lift (py_int v).
Definition float_param (key : string) (default : pyval) : T float :=
  v ← get_param key default; lift (py_float v).

(** [setUp] *)
Definition setUp : T () :=
  when (negb (py_in "ppc" distro_arch)) (test_cancel "Processor is not ppc64") ;;
  installed ← ext (EvCall "check_installed" [VStr "powerpc-utils"]) (ppc_check_installed "powerpc-utils");
  when (negb installed)
    (done ← ext (EvCall "install" [VStr "powerpc-utils"]) (ppc_install "powerpc-utils");
     when (negb done) (test_cancel "Cannot install powerpc-utils, check the log!")) ;;
  loop ← int_param "test_loop" 100;
  run_type ← get_param "type" (VStr "distro");
  let smt_str := "ppc64_cpu --smt"%string in
  modify (with_smt_str smt_str) ;;
  sys (smt_str +:+ "=on") ;;
  smt_op ← output smt_str;
  when (py_in "is not SMT capable" smt_op) (test_cancel "Machine is not SMT capable") ;;
  when (py_in "Inconsistent state" smt_op) (test_cancel "Machine has mix of ST and SMT cores") ;;
  curr_smt ← lift (smt_of_output smt_op);
  modify (λ x, PpcSelf (pc_smt_str x) (Some curr_smt) loop run_type (pc_smt_subcores x) (pc_failures x)
                 (pc_smt_values x) (pc_key x) (pc_value x) (pc_max_smt_value x) (pc_total_cores x)
                 (pc_all_smt_values x) (pc_params x)) ;;
  subcores ← path_exists "/sys/devices/system/cpu/subcores_per_core";
  max_smt_value ← lift (py_int (VStr curr_smt));
  cores_output ← output "ppc64_cpu --cores-present";
  total_cores ← lift (present_of_output cores_output);
  let all_smt_values := generate_smt_values max_smt_value in
  iteration ← int_param "functional/iteration" 5;
  run_all_smt_operations ← get_param "functional/run_all_smt_operations" (VBool true);
  run_dynamic_core_operations ← get_param "functional/run_dynamic_core_operations" (VBool true);
  run_smt_core_interaction ← get_param "functional/run_smt_core_interaction" (VBool true);
  stress_iterations ← int_param "stress/iterations" 20;
  parallel_iterations ← int_param "stress/parallel_iterations" 3;
  random_iterations ← int_param "stress/random_iterations" 50;
  num_parallel_threads ← int_param "stress/num_parallel_threads" 4;
  run_random_stress ← get_param "stress/run_random_stress" (VBool true);
  run_parallel_operations ← get_param "stress/run_parallel_operations" (VBool true);
  run_progressive_core_online ← get_param "stress/run_progressive_core_online" (VBool true);
  run_specific_cores_offline ← get_param "stress/run_specific_cores_offline" (VBool true);
  enable_comprehensive ← get_param "verification/enable_comprehensive" (VBool true);
  verify_after_each ← get_param "verification/verify_after_each_operation" (VBool true);
  sleep_after_smt_change ← float_param "timing/sleep_after_smt_change" (VInt 1);
  sleep_after_core_change ← float_param "timing/sleep_after_core_change" (VInt 1);
  sleep_between_operations ← float_param "timing/sleep_between_operations" third_second;
  verbose_logging ← get_param "logging/verbose" (VBool true);
  log_dmesg ← get_param "logging/log_dmesg" (VBool true);
  let params := PpcParams iteration run_all_smt_operations run_dynamic_core_operations
    run_smt_core_interaction stress_iterations parallel_iterations random_iterations
    num_parallel_threads run_random_stress run_parallel_operations run_progressive_core_online
    run_specific_cores_offline enable_comprehensive verify_after_each sleep_after_smt_change
    sleep_after_core_change sleep_between_operations verbose_logging log_dmesg in
  modify (λ x, PpcSelf (pc_smt_str x) (pc_curr_smt x) (pc_loop x) (pc_run_type x)
                 (if (subcores : bool) then 1 else 0) [] [(1, "off"%string)] 0 "" max_smt_value total_cores
                 all_smt_values (Some params)) ;;
  log_info ("Total cores: " +:+ py_str_Z total_cores +:+ ", Max SMT: " +:+ py_str_Z max_smt_value) ;;
  log_info ("All SMT values to test: " +:+ strs_repr all_smt_values) ;;
  log_info ("Test iterations: stress=" +:+ py_str_Z stress_iterations +:+ ", parallel=" +:+
            py_str_Z parallel_iterations +:+ ", random=" +:+ py_str_Z random_iterations).

Definition ppc_call (fn : string) (args : list pyval) : T pyval := ext (EvCall fn args) (ppc_lib fn args).

(** The packages of the build; [None] on another distribution. *)
Definition build_deps (distro : string) : option (list string) :=
  let deps := ["gcc"; "make"; "automake"; "autoconf"; "bison"; "flex"; "libtool"; "zlib-devel"; "ncurses-devel";
               "librtas-devel"]%string in
  if py_in "SuSE" distro then Some (deps ++ ["libnuma-devel"%string])
  else if existsb (String.eqb distro) ["centos"; "fedora"; "rhel"]%string then Some (deps ++ ["numactl-devel"%string])
  else None.

Definition build_dep (package : string) : T () :=
  installed ← ext (EvCall "check_installed" [VStr package]) (ppc_check_installed package);
  when (negb installed)
    (done ← ext (EvCall "install" [VStr package]) (ppc_install package);
     when (negb done) (test_cancel ("Fail to install " +:+ package +:+ " required for this test."))).

(** A step of the build that must succeed. *)
Definition build_step (cmd step : string) : T () :=
  cmd_result ← process_run cmd [IgnoreStatus; Sudo; Shell];
  when (negb (exit_status cmd_result =? 0)) (test_fail ("Upstream build: " +:+ step +:+ " step failed")).

Definition test_build_upstream : T () :=
  run_type ← gets pc_run_type;
  if py_eq run_type (VStr "upstream") then
    match build_deps ppc_distro with
    | None => test_cancel "Unsupported Linux distribution"
    | Some deps =>
        for_each deps build_dep ;;
        url ← get_param "ppcutils_url"
                (VStr "https://github.com/ibm-power-utilities/powerpc-utils/archive/refs/heads/master.zip");
        tarball ← ppc_call "fetch_asset" [VStr "ppcutils.zip"; VList [url]; VStr "7d"];
        _ ← ppc_call "archive.extract" [tarball; VStr ppc_workdir];
        let sourcedir := path_join ppc_workdir "powerpc-utils-master" in
        _ ← ppc_call "os.chdir" [VStr sourcedir];
        build_step "./autogen.sh" "Pre configure" ;;
        build_step "./configure --prefix=/usr" "Configure" ;;
        _ ← ppc_call "build.make" [VStr sourcedir];
        _ ← ppc_call "build.make" [VStr sourcedir; VStr "install"];
        mret ()
    end
  else test_cancel "This test is supported with upstream as target".

(** [equality_check]; the arguments are the texts [str] makes of them. *)
Definition equality_check (test_name cmd1 cmd2 : string) : T () :=
  log_info ("Testing " +:+ test_name) ;;
  when (negb (String.eqb cmd1 cmd2))
    (key ← gets pc_key;
     add_failure (test_name +:+ " test failed when SMT=" +:+ py_str_Z key)).

(** [smt], [core], [subcore], [threads_per_core] and [dscr] *)
Definition smt : T () :=
  smt_str ← attr "smt_str" pc_smt_str;
  out ← output smt_str;
  op1 ← lift (smt_of_output out);
  value ← gets pc_value;
  equality_check "SMT" op1 value.

Definition last_word_of (cmd : string) : T string :=
  out ← output cmd; lift (last_word (py_strip out)).

Definition online_count : T Z := ext (EvCall "cpu.online_count" []) cpu_online_count.

Definition core : T () :=
  op1 ← last_word_of "ppc64_cpu --cores-present";
  n ← online_count;
  key ← gets pc_key;
  op2 ← lift (num_div (NInt n) (NInt key) : result num);
  match op2 with
  | NFloat f => match f_ceil f with
                | Some z => equality_check "Core" op1 (py_str_Z z)
                | None => throw ValueError "cannot convert float to integer"
                end
  | NInt z => equality_check "Core" op1 (py_str_Z z)
  end.

Definition subcore : T () :=
  op1 ← last_word_of "ppc64_cpu --subcores-per-core";
  op2 ← read_file "/sys/devices/system/cpu/subcores_per_core";
  equality_check "Subcore" op1 (py_strip op2).

Definition threads_per_core : T () :=
  op1 ← last_word_of "ppc64_cpu --threads-per-core";
  op2 ← output "ppc64_cpu --info";
  match py_splitlines (py_strip op2) with
  | line :: _ =>
      let threads := py_split (default "" (last_opt (py_split_on ":" line))) in
      equality_check "Threads per core" op1 (py_str_Z (Z.of_nat (length threads)))
  | [] => throw IndexError "list index out of range"
  end.

Definition dscr : T () :=
  op1 ← last_word_of "ppc64_cpu --dscr";
  s ← read_file "/sys/devices/system/cpu/dscr_default";
  match py_int16_of_str (py_strip s) with
  | Some op2 => equality_check "DSCR" op1 (py_str_Z op2)
  | None => throw ValueError "invalid literal for int() with base 16"
  end.

(** ** State of the system *)

(** [parse_ppc64_cpu_info] *)
Definition parse_ppc64_cpu_info : T cpu_info :=
  let failed (info : cpu_info) (e : exn) : T cpu_info :=
    log_error ("Failed to parse ppc64_cpu --info: " +:+ ex_msg e) ;; mret info in
  r ← try_except (out ← output "ppc64_cpu --info"; mret (inl out)) any_exn (λ e, mret (inr e));
  match r with
  | inr e => failed empty_info e
  | inl out =>
      match parse_lines empty_info (py_splitlines (py_strip out)) with
      | (info, Some e) => failed info e
      | (info, None) =>
          let info := check_consistency (set_total info) in
          when (ci_inconsistent info)
            (log_warning "INCONSISTENT SMT STATE among online cores!" ;;
             log_warning ("Online cores thread counts: " +:+ dict_repr (online_threads info))) ;;
          mret info
      end
  end.

(** [verify_system_state]; [None] is the default of the arguments. *)
Definition verify_system_state (expected_smt : option string) (expected_cores_on : option Z) : T bool :=
  log_info (ruler 60) ;;
  log_info "SYSTEM STATE VERIFICATION" ;;
  log_info (ruler 60) ;;
  info ← parse_ppc64_cpu_info;
  smt_output ← output "ppc64_cpu --smt";
  current_smt ← lift (smt_of_output smt_output);
  cores_output ← output "ppc64_cpu --cores-on";
  cores_on ← lift (cores_of_output cores_output);
  online_cpus ← online_count;
  log_info ("Current SMT mode: " +:+ current_smt) ;;
  log_info ("Cores online: " +:+ py_str_Z cores_on) ;;
  log_info ("Online CPUs: " +:+ py_str_Z online_cpus) ;;
  log_info ("Total cores detected: " +:+ py_str_Z (ci_total_cores info)) ;;
  log_info ("Online cores: " +:+ ints_repr (ci_online_cores info)) ;;
  log_info ("Offline cores: " +:+ ints_repr (ci_offline_cores info)) ;;
  smt_ok ←
    match expected_smt with
    | Some e =>
        if negb (String.eqb current_smt e) then
          log_error ("SMT mismatch! Expected: " +:+ e +:+ ", Got: " +:+ current_smt) ;; mret false
        else mret true
    | None => mret true
    end;
  cores_ok ←
    match expected_cores_on with
    | Some e =>
        if negb (cores_on =? e) then
          log_error ("Cores mismatch! Expected: " +:+ py_str_Z e +:+ ", Got: " +:+ py_str_Z cores_on) ;;
          mret false
        else mret true
    | None => mret true
    end;
  consistent ←
    (if ci_inconsistent info then
       log_error "INCONSISTENT SMT STATE detected among online cores!" ;; mret false
     else mret true);
  cpus_ok ←
    match ci_smt_mode info with
    | Some mode =>
        if negb (String.eqb current_smt "off") && negb (mode =? 0) then
          let expected_cpus := cores_on * mode in
          if negb (online_cpus =? expected_cpus) then
            log_error ("CPU count mismatch!                         Expected: " +:+
                       py_str_Z expected_cpus +:+ " (cores=" +:+ py_str_Z cores_on +:+ " × smt=" +:+
                       py_str_Z mode +:+ "), Got: " +:+ py_str_Z online_cpus) ;;
            mret false
          else mret true
        else mret true
    | None => mret true
    end;
  let validation_passed := smt_ok && cores_ok && consistent && cpus_ok in
  log_info (ruler 60) ;;
  (if validation_passed then log_info "✓ VALIDATION PASSED" else log_error "✗ VALIDATION FAILED") ;;
  log_info (ruler 60) ;;
  mret validation_passed.

(** [get_cores_info]: the numbers of cores on and present. *)
Definition get_cores_info : T (Z * Z) :=
  cores_output ← output "ppc64_cpu --cores-on";
  cores_on ← lift (cores_of_output cores_output);
  cores_present_output ← output "ppc64_cpu --cores-present";
  cores_present ← lift (present_of_output cores_present_output);
  mret (cores_on, cores_present).

(** [get_current_smt] *)
Definition get_current_smt : T string :=
  try_except
    (smt_str ← attr "smt_str" pc_smt_str;
     out ← output smt_str;
     lift (smt_of_output out))
    any_exn
    (λ e, log_error ("Failed to get current SMT: " +:+ ex_msg e) ;; mret "unknown"%string).

(** The SMT mode that [--smt] reports after [--smt=smt_val]. *)
Definition expected_mode (max_smt_value : Z) (smt_val : string) : string :=
  if String.eqb smt_val "off" then "off"
  else if String.eqb smt_val "on" then py_str_Z max_smt_value else smt_val.

(** ** Test methods *)

(** [test_cmd_options] *)
Definition test_cmd_options : T () :=
  max_smt_value ← gets pc_max_smt_value;
  modify (λ x, with_smt_values
    (foldl (λ d i, dict_set i (py_str_Z i) d) (pc_smt_values x) (Zrange 2 max_smt_value)) x) ;;
  smt_values ← gets pc_smt_values;
  for_each smt_values (λ '(key, value),
    modify (with_key_value key value) ;;
    smt_str ← attr "smt_str" pc_smt_str;
    output (smt_str +:+ "=" +:+ py_str_Z key) ;;
    process_system_output "ppc64_cpu --info" [] ;;
    dscr) ;;
  l ← gets pc_failures;
  when (negb (bool_decide (l = []))) (log_debug ("Failure list: " +:+ strs_repr l) ;; test_fail "").

(** [test_smt_loop] *)
Definition test_smt_loop : T () :=
  loop ← gets pc_loop;
  for_each (Zrange 1 loop) (λ _,
    smt_str ← attr "smt_str" pc_smt_str;
    rc ← process_system (smt_str +:+ "=off && " +:+ smt_str +:+ "=on") [Shell];
    when (negb (rc =? 0)) (test_fail "SMT loop test failed")).

(** [test_single_core_smt] *)
Definition test_single_core_smt : T () :=
  sys "ppc64_cpu --cores-on=all" ;;
  sys "ppc64_cpu --smt=on" ;;
  sys "ppc64_cpu --cores-on=1" ;;
  cores_on ← output "ppc64_cpu --cores-on";
  let op1 := after_equal cores_on in
  log_debug op1 ;;
  sys "ppc64_cpu --smt=2" ;;
  sys "ppc64_cpu --smt=4" ;;
  cores_on ← output "ppc64_cpu --cores-on";
  let op2 := after_equal cores_on in
  log_debug op2 ;;
  when (negb (String.eqb op1 op2)) (test_fail "SMT with Single core test failed").

Definition four_smt_values : list string := ["off"; "2"; "4"; "on"]%string.

(** [test_smt_with_core_operations] *)
Definition test_smt_with_core_operations : T () :=
  log_info "Testing SMT operations with core hotplug" ;;
  '(_, total_cores) ← get_cores_info;
  test_cores ← lift (results (map (percentage_cores total_cores) [10; 25; 50; 75; 100]));
  for_each test_cores (λ num_cores,
    log_info (NL +:+ ruler 60) ;;
    log_info ("Testing with " +:+ py_str_Z num_cores +:+ " cores online") ;;
    log_info (ruler 60) ;;
    sys ("ppc64_cpu --cores-on=" +:+ py_str_Z num_cores) ;;
    for_each four_smt_values (λ smt_val,
      log_info (NL +:+ "Setting SMT=" +:+ smt_val +:+ " with " +:+ py_str_Z num_cores +:+ " cores") ;;
      sys ("ppc64_cpu --smt=" +:+ smt_val) ;;
      ok ← verify_system_state None (Some num_cores);
      when (negb ok)
        (test_fail ("Verification failed for cores=" +:+ py_str_Z num_cores +:+ ", SMT=" +:+ smt_val)) ;;
      sleep half_second)).

(** [test_parallel_smt_core_stress] *)
Definition stress_both (total_cores : Z) : T () :=
  smt_val ← choice four_smt_values;
  num_cores ← randint 1 total_cores;
  log_info ("Random SMT=" +:+ smt_val +:+ " and cores=" +:+ py_str_Z num_cores) ;;
  '(cores_before, _) ← get_cores_info;
  sys ("ppc64_cpu --smt=" +:+ smt_val) ;;
  '(cores_after, _) ← get_cores_info;
  when (negb (cores_before =? cores_after))
    (test_fail ("SMT change affected core count! Before: " +:+ py_str_Z cores_before +:+
                ", After: " +:+ py_str_Z cores_after)) ;;
  sys ("ppc64_cpu --cores-on=" +:+ py_str_Z num_cores).

Definition test_parallel_smt_core_stress : T () :=
  iterations ← int_param "stress_iterations" 20;
  log_info ("Running parallel SMT/core stress test with " +:+ py_str_Z iterations +:+ " iterations") ;;
  '(_, total_cores) ← get_cores_info;
  for_each (Zrange 0 iterations) (λ i,
    log_info (NL +:+ ruler 60) ;;
    log_info ("Stress Iteration " +:+ py_str_Z (i + 1) +:+ "/" +:+ py_str_Z iterations) ;;
    log_info (ruler 60) ;;
    operation ← choice ["smt"; "cores"; "both"]%string;
    (if String.eqb operation "smt" then
       smt_val ← choice four_smt_values;
       log_info ("Random SMT change: " +:+ smt_val) ;;
       sys ("ppc64_cpu --smt=" +:+ smt_val)
     else if String.eqb operation "cores" then
       num_cores ← randint 1 total_cores;
       log_info ("Random core change: " +:+ py_str_Z num_cores +:+ " cores") ;;
       sys ("ppc64_cpu --cores-on=" +:+ py_str_Z num_cores)
     else stress_both total_cores) ;;
    ok ← verify_system_state None None;
    when (negb ok) (test_fail ("Verification failed at iteration " +:+ py_str_Z (i + 1))) ;;
    sleep third_second) ;;
  log_info (NL +:+ "✓ Stress test completed successfully!").

(** [test_core_range_operations] *)
Definition test_core_range_operations : T () :=
  log_info "Testing core range operations" ;;
  '(_, total_cores) ← get_cores_info;
  for_each [1; 2; Z.min 4 total_cores; Z.min 8 total_cores] (λ count,
    if total_cores <? count then mret ()
    else
      log_info (NL +:+ "Testing with " +:+ py_str_Z count +:+ " cores") ;;
      sys ("ppc64_cpu --cores-on=" +:+ py_str_Z count) ;;
      cores_output ← output "ppc64_cpu --cores-on";
      actual_cores ← lift (cores_of_output cores_output);
      when (negb (actual_cores =? count))
        (test_fail ("Core count mismatch! Expected: " +:+ py_str_Z count +:+ ", Got: " +:+
                    py_str_Z actual_cores)) ;;
      ok ← verify_system_state None (Some count);
      when (negb ok) (test_fail ("Verification failed for " +:+ py_str_Z count +:+ " cores"))).

(** [test_all_smt_operations], with the body of its loop *)
Definition all_smt_step (smt_val : string) : T () :=
  log_info ("Setting SMT=" +:+ smt_val) ;;
  smt_str ← attr "smt_str" pc_smt_str;
  result ← process_run (smt_str +:+ "=" +:+ smt_val) [Shell; IgnoreStatus];
  if negb (exit_status result =? 0) then add_failure ("Failed to set SMT=" +:+ smt_val)
  else
    sleep (VInt 1) ;;
    max_smt_value ← gets pc_max_smt_value;
    ok ← verify_system_state (Some (expected_mode max_smt_value smt_val)) None;
    when (negb ok) (add_failure ("Verification failed for SMT=" +:+ smt_val)) ;;
    log_info ("SMT=" +:+ smt_val +:+ " operation completed successfully" +:+ NL).

Definition test_all_smt_operations : T () :=
  log_info "=== Testing ALL SMT Operations (Dynamic) ===" ;;
  all_smt_values ← gets pc_all_smt_values;
  for_each all_smt_values all_smt_step ;;
  fail_if_failures "All SMT operations test failed: ".

(** [test_dynamic_core_operations], with the body of its loop *)
Definition dynamic_core_step (scenario : Z * string) : T () :=
  let '(cores_count, description) := scenario in
  log_info ("Test: " +:+ description +:+ " (cores=" +:+ py_str_Z cores_count +:+ ")") ;;
  result ← process_run ("ppc64_cpu --cores-on=" +:+ py_str_Z cores_count) [Shell; IgnoreStatus];
  if negb (exit_status result =? 0)
  then add_failure ("Failed to set cores-on=" +:+ py_str_Z cores_count)
  else
    sleep (VInt 1) ;;
    ok ← verify_system_state None (Some cores_count);
    when (negb ok) (add_failure ("Verification failed for cores-on=" +:+ py_str_Z cores_count)) ;;
    log_info ("Core operation completed: " +:+ description +:+ NL).

Definition test_dynamic_core_operations : T () :=
  log_info "=== Testing Dynamic Core Operations ===" ;;
  sys "ppc64_cpu --cores-on=all" ;;
  sleep (VInt 1) ;;
  total_cores ← gets pc_total_cores;
  unique_scenarios ← lift (scenarios total_cores);
  for_each unique_scenarios dynamic_core_step ;;
  sys "ppc64_cpu --cores-on=all" ;;
  sleep (VInt 1) ;;
  fail_if_failures "Dynamic core operations test failed: ".

(** An attribute that setUp read from the parameters. *)
Definition param_of {A} (name : string) (f : ppc_params → A) : T A :=
  attr name (λ x, f <$> pc_params x).

(** [test_smt_core_interaction], with the bodies of its loops *)
Definition interaction_smt_step (test_core_count cores_before : Z) (smt_val : string) : T () :=
  log_info ("  Testing SMT=" +:+ smt_val +:+ " with " +:+ py_str_Z test_core_count +:+ " cores") ;;
  sys_ignore ("ppc64_cpu --smt=" +:+ smt_val) ;;
  sleep half_second ;;
  '(cores_after, _) ← get_cores_info;
  when (negb (cores_before =? cores_after))
    (add_failure ("SMT=" +:+ smt_val +:+ " changed core count from " +:+ py_str_Z cores_before +:+
                  " to " +:+ py_str_Z cores_after)) ;;
  max_smt_value ← gets pc_max_smt_value;
  verify_system_state (Some (expected_mode max_smt_value smt_val)) (Some test_core_count) ;;
  mret ().

Definition interaction_iteration (num_iterations iteration : Z) : T () :=
  log_info ("Iteration " +:+ py_str_Z (iteration + 1) +:+ "/" +:+ py_str_Z num_iterations) ;;
  total_cores ← gets pc_total_cores;
  let test_core_count := Z.max 1 (total_cores / 2) in
  sys ("ppc64_cpu --cores-on=" +:+ py_str_Z test_core_count) ;;
  sleep (VInt 1) ;;
  '(cores_before, _) ← get_cores_info;
  all_smt_values ← gets pc_all_smt_values;
  for_each all_smt_values (interaction_smt_step test_core_count cores_before) ;;
  sys "ppc64_cpu --cores-on=all" ;;
  sleep (VInt 1).

Definition test_smt_core_interaction : T () :=
  log_info "=== Testing SMT-Core Interaction ===" ;;
  reset_system_state ;;
  stress_iterations ← param_of "stress_iterations" pp_stress_iterations;
  let num_iterations := Z.min 5 (stress_iterations / 4) in
  for_each (Zrange 0 num_iterations) (interaction_iteration num_iterations) ;;
  fail_if_failures "SMT-Core interaction test failed: ".

(** [test_random_stress] *)
Definition test_random_stress : T () :=
  run_random_stress ← param_of "run_random_stress" pp_run_random_stress;
  if negb (truthy run_random_stress) then
    log_info "Skipping random stress test (disabled in config)"
  else
    log_info "=== Random Stress Test ===" ;;
    reset_system_state ;;
    random_iterations ← param_of "random_iterations" pp_random_iterations;
    for_each (Zrange 0 random_iterations) (λ iteration,
      log_info ("Random iteration " +:+ py_str_Z (iteration + 1) +:+ "/" +:+ py_str_Z random_iterations) ;;
      operation ← choice ["smt"; "core_count"; "verify"]%string;
      if String.eqb operation "smt" then
        all_smt_values ← gets pc_all_smt_values;
        smt_val ← choice all_smt_values;
        log_info ("  -> Setting SMT=" +:+ smt_val) ;;
        '(cores_before, _) ← get_cores_info;
        sys_ignore ("ppc64_cpu --smt=" +:+ smt_val) ;;
        sleep third_second ;;
        '(cores_after, _) ← get_cores_info;
        when (negb (cores_before =? cores_after))
          (add_failure ("SMT change affected core count: was " +:+ py_str_Z cores_before +:+
                        ", now " +:+ py_str_Z cores_after))
      else if String.eqb operation "core_count" then
        total_cores ← gets pc_total_cores;
        cores_count ← randint 1 total_cores;
        log_info ("  -> Setting cores-on=" +:+ py_str_Z cores_count) ;;
        smt_before ← get_current_smt;
        sys_ignore ("ppc64_cpu --cores-on=" +:+ py_str_Z cores_count) ;;
        sleep third_second ;;
        smt_after ← get_current_smt;
        when (negb (String.eqb smt_before smt_after))
          (add_failure ("Core operation affected SMT: was " +:+ smt_before +:+ ", now " +:+ smt_after))
      else
        log_info "  -> Comprehensive verification" ;;
        ok ← verify_system_state None None;
        when (negb ok) (add_failure ("Verification failed at iteration " +:+ py_str_Z (iteration + 1)))) ;;
    log_info "Random stress test completed" ;;
    fail_if_failures "Random stress test failed: ".

(** [test_progressive_core_online_with_smt], with the bodies of its loops *)
Definition single_core_smt_step (smt_val : string) : T () :=
  log_info ("  Setting SMT=" +:+ smt_val +:+ " with 1 core") ;;
  sys_ignore ("ppc64_cpu --smt=" +:+ smt_val) ;;
  sleep half_second ;;
  max_smt_value ← gets pc_max_smt_value;
  ok ← verify_system_state (Some (expected_mode max_smt_value smt_val)) (Some 1);
  when (negb ok) (add_failure ("Verification failed for SMT=" +:+ smt_val +:+ " with 1 core")).

Definition progressive_smt_step (actual_cores : Z) (smt_val : string) : T () :=
  log_info ("  Testing SMT=" +:+ smt_val +:+ " with " +:+ py_str_Z actual_cores +:+ " cores") ;;
  sys_ignore ("ppc64_cpu --smt=" +:+ smt_val) ;;
  sleep half_second ;;
  '(cores_after, _) ← get_cores_info;
  when (negb (cores_after =? actual_cores))
    (add_failure ("SMT=" +:+ smt_val +:+ " changed core count from " +:+ py_str_Z actual_cores +:+
                  " to " +:+ py_str_Z cores_after)) ;;
  max_smt_value ← gets pc_max_smt_value;
  ok ← verify_system_state (Some (expected_mode max_smt_value smt_val)) (Some actual_cores);
  when (negb ok)
    (add_failure ("Verification failed for SMT=" +:+ smt_val +:+ " with " +:+ py_str_Z actual_cores +:+
                  " cores")).

Definition progressive_step (core_count : Z) : T () :=
  log_info (NL +:+ "--- Testing with " +:+ py_str_Z core_count +:+ " cores online ---") ;;
  sys ("ppc64_cpu --cores-on=" +:+ py_str_Z core_count) ;;
  sleep (VInt 1) ;;
  '(actual_cores, cores_present) ← get_cores_info;
  log_info ("Cores online: " +:+ py_str_Z actual_cores +:+ ", Cores offline: " +:+
            py_str_Z (cores_present - actual_cores)) ;;
  all_smt_values ← gets pc_all_smt_values;
  for_each all_smt_values (progressive_smt_step actual_cores).

Definition test_progressive_core_online_with_smt : T () :=
  log_info "=== Testing Progressive Core Online with SMT Operations ===" ;;
  total_cores ← gets pc_total_cores;
  if total_cores <? 3 then log_info "Skipping: Need at least 3 cores for this test"
  else
    sys "ppc64_cpu --cores-on=1" ;;
    sleep (VInt 1) ;;
    log_info "Testing all SMT operations with 1 core online" ;;
    all_smt_values ← gets pc_all_smt_values;
    for_each all_smt_values single_core_smt_step ;;
    log_info "Progressively bringing cores online and testing SMT" ;;
    test_core_counts ← lift (progressive_counts total_cores);
    for_each test_core_counts progressive_step ;;
    sys "ppc64_cpu --cores-on=all" ;;
    sleep (VInt 1) ;;
    fail_if_failures "Progressive core online test failed: ".

(** [test_specific_cores_offline_with_smt], with the choice of the cores and the body of
    its loop *)
Definition choose_cores (total_cores : Z) : T (list Z) :=
  '(lo, hi) ← lift (offline_bounds total_cores);
  num_cores_to_offline ← randint lo hi;
  sample (Zrange 1 total_cores) num_cores_to_offline.

Definition specific_cores_iteration (total_cores num_iterations iteration : Z) : T () :=
  log_info (NL +:+ ruler 70) ;;
  log_info ("Iteration " +:+ py_str_Z (iteration + 1) +:+ "/" +:+ py_str_Z num_iterations +:+
            ": Specific Cores Offline with SMT") ;;
  log_info (ruler 70) ;;
  sys "ppc64_cpu --cores-on=all" ;;
  sleep (VInt 1) ;;
  cores_to_offline ← choose_cores total_cores;
  log_info ("Randomly selected cores to offline: " +:+ ints_repr cores_to_offline) ;;
  let cores_list := py_join "," (map py_str_Z (sort cores_to_offline)) in
  result ← process_run ("ppc64_cpu --offline-cores=" +:+ cores_list) [Shell; IgnoreStatus];
  if negb (exit_status result =? 0) then log_warning ("Failed to offline cores " +:+ cores_list)
  else
    sleep (VInt 1) ;;
    '(actual_online_cores, _) ← get_cores_info;
    log_info ("After offlining: " +:+ py_str_Z actual_online_cores +:+ " cores online") ;;
    log_info "Testing all SMT operations with offline cores" ;;
    all_smt_values ← gets pc_all_smt_values;
    for_each all_smt_values (λ smt_val,
      log_info ("  Testing SMT=" +:+ smt_val) ;;
      sys_ignore ("ppc64_cpu --smt=" +:+ smt_val) ;;
      sleep half_second ;;
      '(cores_online_after, _) ← get_cores_info;
      when (negb (cores_online_after =? actual_online_cores))
        (add_failure ("SMT=" +:+ smt_val +:+ " changed online core count from " +:+
                      py_str_Z actual_online_cores +:+ " to " +:+ py_str_Z cores_online_after)) ;;
      max_smt_value ← gets pc_max_smt_value;
      ok ← verify_system_state (Some (expected_mode max_smt_value smt_val)) (Some cores_online_after);
      when (negb ok)
        (add_failure ("Verification failed for SMT=" +:+ smt_val +:+ " with specific cores offline"))).

Definition test_specific_cores_offline_with_smt : T () :=
  log_info "=== Testing Specific Cores Offline with SMT Operations ===" ;;
  total_cores ← gets pc_total_cores;
  if total_cores <? 5 then log_info "Skipping: Need at least 5 cores for this test"
  else
    reset_system_state ;;
    stress_iterations ← param_of "stress_iterations" pp_stress_iterations;
    let num_iterations := Z.min 3 (stress_iterations / 10) in
    for_each (Zrange 0 num_iterations) (specific_cores_iteration total_cores num_iterations) ;;
    reset_system_state ;;
    fail_if_failures "Specific cores offline test failed: ".

(** [tearDown] *)
Definition tearDown : T () :=
  smt_str ← gets pc_smt_str;
  match smt_str with
  | Some smt_str =>
      sys_ignore "ppc64_cpu --cores-on=all" ;;
      curr_smt ← attr "curr_smt" pc_curr_smt;
      process_system_output (smt_str +:+ "=" +:+ curr_smt) [Shell; IgnoreStatus] ;;
      process_system_output "dmesg" [IgnoreStatus] ;;
      mret ()
  | None => mret ()
  end.
End tests.
