(* ===== verification/PpcParse.v ===== *)
(** * Parsing the output of ppc64_cpu --info

    The text that [ppc64_cpu --info] prints for a machine, with any number of blanks
    between its columns, and the theorem that [parse_ppc64_cpu_info] reads the machine
    back from it. *)

From S2P Require Import Prelude PyStr PyFloat PyVal PyRegex Avocado Logic Ppc64Cpu.
Open Scope Z_scope.

(** ** The text of a machine *)

(** A thread: its number and whether it is online; a core: its number and its threads. *)
Record core_state := CoreState { cs_number : Z; cs_threads : list (Z * bool) }.

Definition thread_word (t : Z * bool) : chars :=
  chars_of (py_str_Z (fst t)) ++ (if snd t then ["*"%char] else []).

Section render.
(** The blanks before a column: one, and the given number more. *)
Context (pad : Z → nat).

Definition thread_text (t : Z * bool) : chars := blanks (S (pad (fst t))) ++ thread_word t.

(** A line, with [b] blanks at its end. *)
Definition core_line (c : core_state) (b : nat) : chars :=
  chars_of "Core" ++ blanks (S (pad (cs_number c))) ++ chars_of (py_str_Z (cs_number c)) ++ [":"%char] ++
  concat (map thread_text (cs_threads c)) ++ blanks b.

Lemma thread_word_no_spaces t : no_spaces (thread_word t) ∧ thread_word t ≠ [].
Proof.
  destruct t as [z b]. unfold thread_word. simpl.
  assert (no_spaces (chars_of (py_str_Z z))) as H.
  { rewrite chars_of_str_Z. assert (∀ n, 0 ≤ n → no_spaces (nat_chars n)) as Hn.
    { intros n Hn. destruct (nat_chars_spec n Hn) as (_ & Hd & _).
      eapply List.Forall_impl; [apply digit_not_space|exact Hd]. }
    destruct (Z.ltb_spec z 0); [constructor; [done|]|]; apply Hn; lia. }
  split; [apply Forall_app; split; [done|destruct b; by repeat constructor]|].
  destruct (str_Z_trimmed z) as [_ Hne]. by destruct (chars_of (py_str_Z z)).
Qed.

Lemma thread_word_online t : py_in "*" (str_of (thread_word t)) = snd t.
Proof.
  destruct t as [z b]. rewrite py_in_char, chars_of_str_of. unfold thread_word. simpl.
  assert ("*"%char ∉ chars_of (py_str_Z z)) as H.
  { rewrite chars_of_str_Z. assert (∀ n, 0 ≤ n → "*"%char ∉ nat_chars n) as Hn.
    { intros n Hn. destruct (nat_chars_spec n Hn) as (_ & Hd & _). intros Hin.
      pose proof (proj1 (list.Forall_forall _ _) Hd _ Hin) as Hstar. by vm_compute in Hstar. }
    destruct (Z.ltb_spec z 0); [rewrite not_elem_of_cons; split; [done|]|]; apply Hn; lia. }
  destruct b.
  - apply bool_decide_true. apply elem_of_app. right. left.
  - apply bool_decide_false. by rewrite app_nil_r.
Qed.

Lemma words_threads ts b :
  words_of (concat (map thread_text ts) ++ blanks b) = map thread_word ts.
Proof.
  rewrite words_spaces_r by apply blanks_spaces.
  induction ts as [|t ts IH]; [done|]. cbn [map concat]. unfold thread_text at 1. rewrite <- app_assoc.
  rewrite words_spaces_l by apply blanks_spaces.
  destruct (thread_word_no_spaces t) as [Hns Hne].
  destruct ts as [|t' ts].
  - cbn [map concat]. rewrite app_nil_r. by apply words_word.
  - cbn [map concat] in *. unfold thread_text in IH at 1 |- * at 1. unfold blanks in *. cbn [repeat app] in *.
    rewrite words_app by done. rewrite words_word by done. rewrite words_space in IH by done.
    cbn [map app]. f_equal. exact IH.
Qed.

(** The pattern on such a line: the number, and the rest from the first thread on. *)
Lemma re_core_match sp d ds sp2 c tail :
  sp ≠ [] → spaces sp → Forall (λ c, is_digit c = true) (d :: ds) → sp2 ≠ [] → spaces sp2 →
  is_space c = false → Forall (λ c, negb (Ascii.eqb c LF) = true) (c :: tail) →
  ∃ m, re_match re_core (str_of (chars_of "Core" ++ sp ++ (d :: ds) ++ [":"%char] ++ sp2 ++ (c :: tail))) = Some m ∧
    m_group 1 m = str_of (d :: ds) ∧ m_group 2 m = str_of (c :: tail).
Proof.
  intros Hsp Hs Hd Hsp2 Hs2 Hc Ht. unfold re_match, match_at, start. rewrite chars_of_str_of.
  destruct sp as [|s sp]; [done|]. destruct sp2 as [|s2 sp2]; [done|].
  unfold re_core. change (RLit "Core") with
    (RSeq (RChar "C") (RSeq (RChar "o") (RSeq (RChar "r") (RChar "e")))).
  change (chars_of "Core") with ["C"; "o"; "r"; "e"]%char. cbn [app].
  eexists. split; [|split].
  - repeat (rewrite run_seq). unfold RChar at 1. rewrite run_class by done.
    repeat (rewrite run_seq). unfold RChar at 1. rewrite run_class by done.
    repeat (rewrite run_seq). unfold RChar at 1. rewrite run_class by done.
    unfold RChar at 1. rewrite run_class by done. rewrite run_seq.
    apply (run_plus_class false is_space s sp (d :: ds ++ _)); [done| |].
    { inversion Hd as [|? ? Hd' _]; subst. by apply digit_not_space. }
    rewrite run_seq, run_group.
    apply (run_plus_class false is_digit d ds (":"%char :: _)); [done|done|].
    rewrite run_seq. unfold RChar at 1. rewrite run_class by done. rewrite run_seq.
    apply (run_plus_class false is_space s2 sp2 (c :: tail)); [done|done|].
    rewrite run_group. pattern (c :: tail) at 1. rewrite <- (app_nil_r (c :: tail)).
    apply (run_star_class false (λ c, negb (Ascii.eqb c LF)) (c :: tail) []); [done|done|]. reflexivity.
  - unfold m_group. cbn [m_groups group_chars Nat.eqb]. f_equal.
    apply (text_between_app _ (d :: ds) (":"%char :: _)).
  - unfold m_group. cbn [m_groups group_chars Nat.eqb]. f_equal.
    match goal with |- text_between (Pos ?b _) (Pos ?b' _) = _ =>
      pose proof (text_between_app b (c :: tail) [] b') as H end.
    by rewrite app_nil_r in H.
Qed.

Lemma thread_text_inline t : one_line (thread_text t).
Proof.
  apply Forall_app. split; [apply blanks_inline|]. apply word_inline, thread_word_no_spaces.
Qed.

Lemma threads_inline ts : one_line (concat (map thread_text ts)).
Proof.
  induction ts as [|t ts IH]; [constructor|]. apply Forall_app. split; [apply thread_text_inline|done].
Qed.

Lemma number_inline z : one_line (chars_of (py_str_Z z)).
Proof.
  apply word_inline. pose proof (proj1 (thread_word_no_spaces (z, false))) as H.
  unfold thread_word in H. simpl in H. by rewrite app_nil_r in H.
Qed.

Lemma core_line_inline c b : one_line (core_line c b).
Proof.
  unfold core_line. repeat (apply Forall_app; split); try apply blanks_inline.
  - by repeat constructor.
  - apply number_inline.
  - by repeat constructor.
  - apply threads_inline.
Qed.

(** ** One line *)

Definition online_count_of (c : core_state) : Z := Z.of_nat (length (List.filter snd (cs_threads c))).
Definition words_of_core (c : core_state) : list string := map (λ t, str_of (thread_word t)) (cs_threads c).

(** What a line adds to the result. *)
Definition add_core (info : cpu_info) (c : core_state) : cpu_info :=
  CpuInfo
    (dict_set (cs_number c) (words_of_core c, online_count_of c) (ci_cores info))
    (ci_total_cores info)
    (if 0 <? online_count_of c then ci_online_cores info ++ [cs_number c] else ci_online_cores info)
    (if 0 <? online_count_of c then ci_offline_cores info else ci_offline_cores info ++ [cs_number c])
    (dict_set (cs_number c) (online_count_of c) (ci_actual_threads_per_core info))
    (ci_smt_mode info) (ci_inconsistent info).

Definition valid_core (c : core_state) : Prop := 0 ≤ cs_number c ∧ cs_threads c ≠ [].

Lemma count_online_words c : count_online (words_of_core c) = online_count_of c.
Proof.
  unfold count_online, words_of_core, online_count_of. f_equal.
  induction (cs_threads c) as [|t ts IH]; [done|]. simpl. rewrite thread_word_online.
  destruct (snd t); simpl; by rewrite IH.
Qed.

Lemma not_LF c : inline c = true → negb (Ascii.eqb c LF) = true.
Proof. intros H. by destruct (Ascii.eqb_spec c LF) as [->|]. Qed.

Lemma parse_line_core info c b :
  valid_core c → parse_line info (str_of (core_line c b)) = Ret (add_core info c).
Proof.
  intros [Hn Hts]. destruct c as [z [|t ts]]; [done|]. cbn [cs_number] in Hn.
  destruct (nat_chars_spec z Hn) as (Hne & Hd & _).
  assert (chars_of (py_str_Z z) = nat_chars z) as Hz.
  { rewrite chars_of_str_Z. destruct (Z.ltb_spec z 0); [lia|done]. }
  destruct (thread_word_no_spaces t) as [Hns Htw].
  set (tail := concat (map thread_text (t :: ts)) ++ blanks b).
  destruct (thread_word t) as [|w1 w] eqn:Ew; [done|].
  destruct (nat_chars z) as [|d ds] eqn:Ez; [done|].
  assert (core_line (CoreState z (t :: ts)) b =
    chars_of "Core" ++ blanks (S (pad z)) ++ (d :: ds) ++ [":"%char] ++ blanks (S (pad (fst t))) ++
    (w1 :: w ++ concat (map thread_text ts) ++ blanks b)) as ->.
  { unfold core_line. cbn [cs_number cs_threads map concat]. unfold thread_text at 1.
    rewrite Hz, Ew. by rewrite <- !app_assoc. }
  destruct (re_core_match (blanks (S (pad z))) d ds (blanks (S (pad (fst t)))) w1
              (w ++ concat (map thread_text ts) ++ blanks b)) as (m & Hm & Hg1 & Hg2);
    [done|apply blanks_spaces|done|done|apply blanks_spaces|by inversion Hns| |].
  { eapply List.Forall_impl; [apply not_LF|]. rewrite !app_comm_cons.
    apply Forall_app. split; [by apply word_inline|]. apply Forall_app.
    split; [apply threads_inline|apply blanks_inline]. }
  unfold parse_line. rewrite Hm, Hg1, Hg2.
  rewrite <- Hz, str_of_chars_of, py_int_str. cbn [mbind result_bind].
  assert (py_split (py_strip (str_of (w1 :: w ++ concat (map thread_text ts) ++ blanks b))) =
          words_of_core (CoreState z (t :: ts))) as ->.
  { rewrite py_split_words. unfold py_strip. rewrite chars_of_str_of, words_strip, chars_of_str_of.
    rewrite !app_comm_cons, <- Ew.
    rewrite <- (words_spaces_l (blanks (S (pad (fst t))))) by apply blanks_spaces.
    change (words_of_core (CoreState z (t :: ts))) with (map (λ t, str_of (thread_word t)) (t :: ts)).
    rewrite <- (List.map_map thread_word str_of), <- (words_threads (t :: ts) b). do 2 f_equal.
    cbn [map concat]. unfold thread_text at 2. by rewrite <- !app_assoc. }
  rewrite count_online_words. done.
Qed.
(** ** All lines *)

(** The blanks at the end of a line. *)
Context (fin : Z → nat).

Definition info_text (ms : list core_state) : chars :=
  concat (map (λ c, core_line c (fin (cs_number c)) ++ [LF]) ms).

Lemma core_line_end c b : core_line c b = core_line c 0 ++ blanks b.
Proof. unfold core_line. change (blanks 0) with (@nil ascii). by rewrite app_nil_r, <- !app_assoc. Qed.

(** A line without blanks at its end begins and ends with other characters. *)
Lemma core_line_trimmed c l :
  cs_threads c ≠ [] → match l with [] => True | d :: _ => is_space d = false end →
  trimmed is_space (l ++ core_line c 0) ∧ core_line c 0 ≠ [].
Proof.
  intros Hts Hl. destruct (exists_last Hts) as (ts & t & E).
  destruct (thread_word_no_spaces t) as [Hns Hne].
  assert (∃ pre, core_line c 0 = pre ++ thread_word t) as [pre Epre].
  { unfold core_line. rewrite E, map_app, concat_app. cbn [map concat]. unfold thread_text at 2.
    exists (chars_of "Core" ++ blanks (S (pad (cs_number c))) ++ chars_of (py_str_Z (cs_number c)) ++
            [":"%char] ++ concat (map thread_text ts) ++ blanks (S (pad (fst t)))).
    change (blanks 0) with (@nil ascii). by rewrite !app_nil_r, <- !app_assoc. }
  split.
  - split; [by destruct l|]. rewrite Epre, app_assoc, last_opt_app by done.
    destruct (thread_word t) as [|d w _] using rev_ind; [done|]. rewrite last_opt_snoc.
    apply Forall_app in Hns as [_ Hd]. by inversion Hd.
  - unfold core_line. done.
Qed.

Lemma info_text_head ms : match info_text ms with [] => True | d :: _ => is_space d = false end.
Proof. destruct ms as [|c ms]; done. Qed.

Lemma lines_of_text ms rest :
  lines_of [] (info_text ms ++ rest) =
  map (λ c, core_line c (fin (cs_number c))) ms ++ lines_of [] rest.
Proof.
  induction ms as [|c ms IH]; [done|]. unfold info_text in *. cbn [map concat].
  rewrite <- !app_assoc. cbn [app]. rewrite lines_of_line by apply core_line_inline. by rewrite IH.
Qed.

Lemma parse_lines_cores info ms rest :
  Forall valid_core ms →
  parse_lines info (map str_of (map (λ c, core_line c (fin (cs_number c))) ms) ++ rest) =
  parse_lines (foldl add_core info ms) rest.
Proof.
  intros H. revert info. induction H as [|c ms Hc _ IH]; intros info; [done|].
  cbn [map app parse_lines foldl]. by rewrite parse_line_core.
Qed.

Lemma parse_text ms :
  ms ≠ [] → Forall valid_core ms →
  parse_lines empty_info (py_splitlines (py_strip (str_of (info_text ms)))) =
    (foldl add_core empty_info ms, None).
Proof.
  intros Hne Hv. destruct (exists_last Hne) as (init & c & ->).
  apply Forall_app in Hv as [Hinit Hc]. inversion Hc as [|? ? Hc' _]; subst.
  destruct (core_line_trimmed c (info_text init) (proj2 Hc') (info_text_head init)) as [Ht Hcl].
  assert (strip_chars is_space (info_text (init ++ [c])) = info_text init ++ core_line c 0) as Hstrip.
  { unfold info_text at 1. rewrite map_app, concat_app. cbn [map concat]. rewrite app_nil_r.
    rewrite (core_line_end c (fin (cs_number c))), <- app_assoc.
    rewrite (app_assoc _ (core_line c 0)).
    apply (strip_padded is_space [] (info_text init ++ core_line c 0)); [done| |done|].
    - apply Forall_app. split; [apply blanks_spaces|by repeat constructor].
    - by destruct (info_text init). }
  unfold py_strip, py_splitlines. rewrite !chars_of_str_of, Hstrip.
  rewrite lines_of_text, (lines_of_last []) by (done || apply core_line_inline).
  rewrite map_app, parse_lines_cores by done. cbn [map parse_lines rev app].
  rewrite parse_line_core by done. by rewrite foldl_app.
Qed.
End render.

(** ** The machine that the result describes *)

Definition is_online (c : core_state) : bool := 0 <? online_count_of c.

Lemma dict_get_map {V} (f : core_state → V) c ms :
  NoDup (map cs_number ms) → c ∈ ms → dict_get (cs_number c) (map (λ c, (cs_number c, f c)) ms) = Some (f c).
Proof.
  induction ms as [|d ms IH]; intros Hnd Hc; [by inversion Hc|]. simpl in *.
  inversion Hnd as [|? ? Hd Hnd']; subst. apply elem_of_cons in Hc as [->|Hc]; [by rewrite Z.eqb_refl|].
  destruct (Z.eqb_spec (cs_number d) (cs_number c)) as [E|]; [|by apply IH].
  destruct Hd. rewrite E. apply list_elem_of_In, in_map, list_elem_of_In, Hc.
Qed.

Lemma fold_add_core ms :
  NoDup (map cs_number ms) →
  foldl add_core empty_info ms =
    CpuInfo (map (λ c, (cs_number c, (words_of_core c, online_count_of c))) ms) 0
      (map cs_number (List.filter is_online ms)) (map cs_number (List.filter (λ c, negb (is_online c)) ms))
      (map (λ c, (cs_number c, online_count_of c)) ms) None false.
Proof.
  induction ms as [|c ms IH] using rev_ind; [done|]. rewrite map_app. cbn [map].
  intros Hnd. apply list.NoDup_app in Hnd as (Hnd & Hdisj & _).
  assert (cs_number c ∉ map cs_number ms) as Hc by (intros H; apply (Hdisj _ H); left).
  rewrite foldl_app, IH by done. cbn [foldl]. unfold add_core. cbn [ci_cores ci_total_cores
    ci_online_cores ci_offline_cores ci_actual_threads_per_core ci_smt_mode ci_inconsistent].
  rewrite !dict_set_fresh by (rewrite List.map_map; exact Hc).
  rewrite !filter_app, !map_app. cbn [map List.filter]. unfold is_online.
  by destruct (0 <? online_count_of c); cbn [negb map]; rewrite ?app_nil_r.
Qed.

Lemma foldl_dict_set {V} (g : Z → V) ks d :
  NoDup ks → (∀ k, k ∈ ks → k ∉ map fst d) →
  foldl (λ d k, dict_set k (g k) d) d ks = d ++ map (λ k, (k, g k)) ks.
Proof.
  revert d. induction ks as [|k ks IH]; intros d Hnd Hd; [by rewrite app_nil_r|].
  inversion Hnd as [|? ? Hk Hnd']; subst. cbn [foldl map].
  rewrite dict_set_fresh by (apply Hd; left). rewrite IH; [by rewrite <- app_assoc|done|].
  intros k' Hk'. rewrite map_app. cbn [map fst]. rewrite elem_of_app, list_elem_of_singleton.
  intros [H| ->]; [|done]. apply (Hd k'); [by right|done].
Qed.

Lemma NoDup_map_filter (p : core_state → bool) ms :
  NoDup (map cs_number ms) → NoDup (map cs_number (List.filter p ms)).
Proof.
  induction ms as [|c ms IH]; intros Hnd; [done|]. simpl in *. inversion Hnd as [|? ? Hc Hnd']; subst.
  destruct (p c); [|by apply IH]. simpl. constructor; [|by apply IH].
  rewrite list_elem_of_In in *. intros H. apply Hc. apply in_map_iff in H as (x & E & Hx).
  apply in_map_iff. exists x. split; [done|]. by apply filter_In in Hx as [? _].
Qed.

Lemma online_threads_spec ms info :
  NoDup (map cs_number ms) →
  ci_actual_threads_per_core info = map (λ c, (cs_number c, online_count_of c)) ms →
  ci_online_cores info = map cs_number (List.filter is_online ms) →
  online_threads info = map (λ c, (cs_number c, online_count_of c)) (List.filter is_online ms).
Proof.
  intros Hnd Hact Hon. unfold online_threads. rewrite Hon, Hact.
  rewrite (foldl_dict_set (λ k, default 0 (dict_get k (map (λ c, (cs_number c, online_count_of c)) ms)))).
  - cbn [app]. rewrite List.map_map. apply map_ext_in. intros c Hc. apply filter_In in Hc as [Hc _].
    rewrite (dict_get_map online_count_of c ms Hnd) by (by apply list_elem_of_In). done.
  - by apply NoDup_map_filter.
  - intros k _. apply not_elem_of_nil.
Qed.

(** The mode found among thread counts: one value, several, or none. *)
Lemma unique_cases l :
  match unique l with
  | [] => l = []
  | [n] => l ≠ [] ∧ ∀ x, x ∈ l → x = n
  | _ => ∃ x y, x ∈ l ∧ y ∈ l ∧ x ≠ y
  end.
Proof.
  unfold unique. pose proof (NoDup_nodup Z.eq_dec l) as Hnd. pose proof (nodup_In Z.eq_dec l) as Hin.
  destruct (nodup Z.eq_dec l) as [|n [|m r]].
  - destruct l as [|x l]; [done|]. destruct (proj2 (Hin x)); by left.
  - split; [intros ->; destruct (proj1 (Hin n)); by left|].
    intros x Hx. apply list_elem_of_In, Hin in Hx as [->|[]]. done.
  - exists n, m. rewrite !list_elem_of_In. split_and!.
    + apply Hin. by left.
    + apply Hin. right. by left.
    + intros ->. inversion Hnd as [|? ? H _]; subst. simpl in H. tauto.
Qed.

(** What [parse_ppc64_cpu_info] should say of a machine. *)
Record describes (info : cpu_info) (ms : list core_state) : Prop := {
  de_total : ci_total_cores info = Z.of_nat (length ms);
  de_online : ci_online_cores info = map cs_number (List.filter is_online ms);
  de_offline : ci_offline_cores info = map cs_number (List.filter (λ c, negb (is_online c)) ms);
  de_threads : ∀ c, c ∈ ms →
    dict_get (cs_number c) (ci_actual_threads_per_core info) = Some (online_count_of c);
  de_inconsistent : ci_inconsistent info = true ↔
    ∃ c d, c ∈ ms ∧ d ∈ ms ∧ is_online c = true ∧ is_online d = true ∧ online_count_of c ≠ online_count_of d;
  de_mode : ∀ n, ci_smt_mode info = Some n ↔
    (∃ c, c ∈ ms ∧ is_online c = true) ∧ ∀ c, c ∈ ms → is_online c = true → online_count_of c = n;
}.

Lemma describes_cores ms :
  NoDup (map cs_number ms) → describes (check_consistency (set_total (foldl add_core empty_info ms))) ms.
Proof.
  intros Hnd. rewrite (fold_add_core ms Hnd). unfold set_total, check_consistency.
  cbn [ci_cores ci_online_cores ci_offline_cores ci_actual_threads_per_core ci_smt_mode ci_inconsistent].
  rewrite (online_threads_spec ms _ Hnd) by done. rewrite List.map_map, length_map. simpl (map (λ _, _)).
  assert (∀ x, x ∈ map online_count_of (List.filter is_online ms) ↔
    ∃ c, c ∈ ms ∧ is_online c = true ∧ online_count_of c = x) as Hin.
  { intros x. rewrite list_elem_of_In, in_map_iff. setoid_rewrite filter_In.
    setoid_rewrite list_elem_of_In. naive_solver. }
  change (map (λ x : core_state, (cs_number x, online_count_of x).2) (List.filter is_online ms))
    with (map online_count_of (List.filter is_online ms)).
  pose proof (unique_cases (map online_count_of (List.filter is_online ms))) as Hcases.
  destruct (unique (map online_count_of (List.filter is_online ms))) as [|n [|n' r]].
  - assert (∀ c, c ∈ ms → is_online c = true → False) as Hnone.
    { intros c Hc Ho. assert (online_count_of c ∈ map online_count_of (List.filter is_online ms)) as H
        by (apply Hin; eauto). rewrite Hcases in H. by apply not_elem_of_nil in H. }
    split; try done; cbn; [intros c Hc; by apply dict_get_map|naive_solver|naive_solver].
  - destruct Hcases as [Hne Hall].
    assert (∀ c, c ∈ ms → is_online c = true → online_count_of c = n) as Hn.
    { intros c Hc Ho. apply Hall, Hin. eauto. }
    split; try done; cbn; [intros c Hc; by apply dict_get_map| |].
    + split; [done|]. intros (c & d & Hc & Hd & Hoc & Hod & Hcd). rewrite !Hn in Hcd by done. done.
    + assert (∃ c, c ∈ ms ∧ is_online c = true) as (c0 & Hc0 & Ho0).
      { destruct (map online_count_of (List.filter is_online ms)) as [|x l]; [done|].
        destruct (proj1 (Hin x)) as (c & Hc & Ho & _); [left|]. eauto. }
      intros n'. split; [intros [= <-]; eauto|]. intros [_ H]. by rewrite <- (Hn c0), <- (H c0).
  - destruct Hcases as (x & y & Hx & Hy & Hxy).
    apply Hin in Hx as (c & Hc & Hoc & <-), Hy as (d & Hd & Hod & <-).
    split; try done; cbn; [intros e He; by apply dict_get_map|split; [intros _; by exists c, d|done]|].
    intros m. split; [done|]. intros [_ H]. rewrite !H in Hxy by done. done.
Qed.
