(* ===== verification/PpcSystem.v ===== *)
(** * The ppc64_cpu tests on a machine

    An abstract machine: a number of cores, of which the first ones are online with the
    same number of threads.  The class [PpcMachine] states that the environment behaves
    as [ppc64_cpu] on such a machine.  The theorems show what the parser and
    [verify_system_state] report, and that the tests pass and where they leave the
    machine. *)

From S2P Require Import Prelude PyStr PyFloat PyVal PyRegex Avocado Logic Ppc64Cpu PpcParse.
Open Scope Z_scope.

(** ** What the checks report *)

Section reports.
Context {W : Type} {HE : Env W} {HL : PpcLib W}.
Implicit Types (w : W) (x : ppc_self).

Lemma output_runs cmd out w w' x :
  env_system_output cmd [Shell] w = (Ret out, w') → runs (output cmd) w x (Ret out) w' x.
Proof. intros H. unfold output, process_system_output. by apply runs_ext. Qed.

Lemma parse_runs pad fin ms w x :
  ms ≠ [] → Forall valid_core ms → NoDup (map cs_number ms) →
  env_system_output "ppc64_cpu --info" [Shell] w = (Ret (str_of (info_text pad fin ms)), w) →
  ∃ info, runs parse_ppc64_cpu_info w x (Ret info) w x ∧ describes info ms.
Proof.
  intros Hne Hv Hnd Hout. eexists. split; [|by apply describes_cores].
  unfold parse_ppc64_cpu_info.
  eapply runs_bind.
  { apply runs_try_ret. eapply runs_bind; [by apply output_runs|]. apply runs_ret. }
  cbv beta iota. rewrite parse_text by done. cbv beta iota zeta.
  destruct (ci_inconsistent _); run.
Qed.

(** C12: [parse_ppc64_cpu_info] reads back the machine that [ppc64_cpu --info] prints, whatever
    the blanks between the columns: the number of cores, the online and the offline cores
    in order, the online threads of each core, whether two online cores differ in
    them, and otherwise their common number. *)
Theorem parse_ppc64_cpu_info_correct (pad fin : Z → nat) (ms : list core_state) (w : W) (x : ppc_self) :
  ms ≠ [] → Forall valid_core ms → NoDup (map cs_number ms) →
  env_system_output "ppc64_cpu --info" [Shell] w = (Ret (str_of (info_text pad fin ms)), w) →
  ∃ info, runs parse_ppc64_cpu_info w x (Ret info) w x ∧ describes info ms.
Proof. apply parse_runs. Qed.

(** What the commands answer in a world that they do not change. *)
Record observed (w : W) (ms : list core_state) (smt : string) (cores cpus : Z) : Prop := {
  ob_info : ∃ pad fin, env_system_output "ppc64_cpu --info" [Shell] w = (Ret (str_of (info_text pad fin ms)), w);
  ob_smt : ∃ out, env_system_output "ppc64_cpu --smt" [Shell] w = (Ret out, w) ∧ smt_of_output out = Ret smt;
  ob_cores : ∃ out, env_system_output "ppc64_cpu --cores-on" [Shell] w = (Ret out, w) ∧ cores_of_output out = Ret cores;
  ob_cpus : cpu_online_count w = (Ret cpus, w);
  ob_nonempty : ms ≠ [];
  ob_valid : Forall valid_core ms;
  ob_distinct : NoDup (map cs_number ms);
}.

(** A state of the system that the tests accept. *)
Record consistent (expected_smt : option string) (expected_cores : option Z)
    (ms : list core_state) (smt : string) (cores cpus : Z) : Prop := {
  co_smt : ∀ e, expected_smt = Some e → smt = e;
  co_cores : ∀ e, expected_cores = Some e → cores = e;
  co_uniform : ∀ c d, c ∈ ms → d ∈ ms → is_online c = true → is_online d = true →
    online_count_of c = online_count_of d;
  co_cpus : smt ≠ "off"%string → ∀ c, c ∈ ms → is_online c = true → cpus = cores * online_count_of c;
}.

(** One check: a message and [false] when it fails. *)
Lemma check_runs (b : bool) msg w x :
  runs (if negb b then log_error msg ;; mret false else mret true) w x (Ret b) w x.
Proof. destruct b; cbn [negb]; run. Qed.

Lemma verify_runs es ec ms smt cores cpus w x :
  observed w ms smt cores cpus →
  ∃ b, runs (verify_system_state es ec) w x (Ret b) w x ∧
    (b = true ↔ consistent es ec ms smt cores cpus).
Proof.
  intros [(pad & fin & Hinfo) (out1 & H1 & E1) (out2 & H2 & E2) Hcpus Hne Hv Hnd].
  destruct (parse_runs pad fin ms w x Hne Hv Hnd Hinfo) as (info & Hparse & Hd).
  set (smt_ok := match es with Some e => String.eqb smt e | None => true end).
  set (cores_ok := match ec with Some e => cores =? e | None => true end).
  set (cpus_ok := match ci_smt_mode info with
                  | Some mode => if negb (String.eqb smt "off") && negb (mode =? 0)
                                 then cpus =? cores * mode else true
                  | None => true end).
  exists (smt_ok && cores_ok && negb (ci_inconsistent info) && cpus_ok). split.
  - unfold verify_system_state. do 3 run_step. run_by Hparse.
    run_by output_runs; [exact H1|]. rewrite E1. run_step.
    run_by output_runs; [exact H2|]. rewrite E2. run_step.
    eapply runs_bind; [by apply runs_ext|]. do 6 run_step.
    eapply runs_bind with (a := smt_ok).
    { subst smt_ok. destruct es; [apply check_runs|run]. }
    eapply runs_bind with (a := cores_ok).
    { subst cores_ok. destruct ec; [apply check_runs|run]. }
    eapply runs_bind with (a := negb (ci_inconsistent info)).
    { destruct (ci_inconsistent info); run. }
    eapply runs_bind with (a := cpus_ok).
    { subst cpus_ok. destruct (ci_smt_mode info) as [mode|]; [|run].
      destruct (negb (String.eqb smt "off") && negb (mode =? 0)); [apply check_runs|run]. }
    run_step. eapply runs_bind; [destruct (_ && _); apply runs_log|]. run.
  - rewrite !andb_true_iff.
    assert (∀ c, is_online c = true → online_count_of c ≠ 0) as Hpos.
    { intros c Hc. unfold is_online in Hc. lia. }
    assert (negb (ci_inconsistent info) = true ↔ ∀ c d, c ∈ ms → d ∈ ms → is_online c = true →
      is_online d = true → online_count_of c = online_count_of d) as Hu.
    { rewrite negb_true_iff, <- not_true_iff_false, (de_inconsistent _ _ Hd). split.
      - intros H c d Hc Hd' Hoc Hod. destruct (Z.eq_dec (online_count_of c) (online_count_of d)); [done|].
        destruct H. by exists c, d.
      - intros H (c & d & Hc & Hd' & Hoc & Hod & Hcd). by apply Hcd, H. }
    rewrite Hu.
    assert (smt_ok = true ↔ ∀ e, es = Some e → smt = e) as ->.
    { subst smt_ok. destruct es as [e|]; [rewrite String.eqb_eq|]; naive_solver. }
    assert (cores_ok = true ↔ ∀ e, ec = Some e → cores = e) as ->.
    { subst cores_ok. destruct ec as [e|]; [rewrite Z.eqb_eq|]; naive_solver. }
    assert ((∀ c d, c ∈ ms → d ∈ ms → is_online c = true → is_online d = true →
               online_count_of c = online_count_of d) →
            (cpus_ok = true ↔ (smt ≠ "off"%string → ∀ c, c ∈ ms → is_online c = true →
               cpus = cores * online_count_of c))) as Hc.
    { intros Hun. subst cpus_ok.
      destruct (String.eqb_spec smt "off") as [->|Hoff]; simpl negb; cbn [andb].
      { destruct (ci_smt_mode info); naive_solver. }
      destruct (ci_smt_mode info) as [mode|] eqn:Em.
      - destruct (proj1 (de_mode _ _ Hd mode) Em) as [(c & Hc & Ho) Hall].
        assert (mode ≠ 0) as Hm by (rewrite <- (Hall c) by done; by apply Hpos).
        destruct (Z.eqb_spec mode 0); [done|]. simpl. rewrite Z.eqb_eq. split.
        + intros -> _ d Hd' Hod. by rewrite Hall.
        + intros H. rewrite <- (Hall c) by done. by apply H.
      - split; [|done]. intros _ _ c Hc Ho.
        assert (ci_smt_mode info = Some (online_count_of c)) as Hs; [|by rewrite Em in Hs].
        apply (de_mode _ _ Hd). split; [by exists c|]. intros d Hd' Hod. by apply Hun. }
    split.
    + intros [[[Hs Hco] Hun] Hcp]. split; [done|done|done|]. by apply Hc.
    + intros [Hs Hco Hun Hcp]. split; [split; [split; [done|done]|done]|]. by apply Hc.
Qed.

(** C4: [verify_system_state] returns [True] exactly when the reported SMT mode and number of
    cores are the expected ones, all online cores have the same number of online threads,
    and, unless SMT is off, the number of online CPUs is the number of cores times the
    threads of a core. *)
Theorem verify_system_state_iff (expected_smt : option string) (expected_cores : option Z)
    (ms : list core_state) (smt : string) (cores cpus : Z) (w : W) (x : ppc_self) :
  observed w ms smt cores cpus →
  ∃ b, runs (verify_system_state expected_smt expected_cores) w x (Ret b) w x ∧
    (b = true ↔ consistent expected_smt expected_cores ms smt cores cpus).
Proof. apply verify_runs. Qed.
End reports.

(** ** The abstract machine *)

(** What [--smt] says of a number of threads, and what a value of [--smt=] and of
    [--cores-on=] stands for. *)
Definition smt_word (k : Z) : string := if k =? 1 then "off" else py_str_Z k.
Definition smt_text (k : Z) : string :=
  (if k =? 1 then "SMT is off" else "SMT=" +:+ py_str_Z k) +:+ NL.

Definition smt_value (max : Z) (v : string) : option Z :=
  if String.eqb v "off" then Some 1
  else if String.eqb v "on" then Some max
  else match py_int_of_str v with
       | Some k => if (2 <=? k) && (k <=? max) then Some k else None
       | None => None
       end.
Definition cores_value (total : Z) (v : string) : option Z :=
  if String.eqb v "all" then Some total
  else match py_int_of_str v with
       | Some n => if (1 <=? n) && (n <=? total) then Some n else None
       | None => None
       end.

(** The cores of the machine: the first [on] of [total] are online, each with the first
    [smt] of its [max] threads. *)
Definition uniform_core (max on smt i : Z) : core_state :=
  CoreState i (map (λ j, (i * max + j, (i <? on) && (j <? smt))) (Zrange 0 max)).
Definition uniform_cores (total max on smt : Z) : list core_state :=
  map (uniform_core max on smt) (Zrange 0 total).

(** The columns of the real command. *)
Definition info_pad (z : Z) : nat := if z <? 10 then 3 else if z <? 100 then 2 else 1.
Definition info_fin (z : Z) : nat := 1.

Class PpcMachine (W : Type) {HE : Env W} {HL : PpcLib W} := {
  pm_total : Z;
  pm_max : Z;
  pm_sizes : 1 ≤ pm_total ∧ 2 ≤ pm_max;
  pm_on : W → Z;
  pm_smt : W → Z;
  pm_bounds w : 1 ≤ pm_on w ≤ pm_total ∧ 1 ≤ pm_smt w ≤ pm_max;
  (* the world with other numbers of online cores and threads *)
  pm_set : Z → Z → W → W;
  pm_on_set n k w : 1 ≤ n ≤ pm_total → 1 ≤ k ≤ pm_max → pm_on (pm_set n k w) = n;
  pm_smt_set n k w : 1 ≤ n ≤ pm_total → 1 ≤ k ≤ pm_max → pm_smt (pm_set n k w) = k;
  (* setting the SMT mode and the number of cores *)
  pm_do_smt v k w fl :
    smt_value pm_max v = Some k →
    env_system ("ppc64_cpu --smt=" +:+ v) fl w = (Ret 0, pm_set (pm_on w) k w) ∧
    env_run ("ppc64_cpu --smt=" +:+ v) fl w = (Ret (CmdResult 0 ""), pm_set (pm_on w) k w) ∧
    env_system_output ("ppc64_cpu --smt=" +:+ v) fl w = (Ret ""%string, pm_set (pm_on w) k w);
  pm_do_cores v n w fl :
    cores_value pm_total v = Some n →
    env_system ("ppc64_cpu --cores-on=" +:+ v) fl w = (Ret 0, pm_set n (pm_smt w) w) ∧
    env_run ("ppc64_cpu --cores-on=" +:+ v) fl w = (Ret (CmdResult 0 ""), pm_set n (pm_smt w) w);
  (* the queries *)
  pm_info w : env_system_output "ppc64_cpu --info" [Shell] w =
    (Ret (str_of (info_text info_pad info_fin (uniform_cores pm_total pm_max (pm_on w) (pm_smt w)))), w);
  pm_ask_smt w : env_system_output "ppc64_cpu --smt" [Shell] w = (Ret (smt_text (pm_smt w)), w);
  pm_ask_cores w : env_system_output "ppc64_cpu --cores-on" [Shell] w =
    (Ret ("Number of cores online = " +:+ py_str_Z (pm_on w) +:+ NL), w);
  pm_ask_present w : env_system_output "ppc64_cpu --cores-present" [Shell] w =
    (Ret ("Number of cores present = " +:+ py_str_Z pm_total +:+ NL), w);
  pm_cpus w : cpu_online_count w = (Ret (pm_on w * pm_smt w), w);
}.

(** ** Texts *)

Lemma after_equal_of pre s :
  trimmed is_space (chars_of pre ++ ["="%char] ++ s) →
  Forall (λ c, Ascii.eqb "=" c = false) (chars_of pre) → Forall (λ c, Ascii.eqb "=" c = false) s →
  after_equal (pre +:+ "=" +:+ str_of s +:+ NL) = str_of s.
Proof.
  intros Ht Hpre Hs. unfold after_equal, py_strip, py_split_on.
  assert (strip_chars is_space (chars_of (pre +:+ "=" +:+ str_of s +:+ NL)) = chars_of pre ++ "="%char :: s) as ->.
  { rewrite !chars_of_app, chars_of_str_of.
    apply (strip_padded is_space [] (chars_of pre ++ "="%char :: s) [LF]) in Ht;
      [|done|by repeat constructor|by destruct (chars_of pre)].
    etransitivity; [|exact Ht]. f_equal. simpl. by rewrite <- app_assoc. }
  rewrite chars_of_str_of, pieces_app by done. rewrite pieces_none by done. done.
Qed.

Lemma number_chars z : 0 ≤ z →
  ∃ d ds, chars_of (py_str_Z z) = d :: ds ∧ Forall (λ c, is_digit c = true) (d :: ds).
Proof.
  intros Hz. destruct (nat_chars_spec z Hz) as (Hne & Hd & _).
  rewrite chars_of_str_Z. destruct (Z.ltb_spec z 0); [lia|].
  destruct (nat_chars z) as [|d ds]; [done|]. by exists d, ds.
Qed.

Lemma digit_not_equal c : is_digit c = true → Ascii.eqb "=" c = false.
Proof. intros H. by destruct (Ascii.eqb_spec "=" c) as [<-|]. Qed.

(** Text that begins with a letter and ends with a number. *)
Lemma trimmed_number c pre z :
  0 ≤ z → is_space c = false → trimmed is_space ((c :: pre) ++ chars_of (py_str_Z z)).
Proof.
  intros Hz Hc. destruct (number_chars z Hz) as (d & ds & E & Hd). split; [done|].
  rewrite E, last_opt_app by done.
  assert (trimmed is_space (d :: ds)) as [_ H] by by apply all_digits_trimmed. exact H.
Qed.

Lemma digits_not_equal z : 0 ≤ z → Forall (λ c, Ascii.eqb "=" c = false) (chars_of (py_str_Z z)).
Proof.
  intros Hz. destruct (number_chars z Hz) as (d & ds & E & Hd). rewrite E.
  eapply List.Forall_impl; [apply digit_not_equal|exact Hd].
Qed.

Lemma cores_of_text n :
  0 ≤ n → cores_of_output ("Number of cores online = " +:+ py_str_Z n +:+ NL) = Ret n.
Proof.
  intros Hn. unfold cores_of_output.
  change ("Number of cores online = " +:+ py_str_Z n +:+ NL)
    with ("Number of cores online " +:+ "=" +:+ (" " +:+ py_str_Z n) +:+ NL).
  rewrite <- (str_of_chars_of (" " +:+ py_str_Z n)), after_equal_of.
  - rewrite str_of_chars_of. unfold py_int, py_int_of_str.
    pose proof (int_of_padded [" "%char] [] n) as H. rewrite app_nil_r in H.
    rewrite chars_of_app. change (chars_of " ") with [" "%char].
    rewrite H; [done|by repeat constructor|constructor].
  - rewrite chars_of_app. change (chars_of "Number of cores online " ++ ["="%char] ++ chars_of " " ++ chars_of (py_str_Z n))
      with (("N"%char :: chars_of "umber of cores online = ") ++ chars_of (py_str_Z n)).
    by apply trimmed_number.
  - by repeat constructor.
  - rewrite chars_of_app. apply Forall_app. split; [by repeat constructor|by apply digits_not_equal].
Qed.

Lemma smt_of_text k : 1 ≤ k → smt_of_output (smt_text k) = Ret (smt_word k).
Proof.
  intros Hk. unfold smt_text, smt_word. destruct (Z.eqb_spec k 1) as [->|Hne]; [reflexivity|].
  unfold smt_of_output. rewrite <- string_app_assoc.
  change ("SMT=" +:+ py_str_Z k +:+ NL) with ("SMT" +:+ "=" +:+ py_str_Z k +:+ NL).
  rewrite <- (str_of_chars_of (py_str_Z k)), after_equal_of.
  - unfold last_word. rewrite py_split_words, chars_of_str_of, words_word; [done| |apply str_Z_trimmed].
    destruct (number_chars k) as (d & ds & E & Hd); [lia|]. rewrite E.
    eapply List.Forall_impl; [apply digit_not_space|exact Hd].
  - change (chars_of "SMT" ++ ["="%char] ++ chars_of (py_str_Z k))
      with (("S"%char :: chars_of "MT=") ++ chars_of (py_str_Z k)).
    apply trimmed_number; [lia|done].
  - by repeat constructor.
  - apply digits_not_equal. lia.
Qed.

Lemma present_of_text n :
  0 ≤ n → present_of_output ("Number of cores present = " +:+ py_str_Z n +:+ NL) = Ret n.
Proof.
  intros Hn. unfold present_of_output, last_word, py_strip.
  rewrite !py_split_words, chars_of_str_of, words_strip, !chars_of_app.
  rewrite app_assoc, (words_app _ LF []) by done.
  change (chars_of "Number of cores present = ") with (chars_of "Number of cores present =" ++ [" "%char]).
  rewrite <- (app_assoc _ [" "%char]). cbn [app]. rewrite words_app by done.
  destruct (number_chars n Hn) as (d & ds & E & Hd).
  rewrite (words_word (chars_of (py_str_Z n))).
  - change (words_of []) with (@nil chars). rewrite app_nil_r, map_app, last_opt_app by done.
    cbn [map last_opt]. cbn [mbind result_bind]. by rewrite str_of_chars_of, py_int_str.
  - rewrite E. eapply List.Forall_impl; [apply digit_not_space|exact Hd].
  - by rewrite E.
Qed.

(** ** The uniform machine *)

Lemma filter_ltb n m : 0 ≤ n ≤ m → length (List.filter (λ j, j <? n) (Zrange 0 m)) = Z.to_nat n.
Proof.
  intros Hn. unfold Zrange. rewrite !Z.sub_0_r.
  replace m with (n + (m - n)) by lia. rewrite seqZ_app by lia. rewrite filter_app, length_app, Z.add_0_l.
  assert (∀ l, Forall (λ j, (j <? n) = true) l → List.filter (λ j, j <? n) l = l) as Hall.
  { induction 1 as [|j l Hj _ IH]; [done|]. simpl. by rewrite Hj, IH. }
  assert (∀ l, Forall (λ j, (j <? n) = false) l → List.filter (λ j, j <? n) l = []) as Hnone.
  { induction 1 as [|j l Hj _ IH]; [done|]. simpl. by rewrite Hj. }
  rewrite Hall, Hnone, length_seqZ; [simpl; lia| |].
  - apply list.Forall_forall. intros j Hj. apply elem_of_seqZ in Hj. lia.
  - apply list.Forall_forall. intros j Hj. apply elem_of_seqZ in Hj. lia.
Qed.

Lemma uniform_core_count max on smt i :
  0 ≤ smt ≤ max → online_count_of (uniform_core max on smt i) = if i <? on then smt else 0.
Proof.
  intros Hs. unfold online_count_of, uniform_core. cbn [cs_threads].
  assert (∀ l, length (List.filter snd (map (λ j, (i * max + j, (i <? on) && (j <? smt))) l)) =
               length (if i <? on then List.filter (λ j, j <? smt) l else [])) as ->.
  { induction l as [|j l IH]; [by destruct (i <? on)|]. cbn [map List.filter snd].
    destruct (i <? on); cbn [andb] in *; [|by rewrite IH]. destruct (j <? smt); simpl; by rewrite IH. }
  destruct (i <? on); [rewrite filter_ltb by done; lia|done].
Qed.

Lemma uniform_numbers total max on smt : map cs_number (uniform_cores total max on smt) = Zrange 0 total.
Proof. unfold uniform_cores. rewrite List.map_map. simpl. apply List.map_id. Qed.

Lemma elem_of_uniform c total max on smt :
  c ∈ uniform_cores total max on smt → ∃ i, 0 ≤ i < total ∧ c = uniform_core max on smt i.
Proof.
  unfold uniform_cores. rewrite list_elem_of_In, in_map_iff. intros (i & <- & Hi).
  apply list_elem_of_In, elem_of_Zrange in Hi. eauto.
Qed.

(** ** Core counts *)

(** The numbers of cores that the tests compute with floats, for machines of up to 256
    cores. *)
Definition counts_ok (lo total : Z) (l : list Z) : bool :=
  forallb (λ c, (lo <=? c) && (c <=? total)) l && bool_decide (NoDup l) &&
  bool_decide (lo ∈ l) && bool_decide (total ∈ l).

Fixpoint increasing (l : list Z) : bool :=
  match l with
  | x :: l' => match l' with y :: _ => x <? y | [] => true end && increasing l'
  | [] => true
  end.

Definition scenarios_ok (total : Z) : bool :=
  match scenarios total with Ret l => counts_ok 1 total (map fst l) | Raise _ => false end.
Definition progressive_ok (total : Z) : bool :=
  match progressive_counts total with
  | Ret l => counts_ok 2 total l && increasing l | Raise _ => false
  end.

Definition offline_ok (total : Z) : bool :=
  match offline_bounds total with
  | Ret (lo, hi) => (2 <=? lo) && (lo <=? hi) && (hi <=? total - 2)
  | Raise _ => false
  end.

Lemma all_counts_ok :
  forallb scenarios_ok (Zrange 1 257) && forallb progressive_ok (Zrange 3 257) &&
  forallb offline_ok (Zrange 5 257) = true.
Proof. by vm_compute. Qed.

Lemma forallb_Zrange f a b z : forallb f (Zrange a b) = true → a ≤ z < b → f z = true.
Proof.
  rewrite forallb_forall. intros H Hz. apply H, list_elem_of_In, elem_of_Zrange, Hz.
Qed.

Lemma counts_ok_spec lo total l :
  counts_ok lo total l = true →
  Forall (λ c, lo ≤ c ≤ total) l ∧ NoDup l ∧ lo ∈ l ∧ total ∈ l.
Proof.
  unfold counts_ok. rewrite !andb_true_iff, !bool_decide_eq_true, forallb_forall.
  intros [[[H1 H2] H3] H4]. split; [|done]. apply List.Forall_forall. intros c Hc.
  specialize (H1 c Hc). lia.
Qed.

Lemma scenarios_spec total :
  1 ≤ total ≤ 256 →
  ∃ l, scenarios total = Ret l ∧ Forall (λ c, 1 ≤ c ≤ total) (map fst l) ∧ NoDup (map fst l) ∧
    1 ∈ map fst l ∧ total ∈ map fst l.
Proof.
  intros Ht. pose proof all_counts_ok as H. apply andb_prop in H as [H _]. apply andb_prop in H as [H _].
  apply (forallb_Zrange _ _ _ total) in H; [|lia]. unfold scenarios_ok in H.
  destruct (scenarios total) as [l|e]; [|done]. exists l. split; [done|]. by apply counts_ok_spec.
Qed.

Lemma progressive_spec total :
  3 ≤ total ≤ 256 →
  ∃ l, progressive_counts total = Ret l ∧ Forall (λ c, 2 ≤ c ≤ total) l ∧ increasing l = true ∧
    2 ∈ l ∧ total ∈ l.
Proof.
  intros Ht. pose proof all_counts_ok as H. apply andb_prop in H as [H _]. apply andb_prop in H as [_ H].
  apply (forallb_Zrange _ _ _ total) in H; [|lia]. unfold progressive_ok in H.
  destruct (progressive_counts total) as [l|e]; [|done]. apply andb_prop in H as [Hc Hi].
  exists l. split; [done|]. apply counts_ok_spec in Hc. tauto.
Qed.

Lemma offline_spec total :
  5 ≤ total ≤ 256 → ∃ lo hi, offline_bounds total = Ret (lo, hi) ∧ 2 ≤ lo ≤ hi ∧ hi ≤ total - 2.
Proof.
  intros Ht. pose proof all_counts_ok as H. apply andb_prop in H as [_ H].
  apply (forallb_Zrange _ _ _ total) in H; [|lia]. unfold offline_ok in H.
  destruct (offline_bounds total) as [[lo hi]|e]; [|done]. exists lo, hi. split; [done|]. lia.
Qed.

Section machine.
Context {W : Type} {HE : Env W} {HL : PpcLib W} {HM : PpcMachine W}.
Implicit Types (w : W) (x : ppc_self).

Abbreviation cores_of w := (uniform_cores pm_total pm_max (pm_on w) (pm_smt w)).

Lemma machine_observed w : observed w (cores_of w) (smt_word (pm_smt w)) (pm_on w) (pm_on w * pm_smt w).
Proof using HM.
  destruct pm_sizes as [Ht Hm], (pm_bounds w) as [Hn Hk]. split.
  - exists info_pad, info_fin. apply pm_info.
  - exists (smt_text (pm_smt w)). split; [apply pm_ask_smt|]. apply smt_of_text. lia.
  - eexists. split; [apply pm_ask_cores|]. apply cores_of_text. lia.
  - apply pm_cpus.
  - unfold uniform_cores. rewrite Zrange_cons by lia. done.
  - apply list.Forall_forall. intros c Hc. apply elem_of_uniform in Hc as (i & Hi & ->).
    split; [simpl; lia|]. unfold uniform_core. cbn [cs_threads]. rewrite Zrange_cons by lia. done.
  - rewrite uniform_numbers. apply NoDup_seqZ.
Qed.

Lemma machine_consistent es ec w :
  (es = None ∨ es = Some (smt_word (pm_smt w))) → (ec = None ∨ ec = Some (pm_on w)) →
  consistent es ec (cores_of w) (smt_word (pm_smt w)) (pm_on w) (pm_on w * pm_smt w).
Proof using HM.
  intros Hes Hec. destruct (pm_bounds w) as [Hn Hk].
  assert (∀ c, c ∈ cores_of w → is_online c = true → online_count_of c = pm_smt w) as Hall.
  { intros c Hc Ho. apply elem_of_uniform in Hc as (i & Hi & ->). unfold is_online in Ho.
    rewrite uniform_core_count in * by lia. by destruct (i <? pm_on w). }
  split.
  - intros e ->. by destruct Hes as [[=]|[= ->]].
  - intros e ->. by destruct Hec as [[=]|[= ->]].
  - intros c d Hc Hd Ho1 Ho2. by rewrite !Hall.
  - intros _ c Hc Ho. by rewrite Hall.
Qed.

Lemma verify_machine es ec w x :
  (es = None ∨ es = Some (smt_word (pm_smt w))) → (ec = None ∨ ec = Some (pm_on w)) →
  runs (verify_system_state es ec) w x (Ret true) w x.
Proof using HM.
  intros Hes Hec. destruct (verify_runs es ec _ _ _ _ w x (machine_observed w)) as (b & Hrun & Hb).
  by rewrite (proj2 Hb (machine_consistent es ec w Hes Hec)) in Hrun.
Qed.

Lemma get_cores_info_machine w x : runs get_cores_info w x (Ret (pm_on w, pm_total)) w x.
Proof using HM.
  destruct (pm_bounds w) as [Hn Hk]. unfold get_cores_info.
  run_by output_runs; [apply pm_ask_cores|]. rewrite cores_of_text by lia. run_step.
  run_by output_runs; [apply pm_ask_present|]. rewrite present_of_text by lia. run.
Qed.

(** A value of [--smt=] that setUp generates. *)
Lemma generated_smt_value v max :
  v ∈ generate_smt_values max → 2 ≤ max →
  ∃ k, smt_value max v = Some k ∧ 1 ≤ k ≤ max ∧ expected_mode max v = smt_word k.
Proof.
  unfold generate_smt_values. rewrite elem_of_cons, elem_of_app, list_elem_of_singleton.
  intros [->|[Hv| ->]] Hm.
  - exists 1. split_and!; [done|lia|lia|done].
  - apply list_elem_of_In, in_map_iff in Hv as (k & <- & Hk).
    apply list_elem_of_In, elem_of_Zrange in Hk. exists k.
    assert (∀ s c, chars_of s = c :: tail (chars_of s) → is_digit c = false → String.eqb (py_str_Z k) s = false) as Hne.
    { intros s c Es Hc. destruct (String.eqb_spec (py_str_Z k) s) as [<-|]; [|done].
      destruct (number_chars k) as (d & ds & E & Hd); [lia|]. rewrite E in Es. injection Es as ->.
      inversion Hd; congruence. }
    unfold smt_value, expected_mode, smt_word.
    rewrite (Hne "off"%string "o"%char), (Hne "on"%string "o"%char), py_int_of_str_Z by done.
    destruct (Z.leb_spec 2 k), (Z.leb_spec k max), (Z.eqb_spec k 1); try lia.
    split_and!; [done|lia|lia|done].
  - exists max. unfold expected_mode, smt_word. destruct (Z.eqb_spec max 1); [lia|].
    split_and!; [done|lia|lia|done].
Qed.

(** The attributes after setUp. *)
Record set_up (x : ppc_self) : Prop := {
  su_smt_str : pc_smt_str x = Some "ppc64_cpu --smt"%string;
  su_failures : pc_failures x = [];
  su_max : pc_max_smt_value x = pm_max;
  su_total : pc_total_cores x = pm_total;
  su_values : pc_all_smt_values x = generate_smt_values pm_max;
}.

(** The machine with other numbers of cores and threads. *)
Definition machine_at (n k : Z) w : Prop := pm_on w = n ∧ pm_smt w = k.

Lemma machine_at_set n k w : 1 ≤ n ≤ pm_total → 1 ≤ k ≤ pm_max → machine_at n k (pm_set n k w).
Proof using HM. intros Hn Hk. split; [by apply pm_on_set|by apply pm_smt_set]. Qed.

Lemma smt_runs v k w x :
  smt_value pm_max v = Some k → 1 ≤ k ≤ pm_max →
  ∃ w', machine_at (pm_on w) k w' ∧
    runs (sys ("ppc64_cpu --smt=" +:+ v)) w x (Ret ()) w' x ∧
    runs (sys_ignore ("ppc64_cpu --smt=" +:+ v)) w x (Ret ()) w' x ∧
    runs (process_run ("ppc64_cpu --smt=" +:+ v) [Shell; IgnoreStatus]) w x (Ret (CmdResult 0 "")) w' x.
Proof using HM.
  intros Hv Hk. exists (pm_set (pm_on w) k w). split; [apply machine_at_set; [apply pm_bounds|done]|].
  unfold sys, sys_ignore, process_system, process_run. split; [|split].
  - eapply runs_bind; [apply runs_ext; by apply pm_do_smt|]. run.
  - eapply runs_bind; [apply runs_ext; by apply pm_do_smt|]. run.
  - apply runs_ext. by apply pm_do_smt.
Qed.

Lemma cores_runs v n w x :
  cores_value pm_total v = Some n → 1 ≤ n ≤ pm_total →
  ∃ w', machine_at n (pm_smt w) w' ∧
    runs (sys ("ppc64_cpu --cores-on=" +:+ v)) w x (Ret ()) w' x ∧
    runs (sys_ignore ("ppc64_cpu --cores-on=" +:+ v)) w x (Ret ()) w' x ∧
    runs (process_run ("ppc64_cpu --cores-on=" +:+ v) [Shell; IgnoreStatus]) w x (Ret (CmdResult 0 "")) w' x.
Proof using HM.
  intros Hv Hn. exists (pm_set n (pm_smt w) w). split; [apply machine_at_set; [done|apply pm_bounds]|].
  unfold sys, sys_ignore, process_system, process_run. split; [|split].
  - eapply runs_bind; [apply runs_ext; by apply pm_do_cores|]. run.
  - eapply runs_bind; [apply runs_ext; by apply pm_do_cores|]. run.
  - apply runs_ext. by apply pm_do_cores.
Qed.

Lemma all_cores_runs w x :
  ∃ w', machine_at pm_total (pm_smt w) w' ∧ runs (sys "ppc64_cpu --cores-on=all") w x (Ret ()) w' x.
Proof using HM.
  destruct pm_sizes as [Ht _].
  destruct (cores_runs "all" pm_total w x) as (w' & Hw' & Hrun & _); [done|lia|]. by exists w'.
Qed.

Lemma number_cores n : 1 ≤ n ≤ pm_total → cores_value pm_total (py_str_Z n) = Some n.
Proof.
  intros Hn. unfold cores_value. rewrite py_int_of_str_Z.
  destruct (String.eqb_spec (py_str_Z n) "all") as [E|_].
  - destruct (number_chars n) as (d & ds & Ed & Hd); [lia|]. rewrite E in Ed. injection Ed as <- _.
    by inversion Hd.
  - destruct (Z.leb_spec 1 n), (Z.leb_spec n pm_total); try lia. done.
Qed.

(** The loop over all SMT values: the last one is "on". *)
Lemma smt_loop (body : string → M W ppc_self ()) n w x :
  (∀ v k w, smt_value pm_max v = Some k → 1 ≤ k ≤ pm_max → expected_mode pm_max v = smt_word k →
     pm_on w = n → ∃ w', runs (body v) w x (Ret ()) w' x ∧ machine_at n k w') →
  pm_on w = n →
  ∃ w', runs (for_each (generate_smt_values pm_max) body) w x (Ret ()) w' x ∧ machine_at n pm_max w'.
Proof using HM.
  intros Hbody Hn. destruct pm_sizes as [_ Hm].
  destruct (runs_for_each (generate_smt_values pm_max) body
    (λ dn w' x', x' = x ∧ pm_on w' = n ∧
       match last_opt dn with Some v => smt_value pm_max v = Some (pm_smt w') | None => True end) w x)
    as (w' & x' & Hrun & -> & Hon & Hlast); [|done|].
  - intros dn v todo w0 x0 Hl (-> & Hon & _).
    destruct (generated_smt_value v pm_max) as (k & Hk & Hb & He); [|done|].
    { rewrite Hl, elem_of_app, elem_of_cons. by right; left. }
    destruct (Hbody v k w0 Hk Hb He Hon) as (w' & Hrun & Hon' & Hsmt).
    exists w', x. split; [done|]. split; [done|]. split; [done|].
    rewrite last_opt_snoc. by rewrite Hk, Hsmt.
  - exists w'. split; [done|]. split; [done|].
    assert (last_opt (generate_smt_values pm_max) = Some "on"%string) as E.
    { unfold generate_smt_values. by rewrite app_comm_cons, last_opt_snoc. }
    rewrite E in Hlast. by injection Hlast.
Qed.

Lemma no_failures_runs text w x : pc_failures x = [] → runs (fail_if_failures text) w x (Ret ()) w x.
Proof. intros Hx. unfold fail_if_failures. run_step. rewrite Hx. rewrite bool_decide_true by done. run. Qed.

(** [test_all_smt_operations] passes on the machine, whatever its sizes: every generated SMT
    value is set and confirmed; at the end the same cores are online with all their
    threads. *)
Theorem test_all_smt_operations_passes (w : W) (x : ppc_self) :
  set_up x → ∃ w', runs test_all_smt_operations w x (Ret ()) w' x ∧ machine_at (pm_on w) pm_max w'.
Proof using HM.
  intros [Hstr Hfail Hmax _ Hvals].
  destruct (smt_loop all_smt_step (pm_on w) w x) as (w' & Hloop & Hat); [|done|].
  - intros v k w0 Hv Hk He Hon. destruct (smt_runs v k w0 x Hv Hk) as (w1 & Hw1 & _ & _ & Hrun).
    rewrite Hon in Hw1. exists w1. split; [|done]. unfold all_smt_step. run_step. run_step.
    run_by Hrun. simpl (negb _). cbv iota.
    run_step. run_step. rewrite Hmax, He. destruct Hw1 as [_ <-].
    run_by verify_machine; [by right|by left|]. cbn [negb]. run.
  - exists w'. split; [|done]. unfold test_all_smt_operations. run_step. run_step. rewrite Hvals.
    run_by Hloop. by apply no_failures_runs.
Qed.


(** [test_dynamic_core_operations] on a machine of up to 256 cores: the scenarios are
    distinct numbers of cores between 1 and all of them, both included; the test passes
    and leaves all cores online in the same SMT mode. *)
Theorem test_dynamic_core_operations_passes (w : W) (x : ppc_self) :
  set_up x → pm_total ≤ 256 →
  (∃ l, scenarios pm_total = Ret l ∧ Forall (λ c, 1 ≤ c ≤ pm_total) (map fst l) ∧ NoDup (map fst l) ∧
     1 ∈ map fst l ∧ pm_total ∈ map fst l) ∧
  ∃ w', runs test_dynamic_core_operations w x (Ret ()) w' x ∧ machine_at pm_total (pm_smt w) w'.
Proof using HM.
  intros [Hstr Hfail Hmax Htotal Hvals] Hsmall. destruct pm_sizes as [Hpos _].
  destruct (scenarios_spec pm_total) as (l & Hl & Hrange & Hnd & H1 & Ht); [lia|].
  split; [by exists l|].
  destruct (all_cores_runs w x) as (w1 & [Hon1 Hsmt1] & Hrun1).
  destruct (runs_for_each l dynamic_core_step (λ _ w' x', x' = x ∧ pm_smt w' = pm_smt w) w1 x)
    as (w2 & x2 & Hloop & -> & Hsmt2); [|done|].
  - intros dn [c d] todo w0 x0 El [-> Hs].
    assert (1 ≤ c ≤ pm_total) as Hc.
    { rewrite El, map_app in Hrange. apply Forall_app in Hrange as [_ Hr]. by inversion Hr. }
    destruct (cores_runs (py_str_Z c) c w0 x (number_cores c Hc) Hc) as (w' & [Hon Hsmt] & _ & _ & Hrun).
    exists w', x. split; [|by rewrite Hsmt]. unfold dynamic_core_step. run_step.
    run_by Hrun. simpl (negb _). cbv iota. run_step.
    run_by verify_machine; [by left|right; by rewrite Hon|]. cbn [negb]. run.
  - destruct (all_cores_runs w2 x) as (w3 & [Hon3 Hsmt3] & Hrun3).
    exists w3. split; [|split; [done|congruence]]. unfold test_dynamic_core_operations. run_step.
    run_by Hrun1. run_step. run_step. rewrite Htotal, Hl. run_step. run_by Hloop. run_by Hrun3. run_step.
    by apply no_failures_runs.
Qed.

(** [test_progressive_core_online_with_smt] on a machine of 3 to 256 cores: after a single
    core, the numbers of cores increase from 2 to all of them; at each of them every SMT
    value keeps the cores and is confirmed; the test passes and leaves everything
    online. *)
Theorem test_progressive_core_online_passes (w : W) (x : ppc_self) :
  set_up x → 3 ≤ pm_total ≤ 256 →
  (∃ l, progressive_counts pm_total = Ret l ∧ Forall (λ c, 2 ≤ c ≤ pm_total) l ∧ increasing l = true ∧
     2 ∈ l ∧ pm_total ∈ l) ∧
  ∃ w', runs test_progressive_core_online_with_smt w x (Ret ()) w' x ∧ machine_at pm_total pm_max w'.
Proof using HM.
  intros [Hstr Hfail Hmax Htotal Hvals] Hsize. destruct pm_sizes as [_ Hm].
  destruct (progressive_spec pm_total Hsize) as (l & Hl & Hrange & Hinc & H2 & Ht).
  split; [by exists l|].
  destruct (cores_runs "1" 1 w x) as (w1 & [Hon1 _] & Hrun1 & _).
  { apply (number_cores 1). lia. } { lia. }
  destruct (smt_loop single_core_smt_step 1 w1 x) as (w2 & Hloop1 & [Hon2 Hsmt2]); [|done|].
  { intros v k w0 Hv Hk He Hon. destruct (smt_runs v k w0 x Hv Hk) as (w' & [Hon' Hsmt'] & _ & Hrun & _).
    rewrite Hon in Hon'. exists w'. split; [|done]. unfold single_core_smt_step. run_step. run_by Hrun.
    run_step. run_step. rewrite Hmax, He.
    run_by verify_machine; [right; by rewrite Hsmt'|right; by rewrite Hon'|]. cbn [negb]. run. }
  destruct (runs_for_each l progressive_step (λ _ w' x', x' = x ∧ pm_smt w' = pm_max) w2 x)
    as (w3 & x3 & Hloop2 & -> & Hsmt3); [|done|].
  { intros dn c todo w0 x0 El [-> _].
    assert (1 ≤ c ≤ pm_total) as Hc.
    { rewrite El in Hrange. apply Forall_app in Hrange as [_ Hr]. inversion Hr; lia. }
    destruct (cores_runs (py_str_Z c) c w0 x (number_cores c Hc) Hc) as (w' & [Hon Hsmt] & Hrun & _).
    destruct (smt_loop (progressive_smt_step c) c w' x) as (w'' & Hloop & [_ Hsmt'']); [|done|].
    - intros v k w4 Hv Hk He Hon4. destruct (smt_runs v k w4 x Hv Hk) as (w5 & [Hon5 Hsmt5] & _ & Hrun5 & _).
      rewrite Hon4 in Hon5. exists w5. split; [|done]. unfold progressive_smt_step. run_step. run_by Hrun5.
      run_step. run_by get_cores_info_machine. rewrite Hon5, Z.eqb_refl. cbn [negb]. run_step. run_step.
      rewrite Hmax, He. run_by verify_machine; [right; by rewrite Hsmt5|right; by rewrite Hon5|].
      cbn [negb]. run.
    - exists w'', x. split; [|done]. unfold progressive_step. run_step. run_by Hrun. run_step.
      run_by get_cores_info_machine. run_step. run_step. by rewrite Hvals, Hon. }
  destruct (all_cores_runs w3 x) as (w4 & [Hon4 Hsmt4] & Hrun4).
  exists w4. split; [|split; congruence]. unfold test_progressive_core_online_with_smt. run_step. run_step.
  rewrite Htotal. destruct (Z.ltb_spec pm_total 3); [lia|]. run_by Hrun1. run_step. run_step. run_step.
  rewrite Hvals. run_by Hloop1. run_step. rewrite Hl. run_step. run_by Hloop2. run_by Hrun4. run_step.
  by apply no_failures_runs.
Qed.

Lemma reset_runs w x : ∃ w', runs reset_system_state w x (Ret ()) w' x ∧ machine_at pm_total pm_max w'.
Proof using HM.
  destruct pm_sizes as [_ Hm]. destruct (all_cores_runs w x) as (w1 & [Hon1 _] & Hrun1).
  destruct (smt_runs "on" pm_max w1 x) as (w2 & [Hon2 Hsmt2] & Hrun2 & _); [done|lia|].
  exists w2. split; [|split; congruence]. unfold reset_system_state. run_by Hrun1. run_by Hrun2. run.
Qed.

(** [test_smt_core_interaction] passes on the machine for any number of iterations, and
    leaves everything online. *)
Theorem test_smt_core_interaction_passes (w : W) (x : ppc_self) (params : ppc_params) :
  set_up x → pc_params x = Some params →
  ∃ w', runs test_smt_core_interaction w x (Ret ()) w' x ∧ machine_at pm_total pm_max w'.
Proof using HM.
  intros [Hstr Hfail Hmax Htotal Hvals] Hparams. destruct pm_sizes as [Hpos _].
  destruct (reset_runs w x) as (w1 & Hreset & Hat1).
  set (num := Z.min 5 (pp_stress_iterations params / 4)).
  destruct (runs_for_each (Zrange 0 num) (interaction_iteration num)
              (λ _ w' x', x' = x ∧ machine_at pm_total pm_max w') w1 x)
    as (w2 & x2 & Hloop & -> & Hat2); [|done|].
  - intros dn i todo w0 x0 _ [-> [Hon0 Hsmt0]].
    set (n := Z.max 1 (pm_total / 2)).
    assert (1 ≤ n ≤ pm_total) as Hn by (subst n; pose proof (Z.div_le_upper_bound pm_total 2 pm_total); lia).
    destruct (cores_runs (py_str_Z n) n w0 x (number_cores n Hn) Hn) as (w3 & [Hon3 Hsmt3] & Hrun3 & _).
    destruct (smt_loop (interaction_smt_step n n) n w3 x) as (w4 & Hloop & [Hon4 Hsmt4]); [|done|].
    + intros v k w5 Hv Hk He Hon5. destruct (smt_runs v k w5 x Hv Hk) as (w6 & [Hon6 Hsmt6] & _ & Hrun6 & _).
      rewrite Hon5 in Hon6. exists w6. split; [|done]. unfold interaction_smt_step. run_step. run_by Hrun6.
      run_step. run_by get_cores_info_machine. rewrite Hon6, Z.eqb_refl. cbn [negb]. run_step. run_step.
      rewrite Hmax, He. run_by verify_machine; [right; by rewrite Hsmt6|right; by rewrite Hon6|]. run.
    + destruct (all_cores_runs w4 x) as (w5 & [Hon5 Hsmt5] & Hrun5).
      exists w5, x. split; [|split; [done|split; congruence]]. unfold interaction_iteration. run_step. run_step.
      rewrite Htotal. fold n. run_by Hrun3. run_step. run_by get_cores_info_machine. run_step.
      rewrite Hvals, Hon3. run_by Hloop. run_by Hrun5. run.
  - exists w2. split; [|done]. unfold test_smt_core_interaction. run_step. run_by Hreset.
    unfold param_of. eapply runs_bind; [apply runs_attr; by rewrite Hparams|]. cbv beta. fold num.
    run_by Hloop. by apply no_failures_runs.
Qed.

(** A run with the default parameters on a ppc64 machine with its tools installed. *)
Record default_run : Prop := {
  dr_arch : py_in "ppc" distro_arch = true;
  dr_installed : ∀ w, ppc_check_installed "powerpc-utils" w = (Ret true, w);
  dr_param : ∀ k d, env_param k d = d;
  dr_exists : ∀ p w, (env_exists p w).2 = w;
  dr_dmesg : ∀ w, env_system_output "dmesg" [IgnoreStatus] w = (Ret ""%string, w);
}.

Lemma int_param_runs k d w x : default_run → runs (int_param k d) w x (Ret d) w x.
Proof. intros H. unfold int_param. run_step. rewrite (dr_param H). run. Qed.

Lemma float_param_runs k d f w x :
  default_run → py_float d = Ret f → runs (float_param k d) w x (Ret f) w x.
Proof. intros H Hf. unfold float_param. run_step. rewrite (dr_param H), Hf. run. Qed.

Lemma param_runs k d w x : default_run → runs (get_param k d) w x (Ret d) w x.
Proof. intros H. rewrite <- (dr_param H k d) at 2. apply runs_ret. Qed.

Lemma max_word : smt_word pm_max = py_str_Z pm_max ∧ smt_value pm_max (py_str_Z pm_max) = Some pm_max.
Proof using HM.
  destruct pm_sizes as [_ Hm]. split; [unfold smt_word; destruct (Z.eqb_spec pm_max 1); [lia|done]|].
  destruct (generated_smt_value (py_str_Z pm_max) pm_max) as (k & Hk & Hb & He); [|done|].
  - unfold generate_smt_values. right. apply elem_of_app. left.
    apply list_elem_of_In, in_map, list_elem_of_In, elem_of_Zrange. lia.
  - unfold smt_value in *. rewrite py_int_of_str_Z in *.
    destruct (String.eqb (py_str_Z pm_max) "off") eqn:E1; [|destruct (String.eqb (py_str_Z pm_max) "on") eqn:E2].
    + apply String.eqb_eq in E1. pose proof (py_int_of_str_Z pm_max) as H. by rewrite E1 in H.
    + done.
    + destruct ((2 <=? pm_max) && (pm_max <=? pm_max)); done.
Qed.

Lemma max_text_plain c : c ∈ chars_of (smt_text pm_max) → c ∈ chars_of ("SMT=" +:+ NL) ∨ is_digit c = true.
Proof using HM.
  destruct pm_sizes as [_ Hm]. unfold smt_text. destruct (Z.eqb_spec pm_max 1); [lia|].
  destruct (number_chars pm_max) as (d & ds & E & Hd); [lia|].
  rewrite !chars_of_app, E, !elem_of_app. intros [[H|H]|H]; [by left; left| |by left; right].
  right. by apply (proj1 (list.Forall_forall _ _) Hd).
Qed.

Lemma not_in_max_text c :
  forallb (λ d, negb (Ascii.eqb c d)) (chars_of ("SMT=" +:+ NL)) && negb (is_digit c) = true →
  c ∉ chars_of (smt_text pm_max).
Proof using HM.
  intros H Hc. apply andb_prop in H as [H1 H2]. apply max_text_plain in Hc as [Hc|Hc]; [|by rewrite Hc in H2].
  rewrite forallb_forall in H1. apply list_elem_of_In, H1 in Hc. by rewrite Ascii.eqb_refl in Hc.
Qed.

Lemma setUp_runs w :
  default_run →
  ∃ w' x, runs setUp w new_ppc (Ret ()) w' x ∧ machine_at (pm_on w) pm_max w' ∧ set_up x ∧
    pc_curr_smt x = Some (py_str_Z pm_max) ∧ is_Some (pc_params x).
Proof using HM.
  intros Hd. destruct pm_sizes as [Ht Hm], max_word as [Hw Hv].
  destruct (smt_runs "on" pm_max w (with_smt_str "ppc64_cpu --smt" new_ppc)) as (w1 & [Hon1 Hsmt1] & Hrun1 & _);
    [done|lia|].
  destruct (env_exists "/sys/devices/system/cpu/subcores_per_core" w1) as [b w2] eqn:Hexists.
  pose proof (dr_exists Hd "/sys/devices/system/cpu/subcores_per_core" w1) as He.
  rewrite Hexists in He. simpl in He. subst w2.
  exists w1. eexists. split.
  - unfold setUp. rewrite (dr_arch Hd). cbn [negb]. run_step.
    eapply runs_bind; [apply runs_ext, (dr_installed Hd)|]. cbn [negb]. run_step.
    run_by int_param_runs; [done|]. run_by param_runs; [done|]. run_step.
    run_by Hrun1. run_by output_runs; [apply pm_ask_smt|]. rewrite Hsmt1.
    rewrite (py_in_missing "i"%char "is not SMT capable"), (py_in_missing "I"%char "Inconsistent state")
      by (by left || by apply not_in_max_text).
    do 2 run_step. rewrite smt_of_text, Hw by lia. do 2 run_step.
    eapply runs_bind.
    { unfold path_exists. apply runs_silent. by rewrite Hexists. }
    rewrite py_int_str. run_step. run_by output_runs; [apply pm_ask_present|].
    rewrite present_of_text by lia. run_step.
    repeat first [run_by int_param_runs; [done|] | run_by param_runs; [done|]
                 | run_by float_param_runs; [done|reflexivity|]].
    run.
  - split; [by split|]. split; [by split|]. by split.
Qed.

(** setUp and tearDown around any test: setUp switches the machine to its highest SMT mode
    and records that mode as the current one, so tearDown leaves the machine in the
    highest mode with all cores online, whatever its mode and cores were before. *)
Theorem setUp_tearDown_max_smt (w : W) :
  default_run →
  ∃ w1 x, runs setUp w new_ppc (Ret ()) w1 x ∧ set_up x ∧ machine_at (pm_on w) pm_max w1 ∧
    ∀ w2, ∃ w3, runs tearDown w2 x (Ret ()) w3 x ∧ machine_at pm_total pm_max w3.
Proof using HM.
  intros Hd. destruct (setUp_runs w Hd) as (w1 & x & Hrun & Hat & Hx & Hcurr & _).
  exists w1, x. split; [done|]. split; [done|]. split; [done|]. intros w2.
  destruct pm_sizes as [Ht Hm], max_word as [_ Hv].
  destruct (cores_runs "all" pm_total w2 x) as (w3 & [Hon3 Hsmt3] & _ & Hrun3 & _); [done|lia|].
  exists (pm_set (pm_on w3) pm_max w3). split.
  - unfold tearDown. run_step. rewrite (su_smt_str _ Hx). run_by Hrun3.
    eapply runs_bind; [by apply runs_attr|]. cbv beta.
    eapply runs_bind; [apply runs_ext, (pm_do_smt _ _ w3 _ Hv)|]. cbv beta.
    eapply runs_bind; [apply runs_ext, (dr_dmesg Hd)|]. run.
  - rewrite <- Hon3. apply machine_at_set; [apply pm_bounds|lia].
Qed.
End machine.

(** on a machine that is not SMT capable, setUp cancels the test before it records an SMT
    mode, and tearDown then raises [AttributeError] after it has switched all cores on. *)
Theorem setUp_cancel_tearDown_raises {W} {HE : Env W} {HL : PpcLib W} (out : string) (w w1 w2 : W) :
  default_run →
  env_system "ppc64_cpu --smt=on" [Shell] w = (Ret 0, w1) →
  env_system_output "ppc64_cpu --smt" [Shell] w1 = (Ret out, w2) →
  py_in "is not SMT capable" out = true →
  ∃ x, runs setUp w new_ppc (raise_ TestCancel "Machine is not SMT capable") w2 x ∧
    ∀ w3 w4, env_system "ppc64_cpu --cores-on=all" [Shell; IgnoreStatus] w3 = (Ret 0, w4) →
      runs tearDown w3 x (raise_ AttributeError "curr_smt") w4 x.
Proof.
  intros Hd Hon Hout Hin. exists (with_smt_str "ppc64_cpu --smt" new_ppc). split.
  - unfold setUp. rewrite (dr_arch Hd). cbn [negb]. run_step.
    eapply runs_bind; [apply runs_ext, (dr_installed Hd)|]. cbn [negb]. run_step.
    run_by int_param_runs; [done|]. run_by param_runs; [done|]. run_step.
    eapply runs_bind; [unfold sys; eapply runs_bind; [apply runs_ext, Hon|apply runs_ret]|].
    run_by output_runs; [exact Hout|]. rewrite Hin. apply runs_bind_raise, runs_when_true, runs_throw.
  - intros w3 w4 Hcores. unfold tearDown. run_step. cbn [pc_smt_str with_smt_str].
    eapply runs_bind; [unfold sys_ignore; eapply runs_bind; [apply runs_ext, Hcores|apply runs_ret]|].
    apply runs_bind_raise. intros tr. by eexists.
Qed.
