(* ===== verification/PpcRandom.v ===== *)
(** * The ppc64_cpu tests: random choices and commands

    Which cores the random tests choose, and which numbers of cores they can ask for,
    whatever the environment and the random numbers are. *)

From S2P Require Import Prelude PyStr PyFloat PyVal PyRegex Avocado Logic Ppc64Cpu PpcParse PpcSystem.
Open Scope Z_scope.

Section random.
Context {W : Type} {HE : Env W} {HL : PpcLib W}.

Lemma randint_returns {S} a b (s : pstate W S) :
  a ≤ b → ∃ z s', randint a b s = (Ret z, s') ∧ a ≤ z ≤ b.
Proof.
  intros Hab. destruct (randint a b s) as [[z|e] s'] eqn:E.
  - exists z, s'. split; [done|]. apply (randint_value _ _ s). by rewrite E.
  - unfold randint in E. destruct (Z.ltb_spec b a); [lia|]. unfold silent in E. by destruct (env_random _).
Qed.

(** [random.sample] of [k] among distinct elements. *)
Lemma sample_nat_spec {A S} (l : list A) k (s : pstate W S) :
  NoDup l → (k ≤ length l)%nat →
  ∃ r s', sample_nat l k s = (Ret r, s') ∧ length r = k ∧ NoDup r ∧ ∀ y, y ∈ r → y ∈ l.
Proof.
  revert l s. induction k as [|k IH]; intros l s Hnd Hk.
  - exists [], s. split; [done|]. split; [done|]. split; [constructor|]. intros y Hy. by apply not_elem_of_nil in Hy.
  - simpl. destruct (randint_returns 0 (Z.of_nat (length l) - 1) s) as (i & s1 & E & Hi); [lia|].
    destruct (lookup_lt_is_Some_2 l (Z.to_nat i)) as [y Hy]; [lia|].
    destruct (IH (delete (Z.to_nat i) l) s1) as (r & s2 & E2 & Hlen & Hr & Hin).
    + eapply sublist_NoDup; [exact Hnd|apply sublist_delete].
    + rewrite length_delete by done. lia.
    + exists (y :: r), s2. split.
      * rewrite (bind_ret _ _ _ _ _ E), Hy. by rewrite (bind_ret _ _ _ _ _ E2).
      * split; [simpl; lia|]. rewrite (delete_take_drop l (Z.to_nat i)) in Hin.
        rewrite <- (take_drop_middle l (Z.to_nat i) y Hy) in Hnd |- *.
        apply list.NoDup_app in Hnd as (Hnd1 & Hdis & Hnd2). inversion Hnd2 as [|? ? Hy2 Hnd3]; subst.
        split.
        -- constructor; [|done]. intros Hyr. apply Hin, elem_of_app in Hyr as [Hyr|Hyr].
           ++ apply (Hdis y Hyr). left.
           ++ done.
        -- intros z Hz. apply elem_of_cons in Hz as [->|Hz].
           ++ apply elem_of_app. right. left.
           ++ apply Hin, elem_of_app in Hz. apply elem_of_app.
              destruct Hz as [Hz|Hz]; [by left|right; by right].
Qed.

(** the choice of the cores to take offline on a machine of 5 to 256 cores: it never
    raises, and gives at least 2 distinct cores, never core 0, with at least one other
    core left online besides it. *)
Theorem choose_cores_sound (total : Z) (s : pstate W ppc_self) :
  5 ≤ total ≤ 256 →
  ∃ l s', choose_cores total s = (Ret l, s') ∧ NoDup l ∧ (∀ c, c ∈ l → 1 ≤ c < total) ∧
    2 ≤ Z.of_nat (length l) ≤ total - 2.
Proof.
  intros Ht. destruct (offline_spec total Ht) as (lo & hi & Hb & Hlo & Hhi).
  unfold choose_cores. rewrite Hb.
  destruct (randint_returns lo hi s) as (k & s1 & E & Hk); [lia|].
  assert (length (Zrange 1 total) = Z.to_nat (total - 1)) as Hlen by (unfold Zrange; by rewrite length_seqZ).
  destruct (sample_nat_spec (Zrange 1 total) (Z.to_nat k) s1) as (r & s2 & E2 & Hr & Hnd & Hin).
  - apply NoDup_seqZ.
  - lia.
  - exists r, s2. split.
    + rewrite (bind_ret (lift (Ret (lo, hi))) _ s s (lo, hi)) by done. rewrite (bind_ret _ _ _ _ _ E).
      unfold sample. destruct (Z.ltb_spec k 0), (Z.ltb_spec (Z.of_nat (length (Zrange 1 total))) k); try lia.
      simpl orb. exact E2.
    + split; [done|]. split; [|lia]. intros c Hc. apply elem_of_Zrange. by apply Hin.
Qed.
End random.

(** ** Which numbers of cores are asked for *)

(** A command that sets the number of cores asks for all of them or for at least one. *)
Definition asks_cores (ev : event) : Prop :=
  match ev with
  | EvRun cmd _ =>
      match drop_prefix (chars_of "ppc64_cpu --cores-on=") (chars_of cmd) with
      | Some rest => rest = chars_of "all" ∨ ∃ n, 1 ≤ n ∧ rest = chars_of (py_str_Z n)
      | None => True
      end
  | _ => True
  end.

Section commands.
Context {W : Type} {HE : Env W} {HL : PpcLib W}.

Lemma emits_sys cmd : asks_cores (EvRun cmd [Shell]) → emits asks_cores (sys (W:=W) cmd).
Proof. intros H. unfold sys. guar_with ltac:(by apply emits_system). Qed.

Lemma emits_sys_ignore cmd : asks_cores (EvRun cmd [Shell; IgnoreStatus]) → emits asks_cores (sys_ignore (W:=W) cmd).
Proof. intros H. unfold sys_ignore. guar_with ltac:(by apply emits_system). Qed.

Lemma asks_number n fl : 1 ≤ n → asks_cores (EvRun ("ppc64_cpu --cores-on=" +:+ py_str_Z n) fl).
Proof. intros Hn. right. by exists n. Qed.

(** Commands that do not set the number of cores. *)
Ltac other_command := first [exact I | by left | by apply asks_number; lia].
Ltac asks :=
  guar_with ltac:(first
    [ apply emits_log; exact I | apply emits_sleep; exact I | apply emits_ext; other_command
    | apply emits_sys; other_command | apply emits_sys_ignore; other_command
    | apply emits_system_output; other_command | apply emits_run; other_command
    | apply emits_choice | apply emits_randint ]).

Lemma emits_output cmd : asks_cores (EvRun cmd [Shell]) → emits asks_cores (output (W:=W) cmd).
Proof. intros H. by apply emits_system_output. Qed.

Lemma emits_parse_info : emits asks_cores parse_ppc64_cpu_info.
Proof. unfold parse_ppc64_cpu_info, output. asks. Qed.

Lemma emits_verify es ec : emits asks_cores (verify_system_state es ec).
Proof.
  unfold verify_system_state, output, online_count. asks; try apply emits_parse_info; asks.
Qed.

Lemma emits_get_cores_info : emits asks_cores get_cores_info.
Proof. unfold get_cores_info, output. asks. Qed.
End commands.

Section safety.
Context {W : Type} {HE : Env W} {HL : PpcLib W}.

#[local] Hint Resolve emits_parse_info emits_verify emits_get_cores_info : guar.

Ltac other_command := first [exact I | by left | by apply asks_number; lia].
Ltac asks :=
  guar_with ltac:(first
    [ apply emits_log; exact I | apply emits_sleep; exact I | apply emits_ext; other_command
    | apply emits_sys; other_command | apply emits_sys_ignore; other_command
    | apply emits_system_output; other_command | apply emits_run; other_command
    | apply emits_choice | apply emits_randint ]).

Lemma emits_stress_both total : emits asks_cores (stress_both total).
Proof. unfold stress_both. asks. Qed.

(** whatever the machine answers and whatever the random numbers are,
    [test_parallel_smt_core_stress] never asks for fewer than one core. *)
Theorem parallel_stress_keeps_a_core (s : pstate W ppc_self) :
  ∃ tr, ps_trace (test_parallel_smt_core_stress s).2 = ps_trace s ++ tr ∧ Forall asks_cores tr.
Proof.
  apply emits_trace. unfold test_parallel_smt_core_stress, int_param. asks.
  all: try apply emits_stress_both.
Qed.

Lemma results_in {A} (l : list (result A)) r y : results l = Ret r → y ∈ r → Ret y ∈ l.
Proof.
  revert r. induction l as [|[x|e] l IH]; intros r; simpl.
  - intros [= <-] Hy. by apply not_elem_of_nil in Hy.
  - destruct (results l) as [xs|e]; simpl; [|done]. intros [= <-] Hy.
    apply elem_of_cons in Hy as [->|Hy]; [left|right; by eapply IH].
  - done.
Qed.

Lemma percentage_cores_pos total p z : percentage_cores total p = Ret z → 1 ≤ z.
Proof.
  unfold percentage_cores. destruct (num_div _ _) as [x|e]; simpl; [|done].
  destruct (num_int x) as [y|e]; simpl; [|done]. intros [= <-]. lia.
Qed.

Lemma insert_sorted_in z y l : y ∈ insert_sorted z l → y = z ∨ y ∈ l.
Proof.
  induction l as [|x l IH]; simpl.
  - rewrite list_elem_of_singleton. auto.
  - destruct (z <? x); rewrite !elem_of_cons; [tauto|]. intros [->|H]; [auto|]. destruct (IH H); auto.
Qed.

Lemma sort_in y l : y ∈ sort l → y ∈ l.
Proof.
  induction l as [|x l IH]; simpl; [done|]. intros H. apply insert_sorted_in in H as [->|H]; [left|right; auto].
Qed.

Lemma append_new_in z y l : y ∈ append_new z l → y = z ∨ y ∈ l.
Proof.
  unfold append_new. case_bool_decide; [auto|]. rewrite elem_of_app, list_elem_of_singleton. tauto.
Qed.

Lemma progressive_counts_pos total l y :
  3 ≤ total → progressive_counts total = Ret l → y ∈ l → 1 ≤ y.
Proof.
  intros Ht. unfold progressive_counts. destruct (num_mul _ _) as [x|e]; simpl; [|done].
  destruct (num_int x) as [z|e]; simpl; [|done]. intros [= <-] Hy. apply sort_in in Hy.
  repeat (apply append_new_in in Hy as [->|Hy]; [lia|]).
  destruct (Z.leb_spec 2 total), (Z.leb_spec 3 total); try lia. simpl in Hy.
  rewrite !elem_of_cons in Hy. destruct Hy as [->|[->|Hy]]; [lia|lia|by apply not_elem_of_nil in Hy].
Qed.

(** and so do [test_smt_with_core_operations] and
    [test_progressive_core_online_with_smt]. *)
Theorem core_tests_keep_a_core (s : pstate W ppc_self) :
  (∃ tr, ps_trace (test_smt_with_core_operations s).2 = ps_trace s ++ tr ∧ Forall asks_cores tr) ∧
  (∃ tr, ps_trace (test_progressive_core_online_with_smt s).2 = ps_trace s ++ tr ∧ Forall asks_cores tr).
Proof.
  split; apply emits_trace.
  - unfold test_smt_with_core_operations. asks.
    apply emits_sys, asks_number. eapply results_in in H0; [|eassumption].
    apply list_elem_of_In, in_map_iff in H0 as (p & Hp & _). by eapply percentage_cores_pos.
  - unfold test_progressive_core_online_with_smt, single_core_smt_step, add_failure, fail_if_failures.
    asks; [apply emits_sys; right; by exists 1|].
    unfold progressive_step, progressive_smt_step, add_failure. asks.
    apply emits_sys, asks_number. eapply progressive_counts_pos; [|eassumption|eassumption]. lia.
Qed.
End safety.
