(* ===== verification/PpcSim.v ===== *)
(** * A simulated POWER machine

    An environment that decodes the ppc64_cpu commands, for 8 cores of 4 threads: an
    instance of [PpcMachine], on which the theorems about the tests are applied; and a
    machine whose SMT mode cannot be changed, which shows what the tests notice. *)

From S2P Require Import Prelude PyStr PyFloat PyVal PyRegex Avocado Logic Ppc64Cpu PpcParse PpcSystem PpcRandom.
Open Scope Z_scope.

(** Online cores and threads per core, within the bounds. *)
Abbreviation ppc_world := (Z * Z)%type.
Definition sim_total : Z := 8.
Definition sim_threads : Z := 4.
Definition clamp (hi z : Z) : Z := Z.max 1 (Z.min hi z).
Definition sim_on (w : ppc_world) : Z := clamp sim_total w.1.
Definition sim_smt (w : ppc_world) : Z := clamp sim_threads w.2.

(** The state after a command; [stuck] machines do not change their SMT mode. *)
Definition ppc_apply (stuck : bool) (cmd : string) (w : ppc_world) : ppc_world :=
  match drop_prefix (chars_of "ppc64_cpu --smt=") (chars_of cmd) with
  | Some v => match smt_value sim_threads (str_of v) with
              | Some k => if stuck then w else (sim_on w, k)
              | None => w
              end
  | None =>
      match drop_prefix (chars_of "ppc64_cpu --cores-on=") (chars_of cmd) with
      | Some v => match cores_value sim_total (str_of v) with Some n => (n, sim_smt w) | None => w end
      | None => w
      end
  end.

Definition ppc_answer (cmd : string) (w : ppc_world) : string :=
  if String.eqb cmd "ppc64_cpu --info" then
    str_of (info_text info_pad info_fin (uniform_cores sim_total sim_threads (sim_on w) (sim_smt w)))
  else if String.eqb cmd "ppc64_cpu --smt" then smt_text (sim_smt w)
  else if String.eqb cmd "ppc64_cpu --cores-on" then "Number of cores online = " +:+ py_str_Z (sim_on w) +:+ NL
  else if String.eqb cmd "ppc64_cpu --cores-present" then
    "Number of cores present = " +:+ py_str_Z sim_total +:+ NL
  else "".

Definition ppc_env (stuck : bool) : Env ppc_world := {|
  env_run := λ cmd _ w, (Ret (CmdResult 0 ""), ppc_apply stuck cmd w);
  env_system := λ cmd _ w, (Ret 0, ppc_apply stuck cmd w);
  env_system_output := λ cmd _ w, (Ret (ppc_answer cmd w), ppc_apply stuck cmd w);
  env_ssh := λ _ _ w, (Ret (CmdResult 0 ""), w);
  env_connect := λ _ _ _ w, (Ret true, w);
  env_show := λ r, stdout_text r;
  env_param := λ _ d, d;
  env_exists := λ _ w, (false, w);
  env_read := λ _ w, (Ret ""%string, w);
  env_append := λ _ _ w, (Ret (), w);
  env_remove := λ _ w, (Ret (), w);
  env_random := λ w, (0, w);
|}.

#[export] Instance ppc_lib : PpcLib ppc_world := {|
  distro_arch := "ppc64le";
  ppc_check_installed := λ _ w, (Ret true, w);
  ppc_install := λ _ w, (Ret true, w);
  cpu_online_count := λ w, (Ret (sim_on w * sim_smt w), w);
  ppc_distro := "rhel";
  ppc_workdir := "/tmp";
  ppc_lib := λ _ _ w, (Ret VNone, w);
|}.

Lemma clamp_bounds hi z : 1 ≤ hi → 1 ≤ clamp hi z ≤ hi.
Proof. unfold clamp. lia. Qed.

Lemma clamp_id hi z : 1 ≤ z ≤ hi → clamp hi z = z.
Proof. unfold clamp. lia. Qed.

Lemma apply_smt v k w :
  smt_value sim_threads v = Some k → ppc_apply false ("ppc64_cpu --smt=" +:+ v) w = (sim_on w, k).
Proof.
  intros Hv. unfold ppc_apply. rewrite chars_of_app, drop_prefix_app. by rewrite str_of_chars_of, Hv.
Qed.

Lemma apply_cores v n w :
  cores_value sim_total v = Some n → ppc_apply false ("ppc64_cpu --cores-on=" +:+ v) w = (n, sim_smt w).
Proof.
  intros Hv. unfold ppc_apply. rewrite chars_of_app.
  change (drop_prefix (chars_of "ppc64_cpu --smt=") (chars_of "ppc64_cpu --cores-on=" ++ chars_of v))
    with (@None chars). cbv iota.
  by rewrite drop_prefix_app, str_of_chars_of, Hv.
Qed.

#[export] Instance ppc_machine : @PpcMachine ppc_world (ppc_env false) ppc_lib.
Proof.
  refine (@Build_PpcMachine _ (ppc_env false) _ sim_total sim_threads _ sim_on sim_smt _ (λ n k _, (n, k))
            _ _ _ _ _ _ _ _ _).
  - split; vm_compute; discriminate.
  - intros w. split; apply clamp_bounds; by vm_compute.
  - intros n k w Hn _. by apply clamp_id.
  - intros n k w _ Hk. by apply clamp_id.
  - intros v k w fl Hv. simpl. rewrite (apply_smt v k w Hv). split_and!; [done|done|].
    by unfold ppc_answer.
  - intros v n w fl Hv. simpl. rewrite (apply_cores v n w Hv). done.
  - reflexivity.
  - reflexivity.
  - reflexivity.
  - reflexivity.
  - reflexivity.
Defined.

(** ** The theorems at work *)

Definition sim_params : ppc_params :=
  PpcParams 5 (VBool true) (VBool true) (VBool true) 20 3 50 4 (VBool true) (VBool true) (VBool true) (VBool true)
    (VBool true) (VBool true) (fl 1 0) (fl 1 0) (fl_decimal 3 (-1)) (VBool true) (VBool true).
Definition sim_ppc : ppc_self :=
  PpcSelf (Some "ppc64_cpu --smt"%string) (Some "4"%string) 100 (VStr "distro") 0 [] [(1, "off"%string)] 0 "" 4 8
    (generate_smt_values 4) (Some sim_params).

Lemma sim_set_up : set_up (HE:=ppc_env false) sim_ppc.
Proof. by split. Qed.

(** Two cores, the second one offline. *)
Definition two_cores : list core_state :=
  [CoreState 0 [(0, true); (1, true)]; CoreState 1 [(2, false); (3, false)]].

(** A machine that prints them. *)
Definition two_cores_env : Env ppc_world := {|
  env_run := λ _ _ w, (Ret (CmdResult 0 ""), w);
  env_system := λ _ _ w, (Ret 0, w);
  env_system_output := λ cmd _ w,
    (Ret (if String.eqb cmd "ppc64_cpu --info" then str_of (info_text info_pad info_fin two_cores)
          else if String.eqb cmd "ppc64_cpu --smt" then smt_text 2
          else "Number of cores online = 1" +:+ NL), w);
  env_ssh := λ _ _ w, (Ret (CmdResult 0 ""), w);
  env_connect := λ _ _ _ w, (Ret true, w);
  env_show := λ r, stdout_text r;
  env_param := λ _ d, d;
  env_exists := λ _ w, (false, w);
  env_read := λ _ w, (Ret ""%string, w);
  env_append := λ _ _ w, (Ret (), w);
  env_remove := λ _ w, (Ret (), w);
  env_random := λ w, (0, w);
|}.

Lemma two_cores_valid : Forall valid_core two_cores ∧ NoDup (map cs_number two_cores).
Proof. split; [by repeat constructor|]. by apply (bool_decide_unpack _). Qed.

Lemma parse_ppc64_cpu_info_correct_witness :
  ∃ info, runs (parse_ppc64_cpu_info (HE:=two_cores_env)) (1, 2) sim_ppc (Ret info) (1, 2) sim_ppc ∧
    describes info two_cores.
Proof.
  refine (parse_ppc64_cpu_info_correct (HE:=two_cores_env) info_pad info_fin two_cores (1, 2) sim_ppc _ _ _ _).
  - discriminate.
  - apply two_cores_valid.
  - apply two_cores_valid.
  - reflexivity.
Defined.

(** One core of two threads, and two online CPUs: consistent, but not with SMT 4. *)
Lemma two_cores_observed : observed (HE:=two_cores_env) (1, 2) two_cores "2" 1 2.
Proof.
  split.
  - by exists info_pad, info_fin.
  - by exists (smt_text 2).
  - by exists ("Number of cores online = 1" +:+ NL).
  - reflexivity.
  - discriminate.
  - apply two_cores_valid.
  - apply two_cores_valid.
Qed.

Lemma verify_system_state_iff_witness :
  (∃ b, runs (verify_system_state (HE:=two_cores_env) (Some "2"%string) (Some 1)) (1, 2) sim_ppc (Ret b) (1, 2) sim_ppc ∧
     (b = true ↔ consistent (Some "2"%string) (Some 1) two_cores "2" 1 2)) ∧
  (∃ b, runs (verify_system_state (HE:=two_cores_env) (Some "4"%string) None) (1, 2) sim_ppc (Ret b) (1, 2) sim_ppc ∧
     (b = true ↔ consistent (Some "4"%string) None two_cores "2" 1 2)).
Proof.
  split.
  - apply (verify_system_state_iff (HE:=two_cores_env)). apply two_cores_observed.
  - apply (verify_system_state_iff (HE:=two_cores_env)). apply two_cores_observed.
Defined.

Lemma test_all_smt_operations_passes_witness :
  ∃ w', runs (test_all_smt_operations (HE:=ppc_env false)) (3, 2) sim_ppc (Ret ()) w' sim_ppc ∧
    sim_on w' = 3 ∧ sim_smt w' = 4.
Proof.
  refine (test_all_smt_operations_passes (HE:=ppc_env false) (3, 2) sim_ppc _). apply sim_set_up.
Defined.

Lemma test_dynamic_core_operations_passes_witness :
  (∃ l, scenarios 8 = Ret l ∧ Forall (λ c, 1 ≤ c ≤ 8) (map fst l) ∧ NoDup (map fst l) ∧
     1 ∈ map fst l ∧ 8 ∈ map fst l) ∧
  ∃ w', runs (test_dynamic_core_operations (HE:=ppc_env false)) (3, 2) sim_ppc (Ret ()) w' sim_ppc ∧
    sim_on w' = 8 ∧ sim_smt w' = 2.
Proof.
  refine (test_dynamic_core_operations_passes (HE:=ppc_env false) (3, 2) sim_ppc _ _).
  - apply sim_set_up.
  - vm_compute. discriminate.
Defined.

Lemma test_progressive_core_online_passes_witness :
  (∃ l, progressive_counts 8 = Ret l ∧ Forall (λ c, 2 ≤ c ≤ 8) l ∧ increasing l = true ∧ 2 ∈ l ∧ 8 ∈ l) ∧
  ∃ w', runs (test_progressive_core_online_with_smt (HE:=ppc_env false)) (3, 2) sim_ppc (Ret ()) w' sim_ppc ∧
    sim_on w' = 8 ∧ sim_smt w' = 4.
Proof.
  refine (test_progressive_core_online_passes (HE:=ppc_env false) (3, 2) sim_ppc _ _).
  - apply sim_set_up.
  - vm_compute. split; discriminate.
Defined.

Lemma test_smt_core_interaction_passes_witness :
  ∃ w', runs (test_smt_core_interaction (HE:=ppc_env false)) (3, 2) sim_ppc (Ret ()) w' sim_ppc ∧
    sim_on w' = 8 ∧ sim_smt w' = 4.
Proof.
  refine (test_smt_core_interaction_passes (HE:=ppc_env false) (3, 2) sim_ppc sim_params _ _).
  - apply sim_set_up.
  - reflexivity.
Defined.

(** From 3 cores with SMT 2: SMT 4 after tearDown. *)
Lemma setUp_tearDown_max_smt_witness :
  ∃ w1 x, runs (setUp (HE:=ppc_env false)) (3, 2) new_ppc (Ret ()) w1 x ∧ set_up (HE:=ppc_env false) x ∧
    machine_at (HE:=ppc_env false) 3 4 w1 ∧
    ∀ w2, ∃ w3, runs (tearDown (HE:=ppc_env false)) w2 x (Ret ()) w3 x ∧ machine_at (HE:=ppc_env false) 8 4 w3.
Proof.
  refine (setUp_tearDown_max_smt (HE:=ppc_env false) (3, 2) _). by split.
Defined.

Lemma choose_cores_sound_witness :
  ∃ l s', choose_cores (HE:=ppc_env false) 8 (PState (8, 4) [] sim_ppc) = (Ret l, s') ∧ NoDup l ∧
    (∀ c, c ∈ l → 1 ≤ c < 8) ∧ 2 ≤ Z.of_nat (length l) ≤ 8 - 2.
Proof. apply (choose_cores_sound (HE:=ppc_env false) 8 (PState (8, 4) [] sim_ppc)). lia. Defined.

(** ** A machine whose SMT mode is stuck *)

Definition stuck_state : pstate ppc_world ppc_self := PState (8, 2) [] sim_ppc.

(** on a machine that ignores every [--smt=], [test_all_smt_operations] fails, as it
    should, but [test_smt_core_interaction] passes: it calls [verify_system_state] with the
    expected mode, and does not look at the result. *)
Theorem smt_core_interaction_ignores_verification :
  (verify_system_state (HE:=ppc_env true) (Some "4"%string) (Some 8) stuck_state).1 = Ret false ∧
  verdict_of (test_all_smt_operations (HE:=ppc_env true) stuck_state).1 = FAIL ∧
  verdict_of (test_smt_core_interaction (HE:=ppc_env true) stuck_state).1 = PASS.
Proof. split_and!; by vm_compute. Qed.

(** A machine without SMT. *)
Definition st_env : Env ppc_world := {|
  env_run := λ _ _ w, (Ret (CmdResult 0 ""), w);
  env_system := λ _ _ w, (Ret 0, w);
  env_system_output := λ cmd _ w, (Ret (if String.eqb cmd "dmesg" then "" else "Machine is not SMT capable" +:+ NL), w);
  env_ssh := λ _ _ w, (Ret (CmdResult 0 ""), w);
  env_connect := λ _ _ _ w, (Ret true, w);
  env_show := λ r, stdout_text r;
  env_param := λ _ d, d;
  env_exists := λ _ w, (false, w);
  env_read := λ _ w, (Ret ""%string, w);
  env_append := λ _ _ w, (Ret (), w);
  env_remove := λ _ w, (Ret (), w);
  env_random := λ w, (0, w);
|}.

Lemma setUp_cancel_tearDown_raises_witness :
  ∃ x, runs (setUp (HE:=st_env)) (8, 1) new_ppc (raise_ TestCancel "Machine is not SMT capable") (8, 1) x ∧
    ∀ w3 w4, (@Ret Z 0, w3) = (Ret 0, w4) → runs (tearDown (HE:=st_env)) w3 x (raise_ AttributeError "curr_smt") w4 x.
Proof.
  refine (setUp_cancel_tearDown_raises (HE:=st_env) ("Machine is not SMT capable" +:+ NL) (8, 1) (8, 1) (8, 1) _ _ _ _).
  - by split.
  - reflexivity.
  - reflexivity.
  - reflexivity.
Defined.
