(* ===== verification/IrqBalance.v ===== *)
(** * The irqbalance test: io/net/irqbalance.py

    The class [irq_balance]: setUp, the helpers, the four test methods and tearDown.
    avocado's [cpu], [pci], [dmesg], [wait], [NetworkInterface] and [LocalHost], Python's
    [subprocess.Popen] and [os.listdir] are the class [IrqLib]. *)

From S2P Require Import Prelude PyStr PyFloat PyVal PyRegex Avocado Logic.
Open Scope Z_scope.

(** ** Data *)

(** The attributes of [self].  [networkinterface] and [cpu_range] may not be set when
    they are read; no method sets [curr_smt].  A network interface object is represented
    by the name it was made for. *)
Record irq_self := IrqSelf {
  ib_interface : pyval;
  ib_interface_type : pyval;
  ib_disk : pyval;
  ib_is_hbond : pyval;
  ib_peer_ip : pyval;
  ib_ping_count : pyval;
  ib_ipaddr : pyval;
  ib_netmask : pyval;
  ib_networkinterface : option pyval;
  ib_cpu_list : list Z;
  ib_curr_smt : option string;
  ib_device_interrupts : string;
  ib_irq_number : pyval;
  ib_cpu_range : option (list Z);
  ib_irq_affinity : string;
  ib_system_affinity : string;
}.

Definition new_irq : irq_self :=
  IrqSelf VNone VNone VNone VNone VNone VNone VNone VNone None [] None "" VNone None "" "".

(** The values that [params.get] gives to setUp. *)
Definition with_params (disk hbond : pyval) (x : irq_self) : irq_self :=
  IrqSelf VNone VNone disk hbond (ib_peer_ip x) (ib_ping_count x) (ib_ipaddr x) (ib_netmask x)
    (ib_networkinterface x) (ib_cpu_list x) (ib_curr_smt x) (ib_device_interrupts x) (ib_irq_number x)
    (ib_cpu_range x) (ib_irq_affinity x) (ib_system_affinity x).
Definition with_peer (peer count : pyval) (x : irq_self) : irq_self :=
  IrqSelf (ib_interface x) (ib_interface_type x) (ib_disk x) (ib_is_hbond x) peer count (ib_ipaddr x)
    (ib_netmask x) (ib_networkinterface x) (ib_cpu_list x) (ib_curr_smt x) (ib_device_interrupts x)
    (ib_irq_number x) (ib_cpu_range x) (ib_irq_affinity x) (ib_system_affinity x).
Definition with_interface (i : pyval) (x : irq_self) : irq_self :=
  IrqSelf i (ib_interface_type x) (ib_disk x) (ib_is_hbond x) (ib_peer_ip x) (ib_ping_count x) (ib_ipaddr x)
    (ib_netmask x) (ib_networkinterface x) (ib_cpu_list x) (ib_curr_smt x) (ib_device_interrupts x)
    (ib_irq_number x) (ib_cpu_range x) (ib_irq_affinity x) (ib_system_affinity x).
Definition with_interface_type (t : pyval) (x : irq_self) : irq_self :=
  IrqSelf (ib_interface x) t (ib_disk x) (ib_is_hbond x) (ib_peer_ip x) (ib_ping_count x) (ib_ipaddr x)
    (ib_netmask x) (ib_networkinterface x) (ib_cpu_list x) (ib_curr_smt x) (ib_device_interrupts x)
    (ib_irq_number x) (ib_cpu_range x) (ib_irq_affinity x) (ib_system_affinity x).
Definition with_ipaddr (ip : pyval) (x : irq_self) : irq_self :=
  IrqSelf (ib_interface x) (ib_interface_type x) (ib_disk x) (ib_is_hbond x) (ib_peer_ip x) (ib_ping_count x) ip
    (ib_netmask x) (ib_networkinterface x) (ib_cpu_list x) (ib_curr_smt x) (ib_device_interrupts x)
    (ib_irq_number x) (ib_cpu_range x) (ib_irq_affinity x) (ib_system_affinity x).
Definition with_netmask (m : pyval) (x : irq_self) : irq_self :=
  IrqSelf (ib_interface x) (ib_interface_type x) (ib_disk x) (ib_is_hbond x) (ib_peer_ip x) (ib_ping_count x)
    (ib_ipaddr x) m (ib_networkinterface x) (ib_cpu_list x) (ib_curr_smt x) (ib_device_interrupts x)
    (ib_irq_number x) (ib_cpu_range x) (ib_irq_affinity x) (ib_system_affinity x).
Definition with_networkinterface (n : pyval) (x : irq_self) : irq_self :=
  IrqSelf (ib_interface x) (ib_interface_type x) (ib_disk x) (ib_is_hbond x) (ib_peer_ip x) (ib_ping_count x)
    (ib_ipaddr x) (ib_netmask x) (Some n) (ib_cpu_list x) (ib_curr_smt x) (ib_device_interrupts x)
    (ib_irq_number x) (ib_cpu_range x) (ib_irq_affinity x) (ib_system_affinity x).
Definition with_cpu_list (l : list Z) (x : irq_self) : irq_self :=
  IrqSelf (ib_interface x) (ib_interface_type x) (ib_disk x) (ib_is_hbond x) (ib_peer_ip x) (ib_ping_count x)
    (ib_ipaddr x) (ib_netmask x) (ib_networkinterface x) l (ib_curr_smt x) (ib_device_interrupts x)
    (ib_irq_number x) (ib_cpu_range x) (ib_irq_affinity x) (ib_system_affinity x).
Definition with_device_interrupts (s : string) (x : irq_self) : irq_self :=
  IrqSelf (ib_interface x) (ib_interface_type x) (ib_disk x) (ib_is_hbond x) (ib_peer_ip x) (ib_ping_count x)
    (ib_ipaddr x) (ib_netmask x) (ib_networkinterface x) (ib_cpu_list x) (ib_curr_smt x) s
    (ib_irq_number x) (ib_cpu_range x) (ib_irq_affinity x) (ib_system_affinity x).
Definition with_irq_number (n : pyval) (x : irq_self) : irq_self :=
  IrqSelf (ib_interface x) (ib_interface_type x) (ib_disk x) (ib_is_hbond x) (ib_peer_ip x) (ib_ping_count x)
    (ib_ipaddr x) (ib_netmask x) (ib_networkinterface x) (ib_cpu_list x) (ib_curr_smt x) (ib_device_interrupts x)
    n (ib_cpu_range x) (ib_irq_affinity x) (ib_system_affinity x).
Definition with_cpu_range (l : list Z) (x : irq_self) : irq_self :=
  IrqSelf (ib_interface x) (ib_interface_type x) (ib_disk x) (ib_is_hbond x) (ib_peer_ip x) (ib_ping_count x)
    (ib_ipaddr x) (ib_netmask x) (ib_networkinterface x) (ib_cpu_list x) (ib_curr_smt x) (ib_device_interrupts x)
    (ib_irq_number x) (Some l) (ib_irq_affinity x) (ib_system_affinity x).
Definition with_irq_affinity (s : string) (x : irq_self) : irq_self :=
  IrqSelf (ib_interface x) (ib_interface_type x) (ib_disk x) (ib_is_hbond x) (ib_peer_ip x) (ib_ping_count x)
    (ib_ipaddr x) (ib_netmask x) (ib_networkinterface x) (ib_cpu_list x) (ib_curr_smt x) (ib_device_interrupts x)
    (ib_irq_number x) (ib_cpu_range x) s (ib_system_affinity x).
Definition with_system_affinity (s : string) (x : irq_self) : irq_self :=
  IrqSelf (ib_interface x) (ib_interface_type x) (ib_disk x) (ib_is_hbond x) (ib_peer_ip x) (ib_ping_count x)
    (ib_ipaddr x) (ib_netmask x) (ib_networkinterface x) (ib_cpu_list x) (ib_curr_smt x) (ib_device_interrupts x)
    (ib_irq_number x) (ib_cpu_range x) (ib_irq_affinity x) s.

(** The library functions that only this test calls.  [wait_for f t] is
    [wait.wait_for(f, timeout=t)]: it polls [f] until it gives a true value or the time is
    over. *)
Class IrqLib (W : Type) := {
  (* multiprocessing.cpu_count(), when the module is loaded *)
  cpu_count : Z;
  cpu_online : Z → W → result () * W;
  cpu_offline : Z → W → result () * W;
  cpu_online_list : W → result (list Z) * W;
  (* the other library functions and the methods of library objects, by name *)
  lib_call : string → list pyval → W → result pyval * W;
  wait_for : M W irq_self pyval → Z → M W irq_self pyval;
}.

(** ** Text *)

(** [s[1:-1]] *)
Definition inner (s : string) : string :=
  let l := drop 1 (chars_of s) in str_of (take (length l - 1) l).

(** The disk pattern: a slash, [nvme] and digits (group 1), [n], digits. *)
Definition re_nvme : re :=
  (RChar "/" ~> RGroup 1 (RLit "nvme" ~> RPlus Rdigit) ~> RChar "n" ~> RPlus Rdigit)%re.

(** An IRQ number at the start of a line: blanks, digits (group 1), a colon. *)
Definition re_irq : re := (RBol ~> RStar Rspace ~> RGroup 1 (RPlus Rdigit) ~> RChar ":")%re.

(** Digits (group 1), a dash, digits (group 2). *)
Definition re_range : re := (RGroup 1 (RPlus Rdigit) ~> RChar "-" ~> RGroup 2 (RPlus Rdigit))%re.

(** The IRQ numbers in the lines of [/proc/interrupts]. *)
Definition irq_numbers (s : string) : result (list pyval) :=
  let ms := re_findall true re_irq s in
  foldr (λ m r, z ← py_int (VStr (py_strip_of ":" (m_group 1 m))); l ← r; Ret (VInt z :: l)) (Ret []) ms.

Definition compare_range_strings (range_str1 range_str2 : string) : result bool :=
  match re_match re_range range_str1, re_match re_range range_str2 with
  | Some match1, Some match2 =>
      start1 ← py_int (VStr (m_group 1 match1)); end1 ← py_int (VStr (m_group 2 match1));
      start2 ← py_int (VStr (m_group 1 match2)); end2 ← py_int (VStr (m_group 2 match2));
      Ret ((start1 =? start2) && (end1 =? end2))
  | _, _ => Ret false
  end.

Definition errorlog : list pyval :=
  map VStr ["WARNING: CPU:"; "Oops"; "Segfault"; "soft lockup"; "ard LOCKUP";
            "Unable to handle paging request"; "rcu_sched detected stalls"; "NMI backtrace for cpu";
            "Call Trace:"].

(** ** The class irq_balance *)

Section irq_balance.
Context {W : Type} {HE : Env W} {HI : IrqLib W}.
Abbreviation MI := (M W irq_self).

Definition call (fn : string) (args : list pyval) : MI pyval := ext (EvCall fn args) (lib_call fn args).
Definition cpu_on (c : Z) : MI () := ext (EvCall "cpu.online" [VInt c]) (cpu_online c).
Definition cpu_off (c : Z) : MI () := ext (EvCall "cpu.offline" [VInt c]) (cpu_offline c).
Definition online_list : MI (list Z) := silent cpu_online_list.
Definition collect_errors_dmesg : MI () := _ ← call "dmesg.collect_errors_dmesg" [VList errorlog]; mret ().

(** [totalcpus] *)
Definition totalcpus : Z := cpu_count - 1.

(** A method of [self.networkinterface]. *)
Definition ni_call (method : string) (args : list pyval) : MI pyval :=
  n ← attr "networkinterface" ib_networkinterface;
  call ("NetworkInterface." +:+ method) (n :: args).

Definition online_cpus (cores : Z) : MI () := for_each (Zrange 0 cores) cpu_on.

Definition check_current_smt : MI string :=
  process_system_output
    ("ppc64_cpu --smt | awk 'NR==1 {split($0, arr, " +:+ DQ +:+ "=" +:+ DQ +:+ "); split(arr[2], num, " +:+
     DQ +:+ ":" +:+ DQ +:+ "); print num[1]}'") [Shell].

Definition get_disk_IPI_name : MI pyval :=
  disk ← gets ib_disk;
  b ← lift (py_contains (VStr "nvme") disk);
  if (b : bool) then
    match disk with
    | VStr s =>
        match re_search re_nvme s with
        | Some m => mret (VStr (m_group 1 m))
        | None => throw AttributeError "'NoneType' object has no attribute 'group'"
        end
    | _ => throw TypeError "expected string or bytes-like object"
    end
  else mret VNone.

(** The loop over the PCI addresses: the first that has [active_slave]. *)
Fixpoint hbond_scan (active_slave : string) (addresses : list pyval) : MI (option pyval) :=
  match addresses with
  | [] => mret None
  | pci_address :: addresses' =>
      found ← try_except
        (c ← call "pci.get_pci_class_name" [pci_address];
         if py_eq c (VStr "net") then
           interfaces ← call "pci.get_interfaces_in_pci_address" [pci_address; VStr "net"];
           b ← lift (py_contains (VStr active_slave) interfaces);
           if (b : bool) then
             let ipi_format := "@pci:" +:+ py_str pci_address in
             log_info ("Found PCI address " +:+ py_str pci_address +:+ " for active slave " +:+ active_slave +:+
                       ", using IPI format: " +:+ ipi_format) ;;
             mret (Some (VStr ipi_format))
           else mret None
         else mret None)
        any_exn (λ _, mret None);
      match found with
      | Some ipi => mret (Some ipi)
      | None => hbond_scan active_slave addresses'
      end
  end.

Definition get_hbond_ipi_name : MI pyval :=
  interface ← gets ib_interface;
  try_except
    (let active_slave_file := "/sys/class/net/" +:+ py_str interface +:+ "/bonding/active_slave" in
     b ← path_exists active_slave_file;
     active_slave ← (if (b : bool) then t ← read_file active_slave_file; mret (py_strip t) else mret "");
     if py_empty active_slave then
       log_warning ("No active slave found for bond " +:+ py_str interface +:+
                    ", using bond name as fallback") ;;
       mret interface
     else
       log_info ("Active slave for bond " +:+ py_str interface +:+ ": " +:+ active_slave) ;;
       v ← call "pci.get_pci_addresses" [];
       addresses ← lift (py_iter v);
       found ← hbond_scan active_slave addresses;
       match found with
       | Some ipi => mret ipi
       | None =>
           slave ← call "NetworkInterface" [VStr active_slave];
           ipi_name ← call "NetworkInterface.get_device_IPI_name" [slave];
           if truthy ipi_name then
             log_info ("IPI name for active slave " +:+ active_slave +:+ ": " +:+ py_str ipi_name) ;;
             mret ipi_name
           else
             log_warning ("Could not get PCI address or IPI name for active slave " +:+ active_slave +:+
                          ", using active slave name as fallback") ;;
             mret (VStr active_slave)
       end)
    any_exn
    (λ e, log_warning ("Failed to get IPI name for HNV bond " +:+ py_str interface +:+ ": " +:+ ex_msg e +:+
                       ", using bond name as fallback") ;;
          mret interface).

Definition get_device_interrupts : MI string :=
  t ← gets ib_interface_type;
  r ← process_run ("grep " +:+ py_str t +:+ " /proc/interrupts") [Shell; IgnoreStatus];
  let s := py_strip (stdout_text r) in
  modify (with_device_interrupts s) ;;
  mret s.

Definition get_irq_numbers : MI pyval :=
  s ← gets ib_device_interrupts;
  l ← lift (irq_numbers s);
  modify (with_irq_number (VList l)) ;;
  mret (VList l).

(** The loop of [get_ping_process_pid]: at most [n] attempts. *)
Fixpoint poll_pid (n : nat) (cmd : string) : MI string :=
  match n with
  | O => test_cancel "No process PID of ping command available"
  | S n' =>
      out ← process_system_output cmd [Shell; IgnoreStatus; Sudo];
      let process_pid := py_strip out in
      if negb (py_empty process_pid) then mret process_pid
      else sleep (VInt 1) ;; poll_pid n' cmd
  end.

Definition get_ping_process_pid : MI string :=
  interface ← gets ib_interface;
  peer ← gets ib_peer_ip;
  poll_pid 10 ("ps -ef | grep '[p]ing -I " +:+ py_str interface +:+ " " +:+ py_str peer +:+
               "' | grep ' -f' | awk '{print $2}' | head -1").

(** [self.cpu_range[0]] and [self.cpu_range[-1]] *)
Definition first_last (l : list Z) : result (Z * Z) :=
  match l, last_opt l with
  | a :: _, Some b => Ret (a, b)
  | _, _ => raise_ IndexError "list index out of range"
  end.

Definition smp_affinity_list (irq : pyval) : string := "/proc/irq/" +:+ py_str irq +:+ "/smp_affinity_list".

Definition cpu_range_validation : MI () :=
  l ← attr "cpu_range" ib_cpu_range;
  '(a, b) ← lift (first_last l);
  let irq_affinity := py_join "-" [py_str_Z a; py_str_Z b] in
  modify (with_irq_affinity irq_affinity) ;;
  irq ← gets ib_irq_number;
  system_affinity ← read_file (smp_affinity_list irq);
  modify (with_system_affinity system_affinity) ;;
  sleep (VInt 25) ;;
  same ← lift (compare_range_strings irq_affinity system_affinity);
  when (negb same)
    (test_fail ("The smp_affinity_list does not matches to affinity" +:+
                " that was set by script, Please check the logs")).

Definition get_module_interrupts : MI pyval :=
  t ← gets ib_interface_type;
  _ ← process_run ("head -n 1 /proc/interrupts && grep " +:+ py_str t +:+ " /proc/interrupts")
        [Shell; IgnoreStatus];
  mret VNone.

Definition get_dd_process_pid : MI string :=
  dd_process_pid ← process_system_output "ps -C dd | awk 'NR > 1 {print $1}'" [Shell; IgnoreStatus; Sudo];
  if py_empty dd_process_pid then test_fail "No more dd run process PID available"
  else mret dd_process_pid.

Definition psr_cmd (pid : string) : string := "ps -o psr -p " +:+ pid +:+ " | awk 'NR>1 {print $1}'".

Definition taskset_cpu_validation : MI Z :=
  interface ← gets ib_interface;
  disk ← gets ib_disk;
  c1 ← (if truthy interface then pid ← get_ping_process_pid; mret (Some (psr_cmd pid)) else mret None);
  c2 ← (if truthy disk then pid ← get_dd_process_pid; mret (Some (psr_cmd pid)) else mret c1);
  match c2 with
  | None => throw OtherError "cannot access local variable 'cmd' where it is not associated with a value"
  | Some cmd =>
      cpu_by_script ← process_system_output cmd [Shell; IgnoreStatus; Sudo];
      lift (py_int (VStr cpu_by_script))
  end.

Definition dd_run : MI bool :=
  disk ← gets ib_disk;
  _ ← call "subprocess.Popen"
        [VStr ("dd if=/dev/urandom of=" +:+ py_str disk +:+ " bs=1M count=$((600*60))")];
  log_debug ("Initiated dd command on disk " +:+ py_str disk) ;;
  mret true.

Definition set_smt_values (value : pyval) : MI pyval :=
  output ← process_run ("ppc64_cpu --smt=" +:+ py_str value) [Shell];
  if negb (exit_status output =? 0) then mret (VBool false) else mret (VBool true).

Definition set_max_smt_values : MI () := _ ← wait_for (set_smt_values (VInt 8)) 300; mret ().

(** ** setUp *)

(** The name of the interface: the parameter itself, or the interface with that MAC
    address. *)
Definition find_interface (device interfaces : pyval) : MI () :=
  here ← lift (py_contains device interfaces);
  if (here : bool) then modify (with_interface device)
  else
    v ← call "LocalHost.validate_mac_addr" [device];
    mac ← (if truthy v then l ← call "LocalHost.get_all_hwaddr" []; lift (py_contains device l)
           else mret false);
    if (mac : bool) then
      n ← call "LocalHost.get_interface_by_hwaddr.name" [device];
      modify (with_interface n)
    else test_cancel "Please check the network device".

Definition setUp_interface (device : pyval) : MI () :=
  peer_ip ← get_param "peer_ip" VNone;
  ping_count ← get_param "ping_count" VNone;
  modify (with_peer peer_ip ping_count) ;;
  interfaces ← call "os.listdir" [VStr "/sys/class/net"];
  _ ← call "LocalHost" [];
  find_interface device interfaces ;;
  when (negb (truthy peer_ip)) (test_cancel "peer ip need to specify in YAML") ;;
  ipaddr ← get_param "host_ip" (VStr "");
  modify (with_ipaddr ipaddr) ;;
  interface ← gets ib_interface;
  n ← call "NetworkInterface" [interface];
  modify (with_networkinterface n) ;;
  ok ← ni_call "validate_ipv4_format" [ipaddr];
  when (negb (truthy ok))
    (test_cancel "Host IP formatt in YAML is incorrect,Please specify it correctly") ;;
  ok ← ni_call "validate_ipv4_format" [peer_ip];
  when (negb (truthy ok))
    (test_cancel "Peer IP formatt in YAML is incorrect,Please specify it correctly") ;;
  netmask ← get_param "netmask" (VStr "");
  modify (with_netmask netmask) ;;
  ok ← ni_call "validate_ipv4_netmask_format" [netmask];
  when (negb (truthy ok))
    (test_cancel "Netmask formatt in YAML is incorrect,please specify it correctly") ;;
  _ ← try_except
    (_ ← ni_call "add_ipaddr" [ipaddr; netmask];
     ni_call "save" [ipaddr; netmask])
    any_exn (λ _, ni_call "save" [ipaddr; netmask]);
  _ ← ni_call "bring_up" [];
  up ← wait_for (ni_call "is_link_up" []) 60;
  when (negb (truthy up)) (test_cancel "Link up of interface taking more than60 seconds") ;;
  p ← ni_call "ping_check" [peer_ip; VInt 5];
  when (negb (is_None p)) (test_cancel "No connection to peer") ;;
  hbond ← gets ib_is_hbond;
  if truthy hbond then
    t ← get_hbond_ipi_name;
    modify (with_interface_type t)
  else
    t ← ni_call "get_device_IPI_name" [];
    modify (with_interface_type t) ;;
    when (negb (truthy t))
      (log_debug ("get_device_IPI_name() returned None, using interface name '" +:+ py_str interface +:+
                  "' as fallback") ;;
       modify (with_interface_type interface)).

Definition setUp : MI () :=
  device ← get_param "interface" VNone;
  disk ← get_param "disk" VNone;
  is_hbond ← get_param "hbond" (VBool false);
  modify (with_params disk is_hbond) ;;
  when (truthy device) (setUp_interface device) ;;
  when (truthy disk) (t ← get_disk_IPI_name; modify (with_interface_type t)) ;;
  _ ← check_current_smt;
  set_max_smt_values ;;
  l ← online_list;
  modify (with_cpu_list l).

(** ** test_irq_balance *)

(** [self.irq_number]: the only one, or the second. *)
Definition choose_irq : MI () :=
  irqs ← gets ib_irq_number;
  t ← gets ib_interface_type;
  l ← lift (py_iter irqs);
  match l with
  | [] => test_fail ("No IRQ numbers found for device '" +:+ py_str t +:+
                     "'. Check if device is active and has interrupts in /proc/interrupts")
  | [n] => modify (with_irq_number n)
  | _ :: n :: _ => modify (with_irq_number n)
  end.

(** [echo ... > /proc/irq/n/smp_affinity_list] *)
Definition echo_affinity (cpus : string) : MI () :=
  irq ← gets ib_irq_number;
  output ← process_run ("echo " +:+ cpus +:+ " > " +:+ smp_affinity_list irq) [Shell; IgnoreStatus];
  when (negb (exit_status output =? 0)) (test_fail "Assigning CPU to IRQ failed, Please check logs").

Definition get_cpu_range : MI (list Z) := attr "cpu_range" ib_cpu_range.

(** One step of the assignment: the first [cpu_number + 1] CPUs. *)
Definition assign_step (cpu_number : nat) : MI () :=
  cpu_list ← gets ib_cpu_list;
  let cpu_range := take (S cpu_number) cpu_list in
  modify (with_cpu_range cpu_range) ;;
  echo_affinity (inner (py_str (VList (map VInt cpu_range)))) ;;
  _ ← wait_for get_module_interrupts 5;
  l ← get_cpu_range;
  when (1 <? Z.of_nat (length l)) cpu_range_validation.

(** The loop that takes the CPUs back, one by one; it takes at most [fuel] turns, and
    the length of the range is enough. *)
Fixpoint unassign_loop (fuel : nat) : MI () :=
  cpu_range ← get_cpu_range;
  if 1 <? Z.of_nat (length cpu_range) then
    match fuel with
    | O => mret ()
    | S fuel' =>
        echo_affinity (py_join "," (map py_str_Z cpu_range)) ;;
        when (1 <? Z.of_nat (length cpu_range)) cpu_range_validation ;;
        _ ← wait_for get_module_interrupts 5;
        l ← get_cpu_range;
        modify (with_cpu_range (take (length l - 1) l)) ;;
        unassign_loop fuel'
    end
  else mret ().

Definition unassign : MI () := l ← get_cpu_range; unassign_loop (length l).

Definition test_irq_balance : MI () :=
  _ ← get_device_interrupts;
  _ ← get_irq_numbers;
  choose_irq ;;
  cpu_list ← gets ib_cpu_list;
  for_each (seq 0 (length cpu_list)) assign_step ;;
  collect_errors_dmesg ;;
  unassign ;;
  collect_errors_dmesg.

(** ** test_cpu_serial_off_on *)

Definition all_but_last (l : list Z) : list Z := take (length l - 1) l.

Definition offline_step (cpus : Z) : MI () :=
  log_info ("Offlining cpu" +:+ py_str_Z cpus) ;;
  cpu_off cpus ;;
  l ← online_list;
  when (bool_decide (cpus ∈ l))
    (test_fail (" The offlined cpu " +:+ py_str_Z cpus +:+
                " is still showing as online, Please check the logs")).

Definition online_step (cpus : Z) : MI () :=
  log_info ("Onlining cpu" +:+ py_str_Z cpus) ;;
  cpu_on cpus ;;
  l ← online_list;
  when (negb (bool_decide (cpus ∈ l)))
    (test_fail (" The onlined cpu " +:+ py_str_Z cpus +:+
                " is still showing as offline, Please check the logs")).

Definition test_cpu_serial_off_on : MI () :=
  cpu_list ← gets ib_cpu_list;
  when (Nat.eqb (length cpu_list) 1)
    (test_cancel " only one cpu is available cannot do this operation") ;;
  for_each (all_but_last cpu_list) offline_step ;;
  for_each (all_but_last cpu_list) online_step ;;
  collect_errors_dmesg.

(** ** test_smt_toggle *)

Definition smt_levels : list pyval :=
  [VStr "off"] ++ map VInt (Zrange 1 9) ++ [VStr "off"; VStr "on"].

Definition test_smt_toggle : MI () :=
  for_each smt_levels (λ i, _ ← wait_for (set_smt_values i) 300; mret ()).

(** ** test_taskset *)

Definition taskset_step (pid : string) (cpu_number : Z) : MI () :=
  output ← process_run ("taskset -cp " +:+ py_str_Z cpu_number +:+ " " +:+ pid) [Shell; IgnoreStatus];
  when (negb (exit_status output =? 0)) (test_fail "taskset command failed check logs") ;;
  c ← taskset_cpu_validation;
  when (negb (cpu_number =? c))
    (test_fail "CPU number is mismatching after taskset operation, Please check logs.").

Definition taskset_all (pid : string) : MI () :=
  cpu_list ← gets ib_cpu_list; for_each cpu_list (taskset_step pid).

Definition is_CmdError (c : exn_class) : bool := bool_decide (c = CmdError).

(** [process.system("kill -9 pid")]; a logger has no method [fail]. *)
Definition kill_pid (pid : string) : MI () :=
  try_except
    (n ← lift (py_int (VStr pid));
     _ ← process_system ("kill -9 " +:+ py_str_Z n) [IgnoreStatus; Sudo];
     mret ())
    is_CmdError
    (λ _, throw AttributeError "'Logger' object has no attribute 'fail'").

(** [ping_process.terminate()] and [wait], or [kill]. *)
Definition stop_ping (ping_process : pyval) : MI () :=
  try_except
    (_ ← call "Popen.terminate" [ping_process]; _ ← call "Popen.wait" [ping_process; VInt 5]; mret ())
    any_exn (λ _, _ ← call "Popen.kill" [ping_process]; mret ()).

(** The rounds on the ping process, and its end. *)
Definition ping_rounds (ping_process : pyval) (ping_pid : string) : MI () :=
  try_finally (taskset_all ping_pid) (stop_ping ping_process ;; kill_pid ping_pid).

Definition taskset_ping : MI () :=
  interface ← gets ib_interface;
  peer_ip ← gets ib_peer_ip;
  ping_process ← call "subprocess.Popen"
    [VStr ("ping -I " +:+ py_str interface +:+ " " +:+ py_str peer_ip +:+ " -c 1000000 -f")];
  sleep (VInt 2) ;;
  ping_pid ← get_ping_process_pid;
  ping_rounds ping_process ping_pid.

(** The rounds on the dd process, and its end. *)
Definition dd_rounds (dd_pid : string) : MI () :=
  try_finally (taskset_all dd_pid) (kill_pid dd_pid ;; sleep (VInt 2)).

Definition taskset_dd : MI () :=
  ok ← dd_run;
  when (negb ok) (test_fail "dd command failed, Please check logs") ;;
  dd_pid ← get_dd_process_pid;
  dd_rounds dd_pid.

Definition test_taskset : MI () :=
  interface ← gets ib_interface;
  when (truthy interface) taskset_ping ;;
  disk ← gets ib_disk;
  when (truthy disk) taskset_dd ;;
  collect_errors_dmesg.

(** ** tearDown *)

Definition restore_network : MI () :=
  ipaddr ← gets ib_ipaddr;
  netmask ← gets ib_netmask;
  _ ← ni_call "remove_ipaddr" [ipaddr; netmask];
  try_except
    (_ ← ni_call "restore_from_backup" []; mret ())
    any_exn
    (λ _, _ ← ni_call "remove_cfg_file" [];
          log_info "backup file not available,could not restore file.").

Definition tearDown : MI () :=
  curr_smt ← gets ib_curr_smt;
  match curr_smt with
  | Some _ =>
      smt ← check_current_smt;
      _ ← process_system_output ("ppc64_cpu --smt=" +:+ smt) [Shell];
      mret ()
  | None => mret ()
  end ;;
  online_cpus totalcpus ;;
  interface ← gets ib_interface;
  if truthy interface then
    n ← attr "networkinterface" ib_networkinterface;
    when (truthy n) restore_network
  else mret ().
End irq_balance.
