(* ===== verification/IrqText.v ===== *)
(** * The texts that the irqbalance test reads

    The lines of [/proc/interrupts], the CPU lists of [smp_affinity_list] and the names of
    NVMe disks: what the test's patterns find in them. *)

From Stdlib Require Import Sorted.
From S2P Require Import Prelude PyStr PyFloat PyVal PyRegex Avocado Logic IrqBalance.
Open Scope Z_scope.

(** ** Numbers in a pattern *)

Lemma chars_of_nat z : 0 ≤ z → chars_of (py_str_Z z) = nat_chars z.
Proof. intros Hz. rewrite chars_of_str_Z. destruct (Z.ltb_spec z 0); [lia|done]. Qed.

(** The digits of a number, as the patterns see them. *)
Lemma nat_digits z : 0 ≤ z → ∃ d ds, chars_of (py_str_Z z) = d :: ds ∧ all_digits (d :: ds).
Proof.
  intros Hz. rewrite chars_of_nat by done. destruct (nat_chars_spec z Hz) as (Hne & Hd & _).
  destruct (nat_chars z) as [|d ds]; [done|]. eauto.
Qed.

(** The text does not begin with a character of the class. *)
Abbreviation head_not q l := (match l with [] => True | c :: _ => q c = false end).

(** [(\d+)] on a number: the group is the number. *)
Lemma run_number ml {R} n z l b g (k : pos → groups → option R) x :
  0 ≤ z → head_not is_digit l →
  k (Pos (after b (chars_of (py_str_Z z))) l) ((n, chars_of (py_str_Z z)) :: g) = Some x →
  run ml (RGroup n (RPlus Rdigit)) (Pos b (chars_of (py_str_Z z) ++ l)) g k = Some x.
Proof.
  intros Hz Hl Hk. destruct (nat_digits z Hz) as (d & ds & E & Hd). rewrite E in *.
  rewrite run_group. apply run_plus_class; [done|done|]. by rewrite text_between_app.
Qed.

(** ... and no shorter part of the number is tried with success. *)
Lemma run_number_none ml {R} n z l b g (k : pos → groups → option R) :
  0 ≤ z → head_not is_digit l →
  (∀ b' w2 g', all_digits w2 → k (Pos b' (w2 ++ l)) g' = None) →
  run ml (RGroup n (RPlus Rdigit)) (Pos b (chars_of (py_str_Z z) ++ l)) g k = None.
Proof.
  intros Hz Hl Hk. destruct (nat_digits z Hz) as (d & ds & E & Hd). rewrite E.
  rewrite run_group. apply run_plus_class_none; [done|done|]. intros w1 w2 ->. apply Hk.
  inversion Hd as [|? ? _ Hds]; subst. by apply Forall_app in Hds as [_ ?].
Qed.

Lemma run_char_no ml {R} c p g (k : pos → groups → option R) :
  head_not (Ascii.eqb c) (rest p) → run ml (RChar c) p g k = None.
Proof. intros H. by apply run_class_no. Qed.

(** ** CPU ranges *)

Lemma m_group_str_Z n z g t p :
  group_chars n g = Some (chars_of (py_str_Z z)) → m_group n (RMatch t g p) = py_str_Z z.
Proof. intros E. unfold m_group. cbn [m_groups]. by rewrite E, str_of_chars_of. Qed.

(** A range [a-b] at the start of a text. *)
Definition range_text (a b : Z) : string := py_str_Z a +:+ "-" +:+ py_str_Z b.

Lemma match_range a b t :
  0 ≤ a → 0 ≤ b → head_not is_digit (chars_of t) →
  ∃ m, re_match re_range (range_text a b +:+ t) = Some m ∧
    py_int (VStr (m_group 1 m)) = Ret a ∧ py_int (VStr (m_group 2 m)) = Ret b.
Proof.
  intros Ha Hb Ht. unfold re_match, match_at, start, range_text, re_range. autorewrite with pystr.
  rewrite <- app_assoc. change (chars_of "-") with ["-"%char]. cbn [app].
  eexists. split; [|split].
  - rewrite run_seq. apply run_number; [done|done|]. rewrite run_seq. unfold RChar.
    rewrite run_class by done. rewrite <- (app_nil_l (chars_of t)). apply run_number; [done|done|]. done.
  - erewrite m_group_str_Z by done. apply py_int_str.
  - erewrite m_group_str_Z by done. apply py_int_str.
Qed.

(** A number that no dash follows is no range. *)
Lemma match_range_no a t :
  0 ≤ a → head_not is_digit (chars_of t) → head_not (Ascii.eqb "-") (chars_of t) →
  re_match re_range (py_str_Z a +:+ t) = None.
Proof.
  intros Ha Ht Hd. unfold re_match, match_at, start, re_range. autorewrite with pystr.
  rewrite run_seq. apply run_number_none; [done|done|]. intros b' w2 g' Hw.
  rewrite run_seq. apply run_char_no. cbn [rest]. destruct w2 as [|c w2]; [done|].
  inversion Hw as [|? ? Hc _]; subst. cbn [app]. by destruct (Ascii.eqb_spec "-" c) as [<-|].
Qed.

(** What [compare_range_strings] says of a range and of a text. *)
Lemma compare_ranges a b c d t :
  0 ≤ a → 0 ≤ b → 0 ≤ c → 0 ≤ d → head_not is_digit (chars_of t) →
  compare_range_strings (range_text a b) (range_text c d +:+ t) = Ret ((a =? c) && (b =? d)).
Proof.
  intros Ha Hb Hc Hd Ht. unfold compare_range_strings.
  destruct (match_range a b "" Ha Hb I) as (m1 & H1 & E1 & E2). rewrite string_app_nil_r in H1.
  destruct (match_range c d t Hc Hd Ht) as (m2 & H2 & E3 & E4). rewrite H1, H2, E1, E2.
  cbn [mbind result_bind]. by rewrite E3, E4.
Qed.

Lemma compare_single a b c t :
  0 ≤ c → head_not is_digit (chars_of t) → head_not (Ascii.eqb "-") (chars_of t) →
  compare_range_strings (range_text a b) (py_str_Z c +:+ t) = Ret false.
Proof.
  intros Hc Ht Hd. unfold compare_range_strings. rewrite (match_range_no c t) by done.
  by destruct (re_match re_range (range_text a b)).
Qed.

(** ** CPU lists as the kernel prints them *)

(** The maximal runs of consecutive numbers. *)
Fixpoint cpu_runs (a b : Z) (l : list Z) : list (Z * Z) :=
  match l with
  | [] => [(a, b)]
  | c :: l' => if c =? b + 1 then cpu_runs a c l' else (a, b) :: cpu_runs c c l'
  end.

Definition run_text (r : Z * Z) : string :=
  if fst r =? snd r then py_str_Z (fst r) else range_text (fst r) (snd r).

(** [%*pbl]: the runs, with commas between them. *)
Definition cpulist_text (l : list Z) : string :=
  match l with [] => "" | a :: l' => py_join "," (map run_text (cpu_runs a a l')) end.

(** The first run of a list. *)
Definition first_run (l : list Z) : option (Z * Z) :=
  match l with [] => None | a :: l' => head (cpu_runs a a l') end.

Lemma cpu_runs_cons a b l : ∃ e r, cpu_runs a b l = (a, e) :: r.
Proof.
  revert b. induction l as [|c l IH]; intros b; simpl; [eauto|].
  destruct (c =? b + 1); [apply IH|eauto].
Qed.

Lemma cpu_runs_nonneg a b l e r :
  0 ≤ a → 0 ≤ b → Forall (λ c, 0 ≤ c) l → cpu_runs a b l = (a, e) :: r → 0 ≤ e.
Proof.
  intros Ha. revert b. induction l as [|c l IH]; intros b Hb Hl; simpl; [naive_solver|].
  inversion Hl; subst. destruct (c =? b + 1); [by apply IH|naive_solver].
Qed.

(** A single run: the list is an interval. *)
Lemma cpu_runs_seq a b n : cpu_runs a b (seqZ (b + 1) (Z.of_nat n)) = [(a, b + Z.of_nat n)].
Proof.
  revert b. induction n as [|n IH]; intros b.
  - simpl. do 2 f_equal. lia.
  - rewrite seqZ_cons by lia. cbn [cpu_runs]. rewrite Z.eqb_refl.
    replace (Z.succ (b + 1)) with (b + 1 + 1) by lia.
    replace (Z.pred (Z.of_nat (S n))) with (Z.of_nat n) by lia. rewrite IH. do 2 f_equal. lia.
Qed.

Lemma cpu_runs_one a b l e :
  cpu_runs a b l = [(a, e)] → l = seqZ (b + 1) (Z.of_nat (length l)).
Proof.
  revert b. induction l as [|c l IH]; intros b; [done|]. cbn [cpu_runs length].
  destruct (Z.eqb_spec c (b + 1)) as [->|Hne].
  - intros E. rewrite (IH _ E) at 1. rewrite (seqZ_cons (b + 1)) by lia. do 2 f_equal; lia.
  - destruct (cpu_runs_cons c c l) as (? & ? & ->). congruence.
Qed.

Lemma seq_last a n : last_opt (seqZ a (Z.of_nat (S n))) = Some (a + Z.of_nat n).
Proof.
  replace (Z.of_nat (S n)) with (Z.of_nat n + 1) by lia. rewrite seqZ_app by lia.
  replace (seqZ (a + Z.of_nat n) 1) with [a + Z.of_nat n] by done. apply last_opt_snoc.
Qed.

Abbreviation increasing_list := (StronglySorted Z.lt).

(** In an increasing list, the first run reaches the last element only if it is the only
    one. *)
Lemma first_run_last a b l e r :
  increasing_list (b :: l) → cpu_runs a b l = (a, e) :: r → last_opt (b :: l) = Some e → r = [].
Proof.
  revert b. induction l as [|c l IH]; intros b Hs Hr Hl; simpl in Hr; [naive_solver|].
  inversion Hs as [|? ? Hs' Hb]; subst. destruct (c =? b + 1); [by apply (IH c)|].
  injection Hr as <- <-. inversion Hs' as [|? ? _ Hc]; subst. inversion Hb as [|? ? Hbc _]; subst.
  change (last_opt (c :: l) = Some b) in Hl. destruct l as [|d l].
  { injection Hl as ->. lia. }
  pose proof (last_opt_elem (d :: l) b Hl) as Hin.
  rewrite list.Forall_forall in Hc. specialize (Hc b Hin). lia.
Qed.

(** The text after the first run. *)
Lemma cpulist_text_head l e r a :
  cpu_runs a a l = (a, e) :: r → ∃ t, cpulist_text (a :: l) +:+ NL = run_text (a, e) +:+ t ∧
    head_not is_digit (chars_of t) ∧ head_not (Ascii.eqb "-") (chars_of t).
Proof.
  intros E. unfold cpulist_text. rewrite E. destruct r as [|x r].
  - exists NL. by split_and!.
  - exists ("," +:+ py_join "," (map run_text (x :: r)) +:+ NL). cbn [map py_join].
    rewrite <- !string_app_assoc. by split_and!.
Qed.

(** What the comparison says of the range [a-b] and the list [m] that the kernel prints: its
    first run has two CPUs at least, and is [a-b]. *)
Lemma compare_cpulist a b m :
  0 ≤ a → 0 ≤ b → Forall (λ c, 0 ≤ c) m →
  compare_range_strings (range_text a b) (cpulist_text m +:+ NL) =
    Ret (match first_run m with
         | Some (c, d) => negb (c =? d) && ((a =? c) && (b =? d))
         | None => false
         end).
Proof.
  intros Ha Hb Hm. destruct m as [|c m].
  - cbn [first_run]. unfold compare_range_strings. change (re_match re_range (cpulist_text [] +:+ NL)) with (@None rmatch).
    by destruct (re_match re_range (range_text a b)).
  - inversion Hm as [|? ? Hc Hm']; subst. destruct (cpu_runs_cons c c m) as (e & r & E).
    pose proof (cpu_runs_nonneg c c m e r Hc Hc Hm' E) as He.
    destruct (cpulist_text_head m e r c E) as (t & Ht & Hd & Hdash). unfold first_run. rewrite E. cbn [head].
    rewrite Ht. unfold run_text. cbn [fst snd]. destruct (c =? e); cbn [negb andb].
    + by apply compare_single.
    + by apply compare_ranges.
Qed.

(** A list is an interval of two CPUs at least. *)
Definition interval (l : list Z) : Prop :=
  ∃ a n, l = seqZ a (Z.of_nat (S (S n))).

(** The comparison of a list with itself. *)
Lemma compare_self l a b :
  increasing_list l → Forall (λ c, 0 ≤ c) l → first_last l = Ret (a, b) →
  ∃ r, compare_range_strings (range_text a b) (cpulist_text l +:+ NL) = Ret r ∧ (r = true ↔ interval l).
Proof.
  intros Hs Hp Hl. destruct l as [|c l]; [done|]. unfold first_last in Hl.
  destruct (last_opt (c :: l)) as [b'|] eqn:El; [|done]. injection Hl as -> ->.
  assert (0 ≤ b) as Hb.
  { apply (proj1 (list.Forall_forall _ _) Hp). by apply last_opt_elem. }
  inversion Hp as [|? ? Ha Hp']; subst. rewrite compare_cpulist by done. eexists. split; [done|].
  unfold first_run. destruct (cpu_runs_cons a a l) as (e & r & E). rewrite E. cbn [head].
  split.
  - intros H. bool_to_Z. subst e. pose proof (first_run_last a a l b r Hs E El) as ->.
    pose proof (cpu_runs_one a a l b E) as Hi. destruct l as [|c l].
    { injection E as <-. congruence. }
    exists a, (length l). rewrite Hi. rewrite (seqZ_cons a) by lia. do 2 f_equal; simpl; lia.
  - intros (a' & n & Hi). assert (a' = a) as -> by (rewrite seqZ_cons in Hi by lia; congruence).
    rewrite Hi in El. rewrite seq_last in El. injection El as <-.
    rewrite seqZ_cons in Hi by lia. injection Hi as Hi.
    replace (Z.pred (Z.of_nat (S (S n)))) with (Z.of_nat (S n)) in Hi by lia.
    replace (Z.succ a) with (a + 1) in Hi by lia. rewrite Hi, cpu_runs_seq in E. injection E as <- _.
    rewrite !Z.eqb_refl. destruct (Z.eqb_spec a (a + Z.of_nat (S n))); [lia|done].
Qed.

(** ** The lines of /proc/interrupts *)

(** A line of a device: blanks, the IRQ number, a colon and the counts and names. *)
Record iline := ILine { il_pad : nat; il_irq : Z; il_rest : chars }.

Definition no_LF (l : chars) : Prop := Forall (λ c, Ascii.eqb c LF = false) l.
Definition valid_iline (l : iline) : Prop := 0 ≤ il_irq l ∧ no_LF (il_rest l).

Definition iline_text (l : iline) : chars :=
  blanks (il_pad l) ++ chars_of (py_str_Z (il_irq l)) ++ ":"%char :: il_rest l.

Definition interrupts_text (ls : list iline) : chars := concat (map (λ l, iline_text l ++ [LF]) ls).

(** A place where a line begins. *)
Definition line_start (b : option ascii) : Prop := match b with None => True | Some c => c = LF end.

(** The pattern at the start of a line. *)
Lemma match_irq b n z l :
  line_start b → 0 ≤ z →
  ∃ t, match_at true re_irq (Pos b (blanks n ++ chars_of (py_str_Z z) ++ ":"%char :: l)) =
    Some (RMatch t [(1%nat, chars_of (py_str_Z z))] (Pos (Some ":"%char) l)).
Proof.
  intros Hb Hz. unfold match_at, re_irq. rewrite run_seq.
  assert (∀ l, at_bol true (Pos b l) = true) as Hbol.
  { intros k. unfold at_bol. destruct b as [c|]; [|done]. simpl in Hb. by subst. }
  rewrite run_bol, Hbol.
  eexists. rewrite run_seq. apply run_star_class; [apply blanks_spaces| |].
  - destruct (nat_digits z Hz) as (d & ds & -> & Hd). cbn [app]. inversion Hd; subst.
    by apply digit_not_space.
  - rewrite run_seq. apply run_number; [done|done|]. unfold RChar. by rewrite run_class.
Qed.

(** Within a line the pattern does not match. *)
Lemma match_irq_no c l : Ascii.eqb c LF = false → match_at true re_irq (Pos (Some c) l) = None.
Proof.
  intros Hc. unfold match_at, re_irq. rewrite run_seq, run_bol. cbn [at_bol before]. by rewrite Hc.
Qed.

Lemma find_in_line c l k fuel :
  Ascii.eqb c LF = false → no_LF l → (length (l ++ k) < fuel)%nat →
  head_not (λ c, negb (Ascii.eqb c LF)) k →
  find_from true re_irq fuel (Pos (Some c) (l ++ k)) =
  find_from true re_irq (fuel - length l) (Pos (after (Some c) l) k).
Proof.
  intros Hc Hl. revert c Hc fuel. induction Hl as [|d l Hd _ IH]; intros c Hc fuel Hf Hk.
  - cbn [app length]. f_equal. lia.
  - destruct fuel as [|fuel]; [lia|]. cbn [app find_from]. rewrite match_irq_no by done.
    cbn [step rest]. rewrite IH by (done || simpl in Hf; lia). cbn [length]. by rewrite after_cons.
Qed.

Lemma after_no_LF c l : Ascii.eqb c LF = false → no_LF l → ∃ d, after (Some c) l = Some d ∧ Ascii.eqb d LF = false.
Proof.
  intros Hc Hl. unfold after. destruct (last_opt l) as [d|] eqn:E; [|eauto]. exists d. split; [done|].
  by apply (proj1 (list.Forall_forall _ _) Hl), last_opt_elem.
Qed.

(** The lines without the end of the last one. *)
Fixpoint joined (ls : list iline) : chars :=
  match ls with
  | [] => []
  | [l] => iline_text l
  | l :: ls' => iline_text l ++ LF :: joined ls'
  end.

Lemma joined_cons l ls : ls ≠ [] → joined (l :: ls) = iline_text l ++ LF :: joined ls.
Proof. by destruct ls. Qed.

Lemma find_lines ls b fuel :
  Forall valid_iline ls → line_start b → (length (joined ls) < fuel)%nat →
  map (m_group 1) (find_from true re_irq fuel (Pos b (joined ls))) = map (λ l, py_str_Z (il_irq l)) ls.
Proof.
  intros Hv. revert b fuel. induction Hv as [|l ls [Hz Hr] Hv IH]; intros b fuel Hb Hf;
    (destruct fuel as [|fuel]; [lia|]).
  - cbn. by destruct b as [c|]; cbn; repeat case_match.
  - set (k := match ls with [] => [] | _ => LF :: joined ls end).
    assert (joined (l :: ls) = blanks (il_pad l) ++ chars_of (py_str_Z (il_irq l)) ++ ":"%char :: il_rest l ++ k) as E.
    { unfold k. destruct ls as [|l' ls].
      - by rewrite app_nil_r.
      - rewrite joined_cons by done. unfold iline_text. by rewrite <- !app_assoc. }
    rewrite E in *. destruct (match_irq b (il_pad l) (il_irq l) (il_rest l ++ k) Hb Hz) as [t Hm].
    cbn [find_from]. rewrite Hm. cbn [m_end rest].
    rewrite !length_app in Hf. cbn [length] in Hf. rewrite length_app in Hf.
    assert (Nat.ltb (length (il_rest l ++ k))
      (length (blanks (il_pad l) ++ chars_of (py_str_Z (il_irq l)) ++ ":"%char :: il_rest l ++ k)) = true) as ->.
    { apply Nat.ltb_lt. rewrite !length_app. cbn [length]. rewrite length_app. lia. }
    cbn [map]. f_equal; [by apply m_group_str_Z|].
    rewrite find_in_line; [|done|done|rewrite length_app; lia|by unfold k; destruct ls].
    destruct (after_no_LF ":"%char (il_rest l)) as (d & -> & Hd); [done|done|].
    destruct (fuel - length (il_rest l))%nat as [|fuel'] eqn:Ef; [lia|]. cbn [find_from].
    rewrite match_irq_no by done. unfold k in *. destruct ls as [|l' ls]; [done|].
    cbn [step rest]. cbn [length] in *. apply IH; [done|lia].
Qed.

Lemma interrupts_joined ls : ls ≠ [] → interrupts_text ls = joined ls ++ [LF].
Proof.
  induction ls as [|l ls IH]; [done|]. intros _. unfold interrupts_text in *. cbn [map concat].
  destruct ls as [|l' ls]; [apply app_nil_r|]. rewrite IH, (joined_cons l) by done.
  rewrite <- !app_assoc. done.
Qed.

Lemma joined_snoc ls l : joined (ls ++ [l]) = interrupts_text ls ++ iline_text l.
Proof.
  induction ls as [|l' ls IH]; [done|]. cbn [app]. rewrite joined_cons by (by destruct ls).
  rewrite IH. unfold interrupts_text. cbn [map concat]. by rewrite <- !app_assoc.
Qed.

(** A text without the blanks at its end. *)
Lemma trim_right l : ∃ l' ws, l = l' ++ ws ∧ spaces ws ∧
  match last_opt l' with Some c => is_space c = false | None => True end.
Proof.
  induction l as [|c l (l' & ws & -> & Hws & Hl)] using rev_ind; [by exists [], []|].
  destruct (is_space c) eqn:E.
  - exists l', (ws ++ [c]). rewrite app_assoc. split_and!; [done| |done]. apply Forall_app. by repeat constructor.
  - exists (l' ++ ws ++ [c]), []. rewrite !app_nil_r, app_assoc, last_opt_snoc. by split_and!.
Qed.

(** Stripping the text changes the first and the last line, not the numbers. *)
Lemma strip_interrupts ls :
  ls ≠ [] → Forall valid_iline ls →
  ∃ ls', strip_chars is_space (interrupts_text ls) = joined ls' ∧ Forall valid_iline ls' ∧
    map il_irq ls' = map il_irq ls.
Proof.
  intros Hne Hv. rewrite interrupts_joined by done.
  (* the last line *)
  assert (∃ ls1 ws, joined ls = joined ls1 ++ ws ∧ spaces ws ∧ ls1 ≠ [] ∧ Forall valid_iline ls1 ∧
    map il_irq ls1 = map il_irq ls ∧
    match last_opt (joined ls1) with Some c => is_space c = false | None => True end)
    as (ls1 & ws & E & Hws & Hne1 & Hv1 & Hirq & Hlast).
  { destruct (exists_last Hne) as (init & l & ->). apply Forall_app in Hv as [Hinit Hl].
    inversion Hl as [|? ? [Hz Hr] _]; subst. destruct (trim_right (il_rest l)) as (r & ws & Er & Hws & Hlast).
    exists (init ++ [ILine (il_pad l) (il_irq l) r]), ws. rewrite !joined_snoc. unfold iline_text.
    cbn [il_pad il_irq il_rest]. rewrite Er in *. split_and!.
    - by rewrite <- !app_assoc, <- !app_comm_cons.
    - done.
    - by destruct init.
    - apply Forall_app. split; [done|]. repeat constructor; [done|]. cbn. by apply Forall_app in Hr as [? _].
    - by rewrite !map_app.
    - rewrite !app_assoc. destruct r as [|c r]; [by rewrite last_opt_snoc|].
      change (":"%char :: c :: r) with ([":"%char] ++ (c :: r)). rewrite app_assoc, last_opt_app by done. done. }
  (* the first one *)
  destruct ls1 as [|l ls1]; [done|]. inversion Hv1 as [|? ? [Hz Hr] Hv1']; subst.
  set (ls' := ILine 0 (il_irq l) (il_rest l) :: ls1).
  assert (joined (l :: ls1) = blanks (il_pad l) ++ joined ls') as E1.
  { unfold ls'. destruct ls1 as [|l' ls1]; [done|]. rewrite (joined_cons l), (joined_cons (ILine _ _ _)) by done. unfold iline_text.
    cbn [il_pad il_irq il_rest]. change (blanks 0) with (@nil ascii). cbn [app]. by rewrite <- !app_assoc. }
  destruct (nat_digits (il_irq l) Hz) as (d & ds & Ed & Hd).
  assert (∃ k, joined ls' = d :: k) as [k Ek].
  { unfold ls'. destruct ls1; cbn [joined]; unfold iline_text; cbn [il_pad il_irq il_rest]; rewrite Ed; eexists; done. }
  exists ls'. split_and!; [|by constructor|done].
  rewrite E, E1, <- !app_assoc. apply strip_padded; [apply blanks_spaces| | |by rewrite Ek].
  - apply Forall_app. by repeat constructor.
  - split; [rewrite Ek; inversion Hd; subst; by apply digit_not_space|].
    rewrite E1, last_opt_app in Hlast; [|by rewrite Ek]. done.
Qed.

Lemma strip_number z : 0 ≤ z → py_strip_of ":" (py_str_Z z) = py_str_Z z.
Proof.
  intros Hz. unfold py_strip_of. rewrite strip_trimmed; [apply str_of_chars_of|].
  destruct (nat_digits z Hz) as (d & ds & -> & Hd).
  assert (∀ c, c ∈ d :: ds → bool_decide (c ∈ chars_of ":") = false) as H.
  { intros c Hc. pose proof (proj1 (list.Forall_forall _ _) Hd c Hc) as Hdig.
    apply bool_decide_false. change (chars_of ":") with [":"%char]. rewrite list_elem_of_singleton.
    by intros ->. }
  split; [apply H; left|]. destruct (last_opt (d :: ds)) as [c|] eqn:E; [|done].
  by apply H, last_opt_elem.
Qed.

(** The test reads the numbers of the lines, whatever the blanks before them, and whatever
    numbers and colons the rest of a line has. *)
Lemma irq_numbers_lines ls :
  ls ≠ [] → Forall valid_iline ls →
  irq_numbers (py_strip (str_of (interrupts_text ls))) = Ret (map (λ l, VInt (il_irq l)) ls).
Proof.
  intros Hne Hv. destruct (strip_interrupts ls Hne Hv) as (ls' & Hs & Hv' & Hirq).
  unfold irq_numbers, re_findall, py_strip, start. rewrite !chars_of_str_of, Hs. cbn [rest].
  pose proof (find_lines ls' None (S (length (joined ls'))) Hv' I (Nat.lt_succ_diag_r _)) as Hf.
  revert Hf. generalize (find_from true re_irq (S (length (joined ls'))) (Pos None (joined ls'))) as ms.
  rewrite <- (List.map_map il_irq py_str_Z), <- (List.map_map il_irq VInt), Hirq.
  assert (Forall (λ z, 0 ≤ z) (map il_irq ls)) as Hz.
  { clear -Hv. induction Hv as [|l ls [Hl _] _ IH]; by constructor. }
  revert Hz. generalize (map il_irq ls) as zs. clear. intros zs Hz ms. revert zs Hz.
  induction ms as [|m ms IH]; intros [|z zs] Hz Hf; try done. injection Hf as Hm Hf.
  inversion Hz as [|? ? Hz0 Hz']; subst. cbn [foldr map]. rewrite (IH zs Hz' Hf), Hm.
  by rewrite strip_number, py_int_str.
Qed.

(** ** Names of NVMe disks *)

Definition nvme_disk (k j : Z) (part : string) : string :=
  "/dev/nvme" +:+ py_str_Z k +:+ "n" +:+ py_str_Z j +:+ part.

Lemma search_nvme k j part :
  0 ≤ k → 0 ≤ j → head_not is_digit (chars_of part) →
  ∃ m, re_search re_nvme (nvme_disk k j part) = Some m ∧ m_group 1 m = "nvme" +:+ py_str_Z k.
Proof.
  intros Hk Hj Hp. unfold re_search, nvme_disk, start. autorewrite with pystr. cbn [rest].
  set (t := chars_of (py_str_Z k) ++ chars_of "n" ++ chars_of (py_str_Z j) ++ chars_of part).
  change (chars_of "/dev/nvme" ++ t) with ("/"%char :: "d"%char :: "e"%char :: "v"%char :: (chars_of "/nvme" ++ t)).
  cbn [length search_from].
  do 4 (match goal with |- context [match_at false re_nvme ?p] =>
          change (match_at false re_nvme p) with (@None rmatch) end; cbn [step rest]).
  set (p := Pos (Some "v"%char) (chars_of "/nvme" ++ t)).
  assert (∃ m, match_at false re_nvme p = Some m ∧ m_group 1 m = "nvme" +:+ py_str_Z k) as (m & Hm & Hg).
  { unfold p, match_at, re_nvme, t. destruct (nat_digits k Hk) as (d & ds & Ed & Hd). rewrite Ed.
    destruct (nat_digits j Hj) as (e & es & Ee & He). rewrite Ee.
    change (RLit "nvme") with (RSeq (RChar "n") (RSeq (RChar "v") (RSeq (RChar "m") (RChar "e")))).
    cbn [chars_of list_ascii_of_string app]. eexists. split.
    - rewrite run_seq. unfold RChar at 1. rewrite run_class by done. rewrite run_seq, run_group.
      repeat rewrite run_seq. unfold RChar at 1. rewrite run_class by done.
      repeat rewrite run_seq. unfold RChar at 1. rewrite run_class by done.
      repeat rewrite run_seq. unfold RChar at 1. rewrite run_class by done.
      unfold RChar at 1. rewrite run_class by done.
      apply (run_plus_class false is_digit d ds ("n"%char :: _)); [done|done|].
      rewrite run_seq. unfold RChar at 1. rewrite run_class by done.
      apply (run_plus_class false is_digit e es); [done|done|]. reflexivity.
    - unfold m_group. cbn [m_groups group_chars Nat.eqb].
      match goal with |- str_of (text_between (Pos ?b _) (Pos ?b' ?l)) = _ =>
        pose proof (text_between_app b (["n"; "v"; "m"; "e"]%char ++ d :: ds) l b') as H end.
      cbn [app] in H. rewrite H. apply chars_of_inj. by rewrite chars_of_str_of, chars_of_app, Ed. }
  exists m. split; [|done]. destruct (length (chars_of "/nvme" ++ t)) as [|f]; cbn [search_from]; by rewrite Hm.
Qed.
