(* ===== verification/IrqSystem.v ===== *)
(** * The irqbalance tests on a machine

    The class [IrqMachine] says what the tests rely on of the kernel: the affinity of an
    interrupt and the online CPUs.  On every such machine the verdicts of the tests are
    determined, and the theorems say which they are. *)

From Stdlib Require Import Sorted.
From stdpp Require Import gmap.
From S2P Require Import Prelude PyStr PyFloat PyVal PyRegex Avocado Logic IrqBalance IrqText.
Open Scope Z_scope.

(** ** What [wait.wait_for] promises *)

Class WaitLaws (W : Type) `{HI : IrqLib W} := {
  (* a true value ends the wait *)
  wait_true f t w x v w' x' :
    0 < t → runs f w x (Ret v) w' x' → truthy v = true → runs (wait_for f t) w x (Ret v) w' x';
  (* it does nothing but call the function, some number of times *)
  wait_inv (I : W → irq_self → Prop) f t w x :
    (∀ w x, I w x → ∃ v w' x', runs f w x (Ret v) w' x' ∧ I w' x') →
    I w x → ∃ v w' x', runs (wait_for f t) w x (Ret v) w' x' ∧ I w' x';
}.

(** ** Contiguous lists *)

Definition contiguous (l : list Z) : Prop := ∃ a, l = seqZ a (Z.of_nat (length l)).

Lemma contiguous_take n l : contiguous l → contiguous (take n l).
Proof.
  intros [a ->]. exists a. destruct (Nat.le_gt_cases n (length l)) as [Hn|Hn].
  - rewrite length_take, length_seqZ, Nat2Z.id, Nat.min_l by done.
    replace (Z.of_nat (length l)) with (Z.of_nat n + (Z.of_nat (length l) - Z.of_nat n)) by lia.
    rewrite seqZ_app by lia. apply take_app_length'. rewrite length_seqZ. lia.
  - rewrite take_ge; rewrite ?length_seqZ; [f_equal|]; lia.
Qed.

Lemma interval_contiguous l : interval l ↔ contiguous l ∧ (2 ≤ length l)%nat.
Proof.
  split.
  - intros (a & n & ->). rewrite length_seqZ. split; [|lia]. exists a. rewrite length_seqZ. f_equal. lia.
  - intros [[a E] Hl]. exists a, (length l - 2)%nat. rewrite E at 1. f_equal. lia.
Qed.

(** A list is contiguous, or has a first element that breaks the sequence. *)
Lemma contiguous_or_gap l :
  contiguous l ∨ ∃ k, (1 ≤ k < length l)%nat ∧ contiguous (take k l) ∧ ¬ contiguous (take (S k) l).
Proof.
  induction l as [|c l IH] using rev_ind; [left; by exists 0|].
  destruct IH as [Hl|(k & Hk & H1 & H2)].
  - destruct l as [|d l]; [left; by exists c|]. destruct Hl as [a Ha].
    assert (length ((d :: l) ++ [c]) = S (length (d :: l))) as El by (rewrite length_app; simpl; lia).
    destruct (decide (c = a + Z.of_nat (length (d :: l)))) as [->|Hc].
    + left. exists a. rewrite El, seqZ_S, <- Ha. done.
    + right. exists (length (d :: l)). rewrite El. rewrite take_app_length, take_ge by lia.
      split; [simpl; lia|]. split; [by exists a|]. intros [b Hb]. rewrite El, seqZ_S in Hb.
      apply app_inj_tail in Hb as [Hb ->]. rewrite Hb in Ha at 1. cbn [length] in *.
      rewrite (seqZ_cons a), (seqZ_cons b) in Ha by lia. congruence.
  - right. exists k. rewrite length_app. split; [lia|]. by rewrite !take_app_le by lia.
Qed.

(** ** The affinity of an interrupt *)

(** CPU numbers as the kernel lists them. *)
Definition cpu_set (l : list Z) : Prop := increasing_list l ∧ Forall (λ c, 0 ≤ c) l.

(** A machine with a device of type [t], whose interrupt [irq] the test chooses. *)
Class AffinityMachine {W : Type} {HE : Env W} {HI : IrqLib W} (t : pyval) (irq : Z) := {
  affinity : W → list Z;
  device_lines : list iline;
  am_valid : Forall valid_iline device_lines;
  am_chosen : ∃ l, device_lines = [l] ∧ il_irq l = irq ∨ ∃ l1 ls, device_lines = l1 :: l :: ls ∧ il_irq l = irq;
  am_grep w : ∃ w', env_run ("grep " +:+ py_str t +:+ " /proc/interrupts") [Shell; IgnoreStatus] w =
    (Ret (CmdResult 0 (str_of (interrupts_text device_lines))), w') ∧ affinity w' = affinity w;
  am_head w : ∃ r w', env_run ("head -n 1 /proc/interrupts && grep " +:+ py_str t +:+ " /proc/interrupts")
    [Shell; IgnoreStatus] w = (Ret r, w') ∧ affinity w' = affinity w;
  (* writing a list of CPUs, with commas, sets the affinity *)
  am_echo sep l w : sep ∈ [","; ", "]%string → l ≠ [] → cpu_set l →
    ∃ out w', env_run ("echo " +:+ py_join sep (map py_str_Z l) +:+ " > " +:+ smp_affinity_list (VInt irq))
      [Shell; IgnoreStatus] w = (Ret (CmdResult 0 out), w') ∧ affinity w' = l;
  (* reading it gives the list in the kernel's format *)
  am_read w : env_read (smp_affinity_list (VInt irq)) w = (Ret (cpulist_text (affinity w) +:+ NL), w);
  am_dmesg w : ∃ v w', lib_call "dmesg.collect_errors_dmesg" [VList errorlog] w = (Ret v, w') ∧
    affinity w' = affinity w;
}.

Section affinity.
Context {W : Type} {HE : Env W} {HI : IrqLib W} {HW : WaitLaws W}.
Context (t : pyval) (irq : Z) {HM : AffinityMachine t irq}.

Definition affinity_error : exn :=
  Exn TestFail "The smp_affinity_list does not matches to affinity that was set by script, Please check the logs".

(** What is left of the attributes: the interface type, the interrupt and the CPUs. *)
Record ready (l : list Z) (x : irq_self) : Prop := {
  rd_type : ib_interface_type x = t;
  rd_irq : ib_irq_number x = VInt irq;
  rd_list : ib_cpu_list x = l;
}.

Lemma inner_repr l : inner (py_str (VList (map VInt l))) = py_join ", " (map py_str_Z l).
Proof.
  unfold inner.
  change (py_str (VList (map VInt l))) with ("[" +:+ py_join ", " (map py_repr (map VInt l)) +:+ "]").
  rewrite List.map_map. change (map (λ x, py_repr (VInt x)) l) with (map py_str_Z l).
  apply chars_of_inj. autorewrite with pystr.
  change (chars_of "[") with ["["%char]. cbn [app drop]. rewrite !drop_0.
  rewrite length_app. change (length (chars_of "]")) with 1%nat. rewrite Nat.add_sub. apply take_app_length.
Qed.

Lemma echo_runs sep l w x :
  ib_irq_number x = VInt irq → sep ∈ [","; ", "]%string → l ≠ [] → cpu_set l →
  ∃ w', runs (echo_affinity (py_join sep (map py_str_Z l))) w x (Ret ()) w' x ∧ affinity w' = l.
Proof using Type.
  intros Hx Hsep Hne Hl. destruct (am_echo sep l w Hsep Hne Hl) as (out & w' & E & Ha).
  exists w'. split; [|done]. unfold echo_affinity. run_step. rewrite Hx.
  eapply runs_bind; [by apply runs_ext|]. cbv beta. simpl exit_status. run.
Qed.

Lemma wait_module_runs n l w x :
  ib_interface_type x = t → affinity w = l →
  ∃ v w', runs (wait_for get_module_interrupts n) w x (Ret v) w' x ∧ affinity w' = l.
Proof using HM HW.
  intros Hx Ha. destruct (wait_inv (λ w' x', affinity w' = l ∧ x' = x) get_module_interrupts n w x)
    as (v & w' & x' & H & Ha' & ->); [|done|by eauto].
  intros w1 x1 [Ha1 ->]. destruct (am_head w1) as (r & w2 & E & Ha2).
  exists VNone, w2, x. split; [|split; [congruence|done]].
  unfold get_module_interrupts. run_step. rewrite Hx. eapply runs_bind; [by apply runs_ext|]. run.
Qed.

Lemma sleep_int n (w : W) (x : irq_self) : 0 ≤ n → runs (sleep (VInt n)) w x (Ret ()) w x.
Proof using Type.
  intros Hn. apply runs_sleep. unfold sleepable. simpl. rewrite num_lt_int.
  by destruct (Z.ltb_spec n 0); [lia|].
Qed.

(** The check of the affinity that is set: it passes for an interval. *)
Lemma validation_runs l w x :
  ib_irq_number x = VInt irq → ib_cpu_range x = Some l → l ≠ [] → cpu_set l → affinity w = l →
  ∃ r x', runs cpu_range_validation w x r w x' ∧
    ib_irq_number x' = VInt irq ∧ ib_cpu_range x' = Some l ∧ ib_cpu_list x' = ib_cpu_list x ∧
    ib_interface_type x' = ib_interface_type x ∧
    (interval l → r = Ret ()) ∧ (¬ interval l → r = Raise affinity_error).
Proof using HM.
  intros Hirq Hr Hne [Hs Hp] Ha.
  assert (∃ a b, first_last l = Ret (a, b)) as (a & b & Hab).
  { unfold first_last. destruct l as [|a l]; [done|].
    destruct (last_opt (a :: l)) as [b|] eqn:E; [eauto|]. by apply last_opt_None in E. }
  destruct (compare_self l a b Hs Hp Hab) as (c & Hc & Hcl).
  eexists (if c then Ret () else Raise affinity_error),
    (with_system_affinity (cpulist_text l +:+ NL) (with_irq_affinity (py_join "-" [py_str_Z a; py_str_Z b]) x)).
  split; [|split_and!; try done; destruct c; naive_solver].
  unfold cpu_range_validation. run_step. rewrite Hab. do 3 run_step.
  simpl ib_irq_number. rewrite Hirq. eapply runs_bind; [apply runs_silent, am_read|]. rewrite Ha.
  run_step. eapply runs_bind; [by apply sleep_int|]. cbv beta.
  change (py_join "-" [py_str_Z a; py_str_Z b]) with (range_text a b). rewrite Hc. run_step.
  destruct c; cbn [negb]; [apply runs_when_false|]. apply runs_when_true, runs_throw.
Qed.

Lemma cpu_set_take n l : cpu_set l → cpu_set (take n l).
Proof.
  intros [Hs Hp]. split; [|by apply Forall_take]. clear Hp. revert n.
  induction Hs as [|c l Hs IH Hc]; intros [|n]; simpl; constructor; [by apply IH|by apply Forall_take].
Qed.

(** One step of the assignment: it fails when the CPUs are no interval. *)
Lemma assign_step_runs l k w x :
  cpu_set l → ready l x → (k < length l)%nat →
  ∃ r w' x', runs (assign_step k) w x r w' x' ∧ ready l x' ∧
    ib_cpu_range x' = Some (take (S k) l) ∧ affinity w' = take (S k) l ∧
    (contiguous (take (S k) l) → r = Ret ()) ∧
    ((1 ≤ k)%nat → ¬ contiguous (take (S k) l) → r = Raise affinity_error).
Proof using HM HW.
  intros Hl [Ht Hi Hx] Hk. set (l' := take (S k) l). set (x1 := with_cpu_range l' x).
  assert (length l' = S k) as Hlen by (unfold l'; rewrite length_take; lia).
  assert (l' ≠ []) as Hne by (intros E; by rewrite E in Hlen).
  pose proof (cpu_set_take (S k) l Hl) as Hl'.
  destruct (echo_runs ", " l' w x1) as (w1 & E1 & A1); [done|by repeat constructor|done|done|].
  destruct (wait_module_runs 5 l' w1 x1) as (v & w2 & E2 & A2); [done|done|].
  destruct (validation_runs l' w2 x1) as (r & x2 & E3 & Hi2 & Hr2 & Hl2 & Ht2 & Hok & Hbad); [done..|].
  rewrite interval_contiguous, Hlen in Hok, Hbad.
  unfold assign_step. destruct (1 <? Z.of_nat (length l')) eqn:Elen; bool_to_Z.
  - exists r, w2, x2. split_and!; [|split; [by rewrite Ht2|done|by rewrite Hl2]|done|done|intros Hc; apply Hok; split; [done|lia]|naive_solver].
    run_step. rewrite Hx. fold l'. run_step. fold x1. eapply runs_bind; [rewrite inner_repr; exact E1|].
    cbv beta. eapply runs_bind; [exact E2|]. cbv beta. eapply runs_bind; [by apply runs_attr|]. cbv beta.
    apply Z.ltb_lt in Elen. rewrite Elen. by apply runs_when_true.
  - exists (Ret ()), w2, x1. split_and!; [|by split|done|done|done|lia].
    run_step. rewrite Hx. fold l'. run_step. fold x1. eapply runs_bind; [rewrite inner_repr; exact E1|].
    cbv beta. eapply runs_bind; [exact E2|]. cbv beta. eapply runs_bind; [by apply runs_attr|]. cbv beta.
    apply Z.ltb_ge in Elen. rewrite Elen. apply runs_when_false.
Qed.

Definition assigned (l : list Z) (done : list nat) (w : W) (x : irq_self) : Prop :=
  ready l x ∧ (done ≠ [] → ib_cpu_range x = Some (take (length done) l) ∧ affinity w = take (length done) l).

Lemma seq_app_inv (dn : list nat) k todo n :
  seq 0 n = dn ++ k :: todo → k = length dn ∧ (k < n)%nat.
Proof.
  intros E. assert (seq 0 n !! length dn = Some k) as H by (rewrite E; apply list_lookup_middle; done).
  apply lookup_seq in H as [-> ?]. lia.
Qed.

(** The steps on contiguous CPUs. *)
Lemma assign_invariant l n dn k todo w x :
  cpu_set l → contiguous (take n l) → (n ≤ length l)%nat →
  seq 0 n = dn ++ k :: todo → assigned l dn w x →
  ∃ w' x', runs (assign_step k) w x (Ret ()) w' x' ∧ assigned l (dn ++ [k]) w' x'.
Proof using HM HW.
  intros Hl Hc Hn E [Hr _]. apply seq_app_inv in E as [-> Hk].
  destruct (assign_step_runs l (length dn) w x Hl Hr) as (r & w' & x' & H & Hr' & H1 & H2 & Hok & _); [lia|].
  rewrite Hok in H.
  - exists w', x'. split; [done|]. split; [done|]. intros _. rewrite length_app, Nat.add_1_r. done.
  - apply (contiguous_take (S (length dn))) in Hc. by rewrite take_take, Nat.min_l in Hc by lia.
Qed.

(** Taking the CPUs back: the affinity ends with the first two. *)
Lemma unassign_runs fuel l w x :
  cpu_set l → contiguous l → ib_irq_number x = VInt irq → ib_interface_type x = t →
  ib_cpu_range x = Some l → (length l ≤ fuel)%nat → l ≠ [] →
  ∃ w' x', runs (unassign_loop fuel) w x (Ret ()) w' x' ∧
    affinity w' = (if 1 <? Z.of_nat (length l) then take 2 l else affinity w) ∧
    ib_cpu_range x' = Some (take 1 l) ∧ ib_irq_number x' = VInt irq.
Proof using HM HW.
  revert l w x. induction fuel as [|fuel IH]; intros l w x Hl Hc Hi Ht Hr Hf Hne.
  { destruct l; [done|]. simpl in Hf. lia. }
  cbn [unassign_loop]. destruct (1 <? Z.of_nat (length l)) eqn:Elen.
  2: { exists w, x. apply Z.ltb_ge in Elen as Hlen. destruct l as [|a [|b l]]; [done| |simpl in Hlen; lia].
       split_and!; [|done|done|done]. eapply runs_bind; [by apply runs_attr|]. cbv beta. rewrite Elen. run. }
  apply Z.ltb_lt in Elen as Hlen.
  destruct (echo_runs "," l w x) as (w1 & E1 & A1); [done|by repeat constructor|done|done|].
  destruct (validation_runs l w1 x) as (r & x2 & E2 & Hi2 & Hr2 & Hl2 & Ht2 & Hok & _); [done..|].
  rewrite Hok in E2 by (apply interval_contiguous; split; [done|lia]).
  destruct (wait_module_runs 5 l w1 x2) as (v & w3 & E3 & A3); [congruence|done|].
  set (l' := take (length l - 1) l).
  assert (length l' = length l - 1)%nat as Hlen' by (unfold l'; rewrite length_take; lia).
  destruct (IH l' w3 (with_cpu_range l' x2)) as (w4 & x4 & E4 & A4 & R4 & Hi4);
    [by apply cpu_set_take|by apply contiguous_take|done|cbn; congruence|done|lia|by intros E; rewrite E in Hlen'; simpl in Hlen'; lia|].
  exists w4, x4. split_and!.
  - eapply runs_bind; [by apply runs_attr|]. cbv beta. rewrite Elen.
    eapply runs_bind; [exact E1|]. cbv beta. eapply runs_bind; [apply runs_when_true, E2|]. cbv beta.
    eapply runs_bind; [exact E3|]. cbv beta. eapply runs_bind; [by apply runs_attr|]. cbv beta.
    eapply runs_bind; [apply runs_modify|]. exact E4.
  - rewrite A4, A3. destruct (Z.ltb_spec 1 (Z.of_nat (length l'))).
    + unfold l'. by rewrite take_take, Nat.min_l by lia.
    + by rewrite take_ge by lia.
  - rewrite R4. unfold l'. by rewrite take_take, Nat.min_l by lia.
  - done.
Qed.

(** The interrupt of the device is found. *)
Lemma device_runs l w x :
  ib_interface_type x = t → ib_cpu_list x = l →
  ∃ w' x', ready l x' ∧ affinity w' = affinity w ∧
    ∀ (k : M W irq_self ()) r w2 x2, runs k w' x' r w2 x2 →
      runs (_ ← get_device_interrupts; _ ← get_irq_numbers; choose_irq ;; k) w x r w2 x2.
Proof using HM.
  intros Ht Hl. destruct (am_grep (t:=t) (irq:=irq) w) as (w' & E & Ha).
  set (s := py_strip (str_of (interrupts_text device_lines))).
  assert (device_lines ≠ []) as Hne by (destruct am_chosen as (l0 & [[-> _]|(? & ? & -> & _)]); done).
  pose proof (irq_numbers_lines device_lines Hne am_valid) as Hn.
  set (x1 := with_irq_number (VList (map (λ l, VInt (il_irq l)) device_lines)) (with_device_interrupts s x)).
  exists w', (with_irq_number (VInt irq) x1). split; [by split|]. split; [done|]. intros k r w2 x2 Hk.
  eapply runs_bind; [unfold get_device_interrupts; run_step; rewrite Ht; eapply runs_bind; [by apply runs_ext|]; run|].
  eapply runs_bind; [unfold get_irq_numbers; run_step; cbn [with_device_interrupts ib_device_interrupts stdout_text];
                     rewrite Hn; run|].
  cbn [stdout_text]. fold s. fold x1. eapply runs_bind; [|exact Hk].
  unfold choose_irq. do 3 run_step.
  destruct am_chosen as (l0 & [[-> Hi]|(l1 & ls & -> & Hi)]); cbn [map]; rewrite Hi; apply runs_modify.
Qed.

Lemma dmesg_runs w (x : irq_self) :
  ∃ w', runs collect_errors_dmesg w x (Ret ()) w' x ∧ affinity w' = affinity w.
Proof using HM.
  destruct (am_dmesg (t:=t) (irq:=irq) w) as (v & w' & E & Ha). exists w'. split; [|done].
  eapply runs_bind; [by apply runs_ext|]. run.
Qed.

(** on CPUs that are consecutive, [test_irq_balance] passes; the interrupt is left with
    the first two of them. *)
Theorem test_irq_balance_contiguous l w x :
  cpu_set l → l ≠ [] → ib_interface_type x = t → ib_cpu_list x = l → contiguous l →
  ∃ w' x', runs test_irq_balance w x (Ret ()) w' x' ∧ affinity w' = take 2 l ∧
    ib_irq_number x' = VInt irq.
Proof using HM HW.
  intros Hl Hne Ht Hx Hc. destruct (device_runs l w x Ht Hx) as (w1 & x1 & Hr1 & _ & Hk).
  destruct (runs_for_each (seq 0 (length l)) assign_step (assigned l) w1 x1) as (w2 & x2 & E2 & [Hr2 Ha2]);
    [|by split|].
  { intros dn k todo w2 x2 E HA. apply (assign_invariant l (length l) dn k todo); [done| |done|done|done].
    by rewrite take_ge. }
  rewrite length_seq, take_ge in Ha2 by done.
  destruct Ha2 as [Hrange Ha2]; [by destruct l|].
  destruct (dmesg_runs w2 x2) as (w3 & E3 & A3).
  destruct Hr2 as [Ht2 Hi2 Hx2].
  destruct (unassign_runs (length l) l w3 x2) as (w4 & x4 & E4 & A4 & _ & Hi4); [done..|].
  destruct (dmesg_runs w4 x4) as (w5 & E5 & A5).
  exists w5, x4. split_and!; [|rewrite A5, A4, A3, Ha2; destruct (Z.ltb_spec 1 (Z.of_nat (length l))); [done|by rewrite take_ge by lia]|done].
  apply Hk. destruct Hr1 as [_ _ Hx1]. run_step. rewrite Hx1.
  eapply runs_bind; [exact E2|]. cbv beta. eapply runs_bind; [exact E3|]. cbv beta.
  eapply runs_bind; [|exact E5]. unfold unassign. eapply runs_bind; [by apply runs_attr|]. exact E4.
Qed.

(** when a CPU number is missing between the online CPUs, [test_irq_balance] fails, though
    the machine has exactly the affinity that the test asked for: the check compares the
    first and last CPU with the first range of the list. *)
Theorem test_irq_balance_gap l w x :
  cpu_set l → l ≠ [] → ib_interface_type x = t → ib_cpu_list x = l → ¬ contiguous l →
  ∃ w' x' asked, runs test_irq_balance w x (Raise affinity_error) w' x' ∧
    ib_cpu_range x' = Some asked ∧ affinity w' = asked ∧ asked `prefix_of` l.
Proof using HM HW.
  intros Hl Hne Ht Hx Hc. destruct (device_runs l w x Ht Hx) as (w1 & x1 & Hr1 & _ & Hk).
  destruct (contiguous_or_gap l) as [|(k & Hkl & Hpre & Hgap)]; [done|].
  destruct (runs_for_each_raise (seq 0 k) k (seq (S k) (length l - S k)) assign_step (assigned l) affinity_error
    (λ w' x', ib_cpu_range x' = Some (take (S k) l) ∧ affinity w' = take (S k) l) w1 x1)
    as (w2 & x2 & E2 & HQ1 & HQ2).
  - intros dn j todo w2 x2 E HA. apply (assign_invariant l k dn j todo); [done|done|lia|done|done].
  - intros w2 x2 [Hr2 _]. destruct (assign_step_runs l k w2 x2 Hl Hr2) as (r & w3 & x3 & E & _ & H1 & H2 & _ & Hbad);
      [lia|]. exists w3, x3. rewrite Hbad in E by (done || lia). done.
  - by split.
  - exists w2, x2, (take (S k) l). split_and!; [|done|done|apply prefix_take].
    apply Hk. destruct Hr1 as [_ _ Hx1]. run_step. rewrite Hx1. eapply runs_bind_raise.
    replace (seq 0 (length l)) with (seq 0 k ++ k :: seq (S k) (length l - S k)); [exact E2|].
    replace (length l) with (k + S (length l - S k))%nat at 2 by lia. by rewrite seq_app.
Qed.
End affinity.

(** ** The online CPUs *)

(** A machine where the CPUs of [stuck] cannot be taken offline.  The kernel never takes the
    last online CPU offline. *)
Class CpuMachine {W : Type} {HE : Env W} {HI : IrqLib W} := {
  online : W → gset Z;
  stuck : gset Z;
  cm_offline c d w : c ∈ online w → d ∈ online w → c ≠ d → ∃ w', cpu_offline c w = (Ret (), w') ∧
    online w' = if decide (c ∈ stuck) then online w else online w ∖ {[c]};
  cm_online c w : ∃ w', cpu_online c w = (Ret (), w') ∧ online w' = {[c]} ∪ online w;
  cm_list w : ∃ l, cpu_online_list w = (Ret l, w) ∧ ∀ c, c ∈ l ↔ c ∈ online w;
  cm_dmesg w : ∃ v w', lib_call "dmesg.collect_errors_dmesg" [VList errorlog] w = (Ret v, w') ∧
    online w' = online w;
}.

Section cpus.
Context {W : Type} {HE : Env W} {HI : IrqLib W} {HC : CpuMachine}.
Implicit Types (x : irq_self) (w : W).

Lemma all_but_last_snoc l d : all_but_last (l ++ [d]) = l.
Proof. unfold all_but_last. rewrite length_app, Nat.add_sub. apply take_app_length. Qed.

Lemma online_list_runs w x :
  ∃ l, runs online_list w x (Ret l) w x ∧ ∀ c, c ∈ l ↔ c ∈ online w.
Proof using HC. destruct (cm_list w) as (l & E & Hl). exists l. split; [|done]. by apply runs_silent. Qed.

Definition offline_error (c : Z) : exn :=
  Exn TestFail (" The offlined cpu " +:+ py_str_Z c +:+ " is still showing as online, Please check the logs").

Lemma offline_step_runs c d w x :
  c ∈ online w → d ∈ online w → c ≠ d →
  ∃ w', runs (offline_step c) w x (if decide (c ∈ stuck) then Raise (offline_error c) else Ret ()) w' x ∧
    online w' = if decide (c ∈ stuck) then online w else online w ∖ {[c]}.
Proof using HC.
  intros Hc Hd Hne. destruct (cm_offline c d w Hc Hd Hne) as (w' & E & Ho).
  destruct (online_list_runs w' x) as (l & El & Hl). exists w'. split; [|done].
  unfold offline_step. run_step. eapply runs_bind; [by apply runs_ext|]. cbv beta.
  eapply runs_bind; [exact El|]. cbv beta. pose proof (Hl c) as Hcl. rewrite Ho in Hcl.
  destruct (decide (c ∈ stuck)).
  - rewrite bool_decide_true by tauto. apply runs_when_true, runs_throw.
  - rewrite bool_decide_false by set_solver. apply runs_when_false.
Qed.

Lemma online_step_runs c w x :
  ∃ w', runs (online_step c) w x (Ret ()) w' x ∧ online w' = {[c]} ∪ online w.
Proof using HC.
  destruct (cm_online c w) as (w' & E & Ho). destruct (online_list_runs w' x) as (l & El & Hl).
  exists w'. split; [|done]. unfold online_step. run_step. eapply runs_bind; [by apply runs_ext|]. cbv beta.
  eapply runs_bind; [exact El|]. cbv beta. rewrite bool_decide_true; [apply runs_when_false|].
  apply Hl. set_solver.
Qed.

(** CPUs that can go offline do, while the last one stays. *)
Lemma offline_invariant l0 d dn c todo (O : gset Z) w x0 x :
  NoDup (l0 ++ [d]) → O = list_to_set (l0 ++ [d]) → l0 = dn ++ c :: todo →
  x = x0 ∧ online w = O ∖ list_to_set dn →
  ∃ w', runs (offline_step c) w x (if decide (c ∈ stuck) then Raise (offline_error c) else Ret ()) w' x0 ∧
    online w' = if decide (c ∈ stuck) then O ∖ list_to_set dn else O ∖ list_to_set (dn ++ [c]).
Proof using HC.
  intros Hnd -> -> [-> Ho]. rewrite <- app_assoc in Hnd. cbn [app] in Hnd.
  apply list.NoDup_app in Hnd as (_ & Hdn & Hnd). inversion Hnd as [|? ? Hc _]; subst.
  assert (∀ e, e ∈ c :: todo ++ [d] → e ∈ online w) as Hin.
  { intros e He. rewrite Ho. apply elem_of_difference. rewrite !elem_of_list_to_set. split.
    - rewrite <- app_assoc. apply elem_of_app. by right.
    - intros He'. by apply (Hdn e). }
  assert (d ∈ todo ++ [d]) as Hd by (apply elem_of_app; right; left).
  destruct (offline_step_runs c d w x0) as (w' & E & Ho'); [apply Hin; left|apply Hin; by right|by intros ->|].
  exists w'. split; [done|]. rewrite Ho', Ho. destruct (decide (c ∈ stuck)); [done|].
  rewrite list_to_set_app_L. simpl. set_solver.
Qed.

(** C13: the verdict of [test_cpu_serial_off_on].  When every CPU but the last can be taken
    offline, it passes and all CPUs are online again; otherwise it fails at the first CPU
    that cannot, and leaves the CPUs before it offline. *)
Theorem test_cpu_serial_off_on_verdict l0 d w x :
  NoDup (l0 ++ [d]) → l0 ≠ [] → ib_cpu_list x = l0 ++ [d] → online w = list_to_set (l0 ++ [d]) →
  ((∀ c, c ∈ l0 → c ∉ stuck) →
     ∃ w', runs test_cpu_serial_off_on w x (Ret ()) w' x ∧ online w' = online w) ∧
  (∀ l1 c l2, l0 = l1 ++ c :: l2 → (∀ c', c' ∈ l1 → c' ∉ stuck) → c ∈ stuck →
     ∃ w', runs test_cpu_serial_off_on w x (Raise (offline_error c)) w' x ∧
       online w' = online w ∖ list_to_set l1).
Proof using HC.
  intros Hnd Hne Hx Ho.
  assert (∀ r w', runs (for_each l0 offline_step ;; for_each l0 online_step ;; collect_errors_dmesg) w x r w' x →
    runs test_cpu_serial_off_on w x r w' x) as Hstart.
  { intros r w' H. unfold test_cpu_serial_off_on. run_step. rewrite Hx, all_but_last_snoc, length_app.
    assert (Nat.eqb (length l0 + length [d]) 1 = false) as ->
      by (apply Nat.eqb_neq; destruct l0; [done|simpl; lia]).
    eapply runs_bind; [apply runs_when_false|]. exact H. }
  split.
  - intros Hs. destruct (runs_for_each l0 offline_step
      (λ dn w' x', x' = x ∧ online w' = online w ∖ list_to_set dn) w x) as (w1 & x1 & E1 & -> & Ho1).
    { intros dn c todo w1 x1 E Hinv. destruct (offline_invariant l0 d dn c todo (online w) w1 x x1) as (w2 & E2 & H2);
        [done..|]. destruct (decide (c ∈ stuck)) as [Hst|_].
      { destruct (Hs c); [rewrite E; apply elem_of_app; right; left|done]. }
      eauto 6. }
    { split; [done|]. simpl. set_solver. }
    destruct (runs_for_each l0 online_step
      (λ dn w' x', x' = x ∧ online w' = online w1 ∪ list_to_set dn) w1 x) as (w2 & x2 & E2 & -> & Ho2).
    { intros dn c todo w3 x3 _ [-> H3]. destruct (online_step_runs c w3 x) as (w4 & E4 & H4).
      exists w4, x. split_and!; [done..|]. rewrite H4, H3, list_to_set_app_L. simpl. set_solver. }
    { split; [done|]. simpl. set_solver. }
    destruct (cm_dmesg w2) as (v & w3 & E3 & H3). exists w3. split.
    + apply Hstart. eapply runs_bind; [exact E1|]. cbv beta. eapply runs_bind; [exact E2|]. cbv beta.
      unfold collect_errors_dmesg. eapply runs_bind; [by apply runs_ext|]. run.
    + rewrite H3, Ho2, Ho1, Ho. rewrite list_to_set_app_L. apply set_eq. intros c.
      rewrite elem_of_union, elem_of_difference, elem_of_union.
      destruct (decide (c ∈ (list_to_set l0 : gset Z))); tauto.
  - intros l1 c l2 -> Hs Hc. destruct (runs_for_each_raise l1 c l2 offline_step
      (λ dn w' x', x' = x ∧ online w' = online w ∖ list_to_set dn) (offline_error c)
      (λ w' x', x' = x ∧ online w' = online w ∖ list_to_set l1) w x) as (w1 & x1 & E1 & -> & H1).
    + intros dn c' todo w1 x1 -> Hinv.
      destruct (offline_invariant ((dn ++ c' :: todo) ++ c :: l2) d dn c' (todo ++ c :: l2) (online w) w1 x x1)
        as (w2 & E2 & H2); [done|done|by rewrite <- app_assoc|done|].
      destruct (decide (c' ∈ stuck)) as [Hst|_]; [|eauto 6].
      destruct (Hs c'); [apply elem_of_app; right; left|done].
    + intros w1 x1 Hinv. destruct (offline_invariant (l1 ++ c :: l2) d l1 c l2 (online w) w1 x x1) as (w2 & E2 & H2);
        [done..|]. destruct (decide (c ∈ stuck)); [eauto 6|done].
    + split; [done|]. simpl. set_solver.
    + exists w1. split; [|done]. apply Hstart. by eapply runs_bind_raise.
Qed.

(** [__online_cpus(cores)]: the CPUs below [cores] are online. *)
Lemma online_cpus_runs cores w x :
  ∃ w', runs (online_cpus cores) w x (Ret ()) w' x ∧ online w' = online w ∪ list_to_set (Zrange 0 cores).
Proof using HC.
  destruct (runs_for_each (Zrange 0 cores) cpu_on
    (λ dn w' x', x' = x ∧ online w' = online w ∪ list_to_set dn) w x) as (w1 & x1 & E1 & -> & H1).
  - intros dn c todo w1 x1 _ [-> H1]. destruct (cm_online c w1) as (w2 & E2 & H2).
    exists w2, x. split_and!; [by apply runs_ext|done|]. rewrite H2, H1, list_to_set_app_L. simpl. set_solver.
  - split; [done|]. simpl. set_solver.
  - exists w1. by split.
Qed.
End cpus.

(** ** Safety and clean-up *)

Section safety.
Context {W : Type} {HE : Env W} {HI : IrqLib W}.

(** Only CPUs of the list are taken offline. *)
Definition offlines_only (l : list Z) (ev : event) : Prop :=
  match ev with
  | EvCall fn args => fn = "cpu.offline"%string → ∃ c, args = [VInt c] ∧ c ∈ l
  | _ => True
  end.

Lemma offline_tests_emit l0 (l : list Z) :
  emits (offlines_only l0)
    (when (Nat.eqb (length l) 1) (test_cancel " only one cpu is available cannot do this operation") ;;
     for_each l0 offline_step ;; for_each l0 online_step ;; collect_errors_dmesg : M W irq_self ()).
Proof using Type.
  unfold offline_step, online_step, collect_errors_dmesg.
  guar_with ltac:(first [apply emits_log; exact I | apply emits_silent
    | apply emits_ext; simpl; intros [=]; eauto]).
Qed.

(** whatever the machine does, [test_cpu_serial_off_on] asks to take offline only CPUs
    that come before the last one of the list. *)
Theorem serial_off_on_spares_last (s : pstate W irq_self) :
  ∃ tr, ps_trace (test_cpu_serial_off_on s).2 = ps_trace s ++ tr ∧
    Forall (offlines_only (all_but_last (ib_cpu_list (ps_self s)))) tr.
Proof using Type.
  exact (emits_trace _ _ s (offline_tests_emit (all_but_last (ib_cpu_list (ps_self s))) (ib_cpu_list (ps_self s)))).
Qed.

(** ** test_taskset *)

Lemma try_finally_ret {A} (m : M W irq_self A) fin (s : pstate W irq_self) :
  (fin (m s).2).1 = Ret () → (try_finally m fin s).1 = (m s).1 ∧ (try_finally m fin s).2 = (fin (m s).2).2.
Proof. unfold try_finally. destruct (m s) as [r s']. simpl. destruct (fin s') as [[[]|e] s'']; naive_solver. Qed.

Lemma stop_ping_ret p (s : pstate W irq_self) :
  (∀ w, ∃ v w', lib_call "Popen.kill" [p] w = (Ret v, w')) → (stop_ping p s).1 = Ret ().
Proof using Type.
  intros Hk. unfold stop_ping, try_except, mbind, M_bind, call, ext.
  destruct (lib_call "Popen.terminate" [p] (ps_world s)) as [[v|e] w1]; cbn [ps_world].
  - destruct (lib_call "Popen.wait" [p; VInt 5] w1) as [[v'|e'] w2]; cbn; [done|].
    destruct (Hk w2) as (v' & w3 & ->). done.
  - cbn. destruct (Hk w1) as (v' & w3 & ->). done.
Qed.

Lemma kill_pid_runs pid n (s : pstate W irq_self) :
  py_int (VStr pid) = Ret n →
  (∀ w, ∃ v w', env_system ("kill -9 " +:+ py_str_Z n) [IgnoreStatus; Sudo] w = (Ret v, w')) →
  (kill_pid pid s).1 = Ret () ∧
  ps_trace (kill_pid pid s).2 = ps_trace s ++ [EvRun ("kill -9 " +:+ py_str_Z n) [IgnoreStatus; Sudo]].
Proof using Type.
  intros Hn Hk. unfold kill_pid, try_except. rewrite Hn. unfold mbind, M_bind, lift, process_system, ext.
  destruct (Hk (ps_world s)) as (v & w' & ->). done.
Qed.

(** however the rounds of taskset end (all CPUs done, a mismatch, an exception), the ping
    process is killed last, and the outcome of the rounds is kept. *)
Theorem ping_rounds_kill p pid n (s : pstate W irq_self) :
  py_int (VStr pid) = Ret n →
  (∀ w, ∃ v w', lib_call "Popen.kill" [p] w = (Ret v, w')) →
  (∀ w, ∃ v w', env_system ("kill -9 " +:+ py_str_Z n) [IgnoreStatus; Sudo] w = (Ret v, w')) →
  (ping_rounds p pid s).1 = (taskset_all pid s).1 ∧
  last_opt (ps_trace (ping_rounds p pid s).2) = Some (EvRun ("kill -9 " +:+ py_str_Z n) [IgnoreStatus; Sudo]).
Proof using Type.
  intros Hn Hpopen Hkill. set (s1 := (taskset_all pid s).2).
  pose proof (stop_ping_ret p s1 Hpopen) as Hstop.
  destruct (stop_ping p s1) as [r s2] eqn:E. cbn [fst] in Hstop. subst r.
  destruct (kill_pid_runs pid n s2 Hn Hkill) as [Hret Htr].
  destruct (try_finally_ret (taskset_all pid) (stop_ping p ;; kill_pid pid) s) as [H1 H2].
  { fold s1. by rewrite (bind_ret _ _ _ _ _ E). }
  unfold ping_rounds. rewrite H1, H2. split; [done|]. fold s1. rewrite (bind_ret _ _ _ _ _ E), Htr.
  apply last_opt_snoc.
Qed.
End safety.

(** ** Processes bound to CPUs *)

Definition ping_ps_cmd (interface peer : pyval) : string :=
  "ps -ef | grep '[p]ing -I " +:+ py_str interface +:+ " " +:+ py_str peer +:+
  "' | grep ' -f' | awk '{print $2}' | head -1".

(** A machine where a flood ping runs as process [pid] while no [dd] does. *)
Class TasksetMachine {W : Type} {HE : Env W} {HI : IrqLib W} (interface peer : pyval) (pid : Z) := {
  tm_cpus : gset Z;
  (* the CPU the process runs on *)
  tm_psr : W → Z;
  tm_pid : 0 ≤ pid;
  tm_lib fn args w : fn ∈ ["subprocess.Popen"; "Popen.terminate"; "Popen.wait"; "Popen.kill";
                           "dmesg.collect_errors_dmesg"]%string →
    ∃ v w', lib_call fn args w = (Ret v, w') ∧ tm_psr w' = tm_psr w;
  tm_find w : ∃ w', env_system_output (ping_ps_cmd interface peer) [Shell; IgnoreStatus; Sudo] w =
    (Ret (py_str_Z pid), w') ∧ tm_psr w' = tm_psr w;
  tm_taskset c w : c ∈ tm_cpus → ∃ out w',
    env_run ("taskset -cp " +:+ py_str_Z c +:+ " " +:+ py_str_Z pid) [Shell; IgnoreStatus] w =
      (Ret (CmdResult 0 out), w') ∧ tm_psr w' = c;
  tm_ps w : ∃ w', env_system_output (psr_cmd (py_str_Z pid)) [Shell; IgnoreStatus; Sudo] w =
    (Ret (py_str_Z (tm_psr w)), w') ∧ tm_psr w' = tm_psr w;
  tm_no_dd w : ∃ w', env_system_output "ps -C dd | awk 'NR > 1 {print $1}'" [Shell; IgnoreStatus; Sudo] w =
    (Ret "", w') ∧ tm_psr w' = tm_psr w;
  tm_kill w : ∃ v w', env_system ("kill -9 " +:+ py_str_Z pid) [IgnoreStatus; Sudo] w = (Ret v, w') ∧
    tm_psr w' = tm_psr w;
}.

Section taskset.
Context {W : Type} {HE : Env W} {HI : IrqLib W}.
Context (interface peer : pyval) (pid : Z) {HT : TasksetMachine interface peer pid}.
Implicit Types (x : irq_self) (w : W).

Lemma strip_str_Z z : py_strip (py_str_Z z) = py_str_Z z.
Proof.
  unfold py_strip. destruct (str_Z_trimmed z) as [Ht _]. by rewrite strip_trimmed, str_of_chars_of.
Qed.

Lemma str_Z_nonempty z : py_empty (py_str_Z z) = false.
Proof. destruct (str_Z_trimmed z) as [_ H]. by destruct (py_str_Z z). Qed.

Lemma ping_pid_runs w x :
  ib_interface x = interface → ib_peer_ip x = peer →
  ∃ w', runs get_ping_process_pid w x (Ret (py_str_Z pid)) w' x ∧ tm_psr w' = tm_psr w.
Proof using HT.
  intros Hi Hp. destruct (tm_find (interface:=interface) (peer:=peer) (pid:=pid) w) as (w' & E & H).
  exists w'. split; [|done].
  unfold get_ping_process_pid. do 2 run_step. rewrite Hi, Hp.
  change (runs (poll_pid 10 (ping_ps_cmd interface peer)) w x (Ret (py_str_Z pid)) w' x). cbn [poll_pid].
  eapply runs_bind; [by apply runs_ext|]. cbv beta zeta. rewrite strip_str_Z, str_Z_nonempty. cbn [negb]. run.
Qed.

Lemma lib_runs fn args w x :
  fn ∈ ["subprocess.Popen"; "Popen.terminate"; "Popen.wait"; "Popen.kill"; "dmesg.collect_errors_dmesg"]%string →
  ∃ v w', runs (call fn args) w x (Ret v) w' x ∧ tm_psr w' = tm_psr w.
Proof using HT.
  intros Hfn. destruct (tm_lib (interface:=interface) (peer:=peer) (pid:=pid) fn args w Hfn) as (v & w' & E & H).
  exists v, w'. split; [|done]. by apply runs_ext.
Qed.

(** One round: the process moves to the CPU, and the check sees it there. *)
Lemma taskset_step_runs c w x :
  ib_interface x = interface → truthy interface = true → ib_peer_ip x = peer → truthy (ib_disk x) = false →
  c ∈ tm_cpus → ∃ w', runs (taskset_step (py_str_Z pid) c) w x (Ret ()) w' x ∧ tm_psr w' = c.
Proof using HT.
  intros Hi Hti Hp Hd Hc. destruct (tm_taskset c w Hc) as (out & w1 & E1 & H1).
  destruct (ping_pid_runs w1 x Hi Hp) as (w2 & E2 & H2).
  destruct (tm_ps (interface:=interface) (peer:=peer) (pid:=pid) w2) as (w3 & E3 & H3).
  exists w3. split; [|congruence].
  unfold taskset_step. eapply runs_bind; [by apply runs_ext|]. cbv beta. simpl exit_status.
  eapply runs_bind; [apply runs_when_false|]. cbv beta.
  eapply runs_bind.
  { unfold taskset_cpu_validation. do 2 run_step. rewrite Hi, Hd, Hti.
    eapply runs_bind; [eapply runs_bind; [exact E2|]; run|]. run_step.
    eapply runs_bind; [by apply runs_ext|]. cbv beta. rewrite py_int_str. apply runs_lift. }
  cbv beta. rewrite H2, H1, Z.eqb_refl. apply runs_when_false.
Qed.

Lemma taskset_all_runs w x :
  ib_interface x = interface → truthy interface = true → ib_peer_ip x = peer → truthy (ib_disk x) = false →
  (∀ c, c ∈ ib_cpu_list x → c ∈ tm_cpus) →
  ∃ w', runs (taskset_all (py_str_Z pid)) w x (Ret ()) w' x ∧
    tm_psr w' = default (tm_psr w) (last_opt (ib_cpu_list x)).
Proof using HT.
  intros Hi Hti Hp Hd Hall.
  destruct (runs_for_each (ib_cpu_list x) (taskset_step (py_str_Z pid))
    (λ dn w' x', x' = x ∧ tm_psr w' = default (tm_psr w) (last_opt dn)) w x) as (w1 & x1 & E & -> & H);
    [|done|].
  - intros dn c todo w1 x1 El [-> _]. destruct (taskset_step_runs c w1 x Hi Hti Hp Hd) as (w2 & E2 & H2).
    + apply Hall. rewrite El. apply elem_of_app. right. left.
    + exists w2, x. split_and!; [done|done|]. by rewrite last_opt_snoc.
  - exists w1. split; [|done]. unfold taskset_all. run_step. exact E.
Qed.

Lemma runs_try_finally {A} (m : M W irq_self A) fin r w x w1 x1 w2 x2 :
  runs m w x r w1 x1 → runs fin w1 x1 (Ret ()) w2 x2 → runs (try_finally m fin) w x r w2 x2.
Proof using Type.
  intros Hm Hf tr. destruct (Hm tr) as [tr1 E1]. destruct (Hf tr1) as [tr2 E2]. exists tr2.
  unfold try_finally. by rewrite E1, E2.
Qed.

(** The processes are stopped. *)
Lemma stop_runs p w x :
  ∃ w', runs (stop_ping p ;; kill_pid (py_str_Z pid)) w x (Ret ()) w' x ∧ tm_psr w' = tm_psr w.
Proof using HT.
  destruct (lib_runs "Popen.terminate" [p] w x) as (v1 & w1 & E1 & H1); [by repeat constructor|].
  destruct (lib_runs "Popen.wait" [p; VInt 5] w1 x) as (v2 & w2 & E2 & H2); [by repeat constructor|].
  destruct (tm_kill (interface:=interface) (peer:=peer) (pid:=pid) w2) as (v3 & w3 & E3 & H3).
  exists w3. split; [|congruence].
  eapply runs_bind.
  { apply runs_try_ret. eapply runs_bind; [exact E1|]. eapply runs_bind; [exact E2|]. run. }
  cbv beta. unfold kill_pid. rewrite py_int_str. apply runs_try_ret. run_step.
  eapply runs_bind; [by apply runs_ext|]. run.
Qed.

Lemma taskset_ping_runs r w w2 x :
  ib_interface x = interface → ib_peer_ip x = peer →
  (∀ w1, tm_psr w1 = tm_psr w → ∃ w1', runs (taskset_all (py_str_Z pid)) w1 x r w1' x ∧ tm_psr w1' = tm_psr w2) →
  ∃ w', runs taskset_ping w x r w' x ∧ tm_psr w' = tm_psr w2.
Proof using HT.
  intros Hi Hp Hall.
  destruct (lib_runs "subprocess.Popen" [VStr ("ping -I " +:+ py_str interface +:+ " " +:+ py_str peer +:+
              " -c 1000000 -f")] w x) as (v & w3 & E3 & H3); [by repeat constructor|].
  destruct (ping_pid_runs w3 x Hi Hp) as (w4 & E4 & H4).
  destruct (Hall w4) as (w5 & E5 & H5); [congruence|].
  destruct (stop_runs v w5 x) as (w6 & E6 & H6). exists w6. split; [|congruence].
  unfold taskset_ping. do 2 run_step. rewrite Hi, Hp. eapply runs_bind; [exact E3|]. cbv beta.
  eapply runs_bind; [by apply runs_sleep|]. cbv beta. eapply runs_bind; [exact E4|]. cbv beta.
  by eapply runs_try_finally.
Qed.

(** for an interface, [test_taskset] moves the ping process over all CPUs and passes; the
    process was last on the last CPU. *)
Theorem test_taskset_interface_passes w x :
  ib_interface x = interface → truthy interface = true → ib_peer_ip x = peer → truthy (ib_disk x) = false →
  (∀ c, c ∈ ib_cpu_list x → c ∈ tm_cpus) →
  ∃ w', runs test_taskset w x (Ret ()) w' x ∧ tm_psr w' = default (tm_psr w) (last_opt (ib_cpu_list x)).
Proof using HT.
  intros Hi Hti Hp Hd Hall. destruct (taskset_all_runs w x Hi Hti Hp Hd Hall) as (w0 & _ & H0).
  destruct (taskset_ping_runs (Ret ()) w w0 x Hi Hp) as (w1 & E1 & H1).
  { intros w1 Hw1. destruct (taskset_all_runs w1 x Hi Hti Hp Hd Hall) as (w2 & E2 & H2).
    exists w2. split; [done|]. congruence. }
  destruct (lib_runs "dmesg.collect_errors_dmesg" [VList errorlog] w1 x) as (v & w2 & E2 & H2);
    [by repeat constructor|].
  exists w2. split; [|congruence]. unfold test_taskset. run_step. rewrite Hi, Hti.
  eapply runs_bind; [exact E1|]. cbv beta. run_step. rewrite Hd. eapply runs_bind; [apply runs_when_false|].
  eapply runs_bind; [exact E2|]. run.
Qed.

(** with an interface and a disk, [test_taskset] fails on every such machine in the first
    round of the ping part: the check looks for the dd process, which the test starts
    only afterwards. *)
Theorem test_taskset_both_fails c cs w x :
  ib_interface x = interface → truthy interface = true → ib_peer_ip x = peer → truthy (ib_disk x) = true →
  ib_cpu_list x = c :: cs → c ∈ tm_cpus →
  ∃ w', runs test_taskset w x (raise_ TestFail "No more dd run process PID available") w' x ∧ tm_psr w' = c.
Proof using HT.
  intros Hi Hti Hp Hd Hl Hc.
  assert (∀ w1, ∃ w2, runs (taskset_all (py_str_Z pid)) w1 x
    (raise_ TestFail "No more dd run process PID available") w2 x ∧ tm_psr w2 = c) as Hall.
  { intros w1. destruct (tm_taskset c w1 Hc) as (out & w2 & E2 & H2).
    destruct (ping_pid_runs w2 x Hi Hp) as (w3 & E3 & H3).
    destruct (tm_no_dd (interface:=interface) (peer:=peer) (pid:=pid) w3) as (w4 & E4 & H4).
    exists w4. split; [|congruence]. unfold taskset_all. run_step. rewrite Hl. cbn [for_each].
    eapply runs_bind_raise. unfold taskset_step. eapply runs_bind; [by apply runs_ext|]. cbv beta. simpl exit_status.
    eapply runs_bind; [apply runs_when_false|]. cbv beta. eapply runs_bind_raise.
    unfold taskset_cpu_validation. do 2 run_step. rewrite Hi, Hd, Hti.
    eapply runs_bind; [eapply runs_bind; [exact E3|]; run|]. eapply runs_bind_raise. eapply runs_bind_raise.
    unfold get_dd_process_pid. eapply runs_bind; [by apply runs_ext|]. cbv beta. cbn [py_empty]. apply runs_throw. }
  destruct (Hall w) as (w0 & _ & H0).
  destruct (taskset_ping_runs (raise_ TestFail "No more dd run process PID available") w w0 x Hi Hp) as (w1 & E1 & H1).
  { intros w1 _. destruct (Hall w1) as (w2 & E2 & H2). exists w2. split; [done|congruence]. }
  exists w1. split; [|congruence]. unfold test_taskset. run_step. rewrite Hi, Hti.
  eapply runs_bind_raise. exact E1.
Qed.
End taskset.

(** ** What the texts give *)

Section texts.
Context {W : Type} {HE : Env W} {HI : IrqLib W}.
Implicit Types (x : irq_self) (w : W).

(** [get_irq_numbers] finds the numbers of the device's lines, one per line, in order. *)
Theorem get_irq_numbers_correct ls w x :
  ls ≠ [] → Forall valid_iline ls →
  ib_device_interrupts x = py_strip (str_of (interrupts_text ls)) →
  runs get_irq_numbers w x (Ret (VList (map (λ l, VInt (il_irq l)) ls))) w
    (with_irq_number (VList (map (λ l, VInt (il_irq l)) ls)) x).
Proof using Type.
  intros Hne Hv Hx. unfold get_irq_numbers. run_step. rewrite Hx, (irq_numbers_lines ls Hne Hv). run.
Qed.

(** [cpu_range_validation] accepts exactly when the first run of CPUs in the affinity that
    the machine reports is the range from the first to the last CPU of [cpu_range], with two
    CPUs at least; the runs after the first do not count. *)
Theorem cpu_range_validation_verdict irq l m a b w x :
  ib_irq_number x = irq → ib_cpu_range x = Some l → first_last l = Ret (a, b) →
  0 ≤ a → 0 ≤ b → Forall (λ c, 0 ≤ c) m →
  env_read (smp_affinity_list irq) w = (Ret (cpulist_text m +:+ NL), w) →
  ∃ r x', runs cpu_range_validation w x r w x' ∧
    (r = Ret () ↔ a ≠ b ∧ first_run m = Some (a, b)) ∧ (r = Ret () ∨ r = Raise affinity_error).
Proof using Type.
  intros Hirq Hl Hab Ha Hb Hm Hread.
  pose proof (compare_cpulist a b m Ha Hb Hm) as Hc.
  set (same := match first_run m with Some (c, d) => negb (c =? d) && ((a =? c) && (b =? d)) | None => false end) in Hc.
  eexists (if same then Ret () else Raise affinity_error), _. split; [|split].
  - unfold cpu_range_validation. run_step. rewrite Hab. do 2 run_step. run_step.
    cbn [with_irq_affinity ib_irq_number]. rewrite Hirq. eapply runs_bind; [apply runs_silent, Hread|]. cbv beta.
    run_step. eapply runs_bind; [by apply runs_sleep|]. cbv beta.
    change (py_join "-" [py_str_Z a; py_str_Z b]) with (range_text a b). rewrite Hc. run_step.
    destruct same; cbn [negb]; [apply runs_when_false|]. apply runs_when_true, runs_throw.
  - unfold same. destruct (first_run m) as [[c d]|]; [|split; [done|naive_solver]].
    destruct (Z.eqb_spec c d), (Z.eqb_spec a c), (Z.eqb_spec b d); simpl; split; try done;
      first [by intros [? [= -> ->]]|by intros _; subst|naive_solver].
  - destruct same; auto.
Qed.

(** the name that [get_disk_IPI_name] looks for: of the disk or partition
    [/dev/nvme<k>n<j>...] it is the controller [nvme<k>]; of a disk that is not NVMe it is
    [None], for which [get_device_interrupts] then searches. *)
Theorem get_disk_IPI_name_correct k j part disk w x :
  0 ≤ k → 0 ≤ j → head_not is_digit (chars_of part) → py_in "nvme" disk = false →
  (ib_disk x = VStr (nvme_disk k j part) →
     runs get_disk_IPI_name w x (Ret (VStr ("nvme" +:+ py_str_Z k))) w x) ∧
  (ib_disk x = VStr disk → runs get_disk_IPI_name w x (Ret VNone) w x).
Proof using Type.
  intros Hk Hj Hp Hdisk. split; intros Hx; unfold get_disk_IPI_name; run_step; rewrite Hx; cbn [py_contains].
  - assert (py_in "nvme" (nvme_disk k j part) = true) as -> by reflexivity. run_step.
    destruct (search_nvme k j part Hk Hj Hp) as (m & -> & ->). run.
  - rewrite Hdisk. run.
Qed.
End texts.

(** ** SMT levels *)

(** A machine that takes every SMT level. *)
Class SmtMachine {W : Type} {HE : Env W} := {
  smt_level : W → string;
  sm_set v w : ∃ out w', env_run ("ppc64_cpu --smt=" +:+ v) [Shell] w = (Ret (CmdResult 0 out), w') ∧
    smt_level w' = v;
}.

Section toggle.
Context {W : Type} {HE : Env W} {HI : IrqLib W} {HW : WaitLaws W} {HS : SmtMachine}.

Lemma set_smt_values_runs v w (x : irq_self) :
  ∃ w', runs (set_smt_values v) w x (Ret (VBool true)) w' x ∧ smt_level w' = py_str v.
Proof using HS.
  destruct (sm_set (py_str v) w) as (out & w' & E & H). exists w'. split; [|done].
  unfold set_smt_values. eapply runs_bind; [by apply runs_ext|]. cbv beta. simpl exit_status. cbn [Z.eqb negb]. run.
Qed.

(** [test_smt_toggle] sets all its levels, the last of them [on], and passes. *)
Theorem test_smt_toggle_ends_on w (x : irq_self) :
  ∃ w', runs test_smt_toggle w x (Ret ()) w' x ∧ smt_level w' = "on"%string.
Proof using HS HW.
  destruct (runs_for_each smt_levels (λ i, _ ← wait_for (set_smt_values i) 300; mret ())
    (λ dn w' x', x' = x ∧ smt_level w' = default (smt_level w) (py_str <$> last_opt dn)) w x)
    as (w1 & x1 & E & -> & H); [|done|].
  - intros dn v todo w1 x1 _ [-> _]. destruct (set_smt_values_runs v w1 x) as (w2 & E2 & H2).
    exists w2, x. split_and!; [|done|by rewrite last_opt_snoc].
    eapply runs_bind; [by eapply wait_true|]. run.
  - exists w1. split; [exact E|]. rewrite H. reflexivity.
Qed.
End toggle.

(** ** A cancelled setUp *)

Section teardown.
Context {W : Type} {HE : Env W} {HI : IrqLib W} {HC : CpuMachine}.

(** without the parameter [peer_ip], setUp cancels the test before it makes the network
    interface; tearDown, which then runs, raises because the attribute is missing. *)
Theorem setUp_no_peer_tearDown_raises device interfaces v w w1 w2 :
  env_param "interface" VNone = device → truthy device = true → env_param "peer_ip" VNone = VNone →
  lib_call "os.listdir" [VStr "/sys/class/net"] w = (Ret interfaces, w1) →
  py_contains device interfaces = Ret true →
  lib_call "LocalHost" [] w1 = (Ret v, w2) →
  ∃ x, runs setUp w new_irq (raise_ TestCancel "peer ip need to specify in YAML") w2 x ∧
    ∀ w3, ∃ w4, runs tearDown w3 x (raise_ AttributeError "networkinterface") w4 x.
Proof using HC.
  intros Hdev Htr Hpeer Hls Hin Hlh.
  set (x0 := with_params (env_param "disk" VNone) (env_param "hbond" (VBool false)) new_irq).
  set (x := with_interface device (with_peer VNone (env_param "ping_count" VNone) x0)).
  exists x. split.
  - unfold setUp. do 3 run_step. run_step. rewrite Hdev, Htr.
    eapply runs_bind_raise. apply runs_when_true. unfold setUp_interface.
    eapply runs_bind; [run_leaf|]. rewrite Hpeer. do 2 run_step. fold x0.
    eapply runs_bind; [apply runs_ext, Hls|]. cbv beta. eapply runs_bind; [apply runs_ext, Hlh|]. cbv beta.
    eapply runs_bind.
    { unfold find_interface. rewrite Hin. run_step. apply runs_modify. }
    cbv beta. eapply runs_bind_raise. cbn [truthy negb]. apply runs_when_true, runs_throw.
  - intros w3. destruct (online_cpus_runs totalcpus w3 x) as (w4 & E & _). exists w4.
    unfold tearDown. run_step. unfold x at 1. cbn [with_interface with_peer ib_curr_smt x0 with_params new_irq].
    eapply runs_bind; [apply runs_ret|]. cbv beta. eapply runs_bind; [exact E|]. cbv beta. run_step.
    unfold x at 1. cbn [with_interface ib_interface]. rewrite Htr. eapply runs_bind_raise.
    intros tr. eexists. reflexivity.
Qed.

End teardown.
