(* ===== verification/IrqSim.v ===== *)
(** * A simulated machine for the irqbalance tests

    An environment that decodes the commands of the tests: an instance of the machine
    classes, on which the theorems are applied. *)

From Stdlib Require Import Sorted.
From stdpp Require Import gmap.
From S2P Require Import Prelude PyStr PyFloat PyVal PyRegex Avocado Logic IrqBalance IrqText IrqSystem.
Open Scope Z_scope.

(** The affinity of the interrupt, the online CPUs, the CPU of the process, the SMT level. *)
Record irq_world := IrqWorld { iw_affinity : list Z; iw_online : gset Z; iw_psr : Z; iw_smt : string }.

(** ** Decoding *)

(** The numbers of a list with commas; blanks around them are ignored. *)
Definition parse_cpus (l : chars) : list Z :=
  map (λ w, default 0 (int_of_chars w)) (pieces (Ascii.eqb ",") l).

(** What comes before the redirection. *)
Definition before_redirect (l : chars) : chars :=
  match pieces (Ascii.eqb ">") l with p :: _ => p | [] => [] end.

Definition sim_type : pyval := VStr "eth0".
Definition sim_irq : Z := 31.
Definition sim_peer : pyval := VStr "192.168.1.2".
Definition sim_pid : Z := 4242.
Definition sim_lines : list iline :=
  [ILine 1 30 (chars_of " 12 0 XICS 4002 Edge eth0-0"); ILine 1 31 (chars_of " 7 3 XICS @pci:4002:01:00.0 eth0-1 ")].

Definition irq_apply (cmd : string) (w : irq_world) : irq_world :=
  match drop_prefix (chars_of "echo ") (chars_of cmd) with
  | Some l => IrqWorld (parse_cpus (before_redirect l)) (iw_online w) (iw_psr w) (iw_smt w)
  | None =>
      match drop_prefix (chars_of "taskset -cp ") (chars_of cmd) with
      | Some l => IrqWorld (iw_affinity w) (iw_online w)
                    (match py_split (str_of l) with c :: _ => default 0 (py_int_of_str c) | [] => 0 end) (iw_smt w)
      | None =>
          match drop_prefix (chars_of "ppc64_cpu --smt=") (chars_of cmd) with
          | Some v => IrqWorld (iw_affinity w) (iw_online w) (iw_psr w) (str_of v)
          | None => w
          end
      end
  end.

Definition irq_output (cmd : string) (w : irq_world) : string :=
  if String.eqb cmd (ping_ps_cmd sim_type sim_peer) then py_str_Z sim_pid
  else if String.eqb cmd (psr_cmd (py_str_Z sim_pid)) then py_str_Z (iw_psr w)
  else "".

#[export] Instance irq_env : Env irq_world := {|
  env_run := λ cmd _ w,
    (Ret (CmdResult 0 (if String.eqb cmd "grep eth0 /proc/interrupts" then str_of (interrupts_text sim_lines) else "")),
     irq_apply cmd w);
  env_system := λ _ _ w, (Ret 0, w);
  env_system_output := λ cmd _ w, (Ret (irq_output cmd w), w);
  env_ssh := λ _ _ w, (Ret (CmdResult 0 ""), w);
  env_connect := λ _ _ _ w, (Ret true, w);
  env_show := λ r, stdout_text r;
  env_param := λ key d, if String.eqb key "interface" then sim_type else d;
  env_exists := λ _ w, (false, w);
  env_read := λ _ w, (Ret (cpulist_text (iw_affinity w) +:+ NL), w);
  env_append := λ _ _ w, (Ret (), w);
  env_remove := λ _ w, (Ret (), w);
  env_random := λ w, (0, w);
|}.

(** [wait.wait_for]: one attempt per second. *)
Fixpoint poll (n : nat) (f : M irq_world irq_self pyval) : M irq_world irq_self pyval :=
  match n with
  | O => mret VNone
  | S n' => v ← f; if truthy v then mret v else poll n' f
  end.

Definition set_online (c : gset Z) (w : irq_world) : irq_world :=
  IrqWorld (iw_affinity w) c (iw_psr w) (iw_smt w).

(** CPU 2 cannot be taken offline. *)
Definition sim_stuck : gset Z := {[2]}.

#[export] Instance irq_lib : IrqLib irq_world := {|
  cpu_count := 4;
  cpu_online := λ c w, (Ret (), set_online ({[c]} ∪ iw_online w) w);
  cpu_offline := λ c w,
    (Ret (), if decide (c ∈ sim_stuck) then w else set_online (iw_online w ∖ {[c]}) w);
  cpu_online_list := λ w, (Ret (elements (iw_online w)), w);
  lib_call := λ fn _ w, (Ret (if String.eqb fn "os.listdir" then VList [VStr "lo"; sim_type] else VNone), w);
  wait_for := λ f t, poll (Z.to_nat t) f;
|}.

#[export] Instance irq_wait : WaitLaws irq_world.
Proof.
  split.
  - intros f t w x v w' x' Ht Hf Hv. simpl wait_for. destruct (Z.to_nat t) as [|n] eqn:E; [lia|]. cbn [poll].
    eapply runs_bind; [exact Hf|]. cbv beta. rewrite Hv. run.
  - intros I f t w x Hf. simpl wait_for. generalize (Z.to_nat t) as n. intros n. revert w x.
    induction n as [|n IH]; intros w x HI; cbn [poll].
    + exists VNone, w, x. split; [run|done].
    + destruct (Hf w x HI) as (v & w1 & x1 & E1 & H1). destruct (truthy v) eqn:Ev.
      * exists v, w1, x1. split; [|done]. eapply runs_bind; [exact E1|]. cbv beta. rewrite Ev. run.
      * destruct (IH w1 x1 H1) as (v2 & w2 & x2 & E2 & H2). exists v2, w2, x2. split; [|done].
        eapply runs_bind; [exact E1|]. cbv beta. by rewrite Ev.
Qed.

(** ** The lists that the tests write *)

Definition list_char (c : ascii) : bool := is_digit c || Ascii.eqb c "," || Ascii.eqb c " ".

Lemma str_Z_chars (q : ascii → bool) z :
  0 ≤ z → (∀ c, is_digit c = true → q c = true) → Forall (λ c, q c = true) (chars_of (py_str_Z z)).
Proof.
  intros Hz Hq. destruct (nat_digits z Hz) as (d & ds & -> & Hd). eapply List.Forall_impl; [|exact Hd]. done.
Qed.

Lemma join_chars sep l :
  sep ∈ [","; ", "]%string → Forall (λ c, 0 ≤ c) l →
  Forall (λ c, list_char c = true) (chars_of (py_join sep (map py_str_Z l))).
Proof.
  intros Hsep. induction 1 as [|z l Hz Hl IH]; [done|].
  assert (Forall (λ c, list_char c = true) (chars_of (py_str_Z z))) as Hd.
  { apply str_Z_chars; [done|]. unfold list_char. by intros c ->. }
  destruct l as [|z' l]; [done|]. cbn [map py_join]. rewrite !chars_of_app.
  apply Forall_app. split; [done|]. apply Forall_app. split; [|done].
  apply elem_of_cons in Hsep as [->|Hsep%list_elem_of_singleton]; [|subst]; by repeat constructor.
Qed.

Lemma parse_join sep pre l :
  sep ∈ [","; ", "]%string → Forall (λ c, 0 ≤ c) l → l ≠ [] → spaces pre → Forall (λ c, Ascii.eqb "," c = false) pre →
  parse_cpus (pre ++ chars_of (py_join sep (map py_str_Z l)) ++ [" "%char]) = l.
Proof.
  intros Hsep Hl. revert pre. induction Hl as [|z l Hz Hl IH]; intros pre Hne Hpre Hp; [done|].
  assert (Forall (λ c, Ascii.eqb "," c = false) (chars_of (py_str_Z z))) as Hd.
  { destruct (nat_digits z Hz) as (d & ds & -> & Hd). eapply List.Forall_impl; [|exact Hd].
    intros c Hc. by destruct (Ascii.eqb_spec "," c) as [<-|]. }
  unfold parse_cpus in *. destruct l as [|z' l].
  - cbn [map py_join]. rewrite pieces_none.
    + cbn [map]. by rewrite int_of_padded by (done || by repeat constructor).
    + apply Forall_app. split; [done|]. apply Forall_app. split; [done|]. by repeat constructor.
  - assert (∃ pre', chars_of sep = ","%char :: pre' ∧ spaces pre' ∧ Forall (λ c, Ascii.eqb "," c = false) pre')
      as (pre' & Es & Hs1 & Hs2).
    { apply elem_of_cons in Hsep as [->|Hsep%list_elem_of_singleton]; [by exists []|subst; exists [" "%char]].
      split; [done|]. by repeat constructor. }
    change (py_join sep (map py_str_Z (z :: z' :: l)))
      with (py_str_Z z +:+ sep +:+ py_join sep (map py_str_Z (z' :: l))).
    rewrite !chars_of_app, Es, <- !app_assoc. rewrite app_assoc. cbn [app].
    rewrite pieces_app by (done || by apply Forall_app). cbn [map]. f_equal; [|by apply IH].
    rewrite <- (app_nil_r (pre ++ _)), <- app_assoc. by rewrite int_of_padded.
Qed.

Lemma apply_echo sep l path w :
  sep ∈ [","; ", "]%string → l ≠ [] → Forall (λ c, 0 ≤ c) l →
  irq_apply ("echo " +:+ py_join sep (map py_str_Z l) +:+ " > " +:+ path) w =
    IrqWorld l (iw_online w) (iw_psr w) (iw_smt w).
Proof.
  intros Hsep Hne Hl. unfold irq_apply. rewrite chars_of_app, drop_prefix_app. f_equal.
  rewrite !chars_of_app. change (chars_of " > ") with ([" "%char] ++ ">"%char :: [" "%char]).
  rewrite <- app_assoc, app_assoc. unfold before_redirect. rewrite <- app_comm_cons, pieces_app; [|by apply Forall_app; split; [|by repeat constructor]; eapply List.Forall_impl; [|by apply join_chars]; intros c Hc; by destruct (Ascii.eqb_spec ">" c) as [<-|]|done].
  by apply (parse_join sep []).
Qed.

(** ** The machine classes *)

#[export] Instance irq_affinity : AffinityMachine sim_type sim_irq.
Proof.
  refine {| affinity := iw_affinity; device_lines := sim_lines |}.
  - by repeat constructor.
  - exists (ILine 1 31 (chars_of " 7 3 XICS @pci:4002:01:00.0 eth0-1 ")). right. by eexists _, [].
  - intros w. exists w. by split.
  - intros w. by eexists _, w.
  - intros sep l w Hsep Hne [_ Hl]. eexists _, _. split; [simpl env_run; reflexivity|].
    by rewrite (apply_echo sep l).
  - done.
  - intros w. by eexists _, w.
Defined.

#[export] Instance irq_cpus : CpuMachine (W:=irq_world).
Proof.
  refine {| online := iw_online; stuck := sim_stuck |}.
  - intros c d w _ _ _. eexists. split; [reflexivity|]. by destruct (decide (c ∈ sim_stuck)).
  - intros c w. by eexists.
  - intros w. eexists. split; [reflexivity|]. intros c. apply elem_of_elements.
  - intros w. by eexists _, w.
Defined.

Definition sim_cpus : gset Z := list_to_set [0; 1; 2; 3].

#[export] Instance irq_taskset : TasksetMachine sim_type sim_peer sim_pid.
Proof.
  refine {| tm_cpus := sim_cpus; tm_psr := iw_psr |}.
  - done.
  - intros fn args w _. by eexists _, w.
  - intros w. by exists w.
  - intros c w Hc. eexists _, _. split; [reflexivity|].
    unfold sim_cpus in Hc. apply elem_of_list_to_set in Hc.
    repeat (apply elem_of_cons in Hc as [->|Hc]; [by vm_compute|]). by apply not_elem_of_nil in Hc.
  - intros w. by exists w.
  - intros w. by exists w.
  - intros w. by eexists _, w.
Defined.

#[export] Instance irq_smt : SmtMachine (W:=irq_world).
Proof.
  refine {| smt_level := iw_smt |}. intros v w. eexists _, _. split; [reflexivity|].
  unfold irq_apply. rewrite chars_of_app.
  change (drop_prefix (chars_of "echo ") (chars_of "ppc64_cpu --smt=" ++ chars_of v)) with (@None chars).
  change (drop_prefix (chars_of "taskset -cp ") (chars_of "ppc64_cpu --smt=" ++ chars_of v)) with (@None chars).
  cbv iota. by rewrite drop_prefix_app, str_of_chars_of.
Defined.

(** ** The theorems at work *)

Definition sim_world : irq_world := IrqWorld [] sim_cpus 0 "8".

(** After setUp, with the given CPUs, interface and disk. *)
Definition sim_self (cpus : list Z) (disk : pyval) : irq_self :=
  IrqSelf sim_type sim_type disk (VBool false) sim_peer VNone (VStr "192.168.1.1") (VStr "255.255.255.0")
    (Some VNone) cpus None "" VNone None "" "".

Lemma cpu_set_compute l :
  Sorted.LocallySorted Z.lt l → forallb (λ c, 0 <=? c) l = true → cpu_set l.
Proof.
  intros Hs Hp. split.
  - apply Sorted_StronglySorted; [intros a b c; apply Z.lt_trans|]. by apply Sorted_LocallySorted_iff.
  - apply List.Forall_forall. intros c Hc. apply Z.leb_le.
    by apply (proj1 (forallb_forall _ _) Hp).
Qed.

Lemma test_irq_balance_contiguous_witness :
  ∃ w' x', runs test_irq_balance sim_world (sim_self [0; 1; 2; 3] VNone) (Ret ()) w' x' ∧
    iw_affinity w' = [0; 1] ∧ ib_irq_number x' = VInt 31.
Proof.
  refine (test_irq_balance_contiguous sim_type sim_irq [0; 1; 2; 3] sim_world _ _ _ _ _ _).
  - by apply cpu_set_compute; [repeat constructor|].
  - discriminate.
  - reflexivity.
  - reflexivity.
  - by exists 0.
Defined.

(** CPU 2 is missing: the test asks for 0, 1 and 3, gets them, and fails. *)
Lemma test_irq_balance_gap_witness :
  ∃ w' x' asked, runs test_irq_balance sim_world (sim_self [0; 1; 3] VNone) (Raise affinity_error) w' x' ∧
    ib_cpu_range x' = Some asked ∧ iw_affinity w' = asked ∧ asked `prefix_of` [0; 1; 3].
Proof.
  refine (test_irq_balance_gap sim_type sim_irq [0; 1; 3] sim_world _ _ _ _ _ _).
  - by apply cpu_set_compute; [repeat constructor|].
  - discriminate.
  - reflexivity.
  - reflexivity.
  - intros [a H]. rewrite (seqZ_cons a) in H by done. injection H as <- H. vm_compute in H. discriminate.
Defined.

(** CPUs 0 and 1 go offline; CPU 2 does not. *)
Lemma test_cpu_serial_off_on_verdict_witness :
  (∃ w', runs test_cpu_serial_off_on (set_online (list_to_set [0; 1; 3]) sim_world) (sim_self [0; 1; 3] VNone)
     (Ret ()) w' (sim_self [0; 1; 3] VNone) ∧ iw_online w' = list_to_set [0; 1; 3]) ∧
  (∃ w', runs test_cpu_serial_off_on sim_world (sim_self [0; 1; 2; 3] VNone) (Raise (offline_error 2)) w'
     (sim_self [0; 1; 2; 3] VNone) ∧ iw_online w' = iw_online sim_world ∖ list_to_set [0; 1]).
Proof.
  split.
  - refine (proj1 (test_cpu_serial_off_on_verdict [0; 1] 3 (set_online (list_to_set [0; 1; 3]) sim_world) _ _ _ _ _) _).
    + by apply (bool_decide_unpack _).
    + discriminate.
    + reflexivity.
    + reflexivity.
    + intros c Hc. by repeat (apply elem_of_cons in Hc as [->|Hc]; [by vm_compute|]); apply not_elem_of_nil in Hc.
  - refine (proj2 (test_cpu_serial_off_on_verdict [0; 1; 2] 3 sim_world _ _ _ _ _) [0; 1] 2 [] _ _ _).
    + by apply (bool_decide_unpack _).
    + discriminate.
    + reflexivity.
    + reflexivity.
    + reflexivity.
    + intros c Hc. by repeat (apply elem_of_cons in Hc as [->|Hc]; [by vm_compute|]); apply not_elem_of_nil in Hc.
    + by apply (bool_decide_unpack _).
Defined.

Lemma ping_rounds_kill_witness :
  let s := PState sim_world [] (sim_self [1; 9] VNone) in
  (ping_rounds VNone "4242" s).1 = (taskset_all "4242" s).1 ∧
  last_opt (ps_trace (ping_rounds VNone "4242" s).2) = Some (EvRun "kill -9 4242" [IgnoreStatus; Sudo]).
Proof.
  refine (ping_rounds_kill VNone "4242" 4242 _ _ _ _).
  - reflexivity.
  - intros w. by eexists _, w.
  - intros w. by eexists _, w.
Defined.

Lemma test_taskset_interface_passes_witness :
  ∃ w', runs test_taskset sim_world (sim_self [0; 1; 2; 3] VNone) (Ret ()) w' (sim_self [0; 1; 2; 3] VNone) ∧
    iw_psr w' = 3.
Proof.
  refine (test_taskset_interface_passes sim_type sim_peer sim_pid sim_world (sim_self [0; 1; 2; 3] VNone) _ _ _ _ _).
  - reflexivity.
  - reflexivity.
  - reflexivity.
  - reflexivity.
  - intros c Hc. by apply elem_of_list_to_set.
Defined.

Lemma test_taskset_both_fails_witness :
  ∃ w', runs test_taskset sim_world (sim_self [1; 2] (VStr "/dev/nvme0n1"))
    (raise_ TestFail "No more dd run process PID available") w' (sim_self [1; 2] (VStr "/dev/nvme0n1")) ∧
    iw_psr w' = 1.
Proof.
  refine (test_taskset_both_fails sim_type sim_peer sim_pid 1 [2] sim_world _ _ _ _ _ _ _).
  - reflexivity.
  - reflexivity.
  - reflexivity.
  - reflexivity.
  - reflexivity.
  - by apply (bool_decide_unpack _).
Defined.

Lemma get_irq_numbers_correct_witness :
  let x := with_device_interrupts (py_strip (str_of (interrupts_text sim_lines))) (sim_self [] VNone) in
  runs get_irq_numbers sim_world x (Ret (VList [VInt 30; VInt 31])) sim_world
    (with_irq_number (VList [VInt 30; VInt 31]) x).
Proof.
  refine (get_irq_numbers_correct sim_lines sim_world _ _ _ _).
  - discriminate.
  - by repeat constructor.
  - reflexivity.
Defined.

(** The machine reports CPUs 0-2 and 5, the test asked for 0-2: accepted. *)
Lemma cpu_range_validation_verdict_witness :
  ∃ r x', runs cpu_range_validation (IrqWorld [0; 1; 2; 5] sim_cpus 0 "8") (with_cpu_range [0; 1; 2] (sim_self [] VNone))
      r (IrqWorld [0; 1; 2; 5] sim_cpus 0 "8") x' ∧
    (r = Ret () ↔ 0 ≠ 2 ∧ first_run [0; 1; 2; 5] = Some (0, 2)) ∧ (r = Ret () ∨ r = Raise affinity_error).
Proof.
  refine (cpu_range_validation_verdict VNone [0; 1; 2] [0; 1; 2; 5] 0 2 _ _ _ _ _ _ _ _ _).
  - reflexivity.
  - reflexivity.
  - reflexivity.
  - by vm_compute.
  - by vm_compute.
  - by repeat constructor.
  - reflexivity.
Defined.

Lemma get_disk_IPI_name_correct_witness :
  runs get_disk_IPI_name sim_world (sim_self [] (VStr "/dev/nvme1n12p3")) (Ret (VStr "nvme1")) sim_world
    (sim_self [] (VStr "/dev/nvme1n12p3")) ∧
  runs get_disk_IPI_name sim_world (sim_self [] (VStr "/dev/sda")) (Ret VNone) sim_world
    (sim_self [] (VStr "/dev/sda")).
Proof.
  split.
  - refine (proj1 (get_disk_IPI_name_correct 1 12 "p3" "/dev/sda" sim_world _ _ _ _ _) _); by vm_compute.
  - refine (proj2 (get_disk_IPI_name_correct 1 12 "p3" "/dev/sda" sim_world _ _ _ _ _) _); by vm_compute.
Defined.

Lemma test_smt_toggle_ends_on_witness :
  ∃ w', runs test_smt_toggle sim_world (sim_self [] VNone) (Ret ()) w' (sim_self [] VNone) ∧
    iw_smt w' = "on"%string.
Proof. exact (test_smt_toggle_ends_on sim_world (sim_self [] VNone)). Defined.

Lemma setUp_no_peer_tearDown_raises_witness :
  ∃ x, runs setUp sim_world new_irq (raise_ TestCancel "peer ip need to specify in YAML") sim_world x ∧
    ∀ w3, ∃ w4, runs tearDown w3 x (raise_ AttributeError "networkinterface") w4 x.
Proof.
  refine (setUp_no_peer_tearDown_raises sim_type (VList [VStr "lo"; sim_type]) VNone sim_world sim_world sim_world
            _ _ _ _ _ _); reflexivity.
Defined.
