(* ===== verification/Sched.v ===== *)
(** * The scheduler tunables test: cpu/scheduler_tunables_test.py

    The class [SchedulerTunablesTest]: which files hold the tunables of the running kernel,
    saving, changing and restoring them, the parser of the output of [perf stat], the
    averages over the runs of a workload, the four tests and tearDown. *)

From S2P Require Import Prelude PyStr PyFloat PyVal Avocado Logic.
Open Scope Z_scope.

(** ** Data *)

(** The metrics of a run: numbers by name. *)
Abbreviation metrics := (dict num).

(** [d.get(k, 0)] and [d[k]] *)
Definition metric (k : string) (d : metrics) : num := default (NInt 0) (dict_find k d).
Definition metric_item (k : string) (d : metrics) : result num :=
  match dict_find k d with Some n => Ret n | None => raise_ KeyError (quote k) end.

(** The attributes of [self]. *)
Record sched_self := SchedSelf {
  sc_total_cpus : Z;
  sc_test_duration : Z;
  sc_stress_workers : Z;
  sc_original_tunables : dict string;
  sc_baseline_metrics : option metrics;
}.

Definition new_sched : sched_self := SchedSelf 0 0 0 [] None.

Definition with_total_cpus (n : Z) (x : sched_self) : sched_self :=
  SchedSelf n (sc_test_duration x) (sc_stress_workers x) (sc_original_tunables x) (sc_baseline_metrics x).
Definition with_test_duration (n : Z) (x : sched_self) : sched_self :=
  SchedSelf (sc_total_cpus x) n (sc_stress_workers x) (sc_original_tunables x) (sc_baseline_metrics x).
Definition with_stress_workers (n : Z) (x : sched_self) : sched_self :=
  SchedSelf (sc_total_cpus x) (sc_test_duration x) n (sc_original_tunables x) (sc_baseline_metrics x).
Definition with_original_tunables (d : dict string) (x : sched_self) : sched_self :=
  SchedSelf (sc_total_cpus x) (sc_test_duration x) (sc_stress_workers x) d (sc_baseline_metrics x).
Definition with_baseline_metrics (d : metrics) (x : sched_self) : sched_self :=
  SchedSelf (sc_total_cpus x) (sc_test_duration x) (sc_stress_workers x) (sc_original_tunables x) (Some d).

(** What [_run_workload_single] and [_run_workload] return, as far as the callers and the
    averages use it. *)
Record run_result := RunResult { rr_success : bool; rr_metrics : metrics; rr_raw_output : string }.
Record workload_result := WorkloadResult {
  wl_success : bool;
  wl_metrics : metrics;
  wl_all_runs : list metrics;
  wl_std_dev : metrics;
  wl_runs : option (Z * Z);   (* successful_runs and total_runs *)
}.

(** The library functions that only this test calls, and C's [pow]. *)
Class SchedLib (W : Type) := {
  sched_check_installed : string → W → result bool * W;
  sched_install : string → W → result bool * W;
  sched_online_count : W → result Z * W;
  ismount : string → W → bool * W;
  (* genio.write_file *)
  write_file_at : string → string → W → result () * W;
  (* process.run, with the text of the standard error *)
  run_with_stderr : string → list flag → W → result (cmd_result * string) * W;
  (* self.params.get(key, path=path, default=default) *)
  param_at : string → string → pyval → pyval;
  float_pow : float → float → result float;
}.

(** ** Tunables *)

Definition tunable_paths (tunable_name : string) : list string :=
  if String.eqb tunable_name "base_slice_ns" then
    ["/sys/kernel/debug/sched/base_slice_ns"; "/sys/kernel/debug/sched/latency_ns";
     "/proc/sys/kernel/sched_latency_ns"]
  else if String.eqb tunable_name "sched_migration_cost_ns" then
    ["/proc/sys/kernel/sched_migration_cost_ns"; "/sys/kernel/debug/sched/migration_cost_ns"]
  else if String.eqb tunable_name "sched_nr_migrate" then
    ["/proc/sys/kernel/sched_nr_migrate"; "/sys/kernel/debug/sched/nr_migrate"]
  else if String.eqb tunable_name "sched_schedstats" then ["/proc/sys/kernel/sched_schedstats"]
  else [].

Definition tunables : list string :=
  ["base_slice_ns"; "sched_migration_cost_ns"; "sched_nr_migrate"; "sched_schedstats"].

Definition base_slice_fallbacks : dict string :=
  [("/sys/kernel/debug/sched/latency_ns", "latency_ns");
   ("/proc/sys/kernel/sched_latency_ns", "sched_latency_ns")].

Definition fallback_labels : dict string :=
  [("/sys/kernel/debug/sched/latency_ns", "base_slice_ns(latency_ns)");
   ("/proc/sys/kernel/sched_latency_ns", "base_slice_ns(sched_latency_ns)")].

Definition NS_TO_MS : Z := 1000000.
Definition MIN_BASE_SLICE_NS : Z := 750000.
Definition MIN_MIGRATION_COST_NS : Z := 50000.

(** [int(float(text) * factor)] *)
Definition scale_tunable (value : string) (factor : float) : result Z :=
  v ← py_float (VStr value); num_int (NFloat (f_mul v factor)).

(** ** The output of perf stat *)

(** [s.replace(c, '')] for one character *)
Definition remove_char (c : ascii) (s : string) : string :=
  str_of (List.filter (λ d, negb (Ascii.eqb d c)) (chars_of s)).

(** [s.isdigit()] on ASCII *)
Definition py_isdigit (s : string) : bool := negb (py_empty s) && forallb is_digit (chars_of s).

(** [parts[0]] *)
Definition first_part (parts : list string) : result string :=
  match parts with p :: _ => Ret p | [] => raise_ IndexError "list index out of range" end.

(** [int(parts[0].replace(',', ''))] and the same with [float]. *)
Definition count_of (parts : list string) : result num :=
  p ← first_part parts; z ← py_int (VStr (remove_char "," p)); Ret (NInt z).
Definition float_of (parts : list string) : result num :=
  p ← first_part parts; f ← py_float (VStr (remove_char "," p)); Ret (NFloat f).

Definition float_zero : num := NFloat (S754_zero false).

Definition empty_metrics : metrics :=
  [("context_switches", NInt 0); ("cs_per_second", float_zero); ("cpu_migrations", NInt 0);
   ("migrations_per_second", float_zero); ("page_faults", NInt 0); ("task_clock_ms", float_zero);
   ("cpus_utilized", float_zero); ("branch_misses", NInt 0); ("branch_miss_rate", float_zero);
   ("branches", NInt 0); ("cpu_cycles", NInt 0); ("instructions", NInt 0);
   ("insn_per_cycle", float_zero); ("time_elapsed", float_zero)]%string.

Definition parse_perf_rate (rate_str : string) : num :=
  match py_float (VStr rate_str) with Ret f => NFloat f | Raise _ => float_zero end.

(** The loops [for i, part in enumerate(parts)]: [f] gets the part before. *)
Fixpoint scan_parts (i : nat) (prev : string) (parts : list string)
    (f : nat → string → string → metrics → result metrics) (m : metrics) : result metrics :=
  match parts with
  | [] => Ret m
  | part :: parts' => m' ← f i prev part m; scan_parts (S i) part parts' f m'
  end.

(** [if '/sec' in part and i > 0: metrics[key] = _parse_perf_rate(parts[i-1])] *)
Definition scan_rate (key : string) (i : nat) (prev part : string) (m : metrics) : result metrics :=
  if py_in "/sec" part && Nat.ltb 0 i then Ret (dict_put key (parse_perf_rate prev) m) else Ret m.

Definition scan_utilized (i : nat) (prev part : string) (m : metrics) : result metrics :=
  if py_in "CPUs" part && Nat.ltb 0 i then
    f ← py_float (VStr prev); Ret (dict_put "cpus_utilized" (NFloat f) m)
  else Ret m.

Definition scan_miss_rate (i : nat) (prev part : string) (m : metrics) : result metrics :=
  if py_in "%" part then
    f ← py_float (VStr (remove_char "%" part)); Ret (dict_put "branch_miss_rate" (NFloat f) m)
  else Ret m.

(** An unreadable number is passed over. *)
Definition scan_insn (i : nat) (prev part : string) (m : metrics) : result metrics :=
  if py_in "instructions" part && Nat.ltb 1 i then
    match py_float (VStr prev) with
    | Ret f => Ret (dict_put "insn_per_cycle" (NFloat f) m)
    | Raise _ => Ret m
    end
  else Ret m.

Definition parse_branch (parts : list string) (m : metrics) : result metrics :=
  match parts with
  | p :: event_name :: _ =>
      if py_isdigit (remove_char "," p) then
        count ← count_of parts;
        if String.eqb event_name "branch-misses" then
          scan_parts 0 "" parts scan_miss_rate (dict_put "branch_misses" count m)
        else if String.eqb event_name "branches" then Ret (dict_put "branches" count m)
        else Ret m
      else Ret m
  | _ => Ret m
  end.

(** One line of the output. *)
Definition parse_perf_line (m : metrics) (text : string) : result metrics :=
  let line := py_strip text in
  let parts := py_split line in
  if py_in "context-switches" line then
    n ← count_of parts; scan_parts 0 "" parts (scan_rate "cs_per_second") (dict_put "context_switches" n m)
  else if py_in "cpu-migrations" line then
    n ← count_of parts; scan_parts 0 "" parts (scan_rate "migrations_per_second") (dict_put "cpu_migrations" n m)
  else if py_in "page-faults" line then n ← count_of parts; Ret (dict_put "page_faults" n m)
  else if py_in "task-clock" line then
    n ← float_of parts; scan_parts 0 "" parts scan_utilized (dict_put "task_clock_ms" n m)
  else if py_in "branch" line then parse_branch parts m
  else if py_in "cpu-cycles" line then n ← count_of parts; Ret (dict_put "cpu_cycles" n m)
  else if py_in "instructions" line then
    n ← count_of parts; scan_parts 0 "" parts scan_insn (dict_put "instructions" n m)
  else if py_in "seconds time elapsed" line then
    p ← first_part parts; f ← py_float (VStr p); Ret (dict_put "time_elapsed" (NFloat f) m)
  else Ret m.

Fixpoint parse_perf_lines (m : metrics) (lines : list string) : result metrics :=
  match lines with
  | [] => Ret m
  | line :: lines' => m' ← parse_perf_line m line; parse_perf_lines m' lines'
  end.

Definition parse_perf_output (perf_output : string) : result metrics :=
  parse_perf_lines empty_metrics (py_split_on LF perf_output).

(** ** Averages *)

Section averages.
Context {W : Type} {HL : SchedLib W}.

(** [a ** b] of a float and a number *)
Definition num_pow (a : num) (b : float) : result num := x ← num_float a; f ← float_pow x b; Ret (NFloat f).

(** The standard deviation: [(sum((x - mean) ** 2 for x in values) / len(values)) ** 0.5] *)
Definition std_dev_of (mean : num) (values : list num) : result num :=
  squares ← results (map (λ x, d ← num_sub x mean; num_pow d (fl 2 0)) values);
  variance ← mean_of squares;
  num_pow variance (fl_decimal 5 (-1)).

Definition deviating (key : string) : bool :=
  existsb (String.eqb key) ["context_switches"; "cpu_migrations"; "page_faults"]%string.

(** The loop over the keys: the averages and the deviations. *)
Fixpoint average_keys (all_runs : list metrics) (keys : list string) (avg dev : metrics)
    : result (metrics * metrics) :=
  match keys with
  | [] => Ret (avg, dev)
  | key :: keys' =>
      let values := omap (dict_find key) all_runs in
      match values with
      | [] => average_keys all_runs keys' avg dev
      | _ =>
          mean ← mean_of values;
          let avg := dict_put key mean avg in
          if deviating key then
            d ← std_dev_of mean values;
            average_keys all_runs keys' avg (dict_put key d dev)
          else average_keys all_runs keys' avg dev
      end
  end.

Definition average_metrics (all_runs : list metrics) : result (metrics * metrics) :=
  average_keys all_runs (match all_runs with r :: _ => map fst r | [] => [] end) [] [].
End averages.

(** ** The class SchedulerTunablesTest *)

Section SchedulerTunablesTest.
Context {W : Type} {HE : Env W} {HL : SchedLib W}.
Abbreviation T := (M W sched_self).

Definition ruler : string := str_of (repeat "="%char 70).

(** A line between rulers. *)
Definition log_title (title : string) : T () :=
  log_info (NL +:+ ruler) ;; log_info title ;; log_info ruler.

Definition write_file (path text : string) : T () :=
  ext (EvCall "genio.write_file" [VStr path; VStr text]) (write_file_at path text).

Fixpoint first_existing (paths : list string) : T (option string) :=
  match paths with
  | [] => mret None
  | path :: paths' =>
      b ← path_exists path;
      if (b : bool) then mret (Some path) else first_existing paths'
  end.

Definition get_tunable_path (tunable_name : string) : T (option string) :=
  first_existing (tunable_paths tunable_name).

Definition save_tunable (tunable_name : string) : T () :=
  p ← get_tunable_path tunable_name;
  match p with
  | Some tunable_path =>
      try_except
        (t ← read_file tunable_path;
         let value := py_strip t in
         d ← gets sc_original_tunables;
         modify (with_original_tunables (dict_put tunable_path value d)) ;;
         match dict_find tunable_path base_slice_fallbacks with
         | Some alias =>
             log_info ("  ✓ " +:+ tunable_name +:+ " (using " +:+ alias +:+ " on this kernel) = " +:+ value)
         | None => log_info ("  ✓ " +:+ tunable_name +:+ " = " +:+ value)
         end)
        any_exn
        (λ e, log_warning ("  ⚠ Failed to read " +:+ tunable_name +:+ ": " +:+ ex_msg e))
  | None =>
      log_info ("  - " +:+ tunable_name +:+ " NOT FOUND (not supported on this kernel, skipping)")
  end.

Definition check_and_save_tunables : T () :=
  log_info (NL +:+ "--- Checking Top 4 Scheduler Tunables ---") ;;
  for_each tunables save_tunable ;;
  log_info ruler.

Definition set_tunable (tunable_name : string) (value : pyval) : T () :=
  p ← get_tunable_path tunable_name;
  match p with
  | None => test_fail ("Tunable " +:+ tunable_name +:+ " not found")
  | Some tunable_path =>
      try_except
        (write_file tunable_path (py_str value) ;;
         log_info ("Set " +:+ tunable_name +:+ " = " +:+ py_str value))
        any_exn
        (λ e, test_fail ("Failed to set " +:+ tunable_name +:+ ": " +:+ ex_msg e))
  end.

Definition get_tunable (tunable_name : string) : T (option string) :=
  p ← get_tunable_path tunable_name;
  match p with
  | None => mret None
  | Some tunable_path =>
      try_except
        (t ← read_file tunable_path; mret (Some (py_strip t)))
        any_exn
        (λ e, log_error ("Failed to read " +:+ tunable_name +:+ ": " +:+ ex_msg e) ;; mret None)
  end.

Definition get_tunable_display_name (tunable_name : string) : T string :=
  p ← get_tunable_path tunable_name;
  match p with
  | Some path =>
      if String.eqb tunable_name "base_slice_ns" then
        mret (default tunable_name (dict_find path fallback_labels))
      else mret tunable_name
  | None => mret tunable_name
  end.

(** [z / self.NS_TO_MS] *)
Definition to_ms (z : Z) : result num := num_div (NInt z) (NInt NS_TO_MS).

(** With [unit='ns'], and with another unit. *)
Definition log_tunable_change (name : string) (old_val new_val : Z) : T () :=
  old_ms ← lift (to_ms old_val);
  new_ms ← lift (to_ms new_val);
  log_fmt Info (a ← f_of 2 false old_ms; b ← f_of 2 false new_ms;
    Ret ("  " +:+ name +:+ ": " +:+ py_str_Z old_val +:+ " -> " +:+ py_str_Z new_val +:+ " (" +:+
         a +:+ " ms -> " +:+ b +:+ " ms)")).

Definition log_tunable_change_unit (name : string) (old_val new_val : Z) (unit : string) : T () :=
  log_info ("  " +:+ name +:+ ": " +:+ py_str_Z old_val +:+ " -> " +:+ py_str_Z new_val +:+ " " +:+ unit).

(** The percentage of change. *)
Definition change_of (baseline_val test_val : num) : result (option num) :=
  if num_lt (NInt 0) baseline_val then
    d ← num_sub test_val baseline_val;
    q ← num_div d baseline_val;
    c ← num_mul q (NInt 100);
    Ret (Some c)
  else Ret None.

Definition compare_and_log_metrics (baseline_metrics test_metrics : metrics)
    (metric_name display_name : string) : T (option num) :=
  let baseline_val := metric metric_name baseline_metrics in
  let test_val := metric metric_name test_metrics in
  log_info (NL +:+ display_name +:+ ":") ;;
  log_fmt Info (s ← d_of baseline_val; Ret ("  Baseline: " +:+ s)) ;;
  log_fmt Info (s ← d_of test_val; Ret ("  Test: " +:+ s)) ;;
  c ← lift (change_of baseline_val test_val);
  match c with
  | Some change_pct =>
      log_fmt Info (s ← f_of 1 true change_pct; Ret ("  Change: " +:+ s +:+ "%")) ;;
      mret (Some change_pct)
  | None => mret None
  end.

Definition restore_tunable (entry : string * string) : T () :=
  let '(tunable_path, value) := entry in
  try_except
    (write_file tunable_path value ;;
     log_info ("  Restored " +:+ tunable_path +:+ " = " +:+ value))
    any_exn
    (λ e, log_warning ("  Failed to restore " +:+ tunable_path +:+ ": " +:+ ex_msg e)).

Definition restore_tunables : T () :=
  log_info (NL +:+ "--- Restoring Original Tunables ---") ;;
  d ← gets sc_original_tunables;
  for_each d restore_tunable.

(** ** setUp *)

Definition required_packages : list string := ["stress-ng"; "perf"].

Definition install_package (package : string) : T () :=
  b ← ext (EvCall "SoftwareManager.check_installed" [VStr package]) (sched_check_installed package);
  if (b : bool) then mret ()
  else
    i ← ext (EvCall "SoftwareManager.install" [VStr package]) (sched_install package);
    when (negb i) (test_cancel ("Failed to install " +:+ package)).

(** [4x CPUs for systems with <= 8 CPUs, 8x for larger systems] *)
Definition auto_workers (total_cpus : Z) : Z * Z :=
  let multiplier := if total_cpus <=? 8 then 4 else 8 in (multiplier, total_cpus * multiplier).

Definition choose_workers : T () :=
  total_cpus ← gets sc_total_cpus;
  configured_workers ← get_param "stress_workers" (VInt 0);
  if negb (truthy configured_workers) then
    let '(multiplier, workers) := auto_workers total_cpus in
    modify (with_stress_workers workers) ;;
    log_info ("Auto-calculating stress workers: " +:+ py_str_Z workers +:+ " (" +:+ py_str_Z multiplier +:+
              "x " +:+ py_str_Z total_cpus +:+ " CPUs)")
  else
    n ← lift (py_int configured_workers);
    modify (with_stress_workers n) ;;
    log_info ("Using configured stress workers: " +:+ py_str_Z n).

Definition debugfs : string := "/sys/kernel/debug".
Definition without_debugfs : string :=
  "Some tunables under /sys/kernel/debug/sched/ may not be available. Tests will use procfs tunables where possible.".

Definition mount_debugfs : T () :=
  mounted ← silent (λ w, let '(b, w') := ismount debugfs w in (Ret b, w'));
  if (mounted : bool) then log_info "debugfs is mounted at /sys/kernel/debug"
  else
    log_warning "debugfs not mounted at /sys/kernel/debug" ;;
    log_info "Attempting to mount debugfs..." ;;
    try_except
      (result ← process_run "mount -t debugfs none /sys/kernel/debug" [Shell; Sudo; IgnoreStatus];
       if negb (exit_status result =? 0) then
         log_warning ("Failed to mount debugfs. " +:+ without_debugfs)
       else log_info "Successfully mounted debugfs")
      any_exn
      (λ e, log_warning ("Could not mount debugfs: " +:+ ex_msg e +:+ ". " +:+ without_debugfs)).

Definition setUp : T () :=
  for_each required_packages install_package ;;
  total_cpus ← silent sched_online_count;
  modify (with_total_cpus total_cpus) ;;
  log_info ("Total online CPUs: " +:+ py_str_Z total_cpus) ;;
  d ← get_param "test_duration" (VInt 10);
  test_duration ← lift (py_int d);
  modify (with_test_duration test_duration) ;;
  choose_workers ;;
  modify (with_original_tunables []) ;;
  mount_debugfs ;;
  log_title "TEST CONFIGURATION - TOP 4 TUNABLES" ;;
  stress_workers ← gets sc_stress_workers;
  log_info ("  Duration: " +:+ py_str_Z test_duration +:+ " seconds") ;;
  log_info ("  Workers: " +:+ py_str_Z stress_workers) ;;
  log_info ("  CPUs: " +:+ py_str_Z total_cpus) ;;
  log_info ruler ;;
  check_and_save_tunables.

(** ** Workloads *)

Definition build_stress_command (stress_workers total_cpus : Z) (workload_type : string) (duration : Z)
    : string * string :=
  let s z := py_str_Z z in
  if String.eqb workload_type "cpu" then
    ("stress-ng --cpu " +:+ s stress_workers +:+ " --timeout " +:+ s duration +:+ "s",
     "Running CPU-bound workload (tests base_slice_ns)")
  else if String.eqb workload_type "context-switch" then
    ("stress-ng --switch " +:+ s (Z.min stress_workers (total_cpus * 4)) +:+ " --timeout " +:+ s duration +:+ "s",
     "Running context-switch workload (tests migration_cost_ns)")
  else if String.eqb workload_type "fork" then
    ("stress-ng --fork " +:+ s (Z.min (stress_workers / 2) 64) +:+ " --timeout " +:+ s duration +:+ "s",
     "Running fork workload (tests sched_nr_migrate)")
  else if String.eqb workload_type "mixed" then
    ("stress-ng --cpu " +:+ s (stress_workers / 2) +:+ " --io " +:+ s (stress_workers / 4) +:+ " --timeout " +:+
     s duration +:+ "s",
     "Running mixed CPU+I/O workload")
  else
    ("stress-ng --cpu " +:+ s stress_workers +:+ " --timeout " +:+ s duration +:+ "s", "Running default workload").

Definition perf_prefix : string :=
  "perf stat -e context-switches,cpu-migrations,page-faults,task-clock,branch-misses,branches,cpu-cycles,instructions ".

(** A line of numbers: the values are looked up first. *)
Definition log_items (m : metrics) (keys : list string) (text : list num → result string) : T () :=
  l ← lift (results (map (λ k, metric_item k m) keys));
  log_fmt Info (text l).

Definition log_metrics (m : metrics) : T () :=
  log_title "SCHEDULER METRICS (via perf stat)" ;;
  log_items m ["context_switches"; "cs_per_second"]%string (λ l, match l with
    | [a; b] => x ← d_of a; y ← f_of 1 false b; Ret ("Context switches: " +:+ x +:+ " (" +:+ y +:+ " cs/sec)")
    | _ => type_error end) ;;
  log_items m ["cpu_migrations"; "migrations_per_second"]%string (λ l, match l with
    | [a; b] => x ← d_of a; y ← f_of 1 false b; Ret ("CPU migrations: " +:+ x +:+ " (" +:+ y +:+ " migrations/sec)")
    | _ => type_error end) ;;
  log_items m ["page_faults"]%string (λ l, match l with
    | [a] => x ← d_of a; Ret ("Page faults: " +:+ x) | _ => type_error end) ;;
  log_items m ["task_clock_ms"; "cpus_utilized"]%string (λ l, match l with
    | [a; b] => x ← f_of 2 false a; y ← f_of 1 false b;
                Ret ("Task clock: " +:+ x +:+ " ms (" +:+ y +:+ " CPUs utilized)")
    | _ => type_error end) ;;
  log_items m ["insn_per_cycle"]%string (λ l, match l with
    | [a] => x ← f_of 2 false a; Ret ("Instructions per cycle: " +:+ x) | _ => type_error end) ;;
  log_items m ["time_elapsed"]%string (λ l, match l with
    | [a] => x ← f_of 2 false a; Ret ("Time elapsed: " +:+ x +:+ " seconds") | _ => type_error end) ;;
  switches ← lift (metric_item "context_switches" m);
  when (num_lt (NInt 0) switches)
    (migrations ← lift (metric_item "cpu_migrations" m);
     r ← lift (x ← num_mul migrations (NFloat (fl 1000 0)); num_div x switches);
     log_info (NL +:+ "Derived Metrics:") ;;
     log_fmt Info (s ← f_of 2 false r; Ret ("  Migrations per 1000 context switches: " +:+ s)) ;;
     when (num_lt (NInt 1000) r)
       (log_warning "  ⚠ Unusually high migration ratio - may indicate system instability")) ;;
  log_info ruler.

(** [_run_workload_single] with both arguments given *)
Definition run_workload_single (duration : Z) (workload_type : string) : T run_result :=
  stress_workers ← gets sc_stress_workers;
  total_cpus ← gets sc_total_cpus;
  let '(stress_cmd, log_msg) := build_stress_command stress_workers total_cpus workload_type duration in
  log_info log_msg ;;
  let perf_cmd := perf_prefix +:+ stress_cmd in
  log_info ("Command: " +:+ perf_cmd) ;;
  try_except
    ('(result, perf_output) ← ext (EvRun perf_cmd [Shell; IgnoreStatus]) (run_with_stderr perf_cmd [Shell; IgnoreStatus]);
     m ← lift (parse_perf_output perf_output);
     log_metrics m ;;
     mret (RunResult (exit_status result =? 0) m perf_output))
    any_exn
    (λ e, log_error ("Workload with perf failed: " +:+ ex_msg e) ;;
          mret (RunResult false [] (ex_msg e))).

(** One iteration: the metrics of the run, if it was successful. *)
Definition workload_iteration (duration iterations : Z) (workload_type : string) (all_runs : list metrics) (i : Z)
    : T (list metrics) :=
  log_info ("Iteration " +:+ py_str_Z (i + 1) +:+ "/" +:+ py_str_Z iterations +:+ "...") ;;
  result ← run_workload_single duration workload_type;
  if rr_success result then mret (all_runs ++ [rr_metrics result])
  else log_warning ("Iteration " +:+ py_str_Z (i + 1) +:+ " failed") ;; mret all_runs.

Definition log_averages (successful_runs : Z) (avg dev : metrics) : T () :=
  log_info (NL +:+ ruler) ;;
  log_info ("AVERAGED METRICS (" +:+ py_str_Z successful_runs +:+ " successful runs)") ;;
  log_info ruler ;;
  log_fmt Info (a ← f_of 0 false (metric "context_switches" avg); b ← f_of 0 false (metric "context_switches" dev);
                Ret ("Context switches: " +:+ a +:+ " (±" +:+ b +:+ ")")) ;;
  log_fmt Info (a ← f_of 0 false (metric "cpu_migrations" avg); b ← f_of 0 false (metric "cpu_migrations" dev);
                Ret ("CPU migrations: " +:+ a +:+ " (±" +:+ b +:+ ")")) ;;
  log_fmt Info (a ← f_of 0 false (metric "page_faults" avg); b ← f_of 0 false (metric "page_faults" dev);
                Ret ("Page faults: " +:+ a +:+ " (±" +:+ b +:+ ")")) ;;
  log_fmt Info (a ← f_of 2 false (metric "task_clock_ms" avg); Ret ("Task clock: " +:+ a +:+ " ms")) ;;
  log_fmt Info (a ← f_of 2 false (metric "insn_per_cycle" avg); Ret ("Instructions per cycle: " +:+ a)) ;;
  when (num_lt (NInt 0) (metric "context_switches" avg))
    (r ← lift (x ← num_mul (metric "cpu_migrations" avg) (NFloat (fl 1000 0));
               y ← metric_item "context_switches" avg; num_div x y);
     log_fmt Info (s ← f_of 2 false r; Ret ("Migrations per 1000 context switches: " +:+ s))) ;;
  log_info ruler.

(** [_run_workload(workload_type=...)]: the duration of the object, 10 iterations *)
Definition run_workload (workload_type : string) : T workload_result :=
  let iterations := 10 in
  duration ← gets sc_test_duration;
  log_info (NL +:+ "--- Running " +:+ py_str_Z iterations +:+ " iterations for reliable metrics ---") ;;
  log_info ("Using short duration (" +:+ py_str_Z duration +:+ "s) per iteration to prevent resource exhaustion") ;;
  all_runs ← for_acc (Zrange 0 iterations) [] (workload_iteration duration iterations workload_type);
  let successful_runs := Z.of_nat (length all_runs) in
  if successful_runs =? 0 then mret (WorkloadResult false [] [] [] None)
  else
    '(avg_metrics, std_dev) ← lift (average_metrics all_runs);
    log_averages successful_runs avg_metrics std_dev ;;
    mret (WorkloadResult true avg_metrics all_runs std_dev (Some (successful_runs, iterations))).

(** ** The tests *)

(** [self.params.get(key, path=path, default=default)], where text is expected. *)
Definition get_param_at (key path : string) (default : pyval) : T pyval := mret (param_at key path default).
Definition workload_param (path default : string) : T string :=
  v ← get_param_at "workload_type" path (VStr default); mret (py_str v).
Definition factor_param (key path : string) (default : float) : T float :=
  v ← get_param_at key path (VFloat default); lift (py_float v).

(** What [%s] prints of a tunable that may be missing. *)
Definition show_tunable (v : option string) : string := match v with Some s => s | None => "None" end.

(** The text of a tunable that is there and not empty. *)
Definition set_value (v : option string) : option string :=
  match v with Some s => if py_empty s then None else Some s | None => None end.

Definition test_01_baseline : T () :=
  log_title "TEST 1: DEFAULT TUNABLES Verification" ;;
  log_info (NL +:+ "Current tunable values:") ;;
  base_slice ← get_tunable "base_slice_ns";
  migration_cost ← get_tunable "sched_migration_cost_ns";
  nr_migrate ← get_tunable "sched_nr_migrate";
  schedstats ← get_tunable "sched_schedstats";
  log_info ("  base_slice_ns = " +:+ show_tunable base_slice) ;;
  log_info ("  sched_migration_cost_ns = " +:+ show_tunable migration_cost) ;;
  log_info ("  sched_nr_migrate = " +:+ show_tunable nr_migrate) ;;
  log_info ("  sched_schedstats = " +:+ show_tunable schedstats) ;;
  workload_type ← workload_param "/tests/baseline/*" "mixed";
  log_info (NL +:+ "Running workload with DEFAULT tunables...") ;;
  result ← run_workload workload_type;
  if wl_success result then
    let m := wl_metrics result in
    log_info (NL +:+ "--- VALIDATION: Default Tunable Behavior ---") ;;
    log_fmt Info (s ← d_of (metric "context_switches" m); Ret ("Context switches: " +:+ s)) ;;
    log_fmt Info (s ← d_of (metric "cpu_migrations" m); Ret ("CPU migrations: " +:+ s)) ;;
    (if num_lt (NInt 0) (metric "context_switches" m) then
       log_info "✓ Context switches detected (scheduler is working)"
     else test_fail "No context switches detected - scheduler may not be functioning correctly") ;;
    (if num_lt (NInt 0) (metric "cpu_migrations" m) then
       log_info "✓ CPU migrations detected (load balancing is working)"
     else test_fail "No CPU migrations detected - load balancing may not be functioning correctly") ;;
    modify (with_baseline_metrics m) ;;
    log_info (NL +:+ "✓ Default tunables test completed successfully") ;;
    log_info "✓ Baseline metrics stored for comparison in other tests"
  else test_fail "Baseline test failed".

(** The current values, before a test changes them. *)
Definition log_current (label base_slice migration_cost : string) : T () :=
  log_info (NL +:+ "--- STEP 1: Baseline (Default Tunables) ---") ;;
  log_info "Current tunables:" ;;
  b ← lift (py_int (VStr base_slice));
  b_ms ← lift (to_ms b);
  log_fmt Info (s ← f_of 2 false b_ms; Ret ("  " +:+ label +:+ ": " +:+ py_str_Z b +:+ " (" +:+ s +:+ " ms)")) ;;
  c ← lift (py_int (VStr migration_cost));
  c_ms ← lift (to_ms c);
  log_fmt Info (s ← f_of 2 false c_ms; Ret ("  migration_cost_ns: " +:+ py_str_Z c +:+ " (" +:+ s +:+ " ms)")).

Definition TOLERANCE : num := NFloat (fl 5 0).

(** [abs(x)] *)
Definition num_abs (n : num) : num :=
  match n with NInt z => NInt (Z.abs z) | NFloat f => NFloat (SFabs f) end.

(** [x > TOLERANCE], [x < -TOLERANCE] and [abs(x) <= TOLERANCE] *)
Definition above_tolerance (x : num) : bool := num_lt TOLERANCE x.
Definition below_tolerance (x : num) : bool := num_lt x (NFloat (fl (-5) 0)).
Definition within_tolerance (x : num) : bool := num_le (num_abs x) TOLERANCE.

Definition log_within (x : num) : T () :=
  log_fmt Info (s ← f_of 1 false x; t ← f_of 1 false TOLERANCE;
    Ret ("  ✓ WITHIN TOLERANCE: Context switch change " +:+ s +:+ "% is within ±" +:+ t +:+ "% noise threshold")).

Definition judge_low_latency (cs_change : option num) : T () :=
  match cs_change with
  | None => mret ()
  | Some x =>
      if above_tolerance x then
        log_fmt Info (s ← f_of 1 false x;
          Ret ("  ✓ EXPECTED: More context switches with smaller time slices (+" +:+ s +:+ "%)"))
      else if within_tolerance x then log_within x
      else
        log_fmt Info (s ← f_of 1 false x;
          Ret ("  ℹ NOTE: Fewer context switches observed (" +:+ s +:+
               "%) — normal for CPU-bound workloads with reduced latency_ns; check CPU migrations for tunable effect"))
  end.

Definition judge_high_throughput (cs_change : option num) : T () :=
  match cs_change with
  | None => mret ()
  | Some x =>
      if below_tolerance x then
        log_fmt Info (s ← f_of 1 false x;
          Ret ("  ✓ EXPECTED: Fewer context switches with larger time slices (" +:+ s +:+ "%)"))
      else if within_tolerance x then log_within x
      else
        log_fmt Info (s ← f_of 1 false x;
          Ret ("  ℹ NOTE: More context switches observed (" +:+ s +:+
               "%) — may be workload-dominated; check CPU migrations for tunable effect"))
  end.

(** What the low-latency test sets. *)
Definition low_values (base_slice migration_cost : string) (base_slice_factor migration_cost_factor : float)
    : result (Z * Z) :=
  b ← scale_tunable base_slice base_slice_factor;
  c ← scale_tunable migration_cost migration_cost_factor;
  Ret (Z.max MIN_BASE_SLICE_NS b, Z.max MIN_MIGRATION_COST_NS c).

(** What the high-throughput test sets. *)
Definition high_values (base_slice migration_cost : string) (base_slice_factor migration_cost_factor : float)
    : result (Z * Z) :=
  b ← scale_tunable base_slice base_slice_factor;
  c ← scale_tunable migration_cost migration_cost_factor;
  Ret (b, c).

Definition change_tunables (label base_slice migration_cost : string) (new_base_slice new_migration_cost : Z) : T () :=
  b ← lift (py_int (VStr base_slice));
  log_tunable_change label b new_base_slice ;;
  c ← lift (py_int (VStr migration_cost));
  log_tunable_change "migration_cost_ns" c new_migration_cost ;;
  set_tunable "base_slice_ns" (VInt new_base_slice) ;;
  set_tunable "sched_migration_cost_ns" (VInt new_migration_cost) ;;
  sleep (VInt 2).

Definition unavailable : string :=
  "Required tunables (base_slice_ns/latency_ns and sched_migration_cost_ns) not available on this kernel".

Definition test_02_low_latency : T () :=
  log_title "TEST 2: LOW LATENCY Configuration" ;;
  baseline_base_slice ← get_tunable "base_slice_ns";
  baseline_migration_cost ← get_tunable "sched_migration_cost_ns";
  base_slice_label ← get_tunable_display_name "base_slice_ns";
  match set_value baseline_base_slice, set_value baseline_migration_cost with
  | Some base_slice, Some migration_cost =>
      log_current base_slice_label base_slice migration_cost ;;
      workload_type ← workload_param "/tests/low_latency/*" "cpu";
      base_slice_factor ← factor_param "base_slice_ns_factor" "/tests/low_latency/tunables/*" (fl_decimal 25 (-2));
      migration_cost_factor ← factor_param "migration_cost_ns_factor" "/tests/low_latency/tunables/*"
                                (fl_decimal 10 (-2));
      log_info (NL +:+ "Running workload with DEFAULT tunables...") ;;
      baseline_result ← run_workload workload_type;
      when (negb (wl_success baseline_result)) (test_fail "Baseline workload failed") ;;
      log_info (NL +:+ "--- STEP 2: Low Latency (Modified Tunables) ---") ;;
      '(low_base_slice, low_migration_cost) ←
        lift (low_values base_slice migration_cost base_slice_factor migration_cost_factor);
      log_info "Setting low latency tunables:" ;;
      change_tunables base_slice_label base_slice migration_cost low_base_slice low_migration_cost ;;
      log_info (NL +:+ "Running workload with LOW LATENCY tunables...") ;;
      test_result ← run_workload workload_type;
      when (wl_success test_result)
        (log_title "VALIDATION: Comparing Baseline vs Low Latency" ;;
         cs_change ← compare_and_log_metrics (wl_metrics baseline_result) (wl_metrics test_result)
                       "context_switches" "Context Switches";
         judge_low_latency cs_change ;;
         _ ← compare_and_log_metrics (wl_metrics baseline_result) (wl_metrics test_result)
               "cpu_migrations" "CPU Migrations";
         log_info ruler) ;;
      if wl_success test_result then log_info (NL +:+ "✓ Low latency test completed successfully")
      else test_fail "Low latency test failed"
  | _, _ => test_cancel unavailable
  end.

Definition test_03_high_throughput : T () :=
  log_title "TEST 3: HIGH THROUGHPUT Configuration" ;;
  baseline_base_slice ← get_tunable "base_slice_ns";
  baseline_migration_cost ← get_tunable "sched_migration_cost_ns";
  base_slice_label ← get_tunable_display_name "base_slice_ns";
  match set_value baseline_base_slice, set_value baseline_migration_cost with
  | Some base_slice, Some migration_cost =>
      log_current base_slice_label base_slice migration_cost ;;
      workload_type ← workload_param "/tests/high_throughput/*" "context-switch";
      base_slice_factor ← factor_param "base_slice_ns_factor" "/tests/high_throughput/tunables/*" (fl 3 0);
      migration_cost_factor ← factor_param "migration_cost_ns_factor" "/tests/high_throughput/tunables/*" (fl 2 0);
      log_info (NL +:+ "Running workload with DEFAULT tunables...") ;;
      baseline_result ← run_workload workload_type;
      when (negb (wl_success baseline_result)) (test_fail "Baseline workload failed") ;;
      log_info (NL +:+ "--- STEP 2: High Throughput (Modified Tunables) ---") ;;
      '(high_base_slice, high_migration_cost) ←
        lift (high_values base_slice migration_cost base_slice_factor migration_cost_factor);
      log_info "Setting high throughput tunables:" ;;
      change_tunables base_slice_label base_slice migration_cost high_base_slice high_migration_cost ;;
      log_info (NL +:+ "Running workload with HIGH THROUGHPUT tunables...") ;;
      test_result ← run_workload workload_type;
      when (wl_success test_result)
        (log_title "VALIDATION: Comparing Baseline vs High Throughput" ;;
         cs_change ← compare_and_log_metrics (wl_metrics baseline_result) (wl_metrics test_result)
                       "context_switches" "Context Switches";
         judge_high_throughput cs_change ;;
         _ ← compare_and_log_metrics (wl_metrics baseline_result) (wl_metrics test_result)
               "cpu_migrations" "CPU Migrations";
         log_info ruler) ;;
      if wl_success test_result then log_info "✓ High throughput test completed successfully"
      else test_fail "High throughput test failed"
  | _, _ => test_cancel unavailable
  end.

(** What the migration test sets. *)
Definition aggressive_value (nr_migrate : string) (nr_migrate_factor : float) : result Z :=
  n ← scale_tunable nr_migrate nr_migrate_factor; Ret (Z.min 128 n).

Definition test_04_migration_behavior : T () :=
  log_title "TEST 4: MIGRATION BEHAVIOR Test" ;;
  baseline_nr_migrate ← get_tunable "sched_nr_migrate";
  match set_value baseline_nr_migrate with
  | Some nr_migrate =>
      workload_type ← workload_param "/tests/migration_behavior/*" "fork";
      nr_migrate_factor ← factor_param "nr_migrate_factor" "/tests/migration_behavior/tunables/*" (fl 2 0);
      log_info (NL +:+ "--- STEP 1: Baseline (Default Tunables) ---") ;;
      log_info ("  sched_nr_migrate = " +:+ nr_migrate) ;;
      log_info (NL +:+ "Running workload with DEFAULT tunables...") ;;
      baseline_result ← run_workload workload_type;
      when (negb (wl_success baseline_result)) (test_fail "Baseline workload failed") ;;
      log_info (NL +:+ "--- STEP 2: Aggressive Migration (Modified Tunable) ---") ;;
      aggressive_nr_migrate ← lift (aggressive_value nr_migrate nr_migrate_factor);
      log_info "Setting aggressive migration:" ;;
      n ← lift (py_int (VStr nr_migrate));
      log_tunable_change_unit "sched_nr_migrate" n aggressive_nr_migrate "tasks" ;;
      log_info "  Higher value = more tasks migrated at once = better load balancing" ;;
      set_tunable "sched_nr_migrate" (VInt aggressive_nr_migrate) ;;
      sleep (VInt 2) ;;
      log_info (NL +:+ "Running migration test workload...") ;;
      result ← run_workload workload_type;
      if wl_success result then
        log_info (NL +:+ "--- VALIDATION: Tunable Impact ---") ;;
        _ ← compare_and_log_metrics (wl_metrics baseline_result) (wl_metrics result)
              "cpu_migrations" "CPU Migrations";
        log_info "sched_nr_migrate controls how many tasks are migrated per load balancing operation" ;;
        log_info "Higher value can improve load distribution but may increase overhead" ;;
        log_info "✓ Migration behavior test completed successfully"
      else test_fail "Migration behavior test failed"
  | None => test_cancel "sched_nr_migrate tunable not available"
  end.

Definition tearDown : T () :=
  restore_tunables ;;
  log_title "TEST SUITE COMPLETED".
End SchedulerTunablesTest.
