(* ===== verification/SchedTunables.v ===== *)
(** * The tunables of a kernel

    The class [TunableMachine]: files that hold the tunables, which a write changes and
    nothing else does.  The theorems: whatever a test does, tearDown gives every file its
    value from before the test; and which values the tests write. *)

From S2P Require Import Prelude PyStr PyFloat PyVal Avocado Logic Sched.
Open Scope Z_scope.

(** ** Stripped text *)

Lemma drop_while_head (p : ascii → bool) l : match drop_while p l with [] => True | c :: _ => p c = false end.
Proof. induction l as [|c l IH]; simpl; [done|]. by destruct (p c) eqn:E. Qed.

Lemma strip_idem l : trimmed is_space (strip_chars is_space l).
Proof.
  unfold strip_chars. pose proof (drop_while_head is_space l) as H1.
  set (l1 := drop_while is_space l) in *. destruct (drop_while_spaces (rev l1)) as (ws & _ & E).
  pose proof (drop_while_head is_space (rev l1)) as H2. set (l2 := drop_while is_space (rev l1)) in *.
  split.
  - assert (l1 = rev l2 ++ rev ws) as E1 by (by rewrite <- rev_app_distr, <- E, rev_involutive).
    rewrite E1 in H1. by destruct (rev l2).
  - destruct l2 as [|c l2]; [done|]. simpl. by rewrite last_opt_snoc.
Qed.

(** A stripped text that a file gives back with a line end. *)
Lemma strip_line s : py_strip (py_strip s +:+ NL) = py_strip s.
Proof.
  unfold py_strip. autorewrite with pystr. pose proof (strip_idem (chars_of s)) as Ht. f_equal.
  destruct (strip_chars is_space (chars_of s)) as [|c l] eqn:E; [done|].
  apply (strip_padded is_space [] (c :: l)); [done|by repeat constructor|done|done].
Qed.

(** ** The machine *)

Class TunableMachine (W : Type) {HE : Env W} {HL : SchedLib W} := {
  content : string → W → option string;
  tm_exists p w : env_exists p w = (bool_decide (is_Some (content p w)), w);
  tm_read p w s : content p w = Some s → env_read p w = (Ret s, w);
  (* a write changes that file only; reading it gives the text and a line end *)
  tm_write p s w : is_Some (content p w) → ∃ w', write_file_at p s w = (Ret (), w') ∧
    content p w' = Some (s +:+ NL) ∧ ∀ q, q ≠ p → content q w' = content q w;
  (* workloads do not change the files *)
  tm_perf cmd fl w : ∀ p, content p (run_with_stderr cmd fl w).2 = content p w;
}.

Section machine.
Context {W : Type} {HE : Env W} {HL : SchedLib W} {HM : TunableMachine W}.
Implicit Types (w : W) (x : sched_self) (s : pstate W sched_self).

(** The value of a tunable file. *)
Definition value (p : string) (w : W) : option string := py_strip <$> content p w.

Definition exists_in (w : W) (p : string) : bool := bool_decide (is_Some (content p w)).

(** The path of a tunable. *)
Fixpoint first_in (w : W) (paths : list string) : option string :=
  match paths with
  | [] => None
  | p :: paths' => if exists_in w p then Some p else first_in w paths'
  end.
Definition path_of (w : W) (name : string) : option string := first_in w (tunable_paths name).

Lemma first_existing_eq paths s :
  first_existing paths s = (Ret (first_in (ps_world s) paths), s).
Proof using Type.
  revert s. induction paths as [|p paths IH]; intros [w tr x]; [done|].
  cbn [first_existing first_in ps_world]. unfold mbind, M_bind, path_exists, silent. cbn [ps_world ps_trace ps_self].
  rewrite tm_exists. fold (exists_in w p). destruct (exists_in w p); [done|]. apply IH.
Qed.

Lemma path_eq name s : get_tunable_path name s = (Ret (path_of (ps_world s) name), s).
Proof using Type. apply first_existing_eq. Qed.

Lemma first_in_some w paths p : first_in w paths = Some p → is_Some (content p w) ∧ p ∈ paths.
Proof using Type.
  induction paths as [|q paths IH]; [done|]. simpl. destruct (exists_in w q) eqn:E.
  - intros [= ->]. apply bool_decide_eq_true in E. split; [done|left].
  - intros H. destruct (IH H). split; [done|by right].
Qed.

Lemma first_in_ext w1 w2 paths :
  (∀ p, is_Some (content p w1) ↔ is_Some (content p w2)) → first_in w1 paths = first_in w2 paths.
Proof using Type.
  intros H. induction paths as [|p paths IH]; [done|]. simpl. unfold exists_in.
  rewrite (bool_decide_ext _ _ (H p)), IH. done.
Qed.

(** The files of the tunables of the running kernel. *)
Definition is_tunable_file (w : W) (p : string) : Prop := ∃ name, path_of w name = Some p.

(** What a test does to the files: none appears or disappears, and only those of the tunables
    change. *)
Definition only_tunables (w0 w : W) : Prop :=
  (∀ p, is_Some (content p w) ↔ is_Some (content p w0)) ∧
  (∀ p, ¬ is_tunable_file w0 p → content p w = content p w0).

Lemma only_tunables_same w0 w w' : (∀ p, content p w' = content p w) → only_tunables w0 w → only_tunables w0 w'.
Proof using Type. intros H [H1 H2]. split; intros p; rewrite H; [apply H1|apply H2]. Qed.

Lemma only_tunables_write w0 w w' p v :
  only_tunables w0 w → is_tunable_file w0 p →
  content p w' = Some v → (∀ q, q ≠ p → content q w' = content q w) → only_tunables w0 w'.
Proof using Type.
  intros [H1 H2] (name & Hp) Hv Hq. split; intros q.
  - destruct (decide (q = p)) as [->|Hne]; [|by rewrite Hq].
    apply first_in_some in Hp as [Hp _]. rewrite Hv. naive_solver.
  - intros Hn. rewrite Hq; [by apply H2|]. intros ->. apply Hn. by exists name.
Qed.

(** The invariant of a test: the saved values stay, and only files of tunables change. *)
Definition tunable_inv (w0 : W) (d : dict string) (s : pstate W sched_self) : Prop :=
  sc_original_tunables (ps_self s) = d ∧ only_tunables w0 (ps_world s).

Lemma path_of_inv w0 w name : only_tunables w0 w → path_of w name = path_of w0 name.
Proof using Type. intros [H _]. unfold path_of. by apply first_in_ext. Qed.

(** ** The tests keep the invariant *)

Section invariant.
Context (w0 : W) (d : dict string).
Abbreviation I := (tunable_inv w0 d).

Lemma inv_log l msg : keeps I (log l msg).
Proof using Type. by apply keeps_ext. Qed.

Lemma inv_log_fmt l r : keeps I (log_fmt l r).
Proof using Type. destruct r; [apply inv_log|apply keeps_ret]. Qed.

Lemma inv_sleep v : keeps I (sleep v).
Proof using Type. unfold sleep. destruct (as_num v); [destruct (num_lt _ _)|]; try apply keeps_throw. by apply keeps_ext. Qed.

Lemma inv_path name : keeps I (get_tunable_path name).
Proof using HM. intros s Hs. by rewrite path_eq. Qed.

Lemma inv_get_tunable name : keeps I (get_tunable name).
Proof using HM.
  intros [w tr x] Hs. unfold get_tunable. rewrite (bind_ret _ _ _ _ _ (path_eq name _)). cbn [ps_world].
  destruct (path_of w name) as [p|] eqn:E; [|done].
  apply first_in_some in E as [[c Hc] _]. unfold try_except, mbind, M_bind, read_file, silent. cbn [ps_world ps_trace ps_self].
  by rewrite (tm_read p w c Hc).
Qed.

Lemma inv_display name : keeps I (get_tunable_display_name name).
Proof using HM.
  intros s Hs. unfold get_tunable_display_name. rewrite (bind_ret _ _ _ _ _ (path_eq name _)).
  destruct (path_of _ name); [|done]. by destruct (String.eqb name "base_slice_ns").
Qed.

Lemma inv_set_tunable name v : keeps I (set_tunable name v).
Proof using HM.
  intros [w tr x] [Hd Ho]. unfold set_tunable. rewrite (bind_ret _ _ _ _ _ (path_eq name _)). cbn [ps_world].
  destruct (path_of w name) as [p|] eqn:E; [|done].
  pose proof (first_in_some _ _ _ E) as [Hp _]. destruct (tm_write p (py_str v) w Hp) as (w' & Hw & Hc & Hq).
  unfold try_except, mbind, M_bind, write_file, log, ext. cbn [ps_world ps_trace ps_self]. rewrite Hw.
  split; [done|]. cbn. apply (only_tunables_write w0 w w' p (py_str v +:+ NL)); [done| |done|done].
  exists name. by rewrite <- (path_of_inv w0 w).
Qed.

Lemma inv_perf cmd fl : keeps I (ext (EvRun cmd fl) (run_with_stderr cmd fl)).
Proof using HM.
  apply keeps_ext. intros w tr x [Hd Ho]. split; [done|]. cbn.
  apply (only_tunables_same w0 w); [|done]. apply tm_perf.
Qed.

Lemma inv_modify (f : sched_self → sched_self) :
  (∀ x, sc_original_tunables (f x) = sc_original_tunables x) → keeps I (modify f).
Proof using Type. intros Hf s [Hd Ho]. split; [|done]. cbn. by rewrite Hf. Qed.

#[local] Hint Resolve inv_log inv_log_fmt inv_sleep inv_path inv_get_tunable inv_display inv_set_tunable
  inv_perf : keeps.

Lemma inv_title title : keeps I (log_title title).
Proof using Type. unfold log_title. keeps_with idtac. Qed.

Lemma inv_items m keys f : keeps I (log_items m keys f).
Proof using Type. unfold log_items. keeps_with idtac. Qed.
#[local] Hint Resolve inv_title inv_items : keeps.

Lemma inv_log_metrics m : keeps I (log_metrics m).
Proof using Type. unfold log_metrics. keeps_with idtac. Qed.
#[local] Hint Resolve inv_log_metrics : keeps.

Lemma inv_single duration workload_type : keeps I (run_workload_single duration workload_type).
Proof using HM. unfold run_workload_single. keeps_with idtac. Qed.
#[local] Hint Resolve inv_single : keeps.

Lemma inv_iteration duration iterations workload_type all_runs i :
  keeps I (workload_iteration duration iterations workload_type all_runs i).
Proof using HM. unfold workload_iteration. keeps_with idtac. Qed.

Lemma inv_averages n avg dev : keeps I (log_averages n avg dev).
Proof using Type. unfold log_averages. keeps_with idtac. Qed.
#[local] Hint Resolve inv_iteration inv_averages : keeps.

Lemma inv_workload workload_type : keeps I (run_workload workload_type).
Proof using HM. unfold run_workload. keeps_with idtac. Qed.

Lemma inv_compare a b k n : keeps I (compare_and_log_metrics a b k n).
Proof using Type. unfold compare_and_log_metrics. keeps_with idtac. Qed.

Lemma inv_change name a b : keeps I (log_tunable_change name a b).
Proof using Type. unfold log_tunable_change. keeps_with idtac. Qed.

Lemma inv_change_unit name a b u : keeps I (log_tunable_change_unit name a b u).
Proof using Type. apply inv_log. Qed.
#[local] Hint Resolve inv_workload inv_compare inv_change inv_change_unit : keeps.

Lemma inv_change_tunables label a b m n : keeps I (change_tunables label a b m n).
Proof using HM. unfold change_tunables. keeps_with idtac. Qed.

Lemma inv_current label a b : keeps I (log_current label a b).
Proof using Type. unfold log_current. keeps_with idtac. Qed.

Lemma inv_judge_low c : keeps I (judge_low_latency c).
Proof using Type. unfold judge_low_latency, log_within. keeps_with idtac. Qed.

Lemma inv_judge_high c : keeps I (judge_high_throughput c).
Proof using Type. unfold judge_high_throughput, log_within. keeps_with idtac. Qed.

Lemma inv_workload_param path v : keeps I (workload_param path v).
Proof using Type. unfold workload_param, get_param_at. keeps_with idtac. Qed.

Lemma inv_factor_param key path v : keeps I (factor_param key path v).
Proof using Type. unfold factor_param, get_param_at. keeps_with idtac. Qed.
#[local] Hint Resolve inv_change_tunables inv_current inv_judge_low inv_judge_high inv_workload_param
  inv_factor_param : keeps.

Lemma inv_tests test :
  test ∈ [test_01_baseline; test_02_low_latency; test_03_high_throughput; test_04_migration_behavior] →
  keeps I test.
Proof using HM.
  intros H. repeat (apply elem_of_cons in H as [->|H]); [..|by apply not_elem_of_nil in H];
    unfold test_01_baseline, test_02_low_latency, test_03_high_throughput, test_04_migration_behavior;
    keeps_with ltac:(by apply inv_modify).
Qed.
End invariant.

(** ** Saving *)

(** The saved values: of the files of the given tunables, what they hold. *)
Definition saved (w : W) (names : list string) (d : dict string) : Prop :=
  NoDup (map fst d) ∧ (∀ p v, (p, v) ∈ d → value p w = Some v) ∧
  (∀ name p, name ∈ names → path_of w name = Some p → p ∈ map fst d).

Lemma dict_put_keys {V} k (v : V) d p : p ∈ map fst (dict_put k v d) ↔ p = k ∨ p ∈ map fst d.
Proof using Type.
  induction d as [|[k' v'] d IH]; simpl; [by rewrite list_elem_of_singleton, elem_of_nil; tauto|].
  destruct (String.eqb_spec k' k) as [->|Hne]; simpl; rewrite !elem_of_cons; [tauto|]. rewrite IH. tauto.
Qed.

Lemma dict_put_elem {V} k (v : V) d p u : (p, u) ∈ dict_put k v d → (p = k ∧ u = v) ∨ (p, u) ∈ d.
Proof using Type.
  induction d as [|[k' v'] d IH]; simpl; [rewrite list_elem_of_singleton; naive_solver|].
  destruct (String.eqb_spec k' k) as [->|Hne]; simpl; rewrite !elem_of_cons; naive_solver.
Qed.

Lemma dict_put_nodup {V} k (v : V) d : NoDup (map fst d) → NoDup (map fst (dict_put k v d)).
Proof using Type.
  induction d as [|[k' v'] d IH]; simpl; intros Hnd; [repeat constructor; apply not_elem_of_nil|].
  inversion Hnd as [|? ? Hk Hnd']; subst. destruct (String.eqb_spec k' k) as [->|Hne]; simpl; [done|].
  constructor; [|by apply IH]. rewrite dict_put_keys. naive_solver.
Qed.

Lemma save_tunable_spec name names w tr x :
  saved w names (sc_original_tunables x) →
  ∃ tr' x', save_tunable name (PState w tr x) = (Ret (), PState w tr' x') ∧
    saved w (names ++ [name]) (sc_original_tunables x').
Proof using HM.
  intros (Hnd & Hv & Hn). unfold save_tunable. rewrite (bind_ret _ _ _ _ _ (path_eq name _)). cbn [ps_world].
  destruct (path_of w name) as [p|] eqn:E.
  - pose proof (first_in_some _ _ _ E) as [[c Hc] _].
    exists (tr ++ [EvLog Info (match dict_find p base_slice_fallbacks with
      | Some alias => "  ✓ " +:+ name +:+ " (using " +:+ alias +:+ " on this kernel) = " +:+ py_strip c
      | None => "  ✓ " +:+ name +:+ " = " +:+ py_strip c end)]),
      (with_original_tunables (dict_put p (py_strip c) (sc_original_tunables x)) x).
    split.
    + unfold try_except, mbind, M_bind, read_file, silent. cbn [ps_world ps_trace ps_self].
      rewrite (tm_read p w c Hc). by destruct (dict_find p base_slice_fallbacks).
    + cbn [with_original_tunables sc_original_tunables]. split_and!; [by apply dict_put_nodup| |].
      * intros q v [[-> ->]|Hq]%dict_put_elem; [|by apply Hv]. unfold value. by rewrite Hc.
      * intros name' q [Hin|Hin%list_elem_of_singleton]%elem_of_app Hq; rewrite dict_put_keys.
        -- right. by apply (Hn name').
        -- subst name'. left. congruence.
  - eexists _, x. split; [reflexivity|]. split_and!; [done|done|].
    intros name' q [Hin|Hin%list_elem_of_singleton]%elem_of_app Hq; [by apply (Hn name')|]. congruence.
Qed.

Lemma save_all_spec names w tr x :
  sc_original_tunables x = [] →
  ∃ tr' x', for_each names save_tunable (PState w tr x) = (Ret (), PState w tr' x') ∧
    saved w names (sc_original_tunables x').
Proof using HM.
  intros Hx.
  enough (∀ todo dn tr x, names = dn ++ todo → saved w dn (sc_original_tunables x) →
    ∃ tr' x', for_each todo save_tunable (PState w tr x) = (Ret (), PState w tr' x') ∧
      saved w names (sc_original_tunables x')) as H.
  { apply (H names []); [done|]. rewrite Hx. split_and!; [constructor| |]; intros ? ? Hin; by apply not_elem_of_nil in Hin. }
  clear x tr Hx. induction todo as [|name todo IH]; intros dn tr x Hn Hs.
  - rewrite app_nil_r in Hn. subst. by exists tr, x.
  - destruct (save_tunable_spec name dn w tr x Hs) as (tr1 & x1 & E1 & Hs1).
    destruct (IH (dn ++ [name]) tr1 x1) as (tr2 & x2 & E2 & Hs2); [by rewrite <- app_assoc|done|].
    exists tr2, x2. split; [|done]. cbn [for_each]. by rewrite (bind_ret _ _ _ _ _ E1).
Qed.

(** ** Restoring *)

Lemma restore_spec d w tr x :
  NoDup (map fst d) → (∀ p v, (p, v) ∈ d → is_Some (content p w)) →
  ∃ w' tr', for_each d restore_tunable (PState w tr x) = (Ret (), PState w' tr' x) ∧
    (∀ p v, (p, v) ∈ d → content p w' = Some (v +:+ NL)) ∧
    (∀ p, p ∉ map fst d → content p w' = content p w).
Proof using HM.
  revert w tr. induction d as [|[p v] d IH]; intros w tr Hnd Hd.
  - exists w, tr. split_and!; [done| |done]. intros p v H. by apply not_elem_of_nil in H.
  - inversion Hnd as [|? ? Hp Hnd']; subst.
    destruct (tm_write p v w) as (w1 & E1 & Hc1 & Hq1); [apply (Hd p v); left|].
    destruct (IH w1 (tr ++ [EvCall "genio.write_file" [VStr p; VStr v]] ++
                     [EvLog Info ("  Restored " +:+ p +:+ " = " +:+ v)])) as (w2 & tr2 & E2 & Hc2 & Hq2).
    + done.
    + intros q u Hq. rewrite Hq1; [apply (Hd q u); by right|]. intros ->. apply Hp.
      apply list_elem_of_In, in_map_iff. exists (p, u). split; [done|]. by apply list_elem_of_In.
    + exists w2, tr2. split_and!.
      * cbn [for_each]. rewrite (bind_ret _ _ _ (PState w1 (tr ++ [EvCall "genio.write_file" [VStr p; VStr v]] ++
          [EvLog Info ("  Restored " +:+ p +:+ " = " +:+ v)]) x) ()); [exact E2|].
        unfold restore_tunable, try_except, mbind, M_bind, write_file, log, ext. cbn [ps_world ps_trace ps_self].
        rewrite E1. cbn. by rewrite <- app_assoc.
      * intros q u [[= -> ->]|Hq]%elem_of_cons; [|by apply (Hc2 q u)]. by rewrite Hq2.
      * intros q [Hne Hq]%not_elem_of_cons. rewrite Hq2 by done. by apply Hq1.
Qed.

Lemma path_of_tunable w name p : path_of w name = Some p → name ∈ tunables.
Proof using Type.
  unfold path_of, tunable_paths, tunables. intros H.
  destruct (String.eqb_spec name "base_slice_ns") as [->|_]; [left|].
  destruct (String.eqb_spec name "sched_migration_cost_ns") as [->|_]; [right; left|].
  destruct (String.eqb_spec name "sched_nr_migrate") as [->|_]; [right; right; left|].
  destruct (String.eqb_spec name "sched_schedstats") as [->|_]; [right; right; right; left|done].
Qed.

(** C5: from saving the tunables (the end of setUp) to the end of tearDown, with any of the four
    tests in between, however it ends: tearDown returns, and every file of the machine holds the
    value it held before. *)
Theorem tearDown_restores_tunables test w tr x :
  sc_original_tunables x = [] →
  test ∈ [test_01_baseline; test_02_low_latency; test_03_high_throughput; test_04_migration_behavior] →
  let s1 := (check_and_save_tunables (PState w tr x)).2 in
  let s2 := (test s1).2 in
  (tearDown s2).1 = Ret () ∧ ∀ p, value p (ps_world (tearDown s2).2) = value p w.
Proof using HM.
  intros Hx Htest s1 s2.
  destruct (save_all_spec tunables w (tr ++ [EvLog Info (NL +:+ "--- Checking Top 4 Scheduler Tunables ---")]) x Hx)
    as (tr1 & x1 & E1 & Hs).
  assert (s1 = PState w (tr1 ++ [EvLog Info ruler]) x1) as ->.
  { unfold s1, check_and_save_tunables. unfold mbind, M_bind at 1. unfold log at 1, ext at 1. cbn [ps_world ps_trace ps_self].
    unfold M_bind. by rewrite E1. }
  set (d := sc_original_tunables x1) in *.
  assert (tunable_inv w d s2) as [Hd Ho].
  { apply (inv_tests w d test Htest). by repeat split. }
  destruct s2 as [w2 tr2 x2]. cbn [ps_self ps_world] in Hd, Ho. destruct Hs as (Hnd & Hv & Hn).
  destruct (restore_spec d w2 (tr2 ++ [EvLog Info (NL +:+ "--- Restoring Original Tunables ---")]) x2 Hnd)
    as (w3 & tr3 & E3 & Hc3 & Hq3).
  { intros p v Hp. apply (proj1 Ho). apply Hv in Hp. unfold value in Hp. by destruct (content p w). }
  assert (restore_tunables (PState w2 tr2 x2) = (Ret (), PState w3 tr3 x2)) as E.
  { unfold restore_tunables. rewrite (bind_ret _ _ _ _ _ (eq_refl : log _ _ _ = _)).
    unfold mbind, M_bind, gets. cbn [ps_world ps_trace ps_self]. rewrite Hd. exact E3. }
  unfold tearDown. rewrite (bind_ret _ _ _ _ _ E). split; [done|]. intros p.
  change (ps_world (log_title _ _).2) with w3. unfold value.
  destruct (decide (p ∈ map fst d)) as [Hp|Hp].
  - apply list_elem_of_In, in_map_iff in Hp as ([q v] & [= ->] & Hq). apply list_elem_of_In in Hq.
    rewrite (Hc3 p v Hq). apply Hv in Hq. unfold value in Hq. destruct (content p w) as [c|]; [|done].
    injection Hq as <-. simpl. by rewrite strip_line.
  - rewrite (Hq3 p Hp). f_equal. apply (proj2 Ho). intros (name & Hname). apply Hp, (Hn name); [|done].
    by apply (path_of_tunable w name p).
Qed.
End machine.
