(* ===== verification/SchedSim.v ===== *)
(** * Values that the scheduler tests write, and a simulated kernel

    The values that the default factors give, and an instance of [TunableMachine] on which the
    theorem about tearDown is applied. *)

From S2P Require Import Prelude PyStr PyFloat PyVal Avocado Logic Sched SchedTunables.
Open Scope Z_scope.

(** ** Default factors *)

Lemma scale_exact z m e :
  0 < z → 0 < m → z * m < 2 ^ 53 → z < 2 ^ 53 → m < 2 ^ 53 → -400 ≤ e ≤ 0 →
  scale_tunable (py_str_Z z) (fl m e) = Ret (z * m / 2 ^ (- e)).
Proof.
  intros Hz Hm Hzm Hz' Hm' He. unfold scale_tunable, py_float. rewrite float_of_str_Z by lia.
  unfold mbind, result_bind. rewrite f_mul_exact by lia. unfold num_int. rewrite Z.add_0_l.
  rewrite fl_trunc by (unfold fits; lia). f_equal. apply Z.quot_div_nonneg; [nia|]. apply Z.pow_pos_nonneg; lia.
Qed.

(** on values below 2^51, the default factors are computed exactly: a quarter of the base
    slice but at least 750000 ns for low latency, three times the base slice and twice the
    migration cost for high throughput, twice the migration batch but at most 128 for aggressive
    migration.  So the first raises a base slice below 750000 and the last lowers a batch above
    128. *)
Theorem default_factor_values b c n :
  0 < b < 2 ^ 51 → 0 < c < 2 ^ 51 → 0 < n < 2 ^ 51 →
  (∀ r, low_values (py_str_Z b) (py_str_Z c) (fl_decimal 25 (-2)) (fl_decimal 10 (-2)) = Ret r →
     r.1 = Z.max MIN_BASE_SLICE_NS (b / 4)) ∧
  high_values (py_str_Z b) (py_str_Z c) (fl 3 0) (fl 2 0) = Ret (3 * b, 2 * c) ∧
  aggressive_value (py_str_Z n) (fl 2 0) = Ret (Z.min 128 (2 * n)).
Proof.
  intros Hb Hc Hn. split_and!.
  - intros r. unfold low_values. change (fl_decimal 25 (-2)) with (fl 1 (-2)). rewrite scale_exact by lia.
    unfold mbind, result_bind. destruct (scale_tunable (py_str_Z c) (fl_decimal 10 (-2))); [|done].
    intros [= <-]. cbn [fst]. by rewrite Z.mul_1_r.
  - unfold high_values. rewrite !scale_exact by lia. unfold mbind, result_bind. rewrite !Z.div_1_r. do 2 f_equal; lia.
  - unfold aggressive_value. rewrite scale_exact by lia. unfold mbind, result_bind. rewrite Z.div_1_r. do 2 f_equal. lia.
Qed.

(** ** A simulated kernel *)

(** The files of the kernel and what they hold. *)
Abbreviation files := (dict string).

Definition write_sim (p s : string) (w : files) : result () * files :=
  match dict_find p w with
  | Some _ => (Ret (), dict_put p (s +:+ NL) w)
  | None => (raise_ OSError "No such file or directory", w)
  end.

#[export] Instance sched_env : Env files := {|
  env_run := λ _ _ w, (Ret (CmdResult 0 ""), w);
  env_system := λ _ _ w, (Ret 0, w);
  env_system_output := λ _ _ w, (Ret "", w);
  env_ssh := λ _ _ w, (Ret (CmdResult 0 ""), w);
  env_connect := λ _ _ _ w, (Ret true, w);
  env_show := stdout_text;
  env_param := λ _ d, d;
  env_exists := λ p w, (bool_decide (is_Some (dict_find p w)), w);
  env_read := λ p w, (match dict_find p w with Some s => Ret s | None => raise_ OSError "No such file or directory" end, w);
  env_append := λ _ _ w, (Ret (), w);
  env_remove := λ _ w, (Ret (), w);
  env_random := λ w, (0, w);
|}.

Definition sim_report : string :=
  "  1,200      context-switches          #  300.00 /sec" +:+ NL +:+ "     34      cpu-migrations            #    8.50 /sec" +:+ NL +:+
  "  4.002 seconds time elapsed" +:+ NL.

#[export] Instance sched_lib : SchedLib files := {|
  sched_check_installed := λ _ w, (Ret true, w);
  sched_install := λ _ w, (Ret true, w);
  sched_online_count := λ w, (Ret 8, w);
  ismount := λ _ w, (true, w);
  write_file_at := write_sim;
  run_with_stderr := λ _ _ w, (Ret (CmdResult 0 "", sim_report), w);
  param_at := λ _ _ d, d;
  float_pow := λ x _, Ret x;
|}.

#[export] Instance sched_machine : TunableMachine files.
Proof.
  refine {| content := λ p w, dict_find p w |}; [done| | |done].
  - intros p w s Hs. simpl. by rewrite Hs.
  - intros p s w [c Hc]. exists (dict_put p (s +:+ NL) w). split_and!.
    + simpl. unfold write_sim. by rewrite Hc.
    + by rewrite dict_find_put, String.eqb_refl.
    + intros q Hq. rewrite dict_find_put. by destruct (String.eqb_spec p q) as [->|].
Defined.

Definition sim_files : files :=
  [("/sys/kernel/debug/sched/base_slice_ns", "3000000" +:+ NL); ("/proc/sys/kernel/sched_schedstats", "0" +:+ NL);
   ("/sys/kernel/debug/sched/migration_cost_ns", "500000" +:+ NL)].

Definition after_setUp : sched_self := SchedSelf 8 10 32 [] None.

(** The low-latency test changes two of the files. *)
Lemma tearDown_restores_tunables_witness :
  let s1 := (check_and_save_tunables (PState sim_files [] after_setUp)).2 in
  let s2 := (test_02_low_latency s1).2 in
  (tearDown s2).1 = Ret () ∧
  ∀ p, value p (ps_world (tearDown s2).2) = value p sim_files.
Proof.
  apply (tearDown_restores_tunables test_02_low_latency sim_files [] after_setUp); [done|right; left].
Defined.

(** It does change them. *)
Example low_latency_changes :
  let s := (test_02_low_latency (check_and_save_tunables (PState sim_files [] after_setUp)).2).2 in
  value "/sys/kernel/debug/sched/base_slice_ns" (ps_world s) = Some "750000"%string.
Proof. vm_compute. reflexivity. Qed.

Lemma default_factor_values_witness :
  high_values "3000000" "500000" (fl 3 0) (fl 2 0) = Ret (9000000, 1000000) ∧
  aggressive_value "200" (fl 2 0) = Ret 128.
Proof.
  destruct (default_factor_values 3000000 500000 200) as (_ & H2 & H3); [lia|lia|lia|].
  split; [exact H2|exact H3].
Defined.
