(* ===== verification/Ndctl.v ===== *)
(** * The NVDIMM tests: memory/ndctl.py

    The class [NdctlTest]: setUp with its ways of building ndctl, the helpers, the tests of
    regions, namespaces, labels, infoblocks, memory hotplug and error injection, and tearDown.
    avocado's [pmem.PMem] object and the other library functions the tests call are the class
    [NdctlLib]. *)

From S2P Require Import Prelude PyStr PyFloat PyVal PyRegex Avocado Logic.
Open Scope Z_scope.

(** ** Data *)

(** [pmem.PMem(ndctl, daxctl)] *)
Record pmem := PMem { pm_ndctl : string; pm_daxctl : string }.

(** [partition.Partition(device, mountpoint=.., mount_options=..)] *)
Record partition := Partition { pt_device : string; pt_mountpoint : pyval; pt_options : pyval }.

(** The attributes of [self].  [preserve_setup] and [plib] may not be set when tearDown runs;
    [None] for [part] and [disk] stands for not set and for Python's [None], which no method
    distinguishes. *)
Record ndctl_self := NdctlSelf {
  nd_package : pyval;
  nd_preserve_setup : option pyval;
  nd_mode_to_use : pyval;
  nd_size_1g_align : pyval;
  nd_ndctl : string;
  nd_daxctl : string;
  nd_plib : option pmem;
  nd_part : option partition;
  nd_disk : option string;
  nd_output : string;
}.

Definition new_ndctl : ndctl_self := NdctlSelf VNone None VNone VNone "" "" None None None "".

Definition with_nd_params (package preserve mode size : pyval) (x : ndctl_self) : ndctl_self :=
  NdctlSelf package (Some preserve) mode size (nd_ndctl x) (nd_daxctl x) (nd_plib x) (nd_part x) (nd_disk x)
    (nd_output x).
Definition with_binaries (ndctl daxctl : string) (x : ndctl_self) : ndctl_self :=
  NdctlSelf (nd_package x) (nd_preserve_setup x) (nd_mode_to_use x) (nd_size_1g_align x) ndctl daxctl (nd_plib x)
    (nd_part x) (nd_disk x) (nd_output x).
Definition with_plib (p : pmem) (x : ndctl_self) : ndctl_self :=
  NdctlSelf (nd_package x) (nd_preserve_setup x) (nd_mode_to_use x) (nd_size_1g_align x) (nd_ndctl x) (nd_daxctl x)
    (Some p) None None (nd_output x).
Definition with_part (p : partition) (x : ndctl_self) : ndctl_self :=
  NdctlSelf (nd_package x) (nd_preserve_setup x) (nd_mode_to_use x) (nd_size_1g_align x) (nd_ndctl x) (nd_daxctl x)
    (nd_plib x) (Some p) (nd_disk x) (nd_output x).
Definition with_disk (d : string) (x : ndctl_self) : ndctl_self :=
  NdctlSelf (nd_package x) (nd_preserve_setup x) (nd_mode_to_use x) (nd_size_1g_align x) (nd_ndctl x) (nd_daxctl x)
    (nd_plib x) (nd_part x) (Some d) (nd_output x).
Definition with_nd_output (s : string) (x : ndctl_self) : ndctl_self :=
  NdctlSelf (nd_package x) (nd_preserve_setup x) (nd_mode_to_use x) (nd_size_1g_align x) (nd_ndctl x) (nd_daxctl x)
    (nd_plib x) (nd_part x) (nd_disk x) s.

(** The library functions.  [list_val] is [PMem.run_ndctl_list_val], which looks a field up in
    a JSON value; [plib_call p m args kwargs] is the method [m] of the PMem object [p];
    [nd_lib] has the other library functions and methods of library objects, by name. *)
Class NdctlLib (W : Type) := {
  list_val : pyval → string → result pyval;
  plib_call : pmem → string → list pyval → dict pyval → W → result pyval * W;
  nd_lib : string → list pyval → W → result pyval * W;
  abspath : string → W → result string * W;
  (* distro.detect() *)
  dist_name : string;
  dist_release : pyval;
  (* self.teststmpdir *)
  teststmpdir : string;
}.

(** ** Values *)

(** [re.findall(r'\d+', v)[0]] *)
Definition first_number (v : pyval) : result string :=
  match v with
  | VStr s =>
      match re_findall false (RPlus Rdigit) s with
      | m :: _ => Ret (str_of (m_text m))
      | [] => raise_ IndexError "list index out of range"
      end
  | _ => raise_ TypeError "expected string or bytes-like object"
  end.

(** [d.items()], and [d.keys()] *)
Definition py_items (v : pyval) : result (dict pyval) :=
  match v with VDict d => Ret d | _ => raise_ AttributeError "object has no attribute 'items'" end.

(** [str(b).split(..)[3]]: the fourth piece between double quotes. *)
Definition quoted_field (output : string) : result string :=
  match py_split_on (ascii_of_nat 34) (bytes_repr output) !! 3%nat with
  | Some s => Ret s
  | None => raise_ IndexError "list index out of range"
  end.

Definition get_unsupported_alignval (def_align : pyval) : pyval :=
  if py_eq def_align (VInt 16777216) then VInt 2097152 else VInt 16777216.

Definition lcm (one two : Z) : result Z :=
  let g := Z.gcd one two in
  if g =? 0 then raise_ ZeroDivisionError "integer division or modulo by zero"
  else Ret (Z.abs (one * two) / g).

(** The regions by size, the largest first, as [sorted] arranges them. *)
Definition by_size (regions : list pyval) : result (list pyval) :=
  keyed ← results (map (λ i, k ← py_getkey i "size"; Ret (k, i)) regions);
  sorted ← sort_desc [] keyed;
  Ret (map snd sorted).

(** ** The class NdctlTest *)

Section NdctlTest.
Context {W : Type} {HE : Env W} {HN : NdctlLib W}.
Abbreviation T := (M W ndctl_self).

Definition is_pmem_exn (c : exn_class) : bool := bool_decide (c = PMemException).

(** The decorator [@avocado.fail_on(pmem.PMemException)] *)
Definition fail_on {A} (m : T A) : T A := try_except m is_pmem_exn (λ e, test_fail (ex_msg e)).

(** A method of [self.plib]. *)
Definition plib (method : string) (args : list pyval) (kw : dict pyval) : T pyval :=
  p ← attr "plib" nd_plib;
  ext (EvCall ("PMem." +:+ method) (args ++ [VDict kw])) (plib_call p method args kw).
Definition plib_do (method : string) (kw : dict pyval) : T () := _ ← plib method [] kw; mret ().

Definition run_ndctl_list (option : string) : T pyval := plib "run_ndctl_list" [VStr option] [].
Definition val (j : pyval) (field : string) : T pyval := lift (list_val j field).

Definition enable_region : dict pyval → T () := plib_do "enable_region".
Definition disable_region : dict pyval → T () := plib_do "disable_region".
Definition create_namespace : dict pyval → T () := plib_do "create_namespace".
Definition destroy_namespace : dict pyval → T () := plib_do "destroy_namespace".
Definition disable_namespace : dict pyval → T () := plib_do "disable_namespace".
Definition enable_namespace : dict pyval → T () := plib_do "enable_namespace".

Definition is_region_legacy (region : pyval) : T bool :=
  v ← plib "is_region_legacy" [region] []; mret (truthy v).

(** A call of another library function. *)
Definition nd_call (fn : string) (args : list pyval) : T pyval := ext (EvCall fn args) (nd_lib fn args).
Definition read_one_line (path : string) : T pyval := nd_call "genio.read_one_line" [VStr path].
Definition abs_path (path : string) : T string := silent (abspath path).

(** [self.plib.run_ndctl_list(option)[0]] and a field of it *)
Definition first_listed (option : string) : T pyval := v ← run_ndctl_list option; lift (py_getitem v 0).
Definition listed (option field : string) : T pyval := j ← first_listed option; val j field.

(** [for x in v] *)
Definition for_in (v : pyval) (body : pyval → T ()) : T () := l ← lift (py_iter v); for_each l body.

Definition of_region (region : pyval) : dict pyval := [("region", region)].

(** ** Helpers *)

Definition get_default_region : T pyval :=
  enable_region [] ;;
  region ← get_param "region" VNone;
  if truthy region then mret region
  else
    v ← run_ndctl_list "-R";
    regions ← lift (py_iter v);
    sorted ← lift (by_size regions);
    r ← lift (py_getitem (VList sorted) 0);
    val r "dev".

(** One namespace of [check_namespace_align]. *)
Definition check_ns_align (map_align : Z) (ns : pyval) : T () :=
  ns_name ← val ns "dev";
  namespace ← first_listed ("-n " +:+ py_str ns_name);
  ndctl_align ← val namespace "align";
  when (negb (py_eq (VInt map_align) ndctl_align))
    (test_fail "Mismatch in mapping alignment and ndctl list align") ;;
  ndctl_size ← val namespace "size";
  ext (EvCall "print" [ndctl_size; VInt map_align]) (λ w, (Ret (), w)) ;;
  rest ← lift (py_mod ndctl_size (VInt map_align));
  when (truthy rest) (test_fail "Created Size is not a multiple of map alignment").

Definition check_namespace_align (region : pyval) : T () :=
  idx ← lift (first_number region);
  line ← read_one_line ("/sys/bus/nd/devices/pfn" +:+ idx +:+ ".0/align");
  map_align ← lift (py_int line);
  namespaces ← run_ndctl_list ("-N -r " +:+ py_str region);
  for_in namespaces (check_ns_align map_align).

(** [int(v, 16)] *)
Definition py_int16 (v : pyval) : result Z :=
  match v with
  | VStr s => match py_int16_of_str s with
              | Some z => Ret z
              | None => raise_ ValueError "invalid literal for int() with base 16"
              end
  | _ => raise_ TypeError "int() can't convert non-string with explicit base"
  end.

Definition get_size_alignval : T Z :=
  b ← path_exists "/sys/bus/nd/devices/region0/align";
  size_align ← (if (b : bool) then line ← read_one_line "/sys/bus/nd/devices/region0/align"; lift (py_int16 line)
                else mret 1);
  c ← path_exists "/sys/bus/nd/devices/pfn0.0/align";
  when (negb c) (test_cancel "Cannot determine the mapping alignment size") ;;
  line ← read_one_line "/sys/bus/nd/devices/pfn0.0/align";
  map_align ← lift (py_int line);
  lift (lcm size_align map_align).

(** [not smm.check_installed(pkg) and not smm.install(pkg)] *)
Definition missing (pkg : string) : T bool :=
  v ← nd_call "SoftwareManager.check_installed" [VStr pkg];
  if truthy v then mret false
  else i ← nd_call "SoftwareManager.install" [VStr pkg]; mret (negb (truthy i)).

Definition require_package (pkg : string) : T () :=
  b ← missing pkg; when b (test_cancel (pkg +:+ " is needed for the test to be run")).

(** The source of fio: downloaded, unpacked and built. *)
Definition build_fio_source : T string :=
  for_each ["autoconf"; "libtool"; "make"]
    (λ package, b ← missing package;
                when b (test_cancel ("Fail to install " +:+ package +:+ " required for this test."))) ;;
  v ← nd_call "fetch_asset" [VStr "http://brick.kernel.dk/snaps/fio-2.1.10.tar.gz"];
  _ ← nd_call "archive.extract" [v; VStr teststmpdir];
  tarball ← lift (as_text v);
  let sourcedir := path_join teststmpdir (basename (before_first ".tar." tarball)) in
  _ ← nd_call "build.make" [VStr sourcedir];
  mret (path_join sourcedir "fio").

Definition build_fio : T string :=
  let pkg := "fio" in
  status ← process_system ("which " +:+ pkg) [IgnoreStatus];
  if negb (status =? 0) then
    b ← missing pkg;
    if (b : bool) then build_fio_source else mret pkg
  else mret pkg.

Definition copyutil (file_name iniparser_dir : string) : T () :=
  _ ← nd_call "shutil.copy" [VStr file_name; VStr iniparser_dir]; mret ().

Definition autotools_build_system : T () :=
  when (negb (String.eqb dist_name "rhel"))
    (let iniparser_dir := "/usr/include/iniparser/" in
     b ← path_exists iniparser_dir;
     when (negb b) (_ ← nd_call "os.makedirs" [VStr iniparser_dir]; mret ()) ;;
     for_each ["/usr/include/iniparser.h"; "/usr/include/dictionary.h"]
       (λ file_name, copyutil file_name iniparser_dir)) ;;
  _ ← process_run "./autogen.sh" [Sudo; Shell];
  _ ← process_run "./configure CFLAGS='-g -O2' --prefix=/usr --disable-docs --sysconfdir=/etc --libdir=/usr/lib64"
        [Shell; Sudo];
  _ ← nd_call "build.make" [VStr "."];
  ndctl ← abs_path "./ndctl/ndctl";
  daxctl ← abs_path "./daxctl/daxctl";
  modify (with_binaries ndctl daxctl).

Definition meson_deps (deps : list string) : list string :=
  deps ++ ["xmlto"; "libuuid-devel"; "meson"; "cmake"] ++
  (if String.eqb dist_name "SuSE" then
     ["libgudev-1_0-devel"; "libiniparser1"; "pkg-config"; "ruby2.5-rubygem-asciidoctor-doc";
      "systemd-rpm-macros"; "libiniparser-devel"]
   else if String.eqb dist_name "rhel" then ["libgudev-devel"; "rubygem-asciidoctor"]
   else []).

Definition meson_build_system (deps : list string) : T () :=
  for_each (meson_deps deps) require_package ;;
  _ ← process_run "meson setup build" [Sudo; Shell];
  _ ← process_run "meson install -C build" [Sudo; Shell];
  ndctl ← abs_path "/usr/bin/ndctl";
  daxctl ← abs_path "/usr/bin/daxctl";
  modify (with_binaries ndctl daxctl).

(** [self.output = process.system_output(cmd, sudo=True, shell=True)] *)
Definition output_of (cmd : string) : T string :=
  out ← process_system_output cmd [Sudo; Shell]; modify (with_nd_output out) ;; mret out.

Definition get_shutdown_state (region : pyval) : T string :=
  out ← output_of ("ndctl list -DH -r " +:+ py_str region +:+ " | grep shutdown_state");
  lift (quoted_field out).

(** ** setUp *)

Definition git_url : string := "https://github.com/pmem/ndctl.git".

Definition upstream_deps : list string :=
  ["gcc"; "make"; "automake"; "autoconf"] ++
  (if String.eqb dist_name "SuSE" then
     ["libtool"; "libkmod-devel"; "libudev-devel"; "systemd-devel"; "libuuid-devel-static"; "libjson-c-devel";
      "keyutils-devel"; "kmod-bash-completion"; "bash-completion-devel"]
   else if String.eqb dist_name "rhel" then
     ["libtool"; "bash-completion"; "parted"; "kmod-devel"; "libuuid-devel"; "json-c-devel"; "systemd-devel";
      "keyutils-libs-devel"; "jq"; "iniparser"; "iniparser-devel"]
   else []).

(** A tag of ndctl: built with autotools before version 73. *)
Definition build_tag (deps : list string) (version : pyval) : T () :=
  ndctl_tag_name ← lift (py_cat [VStr "v"; version]);
  _ ← nd_call "git.get_repo" [VStr git_url; VStr "main"; VStr teststmpdir];
  _ ← nd_call "os.chdir" [VStr teststmpdir];
  _ ← nd_call "GitRepoHelper" [VStr git_url; VStr teststmpdir];
  _ ← nd_call "GitRepoHelper.checkout" [VStr ndctl_tag_name; VNone];
  f ← lift (py_float version);
  if num_lt (NFloat f) (NInt 73) then autotools_build_system else meson_build_system deps.

Definition build_branch (deps : list string) : T () :=
  git_branch ← get_param "git_branch" (VStr "pending");
  _ ← nd_call "git.get_repo" [VStr git_url; git_branch; VStr teststmpdir];
  _ ← nd_call "os.chdir" [VStr teststmpdir];
  meson_build_system deps.

Definition setUp_upstream (version : pyval) : T () :=
  (if String.eqb dist_name "SuSE" then
     b ← lift (py_lt dist_release (VInt 3));
     when b (test_cancel "Cancelling the test due to non-availability of dependent packages.")
   else mret ()) ;;
  for_each upstream_deps require_package ;;
  if truthy version then build_tag upstream_deps version else build_branch upstream_deps.

(** [os.path.join(location, s)] *)
Definition in_location (location : pyval) (s : string) : result string :=
  match location with VStr l => Ret (path_join l s) | _ => raise_ TypeError "join() argument must be str" end.

Definition setUp_local (location : pyval) : T () :=
  a ← lift (in_location location "ndctl/ndctl"); ndctl ← abs_path a;
  b ← lift (in_location location "daxctl/daxctl"); daxctl ← abs_path b;
  modify (with_binaries ndctl daxctl).

Definition setUp_distro : T () :=
  for_each (["ndctl"] ++ (if String.eqb dist_name "rhel" then ["daxctl"] else [])) require_package ;;
  modify (with_binaries "ndctl" "daxctl").

Definition setUp : T () :=
  package ← get_param "package" (VStr "upstream");
  preserve ← get_param "preserve_change" (VBool false);
  mode ← get_param "modes" (VStr "fsdax");
  size ← get_param "size_1g_align" (VStr "2g");
  modify (with_nd_params package preserve mode size) ;;
  location ← get_param "location" (VStr ".");
  ndctl_project_version ← get_param "ndctl_project_version" (VStr "");
  when (negb (existsb (String.eqb dist_name) ["SuSE"; "rhel"])) (test_cancel ("Unsupported OS " +:+ dist_name)) ;;
  (if py_eq package (VStr "upstream") then setUp_upstream ndctl_project_version
   else if py_eq package (VStr "local") then setUp_local location
   else setUp_distro) ;;
  ndctl ← gets nd_ndctl;
  daxctl ← gets nd_daxctl;
  modify (with_plib (PMem ndctl daxctl)) ;;
  buses ← plib "check_buses" [] [];
  when (negb (truthy buses)) (test_cancel "Test needs at least one region").

Definition modes : list string := ["raw"; "sector"; "fsdax"; "devdax"].

(** ** Buses, DIMMs and regions *)

Definition test_bus_ids : T () := fail_on (
  vals ← run_ndctl_list "-B";
  when (negb (truthy vals)) (test_fail "Failed to fetch bus IDs") ;;
  log_info ("Available Bus provider IDs: " +:+ py_str vals)).

Definition test_dimms : T () := fail_on (
  vals ← run_ndctl_list "-D";
  when (negb (truthy vals)) (test_fail "Failed to fetch DIMMs") ;;
  log_info ("Available DIMMs: " +:+ py_str vals)).

(** [if key in health: if health[key] != good: warn] *)
Definition warn_unless (health : pyval) (key good msg : string) : T () :=
  b ← lift (py_contains (VStr key) health);
  when b (v ← lift (py_getkey health key); when (negb (py_eq v (VStr good))) (log_warning msg)).

Definition dimm_health (dimm : pyval) : T () :=
  health ← val dimm "health";
  nmem ← val dimm "dev";
  n ← lift (first_number nmem);
  let region := "region" +:+ n in
  dev_type ← read_one_line ("/sys/bus/nd/devices/" +:+ region +:+ "/devtype");
  when (negb (truthy health)) (test_cancel "kernel/ndctl does not support health reporting") ;;
  when (py_eq dev_type (VStr "nd_pmem"))
    (b ← lift (py_contains (VStr "life_used_percentage") health);
     when (negb b) (test_fail "life_used_percentage missing for HMS") ;;
     life ← lift (py_getkey health "life_used_percentage");
     log_info (py_str nmem +:+ " life is " +:+ py_str life)) ;;
  warn_unless health "health_state" "ok" (py_str nmem +:+ " health is bad") ;;
  warn_unless health "shutdown_state" "clean" (py_str nmem +:+ " shutdown state is dirty") ;;
  log_info ("DIMM " +:+ py_str nmem +:+ " Health info: " +:+ py_str health).

Definition test_dimm_health : T () := fail_on (
  dimms ← run_ndctl_list "-DH";
  when (negb (truthy dimms)) (test_fail "Failed to fetch DIMMs") ;;
  for_in dimms dimm_health).

Definition test_regions : T () := fail_on (
  disable_region [] ;;
  old ← run_ndctl_list "-R";
  enable_region [] ;;
  new ← run_ndctl_list "-R";
  m ← lift (py_len new); n ← lift (py_len old);
  when (m <=? n) (test_fail "Failed to fetch regions") ;;
  log_info ("Available regions: " +:+ py_str new)).

(** ** Namespaces *)

Definition clear_region (region : pyval) : T () :=
  disable_namespace (of_region region) ;; destroy_namespace (of_region region).

Definition namespace_step (v : pyval) : T () :=
  region ← val v "dev";
  clear_region region ;;
  create_namespace (of_region region) ;;
  check_namespace_align region.

Definition test_namespace : T () := fail_on (
  enable_region [] ;;
  regions ← run_ndctl_list "-R";
  for_in regions namespace_step ;;
  namespaces ← run_ndctl_list "-N";
  log_info ("Created namespace " +:+ py_str namespaces)).

(** [try: m except PMemException: log else: otherwise] *)
Definition must_fail (m : T ()) (msg : string) (otherwise : T ()) : T () :=
  returned ← try_except (m ;; mret true) is_pmem_exn (λ _, log_info msg ;; mret false);
  when returned otherwise.

Definition unaligned_step (size align_size v : pyval) : T () :=
  region ← val v "dev";
  clear_region region ;;
  must_fail (create_namespace [("region", region); ("size", size); ("align", align_size)])
    "Unaligned namespace creation failedas expected"
    (test_fail "Unaligned namespace creation must have failed! ").

Definition test_namespace_unaligned : T () := fail_on (
  enable_region [] ;;
  align_size ← nd_call "memory.get_page_size" [];
  size ← lift (py_add (VInt (64 * 1024 * 1024)) align_size);
  regions ← run_ndctl_list "-R";
  for_in regions (unaligned_step size align_size)).

(** [for ns in namespaces: ns_names.append(val(ns, 'dev'))] *)
Definition names_of (namespaces : pyval) : T (list pyval) :=
  l ← lift (py_iter namespaces);
  for_acc l [] (λ names ns, n ← val ns "dev"; mret (names ++ [n])).

(** [k] namespaces of 64M *)
Definition create_64M (k : Z) (kw : dict pyval) : T () :=
  for_each (Zrange 0 k) (λ _, create_namespace kw).

Definition test_disable_enable_ns : T () := fail_on (
  region ← get_default_region;
  legacy ← is_region_legacy region;
  when (negb legacy)
    (size ← listed ("-r " +:+ py_str region) "size";
     small ← lift (py_lt size (VInt (3 * 64 * 1024 * 1024)));
     when small (test_cancel "Not enough memory to create namespaces") ;;
     create_64M 3 [("region", region); ("size", VStr "64M")]) ;;
  namespaces ← run_ndctl_list "-N";
  ns_names ← names_of namespaces;
  for_each (ns_names ++ [VStr "all"])
    (λ namespace, disable_namespace [("namespace", namespace)] ;; enable_namespace [("namespace", namespace)])).

(** One mode of [test_namespace_modes]; [failed] is [failed_modes]. *)
Definition mode_step (region : pyval) (failed : list string) (mode : string) : T (list string) :=
  create_namespace [("region", region); ("mode", VStr mode)] ;;
  ns_json ← first_listed ("-r " +:+ py_str region +:+ " -N");
  created_mode ← val ns_json "mode";
  failed' ← (if negb (py_eq (VStr mode) created_mode) then
               log_error ("Expected mode " +:+ mode +:+ ", Got " +:+ py_str created_mode) ;;
               mret (failed ++ [mode])
             else log_info ("Namespace with " +:+ mode +:+ " mode: " +:+ py_str ns_json) ;; mret failed);
  ns_name ← val ns_json "dev";
  disable_namespace [("namespace", ns_name); ("region", region)] ;;
  destroy_namespace [("namespace", ns_name); ("region", region)] ;;
  mret failed'.

Definition strs (l : list string) : pyval := VList (map VStr l).

Definition test_namespace_modes : T () := fail_on (
  region ← get_default_region;
  log_info ("Using " +:+ py_str region +:+ " for different namespace modes") ;;
  clear_region region ;;
  failed_modes ← for_acc modes [] (mode_step region);
  when (truthy (strs failed_modes)) (test_fail ("Namespace for " +:+ py_str (strs failed_modes) +:+ " mode failed!"))).

Definition test_namespace_devmap : T () := fail_on (
  region ← get_default_region;
  m_map ← get_param "map" (VStr "mem");
  log_info ("Using " +:+ py_str region +:+ " for checking device mapping") ;;
  clear_region region ;;
  mode_to_use ← gets nd_mode_to_use;
  create_namespace [("region", region); ("mode", mode_to_use); ("memmap", m_map)] ;;
  log_info "Validating device mapping" ;;
  map_val ← listed ("-r " +:+ py_str region +:+ " -N") "map";
  if negb (py_eq map_val m_map)
  then test_fail ("Expected map:" +:+ py_str m_map +:+ ", Got " +:+ py_str map_val)
  else log_info "Metadata mapped as expected").

(** The namespace sizes: given, or the region divided among its slots and cut to the
    alignment; with the number of namespaces. *)
Definition plan_namespaces (namespace_size region_size slot_count : pyval) (size_align : Z)
    : result (pyval * pyval) :=
  if truthy namespace_size then
    count ← py_floordiv region_size namespace_size; Ret (namespace_size, count)
  else
    s ← py_floordiv region_size slot_count;
    q ← py_floordiv s (VInt size_align);
    size ← py_mul q (VInt size_align);
    Ret (size, slot_count).

(** [for count in range(0, slot_count)]: [shown count] is what the log names the namespace. *)
Definition create_counted (count : pyval) (kw : dict pyval) (shown : Z → Z) : T () :=
  l ← lift (py_range 0 count);
  for_each l (λ count, create_namespace kw ;; log_info ("Namespace " +:+ py_str_Z (shown count) +:+ " created")).

(** [self.cancel] takes one message: the call with three arguments raises. *)
Definition cancel_with_arguments : T () := throw TypeError "cancel() takes from 1 to 2 positional arguments".

Definition multiple_namespaces_region (region : pyval) : T () :=
  namespace_size ← get_param "size" VNone;
  size_align ← get_size_alignval;
  slot_count ← plib "get_slot_count" [region] [];
  log_info ("Using " +:+ py_str region +:+ " for multiple namespace regions") ;;
  clear_region region ;;
  bad ← (if truthy namespace_size then r ← lift (py_mod namespace_size (VInt size_align)); mret (negb (py_eq r (VInt 0)))
         else mret false);
  when bad cancel_with_arguments ;;
  region_size ← listed ("-r " +:+ py_str region) "size";
  '(namespace_size, slot_count) ← lift (plan_namespaces namespace_size region_size slot_count size_align);
  small ← lift (py_le namespace_size (VInt size_align));
  if (small : bool) then log_warning "Ns size equal to pagesize, hence skipping region"
  else
    log_info ("Creating " +:+ py_str slot_count +:+ " namespaces") ;;
    mode_to_use ← gets nd_mode_to_use;
    create_counted slot_count [("region", region); ("mode", mode_to_use); ("size", namespace_size)] (Z.add 1).

Definition legacy_cancel (region : pyval) : T () :=
  legacy ← is_region_legacy region; when legacy (test_cancel "Legacy config skipping the test").

Definition test_multiple_namespaces_region : T () := fail_on (
  region ← get_default_region;
  legacy_cancel region ;;
  multiple_namespaces_region region ;;
  check_namespace_align region).

Definition multiple_region_step (v : pyval) : T () :=
  region ← val v "dev";
  legacy_cancel region ;;
  multiple_namespaces_region region ;;
  check_namespace_align region.

Definition test_multiple_ns_multiple_region : T () := fail_on (
  enable_region [] ;;
  l ← run_ndctl_list "-R";
  n ← lift (py_len l);
  when (n <=? 1) (test_cancel "Test not applicable without multiple regions") ;;
  regions ← run_ndctl_list "-R";
  disable_namespace [] ;;
  destroy_namespace [] ;;
  for_in regions multiple_region_step).

Definition test_multiple_ns_modes_region : T () := fail_on (
  region ← get_default_region;
  legacy_cancel region ;;
  log_info ("Using " +:+ py_str region +:+ " for multiple namespace regions") ;;
  clear_region region ;;
  size ← listed ("-r " +:+ py_str region) "size";
  small ← lift (py_lt size (VInt (Z.of_nat (length modes) * 64 * 1024 * 1024)));
  when small (test_cancel "Not enough memory to create namespaces") ;;
  for_each modes
    (λ mode, create_namespace [("region", region); ("mode", VStr mode); ("size", VStr "64M")] ;;
             log_info ("Namespace of type " +:+ mode +:+ " created"))).

Definition test_nslot_namespace : T () := fail_on (
  region ← get_default_region;
  legacy_cancel region ;;
  size_align ← get_size_alignval;
  slot_count ← plib "get_slot_count" [region] [];
  log_info ("Using " +:+ py_str region +:+ " for max namespace creation") ;;
  disable_namespace [] ;;
  destroy_namespace [] ;;
  region_size ← listed ("-r " +:+ py_str region) "size";
  '(namespace_size, slot_count) ← lift (plan_namespaces VNone region_size slot_count size_align);
  log_info ("Creating " +:+ py_str slot_count +:+ " namespace") ;;
  create_counted slot_count [("region", region); ("mode", VStr "fsdax"); ("size", namespace_size)] id ;;
  check_namespace_align region).

(** One entry of [new_ns.items()]; [failed] is [failed_vals]. *)
Definition field_step (old_ns : pyval) (failed : list pyval) (kv : string * pyval) : T (list pyval) :=
  let '(key, v) := kv in
  old ← lift (py_items old_ns);
  match (if existsb (String.eqb key) ["uuid"; "dev"] then None else dict_find key old) with
  | Some o => mret (if negb (py_eq o v) then failed ++ [VDict [(key, v)]] else failed)
  | None => log_info ("Newly added filed " +:+ key +:+ ":" +:+ py_str v) ;; mret failed
  end.

Definition test_namespace_reconfigure : T () := fail_on (
  region ← get_default_region;
  log_info ("Using " +:+ py_str region +:+ " for reconfiguring namespace") ;;
  disable_namespace [] ;;
  destroy_namespace [] ;;
  create_namespace [("region", region); ("mode", VStr "fsdax"); ("align", VStr "64k")] ;;
  old_ns ← first_listed "";
  old_ns_dev ← val old_ns "dev";
  log_info ("Re-configuring namespace " +:+ py_str old_ns_dev) ;;
  create_namespace [("region", region); ("mode", VStr "fsdax"); ("name", VStr "test_ns");
                    ("reconfig", old_ns_dev); ("force", VBool true)] ;;
  new_ns ← first_listed "";
  log_info "Checking namespace changes" ;;
  items ← lift (py_items new_ns);
  failed_vals ← for_acc items [] (field_step old_ns);
  when (truthy (VList failed_vals))
    (test_fail ("New namespace unexpected change(s): " +:+ py_str (VList failed_vals)))).

Definition test_check_namespace : T () := fail_on (
  region ← get_default_region;
  disable_namespace [] ;;
  destroy_namespace [] ;;
  log_info ("Creating sector namespace using " +:+ py_str region) ;;
  create_namespace [("region", region); ("mode", VStr "sector")] ;;
  ns_sec_dev ← listed "" "dev";
  disable_namespace [("namespace", ns_sec_dev)] ;;
  log_info "Checking BTT metadata" ;;
  ndctl ← gets nd_ndctl;
  status ← process_system (ndctl +:+ " check-namespace " +:+ py_str ns_sec_dev) [IgnoreStatus];
  when (negb (status =? 0)) (test_fail "Failed to check namespace metadata")).

Definition numa_node (dev : pyval) : T pyval :=
  read_one_line ("/sys/bus/nd/devices/" +:+ py_str dev +:+ "/numa_node").

Definition numa_step (v : pyval) : T () :=
  reg ← val v "dev";
  numa ← numa_node reg;
  l ← run_ndctl_list ("-r " +:+ py_str reg +:+ " -R -U " +:+ py_str numa);
  n ← lift (py_len l);
  when (negb (n =? 1)) (test_fail "Region mismatch between ndctl and sys interface").

Definition test_check_numa : T () := fail_on (
  enable_region [] ;;
  regions ← run_ndctl_list "-R";
  b ← path_exists "/sys/bus/nd/devices/region0/numa_node";
  when (negb b) (test_fail "Numa node entries not found!") ;;
  for_in regions numa_step).

Definition ns_numa_step (v : pyval) : T () :=
  ns_name ← val v "dev";
  numa ← numa_node ns_name;
  l ← run_ndctl_list ("-N -n " +:+ py_str ns_name +:+ " -U " +:+ py_str numa);
  n ← lift (py_len l);
  when (negb (n =? 1)) (test_fail "Numa mismatch between ndctl and sys interface").

(** The check of the namespaces of a region. *)
Definition check_region_numa (region : pyval) : T () :=
  namespaces ← run_ndctl_list ("-N -r " +:+ py_str region);
  b ← path_exists "/sys/bus/nd/devices/namespace0.0/numa_node";
  when (negb b) (test_fail "Numa node entries not found!") ;;
  for_in namespaces ns_numa_step.

(** One region: a small one is passed over. *)
Definition region_numa_step (dev : pyval) : T () :=
  region ← val dev "dev";
  legacy ← is_region_legacy region;
  if (legacy : bool) then check_region_numa region
  else
    clear_region region ;;
    size ← val dev "size";
    small ← lift (py_lt size (VInt (3 * 64 * 1024 * 1024)));
    if (small : bool) then log_warning "Skipping region due to insufficient memory"
    else
      create_64M 3 [("region", region); ("mode", VStr "fsdax"); ("size", VStr "64M")] ;;
      check_region_numa region.

Definition test_check_ns_numa : T () := fail_on (
  enable_region [] ;;
  regions ← run_ndctl_list "-R";
  for_in regions region_numa_step).

(** ** Labels *)

(** [if process.system(cmd, shell=True): self.fail(msg)] *)
Definition system_or_fail (cmd msg : string) : T () :=
  status ← process_system cmd [Shell]; when (negb (status =? 0)) (test_fail msg).

Definition test_label_read_write (align : pyval) : T () := fail_on (
  region ← get_default_region;
  legacy_cancel region ;;
  n ← lift (first_number region);
  let nmem := "nmem" +:+ n in
  log_info ("Using " +:+ py_str region +:+ " for testing labels") ;;
  disable_region [("name", region)] ;;
  log_info "Filling zeros to start test" ;;
  ndctl ← gets nd_ndctl;
  system_or_fail (ndctl +:+ " zero-labels " +:+ nmem) "Label zero-fill failed" ;;
  enable_region [("name", region)] ;;
  create_namespace [("region", region); ("align", align)] ;;
  log_info "Storing labels with a namespace" ;;
  old_op ← process_system_output (ndctl +:+ " check-labels " +:+ nmem) [Shell];
  system_or_fail (ndctl +:+ " read-labels " +:+ nmem +:+ " -o output") "Label read failed" ;;
  log_info "Refilling zeroes before a restore" ;;
  clear_region region ;;
  disable_region [("name", region)] ;;
  system_or_fail (ndctl +:+ " zero-labels " +:+ nmem) "Label zero-fill failed after read" ;;
  log_info "Re-storing labels with a namespace" ;;
  system_or_fail (ndctl +:+ " write-labels " +:+ nmem +:+ " -i output") "Label write failed" ;;
  enable_region [("name", region)] ;;
  log_info "Checking mismatch after restore" ;;
  new_op ← process_system_output (ndctl +:+ " check-labels " +:+ nmem) [Shell];
  when (negb (String.eqb new_op old_op)) (test_fail "Label read and write mismatch") ;;
  log_info "Checking created namespace after restore" ;;
  l ← run_ndctl_list ("-N -r " +:+ py_str region);
  n ← lift (py_len l);
  when (negb (n =? 1)) (test_fail "Created namespace not found after label restore")).

(** ** dax devices and capabilities *)

Definition test_daxctl_list : T () := fail_on (
  region ← get_default_region;
  clear_region region ;;
  create_namespace [("region", region); ("mode", VStr "devdax")] ;;
  index ← lift (first_number region);
  vals ← plib "run_daxctl_list" [VStr ("-r " +:+ index)] [];
  n ← lift (py_len vals);
  when (negb (n =? 1)) (test_fail "Failed daxctl list") ;;
  log_info ("Created dax device " +:+ py_str vals)).

(** The alignments and sector sizes of a region, by mode; a later entry replaces an earlier. *)
Definition capability_step (c : pyval * pyval * pyval) (typ : pyval) : T (pyval * pyval * pyval) :=
  let '(sec_sizes, fsdax_align, devdax_align) := c in
  mode ← val typ "mode";
  if py_eq mode (VStr "fsdax") then a ← val typ "alignments"; mret (sec_sizes, a, devdax_align)
  else if py_eq mode (VStr "devdax") then a ← val typ "alignments"; mret (sec_sizes, fsdax_align, a)
  else if py_eq mode (VStr "sector") then a ← val typ "sector_sizes"; mret (a, fsdax_align, devdax_align)
  else mret c.

Definition try_sizes (reg_name : pyval) (mode key : string) (sizes : pyval) : T () :=
  for_in sizes (λ size,
    create_namespace [("region", reg_name); ("mode", VStr mode); (key, size)] ;;
    destroy_namespace [("region", reg_name); ("force", VBool true)]).

Definition capabilities_step (region : pyval) : T () :=
  cap ← val region "capabilities";
  types ← lift (py_iter cap);
  '(sec_sizes, fsdax_align, devdax_align) ← for_acc types (VList [], VList [], VList []) capability_step;
  reg_name ← val region "dev";
  log_info "Creating namespaces with possible sizes" ;;
  try_sizes reg_name "sector" "sector_size" sec_sizes ;;
  try_sizes reg_name "fsdax" "align" fsdax_align ;;
  try_sizes reg_name "devdax" "align" devdax_align.

Definition test_region_capabilities : T () := fail_on (
  enable_region [] ;;
  disable_namespace [] ;;
  destroy_namespace [] ;;
  regions ← run_ndctl_list "-R -C";
  for_in regions capabilities_step).

Definition mem_total : T pyval := nd_call "memory.meminfo.MemTotal.b" [].

Definition test_daxctl_memhotplug_unplug (align : pyval) : T () := fail_on (
  for_each ["reconfigure-device"; "offline-memory"; "online-memory"]
    (λ cmd, ok ← plib "check_daxctl_subcmd" [VStr cmd] [];
            when (negb (truthy ok)) (test_cancel ("Binary does not support " +:+ cmd))) ;;
  region ← get_default_region;
  clear_region region ;;
  create_namespace [("region", region); ("mode", VStr "devdax"); ("align", align)] ;;
  daxdev ← listed ("-N -r " +:+ py_str region) "chardev";
  old_mem ← mem_total;
  dev_prop ← plib "reconfigure_dax_device" [daxdev] [("mode", VStr "system-ram")];
  log_info ("Reconfigured device " +:+ py_str dev_prop) ;;
  new_mem ← mem_total;
  log_info ("Memory Before:" +:+ py_str old_mem +:+ ", Memory After:" +:+ py_str new_mem) ;;
  same ← lift (py_le new_mem old_mem);
  when same (log_warning ("Memorysize not increased " +:+ py_str new_mem +:+ "<=" +:+ py_str old_mem)) ;;
  _ ← plib "set_dax_memory_offline" [daxdev] [];
  unplug_mem ← mem_total;
  when (negb (py_eq unplug_mem old_mem)) (test_fail "Memory after unplug is not same as system memory") ;;
  log_info "Memory restored to base memory after unplug" ;;
  _ ← plib "set_dax_memory_online" [daxdev] [];
  hplug_mem ← mem_total;
  when (negb (py_eq hplug_mem new_mem)) (test_fail "Memory after hotplug is not same as device size memory") ;;
  log_info "Memory hotplug successful with pmem device" ;;
  log_info "Restoring pmem device in devdax mode" ;;
  _ ← plib "set_dax_memory_offline" [daxdev] [];
  _ ← plib "reconfigure_dax_device" [daxdev] [("mode", VStr "devdax")];
  mret ()).

(** ** Infoblocks *)

Definition write_read_infoblock (ns_name align size : pyval) : T pyval := fail_on (
  _ ← plib "write_infoblock" [] [("namespace", ns_name); ("align", align); ("size", size); ("mode", VStr "devdax")];
  read_out ← plib "read_infoblock" [] [("namespace", ns_name)];
  when (truthy align)
    (j ← lift (py_getitem read_out 0);
     v ← val j "align";
     n ← lift (py_int v);
     when (negb (py_eq align (VInt n))) (test_fail "Alignment has not changed")) ;;
  lift (py_getitem read_out 0)).

(** The first statements of the tests of [write_infoblock]: a devdax namespace with the given
    alignment; its region and its name. *)
Definition infoblock_namespace (align : pyval) : T (pyval * pyval) :=
  ok ← plib "check_ndctl_subcmd" [VStr "write-infoblock"] [];
  when (negb (truthy ok)) (test_cancel "Binary does not support write-infoblock") ;;
  region ← get_default_region;
  clear_region region ;;
  create_namespace [("region", region); ("mode", VStr "devdax"); ("align", align)] ;;
  ns_name ← listed ("-N -r " +:+ py_str region) "dev";
  mret (region, ns_name).

(** [memory.get_supported_huge_pages_size()[0] * 1024] *)
Definition huge_page_bytes : T pyval :=
  sizes ← nd_call "memory.get_supported_huge_pages_size" [];
  v ← lift (py_getitem sizes 0);
  lift (py_mul v (VInt 1024)).

Definition test_write_infoblock_supported_align (align : pyval) : T () := fail_on (
  '(region, ns_name) ← infoblock_namespace align;
  disable_namespace [("namespace", ns_name)] ;;
  map_align ← huge_page_bytes;
  _ ← write_read_infoblock ns_name map_align (VStr "");
  enable_namespace [("namespace", ns_name)]).

(** Enabling a namespace whose infoblock does not fit. *)
Definition enabling_must_fail (ns_name : pyval) : T () :=
  must_fail (enable_namespace [("namespace", ns_name)]) "Failed as expected"
    (l ← run_ndctl_list ""; log_info (py_str l) ;; test_fail "Enabling namespace must have failed").

(** The loop over the idle namespaces: it ends at one with a size. *)
Fixpoint find_sized (idle_ns : list pyval) : T bool :=
  match idle_ns with
  | [] => mret false
  | namespace :: idle_ns' =>
      v ← val namespace "size";
      n ← lift (py_int v);
      if negb (n =? 0) then mret true else find_sized idle_ns'
  end.

Definition test_write_infoblock_unalign (align : pyval) : T () := fail_on (
  '(region, ns_name) ← infoblock_namespace align;
  disable_namespace [("namespace", ns_name)] ;;
  map_align ← huge_page_bytes;
  _ ← write_read_infoblock ns_name (get_unsupported_alignval map_align) (VStr "");
  enabling_must_fail ns_name ;;
  idle_ns ← run_ndctl_list ("-Ni -r " +:+ py_str region);
  n ← lift (py_len idle_ns);
  found ← (if 1 <? n then l ← lift (py_iter idle_ns); find_sized l
           else test_fail "Created namespace is not found");
  when (negb found) (test_fail "Namespace with infoblock written not found") ;;
  destroy_namespace [("namespace", ns_name); ("force", VBool true)]).

Definition test_write_infoblock_align_default (align : pyval) : T () := fail_on (
  '(region, ns_name) ← infoblock_namespace align;
  align ← listed ("-N -r " +:+ py_str region) "align";
  disable_namespace [("namespace", ns_name)] ;;
  write_block ← write_read_infoblock ns_name (VStr "") (VStr "");
  v ← val write_block "align";
  when (negb (py_eq align v)) (test_fail "Alignment is not same as default alignment")).

Definition test_write_infoblock_size (align : pyval) : T () := fail_on (
  '(region, ns_name) ← infoblock_namespace align;
  size ← listed ("-N -r " +:+ py_str region) "size";
  disable_namespace [("namespace", ns_name)] ;;
  align ← get_size_alignval;
  size ← lift (py_sub size (VInt align));
  _ ← write_read_infoblock ns_name (VStr "") size;
  enable_namespace [("namespace", ns_name)]).

Definition test_write_infoblock_size_unaligned (align : pyval) : T () := fail_on (
  '(region, ns_name) ← infoblock_namespace align;
  size ← listed ("-N -r " +:+ py_str region) "size";
  disable_namespace [("namespace", ns_name)] ;;
  align ← nd_call "memory.get_page_size" [];
  size ← lift (py_sub size align);
  _ ← write_read_infoblock ns_name align size;
  enabling_must_fail ns_name).

(** ** Writes *)

(** [self.disk = '/dev/%s' % ..] of the namespace of a region, and its size. *)
Definition block_device (region : pyval) : T pyval :=
  dev ← listed ("-N -r " +:+ py_str region) "blockdev";
  modify (with_disk ("/dev/" +:+ py_str dev)) ;;
  listed ("-N -r " +:+ py_str region) "size".

(** A method of [self.part]. *)
Definition part_call (method : string) (args : list pyval) : T () :=
  p ← attr "part" nd_part;
  _ ← nd_call ("Partition." +:+ method) (VStr (pt_device p) :: pt_mountpoint p :: pt_options p :: args);
  mret ().

(** [self.part = partition.Partition(self.disk, mountpoint=.., mount_options=..)] and its
    file system, mounted. *)
Definition mount_part (mnt_path options : pyval) (extra : string) : T () :=
  disk ← attr "disk" nd_disk;
  modify (with_part (Partition disk mnt_path options)) ;;
  page ← nd_call "memory.get_page_size" [];
  part_call "mkfs" [VStr "xfs"; VStr ("-b size=" +:+ py_str page +:+ " -s size=512" +:+ extra)] ;;
  b ← path_exists (py_str mnt_path);
  when (negb b) (_ ← nd_call "os.makedirs" [mnt_path]; mret ()) ;;
  part_call "mount" [].

Definition reflink : string := "-m reflink=0".

(** The fio workload on the mount point. *)
Definition run_fio (mnt_path size fio_job : pyval) : T () :=
  fio ← build_fio;
  half ← lift (py_floordiv size (VInt 2));
  job ← nd_call "get_data" [fio_job];
  status ← process_system (fio +:+ " --directory " +:+ py_str mnt_path +:+ " --filename mmap-pmem --size " +:+
                           py_str half +:+ " " +:+ py_str job) [IgnoreStatus];
  when (negb (status =? 0)) (test_fail "FIO mmap workload on fsdax failed").

Definition test_sector_write : T () := fail_on (
  region ← get_default_region;
  clear_region region ;;
  create_namespace [("region", region); ("mode", VStr "sector"); ("sector_size", VStr "512")] ;;
  size ← block_device region;
  mnt_path ← get_param "mnt_point" (VStr "/pmemS");
  mount_part mnt_path VNone "" ;;
  log_info ("Test will run on " +:+ py_str mnt_path) ;;
  fio_job ← get_param "fio_job" (VStr "sector-fio.job");
  run_fio mnt_path size fio_job).

Definition test_fsdax_write (align : pyval) : T () := fail_on (
  region ← get_default_region;
  create_namespace [("region", region); ("mode", VStr "fsdax"); ("align", align)] ;;
  size ← block_device region;
  mnt_path ← get_param "mnt_point" (VStr "/pmem");
  mount_part mnt_path (VStr "dax") (" " +:+ reflink) ;;
  log_info ("Test will run on " +:+ py_str mnt_path) ;;
  fio_job ← get_param "fio_job" (VStr "ndctl-fio.job");
  run_fio mnt_path size fio_job).

Definition test_map_sync : T () := fail_on (
  region ← get_default_region;
  create_namespace [("region", region); ("mode", VStr "fsdax")] ;;
  dev ← listed ("-N -r " +:+ py_str region) "blockdev";
  modify (with_disk ("/dev/" +:+ py_str dev)) ;;
  mnt_path ← get_param "mnt_point" (VStr "/pmem_map");
  mount_part mnt_path (VStr "dax") (" " +:+ reflink) ;;
  log_info ("Testing MAP_SYNC on " +:+ py_str mnt_path) ;;
  let src_file := path_join teststmpdir "map_sync.c" in
  data ← nd_call "get_data" [VStr "map_sync.c"];
  _ ← nd_call "shutil.copyfile" [data; VStr src_file];
  _ ← process_system ("gcc " +:+ src_file +:+ " -o map_sync") [];
  _ ← process_system ("fallocate -l 64k " +:+ py_str mnt_path +:+ "/new_file") [];
  status ← process_system ("./map_sync " +:+ py_str mnt_path +:+ "/new_file") [IgnoreStatus];
  when (negb (status =? 0)) (test_fail "Write with MAP_SYNC flag failed")).

Definition test_devdax_write (align : pyval) : T () := fail_on (
  region ← get_default_region;
  create_namespace [("region", region); ("mode", VStr "devdax"); ("align", align)] ;;
  dev ← listed ("-N -r " +:+ py_str region) "chardev";
  data ← nd_call "get_data" [VStr "daxio.static"];
  status ← process_system (py_str data +:+ " -b no -i /dev/urandom -o /dev/" +:+ py_str dev) [IgnoreStatus];
  when (negb (status =? 0)) (test_fail "DAXIO write on devdax failed")).

(** ** Alignment of 1 GiB *)

Definition GiB : pyval := VStr "1073741824".

Definition on_pmem_exn (m : T ()) (msg : string) : T () := try_except m is_pmem_exn (λ _, test_fail msg).

Definition test_namespace_1gb_alignment : T () := fail_on (
  region ← get_default_region;
  clear_region region ;;
  on_pmem_exn
    (size ← gets nd_size_1g_align;
     create_namespace [("region", region); ("size", size); ("align", GiB)] ;;
     check_namespace_align region ;;
     ns_json ← first_listed ("-r " +:+ py_str region +:+ " -N");
     created_align ← val ns_json "align";
     if negb (py_eq created_align (VInt 1073741824))
     then test_fail ("Expected alignment 1073741824, Got " +:+ py_str created_align)
     else log_info ("Namespace with 1GB alignment: " +:+ py_str ns_json))
    "Namespace creation with 1GB alignmentmust have failed!" ;;
  ns_name ← listed ("-N -r " +:+ py_str region) "dev";
  disable_namespace [("namespace", ns_name)] ;;
  destroy_namespace (of_region region)).

(** Not decorated: an exception of the library outside the [try] is not a failure. *)
Definition test_namespace_1gb_alignment_enable_disable : T () :=
  region ← get_default_region;
  clear_region region ;;
  on_pmem_exn
    (size ← gets nd_size_1g_align;
     create_namespace [("region", region); ("size", size); ("align", GiB)] ;;
     ns_name ← listed ("-r " +:+ py_str region +:+ " -N") "dev";
     disable_namespace [("namespace", ns_name); ("region", region)] ;;
     enable_namespace [("namespace", ns_name); ("region", region)] ;;
     check_namespace_align region)
    "Namespace creation or enable/disable with1GB alignment must have failed!".

Definition mode_1gb_step (region : pyval) (mode : string) : T () :=
  on_pmem_exn
    (size ← gets nd_size_1g_align;
     create_namespace [("region", region); ("size", size); ("align", GiB); ("mode", VStr mode)] ;;
     ns_name ← listed ("-r " +:+ py_str region +:+ " -N") "dev";
     log_info ("Created namespace with mode " +:+ mode +:+ " and 1GB alignment: " +:+ py_str ns_name))
    ("Namespace creation with mode " +:+ mode +:+ " and 1GB alignment must have failed!").

Definition test_modes_1gb_alignment_namespaces : T () :=
  region ← get_default_region;
  clear_region region ;;
  for_each ["fsdax"; "devdax"] (mode_1gb_step region) ;;
  _ ← process_system "ndctl destroy-namespace all -f" [];
  mret ().

Definition test_daxctl_1gb_alignment_memhotplug_unplug : T () := fail_on (test_daxctl_memhotplug_unplug GiB).
Definition test_fsdax_write_1gb_alignment : T () := fail_on (test_fsdax_write GiB).
Definition test_devdax_write_1gb_alignment : T () := fail_on (test_devdax_write GiB).
Definition test_label_read_write_1gb_alignment : T () := fail_on (test_label_read_write GiB).

Definition test_write_infoblock_1gb_alignment : T () := fail_on (
  test_write_infoblock_supported_align GiB ;;
  test_write_infoblock_unalign GiB ;;
  test_write_infoblock_size GiB ;;
  test_write_infoblock_size_unaligned GiB).

Definition tail_page_cmd : string :=
  "dmesg | grep -Eai " +:+ DQ +:+ "Tail page reuse" +:+ DQ +:+ " | wc -l".

Definition test_devmap_Optimisation : T () := fail_on (
  region ← get_default_region;
  clear_region region ;;
  _ ← process_run ("echo " +:+ DQ +:+ "file arch/powerpc/mm/book3s64/radix_pgtable.c +p" +:+ DQ +:+
                   " > /sys/kernel/debug/dynamic_debug/control") [Sudo; Shell];
  init_count ← process_system_output tail_page_cmd [Shell];
  on_pmem_exn
    (size ← gets nd_size_1g_align;
     create_namespace [("region", region); ("size", size); ("align", GiB); ("memmap", VStr "mem");
                       ("mode", VStr "devdax")] ;;
     final_count ← process_system_output tail_page_cmd [Shell];
     f ← lift (py_int (VStr final_count));
     i ← lift (py_int (VStr init_count));
     if 0 <? f - i then log_info "Device memory kernel mapping optimization feature is working"
     else test_fail "Device memory kernel mapping optimization feature verification failed")
    "Namespace creation with 1GB alignmentmust have failed!").

(** ** Error injection *)

(** [ndctl inject-smart] on the DIMM of a region, with an option. *)
Definition inject_smart (region : pyval) (option : string) : T () :=
  out ← output_of ("ndctl list -DH -r " +:+ py_str region +:+ " | grep dev");
  dev ← lift (quoted_field out);
  _ ← output_of ("ndctl inject-smart " +:+ dev +:+ " " +:+ option);
  mret ().

(** The state is read, and logged if it is clean. *)
Definition log_if_clean (region : pyval) : T () :=
  s ← get_shutdown_state region; when (String.eqb s "clean") (log_info "shutdown state is clean").

Definition test_inject_SMART_errors : T () := fail_on (
  region ← get_default_region;
  log_if_clean region ;;
  inject_smart region "-U" ;;
  s ← get_shutdown_state region;
  (if String.eqb s "dirty" then log_info "shutdown state is dirty Error injection is successful."
   else test_fail "Error injection failed") ;;
  inject_smart region "-N" ;;
  log_if_clean region).

(** ** tearDown *)

Definition remove_fs (disk : option string) : T () :=
  match disk with
  | Some d =>
      log_info ("Removing the FS meta created on " +:+ d) ;;
      status ← process_system ("dd if=/dev/zero bs=1M count=1024 of=" +:+ d) [Shell; IgnoreStatus];
      when (negb (status =? 0)) (test_fail ("Failed to delete filesystem on " +:+ d))
  | None => mret ()
  end.

Definition cleanup (preserve : option pyval) (p : option pmem) : T () :=
  match preserve, p with
  | Some v, Some _ =>
      when (negb (truthy v))
        (l ← run_ndctl_list "-N";
         when (truthy l) (destroy_namespace [("force", VBool true)]) ;;
         disable_region [])
  | _, _ => mret ()
  end.

Definition tearDown : T () := fail_on (
  part ← gets nd_part;
  (match part with Some _ => part_call "unmount" [] | None => mret () end) ;;
  disk ← gets nd_disk;
  remove_fs disk ;;
  preserve ← gets nd_preserve_setup;
  p ← gets nd_plib;
  cleanup preserve p).
End NdctlTest.
