(* ===== verification/NdctlSpace.v ===== *)
(** * Regions of the NVDIMM tests and their namespaces

    JSON objects as the tests read them, the choice of the default region, the sort by size, and the
    alignment that [get_size_alignval] computes.  The class [NvdimmMachine]: regions with namespaces
    that ndctl lists, creates and destroys through avocado's [PMem].  The theorems: how the tests
    divide a region, which mode and which alignment the namespaces have, and what tearDown leaves. *)

From S2P Require Import Prelude PyStr PyFloat PyVal PyRegex Avocado Logic Ndctl.
Open Scope Z_scope.

(** ** Alignments *)

(** The least common multiple; ZeroDivisionError when both are zero. *)
Lemma lcm_is_Z_lcm a b :
  lcm a b = if (a =? 0) && (b =? 0) then raise_ ZeroDivisionError "integer division or modulo by zero"
            else Ret (Z.lcm a b).
Proof.
  unfold lcm. destruct (Z.eqb_spec (Z.gcd a b) 0) as [E|E].
  - apply Z.gcd_eq_0 in E as [-> ->]. done.
  - destruct (Z.eqb_spec a 0) as [->|Ha], (Z.eqb_spec b 0) as [->|Hb]; simpl andb; cbv iota; [done| | |].
    + by rewrite Z.lcm_0_l, Z.mul_0_l, Z.div_0_l.
    + by rewrite Z.lcm_0_r, Z.mul_0_r, Z.div_0_l.
    + f_equal. unfold Z.lcm. pose proof (Z.gcd_nonneg a b). destruct (Z.gcd_divide_r a b) as [k Hk].
      set (g := Z.gcd a b) in *. rewrite Hk at 1 2. rewrite Z.div_mul by done.
      rewrite Z.mul_assoc, Z.abs_mul, (Z.abs_eq g) by done. by apply Z.div_mul.
Qed.

(** ** The sort by size *)

Section sort.
Context {A : Type}.
Implicit Types (l : list (Z * A)).

(** Elements with integer keys. *)
Definition keyed (l : list (Z * A)) : list (pyval * A) := map (λ x, (VInt x.1, x.2)) l.

Lemma insert_desc_int x l : ∃ l', insert_desc (VInt x.1, x.2) (keyed l) = Ret (keyed l') ∧
  l' ≡ₚ x :: l ∧
  head l' = Some (match l with y :: _ => if y.1 <? x.1 then x else y | [] => x end).
Proof.
  induction l as [|y l (l' & E & Hp & _)]; [by exists [x]|].
  cbn [keyed map insert_desc fst snd]. rewrite py_lt_int. unfold mbind, result_bind. destruct (y.1 <? x.1) eqn:Ex.
  - exists (x :: y :: l). done.
  - fold (keyed l). rewrite E. exists (y :: l'). split; [done|]. split; [|done].
    rewrite Hp. apply Permutation_swap.
Qed.

(** The first of the elements with the largest key. *)
Definition first_largest (x : Z * A) l : Prop :=
  ∃ l1 l2, l = l1 ++ x :: l2 ∧ Forall (λ y, y.1 < x.1) l1 ∧ Forall (λ y, y.1 ≤ x.1) l2.

Lemma first_largest_snoc x l y :
  first_largest x l → first_largest (if x.1 <? y.1 then y else x) (l ++ [y]).
Proof.
  intros (l1 & l2 & -> & H1 & H2). destruct (Z.ltb_spec x.1 y.1) as [Hl|Hl].
  - exists (l1 ++ x :: l2), []. split; [done|]. split; [|done].
    apply Forall_app. split; [eapply Forall_impl; [|exact H1]; simpl; lia|].
    constructor; [done|]. eapply Forall_impl; [|exact H2]. simpl. lia.
  - exists l1, (l2 ++ [y]). rewrite <- app_assoc. split; [done|]. split; [done|].
    apply Forall_app. split; [done|]. by repeat constructor.
Qed.

Lemma sort_desc_int todo x l done :
  l ≡ₚ done → head l = Some x → first_largest x done →
  ∃ l' x', sort_desc (keyed l) (keyed todo) = Ret (keyed l') ∧ l' ≡ₚ done ++ todo ∧
    head l' = Some x' ∧ first_largest x' (done ++ todo).
Proof.
  revert x l done. induction todo as [|y todo IH]; intros x l dn Hp Hx Hf.
  - rewrite app_nil_r. by exists l, x.
  - cbn [keyed map sort_desc]. fold (keyed l) (keyed todo).
    destruct (insert_desc_int y l) as (l1 & E & Hp1 & Hx1). rewrite E. unfold mbind, result_bind.
    destruct l as [|z l]; [done|]. injection Hx as ->.
    destruct (IH (if x.1 <? y.1 then y else x) l1 (dn ++ [y])) as (l' & x' & E' & H').
    + rewrite Hp1, Hp. apply Permutation_cons_append.
    + done.
    + by apply first_largest_snoc.
    + exists l', x'. split; [done|]. by rewrite <- app_assoc in H'.
Qed.

Lemma sort_desc_first l : l ≠ [] →
  ∃ l' x, sort_desc [] (keyed l) = Ret (keyed l') ∧ l' ≡ₚ l ∧ head l' = Some x ∧ first_largest x l.
Proof.
  destruct l as [|x l]; [done|]. intros _. cbn [keyed map sort_desc insert_desc]. unfold mbind, result_bind.
  apply (sort_desc_int l x [x] [x]); [done|done|]. by exists [], [].
Qed.
End sort.

(** ** JSON objects *)

Section regions.
Context {W : Type} {HE : Env W} {HN : NdctlLib W}.

(** [run_ndctl_list_val] gives the value of a field. *)
Class ListVal : Prop :=
  list_val_found : ∀ d k v, dict_find k d = Some v → list_val (VDict d) k = Ret v.

(** [j] is an object with the given fields, and maybe others. *)
Definition has_fields (fields : dict pyval) (j : pyval) : Prop :=
  ∃ d, j = VDict d ∧ ∀ k v, (k, v) ∈ fields → dict_find k d = Some v.

Lemma has_fields_val `{!ListVal} fields j k v :
  has_fields fields j → (k, v) ∈ fields → list_val j k = Ret v.
Proof. intros (d & -> & Hd) Hk. apply list_val_found, Hd, Hk. Qed.

(** A region: its name and its size. *)
Definition region_fields (r : string * Z) : dict pyval := [("dev", VStr r.1); ("size", VInt r.2)].

(** The entries [by_size] sorts: a region's size and its object. *)
Definition entry_of (r : string * Z) (x : Z * pyval) : Prop := x.1 = r.2 ∧ has_fields (region_fields r) x.2.

Lemma keys_of rs js :
  Forall2 (λ r, has_fields (region_fields r)) rs js →
  ∃ l, results (map (λ i, k ← py_getkey i "size"; Ret (k, i)) js) = Ret (keyed l) ∧ Forall2 entry_of rs l.
Proof using Type.
  induction 1 as [|r j rs js (d & -> & Hd) _ (l & E & Hl)]; [by exists []|].
  exists ((r.2, VDict d) :: l). split; [|by constructor; [split; [|exists d]|]].
  cbn [map results py_getkey]. rewrite (Hd "size" (VInt r.2)) by (right; left).
  unfold mbind, result_bind in *. by rewrite E.
Qed.

Lemma by_size_first rs js :
  Forall2 (λ r, has_fields (region_fields r)) rs js → rs ≠ [] →
  ∃ l1 r l2 j js', by_size js = Ret (j :: js') ∧ has_fields (region_fields r) j ∧
    rs = l1 ++ r :: l2 ∧ Forall (λ y, y.2 < r.2) l1 ∧ Forall (λ y, y.2 ≤ r.2) l2.
Proof using Type.
  intros H Hne. destruct (keys_of rs js H) as (l & E & Hl).
  assert (l ≠ []) as Hln by (intros ->; by inversion Hl; subst).
  destruct (sort_desc_first l Hln) as (l' & [k j] & Es & _ & Hh & l1 & l2 & -> & H1 & H2).
  destruct l' as [|y l']; [done|]. injection Hh as ->.
  apply Forall2_app_inv_r in Hl as (r1 & rs2 & Hr1 & Hr2 & ->).
  apply Forall2_cons_inv_r in Hr2 as (r & r2 & [Hk Hj] & Hr2 & ->). cbn in Hk, Hj.
  exists r1, r, r2, j, (map snd (keyed l')). split_and!; [|done|done| |].
  - unfold by_size. rewrite E. unfold mbind, result_bind. by rewrite Es.
  - apply (Forall2_Forall_l _ _ _ _ Hr1). eapply Forall_impl; [|exact H1]. intros x Hx y [<- _]. simpl in Hx. lia.
  - apply (Forall2_Forall_l _ _ _ _ Hr2). eapply Forall_impl; [|exact H2]. intros x Hx y [<- _]. simpl in Hx. lia.
Qed.
End regions.

(** ** Namespaces *)

Lemma mod_int a b : b ≠ 0 → py_mod (VInt a) (VInt b) = Ret (VInt (a mod b)).
Proof.
  intros Hb. unfold py_mod, lift_num, num_mod. cbn [as_num num_is_zero]. by destruct (Z.eqb_spec b 0).
Qed.

(** A namespace: [ns_raw] is the part of the region it takes, [ns_size] what ndctl lists. *)
Record nspace := Ns { ns_dev : string; ns_mode : string; ns_align : Z; ns_size : Z; ns_raw : Z }.

Definition ns_fields (n : nspace) : dict pyval :=
  [("dev", VStr (ns_dev n)); ("mode", VStr (ns_mode n)); ("align", VInt (ns_align n)); ("size", VInt (ns_size n))].

(** The option lists that list the namespaces of a region. *)
Definition region_options (R : string) : list string := ["-N -r " +:+ R; "-r " +:+ R +:+ " -N"].

Definition region_align_path : string := "/sys/bus/nd/devices/region0/align".
Definition pfn_align_path (idx : string) : string := "/sys/bus/nd/devices/pfn" +:+ idx +:+ ".0/align".

Class NvdimmMachine (W : Type) {HE : Env W} {HN : NdctlLib W} := {
  nm_val :: ListVal;
  regions : list (string * Z);                (* names and sizes *)
  slots : string → Z;                         (* of a region: how many namespaces it can have *)
  unit : string → Z;                          (* sizes of its namespaces are multiples of this *)
  map_align : string → Z;                     (* of a region number: pfnN.0/align *)
  size_align : option Z;                      (* region0/align, if the kernel has it *)
  layout : string → W → list nspace;
  nm_region_list p w : ∃ js, plib_call p "run_ndctl_list" [VStr "-R"] [] w = (Ret (VList js), w) ∧
    Forall2 (λ r, has_fields (region_fields r)) regions js;
  nm_region p R z w : (R, z) ∈ regions → ∃ j js,
    plib_call p "run_ndctl_list" [VStr ("-r " +:+ R)] [] w = (Ret (VList (j :: js)), w) ∧
    has_fields [("size", VInt z)] j;
  nm_list p R o w : o ∈ region_options R → ∃ js,
    plib_call p "run_ndctl_list" [VStr o] [] w = (Ret (VList js), w) ∧
    Forall2 (λ n, has_fields (ns_fields n)) (layout R w) js;
  nm_ns p R n w : n ∈ layout R w → ∃ j js,
    plib_call p "run_ndctl_list" [VStr ("-n " +:+ ns_dev n)] [] w = (Ret (VList (j :: js)), w) ∧
    has_fields (ns_fields n) j;
  (* enabling and disabling keep the namespaces *)
  nm_keep p method kw w : method ∈ ["enable_region"; "disable_region"; "disable_namespace"]%string →
    ∃ v w', plib_call p method [] kw w = (Ret v, w') ∧ ∀ R, layout R w' = layout R w;
  nm_legacy p R w : plib_call p "is_region_legacy" [VStr R] [] w = (Ret (VBool false), w);
  nm_slots p R w : plib_call p "get_slot_count" [VStr R] [] w = (Ret (VInt (slots R)), w);
  nm_destroy p R w : ∃ v w', plib_call p "destroy_namespace" [] (of_region (VStr R)) w = (Ret v, w') ∧
    layout R w' = [] ∧ ∀ R', R' ≠ R → layout R' w' = layout R' w;
  nm_destroy_all p kw w : kw ∈ [[]; [("force", VBool true)]] →
    ∃ v w', plib_call p "destroy_namespace" [] kw w = (Ret v, w') ∧ ∀ R, layout R w' = [];
  (* a size that the region has room for *)
  nm_create p R z mode n idx w : (R, z) ∈ regions → first_number (VStr R) = Ret idx →
    0 < n → (unit R | n) → Zsum (map ns_raw (layout R w)) + n ≤ z → Z.of_nat (length (layout R w)) < slots R →
    ∃ v w' ns, plib_call p "create_namespace" []
        [("region", VStr R); ("mode", VStr mode); ("size", VInt n)] w = (Ret v, w') ∧
      layout R w' = layout R w ++ [ns] ∧ ns_mode ns = mode ∧ ns_raw ns = n ∧
      ns_align ns = map_align idx ∧ (map_align idx | ns_size ns) ∧
      ∀ R', R' ≠ R → layout R' w' = layout R' w;
  (* sysfs *)
  nm_exists_region w : env_exists region_align_path w = (bool_decide (is_Some size_align), w);
  nm_exists_pfn w : env_exists (pfn_align_path "0") w = (true, w);
  nm_read_region z w : size_align = Some z → ∃ s,
    nd_lib "genio.read_one_line" [VStr region_align_path] w = (Ret (VStr s), w) ∧ py_int16_of_str s = Some z;
  nm_read_pfn idx w :
    nd_lib "genio.read_one_line" [VStr (pfn_align_path idx)] w = (Ret (VStr (py_str_Z (map_align idx))), w);
}.

(** A decorated test ends as its body does, unless that is an exception of the library. *)
Lemma fail_on_runs {W} {A} (m : M W ndctl_self A) r w x w' x' :
  runs m w x r w' x' → match r with Ret _ => True | Raise e => ex_class e ≠ PMemException end →
  runs (fail_on m) w x r w' x'.
Proof.
  intros E Hr tr. destruct (E tr) as [tr' E']. exists tr'. unfold fail_on, try_except. rewrite E'.
  destruct r as [a|e]; [done|]. unfold is_pmem_exn. by rewrite bool_decide_eq_false_2.
Qed.

Section machine.
Context {W : Type} {HE : Env W} {HN : NdctlLib W} {HM : NvdimmMachine W}.
Context (p : pmem) (x : ndctl_self) (Hp : nd_plib x = Some p).
Implicit Types (w : W) (R : string).

(** Worlds with the same namespaces. *)
Definition same_layout (w w' : W) : Prop := ∀ R, layout R w' = layout R w.
Definition others_same (R : string) (w w' : W) : Prop := ∀ R', R' ≠ R → layout R' w' = layout R' w.

(** ** Single calls *)

Lemma plib_runs method args kw r w w' :
  plib_call p method args kw w = (r, w') → runs (plib method args kw) w x r w' x.
Proof using Hp. intros E. unfold plib. eapply runs_bind; [by apply runs_attr|]. by apply runs_ext. Qed.

Lemma plib_do_runs method kw v w w' :
  plib_call p method [] kw w = (Ret v, w') → runs (plib_do method kw) w x (Ret ()) w' x.
Proof using Hp. intros E. unfold plib_do. eapply runs_bind; [by eapply plib_runs|]. apply runs_ret. Qed.

Lemma keep_runs method kw w : method ∈ ["enable_region"; "disable_region"; "disable_namespace"]%string →
  ∃ w', runs (plib_do method kw) w x (Ret ()) w' x ∧ same_layout w w'.
Proof using Hp.
  intros Hm. destruct (nm_keep p method kw w Hm) as (v & w' & E & H). exists w'. split; [|done].
  by eapply plib_do_runs.
Qed.

Lemma clear_region_runs R w : ∃ w', runs (clear_region (VStr R)) w x (Ret ()) w' x ∧
  layout R w' = [] ∧ others_same R w w'.
Proof using Hp.
  destruct (keep_runs "disable_namespace" (of_region (VStr R)) w) as (w1 & E1 & H1); [do 2 right; left|].
  destruct (nm_destroy p R w1) as (v & w2 & E2 & H2 & H3). exists w2. split_and!; [|done|].
  - unfold clear_region. eapply runs_bind; [exact E1|]. by eapply plib_do_runs.
  - intros R' Hne. by rewrite H3, H1.
Qed.

Lemma clear_all_runs w : ∃ w1 w2, runs (disable_namespace []) w x (Ret ()) w1 x ∧
  runs (destroy_namespace []) w1 x (Ret ()) w2 x ∧ ∀ R, layout R w2 = [].
Proof using Hp.
  destruct (keep_runs "disable_namespace" [] w) as (w1 & E1 & H1); [do 2 right; left|].
  destruct (nm_destroy_all p [] w1) as (v & w2 & E2 & H2); [left|]. exists w1, w2. split_and!; [done| |done].
  by eapply plib_do_runs.
Qed.

Lemma listed_runs o field j js v w :
  plib_call p "run_ndctl_list" [VStr o] [] w = (Ret (VList (j :: js)), w) → list_val j field = Ret v →
  runs (listed o field) w x (Ret v) w x.
Proof using Hp.
  intros E Hv. unfold listed, first_listed, run_ndctl_list.
  eapply runs_bind; [eapply runs_bind; [by eapply plib_runs|]; apply runs_lift|]. cbv beta.
  unfold val. rewrite Hv. apply runs_lift.
Qed.

Lemma region_size_runs R z w : (R, z) ∈ regions → runs (listed ("-r " +:+ R) "size") w x (Ret (VInt z)) w x.
Proof using Hp.
  intros HR. destruct (nm_region p R z w HR) as (j & js & E & Hj).
  eapply listed_runs; [exact E|]. eapply has_fields_val; [exact Hj|]. left.
Qed.

Lemma read_line_runs path v w :
  nd_lib "genio.read_one_line" [VStr path] w = (Ret v, w) → runs (read_one_line path) w x (Ret v) w x.
Proof using Type. intros E. by apply runs_ext. Qed.

(** ** The default region *)

(** The region that the tests use: the parameter, or the first of the largest. *)
Definition chosen R : Prop :=
  if truthy (env_param "region" VNone) then env_param "region" VNone = VStr R
  else ∃ l1 z l2, regions = l1 ++ (R, z) :: l2 ∧ Forall (λ r, r.2 < z) l1 ∧ Forall (λ r, r.2 ≤ z) l2.

Lemma largest_runs w :
  truthy (env_param "region" VNone) = false → regions ≠ [] →
  ∃ R z l1 l2 w', runs get_default_region w x (Ret (VStr R)) w' x ∧ same_layout w w' ∧
    regions = l1 ++ (R, z) :: l2 ∧ Forall (λ r, r.2 < z) l1 ∧ Forall (λ r, r.2 ≤ z) l2.
Proof using Hp.
  intros Hparam Hne. destruct (keep_runs "enable_region" [] w) as (w1 & E1 & H1); [left|].
  destruct (nm_region_list p w1) as (js & E2 & Hjs).
  destruct (by_size_first regions js Hjs Hne) as (l1 & [R z] & l2 & j & js' & E3 & Hj & Hr & Hl1 & Hl2).
  exists R, z, l1, l2, w1. split_and!; [|done|done|done|done].
  unfold get_default_region. eapply runs_bind; [exact E1|]. cbv beta.
  eapply runs_bind; [apply runs_ret|]. cbv beta. rewrite Hparam.
  eapply runs_bind; [by eapply plib_runs|]. cbv beta. cbn [py_iter].
  run_step. rewrite E3. run_step. run_step. unfold val.
  rewrite (has_fields_val _ _ "dev" (VStr R) Hj) by left. run.
Qed.

Lemma first_largest_unique (l1 l2 k1 k2 : list (string * Z)) a b :
  l1 ++ a :: l2 = k1 ++ b :: k2 →
  Forall (λ r, r.2 < a.2) l1 → Forall (λ r, r.2 ≤ a.2) l2 →
  Forall (λ r, r.2 < b.2) k1 → Forall (λ r, r.2 ≤ b.2) k2 → a = b.
Proof using Type.
  intros E Hl1 Hl2 Hk1 Hk2. revert k1 E Hk1. induction Hl1 as [|c l1 Hc Hl1 IH]; intros k1 E Hk1.
  - destruct k1 as [|d k1]; simplify_eq/=; [done|]. exfalso.
    apply Forall_app in Hl2 as [_ Hl2]. inversion Hl2; inversion Hk1; subst. lia.
  - destruct k1 as [|d k1]; simplify_eq/=.
    + exfalso. apply Forall_app in Hk2 as [_ Hk2]. inversion Hk2; subst. lia.
    + inversion Hk1; subst. by apply (IH k1).
Qed.

Lemma default_region_runs R w :
  chosen R → ∃ w', runs get_default_region w x (Ret (VStr R)) w' x ∧ same_layout w w'.
Proof using Hp.
  unfold chosen. destruct (truthy (env_param "region" VNone)) eqn:Et.
  - intros Hparam. destruct (keep_runs "enable_region" [] w) as (w1 & E1 & H1); [left|].
    exists w1. split; [|done]. unfold get_default_region. eapply runs_bind; [exact E1|]. cbv beta.
    eapply runs_bind; [apply runs_ret|]. cbv beta. rewrite Et, Hparam. run.
  - intros (l1 & z & l2 & Hr & H1 & H2).
    destruct (largest_runs w Et) as (R' & z' & k1 & k2 & w' & E & Hs & Hr' & H1' & H2'); [rewrite Hr; by destruct l1|].
    exists w'. split; [|done].
    pose proof (first_largest_unique l1 l2 k1 k2 (R, z) (R', z')) as Hu. simpl in Hu.
    rewrite <- Hr, <- Hr' in Hu. by injection (Hu eq_refl H1 H2 H1' H2') as -> _.
Qed.

(** ** Alignments *)

(** What [get_size_alignval] computes. *)
Definition granule : Z := Z.lcm (default 1 size_align) (map_align "0").

Lemma size_alignval_runs w :
  0 < granule → runs get_size_alignval w x (Ret granule) w x.
Proof using Type.
  intros Hg. unfold get_size_alignval.
  eapply runs_bind; [apply runs_silent; by rewrite (nm_exists_region w)|]. cbv beta.
  eapply (runs_bind _ _ _ _ (default 1 size_align)).
  { destruct size_align as [z|] eqn:E.
    - destruct (nm_read_region z w E) as (s & Er & Es). cbn [bool_decide].
      rewrite bool_decide_eq_true_2 by done. eapply runs_bind; [by apply read_line_runs|]. cbv beta.
      unfold py_int16. rewrite Es. apply runs_lift.
    - rewrite bool_decide_eq_false_2 by (by intros [? ?]). apply runs_ret. }
  eapply runs_bind; [apply runs_silent; by rewrite (nm_exists_pfn w)|]. cbv beta. cbn [negb].
  run_step. eapply runs_bind; [apply read_line_runs, (nm_read_pfn "0")|]. cbv beta.
  rewrite py_int_str. run_step. rewrite lcm_is_Z_lcm. unfold granule in *.
  destruct (Z.eqb_spec (default 1 size_align) 0) as [E0|]; [|run].
  rewrite E0, Z.lcm_0_l in Hg. lia.
Qed.

(** C16: [get_size_alignval] gives the unit of namespace sizes: a size is a multiple of it
    exactly when it is a multiple of the kernel's size alignment (1 if the kernel has none) and
    of the mapping alignment. *)
Theorem size_alignval_equivalent w :
  0 < granule → ∃ g, runs get_size_alignval w x (Ret g) w x ∧
    ∀ s, (g | s) ↔ (default 1 size_align | s) ∧ (map_align "0" | s).
Proof using Type.
  intros Hg. exists granule. split; [by apply size_alignval_runs|]. intros s. unfold granule. split.
  - intros H. split; (etransitivity; [|exact H]); [apply Z.divide_lcm_l|apply Z.divide_lcm_r].
  - intros [H1 H2]. by apply Z.lcm_least.
Qed.

(** Namespaces that [check_namespace_align] accepts. *)
Definition aligned (idx : string) (n : nspace) : Prop := ns_align n = map_align idx ∧ (map_align idx | ns_size n).

Lemma check_ns_runs R idx n j w :
  map_align idx ≠ 0 → n ∈ layout R w → has_fields (ns_fields n) j → aligned idx n →
  runs (check_ns_align (map_align idx) j) w x (Ret ()) w x.
Proof using Hp.
  intros Hm Hn Hj [Ha Hs]. unfold check_ns_align, val. rewrite (has_fields_val _ _ "dev" (VStr (ns_dev n)) Hj) by left.
  run_step. destruct (nm_ns p R n w Hn) as (j' & js & E & Hj').
  eapply runs_bind; [eapply runs_bind; [by eapply plib_runs|]; apply runs_lift|]. cbv beta.
  rewrite (has_fields_val _ _ "align" (VInt (ns_align n)) Hj') by (do 2 right; left).
  run_step. cbn [py_eq as_num]. rewrite num_eq_int, Ha, Z.eqb_refl. cbn [negb]. run_step.
  rewrite (has_fields_val _ _ "size" (VInt (ns_size n)) Hj') by (do 3 right; left).
  run_step. eapply runs_bind; [by apply runs_ext|]. cbv beta.
  rewrite mod_int by done. apply (Z.mod_divide _ _ Hm) in Hs. rewrite Hs. run.
Qed.

Lemma check_align_runs R idx w :
  first_number (VStr R) = Ret idx → map_align idx ≠ 0 → Forall (aligned idx) (layout R w) →
  runs (check_namespace_align (VStr R)) w x (Ret ()) w x.
Proof using Hp.
  intros Hidx Hm Hal. unfold check_namespace_align. rewrite Hidx. run_step.
  eapply runs_bind; [apply read_line_runs, nm_read_pfn|]. cbv beta. rewrite py_int_str. run_step.
  destruct (nm_list p R ("-N -r " +:+ R) w) as (js & E & Hjs); [left|].
  eapply runs_bind; [by eapply plib_runs|]. cbv beta. unfold for_in. cbn [py_iter]. run_step.
  destruct (runs_for_each js (check_ns_align (map_align idx)) (λ _ w' x', w' = w ∧ x' = x) w x)
    as (w' & x' & E' & -> & ->); [|done|done].
  intros dn j todo ? ? Hsplit [-> ->]. exists w, x. split; [|done].
  rewrite Hsplit in Hjs. apply Forall2_app_inv_r in Hjs as (l1 & l2 & _ & Hjs & Hl).
  apply Forall2_cons_inv_r in Hjs as (n & l2' & Hj & _ & ->).
  rewrite Hl in Hal. apply Forall_app in Hal as [_ Hal]. inversion Hal as [|? ? Hn _]; subst.
  apply (check_ns_runs R idx n j w); [done| |done|done]. rewrite Hl. apply elem_of_app. right. left.
Qed.

(** ** Dividing a region *)

(** The size that the tests choose for the namespaces of a region. *)
Definition share (R : string) (z : Z) : Z := z / slots R / granule * granule.

Lemma plan_runs R z :
  0 < granule → 0 < slots R →
  plan_namespaces VNone (VInt z) (VInt (slots R)) granule = Ret (VInt (share R z), VInt (slots R)).
Proof using Type.
  intros Hg Hs. unfold plan_namespaces, py_floordiv, py_mul, lift_num, num_floordiv. cbn [truthy as_num num_is_zero].
  destruct (Z.eqb_spec (slots R) 0); [lia|]. cbn. destruct (Z.eqb_spec granule 0); [lia|]. done.
Qed.

Lemma share_bounds R z : 0 < granule → 0 < slots R → 0 ≤ z - slots R * share R z < slots R * granule.
Proof using Type.
  intros Hg Hs. unfold share. set (k := slots R) in *. set (g := granule) in *.
  pose proof (Z.div_mod z k ltac:(lia)). pose proof (Z.mod_pos_bound z k Hs).
  pose proof (Z.div_mod (z / k) g ltac:(lia)). pose proof (Z.mod_pos_bound (z / k) g Hg). nia.
Qed.

(** A namespace of the given mode and size. *)
Definition made (mode : string) (n : Z) (idx : string) (ns : nspace) : Prop :=
  ns_mode ns = mode ∧ ns_raw ns = n ∧ aligned idx ns.

Lemma made_sum mode n idx l : Forall (made mode n idx) l → Zsum (map ns_raw l) = Z.of_nat (length l) * n.
Proof using Type. induction 1 as [|a l (_ & Ha & _) _ IH]; [done|]. unfold Zsum in *. cbn [map foldr]. rewrite Ha, IH. cbn [length]. lia. Qed.

Lemma create_counted_runs R z mode n idx k shown w :
  (R, z) ∈ regions → first_number (VStr R) = Ret idx → 0 < n → (unit R | n) →
  0 ≤ k ≤ slots R → k * n ≤ z → layout R w = [] →
  ∃ w', runs (create_counted (VInt k) [("region", VStr R); ("mode", VStr mode); ("size", VInt n)] shown) w x
          (Ret ()) w' x ∧
    Z.of_nat (length (layout R w')) = k ∧ Forall (made mode n idx) (layout R w') ∧ others_same R w w'.
Proof using Hp.
  intros HR Hidx Hn Hu Hk Hz Hw. unfold create_counted.
  set (I := λ (done : list Z) w' (x' : ndctl_self), x' = x ∧ length (layout R w') = length done ∧
    Forall (made mode n idx) (layout R w') ∧ others_same R w w').
  assert (Z.of_nat (length (Zrange 0 k)) = k) as Hlen.
  { unfold Zrange. rewrite length_seqZ. lia. }
  set (body := λ count, create_namespace [("region", VStr R); ("mode", VStr mode); ("size", VInt n)] ;;
             log_info ("Namespace " +:+ py_str_Z (shown count) +:+ " created")).
  destruct (runs_for_each (Zrange 0 k) body I w x) as (w' & x' & E & -> & Hl & Hf & Ho).
  - intros dn c todo w1 ? Hsplit (-> & Hl & Hf & Ho).
    assert (Z.of_nat (length dn) < k) as Hlt by (rewrite <- Hlen, Hsplit, length_app; cbn [length]; lia).
    destruct (nm_create p R z mode n idx w1) as (v & w2 & ns & E & Hlay & Hm & Hr & Ha & Hd & Ho2); [done..| | |].
    { rewrite (made_sum mode n idx) by done. rewrite Hl. nia. }
    { rewrite Hl. lia. }
    exists w2, x. split.
    + eapply runs_bind; [by eapply plib_do_runs|]. apply runs_log.
    + split_and!; [done| | |].
      * rewrite Hlay, !length_app, Hl. done.
      * rewrite Hlay. apply Forall_app. split; [done|]. by repeat constructor.
      * intros R' Hne. by rewrite Ho2, Ho.
  - split_and!; [done|by rewrite Hw|rewrite Hw; constructor|by intros ? ?].
  - exists w'. split_and!; [|by rewrite Hl|done|done].
    cbn [py_range as_num]. run_step. exact E.
Qed.

(** What a test of several namespaces makes of a region. *)
Definition divided (R : string) (z : Z) (mode idx : string) (w : W) : Prop :=
  Z.of_nat (length (layout R w)) = slots R ∧ Forall (made mode (share R z) idx) (layout R w) ∧
  0 ≤ z - Zsum (map ns_raw (layout R w)) < slots R * granule.

Lemma divided_intro R z mode idx w :
  0 < granule → 0 < slots R → Z.of_nat (length (layout R w)) = slots R →
  Forall (made mode (share R z) idx) (layout R w) → divided R z mode idx w.
Proof using Type.
  intros Hg Hs Hl Hf. split_and!; [done|done|..]; rewrite (made_sum mode (share R z) idx), Hl by done;
    by apply share_bounds.
Qed.

(** The hypotheses on a region: its number, and an alignment that [granule] respects. *)
Definition regular (R : string) (z : Z) (idx : string) : Prop :=
  (R, z) ∈ regions ∧ first_number (VStr R) = Ret idx ∧ map_align idx ≠ 0 ∧
  0 < granule ∧ (unit R | granule) ∧ 0 < slots R.

Lemma legacy_runs R w : runs (legacy_cancel (VStr R)) w x (Ret ()) w x.
Proof using HM Hp.
  unfold legacy_cancel, is_region_legacy. eapply runs_bind; [eapply runs_bind; [eapply plib_runs, nm_legacy|]; apply runs_ret|].
  cbv beta. cbn [truthy as_num num_is_zero Z.eqb negb]. run.
Qed.

Lemma divide_runs R z mode idx shown w :
  regular R z idx → 0 < share R z → layout R w = [] →
  ∃ w', runs (create_counted (VInt (slots R)) [("region", VStr R); ("mode", VStr mode); ("size", VInt (share R z))]
                shown) w x (Ret ()) w' x ∧ divided R z mode idx w' ∧ others_same R w w'.
Proof using Hp.
  intros (HR & Hidx & Hm & Hg & Hu & Hs) Hsh Hw.
  destruct (create_counted_runs R z mode (share R z) idx (slots R) shown w) as (w' & E & Hl & Hf & Ho);
    [done|done|done|by apply Z.divide_mul_r|lia| |done|].
  - pose proof (share_bounds R z Hg Hs). lia.
  - exists w'. split_and!; [done|by apply divided_intro|done].
Qed.

Lemma divided_aligned R z mode idx w : divided R z mode idx w → Forall (aligned idx) (layout R w).
Proof using Type. intros (_ & Hf & _). eapply Forall_impl; [|exact Hf]. by intros ns (_ & _ & ?). Qed.

Lemma multiple_namespaces_runs R z mode idx w :
  regular R z idx → nd_mode_to_use x = VStr mode → env_param "size" VNone = VNone → granule < share R z →
  ∃ w', runs (multiple_namespaces_region (VStr R)) w x (Ret ()) w' x ∧ divided R z mode idx w' ∧ others_same R w w'.
Proof using Hp.
  intros Hreg Hmode Hsize Hsh. pose proof Hreg as (HR & Hidx & Hm & Hg & Hu & Hs).
  destruct (clear_region_runs R w) as (w1 & E1 & Hw1 & Ho1).
  destruct (divide_runs R z mode idx (Z.add 1) w1 Hreg) as (w2 & E2 & Hd & Ho2); [lia|done|].
  exists w2. split_and!; [|done|].
  - unfold multiple_namespaces_region. eapply runs_bind; [apply runs_ret|]. cbv beta. rewrite Hsize.
    eapply runs_bind; [by apply size_alignval_runs|]. eapply runs_bind; [eapply plib_runs, nm_slots|].
    run_step. eapply runs_bind; [exact E1|]. cbv beta. cbn [truthy as_num]. run_step. run_step.
    eapply runs_bind; [by apply region_size_runs|]. cbv beta. rewrite plan_runs by done. run_step.
    replace (py_le (VInt (share R z)) (VInt granule)) with (Ret false).
    2: { cbn [py_le as_num]. rewrite num_le_int. f_equal. symmetry. apply Z.leb_gt. lia. }
    run_step. run_step. run_step. rewrite Hmode. exact E2.
  - intros R' Hne. by rewrite Ho2, Ho1.
Qed.

(** Slots that are not larger than one alignment unit: the region is cleared and left without namespaces. *)
Lemma multiple_namespaces_skips R z mode idx w :
  regular R z idx → nd_mode_to_use x = VStr mode → env_param "size" VNone = VNone → share R z ≤ granule →
  ∃ w', runs (multiple_namespaces_region (VStr R)) w x (Ret ()) w' x ∧ layout R w' = [] ∧ others_same R w w'.
Proof using Hp.
  intros (HR & Hidx & Hm & Hg & Hu & Hs) Hmode Hsize Hsh. destruct (clear_region_runs R w) as (w1 & E1 & Hw1 & Ho1).
  exists w1. split_and!; [|done|done]. unfold multiple_namespaces_region. eapply runs_bind; [apply runs_ret|]. cbv beta. rewrite Hsize.
  eapply runs_bind; [by apply size_alignval_runs|]. eapply runs_bind; [eapply plib_runs, nm_slots|].
  run_step. eapply runs_bind; [exact E1|]. cbv beta. cbn [truthy as_num]. run_step. run_step.
  eapply runs_bind; [by apply region_size_runs|]. cbv beta. rewrite plan_runs by done. run_step.
  replace (py_le (VInt (share R z)) (VInt granule)) with (Ret true); [run|].
  cbn [py_le as_num]. rewrite num_le_int. f_equal. symmetry. by apply Z.leb_le.
Qed.

(** C2: with no size parameter, [test_multiple_namespaces_region] passes, and what becomes of the
    region it uses depends on the size of a slot cut down to the alignment unit.  Where that is
    more than one unit, the region is divided: as many namespaces as it has slots, each of the
    requested mode and of that size, with less than one unit per slot left over.  Otherwise the
    region is left without namespaces.  The other regions keep theirs. *)
Theorem multiple_namespaces_divide_region R z mode idx w :
  regular R z idx → chosen R → nd_mode_to_use x = VStr mode → env_param "size" VNone = VNone →
  ∃ w', runs test_multiple_namespaces_region w x (Ret ()) w' x ∧ others_same R w w' ∧
    if granule <? share R z then divided R z mode idx w' else layout R w' = [].
Proof using Hp.
  intros Hreg Hch Hmode Hsize. destruct (default_region_runs R w Hch) as (w1 & E1 & H1).
  assert (∃ w2, runs (multiple_namespaces_region (VStr R)) w1 x (Ret ()) w2 x ∧ others_same R w1 w2 ∧
    if granule <? share R z then divided R z mode idx w2 else layout R w2 = []) as (w2 & E2 & Ho & Hd).
  { destruct (Z.ltb_spec granule (share R z)).
    - destruct (multiple_namespaces_runs R z mode idx w1) as (w2 & ? & ? & ?); [done..|]. by exists w2.
    - destruct (multiple_namespaces_skips R z mode idx w1) as (w2 & ? & ? & ?); [done..|]. by exists w2. }
  exists w2. split_and!; [|intros R' Hne; by rewrite Ho, H1|exact Hd].
  apply runs_try_ret. eapply runs_bind; [exact E1|]. eapply runs_bind; [apply legacy_runs|].
  eapply runs_bind; [exact E2|]. destruct Hreg as (_ & Hidx & Hm & _). apply (check_align_runs R idx w2); [done|done|].
  destruct (granule <? share R z); [by eapply divided_aligned|rewrite Hd; constructor].
Qed.

(** [test_nslot_namespace] divides the region it uses the same way, in mode fsdax, and
    leaves the other regions without namespaces. *)
Theorem nslot_namespace_divides_region R z idx w :
  regular R z idx → chosen R → 0 < share R z →
  ∃ w', runs test_nslot_namespace w x (Ret ()) w' x ∧ divided R z "fsdax" idx w' ∧
    ∀ R', R' ≠ R → layout R' w' = [].
Proof using Hp.
  intros Hreg Hch Hsh. destruct (default_region_runs R w Hch) as (w1 & E1 & H1).
  destruct (clear_all_runs w1) as (wd & w2 & Ed & E2 & H2).
  destruct (divide_runs R z "fsdax" idx id w2 Hreg Hsh) as (w3 & E3 & Hd & Ho); [done|].
  pose proof Hreg as (HR & Hidx & Hm & Hg & Hu & Hs).
  exists w3. split_and!; [|done|intros R' Hne; by rewrite Ho].
  apply runs_try_ret. eapply runs_bind; [exact E1|]. eapply runs_bind; [apply legacy_runs|].
  eapply runs_bind; [by apply size_alignval_runs|]. eapply runs_bind; [eapply plib_runs, nm_slots|]. run_step.
  eapply runs_bind; [exact Ed|]. eapply runs_bind; [exact E2|].
  eapply runs_bind; [by apply region_size_runs|]. cbv beta. rewrite plan_runs by done. run_step. run_step.
  eapply runs_bind; [exact E3|]. apply (check_align_runs R idx w3); [done|done|by eapply divided_aligned].
Qed.
End machine.
