(* ===== verification/NdctlVerdicts.v ===== *)
(** * Verdicts of the NVDIMM tests

    On the machine of NdctlSpace: the modes that [test_namespace_modes] reports, a size
    parameter that is not aligned, and what tearDown does.  On any machine: how the tests end that
    lack the decorator of the others. *)

From S2P Require Import Prelude PyStr PyFloat PyVal PyRegex Avocado Logic Ndctl NdctlSpace.
Open Scope Z_scope.

(** ** The decorator *)

Section decorator.
Context {W : Type} {HE : Env W} {HN : NdctlLib W}.

(** the tests of 1 GiB alignment that lack the decorator end in an error, not in a failure,
    when the PMem library cannot disable the namespaces they start from. *)
Theorem undecorated_tests_error R p w x w1 e w2 test :
  test ∈ [test_namespace_1gb_alignment_enable_disable; test_modes_1gb_alignment_namespaces] →
  nd_plib x = Some p → ex_class e = PMemException → runs get_default_region w x (Ret R) w1 x →
  plib_call p "disable_namespace" [] (of_region R) w1 = (Raise e, w2) →
  ∀ tr, verdict_of (test (PState w tr x)).1 = ERROR.
Proof using Type.
  intros Ht Hp He E1 E2 tr.
  assert (runs (clear_region R) w1 x (Raise e) w2 x) as Ec.
  { apply runs_bind_raise. unfold disable_namespace, plib_do. apply runs_bind_raise. unfold plib.
    eapply runs_bind; [by apply runs_attr|]. by apply runs_ext. }
  assert (runs test w x (Raise e) w2 x) as E.
  { repeat (apply elem_of_cons in Ht as [->|Ht]; [|]); [..|by apply not_elem_of_nil in Ht];
      (eapply runs_bind; [exact E1|]); by apply runs_bind_raise. }
  destruct (E tr) as [tr' ->]. simpl. by rewrite He.
Qed.
End decorator.

(** ** More of the machine *)

(** Namespaces of a whole region: the mode that the machine gives when one is asked for, and
    taking a namespace away by its name. *)
Class ModeMachine (W : Type) {HE : Env W} {HN : NdctlLib W} {HM : NvdimmMachine W} := {
  given_mode : string → string;
  mo_create p R z mode w : (R, z) ∈ regions → layout R w = [] → ∃ v w' ns,
    plib_call p "create_namespace" [] [("region", VStr R); ("mode", VStr mode)] w = (Ret v, w') ∧
    layout R w' = [ns] ∧ ns_mode ns = given_mode mode ∧ ∀ R', R' ≠ R → layout R' w' = layout R' w;
  mo_destroy p R n w : layout R w = [n] → ∃ v w',
    plib_call p "destroy_namespace" [] [("namespace", VStr (ns_dev n)); ("region", VStr R)] w = (Ret v, w') ∧
    layout R w' = [] ∧ ∀ R', R' ≠ R → layout R' w' = layout R' w;
}.

(** What tearDown uses: while the regions are enabled, the list of all namespaces is empty only
    if there are none. *)
Class TearDownMachine (W : Type) {HE : Env W} {HN : NdctlLib W} {HM : NvdimmMachine W} := {
  all_enabled : W → Prop;
  td_list p w : all_enabled w → ∃ js, plib_call p "run_ndctl_list" [VStr "-N"] [] w = (Ret (VList js), w) ∧
    (js = [] → ∀ R, layout R w = []);
}.

Section machine.
Context {W : Type} {HE : Env W} {HN : NdctlLib W} {HM : NvdimmMachine W}.
Context (p : pmem) (x : ndctl_self) (Hp : nd_plib x = Some p).
Implicit Types (w : W) (R : string).

(** ** A size that is not aligned *)

(** a size parameter that is not a multiple of the alignment, or that is text with
    nothing to format, does not cancel [test_multiple_namespaces_region]: the call of [cancel]
    with three arguments, or the remainder of text, raises TypeError, after the namespaces of
    the region are destroyed. *)
Theorem unaligned_size_parameter_raises R v w :
  chosen R → 0 < granule → env_param "size" VNone = v →
  (∃ n, v = VInt n ∧ n mod granule ≠ 0) ∨
  (∃ s, v = VStr s ∧ s ≠ "" ∧ py_in "%" s = false) →
  ∃ w' msg, runs test_multiple_namespaces_region w x (raise_ TypeError msg) w' x ∧ layout R w' = [].
Proof using HM Hp.
  intros Hch Hg Hv Hbad. destruct (default_region_runs p x Hp R w Hch) as (w1 & E1 & H1).
  destruct (clear_region_runs p x Hp R w1) as (w2 & E2 & Hl & _).
  assert (∃ msg, runs (multiple_namespaces_region (VStr R)) w1 x (raise_ TypeError msg) w2 x) as [msg Em].
  { destruct Hbad as [(n & -> & Hn)|(s & -> & Hs & _)]; eexists; unfold multiple_namespaces_region;
      (eapply runs_bind; [apply runs_ret|]); cbv beta; rewrite Hv;
      (eapply runs_bind; [by apply size_alignval_runs|]); (eapply runs_bind; [by eapply plib_runs, nm_slots|]);
      run_step; (eapply runs_bind; [exact E2|]); cbv beta.
    - assert (truthy (VInt n) = true) as ->.
      { cbn [truthy as_num num_is_zero]. destruct (Z.eqb_spec n 0) as [->|]; [by rewrite Z.mod_0_l in Hn by lia|done]. }
      eapply runs_bind.
      { rewrite mod_int by lia. run_step. cbn [py_eq as_num]. rewrite num_eq_int. apply runs_ret. }
      cbv beta. destruct (Z.eqb_spec (n mod granule) 0); [done|]. cbn [negb]. apply runs_bind_raise.
      apply runs_when_true, runs_throw.
    - assert (truthy (VStr s) = true) as -> by (by destruct s). apply runs_bind_raise, runs_bind_raise. apply runs_lift. }
  exists w2, msg. split; [|done].
  apply fail_on_runs; [|done]. eapply runs_bind; [exact E1|]. eapply runs_bind; [by eapply legacy_runs|].
  by apply runs_bind_raise.
Qed.

(** ** Modes *)

Definition not_given `{!ModeMachine W} : list string := filter (λ m, given_mode m ≠ m) modes.

Lemma mode_step_runs `{!ModeMachine W} R z failed mode w :
  (R, z) ∈ regions → layout R w = [] →
  ∃ w', runs (mode_step (VStr R) failed mode) w x
          (Ret (failed ++ if decide (given_mode mode = mode) then [] else [mode])) w' x ∧
    layout R w' = [] ∧ others_same R w w'.
Proof using Hp.
  intros HR Hl. destruct (mo_create p R z mode w HR Hl) as (v & w1 & ns & E1 & Hl1 & Hm & Ho1).
  destruct (nm_list p R ("-r " +:+ R +:+ " -N") w1) as (js & E2 & Hjs); [right; left|].
  rewrite Hl1 in Hjs. inversion Hjs as [|? j ? ? Hj Hnil]; subst. inversion Hnil; subst. clear Hjs Hnil.
  destruct (keep_runs p x Hp "disable_namespace" [("namespace", VStr (ns_dev ns)); ("region", VStr R)] w1)
    as (w2 & E3 & H2); [do 2 right; left|].
  destruct (mo_destroy p R ns w2) as (v3 & w3 & E4 & Hl3 & Ho3); [by rewrite H2|].
  exists w3. split_and!; [|done|intros R' Hne; by rewrite Ho3, H2, Ho1].
  unfold mode_step. eapply runs_bind; [by eapply plib_do_runs|]. cbv beta.
  eapply runs_bind; [eapply runs_bind; [by eapply plib_runs|]; apply runs_lift|]. cbv beta. unfold val.
  rewrite (has_fields_val _ _ "mode" (VStr (ns_mode ns)) Hj) by (right; left). run_step. rewrite Hm.
  rewrite (has_fields_val _ _ "dev" (VStr (ns_dev ns)) Hj) by left.
  cbn [py_eq]. destruct (String.eqb_spec mode (given_mode mode)) as [Heq|Hne]; cbn [negb].
  - rewrite decide_True by done. rewrite app_nil_r. run_step. run_step.
    eapply runs_bind; [exact E3|]. eapply runs_bind; [by eapply plib_do_runs|]. run.
  - rewrite decide_False by done. run_step. run_step.
    eapply runs_bind; [exact E3|]. eapply runs_bind; [by eapply plib_do_runs|]. run.
Qed.

(** C7: [test_namespace_modes] passes exactly when the machine gives every mode that is asked
    for, and fails otherwise with the list of the modes that it does not give; the region is
    left empty and the others are not touched. *)
Theorem namespace_modes_verdict `{!ModeMachine W} R z w :
  chosen R → (R, z) ∈ regions →
  ∃ w', runs test_namespace_modes w x
          (match not_given with
           | [] => Ret ()
           | l => raise_ TestFail ("Namespace for " +:+ py_str (strs l) +:+ " mode failed!")
           end) w' x ∧
    layout R w' = [] ∧ others_same R w w'.
Proof using Hp.
  intros Hch HR. destruct (default_region_runs p x Hp R w Hch) as (w1 & E1 & H1).
  destruct (clear_region_runs p x Hp R w1) as (w2 & E2 & Hl2 & Ho2).
  destruct (runs_for_acc modes (mode_step (VStr R))
    (λ done failed w' x', x' = x ∧ failed = filter (λ m, given_mode m ≠ m) done ∧ layout R w' = [] ∧ others_same R w w')
    [] w2 x) as (failed & w3 & x3 & E3 & -> & -> & Hl3 & Ho3).
  - intros dn mode todo failed w' ? _ (-> & -> & Hl & Ho).
    destruct (mode_step_runs R z (filter (λ m, given_mode m ≠ m) dn) mode w' HR Hl) as (w'' & E & Hl' & Ho').
    eexists _, w'', x. split; [exact E|]. split_and!; [done| |done|intros R' Hne; by rewrite Ho', Ho].
    rewrite list.filter_app. f_equal. rewrite filter_cons, filter_nil. by repeat case_decide.
  - split_and!; [done|done|done|]. intros R' Hne. by rewrite Ho2, H1.
  - exists w3. split_and!; [|done|done]. fold not_given in E3.
    apply fail_on_runs; [|by destruct not_given].
    eapply runs_bind; [exact E1|]. run_step. eapply runs_bind; [exact E2|]. eapply runs_bind; [exact E3|].
    cbv beta. destruct not_given as [|m l]; [apply runs_when_false|]. apply runs_when_true, runs_throw.
Qed.

(** ** Several regions *)

Lemma region_entry_runs R z idx mode j w :
  regular R z idx → nd_mode_to_use x = VStr mode → env_param "size" VNone = VNone → granule < share R z →
  has_fields (region_fields (R, z)) j →
  ∃ w', runs (multiple_region_step j) w x (Ret ()) w' x ∧ divided R z mode idx w' ∧ others_same R w w'.
Proof using HM Hp.
  intros Hreg Hmode Hsize Hsh Hj.
  destruct (multiple_namespaces_runs p x Hp R z mode idx w Hreg Hmode Hsize Hsh) as (w' & E & Hd & Ho).
  exists w'. split_and!; [|done|done]. unfold multiple_region_step, val.
  rewrite (has_fields_val _ _ "dev" (VStr R) Hj) by left. run_step.
  eapply runs_bind; [by eapply legacy_runs|]. eapply runs_bind; [exact E|].
  destruct Hreg as (_ & Hidx & Hm & _). apply (check_align_runs p x Hp R idx w'); [done|done|by eapply divided_aligned].
Qed.

(** with two regions or more, [test_multiple_ns_multiple_region] divides every region, each
    by its own number of slots, and passes. *)
Theorem multiple_regions_all_divided (idx : string → string) mode w :
  (1 < length regions)%nat → NoDup (map fst regions) → nd_mode_to_use x = VStr mode →
  env_param "size" VNone = VNone →
  (∀ R z, (R, z) ∈ regions → regular R z (idx R) ∧ granule < share R z) →
  ∃ w', runs test_multiple_ns_multiple_region w x (Ret ()) w' x ∧
    ∀ R z, (R, z) ∈ regions → divided R z mode (idx R) w'.
Proof using HM Hp.
  intros Hlen Hnd Hmode Hsize Hreg.
  destruct (keep_runs p x Hp "enable_region" [] w) as (w0 & E0 & _); [left|].
  destruct (nm_region_list p w0) as (js & El & Hjs).
  destruct (clear_all_runs p x Hp w0) as (w1 & w2 & E1 & E2 & _).
  destruct (runs_for_each js multiple_region_step (λ done w' x', x' = x ∧
    ∃ rs, rs `prefix_of` regions ∧ length rs = length done ∧
      ∀ R z, (R, z) ∈ rs → divided R z mode (idx R) w') w2 x) as (w3 & x3 & E3 & -> & rs & Hpre & Hrs & Hd).
  - intros dn j todo w' ? Hsplit (-> & rs & [rest Hr] & Hl & Hd).
    rewrite Hsplit, Hr in Hjs. apply Forall2_app_inv in Hjs as [_ Hjs]; [|done].
    inversion Hjs as [|[R z] ? rest' ? Hj _ Erest]; subst rest.
    destruct (Hreg R z) as [HregR Hsh]; [rewrite Hr; apply elem_of_app; right; left|].
    destruct (region_entry_runs R z (idx R) mode j w' HregR Hmode Hsize Hsh Hj) as (w'' & E & HdR & Ho).
    exists w'', x. split; [exact E|]. split; [done|]. exists (rs ++ [(R, z)]). split_and!.
    + exists rest'. by rewrite Hr, <- app_assoc.
    + rewrite !length_app. by rewrite Hl.
    + intros R' z' [Hin|Hin%list_elem_of_singleton]%elem_of_app; [|by injection Hin as -> ->].
      assert (R' ≠ R) as Hne.
      { rewrite Hr, map_app in Hnd. apply list.NoDup_app in Hnd as (_ & Hnd & _). intros ->. apply (Hnd R).
        - apply list_elem_of_fmap. by exists (R, z').
        - left. }
      specialize (Hd R' z' Hin). unfold divided in *. by rewrite (Ho R' Hne).
  - split; [done|]. exists []. split_and!; [apply prefix_nil|done|]. intros R z H. by apply not_elem_of_nil in H.
  - assert (rs = regions) as ->.
    { apply prefix_length_eq; [done|]. rewrite Hrs. by rewrite (Forall2_length Hjs). }
    exists w3. split; [|done]. apply fail_on_runs; [|done].
    eapply runs_bind; [exact E0|]. eapply runs_bind; [by eapply plib_runs|]. cbv beta. cbn [py_len]. run_step.
    rewrite <- (Forall2_length Hjs). destruct (Z.leb_spec (Z.of_nat (length regions)) 1); [lia|].
    run_step. eapply runs_bind; [by eapply plib_runs|]. eapply runs_bind; [exact E1|]. eapply runs_bind; [exact E2|].
    unfold for_in. cbn [py_iter]. run_step. exact E3.
Qed.

(** ** tearDown *)

Definition dd_cmd (d : string) : string := "dd if=/dev/zero bs=1M count=1024 of=" +:+ d.

(** What the file system that a test left does to the first steps of tearDown: unmounted, and
    its device overwritten with the given status. *)
Definition unmounted (w w1 : W) : Prop :=
  match nd_part x with
  | None => w1 = w
  | Some q => ∃ v, nd_lib "Partition.unmount" [VStr (pt_device q); pt_mountpoint q; pt_options q] w = (Ret v, w1)
  end.
Definition wiped (status : Z) (w w1 : W) : Prop :=
  match nd_disk x with
  | None => w1 = w ∧ status = 0
  | Some d => env_system (dd_cmd d) [Shell; IgnoreStatus] w = (Ret status, w1)
  end.

Lemma unmount_runs w w1 : unmounted w w1 →
  runs (match nd_part x with Some _ => part_call "unmount" [] | None => mret () end) w x (Ret ()) w1 x.
Proof using Type.
  unfold unmounted. destruct (nd_part x) as [q|] eqn:E; [|intros ->; apply runs_ret].
  intros (v & Ev). unfold part_call. eapply runs_bind; [by apply runs_attr|].
  eapply runs_bind; [by apply runs_ext|]. apply runs_ret.
Qed.

Lemma wipe_runs status w w1 : wiped status w w1 →
  ∃ r, runs (remove_fs (nd_disk x)) w x r w1 x ∧
    r = (if status =? 0 then Ret () else raise_ TestFail ("Failed to delete filesystem on " +:+ default "" (nd_disk x))).
Proof using Type.
  unfold wiped. intros H. eexists. split; [|done]. destruct (nd_disk x) as [d|]; simpl remove_fs.
  - run_step. eapply runs_bind; [by apply runs_ext|]. cbv beta.
    destruct (status =? 0); [apply runs_when_false|]. apply runs_when_true, runs_throw.
  - destruct H as [-> ->]. apply runs_ret.
Qed.

(** unless the set-up is to be preserved, tearDown leaves no namespace in any region,
    provided that the regions are enabled and that what a test left mounted can be unmounted
    and overwritten. *)
Theorem tearDown_leaves_no_namespace `{!TearDownMachine W} v w w1 w2 :
  nd_preserve_setup x = Some v → truthy v = false → unmounted w w1 → wiped 0 w1 w2 → all_enabled w2 →
  ∃ w', runs tearDown w x (Ret ()) w' x ∧ ∀ R, layout R w' = [].
Proof using Hp.
  intros Hv Ht H1 H2 Hen. destruct (wipe_runs 0 w1 w2 H2) as (r & E2 & ->).
  destruct (td_list p w2 Hen) as (js & E3 & Hjs).
  assert (∃ w3, runs (when (truthy (VList js)) (destroy_namespace [("force", VBool true)])) w2 x (Ret ()) w3 x ∧
    ∀ R, layout R w3 = []) as (w3 & E4 & H4).
  { destruct js as [|j js]; cbn [truthy].
    - exists w2. split; [apply runs_when_false|]. by apply Hjs.
    - destruct (nm_destroy_all p [("force", VBool true)] w2) as (u & w3 & Ed & Hd); [right; left|].
      exists w3. split; [|done]. apply runs_when_true. by eapply plib_do_runs. }
  destruct (keep_runs p x Hp "disable_region" [] w3) as (w4 & E5 & H5); [right; left|].
  exists w4. split; [|intros R; by rewrite H5].
  apply fail_on_runs; [|done]. run_step. eapply runs_bind; [by apply unmount_runs|]. run_step.
  eapply runs_bind; [exact E2|]. run_step. run_step. rewrite Hv, Hp. unfold cleanup. rewrite Ht.
  apply runs_when_true. eapply runs_bind; [by eapply plib_runs|]. eapply runs_bind; [exact E4|]. exact E5.
Qed.

(** when the device of a test cannot be overwritten, tearDown fails and destroys no
    namespace: everything is as the failed command leaves it. *)
Theorem tearDown_wipe_failure status w w1 w2 :
  unmounted w w1 → wiped status w1 w2 → status ≠ 0 →
  ∃ msg, runs tearDown w x (raise_ TestFail msg) w2 x.
Proof using Type.
  intros H1 H2 Hs. destruct (wipe_runs status w1 w2 H2) as (r & E2 & ->).
  destruct (Z.eqb_spec status 0); [done|]. eexists. apply fail_on_runs; [|done]. run_step.
  eapply runs_bind; [by apply unmount_runs|]. run_step. apply runs_bind_raise. exact E2.
Qed.
End machine.
