(* ===== verification/NdctlConfine.v ===== *)
(** * Tests that stay within a region

    The class [ConfinedMachine]: what ndctl does for one region does not touch the namespaces
    of the others.  The theorem: most tests work on the configured region only, whatever
    happens while they run. *)

From S2P Require Import Prelude PyStr PyFloat PyVal PyRegex Avocado Logic Ndctl.
Open Scope Z_scope.

Class ConfinedMachine (W : Type) {HE : Env W} {HN : NdctlLib W} (R : string) := {
  cf_rest : Type;
  rest_of : W → cf_rest;         (* the namespaces of the regions other than [R] *)
  (* only these two methods make or remove namespaces; here they are given the region *)
  cf_plib p method args kw w :
    (method ∈ ["create_namespace"; "destroy_namespace"]%string → dict_find "region" kw = Some (VStr R)) →
    rest_of (plib_call p method args kw w).2 = rest_of w;
  cf_lib fn args w : rest_of (nd_lib fn args w).2 = rest_of w;
  cf_exists path w : rest_of (env_exists path w).2 = rest_of w;
}.

Lemma truthy_str s : s ≠ "" → truthy (VStr s) = true.
Proof. by destruct s. Qed.

Section confined.
Context {W : Type} {HE : Env W} {HN : NdctlLib W} (R : string) {HC : ConfinedMachine W R}.
Context (Hparam : env_param "region" VNone = VStr R) (HR : R ≠ "").
Context (c : cf_rest (R:=R)).

Definition I (s : pstate W ndctl_self) : Prop := rest_of (ps_world s) = c.

Lemma cf_log l msg : keeps I (log l msg).
Proof using Type. by apply keeps_ext. Qed.

Lemma cf_modify f : keeps I (modify f).
Proof using Type. by intros s. Qed.

Lemma cf_attr {A} name (f : ndctl_self → option A) : keeps I (attr name f).
Proof using Type. by intros s. Qed.

Lemma cf_call fn args : keeps I (nd_call fn args).
Proof using Type. apply keeps_ext. unfold I. cbn. intros w tr x <-. apply cf_lib. Qed.

Lemma cf_path path : keeps I (path_exists path).
Proof using Type.
  apply keeps_silent. unfold I. cbn. intros w tr x <-. pose proof (cf_exists (R:=R) path w) as H.
  by destruct (env_exists path w).
Qed.

Lemma cf_method method args kw :
  (method ∈ ["create_namespace"; "destroy_namespace"]%string → dict_find "region" kw = Some (VStr R)) →
  keeps I (plib method args kw).
Proof using Type.
  intros Hm. apply keeps_bind; [apply cf_attr|]. intros p. apply keeps_ext. unfold I. cbn.
  intros w tr x <-. by apply cf_plib.
Qed.

Lemma cf_other method args kw :
  bool_decide (method ∈ ["create_namespace"; "destroy_namespace"]%string) = false → keeps I (plib method args kw).
Proof using Type. intros Hm%bool_decide_eq_false. by apply cf_method. Qed.

Lemma cf_do method kw :
  (method ∈ ["create_namespace"; "destroy_namespace"]%string → dict_find "region" kw = Some (VStr R)) →
  keeps I (plib_do method kw).
Proof using Type. intros Hm. apply keeps_bind; [by apply cf_method|]. intros _. apply keeps_ret. Qed.

Lemma cf_do_other method kw :
  bool_decide (method ∈ ["create_namespace"; "destroy_namespace"]%string) = false → keeps I (plib_do method kw).
Proof using Type. intros Hm%bool_decide_eq_false. by apply cf_do. Qed.

Lemma cf_create kw : dict_find "region" kw = Some (VStr R) → keeps I (create_namespace kw).
Proof using Type. intros Hk. by apply cf_do. Qed.
Lemma cf_destroy kw : dict_find "region" kw = Some (VStr R) → keeps I (destroy_namespace kw).
Proof using Type. intros Hk. by apply cf_do. Qed.

(** The default region is the configured one. *)
Lemma cf_region : keeps_post I get_default_region (λ r, r = VStr R).
Proof using Hparam HR.
  apply keeps_post_bind; [by apply cf_do_other|]. intros _.
  apply (keeps_post_cut _ _ _ (λ r, r = VStr R)); [by apply keeps_post_ret|]. intros r ->.
  rewrite truthy_str by done. by apply keeps_post_ret.
Qed.

#[local] Hint Resolve cf_log cf_modify cf_attr cf_call cf_path : keeps.
#[local] Hint Extern 1 (keeps _ (plib _ _ _)) => apply cf_other; reflexivity : keeps.
#[local] Hint Extern 1 (keeps _ (plib_do _ _)) => apply cf_do_other; reflexivity : keeps.
#[local] Hint Extern 1 (keeps _ (create_namespace _)) => apply cf_create; reflexivity : keeps.
#[local] Hint Extern 1 (keeps _ (destroy_namespace _)) => apply cf_destroy; reflexivity : keeps.
#[local] Hint Extern 1 (keeps _ (enable_region _)) => apply cf_do_other; reflexivity : keeps.
#[local] Hint Extern 1 (keeps _ (disable_region _)) => apply cf_do_other; reflexivity : keeps.
#[local] Hint Extern 1 (keeps _ (enable_namespace _)) => apply cf_do_other; reflexivity : keeps.
#[local] Hint Extern 1 (keeps _ (disable_namespace _)) => apply cf_do_other; reflexivity : keeps.

(** Unfolds the helpers of the tests. *)
Ltac cf_unfold :=
  first [progress unfold clear_region, first_listed, listed, run_ndctl_list, val, is_region_legacy, legacy_cancel,
           read_one_line, for_in, names_of, create_64M, create_counted, cancel_with_arguments, mem_total,
           huge_page_bytes, enabling_must_fail, must_fail, on_pmem_exn, fail_on, test_fail, test_cancel].
Ltac cf := keeps_with ltac:(cf_unfold).

Lemma cf_fail_on_region (f : pyval → M W ndctl_self ()) :
  keeps I (f (VStr R)) → keeps I (fail_on (get_default_region ≫= f)).
Proof using Hparam HR.
  intros Hf. apply keeps_try_except; [|intros e; apply keeps_throw].
  eapply keeps_bind_post; [apply cf_region|]. by intros r ->.
Qed.

Lemma cf_check_ns a ns : keeps I (check_ns_align a ns).
Proof using Type. unfold check_ns_align. cf. by apply keeps_ext. Qed.

Lemma cf_check region : keeps I (check_namespace_align region).
Proof using Type. unfold check_namespace_align. cf. apply cf_check_ns. Qed.

Lemma cf_size_align : keeps I get_size_alignval.
Proof using Type. unfold get_size_alignval. cf. Qed.
#[local] Hint Resolve cf_check cf_size_align : keeps.

Lemma cf_mode_step failed mode : keeps I (mode_step (VStr R) failed mode).
Proof using Type. unfold mode_step. cf. Qed.

Lemma cf_multiple : keeps I (multiple_namespaces_region (VStr R)).
Proof using Type. unfold multiple_namespaces_region. cf. Qed.

Lemma cf_infoblock ns a z : keeps I (write_read_infoblock ns a z).
Proof using Type. unfold write_read_infoblock. cf. Qed.
#[local] Hint Resolve cf_mode_step cf_multiple cf_infoblock : keeps.

Lemma cf_infoblock_namespace a : keeps_post I (infoblock_namespace a) (λ v, v.1 = VStr R).
Proof using Hparam HR.
  unfold infoblock_namespace. apply keeps_post_bind; [cf|]. intros ok. apply keeps_post_bind; [cf|]. intros _.
  eapply keeps_post_cut; [apply cf_region|]. intros r ->.
  apply keeps_post_bind; [cf|]. intros _. apply keeps_post_bind; [cf|]. intros _.
  apply keeps_post_bind; [cf|]. intros ns. by apply keeps_post_ret.
Qed.

Lemma cf_fail_on_infoblock a (f : pyval * pyval → M W ndctl_self ()) :
  (∀ ns, keeps I (f (VStr R, ns))) → keeps I (fail_on (infoblock_namespace a ≫= f)).
Proof using Hparam HR.
  intros Hf. apply keeps_try_except; [|intros e; apply keeps_throw].
  eapply keeps_bind_post; [apply cf_infoblock_namespace|]. intros [r ns] Hr. simpl in Hr. by subst.
Qed.

(** The tests that use the configured region only. *)
Definition confined_tests (align : pyval) : list (M W ndctl_self ()) :=
  [test_disable_enable_ns; test_namespace_modes; test_namespace_devmap; test_multiple_namespaces_region;
   test_multiple_ns_modes_region; test_daxctl_list; test_daxctl_memhotplug_unplug align;
   test_write_infoblock_supported_align align; test_write_infoblock_align_default align;
   test_write_infoblock_size align; test_write_infoblock_size_unaligned align; test_namespace_1gb_alignment;
   test_namespace_1gb_alignment_enable_disable].

Lemma confined_keep align test : test ∈ confined_tests align → keeps I test.
Proof using Hparam HR.
  unfold confined_tests. intros Ht.
  repeat (apply elem_of_cons in Ht as [->|Ht]; [|]); [..|by apply not_elem_of_nil in Ht].
  1-6: apply cf_fail_on_region; cf.
  - apply keeps_try_except; [|cf]. apply keeps_bind; [cf|]. intros _.
    eapply keeps_bind_post; [apply cf_region|]. intros r ->. cf.
  - apply cf_fail_on_infoblock. intros ns. cf.
  - apply cf_fail_on_infoblock. intros ns. cf.
  - apply cf_fail_on_infoblock. intros ns. cf.
  - apply cf_fail_on_infoblock. intros ns. cf.
  - apply cf_fail_on_region. cf.
  - eapply keeps_bind_post; [apply cf_region|]. intros r ->. cf.
Qed.
End confined.

(** C6: whatever happens while one of these tests runs, and however it ends, the namespaces of
    the regions other than the configured one are those from before. *)
Theorem confined_tests_keep_other_regions {W} {HE : Env W} {HN : NdctlLib W} R {HC : ConfinedMachine W R}
    align test s :
  env_param "region" VNone = VStr R → R ≠ "" → test ∈ confined_tests align →
  rest_of (ps_world (test s).2) = rest_of (ps_world s).
Proof. intros Hp HR Ht. by apply (confined_keep R Hp HR _ align test Ht s). Qed.
