(* ===== verification/NdctlLabels.v ===== *)
(** * Labels and fields of namespaces

    The class [LabelMachine]: the label area of a DIMM, saved to a file, zeroed and written
    back.  The class [ReconfMachine]: a namespace before and after its reconfiguration.  The
    theorems: which machines the tests of labels and of reconfiguration accept. *)

From S2P Require Import Prelude PyStr PyFloat PyVal PyRegex Avocado Logic Ndctl NdctlSpace.
Open Scope Z_scope.

(** ** Labels *)

(** The DIMM [nmem] behind the region [R], seen through the binary [b]. *)
Class LabelMachine (W : Type) {HE : Env W} {HN : NdctlLib W} (b R nmem : string) := {
  label_area : Type;
  zeroed : label_area;
  labels_text : label_area → string;              (* what check-labels prints *)
  labels_spaces : label_area → Z;                 (* the namespaces they describe *)
  restored : label_area → label_area;             (* what write-labels makes of a saved area *)
  labels_of : W → label_area;
  saved_file : W → option label_area;             (* the file that read-labels wrote *)
  lb_legacy p w : plib_call p "is_region_legacy" [VStr R] [] w = (Ret (VBool false), w);
  lb_region p method w : method ∈ ["disable_region"; "enable_region"]%string → ∃ v w',
    plib_call p method [] [("name", VStr R)] w = (Ret v, w') ∧
    labels_of w' = labels_of w ∧ saved_file w' = saved_file w;
  lb_create p align w : labels_of w = zeroed → ∃ v w',
    plib_call p "create_namespace" [] [("region", VStr R); ("align", align)] w = (Ret v, w') ∧
    labels_spaces (labels_of w') = 1 ∧ saved_file w' = saved_file w;
  lb_clear p method w : method ∈ ["disable_namespace"; "destroy_namespace"]%string → ∃ v w',
    plib_call p method [] (of_region (VStr R)) w = (Ret v, w') ∧ saved_file w' = saved_file w;
  lb_list p w : ∃ js, plib_call p "run_ndctl_list" [VStr ("-N -r " +:+ R)] [] w = (Ret (VList js), w) ∧
    Z.of_nat (length js) = labels_spaces (labels_of w);
  lb_zero w : ∃ w', env_system (b +:+ " zero-labels " +:+ nmem) [Shell] w = (Ret 0, w') ∧
    labels_of w' = zeroed ∧ saved_file w' = saved_file w;
  lb_read w : ∃ w', env_system (b +:+ " read-labels " +:+ nmem +:+ " -o output") [Shell] w = (Ret 0, w') ∧
    labels_of w' = labels_of w ∧ saved_file w' = Some (labels_of w);
  lb_write l w : saved_file w = Some l → ∃ w',
    env_system (b +:+ " write-labels " +:+ nmem +:+ " -i output") [Shell] w = (Ret 0, w') ∧
    labels_of w' = restored l;
  lb_check w : env_system_output (b +:+ " check-labels " +:+ nmem) [Shell] w = (Ret (labels_text (labels_of w)), w);
}.

Section labels.
Context {W : Type} {HE : Env W} {HN : NdctlLib W} (R idx : string) (x : ndctl_self).
Context {HL : LabelMachine W (nd_ndctl x) R ("nmem" +:+ idx)}.
Context (p : pmem) (Hp : nd_plib x = Some p).
Abbreviation labels := (labels_of (b:=nd_ndctl x) (R:=R) (nmem:="nmem" +:+ idx)).
Abbreviation saved := (saved_file (b:=nd_ndctl x) (R:=R) (nmem:="nmem" +:+ idx)).

Lemma region_runs method w : method ∈ ["disable_region"; "enable_region"]%string → ∃ w',
  runs (plib_do method [("name", VStr R)]) w x (Ret ()) w' x ∧ labels w' = labels w ∧ saved w' = saved w.
Proof using Hp.
  intros Hm. destruct (lb_region p method w Hm) as (v & w' & E & H). exists w'. split; [|done].
  by eapply plib_do_runs.
Qed.

Lemma clear_labels_runs w : ∃ w', runs (clear_region (VStr R)) w x (Ret ()) w' x ∧ saved w' = saved w.
Proof using HL Hp.
  destruct (lb_clear p "disable_namespace" w) as (v1 & w1 & E1 & H1); [left|].
  destruct (lb_clear p "destroy_namespace" w1) as (v2 & w2 & E2 & H2); [right; left|].
  exists w2. split; [|by rewrite H2]. eapply runs_bind; by eapply plib_do_runs.
Qed.

Lemma system_ok_runs cmd msg w w' : env_system cmd [Shell] w = (Ret 0, w') →
  runs (system_or_fail cmd msg) w x (Ret ()) w' x.
Proof using Type. intros E. eapply runs_bind; [by apply runs_ext|]. apply runs_when_false. Qed.

(** The verdict on a label area [l] that was saved, zeroed and written back. *)
Definition label_verdict (l : label_area (b:=nd_ndctl x) (R:=R) (nmem:="nmem" +:+ idx)) : result () :=
  if negb (String.eqb (labels_text (restored l)) (labels_text l)) then raise_ TestFail "Label read and write mismatch"
  else if negb (labels_spaces (restored l) =? 1) then raise_ TestFail "Created namespace not found after label restore"
  else Ret ().

(** [test_label_read_write] compares what a namespace writes into the labels with what is
    there after saving, zeroing and restoring them: it passes when the restored labels print
    the same and describe one namespace, in particular on a device that restores what was
    saved, and fails otherwise; the device is left with the restored labels. *)
Theorem label_round_trip_verdict align w w0 :
  runs get_default_region w x (Ret (VStr R)) w0 x → first_number (VStr R) = Ret idx →
  ∃ l w', labels_spaces l = 1 ∧ runs (test_label_read_write align) w x (label_verdict l) w' x ∧
    labels w' = restored l ∧ (restored l = l → label_verdict l = Ret ()).
Proof using Hp.
  intros E0 Hidx.
  destruct (region_runs "disable_region" w0) as (w1 & E1 & _); [left|].
  destruct (lb_zero w1) as (w2 & E2 & Hz2 & _).
  destruct (region_runs "enable_region" w2) as (w3 & E3 & Hl3 & _); [right; left|].
  destruct (lb_create p align w3) as (v & w4 & E4 & Hs4 & _); [by rewrite Hl3|].
  destruct (lb_read w4) as (w5 & E5 & Hl5 & Hf5).
  destruct (clear_labels_runs w5) as (w6 & E6 & Hf6).
  destruct (region_runs "disable_region" w6) as (w7 & E7 & _ & Hf7); [left|].
  destruct (lb_zero w7) as (w8 & E8 & _ & Hf8).
  destruct (lb_write (labels w4) w8) as (w9 & E9 & Hl9); [by rewrite Hf8, Hf7, Hf6|].
  destruct (region_runs "enable_region" w9) as (w10 & E10 & Hl10 & _); [right; left|].
  destruct (lb_list p w10) as (js & E11 & Hjs). rewrite Hl10, Hl9 in Hjs.
  exists (labels w4), w10. split_and!; [done| |by rewrite Hl10|].
  2: { intros Hr. unfold label_verdict. by rewrite Hr, String.eqb_refl, Hs4. }
  apply fail_on_runs; [|unfold label_verdict; destruct (String.eqb _ _), (labels_spaces _ =? 1); done].
  eapply runs_bind; [exact E0|]. eapply runs_bind.
  { unfold legacy_cancel, is_region_legacy. eapply runs_bind; [|by apply runs_when_false].
    eapply runs_bind; [by eapply plib_runs, lb_legacy|]. apply runs_ret. }
  cbv beta. rewrite Hidx. run_step. run_step. eapply runs_bind; [exact E1|]. run_step. run_step.
  eapply runs_bind; [by eapply system_ok_runs|]. eapply runs_bind; [exact E3|].
  eapply runs_bind; [by eapply plib_do_runs|]. run_step.
  eapply runs_bind; [apply runs_ext, lb_check|]. eapply runs_bind; [by eapply system_ok_runs|]. run_step.
  eapply runs_bind; [exact E6|]. eapply runs_bind; [exact E7|]. eapply runs_bind; [by eapply system_ok_runs|].
  run_step. eapply runs_bind; [by eapply system_ok_runs|]. eapply runs_bind; [exact E10|]. run_step.
  eapply runs_bind; [apply runs_ext, lb_check|]. cbv beta. rewrite Hl10, Hl9. unfold label_verdict.
  destruct (String.eqb _ _); cbn [negb]; [|apply runs_bind_raise, runs_throw]. run_step. run_step.
  eapply runs_bind; [by eapply plib_runs|]. cbv beta. cbn [py_len]. run_step. rewrite Hjs.
  destruct (labels_spaces _ =? 1); cbn [negb]; [apply runs_when_false|]. apply runs_throw.
Qed.
End labels.

(** ** Commands without ignore_status *)

(** [process.system] raises CmdError for a command that fails, unless told to ignore it. *)
Definition system_raises {W} {HE : Env W} : Prop := ∀ cmd fl w r w',
  IgnoreStatus ∉ fl → env_system cmd fl w = (r, w') → r = Ret 0 ∨ ∃ e, r = Raise e ∧ ex_class e = CmdError.

(** the failures that the label test announces for its commands cannot happen: a command
    that fails raises CmdError before its status is looked at, and the test ends in an error. *)
Theorem label_commands_never_fail {W} {HE : Env W} cmd msg (s : pstate W ndctl_self) :
  system_raises →
  let r := (system_or_fail cmd msg s).1 in r = Ret () ∨ (∃ e, r = Raise e ∧ ex_class e = CmdError) ∧ verdict_of r = ERROR.
Proof.
  intros Hs. destruct s as [w tr y]. unfold system_or_fail, mbind, M_bind, process_system, ext. cbn [ps_world ps_trace ps_self].
  destruct (env_system cmd [Shell] w) as [r w'] eqn:E.
  destruct (Hs cmd [Shell] w r w') as [->|(e & -> & He)]; [by rewrite list_elem_of_singleton|done|by left|].
  right. simpl. rewrite He. eauto.
Qed.

(** ** Reconfiguration *)

(** One namespace, listed first: with the fields [rc_old] when it is made and [rc_new] after
    its reconfiguration. *)
Class ReconfMachine (W : Type) {HE : Env W} {HN : NdctlLib W} (R : string) := {
  rc_old : dict pyval;
  rc_new : dict pyval;
  rc_dev : string;
  rc_state : option bool → W → Prop;     (* no namespace, before, after *)
  rc_list_val : list_val (VDict rc_old) "dev" = Ret (VStr rc_dev);
  rc_disable p w : ∃ v w', plib_call p "disable_namespace" [] [] w = (Ret v, w');
  rc_destroy p w : ∃ v w', plib_call p "destroy_namespace" [] [] w = (Ret v, w') ∧ rc_state None w';
  rc_create p w : rc_state None w → ∃ v w', plib_call p "create_namespace" []
      [("region", VStr R); ("mode", VStr "fsdax"); ("align", VStr "64k")] w = (Ret v, w') ∧ rc_state (Some false) w';
  rc_reconf p w : rc_state (Some false) w → ∃ v w', plib_call p "create_namespace" []
      [("region", VStr R); ("mode", VStr "fsdax"); ("name", VStr "test_ns"); ("reconfig", VStr rc_dev);
       ("force", VBool true)] w = (Ret v, w') ∧ rc_state (Some true) w';
  rc_list p b w : rc_state (Some b) w → ∃ js, plib_call p "run_ndctl_list" [VStr ""] [] w =
      (Ret (VList (VDict (if b then rc_new else rc_old) :: js)), w);
}.

Section reconfigure.
Context {W : Type} {HE : Env W} {HN : NdctlLib W} (R : string) {HC : ReconfMachine W R}.
Context (p : pmem) (x : ndctl_self) (Hp : nd_plib x = Some p).

Implicit Types (w : W).

(** An entry whose value is another than before; uuid and dev may change. *)
Definition changed (old : dict pyval) (kv : string * pyval) : bool :=
  match (if existsb (String.eqb kv.1) ["uuid"; "dev"] then None else dict_find kv.1 old) with
  | Some o => negb (py_eq o kv.2)
  | None => false
  end.

Lemma field_step_runs old failed kv w :
  runs (field_step (VDict old) failed kv) w x (Ret (if changed old kv then failed ++ [VDict [kv]] else failed)) w x.
Proof using Type.
  destruct kv as [k v]. unfold field_step, changed. cbn [py_items fst snd]. run_step.
  destruct (if existsb _ _ then None else dict_find k old) as [o|]; [|run].
  destruct (negb (py_eq o v)); apply runs_ret.
Qed.

(** [test_namespace_reconfigure] passes exactly when every field that the namespace had
    before, other than uuid and dev, still has its value if it is listed: otherwise it fails
    with those that changed.  A field that is no longer listed is not noticed. *)
Theorem reconfigure_verdict w w0 :
  runs get_default_region w x (Ret (VStr R)) w0 x →
  let bad := map (λ kv, VDict [kv]) (List.filter (changed rc_old) rc_new) in
  ∃ w', runs test_namespace_reconfigure w x
    (match bad with
     | [] => Ret ()
     | _ => raise_ TestFail ("New namespace unexpected change(s): " +:+ py_str (VList bad))
     end) w' x.
Proof using HC Hp.
  intros E0 bad. destruct (rc_disable p w0) as (v1 & w1 & E1). destruct (rc_destroy p w1) as (v2 & w2 & E2 & H2).
  destruct (rc_create p w2 H2) as (v3 & w3 & E3 & H3). destruct (rc_list p false w3 H3) as (js & E4).
  destruct (rc_reconf p w3 H3) as (v5 & w5 & E5 & H5). destruct (rc_list p true w5 H5) as (js' & E6).
  destruct (runs_for_acc rc_new (field_step (VDict rc_old))
    (λ done failed w' x', w' = w5 ∧ x' = x ∧ failed = map (λ kv, VDict [kv]) (List.filter (changed rc_old) done))
    [] w5 x) as (failed & w' & x' & E & -> & -> & ->); [|done|].
  { intros dn kv todo failed w' ? _ (-> & -> & ->). eexists _, w5, x. split; [apply field_step_runs|].
    split_and!; [done|done|]. rewrite List.filter_app, map_app. cbn [List.filter].
    destruct (changed rc_old kv); [done|]. by rewrite app_nil_r. }
  exists w5. apply fail_on_runs; [|by destruct bad].
  eapply runs_bind; [exact E0|]. run_step. eapply runs_bind; [by eapply plib_do_runs|].
  eapply runs_bind; [by eapply plib_do_runs|]. eapply runs_bind; [by eapply plib_do_runs|].
  eapply runs_bind; [eapply runs_bind; [by eapply plib_runs|]; apply runs_lift|]. cbv beta.
  unfold val. rewrite rc_list_val. run_step. run_step. eapply runs_bind; [by eapply plib_do_runs|].
  eapply runs_bind; [eapply runs_bind; [by eapply plib_runs|]; apply runs_lift|]. cbv beta. run_step.
  cbn [py_items]. run_step. eapply runs_bind; [exact E|]. cbv beta. fold bad.
  destruct bad; [apply runs_when_false|]. apply runs_throw.
Qed.
End reconfigure.
