(* ===== verification/NdctlSim.v ===== *)
(** * A simulated NVDIMM machine

    Two regions whose namespaces are entries of a list: an instance of the machine classes of
    the NVDIMM tests, on which the theorems are applied. *)

From S2P Require Import Prelude PyStr PyFloat PyVal PyRegex Avocado Logic Ndctl NdctlSpace.
From S2P Require Import NdctlVerdicts NdctlConfine NdctlLabels.
Open Scope Z_scope.

(** A namespace: its region, its mode and the space it takes. *)
Record entry := Entry { en_region : string; en_mode : string; en_raw : Z }.

Record ndctl_world := NdctlWorld {
  nw_entries : list entry;
  nw_file : option (list entry);     (* the saved labels *)
  nw_reconf : option bool;
}.

Definition sim_regions : list (string * Z) := [("region0", 1000); ("region1", 1500)].
Definition sim_align : Z := 6.

Definition entries_of (R : string) (l : list entry) : list entry := filter (λ e, en_region e = R) l.
Definition entries_but (R : string) (l : list entry) : list entry := filter (λ e, en_region e ≠ R) l.

(** The name of the [i]-th namespace of a region. *)
Definition sim_name (R : string) (i : nat) : string := py_str_Z (Z.of_nat i) +:+ "." +:+ R.
Definition sim_ns (R : string) (i : nat) (e : entry) : nspace :=
  Ns (sim_name R i) (en_mode e) sim_align (en_raw e / sim_align * sim_align) (en_raw e).
Definition sim_layout (R : string) (w : ndctl_world) : list nspace := imap (sim_ns R) (entries_of R (nw_entries w)).

Definition sim_old : dict pyval := [("dev", VStr "namespace1.0"); ("mode", VStr "fsdax"); ("uuid", VStr "5c")].
Definition sim_new : dict pyval :=
  [("dev", VStr "namespace1.1"); ("mode", VStr "devdax"); ("uuid", VStr "7f"); ("name", VStr "test_ns")].

(** ** Lists *)

Definition ns_json (n : nspace) : pyval := VDict (ns_fields n).

(** The namespace of a name. *)
Definition find_ns (name : chars) (w : ndctl_world) : option nspace :=
  match span (λ c, negb (Ascii.eqb c ".")) name with
  | (i, _ :: R) => match int_of_chars i with Some z => sim_layout (str_of R) w !! Z.to_nat z | None => None end
  | _ => None
  end.

Definition list_region (R : chars) : list pyval :=
  match List.find (λ r, String.eqb r.1 (str_of R)) sim_regions with
  | Some r => [VDict (region_fields r)] | None => [] end.

Definition list_answer (o : chars) (w : ndctl_world) : list pyval :=
  match drop_prefix (chars_of "-N -r ") o with
  | Some R => map ns_json (sim_layout (str_of R) w)
  | None =>
  match drop_prefix (chars_of "-r ") o with
  | Some l => match drop_prefix (rev (chars_of " -N")) (rev l) with
              | Some R => map ns_json (sim_layout (str_of (rev R)) w)
              | None => list_region l
              end
  | None =>
  match drop_prefix (chars_of "-n ") o with
  | Some name => match find_ns name w with Some n => [ns_json n] | None => [] end
  | None =>
  match o with
  | [] => match nw_reconf w with Some b => [VDict (if b then sim_new else sim_old)] | None => [] end
  | _ =>
      if String.eqb (str_of o) "-R" then map (λ r, VDict (region_fields r)) sim_regions
      else if String.eqb (str_of o) "-N" then map (λ e, VDict [("mode", VStr (en_mode e))]) (nw_entries w)
      else []
  end end end end.

(** ** Calls *)

Definition text_kw (k : string) (kw : dict pyval) : option string :=
  match dict_find k kw with Some (VStr s) => Some s | _ => None end.

(** The machine gives fsdax for devdax. *)
Definition sim_mode (m : string) : string := if String.eqb m "devdax" then "fsdax" else m.

Definition sim_create (kw : dict pyval) (w : ndctl_world) : ndctl_world :=
  match dict_find "reconfig" kw, text_kw "region" kw with
  | Some _, _ => NdctlWorld (nw_entries w) (nw_file w) (Some true)
  | None, Some R =>
      let m := default "fsdax" (text_kw "mode" kw) in
      let e := match dict_find "size" kw with Some (VInt n) => Entry R m n | _ => Entry R (sim_mode m) 12 end in
      NdctlWorld (nw_entries w ++ [e]) (nw_file w) (Some false)
  | None, None => w
  end.

Definition sim_destroy (kw : dict pyval) (w : ndctl_world) : ndctl_world :=
  match text_kw "region" kw with
  | Some R => NdctlWorld (entries_but R (nw_entries w)) (nw_file w) (nw_reconf w)
  | None => NdctlWorld [] (nw_file w) None
  end.

Definition only_arg (s : string) (args : list pyval) : bool :=
  match args with [VStr t] => String.eqb t s | _ => false end.

Definition sim_plib (method : string) (args : list pyval) (kw : dict pyval) (w : ndctl_world)
    : result pyval * ndctl_world :=
  if String.eqb method "run_ndctl_list" then
    (Ret (VList (match args with [VStr o] => list_answer (chars_of o) w | _ => [] end)), w)
  else if String.eqb method "create_namespace" then (Ret VNone, sim_create kw w)
  else if String.eqb method "destroy_namespace" then (Ret VNone, sim_destroy kw w)
  else if String.eqb method "is_region_legacy" then (Ret (VBool false), w)
  else if String.eqb method "get_slot_count" then
    (Ret (VInt (if only_arg "region0" args then 3 else 4)), w)
  else (Ret VNone, w).

#[export] Instance sim_lib : NdctlLib ndctl_world := {|
  list_val := λ j k, match j with VDict d => Ret (default VNone (dict_find k d)) | _ => raise_ AttributeError "items" end;
  plib_call := λ _, sim_plib;
  nd_lib := λ fn args w,
    (Ret (if only_arg region_align_path args then VStr "0x4" else VStr (py_str_Z sim_align)), w);
  abspath := λ p w, (Ret p, w);
  dist_name := "rhel";
  dist_release := VInt 9;
  teststmpdir := "/tmp";
|}.

(** The commands on the labels of [region1]. *)
Definition sim_system (cmd : string) (w : ndctl_world) : ndctl_world :=
  let but := entries_but "region1" (nw_entries w) in
  if String.eqb cmd "ndctl zero-labels nmem1" then NdctlWorld but (nw_file w) (nw_reconf w)
  else if String.eqb cmd "ndctl read-labels nmem1 -o output" then
    NdctlWorld (nw_entries w) (Some (entries_of "region1" (nw_entries w))) (nw_reconf w)
  else if String.eqb cmd "ndctl write-labels nmem1 -i output" then
    NdctlWorld (but ++ entries_of "region1" (default [] (nw_file w))) (nw_file w) (nw_reconf w)
  else w.

Definition labels_shown (l : list entry) : string := "read " +:+ py_str_Z (Z.of_nat (length l)) +:+ " labels".

(** The environment, for the given parameters. *)
Definition sim_env (param : string → pyval → pyval) : Env ndctl_world := {|
  env_run := λ _ _ w, (Ret (CmdResult 0 ""), w);
  env_system := λ cmd _ w, (Ret 0, sim_system cmd w);
  env_system_output := λ _ _ w, (Ret (labels_shown (entries_of "region1" (nw_entries w))), w);
  env_ssh := λ _ _ w, (Ret (CmdResult 0 ""), w);
  env_connect := λ _ _ _ w, (Ret true, w);
  env_show := stdout_text;
  env_param := param;
  env_exists := λ _ w, (true, w);
  env_read := λ _ w, (Ret "", w);
  env_append := λ _ _ w, (Ret (), w);
  env_remove := λ _ w, (Ret (), w);
  env_random := λ w, (0, w);
|}.

(** ** Lemmas *)

Lemma entries_of_but R R' l : R' ≠ R → entries_of R' (entries_but R l) = entries_of R' l.
Proof.
  intros Hne. unfold entries_of, entries_but. induction l as [|e l IH]; [done|].
  rewrite (filter_cons (λ e, en_region e ≠ R)). case_decide as E; rewrite !(filter_cons (λ e, en_region e = R')), IH; [done|].
  case_decide as E'; [|done]. congruence.
Qed.

Lemma entries_of_but_same R l : entries_of R (entries_but R l) = [].
Proof.
  unfold entries_of, entries_but. induction l as [|e l IH]; [done|].
  rewrite (filter_cons (λ e, en_region e ≠ R)). case_decide as E; [|done]. rewrite filter_cons, IH. by case_decide.
Qed.

Lemma layout_snoc R w e f b :
  sim_layout R (NdctlWorld (nw_entries w ++ [e]) f b) =
    sim_layout R w ++ (if decide (en_region e = R) then [sim_ns R (length (sim_layout R w)) e] else []).
Proof.
  unfold sim_layout, entries_of. cbn [nw_entries]. rewrite list.filter_app, imap_app, length_imap. f_equal.
  rewrite filter_cons, filter_nil. case_decide; [|done]. cbn. by rewrite Nat.add_0_r.
Qed.

Lemma layout_but R R' w f b :
  sim_layout R' (NdctlWorld (entries_but R (nw_entries w)) f b) = if decide (R' = R) then [] else sim_layout R' w.
Proof.
  unfold sim_layout. cbn [nw_entries]. case_decide as E; [subst; by rewrite entries_of_but_same|].
  by rewrite entries_of_but.
Qed.

Lemma nat_chars_no_dot n : Forall (λ c, negb (Ascii.eqb c ".") = true) (chars_of (py_str_Z (Z.of_nat n))).
Proof.
  assert (all_digits (chars_of (py_str_Z (Z.of_nat n)))) as H.
  { rewrite chars_of_str_Z. destruct (Z.ltb_spec (Z.of_nat n) 0); [lia|]. apply nat_chars_spec. lia. }
  eapply list.Forall_impl; [exact H|]. intros c Hc. by destruct (Ascii.eqb_spec c ".") as [->|].
Qed.

Lemma find_sim_name R i w : find_ns (chars_of (sim_name R i)) w = sim_layout R w !! i.
Proof.
  unfold find_ns, sim_name. rewrite !chars_of_app.
  change (chars_of "." ++ chars_of R) with ("."%char :: chars_of R).
  rewrite span_app; [|apply nat_chars_no_dot|done].
  pose proof (int_of_padded [] [] (Z.of_nat i)) as H. cbn [app] in H. rewrite app_nil_r in H.
  rewrite H by constructor. by rewrite str_of_chars_of, Nat2Z.id.
Qed.

Lemma layout_in R n w : n ∈ sim_layout R w → ∃ i, ns_dev n = sim_name R i ∧ sim_layout R w !! i = Some n.
Proof.
  intros [i Hi]%list_elem_of_lookup. exists i. split; [|done]. unfold sim_layout in Hi.
  rewrite list_lookup_imap in Hi. destruct (entries_of R (nw_entries w) !! i) as [e|]; [|done]. by injection Hi as <-.
Qed.

(** The fields of an object that is written out. *)
Ltac fields :=
  eexists; split; [reflexivity|]; intros ? ? Hk;
  repeat (apply elem_of_cons in Hk as [[= -> ->]|Hk]; [reflexivity|]); by apply not_elem_of_nil in Hk.

Lemma ns_json_fields n : has_fields (ns_fields n) (ns_json n).
Proof. fields. Qed.

Lemma ns_jsons l : Forall2 (λ n, has_fields (ns_fields n)) l (map ns_json l).
Proof. induction l; constructor; auto using ns_json_fields. Qed.

Lemma list_dash_N R w : list_answer (chars_of ("-N -r " +:+ R)) w = map ns_json (sim_layout R w).
Proof. unfold list_answer. by rewrite chars_of_app, drop_prefix_app, str_of_chars_of. Qed.

Lemma list_dash_r R w : list_answer (chars_of ("-r " +:+ R +:+ " -N")) w = map ns_json (sim_layout R w).
Proof.
  unfold list_answer. rewrite !chars_of_app.
  replace (drop_prefix (chars_of "-N -r ") (chars_of "-r " ++ chars_of R ++ chars_of " -N")) with (@None chars)
    by done.
  rewrite drop_prefix_app, rev_app_distr, drop_prefix_app, rev_involutive. by rewrite str_of_chars_of.
Qed.

Lemma list_dash_n R i w : list_answer (chars_of ("-n " +:+ sim_name R i)) w =
  match sim_layout R w !! i with Some n => [ns_json n] | None => [] end.
Proof.
  unfold list_answer. rewrite chars_of_app.
  change (drop_prefix (chars_of "-N -r ") (chars_of "-n " ++ chars_of (sim_name R i))) with (@None chars).
  change (drop_prefix (chars_of "-r ") (chars_of "-n " ++ chars_of (sim_name R i))) with (@None chars).
  cbv iota. by rewrite drop_prefix_app, find_sim_name.
Qed.

(** ** The machine classes *)

Section sim.
Context (param : string → pyval → pyval).
#[local] Instance env : Env ndctl_world := sim_env param.

#[export] Instance sim_val : ListVal (W:=ndctl_world).
Proof. intros d k v H. simpl. by rewrite H. Qed.

Lemma sim_create_size R mode n w :
  sim_create [("region", VStr R); ("mode", VStr mode); ("size", VInt n)] w =
    NdctlWorld (nw_entries w ++ [Entry R mode n]) (nw_file w) (Some false).
Proof. done. Qed.

#[export] Instance sim_machine : NvdimmMachine ndctl_world.
Proof.
  refine {| regions := sim_regions; slots := λ R, if String.eqb R "region0" then 3 else 4; unit := λ _, 12;
            map_align := λ _, sim_align; size_align := Some 4; layout := sim_layout |}.
  - intros p w. eexists. split; [reflexivity|]. cbn -[has_fields]. constructor; [fields|]. constructor; [fields|]. constructor.
  - intros p R z w HR. unfold sim_regions in HR.
    repeat (apply elem_of_cons in HR as [[= -> ->]|HR]; [eexists _, []; split; [reflexivity|]; fields|]).
    by apply not_elem_of_nil in HR.
  - intros p R o w Ho. exists (map ns_json (sim_layout R w)). split; [|apply ns_jsons].
    apply elem_of_cons in Ho as [->|Ho%list_elem_of_singleton]; [|subst].
    + cbn [plib_call sim_lib sim_plib String.eqb]. by rewrite <- list_dash_N.
    + by rewrite <- list_dash_r.
  - intros p R n w (i & Hd & Hi)%layout_in. exists (ns_json n), []. split; [|apply ns_json_fields].
    rewrite Hd. pose proof (list_dash_n R i w) as H. rewrite Hi in H. by rewrite <- H.
  - intros p method kw w Hm. exists VNone, w. split; [|done].
    repeat (apply elem_of_cons in Hm as [->|Hm]; [done|]). by apply not_elem_of_nil in Hm.
  - done.
  - done.
  - intros p R w. exists VNone, (NdctlWorld (entries_but R (nw_entries w)) (nw_file w) (nw_reconf w)).
    split; [done|].
    split; [by rewrite layout_but, decide_True|]. intros R' Hne. by rewrite layout_but, decide_False.
  - intros p kw w Hkw. exists VNone, (NdctlWorld [] (nw_file w) None). split; [|done].
    repeat (apply elem_of_cons in Hkw as [->|Hkw]; [done|]). by apply not_elem_of_nil in Hkw.
  - intros p R z mode n idx w _ _ _ _ _ _. eexists VNone, _, _. split; [reflexivity|]. rewrite sim_create_size.
    split; [rewrite layout_snoc, decide_True by done; reflexivity|].
    split_and!; [done|done|done|by apply Z.divide_factor_r|].
    intros R' Hne. rewrite layout_snoc, decide_False by done. apply app_nil_r.
  - done.
  - done.
  - intros z w [= <-]. by exists "0x4".
  - done.
Defined.

#[export] Instance sim_modes : ModeMachine ndctl_world.
Proof.
  refine {| given_mode := sim_mode |}.
  - intros p R z mode w _ Hl. exists VNone, (NdctlWorld (nw_entries w ++ [Entry R (sim_mode mode) 12]) (nw_file w) (Some false)).
    eexists. split; [done|]. change (sim_layout R w = []) in Hl.
    split; [refine (eq_trans (layout_snoc _ _ _ _ _) _); rewrite Hl, decide_True by done; reflexivity|]. split; [done|].
    intros R' Hne. refine (eq_trans (layout_snoc _ _ _ _ _) _). rewrite decide_False by done. apply app_nil_r.
  - intros p R n w Hl. exists VNone, (NdctlWorld (entries_but R (nw_entries w)) (nw_file w) (nw_reconf w)).
    split; [done|]. split; [by rewrite layout_but, decide_True|]. intros R' Hne. by rewrite layout_but, decide_False.
Defined.

#[export] Instance sim_teardown : TearDownMachine ndctl_world.
Proof.
  refine {| all_enabled := λ _, True |}. intros p w _. eexists. split; [reflexivity|]. intros He R.
  change (sim_layout R w = []). unfold sim_layout.
  change (map (λ e, VDict [("mode", VStr (en_mode e))]) (nw_entries w) = []) in He.
  by rewrite (map_eq_nil _ _ He).
Defined.

Lemma create_keeps kw w : dict_find "region" kw = Some (VStr "region1") →
  entries_but "region1" (nw_entries (sim_create kw w)) = entries_but "region1" (nw_entries w).
Proof.
  intros Hk. unfold sim_create, text_kw. rewrite Hk. destruct (dict_find "reconfig" kw); [done|].
  cbn [nw_entries]. unfold entries_but. rewrite list.filter_app, filter_cons, filter_nil.
  rewrite decide_False; [apply app_nil_r|]. destruct (dict_find "size" kw) as [[]|]; simpl; naive_solver.
Qed.

Lemma destroy_keeps kw w : dict_find "region" kw = Some (VStr "region1") →
  entries_but "region1" (nw_entries (sim_destroy kw w)) = entries_but "region1" (nw_entries w).
Proof.
  intros Hk. unfold sim_destroy, text_kw. rewrite Hk. cbn [nw_entries]. unfold entries_but.
  rewrite list_filter_filter. apply list_filter_iff. tauto.
Qed.

#[export] Instance sim_confined : ConfinedMachine ndctl_world "region1".
Proof.
  refine {| rest_of := λ w, entries_but "region1" (nw_entries w) |}; [|done|done].
  intros p method args kw w Hk. simpl. unfold sim_plib. destruct (String.eqb method "run_ndctl_list"); [done|].
  destruct (String.eqb_spec method "create_namespace") as [->|_]; [apply create_keeps, Hk; left|].
  destruct (String.eqb_spec method "destroy_namespace") as [->|_]; [apply destroy_keeps, Hk; right; left|].
  by repeat case_match.
Defined.

Lemma entries_but_of R l : entries_of R (entries_of R l) = entries_of R l.
Proof. unfold entries_of. rewrite list_filter_filter. apply list_filter_iff. tauto. Qed.

#[export] Instance sim_labels : LabelMachine ndctl_world "ndctl" "region1" "nmem1".
Proof.
  refine {| label_area := list entry; zeroed := []; labels_text := labels_shown;
            labels_spaces := λ l, Z.of_nat (length l); restored := λ l, entries_of "region1" l;
            labels_of := λ w, entries_of "region1" (nw_entries w); saved_file := nw_file |}.
  - done.
  - intros p method w Hm. exists VNone, w. split; [|done].
    repeat (apply elem_of_cons in Hm as [->|Hm]; [done|]). by apply not_elem_of_nil in Hm.
  - intros p align w Hz.
    exists VNone, (NdctlWorld (nw_entries w ++ [Entry "region1" "fsdax" 12]) (nw_file w) (Some false)).
    split; [done|]. split; [|done]. cbn [nw_entries]. unfold entries_of in *. rewrite list.filter_app, Hz. done.
  - intros p method w Hm. apply elem_of_cons in Hm as [->|Hm%list_elem_of_singleton]; [by exists VNone, w|subst].
    by exists VNone, (NdctlWorld (entries_but "region1" (nw_entries w)) (nw_file w) (nw_reconf w)).
  - intros p w. exists (map ns_json (sim_layout "region1" w)). split; [by rewrite <- list_dash_N|].
    rewrite length_map. unfold sim_layout. by rewrite length_imap.
  - intros w. eexists. split; [reflexivity|]. split; [|done]. apply entries_of_but_same.
  - intros w. by eexists.
  - intros l w Hl. exists (NdctlWorld (entries_but "region1" (nw_entries w) ++ entries_of "region1" l) (nw_file w) (nw_reconf w)).
    split; [change (nw_file w = Some l) in Hl; simpl; unfold sim_system; simpl; by rewrite Hl|]. cbn [nw_entries].
    unfold entries_of at 1. rewrite list.filter_app. fold (entries_of "region1" (entries_but "region1" (nw_entries w))).
    rewrite entries_of_but_same. apply (entries_but_of "region1").
  - done.
Defined.

#[export] Instance sim_reconf : ReconfMachine ndctl_world "region1".
Proof.
  refine {| rc_old := sim_old; rc_new := sim_new; rc_dev := "namespace1.0"; rc_state := λ b w, nw_reconf w = b |}.
  - done.
  - intros p w. by eexists _, w.
  - intros p w. eexists _, _. split; [reflexivity|done].
  - intros p w _. eexists _, _. split; [reflexivity|done].
  - intros p w _. eexists _, _. split; [reflexivity|done].
  - intros p b w Hb. exists []. change (nw_reconf w = Some b) in Hb.
    assert (list_answer [] w = [VDict (if b then sim_new else sim_old)]) as E by (by cbn; rewrite Hb).
    exact (f_equal (λ l, (Ret (VList l), w)) E).
Defined.
End sim.

(** ** The theorems at work *)

Definition defaults (_ : string) (d : pyval) : pyval := d.
Definition given (k : string) (v : pyval) (key : string) (d : pyval) : pyval := if String.eqb key k then v else d.

#[local] Hint Extern 1 (Env ndctl_world) => exact (sim_env defaults) : typeclass_instances.

Definition sim_pmem : pmem := PMem "ndctl" "daxctl".

(** After setUp, with the given file system left by a test. *)
Definition sim_self (part : option partition) (disk : option string) : ndctl_self :=
  NdctlSelf (VStr "distro") (Some (VBool false)) (VStr "fsdax") (VStr "2g") "ndctl" "daxctl" (Some sim_pmem) part disk "".
Abbreviation self0 := (sim_self None None).

(** A namespace in each region. *)
Definition sim_world : ndctl_world := NdctlWorld [Entry "region0" "raw" 24; Entry "region1" "sector" 36] None None.

Lemma sim_regular R z idx param :
  ((R = "region0" ∧ z = 1000 ∧ idx = "0") ∨ (R = "region1" ∧ z = 1500 ∧ idx = "1"))%string →
  regular (HM:=sim_machine param) R z idx ∧ granule (HM:=sim_machine param) < share (HM:=sim_machine param) R z.
Proof.
  intros [(-> & -> & ->)|(-> & -> & ->)]; (split; [|vm_compute; reflexivity]);
    (split_and!; [|vm_compute; reflexivity|done|done|by exists 1|done]).
  - left.
  - right. left.
Qed.

Lemma sim_chosen : chosen (HM:=sim_machine defaults) "region1".
Proof. exists [("region0", 1000)], 1500, []. split; [done|]. by repeat constructor. Qed.

Lemma largest_region_witness :
  ∃ w', runs get_default_region sim_world self0 (Ret (VStr "region1")) w' self0.
Proof.
  destruct (default_region_runs (HM:=sim_machine defaults) sim_pmem self0 eq_refl "region1" sim_world sim_chosen)
    as (w' & E & _). by exists w'.
Qed.

Lemma multiple_namespaces_divide_region_witness :
  ∃ w', runs test_multiple_namespaces_region sim_world self0 (Ret ()) w' self0 ∧
    map en_raw (nw_entries w') = [24; 372; 372; 372; 372] ∧ share (HM:=sim_machine defaults) "region1" 1500 = 372.
Proof.
  destruct (sim_regular "region1" 1500 "1" defaults) as [Hr _]; [by right|].
  destruct (multiple_namespaces_divide_region (HM:=sim_machine defaults) sim_pmem self0 eq_refl "region1" 1500
    "fsdax" "1" sim_world Hr sim_chosen eq_refl eq_refl) as (w' & E & _ & _).
  exists w'. split; [exact E|]. destruct (E []) as [tr' E']. vm_compute in E'. by inversion E'.
Defined.

Lemma nslot_namespace_divides_region_witness :
  ∃ w', runs test_nslot_namespace sim_world self0 (Ret ()) w' self0 ∧
    map en_raw (nw_entries w') = [372; 372; 372; 372].
Proof.
  destruct (sim_regular "region1" 1500 "1" defaults) as [Hr _]; [by right|].
  destruct (nslot_namespace_divides_region (HM:=sim_machine defaults) sim_pmem self0 eq_refl "region1" 1500
    "1" sim_world Hr sim_chosen) as (w' & E & _ & _); [by vm_compute|].
  exists w'. split; [exact E|]. destruct (E []) as [tr' E']. vm_compute in E'. by inversion E'.
Defined.

Lemma multiple_regions_all_divided_witness :
  ∃ w', runs test_multiple_ns_multiple_region sim_world self0 (Ret ()) w' self0 ∧
    map en_raw (nw_entries w') = [324; 324; 324; 372; 372; 372; 372].
Proof.
  destruct (multiple_regions_all_divided (HM:=sim_machine defaults) sim_pmem self0 eq_refl
    (λ R, if String.eqb R "region0" then "0" else "1")%string "fsdax" sim_world) as (w' & E & _).
  - vm_compute. lia.
  - apply (bool_decide_unpack _). by vm_compute.
  - done.
  - done.
  - intros R z HR. apply sim_regular. apply elem_of_cons in HR as [[= -> ->]|HR%list_elem_of_singleton]; [by left|].
    injection HR as -> ->. by right.
  - exists w'. split; [exact E|]. destruct (E []) as [tr' E']. vm_compute in E'. by inversion E'.
Defined.

Lemma size_alignval_equivalent_witness :
  ∃ g, runs get_size_alignval sim_world self0 (Ret g) sim_world self0 ∧ (g | 36) ∧ ¬ (g | 42).
Proof.
  destruct (size_alignval_equivalent (HM:=sim_machine defaults) self0 sim_world) as (g & E & Hg); [by vm_compute|].
  exists g. split; [exact E|]. split; [apply Hg; split; [by exists 9|by exists 6]|].
  intros H. apply Hg in H as [[k Hk] _]. change (default 1 size_align) with 4 in Hk. lia.
Defined.

Lemma namespace_modes_verdict_witness :
  ∃ w', runs test_namespace_modes sim_world self0
    (raise_ TestFail "Namespace for ['devdax'] mode failed!") w' self0.
Proof.
  destruct (namespace_modes_verdict (HM:=sim_machine defaults) sim_pmem self0 eq_refl "region1" 1500 sim_world
    sim_chosen) as (w' & E & _); [right; left|]. exists w'. exact E.
Defined.

(** The parameter as the shipped configuration has it. *)
Lemma unaligned_size_parameter_raises_witness :
  ∃ w' msg, runs (test_multiple_namespaces_region (HE:=sim_env (given "size" (VStr "null")))) sim_world self0
    (raise_ TypeError msg) w' self0.
Proof.
  destruct (unaligned_size_parameter_raises (HM:=sim_machine (given "size" (VStr "null"))) sim_pmem self0 eq_refl
    "region1" (VStr "null") sim_world) as (w' & msg & E & _); [|by vm_compute|done|right; exists "null"; by vm_compute|].
  - exists [("region0", 1000)], 1500, []. split; [done|]. by repeat constructor.
  - by exists w', msg.
Defined.

Definition sim_part : partition := Partition "/dev/pmem1" (VStr "/pmem") (VStr "dax").

Lemma tearDown_leaves_no_namespace_witness :
  let x := sim_self (Some sim_part) (Some "/dev/pmem1") in
  ∃ w', runs tearDown sim_world x (Ret ()) w' x ∧ nw_entries w' = [].
Proof.
  destruct (tearDown_leaves_no_namespace (HM:=sim_machine defaults) sim_pmem
    (sim_self (Some sim_part) (Some "/dev/pmem1")) eq_refl (VBool false) sim_world sim_world sim_world)
    as (w' & E & _); [done|done|by exists (VStr "6")|done|done|].
  exists w'. split; [exact E|]. destruct (E []) as [tr' E']. vm_compute in E'. by inversion E'.
Defined.

(** A machine on which dd fails. *)
Definition full_env : Env ndctl_world :=
  {| env_run := λ _ _ w, (Ret (CmdResult 0 ""), w); env_system := λ _ _ w, (Ret 1, w);
     env_system_output := λ _ _ w, (Ret "", w); env_ssh := λ _ _ w, (Ret (CmdResult 0 ""), w);
     env_connect := λ _ _ _ w, (Ret true, w); env_show := stdout_text; env_param := defaults;
     env_exists := λ _ w, (true, w); env_read := λ _ w, (Ret "", w); env_append := λ _ _ w, (Ret (), w);
     env_remove := λ _ w, (Ret (), w); env_random := λ w, (0, w) |}.

Lemma tearDown_wipe_failure_witness :
  let x := sim_self None (Some "/dev/pmem1") in
  ∃ msg, runs (tearDown (HE:=full_env)) sim_world x (raise_ TestFail msg) sim_world x.
Proof.
  exact (tearDown_wipe_failure (HE:=full_env) (sim_self None (Some "/dev/pmem1")) 1 sim_world sim_world sim_world
    eq_refl eq_refl ltac:(discriminate)).
Defined.

(** A PMem library that cannot disable namespaces. *)
Definition busy_exn : exn := Exn PMemException "Namespace disable command failed".
Definition busy_lib : NdctlLib ndctl_world := {|
  list_val := list_val (NdctlLib:=sim_lib);
  plib_call := λ _ method args kw w,
    if String.eqb method "disable_namespace" then (Raise busy_exn, w) else sim_plib method args kw w;
  nd_lib := nd_lib (NdctlLib:=sim_lib);
  abspath := abspath (NdctlLib:=sim_lib);
  dist_name := "rhel"; dist_release := VInt 9; teststmpdir := "/tmp";
|}.

Lemma undecorated_tests_error_witness :
  verdict_of (test_modes_1gb_alignment_namespaces (HN:=busy_lib) (PState sim_world [] self0)).1 = ERROR.
Proof.
  refine (undecorated_tests_error (HN:=busy_lib) (VStr "region1") sim_pmem sim_world self0 sim_world busy_exn sim_world
    test_modes_1gb_alignment_namespaces _ eq_refl eq_refl _ eq_refl []).
  - right. left.
  - intros tr. eexists. vm_compute. reflexivity.
Defined.

Definition configured : Env ndctl_world := sim_env (given "region" (VStr "region1")).
Definition other_region : ndctl_world → list entry :=
  rest_of (ConfinedMachine:=sim_confined (given "region" (VStr "region1"))).

Lemma confined_tests_keep_other_regions_witness :
  other_region (ps_world (test_multiple_namespaces_region (HE:=configured) (PState sim_world [] self0)).2) =
    other_region sim_world ∧ other_region sim_world = [Entry "region0" "raw" 24].
Proof.
  split; [|vm_compute; reflexivity].
  refine (confined_tests_keep_other_regions "region1" (HC:=sim_confined (given "region" (VStr "region1")))
    (VStr "2M") _ (PState sim_world [] self0) _ _ _); [reflexivity|discriminate|do 3 right; left].
Defined.

Lemma label_round_trip_verdict_witness :
  ∃ l w', length l = 1%nat ∧ runs (test_label_read_write (VStr "2M")) sim_world self0
    (label_verdict "region1" "1" self0 (HL:=sim_labels defaults) l) w' self0 ∧ map en_raw (nw_entries w') = [24; 12].
Proof.
  destruct (default_region_runs (HM:=sim_machine defaults) sim_pmem self0 eq_refl "region1" sim_world sim_chosen)
    as (w0 & E0 & _).
  destruct (label_round_trip_verdict "region1" "1" self0 (HL:=sim_labels defaults) sim_pmem eq_refl (VStr "2M")
    sim_world w0 E0 eq_refl) as (l & w' & Hl & E & _).
  exists l, w'. split; [by apply Nat2Z.inj|]. split; [exact E|].
  destruct (E []) as [tr' E']. vm_compute in E'. by inversion E'.
Defined.

Lemma label_commands_never_fail_witness :
  let r := (system_or_fail (HE:=sim_env defaults) "ndctl zero-labels nmem1" "Label zero-fill failed"
              (PState sim_world [] self0)).1 in
  r = Ret () ∨ (∃ e, r = Raise e ∧ ex_class e = CmdError) ∧ verdict_of r = ERROR.
Proof.
  apply (label_commands_never_fail (HE:=sim_env defaults)). intros cmd fl w r w' _ [= <- _]. by left.
Defined.

Lemma reconfigure_verdict_witness :
  ∃ w' msg, runs test_namespace_reconfigure sim_world self0 (raise_ TestFail msg) w' self0.
Proof.
  destruct (default_region_runs (HM:=sim_machine defaults) sim_pmem self0 eq_refl "region1" sim_world sim_chosen)
    as (w0 & E0 & _).
  destruct (reconfigure_verdict (HC:=sim_reconf defaults) "region1" sim_pmem self0 eq_refl sim_world w0 E0) as (w' & E).
  exists w'. eexists. exact E.
Defined.
