(* ===== verification/Nvme.v ===== *)
(** * The NVMe tests: io/disk/ssd/nvmetest.py

    The class [NVMeTest]: setUp, what is read from the output of nvme-cli, the choice of a
    block format, creating and deleting namespaces, the firmware upgrade and the tests of single
    commands.  avocado's [nvme], [disk], [archive] and [download], the package manager and
    Python's [json.loads] are the class [NvmeLib]. *)

From S2P Require Import Prelude PyStr PyFloat PyVal Avocado Logic.
Open Scope Z_scope.

(** ** Data *)

(** The attributes of [self]. *)
Record nvme_self := NvmeSelf {
  nv_device : string;
  nv_package : pyval;
  nv_binary : string;
  nv_format_size : num;
  nv_namespace : pyval;
  nv_shared : pyval;
  nv_id_ns : string;
  nv_firmware_url : pyval;
  nv_id_ctrl : string;
}.

Definition new_nvme : nvme_self := NvmeSelf "" VNone "" (NInt 0) VNone VNone "" VNone "".

Definition with_device (d : string) (x : nvme_self) : nvme_self :=
  NvmeSelf d (nv_package x) (nv_binary x) (nv_format_size x) (nv_namespace x) (nv_shared x) (nv_id_ns x)
    (nv_firmware_url x) (nv_id_ctrl x).
Definition with_package (p : pyval) (x : nvme_self) : nvme_self :=
  NvmeSelf (nv_device x) p (nv_binary x) (nv_format_size x) (nv_namespace x) (nv_shared x) (nv_id_ns x)
    (nv_firmware_url x) (nv_id_ctrl x).
Definition with_binary (b : string) (x : nvme_self) : nvme_self :=
  NvmeSelf (nv_device x) (nv_package x) b (nv_format_size x) (nv_namespace x) (nv_shared x) (nv_id_ns x)
    (nv_firmware_url x) (nv_id_ctrl x).
Definition with_namespace (size : num) (namespace shared : pyval) (id_ns : string) (url : pyval) (x : nvme_self)
    : nvme_self :=
  NvmeSelf (nv_device x) (nv_package x) (nv_binary x) size namespace shared id_ns url (nv_id_ctrl x).
Definition with_id_ctrl (s : string) (x : nvme_self) : nvme_self :=
  NvmeSelf (nv_device x) (nv_package x) (nv_binary x) (nv_format_size x) (nv_namespace x) (nv_shared x) (nv_id_ns x)
    (nv_firmware_url x) s.

Class NvmeLib (W : Type) := {
  nv_lib : string → list pyval → W → result pyval * W;
  (* disk.get_absolute_disk_path *)
  absolute_disk_path : pyval → W → result string * W;
  json_loads : string → result pyval;
  (* 2 ** x *)
  exp2_float : float → result float;
  (* str(self.name) and self.teststmpdir *)
  test_name : string;
  nv_tmpdir : string;
}.

(** ** Text *)

(** [l[n]] of a list of texts *)
Definition nth_text (n : nat) (l : list string) : result string :=
  match l !! n with Some s => Ret s | None => raise_ IndexError "list index out of range" end.
(** [l[-1]] *)
Definition last_text (l : list string) : result string :=
  match last_opt l with Some s => Ret s | None => raise_ IndexError "list index out of range" end.


(** The digits of [n] in base 16, and [f"0x{n:x}"]. *)
Fixpoint hex_chars (fuel : nat) (n : Z) (acc : chars) : chars :=
  match fuel with
  | O => acc
  | S f => let acc' := hex_char (n mod 16) :: acc in if n <? 16 then acc' else hex_chars f (n / 16) acc'
  end.
Definition hex_text (n : Z) : string :=
  "0x" +:+ (if n <? 0 then "-" else "") +:+ str_of (hex_chars (S (Z.to_nat (Z.log2 (Z.abs n)))) (Z.abs n) []).

(** The first of the lines that satisfies [p]. *)
Definition line_with (p : string → bool) (text : string) : option string := List.find p (py_splitlines text).

(** The property [prop] of the output of [nvme id-ctrl]: the last word of its line. *)
Definition id_ctrl_prop (id_ctrl prop : string) : result string :=
  match line_with (py_startswith prop) id_ctrl with Some line => last_text (py_split line) | None => Ret "" end.

Definition firmware_slots (id_ctrl : string) : result Z :=
  match line_with (py_in "Firmware Slots") id_ctrl with
  | Some line => w ← nth_text 2 (py_split line); v ← last_text (py_split_on "x" w); py_int (VStr v)
  | None => Ret 0
  end.

Definition slot_writable (id_ctrl : string) (slot_num : Z) : bool :=
  match line_with (py_in ("Firmware Slot " +:+ py_str_Z slot_num +:+ " Read-Only")) id_ctrl with
  | Some _ => false | None => true
  end.

Definition max_ns_count (id_ctrl : string) : result Z :=
  output ← id_ctrl_prop id_ctrl "nn";
  if py_empty output then Ret 1 else py_int (VStr output).

(** [s.replace(',', '')] *)
Definition without_commas (s : string) : string :=
  str_of (List.filter (λ d, negb (Ascii.eqb d ",")) (chars_of s)).

Definition total_capacity (id_ctrl : string) : result Z :=
  output ← id_ctrl_prop id_ctrl "tnvmcap";
  if py_empty output then Ret 0 else py_int (VStr (without_commas output)).

(** The namespaces in the lines of [nvme list-ns]: the bracketed number of each plus one. *)
Definition ns_of_line (line : string) : result Z :=
  w ← nth_text 1 (py_split line);
  i ← nth_text 0 (py_split_on "]" w);
  n ← py_int (VStr i);
  Ret (n + 1).

Definition ns_numbers (lines : list string) : result (list Z) :=
  results (map ns_of_line (List.filter (py_startswith "[") lines)).

(** The word of the line of [nvme id-ns] that is in use. *)
Definition in_use_word (n : nat) (lines : list string) : result (option string) :=
  match List.find (py_in "in use") lines with
  | Some line => w ← nth_text n (py_split line); Ret (Some w)
  | None => Ret None
  end.

(** [pow(2, n)] *)
Definition pow2 (n : Z) : num := if 0 <=? n then NInt (2 ^ n) else NFloat (fl 1 n).

(** ** Block formats *)

Record lba_format := LbaFormat { lf_index : Z; lf_block_size : pyval; lf_metadata_size : pyval }.

(** The formats that are assumed when the device does not tell. *)
Definition common_formats : list lba_format :=
  [LbaFormat 0 (VInt 512) (VInt 0); LbaFormat 1 (VInt 4096) (VInt 0)].

Definition has_block_size (size : Z) (fmt : lba_format) : bool := py_eq (lf_block_size fmt) (VInt size).
Definition no_metadata (fmt : lba_format) : bool := py_eq (lf_metadata_size fmt) (VInt 0).

(** The format [get_optimal_flbas] selects, and whether it warns of metadata. *)
Definition select_format (formats : list lba_format) : option (lba_format * bool) :=
  match List.find (λ fmt, lf_index fmt =? 0) formats with
  | Some fmt => Some (fmt, false)
  | None =>
      let plain := List.filter no_metadata formats in
      match List.find (has_block_size 512) plain, List.find (has_block_size 4096) plain, plain, formats with
      | Some fmt, _, _, _ | None, Some fmt, _, _ | None, None, fmt :: _, _ => Some (fmt, false)
      | None, None, [], fmt :: _ => Some (fmt, true)
      | None, None, [], [] => None
      end
  end.

(** Actions by slot, in the order of insertion. *)
Abbreviation commits := (list (Z * list Z)).

(** ** The class NVMeTest *)

Section NVMeTest.
Context {W : Type} {HE : Env W} {HV : NvmeLib W}.
Abbreviation T := (M W nvme_self).

Definition nv_call (fn : string) (args : list pyval) : T pyval := ext (EvCall fn args) (nv_lib fn args).

(** A failing command is reported with the message. *)
Definition command_or_fail (cmd msg : string) (flags : list flag) : T () :=
  status ← process_system cmd flags; when (negb (status =? 0)) (test_fail msg).

Definition run_cmd_return_output_list (cmd : string) : T (list string) :=
  out ← process_system_output cmd [IgnoreStatus; Shell]; mret (py_splitlines out).

Definition get_id_ctrl_prop (prop : string) : T string := s ← gets nv_id_ctrl; lift (id_ctrl_prop s prop).
Definition get_firmware_version : T string := get_id_ctrl_prop "fr".

Definition get_firmware_log : T () :=
  binary ← gets nv_binary; device ← gets nv_device;
  _ ← process_system (binary +:+ " fw-log " +:+ device) [Shell; IgnoreStatus]; mret ().

Definition get_firmware_slots : T Z := s ← gets nv_id_ctrl; lift (firmware_slots s).
Definition firmware_slot_write_supported (slot_num : Z) : T bool := s ← gets nv_id_ctrl; mret (slot_writable s slot_num).

(** [self.device.split("/")[-1]] *)
Definition device_name (device : string) : result string := last_text (py_split_on "/" device).

Definition reset_controller_sysfs : T Z :=
  device ← gets nv_device;
  d ← lift (device_name device);
  process_system ("echo 1 > /sys/class/nvme/" +:+ d +:+ "/reset_controller") [Shell; IgnoreStatus].

Definition get_max_ns_count : T Z := s ← gets nv_id_ctrl; lift (max_ns_count s).
Definition get_total_capacity : T Z := s ← gets nv_id_ctrl; lift (total_capacity s).

Definition ns_list : T (list Z) :=
  binary ← gets nv_binary; device ← gets nv_device;
  lines ← run_cmd_return_output_list (binary +:+ " list-ns " +:+ device);
  lift (ns_numbers lines).

Definition list_ns : T string :=
  binary ← gets nv_binary; device ← gets nv_device;
  _ ← process_system (binary +:+ " ns-rescan " +:+ device) [Shell; IgnoreStatus];
  process_system_output (binary +:+ " list") [Shell; IgnoreStatus].

Definition get_ns_controller : T string :=
  binary ← gets nv_binary; device ← gets nv_device;
  output ← process_system_output (binary +:+ " id-ctrl " +:+ device) [Shell; IgnoreStatus];
  match line_with (py_in "cntlid") output with
  | Some line => v ← lift (last_text (py_split_on ":" line)); mret (py_strip v)
  | None => mret ""
  end.

(** The lines of [nvme id-ns] of the first namespace; none without a namespace. *)
Definition id_ns_word (n : nat) : T (option string) :=
  namespaces ← ns_list;
  match namespaces with
  | namespace :: _ =>
      binary ← gets nv_binary; device ← gets nv_device;
      lines ← run_cmd_return_output_list (binary +:+ " id-ns " +:+ device +:+ "n" +:+ py_str_Z namespace);
      lift (in_use_word n lines)
  | [] => mret None
  end.

Definition get_lba : T pyval :=
  w ← id_ns_word 1;
  match w with Some s => z ← lift (py_int (VStr s)); mret (VInt z) | None => mret (VStr "0") end.

Definition get_block_size : T num :=
  w ← id_ns_word 4;
  match w with
  | Some s => v ← lift (last_text (py_split_on ":" s)); z ← lift (py_int (VStr v)); mret (pow2 z)
  | None => mret (NInt 4096)
  end.

Definition delete_ns (namespace : Z) : T () :=
  binary ← gets nv_binary; device ← gets nv_device;
  _ ← process_system (binary +:+ " delete-ns " +:+ device +:+ " -n " +:+ py_str_Z namespace) [Shell; IgnoreStatus];
  mret ().

Definition delete_all_ns : T () := l ← ns_list; for_each l delete_ns.

(** ** Creating namespaces *)

(** [2 ** ds] *)
Definition py_exp2 (ds : pyval) : result pyval :=
  match as_num ds with
  | Some (NInt z) => Ret (of_num (pow2 z))
  | Some (NFloat f) => g ← exp2_float f; Ret (VFloat g)
  | None => type_error
  end.

(** The valid formats among the entries of [lbafs], with their index. *)
Fixpoint lba_formats_of (idx : Z) (lbafs : list pyval) : result (list lba_format) :=
  match lbafs with
  | [] => Ret []
  | lbaf :: lbafs' =>
      ds ← py_get lbaf "ds" (VInt 0);
      positive ← py_lt (VInt 0) ds;
      if (positive : bool) then
        size ← py_exp2 ds;
        ms ← py_get lbaf "ms" (VInt 0);
        l ← lba_formats_of (idx + 1) lbafs';
        Ret (LbaFormat idx size ms :: l)
      else lba_formats_of (idx + 1) lbafs'
  end.

Definition parse_formats (text : string) : result (list lba_format) :=
  ns_data ← json_loads text;
  lbafs ← py_get ns_data "lbafs" (VList []);
  l ← py_iter lbafs;
  lba_formats_of 0 l.

(** [except (process.CmdError, json.JSONDecodeError, KeyError)]: JSONDecodeError is a
    ValueError, the only one that the block can raise. *)
Definition query_exn (c : exn_class) : bool :=
  match c with CmdError | ValueError | KeyError => true | _ => false end.

Definition get_supported_lba_formats : T (list lba_format) :=
  namespaces ← ns_list;
  found ← (match namespaces with
           | namespace :: _ =>
               device ← gets nv_device; binary ← gets nv_binary;
               try_except
                 (r ← process_run (binary +:+ " id-ns " +:+ device +:+ "n" +:+ py_str_Z namespace +:+ " -o json") [Shell];
                  formats ← lift (parse_formats (stdout_text r));
                  match formats with
                  | [] => mret None
                  | _ => log_debug ("Found " +:+ py_str_Z (Z.of_nat (length formats)) +:+ " valid LBA formats") ;;
                         mret (Some formats)
                  end)
                 query_exn
                 (λ e, log_warning ("Failed to query LBA formats: " +:+ ex_msg e) ;; mret None)
           | [] => mret None
           end);
  match found with
  | Some formats => mret formats
  | None => log_warning "Using common format assumptions (512B and 4KB)" ;; mret common_formats
  end.

Definition get_optimal_flbas : T Z :=
  formats ← get_supported_lba_formats;
  match select_format formats with
  | None => log_warning "No valid formats found, defaulting to FLBAS=0" ;; mret 0
  | Some (fmt, false) =>
      log_info ("Using FLBAS=" +:+ py_str_Z (lf_index fmt) +:+ " (block_size=" +:+ py_str (lf_block_size fmt) +:+ "B)") ;;
      mret (lf_index fmt)
  | Some (fmt, true) =>
      log_warning ("Using FLBAS=" +:+ py_str_Z (lf_index fmt) +:+ " with metadata (block_size=" +:+
                   py_str (lf_block_size fmt) +:+ "B)") ;;
      mret (lf_index fmt)
  end.

Definition get_flbas_value : T Z :=
  try_except
    (optimal_flbas ← get_optimal_flbas;
     log_info ("Calculated optimal FLBAS=" +:+ py_str_Z optimal_flbas) ;;
     mret optimal_flbas)
    any_exn
    (λ e, log_warning ("FLBAS calculation failed: " +:+ ex_msg e +:+ ", using FLBAS=0") ;; mret 0).

(** A line of [nvme list-ns] that shows the namespace. *)
Definition shows_ns (ns_id : Z) (line : string) : bool :=
  match last_opt (py_split_on ":" line) with
  | Some part =>
      py_startswith "[" line && py_in ":" line &&
      (String.eqb (py_strip part) (hex_text ns_id) || String.eqb (py_strip part) (py_str_Z ns_id))
  | None => false
  end.

Definition create_cmd (binary device : string) (blocks flbas : Z) : string :=
  binary +:+ " create-ns " +:+ device +:+ " --nsze=" +:+ py_str_Z blocks +:+ " --ncap=" +:+ py_str_Z blocks +:+
  " --flbas=" +:+ py_str_Z flbas +:+ " -dps=0".
Definition attach_cmd (binary device ns_id controller : string) : string :=
  binary +:+ " attach-ns " +:+ device +:+ " --namespace-id=" +:+ ns_id +:+ " -controllers=" +:+ controller.

Definition rescan : T () :=
  binary ← gets nv_binary; device ← gets nv_device;
  _ ← process_system (binary +:+ " ns-rescan " +:+ device) [Shell; IgnoreStatus];
  sleep (VInt 2).

Definition create_one_ns (ns_id : string) (blocksize : num) (controller : string) : T () :=
  flbas_value ← get_flbas_value;
  binary ← gets nv_binary; device ← gets nv_device;
  blocks ← lift (num_int blocksize);
  let cmd := create_cmd binary device blocks flbas_value in
  status ← process_system cmd [Shell; IgnoreStatus];
  when (negb (status =? 0))
    (test_fail ("Namespace create failed with FLBAS=" +:+ py_str_Z flbas_value +:+ ". Command: " +:+ cmd +:+
                ". Exit code: " +:+ py_str_Z status)) ;;
  rescan ;;
  let cmd := attach_cmd binary device ns_id controller in
  status ← process_system cmd [Shell; IgnoreStatus];
  when (negb (status =? 0))
    (test_fail ("Namespace attach failed: " +:+ cmd +:+ ". Exit code: " +:+ py_str_Z status)) ;;
  rescan ;;
  ns_output ← process_system_output (binary +:+ " list-ns " +:+ device) [Shell; IgnoreStatus];
  ns_id_int ← lift (py_int (VStr ns_id));
  when (negb (existsb (shows_ns ns_id_int) (py_splitlines ns_output)))
    (log_warning ("Namespace " +:+ ns_id +:+ " attached but not found in list. Output: " +:+ ns_output)).

(** [capacity // block_size] *)
Definition max_blocks : T num :=
  capacity ← get_total_capacity;
  size ← get_block_size;
  lift (num_floordiv (NInt capacity) size).

Definition create_full_capacity_ns : T () :=
  max_ns_blocks ← max_blocks;
  controller ← get_ns_controller;
  create_one_ns "1" max_ns_blocks controller.

(** The blocks of each of [count] namespaces: 60 percent of the device, shared. *)
Definition blocks_per_ns (max_ns_blocks : num) (count : Z) : result num :=
  p ← num_mul (NInt 60) max_ns_blocks;
  considered ← num_div p (NInt 100);
  num_floordiv considered (NInt count).

Definition create_max_ns : T () :=
  max_ns_blocks ← max_blocks;
  count ← get_max_ns_count;
  per_ns_blocks ← lift (blocks_per_ns max_ns_blocks count);
  ns_controller ← get_ns_controller;
  for_each (Zrange 1 (count + 1)) (λ ns_id, create_one_ns (py_str_Z ns_id) per_ns_blocks ns_controller).

(** ** setUp *)

Definition not_installed (pkg : string) : T bool :=
  v ← nv_call "SoftwareManager.check_installed" [VStr pkg];
  if truthy v then mret false
  else i ← nv_call "SoftwareManager.install" [VStr pkg]; mret (negb (truthy i)).

(** The node that the parameter names: a path, a subsystem or an NQN. *)
Definition resolve_node : T pyval :=
  nvme_node ← get_param "device" VNone;
  if negb (truthy nvme_node) then test_cancel "Please provide valid nvme node name"
  else
    sub ← lift (py_contains (VStr "subsys") nvme_node);
    if (sub : bool) then v ← nv_call "nvme.get_controllers_with_subsys" [nvme_node]; lift (py_getitem v 0)
    else
      s ← lift (as_text nvme_node);
      if py_startswith "nqn." s then v ← nv_call "nvme.get_controllers_with_nqn" [nvme_node]; lift (py_getitem v 0)
      else mret nvme_node.

Definition build_nvme_cli : T () :=
  b ← not_installed "meson";
  when b (test_cancel "meson is needed for the test to be run") ;;
  tarball ← nv_call "fetch_asset"
              [VStr "nvme-cli.zip"; VList [VStr "https://github.com/linux-nvme/nvme-cli/archive/master.zip"]; VStr "15d"];
  _ ← nv_call "archive.extract" [tarball; VStr nv_tmpdir];
  _ ← nv_call "os.chdir" [VStr (nv_tmpdir +:+ "/nvme-cli-master")];
  _ ← process_system "meson setup --force-fallback-for=libnvme .build" [IgnoreStatus];
  _ ← process_system "meson compile -C .build" [IgnoreStatus];
  modify (with_binary "./.build/nvme").

Definition install_nvme_cli : T () :=
  b ← not_installed "nvme-cli";
  when b (test_cancel "nvme-cli is needed for the test to be run") ;;
  modify (with_binary "nvme").

(** Parts of test names and the features they need. *)
Definition test_dic : dict string :=
  [("compare", "Compare"); ("formatnamespace", "Format NVM"); ("dsm", "Data Set Management");
   ("writezeroes", "Write Zeroes"); ("firmware_upgrade", "FW Commit and Download");
   ("writeuncorrectable", "Write Uncorrectable"); ("subsystemreset", "NVM Subsystem Reset")].

(** One feature: the reset of the subsystem is also looked up in the registers, unless the
    kernel is locked down, when nothing is checked for it. *)
Definition check_feature (kv : string * string) : T () :=
  let '(key, value) := kv in
  binary ← gets nv_binary; device ← gets nv_device;
  go_on ← (if py_in key test_name && String.eqb key "subsystemreset" then
             lockdown ← process_system_output "cat /sys/kernel/security/lockdown" [Shell];
             if negb (py_in "[none]" lockdown) then
               log_info ("lockdown is enabled," +:+ str_of (repeat " "%char 34) +:+ "cannot run nvme show-regs command") ;;
               mret false
             else
               regs ← process_system_output (binary +:+ " show-regs " +:+ device +:+ " -H") [Shell];
               when (py_in (value +:+ " Supported   (NSSRS): No") regs) (test_cancel (value +:+ " is not supported")) ;;
               mret true
           else mret true);
  when (go_on && py_in key test_name)
    (id_ctrl ← gets nv_id_ctrl;
     when (negb (py_in (value +:+ " Supported") id_ctrl)) (test_cancel (value +:+ " is not supported"))).

Definition setUp : T () :=
  nvme_node ← resolve_node;
  device ← ext (EvCall "disk.get_absolute_disk_path" [nvme_node]) (absolute_disk_path nvme_node);
  modify (with_device device) ;;
  status ← process_system ("ls " +:+ device) [IgnoreStatus];
  when (negb (status =? 0)) (test_cancel (device +:+ " does not exist")) ;;
  package ← get_param "package" (VStr "distro");
  modify (with_package package) ;;
  (if py_eq package (VStr "upstream") then build_nvme_cli else install_nvme_cli) ;;
  format_size ← get_block_size;
  namespace ← get_param "namespace" (VStr "1");
  shared ← get_param "shared_namespaces" (VBool false);
  firmware_url ← get_param "firmware_url" (VStr "");
  modify (with_namespace format_size namespace shared (device +:+ "n" +:+ py_str namespace) firmware_url) ;;
  when (py_in "firmware_upgrade" test_name && negb (truthy firmware_url)) (test_cancel "firmware url not given") ;;
  binary ← gets nv_binary;
  id_ctrl ← process_system_output (binary +:+ " id-ctrl " +:+ device +:+ " -H") [Shell];
  modify (with_id_ctrl id_ctrl) ;;
  for_each test_dic check_feature.

(** ** The firmware upgrade *)

Definition commits_repr (c : commits) : string :=
  "{" +:+ py_join ", " (map (λ '(slot, l), py_str_Z slot +:+ ": " +:+ py_repr (VList (map VInt l))) c) +:+ "}".

Definition FW_COMMIT_ACTION_ACTIVATE_NO_RESET : Z := 3.

(** One commit action of a slot; [b] has the actions that passed and those that failed. *)
Definition commit_action (d_cmd : string) (slot : Z) (b : list Z * list Z) (action : Z) : T (list Z * list Z) :=
  let '(passed_actions, failed_actions) := b in
  let at_slot := " for slot " +:+ py_str_Z slot +:+ " action " +:+ py_str_Z action in
  binary ← gets nv_binary; device ← gets nv_device;
  status ← process_system d_cmd [Shell; IgnoreStatus];
  if negb (status =? 0) then
    log_error ("FW download failed" +:+ at_slot) ;; mret (passed_actions, failed_actions ++ [action])
  else
    status ← process_system (binary +:+ " fw-commit " +:+ device +:+ " -s " +:+ py_str_Z slot +:+ " -a " +:+
                             py_str_Z action) [Shell; IgnoreStatus];
    if negb (status =? 0) then
      log_error ("FW commit failed" +:+ at_slot) ;; mret (passed_actions, failed_actions ++ [action])
    else mret (passed_actions ++ [action], failed_actions).

(** [if actions: commits[slot] = actions] *)
Definition track (slot : Z) (actions : list Z) (c : commits) : commits :=
  match actions with [] => c | _ => c ++ [(slot, actions)] end.

Definition slot_step (d_cmd : string) (b : commits * commits) (slot : Z) : T (commits * commits) :=
  let '(passed_commits, failed_commits) := b in
  writable ← firmware_slot_write_supported slot;
  if negb writable then log_info ("Slot " +:+ py_str_Z slot +:+ " is read-only, skipping") ;; mret b
  else
    '(passed_actions, failed_actions) ←
      for_acc (Zrange 0 FW_COMMIT_ACTION_ACTIVATE_NO_RESET) ([], []) (commit_action d_cmd slot);
    mret (track slot passed_actions passed_commits, track slot failed_actions failed_commits).

Definition reset_needed (passed_commits : commits) : bool :=
  existsb (λ '(_, actions), negb (existsb (Z.eqb FW_COMMIT_ACTION_ACTIVATE_NO_RESET) actions)) passed_commits.

Definition test_firmware_upgrade : T () :=
  firmware_url ← gets nv_firmware_url;
  url ← lift (as_text firmware_url);
  fw_file ← lift (last_text (py_split_on "/" url));
  fw_version ← lift (nth_text 0 (py_split_on "." fw_file));
  fw_file_path ← nv_call "download.get_file" [VStr url; VStr (path_join nv_tmpdir fw_file)];
  current_fw ← get_firmware_version;
  log_info ("Current FW: " +:+ current_fw) ;;
  get_firmware_log ;;
  binary ← gets nv_binary; device ← gets nv_device;
  let d_cmd := binary +:+ " fw-download " +:+ device +:+ " --fw=" +:+ py_str fw_file_path in
  slots ← get_firmware_slots;
  '(passed_commits, failed_commits) ← for_acc (Zrange 1 (slots + 1)) ([], []) (slot_step d_cmd);
  when (reset_needed passed_commits)
    (log_info "Performing controller reset to activate firmware" ;;
     status ← reset_controller_sysfs;
     when (negb (status =? 0)) (test_fail "Controller reset after FW update failed")) ;;
  when (match failed_commits with [] => false | _ => true end)
    (log_error ("Passed commits: " +:+ commits_repr passed_commits) ;;
     log_error ("Failed commits: " +:+ commits_repr failed_commits) ;;
     test_fail ("Firmware commit failed for slots/actions: " +:+ commits_repr failed_commits)) ;;
  get_firmware_log ;;
  new_fw ← get_firmware_version;
  if negb (String.eqb fw_version new_fw)
  then log_warning ("Firmware version mismatch: expected " +:+ fw_version +:+ ", got " +:+ new_fw)
  else log_info ("Firmware successfully updated from " +:+ current_fw +:+ " to " +:+ new_fw).

(** ** The other tests *)

Definition test_create_max_ns : T () := delete_all_ns ;; create_max_ns ;; _ ← list_ns; mret ().

Definition test_create_full_capacity_ns : T () :=
  d ← gets nv_device; device ← lift (device_name d);
  _ ← nv_call "nvme.delete_all_ns" [VStr device];
  shared ← gets nv_shared;
  _ ← nv_call "nvme.create_full_capacity_ns" [VStr device; shared];
  mret ().

Definition testformatnamespace : T () :=
  binary ← gets nv_binary; id_ns ← gets nv_id_ns;
  lba ← get_lba;
  _ ← process_run (binary +:+ " format " +:+ id_ns +:+ " -l " +:+ py_str lba) [Shell];
  mret ().

(** ['%d' % self.format_size] *)
Definition size_arg : T string := size ← gets nv_format_size; lift (fmt_d (of_num size)).

Definition testread : T () :=
  binary ← gets nv_binary; id_ns ← gets nv_id_ns; size ← size_arg;
  command_or_fail (binary +:+ " read " +:+ id_ns +:+ " -z " +:+ size +:+ " -t") "Read failed" [IgnoreStatus; Shell].

Definition testwrite : T () :=
  binary ← gets nv_binary; id_ns ← gets nv_id_ns; size ← size_arg;
  command_or_fail ("echo 1|" +:+ binary +:+ " write " +:+ id_ns +:+ " -z " +:+ size +:+ " -t") "Write failed"
    [IgnoreStatus; Shell].

Definition testcompare : T () :=
  testwrite ;;
  binary ← gets nv_binary; id_ns ← gets nv_id_ns; size ← size_arg;
  command_or_fail ("echo 1|" +:+ binary +:+ " compare " +:+ id_ns +:+ " -z " +:+ size) "Compare failed"
    [IgnoreStatus; Shell].

(** The tests of one command on the namespace. *)
Definition on_namespace (cmd options msg : string) : T () :=
  binary ← gets nv_binary; id_ns ← gets nv_id_ns;
  command_or_fail (binary +:+ " " +:+ cmd +:+ " " +:+ id_ns +:+ options) msg [IgnoreStatus; Shell].

Definition testflush : T () := on_namespace "flush" "" "Flush failed".
Definition testwritezeroes : T () := on_namespace "write-zeroes" "" "Writing Zeroes failed".
Definition testwriteuncorrectable : T () := on_namespace "write-uncor" "" "Writing Uncorrectable failed".
Definition testdsm : T () := on_namespace "dsm" " -a 1 -b 1 -s 1 -d -w -r" "Subsystem reset failed".

Definition testreset : T () :=
  binary ← gets nv_binary; device ← gets nv_device;
  command_or_fail (binary +:+ " reset " +:+ device) "Reset failed" [IgnoreStatus; Shell].

Definition testreset_sysfs : T () :=
  status ← reset_controller_sysfs; when (negb (status =? 0)) (test_fail "Reset failed").

Definition testsubsystemreset : T () :=
  binary ← gets nv_binary; device ← gets nv_device;
  command_or_fail (binary +:+ " subsystem-reset " +:+ device) "Subsystem reset failed" [IgnoreStatus; Shell].

Definition test_create_namespaces : T () :=
  ns_count ← get_param "namespace_count" (VInt 1);
  d ← gets nv_device; device ← lift (device_name d);
  shared ← gets nv_shared;
  _ ← nv_call "nvme.create_namespaces" [VStr device; ns_count; shared];
  mret ().

Definition test_delete_all_ns : T () :=
  d ← gets nv_device; device ← lift (device_name d);
  _ ← nv_call "nvme.delete_all_ns" [VStr device];
  mret ().
End NVMeTest.
