(* ===== verification/NvmeSystem.v ===== *)
(** * Namespaces, block formats and firmware of an NVMe device

    How nvme-cli lists namespaces, and which namespaces the tests delete; which block format
    they choose; when the firmware upgrade passes. *)

From S2P Require Import Prelude PyStr PyFloat PyVal Avocado Logic Nvme.
Open Scope Z_scope.

(** ** The list of namespaces *)

(** Line [i] of [nvme list-ns], for the namespace [id]: the position in four columns. *)
Definition position (i : Z) : chars := chars_of (py_str_Z i).
Definition ns_line (i id : Z) : chars :=
  "["%char :: blanks (4 - length (position i)) ++ position i ++ "]"%char :: ":"%char :: chars_of (hex_text id).

Fixpoint ns_lines (i : Z) (ids : list Z) : list chars :=
  match ids with [] => [] | id :: ids' => ns_line i id :: ns_lines (i + 1) ids' end.

Definition list_ns_text (ids : list Z) : string := str_of (concat (map (λ l, l ++ [LF]) (ns_lines 0 ids))).

Lemma hex_char_plain d : 0 ≤ d < 16 → is_space (hex_char d) = false.
Proof.
  intros Hd. assert (d ∈ seqZ 0 16) as Hin by (apply elem_of_seqZ; lia). clear Hd. revert d Hin.
  apply list.Forall_forall. by repeat constructor.
Qed.

Lemma hex_chars_plain fuel n acc : 0 ≤ n → no_spaces acc → no_spaces (hex_chars fuel n acc).
Proof.
  revert n acc. induction fuel as [|f IH]; intros n acc Hn Hacc; [done|]. cbn [hex_chars].
  assert (no_spaces (hex_char (n mod 16) :: acc)) as H.
  { constructor; [|done]. apply hex_char_plain, Z.mod_pos_bound. lia. }
  destruct (n <? 16); [done|]. apply IH; [|done]. apply Z.div_pos; lia.
Qed.

Lemma hex_text_plain n : no_spaces (chars_of (hex_text n)).
Proof.
  unfold hex_text. rewrite !chars_of_app, chars_of_str_of.
  apply Forall_app. split; [by repeat constructor|]. apply Forall_app. split; [destruct (n <? 0); by repeat constructor|].
  apply hex_chars_plain; [lia|done].
Qed.

(** Positions below 1000 leave a blank after the bracket. *)
Lemma position_short i : 0 ≤ i < 1000 → (length (position i) ≤ 3)%nat.
Proof.
  intros Hi. assert (i ∈ seqZ 0 1000) as Hin by (apply elem_of_seqZ; lia). clear Hi.
  assert (forallb (λ i, Nat.leb (length (position i)) 3) (seqZ 0 1000) = true) as H by (by vm_compute).
  rewrite forallb_forall in H. apply Nat.leb_le, H. by apply list_elem_of_In.
Qed.

Lemma position_digits i : 0 ≤ i → Forall (λ c, is_digit c = true) (position i).
Proof.
  intros Hi. unfold position. rewrite chars_of_str_Z. destruct (Z.ltb_spec i 0); [lia|]. by apply nat_chars_spec.
Qed.

Lemma ns_line_number i id : 0 ≤ i < 1000 → ns_of_line (str_of (ns_line i id)) = Ret (i + 1).
Proof.
  intros Hi. pose proof (position_short i Hi) as Hlen. pose proof (position_digits i ltac:(lia)) as Hd.
  unfold ns_of_line. rewrite py_split_words, chars_of_str_of.
  destruct (4 - length (position i))%nat as [|k] eqn:Ek; [lia|].
  assert (words_of (ns_line i id) =
    [["["%char]; position i ++ "]"%char :: ":"%char :: chars_of (hex_text id)]) as ->.
  { unfold ns_line. rewrite Ek.
    change (words_of (["["%char] ++ " "%char :: blanks k ++ position i ++ "]"%char :: ":"%char :: chars_of (hex_text id))
      = [["["%char]; position i ++ "]"%char :: ":"%char :: chars_of (hex_text id)]).
    rewrite words_app by done.
    rewrite (words_word ["["%char]), words_spaces_l by (done || apply blanks_spaces || by repeat constructor).
    rewrite words_word; [done| |by destruct (position i)].
    apply Forall_app. split.
    - eapply list.Forall_impl; [exact Hd|]. apply digit_not_space.
    - constructor; [done|]. constructor; [done|]. apply hex_text_plain. }
  cbn [map nth_text lookup list_lookup]. unfold mbind, result_bind, py_split_on. rewrite chars_of_str_of.
  rewrite pieces_app; [|eapply list.Forall_impl; [exact Hd|]; intros c Hc; by destruct (Ascii.eqb_spec "]" c) as [<-|]|done].
  cbn [map nth_text lookup list_lookup]. unfold position. by rewrite str_of_chars_of, py_int_str.
Qed.

Lemma ns_line_inline i id : 0 ≤ i → one_line (ns_line i id).
Proof.
  intros Hi. unfold ns_line. constructor; [done|]. apply Forall_app. split; [apply blanks_inline|].
  apply Forall_app. split.
  - eapply list.Forall_impl; [by apply position_digits|]. intros c Hc. by apply no_space_inline, digit_not_space.
  - constructor; [done|]. constructor; [done|]. eapply list.Forall_impl; [apply hex_text_plain|]. apply no_space_inline.
Qed.

Lemma ns_lines_inline i ids : 0 ≤ i → Forall (λ l, one_line l) (ns_lines i ids).
Proof.
  revert i. induction ids as [|id ids IH]; intros i Hi; [constructor|].
  constructor; [by apply ns_line_inline|]. apply IH. lia.
Qed.

Lemma ns_numbers_lines i ids :
  0 ≤ i → i + Z.of_nat (length ids) ≤ 1000 →
  ns_numbers (map str_of (ns_lines i ids)) = Ret (Zrange (i + 1) (i + 1 + Z.of_nat (length ids))).
Proof.
  unfold ns_numbers. revert i. induction ids as [|id ids IH]; intros i Hi Hl.
  - unfold Zrange. cbn. by rewrite Z.add_0_r, Z.sub_diag.
  - cbn [ns_lines map List.filter].
    replace (py_startswith "[" (str_of (ns_line i id))) with true
      by (unfold py_startswith; rewrite chars_of_str_of; reflexivity).
    cbn [map results]. cbn [length] in Hl. rewrite ns_line_number by lia.
    unfold mbind, result_bind. rewrite IH by lia. f_equal. unfold Zrange.
    replace (i + 1 + Z.of_nat (length (id :: ids)) - (i + 1)) with (Z.succ (Z.of_nat (length ids))) by (cbn [length]; lia).
    rewrite (seqZ_cons (i + 1)) by lia. do 2 f_equal; lia.
Qed.

Lemma ns_numbers_text ids :
  (length ids ≤ 1000)%nat → ns_numbers (py_splitlines (list_ns_text ids)) = Ret (Zrange 1 (Z.of_nat (length ids) + 1)).
Proof.
  intros H. unfold list_ns_text. rewrite splitlines_ended by (apply ns_lines_inline; lia).
  rewrite ns_numbers_lines by lia. do 2 f_equal. lia.
Qed.

(** A device and the namespaces on it: [nvme list-ns] prints them and [nvme delete-ns] removes
    one, if it is there. *)
Class NvmeMachine (W : Type) {HE : Env W} (binary device : string) := {
  ids : W → list Z;
  nm_list w : env_system_output (binary +:+ " list-ns " +:+ device) [IgnoreStatus; Shell] w =
    (Ret (list_ns_text (ids w)), w);
  nm_delete i w : ∃ z w', env_system (binary +:+ " delete-ns " +:+ device +:+ " -n " +:+ py_str_Z i)
      [Shell; IgnoreStatus] w = (Ret z, w') ∧ ids w' = filter (λ j, j ≠ i) (ids w);
}.

Section namespaces.
Context {W : Type} {HE : Env W} {HV : NvmeLib W} (x : nvme_self).
Context {HM : NvmeMachine W (nv_binary x) (nv_device x)}.
Implicit Types (w : W).
Abbreviation ids_of := (ids (binary:=nv_binary x) (device:=nv_device x)).

Lemma ns_list_runs w : (length (ids_of w) ≤ 1000)%nat →
  runs ns_list w x (Ret (Zrange 1 (Z.of_nat (length (ids_of w)) + 1))) w x.
Proof using Type.
  intros H. unfold ns_list. run_step. run_step. eapply runs_bind.
  - eapply runs_bind; [apply runs_ext, nm_list|]. apply runs_ret.
  - cbv beta. rewrite ns_numbers_text by done. apply runs_lift.
Qed.

Lemma delete_ns_runs i w : ∃ w', runs (delete_ns i) w x (Ret ()) w' x ∧ ids_of w' = filter (λ j, j ≠ i) (ids_of w).
Proof using Type.
  destruct (nm_delete i w) as (z & w' & E & H). exists w'. split; [|done].
  unfold delete_ns. run_step. run_step. eapply runs_bind; [by apply runs_ext|]. apply runs_ret.
Qed.

(** [delete_all_ns] takes the positions in the list for identifiers: of [n] namespaces it
    deletes those with the identifiers 1 to [n], and the namespaces that stay are those with an
    identifier above their number. *)
Theorem delete_all_ns_leaves w :
  (length (ids_of w) ≤ 1000)%nat → Forall (λ i, 1 ≤ i) (ids_of w) →
  ∃ w', runs delete_all_ns w x (Ret ()) w' x ∧
    ids_of w' = filter (λ i, Z.of_nat (length (ids_of w)) < i) (ids_of w).
Proof using Type.
  intros Hlen Hpos. set (n := Z.of_nat (length (ids_of w))).
  destruct (runs_for_each (Zrange 1 (n + 1)) delete_ns
    (λ done w' x', x' = x ∧ ids_of w' = filter (λ i, i ∉ done) (ids_of w)) w x) as (w' & x' & E & -> & H).
  - intros dn i todo w1 ? _ [-> H1]. destruct (delete_ns_runs i w1) as (w2 & E2 & H2).
    exists w2, x. split; [exact E2|]. split; [done|]. rewrite H2, H1, list_filter_filter.
    apply list_filter_iff. intros j. rewrite elem_of_app, list_elem_of_singleton. tauto.
  - split; [done|]. symmetry. clear. induction (ids_of w) as [|j l IH]; [done|]. rewrite filter_cons, IH.
    rewrite decide_True; [done|]. apply not_elem_of_nil.
  - exists w'. split.
    + unfold delete_all_ns. eapply runs_bind; [by apply ns_list_runs|]. exact E.
    + rewrite H. clearbody n. clear -Hpos. induction Hpos as [|j l Hj _ IH]; [done|]. rewrite !filter_cons, IH.
      repeat case_decide; try done; rewrite elem_of_Zrange in *; lia.
Qed.
End namespaces.

(** ** The block format *)

(** What the documentation of [get_optimal_flbas] asks of the selected format among [formats]. *)
Definition well_selected (formats : list lba_format) (fmt : lba_format) : Prop :=
  fmt ∈ formats ∧
  (lf_index fmt = 0 ∨
   (∀ f, f ∈ formats → lf_index f ≠ 0) ∧
   ((∃ f, f ∈ formats ∧ no_metadata f = true) → no_metadata fmt = true) ∧
   (∀ size, size ∈ [512; 4096] → (∃ f, f ∈ formats ∧ no_metadata f = true ∧ has_block_size size f = true) →
      has_block_size 512 fmt = true ∨ has_block_size size fmt = true)).

Lemma find_none_elem {A} (p : A → bool) l y : List.find p l = None → y ∈ l → p y = false.
Proof. intros H Hy. apply (find_none _ _ H). by apply list_elem_of_In. Qed.
Lemma find_some_elem {A} (p : A → bool) l y : List.find p l = Some y → y ∈ l ∧ p y = true.
Proof. intros H. apply find_some in H as [H1 H2]. split; [by apply list_elem_of_In|done]. Qed.

Lemma plain_elem formats f : f ∈ List.filter no_metadata formats ↔ f ∈ formats ∧ no_metadata f = true.
Proof. rewrite !list_elem_of_In. apply filter_In. Qed.

(** the format that is selected is one of the device's; it is format 0 if that is valid,
    and otherwise one without metadata if there is one, of 512 bytes if possible, else of 4096
    if possible.  Only an empty list has none. *)
Theorem select_format_sound formats :
  match select_format formats with
  | Some (fmt, warn) => well_selected formats fmt ∧ (warn = true → no_metadata fmt = false)
  | None => formats = []
  end.
Proof.
  unfold select_format. destruct (List.find (λ fmt, lf_index fmt =? 0) formats) as [fmt|] eqn:E0.
  { apply find_some_elem in E0 as [Hin H0]. apply Z.eqb_eq in H0. split; [|done]. split; [done|by left]. }
  assert (∀ f, f ∈ formats → lf_index f ≠ 0) as Hne.
  { intros f Hf. apply (find_none_elem _ _ f E0) in Hf. by apply Z.eqb_neq. }
  set (plain := List.filter no_metadata formats).
  assert (∀ fmt, fmt ∈ plain →
    (∀ size, size ∈ [512; 4096] → (∃ f, f ∈ plain ∧ has_block_size size f = true) →
       has_block_size 512 fmt = true ∨ has_block_size size fmt = true) →
    well_selected formats fmt ∧ (false = true → no_metadata fmt = false)) as Hplain.
  { intros fmt [Hin Hm]%plain_elem Hs. split; [|done]. split; [done|]. right. split; [done|]. split; [done|].
    intros size Hsize (f & Hf & Hfm & Hfs). apply Hs; [done|]. exists f. split; [|done]. by apply plain_elem. }
  destruct (List.find (has_block_size 512) plain) as [fmt|] eqn:E1.
  { apply find_some_elem in E1 as [Hin Hb]. apply Hplain; [done|]. auto. }
  destruct (List.find (has_block_size 4096) plain) as [fmt|] eqn:E2.
  { apply find_some_elem in E2 as [Hin Hb]. apply Hplain; [done|].
    intros size Hsize (f & Hf & Hfs). right. apply elem_of_cons in Hsize as [->|Hsize%list_elem_of_singleton]; [|by subst].
    by rewrite (find_none_elem _ _ f E1 Hf) in Hfs. }
  destruct plain as [|fmt l] eqn:Ep.
  - destruct formats as [|fmt formats]; [done|].
    assert (∀ f, f ∈ fmt :: formats → no_metadata f = false) as Hm.
    { intros f Hf. destruct (no_metadata f) eqn:E; [|done]. exfalso. apply (not_elem_of_nil f). rewrite <- Ep.
      by apply plain_elem. }
    split; [|intros _; apply Hm; left]. split; [left|]. right. split; [done|]. split.
    + intros (f & Hf & Hfm). by rewrite (Hm f Hf) in Hfm.
    + intros size _ (f & Hf & Hfm & _). by rewrite (Hm f Hf) in Hfm.
  - apply Hplain; [left|]. intros size Hsize (f & Hf & Hfs).
    apply elem_of_cons in Hsize as [->|Hsize%list_elem_of_singleton]; [|subst size];
      [by rewrite (find_none_elem _ _ f E1 Hf) in Hfs|by rewrite (find_none_elem _ _ f E2 Hf) in Hfs].
Qed.

(** ** The firmware upgrade *)

(** The results of the commands: a download, the commit of a slot with an action, the reset of
    the controller. *)
Class FirmwareMachine (W : Type) {HE : Env W} {HV : NvmeLib W} (x : nvme_self) := {
  fw_path : string;
  fw_downloads : bool;
  fw_commits : Z → Z → bool;
  fw_resets : bool;
  fw_get args w : nv_lib "download.get_file" args w = (Ret (VStr fw_path), w);
  fw_download w : ∃ z, env_system (nv_binary x +:+ " fw-download " +:+ nv_device x +:+ " --fw=" +:+ fw_path)
    [Shell; IgnoreStatus] w = (Ret z, w) ∧ (z =? 0) = fw_downloads;
  fw_commit slot action w : ∃ z, env_system (nv_binary x +:+ " fw-commit " +:+ nv_device x +:+ " -s " +:+
      py_str_Z slot +:+ " -a " +:+ py_str_Z action) [Shell; IgnoreStatus] w = (Ret z, w) ∧
    (z =? 0) = fw_commits slot action;
  fw_log w : ∃ z, env_system (nv_binary x +:+ " fw-log " +:+ nv_device x) [Shell; IgnoreStatus] w = (Ret z, w);
  fw_reset d w : device_name (nv_device x) = Ret d → ∃ z,
    env_system ("echo 1 > /sys/class/nvme/" +:+ d +:+ "/reset_controller") [Shell; IgnoreStatus] w = (Ret z, w) ∧
    (z =? 0) = fw_resets;
}.

Section firmware.
Context {W : Type} {HE : Env W} {HV : NvmeLib W} (x : nvme_self) {HM : FirmwareMachine W x}.
Implicit Types (w : W).

(** An action that succeeds on a slot. *)
Definition good (slot action : Z) : bool := fw_downloads && fw_commits slot action.
Definition actions : list Z := [0; 1; 2].
Definition tried (slots : Z) : list Z := List.filter (slot_writable (nv_id_ctrl x)) (Zrange 1 (slots + 1)).

(** What is recorded of the given slots. *)
Fixpoint recorded (ok : Z → Z → bool) (l : list Z) : commits :=
  match l with [] => [] | slot :: l' => track slot (List.filter (ok slot) actions) [] ++ recorded ok l' end.

Lemma track_app slot a c : track slot a c = c ++ track slot a [].
Proof using Type. destruct a; [by rewrite app_nil_r|done]. Qed.

Lemma recorded_app ok l1 l2 : recorded ok (l1 ++ l2) = recorded ok l1 ++ recorded ok l2.
Proof using Type. induction l1 as [|s l1 IH]; [done|]. cbn. by rewrite IH, app_assoc. Qed.

Lemma recorded_nil ok l : recorded ok l = [] ↔ ∀ slot action, slot ∈ l → action ∈ actions → ok slot action = false.
Proof using Type.
  induction l as [|s l IH]; cbn [recorded].
  - split; [|done]. intros _ ? ? H. by apply not_elem_of_nil in H.
  - rewrite app_nil, IH. split.
    + intros [H1 H2] slot action [->|Hin]%elem_of_cons Ha; [|by apply H2].
      destruct (ok s action) eqn:E; [|done]. exfalso.
      assert (action ∈ List.filter (ok s) actions) as Hf by (rewrite list_elem_of_In, filter_In, <- list_elem_of_In; done).
      destruct (List.filter (ok s) actions); [by apply not_elem_of_nil in Hf|done].
    + intros H. split; [|intros; apply H; [by right|done]].
      destruct (List.filter (ok s) actions) as [|a l'] eqn:E; [done|]. exfalso.
      assert (a ∈ List.filter (ok s) actions) as Hf by (rewrite E; left).
      rewrite list_elem_of_In, filter_In, <- list_elem_of_In in Hf. destruct Hf as [Ha Hok].
      rewrite (H s a) in Hok; [done|left|done].
Qed.

Definition d_cmd : string := nv_binary x +:+ " fw-download " +:+ nv_device x +:+ " --fw=" +:+ fw_path.

Lemma commit_action_runs slot passed failed action w :
  runs (commit_action d_cmd slot (passed, failed) action) w x
    (Ret (if good slot action then (passed ++ [action], failed) else (passed, failed ++ [action]))) w x.
Proof using Type.
  unfold commit_action, good. run_step. run_step. destruct (fw_download w) as (z & E & Hz).
  eapply runs_bind; [apply runs_ext; exact E|]. cbv beta. rewrite Hz.
  destruct fw_downloads; cbn [negb andb]; [|run].
  destruct (fw_commit slot action w) as (z' & E' & Hz'). eapply runs_bind; [by apply runs_ext|]. cbv beta. rewrite Hz'.
  destruct (fw_commits slot action); cbn [negb]; run.
Qed.

Lemma actions_run slot w :
  runs (for_acc (Zrange 0 FW_COMMIT_ACTION_ACTIVATE_NO_RESET) ([], []) (commit_action d_cmd slot)) w x
    (Ret (List.filter (good slot) actions, List.filter (λ a, negb (good slot a)) actions)) w x.
Proof using Type.
  change (Zrange 0 FW_COMMIT_ACTION_ACTIVATE_NO_RESET) with actions.
  destruct (runs_for_acc actions (commit_action d_cmd slot) (λ done b w' x', w' = w ∧ x' = x ∧
    b = (List.filter (good slot) done, List.filter (λ a, negb (good slot a)) done)) ([], []) w x)
    as (b & w' & x' & E & -> & -> & ->); [|done|done].
  intros dn a todo b w' ? _ (-> & -> & ->). eexists _, w, x. split; [apply commit_action_runs|].
  split_and!; [done|done|]. rewrite !List.filter_app. cbn [List.filter].
  destruct (good slot a); cbn [negb]; by rewrite ?app_nil_r.
Qed.

Lemma slots_run l w :
  runs (for_acc l ([], []) (slot_step d_cmd)) w x
    (Ret (recorded good (List.filter (slot_writable (nv_id_ctrl x)) l),
          recorded (λ s a, negb (good s a)) (List.filter (slot_writable (nv_id_ctrl x)) l))) w x.
Proof using Type.
  destruct (runs_for_acc l (slot_step d_cmd) (λ done b w' x', w' = w ∧ x' = x ∧
    b = (recorded good (List.filter (slot_writable (nv_id_ctrl x)) done),
         recorded (λ s a, negb (good s a)) (List.filter (slot_writable (nv_id_ctrl x)) done))) ([], []) w x)
    as (b & w' & x' & E & -> & -> & ->); [|done|done].
  intros dn slot todo b w' ? _ (-> & -> & ->). rewrite !List.filter_app, !recorded_app. cbn [List.filter].
  destruct (slot_writable (nv_id_ctrl x) slot) eqn:Ew; cbn [recorded]; rewrite !app_nil_r; eexists _, w, x;
    (split; [unfold slot_step, firmware_slot_write_supported; (eapply runs_bind; [run|]); cbv beta; rewrite Ew; cbn [negb]|]).
  - eapply runs_bind; [apply actions_run|]. apply runs_ret.
  - split_and!; [done|done|]. by rewrite (track_app slot _ (recorded good _)), (track_app slot _ (recorded (λ s a, negb (good s a)) _)).
  - run_step. apply runs_ret.
  - done.
Qed.

Lemma reset_needed_recorded l : reset_needed (recorded good l) = match recorded good l with [] => false | _ => true end.
Proof using Type.
  assert (∀ l, Forall (λ c, existsb (Z.eqb 3) c.2 = false) (recorded good l)) as H.
  { clear. induction l as [|s l IH]; cbn [recorded]; [constructor|]. apply Forall_app. split; [|done].
    assert (existsb (Z.eqb 3) (List.filter (good s) actions) = false) as E.
    { unfold actions. cbn [List.filter]. by destruct (good s 0), (good s 1), (good s 2). }
    destruct (List.filter (good s) actions); [constructor|]. by repeat constructor. }
  specialize (H l). destruct H as [|[s a] c Ha H]; [done|]. unfold reset_needed. cbn [existsb].
  cbn [snd] in Ha. change FW_COMMIT_ACTION_ACTIVATE_NO_RESET with 3. by rewrite Ha.
Qed.

Lemma controller_reset_runs d w : device_name (nv_device x) = Ret d →
  ∃ z, runs reset_controller_sysfs w x (Ret z) w x ∧ (z =? 0) = fw_resets.
Proof using Type.
  intros Hd. destruct (fw_reset d w Hd) as (z & E & Hz). exists z. split; [|done].
  unfold reset_controller_sysfs. run_step. rewrite Hd. run_step. by apply runs_ext.
Qed.

(** The judgement of the commits, before the last steps of the test. *)
Lemma judge_failures_runs (passed failed : commits) (rest : M W nvme_self ()) w :
  runs rest w x (Ret ()) w x →
  runs (when (match failed with [] => false | _ => true end)
      (log_error ("Passed commits: " +:+ commits_repr passed) ;;
       log_error ("Failed commits: " +:+ commits_repr failed) ;;
       test_fail ("Firmware commit failed for slots/actions: " +:+ commits_repr failed)) ;; rest) w x
    (match failed with [] => Ret ()
     | _ => raise_ TestFail ("Firmware commit failed for slots/actions: " +:+ commits_repr failed) end) w x.
Proof using Type.
  intros E. destruct failed as [|c cs].
  - eapply runs_bind; [apply runs_when_false|]. exact E.
  - apply runs_bind_raise. apply runs_when_true. run_step. run_step. apply runs_throw.
Qed.

(** What the upgrade does on a device with the given number of slots: the commits that fail. *)
Definition failures (slots : Z) : commits := recorded (λ s a, negb (good s a)) (tried slots).
Definition successes (slots : Z) : commits := recorded good (tried slots).

(** C8: [test_firmware_upgrade] passes exactly when every download and every commit of the
    actions 0 to 2 on every writable slot succeeds and the reset that follows a successful
    commit does: action 3, the one that needs no reset, is never tried, so a reset is needed as
    soon as one commit succeeds.  Otherwise the test fails; the reset is judged first. *)
Theorem firmware_upgrade_verdict url fw_file fw_version slots d current w :
  nv_firmware_url x = VStr url → last_text (py_split_on "/" url) = Ret fw_file →
  nth_text 0 (py_split_on "." fw_file) = Ret fw_version → firmware_slots (nv_id_ctrl x) = Ret slots →
  id_ctrl_prop (nv_id_ctrl x) "fr" = Ret current → device_name (nv_device x) = Ret d →
  runs test_firmware_upgrade w x
    (if match successes slots with [] => false | _ => negb fw_resets end
     then raise_ TestFail "Controller reset after FW update failed"
     else match failures slots with
          | [] => Ret ()
          | _ => raise_ TestFail ("Firmware commit failed for slots/actions: " +:+ commits_repr (failures slots))
          end) w x ∧
  (failures slots = [] ↔ ∀ slot action, slot ∈ tried slots → action ∈ actions → good slot action = true) ∧
  (successes slots = [] ↔ ∀ slot action, slot ∈ tried slots → action ∈ actions → good slot action = false).
Proof using Type.
  intros Hurl Hfile Hver Hslots Hcur Hd. split; [|split].
  2: { unfold failures. rewrite recorded_nil. split; intros H s a Hs Ha; specialize (H s a Hs Ha);
         [by apply negb_false_iff|by apply negb_false_iff]. }
  2: { apply recorded_nil. }
  assert (∀ w, runs get_firmware_log w x (Ret ()) w x) as Elog.
  { intros w'. destruct (fw_log w') as (z & E). unfold get_firmware_log. run_step. run_step.
    eapply runs_bind; [by apply runs_ext|]. apply runs_ret. }
  assert (∀ w, runs get_firmware_version w x (Ret current) w x) as Ever.
  { intros w'. unfold get_firmware_version, get_id_ctrl_prop. run_step. rewrite Hcur. apply runs_lift. }
  unfold test_firmware_upgrade. run_step. rewrite Hurl. cbn [as_text]. run_step. rewrite Hfile. run_step. rewrite Hver.
  run_step. eapply runs_bind; [apply runs_ext, fw_get|]. eapply runs_bind; [apply Ever|]. run_step.
  eapply runs_bind; [apply Elog|]. run_step. run_step. cbv zeta. cbn [py_str].
  eapply runs_bind; [unfold get_firmware_slots; run_step; rewrite Hslots; apply runs_lift|]. cbv beta.
  eapply runs_bind; [apply slots_run|]. cbv beta iota.
  change (recorded good (List.filter (slot_writable (nv_id_ctrl x)) (Zrange 1 (slots + 1)))) with (successes slots).
  change (recorded _ (List.filter (slot_writable (nv_id_ctrl x)) (Zrange 1 (slots + 1)))) with (failures slots).
  assert (reset_needed (successes slots) = match successes slots with [] => false | _ => true end) as Hr
    by apply reset_needed_recorded.
  rewrite Hr. destruct (controller_reset_runs d w Hd) as (z & Er & Hz).
  assert (runs (get_firmware_log ;; new_fw ← get_firmware_version;
      if negb (String.eqb fw_version new_fw)
      then log_warning ("Firmware version mismatch: expected " +:+ fw_version +:+ ", got " +:+ new_fw)
      else log_info ("Firmware successfully updated from " +:+ current +:+ " to " +:+ new_fw)) w x (Ret ()) w x) as Eend.
  { eapply runs_bind; [apply Elog|]. eapply runs_bind; [apply Ever|]. cbv beta.
    destruct (negb (String.eqb fw_version current)); apply runs_log. }
  pose proof (judge_failures_runs (successes slots) (failures slots) _ w Eend) as Ejudge.
  destruct (successes slots) as [|c cs]; 
    [eapply runs_bind; [apply runs_when_false|]; exact Ejudge|].
  destruct fw_resets; cbn [negb].
  - eapply runs_bind; [|exact Ejudge]. apply runs_when_true. run_step. eapply runs_bind; [exact Er|]. cbv beta.
    rewrite Hz. apply runs_when_false.
  - apply runs_bind_raise. apply runs_when_true. run_step. eapply runs_bind; [exact Er|]. cbv beta.
    rewrite Hz. apply runs_when_true, runs_throw.
Qed.
End firmware.
