(* ===== verification/NvmeSim.v ===== *)
(** * A simulated NVMe device

    A device whose namespaces nvme-cli lists and deletes and whose second slot refuses one
    firmware commit: an instance of the classes of NvmeSystem. *)

From S2P Require Import Prelude PyStr PyFloat PyVal Avocado Logic Nvme NvmeSystem.
Open Scope Z_scope.

(** The identifiers of the namespaces. *)
Definition nvme_world := list Z.

Definition sim_id_ctrl : string :=
  "fr        : 2.1" +:+ NL +:+ "frmw      : 0x15" +:+ NL +:+ "  [3:1] : 0x2 Number of Firmware Slots" +:+ NL +:+
  "  [0:0] : 0x1 Firmware Slot 1 Read-Only" +:+ NL.

Definition nvme_x : nvme_self :=
  NvmeSelf "/dev/nvme0" (VStr "distro") "nvme" (NInt 4096) (VStr "1") (VBool false) "/dev/nvme0n1"
    (VStr "http://host/fw/3.0.bin") sim_id_ctrl.

Definition refused : string := "nvme fw-commit /dev/nvme0 -s 2 -a 1".

Definition nvme_system (cmd : string) (w : nvme_world) : result Z * nvme_world :=
  match drop_prefix (chars_of "nvme delete-ns /dev/nvme0 -n ") (chars_of cmd) with
  | Some l => (Ret 0, filter (λ j, j ≠ default 0 (int_of_chars l)) w)
  | None => (Ret (if String.eqb cmd refused then 1 else 0), w)
  end.

#[export] Instance nvme_env : Env nvme_world := {|
  env_run := λ _ _ w, (Ret (CmdResult 0 ""), w);
  env_system := λ cmd _ w, nvme_system cmd w;
  env_system_output := λ cmd _ w, (Ret (list_ns_text w), w);
  env_ssh := λ _ _ w, (Ret (CmdResult 0 ""), w);
  env_connect := λ _ _ _ w, (Ret true, w);
  env_show := stdout_text;
  env_param := λ _ d, d;
  env_exists := λ _ w, (true, w);
  env_read := λ _ w, (Ret "", w);
  env_append := λ _ _ w, (Ret (), w);
  env_remove := λ _ w, (Ret (), w);
  env_random := λ w, (0, w);
|}.

#[export] Instance nvme_lib : NvmeLib nvme_world := {|
  nv_lib := λ _ _ w, (Ret (VStr "/tmp/3.0.bin"), w);
  absolute_disk_path := λ v w, (Ret (py_str v), w);
  json_loads := λ _, Ret (VDict []);
  exp2_float := λ f, Ret f;
  test_name := "1-nvmetest.py:NVMeTest.test_firmware_upgrade";
  nv_tmpdir := "/tmp";
|}.

Lemma delete_eq i w :
  nvme_system ("nvme delete-ns /dev/nvme0 -n " +:+ py_str_Z i) w = (Ret 0, filter (λ j, j ≠ i) w).
Proof.
  unfold nvme_system. rewrite chars_of_app, drop_prefix_app. pose proof (int_of_padded [] [] i) as H. cbn [app] in H.
  rewrite app_nil_r in H. by rewrite H by constructor.
Qed.

#[export] Instance nvme_namespaces : NvmeMachine nvme_world "nvme" "/dev/nvme0".
Proof.
  refine {| ids := λ w : nvme_world, w |}; [done|].
  intros i w. exists 0, (filter (λ j, j ≠ i) w). split; [exact (delete_eq i w)|done].
Defined.

Lemma status_ok (b : bool) : ((if b then 1 else 0) =? 0) = negb b.
Proof. by destruct b. Qed.

#[export] Instance nvme_firmware : FirmwareMachine nvme_world nvme_x.
Proof.
  refine {| fw_path := "/tmp/3.0.bin"; fw_downloads := true; fw_resets := true;
            fw_commits := λ slot action, negb (String.eqb ("nvme fw-commit /dev/nvme0 -s " +:+ py_str_Z slot +:+
              " -a " +:+ py_str_Z action) refused) |}.
  - done.
  - intros w. by exists 0.
  - intros slot action w. eexists. split; [reflexivity|]. exact (status_ok _).
  - intros w. by exists 0.
  - intros d w [= <-]. by exists 0.
Defined.

(** Of the namespaces 2 and 3, only the first goes: the list has two entries. *)
Lemma delete_all_ns_leaves_witness :
  ∃ w', runs delete_all_ns ([2; 3] : nvme_world) nvme_x (Ret ()) w' nvme_x ∧ w' = [3].
Proof.
  destruct (delete_all_ns_leaves nvme_x (HM:=nvme_namespaces) ([2; 3] : nvme_world)) as (w' & E & H).
  - vm_compute. lia.
  - repeat constructor; lia.
  - exists w'. split; [exact E|]. exact H.
Defined.

Lemma firmware_upgrade_verdict_witness :
  runs test_firmware_upgrade ([1] : nvme_world) nvme_x
    (raise_ TestFail "Firmware commit failed for slots/actions: {2: [1]}") [1] nvme_x.
Proof.
  destruct (firmware_upgrade_verdict nvme_x "http://host/fw/3.0.bin" "3.0.bin" "3" 2 "nvme0" "2.1" ([1] : nvme_world))
    as [E _]; [by vm_compute..|]. exact E.
Defined.
