(* ===== verification/CpuDie.v ===== *)
(** * The die topology test: cpu/cpu_die_topology.py

    The class [CPUDieTopology]: reading the topology files of the CPUs, the checks of die
    identifiers, of the CPU lists of a die and of the packages, the choice of CPUs for the
    comparison within a die and across dies, the benchmark runs and tearDown.  The package
    manager, avocado's [archive] and [build] and the test's directories are the class
    [DieLib]. *)

From stdpp Require Import sorting.
From S2P Require Import Prelude PyStr PyFloat PyVal PyRegex Avocado Logic.
Open Scope Z_scope.

(** ** Data *)

(** The attributes of [self]; [None] is an attribute that is not set. *)
Record die_self := DieSelf {
  di_failures : option (list string);
  di_online_cpus : list Z;
  di_test_type : pyval;
  di_hackbench_groups : option pyval;
  di_hackbench_loops : option pyval;
  di_hackbench_iterations : option pyval;
  di_hackbench_binary : option string;    (* also None in the program *)
}.

Definition new_die : die_self := DieSelf None [] VNone None None None None.

Definition with_failures (l : list string) (x : die_self) : die_self :=
  DieSelf (Some l) (di_online_cpus x) (di_test_type x) (di_hackbench_groups x) (di_hackbench_loops x)
    (di_hackbench_iterations x) (di_hackbench_binary x).
Definition with_online_cpus (l : list Z) (x : die_self) : die_self :=
  DieSelf (di_failures x) l (di_test_type x) (di_hackbench_groups x) (di_hackbench_loops x)
    (di_hackbench_iterations x) (di_hackbench_binary x).
Definition with_test_type (v : pyval) (x : die_self) : die_self :=
  DieSelf (di_failures x) (di_online_cpus x) v (di_hackbench_groups x) (di_hackbench_loops x)
    (di_hackbench_iterations x) (di_hackbench_binary x).
Definition with_hackbench (groups loops iterations : pyval) (x : die_self) : die_self :=
  DieSelf (di_failures x) (di_online_cpus x) (di_test_type x) (Some groups) (Some loops) (Some iterations) None.
Definition with_hackbench_binary (b : option string) (x : die_self) : die_self :=
  DieSelf (di_failures x) (di_online_cpus x) (di_test_type x) (di_hackbench_groups x) (di_hackbench_loops x)
    (di_hackbench_iterations x) b.

Class DieLib (W : Type) := {
  di_lib : string → list pyval → W → result pyval * W;
  (* cpu.online_list() *)
  di_online_list : W → result (list Z) * W;
  (* distro.detect().arch and self.workdir *)
  di_arch : string;
  di_workdir : string;
}.

(** ** Text *)

Definition cpu_path : string := "/sys/devices/system/cpu".

Definition topology_path (cpu : Z) (filename : string) : string :=
  path_join (path_join (path_join cpu_path ("cpu" +:+ py_str_Z cpu)) "topology") filename.

(** [str((a, b, ..))] *)
Definition tuple_repr (items : list pyval) : string := "(" +:+ py_join ", " (map py_repr items) +:+ ")".
Definition tuples_repr (l : list (list pyval)) : string := "[" +:+ py_join ", " (map tuple_repr l) +:+ "]".
Definition ints_repr (l : list Z) : string := py_repr (VList (map VInt l)).

(** A dictionary of texts by CPU. *)
Definition lists_repr (d : list (Z * string)) : string :=
  "{" +:+ py_join ", " (map (λ '(cpu, s), py_str_Z cpu +:+ ": " +:+ quote s) d) +:+ "}".
Definition inconsistencies_repr (l : list (Z * list (Z * string))) : string :=
  "[" +:+ py_join ", " (map (λ '(die, d), "(" +:+ py_str_Z die +:+ ", " +:+ lists_repr d +:+ ")") l) +:+ "]".

Definition spaces (n : nat) : string := str_of (blanks n).
Definition ruler (c : ascii) : string := str_of (repeat c 60).

(** [Time:], blanks, digits and points (group 1). *)
Definition re_time : re :=
  (RLit "Time:" ~> RPlus Rspace ~> RGroup 1 (RPlus (RClass (λ c, is_digit c || Ascii.eqb c "."))))%re.

(** [if die not in d: d[die] = []], then [d[die].append(cpu)] *)
Definition add_to_die (die cpu : Z) (d : list (Z * list Z)) : list (Z * list Z) :=
  dict_set die (default [] (dict_get die d) ++ [cpu]) d.

(** [sorted(d.items(), key=lambda x: len(x[1]), reverse=True)]: stable. *)
Fixpoint insert_die (e : Z * list Z) (l : list (Z * list Z)) : list (Z * list Z) :=
  match l with
  | [] => [e]
  | y :: l' => if (length y.2 <? length e.2)%nat then e :: l else y :: insert_die e l'
  end.
Definition sort_dies (l : list (Z * list Z)) : list (Z * list Z) := foldl (λ acc e, insert_die e acc) [] l.

(** [sorted(l)] of integers *)
Definition sorted_cpus (l : list Z) : list Z := merge_sort Z.le l.

(** The CPUs within the largest die, and across the two largest dies. *)
Definition same_die_set (die0_cpus : list Z) : list Z := take (Nat.min 16 (length die0_cpus)) (sorted_cpus die0_cpus).
Definition cross_die_set (die0_cpus die1_cpus : list Z) : list Z :=
  sorted_cpus (take (Nat.min 8 (length die0_cpus)) (sorted_cpus die0_cpus) ++
               take (Nat.min 8 (length die1_cpus)) (sorted_cpus die1_cpus)).

(** [min(l)] and [max(l)] *)
Definition num_least (x : num) (l : list num) : num := foldl (λ m y, if num_lt y m then y else m) x l.
Definition num_greatest (x : num) (l : list num) : num := foldl (λ m y, if num_lt m y then y else m) x l.
Definition least_of (l : list num) : result num :=
  match l with x :: l' => Ret (num_least x l') | [] => raise_ ValueError "min() arg is an empty sequence" end.
Definition greatest_of (l : list num) : result num :=
  match l with x :: l' => Ret (num_greatest x l') | [] => raise_ ValueError "max() arg is an empty sequence" end.

(** ** The class CPUDieTopology *)

Section CPUDieTopology.
Context {W : Type} {HE : Env W} {HD : DieLib W}.
Abbreviation T := (M W die_self).

Definition di_call (fn : string) (args : list pyval) : T pyval := ext (EvCall fn args) (di_lib fn args).

Definition setUp : T () :=
  when (negb (py_in "ppc" di_arch)) (test_cancel "Test is specific to PowerPC architecture") ;;
  modify (with_failures []) ;;
  online_cpus ← ext (EvCall "cpu.online_list" []) di_online_list;
  modify (with_online_cpus online_cpus) ;;
  when (match online_cpus with [] => true | _ => false end) (test_cancel "No online CPUs found") ;;
  log_info ("Testing with " +:+ py_str_Z (Z.of_nat (length online_cpus)) +:+ " online CPUs") ;;
  test_type ← get_param "test_type" (VStr "topology");
  modify (with_test_type test_type) ;;
  when (py_eq test_type (VStr "performance"))
    (groups ← get_param "hackbench_groups" (VStr "20");
     loops ← get_param "hackbench_loops" (VStr "2000");
     iterations ← get_param "hackbench_iterations" (VStr "4");
     modify (with_hackbench groups loops iterations)).

Definition read_topology_file (cpu : Z) (filename : string) : T (option string) :=
  let filepath := topology_path cpu filename in
  b ← path_exists filepath;
  if negb b then mret None
  else
    try_except (t ← read_file filepath; mret (Some (py_strip t))) any_exn
      (λ e, log_error ("Failed to read " +:+ filename +:+ " for CPU" +:+ py_str_Z cpu +:+ ": " +:+ ex_msg e) ;;
            mret None).

(** [self.failures.append(msg)] *)
Definition add_failure (msg : string) : T () :=
  l ← attr "failures" di_failures; modify (with_failures (l ++ [msg])).

(** "CPU%d: " *)
Definition cpu_tag (cpu : Z) : string := "CPU" +:+ py_str_Z cpu +:+ ": ".

(** One CPU of [test_die_id_presence]; [missing] is [missing_die_id]. *)
Definition presence_step (missing : list Z) (cpu : Z) : T (list Z) :=
  die_id ← read_topology_file cpu "die_id";
  match die_id with
  | None => log_warning (cpu_tag cpu +:+ "die_id file not found") ;; mret (missing ++ [cpu])
  | Some s => log_debug (cpu_tag cpu +:+ "die_id = " +:+ s) ;; mret missing
  end.

Definition test_die_id_presence : T () :=
  log_info "Test 1: Checking die_id presence for all online CPUs" ;;
  online_cpus ← gets di_online_cpus;
  missing_die_id ← for_acc online_cpus [] presence_step;
  match missing_die_id with
  | [] => log_info "PASS: die_id present for all online CPUs"
  | _ => log_info "Note: die_id may not be available on systems without coregroup support (returns -1)"
  end.

Definition cpumask_step (missing : list string) (cpu : Z) : T (list string) :=
  die_cpus ← read_topology_file cpu "die_cpus";
  die_cpus_list ← read_topology_file cpu "die_cpus_list";
  let absent (v : option string) name := match v with None => [cpu_tag cpu +:+ name] | Some _ => [] end in
  mret (missing ++ absent die_cpus "die_cpus" ++ absent die_cpus_list "die_cpus_list").

Definition test_die_cpumask_presence : T () :=
  log_info "Test 2: Checking die_cpus and die_cpus_list presence" ;;
  online_cpus ← gets di_online_cpus;
  missing_files ← for_acc (take 1 online_cpus) [] cpumask_step;
  match missing_files with
  | [] => log_info "PASS: die_cpus and die_cpus_list files present"
  | _ => log_info "Note: die_cpus/die_cpus_list may not be available on all systems"
  end.

(** One CPU of [test_die_id_validity]: [die_id_map] and [invalid_die_ids]. *)
Definition validity_step (b : list (Z * Z) * list (list pyval)) (cpu : Z) : T (list (Z * Z) * list (list pyval)) :=
  let '(die_id_map, invalid_die_ids) := b in
  s ← read_topology_file cpu "die_id";
  match s with
  | None => mret b
  | Some die_id_str =>
      match py_int_of_str die_id_str with
      | Some die_id =>
          let die_id_map := dict_set cpu die_id die_id_map in
          if die_id <? -1 then
            log_error (cpu_tag cpu +:+ "Invalid die_id = " +:+ py_str_Z die_id) ;;
            mret (die_id_map, invalid_die_ids ++ [[VInt cpu; VInt die_id]])
          else
            log_debug (cpu_tag cpu +:+ "die_id = " +:+ py_str_Z die_id) ;;
            mret (die_id_map, invalid_die_ids)
      | None =>
          log_error (cpu_tag cpu +:+ "Non-numeric die_id = " +:+ die_id_str) ;;
          mret (die_id_map, invalid_die_ids ++ [[VInt cpu; VStr die_id_str]])
      end
  end.

Definition test_die_id_validity : T (list (Z * Z)) :=
  log_info "Test 3: Validating die_id values" ;;
  online_cpus ← gets di_online_cpus;
  '(die_id_map, invalid_die_ids) ← for_acc online_cpus ([], []) validity_step;
  match invalid_die_ids with
  | [] => log_info "PASS: All die_id values are valid" ;; mret die_id_map
  | _ =>
      add_failure ("Invalid die_id values found: " +:+ spaces 33 +:+ tuples_repr invalid_die_ids) ;;
      test_fail ("FAIL: Invalid die_id values: " +:+ tuples_repr invalid_die_ids)
  end.

(** One CPU of the grouping by die: [keep] tells which dies are kept. *)
Definition group_step (keep : Z → bool) (die_groups : list (Z * list Z)) (cpu : Z) : T (list (Z * list Z)) :=
  s ← read_topology_file cpu "die_id";
  mret (match s with
        | None => die_groups
        | Some die_id_str =>
            match py_int_of_str die_id_str with
            | Some die_id => if keep die_id then add_to_die die_id cpu die_groups else die_groups
            | None => die_groups
            end
        end).

(** One CPU of a die: its CPU list, if it has one that is not empty. *)
Definition die_list_step (die_cpus_lists : list (Z * string)) (cpu : Z) : T (list (Z * string)) :=
  s ← read_topology_file cpu "die_cpus_list";
  mret (match s with
        | Some l => if py_empty l then die_cpus_lists else dict_set cpu l die_cpus_lists
        | None => die_cpus_lists
        end).

Definition consistency_step (inconsistencies : list (Z * list (Z * string))) (die : Z * list Z)
    : T (list (Z * list (Z * string))) :=
  let '(die_id, cpus) := die in
  if die_id =? -1 then log_debug "Skipping die_id -1 (no coregroup support)" ;; mret inconsistencies
  else
    log_debug ("Checking die " +:+ py_str_Z die_id +:+ " with CPUs: " +:+ ints_repr cpus) ;;
    die_cpus_lists ← for_acc cpus [] die_list_step;
    if (1 <? length (remove_dups (map snd die_cpus_lists)))%nat then
      log_error ("Die " +:+ py_str_Z die_id +:+ ": Inconsistent die_cpus_list: " +:+ lists_repr die_cpus_lists) ;;
      mret (inconsistencies ++ [(die_id, die_cpus_lists)])
    else mret inconsistencies.

Definition test_die_cpumask_consistency : T () :=
  log_info "Test 4: Checking die_cpumask consistency" ;;
  online_cpus ← gets di_online_cpus;
  die_groups ← for_acc online_cpus [] (group_step (λ _, true));
  log_info ("Found " +:+ py_str_Z (Z.of_nat (length die_groups)) +:+ " die groups") ;;
  inconsistencies ← for_acc die_groups [] consistency_step;
  match inconsistencies with
  | [] => log_info "PASS: die_cpumask is consistent across all dies"
  | _ =>
      add_failure ("Inconsistent die_cpumask: " +:+ spaces 33 +:+ inconsistencies_repr inconsistencies) ;;
      test_fail ("FAIL: Inconsistent die_cpumask found: " +:+ spaces 22 +:+ inconsistencies_repr inconsistencies)
  end.

(** One CPU of [test_die_package_relationship]: [die_package_map] and [violations]. *)
Definition package_step (b : list (Z * Z) * list (list pyval)) (cpu : Z) : T (list (Z * Z) * list (list pyval)) :=
  let '(die_package_map, violations) := b in
  die_id_str ← read_topology_file cpu "die_id";
  pkg_id_str ← read_topology_file cpu "physical_package_id";
  match die_id_str ≫= py_int_of_str, pkg_id_str ≫= py_int_of_str with
  | Some die_id, Some pkg_id =>
      if die_id =? -1 then mret b
      else match dict_get die_id die_package_map with
           | None => mret (dict_set die_id pkg_id die_package_map, violations)
           | Some expected =>
               if expected =? pkg_id then mret b
               else
                 log_error (cpu_tag cpu +:+ "die_id=" +:+ py_str_Z die_id +:+ " has package_id=" +:+ py_str_Z pkg_id +:+
                            ", expected " +:+ py_str_Z expected) ;;
                 mret (die_package_map, violations ++ [[VInt cpu; VInt die_id; VInt pkg_id; VInt expected]])
           end
  | _, _ => mret b
  end.

Definition test_die_package_relationship : T () :=
  log_info "Test 5: Checking die and physical_package relationship" ;;
  online_cpus ← gets di_online_cpus;
  '(_, violations) ← for_acc online_cpus ([], []) package_step;
  match violations with
  | [] => log_info "PASS: All CPUs in same die are in same package"
  | _ =>
      add_failure ("Die-Package relationship violations: " +:+ spaces 33 +:+ tuples_repr violations) ;;
      test_fail ("FAIL: Die-Package relationship violations: " +:+ spaces 22 +:+ tuples_repr violations)
  end.

(** [die_id and int(die_id) <op> ..]: the number, if the text is there and not empty. *)
Definition die_number (s : option string) : result (option Z) :=
  match s with
  | Some t => if py_empty t then Ret None else z ← py_int (VStr t); Ret (Some z)
  | None => Ret None
  end.

Definition test_cpu_die_mask_function : T () :=
  log_info "Test 6: Testing cpu_die_mask() function behavior" ;;
  online_cpus ← gets di_online_cpus;
  has_coregroup ← (match online_cpus with
                   | [] => mret false
                   | cpu :: _ =>
                       s ← read_topology_file cpu "die_id";
                       n ← lift (die_number s);
                       mret (match n with Some z => 0 <=? z | None => false end)
                   end);
  if (has_coregroup : bool) then
    log_info "System has coregroup support (die_id >= 0)" ;;
    for_each (take 5 online_cpus)
      (λ cpu, die_cpus ← read_topology_file cpu "die_cpus";
              match die_cpus with
              | Some s => when (negb (py_empty s)) (log_debug (cpu_tag cpu +:+ "die_cpus = " +:+ s))
              | None => mret ()
              end)
  else
    log_info "System doesn't have coregroup support(die_id = -1)" ;;
    log_info "On such systems, die_mask equals package mask".

(** ** The benchmark *)

(** [try: ... except Exception as e: self.log.error(msg, str(e)); return None] *)
Definition or_none {A} (m : T A) (msg : string) : T (option A) :=
  try_except (a ← m; mret (Some a)) any_exn (λ e, log_error (msg +:+ ex_msg e) ;; mret None).

(** The packages: the first that cannot be installed ends the set-up. *)
Fixpoint install_all (deps : list string) : T bool :=
  match deps with
  | [] => mret true
  | package :: deps' =>
      c ← di_call "SoftwareManager.check_installed" [VStr package];
      ok ← (if truthy c then mret true
            else i ← di_call "SoftwareManager.install" [VStr package]; mret (truthy i));
      if (ok : bool) then install_all deps'
      else log_warning ("Failed to install " +:+ package) ;; mret false
  end.

Definition ltp_url_default : string := "https://github.com/linux-test-project/ltp/archive/master.zip".

(** Building in the unpacked sources. *)
Definition build_hackbench (ltp_base hackbench_dir : string) : T () :=
  _ ← di_call "os.chdir" [VStr ltp_base];
  _ ← di_call "build.make" [VStr ltp_base; VStr "autotools"];
  _ ← process_run "./configure" [Shell];
  _ ← di_call "os.chdir" [VStr hackbench_dir];
  _ ← di_call "build.make" [VStr hackbench_dir];
  mret ().

(** After the download: unpack and build. *)
Definition unpack_and_build (tarball : pyval) : T (option string) :=
  let ltpdir := path_join di_workdir "ltp" in
  b ← path_exists ltpdir;
  when (negb b) (_ ← di_call "os.makedirs" [VStr ltpdir]; mret ()) ;;
  extracted ← or_none (di_call "archive.extract" [tarball; VStr ltpdir]) "Failed to extract LTP: ";
  match extracted with
  | None => mret None
  | Some _ =>
      let ltp_base := path_join ltpdir "ltp-master" in
      let hackbench_dir := path_join ltp_base "testcases/kernel/sched/cfs-scheduler" in
      b ← path_exists hackbench_dir;
      if negb b then log_error ("Hackbench directory not found: " +:+ hackbench_dir) ;; mret None
      else
        built ← or_none (build_hackbench ltp_base hackbench_dir) "Failed to build hackbench: ";
        match built with
        | None => mret None
        | Some _ =>
            let hackbench_binary := path_join hackbench_dir "hackbench" in
            b ← path_exists hackbench_binary;
            if (b : bool) then log_info ("Hackbench binary ready: " +:+ hackbench_binary) ;; mret (Some hackbench_binary)
            else log_error "Hackbench binary not found after build" ;; mret None
        end
  end.

Definition setup_hackbench : T (option string) :=
  log_info "Setting up hackbench benchmark" ;;
  installed ← install_all ["gcc"; "make"; "wget"];
  if negb installed then mret None
  else
    ltp_url ← get_param "ltp_url" (VStr ltp_url_default);
    tarball ← or_none (di_call "fetch_asset" [VStr "ltp-master.zip"; ltp_url; VStr "7d"]) "Failed to download LTP: ";
    match tarball with None => mret None | Some t => unpack_and_build t end.

(** The seconds in the output of the benchmark. *)
Definition parse_time (output : string) : result (option num) :=
  match re_search re_time output with
  | Some m => f ← py_float (VStr (m_group 1 m)); Ret (Some (NFloat f))
  | None => Ret None
  end.

Definition run_hackbench (cpu_list : list Z) (iteration_num : Z) : T (option num) :=
  binary ← gets di_hackbench_binary;
  available ← (match binary with
               | Some b => if py_empty b then mret false else path_exists b
               | None => mret false
               end);
  if negb available then log_error "Hackbench binary not available" ;; mret None
  else
    let cpu_list_str := py_join "," (map py_str_Z cpu_list) in
    groups ← attr "hackbench_groups" di_hackbench_groups;
    loops ← attr "hackbench_loops" di_hackbench_loops;
    let cmd := "taskset -c " +:+ cpu_list_str +:+ " " +:+ default "" binary +:+ " " +:+ py_str groups +:+ " process " +:+
               py_str loops in
    log_debug ("Running: " +:+ cmd) ;;
    try_except
      (r ← process_run cmd [Shell];
       exec_time ← lift (parse_time (stdout_text r));
       match exec_time with
       | Some t =>
           log_fmt Info (s ← f_of 3 false t;
                         Ret ("Iteration " +:+ py_str_Z iteration_num +:+ " (CPUs " +:+ cpu_list_str +:+ "): Time = " +:+ s +:+ " sec")) ;;
           mret (Some t)
       | None => log_error "Failed to parse time from hackbench" ;; mret None
       end)
      any_exn (λ e, log_error ("Hackbench execution failed: " +:+ ex_msg e) ;; mret None).

Definition get_die_cpu_list (die_id : Z) : T (list Z) :=
  online_cpus ← gets di_online_cpus;
  die_cpus ← for_acc online_cpus []
    (λ die_cpus cpu, s ← read_topology_file cpu "die_id";
                     n ← lift (die_number s);
                     mret (match n with Some z => if z =? die_id then die_cpus ++ [cpu] else die_cpus | None => die_cpus end));
  mret (sorted_cpus die_cpus).

Definition select_test_cpu_sets : T (option (list Z * list Z)) :=
  online_cpus ← gets di_online_cpus;
  die_groups ← for_acc online_cpus [] (group_step (λ die_id, 0 <=? die_id));
  if (length die_groups <? 2)%nat then log_info "System has less than 2 dies, skipping performance test" ;; mret None
  else
    match sort_dies die_groups with
    | (die0_id, die0_cpus) :: (die1_id, die1_cpus) :: _ =>
        if ((length die0_cpus <? 8) || (length die1_cpus <? 8))%nat then
          log_info "Need at least 8 CPUs in each of 2 dies" ;; mret None
        else
          let same_die_cpus := same_die_set die0_cpus in
          log_info ("Selected " +:+ py_str_Z (Z.of_nat (Nat.min 16 (length die0_cpus))) +:+ " same-die CPUs from die " +:+
                    py_str_Z die0_id +:+ ": " +:+ ints_repr same_die_cpus) ;;
          let cross_die_cpus := cross_die_set die0_cpus die1_cpus in
          log_info ("Selected " +:+ py_str_Z (Z.of_nat (length cross_die_cpus)) +:+ " cross-die CPUs from dies " +:+
                    py_str_Z die0_id +:+ " and " +:+ py_str_Z die1_id +:+ ": " +:+ ints_repr cross_die_cpus) ;;
          mret (Some (same_die_cpus, cross_die_cpus))
    | _ => throw IndexError "list index out of range"
    end.

(** The runs of one set: the times that are there and not zero. *)
Definition run_times (cpus : list Z) : T (list num) :=
  iterations ← attr "hackbench_iterations" di_hackbench_iterations;
  n ← lift (py_int iterations);
  for_acc (Zrange 1 (n + 1)) []
    (λ times i, exec_time ← run_hackbench cpus i;
                mret (match exec_time with
                      | Some t => if num_is_zero t then times else times ++ [t]
                      | None => times
                      end)).

(** [l[i]] *)
Definition cpu_at (i : nat) (l : list Z) : T Z :=
  match l !! i with Some c => mret c | None => throw IndexError "list index out of range" end.

(** [str(v)] of a text or None *)
Definition show (v : option string) : string := default "None" v.

Definition log_die (cpu : Z) : T () :=
  die_id ← read_topology_file cpu "die_id";
  die_list ← read_topology_file cpu "die_cpus_list";
  log_info ("  CPU" +:+ py_str_Z cpu +:+ " - Die ID: " +:+ show die_id +:+ ", Die CPUs: " +:+ show die_list).

(** The summary of one set of runs. *)
Definition log_times (title : string) (times : list num) (avg : num) : T () :=
  log_info title ;;
  log_fmt Info (l ← results (map (f_of 3 false) times); Ret ("  Times: " +:+ py_repr (VList (map VStr l)))) ;;
  log_fmt Info (a ← f_of 3 false avg; Ret ("  Average: " +:+ a +:+ " sec")) ;;
  least ← lift (least_of times);
  greatest ← lift (greatest_of times);
  log_fmt Info (a ← f_of 3 false least; b ← f_of 3 false greatest;
                Ret ("  Min: " +:+ a +:+ " sec, Max: " +:+ b +:+ " sec")).

Definition degradation (same_die_avg cross_die_avg : num) : result num :=
  d ← num_sub cross_die_avg same_die_avg; q ← num_div d same_die_avg; num_mul q (NInt 100).

Definition log_impact (same_die_avg cross_die_avg : num) : T () :=
  perf_degradation ← lift (degradation same_die_avg cross_die_avg);
  log_info (ruler "-") ;;
  log_info "Performance Impact:" ;;
  log_fmt Info (s ← f_of 1 false perf_degradation; Ret (" Cross-die execution is " +:+ s +:+ "% slower than same-die")) ;;
  if num_lt (NInt 10) perf_degradation then
    log_info " SIGNIFICANT: Cross-die penalty > 10%%" ;;
    log_info " This validates the importance of die topology" ;;
    log_info " information for workload placement"
  else if num_lt (NInt 0) perf_degradation then log_info " MODERATE: Cross-die penalty detected"
  else log_info " No significant cross-die penalty observed".

(** What the test does with the two sets. *)
Definition compare_sets (same_die_cpus cross_die_cpus : list Z) : T () :=
  log_info ("Same-die CPU set: " +:+ ints_repr same_die_cpus) ;;
  first ← cpu_at 0 same_die_cpus;
  same_die_id ← read_topology_file first "die_id";
  same_die_list ← read_topology_file first "die_cpus_list";
  log_info ("  Die ID: " +:+ show same_die_id) ;;
  log_info ("  Die CPUs list: " +:+ show same_die_list) ;;
  log_info ("Cross-die CPU set: " +:+ ints_repr cross_die_cpus) ;;
  c0 ← cpu_at 0 cross_die_cpus;
  c8 ← cpu_at 8 cross_die_cpus;
  for_each [c0; c8] log_die ;;
  log_info (ruler "-") ;;
  log_info ("Running same-die tests (CPUs " +:+ py_str_Z (foldl Z.min first same_die_cpus) +:+ "-" +:+
            py_str_Z (foldl Z.max first same_die_cpus) +:+ ")") ;;
  same_die_times ← run_times same_die_cpus;
  log_info (ruler "-") ;;
  log_info ("Running cross-die tests (CPUs " +:+ ints_repr cross_die_cpus +:+ ")") ;;
  cross_die_times ← run_times cross_die_cpus;
  log_info (ruler "=") ;;
  log_info "Performance Analysis" ;;
  log_info (ruler "=") ;;
  match same_die_times, cross_die_times with
  | [], _ | _, [] => test_fail "Insufficient data for performance analysis - hackbench runs failed"
  | _, _ =>
      same_die_avg ← lift (mean_of same_die_times);
      cross_die_avg ← lift (mean_of cross_die_times);
      log_times "Same-die execution:" same_die_times same_die_avg ;;
      log_times "Cross-die execution:" cross_die_times cross_die_avg ;;
      when (num_lt (NInt 0) same_die_avg) (log_impact same_die_avg cross_die_avg) ;;
      log_info (ruler "=") ;;
      log_info "PASS: Performance test completed successfully"
  end.

Definition test_die_performance_benefit : T () :=
  test_type ← gets di_test_type;
  when (negb (py_eq test_type (VStr "performance")))
    (test_cancel ("Performance test not enabled (test_type=" +:+ py_str test_type +:+ ")")) ;;
  log_info "Test 7: Validating die topology performance" ;;
  log_info (ruler "=") ;;
  binary ← setup_hackbench;
  modify (with_hackbench_binary binary) ;;
  when (match binary with Some b => py_empty b | None => true end)
    (test_cancel "Hackbench setup failed - required for test") ;;
  sets ← select_test_cpu_sets;
  match sets with
  | Some (same_die_cpus, cross_die_cpus) =>
      when (match same_die_cpus, cross_die_cpus with [], _ | _, [] => true | _, _ => false end)
        (test_cancel "Could not select appropriate CPU sets fortesting (need system with 2+ dies, each with 8+ CPUs)") ;;
      compare_sets same_die_cpus cross_die_cpus
  | None => test_cancel "Could not select appropriate CPU sets fortesting (need system with 2+ dies, each with 8+ CPUs)"
  end.

Definition tearDown : T () :=
  failures ← attr "failures" di_failures;
  match failures with
  | [] => mret ()
  | _ =>
      log_error (ruler "=") ;;
      log_error ("Test completed with " +:+ py_str_Z (Z.of_nat (length failures)) +:+ " failures:") ;;
      for_each failures (λ failure, log_error ("  - " +:+ failure)) ;;
      log_error (ruler "=") ;;
      test_fail "CPU die topology validation failed"
  end.
End CPUDieTopology.
