(* ===== verification/CpuDieVerdicts.v ===== *)
(** * Verdicts of the die topology tests

    The class [DieMachine]: topology files that do not change while a test runs.  The
    theorems: which machines the checks accept, as conditions on pairs of CPUs, and which CPUs
    are chosen for the benchmark. *)

From Stdlib Require Import Sorted.
From stdpp Require Import sorting.
From S2P Require Import Prelude PyStr PyFloat PyVal PyRegex Avocado Logic CpuDie.
Open Scope Z_scope.

(** The content of the topology files, without the blanks around it. *)
Class DieMachine (W : Type) {HE : Env W} := {
  topo : Z → string → option string;
  dm_exists cpu f w : env_exists (topology_path cpu f) w = (bool_decide (is_Some (topo cpu f)), w);
  dm_read cpu f t w : topo cpu f = Some t →
    ∃ raw, env_read (topology_path cpu f) w = (Ret raw, w) ∧ py_strip raw = t;
}.

(** ** Dictionaries and lists *)

Lemma dict_get_set {V} k k' (v : V) d : dict_get k' (dict_set k v d) = if k =? k' then Some v else dict_get k' d.
Proof.
  induction d as [|[j u] d IH]; simpl; [done|]. destruct (Z.eqb_spec j k) as [->|Hj]; simpl.
  - by destruct (k =? k').
  - rewrite IH. destruct (Z.eqb_spec j k'), (Z.eqb_spec k k'); congruence.
Qed.

Lemma dict_set_keys {V} k (v : V) d :
  map fst (dict_set k v d) = if bool_decide (k ∈ map fst d) then map fst d else map fst d ++ [k].
Proof.
  induction d as [|[j u] d IH]; simpl; [done|]. destruct (Z.eqb_spec j k) as [->|Hj]; simpl.
  - by rewrite bool_decide_eq_true_2 by left.
  - rewrite IH. case_bool_decide as H.
    + rewrite bool_decide_eq_true_2; [done|by right].
    + rewrite bool_decide_eq_false_2; [done|]. by rewrite elem_of_cons; intros [->|].
Qed.

Lemma dict_set_nodup {V} k (v : V) d : NoDup (map fst d) → NoDup (map fst (dict_set k v d)).
Proof.
  intros Hd. rewrite dict_set_keys. case_bool_decide as H; [done|]. apply list.NoDup_app. split_and!; [done| |].
  - intros y Hy ->%list_elem_of_singleton. done.
  - apply NoDup_singleton.
Qed.

Lemma dict_get_elem {V} k (v : V) d : NoDup (map fst d) → dict_get k d = Some v ↔ (k, v) ∈ d.
Proof.
  induction d as [|[j u] d IH]; simpl; [intros _; split; [done|by intros ?%not_elem_of_nil]|].
  rewrite list.NoDup_cons. intros [Hj Hd]. rewrite elem_of_cons. destruct (Z.eqb_spec j k) as [->|Hne].
  - split; [intros [= ->]; by left|]. intros [[= ->]|H]; [done|]. destruct Hj. by apply (list_elem_of_fmap_2 fst) in H.
  - rewrite IH by done. split; [by right|]. intros [[= -> ->]|]; done.
Qed.

(** More than one distinct value: two that differ. *)
Lemma distinct_values (l : list string) :
  (1 < length (remove_dups l))%nat ↔ ∃ a b, a ∈ l ∧ b ∈ l ∧ a ≠ b.
Proof.
  pose proof (NoDup_remove_dups l) as Hnd. pose proof (elem_of_remove_dups l) as Hin.
  set (r := remove_dups l) in *. split.
  - destruct r as [|a [|b r']]; simpl; try lia. intros _. exists a, b.
    split; [apply Hin; left|]. split; [apply Hin; right; left|].
    intros ->. apply list.NoDup_cons in Hnd as [Hnd _]. apply Hnd. left.
  - intros (a & b & Ha%Hin & Hb%Hin & Hne).
    destruct r as [|c [|d r']]; simpl; [by apply not_elem_of_nil in Ha| |lia].
    apply list_elem_of_singleton in Ha as ->. by apply list_elem_of_singleton in Hb as ->.
Qed.

(** A loop that appends what it finds. *)
Lemma foldl_found {X Y} (bad : X → list Y) (f : list Y → X → list Y) (l : list X) (b : list Y) :
  (∀ b y, f b y = b ++ bad y) → foldl f b l = [] ↔ b = [] ∧ ∀ y, y ∈ l → bad y = [].
Proof.
  intros Hf. revert b. induction l as [|y l IH]; intros b; simpl.
  - split; [intros ->; split; [done|by intros ? ?%not_elem_of_nil]|by intros [? _]].
  - rewrite IH, Hf. setoid_rewrite elem_of_cons. split; [|intros [-> H]; split; [by apply H; left|]; auto].
    intros [[-> Hy]%app_eq_nil H]. split; [done|]. intros z [->|Hz]; auto.
Qed.

Section machine.
Context {W : Type} {HE : Env W} {HD : DieLib W} {HM : DieMachine W}.
Implicit Types (w : W) (x : die_self).

Lemma read_runs cpu f w x : runs (read_topology_file cpu f) w x (Ret (topo cpu f)) w x.
Proof using Type.
  unfold read_topology_file. eapply runs_bind; [apply runs_silent; by rewrite dm_exists|]. cbv beta.
  destruct (topo cpu f) as [t|] eqn:E; cbn -[try_except].
  - destruct (dm_read cpu f t w E) as (raw & Er & Hs). apply runs_try_ret.
    eapply runs_bind; [by apply runs_silent|]. rewrite Hs. apply runs_ret.
  - apply runs_ret.
Qed.
Hint Resolve read_runs : runs.

Definition die_of (cpu : Z) : option Z := topo cpu "die_id" ≫= py_int_of_str.
Definition package_of (cpu : Z) : option Z := topo cpu "physical_package_id" ≫= py_int_of_str.
Definition cpu_list_of (cpu : Z) : option string :=
  l ← topo cpu "die_cpus_list"; if py_empty l then None else Some l.

Lemma add_failure_runs l msg w x :
  di_failures x = Some l → runs (add_failure msg) w x (Ret ()) w (with_failures (l ++ [msg]) x).
Proof using Type. intros H. unfold add_failure. by run. Qed.

(** ** Die identifiers *)

Definition valid_die (cpu : Z) : bool :=
  match topo cpu "die_id" with
  | Some s => match py_int_of_str s with Some d => -1 <=? d | None => false end
  | None => true
  end.

Definition validity_next (b : list (Z * Z) * list (list pyval)) (cpu : Z) : list (Z * Z) * list (list pyval) :=
  (match die_of cpu with Some d => dict_set cpu d b.1 | None => b.1 end,
   if valid_die cpu then b.2
   else b.2 ++ [[VInt cpu; match die_of cpu with Some d => VInt d | None => VStr (default "" (topo cpu "die_id")) end]]).

Lemma validity_step_runs b cpu w x : runs (validity_step b cpu) w x (Ret (validity_next b cpu)) w x.
Proof using Type.
  unfold validity_step, validity_next, valid_die, die_of. destruct b as [m l]. run_by read_runs.
  destruct (topo cpu "die_id") as [s|]; simpl; [|apply runs_ret].
  destruct (py_int_of_str s) as [d|]; [|run]. rewrite Z.ltb_antisym. destruct (-1 <=? d); cbn [negb]; run.
Qed.

Lemma validity_foldl l b :
  ((foldl validity_next b l).2 = [] ↔ b.2 = [] ∧ ∀ cpu, cpu ∈ l → valid_die cpu = true) ∧
  (∀ cpu, dict_get cpu (foldl validity_next b l).1 =
          if bool_decide (cpu ∈ l) then (match die_of cpu with Some d => Some d | None => dict_get cpu b.1 end)
          else dict_get cpu b.1).
Proof using Type.
  revert b. induction l as [|c l IH]; intros b; cbn [foldl].
  { split; [|done]. split; [intros H; split; [done|by intros ? ?%not_elem_of_nil]|by intros [? _]]. }
  destruct (IH (validity_next b c)) as [H1 H2]. split.
  - rewrite H1. unfold validity_next at 1. cbn [snd]. setoid_rewrite elem_of_cons.
    destruct (valid_die c) eqn:E; [naive_solver|]. split.
    + by intros [[_ ?]%app_eq_nil _].
    + intros [_ H]. rewrite H in E by by left. done.
  - intros cpu. rewrite H2. unfold validity_next. cbn [fst].
    assert (bool_decide (cpu ∈ c :: l) = bool_decide (cpu = c) || bool_decide (cpu ∈ l)) as ->.
    { rewrite <- bool_decide_or. apply bool_decide_ext. by rewrite elem_of_cons. }
    repeat case_bool_decide; subst; simpl; try done.
    all: destruct (die_of c) eqn:E; rewrite ?E; try done.
    all: rewrite ?dict_get_set, ?Z.eqb_refl; try done.
    all: destruct (Z.eqb_spec c cpu); congruence.
Qed.

(** How a check ends: it fails, the message is kept, and tearDown fails as well. *)
Definition reported (test : M W die_self ()) w x : Prop :=
  ∃ l msg kept, di_failures x = Some l ∧
    runs test w x (raise_ TestFail msg) w (with_failures (l ++ [kept]) x) ∧
    runs tearDown w (with_failures (l ++ [kept]) x) (raise_ TestFail "CPU die topology validation failed")
      w (with_failures (l ++ [kept]) x).

Lemma tearDown_fails l f w x :
  runs tearDown w (with_failures (l ++ [f]) x) (raise_ TestFail "CPU die topology validation failed") w
    (with_failures (l ++ [f]) x).
Proof using Type.
  unfold tearDown. run_step. destruct (l ++ [f]) as [|g r] eqn:E; [by destruct l|]. rewrite <- E. clear g r E.
  run_step. run_step. eapply runs_bind; [|run].
  destruct (runs_for_each (l ++ [f]) (λ failure, log_error ("  - " +:+ failure)) (λ _ w' x', w' = w ∧ x' = with_failures (l ++ [f]) x)
    w (with_failures (l ++ [f]) x)) as (w' & x' & H & -> & ->); [|done|exact H].
  intros dn y todo w' x' _ [-> ->]. do 2 eexists. split; [apply runs_log|done].
Qed.

Lemma reported_intro test l msg kept w x :
  di_failures x = Some l → runs test w x (raise_ TestFail msg) w (with_failures (l ++ [kept]) x) → reported test w x.
Proof using Type. intros Hl H. exists l, msg, kept. split; [done|]. split; [done|]. apply tearDown_fails. Qed.

(** ** Groups of CPUs by die *)

Definition members (online : list Z) (die : Z) : list Z := filter (λ cpu, die_of cpu = Some die) online.

Definition group_next (keep : Z → bool) (g : list (Z * list Z)) (cpu : Z) : list (Z * list Z) :=
  match die_of cpu with Some d => if keep d then add_to_die d cpu g else g | None => g end.

Definition groups_of (keep : Z → bool) (online : list Z) : list (Z * list Z) := foldl (group_next keep) [] online.

Lemma group_step_runs keep g cpu w x : runs (group_step keep g cpu) w x (Ret (group_next keep g cpu)) w x.
Proof using Type.
  unfold group_step, group_next, die_of. run_by read_runs. destruct (topo cpu "die_id"); apply runs_ret.
Qed.

Lemma groups_runs keep online w x : runs (for_acc online [] (group_step keep)) w x (Ret (groups_of keep online)) w x.
Proof using Type. apply runs_foldl. intros b y _. apply group_step_runs. Qed.

Lemma members_snoc online cpu die :
  members (online ++ [cpu]) die = members online die ++ (if bool_decide (die_of cpu = Some die) then [cpu] else []).
Proof using Type. unfold members. rewrite list.filter_app, filter_cons. case_bool_decide; [by rewrite decide_True|by rewrite decide_False]. Qed.

Lemma groups_spec keep online :
  NoDup (map fst (groups_of keep online)) ∧
  ∀ die, dict_get die (groups_of keep online) =
    match members online die with [] => None | cpus => if keep die then Some cpus else None end.
Proof using Type.
  unfold groups_of. induction online as [|c l IH] using rev_ind; [split; [apply NoDup_nil_2|done]|].
  rewrite foldl_snoc. set (g := foldl _ [] l) in *. destruct IH as [Hnd Hg]. unfold group_next, add_to_die. split.
  - destruct (die_of c) as [d|]; [|done]. destruct (keep d); [by apply dict_set_nodup|done].
  - intros die. rewrite members_snoc. destruct (die_of c) as [d|].
    2:{ rewrite bool_decide_eq_false_2 by done. by rewrite app_nil_r, Hg. }
    destruct (Z.eq_dec d die) as [<-|Hne].
    + rewrite bool_decide_eq_true_2 by done. destruct (keep d) eqn:Ek.
      * rewrite dict_get_set, Z.eqb_refl, Hg, Ek. by destruct (members l d).
      * rewrite Hg, Ek. by destruct (members l d).
    + rewrite bool_decide_eq_false_2 by congruence. rewrite app_nil_r. destruct (keep d); [|done].
      rewrite dict_get_set. destruct (Z.eqb_spec d die); [done|]. apply Hg.
Qed.

Lemma groups_elem keep online die cpus :
  (die, cpus) ∈ groups_of keep online ↔ keep die = true ∧ cpus = members online die ∧ cpus ≠ [].
Proof using Type.
  destruct (groups_spec keep online) as [Hnd Hg]. rewrite <- dict_get_elem, Hg by done.
  destruct (members online die) as [|c l]; [naive_solver|]. destruct (keep die); naive_solver.
Qed.

Lemma members_elem online die cpu : cpu ∈ members online die ↔ cpu ∈ online ∧ die_of cpu = Some die.
Proof using Type. unfold members. rewrite list_elem_of_filter. tauto. Qed.

(** ** The CPU lists of a die *)

Definition lists_next (d : list (Z * string)) (cpu : Z) : list (Z * string) :=
  match cpu_list_of cpu with Some l => dict_set cpu l d | None => d end.
Definition lists_of (cpus : list Z) : list (Z * string) := foldl lists_next [] cpus.

Lemma lists_runs cpus w x : runs (for_acc cpus [] die_list_step) w x (Ret (lists_of cpus)) w x.
Proof using Type.
  apply runs_foldl. intros b c _. unfold die_list_step, lists_next, cpu_list_of. run_by read_runs.
  destruct (topo c "die_cpus_list") as [l|]; [|apply runs_ret]. simpl. destruct (py_empty l); apply runs_ret.
Qed.

Lemma lists_get cpus cpu : dict_get cpu (lists_of cpus) = if bool_decide (cpu ∈ cpus) then cpu_list_of cpu else None.
Proof using Type.
  unfold lists_of. induction cpus as [|c l IH] using rev_ind; [done|]. rewrite foldl_snoc. unfold lists_next at 1.
  assert (bool_decide (cpu ∈ l ++ [c]) = bool_decide (cpu ∈ l) || bool_decide (cpu = c)) as ->.
  { rewrite <- bool_decide_or. apply bool_decide_ext. by rewrite elem_of_app, list_elem_of_singleton. }
  destruct (decide (cpu = c)) as [->|Hne].
  - rewrite (bool_decide_eq_true_2 (c = c)), orb_true_r by done. destruct (cpu_list_of c) eqn:E.
    + by rewrite dict_get_set, Z.eqb_refl.
    + rewrite IH. by case_bool_decide.
  - rewrite (bool_decide_eq_false_2 (cpu = c)), orb_false_r, <- IH by done. destruct (cpu_list_of c); [|done].
    rewrite dict_get_set. by destruct (Z.eqb_spec c cpu).
Qed.

Lemma lists_nodup cpus : NoDup (map fst (lists_of cpus)).
Proof using Type.
  unfold lists_of. induction cpus as [|c l IH] using rev_ind; [apply NoDup_nil_2|]. rewrite foldl_snoc.
  unfold lists_next at 1. destruct (cpu_list_of c); [by apply dict_set_nodup|done].
Qed.

Lemma lists_values cpus v : v ∈ map snd (lists_of cpus) ↔ ∃ cpu, cpu ∈ cpus ∧ cpu_list_of cpu = Some v.
Proof using Type.
  rewrite list_elem_of_fmap. split.
  - intros ([c u] & -> & H). apply dict_get_elem in H; [|apply lists_nodup]. rewrite lists_get in H.
    case_bool_decide; [by exists c|done].
  - intros (c & Hc & Hl). exists (c, v). split; [done|]. apply dict_get_elem; [apply lists_nodup|].
    by rewrite lists_get, bool_decide_eq_true_2.
Qed.

Definition inconsistent (die : Z * list Z) : list (Z * list (Z * string)) :=
  if die.1 =? -1 then []
  else if (1 <? length (remove_dups (map snd (lists_of die.2))))%nat then [(die.1, lists_of die.2)] else [].

Lemma consistency_step_runs b die w x : runs (consistency_step b die) w x (Ret (b ++ inconsistent die)) w x.
Proof using Type.
  unfold consistency_step, inconsistent. destruct die as [d cpus]. cbn [fst snd]. destruct (d =? -1).
  { rewrite app_nil_r. run. }
  run_step. run_by lists_runs. destruct (1 <? _)%nat; [run|]. rewrite app_nil_r. run.
Qed.

(** All CPUs of a die that have a list have the same. *)
Definition lists_agree (online : list Z) : Prop := ∀ die cpu1 cpu2 l1 l2,
  die ≠ -1 → cpu1 ∈ online → cpu2 ∈ online → die_of cpu1 = Some die → die_of cpu2 = Some die →
  cpu_list_of cpu1 = Some l1 → cpu_list_of cpu2 = Some l2 → l1 = l2.

Lemma inconsistent_none online :
  (∀ e, e ∈ groups_of (λ _, true) online → inconsistent e = []) ↔ lists_agree online.
Proof using Type.
  split.
  - intros H die c1 c2 l1 l2 Hd H1 H2 D1 D2 L1 L2.
    assert ((die, members online die) ∈ groups_of (λ _, true) online) as Hg.
    { apply groups_elem. split_and!; [done|done|]. intros E. assert (c1 ∈ members online die) as Hc by by apply members_elem.
      rewrite E in Hc. by apply not_elem_of_nil in Hc. }
    specialize (H _ Hg). unfold inconsistent in H. cbn [fst snd] in H. destruct (Z.eqb_spec die (-1)); [done|].
    destruct (Nat.ltb_spec 1 (length (remove_dups (map snd (lists_of (members online die)))))) as [|Hle]; [done|].
    destruct (decide (l1 = l2)) as [|Hne]; [done|]. apply Nat.le_ngt in Hle as []. apply distinct_values. exists l1, l2.
    split; [apply lists_values; exists c1; split; [by apply members_elem|done]|].
    split; [apply lists_values; exists c2; split; [by apply members_elem|done]|done].
  - intros H [die cpus] (_ & -> & _)%groups_elem. unfold inconsistent. cbn [fst snd].
    destruct (Z.eqb_spec die (-1)) as [|Hd]; [done|]. destruct (Nat.ltb_spec 1 (length (remove_dups (map snd (lists_of (members online die)))))) as [Hlt|]; [|done].
    apply distinct_values in Hlt as (a & b & (c1 & [H1 D1]%members_elem & L1)%lists_values & (c2 & [H2 D2]%members_elem & L2)%lists_values & Hne).
    destruct Hne. by eapply (H die c1 c2).
Qed.

(** [test_die_cpumask_consistency] passes exactly when any two online CPUs with the same
    die identifier, other than -1, that have a list of the CPUs of the die have the same list.
    Otherwise it fails, and tearDown after it. *)
Theorem cpumask_consistency_verdict l w x :
  di_failures x = Some l →
  (lists_agree (di_online_cpus x) ∧ runs test_die_cpumask_consistency w x (Ret ()) w x) ∨
  (¬ lists_agree (di_online_cpus x) ∧ reported test_die_cpumask_consistency w x).
Proof using Type.
  intros Hl. set (found := foldl (λ b e, b ++ inconsistent e) [] (groups_of (λ _, true) (di_online_cpus x))).
  assert (found = [] ↔ lists_agree (di_online_cpus x)) as Hiff.
  { unfold found. rewrite (foldl_found inconsistent) by done. rewrite <- inconsistent_none. tauto. }
  assert (∀ r w' x', runs (match found with
     | [] => log_info "PASS: die_cpumask is consistent across all dies"
     | _ => add_failure ("Inconsistent die_cpumask: " +:+ spaces 33 +:+ inconsistencies_repr found) ;;
            test_fail ("FAIL: Inconsistent die_cpumask found: " +:+ spaces 22 +:+ inconsistencies_repr found) end) w x r w' x' →
    runs test_die_cpumask_consistency w x r w' x') as Hrun.
  { intros r w' x' H. unfold test_die_cpumask_consistency. run_step. run_step. run_by groups_runs. run_step.
    eapply runs_bind; [apply (runs_foldl _ _ (λ b e, b ++ inconsistent e)); intros; apply consistency_step_runs|].
    fold found. cbv beta. exact H. }
  destruct found as [|e r]; [left|right].
  - split; [by apply Hiff|]. apply Hrun, runs_log.
  - split; [by intros ?%Hiff|]. eapply reported_intro; [done|]. apply Hrun. eapply runs_bind; [by apply add_failure_runs|].
    apply runs_throw.
Qed.

(** [test_die_id_validity] passes exactly when every die identifier that is there is a number
    of at least -1, and returns the identifiers by CPU.  Otherwise it fails, and tearDown
    after it. *)
Theorem die_id_validity_verdict l w x :
  di_failures x = Some l →
  let valid := ∀ cpu, cpu ∈ di_online_cpus x → valid_die cpu = true in
  (valid ∧ ∃ m, runs test_die_id_validity w x (Ret m) w x ∧
     ∀ cpu, dict_get cpu m = if bool_decide (cpu ∈ di_online_cpus x) then die_of cpu else None) ∨
  (¬ valid ∧ reported (test_die_id_validity ;; mret ()) w x).
Proof using Type.
  intros Hl valid. destruct (validity_foldl (di_online_cpus x) ([], [])) as [H1 H2].
  destruct (foldl validity_next ([], []) (di_online_cpus x)) as [m bad] eqn:E. cbn [fst snd] in *.
  assert (bad = [] ↔ valid) as Hiff by (rewrite H1; unfold valid; tauto).
  assert (runs (for_acc (di_online_cpus x) ([], []) validity_step) w x (Ret (m, bad)) w x) as Hloop.
  { rewrite <- E. apply runs_foldl. intros b y _. apply validity_step_runs. }
  destruct bad as [|e r]; [left|right].
  - split; [by apply Hiff|]. exists m. split.
    + unfold test_die_id_validity. run_step. run_step. run_by Hloop. run.
    + intros cpu. rewrite H2. case_bool_decide; [|done]. by destruct (die_of cpu).
  - split; [by intros ?%Hiff|]. eapply reported_intro; [done|]. apply runs_bind_raise. unfold test_die_id_validity.
    run_step. run_step. run_by Hloop. eapply runs_bind; [by apply add_failure_runs|]. apply runs_throw.
Qed.

(** ** Dies and packages *)

Definition placed (cpu : Z) : option (Z * Z) :=
  d ← die_of cpu; p ← package_of cpu; if d =? -1 then None else Some (d, p).

Definition package_next (b : list (Z * Z) * list (list pyval)) (cpu : Z) : list (Z * Z) * list (list pyval) :=
  match placed cpu with
  | None => b
  | Some (d, p) =>
      match dict_get d b.1 with
      | None => (dict_set d p b.1, b.2)
      | Some e => if e =? p then b else (b.1, b.2 ++ [[VInt cpu; VInt d; VInt p; VInt e]])
      end
  end.

Lemma package_step_runs b cpu w x : runs (package_step b cpu) w x (Ret (package_next b cpu)) w x.
Proof using Type.
  unfold package_step, package_next, placed, die_of, package_of. destruct b as [m v]. run_by read_runs. run_by read_runs.
  destruct (topo cpu "die_id" ≫= py_int_of_str) as [d|]; simpl; [|apply runs_ret].
  destruct (topo cpu "physical_package_id" ≫= py_int_of_str) as [q|]; simpl; [|apply runs_ret].
  destruct (d =? -1); [apply runs_ret|]. destruct (dict_get d m) as [e|]; [|apply runs_ret].
  destruct (e =? q); run.
Qed.

(** Any two CPUs of a die are in the same package. *)
Definition packages_agree (cpus : list Z) : Prop := ∀ cpu1 cpu2 die p1 p2,
  cpu1 ∈ cpus → cpu2 ∈ cpus → placed cpu1 = Some (die, p1) → placed cpu2 = Some (die, p2) → p1 = p2.

Record packages_inv (cpus : list Z) (b : list (Z * Z) * list (list pyval)) : Prop := {
  pk_from d p : dict_get d b.1 = Some p → ∃ cpu, cpu ∈ cpus ∧ placed cpu = Some (d, p);
  pk_known cpu d p : cpu ∈ cpus → placed cpu = Some (d, p) → is_Some (dict_get d b.1);
  pk_agree : b.2 = [] ↔ ∀ cpu d p, cpu ∈ cpus → placed cpu = Some (d, p) → dict_get d b.1 = Some p;
}.

Lemma package_next_inv cpus cpu b : packages_inv cpus b → packages_inv (cpus ++ [cpu]) (package_next b cpu).
Proof using Type.
  intros [Hf Hk Ha]. unfold package_next. destruct (placed cpu) as [[d p]|] eqn:E; [destruct (dict_get d b.1) as [e|] eqn:Ed|].
  - assert (∀ v, packages_inv (cpus ++ [cpu]) (b.1, v) ↔
      (v = [] ↔ ∀ c d p, c ∈ cpus ++ [cpu] → placed c = Some (d, p) → dict_get d b.1 = Some p)) as Hv.
    { intros v. split; [by intros [_ _ H]|]. intros H. constructor; cbn [fst snd]; [| |done].
      - intros d' p' (c & Hc & Hp)%Hf. exists c. rewrite elem_of_app. auto.
      - intros c d' p' [Hc| ->%list_elem_of_singleton]%elem_of_app Hp; [by eapply Hk|]. rewrite E in Hp.
        injection Hp as <- <-. by eexists. }
    destruct (Z.eqb_spec e p) as [->|Hne].
    + destruct b as [m v]. apply Hv. cbn [fst snd] in *. rewrite Ha. setoid_rewrite elem_of_app.
      setoid_rewrite list_elem_of_singleton. split; [|naive_solver].
      intros H c d' p' [Hc| ->] Hp; [by eapply H|]. rewrite E in Hp. by injection Hp as <- <-.
    + apply Hv. split; [by intros [_ ?]%app_eq_nil|]. intros H. destruct Hne.
      assert (dict_get d b.1 = Some p) as Hp; [|congruence]. apply (H cpu); [|done]. apply elem_of_app. right. left.
  - assert (∀ c d' p', c ∈ cpus → placed c = Some (d', p') → d =? d' = false) as Hnew.
    { intros c d' p' Hc Hp. apply Z.eqb_neq. intros <-. destruct (Hk c d p' Hc Hp). congruence. }
    constructor; cbn [fst snd].
    + intros d' p'. rewrite dict_get_set. destruct (Z.eqb_spec d d') as [<-|]; [intros [= <-]|intros (c & Hc & Hp)%Hf].
      * exists cpu. split; [apply elem_of_app; right; left|done].
      * exists c. rewrite elem_of_app. auto.
    + intros c d' p' [Hc| ->%list_elem_of_singleton]%elem_of_app Hp; rewrite dict_get_set.
      * rewrite (Hnew c d' p') by done. by eapply Hk.
      * rewrite E in Hp. injection Hp as <- <-. rewrite Z.eqb_refl. by eexists.
    + rewrite Ha. setoid_rewrite elem_of_app. setoid_rewrite list_elem_of_singleton. split.
      * intros H c d' p' [Hc| ->] Hp; rewrite dict_get_set; [rewrite (Hnew c d' p') by done; by eapply H|].
        rewrite E in Hp. injection Hp as <- <-. by rewrite Z.eqb_refl.
      * intros H c d' p' Hc Hp. specialize (H c d' p' (or_introl Hc) Hp). by rewrite dict_get_set, (Hnew c d' p') in H.
  - constructor.
    + intros d p (c & Hc & Hp)%Hf. exists c. rewrite elem_of_app. auto.
    + intros c d p [Hc| ->%list_elem_of_singleton]%elem_of_app Hp; [by eapply Hk|congruence].
    + rewrite Ha. setoid_rewrite elem_of_app. setoid_rewrite list_elem_of_singleton. naive_solver congruence.
Qed.

Lemma packages_spec cpus :
  (foldl package_next ([], []) cpus).2 = [] ↔ packages_agree cpus.
Proof using Type.
  assert (packages_inv cpus (foldl package_next ([], []) cpus)) as [Hf Hk Ha].
  { induction cpus as [|c l IH] using rev_ind; [|rewrite foldl_snoc; by apply package_next_inv].
    constructor; cbn; [done|by intros ? ? ? ?%not_elem_of_nil|]. split; [by intros _ ? ? ? ?%not_elem_of_nil|done]. }
  rewrite Ha. split.
  - intros H c1 c2 d p1 p2 H1 H2 E1 E2. apply H in E1, E2; [|done..]. congruence.
  - intros H c d p Hc Hp. destruct (Hk c d p Hc Hp) as [e He]. rewrite He. f_equal.
    destruct (Hf d e He) as (c' & Hc' & Hp'). by eapply (H c' c d).
Qed.

(** C21: [test_die_package_relationship] compares every CPU with the first one of its die only;
    it passes exactly when any two online CPUs of a die, other than -1, whose packages are
    known are in the same package.  Otherwise it fails, and tearDown after it. *)
Theorem die_package_verdict l w x :
  di_failures x = Some l →
  (packages_agree (di_online_cpus x) ∧ runs test_die_package_relationship w x (Ret ()) w x) ∨
  (¬ packages_agree (di_online_cpus x) ∧ reported test_die_package_relationship w x).
Proof using Type.
  intros Hl. pose proof (packages_spec (di_online_cpus x)) as Hiff.
  destruct (foldl package_next ([], []) (di_online_cpus x)) as [m bad] eqn:E. cbn [snd] in Hiff.
  assert (runs (for_acc (di_online_cpus x) ([], []) package_step) w x (Ret (m, bad)) w x) as Hloop.
  { rewrite <- E. apply runs_foldl. intros b y _. apply package_step_runs. }
  destruct bad as [|e r]; [left|right].
  - split; [by apply Hiff|]. unfold test_die_package_relationship. run_step. run_step. run_by Hloop. run.
  - split; [by intros ?%Hiff|]. eapply reported_intro; [done|]. unfold test_die_package_relationship.
    run_step. run_step. run_by Hloop. eapply runs_bind; [by apply add_failure_runs|]. apply runs_throw.
Qed.

(** ** The CPUs for the benchmark *)

(** No die that follows is larger. *)
Definition by_length (a b : Z * list Z) : Prop := (length b.2 ≤ length a.2)%nat.

Lemma insert_die_perm e l : insert_die e l ≡ₚ e :: l.
Proof using Type. induction l as [|y l IH]; simpl; [done|]. destruct (_ <? _)%nat; [done|]. rewrite IH. apply Permutation_swap. Qed.

Lemma insert_die_sorted e l : StronglySorted by_length l → StronglySorted by_length (insert_die e l).
Proof using Type.
  induction 1 as [|y l Hs IH Hy]; simpl; [by repeat constructor|].
  destruct (Nat.ltb_spec (length y.2) (length e.2)) as [Hlt|Hle].
  - constructor; [by constructor|]. constructor; [unfold by_length; lia|]. eapply list.Forall_impl; [exact Hy|].
    intros z Hz. unfold by_length in *. lia.
  - constructor; [done|]. rewrite insert_die_perm. by constructor.
Qed.

Lemma sort_dies_spec l : sort_dies l ≡ₚ l ∧ StronglySorted by_length (sort_dies l).
Proof using Type.
  unfold sort_dies. induction l as [|e l [IH1 IH2]] using rev_ind; [split; [done|constructor]|]. rewrite foldl_snoc.
  split; [|by apply insert_die_sorted]. rewrite insert_die_perm, IH1. apply Permutation_cons_append.
Qed.

(** [c] has [n] elements of [l], and none that is left is smaller. *)
Definition lowest (n : nat) (l c : list Z) : Prop :=
  length c = n ∧ ∃ rest, l ≡ₚ c ++ rest ∧ ∀ a b, a ∈ c → b ∈ rest → a ≤ b.

Lemma sorted_cpus_sorted l : StronglySorted Z.le (sorted_cpus l).
Proof using Type. apply StronglySorted_merge_sort; [|exact _]. intros ? ? ?. lia. Qed.

Lemma take_lowest n l : (n ≤ length l)%nat → lowest n l (take n (sorted_cpus l)).
Proof using Type.
  intros Hn. assert (sorted_cpus l ≡ₚ l) as Hp by apply merge_sort_Permutation. split.
  - rewrite length_take, Hp. lia.
  - exists (drop n (sorted_cpus l)). rewrite take_drop. split; [done|]. intros a b.
    apply (StronglySorted_app_1_elem_of Z.le). rewrite take_drop. apply sorted_cpus_sorted.
Qed.

(** What the two sets are: the largest dies [die0] and [die1], the lowest CPUs of the first,
    and the eight lowest of each. *)
Record chosen_sets (online : list Z) (die0 die1 : Z) (same cross : list Z) : Prop := {
  ch_dies : die0 ≠ die1 ∧ 0 ≤ die0 ∧ 0 ≤ die1;
  ch_first die : 0 ≤ die → (length (members online die) ≤ length (members online die0))%nat;
  ch_second die : 0 ≤ die → die ≠ die0 → (length (members online die) ≤ length (members online die1))%nat;
  ch_same : StronglySorted Z.le same ∧ lowest (Nat.min 16 (length (members online die0))) (members online die0) same;
  ch_cross : StronglySorted Z.le cross ∧ ∃ c0 c1, cross ≡ₚ c0 ++ c1 ∧
    lowest 8 (members online die0) c0 ∧ lowest 8 (members online die1) c1;
}.

(** The two first dies of the sorted groups. *)
Lemma largest_dies online die0 cpus0 die1 cpus1 rest :
  sort_dies (groups_of (λ d, 0 <=? d) online) = (die0, cpus0) :: (die1, cpus1) :: rest →
  cpus0 = members online die0 ∧ cpus1 = members online die1 ∧ die0 ≠ die1 ∧ 0 ≤ die0 ∧ 0 ≤ die1 ∧
  (∀ die, 0 ≤ die → (length (members online die) ≤ length cpus0)%nat) ∧
  (∀ die, 0 ≤ die → die ≠ die0 → (length (members online die) ≤ length cpus1)%nat).
Proof using Type.
  intros E. set (g := groups_of _ online) in *. destruct (sort_dies_spec g) as [Hp Hs]. rewrite E in Hp, Hs.
  destruct (groups_spec (λ d, 0 <=? d) online) as [Hnd _]. fold g in Hnd. rewrite <- Hp in Hnd. cbn [map fst] in Hnd.
  apply list.NoDup_cons in Hnd as [Hne _].
  assert (∀ d c, (d, c) ∈ g ↔ 0 ≤ d ∧ c = members online d ∧ c ≠ []) as Hg.
  { intros d c. unfold g. by rewrite groups_elem, Z.leb_le. }
  assert ((die0, cpus0) ∈ g) as (H0 & -> & _)%Hg by (rewrite <- Hp; left).
  assert ((die1, cpus1) ∈ g) as (H1 & -> & _)%Hg by (rewrite <- Hp; right; left).
  split_and!; try done.
  { intros ->. apply Hne. left. }
  - intros die Hd. destruct (members online die) as [|c l] eqn:Em; [simpl; lia|]. rewrite <- Em.
    assert ((die, members online die) ∈ g) as Hin by (apply Hg; by rewrite Em).
    rewrite <- Hp, elem_of_cons in Hin. destruct Hin as [[= ->]|Hin]; [done|].
    apply StronglySorted_inv in Hs as [_ Hs]. rewrite list.Forall_forall in Hs. by apply Hs in Hin.
  - intros die Hd Hne'. destruct (members online die) as [|c l] eqn:Em; [simpl; lia|]. rewrite <- Em.
    assert ((die, members online die) ∈ g) as Hin by (apply Hg; by rewrite Em).
    rewrite <- Hp, !elem_of_cons in Hin. destruct Hin as [[= ->]|[[= ->]|Hin]]; [done..|].
    apply StronglySorted_inv in Hs as [Hs _]. apply StronglySorted_inv in Hs as [_ Hs].
    rewrite list.Forall_forall in Hs. by apply Hs in Hin.
Qed.

(** C20: [_select_test_cpu_sets] finds two sets exactly when two dies have eight online CPUs or
    more: the lowest CPUs of the largest die, at most 16, and the eight lowest of each of the
    two largest dies.  So the sets have the same size only if the largest die has 16 CPUs. *)
Theorem select_test_cpu_sets_spec w x :
  let online := di_online_cpus x in
  ∃ sets, runs select_test_cpu_sets w x (Ret sets) w x ∧
  match sets with
  | Some (same, cross) => ∃ die0 die1, chosen_sets online die0 die1 same cross ∧ length cross = 16%nat ∧
      (length same = 16%nat ↔ (16 ≤ length (members online die0))%nat)
  | None => ∀ die0 die1, 0 ≤ die0 → 0 ≤ die1 →
      (8 ≤ length (members online die0))%nat → (8 ≤ length (members online die1))%nat → die0 = die1
  end.
Proof using Type.
  intros online. set (g := groups_of (λ d, 0 <=? d) online).
  assert (∀ die, 0 ≤ die → (8 ≤ length (members online die))%nat → (die, members online die) ∈ g) as Hbig.
  { intros die Hd Hm. apply groups_elem. split_and!; [by apply Z.leb_le|done|]. intros E. rewrite E in Hm. simpl in Hm. lia. }
  unfold select_test_cpu_sets. destruct (length g <? 2)%nat eqn:E2.
  { exists None. split.
    - run_step. run_by groups_runs. fold online g. rewrite E2. run.
    - apply Nat.ltb_lt in E2. intros d0 d1 H0 H1 M0%Hbig M1%Hbig; [|done..].
      destruct g as [|e [|]]; [by apply not_elem_of_nil in M0| |simpl in E2; lia].
      apply list_elem_of_singleton in M0, M1. congruence. }
  destruct (sort_dies g) as [|[d0 c0] [|[d1 c1] rest]] eqn:Es;
    [apply Nat.ltb_ge in E2; destruct (sort_dies_spec g) as [Hp _]; rewrite Es in Hp; apply Permutation_length in Hp; simpl in Hp; lia..|].
  destruct (largest_dies online d0 c0 d1 c1 rest Es) as (-> & -> & Hne & H0 & H1 & Hfirst & Hsecond).
  set (m0 := members online d0) in *. set (m1 := members online d1) in *.
  destruct ((length m0 <? 8)%nat || (length m1 <? 8)%nat) eqn:E8.
  - exists None. split.
    + run_step. run_by groups_runs. fold online g. rewrite E2, Es, E8. run.
    + apply orb_true_iff in E8. rewrite !Nat.ltb_lt in E8. intros e0 e1 P0 P1 M0 M1.
      destruct (Z.eq_dec e0 e1) as [|Hd]; [done|]. pose proof (Hfirst e0 P0). pose proof (Hfirst e1 P1).
      destruct (Z.eq_dec e0 d0) as [->|Hd0]; [pose proof (Hsecond e1 P1 ltac:(done))|pose proof (Hsecond e0 P0 Hd0)]; lia.
  - apply orb_false_iff in E8. rewrite !Nat.ltb_ge in E8. exists (Some (same_die_set m0, cross_die_set m0 m1)). split.
    + run_step. run_by groups_runs. fold online g. rewrite E2, Es.
      assert ((length m0 <? 8)%nat || (length m1 <? 8)%nat = false) as -> by (rewrite orb_false_iff, !Nat.ltb_ge; lia). run.
    + assert (lowest 8 m0 (take (Nat.min 8 (length m0)) (sorted_cpus m0)) ∧
              lowest 8 m1 (take (Nat.min 8 (length m1)) (sorted_cpus m1))) as [L0 L1].
      { split; rewrite Nat.min_l by lia; apply take_lowest; lia. }
      assert (length (same_die_set m0) = Nat.min 16 (length m0)) as Hlen by (apply take_lowest; lia).
      exists d0, d1. split_and!; [constructor; [done..| |]| |].
      * split; [|apply take_lowest; lia]. unfold same_die_set.
        eapply (StronglySorted_app_1_l Z.le _ (drop _ _)). rewrite take_drop. apply sorted_cpus_sorted.
      * split; [apply sorted_cpus_sorted|]. do 2 eexists. split; [apply merge_sort_Permutation|done].
      * unfold cross_die_set, sorted_cpus at 1. rewrite merge_sort_Permutation, length_app. destruct L0 as [-> _], L1 as [-> _]. done.
      * rewrite Hlen. fold m0. lia.
Qed.
End machine.
