(* ===== verification/CpuDieSim.v ===== *)
(** * A simulated machine with dies

    A file system of topology files by path: an instance of [DieMachine], on which the theorems
    about the die topology test are applied. *)

From S2P Require Import Prelude PyStr PyFloat PyVal PyRegex Avocado Logic CpuDie CpuDieVerdicts.
Open Scope Z_scope.

Section files.
Context (files : dict string).

#[local] Instance die_env : Env () := {|
  env_run := λ _ _ w, (Ret (CmdResult 0 ""), w);
  env_system := λ _ _ w, (Ret 0, w);
  env_system_output := λ _ _ w, (Ret ""%string, w);
  env_ssh := λ _ _ w, (Ret (CmdResult 0 ""), w);
  env_connect := λ _ _ _ w, (Ret true, w);
  env_show := λ r, stdout_text r;
  env_param := λ _ d, d;
  env_exists := λ p w, (bool_decide (is_Some (dict_find p files)), w);
  env_read := λ p w, (Ret (default "" (dict_find p files) +:+ NL), w);
  env_append := λ _ _ w, (Ret (), w);
  env_remove := λ _ w, (Ret (), w);
  env_random := λ w, (0, w);
|}.

#[local] Instance die_lib : DieLib () := {|
  di_lib := λ _ _ w, (Ret VNone, w);
  di_online_list := λ w, (Ret (Zrange 0 17), w);
  di_arch := "ppc64le";
  di_workdir := "/var/tmp";
|}.

(** What [genio.read_file] gives is stripped by the reader. *)
#[local, refine] Instance die_machine : DieMachine () := {|
  topo := λ cpu f, py_strip ∘ (λ s, s +:+ NL) <$> dict_find (topology_path cpu f) files;
  dm_exists := _;
  dm_read := _;
|}.
Proof.
  - intros cpu f []. simpl. by destruct (dict_find (topology_path cpu f) files).
  - intros cpu f t [] H. simpl. destruct (dict_find (topology_path cpu f) files) as [s|]; [|done].
    injection H as <-. by eexists.
Defined.
End files.

(** The files of a CPU. *)
Definition cpu_files (cpu : Z) (die list package : string) : dict string :=
  [(topology_path cpu "die_id", die); (topology_path cpu "die_cpus_list", list);
   (topology_path cpu "physical_package_id", package)].

(** Nine CPUs on die 0 and eight on die 1, interleaved, in one package. *)
Definition two_dies : dict string :=
  concat (map (λ cpu, if Z.even cpu then cpu_files cpu "0" "0,2,4,6,8,10,12,14,16" "0"
                      else cpu_files cpu "1" "1,3,5,7,9,11,13,15" "0") (Zrange 0 17)).

(** A die whose CPUs disagree about its CPUs and lie in two packages. *)
Definition split_die : dict string := cpu_files 0 "3" "0-1" "0" ++ cpu_files 1 "3" "1" "1".

Definition die_self_of (online : list Z) : die_self := DieSelf (Some []) online (VStr "performance") None None None None.

Lemma select_test_cpu_sets_spec_witness :
  runs (select_test_cpu_sets (HE:=die_env two_dies)) () (die_self_of (Zrange 0 17))
    (Ret (Some ([0; 2; 4; 6; 8; 10; 12; 14; 16], [0; 1; 2; 3; 4; 5; 6; 7; 8; 9; 10; 11; 12; 13; 14; 15]))) ()
    (die_self_of (Zrange 0 17)).
Proof.
  destruct (select_test_cpu_sets_spec (HE:=die_env two_dies) (HM:=die_machine two_dies) () (die_self_of (Zrange 0 17)))
    as (sets & H & _).
  assert (sets = Some ([0; 2; 4; 6; 8; 10; 12; 14; 16], [0; 1; 2; 3; 4; 5; 6; 7; 8; 9; 10; 11; 12; 13; 14; 15])) as <-.
  { destruct (H []) as [tr E]. apply (f_equal fst) in E. vm_compute in E. by injection E. }
  exact H.
Defined.

Lemma cpumask_consistency_verdict_witness :
  reported (test_die_cpumask_consistency (HE:=die_env split_die)) () (die_self_of [0; 1]).
Proof.
  destruct (cpumask_consistency_verdict (HE:=die_env split_die) (HM:=die_machine split_die) [] () (die_self_of [0; 1]) eq_refl)
    as [[H _]|[_ H]]; [|exact H].
  assert ("0-1"%string = "1"%string) as E; [|done].
  apply (H 3 0 1); [done|left|right; left|by vm_compute..].
Defined.

Lemma die_package_verdict_witness :
  reported (test_die_package_relationship (HE:=die_env split_die)) () (die_self_of [0; 1]).
Proof.
  destruct (die_package_verdict (HE:=die_env split_die) (HM:=die_machine split_die) [] () (die_self_of [0; 1]) eq_refl)
    as [[H _]|[_ H]]; [|exact H].
  assert (0 = 1) as E; [|done]. apply (H 0 1 3); [left|right; left|by vm_compute..].
Defined.

Lemma die_id_validity_verdict_witness :
  ∃ m, runs (test_die_id_validity (HE:=die_env split_die)) () (die_self_of [0; 1]) (Ret m) () (die_self_of [0; 1]) ∧
    dict_get 1 m = Some 3.
Proof.
  destruct (die_id_validity_verdict (HE:=die_env split_die) (HM:=die_machine split_die) [] () (die_self_of [0; 1]) eq_refl)
    as [(_ & m & H & Hm)|[H _]].
  - exists m. split; [exact H|]. rewrite Hm. by vm_compute.
  - destruct H. intros cpu Hc. cbn in Hc. rewrite !elem_of_cons in Hc.
    destruct Hc as [->|[->|[]%not_elem_of_nil]]; by vm_compute.
Defined.
