(* ===== verification/StressMem.v ===== *)
(** * The memory stress test: memory/stressng_mem.py

    The class [Stressngmem]: the run times, the numbers of workers and the memory options of the
    stressors, running them and the summary, and the search of the kernel log for errors and
    call traces.  avocado's [memory], [dmesg], [build] and [archive] and the package manager are
    the class [StressLib]. *)

From S2P Require Import Prelude PyStr PyFloat PyVal Avocado Logic.
Open Scope Z_scope.

(** ** Data *)

(** What setUp reads from the parameters. *)
Record stress_params := StressParams {
  sp_base_time : pyval;
  sp_time_per_gig : pyval;
  sp_max_vrt_time : pyval;
  sp_mem_per_worker : pyval;
  sp_memory_target_percent : pyval;
  sp_max_cpu_load : pyval;
  sp_url : pyval;
  sp_crt_stressors : pyval;
  sp_vrt_stressors : pyval;
}.

(** The attributes of [self]; [None] is an attribute that is not set. *)
Record stress_self := StressSelf {
  st_params : option stress_params;
  st_online_cpus : Z;
  st_had_error : Z;
  st_is_max_config : bool;
  st_skip_dmesg : option bool;
  st_passed : list pyval;
  st_failed : list (pyval * Z);
  st_flag : string;
  st_total_memory : option num;     (* total_memory_in_GiB *)
  st_variable_time : option pyval;
}.

Definition new_stress : stress_self := StressSelf None 0 0 false None [] [] "" None None.

Definition with_defaults (x : stress_self) : stress_self :=
  StressSelf (st_params x) (st_online_cpus x) 0 false (Some false) [] [] (st_flag x) (st_total_memory x) (st_variable_time x).
Definition with_params (p : stress_params) (cpus : Z) (x : stress_self) : stress_self :=
  StressSelf (Some p) cpus (st_had_error x) (st_is_max_config x) (st_skip_dmesg x) (st_passed x) (st_failed x)
    (st_flag x) (st_total_memory x) (st_variable_time x).
Definition with_error (x : stress_self) : stress_self :=
  StressSelf (st_params x) (st_online_cpus x) 1 (st_is_max_config x) (st_skip_dmesg x) (st_passed x) (st_failed x)
    (st_flag x) (st_total_memory x) (st_variable_time x).
Definition with_skip (x : stress_self) : stress_self :=
  StressSelf (st_params x) (st_online_cpus x) (st_had_error x) (st_is_max_config x) (Some true) (st_passed x)
    (st_failed x) (st_flag x) (st_total_memory x) (st_variable_time x).
Definition with_outcome (passed : list pyval) (failed : list (pyval * Z)) (x : stress_self) : stress_self :=
  StressSelf (st_params x) (st_online_cpus x) (st_had_error x) (st_is_max_config x) (st_skip_dmesg x) passed failed
    (st_flag x) (st_total_memory x) (st_variable_time x).
Definition with_flag (flag : string) (x : stress_self) : stress_self :=
  StressSelf (st_params x) (st_online_cpus x) (st_had_error x) (st_is_max_config x) (st_skip_dmesg x) (st_passed x)
    (st_failed x) flag (st_total_memory x) (st_variable_time x).
Definition with_total_memory (n : num) (big : bool) (x : stress_self) : stress_self :=
  StressSelf (st_params x) (st_online_cpus x) (st_had_error x) big (st_skip_dmesg x) (st_passed x)
    (st_failed x) (st_flag x) (Some n) (st_variable_time x).
Definition with_variable_time (v : pyval) (x : stress_self) : stress_self :=
  StressSelf (st_params x) (st_online_cpus x) (st_had_error x) (st_is_max_config x) (st_skip_dmesg x) (st_passed x)
    (st_failed x) (st_flag x) (st_total_memory x) (Some v).

Class StressLib (W : Type) := {
  st_lib : string → list pyval → W → result pyval * W;
  (* memory.meminfo.MemTotal.g and SwapTotal.m *)
  mem_total_g : W → result num * W;
  swap_total_m : W → result num * W;
  st_online_count : W → result Z * W;
  (* the name of the file that dmesg.collect_dmesg() writes *)
  collect_dmesg : W → result string * W;
  st_workdir : string;
}.

(** ** The kernel log *)

(** [file.readlines()], each line without its line feed. *)
Definition log_lines (content : string) : list string :=
  let l := py_split_on LF content in
  match last_opt l with Some "" => take (length l - 1) l | _ => l end.

Definition lines_matching (pattern : string) (lines : list string) : list string :=
  List.filter (py_in pattern) lines.

(** [any(p in line for p in patterns)], which the loops with [break] compute. *)
Definition mentions (patterns : list string) (line : string) : bool := existsb (λ p, py_in p line) patterns.

(** A line that continues a call trace. *)
Definition continues_trace (line : string) : bool :=
  let stripped := chars_of (py_strip line) in
  starts_with ["["%char] stripped || starts_with ["?"%char] stripped || py_in "0x" line || py_in "+0x" line ||
  starts_with (chars_of "---[") stripped ||
  (match chars_of line with c :: _ => Ascii.eqb c " " | [] => false end &&
   mentions ["["; "]"; "+"] line).

(** The inner loop: the lines that continue the trace; those that are not ignored, whether one
    was ignored, and what follows. *)
Fixpoint collect_trace (ignore_patterns : list string) (lines : list string) : list string * bool * list string :=
  match lines with
  | [] => ([], false, [])
  | next_line :: lines' =>
      if continues_trace next_line then
        let '(trace, ignored, rest) := collect_trace ignore_patterns lines' in
        if mentions ignore_patterns next_line then (trace, true, rest) else (next_line :: trace, ignored, rest)
      else ([], false, lines)
  end.

(** The outer loop; [keys] is [unique_traces].  The fuel is the number of lines. *)
Fixpoint extract_from (fuel : nat) (ignore_patterns keys : list string) (lines : list string) : list string :=
  match fuel, lines with
  | S f, line :: lines' =>
      if py_in "Call Trace:" line && negb (mentions ignore_patterns line) then
        let '(trace, ignored, rest) := collect_trace ignore_patterns lines' in
        if negb ignored && negb (existsb (String.eqb line) keys)
        then py_join NL (line :: trace) :: extract_from f ignore_patterns (line :: keys) rest
        else extract_from f ignore_patterns keys rest
      else extract_from f ignore_patterns keys lines'
  | _, _ => []
  end.

Definition call_traces_of (ignore_patterns lines : list string) : list string :=
  extract_from (length lines) ignore_patterns [] lines.

(** Adding the lines of one pattern that are neither ignored nor there already. *)
Definition add_errors (ignore_patterns errors contents : list string) : list string :=
  foldl (λ errors line,
    if mentions ignore_patterns line || existsb (String.eqb line) errors then errors else errors ++ [line]) errors contents.

(** ** Numbers *)

Definition py_truediv : pyval → pyval → result pyval := lift_num num_div.

(** [min(a, b)] *)
Definition py_min (a b : pyval) : result pyval := c ← py_lt b a; Ret (if (c : bool) then b else a).

(** Allocations of 512 MB: a hundred times what fits, between 100 and 2000. *)
Definition alloc_size_bytes : Z := 512 * 1024 * 1024.
Definition allocations_per_worker (per_worker_bytes : Z) : result Z :=
  q ← num_div (NInt per_worker_bytes) (NInt alloc_size_bytes);
  allocations_needed ← num_int q;
  Ret (Z.max 100 (Z.min (allocations_needed * 100) 2000)).

(** The bytes each of the workers gets of the memory. *)
Definition worker_bytes (total_memory : num) (target_percent : pyval) (workers : Z) : result Z :=
  a ← num_mul total_memory (NInt 1024);
  b ← num_mul a (NInt 1024);
  total_memory_bytes ← num_mul b (NInt 1024);
  share ← py_truediv target_percent (VFloat (fl 100 0));
  t ← py_mul (of_num total_memory_bytes) share;
  target_memory_bytes ← py_int t;
  per ← num_floordiv (NInt target_memory_bytes) (NInt workers);
  num_int per.

(** [os.path.splitext(p)[0]] of a name without directory: without what follows the last point,
    unless only points come before it. *)
Definition splitext_root (p : string) : string :=
  let l := py_split_on "." p in
  match last_opt l with
  | Some ext =>
      let root := py_join "." (take (length l - 1) l) in
      if forallb (Ascii.eqb ".") (chars_of root) then p else root
  | None => p
  end.

(** [s.lstrip('Vv')] *)
Definition lstrip_V (s : string) : string :=
  str_of (drop_while (λ c, Ascii.eqb c "V" || Ascii.eqb c "v") (chars_of s)).

(** ** Constants *)

Definition crt_stressors_list : list string :=
  ["bsearch"; "context"; "hsearch"; "lsearch"; "matrix"; "memcpy"; "null"; "pipe"; "qsort"; "stack"; "str"; "stream";
   "tsearch"; "vm-rw"; "wcs"; "zero"; "mlock"; "mmapfork"; "mmapmany"; "mremap"; "shm-sysv"; "vm-splice"].
Definition vrt_stressors_list : list string := ["malloc"; "mincore"; "vm"; "bigheap"; "brk"; "mmap"].

Definition required_packages : list string :=
  ["gcc"; "make"; "libattr-devel"; "libcap-devel"; "libgcrypt-devel"; "zlib-devel"; "libaio-devel"].

Definition sequential_stressors : list string :=
  ["tlb-shootdown"; "fault"; "userfaultfd"; "fork"; "exec"; "memfd"; "numa"; "pkey"; "remap"; "rmap"; "shm"; "switch";
   "tmpfs"; "pthread"; "swap"; "vm"; "vm-rw"; "vm-addr"; "vm-splice"; "mmap"; "mremap"; "mlock"; "mincore"; "madvise";
   "msync"; "mprotect"; "malloc"; "brk"; "stack"; "bigheap"; "memcpy"; "memfd"; "memrate"; "memthrash"; "mq"; "pipe";
   "shm-sysv"; "mmapfork"; "mmapmany"; "mmapfixed"; "mmaphuge"; "context"; "clone"; "vfork"; "vforkmany"; "zombie";
   "get"; "getrandom"; "handle"; "heapsort"; "hdd"; "hsearch"; "icache"; "iomix"; "itimer"; "kcmp"; "key"; "kill";
   "klog"; "lease"].

Definition error_patterns : list string :=
  ["WARNING: CPU:"; "Oops"; "Segfault"; "soft lockup"; "Unable to handle"; "ard LOCKUP"].
Definition teardown_patterns : list string :=
  ["WARNING: CPU:"; "Oops"; "Segfault"; "soft lockup"; "Unable to handle"; "Hard LOCKUP"].
Definition ignore_patterns : list string :=
  ["Out of memory"; "OOM"; "oom"; "Killed process"; "Memory cgroup out of memory";
   "Unable to handle swap header version"; "swap header"].

Definition strs (l : list string) : pyval := VList (map VStr l).
Definition ruler : string := "=====================================================".

(** ** The class Stressngmem *)

Section Stressngmem.
Context {W : Type} {HE : Env W} {HS : StressLib W}.
Abbreviation T := (M W stress_self).

Definition st_call (fn : string) (args : list pyval) : T pyval := ext (EvCall fn args) (st_lib fn args).

(** An attribute that setUp reads from the parameters, and [total_memory_in_GiB]. *)
Definition param_of (name : string) (f : stress_params → pyval) : T pyval := attr name (λ x, f <$> st_params x).
Definition total_memory : T num := attr "total_memory_in_GiB" st_total_memory.

Definition read_line_with_matching_pattern (filename pattern : string) : T (list string) :=
  content ← read_file filename; mret (lines_matching pattern (log_lines content)).

Definition extract_call_traces (filename : string) (ignore_patterns : list string) : T (list string) :=
  content ← read_file filename; mret (call_traces_of ignore_patterns (log_lines content)).

(** *** Workers and memory *)

Definition calculate_workers_for_memory (stressor : pyval) : T (option Z) :=
  flag ← gets st_flag; max_config ← gets st_is_max_config;
  if String.eqb flag "vrt" && max_config then
    total ← total_memory;
    mem_per_worker ← param_of "mem_per_worker" sp_mem_per_worker;
    q ← lift (py_truediv (of_num total) mem_per_worker);
    optimal_workers ← lift (py_int q);
    cpus ← gets st_online_cpus;
    let max_workers := cpus * 2 in
    let calculated_workers := Z.min optimal_workers max_workers in
    log_info ("Max config memory-based worker calculation for " +:+ py_str stressor +:+ ":") ;;
    log_info ("  Total memory: " +:+ num_str total +:+ " GiB") ;;
    log_info ("  Target per worker: " +:+ py_str mem_per_worker +:+ " GiB") ;;
    log_info ("  Optimal workers: " +:+ py_str_Z optimal_workers) ;;
    log_info ("  CPU count: " +:+ py_str_Z cpus +:+ " (max workers cap: " +:+ py_str_Z max_workers +:+ ")") ;;
    log_info ("  Using " +:+ py_str_Z calculated_workers +:+ " workers (vs " +:+ py_str_Z cpus +:+ " CPUs with auto-scale)") ;;
    mret (if 0 <? calculated_workers then Some calculated_workers else None)
  else mret None.

Definition is_one_of (stressor : pyval) (names : list string) : bool := existsb (λ n, py_eq stressor (VStr n)) names.

(** The option of malloc, bigheap and brk. *)
Definition sized_option (stressor : pyval) (workers : Z) (target_percent : pyval) : T string :=
  total ← total_memory;
  per_worker_bytes ← lift (worker_bytes total target_percent workers);
  per_worker_gb ← lift (num_div (NInt per_worker_bytes) (NInt (1024 * 1024 * 1024)));
  total_gb ← lift (num_mul (NInt workers) per_worker_gb);
  log_fmt Info
    (a ← f_of 2 false per_worker_gb; b ← f_of 2 false total_gb; p ← fmt_d target_percent; t ← d_of total;
     Ret ("  Calculated per-worker memory for " +:+ py_str stressor +:+ ": " +:+ a +:+ " GB (" +:+ py_str_Z workers +:+
          " workers x " +:+ a +:+ " GB = " +:+ b +:+ " GB total, " +:+ p +:+ "% of " +:+ t +:+ " GB)")) ;;
  if is_one_of stressor ["malloc"] then
    allocations ← lift (allocations_per_worker per_worker_bytes);
    log_info ("  malloc strategy: 512 MB allocation size, " +:+ py_str_Z allocations +:+
              " max allocations per worker (100x multiplier)") ;;
    mret ("--malloc-bytes " +:+ py_str_Z alloc_size_bytes +:+ " --malloc-max " +:+ py_str_Z allocations +:+ " --malloc-touch")
  else if is_one_of stressor ["bigheap"] then
    mret ("--bigheap-bytes " +:+ py_str_Z per_worker_bytes +:+ " --bigheap-growth " +:+ py_str_Z (32 * 1024 * 1024))
  else mret ("--brk-bytes " +:+ py_str_Z per_worker_bytes).

Definition get_memory_option_for_stressor (stressor : pyval) (workers : option Z) : T string :=
  max_config ← gets st_is_max_config;
  match workers with
  | Some n =>
      if (max_config : bool) then
        target_percent ← param_of "memory_target_percent" sp_memory_target_percent;
        if is_one_of stressor ["vm"] then mret ("--vm-bytes " +:+ py_str target_percent +:+ "%")
        else if is_one_of stressor ["mmap"] then mret ("--mmap-bytes " +:+ py_str target_percent +:+ "%")
        else if is_one_of stressor ["malloc"; "bigheap"; "brk"] then sized_option stressor n target_percent
        else if is_one_of stressor ["mincore"] then mret "--mincore-random"
        else mret ""
      else mret ""
  | None => mret ""
  end.

(** *** Running the stressors *)

(** The run time of the kind of stressors that runs. *)
Definition run_time_of (flag : string) : T pyval :=
  if String.eqb flag "crt" then param_of "base_time" sp_base_time
  else if String.eqb flag "vrt" then attr "variable_time" st_variable_time
  else throw OtherError "cannot access local variable 'run_time'".

Definition stress_cmd (end_time run_time stressor : pyval) (workers : Z) (memory_option cpu_load_option : string) : string :=
  "timeout -s 9 " +:+ py_str end_time +:+ " stress-ng --aggressive --verify --timeout " +:+ py_str run_time +:+ " --" +:+
  py_str stressor +:+ " " +:+ py_str_Z workers +:+ " " +:+ memory_option +:+ " " +:+ cpu_load_option.

Definition cpu_load_of (flag : string) (max_config : bool) : T string :=
  if String.eqb flag "vrt" && max_config then
    max_cpu_load ← param_of "max_cpu_load" sp_max_cpu_load;
    if is_None max_cpu_load then mret ""
    else
      log_info ("  CPU load cap (max config VRT): " +:+ py_str max_cpu_load +:+ "%") ;;
      mret ("--cpu-load " +:+ py_str max_cpu_load)
  else mret "".

Definition report_error (stressor : pyval) (return_code : Z) : T () :=
  modify with_error ;;
  log_info ruler ;;
  (if return_code =? 137
   then log_info ("== > stress-ng memory test timed out and " +:+ str_of (blanks 30) +:+ "was forcefully terminated!")
   else log_info ("==> Error " +:+ py_str_Z return_code +:+ " reported on stressor " +:+ py_str stressor +:+ "!")) ;;
  log_info ruler.

Definition execute_stressor (stressor : pyval) : T Z :=
  flag ← gets st_flag; max_config ← gets st_is_max_config; cpus ← gets st_online_cpus;
  run_time ← run_time_of flag;
  end_time ← lift (py_mul run_time (VFloat (fl_decimal 15 (-1))));
  workers ← calculate_workers_for_memory stressor;
  memory_option ← get_memory_option_for_stressor stressor workers;
  cpu_load_option ← cpu_load_of flag max_config;
  log_info ("Running stress-ng : " +:+ py_str stressor +:+ " stressor for " +:+ py_str run_time +:+ " seconds with " +:+
            match workers with Some n => py_str_Z n | None => "auto-scale (" +:+ py_str_Z cpus +:+ " CPUs)" end +:+ " workers") ;;
  when (negb (py_empty memory_option)) (log_info ("  Memory target: " +:+ memory_option)) ;;
  return_code ← process_system
    (stress_cmd end_time run_time stressor (default 0 workers) memory_option cpu_load_option) [IgnoreStatus];
  log_info ("Return code is " +:+ py_str_Z return_code) ;;
  when (negb (return_code =? 0)) (report_error stressor return_code) ;;
  mret return_code.

Definition stressor_step (stressor : pyval) : T () :=
  return_code ← execute_stressor stressor;
  passed ← gets st_passed; failed ← gets st_failed;
  modify (if return_code =? 0 then with_outcome (passed ++ [stressor]) failed
          else with_outcome passed (failed ++ [(stressor, return_code)])).

Definition process_looping (list_of_stressors : pyval) : T () :=
  l ← lift (py_iter list_of_stressors); for_each l stressor_step.

(** *** Times *)

Definition capped_time (calculated_time max_vrt_time : pyval) : T () :=
  if is_None max_vrt_time then modify (with_variable_time calculated_time)
  else
    variable_time ← lift (py_min calculated_time max_vrt_time);
    modify (with_variable_time variable_time) ;;
    above ← lift (py_lt max_vrt_time calculated_time);
    when above
      (total ← total_memory;
       log_info ("Max config system detected (" +:+ num_str total +:+ " GiB > 4TB)") ;;
       log_info ("VRT runtime capped from " +:+ py_str calculated_time +:+ " to " +:+ py_str variable_time +:+ " seconds")).

Definition calculate_variable_time : T () :=
  total ← ext (EvCall "memory.meminfo.MemTotal.g" []) mem_total_g;
  log_info ("Total Memory on the system : " +:+ num_str total +:+ " GiB") ;;
  modify (with_total_memory total (num_lt (NInt 4096) total)) ;;
  time_per_gig ← param_of "time_per_gig" sp_time_per_gig;
  extra_time ← lift (py_mul time_per_gig (of_num total));
  base_time ← param_of "base_time" sp_base_time;
  calculated_time ← lift (py_add base_time extra_time);
  max_vrt_time ← param_of "max_vrt_time" sp_max_vrt_time;
  capped_time calculated_time max_vrt_time ;;
  variable_time ← attr "variable_time" st_variable_time;
  log_info ("Time limit set for constant_run_time stressors is " +:+ py_str base_time +:+ " seconds per stressor.") ;;
  log_info ("Time limit set for variable_run_time stressors is " +:+ py_str variable_time +:+ " seconds per stressor.").

(** *** setUp *)

Definition require_package (package : string) : T () :=
  c ← st_call "SoftwareManager.check_installed" [VStr package];
  when (negb (truthy c))
    (i ← st_call "SoftwareManager.install" [VStr package];
     when (negb (truthy i)) (test_cancel (package +:+ " is needed for the test to be run."))).

Definition url_default : string := "https://github.com/ColinIanKing/stress-ng/archive/V0.21.04.zip".

Definition read_params : T stress_params :=
  base_time ← get_param "base_time" (VInt 300);
  time_per_gig ← get_param "time_per_gig" (VInt 10);
  max_vrt_time ← get_param "max_vrt_time" (VInt 7200);
  mem_per_worker ← get_param "mem_per_worker" (VInt 20);
  memory_target_percent ← get_param "memory_target_percent" (VInt 70);
  max_cpu_load ← get_param "max_cpu_load" VNone;
  url ← get_param "url" (VStr url_default);
  crt_stressors ← get_param "crt_stressors" (strs crt_stressors_list);
  vrt_stressors ← get_param "vrt_stressors" (strs vrt_stressors_list);
  mret (StressParams base_time time_per_gig max_vrt_time mem_per_worker memory_target_percent max_cpu_load url
          crt_stressors vrt_stressors).

(** Downloading and building the sources. *)
Definition build_stress_ng (url : pyval) : T () :=
  tarball ← st_call "fetch_asset" [VStr "stressng.zip"; url; VStr "7d"];
  _ ← st_call "archive.extract" [tarball; VStr st_workdir];
  u ← lift (as_text url);
  let version := lstrip_V (splitext_root (basename u)) in
  let sourcedir := path_join st_workdir ("stress-ng-" +:+ version) in
  _ ← st_call "os.chdir" [VStr sourcedir];
  r ← st_call "build.run_make" [VStr sourcedir];
  when (existsb (py_in "error:") (py_splitlines (py_str r)))
    (test_cancel "Build Failed, Please check the build logs for details !!") ;;
  _ ← st_call "build.make" [VStr sourcedir; VStr "install"];
  mret ().

Definition setUp : T () :=
  modify with_defaults ;;
  online_cpus ← ext (EvCall "cpu.online_count" []) st_online_count;
  p ← read_params;
  modify (with_params p online_cpus) ;;
  for_each required_packages require_package ;;
  build_stress_ng (sp_url p) ;;
  _ ← st_call "dmesg.clear_dmesg" [];
  mret ().

(** *** test_memory *)

Definition failed_info (failed : list (pyval * Z)) : string :=
  py_join ", " (map (λ '(s, rc), py_str s +:+ "(rc=" +:+ py_str_Z rc +:+ ")") failed).

Definition log_summary (passed : list pyval) (failed : list (pyval * Z)) : T () :=
  let count {A} (l : list A) := py_str_Z (Z.of_nat (length l)) in
  log_info ruler ;;
  log_info "==> Test Summary:" ;;
  log_info ruler ;;
  log_info ("Total stressors executed: " +:+ py_str_Z (Z.of_nat (length passed + length failed))) ;;
  log_info ("Passed: " +:+ count passed) ;;
  log_info ("Failed: " +:+ count failed) ;;
  log_info ruler ;;
  when (match passed with [] => false | _ => true end)
    (log_info ("==> Passed Stressors (" +:+ count passed +:+ "):") ;;
     for_each passed (λ s, log_info ("  ✓ " +:+ py_str s))) ;;
  when (match failed with [] => false | _ => true end)
    (log_info ("==> Failed Stressors (" +:+ count failed +:+ "):") ;;
     for_each failed (λ '(s, code), log_info ("  ✗ " +:+ py_str s +:+ " (return code: " +:+ py_str_Z code +:+ ")"))) ;;
  log_info ruler.

(** The estimate of the run time, in minutes. *)
Definition estimated_runtime (crt base_time vrt variable_time : pyval) : result pyval :=
  n ← py_len crt; crt_runtime ← py_mul (VInt n) base_time;
  m ← py_len vrt; vrt_runtime ← py_mul (VInt m) variable_time;
  s ← py_add crt_runtime vrt_runtime; py_truediv s (VInt 60).

Definition test_memory : T () :=
  swap_memory ← ext (EvCall "memory.meminfo.SwapTotal.m" []) swap_total_m;
  when (num_eq swap_memory (NInt 0))
    (test_cancel "Swap space unavailable! Please activate swap space and re-run this test!") ;;
  calculate_variable_time ;;
  crt_stressors ← param_of "crt_stressors" sp_crt_stressors;
  base_time ← param_of "base_time" sp_base_time;
  vrt_stressors ← param_of "vrt_stressors" sp_vrt_stressors;
  variable_time ← attr "variable_time" st_variable_time;
  total_runtime ← lift (estimated_runtime crt_stressors base_time vrt_stressors variable_time);
  log_info ("Total estimated runtime is : " +:+ py_str total_runtime +:+ " minutes") ;;
  modify (with_flag "crt") ;;
  process_looping crt_stressors ;;
  modify (with_flag "vrt") ;;
  process_looping vrt_stressors ;;
  passed ← gets st_passed; failed ← gets st_failed;
  log_summary passed failed ;;
  had_error ← gets st_had_error;
  (if had_error =? 0 then log_info "==> stress-ng memory test passed!"
   else test_fail ("stress-ng memory test failed: " +:+ failed_info failed)) ;;
  log_info ruler.

(** *** test_vm_class_sequential *)

Definition full_cmd : string :=
  "stress-ng --no-oom-adjust --oomable --seq 0 -t 60s --perf -v --verify " +:+
  py_join " " (map (λ s, "--" +:+ s +:+ " 0") sequential_stressors).
Definition sequential_cmd : string := "timeout -s 9 5400 " +:+ full_cmd.

Definition log_found (errors_in_dmesg call_traces : list string) : T () :=
  log_error ruler ;;
  log_error "Errors found in dmesg (OOM errors excluded):" ;;
  log_error ruler ;;
  when (match errors_in_dmesg with [] => false | _ => true end)
    (log_error (NL +:+ "--- Non-Call-Trace Errors ---") ;; for_each errors_in_dmesg log_error) ;;
  when (match call_traces with [] => false | _ => true end)
    (log_error (NL +:+ "--- Call Traces (" +:+ py_str_Z (Z.of_nat (length call_traces)) +:+ " unique) ---") ;;
     for_each (imap (λ i trace, (Z.of_nat i + 1, trace)) call_traces)
       (λ '(i, trace), log_error (NL +:+ "Call Trace #" +:+ py_str_Z i +:+ ":") ;; log_error trace)) ;;
  log_error (NL +:+ ruler).

(** The verdict on the return code and what was found. *)
Definition judge_sequential (return_code : Z) (errors_in_dmesg call_traces : list string) : T () :=
  let count {A} (l : list A) := Z.of_nat (length l) in
  let total_errors := count errors_in_dmesg + count call_traces in
  if return_code =? 137 then test_fail "VM class sequential test timed out after 90 minutes!"
  else if 0 <? total_errors then
    test_fail ("VM class sequential test completed but " +:+ py_str_Z total_errors +:+ " error(s) found in dmesg: " +:+
               py_str_Z (count errors_in_dmesg) +:+ " non-trace errors, " +:+ py_str_Z (count call_traces) +:+
               " call traces (see log above)")
  else if negb (return_code =? 0) then
    log_info ruler ;;
    log_info ("stress-ng returned exit code " +:+ py_str_Z return_code +:+ ", but no non-OOM errors found in dmesg") ;;
    log_info "This is expected behavior during aggressive memory stress testing" ;;
    log_info "==> VM class sequential test passed!" ;;
    log_info ruler
  else log_info "==> VM class sequential test passed!" ;; log_info ruler.

Definition test_vm_class_sequential : T () :=
  log_info ruler ;;
  log_info "Starting VM class sequential stress test" ;;
  log_info "Expected runtime: Approximately 60 minutes" ;;
  log_info ruler ;;
  modify with_skip ;;
  log_info ("Executing command: " +:+ full_cmd) ;;
  log_info "Running VM class sequential test..." ;;
  return_code ← process_system sequential_cmd [IgnoreStatus; Shell];
  log_info ruler ;;
  log_info "VM class sequential test completed" ;;
  log_info ("Return code: " +:+ py_str_Z return_code) ;;
  filename ← ext (EvCall "dmesg.collect_dmesg" []) collect_dmesg;
  errors_in_dmesg ← for_acc error_patterns []
    (λ errors error_pattern, contents ← read_line_with_matching_pattern filename error_pattern;
                             mret (add_errors ignore_patterns errors contents));
  call_traces ← extract_call_traces filename ignore_patterns;
  when (match errors_in_dmesg, call_traces with [], [] => false | _, _ => true end)
    (log_found errors_in_dmesg call_traces) ;;
  judge_sequential return_code errors_in_dmesg call_traces.

(** *** tearDown *)

Definition tearDown : T () :=
  skip ← gets st_skip_dmesg;
  if default false skip then log_info "Skipping tearDown dmesg check (already checked in test method)"
  else
    filename ← ext (EvCall "dmesg.collect_dmesg" []) collect_dmesg;
    errors_in_dmesg ← for_acc teardown_patterns []
      (λ errors failed_pattern, contents ← read_line_with_matching_pattern filename failed_pattern; mret (errors ++ contents));
    match errors_in_dmesg with
    | [] => mret ()
    | _ => test_fail ("Failed : Errors in dmesg : " +:+ py_join NL errors_in_dmesg)
    end.
End Stressngmem.
