(* ===== verification/StressLog.v ===== *)
(** * Errors and call traces in the kernel log

    What [extract_call_traces] and the tests of [Stressngmem] find in a log: a specification of
    the call traces as an inductive division of the log, which the loops refine, and the
    verdict of the sequential test. *)

From S2P Require Import Prelude PyStr PyFloat PyVal Avocado Logic StressMem.
Open Scope Z_scope.

(** ** The loops *)

Lemma existsb_elem {A} (p : A → bool) l : existsb p l = true ↔ ∃ y, y ∈ l ∧ p y = true.
Proof. rewrite existsb_exists. by setoid_rewrite list_elem_of_In. Qed.

Section traces.
Context (ign : list string).

(** A line at which a trace starts. *)
Definition head_line (line : string) : bool := py_in "Call Trace:" line && negb (mentions ign line).

(** The log does not go on with the trace. *)
Definition trace_ends (rest : list string) : Prop :=
  match rest with line :: _ => continues_trace line = false | [] => True end.

(** How a log divides into call traces and other lines. *)
Inductive divided : list string → list (string * list string) → Prop :=
| divided_end : divided [] []
| divided_skip line lines traces :
    head_line line = false → divided lines traces → divided (line :: lines) traces
| divided_trace head body rest traces :
    head_line head = true → Forall (λ line, continues_trace line = true) body → trace_ends rest →
    divided rest traces → divided (head :: body ++ rest) ((head, body) :: traces).

(** No line of the trace is ignored. *)
Definition clean (t : string * list string) : bool := negb (existsb (mentions ign) t.2).

(** The first trace with each head, other than the heads [keys]. *)
Fixpoint first_by_head (keys : list string) (traces : list (string * list string)) : list (string * list string) :=
  match traces with
  | [] => []
  | t :: traces' =>
      if existsb (String.eqb t.1) keys then first_by_head keys traces' else t :: first_by_head (t.1 :: keys) traces'
  end.

Definition block (t : string * list string) : string := py_join NL (t.1 :: t.2).

Lemma collect_spec lines :
  let '(trace, ignored, rest) := collect_trace ign lines in
  ∃ body, lines = body ++ rest ∧ Forall (λ line, continues_trace line = true) body ∧ trace_ends rest ∧
    ignored = existsb (mentions ign) body ∧ (ignored = false → trace = body).
Proof using Type.
  induction lines as [|line lines IH]; simpl; [by exists []|]. destruct (continues_trace line) eqn:Ec.
  - destruct (collect_trace ign lines) as [[trace ignored] rest]. destruct IH as (body & -> & Hc & Ht & -> & Hb).
    destruct (mentions ign line) eqn:Em; exists (line :: body); cbn [existsb]; rewrite Em; cbn [orb].
    + split_and!; [done|by constructor|done|done|done].
    + split_and!; [done|by constructor|done|done|]. intros H. by rewrite Hb.
  - exists []. simpl. by rewrite Ec.
Qed.

Lemma extract_refines f keys lines :
  (length lines ≤ f)%nat →
  ∃ traces, divided lines traces ∧
    extract_from f ign keys lines = map block (first_by_head keys (List.filter clean traces)).
Proof using Type.
  revert keys lines. induction f as [|f IH]; intros keys [|line lines] Hf; simpl in Hf; try lia.
  1,2: exists []; split; [constructor|done].
  cbn [extract_from]. fold (head_line line). destruct (head_line line) eqn:Eh.
  - pose proof (collect_spec lines) as Hc. destruct (collect_trace ign lines) as [[trace ignored] rest].
    destruct Hc as (body & -> & Hcont & Hend & -> & Hb). rewrite length_app in Hf.
    assert (∀ keys', ∃ traces, divided (line :: body ++ rest) ((line, body) :: traces) ∧
      extract_from f ign keys' rest = map block (first_by_head keys' (List.filter clean traces))) as Hrest.
    { intros keys'. destruct (IH keys' rest) as (traces & Hd & E); [lia|]. exists traces. split; [by constructor|done]. }
    destruct (existsb (mentions ign) body) eqn:Ei; cbn [negb andb].
    + destruct (Hrest keys) as (traces & Hd & E). exists ((line, body) :: traces). split; [done|].
      cbn [List.filter]. unfold clean at 1. cbn [snd]. by rewrite Ei.
    + rewrite (Hb eq_refl). destruct (existsb (String.eqb line) keys) eqn:Ek; cbn [negb].
      * destruct (Hrest keys) as (traces & Hd & E). exists ((line, body) :: traces). split; [done|].
        cbn [List.filter]. unfold clean at 1. cbn [snd]. rewrite Ei. cbn [negb first_by_head fst]. by rewrite Ek.
      * destruct (Hrest (line :: keys)) as (traces & Hd & E). exists ((line, body) :: traces). split; [done|].
        cbn [List.filter]. unfold clean at 1. cbn [snd]. rewrite Ei. cbn [negb first_by_head fst]. rewrite Ek.
        cbn [map]. by rewrite E.
  - destruct (IH keys lines) as (traces & Hd & E); [lia|]. exists traces. split; [by constructor|done].
Qed.

(** A log divides in one way. *)
Lemma span_unique (p : string → bool) body1 rest1 body2 rest2 :
  Forall (λ l, p l = true) body1 → Forall (λ l, p l = true) body2 →
  match rest1 with l :: _ => p l = false | [] => True end → match rest2 with l :: _ => p l = false | [] => True end →
  body1 ++ rest1 = body2 ++ rest2 → body1 = body2 ∧ rest1 = rest2.
Proof using Type.
  intros H1 H2 R1 R2 E. pose proof (span_app p body1 rest1 H1 R1) as S1. rewrite E, (span_app p body2 rest2 H2 R2) in S1.
  by injection S1 as -> ->.
Qed.

Lemma divided_unique lines traces1 traces2 : divided lines traces1 → divided lines traces2 → traces1 = traces2.
Proof using Type.
  intros H. revert traces2. induction H as [|line lines traces Hl _ IH|head body rest traces Hh Hc He _ IH]; intros t2 H2.
  - by inversion H2.
  - inversion H2; subst; [by apply IH|congruence].
  - inversion H2 as [|? ? ? Hl|? body' rest' traces' _ Hc' He' Hd' [Eh Eb]]; subst; [congruence|].
    destruct (span_unique continues_trace body' rest' body rest Hc' Hc He' He) as [-> ->]; [congruence|]. f_equal. by apply IH.
Qed.

(** C23: [extract_call_traces] refines the division of the log into call traces: its result is
    the text of the traces none of whose lines is ignored, the first of each head, in the order
    of the log; and there is one such division. *)
Theorem call_traces_refine lines :
  ∃ traces, divided lines traces ∧ (∀ traces', divided lines traces' → traces' = traces) ∧
    call_traces_of ign lines = map block (first_by_head [] (List.filter clean traces)).
Proof using Type.
  destruct (extract_refines (length lines) [] lines (le_n _)) as (traces & Hd & E). exists traces.
  split; [done|]. split; [|exact E]. intros traces' H. by eapply divided_unique.
Qed.

(** ** Logs with time stamps *)

Lemma extract_skip f keys pre lines :
  Forall (λ l, head_line l = false) pre →
  extract_from (length pre + f) ign keys (pre ++ lines) = extract_from f ign keys lines.
Proof using Type.
  induction 1 as [|l pre Hl _ IH]; [done|]. cbn [length Nat.add app extract_from]. fold (head_line l). by rewrite Hl.
Qed.

Lemma stamped_continues l : starts_with ["["%char] (chars_of (py_strip l)) = true → continues_trace l = true.
Proof using Type. unfold continues_trace. by intros ->. Qed.

(** in a log whose lines all start with a bracket, as those with a time stamp do, everything
    after the first call trace belongs to it: at most one is reported, and none if any line
    from there to the end of the log is ignored. *)
Theorem stamped_log_one_trace pre head post :
  Forall (λ l, head_line l = false) pre → head_line head = true →
  Forall (λ l, starts_with ["["%char] (chars_of (py_strip l)) = true) post →
  call_traces_of ign (pre ++ head :: post) =
    if existsb (mentions ign) post then [] else [py_join NL (head :: post)].
Proof using Type.
  intros Hpre Hhead Hpost. unfold call_traces_of. rewrite length_app. rewrite extract_skip by done.
  cbn [length extract_from]. fold (head_line head). rewrite Hhead. pose proof (collect_spec post) as Hc.
  destruct (collect_trace ign post) as [[trace ignored] rest]. destruct Hc as (body & -> & _ & Hend & -> & Hb).
  apply Forall_app in Hpost as [_ Hrest]. destruct rest as [|l rest].
  2:{ apply list.Forall_cons in Hrest as [Hl _]. simpl in Hend. rewrite stamped_continues in Hend by done. done. }
  rewrite app_nil_r in *. destruct (existsb (mentions ign) body); cbn [negb andb existsb].
  - by destruct (length body).
  - rewrite (Hb eq_refl). by destruct (length body).
Qed.
End traces.

(** ** Errors *)

Lemma elem_add_errors ign errors contents y :
  y ∈ add_errors ign errors contents ↔ y ∈ errors ∨ (y ∈ contents ∧ mentions ign y = false).
Proof.
  unfold add_errors. revert errors. induction contents as [|l contents IH]; intros errors; cbn [foldl].
  { rewrite elem_of_nil. tauto. }
  rewrite IH, elem_of_cons. destruct (mentions ign l) eqn:Em; cbn [orb].
  { intuition congruence. }
  destruct (existsb (String.eqb l) errors) eqn:Ee.
  - apply existsb_elem in Ee as (z & Hz & ->%String.eqb_eq). intuition congruence.
  - rewrite elem_of_app, list_elem_of_singleton. intuition congruence.
Qed.

(** The lines of the patterns that are not ignored. *)
Lemma elem_errors ign patterns lines errors y :
  y ∈ foldl (λ errors p, add_errors ign errors (lines_matching p lines)) errors patterns ↔
  y ∈ errors ∨ (y ∈ lines ∧ mentions patterns y = true ∧ mentions ign y = false).
Proof.
  revert errors. induction patterns as [|p patterns IH]; intros errors; cbn [foldl]; [intuition done|].
  rewrite IH, elem_add_errors. assert (mentions (p :: patterns) y = py_in p y || mentions patterns y) as -> by done.
  unfold lines_matching. rewrite !list_elem_of_In, filter_In, orb_true_iff. tauto.
Qed.

Lemma nil_iff_no_elem {A} (l : list A) : l = [] ↔ ∀ y, y ∉ l.
Proof. split; [intros -> y; apply not_elem_of_nil|]. destruct l as [|y l]; [done|]. intros H. destruct (H y). left. Qed.

(** A log is reported when it has a line with an error, or a call trace, that is not ignored. *)
Definition reportable (lines : list string) : Prop :=
  (∃ line, line ∈ lines ∧ mentions error_patterns line = true ∧ mentions ignore_patterns line = false) ∨
  ∃ traces t, divided ignore_patterns lines traces ∧ t ∈ traces ∧ clean ignore_patterns t = true.

Definition errors_of (lines : list string) : list string :=
  foldl (λ errors p, add_errors ignore_patterns errors (lines_matching p lines)) [] error_patterns.

Lemma first_by_head_nil traces : first_by_head [] traces = [] ↔ traces = [].
Proof. by destruct traces. Qed.

Lemma not_reportable lines :
  errors_of lines = [] ∧ call_traces_of ignore_patterns lines = [] ↔ ¬ reportable lines.
Proof.
  destruct (extract_refines ignore_patterns (length lines) [] lines (le_n _)) as (traces & Hd & E).
  unfold call_traces_of. rewrite E. clear E. unfold errors_of. rewrite nil_iff_no_elem. setoid_rewrite elem_errors.
  assert (map block (first_by_head [] (List.filter (clean ignore_patterns) traces)) = [] ↔
    ∀ t, t ∈ traces → clean ignore_patterns t = false) as ->.
  { assert (∀ l, map block l = [] ↔ l = []) as -> by by intros []. rewrite first_by_head_nil, nil_iff_no_elem.
    setoid_rewrite list_elem_of_In at 1. setoid_rewrite filter_In. setoid_rewrite <- list_elem_of_In.
    split; intros H t; specialize (H t); destruct (clean ignore_patterns t); intuition congruence. }
  unfold reportable. split.
  - intros [H1 H2] [(l & Hl & He & Hi)|(traces' & t & Hd' & Hin & Hc)]; [apply (H1 l); auto|].
    rewrite (divided_unique _ _ _ _ Hd' Hd) in Hin. specialize (H2 t Hin). congruence.
  - intros H. split.
    + intros l [?%not_elem_of_nil|(Hl & He & Hi)]; [done|]. apply H. left. eauto.
    + intros t Ht. destruct (clean ignore_patterns t) eqn:Ec; [|done]. destruct H. right. eauto.
Qed.

Lemma report_found lines :
  errors_of lines ≠ [] ∨ call_traces_of ignore_patterns lines ≠ [] → reportable lines.
Proof.
  intros H. destruct (errors_of lines) as [|y errors] eqn:Ee.
  - destruct H as [|H]; [done|]. destruct (extract_refines ignore_patterns (length lines) [] lines (le_n _)) as (traces & Hd & E).
    unfold call_traces_of in H. rewrite E in H. right. destruct (List.filter (clean ignore_patterns) traces) as [|t l] eqn:Ef; [done|].
    exists traces, t. split; [done|]. rewrite list_elem_of_In, <- (filter_In (clean ignore_patterns)), Ef. by left.
  - left. exists y. assert (y ∈ errors_of lines) as Hy by (rewrite Ee; left).
    apply elem_errors in Hy as [?%not_elem_of_nil|Hy]; done.
Qed.
