(* ===== verification/StressVerdicts.v ===== *)
(** * Verdicts of the stress tests

    The class [StressMachine]: a machine on which a command of the test ends with a return code.
    The theorems: what test_memory runs, records and reports, and which return codes and kernel
    logs test_vm_class_sequential accepts. *)

From S2P Require Import Prelude PyStr PyFloat PyVal Avocado Logic StressMem StressLog.
Open Scope Z_scope.

Class StressMachine (W : Type) {HE : Env W} {HS : StressLib W} := {
  sm_code : string → W → Z;
  sm_next : string → W → W;
  sm_system cmd flags w : env_system cmd flags w = (Ret (sm_code cmd w), sm_next cmd w);
}.

Section machine.
Context {W : Type} {HE : Env W} {HS : StressLib W} {HM : StressMachine W}.
Implicit Types (w : W) (x : stress_self).

Lemma system_runs cmd flags w x :
  runs (process_system cmd flags) w x (Ret (sm_code cmd w)) (sm_next cmd w) x.
Proof using Type. apply runs_ext, sm_system. Qed.

Lemma log_fmt_runs {S} l text w (x : S) : runs (log_fmt l text) w x (Ret ()) w x.
Proof using Type. destruct text; [apply runs_log|apply runs_ret]. Qed.

(** ** Running the stressors *)

(** What a stressor that ended with a code adds. *)
Definition record_outcome x (o : pyval * Z) : stress_self :=
  if o.2 =? 0 then with_outcome (st_passed x ++ [o.1]) (st_failed x) x
  else with_outcome (st_passed x) (st_failed x ++ [o]) (with_error x).

(** The stressors with their codes, run one after the other by the command [cmd]. *)
Fixpoint outcomes (cmd : pyval → string) (l : list pyval) w : list (pyval * Z) * W :=
  match l with
  | [] => ([], w)
  | s :: l' =>
      let '(o, w') := outcomes cmd l' (sm_next (cmd s) w) in ((s, sm_code (cmd s) w) :: o, w')
  end.

Definition succeeded (o : pyval * Z) : bool := o.2 =? 0.
Definition passed_of (o : list (pyval * Z)) : list pyval := map fst (List.filter succeeded o).
Definition failed_of (o : list (pyval * Z)) : list (pyval * Z) := List.filter (negb ∘ succeeded) o.

(** The command for a run time of [t] seconds on a machine that is not of maximum size. *)
Definition plain_cmd (t : Z) (stressor : pyval) : string :=
  stress_cmd (VFloat (f_mul (fl t 0) (fl_decimal 15 (-1)))) (VInt t) stressor 0 "" "".

(** The stressors that run have [t] seconds each, and no options for the memory. *)
Definition timed (t : Z) x : Prop :=
  st_is_max_config x = false ∧
  ((st_flag x = "crt"%string ∧ ∃ p, st_params x = Some p ∧ sp_base_time p = VInt t) ∨
   (st_flag x = "vrt"%string ∧ st_variable_time x = Some (VInt t))).

Lemma record_outcome_timed t x o : timed t x → timed t (record_outcome x o).
Proof using Type. unfold timed, record_outcome. by destruct (o.2 =? 0). Qed.

Lemma run_time_runs t x w : timed t x → runs (run_time_of (st_flag x)) w x (Ret (VInt t)) w x.
Proof using Type.
  unfold run_time_of. intros [_ [[-> (p & Hp & Hb)]|[-> Hv]]]; cbn.
  - apply runs_attr. by rewrite Hp, <- Hb.
  - by apply runs_attr.
Qed.

Lemma end_time_value t : Z.abs t < 2 ^ 53 →
  py_mul (VInt t) (VFloat (fl_decimal 15 (-1))) = Ret (VFloat (f_mul (fl t 0) (fl_decimal 15 (-1)))).
Proof using Type.
  intros Ht. assert (is_inf (fl t 0) = false) as Hi by (apply fl_not_inf; split; [exact Ht|lia]).
  unfold py_mul, lift_num, as_num, num_mul, num_arith, num_float, float_of_int. by rewrite Hi.
Qed.

Lemma report_runs s code w x : runs (report_error s code) w x (Ret ()) w (with_error x).
Proof using Type. unfold report_error. run_step. run_step. destruct (code =? 137); run. Qed.

Lemma execute_runs t s w x : timed t x → Z.abs t < 2 ^ 53 →
  let code := sm_code (plain_cmd t s) w in
  runs (execute_stressor s) w x (Ret code) (sm_next (plain_cmd t s) w) (if code =? 0 then x else with_error x).
Proof using Type.
  intros Ht Hb code. unfold execute_stressor. pose proof Ht as [Hm _]. do 3 run_step. run_by (run_time_runs t x w Ht).
  rewrite end_time_value by done. run_step. unfold calculate_workers_for_memory, get_memory_option_for_stressor, cpu_load_of.
  rewrite Hm, !andb_false_r. eapply runs_bind; [run_step; run_step; rewrite Hm, andb_false_r; apply runs_ret|].
  eapply runs_bind; [run_step; apply runs_ret|]. run_step. run_step. run_step. run_by system_runs.
  change (default 0 None) with 0. fold (plain_cmd t s). fold code. clearbody code. run_step. destruct (code =? 0); cbn [negb].
  { run_step. apply runs_ret. }
  run_by report_runs. apply runs_ret.
Qed.

Lemma stressor_step_runs t s w x : timed t x → Z.abs t < 2 ^ 53 →
  runs (stressor_step s) w x (Ret ()) (sm_next (plain_cmd t s) w) (record_outcome x (s, sm_code (plain_cmd t s) w)).
Proof using Type.
  intros Ht Hb. unfold stressor_step, record_outcome. cbn [fst snd]. run_by (execute_runs t s w x Ht Hb).
  destruct (sm_code (plain_cmd t s) w =? 0); run.
Qed.

Lemma looping_runs t l w x : timed t x → Z.abs t < 2 ^ 53 →
  let '(o, w') := outcomes (plain_cmd t) l w in
  runs (process_looping (VList l)) w x (Ret ()) w' (foldl record_outcome x o).
Proof using Type.
  intros Ht Hb. assert (let '(o, w') := outcomes (plain_cmd t) l w in
    runs (for_each l stressor_step) w x (Ret ()) w' (foldl record_outcome x o)) as H.
  { revert w x Ht. induction l as [|s l IH]; intros w x Ht; simpl; [apply runs_ret|].
    pose proof (stressor_step_runs t s w x Ht Hb) as Hs.
    specialize (IH (sm_next (plain_cmd t s) w) _ (record_outcome_timed t x (s, sm_code (plain_cmd t s) w) Ht)).
    destruct (outcomes (plain_cmd t) l _) as [o w']. cbn [foldl]. by eapply runs_bind. }
  destruct (outcomes (plain_cmd t) l w) as [o w']. unfold process_looping. by eapply runs_bind; [apply runs_lift|].
Qed.

Lemma passed_cons s c o : passed_of ((s, c) :: o) = if c =? 0 then s :: passed_of o else passed_of o.
Proof using Type. unfold passed_of, succeeded. cbn. by destruct (c =? 0). Qed.

Lemma failed_cons s c o : failed_of ((s, c) :: o) = if c =? 0 then failed_of o else (s, c) :: failed_of o.
Proof using Type. unfold failed_of, succeeded, compose. cbn. by destruct (c =? 0). Qed.

Lemma passed_app o1 o2 : passed_of (o1 ++ o2) = passed_of o1 ++ passed_of o2.
Proof using Type. unfold passed_of. by rewrite List.filter_app, map_app. Qed.

Lemma failed_app o1 o2 : failed_of (o1 ++ o2) = failed_of o1 ++ failed_of o2.
Proof using Type. apply List.filter_app. Qed.

Lemma recorded o x :
  let y := foldl record_outcome x o in
  st_passed y = st_passed x ++ passed_of o ∧ st_failed y = st_failed x ++ failed_of o ∧
  st_had_error y = (match failed_of o with [] => st_had_error x | _ => 1 end) ∧
  st_params y = st_params x ∧ st_is_max_config y = st_is_max_config x ∧ st_variable_time y = st_variable_time x.
Proof using Type.
  revert x. induction o as [|[s c] o IH]; intros x; cbn [foldl]; [by rewrite !app_nil_r|].
  destruct (IH (record_outcome x (s, c))) as (-> & -> & -> & -> & -> & ->). rewrite passed_cons, failed_cons.
  unfold record_outcome. cbn [fst snd]. destruct (c =? 0); cbn; rewrite <- ?app_assoc; split_and!; try done.
  by destruct (failed_of o).
Qed.

(** ** test_memory *)

Lemma log_summary_runs passed failed w x : runs (log_summary passed failed) w x (Ret ()) w x.
Proof using Type.
  unfold log_summary. do 7 run_step. eapply runs_bind.
  { destruct passed; [apply runs_when_false|]. apply runs_when_true. run_step. apply runs_each. intros a _. apply runs_log. }
  cbv beta. eapply runs_bind; [|apply runs_log]. destruct failed; [apply runs_when_false|]. apply runs_when_true. run_step.
  apply runs_each. intros [a c] _. apply runs_log.
Qed.

(** The time of the stressors that depend on the memory. *)
Definition variable_seconds (base per_gig total : Z) (cap : option Z) : Z :=
  let t := base + per_gig * total in match cap with Some c => Z.min t c | None => t end.

Definition cap_value (cap : option Z) : pyval := match cap with Some c => VInt c | None => VNone end.

Lemma capped_runs t cap w x n : st_total_memory x = Some n →
  runs (capped_time (VInt t) (cap_value cap)) w x (Ret ()) w
    (with_variable_time (VInt (match cap with Some c => Z.min t c | None => t end)) x).
Proof using Type.
  intros Hn. unfold capped_time. destruct cap as [c|]; cbn [cap_value is_None]; [|apply runs_modify].
  unfold py_min. rewrite !py_lt_int. cbn [mbind result_bind]. assert ((if c <? t then VInt c else VInt t) = VInt (Z.min t c)) as ->.
  { destruct (Z.ltb_spec c t); f_equal; lia. }
  run_step. run_step. run_step. destruct (c <? t); [|apply runs_when_false]. apply runs_when_true.
  unfold total_memory. eapply runs_bind; [by apply runs_attr|]. run.
Qed.

(** What setUp read. *)
Record known_params (p : stress_params) (base per_gig : Z) (cap : option Z) (crt vrt : list pyval) : Prop := {
  kp_base : sp_base_time p = VInt base;
  kp_per_gig : sp_time_per_gig p = VInt per_gig;
  kp_cap : sp_max_vrt_time p = cap_value cap;
  kp_crt : sp_crt_stressors p = VList crt;
  kp_vrt : sp_vrt_stressors p = VList vrt;
}.

Lemma stress_param_runs name f p w x : st_params x = Some p → runs (param_of name f) w x (Ret (f p)) w x.
Proof using Type. intros H. apply runs_attr. by rewrite H. Qed.

Lemma variable_time_runs p base per_gig cap crt vrt total w x :
  st_params x = Some p → known_params p base per_gig cap crt vrt → mem_total_g w = (Ret (NInt total), w) → total ≤ 4096 →
  let t := variable_seconds base per_gig total cap in
  runs calculate_variable_time w x (Ret ()) w (with_variable_time (VInt t) (with_total_memory (NInt total) false x)).
Proof using Type.
  intros Hp [Hb Hg Hc _ _] Ht Hle t. unfold calculate_variable_time. eapply runs_bind; [by apply runs_ext|]. run_step.
  rewrite num_lt_int. assert (4096 <? total = false) as -> by lia. run_step.
  run_by (stress_param_runs _ sp_time_per_gig p); [done|]. rewrite Hg. cbn. run_step.
  run_by (stress_param_runs _ sp_base_time p); [done|]. rewrite Hb. cbn. run_step.
  run_by (stress_param_runs _ sp_max_vrt_time p); [done|]. rewrite Hc. run_by capped_runs; [done|]. by run.
Qed.
(** C22: on a machine with swap space and no more than 4096 GiB, test_memory runs every constant
    stressor for base_time seconds and then every variable one for base_time plus time_per_gig
    for each GiB, at most max_vrt_time; it records each with its code, in order, and passes
    exactly when all codes are 0; otherwise it fails with those that are not. *)
Theorem test_memory_verdict p base per_gig cap crt vrt total swap est w x :
  st_params x = Some p → known_params p base per_gig cap crt vrt →
  st_passed x = [] → st_failed x = [] → st_had_error x = 0 →
  swap_total_m w = (Ret swap, w) → num_eq swap (NInt 0) = false →
  mem_total_g w = (Ret (NInt total), w) → total ≤ 4096 →
  let t := variable_seconds base per_gig total cap in
  Z.abs base < 2 ^ 53 → Z.abs t < 2 ^ 53 →
  estimated_runtime (VList crt) (VInt base) (VList vrt) (VInt t) = Ret est →
  let '(o1, w1) := outcomes (plain_cmd base) crt w in
  let '(o2, w2) := outcomes (plain_cmd t) vrt w1 in
  let failed := failed_of (o1 ++ o2) in
  ∃ x', st_passed x' = passed_of (o1 ++ o2) ∧ st_failed x' = failed ∧
    runs test_memory w x
      (match failed with [] => Ret () | _ => raise_ TestFail ("stress-ng memory test failed: " +:+ failed_info failed) end)
      w2 x'.
Proof using Type.
  intros Hp Hk Hnp Hnf Hne Hsw Hs Ht Hle t Hb Hbt He. pose proof Hk as [Kb _ _ Kc Kv].
  set (x1 := with_flag "crt" (with_variable_time (VInt t) (with_total_memory (NInt total) false x))).
  assert (timed base x1) as T1 by (split; [done|left; split; [done|by exists p]]).
  pose proof (looping_runs base crt w x1 T1 Hb) as L1. destruct (outcomes (plain_cmd base) crt w) as [o1 w1].
  destruct (recorded o1 x1) as (P1 & F1 & E1 & A1 & M1 & V1). set (y1 := foldl record_outcome x1 o1) in *.
  assert (timed t (with_flag "vrt" y1)) as T2 by (split; [done|by right]).
  pose proof (looping_runs t vrt w1 _ T2 Hbt) as L2. destruct (outcomes (plain_cmd t) vrt w1) as [o2 w2]. cbv zeta.
  destruct (recorded o2 (with_flag "vrt" y1)) as (P2 & F2 & E2 & A2 & M2 & V2).
  set (y2 := foldl record_outcome (with_flag "vrt" y1) o2) in *. exists y2.
  cbn [with_flag st_passed st_failed st_had_error st_params st_variable_time] in P2, F2, E2.
  rewrite passed_app, failed_app. rewrite P1, F1 in *. cbn in P2, F2, E1. rewrite Hnp in P2. rewrite Hnf in F2. rewrite E1, Hne in E2.
  split; [done|]. split; [done|]. unfold test_memory. eapply runs_bind; [by apply runs_ext|]. rewrite Hs. run_step.
  run_by (variable_time_runs p base per_gig cap crt vrt total); [done..|]. fold t.
  run_by (stress_param_runs _ sp_crt_stressors p); [done|]. run_by (stress_param_runs _ sp_base_time p); [done|].
  run_by (stress_param_runs _ sp_vrt_stressors p); [done|]. run_step. rewrite Kb, Kc, Kv, He. run_step. run_step. run_step. fold x1.
  run_by L1. run_step. run_by L2. run_step. run_step. run_by log_summary_runs. run_step. rewrite E2, F2.
  destruct (failed_of o1) as [|e1 r1]; [destruct (failed_of o2) as [|e2 r2]|destruct (failed_of o2)]; cbn [app Z.eqb Pos.eqb].
  { run. }
  all: apply runs_bind_raise, runs_throw.
Qed.
(** ** test_vm_class_sequential *)

Lemma log_found_runs errors traces w x : runs (log_found errors traces) w x (Ret ()) w x.
Proof using Type.
  unfold log_found. do 3 run_step. eapply runs_bind.
  { destruct errors; [apply runs_when_false|]. apply runs_when_true. run_step. apply runs_each. intros e _. apply runs_log. }
  cbv beta. eapply runs_bind; [|apply runs_log]. destruct traces; [apply runs_when_false|]. apply runs_when_true. run_step.
  apply runs_each. intros [i t] _. run.
Qed.

Lemma judge_runs rc errors traces w x :
  (rc ≠ 137 ∧ errors = [] ∧ traces = [] ∧ runs (judge_sequential rc errors traces) w x (Ret ()) w x) ∨
  (¬ (rc ≠ 137 ∧ errors = [] ∧ traces = []) ∧
   ∃ msg, runs (judge_sequential rc errors traces) w x (raise_ TestFail msg) w x).
Proof using Type.
  unfold judge_sequential. destruct (Z.eqb_spec rc 137) as [->|Hrc]; [right; split; [tauto|]; eexists; apply runs_throw|].
  destruct errors as [|e errors]; [destruct traces as [|t traces]|]; cbn [length].
  - left. split_and!; try done. change (0 <? Z.of_nat 0 + Z.of_nat 0) with false. cbv iota.
    destruct (rc =? 0); cbn [negb]; cbv iota; run.
  - right. split; [naive_solver|]. assert (0 <? Z.of_nat 0 + Z.of_nat (S (length traces)) = true) as -> by (apply Z.ltb_lt; lia).
    eexists. apply runs_throw.
  - right. split; [naive_solver|].
    assert (0 <? Z.of_nat (S (length errors)) + Z.of_nat (length traces) = true) as -> by (apply Z.ltb_lt; lia). eexists. apply runs_throw.
Qed.

(** test_vm_class_sequential passes exactly when its command was not killed by the time limit
    (code 137) and the kernel log has nothing to report: no line with an error and no call
    trace that are not ignored; otherwise it fails.  Any other code is accepted.  In both cases
    tearDown will not look at the log again. *)
Theorem vm_class_verdict file content w w' x :
  let rc := sm_code sequential_cmd w in
  collect_dmesg (sm_next sequential_cmd w) = (Ret file, w') → env_read file w' = (Ret content, w') →
  let x' := with_skip x in
  (rc ≠ 137 ∧ ¬ reportable (log_lines content) ∧ runs test_vm_class_sequential w x (Ret ()) w' x') ∨
  ((rc = 137 ∨ reportable (log_lines content)) ∧
   ∃ msg, runs test_vm_class_sequential w x (raise_ TestFail msg) w' x').
Proof using Type.
  intros rc Hd Hr x'. set (lines := log_lines content). set (traces := call_traces_of ignore_patterns lines).
  assert (∀ r, runs (judge_sequential rc (errors_of lines) traces) w' x' r w' x' →
    runs test_vm_class_sequential w x r w' x') as Hrun.
  { intros r Hj. unfold test_vm_class_sequential. do 7 run_step. run_by system_runs. fold rc. do 3 run_step.
    eapply runs_bind; [by apply runs_ext|]. cbv beta. eapply runs_bind.
    { apply (runs_foldl _ _ (λ errors p, add_errors ignore_patterns errors (lines_matching p lines))).
      intros errors pat _. eapply runs_bind; [|apply runs_ret]. eapply runs_bind; [by apply runs_silent|]. apply runs_ret. }
    cbv beta. fold (errors_of lines). eapply runs_bind; [eapply runs_bind; [by apply runs_silent|apply runs_ret]|].
    cbv beta. fold lines traces. eapply runs_bind; [|exact Hj].
    destruct (errors_of lines), traces; try apply runs_when_false; apply log_found_runs. }
  pose proof (not_reportable lines) as Hn. fold traces in Hn.
  destruct (judge_runs rc (errors_of lines) traces w' x') as [(H1 & H2 & H3 & H)|[H1 [msg H]]]; [left|right].
  - split; [done|]. split; [tauto|by apply Hrun].
  - split; [|exists msg; by apply Hrun]. destruct (Z.eq_dec rc 137) as [->|Hne]; [by left|right].
    apply report_found. fold traces. destruct (errors_of lines); [|by left]. right. tauto.
Qed.
End machine.
