(* ===== verification/StressSim.v ===== *)
(** * A simulated machine under stress

    A machine on which the stressors named in a list end with their code, the others with 0, and
    whose kernel log is given: an instance of [StressMachine], on which the theorems about the
    stress tests are applied.  The world counts the commands. *)

From S2P Require Import Prelude PyStr PyFloat PyVal Avocado Logic StressMem StressLog StressVerdicts.
Open Scope Z_scope.

Section machine.
Context (codes : dict Z) (kernel_log : string).

(** The code of the first stressor that the command names. *)
Fixpoint code_of (cmd : string) (l : dict Z) : Z :=
  match l with
  | [] => 0
  | (stressor, code) :: l' => if py_in ("--" +:+ stressor +:+ " ") cmd then code else code_of cmd l'
  end.

#[local] Instance stress_env : Env nat := {|
  env_run := λ _ _ w, (Ret (CmdResult 0 ""), w);
  env_system := λ cmd _ w, (Ret (code_of cmd codes), S w);
  env_system_output := λ _ _ w, (Ret ""%string, w);
  env_ssh := λ _ _ w, (Ret (CmdResult 0 ""), w);
  env_connect := λ _ _ _ w, (Ret true, w);
  env_show := λ r, stdout_text r;
  env_param := λ _ d, d;
  env_exists := λ _ w, (true, w);
  env_read := λ _ w, (Ret kernel_log, w);
  env_append := λ _ _ w, (Ret (), w);
  env_remove := λ _ w, (Ret (), w);
  env_random := λ w, (0, w);
|}.

#[local] Instance stress_lib : StressLib nat := {|
  st_lib := λ _ _ w, (Ret VNone, w);
  mem_total_g := λ w, (Ret (NInt 1000), w);
  swap_total_m := λ w, (Ret (NInt 4095), w);
  st_online_count := λ w, (Ret 8, w);
  collect_dmesg := λ w, (Ret "/tmp/dmesg.log"%string, w);
  st_workdir := "/var/tmp";
|}.

#[local, refine] Instance stress_machine : StressMachine nat := {|
  sm_code := λ cmd _, code_of cmd codes;
  sm_next := λ _ w, S w;
  sm_system := _;
|}.
Proof. done. Defined.
End machine.

Definition default_params : stress_params :=
  StressParams (VInt 300) (VInt 10) (VInt 7200) (VInt 20) (VInt 70) VNone (VStr url_default)
    (strs ["bsearch"; "vm-rw"]) (strs ["malloc"; "vm"; "brk"]).

Definition fresh : stress_self := with_params default_params 8 (with_defaults new_stress).

(** 1000 GiB would take 10300 seconds for a stressor: the limit of two hours applies. *)
Lemma test_memory_verdict_witness :
  ∃ x', st_passed x' = map VStr ["bsearch"; "vm-rw"; "brk"] ∧
    runs (test_memory (HE:=stress_env [("malloc", 2); ("vm", 137)] "") (HS:=stress_lib)) 0%nat fresh
      (raise_ TestFail "stress-ng memory test failed: malloc(rc=2), vm(rc=137)") 5%nat x'.
Proof.
  set (codes := [("malloc", 2); ("vm", 137)]%string).
  destruct (estimated_runtime (strs ["bsearch"; "vm-rw"]) (VInt 300) (strs ["malloc"; "vm"; "brk"]) (VInt 7200)) as [est|] eqn:E;
    [|exfalso; vm_compute in E; discriminate].
  assert (known_params default_params 300 10 (Some 7200) (map VStr ["bsearch"; "vm-rw"]%string)
    (map VStr ["malloc"; "vm"; "brk"]%string)) as Hk by by constructor.
  pose proof (test_memory_verdict (HM:=stress_machine codes "") default_params 300 10 (Some 7200) _ _ 1000 (NInt 4095) est
    0%nat fresh eq_refl Hk eq_refl eq_refl eq_refl eq_refl eq_refl eq_refl ltac:(lia) ltac:(lia) ltac:(cbn; lia) E) as H.
  change (variable_seconds 300 10 1000 (Some 7200)) with 7200 in H.
  assert (outcomes (HM:=stress_machine codes "") (plain_cmd 300) (map VStr ["bsearch"; "vm-rw"]%string) 0%nat =
    (map (λ s, (VStr s, 0)) ["bsearch"; "vm-rw"]%string, 2%nat)) as E1 by (vm_compute; reflexivity).
  assert (outcomes (HM:=stress_machine codes "") (plain_cmd 7200) (map VStr ["malloc"; "vm"; "brk"]%string) 2%nat =
    ([(VStr "malloc", 2); (VStr "vm", 137); (VStr "brk", 0)], 5%nat)) as E2 by (vm_compute; reflexivity).
  rewrite E1, E2 in H. destruct H as (x' & Hp & _ & H). exists x'. split; [exact Hp|exact H].
Defined.

Definition oom_log : string :=
  py_join NL ["stress-ng invoked oom-killer"; "Call Trace:"; " [c0] dump_stack+0x8c"; " [c1] oom_kill_process+0x1";
    "Out of memory: Killed process 7"; ""].

(** Stressors that were killed for memory: code 2 and a trace of the killer are accepted. *)
Lemma vm_class_verdict_witness :
  runs (test_vm_class_sequential (HE:=stress_env [("vm", 2)] oom_log) (HS:=stress_lib)) 0%nat fresh (Ret ()) 1%nat
    (with_skip fresh).
Proof.
  destruct (vm_class_verdict (HM:=stress_machine [("vm", 2)] oom_log) "/tmp/dmesg.log" oom_log 0%nat 1%nat fresh eq_refl eq_refl)
    as [(_ & _ & H)|[[H|H] _]]; [exact H|by vm_compute in H|].
  exfalso. eapply not_reportable; [|exact H]. by vm_compute.
Defined.

(** A second trace of another fault, and a line of the killer, after the first trace. *)
Lemma stamped_log_one_trace_witness :
  call_traces_of ignore_patterns
    ["[ 1.0] boot"; "[ 2.0] Call Trace:"; "[ 2.1] f+0x8"; "[ 9.0] BUG: bad page"; "[ 9.1] Call Trace:"; "[ 9.2] g+0x4";
     "[99.0] Out of memory"] = [].
Proof.
  exact (stamped_log_one_trace ignore_patterns ["[ 1.0] boot"] "[ 2.0] Call Trace:"
    ["[ 2.1] f+0x8"; "[ 9.0] BUG: bad page"; "[ 9.1] Call Trace:"; "[ 9.2] g+0x4"; "[99.0] Out of memory"]
    ltac:(repeat constructor) eq_refl ltac:(repeat constructor)).
Defined.
