(* ===== verification/VirtualFc.v ===== *)
(** * The virtual Fibre Channel tests: io/disk/vfc-tests/virtual_fc.py

    The class [VirtualFC]: adapters of virtual I/O servers (VIOS) that are mapped to the
    partition, which the tests unmap and map, take out and add, create and delete through the
    management console.  avocado's [multipath], [wait] and package manager and the closing of
    the session are the class [VfcLib]. *)

From S2P Require Import Prelude PyStr PyFloat PyVal Avocado Logic.
Open Scope Z_scope.

(** ** Data *)

(** An entry of [dic_list]: an adapter and what hangs on it. *)
Record vfc_dic := VfcDic {
  vd_vios : string;
  vd_vfchost : string;
  vd_fcs : string;
  vd_vfc_client : string;
  vd_paths : list string;
}.

Record vfc_params := VfcParams {
  vp_vioses : pyval;
  vp_count : pyval;
  vp_skip_host : pyval;
  vp_vfc_id : pyval;
  vp_vfchost_count : Z;
}.

(** The attributes of [self]; [None] is an attribute that is not set. *)
Record vfc_self := VfcSelf {
  vf_hmc_ip : option string;
  vf_params : option vfc_params;
  vf_lpar : option string;
  vf_session : option string;      (* the host of the session *)
  vf_server : option string;
  vf_dic_list : option (list vfc_dic);
  vf_err_mesg : option (list string);
  vf_path : string;
}.

Definition new_vfc : vfc_self := VfcSelf None None None None None None None "".

Definition with_hmc_ip (v : string) (x : vfc_self) : vfc_self :=
  VfcSelf (Some v) (vf_params x) (vf_lpar x) (vf_session x) (vf_server x) (vf_dic_list x) (vf_err_mesg x) (vf_path x).
Definition with_params (v : vfc_params) (x : vfc_self) : vfc_self :=
  VfcSelf (vf_hmc_ip x) (Some v) (vf_lpar x) (vf_session x) (vf_server x) (vf_dic_list x) (vf_err_mesg x) (vf_path x).
Definition with_lpar (v : string) (x : vfc_self) : vfc_self :=
  VfcSelf (vf_hmc_ip x) (vf_params x) (Some v) (vf_session x) (vf_server x) (vf_dic_list x) (vf_err_mesg x) (vf_path x).
Definition with_session (v : string) (x : vfc_self) : vfc_self :=
  VfcSelf (vf_hmc_ip x) (vf_params x) (vf_lpar x) (Some v) (vf_server x) (vf_dic_list x) (vf_err_mesg x) (vf_path x).
Definition with_server (v : string) (x : vfc_self) : vfc_self :=
  VfcSelf (vf_hmc_ip x) (vf_params x) (vf_lpar x) (vf_session x) (Some v) (vf_dic_list x) (vf_err_mesg x) (vf_path x).
Definition with_dic_list (v : list vfc_dic) (x : vfc_self) : vfc_self :=
  VfcSelf (vf_hmc_ip x) (vf_params x) (vf_lpar x) (vf_session x) (vf_server x) (Some v) (vf_err_mesg x) (vf_path x).
Definition with_err_mesg (v : list string) (x : vfc_self) : vfc_self :=
  VfcSelf (vf_hmc_ip x) (vf_params x) (vf_lpar x) (vf_session x) (vf_server x) (vf_dic_list x) (Some v) (vf_path x).
Definition with_path (v : string) (x : vfc_self) : vfc_self :=
  VfcSelf (vf_hmc_ip x) (vf_params x) (vf_lpar x) (vf_session x) (vf_server x) (vf_dic_list x) (vf_err_mesg x) v.

(** The library functions that this test calls.  [vf_wait_for f t] is [wait.wait_for(f, timeout=t)]:
    it polls [f] until it gives a true value or the time is over, and tells whether it did. *)
Class VfcLib (W : Type) := {
  vf_lib : string → list pyval → W → result pyval * W;
  vf_wait_for : M W vfc_self bool → Z → M W vfc_self bool;
  (* multipath.get_path_status *)
  vf_path_status : string → W → result (list string) * W;
  vf_stderr : cmd_result → string;
  vf_distro : string;
}.

Definition vfc_packages : list string := ["ksh"; "src"; "rsct.basic"; "rsct.core.utils"; "rsct.core"; "DynamicRM"].

Definition strs_repr (l : list string) : string := py_repr (VList (map VStr l)).
Definition status_repr (l : list string) : string := "(" +:+ py_join ", " (map quote l) +:+ ")".
Definition vfc_repr (d : vfc_dic) : string :=
  py_repr (VDict [("vios", VStr (vd_vios d)); ("vfchost", VStr (vd_vfchost d)); ("fcs", VStr (vd_fcs d));
                  ("vfc_client", VStr (vd_vfc_client d)); ("paths", VList (map VStr (vd_paths d)))]%string).
Definition vfc_list_repr (l : list vfc_dic) : string := "[" +:+ py_join ", " (map vfc_repr l) +:+ "]".

Definition is_in (operation : string) (names : list string) : bool := existsb (String.eqb operation) names.

(** [line.split(c)[0]] and [line.split(c)[-1]] *)
Definition first_field (c : ascii) (line : string) : string :=
  match py_split_on c line with w :: _ => w | [] => ""%string end.
Definition last_field (c : ascii) (line : string) : string := default ""%string (last_opt (py_split_on c line)).

(** The last field of the first line with the name; empty when there is none. *)
Definition value_of (name output : string) : string :=
  match List.find (py_in name) (py_splitlines output) with Some line => last_field ":" line | None => ""%string end.

(** ** The commands *)

Definition vios_cmd (server vios cmd : string) : string :=
  "viosvrcmd -m " +:+ server +:+ " -p " +:+ vios +:+ " -c " +:+ DQ +:+ cmd +:+ DQ.

Definition lsmap_names : string := "lsmap -all -npiv -field  Name                ClntName -fmt :".
Definition lsmap_fc : string := "lsmap -all -npiv -field Name                fc -fmt :".
Definition lsmap_client : string := "lsmap -all -npiv -field  name               vfcclient -fmt :".
Definition lsmap_status : string := "lsmap -all -npiv -field  name               Status -fmt :".
Definition lsdev_status (vfchost : string) : string :=
  "lsdev -dev " +:+ vfchost +:+ " -field  name status                -fmt :".

Definition map_cmd (operation vfchost fcs : string) : string :=
  if String.eqb operation "map" then "vfcmap -vadapter " +:+ vfchost +:+ " -fcp " +:+ fcs
  else "vfcmap -vadapter " +:+ vfchost +:+ " -fcp".
Definition dev_cmd (operation vfchost : string) : string :=
  if String.eqb operation "remove" then "rmdev -dev " +:+ vfchost +:+ " -ucfg" else "cfgdev -dev " +:+ vfchost.

Definition create_cmd (server lpar vios vfc_type : string) (vfchost_id : Z) : string :=
  let i := py_str_Z vfchost_id in
  if String.eqb vfc_type "client" then
    "chhwres -m " +:+ server +:+ " -r virtualio --rsubtype fc -o a                     -p " +:+ lpar +:+ " -a " +:+ DQ +:+
    "adapter_type=" +:+ vfc_type +:+ ",remote_lpar_name=" +:+ vios +:+ ",                    remote_slot_num=" +:+ i +:+
    DQ +:+ " -s " +:+ i
  else
    "chhwres -m " +:+ server +:+ " -r virtualio --rsubtype fc -o a                    -p " +:+ vios +:+ " -s " +:+ i +:+
    " -a " +:+ DQ +:+ "adapter_type=" +:+ vfc_type +:+ ",remote_lpar_name=" +:+ lpar +:+
    ",                    remote_slot_num=" +:+ i +:+ DQ.
Definition delete_cmd (server lpar : string) (vfchost_id : Z) : string :=
  "chhwres -r virtualio -m " +:+ server +:+ " -o r -p " +:+ lpar +:+ " -s " +:+ py_str_Z vfchost_id.
Definition slots_cmd (server lpar : string) : string :=
  "lshwres -r virtualio --rsubtype fc --level lpar -m " +:+ server +:+
  " -F                slot_num,adapter_type | grep -i " +:+ lpar.

(** A line of the listing that starts with the slot. *)
Definition lists_slot (vfc_slot : Z) (output : string) : bool :=
  existsb (λ line, String.eqb (py_str_Z vfc_slot) (first_field "," line)) (py_splitlines output).

(** ** The class VirtualFC *)

Section VirtualFC.
Context {W : Type} {HE : Env W} {HV : VfcLib W}.
Abbreviation T := (M W vfc_self).

Definition vf_call (fn : string) (args : list pyval) : T pyval := ext (EvCall fn args) (vf_lib fn args).
Definition param_of {A} (name : string) (f : vfc_params → A) : T A := attr name (λ x, f <$> vf_params x).
Definition opp_sleep_time : pyval := VInt 20.

(** [self.session.cmd(cmd)] *)
Definition session_cmd (cmd : string) : T cmd_result := host ← attr "session" vf_session; ssh_cmd host cmd.

Definition add_mesg (msg : string) : T () :=
  l ← attr "err_mesg" vf_err_mesg; modify (with_err_mesg (l ++ [msg])).

(** [self.fail] with two arguments. *)
Definition fail_with_arguments : T () :=
  throw TypeError "Test.fail() takes from 1 to 2 positional arguments but 3 were given".

(** *** setUp *)

Definition get_mcp_component (component : string) : T string :=
  out ← process_system_output ("lsrsrc IBM.MCP " +:+ component) [IgnoreStatus; Shell; Sudo];
  match List.find (py_in component) (py_splitlines out) with
  | Some line =>
      match last_opt (py_split line) with
      | Some w => mret (py_strip_of ("{}" +:+ DQ) w)
      | None => throw IndexError "list index out of range"
      end
  | None => mret ""
  end.

Definition get_partition_name (component : string) : T string :=
  out ← process_system_output "lparstat -i" [IgnoreStatus; Shell; Sudo];
  mret (match List.find (py_in component) (py_splitlines out) with
        | Some line => py_strip (last_field ":" line)
        | None => ""
        end).

Definition install_package (pkg : string) : T () :=
  c ← vf_call "SoftwareManager.check_installed" [VStr pkg];
  when (negb (truthy c))
    (i ← vf_call "SoftwareManager.install" [VStr pkg];
     when (negb (truthy i)) (test_cancel (pkg +:+ " is needed for the test to be run"))).

Definition install_packages : T () :=
  log_info ("Test is running on: " +:+ vf_distro) ;; for_each vfc_packages install_package.

Definition rsct_service_start : T () :=
  try_except
    (for_each ["rsct"; "rsct_rm"] (λ svc, _ ← process_run ("startsrc -g " +:+ svc) [Shell; Sudo]; mret ()))
    (λ c, bool_decide (c = CmdError)) (λ details, log_debug (ex_msg details) ;; fail_with_arguments) ;;
  output ← process_system_output "lssrc -a" [IgnoreStatus; Shell; Sudo];
  when (py_in "inoperative" output) (test_fail "Failed to start the rsct and rsct_rm services").

(** The output of a command on the VIOS. *)
Definition vios_output (vios cmd : string) : T string :=
  server ← attr "server" vf_server; r ← session_cmd (vios_cmd server vios cmd); mret (stdout_text r).

Definition get_vfchost (vios_name : string) : T (list string) :=
  output ← vios_output vios_name lsmap_names; lpar ← attr "lpar" vf_lpar;
  mret (map (first_field ":") (List.filter (py_in lpar) (py_splitlines output))).

Definition logged_value (vios_name cmd vfchost : string) : T string :=
  output ← vios_output vios_name cmd; log_info ("output value : " +:+ output) ;; mret (value_of vfchost output).
Definition get_fcs_name (vfchost vios_name : string) : T string := logged_value vios_name lsmap_fc vfchost.
Definition get_vfc_client (vfchost vios_name : string) : T string := logged_value vios_name lsmap_client vfchost.
Definition get_vfchost_status (vfchost vios_name : string) : T string := logged_value vios_name lsmap_status vfchost.
Definition get_vfchost_config_status (vios vfchost : string) : T string := logged_value vios (lsdev_status vfchost) vfchost.

Definition get_paths (vfc_client : string) : T (list string) :=
  output ← process_system_output "ls -l /sys/block/" [];
  mret (map (last_field "/") (List.filter (py_in ("/" +:+ vfc_client +:+ "/")) (py_splitlines output))).

(** An adapter of a VIOS is entered, unless it is the one to skip. *)
Definition enter_vfchost (vios vfchost : string) : T () :=
  fcs ← get_fcs_name vfchost vios;
  vfc_client ← get_vfc_client vfchost vios;
  paths ← get_paths vfc_client;
  skip_host ← param_of "skip_host" vp_skip_host;
  when (negb (py_eq (VStr vfc_client) skip_host))
    (l ← attr "dic_list" vf_dic_list; modify (with_dic_list (l ++ [VfcDic vios vfchost fcs vfc_client paths]))).

Definition read_params : T (vfc_params * pyval * pyval) :=
  vioses ← get_param "vioses" VNone;
  hmc_pwd ← get_param "hmc_pwd" VNone;
  hmc_username ← get_param "hmc_username" VNone;
  count ← get_param "count" (VInt 1);
  skip_host ← get_param "skip_host" VNone;
  vfc_id ← get_param "vfchost_id" VNone;
  c ← get_param "vfc_count" (VInt 1); vfchost_count ← lift (py_int c);
  mret (VfcParams vioses count skip_host vfc_id vfchost_count, hmc_username, hmc_pwd).

Definition setUp : T () :=
  install_packages ;;
  rsct_service_start ;;
  hmc_ip ← get_mcp_component "HMCIPAddr";
  modify (with_hmc_ip hmc_ip) ;;
  when (py_empty hmc_ip) (test_cancel "HMC IP not got") ;;
  '(p, hmc_username, hmc_pwd) ← read_params;
  modify (with_params p) ;;
  lpar ← get_partition_name "Partition Name";
  modify (with_lpar lpar) ;;
  when (py_empty lpar) (test_cancel "LPAR Name not got from lparstat command") ;;
  modify (with_session hmc_ip) ;;
  connected ← ext (EvCall "Session.connect" [VStr hmc_ip]) (env_connect (VStr hmc_ip) hmc_username hmc_pwd);
  when (negb connected) (test_cancel "failed connecting to HMC") ;;
  r ← session_cmd "lssyscfg -r sys  -F name";
  let server := foldl (λ server line, if py_in line lpar then line else server) ""%string (py_splitlines (stdout_text r)) in
  modify (with_server server) ;;
  when (py_empty server) (test_cancel "Managed System not got") ;;
  modify (λ x, with_err_mesg [] (with_dic_list [] x)) ;;
  vioses ← lift (as_text (vp_vioses p));
  for_each (py_split_on " " vioses) (λ vios, hosts ← get_vfchost vios; for_each hosts (enter_vfchost vios)) ;;
  l ← attr "dic_list" vf_dic_list;
  log_info ("complete list : " +:+ vfc_list_repr l).

(** *** Verification *)

(** The function polled, and the message or the log line. *)
Definition verify (check : T bool) (timeout : Z) (mesg success : string) : T () :=
  ok ← vf_wait_for check timeout;
  if (ok : bool) then log_info success else add_mesg mesg.

Definition is_host_online (operation vfc_client : string) : T bool :=
  text ← read_file ("/sys/class/fc_host/" +:+ vfc_client +:+ "/port_state");
  let status := py_strip_of NL text in
  let say (value : string) :=
    log_info ("operation:" +:+ operation +:+ " host:" +:+ vfc_client +:+ " status=" +:+ status +:+ " return:" +:+ value +:+
              "                                    ") in
  if is_in operation ["map"; "add"] then say "True" ;; mret (String.eqb status "Online")
  else if is_in operation ["unmap"; "remove"] then
    if is_in status ["Linkdown"; "Offline"] then say "True" ;; mret true else say "False" ;; mret false
  else mret false.

Definition vfc_client_status_verify (operation vfc_client : string) : T () :=
  log_info ("verifying " +:+ vfc_client +:+ " status after " +:+ operation +:+ " its                        vfchost") ;;
  verify (is_host_online operation vfc_client) 10
    ("operation:" +:+ operation +:+ " client_host:" +:+ vfc_client +:+ " verify failed                                   ")
    ("operation:" +:+ operation +:+ " client_host:" +:+ vfc_client +:+ " verify success                            ").

Definition status_check (operation vfchost vios_name : string) : T bool :=
  vfchost_status ← get_vfchost_status vfchost vios_name;
  mret (if String.eqb operation "map" then String.eqb vfchost_status "LOGGED_IN"
        else if String.eqb operation "unmap" then String.eqb vfchost_status "NOT_LOGGED_IN"
        else false).

Definition vfchost_status_verify (operation vfchost vios_name : string) : T () :=
  log_info ("verifying " +:+ vfchost +:+ " status after its " +:+ operation) ;;
  verify (status_check operation vfchost vios_name) 10
    ("after " +:+ operation +:+ " " +:+ vfchost +:+ " status change failed                                   ")
    (vfchost +:+ " status change success                            after " +:+ operation).

Definition is_removed (operation vfchost vios : string) : T bool :=
  status ← get_vfchost_config_status vios vfchost;
  mret (if String.eqb operation "add" then String.eqb status "Available"
        else if String.eqb operation "remove" then String.eqb status "Defined"
        else false).

Definition vfchost_config_status_verify (operation vfchost vios : string) : T () :=
  verify (is_removed operation vfchost vios) 30
    ("after " +:+ operation +:+ " " +:+ vfchost +:+ " status change                                   failed")
    (vfchost +:+ " status change success                            after " +:+ operation).

(** [path_stat[i]] *)
Definition stat_at (path_stat : list string) (i : nat) : result string :=
  match path_stat !! i with Some s => Ret s | None => raise_ IndexError "tuple index out of range" end.

(** [path_stat[0] == first and path_stat[2] == third], the negation of the condition of the code. *)
Definition stat_is (path_stat : list string) (first third : string) : result bool :=
  a ← stat_at path_stat 0;
  if negb (String.eqb a first) then Ret false else c ← stat_at path_stat 2; Ret (String.eqb c third).

Definition is_path_online (operation : string) : T bool :=
  _ ← process_system "multipathd -k'show paths'" [IgnoreStatus];
  path ← gets vf_path;
  path_stat ← ext (EvCall "multipath.get_path_status" [VStr path]) (vf_path_status path);
  let say (text : string) :=
    log_info ("operation:" +:+ operation +:+ " path=" +:+ path +:+ text +:+ "                            ") in
  let result (value : string) :=
    say (" stat=" +:+ status_repr path_stat +:+ " return=" +:+ value +:+ "        ") in
  say (" path_stat=" +:+ status_repr path_stat) ;;
  if is_in operation ["map"; "add"] then
    ok ← lift (stat_is path_stat "active" "ready"); result (if (ok : bool) then "True" else "False") ;; mret ok
  else if is_in operation ["unmap"; "remove"] then
    ok ← lift (stat_is path_stat "failed" "faulty"); result (if (ok : bool) then "True" else "False") ;; mret ok
  else log_info "Operation unknown, provide correct operation" ;; mret false.

Definition path_step (operation path : string) : T () :=
  modify (with_path path) ;;
  verify (is_path_online operation) 10
    ("operation:" +:+ operation +:+ " path:" +:+ path +:+ " verify failed                                       ")
    ("operation:" +:+ operation +:+ " path:" +:+ path +:+ " verify success                                ").

Definition mpath_verification (operation : string) (paths : list string) : T () :=
  modify (with_path "") ;;
  log_info ("mpath verification for " +:+ operation +:+ " operation for                        paths: " +:+ strs_repr paths) ;;
  for_each paths (path_step operation).

(** *** Mapping and taking out *)

(** A command on the VIOS that must succeed. *)
Definition vios_operation (operation vios cmd : string) : T () :=
  server ← attr "server" vf_server; output ← session_cmd (vios_cmd server vios cmd);
  when (negb (exit_status output =? 0))
    (log_debug (vf_stderr output) ;; test_fail ("vfchost " +:+ operation +:+ " operation failed")).

Definition vfchost_map_unmap (operation : string) (d : vfc_dic) : T () :=
  log_info (operation +:+ "ing " +:+ vd_vfchost d) ;;
  vios_operation operation (vd_vios d) (map_cmd operation (vd_vfchost d) (vd_fcs d)) ;;
  sleep (VInt 5) ;;
  vfchost_status_verify operation (vd_vfchost d) (vd_vios d) ;;
  sleep (VInt 5) ;;
  vfc_client_status_verify operation (vd_vfc_client d) ;;
  mpath_verification operation (vd_paths d).

Definition vfchost_remove_add (operation : string) (d : vfc_dic) : T () :=
  vios_operation operation (vd_vios d) (dev_cmd operation (vd_vfchost d)) ;;
  log_info (operation +:+ " of " +:+ vd_vfchost d +:+ " success") ;;
  sleep (VInt 5) ;;
  log_info ("verifying " +:+ vd_vfchost d +:+ " status after " +:+ operation +:+ " operation....                        ") ;;
  vfchost_config_status_verify operation (vd_vfchost d) (vd_vios d) ;;
  log_info ("verifying " +:+ vd_vfc_client d +:+ " status after " +:+ operation +:+ " operation....                        ") ;;
  vfc_client_status_verify operation (vd_vfc_client d) ;;
  sleep (VInt 8) ;;
  log_info ("verifying mpath status after " +:+ operation +:+ " operation, paths=" +:+ strs_repr (vd_paths d) +:+
            "                         ") ;;
  mpath_verification operation (vd_paths d).

(** The failure at the end of a test. *)
Definition judge (text : string) (otherwise : T ()) : T () :=
  l ← attr "err_mesg" vf_err_mesg;
  match l with [] => otherwise | _ => test_fail (text +:+ strs_repr l) end.

Definition unmap_map_step (d : vfc_dic) : T () :=
  vfchost_map_unmap "unmap" d ;; sleep opp_sleep_time ;; vfchost_map_unmap "map" d ;; sleep opp_sleep_time.

Definition test_unmap_map : T () :=
  count ← param_of "count" vp_count; rounds ← lift (py_range 0 count);
  for_each rounds (λ _, l ← attr "dic_list" vf_dic_list; for_each l unmap_map_step) ;;
  judge "test failed due to following reasons:" (mret ()).

Definition remove_add_step (count : pyval) (round : Z) (d : vfc_dic) : T () :=
  log_info (py_str_Z round +:+ "/" +:+ py_str count +:+ " remove operation on                                dic :" +:+ vfc_repr d) ;;
  vfchost_remove_add "remove" d ;;
  sleep opp_sleep_time ;;
  log_info (py_str_Z round +:+ "/" +:+ vfc_repr d +:+ " add operation on                                dic : " +:+ py_str count) ;;
  vfchost_remove_add "add" d ;;
  sleep opp_sleep_time.

Definition test_remove_add : T () :=
  modify (with_err_mesg []) ;;
  log_info (NL +:+ "vfchost remove_add operations" +:+ NL) ;;
  count ← param_of "count" vp_count; rounds ← lift (py_range 0 count);
  for_each rounds (λ round, l ← attr "dic_list" vf_dic_list; for_each l (remove_add_step count round)) ;;
  judge "test failed due to following reasons:" (mret ()).

(** *** Creating and deleting *)

Definition is_vfc_exist (cmd operation : string) (vfc_slot : Z) : T bool :=
  r ← session_cmd cmd; let there := lists_slot vfc_slot (stdout_text r) in
  mret (if String.eqb operation "create" then there else negb there).

Definition vfchost_exists (operation : string) (vfc_slot : Z) (lpar : string) : T bool :=
  server ← attr "server" vf_server; vf_wait_for (is_vfc_exist (slots_cmd server lpar) operation vfc_slot) 30.

(** What stands after the [return]s is not reached: the exit status of the command is not used. *)
Definition create_vfchost (vios : string) (vfchost_id : Z) (vfc_type : string) : T bool :=
  server ← attr "server" vf_server; lpar ← attr "lpar" vf_lpar;
  let cmd := create_cmd server lpar vios vfc_type vfchost_id in
  log_info ("create-command=" +:+ cmd) ;;
  _ ← session_cmd cmd;
  ok ← vfchost_exists "create" vfchost_id vfc_type;
  if (ok : bool) then mret true
  else
    add_mesg (vfc_type +:+ "=" +:+ py_str_Z vfchost_id +:+ "command success but not                                   deleted") ;;
    mret false.

Definition delete_vfchost (vfchost_id : Z) (lpar : string) : T bool :=
  server ← attr "server" vf_server;
  let cmd := delete_cmd server lpar vfchost_id in
  log_info ("delete-command=" +:+ cmd) ;;
  _ ← session_cmd cmd;
  ok ← vfchost_exists "delete" vfchost_id lpar;
  if (ok : bool) then
    log_info (lpar +:+ " vfchost with ID: " +:+ py_str_Z vfchost_id +:+ " deleted                            successfully") ;;
    mret true
  else
    add_mesg (lpar +:+ "=" +:+ py_str_Z vfchost_id +:+ "command success but not                                   deleted") ;;
    mret false.

(** One adapter with its two ends; the partitions that have one are entered under its number. *)
Definition create_step (vios : string) (end_id : Z) (b : Z * list (Z * list string)) (_ : Z) :
    T (Z * list (Z * list string)) :=
  let '(start_id, vfc_id) := b in
  if start_id <? end_id then
    server_end ← create_vfchost vios start_id "server";
    vfc_id ←
      (if (server_end : bool) then
         log_info ("server vfchost created with                                        id=" +:+ py_str_Z start_id) ;;
         client_end ← create_vfchost vios start_id "client";
         if (client_end : bool) then
           log_info ("client vfchost created success                                            with id=" +:+ py_str_Z start_id) ;;
           lpar ← attr "lpar" vf_lpar; mret (dict_set start_id [vios; lpar] vfc_id)
         else mret (dict_set start_id [vios] vfc_id)
       else mret vfc_id);
    mret (start_id + 1, vfc_id)
  else add_mesg "start host id is not in range" ;; mret (start_id, vfc_id).

Definition delete_step (v_id : Z) (lpar : string) : T () :=
  log_info ("deleting vfchost ID=" +:+ py_str_Z v_id +:+ " lpar=" +:+ lpar) ;;
  ok ← delete_vfchost v_id lpar;
  if (ok : bool) then log_info ("vfchost deleted successfully: " +:+ py_str_Z v_id)
  else add_mesg ("vfc_id=" +:+ py_str_Z v_id +:+ " delete failed:").

Definition test_create_delete_vfchost : T () :=
  modify (with_err_mesg []) ;;
  id ← param_of "vfc_id" vp_vfc_id; range ← lift (as_text id);
  start_id ← lift (py_int (VStr (first_field "-" range)));
  end_id ← lift (py_int (VStr (last_field "-" range)));
  v ← param_of "vioses" vp_vioses; vioses ← lift (as_text v);
  b ← for_acc (py_split_on "," vioses) (start_id, [])
        (λ b vios, n ← param_of "vfchost_count" vp_vfchost_count; for_acc (Zrange 0 n) b (create_step vios end_id));
  for_each b.2 (λ '(v_id, lpars), for_each lpars (delete_step v_id)) ;;
  judge "failed for following IDs:" (log_info "test passed successfully").

Definition tearDown : T () :=
  _ ← attr "session" vf_session; _ ← vf_call "Session.quit" []; mret ().
End VirtualFC.
