(* ===== verification/VfcSystem.v ===== *)
(** * Verdicts of the virtual Fibre Channel tests

    The classes [VfcWait] (polling), [VfcMachine] (what the commands on a VIOS and the files of
    the partition answer) and [VfcConsole] (adapters of the console).  The theorems: which value
    is read from a listing, when the tests that unmap or take out adapters pass, and what the
    test that creates and deletes them notices. *)

From S2P Require Import Prelude PyStr PyFloat PyVal Avocado Logic VirtualFc.
Open Scope Z_scope.

(** ** Listings *)

(** A listing: lines of a name and a value, each ended. *)
Definition entry (e : string * string) : string := e.1 +:+ ":" +:+ e.2.
Definition listing (table : list (string * string)) : string :=
  str_of (concat (map (λ e, chars_of (entry e) ++ [LF]) table)).

(** The fields are single lines, the values without a colon. *)
Definition plain_entry (e : string * string) : Prop :=
  one_line (chars_of (entry e)) ∧ Forall (λ c, Ascii.eqb ":" c = false) (chars_of e.2).

Lemma lines_of_listing table : Forall plain_entry table → py_splitlines (listing table) = map entry table.
Proof.
  intros H. unfold listing. rewrite <- (map_map (λ e, chars_of (entry e)) (λ l, l ++ [LF])), splitlines_ended.
  - rewrite map_map. apply map_ext. intros e. apply str_of_chars_of.
  - apply List.Forall_map. eapply list.Forall_impl; [exact H|]. by intros e [? _].
Qed.

Lemma last_field_entry e : plain_entry e → last_field ":" (entry e) = e.2.
Proof.
  intros [_ Hv]. unfold last_field, py_split_on, entry. rewrite !chars_of_app. cbn [chars_of list_ascii_of_string app].
  rewrite pieces_split, (pieces_none _ _ Hv) by done. rewrite map_app. cbn [map].
  by rewrite last_opt_snoc, str_of_chars_of.
Qed.

(** The value of the first entry of which the name is a part. *)
Lemma value_of_listing name table : Forall plain_entry table →
  value_of name (listing table) = match List.find (λ e, py_in name (entry e)) table with Some e => e.2 | None => "" end.
Proof.
  intros H. unfold value_of. rewrite lines_of_listing by done. induction H as [|e table He _ IH]; simpl; [done|].
  destruct (py_in name (entry e)); [by apply last_field_entry|exact IH].
Qed.

(** ** Polling *)

Class VfcWait (W : Type) {HV : VfcLib W} := {
  (* a first answer that is true ends the wait *)
  vw_true f t w x w' x' :
    0 < t → runs f w x (Ret true) w' x' → runs (vf_wait_for f t) w x (Ret true) w' x';
  (* an answer that is false, and that changes nothing, stays so *)
  vw_false f t w x : runs f w x (Ret false) w x → runs (vf_wait_for f t) w x (Ret false) w x;
}.

Section polling.
Context {W : Type} {HE : Env W} {HV : VfcLib W} {HW : VfcWait W}.
Implicit Types (w : W) (x : vfc_self).

(** A check that changes nothing. *)
Lemma wait_runs f t b w x : 0 < t → runs f w x (Ret b) w x → runs (vf_wait_for f t) w x (Ret b) w x.
Proof using Type*. destruct b; [by apply vw_true|intros _; apply vw_false]. Qed.

Lemma add_mesg_runs l msg w x : vf_err_mesg x = Some l →
  runs (add_mesg msg) w x (Ret ()) w (with_err_mesg (l ++ [msg]) x).
Proof using Type. intros H. unfold add_mesg. run_step. apply runs_modify. Qed.

(** What a verification adds to the messages. *)
Definition noted (ok : bool) (msg : string) (l : list string) : list string := if ok then l else l ++ [msg].

Lemma with_err_mesg_same l x : vf_err_mesg x = Some l → with_err_mesg l x = x.
Proof using Type. destruct x. cbn. by intros ->. Qed.

Lemma check_verified check t b mesg success l w x :
  0 < t → runs check w x (Ret b) w x → vf_err_mesg x = Some l →
  runs (verify check t mesg success) w x (Ret ()) w (with_err_mesg (noted b mesg l) x).
Proof using Type*.
  intros Ht Hc Hl. unfold verify, noted. eapply runs_bind; [by apply wait_runs|]. cbv beta. destruct b.
  - rewrite with_err_mesg_same by done. apply runs_log.
  - by apply add_mesg_runs.
Qed.

Lemma logged_value_runs host server vios cmd vfchost r w x :
  vf_session x = Some host → vf_server x = Some server → env_ssh host (vios_cmd server vios cmd) w = (Ret r, w) →
  runs (logged_value vios cmd vfchost) w x (Ret (value_of vfchost (stdout_text r))) w x.
Proof using Type.
  intros Hh Hs Hr. unfold logged_value, vios_output, session_cmd. eapply runs_bind; [|run].
  run_step. eapply runs_bind; [|run]. run_step. by apply runs_ext.
Qed.

(** what is read of an adapter from a listing is the value of the first entry of which its
    name is a part: its own, unless the name is contained in an earlier line, as vfchost1 is in
    that of vfchost10. *)
Theorem listed_value_read cmd host server vios pre name v post status w x :
  vf_session x = Some host → vf_server x = Some server →
  Forall plain_entry (pre ++ (name, v) :: post) →
  env_ssh host (vios_cmd server vios cmd) w = (Ret (CmdResult status (listing (pre ++ (name, v) :: post))), w) →
  runs (logged_value vios cmd name) w x
    (Ret (match List.find (λ e, py_in name (entry e)) pre with Some e => e.2 | None => v end)) w x.
Proof using Type.
  intros Hh Hs Hp Hr. pose proof (logged_value_runs host server vios cmd name _ w x Hh Hs Hr) as H.
  cbn [stdout_text] in H. rewrite value_of_listing in H by done. clear -H.
  induction pre as [|e pre IH]; cbn [app List.find] in *.
  - unfold entry in H at 1. cbn [fst] in H. by rewrite py_in_prefix in H.
  - destruct (py_in name (entry e)); [done|by apply IH].
Qed.
End polling.

(** ** The tests on a machine *)

(** What the commands on a VIOS do and print, and what the partition shows. *)
Class VfcMachine (W : Type) {HE : Env W} {HV : VfcLib W} := {
  vm_host : string;
  vm_server : string;
  vm_exit : string → string → W → Z;
  vm_output : string → string → W → string;
  vm_next : string → string → W → W;
  vm_ssh vios cmd w :
    env_ssh vm_host (vios_cmd vm_server vios cmd) w = (Ret (CmdResult (vm_exit vios cmd w) (vm_output vios cmd w)), vm_next vios cmd w);
  vm_list_status vios w : vm_next vios lsmap_status w = w;
  vm_list_device vios vfchost w : vm_next vios (lsdev_status vfchost) w = w;
  vm_port : string → W → string;
  vm_read client w : env_read ("/sys/class/fc_host/" +:+ client +:+ "/port_state") w = (Ret (vm_port client w), w);
  vm_path : string → W → string * string * string;
  vm_status path w : vf_path_status path w = (Ret [(vm_path path w).1.1; (vm_path path w).1.2; (vm_path path w).2], w);
  vm_multipathd w : ∃ code, env_system "multipathd -k'show paths'" [IgnoreStatus] w = (Ret code, w);
}.

Section machine.
Context {W : Type} {HE : Env W} {HV : VfcLib W} {HW : VfcWait W} {HM : VfcMachine W}.
Implicit Types (w : W) (x : vfc_self).

(** Whether the port, a path, and the adapter are as the operation leaves them. *)
Definition goes_up (operation : string) : bool := is_in operation ["map"; "add"].

Definition port_ok (operation client : string) w : bool :=
  let status := py_strip_of NL (vm_port client w) in
  if goes_up operation then String.eqb status "Online" else is_in status ["Linkdown"; "Offline"].

Definition path_ok (operation path : string) w : bool :=
  let '(dm, _, checker) := vm_path path w in
  if goes_up operation then String.eqb dm "active" && String.eqb checker "ready"
  else String.eqb dm "failed" && String.eqb checker "faulty".

Definition adapter_ok (operation : string) (d : vfc_dic) w : bool :=
  let read cmd := value_of (vd_vfchost d) (vm_output (vd_vios d) cmd w) in
  if String.eqb operation "map" then String.eqb (read lsmap_status) "LOGGED_IN"
  else if String.eqb operation "unmap" then String.eqb (read lsmap_status) "NOT_LOGGED_IN"
  else if String.eqb operation "add" then String.eqb (read (lsdev_status (vd_vfchost d))) "Available"
  else String.eqb (read (lsdev_status (vd_vfchost d))) "Defined".

(** Everything that an operation on an adapter checks. *)
Definition all_ok (operation : string) (d : vfc_dic) w : bool :=
  adapter_ok operation d w && port_ok operation (vd_vfc_client d) w && forallb (λ p, path_ok operation p w) (vd_paths d).

(** The state of [self] during the tests, but for [path]: the messages are [l]. *)
Record ready (dics : list vfc_dic) (p : vfc_params) (l : list string) x : Prop := {
  rd_session : vf_session x = Some vm_host;
  rd_server : vf_server x = Some vm_server;
  rd_dics : vf_dic_list x = Some dics;
  rd_params : vf_params x = Some p;
  rd_mesg : vf_err_mesg x = Some l;
}.

Lemma ready_mesg dics p l l' x : ready dics p l x → ready dics p l' (with_err_mesg l' x).
Proof using Type. by intros []. Qed.
Lemma ready_path dics p l path x : ready dics p l x → ready dics p l (with_path path x).
Proof using Type. by intros []. Qed.

Definition operations : list string := ["unmap"; "map"; "remove"; "add"].

Lemma known_operation operation : operation ∈ operations →
  is_in operation ["map"; "add"] = goes_up operation ∧
  is_in operation ["unmap"; "remove"] = negb (goes_up operation).
Proof using Type. unfold operations. rewrite !elem_of_cons, elem_of_nil. by intros [->|[->|[->|[->|[]]]]]. Qed.

Lemma is_host_online_runs operation client w x : operation ∈ operations →
  runs (is_host_online operation client) w x (Ret (port_ok operation client w)) w x.
Proof using Type.
  intros [E1 E2]%known_operation. unfold is_host_online, port_ok. eapply runs_bind; [by apply runs_silent, vm_read|]. cbv beta.
  rewrite E1, E2. destruct (goes_up operation); cbn [negb]; cbv iota; [run|].
  destruct (is_in _ ["Linkdown"; "Offline"]); run.
Qed.

Lemma stat_is_three dm dev checker a c :
  stat_is [dm; dev; checker] a c = Ret (String.eqb dm a && String.eqb checker c).
Proof using Type. unfold stat_is. cbn. by destruct (String.eqb dm a). Qed.

Lemma is_path_online_runs operation path w x : operation ∈ operations → vf_path x = path →
  runs (is_path_online operation) w x (Ret (path_ok operation path w)) w x.
Proof using Type.
  intros [E1 E2]%known_operation <-. unfold is_path_online, path_ok. destruct (vm_multipathd w) as [code Hc].
  eapply runs_bind; [by apply runs_ext|]. run_step. eapply runs_bind; [by apply runs_ext, vm_status|]. cbv beta.
  destruct (vm_path (vf_path x) w) as [[dm dev] checker]. cbn [fst snd]. rewrite E1, E2, !stat_is_three.
  destruct (goes_up operation); cbn [negb]; cbv iota; run.
Qed.

Lemma verify_all check t b mesg success dics p l w x :
  0 < t → runs check w x (Ret b) w x → ready dics p l x →
  ∃ l' x', runs (verify check t mesg success) w x (Ret ()) w x' ∧ ready dics p l' x' ∧ (l' = [] ↔ l = [] ∧ b = true).
Proof using Type*.
  intros Ht Hc Hr. exists (noted b mesg l). eexists. split; [eapply check_verified; [done..|apply Hr]|].
  split; [by eapply ready_mesg|]. unfold noted. destruct b; [tauto|]. split; [by intros [_ ?]%app_eq_nil|by intros [_ ?]].
Qed.

Lemma mpath_runs operation paths dics p l w x : operation ∈ operations → ready dics p l x →
  ∃ l' x', runs (mpath_verification operation paths) w x (Ret ()) w x' ∧ ready dics p l' x' ∧
    (l' = [] ↔ l = [] ∧ forallb (λ q, path_ok operation q w) paths = true).
Proof using Type*.
  intros Ho Hr. unfold mpath_verification.
  enough (∀ l x, ready dics p l x → ∃ l' x', runs (for_each paths (path_step operation)) w x (Ret ()) w x' ∧
    ready dics p l' x' ∧ (l' = [] ↔ l = [] ∧ forallb (λ q, path_ok operation q w) paths = true)) as H.
  { destruct (H l _ (ready_path _ _ _ "" _ Hr)) as (l' & x' & H1 & H2). exists l', x'. split; [|done]. run_step. run_step. exact H1. }
  clear l x Hr. induction paths as [|q paths IH]; intros l x Hr; cbn [for_each forallb].
  { exists l, x. split; [apply runs_ret|]. tauto. }
  destruct (verify_all (is_path_online operation) 10 (path_ok operation q w)
    ("operation:" +:+ operation +:+ " path:" +:+ q +:+ " verify failed                                       ")
    ("operation:" +:+ operation +:+ " path:" +:+ q +:+ " verify success                                ")
    dics p l w (with_path q x)) as (l1 & x1 & H1 & R1 & E1); [lia|by apply is_path_online_runs|by apply ready_path|].
  destruct (IH l1 x1 R1) as (l2 & x2 & H2 & R2 & E2). exists l2, x2. split; [|split; [done|rewrite E2, E1, andb_true_iff; tauto]].
  eapply runs_bind; [|exact H2]. unfold path_step. run_step. exact H1.
Qed.

Lemma vios_operation_runs operation vios cmd dics p l w x : ready dics p l x →
  (vm_exit vios cmd w = 0 ∧ runs (vios_operation operation vios cmd) w x (Ret ()) (vm_next vios cmd w) x) ∨
  (vm_exit vios cmd w ≠ 0 ∧ ∃ msg, runs (vios_operation operation vios cmd) w x (raise_ TestFail msg) (vm_next vios cmd w) x).
Proof using Type.
  intros [Hh Hs _ _ _]. unfold vios_operation, session_cmd. pose proof (vm_ssh vios cmd w) as E.
  destruct (Z.eqb_spec (vm_exit vios cmd w) 0) as [H0|H0]; [left|right]; split; try done; [|eexists].
  - run_step. eapply runs_bind; [run_step; by apply runs_ext|]. cbn [exit_status]. rewrite H0. run.
  - run_step. eapply runs_bind; [run_step; by apply runs_ext|]. cbn [exit_status]. apply Z.eqb_neq in H0. rewrite H0. cbn [negb].
    apply runs_when_true. run_step. apply runs_throw.
Qed.

Lemma status_check_runs operation d w dics p l x : operation ∈ ["unmap"; "map"]%string → ready dics p l x →
  runs (status_check operation (vd_vfchost d) (vd_vios d)) w x (Ret (adapter_ok operation d w)) w x.
Proof using Type.
  intros Ho [Hh Hs _ _ _]. unfold status_check, get_vfchost_status, adapter_ok. eapply runs_bind.
  { eapply logged_value_runs; [done..|]. by rewrite vm_ssh, vm_list_status. }
  cbv beta. rewrite !elem_of_cons, elem_of_nil in Ho. destruct Ho as [->|[->|[]]]; apply runs_ret.
Qed.

Lemma is_removed_runs operation d w dics p l x : operation ∈ ["remove"; "add"]%string → ready dics p l x →
  runs (is_removed operation (vd_vfchost d) (vd_vios d)) w x (Ret (adapter_ok operation d w)) w x.
Proof using Type.
  intros Ho [Hh Hs _ _ _]. unfold is_removed, get_vfchost_config_status, adapter_ok. eapply runs_bind.
  { eapply logged_value_runs; [done..|]. by rewrite vm_ssh, vm_list_device. }
  cbv beta. rewrite !elem_of_cons, elem_of_nil in Ho. destruct Ho as [->|[->|[]]]; apply runs_ret.
Qed.

(** An operation: its command and what carries it out. *)
Definition cmd_of (operation : string) (d : vfc_dic) : string :=
  if is_in operation ["unmap"; "map"] then map_cmd operation (vd_vfchost d) (vd_fcs d) else dev_cmd operation (vd_vfchost d).
Definition carry_out (operation : string) (d : vfc_dic) : M W vfc_self () :=
  if is_in operation ["unmap"; "map"] then vfchost_map_unmap operation d else vfchost_remove_add operation d.

(** The three verifications, one after the other. *)
Lemma checks_run operation d dics p l w x (v : M W vfc_self ()) :
  operation ∈ operations → ready dics p l x →
  (∃ l1 x1, runs v w x (Ret ()) w x1 ∧ ready dics p l1 x1 ∧ (l1 = [] ↔ l = [] ∧ adapter_ok operation d w = true)) →
  ∃ x1 x2 l' x', runs v w x (Ret ()) w x1 ∧ runs (vfc_client_status_verify operation (vd_vfc_client d)) w x1 (Ret ()) w x2 ∧
    runs (mpath_verification operation (vd_paths d)) w x2 (Ret ()) w x' ∧
    ready dics p l' x' ∧ (l' = [] ↔ l = [] ∧ all_ok operation d w = true).
Proof using Type*.
  intros Ho R0 (l1 & x1 & C1 & R1 & E1).
  destruct (verify_all (is_host_online operation (vd_vfc_client d)) 10 (port_ok operation (vd_vfc_client d) w)
    ("operation:" +:+ operation +:+ " client_host:" +:+ vd_vfc_client d +:+ " verify failed                                   ")
    ("operation:" +:+ operation +:+ " client_host:" +:+ vd_vfc_client d +:+ " verify success                            ")
    dics p l1 w x1) as (l2 & x2 & C2 & R2 & E2); [lia|by apply is_host_online_runs|done|].
  destruct (mpath_runs operation (vd_paths d) dics p l2 w x2 Ho R2) as (l3 & x3 & C3 & R3 & E3).
  exists x1, x2, l3, x3. split_and!; try done; [unfold vfc_client_status_verify; run_step; exact C2|].
  rewrite E3, E2, E1. unfold all_ok. rewrite !andb_true_iff. tauto.
Qed.

(** An operation whose command succeeds adds a message exactly if something is not as it should. *)
Lemma carry_out_runs operation d dics p l w x : operation ∈ operations → ready dics p l x →
  let cmd := cmd_of operation d in let w' := vm_next (vd_vios d) cmd w in
  (vm_exit (vd_vios d) cmd w = 0 ∧ ∃ l' x', runs (carry_out operation d) w x (Ret ()) w' x' ∧
     ready dics p l' x' ∧ (l' = [] ↔ l = [] ∧ all_ok operation d w' = true)) ∨
  (vm_exit (vd_vios d) cmd w ≠ 0 ∧ ∃ msg, runs (carry_out operation d) w x (raise_ TestFail msg) w' x).
Proof using Type*.
  intros Ho R0. cbv zeta. unfold carry_out, cmd_of.
  assert (operation ∈ ["unmap"; "map"]%string ∧ is_in operation ["unmap"; "map"] = true ∨
          operation ∈ ["remove"; "add"]%string ∧ is_in operation ["unmap"; "map"] = false) as [[Hin E]|[Hin E]].
  { unfold operations in Ho. rewrite !elem_of_cons, elem_of_nil in *. by destruct Ho as [->|[->|[->|[->|[]]]]]; [left|left|right|right]; eauto. }
  - rewrite E. set (cmd := map_cmd operation (vd_vfchost d) (vd_fcs d)). set (w' := vm_next (vd_vios d) cmd w).
    unfold vfchost_map_unmap. fold cmd.
    destruct (vios_operation_runs operation (vd_vios d) cmd dics p l w x R0) as [[H0 H]|[H0 [msg H]]]; [left|right]; (split; [done|]).
    + destruct (checks_run operation d dics p l w' x (vfchost_status_verify operation (vd_vfchost d) (vd_vios d)) Ho R0)
        as (x1 & x2 & l' & x' & C1 & C2 & C3 & R & El).
      { unfold vfchost_status_verify. edestruct (verify_all (status_check operation (vd_vfchost d) (vd_vios d)) 10)
          as (l1 & x1 & C1 & C2); [lia|by eapply status_check_runs|exact R0|]. exists l1, x1. split; [run_step; exact C1|exact C2]. }
      exists l', x'. split; [|done]. run_step. run_by H. run_step. run_by C1. run_step. run_by C2. exact C3.
    + exists msg. run_step. by apply runs_bind_raise.
  - rewrite E. set (cmd := dev_cmd operation (vd_vfchost d)). set (w' := vm_next (vd_vios d) cmd w).
    unfold vfchost_remove_add. fold cmd.
    destruct (vios_operation_runs operation (vd_vios d) cmd dics p l w x R0) as [[H0 H]|[H0 [msg H]]]; [left|right]; (split; [done|]).
    + destruct (checks_run operation d dics p l w' x (vfchost_config_status_verify operation (vd_vfchost d) (vd_vios d)) Ho R0)
        as (x1 & x2 & l' & x' & C1 & C2 & C3 & R & El).
      { eapply verify_all; [lia|by eapply is_removed_runs|exact R0]. }
      exists l', x'. split; [|done]. run_by H. do 3 run_step. run_by C1. run_step. run_by C2. do 2 run_step. exact C3.
    + exists msg. by apply runs_bind_raise.
Qed.

(** *** Rounds *)

(** Every command of the steps succeeds, and everything is as it should after each. *)
Fixpoint goes_well (steps : list (string * vfc_dic)) w : Prop :=
  match steps with
  | [] => True
  | (operation, d) :: steps' =>
      let cmd := cmd_of operation d in let w' := vm_next (vd_vios d) cmd w in
      vm_exit (vd_vios d) cmd w = 0 ∧ all_ok operation d w' = true ∧ goes_well steps' w'
  end.

(** The world after the commands of the steps. *)
Definition end_world (steps : list (string * vfc_dic)) w : W :=
  foldl (λ w '(operation, d), vm_next (vd_vios d) (cmd_of operation d) w) w steps.

Definition both (first second : string) (d : vfc_dic) : list (string * vfc_dic) := [(first, d); (second, d)].
Definition round_of (first second : string) (dics : list vfc_dic) : list (string * vfc_dic) := concat (map (both first second) dics).
Definition rounds_of (first second : string) (dics : list vfc_dic) (n : nat) : list (string * vfc_dic) :=
  concat (repeat (round_of first second dics) n).

Section performs.
Context (dics : list vfc_dic).

(** A part of a test carries out steps: it ends where they end, with no message exactly if all
    goes well, or fails because a command does. *)
Definition performs (m : M W vfc_self ()) (steps : list (string * vfc_dic)) : Prop := ∀ p l w x, ready dics p l x →
  (∃ l' x', runs m w x (Ret ()) (end_world steps w) x' ∧ ready dics p l' x' ∧ (l' = [] ↔ l = [] ∧ goes_well steps w)) ∨
  (¬ goes_well steps w ∧ ∃ msg w' x', runs m w x (raise_ TestFail msg) w' x').

Lemma performs_one operation d : operation ∈ operations → performs (carry_out operation d) [(operation, d)].
Proof using Type*.
  intros Ho p l w x R. destruct (carry_out_runs operation d dics p l w x Ho R) as [(H0 & l' & x' & H & R' & E)|[H0 [msg H]]].
  - left. exists l', x'. split_and!; [exact H|done|]. cbn. tauto.
  - right. split; [by intros [? _]|]. eauto.
Qed.

Lemma performs_nil m : (∀ w x, runs m w x (Ret ()) w x) → performs m [].
Proof using Type. intros H p l w x R. left. exists l, x. split_and!; [apply H|done|]. cbn. tauto. Qed.

Lemma goes_well_app steps1 steps2 w : goes_well (steps1 ++ steps2) w ↔ goes_well steps1 w ∧ goes_well steps2 (end_world steps1 w).
Proof using Type. revert w. induction steps1 as [|[o d] steps IH]; intros w; cbn; [tauto|]. rewrite IH. tauto. Qed.

Lemma performs_bind m1 m2 steps1 steps2 : performs m1 steps1 → performs m2 steps2 → performs (m1 ;; m2) (steps1 ++ steps2).
Proof using Type.
  intros P1 P2 p l w x R. unfold end_world. rewrite goes_well_app, foldl_app. fold (end_world steps1 w).
  destruct (P1 p l w x R) as [(l1 & x1 & H1 & R1 & E1)|(H1 & msg & w1 & x1 & H)].
  - destruct (P2 p l1 (end_world steps1 w) x1 R1) as [(l2 & x2 & H2 & R2 & E2)|(H2 & msg & w2 & x2 & H)].
    + left. exists l2, x2. split_and!; [by eapply runs_bind|done|]. rewrite goes_well_app, E2, E1. tauto.
    + right. split; [tauto|]. exists msg, w2, x2. by eapply runs_bind.
  - right. split; [tauto|]. exists msg, w1, x1. by apply runs_bind_raise.
Qed.

Lemma performs_each {X} (l : list X) (body : X → M W vfc_self ()) (steps : X → list (string * vfc_dic)) :
  (∀ a, a ∈ l → performs (body a) (steps a)) → performs (for_each l body) (concat (map steps l)).
Proof using Type.
  induction l as [|a l IH]; intros H; cbn [for_each map concat]; [apply performs_nil; intros; apply runs_ret|].
  apply performs_bind; [apply H; left|]. apply IH. intros b Hb. apply H. by right.
Qed.

(** A computation that changes nothing. *)
Definition quiet (m : M W vfc_self ()) : Prop := ∀ w x, runs m w x (Ret ()) w x.

Lemma performs_step first second d m1 m2 m3 m4 : first ∈ operations → second ∈ operations →
  quiet m1 → quiet m2 → quiet m3 → quiet m4 →
  performs (m1 ;; carry_out first d ;; m2 ;; m3 ;; carry_out second d ;; m4) (both first second d).
Proof using Type*.
  intros H1 H2 N1 N2 N3 N4. unfold both.
  apply (performs_bind _ _ []); [by apply performs_nil|]. apply (performs_bind _ _ [_]); [by apply performs_one|].
  do 2 (apply (performs_bind _ _ []); [by apply performs_nil|]). apply (performs_bind _ _ [_] []); [by apply performs_one|].
  by apply performs_nil.
Qed.

(** The verdict of a test that carries out its steps and then looks at the messages. *)
Definition passes_iff_well (m : M W vfc_self ()) (steps : list (string * vfc_dic)) w x : Prop :=
  (goes_well steps w ∧ ∃ x', runs m w x (Ret ()) (end_world steps w) x') ∨
  (¬ goes_well steps w ∧ ∃ msg w' x', runs m w x (raise_ TestFail msg) w' x').

Lemma judged m steps p text w x : performs m steps → ready dics p [] x →
  passes_iff_well (m ;; judge text (mret ())) steps w x.
Proof using Type.
  intros P R. destruct (P p [] w x R) as [(l & x1 & H & R1 & E)|(Hn & msg & w' & x1 & H)].
  - assert (runs (judge text (mret ())) (end_world steps w) x1
      (match l with [] => Ret () | _ => raise_ TestFail (text +:+ strs_repr l) end) (end_world steps w) x1) as J.
    { unfold judge. eapply runs_bind; [apply runs_attr, R1|]. destruct l; run. }
    destruct l as [|e l]; [left|right].
    + split; [by apply E|]. exists x1. by eapply runs_bind.
    + split; [by intros Hw; destruct E as [_ E]; specialize (E (conj eq_refl Hw))|]. do 3 eexists. by eapply runs_bind.
  - right. split; [done|]. exists msg, w', x1. by apply runs_bind_raise.
Qed.

Lemma performs_dics body steps : performs (for_each dics body) steps →
  performs (l ← attr "dic_list" vf_dic_list; for_each l body) steps.
Proof using Type.
  intros P p l w x R. destruct (P p l w x R) as [(l' & x' & H & Hx)|(Hn & msg & w' & x' & H)]; [left|right; split; [done|]].
  - exists l', x'. split; [|done]. eapply runs_bind; [apply runs_attr, R|exact H].
  - exists msg, w', x'. eapply runs_bind; [apply runs_attr, R|exact H].
Qed.

(** [n] rounds over the adapters. *)
Lemma performs_rounds first second rounds (step : Z → vfc_dic → M W vfc_self ()) :
  (∀ round d, performs (step round d) (both first second d)) →
  performs (for_each rounds (λ round, l ← attr "dic_list" vf_dic_list; for_each l (step round)))
    (rounds_of first second dics (length rounds)).
Proof using Type.
  intros H. assert (repeat (round_of first second dics) (length rounds) = map (λ _, round_of first second dics) rounds) as E.
  { clear. induction rounds as [|r rounds IH]; simpl; [done|by rewrite IH]. }
  unfold rounds_of. rewrite E. apply performs_each. intros round _. by apply performs_dics, performs_each.
Qed.
End performs.

Lemma verdict_after {A} (m : M W vfc_self A) f a x1 steps w x :
  runs m w x (Ret a) w x1 → passes_iff_well (f a) steps w x1 → passes_iff_well (m ≫= f) steps w x.
Proof using Type.
  intros H [[Hw [x' H']]|[Hw (msg & w' & x' & H')]]; [left|right]; (split; [done|]).
  - exists x'. by eapply runs_bind.
  - exists msg, w', x'. by eapply runs_bind.
Qed.

Lemma unmap_map_performs dics d : performs dics (unmap_map_step d) (both "unmap" "map" d).
Proof using Type*.
  change (unmap_map_step d) with
    (mret () ;; carry_out "unmap" d ;; sleep opp_sleep_time ;; mret () ;; carry_out "map" d ;; sleep opp_sleep_time)%stdpp.
  apply performs_step; [left|right; left|intros ? ?; run..].
Qed.

Lemma remove_add_performs dics count round d : performs dics (remove_add_step count round d) (both "remove" "add" d).
Proof using Type*.
  apply (performs_step dics "remove" "add" d); [right; right; left|right; right; right; left|intros ? ?; run..].
Qed.

(** C24: [test_unmap_map] passes exactly when, round by round and adapter by adapter, both commands
    succeed and after each of them the adapter, its port and all its paths are as they should
    be; otherwise it fails.  If it passes, the commands that change an adapter are these, in their
    order, and no others; between them it only lists. *)
Theorem unmap_map_verdict dics p rounds w x :
  ready dics p [] x → py_range 0 (vp_count p) = Ret rounds →
  passes_iff_well test_unmap_map (rounds_of "unmap" "map" dics (length rounds)) w x.
Proof using Type*.
  intros R Hr. unfold test_unmap_map. eapply verdict_after; [apply runs_attr; by rewrite (rd_params _ _ _ _ R)|].
  rewrite Hr. eapply verdict_after; [apply runs_lift|]. eapply judged; [|exact R].
  apply (performs_rounds dics "unmap" "map" rounds (λ _, unmap_map_step)). intros _ d. apply unmap_map_performs.
Qed.

(** test_remove_add passes exactly when, round by round and adapter by adapter, taking it out
    and adding it succeed and leave its state, its port and all its paths as they should be;
    otherwise it fails. *)
Theorem remove_add_verdict dics p l rounds w x :
  ready dics p l x → py_range 0 (vp_count p) = Ret rounds →
  passes_iff_well test_remove_add (rounds_of "remove" "add" dics (length rounds)) w x.
Proof using Type*.
  intros R%(ready_mesg _ _ _ []) Hr. unfold test_remove_add. eapply verdict_after; [apply runs_modify|].
  eapply verdict_after; [apply runs_log|]. eapply verdict_after; [apply runs_attr; by rewrite (rd_params _ _ _ _ R)|].
  rewrite Hr. eapply verdict_after; [apply runs_lift|]. eapply judged; [|exact R].
  apply performs_rounds. intros round d. apply remove_add_performs.
Qed.
End machine.

(** When a service cannot be started, the message is given to [self.fail] with an argument too
    many: the test ends with a TypeError, not with a failure. *)
Lemma rsct_failure_type_error {W} {HE : Env W} msg w w' (x : vfc_self) :
  env_run "startsrc -g rsct" [Shell; Sudo] w = (Raise (Exn CmdError msg), w') →
  ∃ text, runs rsct_service_start w x (raise_ TypeError text) w' x.
Proof.
  intros H. eexists. apply runs_bind_raise. eapply (runs_try_raise _ _ _ (Exn CmdError msg)); [|by apply bool_decide_eq_true|].
  - cbn [for_each]. do 2 apply runs_bind_raise. apply runs_ext. exact H.
  - run_step. apply runs_throw.
Qed.
