(* ===== verification/VfcConsole.v ===== *)
(** * Creating and deleting virtual Fibre Channel adapters

    The class [VfcConsole]: a console that creates and deletes adapters by slot and lists slots
    under a word.  The theorem: what test_create_delete_vfchost asks for, and that it does not
    notice whether the adapters are deleted. *)

From S2P Require Import Prelude PyStr PyFloat PyVal Avocado Logic VirtualFc VfcSystem.
Open Scope Z_scope.

Class VfcConsole (W : Type) {HE : Env W} := {
  vc_host : string;
  vc_server : string;
  vc_lpar : string;
  (* the effects of the commands, whatever their exit status is *)
  vc_created : string → string → Z → W → W;
  vc_deleted : string → Z → W → W;
  vc_result : string → W → cmd_result;
  vc_create vios vfc_type i w :
    env_ssh vc_host (create_cmd vc_server vc_lpar vios vfc_type i) w =
    (Ret (vc_result (create_cmd vc_server vc_lpar vios vfc_type i) w), vc_created vios vfc_type i w);
  vc_delete lpar i w :
    env_ssh vc_host (delete_cmd vc_server lpar i) w = (Ret (vc_result (delete_cmd vc_server lpar i) w), vc_deleted lpar i w);
  vc_list word w : env_ssh vc_host (slots_cmd vc_server word) w = (Ret (vc_result (slots_cmd vc_server word) w), w);
}.

Section console.
Context {W : Type} {HE : Env W} {HV : VfcLib W} {HW : VfcWait W} {HC : VfcConsole W}.
Implicit Types (w : W) (x : vfc_self).

(** A slot is listed under a word. *)
Definition listed (word : string) (i : Z) w : bool := lists_slot i (stdout_text (vc_result (slots_cmd vc_server word) w)).

Record connected (p : vfc_params) x : Prop := {
  cn_session : vf_session x = Some vc_host;
  cn_server : vf_server x = Some vc_server;
  cn_lpar : vf_lpar x = Some vc_lpar;
  cn_params : vf_params x = Some p;
  cn_mesg : vf_err_mesg x = Some [];
}.

(** The adapters that are asked for: [n] on each VIOS, in the slots from [start]. *)
Fixpoint plan_of (vioses : list string) (n start : Z) : list (string * Z) :=
  match vioses with
  | [] => []
  | vios :: vioses' => map (pair vios) (Zrange start (start + n)) ++ plan_of vioses' n (start + n)
  end.

Definition created_all (plan : list (string * Z)) w : W :=
  foldl (λ w '(vios, i), vc_created vios "client" i (vc_created vios "server" i w)) w plan.
Definition deleted_all (plan : list (string * Z)) w : W :=
  foldl (λ w '(vios, i), vc_deleted vc_lpar i (vc_deleted vios i w)) w plan.

Lemma session_runs r w w' cmd p x : connected p x → env_ssh vc_host cmd w = (Ret r, w') →
  runs (session_cmd cmd) w x (Ret r) w' x.
Proof using Type. intros [Hh _ _ _ _] E. unfold session_cmd. run_step. by apply runs_ext. Qed.

Lemma exists_runs operation i word p w x : connected p x →
  (if String.eqb operation "create" then listed word i w else negb (listed word i w)) = true →
  runs (vfchost_exists operation i word) w x (Ret true) w x.
Proof using Type*.
  intros C H. pose proof C as [_ Hs _ _ _]. unfold vfchost_exists. run_step. apply vw_true; [lia|]. unfold is_vfc_exist.
  run_by (session_runs (vc_result (slots_cmd vc_server word) w) w w); [done|apply vc_list|].
  fold (listed word i w). rewrite H. apply runs_ret.
Qed.

Lemma create_runs vios i vfc_type p w x : connected p x → listed vfc_type i (vc_created vios vfc_type i w) = true →
  runs (create_vfchost vios i vfc_type) w x (Ret true) (vc_created vios vfc_type i w) x.
Proof using Type*.
  intros C H. pose proof C as [_ Hs Hl _ _]. unfold create_vfchost. do 3 run_step.
  run_by (session_runs (vc_result (create_cmd vc_server vc_lpar vios vfc_type i) w) w _); [done|apply vc_create|].
  run_by exists_runs; [done|exact H|]. apply runs_ret.
Qed.

Lemma delete_runs i lpar p w x : connected p x → listed lpar i (vc_deleted lpar i w) = false →
  runs (delete_vfchost i lpar) w x (Ret true) (vc_deleted lpar i w) x.
Proof using Type*.
  intros C H. pose proof C as [_ Hs _ _ _]. unfold delete_vfchost. do 2 run_step.
  run_by (session_runs (vc_result (delete_cmd vc_server lpar i) w) w _); [done|apply vc_delete|].
  run_by exists_runs; [done|cbn; by rewrite H|]. run.
Qed.

(** A creation in one of the slots is followed by a listing that has the slot under the type. *)
Definition creates (hosts : list string) (first last : Z) : Prop := ∀ vios vfc_type i w,
  vios ∈ hosts → vfc_type ∈ ["server"; "client"]%string → first ≤ i < last → listed vfc_type i (vc_created vios vfc_type i w) = true.
(** No slot is listed under the name of a partition or of a VIOS: the listing has the slot and the
    type of an adapter only. *)
Definition unnamed (vioses : list string) : Prop := ∀ word i w, word = vc_lpar ∨ word ∈ vioses → listed word i w = false.

Lemma create_step_runs hosts a vios start end_id ids r p w x :
  connected p x → creates hosts a end_id → vios ∈ hosts → a ≤ start < end_id →
  (∀ i, i ∈ map fst ids → i < start) →
  runs (create_step vios end_id (start, ids) r) w x (Ret (start + 1, ids ++ [(start, [vios; vc_lpar])]))
    (created_all [(vios, start)] w) x.
Proof using Type*.
  intros C Hc Hv Hs Hids. pose proof C as [_ _ Hl _ _]. unfold create_step. assert (start <? end_id = true) as -> by lia.
  run_by create_runs; [done|apply Hc; [done|left|done]|]. eapply runs_bind; [|apply runs_ret]. cbn [created_all foldl]. run_step.
  run_by create_runs; [done|apply Hc; [done|right; left|done]|]. do 2 run_step. rewrite dict_set_fresh; [apply runs_ret|].
  intros H%Hids. lia.
Qed.

Lemma created_app plan1 plan2 w : created_all (plan1 ++ plan2) w = created_all plan2 (created_all plan1 w).
Proof using Type. unfold created_all. apply foldl_app. Qed.

(** What is entered for the plan. *)
Definition entered (plan : list (string * Z)) : list (Z * list string) := map (λ '(vios, i), (i, [vios; vc_lpar])) plan.

Lemma entered_app plan1 plan2 : entered (plan1 ++ plan2) = entered plan1 ++ entered plan2.
Proof using Type. apply map_app. Qed.

Lemma vios_loop_runs hosts a vios end_id rounds start ids p w x :
  connected p x → creates hosts a end_id → vios ∈ hosts → a ≤ start → start + Z.of_nat (length rounds) ≤ end_id → (∀ i, i ∈ map fst ids → i < start) →
  let plan := map (pair vios) (Zrange start (start + Z.of_nat (length rounds))) in
  runs (for_acc rounds (start, ids) (create_step vios end_id)) w x
    (Ret (start + Z.of_nat (length rounds), ids ++ entered plan)) (created_all plan w) x.
Proof using Type*.
  intros C Hc Hv. revert start ids w. induction rounds as [|r rounds IH]; intros start ids w Ha Hle Hids; cbn [for_acc length].
  { unfold Zrange. rewrite Z.add_0_r, Z.sub_diag. cbn. rewrite app_nil_r. apply runs_ret. }
  cbn [length] in Hle. rewrite Nat2Z.inj_succ in *. rewrite Zrange_cons by lia. cbn [map]. cbv zeta.
  run_by create_step_runs; [done|done|done|lia|done|].
  replace (start + Z.succ (Z.of_nat (length rounds))) with (start + 1 + Z.of_nat (length rounds)) by lia.
  set (slots := map (pair vios) (Zrange (start + 1) (start + 1 + Z.of_nat (length rounds)))).
  change (entered ((vios, start) :: slots)) with ((start, [vios; vc_lpar]) :: entered slots).
  change (created_all ((vios, start) :: slots) w) with (created_all slots (created_all [(vios, start)] w)).
  rewrite (cons_middle _ ids (entered slots)), app_assoc. refine (IH (start + 1) (ids ++ [(start, [vios; vc_lpar])]) _ _ _ _); [lia|lia|].
  intros i. rewrite map_app, elem_of_app. intros [Hi%Hids|Hi%list_elem_of_singleton]; cbn in *; lia.
Qed.

Lemma plan_keys vioses n start i : 0 ≤ n → i ∈ map fst (entered (plan_of vioses n start)) →
  start ≤ i < start + Z.of_nat (length vioses) * n.
Proof using Type.
  intros Hn. revert start. induction vioses as [|v vioses IH]; intros start; cbn [plan_of]; [by intros ?%not_elem_of_nil|].
  rewrite entered_app, map_app, elem_of_app. intros [Hi|Hi%IH]; cbn [length]; [|lia].
  unfold entered in Hi. rewrite !map_map, map_id in Hi. apply elem_of_Zrange in Hi. lia.
Qed.

Lemma create_loop_runs hosts a vioses end_id n start ids p w x :
  connected p x → creates hosts a end_id → vp_vfchost_count p = n → 0 ≤ n → vioses ⊆ hosts → a ≤ start →
  start + Z.of_nat (length vioses) * n ≤ end_id → (∀ i, i ∈ map fst ids → i < start) →
  let plan := plan_of vioses n start in
  runs (for_acc vioses (start, ids) (λ b vios, n ← param_of "vfchost_count" vp_vfchost_count;
          for_acc (Zrange 0 n) b (create_step vios end_id))) w x
    (Ret (start + Z.of_nat (length vioses) * n, ids ++ entered plan)) (created_all plan w) x.
Proof using Type*.
  intros C Hc Hp Hn. revert start ids w. induction vioses as [|v vioses IH]; intros start ids w Hsub Ha Hle Hids; cbn [for_acc plan_of].
  { cbn [length]. rewrite Z.mul_0_l, Z.add_0_r. cbn. rewrite app_nil_r. apply runs_ret. }
  assert (Z.of_nat (length (Zrange 0 n)) = n) as Hlen by (unfold Zrange; rewrite length_seqZ; lia).
  cbn [length] in *. rewrite Nat2Z.inj_succ in *. cbv zeta. eapply runs_bind.
  { eapply runs_bind; [apply runs_attr; by rewrite (cn_params _ _ C)|]. cbv beta. rewrite Hp.
    eapply vios_loop_runs; [done|done|apply Hsub; left|done|rewrite Hlen; lia|done]. }
  cbv beta. rewrite Hlen. replace (start + Z.succ (Z.of_nat (length vioses)) * n) with (start + n + Z.of_nat (length vioses) * n) by lia.
  rewrite created_app, entered_app, app_assoc. apply IH; [intros ? ?; apply Hsub; by right|lia|lia|].
  intros i. rewrite map_app, elem_of_app. intros [Hi%Hids|Hi]; [lia|]. assert (start ≤ i < start + 1 * n) as ?; [|lia]. apply (plan_keys [v]); [done|]. cbn [plan_of]. by rewrite app_nil_r.
Qed.

Lemma delete_loop_runs plan vioses p w x : connected p x → unnamed vioses → (∀ e, e ∈ plan → e.1 ∈ vioses) →
  runs (for_each (entered plan) (λ '(v_id, lpars), for_each lpars (delete_step v_id))) w x (Ret ()) (deleted_all plan w) x.
Proof using Type*.
  intros C Hu. revert w. induction plan as [|[v i] plan IH]; intros w Hin; cbn [entered map for_each]; [apply runs_ret|].
  unfold deleted_all. cbn [foldl]. eapply runs_bind; [|apply IH; intros e He; apply Hin; by right].
  assert (∀ lpar w, lpar = vc_lpar ∨ lpar ∈ vioses → runs (delete_step i lpar) w x (Ret ()) (vc_deleted lpar i w) x) as Hd.
  { intros lpar w' Hl. unfold delete_step. run_step. run_by delete_runs; [done|by apply Hu|]. apply runs_log. }
  run_by Hd; [right; apply (Hin (v, i)); left|]. run_by Hd; [by left|]. apply runs_ret.
Qed.

(** when the listings show what is created, but no slot under the name of a partition (they have
    only the slot and the type of an adapter), test_create_delete_vfchost passes on every
    console, whatever the commands that delete do and return: it asks for both ends of an
    adapter in each slot of its plan and for their deletion, and checks the creation only. *)
Theorem deletion_unchecked p vioses range a b n w x :
  connected p x → vp_vioses p = VStr vioses → vp_vfc_id p = VStr range → vp_vfchost_count p = n → 0 ≤ n →
  py_int_of_str (first_field "-" range) = Some a → py_int_of_str (last_field "-" range) = Some b →
  let hosts := py_split_on "," vioses in
  Z.of_nat (length hosts) * n ≤ b - a → creates hosts a b → unnamed hosts →
  let plan := plan_of hosts n a in
  runs test_create_delete_vfchost w x (Ret ()) (deleted_all plan (created_all plan w)) x.
Proof using Type*.
  intros C Hv Hr Hn H0 Ha Hb hosts Hle Hc Hu plan. unfold test_create_delete_vfchost.
  assert (with_err_mesg [] x = x) as E by apply with_err_mesg_same, C.
  eapply runs_bind; [apply runs_modify|]. rewrite E. cbv beta.
  eapply runs_bind; [apply runs_attr; by rewrite (cn_params _ _ C)|]. rewrite Hr. run_step. cbn [py_int]. rewrite Ha, Hb. do 2 run_step.
  eapply runs_bind; [apply runs_attr; by rewrite (cn_params _ _ C)|]. rewrite Hv. run_step. fold hosts.
  run_by (create_loop_runs hosts a); [done|done|done|lia|done|lia|lia|by intros ? ?%not_elem_of_nil|]. fold plan. cbn [snd app].
  run_by delete_loop_runs; [done|exact Hu| |].
  { unfold plan. generalize a. clear. intros a e. revert a. induction hosts as [|v hosts IH]; intros a; cbn [plan_of];
      [by intros ?%not_elem_of_nil|]. rewrite elem_of_app, elem_of_cons. intros [Hi|Hi%IH]; [left|by right].
    apply list_elem_of_fmap in Hi as (i & -> & _). done. }
  unfold judge. eapply runs_bind; [apply runs_attr, C|]. apply runs_log.
Qed.
End console.
