(* ===== verification/VfcSim.v ===== *)
(** * A simulated console with virtual Fibre Channel adapters

    A partition with one adapter, which the commands turn off and on, and a console with slots
    that refuses to delete: instances of the classes of VfcSystem and VfcConsole, on which the
    theorems are applied. *)

From S2P Require Import Prelude PyStr PyFloat PyVal Avocado Logic VirtualFc VfcSystem VfcConsole.
Open Scope Z_scope.

(** The other functions of the environment are not used. *)
Definition vfc_env {W} (ssh : string → W → cmd_result * W) (file : string → W → string) : Env W := {|
  env_run := λ _ _ w, (Ret (CmdResult 0 ""), w);
  env_system := λ _ _ w, (Ret 0, w);
  env_system_output := λ _ _ w, (Ret ""%string, w);
  env_ssh := λ _ cmd w, (Ret (ssh cmd w).1, (ssh cmd w).2);
  env_connect := λ _ _ _ w, (Ret true, w);
  env_show := λ r, stdout_text r;
  env_param := λ _ d, d;
  env_exists := λ _ w, (true, w);
  env_read := λ path w, (Ret (file path w), w);
  env_append := λ _ _ w, (Ret (), w);
  env_remove := λ _ w, (Ret (), w);
  env_random := λ w, (0, w);
|}.

(** [wait.wait_for]: two attempts. *)
Definition poll {W} (f : M W vfc_self bool) (_ : Z) : M W vfc_self bool :=
  v ← f; if (v : bool) then mret true else f.

Definition vfc_lib {W} (paths : W → list string) : VfcLib W := {|
  vf_lib := λ _ _ w, (Ret VNone, w);
  vf_wait_for := poll;
  vf_path_status := λ _ w, (Ret (paths w), w);
  vf_stderr := λ _, ""%string;
  vf_distro := "rhel";
|}.

Lemma vfc_wait {W} (paths : W → list string) : VfcWait W (HV:=vfc_lib paths).
Proof.
  split; intros f t w x; simpl.
  - intros w' x' _ H. eapply runs_bind; [exact H|]. apply runs_ret.
  - intros H. eapply runs_bind; [exact H|]. exact H.
Qed.

(** ** One adapter *)

Section adapter.
(** Whether cfgdev works. *)
Context (adds : bool).

Definition sim_server : string := "Server-9080-SN7".
Definition sim_adapter : vfc_dic := VfcDic "vios1" "vfchost0" "fcs0" "host5" ["sda"; "sdb"].
Definition sim_cmd (cmd : string) : string := vios_cmd sim_server "vios1" cmd.

(** The commands that change the adapter, and what they do. *)
Definition sim_effects : list (string * (bool → bool)) :=
  [(sim_cmd (map_cmd "unmap" "vfchost0" "fcs0"), λ _, false); (sim_cmd (map_cmd "map" "vfchost0" "fcs0"), λ _, true);
   (sim_cmd (dev_cmd "remove" "vfchost0"), λ _, false); (sim_cmd (dev_cmd "add" "vfchost0"), λ up, up || adds)].

Definition sim_next (cmd : string) (up : bool) : bool := match dict_find cmd sim_effects with Some f => f up | None => up end.

Definition sim_output (cmd : string) (up : bool) : string :=
  if String.eqb cmd (sim_cmd lsmap_status) then listing [("vfchost0", if up then "LOGGED_IN" else "NOT_LOGGED_IN")]%string
  else if String.eqb cmd (sim_cmd (lsdev_status "vfchost0")) then listing [("vfchost0", if up then "Available" else "Defined")]%string
  else ""%string.

Definition adapter_env : Env bool :=
  vfc_env (λ cmd up, (CmdResult 0 (sim_output cmd up), sim_next cmd up))
    (λ _ up, (if up then "Online" +:+ NL else "Linkdown" +:+ NL)%string).
Definition adapter_lib : VfcLib bool :=
  vfc_lib (λ up : bool, if up then ["active"; "undef"; "ready"] else ["failed"; "undef"; "faulty"])%string.

(** The last character of the command in a text. *)
Definition end_of (text : string) : option ascii := match rev (chars_of text) with _ :: c :: _ => Some c | _ => None end.

Lemma end_of_cmd server vios cmd c : last_opt (chars_of cmd) = Some c → end_of (vios_cmd server vios cmd) = Some c.
Proof using Type.
  unfold end_of, vios_cmd. rewrite !chars_of_app. generalize (chars_of cmd). intros l H.
  destruct l as [|d l _] using rev_ind; [done|]. rewrite last_opt_snoc in H. injection H as ->.
  rewrite !rev_app_distr. done.
Qed.

(** A listing changes nothing. *)
Lemma sim_listing vios cmd up : last_opt (chars_of cmd) = Some ":"%char → sim_next (vios_cmd sim_server vios cmd) up = up.
Proof using Type.
  intros H%(end_of_cmd sim_server vios). unfold sim_next. generalize dependent (vios_cmd sim_server vios cmd). intros text H.
  assert (dict_find text sim_effects = None) as ->; [|done]. unfold sim_effects. cbn [dict_find].
  repeat match goal with |- context [String.eqb ?k text] => destruct (String.eqb_spec k text) as [<-|_]; [by vm_compute in H|] end.
  done.
Qed.

#[local, refine] Instance adapter_machine : VfcMachine bool (HE:=adapter_env) (HV:=adapter_lib) := {|
  vm_host := "9.1.2.3";
  vm_server := sim_server;
  vm_exit := λ _ _ _, 0;
  vm_output := λ vios cmd up, sim_output (vios_cmd sim_server vios cmd) up;
  vm_next := λ vios cmd up, sim_next (vios_cmd sim_server vios cmd) up;
  vm_ssh := _;
  vm_list_status := _;
  vm_list_device := _;
  vm_port := λ _ up, if up then ("Online" +:+ NL)%string else ("Linkdown" +:+ NL)%string;
  vm_read := _;
  vm_path := λ _ up, if up then ("active", "undef", "ready")%string else ("failed", "undef", "faulty")%string;
  vm_status := _;
  vm_multipathd := _;
|}.
Proof.
  - done.
  - intros vios up. by apply sim_listing.
  - intros vios vfchost up. apply sim_listing. unfold lsdev_status. rewrite !chars_of_app, app_assoc. by rewrite last_opt_app.
  - done.
  - by intros ? [].
  - intros w. by exists 0.
Defined.
End adapter.

Definition sim_params : vfc_params := VfcParams (VStr "vios1") (VInt 2) (VStr "host0") (VStr "100-103") 3.

(** What setUp leaves. *)
Definition set_up : vfc_self :=
  VfcSelf (Some "9.1.2.3") (Some sim_params) (Some "lp1") (Some "9.1.2.3") (Some sim_server) (Some [sim_adapter]) (Some []) ""%string.

(** Two rounds on a machine that works, which ends with the adapter mapped. *)
Lemma unmap_map_verdict_witness :
  ∃ x', runs (test_unmap_map (HE:=adapter_env true) (HV:=adapter_lib)) true set_up (Ret ()) true x'.
Proof.
  destruct (unmap_map_verdict (HE:=adapter_env true) (HV:=adapter_lib) (HW:=vfc_wait _) (HM:=adapter_machine true)
    [sim_adapter] sim_params [0; 1] true set_up ltac:(by constructor) eq_refl) as [[_ H]|[H _]]; [exact H|].
  exfalso. apply H. vm_compute. tauto.
Defined.

(** cfgdev returns, but the adapter stays out. *)
Lemma remove_add_verdict_witness :
  ∃ msg w' x', runs (test_remove_add (HE:=adapter_env false) (HV:=adapter_lib)) true set_up (raise_ TestFail msg) w' x'.
Proof.
  destruct (remove_add_verdict (HE:=adapter_env false) (HV:=adapter_lib) (HW:=vfc_wait _) (HM:=adapter_machine false)
    [sim_adapter] sim_params [] [0; 1] true set_up ltac:(by constructor) eq_refl) as [[H _]|[_ H]]; [|exact H].
  exfalso. vm_compute in H. naive_solver.
Defined.

(** ** Listings with vfchost1 and vfchost10 *)

Definition two_hosts : list (string * string) := [("vfchost10", "host7"); ("vfchost1", "host5")]%string.

Lemma listed_value_read_witness :
  runs (get_vfc_client (HE:=vfc_env (λ _ w, (CmdResult 0 (listing two_hosts), w)) (λ _ _, ""%string))
    "vfchost1" "vios1") true set_up (Ret "host7"%string) true set_up.
Proof.
  exact (listed_value_read (HE:=vfc_env (λ _ w, (CmdResult 0 (listing two_hosts), w)) (λ _ _, ""%string))
    lsmap_client "9.1.2.3" sim_server "vios1" [("vfchost10", "host7")]%string "vfchost1" "host5" [] 0 true set_up eq_refl eq_refl
    ltac:(repeat constructor) eq_refl).
Defined.

(** ** A console that refuses to delete *)

(** The slots with their types. *)
Definition slots : Type := list (string * Z).

Definition vios2 : list string := ["vios1"; "vios2"].
Definition slot_line (e : string * Z) : string := py_str_Z e.2 +:+ "," +:+ e.1.

(** The commands that create, and what they make. *)
Definition creations : list (string * (string * Z)) :=
  vios ← vios2; ty ← ["server"; "client"]%string; i ← [100; 101; 102]; [(create_cmd sim_server "lp1" vios ty i, (ty, i))].

Definition console_next (cmd : string) (w : slots) : slots := match dict_find cmd creations with Some e => e :: w | None => w end.
Definition console_output (cmd : string) (w : slots) : cmd_result :=
  let typed (ty : string) := foldr (λ e text, if String.eqb e.1 ty then slot_line e +:+ NL +:+ text else text) ""%string w in
  if String.eqb cmd (slots_cmd sim_server "server") then CmdResult 0 (typed "server"%string)
  else if String.eqb cmd (slots_cmd sim_server "client") then CmdResult 0 (typed "client"%string)
  else CmdResult 1 "".

Definition console_env : Env slots := vfc_env (λ cmd w, (console_output cmd w, console_next cmd w)) (λ _ _, ""%string).
Definition console_lib : VfcLib slots := vfc_lib (λ _ : slots, []).

#[local, refine] Instance console : VfcConsole slots (HE:=console_env) := {|
  vc_host := "9.1.2.3";
  vc_server := sim_server;
  vc_lpar := "lp1";
  vc_created := λ vios ty i, console_next (create_cmd sim_server "lp1" vios ty i);
  vc_deleted := λ lpar i, console_next (delete_cmd sim_server lpar i);
  vc_result := console_output;
  vc_create := _;
  vc_delete := _;
  vc_list := _;
|}.
Proof. all: done. Defined.

Definition console_params : vfc_params := VfcParams (VStr "vios1,vios2") (VInt 1) (VStr "host0") (VStr "100-103") 1.
Definition console_self : vfc_self :=
  VfcSelf (Some "9.1.2.3") (Some console_params) (Some "lp1") (Some "9.1.2.3") (Some sim_server) (Some []) (Some []) ""%string.

(** The test passes, and the four adapters are still there. *)
Lemma deletion_unchecked_witness :
  runs (test_create_delete_vfchost (HE:=console_env) (HV:=console_lib)) [] console_self (Ret ())
    [("client", 101); ("server", 101); ("client", 100); ("server", 100)]%string console_self.
Proof.
  assert (creates (HC:=console) vios2 100 103) as Hc.
  { intros vios ty i w Hv Ht Hi. unfold vios2 in Hv. assert (i = 100 ∨ i = 101 ∨ i = 102) as Hi' by lia.
    rewrite !elem_of_cons, elem_of_nil in Hv, Ht.
    destruct Hv as [->|[->|[]]], Ht as [->|[->|[]]], Hi' as [->|[->| ->]]; vm_compute; reflexivity. }
  assert (unnamed (HC:=console) vios2) as Hu.
  { intros word i w. unfold vios2. rewrite !elem_of_cons, elem_of_nil. intros [->|[->|[->|[]]]]; by vm_compute. }
  exact (deletion_unchecked (HE:=console_env) (HV:=console_lib) (HW:=vfc_wait _) (HC:=console) console_params "vios1,vios2" "100-103"
    100 103 1 [] console_self ltac:(by constructor) eq_refl eq_refl eq_refl ltac:(lia) eq_refl eq_refl ltac:(cbn; lia) Hc Hu).
Defined.
