(* ===== verification/NetVirt.v ===== *)
(** * The network virtualization tests: io/net/virt-net/network_virtualization.py

    The class [NetworkVirtualization]: virtual network adapters (vNICs) of a partition, with
    backing devices on virtual I/O servers (VIOS), which the tests add, remove, disable and fail
    over through the management console, the client and the servers.  netifaces, avocado's
    [wait], [dmesg], [genio], [linux], [NetworkInterface], [RemoteHost] and package manager, and
    pexpect are the class [VnLib]. *)

From S2P Require Import Prelude PyStr PyFloat PyVal Avocado Logic.
Open Scope Z_scope.

(** ** Data *)

(** What setUp reads from the parameters and does not change. *)
Record vn_params := VnParams {
  np_vios_name : list string;
  np_backing_adapter : list string;
  np_bandwidth : pyval;
  np_auto_failover : string;
  np_vios_ip : pyval;
  np_vios_user : pyval;
  np_vios_pwd : pyval;
  np_count : Z;
  np_num_of_dlpar : Z;
  np_device_ip : list string;
  np_mac_id : list string;
  np_netmask : list string;
  np_peer_ip : list string;
  np_peer_user : pyval;
  np_peer_password : pyval;
  np_host_public_ip : pyval;
  np_host_user : pyval;
  np_host_password : pyval;
  np_is_mlx_driver : pyval;
  np_tx_channel : pyval;
  np_rx_channel : pyval;
  np_skip_vnic_add : bool;
}.

(** The lists that run in parallel, an entry per backing device; the tests reorder them. *)
Record vn_devices := VnDevices {
  nd_vios_id : list string;
  nd_sriov_port : list string;
  nd_backing_adapter_id : list string;
  nd_vnic_priority : list pyval;
}.

(** The attributes of [self]; [None] is an attribute that is not set. *)
Record vn_self := VnSelf {
  vn_hmc_ip : option string;
  vn_lpar : option string;
  vn_session_hmc : option string;     (* the hosts of the sessions *)
  vn_session : option string;
  vn_session_peer : option string;
  vn_server : option pyval;
  vn_slot_num : option (list string);
  vn_original_logport : option string;
  vn_lpar_id : option string;
  vn_the_params : option vn_params;
  vn_devs : option vn_devices;
}.

Definition new_vn : vn_self := VnSelf None None None None None None None None None None None.

Definition with_hmc_ip (v : string) (x : vn_self) : vn_self :=
  VnSelf (Some v) (vn_lpar x) (vn_session_hmc x) (vn_session x) (vn_session_peer x) (vn_server x) (vn_slot_num x)
    (vn_original_logport x) (vn_lpar_id x) (vn_the_params x) (vn_devs x).
Definition with_lpar (v : string) (x : vn_self) : vn_self :=
  VnSelf (vn_hmc_ip x) (Some v) (vn_session_hmc x) (vn_session x) (vn_session_peer x) (vn_server x) (vn_slot_num x)
    (vn_original_logport x) (vn_lpar_id x) (vn_the_params x) (vn_devs x).
Definition with_session_hmc (v : string) (x : vn_self) : vn_self :=
  VnSelf (vn_hmc_ip x) (vn_lpar x) (Some v) (vn_session x) (vn_session_peer x) (vn_server x) (vn_slot_num x)
    (vn_original_logport x) (vn_lpar_id x) (vn_the_params x) (vn_devs x).
Definition with_session (v : string) (x : vn_self) : vn_self :=
  VnSelf (vn_hmc_ip x) (vn_lpar x) (vn_session_hmc x) (Some v) (vn_session_peer x) (vn_server x) (vn_slot_num x)
    (vn_original_logport x) (vn_lpar_id x) (vn_the_params x) (vn_devs x).
Definition with_session_peer (v : string) (x : vn_self) : vn_self :=
  VnSelf (vn_hmc_ip x) (vn_lpar x) (vn_session_hmc x) (vn_session x) (Some v) (vn_server x) (vn_slot_num x)
    (vn_original_logport x) (vn_lpar_id x) (vn_the_params x) (vn_devs x).
Definition with_server (v : pyval) (x : vn_self) : vn_self :=
  VnSelf (vn_hmc_ip x) (vn_lpar x) (vn_session_hmc x) (vn_session x) (vn_session_peer x) (Some v) (vn_slot_num x)
    (vn_original_logport x) (vn_lpar_id x) (vn_the_params x) (vn_devs x).
Definition with_slot_num (v : list string) (x : vn_self) : vn_self :=
  VnSelf (vn_hmc_ip x) (vn_lpar x) (vn_session_hmc x) (vn_session x) (vn_session_peer x) (vn_server x) (Some v)
    (vn_original_logport x) (vn_lpar_id x) (vn_the_params x) (vn_devs x).
Definition with_original_logport (v : string) (x : vn_self) : vn_self :=
  VnSelf (vn_hmc_ip x) (vn_lpar x) (vn_session_hmc x) (vn_session x) (vn_session_peer x) (vn_server x) (vn_slot_num x)
    (Some v) (vn_lpar_id x) (vn_the_params x) (vn_devs x).
Definition with_lpar_id (v : string) (x : vn_self) : vn_self :=
  VnSelf (vn_hmc_ip x) (vn_lpar x) (vn_session_hmc x) (vn_session x) (vn_session_peer x) (vn_server x) (vn_slot_num x)
    (vn_original_logport x) (Some v) (vn_the_params x) (vn_devs x).
Definition with_params (v : vn_params) (x : vn_self) : vn_self :=
  VnSelf (vn_hmc_ip x) (vn_lpar x) (vn_session_hmc x) (vn_session x) (vn_session_peer x) (vn_server x) (vn_slot_num x)
    (vn_original_logport x) (vn_lpar_id x) (Some v) (vn_devs x).
Definition with_devs (v : vn_devices) (x : vn_self) : vn_self :=
  VnSelf (vn_hmc_ip x) (vn_lpar x) (vn_session_hmc x) (vn_session x) (vn_session_peer x) (vn_server x) (vn_slot_num x)
    (vn_original_logport x) (vn_lpar_id x) (vn_the_params x) (Some v).

Definition set_vios_id (l : list string) (d : vn_devices) : vn_devices :=
  VnDevices l (nd_sriov_port d) (nd_backing_adapter_id d) (nd_vnic_priority d).
Definition set_sriov_port (l : list string) (d : vn_devices) : vn_devices :=
  VnDevices (nd_vios_id d) l (nd_backing_adapter_id d) (nd_vnic_priority d).
Definition set_backing_adapter_id (l : list string) (d : vn_devices) : vn_devices :=
  VnDevices (nd_vios_id d) (nd_sriov_port d) l (nd_vnic_priority d).
Definition set_vnic_priority (l : list pyval) (d : vn_devices) : vn_devices :=
  VnDevices (nd_vios_id d) (nd_sriov_port d) (nd_backing_adapter_id d) l.

(** What [check_vnic_exists] returns. *)
Record vnic_info := VnicInfo {
  vi_exists : bool;
  vi_slot_match : bool;
  vi_mac_match : bool;
  vi_device_name : string;
  vi_device_slot_match : bool;
}.

(** The library functions that this test calls.  [vn_wait_for f t] is [wait.wait_for(f, timeout=t)]:
    it polls [f] until it gives a true value, which it returns, or the time is over. *)
Class VnLib (W : Type) := {
  vn_lib : string → list pyval → W → result pyval * W;
  vn_wait_for : M W vn_self pyval → Z → M W vn_self pyval;
  vn_interfaces : W → result (list string) * W;
  (* netifaces.ifaddresses(device)[17][0]['addr'] *)
  vn_addr : string → W → result string * W;
  vn_stderr : cmd_result → string;
  (* the truth value of the result of a command *)
  vn_given : cmd_result → bool;
  vn_distro : string;
  vn_test_name : string;     (* str(self.name.name) *)
  vn_workdir : string;
}.

(** ** Text and lists *)

(** [l[i]], [i] not negative, and [l[i]] with an index from the end when it is. *)
Definition nth_of {A} (l : list A) (i : nat) : result A :=
  match l !! i with Some a => Ret a | None => raise_ IndexError "list index out of range" end.
Definition at_index {A} (l : list A) (i : Z) : result A :=
  if i <? 0 then if Z.of_nat (length l) + i <? 0 then raise_ IndexError "list index out of range"
                 else nth_of l (Z.to_nat (Z.of_nat (length l) + i))
  else nth_of l (Z.to_nat i).

(** [l.pop(i)]: the element and the rest. *)
Definition list_pop {A} (i : nat) (l : list A) : result (A * list A) :=
  match l !! i with Some a => Ret (a, take i l ++ drop (S i) l) | None => raise_ IndexError "pop index out of range" end.

(** [l.index(x)] *)
Fixpoint index_of (t : string) (l : list string) : result Z :=
  match l with
  | [] => raise_ ValueError (quote t +:+ " is not in list")
  | s :: l' => if String.eqb s t then Ret 0 else i ← index_of t l'; Ret (i + 1)
  end.

(** [line.split(c)[i]] and [line.split(c)[-1]] *)
Definition field_at (c : ascii) (i : nat) (line : string) : result string := nth_of (py_split_on c line) i.
Definition last_field (c : ascii) (line : string) : string := default ""%string (last_opt (py_split_on c line)).

Definition prefixed (p s : string) : bool := starts_with (chars_of p) (chars_of s).
Definition ends_with (p s : string) : bool := starts_with (rev (chars_of p)) (rev (chars_of s)).

(** [s.replace(':', '')] *)
Definition without_colons (s : string) : string := str_of (List.filter (λ c, negb (Ascii.eqb c ":")) (chars_of s)).

(** [':'.join(mac[i:i+2] for i in range(0, 12, 2))] *)
Definition colon_mac (mac : string) : string :=
  py_join ":" (map (λ i, str_of (take 2 (drop i (chars_of mac)))) [0; 2; 4; 6; 8; 10]%nat).

(** [s.split(sep)]; the fuel is the number of characters. *)
Fixpoint split_seq (fuel : nat) (sep cur l : chars) : list chars :=
  match fuel, l with
  | S f, c :: l' => match drop_prefix sep l with
                    | Some rest => rev cur :: split_seq f sep [] rest
                    | None => split_seq f sep (c :: cur) l'
                    end
  | _, _ => [rev cur]
  end.
Definition split_str (sep s : string) : list string :=
  map str_of (split_seq (S (length (chars_of s))) (chars_of sep) [] (chars_of s)).

Definition is_str (v : pyval) (s : string) : bool := py_eq v (VStr s).

(** A local variable that no branch has set. *)
Definition unbound {A} (name : string) : result A :=
  raise_ OtherError ("cannot access local variable " +:+ quote name +:+ " where it is not associated with a value").

(** ** The listings of the console *)

(** The entries of a line of a slot: what follows the number, without the quotes.  [strip]
    takes the characters away wherever they stand at the ends. *)
Definition slot_entries (slot line : string) : list string := py_split_on "," (py_strip_of (slot +:+ "," +:+ DQ) line).

(** The logical port of the first entry that the test accepts. *)
Fixpoint first_logport (accepts : list string → result bool) (entries : list string) : result (option string) :=
  match entries with
  | [] => Ret None
  | entry :: entries' =>
      let fields := py_split_on "/" entry in
      b ← accepts fields;
      if (b : bool) then logport ← nth_of fields 1; Ret (Some logport) else first_logport accepts entries'
  end.

(** Of the lines of the slot, the last one with such an entry counts. *)
Fixpoint last_logport (accepts : list string → result bool) (slot : string) (found : option string) (lines : list string) :
    result string :=
  match lines with
  | [] => match found with Some logport => Ret logport | None => unbound "logport" end
  | line :: lines' =>
      if prefixed (slot +:+ ",") line then
        r ← first_logport accepts (slot_entries slot line);
        last_logport accepts slot (match r with Some _ => r | None => found end) lines'
      else last_logport accepts slot found lines'
  end.

(** [sriov/<port>/<active>/<state>] *)
Definition is_active (fields : list string) : result bool := s ← nth_of fields 2; Ret (py_in "1" s).
Definition is_spare (fields : list string) : result bool :=
  s ← nth_of fields 2;
  if py_in "0" s then t ← nth_of fields 3; Ret (py_in "Operational" t) else Ret false.

(** The priority in the first entry with the port among its fields. *)
Fixpoint priority_in (logport : string) (entries : list string) : result (option string) :=
  match entries with
  | [] => Ret None
  | entry :: entries' =>
      let fields := py_split_on "/" entry in
      if existsb (String.eqb logport) fields then p ← nth_of fields 8; Ret (Some p) else priority_in logport entries'
  end.

(** The number of entries in the last line of a slot. *)
Definition count_entries (slot output : string) (count : option Z) : option Z :=
  foldl (λ count line, if prefixed (slot +:+ ",") line then Some (Z.of_nat (length (tail (py_split_on "," line)))) else count)
    count (py_splitlines output).

(** The last position with the adapter and the port. *)
Fixpoint position_of (adapter_id port : string) (i : nat) (found : option nat) (ids ports : list string) : result (option nat) :=
  match ids with
  | [] => Ret found
  | a :: ids' =>
      found ← (if String.eqb adapter_id a then
                 match ports with
                 | p :: _ => Ret (if String.eqb port p then Some i else found)
                 | [] => raise_ IndexError "list index out of range"
                 end
               else Ret found);
      position_of adapter_id port (S i) found ids' (tail ports)
  end.

(** ** The commands of the console *)

Definition free_slots_cmd (server lpar : string) : string :=
  "lshwres -r virtualio -m " +:+ server +:+ " --rsubtype vnic --filter            " +:+ DQ +:+ "lpar_names=" +:+ lpar +:+ DQ +:+
  " -F slot_num".
Definition adapters_cmd (server : string) : string :=
  "lshwres -m " +:+ server +:+ " -r sriov --rsubtype adapter -F               phys_loc:adapter_id".
Definition disable_cmd (server option lpar slot : string) : string :=
  "chhwres -m " +:+ server +:+ " -o " +:+ option +:+ " -r virtualio --rsubtype vnic -p " +:+ lpar +:+ " -s " +:+ slot.
Definition disabled_cmd (server lpar : string) : string :=
  "lshwres -m " +:+ server +:+ " -r virtualio --rsubtype vnic --filter         " +:+ DQ +:+ "lpar_names=" +:+ lpar +:+ DQ +:+
  " -F slot_num:is_disabled".
Definition backing_device (vios_name vios_id adapter_id port bandwidth priority : string) : string :=
  "sriov/" +:+ vios_name +:+ "/" +:+ vios_id +:+ "/" +:+ adapter_id +:+ "/" +:+ port +:+ "/" +:+ bandwidth +:+ "/" +:+ priority.
Definition device_cmd (operation server lpar_id slot auto_failover mac device : string) : string :=
  if String.eqb operation "add" then
    "chhwres -m " +:+ server +:+ " --id " +:+ lpar_id +:+ " -r virtualio --rsubtype vnic                    -o a -s " +:+ slot +:+
    " -a " +:+ DQ +:+ "auto_priority_failover=" +:+ auto_failover +:+ ",mac_addr=" +:+ mac +:+ ",backing_devices=" +:+ device +:+
    DQ +:+ " "
  else
    "chhwres -m " +:+ server +:+ " --id " +:+ lpar_id +:+ " -r virtualio --rsubtype vnic                    -o r -s " +:+ slot.
Definition backing_cmd (operation server slot lpar_id auto_failover device : string) : string :=
  if String.eqb operation "add" then
    "chhwres -r virtualio --rsubtype vnic -o s -m " +:+ server +:+ " -s " +:+ slot +:+ "                    --id " +:+ lpar_id +:+
    " -a " +:+ DQ +:+ "auto_priority_failover=" +:+ auto_failover +:+ ",backing_devices+=" +:+ device +:+ DQ
  else
    "chhwres -r virtualio --rsubtype vnic -o s -m " +:+ server +:+ " -s " +:+ slot +:+ "                    --id " +:+ lpar_id +:+
    " -a backing_devices-=" +:+ device.
Definition list_cmd (server lpar slot : string) : string :=
  "lshwres -r virtualio -m " +:+ server +:+ " --rsubtype vnic --filter               " +:+ DQ +:+ "lpar_names=" +:+ lpar +:+
  ",slots=" +:+ slot +:+ DQ.
Definition states_cmd (server lpar : string) : string :=
  "lshwres -r virtualio -m " +:+ server +:+ " --rsubtype vnic --level lpar                --filter lpar_names=" +:+ lpar +:+
  " -F slot_num,backing_device_states".
Definition backing_devices_cmd (server lpar slot : string) : string :=
  "lshwres -r virtualio -m " +:+ server +:+ " --rsubtype vnic --level lpar                --filter lpar_names=" +:+ lpar +:+
  ",slots=" +:+ slot +:+ " -F backing_devices".
Definition auto_failover_cmd (server lpar slot : string) : string :=
  "lshwres -r virtualio -m " +:+ server +:+ " --rsubtype vnic                --filter lpar_names=" +:+ lpar +:+ ",slots=" +:+ slot.
Definition enable_failover_cmd (server lpar_id slot : string) : string :=
  "chhwres -r virtualio -m " +:+ server +:+ " --rsubtype vnic                -o s --id " +:+ lpar_id +:+ " -s " +:+ slot +:+
  " -a auto_priority_failover=1".
Definition priority_cmd (server slot lpar : string) : string :=
  "lshwres -r virtualio -m " +:+ server +:+ " --rsubtype vnic --level lpar                --filter slots=" +:+ slot +:+
  ",lpar_names=" +:+ lpar +:+ " -F slot_num,backing_devices".
Definition change_priority_cmd (server slot lpar_id logport priority : string) : string :=
  "chhwres -r virtualio --rsubtype vnicbkdev -o s -m " +:+ server +:+ "                -s " +:+ slot +:+ " --id " +:+ lpar_id +:+
  " --logport " +:+ logport +:+ " -a failover_priority=" +:+ priority.
Definition activate_cmd (server slot lpar_id logport : string) : string :=
  "chhwres -r virtualio --rsubtype vnicbkdev -o act -m " +:+ server +:+ "                -s " +:+ slot +:+ " --id " +:+ lpar_id +:+
  "                --logport " +:+ logport.
Definition debug_cmd (sign : string) : string :=
  "echo 'module ibmvnic " +:+ sign +:+ "pt; func send_subcrq -pt' > /sys/kernel/debug/dynamic_debug/control".
Definition eeh_cmd (device value : string) : string :=
  "./eeh_tool_64 " +:+ device +:+ " 3 15 -w 64 -a " +:+ value +:+ " -m 0xFFFFFFFFFFFFF000".

Definition bool_str (b : bool) : string := if b then "True" else "False".

Definition vnic_packages : list string :=
  ["ksh"; "src"; "rsct.basic"; "rsct.core.utils"; "rsct.core"; "DynamicRM"; "powerpc-utils"; "irqbalance"].

(** ** The class NetworkVirtualization *)

Section NetworkVirtualization.
Context {W : Type} {HE : Env W} {HV : VnLib W}.
Abbreviation T := (M W vn_self).

Definition vn_call (fn : string) (args : list pyval) : T pyval := ext (EvCall fn args) (vn_lib fn args).
(** [NetworkInterface(device, self.local)] and its methods: the object is its device. *)
Definition network_interface (device : string) : T string :=
  _ ← vn_call "NetworkInterface" [VStr device]; mret device.
Definition ni_call (networkinterface method : string) (args : list pyval) : T pyval :=
  vn_call ("NetworkInterface." +:+ method) (VStr networkinterface :: args).
(** [networkinterface.ping_check(peer, count=5) is not None] *)
Definition ping_fails (networkinterface peer : string) : T bool :=
  r ← ni_call networkinterface "ping_check" [VStr peer; VInt 5]; mret (negb (is_None r)).
(** [wait.wait_for(networkinterface.is_link_up, timeout=t)] *)
Definition wait_link (networkinterface : string) (t : Z) : T pyval := vn_wait_for (ni_call networkinterface "is_link_up" []) t.

Definition param_of {A} (name : string) (f : vn_params → A) : T A := attr name (λ x, f <$> vn_the_params x).
Definition devs_of {A} (name : string) (f : vn_devices → A) : T A := attr name (λ x, f <$> vn_devs x).
Definition set_devs (f : vn_devices → vn_devices) : T () :=
  modify (λ x, match vn_devs x with Some d => with_devs (f d) x | None => x end).
Definition first_of {A} (m : T (list A)) : T A := l ← m; lift (nth_of l 0).

Definition slot_0 : T string := first_of (attr "slot_num" vn_slot_num).
Definition mac_0 : T string := first_of (param_of "mac_id" np_mac_id).
Definition peer_0 : T string := first_of (param_of "peer_ip" np_peer_ip).
Definition server_text : T string := v ← attr "server" vn_server; mret (py_str v).

(** [self.session_hmc.cmd(cmd)] and the same with the session of the peer or of the VIOS. *)
Definition hmc_cmd (cmd : string) : T cmd_result := host ← attr "session_hmc" vn_session_hmc; ssh_cmd host cmd.
Definition peer_cmd (cmd : string) : T cmd_result := host ← attr "session_peer" vn_session_peer; ssh_cmd host cmd.
Definition vios_cmd (cmd : string) : T cmd_result := host ← attr "session" vn_session; ssh_cmd host cmd.

(** A command whose [CmdError] fails the test. *)
Definition listing_cmd (cmd : string) : T string :=
  output ← try_except (hmc_cmd cmd) (λ c, bool_decide (c = CmdError))
             (λ details, log_debug (ex_msg details) ;; test_fail "lshwres operation failed ");
  mret (stdout_text output).

(** [self.fail] with two arguments. *)
Definition fail_with_arguments : T () :=
  throw TypeError "Test.fail() takes from 1 to 2 positional arguments but 3 were given".

(** *** Backing devices *)

Definition backing_dev_list : T string :=
  server ← server_text; lpar ← attr "lpar" vn_lpar; listing_cmd (states_cmd server lpar).
Definition get_backing_devices (slot : string) : T string :=
  server ← server_text; lpar ← attr "lpar" vn_lpar; listing_cmd (backing_devices_cmd server lpar slot).
Definition list_device (slot : string) : T string :=
  server ← server_text; lpar ← attr "lpar" vn_lpar; listing_cmd (list_cmd server lpar slot).

Definition get_active_device_logport (slot : string) : T string :=
  output ← backing_dev_list; lift (last_logport is_active slot None (py_splitlines output)).
Definition get_backing_device_logport (slot : string) : T string :=
  output ← backing_dev_list; lift (last_logport is_spare slot None (py_splitlines output)).

(** The console is asked for the spare device at every entry. *)
Fixpoint backing_priority (slot : string) (entries : list string) : T string :=
  match entries with
  | [] => lift (unbound "backing_dev_prio")
  | entry :: entries' =>
      logport ← get_backing_device_logport slot;
      if py_in logport entry then lift (field_at "/" 8 entry) else backing_priority slot entries'
  end.
Definition get_backing_device_priority (slot : string) : T string :=
  output ← get_backing_devices slot; backing_priority slot (py_split_on "," output).

(** The number of entries of the last line of the slot; [None] when there is no slot. *)
Definition backing_dev_count : T pyval :=
  slots ← attr "slot_num" vn_slot_num;
  match slots with
  | slot :: _ =>
      output ← backing_dev_list;
      match count_entries slot output None with Some n => mret (VInt n) | None => lift (unbound "count") end
  | [] => mret VNone
  end.
Definition backing_dev_count_w_slot_num (slot : string) : T Z :=
  output ← backing_dev_list; mret (default 0 (count_entries slot output (Some 0))).

(** An entry with the port gives the adapter and the port, and the first priority. *)
Definition take_entry (logport : string) (found : string * string) (entry : string) : T (string * string) :=
  if py_in logport entry then
    adapter_id ← lift (field_at "/" 3 entry);
    port ← lift (field_at "/" 4 entry);
    p ← lift (field_at "/" 8 entry);
    l ← devs_of "vnic_priority" nd_vnic_priority;
    match l with
    | _ :: l' => set_devs (set_vnic_priority (VStr p :: l')) ;; mret (adapter_id, port)
    | [] => throw IndexError "list assignment index out of range"
    end
  else mret found.

(** [l.pop(index)] and [l.insert(0, v)]; [v] is what was popped unless it is given. *)
Definition to_front (name : string) (get : vn_devices → list string) (set : list string → vn_devices → vn_devices)
    (v : option string) (index : nat) : T () :=
  l ← devs_of name get;
  '(a, rest) ← lift (list_pop index l);
  set_devs (set (default a v :: rest)).

Definition update_backing_devices (slot : string) : T () :=
  logport ← get_active_device_logport slot;
  output ← get_backing_devices slot;
  '(adapter_id, port) ← for_acc (py_split_on "," output) (""%string, ""%string) (take_entry logport);
  when (negb (py_empty adapter_id))
    (ids ← devs_of "backing_adapter_id" nd_backing_adapter_id;
     ports ← devs_of "sriov_port" nd_sriov_port;
     index ← lift (position_of adapter_id port 0 None ids ports);
     match index with
     | Some i =>
         to_front "vios_id" nd_vios_id set_vios_id None i ;;
         to_front "sriov_port" nd_sriov_port set_sriov_port (Some port) i ;;
         to_front "backing_adapter_id" nd_backing_adapter_id set_backing_adapter_id (Some adapter_id) i
     | None => lift (unbound "index")
     end).

Fixpoint active_value (slot : string) (val : option Z) (lines : list string) : result Z :=
  match lines with
  | [] => match val with Some z => Ret z | None => unbound "val" end
  | line :: lines' =>
      if prefixed (slot +:+ ",") line then
        entry ← nth_of (tail (py_split_on "," line)) 1;
        s ← field_at "/" 2 entry;
        z ← py_int (VStr s);
        active_value slot (Some z) lines'
      else active_value slot val lines'
  end.
Definition is_backing_device_active (slot : string) : T bool :=
  output ← backing_dev_list; z ← lift (active_value slot None (py_splitlines output)); mret (negb (z =? 0)).

Definition trigger_failover (logport : string) : T () :=
  server ← server_text; slot ← slot_0; lpar_id ← attr "lpar_id" vn_lpar_id;
  output ← hmc_cmd (activate_cmd server slot lpar_id logport);
  when (negb (exit_status output =? 0))
    (log_debug (vn_stderr output) ;; test_fail ("Command to set " +:+ logport +:+ " as Active has failed")).

Definition change_active_device (slot : string) : T () :=
  current_logport ← get_active_device_logport slot;
  original ← attr "original_logport" vn_original_logport;
  if negb (String.eqb original current_logport) then trigger_failover current_logport
  else log_info "Active device same before and after".

Definition backing_dev_add_remove (operation : string) (i : nat) : T () :=
  names ← param_of "vios_name" np_vios_name; vios_name ← lift (nth_of names i);
  ids ← devs_of "vios_id" nd_vios_id; vios_id ← lift (nth_of ids i);
  adapters ← devs_of "backing_adapter_id" nd_backing_adapter_id; adapter_id ← lift (nth_of adapters i);
  ports ← devs_of "sriov_port" nd_sriov_port; port ← lift (nth_of ports i);
  bandwidth ← param_of "bandwidth" np_bandwidth;
  priorities ← devs_of "vnic_priority" nd_vnic_priority; priority ← lift (nth_of priorities i);
  server ← server_text; slot ← slot_0; lpar_id ← attr "lpar_id" vn_lpar_id;
  auto_failover ← param_of "auto_failover" np_auto_failover;
  output ← hmc_cmd (backing_cmd operation server slot lpar_id auto_failover
                      (backing_device vios_name vios_id adapter_id port (py_str bandwidth) (py_str priority)));
  when (negb (exit_status output =? 0))
    (log_debug (vn_stderr output) ;;
     test_fail ("Network virtualization Backing device " +:+ operation +:+ "                        operation failed")).

Definition device_add_remove (slot mac sriov_port adapter_id operation : string) : T () :=
  vios_name ← first_of (param_of "vios_name" np_vios_name);
  vios_id ← first_of (devs_of "vios_id" nd_vios_id);
  bandwidth ← param_of "bandwidth" np_bandwidth;
  priority ← first_of (devs_of "vnic_priority" nd_vnic_priority);
  server ← server_text; lpar_id ← attr "lpar_id" vn_lpar_id;
  auto_failover ← param_of "auto_failover" np_auto_failover;
  output ← hmc_cmd (device_cmd operation server lpar_id slot auto_failover mac
                      (backing_device vios_name vios_id adapter_id sriov_port (py_str bandwidth) (py_str priority)));
  when (negb (exit_status output =? 0))
    (log_debug (vn_stderr output) ;;
     test_fail ("Network virtualization " +:+ operation +:+ " device operation                        failed")).

(** *** Failover by priority *)

Definition is_auto_failover_enabled : T bool :=
  server ← server_text; lpar ← attr "lpar" vn_lpar; slot ← slot_0;
  output ← hmc_cmd (auto_failover_cmd server lpar slot);
  when (negb (exit_status output =? 0)) (log_debug (vn_stderr output)) ;;
  mret (py_in "auto_priority_failover=1" (stdout_text output)).

Definition enable_auto_failover : T bool :=
  server ← server_text; lpar_id ← attr "lpar_id" vn_lpar_id; slot ← slot_0;
  output ← hmc_cmd (enable_failover_cmd server lpar_id slot);
  when (negb (exit_status output =? 0)) (log_debug (vn_stderr output)) ;;
  is_auto_failover_enabled.

Definition get_failover_priority (logport : string) : T pyval :=
  server ← server_text; slot ← slot_0; lpar ← attr "lpar" vn_lpar;
  output ← hmc_cmd (priority_cmd server slot lpar);
  when (negb (exit_status output =? 0)) (log_debug (vn_stderr output)) ;;
  if prefixed (slot +:+ ",") (stdout_text output) then
    r ← lift (priority_in logport (slot_entries slot (stdout_text output)));
    mret (match r with Some p => VStr p | None => VNone end)
  else mret VNone.

Definition change_failover_priority (logport : string) (priority : pyval) : T bool :=
  server ← server_text; slot ← slot_0; lpar_id ← attr "lpar_id" vn_lpar_id;
  output ← hmc_cmd (change_priority_cmd server slot lpar_id logport (py_str priority));
  when (negb (exit_status output =? 0)) (log_debug (vn_stderr output)) ;;
  current ← get_failover_priority logport;
  mret (py_eq priority current).

(** *** Devices of the partition *)

Fixpoint device_with (mac : string) (devices : list string) : T string :=
  match devices with
  | [] => mret ""
  | device :: devices' =>
      addr ← silent (vn_addr device);
      if py_in mac addr then mret device else device_with mac devices'
  end.
Definition find_device (mac_addrs : string) : T string :=
  devices ← silent vn_interfaces; device_with (colon_mac mac_addrs) devices.

Definition find_device_id (mac : string) : T string :=
  device ← find_device mac;
  output ← process_system_output
             ("ls -l /sys/class/net/ |                                            grep -w " +:+ device +:+
              " | cut -d '/' -f                                            5") [Shell];
  mret (py_strip output).

(** The first word of the first line with the device; [None] is False. *)
Definition find_virtual_slot (dev_id : string) : T (option string) :=
  output ← process_system_output "lsslot" [IgnoreStatus; Shell; Sudo];
  match List.find (py_in dev_id) (py_split_on LF output) with
  | Some slot => s ← lift (field_at " " 0 slot); mret (Some s)
  | None => mret None
  end.

Definition drmgr_vnic_dlpar (operation slot : string) : T () :=
  status ← process_system ("drmgr " +:+ operation +:+ " -c slot -s " +:+ slot +:+ " -w 5 -d 1") [Shell; Sudo; IgnoreStatus];
  when (negb (status =? 0)) (test_fail ("drmgr operation " +:+ operation +:+ " fails for vNIC device " +:+ slot)).

(** A pause after every interface that is not the device. *)
Fixpoint look_for (device_name : string) (interfaces : list string) : T bool :=
  match interfaces with
  | [] => mret false
  | interface :: interfaces' =>
      if String.eqb device_name interface then
        log_info ("Network virtualized device " +:+ device_name +:+ " is up") ;; mret true
      else sleep (VInt 5) ;; look_for device_name interfaces'
  end.
Fixpoint rounds_for (device_name : string) (rounds : nat) : T bool :=
  match rounds with
  | O => mret false
  | S rounds' =>
      interfaces ← silent vn_interfaces;
      b ← look_for device_name interfaces;
      if (b : bool) then mret true else rounds_for device_name rounds'
  end.
(** [range(0, 120, 10)]: twelve rounds. *)
Definition wait_interface (device_name : string) : T bool := rounds_for device_name 12.
Definition wait_intrerface (device_name : string) : T bool := rounds_for device_name 12.

Definition interface_naming (mac slot : string) : T () :=
  silent (env_append "/etc/udev/rules.d/70-persistent-net.rules"
            ("SUBSYSTEM==" +:+ DQ +:+ "net" +:+ DQ +:+ ", ACTION==" +:+ DQ +:+ "add" +:+ DQ +:+ ", DRIVERS==" +:+ DQ +:+ "?*" +:+ DQ +:+
             ", ATTR{address}==" +:+ DQ +:+ colon_mac mac +:+ DQ +:+ ", ")).

Definition dmesg_errors : list string :=
  ["uevent: failed to send synthetic uevent"; "Invalid request detected while CRQ is inactive"; "failed to send uevent";
   "registration failed"; "CRQ-init failed, -11"].

(** With a peer that answers, two more messages are passed over. *)
Definition check_dmesg_error : T () :=
  error ← (if py_in "test_remove" vn_test_name then mret dmesg_errors
           else mac ← mac_0; device ← find_device mac; ni ← network_interface device;
                for_acc ["Virtual Adapter failed"; "Failed to set link state"] dmesg_errors
                  (λ error err, peer ← peer_0; fails ← ping_fails ni peer;
                   mret (if (fails : bool) then error else error ++ [err])));
  log_info "Gathering kernel errors if any" ;;
  try_except (_ ← vn_call "dmesg.collect_errors_by_level" [VInt 4; VList (map VStr error)]; mret ()) any_exn
    (λ exc, log_info (ex_msg exc) ;; test_fail "test failed,check dmesg log in debug log").

(** *** setUp *)

Definition get_mcp_component (component : string) : T string :=
  out ← process_system_output ("lsrsrc IBM.MCP " +:+ component) [IgnoreStatus; Shell; Sudo];
  match List.find (py_in component) (py_splitlines out) with
  | Some line =>
      match last_opt (py_split line) with
      | Some w => mret (py_strip_of ("{}" +:+ DQ) w)
      | None => throw IndexError "list index out of range"
      end
  | None => mret ""
  end.

Definition get_partition_name (component : string) : T string :=
  out ← process_system_output "lparstat -i" [IgnoreStatus; Shell; Sudo];
  mret (match List.find (py_in component) (py_splitlines out) with
        | Some line => py_strip (last_field ":" line)
        | None => ""
        end).

Definition check_slot_availability (slot_num : string) : T bool :=
  server ← server_text; lpar ← attr "lpar" vn_lpar;
  r ← hmc_cmd (free_slots_cmd server lpar);
  let output := stdout_text r in
  if py_in "No results were found" output then mret true
  else
    let used_slots := List.filter (λ s, negb (py_empty s)) (map py_strip (py_splitlines output)) in
    if existsb (String.eqb slot_num) used_slots then
      log_debug ("Slot " +:+ slot_num +:+ " already exists") ;; mret false
    else mret true.

Definition rsct_service_start : T () :=
  try_except
    (for_each ["rsct"; "rsct_rm"] (λ svc, _ ← process_run ("startsrc -g " +:+ svc) [Shell; Sudo]; mret ()))
    (λ c, bool_decide (c = CmdError)) (λ details, log_debug (ex_msg details) ;; fail_with_arguments) ;;
  output ← process_system_output "lssrc -a" [IgnoreStatus; Shell; Sudo];
  when (py_in "inoperative" output) (test_cancel "Failed to start the rsct and rsct_rm services").

Definition install_package (pkg : string) : T () :=
  c ← vn_call "SoftwareManager.check_installed" [VStr pkg];
  when (negb (truthy c))
    (i ← vn_call "SoftwareManager.install" [VStr pkg];
     when (negb (truthy i)) (test_cancel (pkg +:+ " is needed for the test to be run"))).

(** An argument of [os.path.join]. *)
Definition as_path (v : pyval) : result string :=
  match v with VStr s => Ret s | _ => raise_ TypeError "expected str, bytes or os.PathLike object" end.

Definition install_deb (ubuntu_url deb : pyval) : T () :=
  base ← lift (as_path ubuntu_url); name ← lift (as_path deb);
  deb_install ← vn_call "fetch_asset" [VStr (path_join base name); VStr "7d"];
  _ ← vn_call "shutil.copy" [deb_install; VStr vn_workdir];
  _ ← process_system ("dpkg -i " +:+ vn_workdir +:+ "/" +:+ name) [IgnoreStatus; Sudo];
  mret ().

Definition install_packages : T () :=
  let ubuntu := String.eqb vn_distro "Ubuntu" in
  log_info ("Test is running on: " +:+ vn_distro) ;;
  for_each (vnic_packages ++ if ubuntu then ["python-paramiko"%string] else []) install_package ;;
  when ubuntu
    (ubuntu_url ← get_param "ubuntu_url" VNone;
     v ← get_param "debs" VNone; debs ← lift (py_iter v);
     for_each debs (install_deb ubuntu_url)).

(** A parameter that is split at the blanks. *)
Definition words_param (key : string) (default : pyval) : T (list string) :=
  v ← get_param key default; s ← lift (as_text v); mret (py_split_on " " s).

Definition check_slots (slots : list string) : T () :=
  for_each slots (λ slot,
    z ← lift (py_int (VStr slot));
    when ((z <? 3) || (2999 <? z)) (test_cancel "Slot invalid. Valid range: 3 - 2999")).

Definition int_param (key default : string) : T Z := v ← get_param key (VStr default); lift (py_int v).

Definition read_priority (n : nat) : T (list pyval) :=
  v ← get_param "priority" VNone;
  if truthy v then s ← lift (as_text v); mret (map VStr (py_split_on " " s)) else mret (repeat (VInt 50) n).

Definition read_auto_failover : T string :=
  v ← get_param "auto_failover" VNone;
  mret (if is_str v "0" then "0" else "1").

Definition read_skip : T bool :=
  v ← get_param "skip_vnic_add" (VBool false);
  mret (match v with VBool b => b | _ => String.eqb (py_lower (py_strip (py_str v))) "true" end).

(** The parameters, and the lists of the backing devices that they give. *)
Definition read_params : T (vn_params * list string * list pyval) :=
  vios_name ← words_param "vios_names" VNone;
  sriov_port ← words_param "sriov_ports" VNone;
  backing_adapter ← words_param "sriov_adapters" VNone;
  let n := length backing_adapter in
  when (negb (Nat.eqb (length sriov_port) n)) (test_cancel "Backing Device counts and port counts differ") ;;
  when (negb (Nat.eqb (length vios_name) n)) (test_cancel "Backing Device counts and vios name counts differ") ;;
  bandwidth ← get_param "bandwidth" VNone;
  vnic_priority ← read_priority n;
  when (negb (Nat.eqb (length vnic_priority) n)) (test_cancel "Backing Device counts and priority counts differ") ;;
  auto_failover ← read_auto_failover;
  vios_ip ← get_param "vios_ip" VNone;
  vios_user ← get_param "vios_username" VNone;
  vios_pwd ← get_param "vios_pwd" VNone;
  count ← int_param "count" "1";
  num_of_dlpar ← int_param "num_of_dlpar" "1";
  device_ip ← words_param "device_ip" VNone;
  mac_id ← words_param "mac_id" (VStr "02:03:03:03:03:01");
  netmask ← words_param "netmasks" VNone;
  peer_ip ← words_param "peer_ip" VNone;
  peer_user ← get_param "peer_user" VNone;
  peer_password ← get_param "peer_password" VNone;
  host_public_ip ← get_param "host_public_ip" VNone;
  host_user ← get_param "user_name" VNone;
  host_password ← get_param "host_password" VNone;
  is_mlx_driver ← get_param "is_mlx_driver" (VBool true);
  tx_channel ← get_param "tx_channel" (VInt 10);
  rx_channel ← get_param "rx_channel" (VInt 10);
  skip_vnic_add ← read_skip;
  mret (VnParams vios_name backing_adapter bandwidth auto_failover vios_ip vios_user vios_pwd count num_of_dlpar device_ip
          (map without_colons mac_id) netmask peer_ip peer_user peer_password host_public_ip host_user host_password is_mlx_driver
          tx_channel rx_channel skip_vnic_add, sriov_port, vnic_priority).

(** The number of a partition. *)
Definition lpar_id_of (server : pyval) (lpar : string) : T string :=
  cmd ← lift (py_cat [VStr "lssyscfg -m "; server; VStr " -r lpar --filter lpar_names="; VStr lpar; VStr " -F lpar_id"]);
  r ← hmc_cmd cmd; lift (nth_of (py_split (stdout_text r)) 0).

(** Every line with the adapter gives a number. *)
Definition adapter_ids (lines adapters : list string) : result (list string) :=
  results (map (field_at ":" 1) (concat (map (λ a, List.filter (py_in a) lines) adapters))).

Definition connect_hmc (hmc_ip : string) (user pwd : pyval) : T () :=
  modify (with_session_hmc hmc_ip) ;;
  _ ← vn_call "Session.cleanup_master" [VStr hmc_ip];
  connected ← ext (EvCall "Session.connect" [VStr hmc_ip]) (env_connect (VStr hmc_ip) user pwd);
  when (negb connected) (test_cancel "failed connecting to HMC").

Definition setUp : T () :=
  install_packages ;;
  v ← vn_wait_for (s ← get_mcp_component "HMCIPAddr"; mret (VStr s)) 30;
  when (negb (truthy v)) (test_cancel "HMC IP not got") ;;
  let hmc_ip := py_str v in
  modify (with_hmc_ip hmc_ip) ;;
  hmc_pwd ← get_param "hmc_pwd" VNone;
  hmc_username ← get_param "hmc_username" VNone;
  lpar ← get_partition_name "Partition Name";
  modify (with_lpar lpar) ;;
  when (py_empty lpar) (test_cancel "LPAR Name not got from lparstat command") ;;
  connect_hmc hmc_ip hmc_username hmc_pwd ;;
  _ ← hmc_cmd "lssyscfg -r sys  -F name";
  server ← get_param "manageSystem" VNone;
  modify (with_server server) ;;
  when (negb (truthy server)) (test_cancel "Managed System not got") ;;
  slots ← get_param "slot_num" VNone;
  let slot_num := py_split_on " " (py_str slots) in
  modify (with_slot_num slot_num) ;;
  check_slots slot_num ;;
  try_except
    (slot ← slot_0; logport ← get_active_device_logport slot; modify (with_original_logport logport)) any_exn
    (λ _, log_info "Logport available only after interface add") ;;
  '(p, sriov_port, vnic_priority) ← read_params;
  modify (with_params p) ;;
  _ ← vn_call "dmesg.clear_dmesg" [];
  _ ← hmc_cmd "uname -a";
  lpar_id ← lpar_id_of server lpar;
  modify (with_lpar_id lpar_id) ;;
  vios_id ← for_acc (np_vios_name p) [] (λ ids vios_name, i ← lpar_id_of server vios_name; mret (ids ++ [i]));
  r ← hmc_cmd (adapters_cmd (py_str server));
  backing_adapter_id ← lift (adapter_ids (py_splitlines (stdout_text r)) (np_backing_adapter p));
  modify (with_devs (VnDevices vios_id sriov_port backing_adapter_id vnic_priority)) ;;
  when (match backing_adapter_id with [] => true | _ => false end) (test_cancel "SRIOV adapter provided was not found.") ;;
  rsct_service_start ;;
  when (Nat.ltb 1 (length slot_num) && (py_in "backing" vn_test_name || py_in "failover" vn_test_name))
    (test_cancel "this test is not needed") ;;
  _ ← vn_call "LocalHost" [];
  secureboot ← vn_call "linux.is_os_secureboot_enabled" [];
  if truthy secureboot then log_info "Continue test with debug mode disabled"
  else
    result ← process_run (debug_cmd "+") [Shell; IgnoreStatus];
    when (negb (exit_status result =? 0)) (test_fail "failed to enable debug mode").

(** *** test_add *)

Definition vnic_of (slot : string) (info : vnic_info) (e : exn) : T vnic_info :=
  log_debug ("Error checking vNIC existence for slot " +:+ slot +:+ ": " +:+ ex_msg e) ;; mret info.

(** Whether the device of the partition is in the slot; an error leaves it at False. *)
Definition device_in_slot (slot mac device_name : string) : T bool :=
  if py_empty device_name then mret false
  else
    try_except
      (device_id ← find_device_id mac;
       device_slot ← find_virtual_slot device_id;
       mret (match device_slot with Some s => negb (py_empty s) && String.eqb s slot | None => false end)) any_exn
      (λ err, log_debug ("Unable to correlate Linux device with slot " +:+ slot +:+ ": " +:+ ex_msg err) ;; mret false).

(** An exception leaves the entries of the dictionary that are not set yet. *)
Definition check_vnic_exists (slot mac : string) : T vnic_info :=
  try_except
    (output ← list_device slot;
     let slot_match := py_in ("slot_num=" +:+ slot) output in
     let mac_match := py_in mac output in
     try_except
       (device_name ← find_device mac;
        device_slot_match ← device_in_slot slot mac device_name;
        let exists_ := slot_match || mac_match || device_slot_match in
        log_info ("vNIC state for slot " +:+ slot +:+ ": exists=" +:+ bool_str exists_ +:+ " slot_match=" +:+ bool_str slot_match +:+
                  " mac_match=" +:+ bool_str mac_match +:+ " device_name=" +:+ device_name +:+ " device_slot_match=" +:+
                  bool_str device_slot_match) ;;
        mret (VnicInfo exists_ slot_match mac_match device_name device_slot_match)) any_exn
       (vnic_of slot (VnicInfo false slot_match mac_match "" false))) any_exn
    (vnic_of slot (VnicInfo false false false "" false)).

Definition try_call (what device : string) (m : T pyval) : T () :=
  try_except (_ ← m; mret ()) any_exn
    (λ err, log_debug (what +:+ " failed for " +:+ device +:+ ": " +:+ ex_msg err)).

Definition configure_interface (ni device_ip netmask : string) : T () :=
  try_call "add_ipaddr" ni (ni_call ni "add_ipaddr" [VStr device_ip; VStr netmask]) ;;
  try_call "save" ni (ni_call ni "save" [VStr device_ip; VStr netmask]) ;;
  _ ← ni_call ni "bring_up" [];
  up ← wait_link ni 120;
  when (negb (truthy up)) (test_fail "Unable to bring up the link on the Network                        virtualized device").

Definition ensure_vnic_connectivity (slot mac device_ip netmask : string) : T () :=
  output ← list_device slot;
  when (negb (py_in ("slot_num=" +:+ slot) output))
    (log_debug output ;; test_fail "lshwres fails to list Network virtualized device                        after add operation") ;;
  when (negb (py_in mac output)) (log_debug output ;; test_fail "MAC address in HMC differs") ;;
  device ← find_device mac;
  when (py_empty device) (test_fail "MAC address differs in linux") ;;
  ni ← network_interface device;
  configure_interface ni device_ip netmask ;;
  peer ← peer_0;
  fails ← ping_fails ni peer;
  when fails
    (log_info ("Ping failed on existing configuration for device " +:+ device +:+ ". Reconfiguring interface.") ;;
     configure_interface ni device_ip netmask ;;
     still ← ping_fails ni peer;
     when still (test_fail "Ping failed with active vnic device")).

(** The device that is there is kept or made anew; otherwise one is added to a free slot. *)
Definition add_step (slot mac sriov_port adapter_id device_ip netmask : string) : T () :=
  slot_available ← check_slot_availability slot;
  info ← check_vnic_exists slot mac;
  skip_vnic_add ← param_of "skip_vnic_add" np_skip_vnic_add;
  (if vi_exists info then
     if (skip_vnic_add : bool) then
       log_info ("vNIC already exists for slot " +:+ slot +:+ " and skip_vnic_add=True. Skipping add operation.") ;;
       when (py_empty (vi_device_name info))
         (test_fail ("vNIC exists for slot " +:+ slot +:+ " but no Linux device was found for MAC " +:+ mac))
     else
       log_info ("vNIC already exists for slot " +:+ slot +:+
                 " and skip_vnic_add=False. Recreating the vNIC with the same slot.") ;;
       device_add_remove slot "" "" "" "remove" ;;
       sleep (VInt 5) ;;
       device_add_remove slot mac sriov_port adapter_id "add"
   else
     when (negb slot_available)
       (test_fail ("Slot " +:+ slot +:+ " is already in use but no matching vNIC was detected for MAC " +:+ mac)) ;;
     log_info ("Adding vNIC for slot " +:+ slot +:+ " with MAC " +:+ mac) ;;
     device_add_remove slot mac sriov_port adapter_id "add") ;;
  ensure_vnic_connectivity slot mac device_ip netmask.

Definition ethtool_cmd (device rx tx : string) : string := "ethtool -L " +:+ device +:+ " rx " +:+ rx +:+ " tx " +:+ tx.

Definition tune_rxtx_queue : T () :=
  peer ← peer_0; user ← param_of "peer_user" np_peer_user; password ← param_of "peer_password" np_peer_password;
  _ ← vn_call "RemoteHost" [VStr peer; user; password];
  peer_interface ← vn_call "RemoteHost.get_interface_by_ipaddr" [VStr peer; VStr peer];
  rx ← param_of "rx_channel" np_rx_channel; tx ← param_of "tx_channel" np_tx_channel;
  output ← peer_cmd (ethtool_cmd (py_str peer_interface) (py_str rx) (py_str tx));
  when (negb (vn_given output)) (test_cancel "Unable to tune RX and TX queue in peer") ;;
  mac ← mac_0; device ← find_device mac;
  result ← process_run (ethtool_cmd device (py_str rx) (py_str tx)) [];
  when (negb (exit_status result =? 0)) (test_cancel "Unable to tune RX and TX queue in host").

(** The parentheses of the regular expression are a group. *)
Definition says_active (where_ output : string) : T () :=
  for_each (py_splitlines output)
    (λ line, when (py_in "Active: active running" line) (log_info ("irqbalance service is active in " +:+ where_))).

Definition enable_irqbalance : T () :=
  _ ← peer_cmd "systemctl start irqbalance";
  r ← peer_cmd "systemctl status irqbalance";
  says_active "peer" (stdout_text r) ;;
  _ ← process_system "systemctl start irqbalance" [];
  output ← process_system_output "systemctl status irqbalance" [];
  says_active "host" output.

Definition connect_peer : T () :=
  peer ← peer_0; user ← param_of "peer_user" np_peer_user; password ← param_of "peer_password" np_peer_password;
  modify (with_session_peer peer) ;;
  ok ← vn_wait_for (b ← ext (EvCall "Session.connect" [VStr peer]) (env_connect (VStr peer) user password); mret (VBool b)) 30;
  when (negb (truthy ok)) (test_fail "Failed connecting to peer lpar").

Definition test_add : T () :=
  slots ← attr "slot_num" vn_slot_num; macs ← param_of "mac_id" np_mac_id;
  ports ← devs_of "sriov_port" nd_sriov_port; ids ← devs_of "backing_adapter_id" nd_backing_adapter_id;
  ips ← param_of "device_ip" np_device_ip; masks ← param_of "netmask" np_netmask;
  for_each (combine slots (combine macs (combine ports (combine ids (combine ips masks)))))
    (λ '(slot, (mac, (port, (i, (ip, mask))))), add_step slot mac port i ip mask) ;;
  connect_peer ;;
  enable_irqbalance ;;
  tune_rxtx_queue ;;
  check_dmesg_error.

(** *** The other tests *)

Definition slot_in_use (slot : string) : T () :=
  free ← check_slot_availability slot; when free (test_fail "Slot does not exist").

(** A peer that does not answer a ping through the device fails the test. *)
Definition ping_peer (ni peer msg : string) : T () := fails ← ping_fails ni peer; when fails (test_fail msg).

Definition count_backing : T Z := l ← param_of "backing_adapter" np_backing_adapter; mret (Z.of_nat (length l)).

(** The difference of the counts and the number of devices. *)
Definition judge_counts (a b : pyval) (operation : string) : T () :=
  d ← lift (py_sub a b); count ← lift (py_add d (VInt 1));
  n ← count_backing;
  when (negb (py_eq count (VInt n)))
    (log_fmt Debug (s ← fmt_d count; Ret ("Actual backing dev count: " +:+ s)) ;;
     log_debug ("Expected backing dev count: " +:+ py_str_Z n) ;;
     test_fail ("Failed to " +:+ operation +:+ " backing device")).

Definition test_backingdevadd : T () :=
  slots ← attr "slot_num" vn_slot_num; for_each slots slot_in_use ;;
  pre_add ← backing_dev_count;
  n ← count_backing;
  for_each (Zrange 1 n) (λ count, backing_dev_add_remove "add" (Z.to_nat count)) ;;
  post_add ← backing_dev_count;
  judge_counts post_add pre_add "add" ;;
  mac ← mac_0; device ← find_device mac;
  ni ← network_interface device;
  peer ← peer_0;
  ping_peer ni peer "Backing device add has affected network connectivity" ;;
  check_dmesg_error.

Definition disable_enable_dev (option : string) : T () :=
  server ← server_text; lpar ← attr "lpar" vn_lpar; slot ← slot_0;
  output ← hmc_cmd (disable_cmd server option lpar slot);
  when (negb (exit_status output =? 0))
    (if String.eqb option "d" then test_fail ("Could not disable interface: " +:+ stdout_text output)
     else if String.eqb option "e" then test_fail ("Could not enable interface: " +:+ stdout_text output)
     else test_fail "Invalid option sent to disable/enable interface.").

Definition is_disabled_enabled_dev (expect : string) : T () :=
  let operation := if String.eqb expect "0" then "enable"%string else "disable"%string in
  server ← server_text; lpar ← attr "lpar" vn_lpar;
  r ← hmc_cmd (disabled_cmd server lpar);
  for_each (py_splitlines (stdout_text r)) (λ entry,
    slot ← slot_0;
    when (prefixed slot entry)
      (if ends_with expect entry then log_info ("vNIC interface successfully " +:+ operation)
       else test_fail ("Could not " +:+ operation +:+ " vNIC interface"))).

Definition disable_round (ni : string) : T () :=
  disable_enable_dev "d" ;;
  is_disabled_enabled_dev "1" ;;
  disable_enable_dev "e" ;;
  is_disabled_enabled_dev "0" ;;
  mac ← mac_0; device ← find_device mac;
  when (py_empty device) (test_fail "Interface is not available") ;;
  _ ← wait_link ni 60;
  peer ← peer_0;
  ping_peer ni peer "Enabling and disabling of the interface has affected network connectivity".

Definition test_disable_enable_dev : T () :=
  mac ← mac_0; device ← find_device mac;
  ni ← network_interface device;
  count ← param_of "count" np_count;
  for_each (Zrange 0 count) (λ _, disable_round ni) ;;
  check_dmesg_error.

Definition failover_round : T () :=
  slot ← slot_0;
  before ← get_active_device_logport slot;
  spare ← get_backing_device_logport slot;
  trigger_failover spare ;;
  sleep (VInt 60) ;;
  after ← get_active_device_logport slot;
  log_debug ("Active backing device: " +:+ after) ;;
  when (String.eqb before after) (test_fail "No failover happened") ;;
  mac ← mac_0; device ← find_device mac;
  ni ← network_interface device;
  peer ← peer_0;
  ping_peer ni peer "Failover has affected Network connectivity".

Definition test_hmcfailover : T () :=
  slot ← slot_0;
  original ← get_active_device_logport slot;
  count ← param_of "count" np_count;
  for_each (Zrange 0 count) (λ _, failover_round) ;;
  active ← get_active_device_logport slot;
  when (negb (String.eqb original active)) (trigger_failover original) ;;
  active ← get_active_device_logport slot;
  when (negb (String.eqb original active)) (log_warning ("Fail: Activating Initial backing dev " +:+ original)) ;;
  check_dmesg_error.

Definition client_attempt (device_id : string) (val : Z) : T () :=
  log_info ("Performing Client initiated                                  failover - Attempt " +:+ py_str_Z (val + 1)) ;;
  _ ← vn_call "genio.write_file_or_fail" [VStr ("/sys/devices/vio/" +:+ device_id +:+ "/failover"); VStr "1"];
  sleep (VInt 60) ;;
  log_info "Running a ping test to check if failover                                     affected Network connectivity" ;;
  mac ← mac_0; device ← find_device mac;
  ni ← network_interface device;
  peer ← peer_0;
  r ← ni_call ni "ping_check" [VStr peer; VInt 5; VStr "-w50"];
  when (negb (is_None r))
    (test_fail "Ping test failed. Network virtualized                                    failover has affected Network connectivity").

Definition test_clientfailover : T () :=
  mac ← mac_0; device_id ← find_device_id mac;
  try_except
    (count ← param_of "count" np_count;
     for_each (Zrange 0 count) (λ _,
       v ← backing_dev_count; n ← lift (py_int v);
       for_each (Zrange 0 n) (client_attempt device_id)))
    (λ c, bool_decide (c = CmdError))
    (λ details, log_debug (ex_msg details) ;;
                test_fail "Client initiated Failover for Network virtualized                       device has failed") ;;
  check_dmesg_error.

Definition set_back (logport : string) (priority : pyval) : T () :=
  ok ← change_failover_priority logport priority;
  when (negb ok) (test_fail "Auto failover tested successfully but fail to set back                             original priority").

Definition auto_failover_round : T () :=
  slot ← slot_0;
  update_backing_devices slot ;;
  backing_logport ← get_backing_device_logport slot;
  active_logport ← get_active_device_logport slot;
  backing_dev_priority ← get_backing_device_priority slot;
  enabled ← enable_auto_failover;
  if (enabled : bool) then
    ok ← change_failover_priority backing_logport (VStr "1");
    when (negb ok) fail_with_arguments ;;
    ok ← change_failover_priority active_logport (VStr "100");
    when (negb ok) fail_with_arguments ;;
    sleep (VInt 60) ;;
    active ← get_active_device_logport slot;
    when (negb (String.eqb backing_logport active)) (test_fail "Auto failover of backing device failed") ;;
    mac ← mac_0; device ← find_device mac;
    ni ← network_interface device;
    peer ← peer_0;
    ping_peer ni peer "Auto failover has effected connectivity" ;;
    priority ← first_of (devs_of "vnic_priority" nd_vnic_priority);
    set_back active_logport priority ;;
    set_back backing_logport (VStr backing_dev_priority)
  else test_fail "Could not enable auto failover".

Definition test_vnic_auto_failover : T () :=
  n ← count_backing;
  (if 2 <=? n then count ← param_of "count" np_count; for_each (Zrange 0 count) (λ _, auto_failover_round)
   else test_cancel "Provide more backing device, only 1 given") ;;
  check_dmesg_error.

Definition validate_vios_command (cmd validate_string : string) : T () :=
  output ← vios_cmd ("echo " +:+ DQ +:+ cmd +:+ DQ +:+ " | ioscli oem_setup_env");
  when (negb (py_in validate_string (stdout_text output))) (test_fail "command fail in vios").

(** A session with the VIOS, named as the parameter prints. *)
Definition connect_vios : T () :=
  vios_ip ← param_of "vios_ip" np_vios_ip; user ← param_of "vios_user" np_vios_user; pwd ← param_of "vios_pwd" np_vios_pwd;
  modify (with_session (py_str vios_ip)) ;;
  _ ← vn_call "Session.cleanup_master" [vios_ip];
  ok ← vn_wait_for (b ← ext (EvCall "Session.connect" [vios_ip]) (env_connect vios_ip user pwd); mret (VBool b)) 30;
  when (negb (truthy ok)) (test_fail "Failed connecting to VIOS").

(** The lines of the servers on the VIOS, and the place of the line of the device. *)
Definition vnic_servers_of : T (list string * string * Z) :=
  lpar_id ← attr "lpar_id" vn_lpar_id;
  r ← vios_cmd ("ioscli lsmap -all -vnic -cpid " +:+ lpar_id);
  let vnic_servers := py_splitlines (stdout_text r) in
  mac ← mac_0; device ← find_device mac;
  temp_idx ← lift (index_of ("Client device name:" +:+ device) vnic_servers);
  mret (vnic_servers, device, temp_idx).

Definition last_backing_device (output : string) : option string :=
  foldl (λ d line, if py_in "Backing device" line then Some (last_field ":" line) else d) None (py_splitlines output).

(** The commands on the backing device, when a line has named one. *)
Definition validate_backing (operation : string) (device : option string) (validate_string : string) : T () :=
  match device with
  | Some d => when (negb (py_empty d)) (validate_vios_command (operation +:+ " -l " +:+ d) validate_string)
  | None => mret ()
  end.

Definition powered_off : T () :=
  output ← backing_dev_list;
  for_each (py_splitlines output) (λ backing_dev,
    slot ← slot_0;
    when (prefixed (slot +:+ ",") backing_dev && negb (py_in "Powered Off" (py_strip_of (slot +:+ "," +:+ DQ) backing_dev)))
      (test_fail "Failover did not occur")).

Definition test_rmdev_viosfailover : T () :=
  connect_vios ;;
  '(vnic_servers, device, temp_idx) ← vnic_servers_of;
  line ← lift (at_index vnic_servers (temp_idx - 5));
  vnic_server ← lift (nth_of (py_split line) 0);
  output ← vios_cmd ("ioscli lsmap -vnic -vadapter " +:+ vnic_server);
  let vnic_backing_device := last_backing_device (stdout_text output) in
  slot ← slot_0; before ← get_active_device_logport slot;
  log_debug ("Active backing device before : " +:+ before) ;;
  validate_vios_command ("rmdev -l " +:+ vnic_server) "Defined" ;;
  validate_backing "rmdev" vnic_backing_device "Defined" ;;
  sleep (VInt 10) ;;
  powered_off ;;
  sleep (VInt 60) ;;
  validate_backing "mkdev" vnic_backing_device "Available" ;;
  validate_vios_command ("mkdev -l " +:+ vnic_server) "Available" ;;
  ni ← network_interface device;
  peer ← peer_0;
  ping_peer ni peer "Ping test failed. Network virtualized                       vios failover has affected Network connectivity" ;;
  check_dmesg_error.

(** The address is added, or else saved. *)
Definition add_or_save (ni device_ip netmask : string) : T () :=
  try_except (_ ← ni_call ni "add_ipaddr" [VStr device_ip; VStr netmask]; mret ()) any_exn
    (λ _, _ ← ni_call ni "save" [VStr device_ip; VStr netmask]; mret ()).

Definition dlpar_step (slot_no device_ip netmask mac peer_ip : string) : T () :=
  update_backing_devices slot_no ;;
  dev_id ← find_device_id mac;
  device_name ← find_device mac;
  slot ← find_virtual_slot dev_id;
  match slot with
  | Some slot =>
      if py_empty slot then test_fail "slot not found"
      else
        try_except
          (num_of_dlpar ← param_of "num_of_dlpar" np_num_of_dlpar;
           for_each (Zrange 0 num_of_dlpar) (λ _,
             drmgr_vnic_dlpar "-r" slot ;;
             drmgr_vnic_dlpar "-a" slot ;;
             _ ← wait_intrerface device_name; mret ()))
          (λ c, bool_decide (c = CmdError))
          (λ details, log_debug (ex_msg details) ;; test_fail "dlpar operation did not complete") ;;
        device ← find_device mac;
        ni ← network_interface device;
        add_or_save ni device_ip netmask ;;
        up ← wait_link ni 120;
        when (negb (truthy up))
          (test_fail "Unable to bring up the link on the Network                               virtualized device") ;;
        ping_peer ni peer_ip "dlpar has affected Network connectivity"
  | None => test_fail "slot not found"
  end.

Definition test_vnic_dlpar : T () :=
  slots ← attr "slot_num" vn_slot_num;
  ips ← param_of "device_ip" np_device_ip; masks ← param_of "netmask" np_netmask;
  macs ← param_of "mac_id" np_mac_id; peers ← param_of "peer_ip" np_peer_ip;
  for_each (combine slots (combine ips (combine masks (combine macs peers))))
    (λ '(slot_no, (ip, (mask, (mac, peer)))), dlpar_step slot_no ip mask mac peer) ;;
  check_dmesg_error.

Definition hmc_dlpar_round (slot_no ni device_ip netmask mac peer_ip sriov_port adapter_id : string) (count : Z) : T () :=
  log_info ("DLPAR iteration #" +:+ py_str_Z count) ;;
  num_backingdevs ← backing_dev_count_w_slot_num slot_no;
  device_add_remove slot_no "" "" "" "remove" ;;
  available ← ni_call ni "is_available" [];
  when (truthy available) (test_fail "DLPAR remove did not remove interface") ;;
  device_add_remove slot_no mac sriov_port adapter_id "add" ;;
  for_each (Zrange 1 num_backingdevs) (λ c,
    backing_dev_add_remove "add" (Z.to_nat c) ;; _ ← wait_interface ni; mret ()) ;;
  add_or_save ni device_ip netmask ;;
  _ ← ni_call ni "bring_up" [];
  up ← wait_link ni 120;
  when (negb (truthy up)) (test_fail "Unable to bring up the link on the Network virtualized device") ;;
  sleep (VInt 5) ;;
  ping_peer ni peer_ip "dlpar has affected Network connectivity".

Definition hmc_dlpar_step (slot_no device_ip netmask mac peer_ip sriov_port adapter_id : string) : T () :=
  update_backing_devices slot_no ;;
  device_name ← find_device mac;
  ni ← network_interface device_name;
  log_info ("Performing DLPAR on " +:+ device_name) ;;
  num_of_dlpar ← param_of "num_of_dlpar" np_num_of_dlpar;
  for_each (Zrange 0 num_of_dlpar) (hmc_dlpar_round slot_no ni device_ip netmask mac peer_ip sriov_port adapter_id).

(** The lists that [zip] still reads at the next step are those that the body reorders. *)
Definition test_vnic_hmc_dlpar : T () :=
  slots ← attr "slot_num" vn_slot_num;
  ips ← param_of "device_ip" np_device_ip; masks ← param_of "netmask" np_netmask;
  macs ← param_of "mac_id" np_mac_id; peers ← param_of "peer_ip" np_peer_ip;
  let rows := combine slots (combine ips (combine masks (combine macs peers))) in
  for_each (zip_with pair (seq 0 (length rows)) rows) (λ '(i, (slot_no, (ip, (mask, (mac, peer))))),
    ports ← devs_of "sriov_port" nd_sriov_port; ids ← devs_of "backing_adapter_id" nd_backing_adapter_id;
    match ports !! i, ids !! i with
    | Some port, Some adapter_id => hmc_dlpar_step slot_no ip mask mac peer port adapter_id
    | _, _ => mret ()
    end) ;;
  check_dmesg_error.

(** *** test_vnic_eeh *)

Definition sendline (v : pyval) : T () := _ ← vn_call "pxssh.sendline" [v]; mret ().
Definition send (line : string) (seconds : Z) : T () := sendline (VStr line) ;; sleep (VInt seconds).

(** The value after the name in the last line with it of what the prompt printed. *)
Definition value_after (name text : string) : result (option string) :=
  foldl (λ acc line, v ← acc; if py_in name line then s ← field_at "=" 1 line; Ret (Some s) else Ret v) (Ret None)
    (split_str (str_of [CR; LF; " "%char]) text).

Definition prompt_value (name : string) : T string :=
  _ ← vn_call "pxssh.prompt" [];
  v ← vn_call "pxssh.before" []; text ← lift (as_text v);
  value ← lift (value_after name text);
  sendline (VStr "quit") ;;
  match value with Some s => mret s | None => lift (unbound (name +:+ "_value")) end.

Definition inject_eeh (vnic_backingdevice : string) : T () :=
  is_mlx_driver ← param_of "is_mlx_driver" np_is_mlx_driver;
  value ← (if truthy is_mlx_driver then
             send ("mlxcent setacs " +:+ vnic_backingdevice) 2 ;;
             sendline (VStr "mlxcent pollq 0") ;; prompt_value "map_start"
           else
             send ("lnc2ent setacs " +:+ vnic_backingdevice) 2 ;;
             sendline (VStr "lnc2ent hw pollq 0") ;; prompt_value "tce_start");
  send (eeh_cmd vnic_backingdevice value) 5.

Definition open_kdb : T () :=
  vios_ip ← param_of "vios_ip" np_vios_ip; user ← param_of "vios_user" np_vios_user; pwd ← param_of "vios_pwd" np_vios_pwd;
  _ ← vn_call "pxssh.pxssh" [];
  try_except (_ ← vn_call "pxssh.login" [vios_ip; user; pwd]; mret ()) any_exn
    (λ _, throw AttributeError "object has no attribute 'warn'") ;;
  sleep (VInt 2) ;;
  send "oem_setup_env" 5 ;;
  tool ← get_param "eeh_tool" (VStr "eeh_tool_64");
  eeh_tool_64 ← vn_call "get_data" [tool];
  host_user ← param_of "host_user" np_host_user; ip ← param_of "host_public_ip" np_host_public_ip;
  send ("scp " +:+ py_str host_user +:+ "@" +:+ py_str ip +:+ ":" +:+ py_str eeh_tool_64 +:+ " .") 3 ;;
  password ← param_of "host_password" np_host_password;
  sendline password ;; sleep (VInt 5) ;;
  send "kdb" 5 ;;
  send "set scroll false" 5.

Definition test_vnic_eeh : T () :=
  n ← backing_dev_count;
  when (py_eq n (VInt 1)) (test_cancel "EEH cannot be tested as the interface has single backing device") ;;
  slot ← slot_0; current_logport ← get_active_device_logport slot;
  original ← attr "original_logport" vn_original_logport;
  (if negb (String.eqb original current_logport) then trigger_failover original
   else log_info "Unable to set the logport to original one") ;;
  sleep (VInt 5) ;;
  connect_vios ;;
  '(vnic_servers, device, temp_idx) ← vnic_servers_of;
  line ← lift (at_index vnic_servers (temp_idx - 3));
  vnic_backingdevice ← lift (field_at ":" 1 line);
  open_kdb ;;
  inject_eeh vnic_backingdevice ;;
  active_logport ← get_active_device_logport slot;
  when (String.eqb current_logport active_logport)
    (test_fail "EEH unsuccessful as there is no failover triggered on the OS") ;;
  mac ← mac_0; device ← find_device mac;
  ni ← network_interface device;
  peer ← peer_0;
  ping_peer ni peer "Ping to peer failed. EEH has affected Network connectivity".

(** *** Removing *)

Definition backingdevremove_step (slot : string) : T () :=
  slot_in_use slot ;;
  update_backing_devices slot ;;
  pre_remove ← backing_dev_count;
  n ← count_backing;
  for_each (Zrange 1 n) (λ count, backing_dev_add_remove "remove" (Z.to_nat count)) ;;
  post_remove ← backing_dev_count;
  judge_counts pre_remove post_remove "remove".

Definition test_backingdevremove : T () :=
  slots ← attr "slot_num" vn_slot_num; for_each slots backingdevremove_step ;; check_dmesg_error.

Definition remove_step (slot : string) : T () :=
  slot_in_use slot ;;
  update_backing_devices slot ;;
  device_add_remove slot "" "" "" "remove" ;;
  output ← list_device slot;
  when (py_in ("slot_num=" +:+ slot) output)
    (log_debug output ;;
     test_fail "lshwres still lists the Network virtualized device                            after remove operation").

Definition test_remove : T () :=
  slots ← attr "slot_num" vn_slot_num; for_each slots remove_step ;; check_dmesg_error.

Definition tearDown : T () :=
  when (py_in "vios" vn_test_name) (_ ← attr "session" vn_session; _ ← vn_call "Session.quit" []; mret ()) ;;
  try_except (slot ← slot_0; change_active_device slot) any_exn
    (λ _, log_debug "Unable to set back the original active device") ;;
  _ ← attr "session_hmc" vn_session_hmc; _ ← vn_call "Session.quit" [];
  secureboot ← vn_call "linux.is_os_secureboot_enabled" [];
  when (negb (truthy secureboot))
    (result ← process_run (debug_cmd "-") [Shell; IgnoreStatus];
     when (negb (exit_status result =? 0)) (log_debug "failed to disable debug mode")) ;;
  when (py_in "test_add" vn_test_name) (_ ← attr "session_peer" vn_session_peer; _ ← vn_call "Session.quit" []; mret ()).
End NetworkVirtualization.
