(* ===== verification/NetSystem.v ===== *)
(** * The listings of the console, and the failover of virtual network adapters

    What the tests read of a listing printed from a table of the backing devices: the fields of an
    entry, the entries of a slot, the logical port of the first entry that is accepted.

    The classes [VnConsole] (the console, which lists the backing devices and activates one),
    [VnActivates] (a console whose activation works) and [VnPartition] (the interfaces of the
    partition).  The theorems: which device is read as the active one, what the failover test
    leaves, what tearDown does not do, and the wait for an interface. *)

From S2P Require Import Prelude PyStr PyFloat PyVal Avocado Logic NetVirt.
Open Scope Z_scope.

Lemma starts_with_sep c p l r :
  Forall (λ d, Ascii.eqb c d = false) p → Forall (λ d, Ascii.eqb c d = false) l →
  starts_with (p ++ [c]) (l ++ c :: r) = bool_decide (p = l).
Proof.
  intros Hp. revert l. induction Hp as [|a p Ha Hp IH]; intros l Hl; destruct Hl as [|b l Hb Hl]; simpl.
  - by rewrite Ascii.eqb_refl.
  - by rewrite Hb.
  - by rewrite Ascii.eqb_sym, Ha.
  - rewrite IH by done. destruct (Ascii.eqb_spec a b) as [->|Hne]; simpl.
    + apply bool_decide_ext. naive_solver.
    + symmetry. apply bool_decide_eq_false. congruence.
Qed.

(** ** The listing *)

Record bdev := BDev { bd_logport : string; bd_active : bool; bd_state : string }.

Definition state_fields (d : bdev) : list string := ["sriov"; bd_logport d; if bd_active d then "1" else "0"; bd_state d]%string.
Definition state_entry (d : bdev) : string := py_join "/" (state_fields d).
Definition state_line (v : string * list bdev) : string :=
  v.1 +:+ "," +:+ DQ +:+ py_join "," (map state_entry v.2) +:+ DQ.
Definition states_listing (table : list (string * list bdev)) : string :=
  str_of (concat (map (λ v, chars_of (state_line v) ++ [LF]) table)).

(** A character of a field: no separator, quote or end of line. *)
Definition field_char (c : ascii) : bool :=
  inline c && negb (Ascii.eqb "," c) && negb (Ascii.eqb "/" c) && negb (Ascii.eqb (ascii_of_nat 34) c).
Definition plain (s : string) : Prop := Forall (λ c, field_char c = true) (chars_of s).

Definition plain_dev (d : bdev) : Prop :=
  plain (bd_logport d) ∧ plain (bd_state d) ∧ ∃ c, last_opt (chars_of (bd_state d)) = Some c ∧ is_digit c = false.
(** The number of a slot, and its devices: one at least. *)
Definition plain_vnic (v : string * list bdev) : Prop :=
  all_digits (chars_of v.1) ∧ v.2 ≠ [] ∧ Forall plain_dev v.2.

Lemma plain_without c s : field_char c = false → plain s → without c s.
Proof.
  intros Hc Hs. eapply list.Forall_impl; [exact Hs|]. intros d Hd. destruct (Ascii.eqb_spec c d) as [->|]; [congruence|done].
Qed.

Lemma plain_inline s : plain s → one_line (chars_of s).
Proof. intros H. eapply list.Forall_impl; [exact H|]. unfold field_char. intros c Hc. by bool_to_Z. Qed.

Lemma digit_field c : is_digit c = true → field_char c = true.
Proof.
  intros H. assert (inline c = true) as Hi by (by apply no_space_inline, digit_not_space).
  unfold field_char. rewrite Hi. cbn [andb].
  repeat match goal with |- context [Ascii.eqb ?a c] => destruct (Ascii.eqb_spec a c) as [<-|_]; [done|] end. done.
Qed.

Lemma digits_plain s : all_digits (chars_of s) → plain s.
Proof. intros H. eapply list.Forall_impl; [exact H|]. apply digit_field. Qed.

Lemma state_fields_plain d : plain_dev d → Forall plain (state_fields d).
Proof.
  intros (Hl & Hs & _). unfold state_fields. constructor; [by repeat constructor|]. constructor; [done|].
  constructor; [destruct (bd_active d); by repeat constructor|]. constructor; [done|constructor].
Qed.

Lemma split_state d : plain_dev d → py_split_on "/" (state_entry d) = state_fields d.
Proof.
  intros H. apply split_join; [|done]. eapply list.Forall_impl; [by apply state_fields_plain|]. intros s. by apply plain_without.
Qed.

Lemma state_entry_without c d : field_char c = false → Ascii.eqb c "/" = false → plain_dev d → without c (state_entry d).
Proof.
  intros Hc Hs Hd%state_fields_plain. apply join_without; [by repeat constructor|].
  eapply list.Forall_impl; [exact Hd|]. intros s. by apply plain_without.
Qed.

(** ** The entries of a slot *)

(** The characters that [strip] takes away at the ends of a line. *)
Definition stripped (slot : string) (c : ascii) : bool := bool_decide (c ∈ chars_of (slot +:+ "," +:+ DQ)).

Lemma not_stripped slot c : all_digits (chars_of slot) → is_digit c = false → field_char c = true → stripped slot c = false.
Proof.
  intros Hs Hd Hf. apply bool_decide_eq_false. rewrite !chars_of_app, !elem_of_app. intros [H|[H|H]].
  - rewrite list.Forall_forall in Hs. apply Hs in H. congruence.
  - apply list_elem_of_singleton in H as ->. done.
  - apply list_elem_of_singleton in H as ->. done.
Qed.

Lemma entries_trimmed slot ds : all_digits (chars_of slot) → ds ≠ [] → Forall plain_dev ds →
  trimmed (stripped slot) (chars_of (py_join "," (map state_entry ds))) ∧ chars_of (py_join "," (map state_entry ds)) ≠ [].
Proof.
  intros Hs Hne Hd. assert (∃ r, chars_of (py_join "," (map state_entry ds)) = "s"%char :: r) as [r Er].
  { destruct ds as [|d ds]; [done|]. destruct (join_first "," (state_entry d) (map state_entry ds)) as [r Hr]. eexists.
    cbn [map]. rewrite Hr, chars_of_app. reflexivity. }
  rewrite Er. split; [|done]. split; [by apply not_stripped|]. rewrite <- Er. clear r Er.
  destruct ds as [|d ds _] using rev_ind; [done|]. apply Forall_app in Hd as [_ Hd]. inversion Hd as [|? ? (Hl & Hst & c & Hc & Hcd) _]; subst.
  assert (chars_of (bd_state d) ≠ []) as Hn by (intros E; by rewrite E in Hc).
  assert (last_opt (chars_of (state_entry d)) = Some c) as E.
  { rewrite <- Hc. by apply (join_last "/" ["sriov"; bd_logport d; if bd_active d then "1" else "0"]%string). }
  rewrite map_app. cbn [map]. rewrite join_last, E by (intros E2; by rewrite E2 in E). apply not_stripped; [done..|].
  apply last_opt_elem in Hc. unfold plain in Hst. rewrite list.Forall_forall in Hst. by apply Hst.
Qed.

Lemma slot_entries_listed slot ds : plain_vnic (slot, ds) → slot_entries slot (state_line (slot, ds)) = map state_entry ds.
Proof.
  intros (Hs & Hne & Hd). cbn [fst snd] in *. destruct (entries_trimmed slot ds) as [Ht Hn]; [done..|].
  unfold slot_entries, py_strip_of. change (λ c, bool_decide (c ∈ _)) with (stripped slot). unfold state_line. cbn [fst snd].
  rewrite !chars_of_app. rewrite !app_assoc, <- (app_assoc _ _ (chars_of DQ)), strip_padded; [|..|done|done].
  - rewrite str_of_chars_of. apply split_join; [|by destruct ds]. apply List.Forall_map. eapply list.Forall_impl; [exact Hd|].
    intros d. by apply state_entry_without.
  - rewrite <- app_assoc, <- !chars_of_app. unfold stripped. apply list.Forall_forall. intros c Hc. by apply bool_decide_eq_true.
  - repeat constructor. apply bool_decide_eq_true. rewrite !chars_of_app, !elem_of_app. right. right. by left.
Qed.

Lemma line_of_slot slot v : all_digits (chars_of slot) → plain_vnic v →
  prefixed (slot +:+ ",") (state_line v) = bool_decide (slot = v.1).
Proof.
  intros Hs (Hv & _). unfold prefixed, state_line. rewrite !chars_of_app. change (chars_of ",") with [","%char]. cbn [app].
  rewrite starts_with_sep; [|by apply (plain_without "," slot), digits_plain|by apply (plain_without "," v.1), digits_plain].
  apply bool_decide_ext. split; [apply chars_of_inj|by intros ->].
Qed.

(** ** The accepted logical port *)

Definition is_spare_dev (d : bdev) : bool := negb (bd_active d) && py_in "Operational" (bd_state d).

Lemma first_active ds : Forall plain_dev ds → first_logport is_active (map state_entry ds) = Ret (bd_logport <$> List.find bd_active ds).
Proof.
  induction 1 as [|d ds Hd _ IH]; [done|]. cbn [map first_logport List.find]. rewrite split_state by done.
  unfold state_fields. destruct (bd_active d); [done|exact IH].
Qed.

Lemma first_spare ds : Forall plain_dev ds → first_logport is_spare (map state_entry ds) = Ret (bd_logport <$> List.find is_spare_dev ds).
Proof.
  induction 1 as [|d ds Hd _ IH]; [done|]. cbn [map first_logport List.find]. rewrite split_state by done.
  unfold state_fields, is_spare_dev, is_spare. destruct (bd_active d); [exact IH|]. cbn.
  destruct (py_in "Operational" (bd_state d)); [done|exact IH].
Qed.

(** The logical port of a chosen device of the slot, and the error of a name that is not bound. *)
Definition logport_in (choose : bdev → bool) (slot : string) (table : list (string * list bdev)) : result string :=
  match dict_find slot table ≫= List.find choose with Some d => Ret (bd_logport d) | None => unbound "logport" end.

Lemma lines_of_states table : Forall plain_vnic table → py_splitlines (states_listing table) = map state_line table.
Proof.
  intros H. unfold states_listing. rewrite <- (map_map (λ v, chars_of (state_line v)) (λ l, l ++ [LF])), splitlines_ended.
  - rewrite map_map. apply map_ext. intros v. apply str_of_chars_of.
  - apply List.Forall_map. eapply list.Forall_impl; [exact H|]. intros v (Hs & _ & Hd). unfold state_line.
    rewrite !chars_of_app. repeat (apply Forall_app; split); [by apply plain_inline, digits_plain|by repeat constructor..| |by repeat constructor].
    clear Hs. induction Hd as [|d ds Hd Hds IH]; [by constructor|]. cbn [map].
    assert (one_line (chars_of (state_entry d))) as He.
    { apply state_fields_plain in Hd. unfold state_entry. induction Hd as [|s l Hs Hd IH2]; [by constructor|].
      destruct l; [by apply plain_inline|]. cbn [py_join] in *. rewrite !chars_of_app.
      repeat (apply Forall_app; split); [by apply plain_inline|by repeat constructor|exact IH2]. }
    destruct (map state_entry ds) as [|t l]; [exact He|]. cbn [py_join] in *. rewrite !chars_of_app.
    repeat (apply Forall_app; split); [exact He|by repeat constructor|exact IH].
Qed.

Section accepted.
Context (accepts : list string → result bool) (choose : bdev → bool).
Context (first_chosen : ∀ ds, Forall plain_dev ds → first_logport accepts (map state_entry ds) = Ret (bd_logport <$> List.find choose ds)).

Lemma last_logport_missing slot found table :
  all_digits (chars_of slot) → Forall plain_vnic table → slot ∉ map fst table →
  last_logport accepts slot found (map state_line table) = last_logport accepts slot found [].
Proof using Type.
  intros Hs. induction 1 as [|v table Hv _ IH]; [done|]. cbn [map last_logport]. rewrite not_elem_of_cons. intros [Hn Hr].
  rewrite line_of_slot, bool_decide_false by done. by apply IH.
Qed.

Lemma last_logport_listed slot table :
  all_digits (chars_of slot) → Forall plain_vnic table → NoDup (map fst table) →
  last_logport accepts slot None (map state_line table) = logport_in choose slot table.
Proof using Type*.
  intros Hs. unfold logport_in. induction 1 as [|[s ds] table Hv Ht IH]; [done|]. cbn [map last_logport].
  rewrite list.NoDup_cons. intros [Hn Hd]. rewrite line_of_slot by done. cbn [fst dict_find].
  destruct (String.eqb_spec s slot) as [->|Hne].
  - rewrite bool_decide_true, slot_entries_listed, first_chosen by (done || apply Hv). cbn [mbind result_bind option_bind].
    rewrite last_logport_missing by done. by destruct (List.find choose ds).
  - rewrite bool_decide_false by done. by apply IH.
Qed.
End accepted.

(** ** Failover *)

(** ** The console *)

Class VnConsole (W : Type) {HE : Env W} := {
  vc_host : string;
  vc_server : string;
  vc_lpar : string;
  vc_lpar_id : string;
  (* the slots with their backing devices *)
  vc_table : W → list (string * list bdev);
  vc_plain w : Forall plain_vnic (vc_table w) ∧ NoDup (map fst (vc_table w));
  vc_states w : env_ssh vc_host (states_cmd vc_server vc_lpar) w = (Ret (CmdResult 0 (states_listing (vc_table w))), w);
  vc_exit : string → string → W → Z;
  vc_next : string → string → W → W;
  vc_activate slot logport w :
    env_ssh vc_host (activate_cmd vc_server slot vc_lpar_id logport) w =
      (Ret (CmdResult (vc_exit slot logport w) ""), vc_next slot logport w);
}.

(** Only the device of the logical port is active. *)
Definition set_active (logport : string) (ds : list bdev) : list bdev :=
  map (λ d, BDev (bd_logport d) (String.eqb (bd_logport d) logport) (bd_state d)) ds.
Definition activated (slot logport : string) (table : list (string * list bdev)) : list (string * list bdev) :=
  map (λ '(s, ds), (s, if String.eqb s slot then set_active logport ds else ds)) table.

(** The logical ports of a slot. *)
Definition ports_of (slot : string) (table : list (string * list bdev)) : list string :=
  match dict_find slot table with Some ds => map bd_logport ds | None => [] end.

(** Activating a device of the slot succeeds and makes it the active one. *)
Class VnActivates (W : Type) {HE : Env W} {HC : VnConsole W} := {
  va_exit slot logport w : logport ∈ ports_of slot (vc_table w) → vc_exit slot logport w = 0;
  va_table slot logport w : logport ∈ ports_of slot (vc_table w) →
    vc_table (vc_next slot logport w) = activated slot logport (vc_table w);
}.

Lemma set_active_twice a b ds : set_active b (set_active a ds) = set_active b ds.
Proof. unfold set_active. rewrite map_map. by apply map_ext. Qed.

Lemma activated_twice slot a b table : activated slot b (activated slot a table) = activated slot b table.
Proof.
  unfold activated. rewrite map_map. apply map_ext. intros [s ds]. destruct (String.eqb s slot) eqn:E; rewrite ?E; [|done].
  by rewrite set_active_twice.
Qed.

Lemma find_activated slot a table : dict_find slot (activated slot a table) = set_active a <$> dict_find slot table.
Proof.
  induction table as [|[s ds] table IH]; [done|]. cbn [activated map dict_find]. destruct (String.eqb s slot) eqn:E; [done|exact IH].
Qed.

Lemma ports_activated slot a table : ports_of slot (activated slot a table) = ports_of slot table.
Proof.
  unfold ports_of. rewrite find_activated. destruct (dict_find slot table) as [ds|]; [|done]. cbn. unfold set_active. by rewrite map_map.
Qed.

(** The active device, and the spare one if there is another port. *)
Lemma active_in slot a table : a ∈ ports_of slot table → logport_in bd_active slot (activated slot a table) = Ret a.
Proof.
  unfold logport_in, ports_of. rewrite find_activated. destruct (dict_find slot table) as [ds|]; [|intros H; by apply not_elem_of_nil in H].
  cbn. clear. induction ds as [|d ds IH]; cbn [map]; [intros H; by apply not_elem_of_nil in H|].
  rewrite elem_of_cons. cbn [set_active map List.find bd_active]. destruct (String.eqb_spec (bd_logport d) a) as [Ha|Ha].
  - intros _. cbn. by rewrite Ha.
  - intros [H|H]; [by subst|by apply IH].
Qed.

Definition operational (slot : string) (table : list (string * list bdev)) : Prop :=
  ∀ ds, dict_find slot table = Some ds → Forall (λ d, py_in "Operational" (bd_state d) = true) ds.

Lemma spare_in slot a b table : operational slot table → b ∈ ports_of slot table → b ≠ a →
  ∃ c, logport_in is_spare_dev slot (activated slot a table) = Ret c ∧ c ∈ ports_of slot table ∧ c ≠ a.
Proof.
  unfold logport_in, ports_of, operational. rewrite find_activated.
  destruct (dict_find slot table) as [ds|]; [|intros _ H; by apply not_elem_of_nil in H]. intros H. specialize (H _ eq_refl). cbn.
  intros Hb Hne. induction H as [|d ds Hd H IH]; cbn [map] in *; [by apply not_elem_of_nil in Hb|].
  cbn [set_active map List.find]. unfold is_spare_dev at 1. cbn [bd_active bd_state]. rewrite Hd, andb_true_r.
  destruct (String.eqb_spec (bd_logport d) a) as [Ha|Ha]; cbn [negb].
  - apply elem_of_cons in Hb as [Hb|Hb]; [by subst|]. destruct (IH Hb) as (c & Hc & Hin & Hca). exists c. split; [exact Hc|].
    split; [by right|done].
  - exists (bd_logport d). split; [done|]. split; [by left|done].
Qed.

Section console.
Context {W : Type} {HE : Env W} {HV : VnLib W} {HC : VnConsole W}.
Implicit Types (w : W) (x : vn_self).

(** What setUp leaves of the console. *)
Record on_console (slot : string) x : Prop := {
  oc_host : vn_session_hmc x = Some vc_host;
  oc_server : vn_server x = Some (VStr vc_server);
  oc_lpar : vn_lpar x = Some vc_lpar;
  oc_id : vn_lpar_id x = Some vc_lpar_id;
  oc_slot : ∃ rest, vn_slot_num x = Some (slot :: rest);
  oc_digits : all_digits (chars_of slot);
}.

Lemma slot_0_runs slot w x : on_console slot x → runs slot_0 w x (Ret slot) w x.
Proof using Type. intros [_ _ _ _ [rest H] _]. unfold slot_0, first_of. run_step. apply runs_lift. Qed.

Lemma listing_runs host cmd text w x :
  vn_session_hmc x = Some host → env_ssh host cmd w = (Ret (CmdResult 0 text), w) → runs (listing_cmd cmd) w x (Ret text) w x.
Proof using Type.
  intros Hh Hs. unfold listing_cmd. eapply (runs_bind _ _ _ _ (CmdResult 0 text)); [|apply runs_ret]. apply runs_try_ret.
  unfold hmc_cmd. run_step. by apply runs_ext.
Qed.

Lemma states_runs slot w x : on_console slot x →
  runs backing_dev_list w x (Ret (states_listing (vc_table w))) w x.
Proof using Type.
  intros [Hh Hs Hl _ _ _]. unfold backing_dev_list, server_text. eapply runs_bind; [run|]. cbv beta. run_step.
  eapply listing_runs; [exact Hh|]. apply vc_states.
Qed.

Lemma chosen_logport_runs accepts choose s slot w x :
  (∀ ds, Forall plain_dev ds → first_logport accepts (map state_entry ds) = Ret (bd_logport <$> List.find choose ds)) →
  on_console s x → all_digits (chars_of slot) →
  runs (output ← backing_dev_list; lift (last_logport accepts slot None (py_splitlines output))) w x
    (logport_in choose slot (vc_table w)) w x.
Proof using Type.
  intros Hc Hx Hs. eapply runs_bind; [by eapply states_runs|]. cbv beta. destruct (vc_plain w) as [Hp Hn].
  rewrite lines_of_states, (last_logport_listed accepts choose) by done. apply runs_lift.
Qed.

Lemma active_runs s slot w x : on_console s x → all_digits (chars_of slot) →
  runs (get_active_device_logport slot) w x (logport_in bd_active slot (vc_table w)) w x.
Proof using Type. apply chosen_logport_runs, first_active. Qed.

Lemma spare_runs s slot w x : on_console s x → all_digits (chars_of slot) →
  runs (get_backing_device_logport slot) w x (logport_in is_spare_dev slot (vc_table w)) w x.
Proof using Type. apply chosen_logport_runs, first_spare. Qed.

(** [get_active_device_logport] reads back the table of backing devices that the console
    prints: it returns the logical port of the first active device of the slot, and raises when
    the slot is not listed or has no active device (the name is not bound then); a slot of which
    the number starts with that of another is told apart. *)
Theorem active_logport_read slot table w x :
  on_console slot x → vc_table w = table →
  runs (get_active_device_logport slot) w x
    (match dict_find slot table ≫= List.find bd_active with
     | Some d => Ret (bd_logport d)
     | None => unbound "logport"
     end) w x.
Proof using Type. intros Hx <-. by eapply active_runs; [|apply Hx]. Qed.

Lemma trigger_runs logport slot w x : on_console slot x →
  runs (trigger_failover logport) w x
    (if vc_exit slot logport w =? 0 then Ret () else raise_ TestFail ("Command to set " +:+ logport +:+ " as Active has failed"))
    (vc_next slot logport w) x.
Proof using Type.
  intros Hx. pose proof Hx as [Hh Hs _ Hi _ _]. unfold trigger_failover, server_text, hmc_cmd. eapply runs_bind; [run|]. cbv beta.
  run_by slot_0_runs; [done|]. run_step. eapply runs_bind; [run_step; apply runs_ext, vc_activate|]. cbv beta. cbn [exit_status].
  destruct (vc_exit slot logport w =? 0); cbn [negb]; [run|]. apply runs_when_true. run_step. apply runs_throw.
Qed.
End console.

(** ** The partition *)

(** A partition whose network answers and whose kernel log has nothing to report. *)
Class VnPartition (W : Type) {HV : VnLib W} := {
  vp_interfaces : list string;
  vp_address : string → string;
  vp_ifs w : vn_interfaces w = (Ret vp_interfaces, w);
  vp_addr device w : vn_addr device w = (Ret (vp_address device), w);
  vp_new device w : ∃ v, vn_lib "NetworkInterface" [VStr device] w = (Ret v, w);
  vp_ping device peer w : vn_lib "NetworkInterface.ping_check" [VStr device; VStr peer; VInt 5] w = (Ret VNone, w);
  vp_collect errors w : ∃ v, vn_lib "dmesg.collect_errors_by_level" [VInt 4; VList errors] w = (Ret v, w);
}.

Section partition.
Context {W : Type} {HE : Env W} {HV : VnLib W} {HP : VnPartition W}.
Implicit Types (w : W) (x : vn_self).

Definition addressed (x : vn_self) : Prop :=
  ∃ p mac macs peer peers, vn_the_params x = Some p ∧ np_mac_id p = mac :: macs ∧ np_peer_ip p = peer :: peers.

Lemma mac_0_runs w x : addressed x → ∃ mac, runs mac_0 w x (Ret mac) w x.
Proof using Type.
  intros (p & mac & macs & peer & peers & Hp & Hm & _). exists mac. unfold mac_0, first_of, param_of.
  eapply runs_bind; [by apply runs_attr; rewrite Hp|]. cbv beta. rewrite Hm. apply runs_lift.
Qed.

Lemma peer_0_runs w x : addressed x → ∃ peer, runs peer_0 w x (Ret peer) w x.
Proof using Type.
  intros (p & mac & macs & peer & peers & Hp & _ & Hm). exists peer. unfold peer_0, first_of, param_of.
  eapply runs_bind; [by apply runs_attr; rewrite Hp|]. cbv beta. rewrite Hm. apply runs_lift.
Qed.

Lemma find_device_runs mac w x : ∃ device, runs (find_device mac) w x (Ret device) w x.
Proof using Type*.
  unfold find_device. enough (∃ device, runs (device_with (colon_mac mac) vp_interfaces) w x (Ret device) w x) as [device H].
  { exists device. eapply runs_bind; [apply runs_silent, vp_ifs|exact H]. }
  induction vp_interfaces as [|d l [device IH]]; cbn [device_with]; [eexists; apply runs_ret|].
  destruct (py_in (colon_mac mac) (vp_address d)) eqn:E; eexists; (eapply runs_bind; [apply runs_silent, vp_addr|]); cbv beta; rewrite E.
  - apply runs_ret.
  - exact IH.
Qed.

Lemma ping_fails_runs device peer w x : runs (ping_fails device peer) w x (Ret false) w x.
Proof using Type*. unfold ping_fails, ni_call. eapply runs_bind; [apply runs_ext, vp_ping|]. apply (runs_ret (negb (is_None VNone))). Qed.

(** The device with the first address is found and its peer answers. *)
Lemma ping_device_runs msg w x : addressed x →
  runs (mac ← mac_0; device ← find_device mac; ni ← network_interface device; peer ← peer_0; ping_peer ni peer msg) w x (Ret ()) w x.
Proof using Type*.
  intros Hx. destruct (mac_0_runs w x Hx) as [mac Hm]. destruct (peer_0_runs w x Hx) as [peer Hp].
  destruct (find_device_runs mac w x) as [device Hd]. destruct (vp_new device w) as [v Hv].
  run_by Hm. run_by Hd. eapply runs_bind; [unfold network_interface; eapply runs_bind; [by apply runs_ext|apply runs_ret]|]. cbv beta.
  run_by Hp. unfold ping_peer. run_by ping_fails_runs. apply runs_when_false.
Qed.

Lemma check_dmesg_runs w x : addressed x → runs check_dmesg_error w x (Ret ()) w x.
Proof using Type*.
  intros Hx. destruct (mac_0_runs w x Hx) as [mac Hm]. destruct (peer_0_runs w x Hx) as [peer Hp].
  destruct (find_device_runs mac w x) as [device Hd]. destruct (vp_new device w) as [v Hv].
  set (errors := if py_in "test_remove" vn_test_name then dmesg_errors
    else dmesg_errors ++ ["Virtual Adapter failed"%string; "Failed to set link state"%string]).
  unfold check_dmesg_error. eapply (runs_bind _ _ _ _ errors); subst errors.
  - destruct (py_in "test_remove" vn_test_name); [apply runs_ret|]. run_by Hm. run_by Hd.
    eapply runs_bind; [unfold network_interface; eapply runs_bind; [by apply runs_ext|apply runs_ret]|]. cbv beta.
    cbn [for_acc]. eapply runs_bind; [run_by Hp; run_by ping_fails_runs; apply runs_ret|]. cbv beta.
    eapply runs_bind; [run_by Hp; run_by ping_fails_runs; apply runs_ret|]. apply runs_ret.
  - generalize (if py_in "test_remove" vn_test_name then dmesg_errors
      else dmesg_errors ++ ["Virtual Adapter failed"%string; "Failed to set link state"%string]). intros errors.
    run_step. apply runs_try_ret. destruct (vp_collect (map VStr errors) w) as [v2 Hv2]. eapply runs_bind; [by apply runs_ext|]. apply runs_ret.
Qed.
End partition.

(** ** The failover test *)

Section failover.
Context {W : Type} {HE : Env W} {HV : VnLib W} {HC : VnConsole W} {HA : VnActivates W}.
Implicit Types (w : W) (x : vn_self).

Lemma activate_runs logport slot w x : on_console slot x → logport ∈ ports_of slot (vc_table w) →
  ∃ w', runs (trigger_failover logport) w x (Ret ()) w' x ∧ vc_table w' = activated slot logport (vc_table w).
Proof using Type*.
  intros Hx Hp. eexists. split; [|by apply va_table]. pose proof (trigger_runs logport slot w x Hx) as H.
  by rewrite va_exit in H.
Qed.

(** The device with the port [a] is the only active one of the slot. *)
Definition only_active (slot a : string) w : Prop :=
  a ∈ ports_of slot (vc_table w) ∧ vc_table w = activated slot a (vc_table w).

Lemma only_active_read slot a w : only_active slot a w → logport_in bd_active slot (vc_table w) = Ret a.
Proof using Type. intros [Ha ->]. by apply active_in. Qed.

(** [change_active_device], with which tearDown means to make the original device active
    again, leaves the device active that is active, whatever the original one: it activates the
    current device when the two differ. *)
Theorem tearDown_keeps_active slot a original w x :
  on_console slot x → only_active slot a w → vn_original_logport x = Some original →
  ∃ w', runs (change_active_device slot) w x (Ret ()) w' x ∧ only_active slot a w'.
Proof using Type*.
  intros Hx Ha Ho. assert (∃ w', runs (trigger_failover a) w x (Ret ()) w' x ∧ only_active slot a w') as (w' & H & Hw').
  { pose proof Ha as [Hin Et]. destruct (activate_runs a slot w x Hx Hin) as (w' & H & E). exists w'. split; [done|].
    unfold only_active. rewrite E, <- Et. done. }
  exists (if negb (String.eqb original a) then w' else w). split; [|by destruct (negb _)].
  unfold change_active_device. eapply runs_bind. { rewrite <- (only_active_read slot a w) by done. by eapply active_runs; [|apply Hx]. }
  cbv beta. run_step. destruct (negb (String.eqb original a)); [exact H|run].
Qed.
Context {HP : VnPartition W}.

Lemma activated_operational slot a table : operational slot table → operational slot (activated slot a table).
Proof using Type.
  unfold operational. rewrite find_activated. intros H ds. destruct (dict_find slot table) as [ds'|]; [|done]. intros [= <-].
  specialize (H _ eq_refl). unfold set_active. apply List.Forall_map. eapply list.Forall_impl; [exact H|done].
Qed.

Lemma failover_round_runs slot a b c w x :
  on_console slot x → addressed x → a ≠ b → a ∈ ports_of slot (vc_table w) → b ∈ ports_of slot (vc_table w) →
  operational slot (vc_table w) → only_active slot c w →
  ∃ w' d, runs failover_round w x (Ret ()) w' x ∧ vc_table w' = activated slot d (vc_table w) ∧ only_active slot d w'.
Proof using Type*.
  intros Hx Hd Hab Ha Hb Ho Hc. assert (∃ e, e ∈ ports_of slot (vc_table w) ∧ e ≠ c) as (e & He & Hec).
  { destruct (String.eqb_spec a c) as [->|]; [exists b|exists a]; by split. }
  destruct (spare_in slot c e (vc_table w)) as (s & Hs & Hsp & Hsc); [done..|]. destruct Hc as [Hcp Hct].
  rewrite <- Hct in Hs. destruct (activate_runs s slot w x Hx Hsp) as (w' & H & Ht).
  exists w', s. assert (only_active slot s w') as Hos.
  { split; [by rewrite Ht, ports_activated|]. rewrite Ht. by rewrite activated_twice. }
  split; [|by split]. unfold failover_round. run_by slot_0_runs; [exact Hx|].
  eapply runs_bind. { erewrite <- (only_active_read slot c w); [by eapply active_runs; [|apply Hx]|by split]. }
  cbv beta. eapply runs_bind. { rewrite <- Hs. by eapply spare_runs; [|apply Hx]. }
  cbv beta. run_by H. run_step. eapply runs_bind. { rewrite <- (only_active_read slot s w') by done. by eapply active_runs; [|apply Hx]. }
  cbv beta. run_step. destruct (String.eqb_spec c s) as [E|_]; [by destruct Hsc|]. run_step. by apply ping_device_runs.
Qed.

(** C27: [test_hmcfailover], on a console where activating works, with a slot whose devices are all
    operational, two at least, of which one is active, and in a partition where the peer answers every
    ping and the kernel log can be read: whatever number of failovers is asked for, the test passes,
    and at its end the console lists what it listed at the beginning. *)
Theorem hmcfailover_restores slot a b w x :
  on_console slot x → addressed x → a ≠ b → a ∈ ports_of slot (vc_table w) → b ∈ ports_of slot (vc_table w) →
  operational slot (vc_table w) → only_active slot a w →
  ∃ w', runs test_hmcfailover w x (Ret ()) w' x ∧ vc_table w' = vc_table w.
Proof using Type*.
  intros Hx Hd Hab Ha Hb Ho Hoa. pose proof Hd as (p & _ & _ & _ & _ & Hp & _).
  destruct (runs_for_each (Zrange 0 (np_count p)) (λ _, failover_round)
    (λ _ w1 x1, x1 = x ∧ ∃ c, vc_table w1 = activated slot c (vc_table w) ∧ only_active slot c w1) w x) as (w1 & x1 & H1 & -> & c & Ht & Hc).
  - intros _ _ _ w1 x1 _ [-> (c & Ht & Hc)]. destruct (failover_round_runs slot a b c w1 x) as (w2 & d & H & Ht2 & Hod);
      [by rewrite ?Ht, ?ports_activated; try apply activated_operational..|].
    exists w2, x. split; [exact H|]. split; [done|]. exists d. by rewrite Ht2, Ht, activated_twice.
  - split; [done|]. exists a. by destruct Hoa.
  - assert (∃ w2, runs (when (negb (String.eqb a c)) (trigger_failover a)) w1 x (Ret ()) w2 x ∧ vc_table w2 = vc_table w) as (w2 & H2 & Ht2).
    { destruct Hoa as [_ E]. destruct (String.eqb_spec a c) as [<-|Hne]; cbn [negb].
      - exists w1. split; [apply runs_when_false|by rewrite Ht].
      - destruct (activate_runs a slot w1 x Hx) as (w2 & H & H'); [by rewrite Ht, ports_activated|].
        exists w2. split; [by apply runs_when_true|]. by rewrite H', Ht, activated_twice. }
    exists w2. split; [|done]. unfold test_hmcfailover. run_by slot_0_runs; [exact Hx|].
    eapply runs_bind. { rewrite <- (only_active_read slot a w) by done. by eapply active_runs; [|apply Hx]. }
    cbv beta. eapply runs_bind; [apply runs_attr; by rewrite Hp|]. cbv beta. run_by H1.
    eapply runs_bind. { rewrite <- (only_active_read slot c w1) by done. by eapply active_runs; [|apply Hx]. }
    cbv beta. run_by H2. eapply runs_bind.
    { rewrite <- (only_active_read slot a w2); [by eapply active_runs; [|apply Hx]|]. unfold only_active. by rewrite Ht2. }
    cbv beta. rewrite String.eqb_refl. run_step. by apply check_dmesg_runs.
Qed.

End failover.

(** ** Waiting for an interface *)

Section waiting.
Context {W : Type} {HV : VnLib W} (seen : W → list string) (later : W → W).
Context (vn_seen : ∀ w, vn_interfaces w = (Ret (seen w), later w)).
Implicit Types (w : W) (x : vn_self).

Lemma look_for_runs device interfaces w x :
  runs (look_for device interfaces) w x (Ret (bool_decide (device ∈ interfaces))) w x.
Proof using Type.
  induction interfaces as [|i interfaces IH]; cbn [look_for]; [apply runs_ret|].
  destruct (String.eqb_spec device i) as [->|Hne].
  - rewrite bool_decide_true by left. run.
  - run_step. replace (bool_decide (device ∈ i :: interfaces)) with (bool_decide (device ∈ interfaces)); [exact IH|].
    apply bool_decide_ext. rewrite elem_of_cons. naive_solver.
Qed.

Lemma rounds_for_runs device rounds w x :
  ∃ b w', runs (rounds_for device rounds) w x (Ret b) w' x ∧
    (b = true ↔ ∃ k, (k < rounds)%nat ∧ device ∈ seen (Nat.iter k later w)).
Proof using Type*.
  revert w. induction rounds as [|n IH]; intros w.
  { exists false, w. split; [apply runs_ret|]. split; [done|]. intros (k & Hk & _). lia. }
  cbn [rounds_for]. destruct (decide (device ∈ seen w)) as [Hin|Hout].
  - exists true, (later w). split; [|split; [intros _; exists O; split; [lia|exact Hin]|done]].
    eapply runs_bind; [by apply runs_silent|]. run_by look_for_runs. rewrite bool_decide_true by done. apply runs_ret.
  - destruct (IH (later w)) as (b & w' & H & Hb). exists b, w'. split.
    + eapply runs_bind; [by apply runs_silent|]. run_by look_for_runs. rewrite bool_decide_false by done. exact H.
    + rewrite Hb. split; intros (k & Hk & Hin).
      * exists (S k). rewrite Nat.iter_succ_r. split; [lia|exact Hin].
      * destruct k as [|k]; [done|]. exists k. rewrite Nat.iter_succ_r in Hin. split; [lia|exact Hin].
Qed.

(** C40: [wait_interface] ends, and tells whether the interface shows up: it returns True exactly
    when one of the twelve listings that it takes has the device. *)
Theorem wait_interface_notices device w x :
  ∃ b w', runs (wait_interface device) w x (Ret b) w' x ∧
    (b = true ↔ ∃ k, (k < 12)%nat ∧ device ∈ seen (Nat.iter k later w)).
Proof using Type*. apply rounds_for_runs. Qed.
End waiting.
