(* ===== verification/NetBacking.v ===== *)
(** * The lists of the backing devices

    [update_backing_devices] moves the active device to the front of the lists that run in
    parallel: which entry of the console's listing it takes, that the rows stay together, and what
    becomes of the names of the servers, which are not moved. *)

From S2P Require Import Prelude PyStr PyFloat PyVal Avocado Logic NetVirt NetSystem.
Open Scope Z_scope.

(** The listing of the backing devices: the entries with their fields. *)
Definition details (entries : list (list string)) : string := py_join "," (map (py_join "/") entries).

(** Fields without a separator, nine at least. *)
Definition plain_fields (fields : list string) : Prop :=
  Forall (without ",") fields ∧ Forall (without "/") fields ∧ (8 < length fields)%nat.

Lemma split_details entries : Forall plain_fields entries → entries ≠ [] →
  py_split_on "," (details entries) = map (py_join "/") entries.
Proof.
  intros H Hne. apply split_join; [|by destruct entries]. apply List.Forall_map. eapply list.Forall_impl; [exact H|].
  intros fields (Hc & _ & _). apply join_without; [by repeat constructor|done].
Qed.

Lemma field_of fields i s : plain_fields fields → fields !! i = Some s → field_at "/" i (py_join "/" fields) = Ret s.
Proof.
  intros (_ & Hs & Hl) Hi. unfold field_at, nth_of. rewrite split_join, Hi by (done || by destruct fields). done.
Qed.

(** ** Positions *)

Lemma position_missing a p ids ports i found : length ids = length ports → (a, p) ∉ combine ids ports →
  position_of a p i found ids ports = Ret found.
Proof.
  revert ports i. induction ids as [|b ids IH]; intros [|q ports] i; try done. intros [= Hl]. cbn [combine position_of tail].
  rewrite not_elem_of_cons. intros [Hn Hr]. destruct (String.eqb_spec a b) as [->|]; [|by apply IH].
  destruct (String.eqb_spec p q) as [->|]; [by destruct Hn|]. by apply IH.
Qed.

Lemma position_found a p ids ports i k found : length ids = length ports → NoDup (combine ids ports) →
  combine ids ports !! i = Some (a, p) → position_of a p k found ids ports = Ret (Some (k + i)%nat).
Proof.
  revert ports i k found. induction ids as [|b ids IH]; intros [|q ports] i k found; try done.
  intros [= Hl]. cbn [combine]. rewrite list.NoDup_cons. intros [Hn Hd]. destruct i as [|i]; cbn [position_of tail].
  - intros [= -> ->]. rewrite !String.eqb_refl. cbn [mbind result_bind]. rewrite Nat.add_0_r. by apply position_missing.
  - change (combine ids ports !! i = Some (a, p) → position_of a p k found (b :: ids) (q :: ports) = Ret (Some (k + S i)%nat)).
    intros Hi. cbn [position_of tail]. replace (k + S i)%nat with (S k + i)%nat by lia.
    destruct (String.eqb a b); [destruct (String.eqb p q)|]; by apply IH.
Qed.

(** ** Moving to the front *)

Section front.
Context {A : Type}.

Definition front (a : A) (i : nat) (l : list A) : list A := a :: take i l ++ drop (S i) l.

Lemma pop_at (l : list A) i a : l !! i = Some a → list_pop i l = Ret (a, take i l ++ drop (S i) l).
Proof. unfold list_pop. by intros ->. Qed.

Lemma front_permutation l i a : l !! i = Some a → front a i l ≡ₚ l.
Proof. intros H. unfold front. rewrite <- (take_drop_middle l i a H) at 3. by rewrite Permutation_middle. Qed.

(** The elements before the place move up by one. *)
Lemma front_before l i j a : (j < i)%nat → front a i l !! S j = l !! j.
Proof.
  intros H. change (front a i l !! S j) with ((take i l ++ drop (S i) l) !! j). destruct (decide (j < length l)%nat) as [Hj|Hj].
  - rewrite lookup_app_l by (rewrite length_take; lia). by apply lookup_take_lt.
  - rewrite (lookup_ge_None_2 l j) by lia. rewrite take_ge by lia. rewrite drop_ge by lia. rewrite app_nil_r.
    apply lookup_ge_None_2. lia.
Qed.
End front.

Lemma combine_front {A B} (l : list A) (k : list B) i a b : length l = length k →
  combine (front a i l) (front b i k) = front (a, b) i (combine l k).
Proof.
  intros Hl. unfold front. cbn. f_equal. revert k i Hl. induction l as [|x l IH]; intros [|y k] i Hl; try done.
  - by destruct i.
  - destruct i as [|i]; [done|]. cbn. f_equal. apply IH. by injection Hl.
Qed.

Lemma combine_at {A B} (l : list A) (k : list B) i a b : combine l k !! i = Some (a, b) → l !! i = Some a ∧ k !! i = Some b.
Proof.
  revert k i. induction l as [|x l IH]; intros [|y k] i; try done. destruct i as [|i]; [by intros [= -> ->]|]. exact (IH k i).
Qed.

(** The rows of the lists: a server, an adapter and a port. *)
Definition rows (d : vn_devices) : list (string * (string * string)) :=
  combine (nd_vios_id d) (combine (nd_backing_adapter_id d) (nd_sriov_port d)).

(** ** The update *)

Section update.
Context {W : Type} {HE : Env W} {HV : VnLib W} {HC : VnConsole W}.
Implicit Types (w : W) (x : vn_self).

(** An entry is taken for the active device when the number of the port is a part of its text. *)
Definition names (logport : string) (fields : list string) : bool := py_in logport (py_join "/" fields).
Definition field (i : nat) (fields : list string) : string := default ""%string (fields !! i).

Definition entry_devs (logport : string) (d : vn_devices) (fields : list string) : vn_devices :=
  if names logport fields then set_vnic_priority (VStr (field 8 fields) :: tail (nd_vnic_priority d)) d else d.
Definition entry_found (logport : string) (found : string * string) (fields : list string) : string * string :=
  if names logport fields then (field 3 fields, field 4 fields) else found.

Lemma with_devs_twice d d' x : with_devs d' (with_devs d x) = with_devs d' x.
Proof using Type. done. Qed.
Lemma with_devs_same d x : vn_devs x = Some d → with_devs d x = x.
Proof using Type. destruct x. cbn. by intros ->. Qed.

Lemma devs_of_runs {A} name (f : vn_devices → A) d w x : vn_devs x = Some d → runs (devs_of name f) w x (Ret (f d)) w x.
Proof using Type. intros H. apply runs_attr. by rewrite H. Qed.

Lemma set_devs_runs f d w x : vn_devs x = Some d → runs (set_devs f) w x (Ret ()) w (with_devs (f d) x).
Proof using Type.
  intros H. unfold set_devs. pose proof (runs_modify (W:=W) (λ x, match vn_devs x with Some d => with_devs (f d) x | None => x end) w x) as R.
  cbn in R. by rewrite H in R.
Qed.

Lemma field_at_plain fields i : plain_fields fields → (i < 9)%nat → field_at "/" i (py_join "/" fields) = Ret (field i fields).
Proof using Type.
  intros H Hi. unfold field. destruct (lookup_lt_is_Some_2 fields i) as [s Hs]; [destruct H as (_ & _ & H); lia|].
  rewrite Hs. by apply field_of.
Qed.

Lemma take_entry_runs logport found fields d w x :
  plain_fields fields → vn_devs x = Some d → nd_vnic_priority d ≠ [] →
  runs (take_entry logport found (py_join "/" fields)) w x (Ret (entry_found logport found fields)) w
    (with_devs (entry_devs logport d fields) x).
Proof using Type.
  intros Hf Hd Hp. unfold take_entry, entry_found, entry_devs. fold (names logport fields).
  destruct (names logport fields); [|rewrite with_devs_same by done; apply runs_ret].
  rewrite !field_at_plain by (done || lia). do 3 run_step. run_by devs_of_runs; [exact Hd|].
  destruct (nd_vnic_priority d) as [|p l]; [done|]. run_by set_devs_runs; [exact Hd|]. apply runs_ret.
Qed.

Lemma entries_run logport entries found d w x :
  Forall plain_fields entries → vn_devs x = Some d → nd_vnic_priority d ≠ [] →
  runs (for_acc (map (py_join "/") entries) found (take_entry logport)) w x
    (Ret (foldl (entry_found logport) found entries)) w (with_devs (foldl (entry_devs logport) d entries) x).
Proof using Type.
  intros H. revert found d x. induction H as [|fields entries Hf _ IH]; intros found d x Hd Hp; cbn [map for_acc foldl].
  - rewrite with_devs_same by done. apply runs_ret.
  - run_by take_entry_runs; [done..|]. apply (IH _ (entry_devs logport d fields) (with_devs (entry_devs logport d fields) x)); [done|].
    unfold entry_devs. by destruct (names logport fields).
Qed.

(** The last entry with the port counts. *)
Lemma last_entry logport pre e post found d :
  names logport e = true → Forall (λ f, names logport f = false) post →
  foldl (entry_found logport) found (pre ++ e :: post) = (field 3 e, field 4 e) ∧
  nd_vios_id (foldl (entry_devs logport) d (pre ++ e :: post)) = nd_vios_id d ∧
  nd_sriov_port (foldl (entry_devs logport) d (pre ++ e :: post)) = nd_sriov_port d ∧
  nd_backing_adapter_id (foldl (entry_devs logport) d (pre ++ e :: post)) = nd_backing_adapter_id d ∧
  nd_vnic_priority (foldl (entry_devs logport) d (pre ++ e :: post)) = VStr (field 8 e) :: tail (nd_vnic_priority d).
Proof using Type.
  intros He Hp. rewrite !foldl_app. cbn [foldl].
  assert (∀ d', nd_vios_id (foldl (entry_devs logport) d' pre) = nd_vios_id d' ∧
    nd_sriov_port (foldl (entry_devs logport) d' pre) = nd_sriov_port d' ∧
    nd_backing_adapter_id (foldl (entry_devs logport) d' pre) = nd_backing_adapter_id d' ∧
    tail (nd_vnic_priority (foldl (entry_devs logport) d' pre)) = tail (nd_vnic_priority d')) as Hpre.
  { clear. induction pre as [|f pre IH]; intros d'; [done|]. cbn [foldl]. destruct (IH (entry_devs logport d' f)) as (-> & -> & -> & ->).
    unfold entry_devs. by destruct (names logport f). }
  destruct (Hpre d) as (E1 & E2 & E3 & E4). clear Hpre.
  assert (∀ found' d', foldl (entry_found logport) found' post = found' ∧ foldl (entry_devs logport) d' post = d') as Hpost.
  { intros found' d'. induction Hp as [|f post Hf _ IH]; [done|]. cbn [foldl]. unfold entry_found at 2, entry_devs at 2. by rewrite Hf. }
  destruct (Hpost (entry_found logport (foldl (entry_found logport) found pre) e)
    (entry_devs logport (foldl (entry_devs logport) d pre) e)) as [-> ->].
  set (d1 := foldl (entry_devs logport) d pre) in *. unfold entry_found at 1. unfold entry_devs. rewrite He.
  by rewrite <- E1, <- E2, <- E3, <- E4.
Qed.

Lemma to_front_runs name get set v i a d w x :
  vn_devs x = Some d → get d !! i = Some a →
  runs (to_front name get set v i) w x (Ret ()) w (with_devs (set (front (default a v) i (get d)) d) x).
Proof using Type.
  intros Hd Ha. unfold to_front. run_by devs_of_runs; [exact Hd|]. rewrite (pop_at _ _ _ Ha). run_step.
  by apply (set_devs_runs (set (front (default a v) i (get d)))).
Qed.

Lemma details_run slot entries s w x : on_console s x →
  env_ssh vc_host (backing_devices_cmd vc_server vc_lpar slot) w = (Ret (CmdResult 0 (details entries)), w) →
  runs (get_backing_devices slot) w x (Ret (details entries)) w x.
Proof using Type.
  intros [Hh Hs Hl _ _ _] H. unfold get_backing_devices, server_text. eapply runs_bind; [run|]. cbv beta. run_step.
  by eapply listing_runs.
Qed.

(** The lists are parallel. *)
Definition in_step (d : vn_devices) : Prop :=
  length (nd_backing_adapter_id d) = length (nd_sriov_port d) ∧ length (nd_vios_id d) = length (nd_sriov_port d).

(** The state before: parallel lists whose rows differ, and a listing in which the last entry
    with the port of the active device is that of row [i]. *)
Record described (slot logport : string) (entries : list (list string)) (e : list string) (d : vn_devices) (i : nat) w : Prop := {
  ds_active : logport_in bd_active slot (vc_table w) = Ret logport;
  ds_listed : env_ssh vc_host (backing_devices_cmd vc_server vc_lpar slot) w = (Ret (CmdResult 0 (details entries)), w);
  ds_plain : Forall plain_fields entries;
  ds_last : ∃ pre post, entries = pre ++ e :: post ∧ names logport e = true ∧ Forall (λ f, names logport f = false) post;
  ds_adapter : field 3 e ≠ ""%string;
  ds_lengths : in_step d;
  ds_priority : nd_vnic_priority d ≠ [];
  ds_rows : NoDup (combine (nd_backing_adapter_id d) (nd_sriov_port d));
  ds_row : combine (nd_backing_adapter_id d) (nd_sriov_port d) !! i = Some (field 3 e, field 4 e);
}.

(** What the update leaves. *)
Definition updated (e : list string) (v : string) (i : nat) (d : vn_devices) : vn_devices :=
  VnDevices (front v i (nd_vios_id d)) (front (field 4 e) i (nd_sriov_port d)) (front (field 3 e) i (nd_backing_adapter_id d))
    (VStr (field 8 e) :: tail (nd_vnic_priority d)).

Lemma update_runs slot s logport entries e d i v w x :
  on_console s x → all_digits (chars_of slot) → vn_devs x = Some d → described slot logport entries e d i w →
  nd_vios_id d !! i = Some v →
  runs (update_backing_devices slot) w x (Ret ()) w (with_devs (updated e v i d) x).
Proof using Type.
  intros Hx Hs Hd [Hact Hlist Hplain (pre & post & -> & He & Hpost) Hne [Hl1 Hl2] Hp Hrows Hrow] Hv.
  unfold update_backing_devices. eapply runs_bind. { rewrite <- Hact. by eapply active_runs. }
  cbv beta. run_by details_run; [exact Hx|exact Hlist|]. rewrite split_details by (done || by destruct pre).
  run_by entries_run; [done..|]. destruct (last_entry logport pre e post (""%string, ""%string) d He Hpost) as (-> & Ev & Ep & Ea & En).
  set (d1 := foldl (entry_devs logport) d (pre ++ e :: post)) in *.
  assert (py_empty (field 3 e) = false) as -> by (by destruct (field 3 e)). cbn [negb]. apply runs_when_true.
  do 2 (run_by devs_of_runs; [done|]). rewrite Ea, Ep, (position_found _ _ _ _ i 0) by done. run_step. cbn [Nat.add].
  assert (nd_backing_adapter_id d !! i = Some (field 3 e) ∧ nd_sriov_port d !! i = Some (field 4 e)) as [Hai Hpi].
  { by apply combine_at. }
  run_by to_front_runs; [done|by rewrite Ev|]. rewrite with_devs_twice.
  run_by to_front_runs; [done|by rewrite <- Hpi, <- Ep|]. rewrite with_devs_twice.
  set (d3 := set_sriov_port (front (field 4 e) i (nd_sriov_port d1)) (set_vios_id (front v i (nd_vios_id d1)) d1)).
  assert (with_devs (updated e v i d) x =
    with_devs (set_backing_adapter_id (front (field 3 e) i (nd_backing_adapter_id d3)) d3) (with_devs d3 x)) as ->.
  { unfold d3, set_backing_adapter_id, set_sriov_port, set_vios_id, updated. cbn. by rewrite Ev, Ep, Ea, En. }
  refine (to_front_runs "backing_adapter_id" nd_backing_adapter_id set_backing_adapter_id (Some (field 3 e)) i (field 3 e)
    d3 w (with_devs d3 x) eq_refl _). rewrite <- Hai. exact (f_equal (λ l, l !! i) Ea).
Qed.

Lemma updated_rows e v i d : length (nd_backing_adapter_id d) = length (nd_sriov_port d) → length (nd_vios_id d) = length (nd_sriov_port d) →
  rows (updated e v i d) = front (v, (field 3 e, field 4 e)) i (rows d).
Proof using Type.
  intros H1 H2. unfold rows, updated. cbn [nd_vios_id nd_backing_adapter_id nd_sriov_port]. rewrite (combine_front (nd_backing_adapter_id d)) by done.
  apply combine_front. rewrite length_combine, H1, H2. lia.
Qed.

Lemma length_front {A} (a : A) i l : (i < length l)%nat → length (front a i l) = length l.
Proof using Type. intros H. unfold front. cbn [length]. rewrite length_app, length_take, length_drop. lia. Qed.

(** C17: [update_backing_devices] keeps the lists of servers, adapters and ports well-formed: they stay
    parallel, with the same rows.  Where the lists are parallel with distinct rows, the entries of the
    console's listing have their nine fields, and the last entry with the port of the active device in
    its text is that of a row, this row moves to the front, the others stay in their order, and the
    first priority becomes that of the entry. *)
Theorem update_keeps_rows slot s logport entries e d i v w x :
  on_console s x → all_digits (chars_of slot) → vn_devs x = Some d → described slot logport entries e d i w →
  nd_vios_id d !! i = Some v →
  ∃ d', runs (update_backing_devices slot) w x (Ret ()) w (with_devs d' x) ∧ in_step d' ∧
    rows d' = (v, (field 3 e, field 4 e)) :: take i (rows d) ++ drop (S i) (rows d) ∧ rows d' ≡ₚ rows d ∧
    nd_vnic_priority d' = VStr (field 8 e) :: tail (nd_vnic_priority d).
Proof using Type.
  intros Hx Hs Hd Hds Hv. exists (updated e v i d). split; [by eapply update_runs|]. destruct Hds as [_ _ _ _ _ [H1 H2] _ _ Hrow]. split.
  { apply lookup_lt_Some in Hv. unfold in_step, updated. cbn [nd_backing_adapter_id nd_sriov_port nd_vios_id]. by rewrite !length_front by lia. }
  rewrite updated_rows by done. split; [done|]. split; [|done]. apply front_permutation. clear -Hrow Hv. unfold rows.
  revert Hrow Hv. generalize (combine (nd_backing_adapter_id d) (nd_sriov_port d)) as k. revert i.
  induction (nd_vios_id d) as [|a l IH]; intros [|i] [|r k]; try done; [by intros [= ->] [= ->]|]. exact (IH i k).
Qed.

Lemma backing_runs operation j nm vios_id adapter_id port priority p d slot w w' out x :
  on_console slot x → vn_the_params x = Some p → vn_devs x = Some d →
  np_vios_name p !! j = Some nm → nd_vios_id d !! j = Some vios_id → nd_backing_adapter_id d !! j = Some adapter_id →
  nd_sriov_port d !! j = Some port → nd_vnic_priority d !! j = Some priority →
  env_ssh vc_host (backing_cmd operation vc_server slot vc_lpar_id (np_auto_failover p)
    (backing_device nm vios_id adapter_id port (py_str (np_bandwidth p)) (py_str priority))) w = (Ret (CmdResult 0 out), w') →
  runs (backing_dev_add_remove operation j) w x (Ret ()) w' x.
Proof using Type.
  intros Hx Hp Hd Hn Hv Ha Hpo Hpr Hs. pose proof Hx as [Hh Hsv _ Hi _ _]. unfold backing_dev_add_remove, nth_of, param_of.
  eapply runs_bind; [by apply runs_attr; rewrite Hp|]. cbv beta. rewrite Hn. run_step.
  run_by devs_of_runs; [exact Hd|]. rewrite Hv. run_step. run_by devs_of_runs; [exact Hd|]. rewrite Ha. run_step.
  run_by devs_of_runs; [exact Hd|]. rewrite Hpo. run_step. eapply runs_bind; [by apply runs_attr; rewrite Hp|]. cbv beta.
  run_by devs_of_runs; [exact Hd|]. rewrite Hpr. run_step. unfold server_text. eapply runs_bind; [run|]. cbv beta.
  run_by slot_0_runs; [exact Hx|]. run_step. eapply runs_bind; [by apply runs_attr; rewrite Hp|]. cbv beta.
  unfold hmc_cmd. eapply runs_bind; [run_step; by apply runs_ext|]. cbv beta. run.
Qed.

(** the names of the servers are not moved with the rows: after the update from row [i], the
    command that adds or takes out device [j + 1], [j < i], gives the name at [j + 1] with the
    server, the adapter and the port that belong to the name at [j]. *)
Theorem names_left_behind operation slot logport entries e d i v j nm vios_id adapter_id port priority p w w' out x :
  on_console slot x → vn_the_params x = Some p → vn_devs x = Some d → described slot logport entries e d i w →
  nd_vios_id d !! i = Some v → (j < i)%nat →
  np_vios_name p !! S j = Some nm → nd_vnic_priority d !! S j = Some priority →
  rows d !! j = Some (vios_id, (adapter_id, port)) →
  env_ssh vc_host (backing_cmd operation vc_server slot vc_lpar_id (np_auto_failover p)
    (backing_device nm vios_id adapter_id port (py_str (np_bandwidth p)) (py_str priority))) w = (Ret (CmdResult 0 out), w') →
  ∃ x', runs (update_backing_devices slot ;; backing_dev_add_remove operation (S j)) w x (Ret ()) w' x'.
Proof using Type.
  intros Hx Hp Hd Hds Hv Hj Hn Hpr [Hrv [Hra Hrp]%combine_at]%combine_at Hs. eexists. run_by update_runs; [exact Hx|apply Hx|exact Hd|exact Hds|exact Hv|].
  eapply (backing_runs operation (S j) nm vios_id adapter_id port priority p (updated e v i d)); [by destruct Hx|exact Hp|done|exact Hn|..|exact Hs];
    unfold updated; cbn [nd_vios_id nd_backing_adapter_id nd_sriov_port nd_vnic_priority].
  1-3: by rewrite front_before.
  rewrite <- Hpr. destruct Hds as [_ _ _ _ _ _ Hne _ _]. by destruct (nd_vnic_priority d).
Qed.
End update.
