(* ===== verification/NetSim.v ===== *)
(** * A simulated console with a virtual network adapter

    One slot with two backing devices, of which the world says which one is active: an instance
    of the classes of NetSystem, on which the theorems are applied. *)

From S2P Require Import Prelude PyStr PyFloat PyVal Avocado Logic NetVirt NetSystem NetBacking.
Open Scope Z_scope.

Definition sim_server : string := "Server-9080-SN7".
Definition sim_first : string := "27004001".
Definition sim_second : string := "27004002".

(** [true]: the second device is the active one. *)
Definition sim_table (second : bool) : list (string * list bdev) :=
  [("3", [BDev sim_first (negb second) "Operational"; BDev sim_second second "Operational"]);
   ("30", [BDev "27004003" true "Operational"])]%string.

Definition sim_details : list (list string) :=
  [["sriov"; "vios1"; "1"; "1"; "0"; sim_first; "2.0"; "2.0"; "50"; "100.0"];
   ["sriov"; "vios2"; "2"; "4"; "1"; sim_second; "2.0"; "2.0"; "60"; "100.0"]]%string.

Definition sim_activate (logport : string) : string := activate_cmd sim_server "3" "5" logport.

(** The device that a command activates. *)
Definition sim_next (cmd : string) (second : bool) : bool :=
  if String.eqb cmd (sim_activate sim_first) then false
  else if String.eqb cmd (sim_activate sim_second) then true else second.

Definition sim_output (cmd : string) (second : bool) : string :=
  if String.eqb cmd (states_cmd sim_server "lpar1") then states_listing (sim_table second)
  else if String.eqb cmd (backing_devices_cmd sim_server "lpar1" "3") then details sim_details else "".

(** The other functions of the environment are not used. *)
Definition sim_env : Env bool := {|
  env_run := λ _ _ w, (Ret (CmdResult 0 ""), w);
  env_system := λ _ _ w, (Ret 0, w);
  env_system_output := λ _ _ w, (Ret ""%string, w);
  env_ssh := λ _ cmd w, (Ret (CmdResult 0 (sim_output cmd w)), sim_next cmd w);
  env_connect := λ _ _ _ w, (Ret true, w);
  env_show := λ r, stdout_text r;
  env_param := λ _ d, d;
  env_exists := λ _ w, (true, w);
  env_read := λ _ w, (Ret ""%string, w);
  env_append := λ _ _ w, (Ret (), w);
  env_remove := λ _ w, (Ret (), w);
  env_random := λ w, (0, w);
|}.

(** [wait.wait_for]: two attempts. *)
Definition sim_poll (f : M bool vn_self pyval) (_ : Z) : M bool vn_self pyval :=
  v ← f; if truthy v then mret v else f.

Definition sim_lib : VnLib bool := {|
  vn_lib := λ _ _ w, (Ret VNone, w);
  vn_wait_for := sim_poll;
  vn_interfaces := λ w, (Ret ["lo"; "env3"]%string, w);
  vn_addr := λ device w, (Ret (if String.eqb device "env3" then "02:03:03:03:03:01" else "00:00:00:00:00:00")%string, w);
  vn_stderr := λ _, ""%string;
  vn_given := λ _, true;
  vn_distro := "rhel";
  vn_test_name := "test_hmcfailover";
  vn_workdir := "/tmp";
|}.

#[local, refine] Instance sim_console : VnConsole bool (HE:=sim_env) := {|
  vc_host := "9.1.2.3";
  vc_server := sim_server;
  vc_lpar := "lpar1";
  vc_lpar_id := "5";
  vc_table := sim_table;
  vc_plain := _;
  vc_states := _;
  vc_exit := λ _ _ _, 0;
  vc_next := λ slot logport w, sim_next (activate_cmd sim_server slot "5" logport) w;
  vc_activate := _;
|}.
Proof.
  - intros w. split.
    + assert (∀ port active, plain port → plain_dev (BDev port active "Operational")) as H.
      { intros port active Hp. split; [done|]. split; [by repeat constructor|]. by exists "l"%char. }
      constructor; [|constructor; [|constructor]].
      * split; [by repeat constructor|]. split; [done|]. constructor; [by apply H; repeat constructor|].
        constructor; [by apply H; repeat constructor|constructor].
      * split; [by repeat constructor|]. split; [done|]. constructor; [by apply H; repeat constructor|constructor].
    + by apply (bool_decide_eq_true_1 _).
  - done.
  - done.
Defined.

#[local, refine] Instance sim_activates : VnActivates bool (HE:=sim_env) (HC:=sim_console) := {|
  va_exit := _;
  va_table := _;
|}.
Proof.
  { done. }
  intros slot logport w. unfold ports_of. cbn [vc_table sim_console sim_table dict_find].
  destruct (String.eqb_spec "3" slot) as [<-|_].
  - cbn [map bd_logport]. rewrite !elem_of_cons, elem_of_nil. intros [->|[->|[]]]; by destruct w.
  - destruct (String.eqb_spec "30" slot) as [<-|_]; [|intros H; by apply not_elem_of_nil in H].
    cbn [map bd_logport]. rewrite !elem_of_cons, elem_of_nil. intros [->|[]]; by destruct w.
Defined.

#[local, refine] Instance sim_partition : VnPartition bool (HV:=sim_lib) := {|
  vp_interfaces := ["lo"; "env3"]%string;
  vp_address := λ device, if String.eqb device "env3" then "02:03:03:03:03:01"%string else "00:00:00:00:00:00"%string;
  vp_ifs := _;
  vp_addr := _;
  vp_new := _;
  vp_ping := _;
  vp_collect := _;
|}.
Proof.
  - done.
  - intros device w. cbn. by destruct (String.eqb device "env3").
  - intros device w. by exists VNone.
  - done.
  - intros errors w. by exists VNone.
Defined.

(** ** What setUp leaves *)

Definition sim_params : vn_params :=
  VnParams ["vios1"; "vios2"] ["U1"; "U2"] (VInt 2) "1" (VStr "9.1.2.4") (VStr "padmin") (VStr "x") 3 1 ["10.0.0.1"]
    ["020303030301"] ["255.255.255.0"] ["10.0.0.2"] VNone VNone VNone VNone VNone (VBool true) (VInt 10) (VInt 10) false.
Definition sim_devs : vn_devices := VnDevices ["1"; "2"] ["0"; "1"] ["1"; "4"] [VInt 50; VInt 50].
Definition set_up : vn_self :=
  VnSelf (Some "9.1.2.3") (Some "lpar1") (Some "9.1.2.3") None None (Some (VStr sim_server)) (Some ["3"]) (Some sim_first)
    (Some "5") (Some sim_params) (Some sim_devs).

Lemma set_up_console : on_console (HE:=sim_env) (HC:=sim_console) "3" set_up.
Proof. split; try done; [by exists []|by repeat constructor]. Qed.

Lemma set_up_addressed : addressed set_up.
Proof. by exists sim_params, "020303030301"%string, [], "10.0.0.2"%string, []. Qed.

Lemma sim_only (second : bool) :
  only_active (HE:=sim_env) (HC:=sim_console) "3" (if second then sim_second else sim_first) second.
Proof. split; [|by destruct second]. destruct second; [right|]; left. Qed.

Lemma sim_operational : operational "3" (sim_table false).
Proof. intros ds [= <-]. by repeat constructor. Qed.

Lemma sim_described :
  described (HE:=sim_env) (HC:=sim_console) "3" sim_second sim_details (default [] (sim_details !! 1%nat)) sim_devs 1 true.
Proof.
  split; try done.
  - by repeat constructor.
  - by exists [default [] (sim_details !! 0%nat)], [].
  - by apply (bool_decide_eq_true_1 _).
Qed.

(** ** The theorems on it *)

Lemma active_logport_read_witness :
  runs (get_active_device_logport (HE:=sim_env) "3") true set_up (Ret sim_second) true set_up.
Proof. exact (active_logport_read (HE:=sim_env) (HC:=sim_console) "3" (sim_table true) true set_up set_up_console eq_refl). Defined.

Lemma hmcfailover_restores_witness :
  ∃ w, runs (test_hmcfailover (HE:=sim_env) (HV:=sim_lib)) false set_up (Ret ()) w set_up ∧ sim_table w = sim_table false.
Proof.
  apply (hmcfailover_restores (HE:=sim_env) (HV:=sim_lib) (HC:=sim_console) "3" sim_first sim_second);
    [exact set_up_console|exact set_up_addressed|done|left|right; left|exact sim_operational|exact (sim_only false)].
Defined.

Lemma tearDown_keeps_active_witness :
  ∃ w, runs (change_active_device (HE:=sim_env) (HV:=sim_lib) "3") true set_up (Ret ()) w set_up ∧
    only_active (HE:=sim_env) (HC:=sim_console) "3" sim_second w.
Proof.
  apply (tearDown_keeps_active (HE:=sim_env) (HV:=sim_lib) (HC:=sim_console) "3" sim_second sim_first);
    [exact set_up_console|exact (sim_only true)|done].
Defined.

(** A world in which env3 comes up after some listings. *)
Definition slow_lib : VnLib nat := {|
  vn_lib := λ _ _ w, (Ret VNone, w);
  vn_wait_for := λ f _, f;
  vn_interfaces := λ n, (Ret (if (n <? 7)%nat then ["lo"] else ["lo"; "env3"])%string, S n);
  vn_addr := λ _ w, (Ret ""%string, w);
  vn_stderr := λ _, ""%string;
  vn_given := λ _, true;
  vn_distro := "rhel";
  vn_test_name := "test_vnic_dlpar";
  vn_workdir := "/tmp";
|}.

Lemma wait_interface_notices_witness :
  ∃ b w, runs (wait_interface (HV:=slow_lib) "env3") 0%nat set_up (Ret b) w set_up ∧
    (b = true ↔ ∃ k, (k < 12)%nat ∧ "env3"%string ∈ (λ n, if (n <? 7)%nat then ["lo"] else ["lo"; "env3"])%string (Nat.iter k S 0%nat)).
Proof.
  apply (wait_interface_notices (HV:=slow_lib) (λ n, if (n <? 7)%nat then ["lo"] else ["lo"; "env3"])%string S (λ _, eq_refl)).
Defined.

Lemma update_keeps_rows_witness :
  ∃ d, runs (update_backing_devices (HE:=sim_env) "3") true set_up (Ret ()) true (with_devs d set_up) ∧ in_step d ∧
    rows d = [("2", ("4", "1")); ("1", ("1", "0"))]%string ∧ rows d ≡ₚ rows sim_devs ∧ nd_vnic_priority d = [VStr "60"; VInt 50].
Proof.
  assert (all_digits (chars_of "3")) as H by repeat constructor.
  exact (update_keeps_rows (HE:=sim_env) (HC:=sim_console) "3" "3" sim_second sim_details (default [] (sim_details !! 1%nat))
    sim_devs 1 "2" true set_up set_up_console H eq_refl sim_described eq_refl).
Defined.

(** The second server's name with the first one's number. *)
Lemma names_left_behind_witness :
  sim_next (backing_cmd "remove" sim_server "3" "5" "1" (backing_device "vios2" "1" "1" "0" "2" "50")) true = true ∧
  ∃ x, runs (update_backing_devices (HE:=sim_env) "3" ;; backing_dev_add_remove (HE:=sim_env) (HV:=sim_lib) "remove" 1)
         true set_up (Ret ()) true x.
Proof.
  split; [done|].
  apply (names_left_behind (HE:=sim_env) (HV:=sim_lib) (HC:=sim_console) "remove" "3" sim_second sim_details (default [] (sim_details !! 1%nat)) sim_devs 1 "2" 0
    "vios2" "1" "1" "0" (VInt 50) sim_params true true ""); try done; [exact set_up_console|exact sim_described|lia].
Defined.
