(* ===== verification/Bonding.v ===== *)
(** * The bonding tests: io/net/bonding.py

    The class [Bonding]: network interfaces of the host and of a peer that are joined to one,
    failed one by one, given other packet sizes and taken apart again.  netifaces, avocado's
    [NetworkInterface], [RemoteHost], [linux_modules], [genio.write_file] and package manager,
    [os.listdir] and the socket calls are the class [BondLib]. *)

From S2P Require Import Prelude PyStr PyFloat PyVal Avocado Logic.
Open Scope Z_scope.

(** ** Data *)

(** What setUp reads from the parameters. *)
Record bond_params := BondParams {
  bp_mode : pyval;
  bp_peer_public_ip : pyval;
  bp_user : pyval;
  bp_password : pyval;
  bp_host_interfaces : list string;
  bp_peer_interfaces : list string;
  bp_peer_ips : list string;              (* self.peer_first_ipinterface *)
  bp_ipaddr : list string;
  bp_netmask : pyval;
  bp_peer_bond_needed : pyval;
  bp_miimon : pyval;
  bp_fail_over_mac : pyval;
  bp_downdelay : pyval;
  bp_bond_name : string;
  bp_sleep_time : Z;
  bp_mtu : pyval;
  bp_ib : bool;
}.

(** The attributes of [self]; [None] is an attribute that is not set. *)
Record bond_self := BondSelf {
  bd_params : option bond_params;
  bd_session : option string;            (* the host of the session *)
  bd_err : option (list string);
  bd_remotehost : option pyval;          (* the address of the peer *)
  bd_local_ip : option string;
  bd_net_mask : option (list string);
  bd_gateway : option string;            (* bytes *)
}.

Definition new_bond : bond_self := BondSelf None None None None None None None.

Definition with_params (v : bond_params) (x : bond_self) : bond_self :=
  BondSelf (Some v) (bd_session x) (bd_err x) (bd_remotehost x) (bd_local_ip x) (bd_net_mask x) (bd_gateway x).
Definition with_session (v : string) (x : bond_self) : bond_self :=
  BondSelf (bd_params x) (Some v) (bd_err x) (bd_remotehost x) (bd_local_ip x) (bd_net_mask x) (bd_gateway x).
Definition with_err (v : list string) (x : bond_self) : bond_self :=
  BondSelf (bd_params x) (bd_session x) (Some v) (bd_remotehost x) (bd_local_ip x) (bd_net_mask x) (bd_gateway x).
Definition with_remotehost (v : pyval) (x : bond_self) : bond_self :=
  BondSelf (bd_params x) (bd_session x) (bd_err x) (Some v) (bd_local_ip x) (bd_net_mask x) (bd_gateway x).
Definition with_local_ip (v : string) (x : bond_self) : bond_self :=
  BondSelf (bd_params x) (bd_session x) (bd_err x) (bd_remotehost x) (Some v) (bd_net_mask x) (bd_gateway x).
Definition with_net_mask (v : list string) (x : bond_self) : bond_self :=
  BondSelf (bd_params x) (bd_session x) (bd_err x) (bd_remotehost x) (bd_local_ip x) (Some v) (bd_gateway x).
Definition with_gateway (v : string) (x : bond_self) : bond_self :=
  BondSelf (bd_params x) (bd_session x) (bd_err x) (bd_remotehost x) (bd_local_ip x) (bd_net_mask x) (Some v).

(** A [NetworkInterface]: its name and its host. *)
Record nic := Nic { nic_name : string; nic_host : pyval }.

(** The library functions that this test calls. *)
Class BondLib (W : Type) := {
  bo_lib : string → list pyval → W → result pyval * W;
  bo_interfaces : W → result (list string) * W;
  bo_listdir : string → W → result (list string) * W;
  (* netifaces.ifaddresses(interface)[2][0]['addr'] *)
  bo_addr : string → W → result string * W;
  (* the mask that ioctl gives for an interface *)
  bo_mask : string → W → result string * W;
  bo_distro : string;
  bo_name : string;           (* str(self.name) *)
  bo_test_name : string;      (* str(self.name.name) *)
}.

(** ** Text *)

Definition net_path : string := "/sys/class/net/".
Definition bond_dir (p : bond_params) : string := path_join net_path (bp_bond_name p).
Definition bond_status (p : bond_params) : string := "/proc/net/bonding/" +:+ bp_bond_name p.
Definition bonding_slave_file (p : bond_params) : string := bond_dir p +:+ "/bonding/slaves".
Definition bonding_masters_file : string := net_path +:+ "/bonding_masters".

Definition ruler : string := "------------------------------------------------".

Definition link_cmd (interface state : string) : string := "ip link set " +:+ interface +:+ " " +:+ state.
Definition ping_cmd (bond peer : string) : string := "ping -I " +:+ bond +:+ " " +:+ peer +:+ " -c 5".

(** A concatenation of commands. *)
Definition cmds (l : list string) : string := fold_right String.append ""%string l.

Definition show_cmd (bond : string) : string := "ip link                      show " +:+ bond.
Definition add_up_cmd (ip mask bond : string) : string :=
  "ip addr add " +:+ ip +:+ "/" +:+ mask +:+ " dev " +:+ bond +:+ ";ip link set " +:+ bond +:+ " up".
Definition setup_params : list (string * list string) :=
  [("0", ["packets_per_slave"; "resend_igmp"]);
   ("1", ["num_unsol_na"; "primary"; "primary_reselect"; "resend_igmp"]);
   ("2", ["xmit_hash_policy"]);
   ("4", ["lacp_rate"; "xmit_hash_policy"]);
   ("5", ["tlb_dynamic_lb"; "primary"; "primary_reselect"; "resend_igmp"; "xmit_hash_policy"; "lp_interval"]);
   ("6", ["primary"; "primary_reselect"; "resend_igmp"; "lp_interval"])]%string.

(** [line.split(':')[1]] of the last line with the mode. *)
Definition mode_in (lines : list string) : result string :=
  foldl (λ acc line,
    v ← acc;
    if py_in "Bonding Mode" line then
      match py_split_on ":" line with _ :: s :: _ => Ret s | _ => raise_ IndexError "list index out of range" end
    else Ret v) (Ret ""%string) lines.

Definition mode_is (v : pyval) (s : string) : bool := py_eq v (VStr s).

(** ** The class Bonding *)

Section Bonding.
Context {W : Type} {HE : Env W} {HB : BondLib W}.
Abbreviation T := (M W bond_self).

Definition in_name (s : string) : bool := py_in s bo_test_name.

Definition bo_call (fn : string) (args : list pyval) : T pyval := ext (EvCall fn args) (bo_lib fn args).
Definition bo_do (fn : string) (args : list pyval) : T () := _ ← bo_call fn args; mret ().
Definition params : T bond_params := attr "params" bd_params.

Definition network_interface (interface : string) (host : pyval) : T nic :=
  _ ← bo_call "NetworkInterface" [VStr interface; host]; mret (Nic interface host).
Definition ni_call (n : nic) (method : string) (args : list pyval) : T pyval :=
  bo_call ("NetworkInterface." +:+ method) (VStr (nic_name n) :: nic_host n :: args).
Definition ni_do (n : nic) (method : string) (args : list pyval) : T () := _ ← ni_call n method args; mret ().
Definition localhost : pyval := VStr "localhost".
Definition remotehost : T pyval := attr "remotehost" bd_remotehost.
Definition write_file (path : string) (text : pyval) : T () := bo_do "genio.write_file" [VStr path; text].

Definition sys (cmd : string) : T Z := process_system cmd [Shell; IgnoreStatus].
(** A command whose failure fails the test. *)
Definition sys_or_fail (cmd msg : string) : T () := status ← sys cmd; when (negb (status =? 0)) (test_fail msg).
Definition session_cmd (cmd : string) : T cmd_result := host ← attr "session" bd_session; ssh_cmd host cmd.
Definition first_of {A} (l : list A) : T A :=
  match l with a :: _ => mret a | [] => throw IndexError "list index out of range" end.
Definition pause : T () := p ← params; sleep (VInt (bp_sleep_time p)).

Definition flush_host (n : nic) : T () :=
  if String.eqb bo_distro "SuSE" then ni_do n "flush_ipaddr" [] else ni_do n "nm_flush_ipaddr" [].

(** [set_mtu] must give [None]. *)
Definition set_mtu (n : nic) (mtu : pyval) (msg : string) : T () :=
  r ← ni_call n "set_mtu" [mtu]; when (negb (is_None r)) (test_cancel msg).
Definition peer_mtu (mtu : pyval) (msg : string) : T () :=
  p ← params;
  for_each (bp_peer_interfaces p) (λ interface, host ← remotehost; n ← network_interface interface host; set_mtu n mtu msg).

(** *** Bonds on InfiniBand *)

Definition bond_ib_conf (bond_name arg1 arg2 : string) : T () :=
  sys_or_fail ("ip link set " +:+ bond_name +:+ " up;") ("unable to bring Bond interface " +:+ bond_name +:+ " up") ;;
  sys_or_fail (if String.eqb arg2 "ATTACH" then "ifenslave " +:+ bond_name +:+ " " +:+ arg1 +:+ " -f;"
               else "ifenslave " +:+ bond_name +:+ " -d " +:+ arg1 +:+ " ;")
    ("unable to " +:+ arg2 +:+ " IB interface ").

(** *** setUp *)

Definition depends : list string :=
  (if String.eqb bo_distro "Ubuntu" then ["openssh-client"; "iputils-ping"]
   else if existsb (String.eqb bo_distro) ["rhel"; "fedora"; "centos"; "redhat"] then ["openssh-clients"; "iputils"]
   else ["openssh"; "iputils"])%string.

Definition install_package (pkg : string) : T () :=
  c ← bo_call "SoftwareManager.check_installed" [VStr pkg];
  when (negb (truthy c))
    (i ← bo_call "SoftwareManager.install" [VStr pkg];
     when (negb (truthy i)) (test_cancel (pkg +:+ " package is need to test"))).

Definition words_param (key : string) : T (list string) :=
  v ← get_param key (VStr ""); s ← lift (as_text v); mret (py_split_on " " s).

(** The address is configured, or at least saved. *)
Definition configure (n : nic) (flush : T ()) (ipaddr : string) (netmask : pyval) : T () :=
  try_except (flush ;; ni_do n "add_ipaddr" [VStr ipaddr; netmask] ;; ni_do n "save" [VStr ipaddr; netmask]) any_exn
    (λ _, ni_do n "save" [VStr ipaddr; netmask]).

(** The loop over the interfaces of the host; the last object stays bound. *)
Definition configure_host (netmask : pyval) (last : option nic) (row : string * string) : T (option nic) :=
  let '(ipaddr, interface) := row in
  n ← network_interface interface localhost;
  configure n (flush_host n) ipaddr netmask ;;
  ni_do n "bring_up" [] ;;
  mret (Some n).

(** The interface that is brought up is that of the host. *)
Definition configure_peer (p : pyval * pyval * pyval * pyval * pyval) (last : option nic) (row : string * string) : T () :=
  let '(needed, peer_public_ip, user, password, netmask) := p in
  let '(ipaddr, interface) := row in
  when (truthy needed)
    (bo_do "RemoteHost" [peer_public_ip; user; password] ;;
     modify (with_remotehost peer_public_ip) ;;
     n ← network_interface interface peer_public_ip;
     configure n (ni_do n "nm_flush_ipaddr" []) ipaddr netmask ;;
     match last with
     | Some m => ni_do m "bring_up" []
     | None => throw OtherError "cannot access local variable 'networkinterface'"
     end).

Definition connect (host : pyval) (p : bond_params) : T bool :=
  ext (EvCall "Session.connect" [host]) (env_connect host (bp_user p) (bp_password p)).

(** At most [n] more attempts. *)
Fixpoint connect_again (host : pyval) (p : bond_params) (n : nat) : T bool :=
  match n with
  | O => mret false
  | S n' =>
      ok ← connect host p;
      if (ok : bool) then log_info "Was able to connect to peer." ;; mret true
      else sleep (VInt 5) ;; connect_again host p n'
  end.

Definition connect_peer (host : pyval) (p : bond_params) : T () :=
  modify (with_session (py_str host)) ;;
  bo_do "Session.cleanup_master" [host] ;;
  ok ← connect host p;
  when (negb ok)
    (if mode_is (bp_mode p) "4" then
       again ← connect_again host p 5; when (negb again) (test_cancel "failed connecting to peer")
     else test_cancel "failed connecting to peer").

(** The masks of the interface: one, empty when there is no address. *)
Definition mask_of (interface local_ip : string) : T (list string) :=
  if py_empty local_ip then mret [""%string]
  else mask ← ext (EvCall "fcntl.ioctl" [VStr interface]) (bo_mask interface); mret [mask].

Definition setup_ip : T () :=
  p ← params;
  interface ← (if py_in "setup" bo_name then first_of (bp_host_interfaces p) else mret (bp_bond_name p));
  ip ← first_of (bp_peer_ips p);
  output ← session_cmd ("ip addr show  | grep " +:+ ip);
  peer_first_interface ← lift (match last_opt (py_split (stdout_text output)) with
                               | Some w => Ret w
                               | None => raise_ IndexError "list index out of range"
                               end);
  when (py_empty peer_first_interface) (test_fail "test failed because peer interface can not retrieved") ;;
  local_ip ← ext (EvCall "netifaces.ifaddresses" [VStr interface]) (bo_addr interface);
  modify (with_local_ip local_ip) ;;
  net_mask ← mask_of interface local_ip;
  modify (with_net_mask net_mask) ;;
  gateway ← process_system_output ("route -n | grep " +:+ interface +:+ " | grep -w UG | awk '{ print $2 }'") [Shell];
  modify (with_gateway gateway).

(** What the parameters give after the interfaces are configured. *)
Definition bond_of (mode peer_public_ip user password : pyval) (host_interfaces peer_interfaces peer_ips ipaddr : list string)
    (netmask needed : pyval) : T bond_params :=
  miimon ← get_param "miimon" (VStr "100");
  fail_over_mac ← get_param "fail_over_mac" (VStr "2");
  downdelay ← get_param "downdelay" (VStr "0");
  b ← get_param "bond_name" (VStr "tempbond");
  bond_name ← lift (match b with VStr s => Ret s | _ => raise_ TypeError "join() argument must be str or bytes" end);
  s ← get_param "sleep_time" (VInt 10); sleep_time ← lift (py_int s);
  mtu ← get_param "mtu" (VInt 1500);
  let ib := match last_opt host_interfaces with Some i => starts_with (chars_of "ib") (chars_of i) | None => false end in
  mret (BondParams mode peer_public_ip user password host_interfaces peer_interfaces peer_ips ipaddr netmask needed miimon
          fail_over_mac downdelay bond_name sleep_time mtu ib).

(** The texts are never empty lists once they are split: the two tests of it are never true. *)
Definition read_params : T bond_params :=
  mode ← get_param "bonding_mode" (VStr "");
  when ((py_in "setup" bo_name || py_in "run" bo_name) && negb (truthy mode)) (test_cancel "test skipped because mode not specified") ;;
  interfaces ← silent bo_interfaces;
  peer_public_ip ← get_param "peer_public_ip" (VStr "");
  user ← get_param "user_name" (VStr "root");
  password ← get_param "peer_password" (VStr "None");
  host_interfaces ← words_param "bond_interfaces";
  peer_interfaces ← words_param "peer_interfaces";
  for_each host_interfaces (λ i, when (negb (existsb (String.eqb i) interfaces)) (test_cancel "interface is not available")) ;;
  peer_ips ← words_param "peer_ips";
  ipaddr ← words_param "host_ips";
  netmask ← get_param "netmask" (VStr "");
  needed ← get_param "peer_bond_needed" (VBool false);
  bo_do "LocalHost" [] ;;
  when (in_name "setup")
    (last ← for_acc (combine ipaddr host_interfaces) None (configure_host netmask);
     for_each (combine peer_ips peer_interfaces) (configure_peer (needed, peer_public_ip, user, password, netmask) last)) ;;
  bond_of mode peer_public_ip user password host_interfaces peer_interfaces peer_ips ipaddr netmask needed.

(** The address of the peer for the session and for the remote host. *)
Definition peer_address (p : bond_params) : T pyval :=
  if mode_is (bp_mode p) "4" && in_name "setup" then mret (bp_peer_public_ip p)
  else ip ← first_of (bp_peer_ips p); mret (VStr ip).

Definition setUp : T () :=
  for_each depends install_package ;;
  p ← read_params;
  modify (with_params p) ;;
  log_info ("Bond Test on IB Interface? = " +:+ (if bp_ib p then "True" else "False")) ;;
  dir ← silent (bo_listdir "/sys/class/net");
  when (in_name "test_cleanup" && existsb (String.eqb (bp_bond_name p)) dir)
    (ip ← first_of (bp_ipaddr p);
     _ ← sys ("ip addr add " +:+ ip +:+ "/" +:+ py_str (bp_netmask p) +:+ " dev " +:+ bp_bond_name p +:+ ";sleep 5;");
     mret ()) ;;
  host ← peer_address p;
  connect_peer host p ;;
  setup_ip ;;
  modify (with_err []) ;;
  bo_do "RemoteHost" [host; bp_user p; bp_password p] ;;
  modify (with_remotehost host) ;;
  when (in_name "setup")
    (peer_mtu (bp_mtu p) "Failed to set mtu in peer" ;;
     for_each (bp_host_interfaces p) (λ i, n ← network_interface i localhost; set_mtu n (bp_mtu p) "Failed to set mtu in host")).

(** *** Verification *)

Definition ping_check : T bool :=
  sleep (VInt 10) ;;
  p ← params; ip ← first_of (bp_peer_ips p);
  status ← sys (ping_cmd (bp_bond_name p) ip);
  mret (status =? 0).

Fixpoint any_vnic (interfaces : list string) : T bool :=
  match interfaces with
  | [] => mret false
  | interface :: interfaces' =>
      output ← process_system_output ("lsdevinfo -q name=" +:+ interface) [Shell];
      if py_in ("type=" +:+ DQ +:+ "IBM,vnic" +:+ DQ) output then mret true else any_vnic interfaces'
  end.
Definition is_vnic : T bool := p ← params; any_vnic (bp_host_interfaces p).

Definition error_check : T () :=
  err ← attr "err" bd_err;
  match err with [] => mret () | _ => test_fail ("Tests failed. Details:" +:+ NL +:+ py_join NL err) end.

Definition log_status : T () := p ← params; text ← read_file (bond_status p); log_info text.

(** *** Failing interfaces *)

Definition bring_down (interface msg : string) : T () := sys_or_fail (link_cmd interface "down") msg ;; pause.
Definition bring_up (interface msg : string) : T () := pause ;; sys_or_fail (link_cmd interface "up") msg ;; pause.

Definition fail_one (mode interface : string) : T () :=
  log_info ("Failing interface " +:+ interface +:+ " for mode " +:+ mode) ;;
  bring_down interface ("bonding not working when trying to down the                               interface " +:+ interface +:+ " ") ;;
  ok ← ping_check;
  (if (ok : bool) then log_info ("Ping passed for Mode " +:+ mode)
   else
     let error_str := "Ping fail in Mode " +:+ mode +:+ " when interface " +:+ interface +:+ " down" in
     log_debug error_str ;;
     err ← attr "err" bd_err; modify (with_err (err ++ [error_str]))) ;;
  log_status ;;
  bring_up interface ("Not able to bring up the slave                                    interface " +:+ interface).

(** All interfaces go down and come up again; a ping that still answers is not reported. *)
Definition fail_all (interfaces : list string) : T () :=
  for_each interfaces (λ interface, bring_down interface ("Could not bring down the interface " +:+ interface +:+ " ")) ;;
  ok ← ping_check;
  when (negb ok) (log_info "Ping to Bond interface failed. This is expected") ;;
  log_status ;;
  for_each interfaces (λ interface,
    bring_up interface ("Not able to bring up the slave                                interface " +:+ interface)).

Definition mtu_step (mtu : string) : T () :=
  p ← params;
  n ← network_interface (bp_bond_name p) localhost;
  set_mtu n (VStr mtu) "Failed to set mtu in host" ;;
  peer_mtu (VStr mtu) "Failed to set mtu in peer" ;;
  ok ← ping_check;
  (if (ok : bool) then log_info ("Ping success for mode " +:+ py_str (bp_mode p) +:+ " bond with  MTU " +:+ mtu)
   else test_fail ("Ping fail in mode " +:+ py_str (bp_mode p) +:+ " after MTU change to " +:+ mtu)) ;;
  r ← ni_call n "set_mtu" [VStr "1500"];
  when (truthy r) (test_cancel "Failed to set mtu back to 1500 in host") ;;
  peer_mtu (VStr "1500") "Failed to set mtu back to 1500 in peer".

Definition bond_mtus (vnic : bool) : list string :=
  if vnic then ["9000"%string] else ["2000"; "3000"; "4000"; "5000"; "6000"; "7000"; "8000"; "9000"]%string.

Definition bond_fail (arg1 : pyval) : T () :=
  p ← params;
  let interfaces := bp_host_interfaces p in
  (if (1 <? length interfaces)%nat then for_each interfaces (fail_one (py_str arg1))
   else log_debug "Need a min of 2 host interfaces to test                         slave failover in Bonding") ;;
  log_info (NL +:+ "----------------------------------------") ;;
  log_info ("Failing all interfaces for mode " +:+ py_str arg1) ;;
  log_info "----------------------------------------" ;;
  fail_all interfaces ;;
  vnic ← is_vnic;
  for_each (bond_mtus vnic) mtu_step.

(** *** Setting up *)

(** A parameter of the mode, when it is given. *)
Definition write_param (dir param : string) : T () :=
  v ← get_param param (VStr "");
  when (truthy v) (write_file (dir +:+ "/bonding/" +:+ param) v).

Definition mode_params (mode : pyval) : list string :=
  match mode with VStr s => default [] (dict_find s setup_params) | _ => [] end.

Definition attach (p : bond_params) (interface : string) : T () :=
  (if bp_ib p then bond_ib_conf (bp_bond_name p) interface "ATTACH"
   else write_file (bonding_slave_file p) (VStr ("+" +:+ interface))) ;;
  sleep (VInt 2).

(** Ten looks at the state, a minute apart. *)
Fixpoint wait_up (bond : string) (rounds : nat) : T () :=
  match rounds with
  | O => test_fail "Bonding setup on local machine has failed"
  | S rounds' =>
      output ← process_system_output (show_cmd bond) [Shell];
      if py_in "state UP" output then log_info "Bonding setup is successful on                                  local machine"
      else sleep (VInt 60) ;; wait_up bond rounds'
  end.

Definition default_route (args : string → string) : T () :=
  gateway ← attr "gateway" bd_gateway;
  when (negb (py_empty gateway)) (_ ← sys ("ip route add default via " +:+ args (bytes_repr gateway)); mret ()).

Definition setup_local (arg2 : pyval) : T () :=
  p ← params;
  let dir := bond_dir p in
  log_info "Configuring Bonding on Local machine" ;;
  log_info "--------------------------------------" ;;
  for_each (combine (bp_ipaddr p) (bp_host_interfaces p)) (λ '(_, i), n ← network_interface i localhost; flush_host n) ;;
  for_each (bp_host_interfaces p) (λ i, _ ← sys (link_cmd i "down"); mret ()) ;;
  bo_do "linux_modules.load_module" [VStr "bonding"] ;;
  write_file bonding_masters_file (VStr ("+" +:+ bp_bond_name p)) ;;
  write_file (dir +:+ "/bonding/mode") arg2 ;;
  write_file (dir +:+ "/bonding/miimon") (bp_miimon p) ;;
  write_file (dir +:+ "/bonding/fail_over_mac") (bp_fail_over_mac p) ;;
  write_file (dir +:+ "/bonding/downdelay") (bp_downdelay p) ;;
  for_each (mode_params (bp_mode p)) (write_param dir) ;;
  for_each (bp_host_interfaces p) (attach p) ;;
  text ← read_file (bond_status p);
  bond_name_val ← lift (mode_in (py_splitlines text));
  log_info ("Trying bond mode " +:+ py_str arg2 +:+ " [ " +:+ bond_name_val +:+ " ]") ;;
  for_each (bp_host_interfaces p) (λ i, sys_or_fail (link_cmd i "up") "unable to interface up") ;;
  local_ip ← attr "local_ip" bd_local_ip; masks ← attr "net_mask" bd_net_mask; mask ← first_of masks;
  _ ← sys (add_up_cmd local_ip mask (bp_bond_name p));
  wait_up (bp_bond_name p) 10 ;;
  default_route (λ gateway, gateway +:+ " dev " +:+ bp_bond_name p).

(** The part of a command for an interface, or the commands on this machine for InfiniBand. *)
Definition slave_cmd (p : bond_params) (sign operation : string) (cmd interface : string) : T string :=
  if bp_ib p then bond_ib_conf (bp_bond_name p) interface operation ;; mret cmd
  else mret (cmd +:+ "echo " +:+ DQ +:+ sign +:+ interface +:+ DQ +:+ " > " +:+ bonding_slave_file p +:+ ";").

Definition setup_peer : T () :=
  p ← params;
  let dir := bond_dir p in
  let l := bp_peer_interfaces p in
  log_info "Configuring Bonding on Peer machine" ;;
  log_info "------------------------------------------" ;;
  for_each (combine (bp_peer_ips p) l) (λ '(_, i), host ← remotehost; n ← network_interface i host; ni_do n "nm_flush_ipaddr" []) ;;
  let cmd := cmds (map (λ i, "ip addr flush dev " +:+ i +:+ ";") l ++ map (λ i, link_cmd i "down" +:+ ";") l ++
    ["modprobe bonding;"%string; "echo +" +:+ bp_bond_name p +:+ " > " +:+ bonding_masters_file +:+ ";";
     "echo 0 > " +:+ dir +:+ "/bonding/mode;"; "echo 100 > " +:+ dir +:+ "/bonding/miimon;";
     "echo 2 > " +:+ dir +:+ "/bonding/fail_over_mac;"]) in
  cmd ← for_acc l cmd (slave_cmd p "+" "ATTACH");
  ip ← first_of (bp_peer_ips p); masks ← attr "net_mask" bd_net_mask; mask ← first_of masks;
  output ← session_cmd (cmd +:+ cmds (map (λ i, link_cmd i "up" +:+ ";") l) +:+ add_up_cmd ip mask (bp_bond_name p) +:+ ";sleep 5;");
  when (negb (exit_status output =? 0)) (test_fail "bond setup command failed in peer machine").

Definition bond_setup (arg1 : string) (arg2 : pyval) : T () :=
  if String.eqb arg1 "local" then setup_local arg2 else setup_peer.

(** *** Removing *)

Definition detach (p : bond_params) (interface : string) : T () :=
  status ← sys (link_cmd interface "down");
  when (negb (status =? 0)) (log_info "unable to bring down the interface") ;;
  if bp_ib p then bond_ib_conf (bp_bond_name p) interface "REMOVE"
  else write_file (bonding_slave_file p) (VStr ("-" +:+ interface)).

Definition remove_local : T () :=
  p ← params;
  log_info "Removing Bonding configuration on local machine" ;;
  log_info ruler ;;
  for_each (bp_host_interfaces p) (detach p) ;;
  write_file bonding_masters_file (VStr ("-" +:+ bp_bond_name p)) ;;
  log_info "Removing bonding module" ;;
  bo_do "linux_modules.unload_module" [VStr "bonding"] ;;
  pause.

Definition remove_peer : T () :=
  p ← params;
  let l := bp_peer_interfaces p in
  log_info "Removing Bonding configuration on Peer machine" ;;
  log_info ruler ;;
  let cmd := cmds ((link_cmd (bp_bond_name p) "down" +:+ ";") :: map (λ i, link_cmd i "down" +:+ ";") l ++
    map (λ i, "ip addr flush dev " +:+ i +:+ ";") l) in
  cmd ← for_acc l cmd (slave_cmd p "-" "REMOVE");
  ip ← first_of (bp_peer_ips p); masks ← attr "net_mask" bd_net_mask; mask ← first_of masks; first ← first_of l;
  output ← session_cmd (cmd +:+ "echo " +:+ DQ +:+ "-" +:+ bp_bond_name p +:+ DQ +:+ " > " +:+ bonding_masters_file +:+
    ";rmmod bonding;" +:+ add_up_cmd ip mask first +:+ ";sleep 5;");
  when (negb (exit_status output =? 0)) (log_info "bond removing command failed in peer machine").

Definition bond_remove (arg1 : string) : T () := if String.eqb arg1 "local" then remove_local else remove_peer.

(** *** The tests *)

Definition test_setup : T () :=
  p ← params;
  output ← session_cmd ("[ -d " +:+ bond_dir p +:+ " ]");
  when (exit_status output =? 0) (test_fail "bond name already exists on peer machine") ;;
  d ← bo_call "os.path.isdir" [VStr (bond_dir p)];
  when (truthy d) (test_fail "bond name already exists on local machine") ;;
  when (truthy (bp_peer_bond_needed p)) (bond_setup "peer" (VStr "")) ;;
  bond_setup "local" (bp_mode p) ;;
  log_status ;;
  _ ← ping_check;
  error_check.

Definition test_run : T () :=
  p ← params;
  bond_fail (bp_mode p) ;;
  log_info ("Mode " +:+ py_str (bp_mode p) +:+ " OK") ;;
  error_check ;;
  sleep (VInt 5).

Definition restore_host (last : option nic) (row : string * string) : T (option nic) :=
  n ← network_interface row.2 localhost;
  try_except (flush_host n ;; ni_do n "restore_from_backup" [] ;; ni_do n "bring_up" []) any_exn
    (λ _, test_fail "Interface is taking long time to link up") ;;
  set_mtu n (VStr "1500") "Failed to set mtu in host" ;;
  mret (Some n).

(** The interface that is restored is the last one of the host. *)
Definition restore_peer (last : option nic) (row : string * string) : T () :=
  p ← params;
  bo_do "RemoteHost" [bp_peer_public_ip p; bp_user p; bp_password p] ;;
  modify (with_remotehost (bp_peer_public_ip p)) ;;
  n ← network_interface row.2 (bp_peer_public_ip p);
  try_except
    (ni_do n "nm_flush_ipaddr" [] ;;
     match last with
     | Some m => ni_do m "restore_from_backup" []
     | None => throw OtherError "cannot access local variable 'networkinterface'"
     end ;;
     ni_do n "bring_up" []) any_exn
    (λ _, ni_do n "save" [VStr row.1; bp_netmask p]) ;;
  pause.

Definition restart_cmd : string :=
  if String.eqb bo_distro "rhel" then "systemctl restart NetworkManager.service"
  else if String.eqb bo_distro "Ubuntu" then "systemctl restart networking"
  else "systemctl restart network".

Definition test_cleanup : T () :=
  bond_remove "local" ;;
  default_route id ;;
  p ← params;
  last ← for_acc (combine (bp_ipaddr p) (bp_host_interfaces p)) None restore_host;
  when (truthy (bp_peer_bond_needed p))
    (bond_remove "peer" ;; for_each (combine (bp_peer_ips p) (bp_peer_interfaces p)) (restore_peer last)) ;;
  error_check ;;
  sys_or_fail restart_cmd "Failed to restart the network service on host" ;;
  try_except
    (for_each (bp_peer_interfaces p) (λ i, host ← remotehost; n ← network_interface i host; ni_do n "set_mtu" [VStr "1500"]) ;;
     _ ← remotehost; bo_do "RemoteHost.remote_session.quit" []) any_exn
    (λ _, log_debug "Could not revert peer interface MTU to 1500").

Definition tearDown : T () := _ ← attr "session" bd_session; bo_do "Session.quit" [].
End Bonding.
