(* ===== verification/BondSystem.v ===== *)
(** * Verdicts of the bonding tests

    The class [BondMachine]: the interfaces that are up, the packet size of the bond and which of
    these let the peer answer.  The theorem: test_run passes exactly on a bond that survives the
    failure of each interface and carries every packet size, and leaves every interface up. *)

From S2P Require Import Prelude PyStr PyFloat PyVal Avocado Logic Bonding.
From stdpp Require Import gmap.
Open Scope Z_scope.

Abbreviation sys_flags := [Shell; IgnoreStatus].

Class BondMachine (W : Type) {HE : Env W} {HB : BondLib W} (p : bond_params) (peer : string) (remote : pyval) := {
  (* the interfaces that are up, the packet size, and when the peer answers *)
  bm_up : W → gset string;
  bm_mtu : W → string;
  bm_answers : gset string → string → bool;
  bm_down : string → W → W;
  bm_down_run i w : env_system (link_cmd i "down") sys_flags w = (Ret 0, bm_down i w);
  bm_down_up i w : bm_up (bm_down i w) = bm_up w ∖ {[i]};
  bm_down_mtu i w : bm_mtu (bm_down i w) = bm_mtu w;
  bm_raise : string → W → W;
  bm_raise_run i w : env_system (link_cmd i "up") sys_flags w = (Ret 0, bm_raise i w);
  bm_raise_up i w : bm_up (bm_raise i w) = {[i]} ∪ bm_up w;
  bm_raise_mtu i w : bm_mtu (bm_raise i w) = bm_mtu w;
  bm_ping w : env_system (ping_cmd (bp_bond_name p) peer) sys_flags w = (Ret (if bm_answers (bm_up w) (bm_mtu w) then 0 else 1), w);
  bm_status w : ∃ text, env_read (bond_status p) w = (Ret text, w);
  bm_info : string → string;
  bm_lsdevinfo i w : env_system_output ("lsdevinfo -q name=" +:+ i) [Shell] w = (Ret (bm_info i), w);
  bm_new i host w : ∃ v, bo_lib "NetworkInterface" [VStr i; host] w = (Ret v, w);
  (* the size of the bond is set; that of the interfaces of the peer follows *)
  bm_size : string → W → W;
  bm_set_mtu m w : bo_lib "NetworkInterface.set_mtu" [VStr (bp_bond_name p); localhost; VStr m] w = (Ret VNone, bm_size m w);
  bm_size_up m w : bm_up (bm_size m w) = bm_up w;
  bm_size_mtu m w : bm_mtu (bm_size m w) = m;
  bm_peer_mtu i m w : bo_lib "NetworkInterface.set_mtu" [VStr i; remote; VStr m] w = (Ret VNone, w);
}.

Section machine.
Context {W : Type} {HE : Env W} {HB : BondLib W} (p : bond_params) (peer : string) (remote : pyval).
Context {HM : BondMachine W p peer remote}.
Implicit Types (w : W) (x : bond_self).

(** What setUp leaves: the errors so far are [err]. *)
Record bond_ready (err : list string) x : Prop := {
  br_params : bd_params x = Some p;
  br_peer : ∃ rest, bp_peer_ips p = peer :: rest;
  br_remote : bd_remotehost x = Some remote;
  br_err : bd_err x = Some err;
  br_sleep : 0 ≤ bp_sleep_time p;
}.

Lemma ready_err err err' x : bond_ready err x → bond_ready err' (with_err err' x).
Proof using Type. by intros []. Qed.

Lemma params_runs err w x : bond_ready err x → runs params w x (Ret p) w x.
Proof using Type. intros []. by apply runs_attr. Qed.

Lemma pause_runs err w x : bond_ready err x → runs pause w x (Ret ()) w x.
Proof using Type.
  intros Hx. unfold pause. run_by params_runs; [exact Hx|]. apply runs_sleep. unfold sleepable. cbn [as_num].
  rewrite num_lt_int. apply negb_true_iff, Z.ltb_ge, Hx.
Qed.

Lemma peer_ip_runs err w x : bond_ready err x → runs (first_of (bp_peer_ips p)) w x (Ret peer) w x.
Proof using Type. intros [_ [rest ->] _ _ _]. apply runs_ret. Qed.

Lemma sys_or_fail_runs cmd msg w w' x : env_system cmd sys_flags w = (Ret 0, w') → runs (sys_or_fail cmd msg) w x (Ret ()) w' x.
Proof using Type. intros H. unfold sys_or_fail, sys. eapply runs_bind; [by apply runs_ext|]. cbv beta. run. Qed.

Lemma bring_down_runs err i msg w x : bond_ready err x → runs (bring_down i msg) w x (Ret ()) (bm_down i w) x.
Proof using Type. intros Hx. unfold bring_down. run_by sys_or_fail_runs; [apply bm_down_run|]. by eapply pause_runs. Qed.

Lemma bring_up_runs err i msg w x : bond_ready err x → runs (bring_up i msg) w x (Ret ()) (bm_raise i w) x.
Proof using Type.
  intros Hx. unfold bring_up. run_by pause_runs; [exact Hx|]. run_by sys_or_fail_runs; [apply bm_raise_run|]. by eapply pause_runs.
Qed.

Lemma ping_check_runs err w x : bond_ready err x → runs ping_check w x (Ret (bm_answers (bm_up w) (bm_mtu w))) w x.
Proof using Type.
  intros Hx. unfold ping_check, sys. run_step. run_by params_runs; [exact Hx|]. run_by peer_ip_runs; [exact Hx|].
  eapply runs_bind; [apply runs_ext, bm_ping|]. cbv beta. destruct (bm_answers _ _); apply runs_ret.
Qed.

Lemma log_status_runs err w x : bond_ready err x → runs log_status w x (Ret ()) w x.
Proof using Type*.
  intros Hx. unfold log_status. run_by params_runs; [exact Hx|]. destruct (bm_status w) as [text Ht].
  eapply runs_bind; [by apply runs_silent|]. run.
Qed.

(** ** Failing one interface *)

(** The peer answers while the interface is down. *)
Definition survives (up : gset string) (mtu i : string) : bool := bm_answers (up ∖ {[i]}) mtu.

Lemma fail_one_runs mode i err w x : bond_ready err x → i ∈ bm_up w →
  ∃ err' w' x', runs (fail_one mode i) w x (Ret ()) w' x' ∧ bond_ready err' x' ∧ bm_up w' = bm_up w ∧ bm_mtu w' = bm_mtu w ∧
    (err' = [] ↔ err = [] ∧ survives (bm_up w) (bm_mtu w) i = true).
Proof using Type*.
  intros Hx Hi. set (w1 := bm_down i w). assert (bm_answers (bm_up w1) (bm_mtu w1) = survives (bm_up w) (bm_mtu w) i) as E.
  { unfold w1, survives. by rewrite bm_down_up, bm_down_mtu. }
  set (msg := ("Ping fail in Mode " +:+ mode +:+ " when interface " +:+ i +:+ " down")%string).
  set (ok := survives (bm_up w) (bm_mtu w) i) in *. set (err' := if ok then err else err ++ [msg]).
  assert (∃ x', runs (if ok then log_info ("Ping passed for Mode " +:+ mode)
    else log_debug msg ;; err ← attr "err" bd_err; modify (with_err (err ++ [msg]))) w1 x (Ret ()) w1 x' ∧ bond_ready err' x') as (x' & Hr & Hx').
  { unfold err'. destruct ok; [exists x; split; [run|done]|]. exists (with_err (err ++ [msg]) x). split; [|by eapply ready_err].
    run_step. eapply runs_bind; [apply runs_attr, Hx|]. apply runs_modify. }
  exists err', (bm_raise i w1), x'. split; [|split; [done|split; [|split]]].
  - unfold fail_one. run_step. run_by bring_down_runs; [exact Hx|]. fold w1. run_by ping_check_runs; [exact Hx|]. rewrite E.
    run_by Hr. run_by log_status_runs; [exact Hx'|]. by eapply bring_up_runs.
  - unfold w1. rewrite bm_raise_up, bm_down_up. set_unfold. intros j. destruct (decide (j = i)) as [->|]; naive_solver.
  - unfold w1. by rewrite bm_raise_mtu, bm_down_mtu.
  - unfold err'. destruct ok; [tauto|]. split; [intros H; by apply app_eq_nil in H as [_ ?]|by intros [_ ?]].
Qed.

Lemma fail_each_runs mode w x : bond_ready [] x → (∀ i, i ∈ bp_host_interfaces p → i ∈ bm_up w) →
  ∃ err w' x', runs (for_each (bp_host_interfaces p) (fail_one mode)) w x (Ret ()) w' x' ∧ bond_ready err x' ∧
    bm_up w' = bm_up w ∧ bm_mtu w' = bm_mtu w ∧ (err = [] ↔ Forall (λ i, survives (bm_up w) (bm_mtu w) i = true) (bp_host_interfaces p)).
Proof using Type*.
  intros Hx Hup. destruct (runs_for_each (bp_host_interfaces p) (fail_one mode) (λ done w' x', ∃ err, bond_ready err x' ∧
    bm_up w' = bm_up w ∧ bm_mtu w' = bm_mtu w ∧ (err = [] ↔ Forall (λ i, survives (bm_up w) (bm_mtu w) i = true) done)) w x)
    as (w' & x' & Hr & err & H1 & H2 & H3 & H4); [| |by exists err, w', x'].
  - intros dn i todo w1 x1 Hl (err & H1 & H2 & H3 & H4). destruct (fail_one_runs mode i err w1 x1) as (err' & w2 & x2 & Hr & G1 & G2 & G3 & G4);
      [done|rewrite H2; apply Hup; rewrite Hl; set_solver|]. exists w2, x2. split; [done|]. exists err'. rewrite G2, G3, H2, H3.
    split_and!; [done..|]. rewrite G4, H4, H2, H3, Forall_app, Forall_singleton. done.
  - exists []. split_and!; done.
Qed.

(** ** Failing all *)

Lemma down_all_runs msg err l w x : bond_ready err x →
  ∃ w', runs (for_each l (λ i, bring_down i (msg i))) w x (Ret ()) w' x ∧ bm_up w' = bm_up w ∖ list_to_set l ∧ bm_mtu w' = bm_mtu w.
Proof using Type*.
  intros Hx. revert w. induction l as [|i l IH]; intros w; cbn [for_each].
  { exists w. split; [apply runs_ret|]. split; [set_solver|done]. }
  destruct (IH (bm_down i w)) as (w' & Hr & Hu & Hm). exists w'. split; [run_by bring_down_runs; [exact Hx|exact Hr]|].
  rewrite Hu, Hm, bm_down_up, bm_down_mtu. split; [set_solver|done].
Qed.

Lemma up_all_runs msg err l w x : bond_ready err x →
  ∃ w', runs (for_each l (λ i, bring_up i (msg i))) w x (Ret ()) w' x ∧ bm_up w' = list_to_set l ∪ bm_up w ∧ bm_mtu w' = bm_mtu w.
Proof using Type*.
  intros Hx. revert w. induction l as [|i l IH]; intros w; cbn [for_each].
  { exists w. split; [apply runs_ret|]. split; [set_solver|done]. }
  destruct (IH (bm_raise i w)) as (w' & Hr & Hu & Hm). exists w'. split; [run_by bring_up_runs; [exact Hx|exact Hr]|].
  rewrite Hu, Hm, bm_raise_up, bm_raise_mtu. split; [set_solver|done].
Qed.

Lemma fail_all_runs err l w x : bond_ready err x → (∀ i, i ∈ l → i ∈ bm_up w) →
  ∃ w', runs (fail_all l) w x (Ret ()) w' x ∧ bm_up w' = bm_up w ∧ bm_mtu w' = bm_mtu w.
Proof using Type*.
  intros Hx Hl. destruct (down_all_runs (λ i, "Could not bring down the interface " +:+ i +:+ " ")%string err l w x Hx) as (w1 & H1 & Hu1 & Hm1).
  destruct (up_all_runs (λ i, "Not able to bring up the slave                                interface " +:+ i)%string err l w1 x Hx)
    as (w2 & H2 & Hu2 & Hm2). exists w2. split; [|split; [|by rewrite Hm2, Hm1]].
  - unfold fail_all. run_by H1. run_by ping_check_runs; [exact Hx|].
    assert (∀ b : bool, runs (when b (log_info "Ping to Bond interface failed. This is expected")) w1 x (Ret ()) w1 x) as Hlog
      by (intros []; run). run_by Hlog.
    run_by log_status_runs; [exact Hx|]. exact H2.
  - rewrite Hu2, Hu1. apply set_eq. intros j. rewrite elem_of_union, elem_of_difference, elem_of_list_to_set.
    destruct (decide (j ∈ l)) as [Hj|Hj]; [|tauto]. specialize (Hl _ Hj). tauto.
Qed.

(** ** Packet sizes *)

Lemma set_mtu_runs m msg w x : runs (set_mtu (Nic (bp_bond_name p) localhost) (VStr m) msg) w x (Ret ()) (bm_size m w) x.
Proof using Type. unfold set_mtu, ni_call, bo_call. eapply runs_bind; [apply runs_ext, bm_set_mtu|]. apply (runs_when_false _). Qed.

Lemma network_interface_runs i host w x : runs (network_interface i host) w x (Ret (Nic i host)) w x.
Proof using HM.
  unfold network_interface, bo_call. destruct (bm_new i host w) as [v Hv]. eapply runs_bind; [by apply runs_ext|]. apply runs_ret.
Qed.

Lemma peer_mtu_runs err m msg w x : bond_ready err x → runs (peer_mtu (VStr m) msg) w x (Ret ()) w x.
Proof using HM.
  intros Hx. unfold peer_mtu. run_by params_runs; [exact Hx|]. apply runs_each. intros i _.
  eapply runs_bind; [apply runs_attr, Hx|]. cbv beta. run_by network_interface_runs.
  unfold set_mtu, ni_call, bo_call. cbn [nic_name nic_host]. eapply runs_bind; [apply runs_ext, bm_peer_mtu|]. apply (runs_when_false _).
Qed.

(** A size that the bond carries, and one that it does not. *)
Lemma mtu_step_runs err m w x : bond_ready err x →
  if bm_answers (bm_up w) m
  then ∃ w', runs (mtu_step m) w x (Ret ()) w' x ∧ bm_up w' = bm_up w
  else ∃ msg w', runs (mtu_step m) w x (raise_ TestFail msg) w' x ∧ bm_up w' = bm_up w.
Proof using HM.
  intros Hx. set (w1 := bm_size m w). assert (bm_answers (bm_up w1) (bm_mtu w1) = bm_answers (bm_up w) m) as E.
  { unfold w1. by rewrite bm_size_up, bm_size_mtu. }
  destruct (bm_answers (bm_up w) m) eqn:Ea.
  - exists (bm_size "1500" w1). split; [|unfold w1; by rewrite !bm_size_up]. unfold mtu_step. run_by params_runs; [exact Hx|].
    run_by network_interface_runs. run_by set_mtu_runs. fold w1. run_by peer_mtu_runs; [exact Hx|]. run_by ping_check_runs; [exact Hx|].
    rewrite E. run_step. unfold ni_call, bo_call. cbn [nic_name nic_host]. eapply runs_bind; [apply runs_ext, bm_set_mtu|]. cbv beta.
    cbn [truthy]. run_step. by eapply peer_mtu_runs.
  - eexists _, w1. split; [|unfold w1; by rewrite bm_size_up]. unfold mtu_step. run_by params_runs; [exact Hx|].
    run_by network_interface_runs. run_by set_mtu_runs. fold w1. run_by peer_mtu_runs; [exact Hx|]. run_by ping_check_runs; [exact Hx|].
    rewrite E. eapply runs_bind_raise. apply runs_throw.
Qed.

Lemma mtus_run err l w x : bond_ready err x →
  if forallb (bm_answers (bm_up w)) l
  then ∃ w', runs (for_each l mtu_step) w x (Ret ()) w' x ∧ bm_up w' = bm_up w
  else ∃ msg w', runs (for_each l mtu_step) w x (raise_ TestFail msg) w' x ∧ bm_up w' = bm_up w.
Proof using HM.
  intros Hx. revert w. induction l as [|m l IH]; intros w; cbn [for_each forallb]; [exists w; split; [apply runs_ret|done]|].
  pose proof (mtu_step_runs err m w x Hx) as H. destruct (bm_answers (bm_up w) m); cbn [andb].
  - destruct H as (w1 & H1 & Hu). specialize (IH w1). rewrite Hu in IH. destruct (forallb _ l).
    + destruct IH as (w2 & H2 & Hu2). exists w2. split; [by run_by H1|done].
    + destruct IH as (msg & w2 & H2 & Hu2). exists msg, w2. split; [by run_by H1|done].
  - destruct H as (msg & w1 & H1 & Hu). exists msg, w1. split; [by eapply runs_bind_raise|done].
Qed.

Definition vnic : bool := existsb (λ i, py_in ("type=" +:+ DQ +:+ "IBM,vnic" +:+ DQ) (bm_info i)) (bp_host_interfaces p).

Lemma is_vnic_runs err w x : bond_ready err x → runs is_vnic w x (Ret vnic) w x.
Proof using HM.
  intros Hx. unfold is_vnic, vnic. run_by params_runs; [exact Hx|]. induction (bp_host_interfaces p) as [|i l IH]; cbn [any_vnic existsb];
    [apply runs_ret|]. eapply runs_bind; [apply runs_ext, bm_lsdevinfo|]. cbv beta.
  destruct (py_in _ (bm_info i)); cbn [orb]; [apply runs_ret|exact IH].
Qed.

(** The bond survives the failure of each interface, if there are two or more, and carries every
    packet size. *)
Definition bond_holds w : bool :=
  ((length (bp_host_interfaces p) <=? 1)%nat || forallb (survives (bm_up w) (bm_mtu w)) (bp_host_interfaces p)) &&
  forallb (bm_answers (bm_up w)) (bond_mtus vnic).

Lemma singles_run mode w x : bond_ready [] x → (∀ i, i ∈ bp_host_interfaces p → i ∈ bm_up w) →
  ∃ err w' x', runs (if (1 <? length (bp_host_interfaces p))%nat then for_each (bp_host_interfaces p) (fail_one mode)
      else log_debug "Need a min of 2 host interfaces to test                         slave failover in Bonding") w x (Ret ()) w' x' ∧
    bond_ready err x' ∧ bm_up w' = bm_up w ∧ bm_mtu w' = bm_mtu w ∧
    (err = [] ↔ (length (bp_host_interfaces p) <=? 1)%nat || forallb (survives (bm_up w) (bm_mtu w)) (bp_host_interfaces p) = true).
Proof using HM.
  intros Hx Hup. destruct (Nat.leb_spec (length (bp_host_interfaces p)) 1) as [Hl|Hl]; cbn [orb].
  - exists [], w, x. destruct (Nat.ltb_spec 1 (length (bp_host_interfaces p))); [lia|]. split; [run|]. done.
  - destruct (fail_each_runs mode w x Hx Hup) as (err & w' & x' & Hr & H1 & H2 & H3 & H4). exists err, w', x'.
    destruct (Nat.ltb_spec 1 (length (bp_host_interfaces p))); [|lia]. split_and!; [done..|].
    rewrite H4, forallb_forall, list.Forall_forall. by setoid_rewrite list_elem_of_In.
Qed.

(** C26: [test_run], with every interface of the bond up: it passes exactly when the peer answers
    with each single interface down (of two or more) and with every packet size, and fails
    otherwise; in both cases every interface that was up is up at the end. *)
Theorem test_run_verdict w x : bond_ready [] x → (∀ i, i ∈ bp_host_interfaces p → i ∈ bm_up w) →
  ∃ r w' x', runs test_run w x r w' x' ∧ bm_up w' = bm_up w ∧ verdict_of r = if bond_holds w then PASS else FAIL.
Proof using HM.
  intros Hx Hup. destruct (singles_run (py_str (bp_mode p)) w x Hx Hup) as (err & w1 & x1 & H1 & Hx1 & Hu1 & Hm1 & He).
  destruct (fail_all_runs err (bp_host_interfaces p) w1 x1 Hx1) as (w2 & H2 & Hu2 & Hm2); [by rewrite Hu1|].
  pose proof (mtus_run err (bond_mtus vnic) w2 x1 Hx1) as H3. rewrite Hu2, Hu1 in H3. unfold bond_holds.
  assert (∀ r w', runs (for_each (bond_mtus vnic) mtu_step) w2 x1 r w' x1 → runs (bond_fail (bp_mode p)) w x r w' x1) as Hb.
  { intros r w' H. unfold bond_fail. run_by params_runs; [exact Hx|]. run_by H1. do 3 run_step. run_by H2.
    run_by is_vnic_runs; [exact Hx1|]. exact H. }
  destruct (forallb (bm_answers (bm_up w)) (bond_mtus vnic)); rewrite ?andb_true_r, ?andb_false_r.
  - destruct H3 as (w3 & H3 & Hu3). assert (runs (attr "err" bd_err) w3 x1 (Ret err) w3 x1) as Herr by apply runs_attr, Hx1.
    destruct err as [|e err].
    + rewrite (proj1 He eq_refl). exists (Ret ()), w3, x1. split; [|by rewrite Hu3]. unfold test_run. run_by params_runs; [exact Hx|].
      run_by Hb; [exact H3|]. run_step. unfold error_check. eapply runs_bind; [run_by Herr; apply runs_ret|]. run.
    + destruct (_ || _) eqn:E; [by discriminate (proj2 He eq_refl)|]. eexists (raise_ TestFail _), w3, x1. split; [|by rewrite Hu3]. unfold test_run.
      run_by params_runs; [exact Hx|]. run_by Hb; [exact H3|]. run_step. eapply runs_bind_raise. unfold error_check. run_by Herr. apply runs_throw.
  - destruct H3 as (msg & w3 & H3 & Hu3). exists (raise_ TestFail msg), w3, x1. split; [|by rewrite Hu3]. unfold test_run.
    run_by params_runs; [exact Hx|]. eapply runs_bind_raise. by apply Hb.
Qed.
End machine.
