(* ===== verification/BondSetup.v ===== *)
(** * Making a bond and taking it apart

    The class [BondSysfs]: the bond with its interfaces as the files under /sys/class/net show it,
    and the number of looks after which it is up.  The theorem: the set-up on the local machine
    makes a bond of the interfaces that are given, waits for it at most ten looks, and the removal
    leaves no bond. *)

From S2P Require Import Prelude PyStr PyFloat PyVal Avocado Logic Bonding.
Open Scope Z_scope.

(** Only the bond counts: its interfaces, [None] when there is none, and the looks until it is up. *)
Class BondState (W : Type) := { bs_slaves : W → option (list string); bs_delay : W → nat }.
Definition same_bond {W} {HS : BondState W} (w w' : W) : Prop := bs_slaves w' = bs_slaves w ∧ bs_delay w' = bs_delay w.

Class BondSysfs (W : Type) {HE : Env W} {HB : BondLib W} {HS : BondState W} (p : bond_params) := {
  (* writing to the files of the bond *)
  bs_add w : bs_slaves w = None →
    ∃ v w', bo_lib "genio.write_file" [VStr bonding_masters_file; VStr ("+" +:+ bp_bond_name p)] w = (Ret v, w') ∧
      bs_slaves w' = Some [] ∧ bs_delay w' = bs_delay w;
  bs_remove w :
    ∃ v w', bo_lib "genio.write_file" [VStr bonding_masters_file; VStr ("-" +:+ bp_bond_name p)] w = (Ret v, w') ∧ bs_slaves w' = None;
  bs_enslave i l w : bs_slaves w = Some l → i ∉ l →
    ∃ v w', bo_lib "genio.write_file" [VStr (bonding_slave_file p); VStr ("+" +:+ i)] w = (Ret v, w') ∧
      bs_slaves w' = Some (l ++ [i]) ∧ bs_delay w' = bs_delay w;
  bs_release i w : ∃ v w', bo_lib "genio.write_file" [VStr (bonding_slave_file p); VStr ("-" +:+ i)] w = (Ret v, w');
  bs_option name v w : name ≠ "slaves"%string →
    ∃ u w', bo_lib "genio.write_file" [VStr (bond_dir p +:+ "/bonding/" +:+ name); v] w = (Ret u, w') ∧ same_bond w w';
  (* the other calls and commands do not change it; the interfaces can be brought up *)
  bs_call fn args w : fn ≠ "genio.write_file"%string → ∃ v w', bo_lib fn args w = (Ret v, w') ∧ same_bond w w';
  bs_system cmd w : ∃ code w', env_system cmd [Shell; IgnoreStatus] w = (Ret code, w') ∧ same_bond w w';
  bs_link_up i w : ∃ w', env_system (link_cmd i "up") [Shell; IgnoreStatus] w = (Ret 0, w') ∧ same_bond w w';
  bs_status w : ∃ text mode, env_read (bond_status p) w = (Ret text, w) ∧ mode_in (py_splitlines text) = Ret mode;
  (* what is printed of the link *)
  bs_show w : ∃ text w', env_system_output (show_cmd (bp_bond_name p)) [Shell] w = (Ret text, w') ∧
    py_in "state UP" text = bool_decide (bs_delay w = 0%nat) ∧ bs_slaves w' = bs_slaves w ∧ bs_delay w' = pred (bs_delay w);
}.

#[export] Instance same_bond_preorder {W} {HS : BondState W} : PreOrder (same_bond (W:=W)).
Proof. split; [by split|]. intros w1 w2 w3 [H1 H2] [H3 H4]. split; congruence. Qed.

Section sysfs.
Context {W : Type} {HE : Env W} {HB : BondLib W} {HS : BondState W} (p : bond_params) {HM : BondSysfs W p}.
Implicit Types (w : W) (x : bond_self).

(** What setUp leaves, for interfaces that are not InfiniBand. *)
Record configured x : Prop := {
  cf_params : bd_params x = Some p;
  cf_ib : bp_ib p = false;
  cf_distinct : NoDup (bp_host_interfaces p);
  cf_ip : ∃ ip, bd_local_ip x = Some ip;
  cf_mask : ∃ mask masks, bd_net_mask x = Some (mask :: masks);
  cf_gateway : ∃ gateway, bd_gateway x = Some gateway;
  cf_sleep : 0 ≤ bp_sleep_time p;
}.

(** A computation that leaves the bond alone. *)
Definition leaves_bond {A} (m : M W bond_self A) : Prop := ∀ w x, ∃ a w', runs m w x (Ret a) w' x ∧ same_bond w w'.

Lemma leaves_ret {A} (a : A) : leaves_bond (mret a).
Proof using Type. intros w x. exists a, w. split; [apply runs_ret|done]. Qed.

Lemma leaves_bind {A B} (m : M W bond_self A) (f : A → M W bond_self B) :
  leaves_bond m → (∀ a, leaves_bond (f a)) → leaves_bond (m ≫= f).
Proof using Type.
  intros Hm Hf w x. destruct (Hm w x) as (a & w1 & H1 & S1). destruct (Hf a w1 x) as (b & w2 & H2 & S2).
  exists b, w2. split; [by eapply runs_bind|by transitivity w1].
Qed.

Lemma leaves_each {X} (l : list X) (body : X → M W bond_self ()) : (∀ y, y ∈ l → leaves_bond (body y)) → leaves_bond (for_each l body).
Proof using Type.
  intros Hb. induction l as [|y l IH]; cbn [for_each]; [apply leaves_ret|]. apply leaves_bind; [apply Hb; left|]. intros _.
  apply IH. intros z Hz. apply Hb. by right.
Qed.

Lemma leaves_call fn args : fn ≠ "genio.write_file"%string → leaves_bond (bo_call fn args).
Proof using HM.
  intros Hf w x. destruct (bs_call fn args w Hf) as (v & w' & H & S). exists v, w'. split; [by apply runs_ext|done].
Qed.

Lemma leaves_do fn args : fn ≠ "genio.write_file"%string → leaves_bond (bo_do fn args).
Proof using HM. intros Hf. apply leaves_bind; [by apply leaves_call|]. intros v. apply leaves_ret. Qed.

Lemma leaves_sys cmd : leaves_bond (sys cmd).
Proof using HM. intros w x. destruct (bs_system cmd w) as (c & w' & H & S). exists c, w'. split; [by apply runs_ext|done]. Qed.

Lemma leaves_option name v : name ≠ "slaves"%string → leaves_bond (write_file (bond_dir p +:+ "/bonding/" +:+ name) v).
Proof using HM.
  intros Hn. apply leaves_bind; [|intros u; apply leaves_ret]. intros w x. destruct (bs_option name v w Hn) as (u & w' & H & S).
  exists u, w'. split; [by apply runs_ext|done].
Qed.

Lemma leaves_up i msg : leaves_bond (sys_or_fail (link_cmd i "up") msg).
Proof using HM.
  intros w x. destruct (bs_link_up i w) as (w' & H & S). exists (), w'. split; [|done]. unfold sys_or_fail, sys.
  eapply runs_bind; [by apply runs_ext|]. run.
Qed.

Lemma leaves_log l msg : leaves_bond (log l msg).
Proof using Type. intros w x. exists (), w. split; [apply runs_log|done]. Qed.

Lemma leaves_flush i : leaves_bond (n ← network_interface i localhost; flush_host n).
Proof using HM.
  apply leaves_bind.
  - apply leaves_bind; [by apply leaves_call|]. intros v. apply leaves_ret.
  - intros n. unfold flush_host. destruct (String.eqb bo_distro "SuSE"); (apply leaves_bind; [by apply leaves_call|intros v; apply leaves_ret]).
Qed.

(** The options of a mode. *)
Lemma mode_params_names mode name : name ∈ mode_params mode → name ≠ "slaves"%string.
Proof using Type.
  revert name. apply list.Forall_forall. unfold mode_params. destruct mode as [| | | |s| |]; try by constructor.
  unfold setup_params. cbn [dict_find].
  repeat match goal with |- context [String.eqb ?k s] => destruct (String.eqb k s); [by repeat constructor|] end. by constructor.
Qed.

Lemma leaves_param name : name ≠ "slaves"%string → leaves_bond (write_param (bond_dir p) name).
Proof using HM.
  intros Hn. unfold write_param. apply leaves_bind; [apply leaves_ret|]. intros v. destruct (truthy v); [by apply leaves_option|apply leaves_ret].
Qed.

(** A statement that leaves the bond alone, and the rest of the block. *)
Lemma leaves_then {A B} (m : M W bond_self A) (f : A → M W bond_self B) (Q : result B → W → Prop) w x :
  leaves_bond m → (∀ a w1, same_bond w w1 → ∃ r w', runs (f a) w1 x r w' x ∧ Q r w') →
  ∃ r w', runs (m ≫= f) w x r w' x ∧ Q r w'.
Proof using Type.
  intros Hm Hf. destruct (Hm w x) as (a & w1 & H1 & S1). destruct (Hf a w1 S1) as (r & w2 & H2 & HQ).
  exists r, w2. split; [by eapply runs_bind|done].
Qed.

Lemma runs_then {A B} (m : M W bond_self A) (f : A → M W bond_self B) (Q : result B → W → Prop) a w w1 x :
  runs m w x (Ret a) w1 x → (∃ r w', runs (f a) w1 x r w' x ∧ Q r w') → ∃ r w', runs (m ≫= f) w x r w' x ∧ Q r w'.
Proof using Type. intros H1 (r & w2 & H2 & HQ). exists r, w2. split; [by eapply runs_bind|done]. Qed.

Lemma write_runs path v w u w' x :
  bo_lib "genio.write_file" [VStr path; v] w = (Ret u, w') → runs (write_file path v) w x (Ret ()) w' x.
Proof using Type. intros H. unfold write_file, bo_do, bo_call. eapply runs_bind; [by apply runs_ext|apply runs_ret]. Qed.

(** ** Enslaving *)

Lemma attach_all_runs l done_ w x : configured x → bs_slaves w = Some done_ → NoDup (done_ ++ l) →
  ∃ w', runs (for_each l (attach p)) w x (Ret ()) w' x ∧ bs_slaves w' = Some (done_ ++ l) ∧ bs_delay w' = bs_delay w.
Proof using HM.
  intros Hx. revert done_ w. induction l as [|i l IH]; intros done_ w Hw Hn; cbn [for_each].
  { exists w. rewrite app_nil_r. split; [apply runs_ret|done]. }
  destruct (bs_enslave i done_ w Hw) as (v & w1 & H1 & Hs1 & Hd1).
  { apply list.NoDup_app in Hn as (_ & Hn & _). intros Hin. apply (Hn i Hin). left. }
  destruct (IH (done_ ++ [i]) w1 Hs1) as (w2 & H2 & Hs2 & Hd2); [by rewrite <- app_assoc|].
  exists w2. rewrite <- app_assoc in Hs2. split; [|split; [done|by rewrite Hd2]]. eapply runs_bind; [|exact H2].
  unfold attach. rewrite (cf_ib _ Hx). run_by write_runs; [exact H1|]. run.
Qed.

Lemma wait_up_runs n w x :
  ∃ r w', runs (wait_up (bp_bond_name p) n) w x r w' x ∧ bs_slaves w' = bs_slaves w ∧
    (if (bs_delay w <? n)%nat then r = Ret () else r = raise_ TestFail "Bonding setup on local machine has failed").
Proof using HM.
  revert w. induction n as [|n IH]; intros w; cbn [wait_up].
  { eexists _, w. split; [apply runs_throw|]. done. }
  destruct (bs_show w) as (text & w1 & H1 & Ht & Hs & Hd). destruct (IH w1) as (r & w2 & H2 & Hs2 & Hr). rewrite Hd in Hr.
  destruct (decide (bs_delay w = 0%nat)) as [E|E].
  - exists (Ret ()), w1. split; [|split; [done|by rewrite E]]. eapply runs_bind; [by apply runs_ext|]. cbv beta.
    rewrite Ht, bool_decide_true by done. run.
  - exists r, w2. split; [|split; [by rewrite Hs2|]].
    + eapply runs_bind; [by apply runs_ext|]. cbv beta. rewrite Ht, bool_decide_false by done. run_step. exact H2.
    + destruct (Nat.ltb_spec (pred (bs_delay w)) n), (Nat.ltb_spec (bs_delay w) (S n)); done || lia.
Qed.

Lemma default_route_leaves f w x : configured x → ∃ r w', runs (default_route f) w x r w' x ∧ r = Ret () ∧ bs_slaves w' = bs_slaves w.
Proof using HM.
  intros Hx. destruct (cf_gateway _ Hx) as [gateway Hg]. unfold default_route. eapply runs_then; [by apply runs_attr|]. cbv beta.
  destruct (py_empty gateway); cbn [negb].
  - exists (Ret ()), w. split; [apply runs_when_false|done].
  - destruct (leaves_sys ("ip route add default via " +:+ f (bytes_repr gateway)) w x) as (c & w' & H & S). exists (Ret ()), w'.
    split; [|split; [done|apply S]]. apply runs_when_true. run_by H. apply runs_ret.
Qed.

(** From the bond with its interfaces to the end of the set-up. *)
Lemma setup_end_runs w x : configured x →
  ∃ r w', runs (wait_up (bp_bond_name p) 10 ;; default_route (λ gateway, gateway +:+ " dev " +:+ bp_bond_name p)) w x r w' x ∧
    bs_slaves w' = bs_slaves w ∧ verdict_of r = if (bs_delay w <? 10)%nat then PASS else FAIL.
Proof using HM.
  intros Hx. destruct (wait_up_runs 10 w x) as (r & w1 & H1 & Hs1 & Hr). destruct (bs_delay w <? 10)%nat; subst r.
  - destruct (default_route_leaves (λ gateway, gateway +:+ " dev " +:+ bp_bond_name p)%string w1 x Hx) as (r & w2 & H2 & -> & Hs2).
    exists (Ret ()), w2. split; [by run_by H1|]. split; [by rewrite Hs2|done].
  - eexists _, w1. split; [by eapply runs_bind_raise|done].
Qed.

Lemma setup_local_runs mode w x : configured x → bs_slaves w = None →
  ∃ r w', runs (setup_local mode) w x r w' x ∧ bs_slaves w' = Some (bp_host_interfaces p) ∧
    verdict_of r = if (bs_delay w <? 10)%nat then PASS else FAIL.
Proof using HM.
  intros Hx Hw. unfold setup_local. eapply runs_then; [apply runs_attr, Hx|]. cbv beta. cbv zeta.
  apply leaves_then; [apply leaves_log|]. intros _ w1 S1. apply leaves_then; [apply leaves_log|]. intros _ w2 S2.
  apply leaves_then; [apply leaves_each; intros [? i] _; apply leaves_flush|]. intros _ w3 S3.
  apply leaves_then; [apply leaves_each; intros i _; apply leaves_bind; [apply leaves_sys|intros ?; apply leaves_ret]|]. intros _ w4 S4.
  apply leaves_then; [by apply leaves_do|]. intros _ w5 S5.
  assert (same_bond w w5) as [Hs Hd] by (by do 4 (etransitivity; [eassumption|])). rewrite <- Hd. rewrite <- Hs in Hw. clear w Hs Hd w1 w2 w3 w4 S1 S2 S3 S4 S5.
  destruct (bs_add w5 Hw) as (v & w & H & Hs & Hd). rewrite <- Hd. clear Hd. eapply runs_then; [by apply (write_runs _ _ _ v)|]. clear w5 H Hw.
  apply leaves_then; [exact (leaves_option "mode" mode ltac:(done))|]. intros _ w1 S1.
  apply leaves_then; [exact (leaves_option "miimon" _ ltac:(done))|]. intros _ w2 S2.
  apply leaves_then; [exact (leaves_option "fail_over_mac" _ ltac:(done))|]. intros _ w3 S3.
  apply leaves_then; [exact (leaves_option "downdelay" _ ltac:(done))|]. intros _ w4 S4.
  apply leaves_then; [apply leaves_each; intros name Hn; apply leaves_param; by eapply mode_params_names|]. intros _ w5 S5.
  assert (same_bond w w5) as [Hs5 Hd5] by (by do 4 (etransitivity; [eassumption|])). rewrite <- Hd5. rewrite Hs in Hs5.
  clear w Hs Hd5 w1 w2 w3 w4 S1 S2 S3 S4 S5.
  destruct (attach_all_runs (bp_host_interfaces p) [] w5 x Hx Hs5) as (w & H & Hs & Hd); [apply Hx|]. rewrite <- Hd. clear Hd.
  eapply runs_then; [exact H|]. clear w5 H Hs5. destruct (bs_status w) as (text & md & Ht & Hm).
  eapply runs_then; [by apply runs_silent|]. cbv beta. rewrite Hm. eapply runs_then; [apply runs_lift|]. cbv beta.
  apply leaves_then; [apply leaves_log|]. intros _ w1 S1.
  apply leaves_then; [apply leaves_each; intros i _; apply leaves_up|]. intros _ w2 S2.
  destruct (cf_ip _ Hx) as [ip Hip]. destruct (cf_mask _ Hx) as (mask & masks & Hmask).
  eapply runs_then; [by apply runs_attr|]. cbv beta. eapply runs_then; [by apply runs_attr|]. cbv beta.
  eapply runs_then; [apply (runs_ret mask)|]. cbv beta. apply leaves_then; [apply leaves_sys|]. intros _ w3 S3.
  assert (same_bond w w3) as [Hs3 Hd3] by (by do 2 (etransitivity; [eassumption|])). rewrite <- Hd3.
  destruct (setup_end_runs w3 x Hx) as (r & w4 & H4 & Hs4 & Hr). exists r, w4. split; [exact H4|]. by rewrite Hs4, Hs3.
Qed.

Lemma detach_all_runs l w x : configured x → ∃ w', runs (for_each l (detach p)) w x (Ret ()) w' x.
Proof using HM.
  intros Hx. revert w. induction l as [|i l IH]; intros w; cbn [for_each]; [exists w; apply runs_ret|].
  destruct (leaves_sys (link_cmd i "down") w x) as (c & w1 & H1 & _). destruct (bs_release i w1) as (v & w2 & H2).
  destruct (IH w2) as [w3 H3]. exists w3. eapply runs_bind; [|exact H3]. unfold detach. run_by H1.
  assert (∀ b : bool, runs (when b (log_info "unable to bring down the interface")) w1 x (Ret ()) w1 x) as Hl by (intros []; run).
  run_by Hl. rewrite (cf_ib _ Hx). by eapply write_runs.
Qed.

Lemma remove_local_runs w x : configured x → ∃ w', runs remove_local w x (Ret ()) w' x ∧ bs_slaves w' = None.
Proof using HM.
  intros Hx. unfold remove_local. destruct (detach_all_runs (bp_host_interfaces p) w x Hx) as [w1 H1].
  destruct (bs_remove w1) as (v & w2 & H2 & Hs2). destruct (bs_call "linux_modules.unload_module" [VStr "bonding"] w2) as (u & w3 & H3 & Hs3 & _);
    [done|]. exists w3. split; [|by rewrite Hs3]. eapply runs_bind; [apply runs_attr, Hx|]. cbv beta. do 2 run_step. run_by H1.
  run_by write_runs; [exact H2|]. run_step. eapply runs_bind; [unfold bo_do, bo_call; eapply runs_bind; [by apply runs_ext|apply runs_ret]|]. cbv beta.
  unfold pause. eapply runs_bind; [apply runs_attr, Hx|]. cbv beta. apply runs_sleep. unfold sleepable. cbn [as_num].
  rewrite num_lt_int. apply negb_true_iff, Z.ltb_ge, Hx.
Qed.

(** C25: where there is no bond, and for interfaces that are distinct and not InfiniBand, the set-up on
    the local machine makes a bond of exactly the interfaces that are given, in their order; it passes
    exactly when the bond is up at one of ten looks; and the removal that follows leaves no bond. *)
Theorem setup_then_remove mode w x : configured x → bs_slaves w = None →
  ∃ r w1, runs (bond_setup "local" mode) w x r w1 x ∧ bs_slaves w1 = Some (bp_host_interfaces p) ∧
    verdict_of r = (if (bs_delay w <? 10)%nat then PASS else FAIL) ∧
    ∃ w2, runs (bond_remove "local") w1 x (Ret ()) w2 x ∧ bs_slaves w2 = None.
Proof using HM.
  intros Hx Hw. destruct (setup_local_runs mode w x Hx Hw) as (r & w1 & H1 & Hs & Hr). exists r, w1.
  split; [exact H1|]. split; [done|]. split; [done|]. by apply remove_local_runs.
Qed.
End sysfs.
