(* ===== verification/BondSim.v ===== *)
(** * Simulated machines for the bonding tests

    A machine with two interfaces that go up and down, and one with the files of a bond: instances
    of the classes of BondSystem and BondSetup, on which the theorems are applied. *)

From S2P Require Import Prelude PyStr PyFloat PyVal Avocado Logic Bonding BondSystem BondSetup.
From stdpp Require Import gmap.
Open Scope Z_scope.

Definition sim_params : bond_params :=
  BondParams (VStr "1") (VStr "9.0.0.2") (VStr "root") (VStr "x") ["env2"; "env3"] ["env2"; "env3"] ["10.0.0.2"] ["10.0.0.1"; "10.0.1.1"]
    (VStr "255.255.255.0") (VBool false) (VStr "100") (VStr "2") (VStr "0") "bond0" 10 (VInt 1500) false.

(** The other functions of the environment are not used. *)
Definition bond_env {W} (system : string → W → W) (answer : string → W → Z) (output : string → W → string * W) : Env W := {|
  env_run := λ _ _ w, (Ret (CmdResult 0 ""), w);
  env_system := λ cmd _ w, (Ret (answer cmd w), system cmd w);
  env_system_output := λ cmd _ w, (Ret (output cmd w).1, (output cmd w).2);
  env_ssh := λ _ _ w, (Ret (CmdResult 0 ""), w);
  env_connect := λ _ _ _ w, (Ret true, w);
  env_show := λ r, stdout_text r;
  env_param := λ _ d, d;
  env_exists := λ _ w, (true, w);
  env_read := λ _ w, (Ret "Bonding Mode: active-backup"%string, w);
  env_append := λ _ _ w, (Ret (), w);
  env_remove := λ _ w, (Ret (), w);
  env_random := λ w, (0, w);
|}.

Definition bond_lib {W} (lib : string → list pyval → W → W) : BondLib W := {|
  bo_lib := λ fn args w, (Ret VNone, lib fn args w);
  bo_interfaces := λ w, (Ret ["env2"; "env3"]%string, w);
  bo_listdir := λ _ w, (Ret ["env2"; "env3"]%string, w);
  bo_addr := λ _ w, (Ret "10.0.0.1"%string, w);
  bo_mask := λ _ w, (Ret "255.255.255.0"%string, w);
  bo_distro := "rhel";
  bo_name := "1-bonding.py:Bonding.test_run";
  bo_test_name := "bonding.py:Bonding.test_run";
|}.

(** ** Interfaces that are up, and the packet size *)

Abbreviation links := (gset string * string)%type.

(** The interface of a command, and whether it goes up. *)
Definition link_of (cmd : string) : option (string * bool) :=
  match drop_prefix (chars_of "ip link set ") (chars_of cmd) with
  | Some rest =>
      match drop_prefix (rev (chars_of " down")) (rev rest), drop_prefix (rev (chars_of " up")) (rev rest) with
      | Some i, _ => Some (str_of (rev i), false)
      | None, Some i => Some (str_of (rev i), true)
      | None, None => None
      end
  | None => None
  end.

Lemma link_of_down i : link_of (link_cmd i "down") = Some (i, false).
Proof.
  unfold link_of, link_cmd. rewrite !chars_of_app, drop_prefix_app. change (chars_of " ") with [" "%char]. rewrite rev_app_distr.
  change (rev ([" "%char] ++ chars_of "down")) with (rev (chars_of " down")). by rewrite drop_prefix_app, rev_involutive, str_of_chars_of.
Qed.
Lemma link_of_up i : link_of (link_cmd i "up") = Some (i, true).
Proof.
  unfold link_of, link_cmd. rewrite !chars_of_app, drop_prefix_app. change (chars_of " ") with [" "%char]. rewrite rev_app_distr.
  change (rev ([" "%char] ++ chars_of "up")) with (rev (chars_of " up")). rewrite drop_prefix_app. cbn.
  by rewrite rev_involutive, str_of_chars_of.
Qed.

Definition link_system (cmd : string) (w : links) : links :=
  match link_of cmd with
  | Some (i, true) => ({[i]} ∪ w.1, w.2)
  | Some (i, false) => (w.1 ∖ {[i]}, w.2)
  | None => w
  end.

(** The peer answers while one of the interfaces is up. *)
Definition link_answers (up : gset string) (mtu : string) : bool := bool_decide ("env2" ∈ up) || bool_decide ("env3" ∈ up).
Definition link_answer (cmd : string) (w : links) : Z :=
  match link_of cmd with Some _ => 0 | None => if link_answers w.1 w.2 then 0 else 1 end.

Definition link_env : Env links := bond_env link_system link_answer (λ _ w, (""%string, w)).
Definition size_lib (fn : string) (args : list pyval) (w : links) : links :=
  match args with
  | [VStr i; VStr host; VStr m] =>
      if String.eqb fn "NetworkInterface.set_mtu" && String.eqb i "bond0" && String.eqb host "localhost" then (w.1, m) else w
  | _ => w
  end.
Definition link_lib : BondLib links := bond_lib size_lib.

#[local, refine] Instance link_machine : BondMachine links (HE:=link_env) (HB:=link_lib) sim_params "10.0.0.2" (VStr "10.0.0.2") := {|
  bm_up := fst;
  bm_mtu := snd;
  bm_answers := link_answers;
  bm_down := λ i, link_system (link_cmd i "down");
  bm_down_run := _;
  bm_down_up := _;
  bm_down_mtu := _;
  bm_raise := λ i, link_system (link_cmd i "up");
  bm_raise_run := _;
  bm_raise_up := _;
  bm_raise_mtu := _;
  bm_ping := _;
  bm_status := _;
  bm_info := λ _, ""%string;
  bm_lsdevinfo := _;
  bm_new := _;
  bm_size := λ m w, (w.1, m);
  bm_set_mtu := _;
  bm_size_up := _;
  bm_size_mtu := _;
  bm_peer_mtu := _;
|}.
Proof.
  - intros i w. cbn. unfold link_answer. by rewrite link_of_down.
  - intros i w. unfold link_system. by rewrite link_of_down.
  - intros i w. unfold link_system. by rewrite link_of_down.
  - intros i w. cbn. unfold link_answer. by rewrite link_of_up.
  - intros i w. unfold link_system. by rewrite link_of_up.
  - intros i w. unfold link_system. by rewrite link_of_up.
  - done.
  - intros w. by eexists.
  - done.
  - intros i host w. exists VNone. cbn. by destruct host.
  - done.
  - done.
  - done.
  - intros i m w. cbn. by rewrite andb_false_r.
Defined.

Definition run_self : bond_self :=
  BondSelf (Some sim_params) (Some "10.0.0.2") (Some []) (Some (VStr "10.0.0.2")) (Some "10.0.0.1") (Some ["255.255.255.0"]) (Some "").

Lemma run_ready : bond_ready sim_params "10.0.0.2" (VStr "10.0.0.2") [] run_self.
Proof. split; [done|by exists []|done..]. Qed.

Lemma test_run_verdict_witness :
  ∃ r w x, runs (test_run (HE:=link_env) (HB:=link_lib)) ({["env2"; "env3"]}, "1500"%string) run_self r w x ∧
    w.1 = {["env2"; "env3"]} ∧ verdict_of r = PASS.
Proof.
  refine (test_run_verdict (HE:=link_env) (HB:=link_lib) sim_params "10.0.0.2" (VStr "10.0.0.2") (HM:=link_machine)
    ({["env2"; "env3"]}, "1500"%string) run_self run_ready _).
  intros i Hi. change (i ∈ ({["env2"; "env3"]} : gset string)). cbn in Hi. set_solver.
Defined.

(** ** The files of a bond *)

Abbreviation sysfs := (option (list string) * nat)%type.

Definition file_lib (fn : string) (args : list pyval) (w : sysfs) : sysfs :=
  match args with
  | [VStr path; VStr (String sign i)] =>
      if negb (String.eqb fn "genio.write_file") then w
      else if String.eqb path bonding_masters_file then (if Ascii.eqb sign "+" then Some [] else None, w.2)
      else if String.eqb path (bonding_slave_file sim_params) then
        (if Ascii.eqb sign "+" then (λ l, l ++ [i]) <$> w.1 else List.filter (λ j, negb (String.eqb i j)) <$> w.1, w.2)
      else w
  | _ => w
  end.
Definition file_lib_of : BondLib sysfs := bond_lib file_lib.
Definition file_env : Env sysfs :=
  bond_env (λ _ w, w) (λ _ _, 0) (λ _ w, (if Nat.eqb w.2 0 then "state UP"%string else "state DOWN"%string, (w.1, pred w.2))).
#[local] Instance file_state : BondState sysfs := {| bs_slaves := fst; bs_delay := snd |}.

Lemma other_call fn args w : fn ≠ "genio.write_file"%string → file_lib fn args w = w.
Proof.
  intros H%String.eqb_neq. unfold file_lib. destruct args as [|[| | | |path| |] [|[| | | |[|sign i]| |] [|? ?]]]; try done. by rewrite H.
Qed.

Lemma option_file name : name ≠ "slaves"%string →
  String.eqb (bond_dir sim_params +:+ "/bonding/" +:+ name) bonding_masters_file = false ∧
  String.eqb (bond_dir sim_params +:+ "/bonding/" +:+ name) (bonding_slave_file sim_params) = false.
Proof. intros H%String.eqb_neq. split; [done|]. exact H. Qed.

#[local, refine] Instance file_machine : BondSysfs sysfs (HE:=file_env) (HB:=file_lib_of) sim_params := {|
  bs_add := _;
  bs_remove := _;
  bs_enslave := _;
  bs_release := _;
  bs_option := _;
  bs_call := _;
  bs_system := _;
  bs_link_up := _;
  bs_status := _;
  bs_show := _;
|}.
Proof.
  - intros w _. by exists VNone, (Some [], w.2).
  - intros w. by exists VNone, (None, w.2).
  - intros i l w Hw _. exists VNone, (Some (l ++ [i]), w.2). split; [|done]. cbn in *. by rewrite Hw.
  - intros i w. by eexists _, _.
  - intros name v w Hn. exists VNone, w. split; [|done]. destruct (option_file name Hn) as [E1 E2]. cbn [bo_lib file_lib_of bond_lib].
    f_equal. unfold file_lib. destruct v as [| | | |[|sign i]| |]; try done. by rewrite E1, E2.
  - intros fn args w Hf. exists VNone, w. split; [|done]. cbn [bo_lib file_lib_of bond_lib]. by rewrite other_call.
  - intros cmd w. by exists 0, w.
  - intros i w. by exists w.
  - intros w. by eexists _, _.
  - intros w. exists (if Nat.eqb w.2 0 then "state UP"%string else "state DOWN"%string), (w.1, pred w.2).
    split; [done|]. split; [|done]. destruct w as [l [|n]]; done.
Defined.

Lemma run_configured : configured sim_params run_self.
Proof. split; try done; [|by eexists|by eexists _, _|by eexists]. by apply (bool_decide_eq_true_1 _). Qed.

Lemma setup_then_remove_witness :
  ∃ r w1, runs (bond_setup (HE:=file_env) (HB:=file_lib_of) "local" (VStr "1")) (None, 4%nat) run_self r w1 run_self ∧
    w1.1 = Some ["env2"; "env3"]%string ∧ verdict_of r = PASS ∧
    ∃ w2, runs (bond_remove (HE:=file_env) (HB:=file_lib_of) "local") w1 run_self (Ret ()) w2 run_self ∧ w2.1 = None.
Proof.
  exact (setup_then_remove (HE:=file_env) (HB:=file_lib_of) sim_params (HM:=file_machine) (VStr "1") (None, 4%nat) run_self
    run_configured eq_refl).
Defined.
