(* ===== verification/FuncGraph.v ===== *)
(** * The function graph test: trace/function_graph_retval.py

    The class [FunctionGraphRetval]: a kernel module is built and loaded while the function graph
    tracer runs, once with return values and once without, and the trace is searched for them.
    The library functions are the class [GraphLib].  A failure is a line in [self.failures];
    what writing or reading a file raises becomes such a line. *)

From S2P Require Import Prelude PyStr PyFloat PyVal PyRegex Avocado Logic.
Open Scope Z_scope.

(** ** Data *)

(** The attributes that the end of setUp sets. *)
Record fg_self := FgSelf {
  fg_tracefs : option string;
  fg_current_tracer : option string;
  fg_tracing_on : option string;
  fg_trace_file : option string;
  fg_module_dir : option string;
  fg_module_name : option string;
  fg_module_loaded : option bool;
  fg_failures : option (list string);
}.

Definition new_fg : fg_self := FgSelf None None None None None None None None.

Definition with_tracefs (v : string) (x : fg_self) : fg_self :=
  FgSelf (Some v) (fg_current_tracer x) (fg_tracing_on x) (fg_trace_file x) (fg_module_dir x) (fg_module_name x)
    (fg_module_loaded x) (fg_failures x).
Definition with_current_tracer (v : string) (x : fg_self) : fg_self :=
  FgSelf (fg_tracefs x) (Some v) (fg_tracing_on x) (fg_trace_file x) (fg_module_dir x) (fg_module_name x)
    (fg_module_loaded x) (fg_failures x).
Definition with_tracing_on (v : string) (x : fg_self) : fg_self :=
  FgSelf (fg_tracefs x) (fg_current_tracer x) (Some v) (fg_trace_file x) (fg_module_dir x) (fg_module_name x)
    (fg_module_loaded x) (fg_failures x).
Definition with_trace_file (v : string) (x : fg_self) : fg_self :=
  FgSelf (fg_tracefs x) (fg_current_tracer x) (fg_tracing_on x) (Some v) (fg_module_dir x) (fg_module_name x)
    (fg_module_loaded x) (fg_failures x).
Definition with_module_dir (v : string) (x : fg_self) : fg_self :=
  FgSelf (fg_tracefs x) (fg_current_tracer x) (fg_tracing_on x) (fg_trace_file x) (Some v) (fg_module_name x)
    (fg_module_loaded x) (fg_failures x).
Definition with_module_name (v : string) (x : fg_self) : fg_self :=
  FgSelf (fg_tracefs x) (fg_current_tracer x) (fg_tracing_on x) (fg_trace_file x) (fg_module_dir x) (Some v)
    (fg_module_loaded x) (fg_failures x).
Definition with_module_loaded (v : bool) (x : fg_self) : fg_self :=
  FgSelf (fg_tracefs x) (fg_current_tracer x) (fg_tracing_on x) (fg_trace_file x) (fg_module_dir x) (fg_module_name x)
    (Some v) (fg_failures x).
Definition with_failures (v : list string) (x : fg_self) : fg_self :=
  FgSelf (fg_tracefs x) (fg_current_tracer x) (fg_tracing_on x) (fg_trace_file x) (fg_module_dir x) (fg_module_name x)
    (fg_module_loaded x) (Some v).

(** A function of the trace: the dictionary with the keys line_num, value and full_line. *)
Record occurrence := Occ { line_num : Z; value : string; full_line : string }.

(** What [_search_module_functions_in_trace] returns. *)
Record scan := Scan {
  found : dict (list occurrence);
  retval_count : Z;
  has_graph_output : bool;
  lines_scanned : Z;
}.

(** The library functions that this test calls. *)
Class GraphLib (W : Type) := {
  gl_lib : string → list pyval → W → result pyval * W;
  gl_mkdtemp : W → result string * W;
  (* os.path.isfile *)
  gl_isfile : string → W → bool * W;
  (* linux_modules.check_kernel_config(config) == ModuleConfig.NOT_SET *)
  gl_not_set : string → W → result bool * W;
  gl_data : string → option string;      (* self.get_data *)
  gl_machine : string;                   (* platform.machine() *)
  gl_distro : string;                    (* distro.detect().name *)
  gl_release : string;                   (* os.uname()[2] *)
  gl_outputdir : string;                 (* self.outputdir *)
}.

(** ** The return values of a trace *)

Definition is_hex_char (c : ascii) : bool :=
  is_digit c || ((97 <=? ch_code c) && (ch_code c <=? 102)) || ((65 <=? ch_code c) && (ch_code c <=? 70)).

(** Blanks, and an optional name with the name of a module in brackets. *)
Definition function_part : re :=
  (RStar Rspace ~>
   ROpt (RGroup 1 (RPlus Rword) ~>
         ROpt (RPlus Rspace ~> RChar "[" ~> RPlus Rword ~> RChar "]") ~>
         RStar Rspace))%re.

(** A hexadecimal or decimal number and the end of the comment. *)
Definition value_part : re :=
  (RGroup 2 (RAlt (RLit "0x" ~> RPlus (RClass is_hex_char)) (ROpt (RChar "-") ~> RPlus Rdigit)) ~>
   RStar Rspace ~> RLit "*/")%re.

Definition retval_pattern : re :=
  (RLit "/*" ~> function_part ~> RChar "=" ~> RStar Rspace ~> value_part)%re.

(** The name, 'anonymous' where there is none, and the value. *)
Definition retval_of (line : string) : option (string * string) :=
  match re_search retval_pattern line with
  | Some m => Some (if py_empty (m_group 1 m) then "anonymous"%string else m_group 1 m, m_group 2 m)
  | None => None
  end.

Definition has_brace (line : string) : bool := py_in "{" line || py_in "}" line.

(** The line is counted, and looked at for a brace. *)
Definition see_line (n : Z) (line : string) (s : scan) : scan :=
  Scan (found s) (retval_count s) (if negb (has_graph_output s) && has_brace line then true else has_graph_output s) n.
Definition count_value (s : scan) : scan :=
  Scan (found s) (retval_count s + 1) (has_graph_output s) (lines_scanned s).
Definition add_occurrence (name : string) (o : occurrence) (s : scan) : scan :=
  let d := match dict_find name (found s) with Some _ => found s | None => dict_put name [] (found s) end in
  Scan (dict_put name (default [] (dict_find name d) ++ [o]) d) (retval_count s) (has_graph_output s) (lines_scanned s).

(** [max_samples and retval_count >= max_samples] *)
Definition enough (max_samples : option Z) (s : scan) : bool :=
  match max_samples with Some m => negb (m =? 0) && (m <=? retval_count s) | None => false end.

Definition is_found (name : string) (s : scan) : bool := bool_decide (is_Some (dict_find name (found s))).

(** ** The class FunctionGraphRetval *)

Definition rule60 : string := "============================================================".
Definition init_name : string := "test_retval_init".
Definition expected_funcs : list string :=
  ["test_retval_func"; "test_retval_large"; "test_retval_zero"; "test_retval_negative"]%string.

Section FunctionGraphRetval.
Context {W : Type} {HE : Env W} {HG : GraphLib W}.
Abbreviation T := (M W fg_self).

Definition gl_call (fn : string) (args : list pyval) : T pyval := ext (EvCall fn args) (gl_lib fn args).
Definition gl_do (fn : string) (args : list pyval) : T () := _ ← gl_call fn args; mret ().
Definition tracefs : T string := attr "tracefs" fg_tracefs.
Definition current_tracer : T string := attr "current_tracer" fg_current_tracer.
Definition tracing_on : T string := attr "tracing_on" fg_tracing_on.
Definition trace_file : T string := attr "trace_file" fg_trace_file.
Definition module_dir : T string := attr "module_dir" fg_module_dir.
Definition module_name : T string := attr "module_name" fg_module_name.
Definition failures : T (list string) := attr "failures" fg_failures.
Definition add_failure (msg : string) : T () := fs ← failures; modify (with_failures (fs ++ [msg])).
Definition title (msg : string) : T () := log_info rule60 ;; log_info msg ;; log_info rule60.

(** *** setUp *)

Definition check_kernel_config : T () :=
  missing ← for_acc ["CONFIG_FUNCTION_GRAPH_TRACER"; "CONFIG_HAVE_FUNCTION_GRAPH_FREGS"]%string [] (λ missing config,
    b ← ext (EvCall "linux_modules.check_kernel_config" [VStr config]) (gl_not_set config);
    mret (if (b : bool) then missing ++ [config] else missing));
  when (negb (bool_decide (missing = [])))
    (test_cancel ("Required kernel configs not enabled: " +:+ py_join ", " missing)) ;;
  log_info "All required kernel configurations are enabled".

Definition packages : list string :=
  "gcc"%string :: "make"%string ::
  (if existsb (String.eqb gl_distro) ["Ubuntu"; "debian"]%string then ["linux-headers-" +:+ gl_release]%string
   else if py_in "SuSE" gl_distro then ["kernel-source"]%string
   else if existsb (String.eqb gl_distro) ["centos"; "fedora"; "rhel"]%string then ["kernel-devel"; "kernel-headers"]%string
   else []).

Definition install_package (package : string) : T () :=
  c ← gl_call "SoftwareManager.check_installed" [VStr package];
  when (negb (truthy c))
    (i ← gl_call "SoftwareManager.install" [VStr package];
     when (negb (truthy i)) (test_cancel ("Package " +:+ package +:+ " is required for module building"))).

Definition debugfs : string := "/sys/kernel/debug/tracing".

Definition setUp : T () :=
  when (negb (existsb (String.eqb gl_machine) ["ppc64le"; "ppc64"]%string))
    (test_cancel "Test is specific to PowerPC architecture") ;;
  output ← process_system_output "lsprop /proc/device-tree/ibm,secure-boot 2>/dev/null" [IgnoreStatus; Shell];
  when (py_in "00000002" output) (test_cancel "Secure boot is enabled, cannot load kernel modules") ;;
  for_each packages install_package ;;
  e ← path_exists debugfs;
  when (negb e) (test_cancel "ftrace debugfs not available") ;;
  check_kernel_config ;;
  modify (with_tracefs debugfs) ;;
  d ← tracefs; modify (with_current_tracer (path_join d "current_tracer")) ;;
  d ← tracefs; modify (with_tracing_on (path_join d "tracing_on")) ;;
  d ← tracefs; modify (with_trace_file (path_join d "trace")) ;;
  dir ← ext (EvCall "tempfile.mkdtemp" []) gl_mkdtemp;
  modify (with_module_dir dir) ;;
  modify (with_module_name "test_retval") ;;
  modify (with_module_loaded false) ;;
  modify (with_failures []).

(** *** Commands and files *)

(** Not called. *)
Definition run_cmd (cmd : string) (ignore_status : bool) : T string :=
  log_debug ("Executing: " +:+ cmd) ;;
  result ← process_run cmd ((if ignore_status then [IgnoreStatus] else []) ++ [Sudo; Shell]);
  mret (stdout_text result).

Definition write_file (filepath content : string) : T () :=
  try_except
    (gl_do "genio.write_file" [VStr filepath; VStr content] ;;
     log_debug ("Written '" +:+ content +:+ "' to " +:+ filepath)) any_exn
    (λ e, add_failure ("Failed to write to " +:+ filepath +:+ ": " +:+ ex_msg e)).

(** [None] when the file cannot be read. *)
Definition read_stripped (filepath : string) : T (option string) :=
  try_except
    (text ← read_file filepath;
     let content := py_strip text in
     log_debug ("Read from " +:+ filepath +:+ ": " +:+ content) ;;
     mret (Some content)) any_exn
    (λ e, add_failure ("Failed to read from " +:+ filepath +:+ ": " +:+ ex_msg e) ;; mret None).

(** *** The module *)

Definition data_path (name : string) : pyval := match gl_data name with Some p => VStr p | None => VNone end.

(** [genio.read_file(self.get_data(name))] *)
Definition read_data (name : string) : T string :=
  match gl_data name with
  | Some p => read_file p
  | None => throw TypeError "expected str, bytes or os.PathLike object, not NoneType"
  end.

Definition ko_path : T string := dir ← module_dir; name ← module_name; mret (path_join dir (name +:+ ".ko")).

Definition build_test_module : T string :=
  title "Building test kernel module" ;;
  dir ← module_dir;
  gl_do "shutil.copyfile" [data_path "retval_test.c"; VStr (path_join dir "test_retval.c")] ;;
  makefile_template ← read_data "Makefile";
  gl_do "genio.write_file" [VStr (path_join dir "Makefile"); VStr (py_replace "MODULE_DIR" dir makefile_template)] ;;
  log_info ("Building module in " +:+ dir) ;;
  gl_do "build.make" [VStr dir] ;;
  module_ko ← ko_path;
  b ← silent (λ w, let '(b, w') := gl_isfile module_ko w in (Ret b, w'));
  when (negb b) (test_fail "Failed to build kernel module") ;;
  log_info ("Module built successfully: " +:+ module_ko) ;;
  mret module_ko.

Definition load_test_module (module_path : string) : T () :=
  log_info ("Loading test module: " +:+ module_path) ;;
  try_except
    (_ ← process_run ("insmod " +:+ module_path) [Sudo; Shell];
     modify (with_module_loaded true) ;;
     log_info "Module loaded successfully") any_exn
    (λ e, test_fail ("Failed to load module: " +:+ ex_msg e)).

Definition unload_test_module : T () :=
  loaded ← attr "module_loaded" fg_module_loaded;
  when loaded
    (log_info "Unloading test module" ;;
     try_except
       (name ← module_name;
        _ ← process_run ("rmmod " +:+ name) [Sudo; Shell; IgnoreStatus];
        modify (with_module_loaded false) ;;
        log_info "Module unloaded") any_exn
       (λ e, log_warning ("Failed to unload module: " +:+ ex_msg e))).

(** *** The trace *)

Definition retval_option : T string := d ← tracefs; mret (path_join d "options/funcgraph-retval").

(** [self._write_file(self.<file>, content)] *)
Definition write_to (file : T string) (content : string) : T () := path ← file; write_file path content.

Definition setup_function_graph_tracer : T bool :=
  title "Setting up function graph tracer" ;;
  write_to tracing_on "0" ;;
  write_to trace_file "" ;;
  write_to current_tracer "function_graph" ;;
  option ← retval_option;
  e ← path_exists option;
  if (e : bool) then
    write_file option "1" ;;
    log_info "Enabled funcgraph-retval option" ;;
    content ← read_stripped option;
    if bool_decide (content = Some "1"%string) then mret true
    else add_failure "Failed to enable funcgraph-retval option" ;; mret false
  else add_failure "funcgraph-retval option not available" ;; mret false.

Definition capture_trace (module_path : string) : T (option string) :=
  title "Capturing function trace with return values" ;;
  write_to trace_file "" ;;
  write_to tracing_on "1" ;;
  load_test_module module_path ;;
  write_to tracing_on "0" ;;
  file ← trace_file;
  trace_output ← read_stripped file;
  match trace_output with
  | Some text => if py_empty text then add_failure "No trace output captured" ;; mret None else mret (Some text)
  | None => add_failure "No trace output captured" ;; mret None
  end.

(** The loop over the lines from number [n] on. *)
Fixpoint scan_lines (max_samples : option Z) (log_findings : bool) (n : Z) (lines : list string) (s : scan) : T scan :=
  match lines with
  | [] => mret s
  | line :: lines' =>
      let s := see_line n line s in
      match retval_of line with
      | None => scan_lines max_samples log_findings (n + 1) lines' s
      | Some (func_name, retval) =>
          let s := count_value s in
          if py_in "test_retval" func_name then
            let s := add_occurrence func_name (Occ n retval (py_strip line)) s in
            when log_findings
              (log_info ("Line " +:+ py_str_Z n +:+ ": Found function '" +:+ func_name +:+ "' = " +:+ retval)) ;;
            if enough max_samples s && is_found init_name s then
              log_debug ("Found required function and " +:+ py_str_Z (retval_count s) +:+ " return values, stopping scan") ;;
              mret s
            else scan_lines max_samples log_findings (n + 1) lines' s
          else scan_lines max_samples log_findings (n + 1) lines' s
      end
  end.

Definition search_module_functions_in_trace (trace_output : string) (max_samples : option Z) (log_findings : bool) : T scan :=
  let s := Scan [] 0 false 0 in
  if py_empty trace_output then mret s
  else scan_lines max_samples log_findings 1 (py_split_on LF trace_output) s.

(** *** Judging the trace *)

(** [enumerate] from 0 *)
Definition numbered {A} (l : list A) : list (Z * A) := imap (λ i a, (Z.of_nat i, a)) l.

Definition report_init (row : Z * occurrence) : T () :=
  let '(i, detail) := row in
  log_info ("    Example " +:+ py_str_Z (i + 1) +:+ " (line " +:+ py_str_Z (line_num detail) +:+ "): " +:+ full_line detail) ;;
  let actual_value := py_lower (value detail) in
  if existsb (String.eqb actual_value) ["0x0"; "0"]%string then log_info " Return value is 0 (successful module init)"
  else log_warning (" Unexpected return value: " +:+ actual_value +:+ " (expected 0x0)").

Definition check_init (s : scan) : T () :=
  match dict_find init_name (found s) with
  | Some occurrences =>
      log_info (" test_retval_init: found " +:+ py_str_Z (Z.of_nat (length occurrences)) +:+ " occurrence(s)") ;;
      for_each (numbered (take 3 occurrences)) report_init
  | None =>
      log_error "test_retval_init: NOT found in trace" ;;
      add_failure "Required function test_retval_init not found in trace"
  end.

Definition report_others (s : scan) : T () :=
  let other_funcs := List.filter (λ row, negb (String.eqb row.1 init_name)) (found s) in
  when (negb (bool_decide (length other_funcs = 0%nat)))
    (log_info "  Additional test module functions found:" ;;
     for_each other_funcs (λ row,
       log_info (" " +:+ row.1 +:+ ": found " +:+ py_str_Z (Z.of_nat (length row.2)) +:+ " occurrence(s)") ;;
       for_each (numbered (take 2 row.2)) (λ r, log_info (" Example " +:+ py_str_Z (r.1 + 1) +:+ ": " +:+ full_line r.2)))).

Definition missing_funcs (s : scan) : list string := List.filter (λ f, negb (is_found f s)) expected_funcs.

Definition check_helpers (s : scan) : T () :=
  when (negb (bool_decide (missing_funcs s = [])))
    (log_error ("  Missing helper functions (marked noinline): " +:+ py_join ", " (missing_funcs s)) ;;
     add_failure ("Helper functions with noinline attribute not found in trace: " +:+ py_join ", " (missing_funcs s))).

Definition check_functions (trace_output : string) (s : scan) : T () :=
  match found s with
  | [] =>
      log_error "No test module functions found in trace output" ;;
      log_error "Expected to find at least 'test_retval_init'" ;;
      add_failure "Test module functions not found in trace - module may not have been traced" ;;
      log_info "First 50 lines of trace output for debugging:" ;;
      for_each (numbered (take 50 (py_split_on LF trace_output))) (λ row,
        log_info ("  " +:+ py_str_Z (row.1 + 1) +:+ ": " +:+ row.2))
  | _ =>
      log_info ("Found " +:+ py_str_Z (Z.of_nat (length (found s))) +:+ " test module function(s) in trace:") ;;
      check_init s ;;
      report_others s ;;
      check_helpers s
  end.

Definition check_graph (s : scan) : T () :=
  if has_graph_output s then log_info "Function graph tracer is working - found function call traces"
  else log_error "No function graph output detected at all" ;;
       add_failure "No function graph tracer output - check if tracer is working".

Definition check_values (s : scan) : T () :=
  if 0 <? retval_count s
  then log_info ("Found " +:+ py_str_Z (retval_count s) +:+ " return value entries (scanned " +:+ py_str_Z (lines_scanned s) +:+ " lines)")
  else log_error "No return values found in trace output" ;; add_failure "No return values found in trace output".

Definition final_validation (s : scan) : T () :=
  if retval_count s =? 0 then add_failure "No return values found - funcgraph-retval may not be working"
  else if negb (is_found init_name s) then add_failure "Required test_retval_init function not found in trace"
  else log_info rule60 ;;
       log_info "SUCCESS: Return value tracing is working" ;;
       log_info ("  - Found " +:+ py_str_Z (retval_count s) +:+ " return values") ;;
       log_info ("  - Found " +:+ py_str_Z (Z.of_nat (length (found s))) +:+ " test module function(s)") ;;
       log_info rule60.

Definition verify_return_values (trace_output : option string) : T () :=
  title "Verifying return values in trace output" ;;
  match trace_output with
  | Some text =>
      if py_empty text then add_failure "No trace output to verify"
      else
        let trace_log := path_join gl_outputdir "trace_output.log" in
        gl_do "genio.write_file" [VStr trace_log; VStr text] ;;
        log_info ("Trace output saved to: " +:+ trace_log) ;;
        s ← search_module_functions_in_trace text (Some 100) true;
        title "Return Value Analysis" ;;
        check_graph s ;;
        check_values s ;;
        title "Test Module Function Verification" ;;
        check_functions text s ;;
        final_validation s
  | None => add_failure "No trace output to verify"
  end.

Definition test_basic_functionality : T () :=
  title "Test 1: Basic function graph return value tracing" ;;
  module_path ← build_test_module;
  ok ← setup_function_graph_tracer;
  when ok
    (trace_output ← capture_trace module_path;
     unload_test_module ;;
     verify_return_values trace_output).

(** *** Without the option *)

(** The rows of the dictionary, one per occurrence. *)
Definition occurrences_of (s : scan) : list (string * occurrence) :=
  concat (map (λ row : string * list occurrence, map (pair row.1) row.2) (found s)).

Definition warn_values (s : scan) : T () :=
  for_each (occurrences_of s) (λ row,
    log_warning ("Line " +:+ py_str_Z (line_num row.2) +:+ ": Found test module function " +:+ row.1 +:+ "= " +:+ value row.2 +:+
      " (should not have return value)")) ;;
  if 0 <? retval_count s then
    log_warning ("Found " +:+ py_str_Z (retval_count s) +:+ " return values without funcgraph-retval option enabled") ;;
    log_warning "This may indicate the option is not working correctly" ;;
    when (negb (bool_decide (length (occurrences_of s) = 0%nat)))
      (log_warning "Test functions with return values:" ;;
       for_each (numbered (take 3 (occurrences_of s))) (λ row,
         log_warning ("  Example " +:+ py_str_Z (row.1 + 1) +:+ ": " +:+ row.2.1 +:+ " = " +:+ value row.2.2) ;;
         log_warning ("    " +:+ full_line row.2.2)))
  else
    log_info "SUCCESS: No return values found without funcgraph-retval option" ;;
    log_info "This confirms the option correctly controls return value display".

Definition built_module : T string :=
  module_path ← ko_path;
  e ← path_exists module_path;
  if (e : bool) then mret module_path else build_test_module.

Definition test_without_retval_option : T () :=
  title "Test : Verify without funcgraph-retval option" ;;
  module_path ← built_module;
  write_to tracing_on "0" ;;
  option ← retval_option;
  e ← path_exists option;
  when e (write_file option "0" ;; log_info "Disabled funcgraph-retval option") ;;
  write_to trace_file "" ;;
  write_to tracing_on "1" ;;
  load_test_module module_path ;;
  write_to tracing_on "0" ;;
  unload_test_module ;;
  file ← trace_file;
  trace_output ← read_stripped file;
  match trace_output with
  | Some text =>
      if py_empty text then log_warning "No trace output captured for verification"
      else s ← search_module_functions_in_trace text (Some 10) false; warn_values s
  | None => log_warning "No trace output captured for verification"
  end.

(** *** The test *)

Definition cleanup_tracer : T () :=
  title "Cleaning up tracer settings" ;;
  unload_test_module ;;
  write_to tracing_on "0" ;;
  write_to current_tracer "nop" ;;
  write_to trace_file "" ;;
  log_info "Tracer cleanup completed".

Definition report_failures : T () :=
  fs ← failures;
  when (negb (bool_decide (fs = [])))
    (log_error rule60 ;;
     log_error "Test failures detected:" ;;
     log_error rule60 ;;
     for_each (numbered fs) (λ row, log_error (py_str_Z (row.1 + 1) +:+ ". " +:+ row.2)) ;;
     test_fail ("Test failed with " +:+ py_str_Z (Z.of_nat (length fs)) +:+ " error(s)")) ;;
  title "All tests passed successfully".

Definition test : T () :=
  try_finally (test_basic_functionality ;; test_without_retval_option) cleanup_tracer ;;
  report_failures.
End FunctionGraphRetval.
