(* ===== verification/GraphTrace.v ===== *)
(** * The trace of the function graph tracer

    The lines of a trace with return values, as the kernel prints them, and what the pattern of
    the test reads of them. *)

From S2P Require Import Prelude PyStr PyFloat PyVal PyRegex Avocado Logic FuncGraph.
Open Scope Z_scope.

(** ** Lines *)

(** A return value: hexadecimal digits, or a signed number. *)
Inductive retval := RHex (digits : chars) | RDec (z : Z).

(** A line without a return value; or what stands before the comment, the function (with the
    module it is in) when it is named, and the value. *)
Inductive trace_line :=
| Plain (text : chars)
| Returns (pre : chars) (fn : option (chars * option chars)) (v : retval).

Definition retval_chars (v : retval) : chars :=
  match v with RHex ds => chars_of "0x" ++ ds | RDec z => chars_of (py_str_Z z) end.

Definition module_chars (m : option chars) : chars :=
  match m with Some m => "["%char :: m ++ chars_of "] " | None => [] end.
Definition fn_chars (fn : option (chars * option chars)) : chars :=
  match fn with Some (f, m) => f ++ " "%char :: module_chars m | None => [] end.

Definition comment_chars (fn : option (chars * option chars)) (v : retval) : chars :=
  chars_of "/* " ++ fn_chars fn ++ chars_of "= " ++ retval_chars v ++ chars_of " */".

Definition print_line (l : trace_line) : chars :=
  match l with
  | Plain text => text
  | Returns pre fn v => pre ++ comment_chars fn v
  end.
Definition line_text (l : trace_line) : string := str_of (print_line l).

(** The function and the value that a line shows. *)
Definition shown (l : trace_line) : option (string * string) :=
  match l with
  | Plain _ => None
  | Returns _ fn v =>
      Some (match fn with Some (f, _) => str_of f | None => "anonymous"%string end, str_of (retval_chars v))
  end.

(** ** Well-formed lines *)

Definition is_word (l : chars) : Prop := Forall (λ c, is_word_char c = true) l ∧ l ≠ [].
Definition no_comment (l : chars) : Prop := contains_chars (chars_of "/*") l = false.

Definition wf_retval (v : retval) : Prop :=
  match v with RHex ds => Forall (λ c, is_hex_char c = true) ds ∧ ds ≠ [] | RDec _ => True end.
Definition wf_fn (fn : option (chars * option chars)) : Prop :=
  match fn with
  | Some (f, m) => is_word f ∧ match m with Some m => is_word m | None => True end
  | None => True
  end.
(** A plain line has no comment, or nothing that assigns. *)
Definition wf_line (l : trace_line) : Prop :=
  match l with
  | Plain text => LF ∉ text ∧ (no_comment text ∨ "="%char ∉ text)
  | Returns pre fn v => LF ∉ pre ∧ no_comment pre ∧ wf_fn fn ∧ wf_retval v
  end.

(** ** Reading the parts *)

Lemma word_not_space c : is_word_char c = true → is_space c = false.
Proof.
  unfold is_word_char, is_space, is_digit. rewrite !orb_true_iff, !andb_true_iff, !Z.leb_le, orb_false_iff, !andb_false_iff, !Z.leb_gt.
  intros [[[H|H]|H]|H%Ascii.eqb_eq]; [lia..|]. subst. by vm_compute; split; [right|right].
Qed.

Section parts.
Context {R : Type}.
Implicit Types (k : pos → groups → option R) (g : groups).
Abbreviation mrun := (run false).

(** The blank after a part. *)
Lemma blank_runs b l g k x :
  match l with [] => True | c :: _ => is_space c = false end → (∀ b', k (Pos b' l) g = Some x) →
  mrun (RStar Rspace) (Pos b (" "%char :: l)) g k = Some x.
Proof. intros Hl Hk. apply (run_star_class false is_space [" "%char]); [by repeat constructor|done|]. apply Hk. Qed.

(** The name of the module is read when it is there. *)
Lemma module_runs m b l g k x :
  match m with Some m => is_word m | None => True end → (∀ b', k (Pos b' ("="%char :: l)) g = Some x) →
  mrun (ROpt (RPlus Rspace ~> RChar "[" ~> RPlus Rword ~> RChar "]") ~> RStar Rspace)%re
    (Pos b (" "%char :: module_chars m ++ "="%char :: l)) g k = Some x.
Proof.
  intros Hm Hk. rewrite run_seq. destruct m as [m|].
  - destruct Hm as [Hw Hne]. destruct m as [|c m]; [done|]. apply run_alt_first. rewrite run_seq.
    assert (module_chars (Some (c :: m)) ++ "="%char :: l = "["%char :: (c :: m) ++ "]"%char :: " "%char :: "="%char :: l) as ->
      by (cbn; by rewrite <- app_assoc).
    apply (run_plus_class false is_space " " []); [by repeat constructor|done|]. rewrite run_seq, run_char, run_seq.
    apply run_plus_class; [done|done|]. rewrite run_char. by apply blank_runs.
  - cbn [module_chars app]. unfold ROpt. rewrite run_alt_second; [by apply blank_runs|]. rewrite run_seq.
    apply (run_plus_class_none false is_space " " []); [by repeat constructor|done|]. intros w1 w2 E.
    symmetry in E. apply app_eq_nil in E as [-> ->]. cbn [app]. rewrite run_seq. by apply run_class_no.
Qed.

Definition fn_groups (fn : option (chars * option chars)) : groups := match fn with Some (f, _) => [(1%nat, f)] | None => [] end.

Lemma function_runs fn b l g k x :
  wf_fn fn → (∀ b', k (Pos b' ("="%char :: l)) (fn_groups fn ++ g) = Some x) →
  mrun function_part (Pos b (" "%char :: fn_chars fn ++ "="%char :: l)) g k = Some x.
Proof.
  intros Hfn Hk. unfold function_part. rewrite run_seq. destruct fn as [[f m]|].
  - destruct Hfn as [[Hf Hne] Hm]. destruct f as [|c f]; [done|]. cbn [fn_chars]. rewrite <- app_assoc. cbn [app].
    assert (is_word_char c = true) as Hc by by inversion Hf. apply blank_runs; [by apply word_not_space|].
    intros b'. apply run_alt_first. rewrite run_seq, run_group. rewrite app_comm_cons. apply run_plus_class; [done|done|].
    rewrite text_between_app. by apply module_runs.
  - cbn [fn_chars app]. apply blank_runs; [done|]. intros b'. unfold ROpt. rewrite run_alt_second; [apply Hk|].
    rewrite run_seq, run_group. by apply run_plus_no.
Qed.

Lemma value_end b g k x : k (Pos (Some "/"%char) []) g = Some x →
  mrun (RStar Rspace ~> RLit "*/")%re (Pos b (chars_of " */")) g k = Some x.
Proof. intros Hk. rewrite run_seq. apply blank_runs; [done|]. intros b'. apply Hk. Qed.

(** The digits of a number. *)
Lemma digits_run ds b l g k x : all_digits ds → ds ≠ [] → (∀ b', k (Pos b' (" "%char :: l)) g = Some x) →
  mrun (RPlus Rdigit) (Pos b (ds ++ " "%char :: l)) g k = Some x.
Proof. intros H Hne Hk. destruct ds as [|d ds]; [done|]. apply run_plus_class; [done|done|]. apply Hk. Qed.

Lemma decimal_runs z b l g k x : (∀ b', k (Pos b' (" "%char :: l)) g = Some x) →
  mrun (ROpt (RChar "-") ~> RPlus Rdigit)%re (Pos b (chars_of (py_str_Z z) ++ " "%char :: l)) g k = Some x.
Proof.
  intros Hk. rewrite run_seq, chars_of_str_Z. destruct (Z.ltb_spec z 0) as [Hz|Hz].
  - destruct (nat_chars_spec (- z)) as (Hne & Hd & _); [lia|]. apply run_alt_first. cbn [app]. rewrite run_char. by apply digits_run.
  - destruct (nat_chars_spec z Hz) as (Hne & Hd & _). unfold ROpt. rewrite run_alt_second; [by apply digits_run|].
    destruct (nat_chars z) as [|d ds]; [done|]. apply run_class_no. cbn [rest app].
    destruct (digit_not_sign d) as [H _]; [by inversion Hd|]. by rewrite Ascii.eqb_sym.
Qed.

(** A signed number does not begin with "0x". *)
Lemma decimal_not_hex z l : starts_with (chars_of "0x") (chars_of (py_str_Z z) ++ " "%char :: l) = false.
Proof.
  rewrite chars_of_str_Z. destruct (Z.ltb_spec z 0) as [Hz|Hz]; [done|]. destruct (nat_chars_spec z Hz) as (Hne & Hd & _).
  destruct (nat_chars z) as [|d [|e ds]]; [done|..]; cbn -[Ascii.eqb]; [apply andb_false_r|].
  destruct (Ascii.eqb_spec "x" e) as [<-|]; [|apply andb_false_r]. inversion Hd as [|? ? _ He]. by inversion He.
Qed.

Lemma hex_not_space c : is_hex_char c = true → is_space c = false.
Proof.
  unfold is_hex_char, is_space, is_digit. rewrite !orb_true_iff, !andb_true_iff, !Z.leb_le, orb_false_iff, !andb_false_iff, !Z.leb_gt. lia.
Qed.

Lemma value_runs v b g k x :
  wf_retval v → k (Pos (Some "/"%char) []) ((2%nat, retval_chars v) :: g) = Some x →
  mrun value_part (Pos b (retval_chars v ++ chars_of " */")) g k = Some x.
Proof.
  intros Hv Hk. unfold value_part. rewrite run_seq, run_group. destruct v as [ds|z]; cbn [retval_chars] in *.
  - destruct Hv as [Hd Hne]. destruct ds as [|d ds]; [done|]. apply run_alt_first. rewrite run_seq, <- app_assoc. unfold RLit.
    rewrite run_lit. apply run_plus_class; [done|done|]. rewrite app_assoc, text_between_app. by apply value_end.
  - rewrite run_alt_second.
    + apply decimal_runs. intros b'. rewrite text_between_app. by apply value_end.
    + rewrite run_seq. apply run_lit_no, decimal_not_hex.
Qed.
End parts.

(** ** Reading a line *)

Lemma comment_match fn v b : wf_fn fn → wf_retval v →
  ∃ m, match_at false retval_pattern (Pos b (comment_chars fn v)) = Some m ∧
    m_groups m = (2%nat, retval_chars v) :: fn_groups fn.
Proof.
  intros Hf Hv. eexists. unfold match_at, retval_pattern, comment_chars. split.
  - rewrite run_seq. unfold RLit. change (chars_of "/* ") with (chars_of "/*" ++ [" "%char]). rewrite <- app_assoc, run_lit, run_seq.
    cbn [app]. change (chars_of "= ") with (["="; " "]%char). apply function_runs; [done|]. intros b1. rewrite run_seq, run_char, run_seq.
    apply blank_runs.
    { destruct v as [ds|z]; [done|]. destruct (str_Z_trimmed z) as [[H _] Hne]. cbn [retval_chars]. by destruct (chars_of (py_str_Z z)). }
    intros b2. by apply value_runs.
  - cbn [m_groups]. by rewrite app_nil_r.
Qed.

(** Nothing before the comment looks like one. *)
Lemma before_comment pre t i : no_comment pre → (i < length pre)%nat →
  starts_with (chars_of "/*") (drop i pre ++ "/"%char :: t) = false.
Proof.
  unfold no_comment. revert i. induction pre as [|c pre IH]; intros i H Hi; cbn [length] in Hi; [lia|].
  cbn [contains_chars] in H. apply orb_false_iff in H as [H1 H2]. destruct i as [|i]; cbn [drop].
  - destruct pre as [|d pre]; [|exact H1]. cbn -[Ascii.eqb]. by rewrite andb_false_r.
  - apply IH; [done|lia].
Qed.

Lemma groups_shown fn v g : wf_fn fn → g = (2%nat, retval_chars v) :: fn_groups fn →
  group_chars 2 g = Some (retval_chars v) ∧ group_chars 1 g = match fn with Some (f, _) => Some f | None => None end.
Proof. intros Hf ->. split; [done|]. by destruct fn as [[f m]|]. Qed.

Lemma str_of_nonempty l : l ≠ [] → py_empty (str_of l) = false.
Proof. by destruct l. Qed.

Lemma returns_read pre fn v : no_comment pre → wf_fn fn → wf_retval v →
  retval_of (line_text (Returns pre fn v)) = shown (Returns pre fn v).
Proof.
  intros Hp Hf Hv. unfold retval_of, line_text, re_search, start. cbn [print_line shown]. rewrite chars_of_str_of. cbn [rest].
  rewrite length_app. destruct (search_lit_skip false (chars_of "/*") (function_part ~> RChar "=" ~> RStar Rspace ~> value_part)%re
    pre (comment_chars fn v) (length (comment_chars fn v)) None) as [b' E].
  { intros i Hi. by apply before_comment. }
  change (RSeq (RLit_chars (chars_of "/*")) _) with retval_pattern in E. rewrite E.
  destruct (comment_match fn v b' Hf Hv) as (m & Hm & Hg). cbn [search_from]. destruct (length (comment_chars fn v)); cbn [search_from]; rewrite Hm.
  all: destruct (groups_shown fn v _ Hf Hg) as [H2 H1]; unfold m_group; rewrite H1, H2.
  all: destruct fn as [[f m']|]; [|done]; rewrite str_of_nonempty by apply Hf; done.
Qed.

Lemma plain_read text : no_comment text ∨ "="%char ∉ text → retval_of (line_text (Plain text)) = None.
Proof.
  unfold retval_of, line_text. cbn [print_line]. intros [H|H].
  - unfold re_search. rewrite chars_of_str_of. cbn [rest start]. unfold retval_pattern, RLit. by rewrite search_lit_none.
  - rewrite (re_search_none "="); [done| |by rewrite chars_of_str_of].
    unfold retval_pattern. apply NeedsRight, NeedsRight, NeedsLeft, needs_char.
Qed.

Lemma line_read l : wf_line l → retval_of (line_text l) = shown l.
Proof.
  destruct l as [text|pre fn v]; [intros [_ H]; by apply plain_read|]. intros (_ & H1 & H2 & H3). by apply returns_read.
Qed.

(** ** Reading a trace *)

(** The lines of a trace, each ended; [read_file] strips the text. *)
Definition trace_text (ls : list trace_line) : string := py_join NL (map line_text ls) +:+ NL.

(** Well-formed lines, the first and the last of which leave nothing to strip. *)
Definition wf_trace (ls : list trace_line) : Prop :=
  Forall wf_line ls ∧
  (∃ l ls' c t, ls = l :: ls' ∧ print_line l = c :: t ∧ is_space c = false) ∧
  (∃ ls' l c, ls = ls' ++ [l] ∧ last_opt (print_line l) = Some c ∧ is_space c = false).

Lemma space_not_LF c : is_space c = false → Ascii.eqb LF c = false.
Proof. intros H. destruct (Ascii.eqb_spec LF c) as [<-|]; done. Qed.

Abbreviation no_LF l := (Forall (λ c, Ascii.eqb LF c = false) l).

Lemma not_in_no_LF l : LF ∉ l → no_LF l.
Proof. intros H. apply list.Forall_forall. intros c Hc. destruct (Ascii.eqb_spec LF c) as [<-|]; done. Qed.

Lemma forall_no_LF (p : ascii → bool) l :
  (∀ c, p c = true → is_space c = false) → Forall (λ c, p c = true) l → no_LF l.
Proof. intros Hp H. eapply list.Forall_impl; [exact H|]. intros c Hc. by apply space_not_LF, Hp. Qed.

Lemma retval_no_LF v : wf_retval v → no_LF (retval_chars v).
Proof.
  destruct v as [ds|z]; intros Hv; cbn [retval_chars].
  - apply Forall_app. split; [by repeat constructor|]. apply (forall_no_LF is_hex_char); [apply hex_not_space|apply Hv].
  - rewrite chars_of_str_Z. destruct (Z.ltb_spec z 0) as [Hz|Hz]; [constructor; [done|]|];
      (apply (forall_no_LF is_digit); [apply digit_not_space|apply nat_chars_spec; lia]).
Qed.

Lemma fn_no_LF fn : wf_fn fn → no_LF (fn_chars fn).
Proof.
  destruct fn as [[f m]|]; [|by constructor]. intros [[Hf _] Hm]. cbn [fn_chars]. apply Forall_app. split.
  { by apply (forall_no_LF is_word_char); [apply word_not_space|]. }
  constructor; [done|]. destruct m as [m|]; cbn [module_chars]; [|by constructor]. constructor; [done|]. apply Forall_app. split.
  - apply (forall_no_LF is_word_char); [apply word_not_space|apply Hm].
  - by repeat constructor.
Qed.

Lemma line_no_LF l : wf_line l → without LF (line_text l).
Proof.
  unfold without, line_text. rewrite chars_of_str_of. destruct l as [text|pre fn v]; cbn [wf_line print_line].
  - intros [H _]. by apply not_in_no_LF.
  - intros (H1 & _ & H2 & H3). unfold comment_chars. rewrite !Forall_app. split_and!.
    + by apply not_in_no_LF.
    + by repeat constructor.
    + by apply fn_no_LF.
    + by repeat constructor.
    + by apply retval_no_LF.
    + by repeat constructor.
Qed.

Lemma joined_trimmed ls : wf_trace ls → trimmed is_space (chars_of (py_join NL (map line_text ls))) ∧ chars_of (py_join NL (map line_text ls)) ≠ [].
Proof.
  intros (_ & (l & ls1 & c & t & -> & El & Hc) & (ls2 & l' & d & E & El' & Hd)).
  assert (∃ r, chars_of (py_join NL (map line_text (l :: ls1))) = c :: r) as [r Er].
  { cbn [map]. destruct (join_first NL (line_text l) (map line_text ls1)) as [r ->]. rewrite chars_of_app. unfold line_text.
    rewrite chars_of_str_of, El. by eexists. }
  assert (last_opt (chars_of (py_join NL (map line_text (l :: ls1)))) = Some d) as Hl.
  { rewrite E, map_app. cbn [map]. rewrite join_last; unfold line_text; rewrite chars_of_str_of; [done|]. by destruct (print_line l'). }
  split; [|by rewrite Er]. split; [by rewrite Er|by rewrite Hl].
Qed.

Lemma trace_stripped ls : wf_trace ls → py_strip (trace_text ls) = py_join NL (map line_text ls).
Proof.
  intros [Ht Hne]%joined_trimmed. unfold py_strip, trace_text. rewrite chars_of_app.
  change (chars_of NL) with [LF]. rewrite <- (app_nil_l (chars_of _ ++ [LF])), strip_padded; [apply str_of_chars_of|by constructor|by repeat constructor|done|done].
Qed.

Lemma trace_lines ls : wf_trace ls → py_split_on LF (py_strip (trace_text ls)) = map line_text ls.
Proof.
  intros H. rewrite trace_stripped by done. destruct H as (Hw & (l & ls1 & _ & _ & -> & _ & _) & _). apply split_join; [|done].
  apply List.Forall_map. eapply list.Forall_impl; [exact Hw|]. intros l0. apply line_no_LF.
Qed.

(** C30: the trace file is read back: its lines are those that the kernel printed, and in each of
    them the pattern of the test finds the function, with the name of its module in brackets or
    not ('anonymous' where the line names none), and the value, hexadecimal or signed, and nothing
    in a line without a return value. *)
Theorem trace_read ls : wf_trace ls →
  let lines := py_split_on LF (py_strip (trace_text ls)) in
  length lines = length ls ∧ map retval_of lines = map shown ls.
Proof.
  intros H. cbv zeta. rewrite trace_lines by done. split; [by rewrite length_map|]. rewrite map_map. apply map_ext_in. intros l Hl.
  apply line_read. destruct H as [Hw _]. rewrite List.Forall_forall in Hw. by apply Hw.
Qed.
