(* ===== verification/GraphSystem.v ===== *)
(** * The verdict of the function graph test

    What the search of a trace finds, what the test makes of it, and the interface of a machine
    with the tracer, on which the whole test is run. *)

From S2P Require Import Prelude PyStr PyFloat PyVal PyRegex Avocado Logic FuncGraph GraphTrace.
Open Scope Z_scope.

(** ** The search *)

(** What the search does with one line. *)
Definition look (s : scan) (row : Z * string) : scan :=
  let s := see_line row.1 row.2 s in
  match retval_of row.2 with
  | None => s
  | Some (f, v) =>
      let s := count_value s in
      if py_in "test_retval" f then add_occurrence f (Occ row.1 v (py_strip row.2)) s else s
  end.

Fixpoint number_from (n : Z) (lines : list string) : list (Z * string) :=
  match lines with [] => [] | line :: lines' => (n, line) :: number_from (n + 1) lines' end.

(** A line that shows a return value of [f], a function of the module. *)
Definition returns_of (f line : string) : bool :=
  match retval_of line with Some (g, _) => py_in "test_retval" g && String.eqb g f | None => false end.
Definition has_value (line : string) : bool := match retval_of line with Some _ => true | None => false end.
Definition module_line (line : string) : bool := match retval_of line with Some (g, _) => py_in "test_retval" g | None => false end.

(** The lines before the search stops, after [count] values and with the function init seen or not:
    it stops at a line of the module once there are [m] values and init is among them. *)
Fixpoint scanned (m count : Z) (init : bool) (lines : list string) : list string :=
  match lines with
  | [] => []
  | line :: lines' =>
      let count := if has_value line then count + 1 else count in
      let init := init || returns_of init_name line in
      if module_line line && (m <=? count) && init then [line] else line :: scanned m count init lines'
  end.

Lemma found_put name f o s : dict_find f (found (add_occurrence name o s)) =
  if String.eqb name f then Some (default [] (dict_find name (found s)) ++ [o]) else dict_find f (found s).
Proof.
  unfold add_occurrence. cbn [found]. destruct (dict_find name (found s)) as [l|] eqn:E; rewrite ?dict_find_put, ?E.
  - done.
  - rewrite String.eqb_refl. by destruct (String.eqb name f).
Qed.

Lemma look_count s row : retval_count (look s row) = retval_count s + if has_value row.2 then 1 else 0.
Proof. unfold look, has_value. destruct (retval_of row.2) as [[f v]|]; [destruct (py_in _ f)|]; cbn; lia. Qed.

Lemma look_graph s row : has_graph_output (look s row) = has_graph_output s || has_brace row.2.
Proof.
  unfold look. destruct (retval_of row.2) as [[f v]|]; [destruct (py_in _ f)|]; cbn; by destruct (has_graph_output s), (has_brace row.2).
Qed.

Lemma is_found_find f s : is_found f s = match dict_find f (found s) with Some _ => true | None => false end.
Proof. unfold is_found. destruct (dict_find f (found s)); [by apply bool_decide_true; eexists|by apply bool_decide_false; intros [? ?]]. Qed.

Lemma look_found f s row : is_found f (look s row) = is_found f s || returns_of f row.2.
Proof.
  rewrite !is_found_find. unfold look, returns_of. destruct (retval_of row.2) as [[g v]|]; cbn; [|by destruct (dict_find f (found s))].
  destruct (py_in "test_retval" g); cbn [andb]; [|cbn; by destruct (dict_find f (found s))].
  rewrite found_put. cbn [found count_value see_line]. destruct (String.eqb g f); by destruct (dict_find f (found s)).
Qed.

Section facts.
Implicit Types (rows : list (Z * string)).

Lemma looked_graph rows s : has_graph_output (foldl look s rows) = has_graph_output s || existsb has_brace (map snd rows).
Proof.
  revert s. induction rows as [|row rows IH]; intros s; cbn [foldl map existsb]; [by rewrite orb_false_r|].
  by rewrite IH, look_graph, orb_assoc.
Qed.

Lemma looked_found f rows s : is_found f (foldl look s rows) = is_found f s || existsb (returns_of f) (map snd rows).
Proof.
  revert s. induction rows as [|row rows IH]; intros s; cbn [foldl map existsb]; [by rewrite orb_false_r|].
  by rewrite IH, look_found, orb_assoc.
Qed.

Lemma looked_count rows s : retval_count s ≤ retval_count (foldl look s rows) ∧
  (existsb has_value (map snd rows) = true → retval_count s < retval_count (foldl look s rows)).
Proof.
  revert s. induction rows as [|row rows IH]; intros s; cbn [foldl map existsb]; [done|].
  destruct (IH (look s row)) as [H1 H2]. rewrite look_count in *. destruct (has_value row.2); cbn [orb]; split; intros; try apply H2 in H; lia.
Qed.
End facts.

Lemma number_snd n lines : map snd (number_from n lines) = lines.
Proof. revert n. induction lines as [|line lines IH]; intros n; [done|]. cbn. by rewrite IH. Qed.

(** The search is the loop over the lines that it does not skip. *)
Lemma scan_runs {W} m lf n lines s (w : W) x : 0 < m →
  runs (scan_lines (Some m) lf n lines s) w x
    (Ret (foldl look s (number_from n (scanned m (retval_count s) (is_found init_name s) lines)))) w x.
Proof.
  intros Hm. revert n s. induction lines as [|line lines IH]; intros n s; cbn [scan_lines scanned]; [apply runs_ret|].
  pose proof (look_count s (n, line)) as Ec. pose proof (look_found init_name s (n, line)) as Ef. cbn [snd] in Ec, Ef.
  rewrite <- Ef. replace (if has_value line then retval_count s + 1 else retval_count s) with (retval_count (look s (n, line)))
    by (rewrite Ec; destruct (has_value line); lia).
  clear Ec Ef. set (s1 := look s (n, line)).
  assert (s1 = match retval_of line with
               | None => see_line n line s
               | Some (f, v) => if py_in "test_retval" f then add_occurrence f (Occ n v (py_strip line)) (count_value (see_line n line s))
                                else count_value (see_line n line s)
               end) as E1 by done.
  unfold module_line. destruct (retval_of line) as [[f v]|]; [|cbn [andb number_from foldl]; fold s1; rewrite <- E1; apply IH].
  destruct (py_in "test_retval" f); cbn [andb]; rewrite <- E1; [|cbn [number_from foldl]; fold s1; apply IH].
  eapply runs_bind; [destruct lf; [apply runs_when_true, runs_log|apply runs_when_false]|]. cbv beta.
  unfold enough. replace (negb (m =? 0)) with true by (symmetry; apply negb_true_iff, Z.eqb_neq; lia). cbn [andb].
  destruct ((m <=? retval_count s1) && is_found init_name s1); cbn [number_from foldl]; fold s1; [|apply IH].
  run_step. apply runs_ret.
Qed.

Lemma search_runs {W} m lf text (w : W) x : 0 < m → py_empty text = false →
  runs (search_module_functions_in_trace text (Some m) lf) w x
    (Ret (foldl look (Scan [] 0 false 0) (number_from 1 (scanned m 0 false (py_split_on LF text))))) w x.
Proof.
  intros Hm Ht. unfold search_module_functions_in_trace. rewrite Ht. by apply (scan_runs m lf 1 (py_split_on LF text) (Scan [] 0 false 0)).
Qed.

(** ** The verdict on a trace *)

(** The lines show a brace and a return value of init and of every helper. *)
Definition complete (lines : list string) : bool :=
  existsb has_brace lines && forallb (λ f, existsb (returns_of f) lines) (init_name :: expected_funcs).

(** What [_verify_return_values] looks at. *)
Definition accepted (lines : list string) : bool := complete (scanned 100 0 false lines).

(** The search stops after a line of init: what comes before the first one is looked at. *)
Lemma scanned_prefix m l1 l2 c : existsb (returns_of init_name) l1 = false →
  ∃ c', scanned m c false (l1 ++ l2) = l1 ++ scanned m c' false l2.
Proof.
  revert c. induction l1 as [|line l1 IH]; intros c H; cbn [existsb] in H; [by exists c|].
  apply orb_false_iff in H as [H1 H2]. cbn [app scanned]. rewrite H1. cbn [orb]. rewrite andb_false_r.
  destruct (IH (if has_value line then c + 1 else c) H2) as [c' E]. exists c'. by rewrite E.
Qed.

Lemma scanned_init m c lines : existsb (returns_of init_name) (scanned m c false lines) = existsb (returns_of init_name) lines.
Proof.
  revert c. induction lines as [|line lines IH]; intros c; cbn [scanned existsb]; [done|]. cbn [orb].
  destruct (returns_of init_name line) eqn:E; cbn [orb].
  - destruct (module_line line && _ && true); cbn [existsb]; by rewrite E.
  - rewrite andb_false_r. cbn [existsb]. by rewrite E, IH.
Qed.

Lemma existsb_prefix {A} (p : A → bool) l1 l2 : existsb p l1 = true → existsb p (l1 ++ l2) = true.
Proof. intros H. by rewrite existsb_app, H. Qed.

(** Without a limit every line is looked at. *)
Lemma scan_all_runs {W} lf n lines s (w : W) x :
  runs (scan_lines None lf n lines s) w x (Ret (foldl look s (number_from n lines))) w x.
Proof.
  revert n s. induction lines as [|line lines IH]; intros n s; cbn [scan_lines]; [apply runs_ret|]. cbv zeta. cbn [number_from foldl].
  replace (look s (n, line)) with (match retval_of line with
    | None => see_line n line s
    | Some (f, v) => if py_in "test_retval" f then add_occurrence f (Occ n v (py_strip line)) (count_value (see_line n line s))
                     else count_value (see_line n line s)
    end) by done.
  destruct (retval_of line) as [[f v]|]; [|apply IH]. destruct (py_in "test_retval" f); [|apply IH].
  eapply runs_bind; [destruct lf; [apply runs_when_true, runs_log|apply runs_when_false]|]. cbn [enough andb]. apply IH.
Qed.

(** What the test asks of the result of a search. *)
Definition checked (s : scan) : bool := has_graph_output s && forallb (λ f, is_found f s) (init_name :: expected_funcs).

Lemma checked_complete n lines : checked (foldl look (Scan [] 0 false 0) (number_from n lines)) = complete lines.
Proof.
  unfold checked, complete. rewrite looked_graph, number_snd. f_equal.
  induction (init_name :: expected_funcs) as [|f l IH]; [done|]. cbn [forallb]. rewrite IH. f_equal. by rewrite looked_found, number_snd.
Qed.

(** A brace and a line of every helper stand before the first line of init. *)
Definition helpers_first (lines : list string) : Prop :=
  ∃ l1 l2, lines = l1 ++ l2 ∧ existsb (returns_of init_name) l1 = false ∧
    existsb has_brace l1 && forallb (λ f, existsb (returns_of f) l1) expected_funcs = true.

Lemma accepted_complete lines : helpers_first lines → accepted lines = complete lines.
Proof.
  intros (l1 & l2 & -> & Hi & [Hb Hf]%andb_prop). unfold accepted, complete. cbn [forallb].
  rewrite scanned_init. destruct (scanned_prefix 100 l1 l2 0 Hi) as [c' ->]. rewrite !(existsb_prefix has_brace) by done. cbn [andb]. f_equal.
  assert (∀ l, forallb (λ f, existsb (returns_of f) (l1 ++ l)) expected_funcs = true) as H; [|by rewrite !H].
  intros l. rewrite forallb_forall in *. intros f Hin. by apply existsb_prefix, Hf.
Qed.

(** the limit of 100 values loses nothing that the test looks for when init returns after the
    others, as it does when it calls them: if a brace and a line of every helper come before the
    first line of init, the search with the limit and the search of the whole trace agree on what
    the test asks. *)
Theorem early_exit_harmless {W} text lf (w : W) x :
  helpers_first (py_split_on LF text) →
  ∃ s s', runs (search_module_functions_in_trace text (Some 100) lf) w x (Ret s) w x ∧
    runs (search_module_functions_in_trace text None lf) w x (Ret s') w x ∧ checked s = checked s'.
Proof.
  intros H%accepted_complete. unfold accepted in H. unfold search_module_functions_in_trace.
  destruct (py_empty text); [eexists _, _; split_and!; [apply runs_ret|apply runs_ret|done]|].
  eexists _, _. split_and!; [by apply scan_runs|apply scan_all_runs|]. cbn [retval_count]. by rewrite !checked_complete.
Qed.

(** ** Judging *)

Section judges.
Context {W : Type} {HE : Env W} {HG : GraphLib W}.

(** [m] adds to the failures, unless [b]; and it does nothing else. *)
Definition judges (m : M W fg_self ()) (b : bool) : Prop := ∀ w x fs, ∃ ms,
  runs m w (with_failures fs x) (Ret ()) w (with_failures (fs ++ ms) x) ∧ (ms = [] ↔ b = true).

Lemma judges_add msg : judges (add_failure msg) false.
Proof using Type.
  intros w x fs. exists [msg]. split; [|done]. unfold add_failure, failures. run_by runs_attr; [reflexivity|].
  apply (runs_modify (with_failures (fs ++ [msg])) w (with_failures fs x)).
Qed.

Lemma judges_quiet m : (∀ w x, runs m w x (Ret ()) w x) → judges m true.
Proof using Type. intros H w x fs. exists []. rewrite app_nil_r. split; [apply H|done]. Qed.

Lemma judges_log l msg : judges (log l msg) true.
Proof using Type. apply judges_quiet. intros w x. apply runs_log. Qed.

Lemma judges_bind m1 m2 b1 b2 : judges m1 b1 → judges m2 b2 → judges (m1 ;; m2) (b1 && b2).
Proof using Type.
  intros H1 H2 w x fs. destruct (H1 w x fs) as (ms1 & R1 & E1). destruct (H2 w x (fs ++ ms1)) as (ms2 & R2 & E2).
  exists (ms1 ++ ms2). rewrite app_assoc. split; [by run_by R1|]. rewrite andb_true_iff, <- E1, <- E2.
  split; [apply app_eq_nil|by intros [-> ->]].
Qed.

Lemma judges_if (c : bool) m1 m2 b1 b2 : judges m1 b1 → judges m2 b2 → judges (if c then m1 else m2) (if c then b1 else b2).
Proof using Type. by destruct c. Qed.

Lemma judges_ext m b b' : judges m b → b = b' → judges m b'.
Proof using Type. by intros H <-. Qed.

Lemma judges_title msg : judges (title msg) true.
Proof using Type. apply judges_quiet. intros w x. unfold title. run. Qed.

(** Only log lines. *)
Lemma logs_each {A} (l : list A) (body : A → M W fg_self ()) :
  (∀ a w x, runs (body a) w x (Ret ()) w x) → judges (for_each l body) true.
Proof using Type. intros H. apply judges_quiet. intros w x. apply runs_each. intros y _. apply H. Qed.

Lemma judges_graph s : judges (check_graph s) (has_graph_output s).
Proof using Type.
  unfold check_graph. eapply judges_ext; [apply judges_if; [apply judges_log|apply judges_bind; [apply judges_log|apply judges_add]]|].
  by destruct (has_graph_output s).
Qed.

Lemma judges_values s : judges (check_values s) (0 <? retval_count s).
Proof using Type.
  unfold check_values. eapply judges_ext; [apply judges_if; [apply judges_log|apply judges_bind; [apply judges_log|apply judges_add]]|].
  by destruct (0 <? retval_count s).
Qed.

Lemma judges_init s : judges (check_init s) (is_found init_name s).
Proof using Type.
  rewrite is_found_find. unfold check_init. destruct (dict_find init_name (found s)) as [l|].
  - eapply judges_ext; [apply judges_bind; [apply judges_log|apply logs_each]|done]. intros [i o] w x. unfold report_init. run_step.
    destruct (existsb _ _); apply runs_log.
  - eapply judges_ext; [apply judges_bind; [apply judges_log|apply judges_add]|done].
Qed.

Lemma judges_others s : judges (report_others s) true.
Proof using Type.
  apply judges_quiet. intros w x. unfold report_others. destruct (negb _); [|apply runs_when_false]. apply runs_when_true. run_step.
  apply runs_each. intros row _. run_step. apply runs_each. intros r _. apply runs_log.
Qed.

Lemma missing_none s : missing_funcs s = [] ↔ forallb (λ f, is_found f s) expected_funcs = true.
Proof using Type.
  unfold missing_funcs. induction expected_funcs as [|f l IH]; cbn [List.filter forallb]; [done|].
  destruct (is_found f s); cbn [negb andb]; [exact IH|done].
Qed.

Lemma judges_helpers s : judges (check_helpers s) (forallb (λ f, is_found f s) expected_funcs).
Proof using Type.
  unfold check_helpers. pose proof (missing_none s) as H. destruct (decide (missing_funcs s = [])) as [E|E].
  - rewrite (proj1 H E), bool_decide_true by done. apply judges_quiet. intros w x. apply runs_when_false.
  - rewrite bool_decide_false by done. destruct (forallb _ _); [by destruct E; apply H|]. cbn [negb when].
    eapply judges_ext; [apply judges_bind; [apply judges_log|apply judges_add]|done].
Qed.

Lemma judges_functions text s : judges (check_functions text s) (forallb (λ f, is_found f s) (init_name :: expected_funcs)).
Proof using Type.
  unfold check_functions. cbn [forallb]. destruct (found s) as [|row rows] eqn:E.
  - rewrite (is_found_find init_name), E. cbn [dict_find andb].
    eapply judges_ext; [do 2 (apply judges_bind; [apply judges_log|]); apply judges_bind; [apply judges_add|];
      apply judges_bind; [apply judges_log|apply logs_each; intros; apply runs_log]|done].
  - eapply judges_ext; [apply judges_bind; [apply judges_log|]; apply judges_bind; [apply judges_init|];
      apply judges_bind; [apply judges_others|apply judges_helpers]|done].
Qed.

Lemma judges_final s : judges (final_validation s) (negb (retval_count s =? 0) && is_found init_name s).
Proof using Type.
  unfold final_validation. destruct (retval_count s =? 0); [apply judges_add|]. destruct (is_found init_name s); cbn [negb andb]; [|apply judges_add].
  do 4 (apply (judges_bind _ _ true true); [apply judges_log|]). apply judges_log.
Qed.

(** All the checks together. *)
Definition checks (text : string) (s : scan) : M W fg_self () :=
  title "Return Value Analysis" ;; check_graph s ;; check_values s ;; title "Test Module Function Verification" ;;
  check_functions text s ;; final_validation s.

Lemma returns_has_value f lines : existsb (returns_of f) lines = true → existsb has_value lines = true.
Proof using Type.
  rewrite !existsb_exists. intros (l & Hl & H). exists l. split; [done|]. unfold returns_of, has_value in *. by destruct (retval_of l).
Qed.

Lemma judges_checks text lines :
  judges (checks text (foldl look (Scan [] 0 false 0) (number_from 1 (scanned 100 0 false lines)))) (accepted lines).
Proof using Type.
  set (s := foldl _ _ _).
  assert (has_graph_output s = existsb has_brace (scanned 100 0 false lines)) as Eg by (unfold s; by rewrite looked_graph, number_snd).
  assert (∀ f, is_found f s = existsb (returns_of f) (scanned 100 0 false lines)) as Ef
    by (intros f; unfold s; by rewrite looked_found, number_snd).
  assert (is_found init_name s = true → 0 < retval_count s) as Ec.
  { rewrite Ef. intros H%returns_has_value. destruct (looked_count (number_from 1 (scanned 100 0 false lines)) (Scan [] 0 false 0)) as [_ Hc].
    rewrite number_snd in Hc. by apply Hc in H. }
  unfold checks. eapply judges_ext; [apply judges_bind; [apply judges_title|]; apply judges_bind; [apply judges_graph|];
    apply judges_bind; [apply judges_values|]; apply judges_bind; [apply judges_title|]; apply judges_bind; [apply judges_functions|apply judges_final]|].
  unfold accepted, complete. rewrite <- Eg. cbn [forallb andb]. rewrite <- !Ef. destruct (has_graph_output s); cbn [andb]; [|done].
  destruct (is_found init_name s); cbn [andb]; [|by rewrite !andb_false_r]. specialize (Ec eq_refl).
  rewrite (proj2 (Z.ltb_lt _ _) Ec), (proj2 (Z.eqb_neq _ _)) by lia. cbn [negb andb]. rewrite andb_true_r.
  induction expected_funcs as [|f l IH]; cbn [forallb]; [done|]. by rewrite IH, Ef.
Qed.

End judges.
