(* ===== verification/GraphVerdict.v ===== *)
(** * The function graph test on a machine with the tracer

    The interface of the machine, and what the test makes of it: the verdict, and what it leaves
    behind, also when anything on the way raises. *)

From S2P Require Import Prelude PyStr PyFloat PyVal PyRegex Avocado Logic FuncGraph GraphTrace GraphSystem.
Open Scope Z_scope.

(** ** The tracer *)

(** The tracer that is set, whether it is on, whether it shows return values, whether the module is
    loaded, and what has been recorded. *)
Record tracer := Tracer {
  tr_current : string;
  tr_on : bool;
  tr_retval : bool;
  tr_loaded : bool;
  tr_buffer : list trace_line;
}.

Definition set_current (v : string) (b : list trace_line) (t : tracer) : tracer := Tracer v (tr_on t) (tr_retval t) (tr_loaded t) b.
Definition set_on (v : bool) (t : tracer) : tracer := Tracer (tr_current t) v (tr_retval t) (tr_loaded t) (tr_buffer t).
Definition set_retval (v : bool) (t : tracer) : tracer := Tracer (tr_current t) (tr_on t) v (tr_loaded t) (tr_buffer t).
Definition set_loaded (v : bool) (t : tracer) : tracer := Tracer (tr_current t) (tr_on t) (tr_retval t) v (tr_buffer t).
Definition clear (t : tracer) : tracer := Tracer (tr_current t) (tr_on t) (tr_retval t) (tr_loaded t) [].

(** The module is loaded, and its calls are recorded: [calls b], with or without return values. *)
Definition load (calls : bool → list trace_line) (t : tracer) : tracer :=
  Tracer (tr_current t) (tr_on t) (tr_retval t) true
    (tr_buffer t ++ if tr_on t && String.eqb (tr_current t) "function_graph" then calls (tr_retval t) else []).

Definition current_path : string := path_join debugfs "current_tracer".
Definition on_path : string := path_join debugfs "tracing_on".
Definition trace_path : string := path_join debugfs "trace".
Definition option_path : string := path_join debugfs "options/funcgraph-retval".
Definition flag_text (b : bool) : string := if b then "1" else "0".
Definition ko_file (dir : string) : string := path_join dir ("test_retval" +:+ ".ko").

Definition insmod_cmd (dir : string) : string := "insmod " +:+ ko_file dir.
Definition rmmod_cmd : string := "rmmod " +:+ "test_retval".

(** A call that returns, with the effect [f] on the tracer. *)
Definition does {W A} (gm : W → tracer) (call : W → result A * W) (f : tracer → tracer) (w : W) : Prop :=
  ∃ r w', call w = (Ret r, w') ∧ gm w' = f (gm w).

Definition write_call {W} {HG : GraphLib W} (path text : string) : W → result pyval * W :=
  gl_lib "genio.write_file" [VStr path; VStr text].

(** ** A machine that works

    The option for return values may be missing ([gm_option]); what a call of the module records
    may be anything, with the option and without. *)
Class GraphMachine (W : Type) {HE : Env W} {HG : GraphLib W} (dir : string) := {
  gm : W → tracer;
  gm_option : bool;
  gm_header : list trace_line;
  gm_calls : bool → list trace_line;
  gm_write_on b w : does gm (write_call on_path (flag_text b)) (set_on b) w;
  gm_clear w : does gm (write_call trace_path "") clear w;
  gm_select v w : ∃ b, does gm (write_call current_path v) (set_current v b) w;
  gm_write_option b w : gm_option = true → does gm (write_call option_path (flag_text b)) (set_retval b) w;
  gm_has_option w : env_exists option_path w = (gm_option, w);
  gm_read_option w : gm_option = true → ∃ text, env_read option_path w = (Ret text, w) ∧ py_strip text = flag_text (tr_retval (gm w));
  gm_read_trace w : env_read trace_path w = (Ret (trace_text (gm_header ++ tr_buffer (gm w))), w);
  (* files elsewhere, the copy of the source and the build leave the tracer alone *)
  gm_write_other path text w : starts_with (chars_of debugfs) (chars_of path) = false → does gm (write_call path text) id w;
  gm_copy args w : does gm (gl_lib "shutil.copyfile" args) id w;
  gm_make args w : does gm (gl_lib "build.make" args) id w;
  gm_template : ∃ p, gl_data "Makefile" = Some p ∧ ∀ w, ∃ t, env_read p w = (Ret t, w);
  gm_built w : gl_isfile (ko_file dir) w = (true, w);
  gm_exists_ko w : ∃ b, env_exists (ko_file dir) w = (b, w);
  gm_insmod w : tr_loaded (gm w) = false → does gm (env_run (insmod_cmd dir) [Sudo; Shell]) (load gm_calls) w;
  gm_rmmod w : tr_on (gm w) = false → does gm (env_run rmmod_cmd [Sudo; Shell; IgnoreStatus]) (set_loaded false) w;
}.

Section calls.
Context {W : Type} {HE : Env W} {HG : GraphLib W} (g : W → tracer).

Lemma gl_do_runs fn args f w x : does g (gl_lib fn args) f w →
  ∃ w', runs (gl_do fn args) w x (Ret ()) w' x ∧ g w' = f (g w).
Proof using Type. intros (r & w' & E & H). exists w'. split; [|done]. unfold gl_do, gl_call. eapply runs_bind; [by apply runs_ext|]. apply runs_ret. Qed.

Lemma graph_write_runs path text f w x : does g (write_call path text) f w →
  ∃ w', runs (write_file path text) w x (Ret ()) w' x ∧ g w' = f (g w).
Proof using Type.
  intros (w' & H & E)%(gl_do_runs _ _ _ _ x). exists w'. split; [|done]. unfold write_file. apply runs_try_ret. run_by H. apply runs_log.
Qed.
End calls.

(** The attributes after setUp. *)
Definition at_work (dir : string) (loaded : bool) (fs : list string) : fg_self :=
  FgSelf (Some debugfs) (Some current_path) (Some on_path) (Some trace_path) (Some dir) (Some "test_retval") (Some loaded) (Some fs).

Section machine.
Context {W : Type} {HE : Env W} {HG : GraphLib W} (dir : string).
Context {HM : GraphMachine W dir}.
Context (Hdir : starts_with (chars_of debugfs) (chars_of (path_join dir "Makefile")) = false).
Context (Hout : starts_with (chars_of debugfs) (chars_of (path_join gl_outputdir "trace_output.log")) = false).
Implicit Types (w : W) (x : fg_self).

Lemma title_runs msg w x : runs (title msg) w x (Ret ()) w x.
Proof using Type. unfold title. run. Qed.

Lemma on_runs b loaded fs w : let x := at_work dir loaded fs in
  ∃ w', runs (write_to tracing_on (flag_text b)) w x (Ret ()) w' x ∧ gm w' = set_on b (gm w).
Proof using Type.
  intros x. destruct (graph_write_runs gm _ _ _ _ x (gm_write_on b w)) as (w' & H & E). exists w'. split; [|done].
  unfold write_to, tracing_on. run_by runs_attr; [reflexivity|]. exact H.
Qed.

Lemma clear_runs loaded fs w : let x := at_work dir loaded fs in
  ∃ w', runs (write_to trace_file "") w x (Ret ()) w' x ∧ gm w' = clear (gm w).
Proof using Type.
  intros x. destruct (graph_write_runs gm _ _ _ _ x (gm_clear w)) as (w' & H & E). exists w'. split; [|done].
  unfold write_to, trace_file. run_by runs_attr; [reflexivity|]. exact H.
Qed.

Lemma select_runs v loaded fs w : let x := at_work dir loaded fs in
  ∃ w' b, runs (write_to current_tracer v) w x (Ret ()) w' x ∧ gm w' = set_current v b (gm w).
Proof using Type.
  intros x. destruct (gm_select v w) as [b Hb]. destruct (graph_write_runs gm _ _ _ _ x Hb) as (w' & H & E). exists w', b. split; [|done].
  unfold write_to, current_tracer. run_by runs_attr; [reflexivity|]. exact H.
Qed.

Lemma ko_runs loaded fs w : let x := at_work dir loaded fs in runs ko_path w x (Ret (ko_file dir)) w x.
Proof using Type.
  intros x. unfold ko_path, module_dir, module_name. run_by runs_attr; [reflexivity|]. run_by runs_attr; [reflexivity|]. apply runs_ret.
Qed.

Lemma graph_read_runs path text w x : env_read path w = (Ret text, w) → runs (read_stripped path) w x (Ret (Some (py_strip text))) w x.
Proof using Type.
  intros H. unfold read_stripped. apply runs_try_ret. unfold read_file. eapply runs_bind; [by apply runs_silent|]. cbv beta zeta.
  run_step. apply runs_ret.
Qed.

Lemma retval_option_runs loaded fs w : let x := at_work dir loaded fs in runs retval_option w x (Ret option_path) w x.
Proof using Type. intros x. unfold retval_option, tracefs. run_by runs_attr; [reflexivity|]. apply runs_ret. Qed.

Lemma path_exists_runs path b w x : env_exists path w = (b, w) → runs (path_exists path) w x (Ret b) w x.
Proof using Type. intros H. unfold path_exists. apply runs_silent. by rewrite H. Qed.

(** ** The module *)

Lemma build_runs loaded fs w : let x := at_work dir loaded fs in
  ∃ w', runs build_test_module w x (Ret (ko_file dir)) w' x ∧ gm w' = gm w.
Proof using HM Hdir.
  intros x. destruct gm_template as (p & Hp & Hr).
  destruct (gl_do_runs gm _ _ _ _ x (gm_copy [data_path "retval_test.c"; VStr (path_join dir "test_retval.c")] w)) as (w1 & R1 & E1).
  destruct (Hr w1) as [t Ht].
  destruct (gl_do_runs gm _ _ _ _ x (gm_write_other (path_join dir "Makefile") (py_replace "MODULE_DIR" dir t) w1 Hdir)) as (w2 & R2 & E2).
  destruct (gl_do_runs gm _ _ _ _ x (gm_make [VStr dir] w2)) as (w3 & R3 & E3).
  exists w3. split; [|unfold id in *; congruence].
  unfold build_test_module. run_by title_runs. unfold module_dir. run_by runs_attr; [reflexivity|]. run_by R1.
  unfold read_data. rewrite Hp. unfold read_file. eapply runs_bind; [by apply runs_silent|]. cbv beta. run_by R2. run_step. run_by R3.
  run_by ko_runs. eapply runs_bind; [apply runs_silent; by rewrite gm_built|]. cbv beta. cbn [negb]. run_step. run_step. apply runs_ret.
Qed.

Lemma load_runs loaded fs w : tr_loaded (gm w) = false →
  ∃ w', runs (load_test_module (ko_file dir)) w (at_work dir loaded fs) (Ret ()) w' (at_work dir true fs) ∧ gm w' = load gm_calls (gm w).
Proof using HM.
  intros Hl. destruct (gm_insmod w Hl) as (r & w' & E & H). exists w'. split; [|done]. unfold load_test_module. run_step. apply runs_try_ret.
  unfold process_run. eapply runs_bind; [by apply runs_ext|]. cbv beta.
  eapply runs_bind; [exact (runs_modify (with_module_loaded true) w' (at_work dir loaded fs))|]. apply runs_log.
Qed.

Lemma unload_runs (loaded : bool) fs w : (loaded = true → tr_on (gm w) = false) →
  ∃ w', runs unload_test_module w (at_work dir loaded fs) (Ret ()) w' (at_work dir false fs) ∧
    gm w' = if loaded then set_loaded false (gm w) else gm w.
Proof using HM.
  intros Ho. unfold unload_test_module. destruct loaded.
  - destruct (gm_rmmod w (Ho eq_refl)) as (r & w' & E & H). exists w'. split; [|done]. run_by runs_attr; [reflexivity|]. apply runs_when_true. run_step.
    apply runs_try_ret. unfold module_name. run_by runs_attr; [reflexivity|]. unfold process_run. eapply runs_bind; [by apply runs_ext|]. cbv beta.
    eapply runs_bind; [exact (runs_modify (with_module_loaded false) w' (at_work dir true fs))|]. apply runs_log.
  - exists w. split; [|done]. run_by runs_attr; [reflexivity|]. apply runs_when_false.
Qed.

(** ** The parts of the test *)

Lemma graph_add_failure_runs msg loaded fs w : runs (add_failure msg) w (at_work dir loaded fs) (Ret ()) w (at_work dir loaded (fs ++ [msg])).
Proof using Type.
  unfold add_failure, failures. run_by runs_attr; [reflexivity|]. exact (runs_modify (with_failures (fs ++ [msg])) w (at_work dir loaded fs)).
Qed.

(** The tracer is set up when there is the option. *)
Lemma setup_runs loaded w : ∃ fs w' b,
  runs setup_function_graph_tracer w (at_work dir loaded []) (Ret gm_option) w' (at_work dir loaded fs) ∧
  gm w' = Tracer "function_graph" false (if gm_option then true else tr_retval (gm w)) (tr_loaded (gm w)) b ∧
  (fs = [] ↔ gm_option = true).
Proof using HM.
  set (x := at_work dir loaded []). destruct (on_runs false loaded [] w) as (w1 & R1 & E1).
  destruct (clear_runs loaded [] w1) as (w2 & R2 & E2). destruct (select_runs "function_graph" loaded [] w2) as (w3 & b & R3 & E3).
  assert (gm w3 = Tracer "function_graph" false (tr_retval (gm w)) (tr_loaded (gm w)) b) as Ew by by rewrite E3, E2, E1.
  destruct gm_option eqn:Ho.
  - destruct (graph_write_runs gm _ _ _ _ x (gm_write_option true w3 Ho)) as (w4 & R4 & E4). rewrite Ew in E4.
    destruct (gm_read_option w4 Ho) as (text & Ht & Es). rewrite E4 in Es.
    exists [], w4, b. split; [|split; [done|done]]. unfold setup_function_graph_tracer. run_by title_runs. run_by R1. run_by R2. run_by R3.
    run_by retval_option_runs. run_by path_exists_runs; [apply gm_has_option|]. rewrite Ho. run_by R4. run_step. run_by graph_read_runs; [exact Ht|].
    rewrite Es. rewrite bool_decide_true by done. apply runs_ret.
  - exists ["funcgraph-retval option not available"%string], w3, b. split; [|split; [done|done]].
    unfold setup_function_graph_tracer. run_by title_runs. run_by R1. run_by R2. run_by R3. run_by retval_option_runs.
    run_by path_exists_runs; [apply gm_has_option|]. rewrite Ho. run_by graph_add_failure_runs. apply runs_ret.
Qed.

(** The text of the trace with the calls that are shown. *)
Definition recorded (b : bool) : string := py_strip (trace_text (gm_header ++ gm_calls b)).

Lemma recorded_nonempty b : wf_trace (gm_header ++ gm_calls b) → py_empty (recorded b) = false.
Proof using Type. intros H. unfold recorded. rewrite trace_stripped by done. destruct (joined_trimmed _ H) as [_ Hne]. by destruct (py_join _ _). Qed.

(** The module is loaded with the tracer on. *)
Lemma record_runs fs w : tr_loaded (gm w) = false → tr_current (gm w) = "function_graph"%string →
  let x := at_work dir false fs in
  ∃ w1 w2 w3 w4, runs (write_to trace_file "") w x (Ret ()) w1 x ∧ runs (write_to tracing_on "1") w1 x (Ret ()) w2 x ∧
    runs (load_test_module (ko_file dir)) w2 x (Ret ()) w3 (at_work dir true fs) ∧
    runs (write_to tracing_on "0") w3 (at_work dir true fs) (Ret ()) w4 (at_work dir true fs) ∧
    gm w4 = Tracer "function_graph" false (tr_retval (gm w)) true (gm_calls (tr_retval (gm w))).
Proof using HM.
  intros Hl Hc x. destruct (clear_runs false fs w) as (w1 & R1 & E1). destruct (on_runs true false fs w1) as (w2 & R2 & E2).
  destruct (load_runs false fs w2) as (w3 & R3 & E3); [by rewrite E2, E1|].
  destruct (on_runs false true fs w3) as (w4 & R4 & E4). exists w1, w2, w3, w4. split_and!; [done..|].
  rewrite E4, E3, E2, E1. unfold load, clear, set_on. cbn [tr_current tr_on tr_retval tr_loaded tr_buffer]. by rewrite Hc.
Qed.

Lemma trace_runs fs w : runs (read_stripped trace_path) w (at_work dir true fs)
  (Ret (Some (py_strip (trace_text (gm_header ++ tr_buffer (gm w)))))) w (at_work dir true fs).
Proof using Type. apply graph_read_runs, gm_read_trace. Qed.

Lemma capture_runs fs w : wf_trace (gm_header ++ gm_calls (tr_retval (gm w))) →
  tr_loaded (gm w) = false → tr_current (gm w) = "function_graph"%string →
  ∃ w', runs (capture_trace (ko_file dir)) w (at_work dir false fs) (Ret (Some (recorded (tr_retval (gm w))))) w' (at_work dir true fs) ∧
    gm w' = Tracer "function_graph" false (tr_retval (gm w)) true (gm_calls (tr_retval (gm w))).
Proof using HM.
  intros Hw Hl Hc. destruct (record_runs fs w Hl Hc) as (w1 & w2 & w3 & w4 & R1 & R2 & R3 & R4 & E4). exists w4. split; [|done].
  unfold capture_trace. run_by title_runs. run_by R1. run_by R2. run_by R3. run_by R4. unfold trace_file. run_by runs_attr; [reflexivity|].
  pose proof (trace_runs fs w4) as Rt. rewrite E4 in Rt. cbn [tr_buffer] in Rt. fold (recorded (tr_retval (gm w))) in Rt. run_by Rt.
  rewrite recorded_nonempty by done. apply runs_ret.
Qed.

Lemma graph_verify_runs b loaded w : wf_trace (gm_header ++ gm_calls b) →
  ∃ fs w', runs (verify_return_values (Some (recorded b))) w (at_work dir loaded []) (Ret ()) w' (at_work dir loaded fs) ∧
    gm w' = gm w ∧ (fs = [] ↔ accepted (map line_text (gm_header ++ gm_calls b)) = true).
Proof using HM Hout.
  intros Hw. destruct (gl_do_runs gm _ _ _ _ (at_work dir loaded []) (gm_write_other _ (recorded b) w Hout)) as (w1 & R1 & E1).
  destruct (judges_checks (recorded b) (map line_text (gm_header ++ gm_calls b)) w1 (at_work dir loaded []) []) as (fs & R2 & E2).
  assert (py_split_on LF (recorded b) = map line_text (gm_header ++ gm_calls b)) as El by by apply trace_lines.
  exists fs, w1. split; [|by rewrite E1]. unfold verify_return_values. run_by title_runs. rewrite recorded_nonempty by done. cbv zeta.
  run_by R1. run_step. run_by search_runs; [lia|by apply recorded_nonempty|]. rewrite El. exact R2.
Qed.

(** The first part, and the second. *)
Lemma basic_runs w : wf_trace (gm_header ++ gm_calls true) → tr_loaded (gm w) = false →
  ∃ fs w', runs test_basic_functionality w (at_work dir false []) (Ret ()) w' (at_work dir false fs) ∧
    (∃ b, gm w' = Tracer "function_graph" false (if gm_option then true else tr_retval (gm w)) false b) ∧
    (fs = [] ↔ gm_option && accepted (map line_text (gm_header ++ gm_calls true)) = true).
Proof using HM Hdir Hout.
  intros Hw Hl. destruct (build_runs false [] w) as (w1 & R1 & E1). destruct (setup_runs false w1) as (fs & w2 & b & R2 & E2 & Hf).
  rewrite E1, Hl in E2. destruct gm_option eqn:Ho; cbn [andb].
  - assert (fs = []) as -> by by apply Hf. destruct (capture_runs [] w2) as (w3 & R3 & E3); [by rewrite E2|by rewrite E2|by rewrite E2|].
    rewrite E2 in R3, E3. cbn [tr_retval] in R3, E3. destruct (unload_runs true [] w3) as (w4 & R4 & E4); [by rewrite E3|].
    destruct (graph_verify_runs true false w4 Hw) as (fs & w5 & R5 & E5 & Hfs). exists fs, w5. split; [|split; [|exact Hfs]].
    + unfold test_basic_functionality. run_by title_runs. run_by R1. run_by R2. apply runs_when_true. run_by R3. run_by R4. exact R5.
    + exists (gm_calls true). by rewrite E5, E4, E3.
  - exists fs, w2. split; [|split; [by exists b|split; [by intros ?%Hf|done]]].
    unfold test_basic_functionality. run_by title_runs. run_by R1. run_by R2. apply runs_when_false.
Qed.

Lemma warn_runs s w x : runs (warn_values s) w x (Ret ()) w x.
Proof using Type.
  unfold warn_values. run_by runs_each; [intros y _; apply runs_log|]. destruct (0 <? retval_count s); [|run]. do 2 run_step.
  destruct (negb _); [|apply runs_when_false]. apply runs_when_true. run_step. apply runs_each. intros y _. run.
Qed.

Lemma without_runs fs w : tr_loaded (gm w) = false → tr_current (gm w) = "function_graph"%string →
  ∃ w', runs test_without_retval_option w (at_work dir false fs) (Ret ()) w' (at_work dir false fs) ∧
    ∃ b, gm w' = Tracer "function_graph" false (if gm_option then false else tr_retval (gm w)) false b.
Proof using HM Hdir.
  intros Hl Hc. set (x := at_work dir false fs).
  assert (∃ w1, runs built_module w x (Ret (ko_file dir)) w1 x ∧ gm w1 = gm w) as (w1 & R1 & E1).
  { destruct (gm_exists_ko w) as [b Hb]. destruct b.
    - exists w. split; [|done]. unfold built_module. run_by ko_runs. run_by path_exists_runs; [exact Hb|]. apply runs_ret.
    - destruct (build_runs false fs w) as (w1 & R1 & E1). exists w1. split; [|done]. unfold built_module. run_by ko_runs.
      run_by path_exists_runs; [exact Hb|]. exact R1. }
  destruct (on_runs false false fs w1) as (w2 & R2 & E2).
  assert (∃ w3, runs (when gm_option (write_file option_path "0" ;; log_info "Disabled funcgraph-retval option")) w2 x (Ret ()) w3 x ∧
    gm w3 = if gm_option then set_retval false (gm w2) else gm w2) as (w3 & R3 & E3).
  { destruct gm_option eqn:Ho; [|exists w2; split; [apply runs_when_false|done]].
    destruct (graph_write_runs gm _ _ _ _ x (gm_write_option false w2 Ho)) as (w3 & R3 & E3). exists w3. split; [|done].
    apply runs_when_true. run_by R3. apply runs_log. }
  destruct (record_runs fs w3) as (w4 & w5 & w6 & w7 & R4 & R5 & R6 & R7 & E7).
  1, 2: rewrite E3; destruct gm_option; cbn [set_retval tr_loaded tr_current]; rewrite E2, E1; done.
  destruct (unload_runs true fs w7) as (w8 & R8 & E8); [by rewrite E7|]. rewrite E7 in E8.
  exists w8. split.
  - unfold test_without_retval_option. run_by title_runs. run_by R1. run_by R2. run_by retval_option_runs.
    run_by path_exists_runs; [apply gm_has_option|]. run_by R3. run_by R4. run_by R5. run_by R6. run_by R7. run_by R8.
    unfold trace_file. run_by runs_attr; [reflexivity|]. run_by graph_read_runs; [apply gm_read_trace|].
    destruct (py_empty _) eqn:Ee; [apply runs_log|]. run_by search_runs; [lia|exact Ee|]. apply warn_runs.
  - assert (tr_retval (gm w3) = if gm_option then false else tr_retval (gm w)) as Er by (rewrite E3; destruct gm_option; [done|by rewrite E2, E1]).
    eexists. by rewrite E8, Er.
Qed.

Lemma cleanup_runs fs w : ∃ w', runs cleanup_tracer w (at_work dir false fs) (Ret ()) w' (at_work dir false fs) ∧
  gm w' = Tracer "nop" false (tr_retval (gm w)) (tr_loaded (gm w)) [].
Proof using HM.
  destruct (unload_runs false fs w) as (w1 & R1 & E1); [done|]. destruct (on_runs false false fs w1) as (w2 & R2 & E2).
  destruct (select_runs "nop" false fs w2) as (w3 & b & R3 & E3). destruct (clear_runs false fs w3) as (w4 & R4 & E4).
  exists w4. split; [|by rewrite E4, E3, E2, E1].
  unfold cleanup_tracer. run_by title_runs. run_by R1. run_by R2. run_by R3. run_by R4. apply runs_log.
Qed.

Lemma graph_report_runs fs w x : fg_failures x = Some fs →
  ∃ r, runs report_failures w x r w x ∧ verdict_of r = if bool_decide (fs = []) then PASS else FAIL.
Proof using Type.
  intros Hf. unfold report_failures, failures. destruct (decide (fs = [])) as [->|Hne].
  - exists (Ret ()). split; [|done]. run_by runs_attr; [exact Hf|]. run_by runs_when_false. apply title_runs.
  - eexists (raise_ TestFail _). rewrite bool_decide_false by done. split; [|done]. run_by runs_attr; [exact Hf|]. apply runs_bind_raise.
    rewrite bool_decide_false by done. apply runs_when_true. do 3 run_step. run_by runs_each; [intros y _; apply runs_log|]. apply runs_throw.
Qed.

Lemma try_finally_runs {A} (m : M W fg_self A) fin w x a w1 x1 w2 x2 :
  runs m w x (Ret a) w1 x1 → runs fin w1 x1 (Ret ()) w2 x2 → runs (try_finally m fin) w x (Ret a) w2 x2.
Proof using Type.
  intros Hm Hf tr. destruct (Hm tr) as [tr1 E1]. destruct (Hf tr1) as [tr2 E2]. exists tr2. unfold try_finally. by rewrite E1, E2.
Qed.

(** C18: [test], on a machine with the tracer: it passes exactly when there is the option for return
    values and the lines of the trace that the search looks at, recorded with the option while the
    module is loaded, show a brace and a return value of init and of each of the four helpers; it
    fails otherwise.  What the values are, and what is recorded without the option, does not
    matter.  At the end the tracer is off and set to nop, with nothing recorded, and the module is
    not loaded. *)
Theorem graph_test_verdict w : wf_trace (gm_header ++ gm_calls true) → tr_loaded (gm w) = false →
  ∃ r w' x', runs test w (at_work dir false []) r w' x' ∧
    gm w' = Tracer "nop" false (if gm_option then false else tr_retval (gm w)) false [] ∧
    verdict_of r = if gm_option && accepted (map line_text (gm_header ++ gm_calls true)) then PASS else FAIL.
Proof using HM Hdir Hout.
  intros Hw Hl. destruct (basic_runs w Hw Hl) as (fs & w1 & R1 & (b & E1) & Hf).
  destruct (without_runs fs w1) as (w2 & R2 & b' & E2); [by rewrite E1..|]. rewrite E1 in E2. cbn [tr_retval] in E2.
  destruct (cleanup_runs fs w2) as (w3 & R3 & E3). destruct (graph_report_runs fs w3 (at_work dir false fs) eq_refl) as (r & R4 & Hr).
  exists r, w3, (at_work dir false fs). split; [|split].
  - unfold test. eapply runs_bind; [|exact R4]. eapply try_finally_runs; [|exact R3]. run_by R1. exact R2.
  - rewrite E3, E2. cbn [tr_retval tr_loaded]. by destruct gm_option.
  - rewrite Hr. destruct (gm_option && _); [by rewrite bool_decide_true by by apply Hf|]. rewrite bool_decide_false; [done|]. by intros ?%Hf.
Qed.
End machine.
