(* ===== verification/GraphCleanup.v ===== *)
(** * What the function graph test leaves behind

    Whatever raises while the module is built, loaded or searched for, the tracer is reset and the
    module is taken out.  The interface here is what this needs, and no more: every call may
    raise but those of the cleaning up. *)

From S2P Require Import Prelude PyStr PyFloat PyVal PyRegex Avocado Logic FuncGraph GraphTrace GraphSystem GraphVerdict.
Open Scope Z_scope.

(** Only insmod loads the module, and not when it raises; rmmod takes it out. *)
Class GraphReset (W : Type) {HE : Env W} {HG : GraphLib W} := {
  gr : W → tracer;
  gr_lib fn args w : tr_loaded (gr (gl_lib fn args w).2) = tr_loaded (gr w);
  gr_read path w : tr_loaded (gr (env_read path w).2) = tr_loaded (gr w);
  gr_exists path w : tr_loaded (gr (env_exists path w).2) = tr_loaded (gr w);
  gr_isfile path w : tr_loaded (gr (gl_isfile path w).2) = tr_loaded (gr w);
  gr_insmod path e w w' : env_run ("insmod " +:+ path) [Sudo; Shell] w = (Raise e, w') → tr_loaded (gr w') = tr_loaded (gr w);
  gr_rmmod w : ∃ r w', env_run rmmod_cmd [Sudo; Shell; IgnoreStatus] w = (Ret r, w') ∧ tr_loaded (gr w') = false;
  gr_write_off w : does gr (write_call on_path "0") (set_on false) w;
  gr_write_nop w : ∃ b, does gr (write_call current_path "nop") (set_current "nop" b) w;
  gr_clear w : does gr (write_call trace_path "") clear w;
}.

Section cleanup.
Context {W : Type} {HE : Env W} {HG : GraphLib W} (dir : string).
Context {HR : GraphReset W}.
Implicit Types (w : W).

(** The attributes are those after setUp, but for the failures; and a module that is loaded is known
    to be. *)
Definition tracked (s : pstate W fg_self) : Prop :=
  ∃ loaded fs, ps_self s = at_work dir loaded fs ∧ (tr_loaded (gr (ps_world s)) = true → loaded = true).

Abbreviation K m := (keeps tracked m).

Lemma tracked_world s w tr : tracked s → tr_loaded (gr w) = tr_loaded (gr (ps_world s)) → tracked (PState w tr (ps_self s)).
Proof using Type. intros (loaded & fs & Hx & Hl) E. exists loaded, fs. split; [done|]. cbn [ps_world]. by rewrite E. Qed.

Lemma tracked_ext {A} ev (f : W → result A * W) : (∀ w, tr_loaded (gr (f w).2) = tr_loaded (gr w)) → K (ext ev f).
Proof using Type. intros Hf. apply keeps_ext. intros w tr x Hs. by apply (tracked_world (PState w tr x)). Qed.

Lemma tracked_silent {A} (f : W → result A * W) : (∀ w, tr_loaded (gr (f w).2) = tr_loaded (gr w)) → K (silent f).
Proof using Type. intros Hf. apply keeps_silent. intros w tr x Hs. by apply (tracked_world (PState w tr x)). Qed.

Lemma tracked_log l msg : K (log l msg).
Proof using Type. by apply tracked_ext. Qed.
Lemma tracked_attr {A} name (f : fg_self → option A) : K (attr name f).
Proof using Type. by intros s. Qed.
Lemma tracked_do fn args : K (gl_do fn args).
Proof using Type. apply keeps_bind; [apply tracked_ext, gr_lib|]. intros _. apply keeps_ret. Qed.
Lemma tracked_read path : K (read_file path).
Proof using Type. apply tracked_silent, gr_read. Qed.
Lemma tracked_exists path : K (path_exists path).
Proof using Type. apply tracked_silent. intros w. rewrite <- (gr_exists path w). by destruct (env_exists path w). Qed.
Lemma tracked_isfile path : K (silent (λ w, let '(b, w') := gl_isfile path w in (Ret b, w'))).
Proof using Type. apply tracked_silent. intros w. rewrite <- (gr_isfile path w). by destruct (gl_isfile path w). Qed.

Lemma tracked_failures fs : K (modify (with_failures fs)).
Proof using Type. intros [w tr x] (loaded & fs0 & Hx & Hl). cbn in Hx, Hl. subst x. by exists loaded, fs. Qed.

Lemma tracked_runs {A} (m : M W fg_self A) :
  (∀ w loaded fs, (tr_loaded (gr w) = true → loaded = true) →
     ∃ r w' loaded' fs', runs m w (at_work dir loaded fs) r w' (at_work dir loaded' fs') ∧ (tr_loaded (gr w') = true → loaded' = true)) → K m.
Proof using Type.
  intros H [w tr x] (loaded & fs & Hx & Hl). cbn in Hx, Hl. subst x. destruct (H w loaded fs Hl) as (r & w' & loaded' & fs' & Hr & Hl').
  destruct (Hr tr) as [tr' E]. rewrite E. by exists loaded', fs'.
Qed.

Lemma tracked_load path : K (load_test_module path).
Proof using HR.
  apply tracked_runs. intros w loaded fs Hl. destruct (env_run ("insmod " +:+ path) [Sudo; Shell] w) as [[r|e] w'] eqn:E.
  - exists (Ret ()), w', true, fs. split; [|done]. unfold load_test_module. run_step. apply runs_try_ret.
    unfold process_run. eapply runs_bind; [by apply runs_ext|]. cbv beta.
    eapply runs_bind; [exact (runs_modify (with_module_loaded true) w' (at_work dir loaded fs))|]. apply runs_log.
  - eexists _, w', loaded, fs. split; [|by rewrite (gr_insmod path e w w' E)]. unfold load_test_module. run_step.
    eapply runs_try_raise; [|done|apply runs_throw]. apply runs_bind_raise. unfold process_run. by apply runs_ext.
Qed.

(** A module that is loaded is unloaded. *)
Lemma reset_unload w loaded fs : (tr_loaded (gr w) = true → loaded = true) →
  ∃ w', runs unload_test_module w (at_work dir loaded fs) (Ret ()) w' (at_work dir false fs) ∧ tr_loaded (gr w') = false.
Proof using HR.
  intros Hl. unfold unload_test_module. destruct loaded.
  - destruct (gr_rmmod w) as (r & w' & E & H). exists w'. split; [|done]. run_by runs_attr; [reflexivity|]. apply runs_when_true. run_step.
    apply runs_try_ret. unfold module_name. run_by runs_attr; [reflexivity|]. unfold process_run. eapply runs_bind; [by apply runs_ext|]. cbv beta.
    eapply runs_bind; [exact (runs_modify (with_module_loaded false) w' (at_work dir true fs))|]. apply runs_log.
  - exists w. split; [|by destruct (tr_loaded (gr w)); [discriminate Hl|]]. run_by runs_attr; [reflexivity|]. apply runs_when_false.
Qed.

Lemma tracked_unload : K unload_test_module.
Proof using HR.
  apply tracked_runs. intros w loaded fs Hl. destruct (reset_unload w loaded fs Hl) as (w' & R & E). exists (Ret ()), w', false, fs.
  split; [done|]. by rewrite E.
Qed.
End cleanup.

#[export] Hint Resolve tracked_log tracked_attr tracked_do tracked_read tracked_exists tracked_isfile tracked_failures tracked_load
  tracked_unload : keeps.

Section parts.
Context {W : Type} {HE : Env W} {HG : GraphLib W} (dir : string).
Context {HR : GraphReset W}.
Abbreviation K m := (keeps (tracked dir) m).

Lemma tracked_add msg : K (add_failure msg).
Proof using Type. unfold add_failure, failures. keeps_with idtac. Qed.
Lemma tracked_title msg : K (title msg).
Proof using Type. unfold title. keeps_with idtac. Qed.
#[local] Hint Resolve tracked_add tracked_title : keeps.

Lemma tracked_write path text : K (write_file path text).
Proof using HR. unfold write_file. keeps_with idtac. Qed.
Lemma tracked_stripped path : K (read_stripped path).
Proof using HR. unfold read_stripped. keeps_with idtac. Qed.
#[local] Hint Resolve tracked_write tracked_stripped : keeps.

Lemma tracked_build : K build_test_module.
Proof using HR. unfold build_test_module, module_dir, read_data, ko_path, module_name. keeps_with idtac. Qed.
#[local] Hint Resolve tracked_build : keeps.

Lemma tracked_setup : K setup_function_graph_tracer.
Proof using HR.
  unfold setup_function_graph_tracer, write_to, tracing_on, trace_file, current_tracer, retval_option, tracefs. keeps_with idtac.
Qed.
Lemma tracked_capture path : K (capture_trace path).
Proof using HR. unfold capture_trace, write_to, tracing_on, trace_file. keeps_with idtac. Qed.

Lemma tracked_scan m lf n lines s : K (scan_lines m lf n lines s).
Proof using Type.
  revert n s. induction lines as [|line lines IH]; intros n s; cbn [scan_lines]; [apply keeps_ret|]. cbv zeta.
  destruct (retval_of line) as [[f v]|]; [|apply IH]. destruct (py_in "test_retval" f); [|apply IH].
  apply keeps_bind; [apply keeps_when, tracked_log|]. intros _. destruct (_ && _); [|apply IH]. keeps_with idtac.
Qed.
Lemma tracked_search text m lf : K (search_module_functions_in_trace text m lf).
Proof using Type. unfold search_module_functions_in_trace. destruct (py_empty text); [apply keeps_ret|apply tracked_scan]. Qed.
#[local] Hint Resolve tracked_setup tracked_capture tracked_search : keeps.

Lemma tracked_judges m b : judges m b → K m.
Proof using Type.
  intros H. apply tracked_runs. intros w loaded fs Hl. destruct (H w (at_work dir loaded fs) fs) as (ms & R & _).
  by exists (Ret ()), w, loaded, (fs ++ ms).
Qed.

Lemma tracked_verify text : K (verify_return_values text).
Proof using HR.
  unfold verify_return_values. apply keeps_bind; [apply tracked_title|]. intros _. destruct text as [text|]; [|apply tracked_add].
  destruct (py_empty text); [apply tracked_add|]. cbv zeta. apply keeps_bind; [apply tracked_do|]. intros _.
  apply keeps_bind; [apply tracked_log|]. intros _. apply keeps_bind; [apply tracked_search|]. intros s.
  keeps_with idtac; eapply tracked_judges; [apply judges_graph|apply judges_values|apply judges_functions|apply judges_final].
Qed.
#[local] Hint Resolve tracked_verify : keeps.

Lemma tracked_warn s : K (warn_values s).
Proof using Type. apply tracked_runs. intros w loaded fs Hl. exists (Ret ()), w, loaded, fs. split; [apply warn_runs|done]. Qed.
#[local] Hint Resolve tracked_warn : keeps.

Lemma tracked_body : K (test_basic_functionality ;; test_without_retval_option).
Proof using HR.
  unfold test_basic_functionality, test_without_retval_option, built_module, ko_path, write_to, tracing_on, trace_file, module_dir, module_name,
    retval_option, tracefs. keeps_with idtac.
Qed.

(** Cleaning up, from any state of the machine. *)
Lemma graph_reset_runs w loaded fs : (tr_loaded (gr w) = true → loaded = true) →
  ∃ w', runs cleanup_tracer w (at_work dir loaded fs) (Ret ()) w' (at_work dir false fs) ∧
    ∃ v, gr w' = Tracer "nop" false v false [].
Proof using HR.
  intros Hl. destruct (reset_unload dir w loaded fs Hl) as (w1 & R1 & E1). set (x := at_work dir false fs).
  destruct (graph_write_runs gr _ _ _ _ x (gr_write_off w1)) as (w2 & R2 & E2). destruct (gr_write_nop w2) as [b Hb].
  destruct (graph_write_runs gr _ _ _ _ x Hb) as (w3 & R3 & E3). destruct (graph_write_runs gr _ _ _ _ x (gr_clear w3)) as (w4 & R4 & E4).
  exists w4. split; [|exists (tr_retval (gr w1)); rewrite E4, E3, E2; unfold clear, set_current, set_on; cbn; by rewrite E1].
  unfold cleanup_tracer, write_to. run_by title_runs. run_by R1. run_by runs_bind; [by apply runs_attr|exact R2|].
  run_by runs_bind; [by apply runs_attr|exact R3|]. run_by runs_bind; [by apply runs_attr|exact R4|]. apply runs_log.
Qed.

(** setUp, when it returns, leaves these attributes: a test that starts with no module loaded is
    tracked. *)
Lemma setUp_leaves s s' : setUp s = (Ret (), s') → ∃ d, ps_self s' = at_work d false [].
Proof using Type.
  unfold setUp. intros H. do 7 (apply bind_returns in H as (? & ? & _ & H); cbv beta in H).
  match type of H with _ ?s1 = _ => destruct s1 as [w1 tr1 y1] end.
  cbv beta iota delta [mbind M_bind modify attr tracefs ext ps_self ps_world ps_trace with_tracefs with_current_tracer with_tracing_on
    with_trace_file with_module_dir with_module_name with_module_loaded with_failures fg_tracefs fg_current_tracer fg_tracing_on
    fg_trace_file fg_module_dir fg_module_name fg_module_loaded fg_failures] in H.
  destruct (gl_mkdtemp w1) as [[d|e] w2]; [|done]. injection H as <-. by exists d.
Qed.

(** C19: whatever a step of [test] raises - the build, insmod, a file that cannot be read or written -,
    when it ends the tracer is off and set to nop, nothing is recorded, and the module is not
    loaded; provided that the writes that reset the tracer and the removal of a module that is loaded succeed. *)
Theorem graph_test_cleans_up s : tracked dir s →
  ∃ v, gr (ps_world (test s).2) = Tracer "nop" false v false [].
Proof using HR.
  intros Hs. pose proof (tracked_body s Hs) as Hb. unfold test at 1. unfold mbind at 1, M_bind at 1, try_finally.
  destruct ((test_basic_functionality ;; test_without_retval_option) s) as [r [w1 tr1 x1]] eqn:E. cbn [snd] in Hb.
  destruct Hb as (loaded & fs & Hx & Hl). cbn [ps_self ps_world] in Hx, Hl. subst x1.
  destruct (graph_reset_runs w1 loaded fs Hl) as (w2 & R2 & v & Ew). destruct (R2 tr1) as [tr2 ->]. exists v.
  destruct r as [[]|e]; [|exact Ew]. destruct (graph_report_runs fs w2 (at_work dir false fs) eq_refl) as (r & R3 & _).
  destruct (R3 tr2) as [tr3 ->]. exact Ew.
Qed.
End parts.
