(* ===== verification/GraphSim.v ===== *)
(** * A simulated tracer

    A machine whose state is the tracer itself: the commands and the files are decoded.  Its option
    for return values has no effect, and insmod may be broken; the theorems on the function graph
    test are applied to it. *)

From S2P Require Import Prelude PyStr PyFloat PyVal PyRegex Avocado Logic FuncGraph GraphTrace GraphSystem GraphVerdict GraphCleanup.
Open Scope Z_scope.

(** ** What is recorded *)

Definition sim_header : list trace_line := [Plain (chars_of "# tracer: function_graph"); Plain (chars_of "#")].

(** A call that returns: the line of its closing brace. *)
Definition sim_return (f : string) (v : retval) : trace_line :=
  Returns (chars_of " 0)   1.284 us    |    } ") (Some (chars_of f, Some (chars_of "test_retval"))) v.

Definition sim_calls (b : bool) : list trace_line :=
  [Plain (chars_of " 0)               |  test_retval_init [test_retval]() {");
   Returns (chars_of " 0)   0.512 us    |    _printk(); ") None (RDec 27);
   sim_return "test_retval_func" (RHex (chars_of "3e"));
   sim_return "test_retval_large" (RHex (chars_of "123456789abcdef0"));
   sim_return "test_retval_zero" (RDec 0);
   sim_return "test_retval_negative" (RDec (-42));
   sim_return "test_retval_init" (RHex (chars_of "0"))].

(** ** The machine *)

Definition sim_dir : string := "/tmp/avocado_retval".

Definition sim_write (path text : string) (w : tracer) : tracer :=
  if String.eqb path on_path then set_on (String.eqb text "1") w
  else if String.eqb path trace_path then clear w
  else if String.eqb path current_path then set_current text [] w
  else if String.eqb path option_path then set_retval (String.eqb text "1") w
  else w.

Definition sim_lib (fn : string) (args : list pyval) (w : tracer) : tracer :=
  match args with
  | [VStr path; VStr text] => if String.eqb fn "genio.write_file" then sim_write path text w else w
  | _ => w
  end.

Definition sim_run (broken : bool) (cmd : string) (w : tracer) : result cmd_result * tracer :=
  if String.eqb cmd rmmod_cmd then (Ret (CmdResult 0 ""), set_loaded false w)
  else if broken then (raise_ CmdError "insmod", w)
  else (Ret (CmdResult 0 ""), load sim_calls w).

Definition sim_read (path : string) (w : tracer) : string :=
  if String.eqb path trace_path then trace_text (sim_header ++ tr_buffer w) else flag_text (tr_retval w) +:+ NL.

Definition tracer_env (broken : bool) : Env tracer := {|
  env_run := λ cmd _, sim_run broken cmd;
  env_system := λ _ _ w, (Ret 0, w);
  env_system_output := λ _ _ w, (Ret ""%string, w);
  env_ssh := λ _ _ w, (Ret (CmdResult 0 ""), w);
  env_connect := λ _ _ _ w, (Ret true, w);
  env_show := λ r, stdout_text r;
  env_param := λ _ d, d;
  env_exists := λ _ w, (true, w);
  env_read := λ path w, (Ret (sim_read path w), w);
  env_append := λ _ _ w, (Ret (), w);
  env_remove := λ _ w, (Ret (), w);
  env_random := λ w, (0, w);
|}.

Definition tracer_lib : GraphLib tracer := {|
  gl_lib := λ fn args w, (Ret VNone, sim_lib fn args w);
  gl_mkdtemp := λ w, (Ret sim_dir, w);
  gl_isfile := λ _ w, (true, w);
  gl_not_set := λ _ w, (Ret false, w);
  gl_data := λ name, Some (path_join "/data" name);
  gl_machine := "ppc64le";
  gl_distro := "rhel";
  gl_release := "6.14";
  gl_outputdir := "/var/log/avocado";
|}.

#[local, refine] Instance tracer_machine : GraphMachine tracer (HE:=tracer_env false) (HG:=tracer_lib) sim_dir := {|
  gm := id;
  gm_option := true;
  gm_header := sim_header;
  gm_calls := sim_calls;
  gm_write_on := _;
  gm_clear := _;
  gm_select := _;
  gm_write_option := _;
  gm_has_option := _;
  gm_read_option := _;
  gm_read_trace := _;
  gm_write_other := _;
  gm_copy := _;
  gm_make := _;
  gm_template := _;
  gm_built := _;
  gm_exists_ko := _;
  gm_insmod := _;
  gm_rmmod := _;
|}.
Proof.
  - intros [] w; by eexists _, _.
  - intros w. by eexists _, _.
  - intros v w. exists []. by eexists _, _.
  - intros [] w _; by eexists _, _.
  - done.
  - intros w _. exists (flag_text (tr_retval w) +:+ NL). split; [done|]. change (id w) with w. by destruct (tr_retval w).
  - done.
  - intros path text w Hp. exists VNone, w. split; [|done]. unfold write_call. cbn [gl_lib tracer_lib]. f_equal. unfold sim_lib.
    rewrite String.eqb_refl. unfold sim_write.
    destruct (String.eqb_spec path on_path) as [->|_]; [done|]. destruct (String.eqb_spec path trace_path) as [->|_]; [done|].
    destruct (String.eqb_spec path current_path) as [->|_]; [done|]. by destruct (String.eqb_spec path option_path) as [->|_].
  - intros args w. exists VNone, w. split; [|done]. cbn [gl_lib tracer_lib]. f_equal. unfold sim_lib.
    by destruct args as [|[| | | |path| |] [|[| | | |text| |] [|? ?]]].
  - intros args w. exists VNone, w. split; [|done]. cbn [gl_lib tracer_lib]. f_equal. unfold sim_lib.
    by destruct args as [|[| | | |path| |] [|[| | | |text| |] [|? ?]]].
  - eexists. split; [done|]. intros w. by eexists.
  - done.
  - intros w. by eexists.
  - intros w _. by eexists _, _.
  - intros w _. by eexists _, _.
Defined.

(** With a broken insmod. *)
#[local, refine] Instance tracer_reset : GraphReset tracer (HE:=tracer_env true) (HG:=tracer_lib) := {|
  gr := id;
  gr_lib := _;
  gr_read := _;
  gr_exists := _;
  gr_isfile := _;
  gr_insmod := _;
  gr_rmmod := _;
  gr_write_off := _;
  gr_write_nop := _;
  gr_clear := _;
|}.
Proof.
  - intros fn args w. cbn [gl_lib tracer_lib snd id]. unfold sim_lib. destruct args as [|[| | | |path| |] [|[| | | |text| |] [|? ?]]]; try done.
    destruct (String.eqb fn _); [|done]. unfold sim_write. by repeat destruct (String.eqb path _).
  - done.
  - done.
  - done.
  - intros path e w w'. cbn [env_run tracer_env]. unfold sim_run. destruct (String.eqb _ rmmod_cmd); [done|]. by intros [= _ <-].
  - intros w. by eexists _, _.
  - intros w. by eexists _, _.
  - intros w. exists []. by eexists _, _.
  - intros w. by eexists _, _.
Defined.

(** ** The witnesses *)

Definition sim_tracer : tracer := Tracer "nop" false false false [].

Lemma sim_trace_wf b : wf_trace (sim_header ++ sim_calls b).
Proof.
  split; [|split].
  - unfold sim_header, sim_calls, sim_return. cbn [app]. repeat (apply List.Forall_cons); [..|apply List.Forall_nil].
    all: repeat split; first [by apply (bool_decide_eq_true_1 _)|by left|by repeat constructor|done].
  - by eexists _, _, _, _.
  - eexists (_ :: _ :: _ :: _ :: _ :: _ :: _ :: _ :: []), _, _. by split.
Qed.

Lemma trace_read_witness : wf_trace (sim_header ++ sim_calls true) ∧
  let lines := py_split_on LF (py_strip (trace_text (sim_header ++ sim_calls true))) in
  length lines = 9%nat ∧ map retval_of lines !! 8%nat = Some (Some ("test_retval_init", "0x0"))%string.
Proof.
  split; [apply sim_trace_wf|]. destruct (trace_read _ (sim_trace_wf true)) as [Hl Hr]. cbv zeta in *. rewrite Hl, Hr. by split.
Defined.

Definition sim_lines : list string := map line_text (sim_header ++ sim_calls true).

Definition sim_text : string := py_join NL sim_lines.

Lemma sim_helpers_first : helpers_first (py_split_on LF sim_text).
Proof. exists (take 8 sim_lines), (drop 8 sim_lines). split_and!; by vm_compute. Qed.

Lemma early_exit_harmless_witness :
  ∃ s s', runs (search_module_functions_in_trace sim_text (Some 100) true) sim_tracer new_fg (Ret s) sim_tracer new_fg ∧
    runs (search_module_functions_in_trace sim_text None true) sim_tracer new_fg (Ret s') sim_tracer new_fg ∧
    checked s = checked s'.
Proof. exact (early_exit_harmless sim_text true sim_tracer new_fg sim_helpers_first). Defined.

(** The test passes, though the machine shows the return values without the option, too. *)
Lemma graph_test_verdict_witness :
  ∃ r w x, runs (test (HE:=tracer_env false) (HG:=tracer_lib)) sim_tracer (at_work sim_dir false []) r w x ∧
    w = Tracer "nop" false false false [] ∧ verdict_of r = PASS.
Proof.
  refine (graph_test_verdict (HE:=tracer_env false) (HG:=tracer_lib) sim_dir (HM:=tracer_machine) _ _ sim_tracer (sim_trace_wf true) _);
    reflexivity.
Defined.

Lemma sim_tracked : tracked (HE:=tracer_env true) (HG:=tracer_lib) sim_dir (HR:=tracer_reset) (PState sim_tracer [] (at_work sim_dir false [])).
Proof. by exists false, []. Qed.

(** insmod is broken: the test fails, and the tracer is reset. *)
Lemma graph_test_cleans_up_witness :
  verdict_of (test (HE:=tracer_env true) (HG:=tracer_lib) (PState sim_tracer [] (at_work sim_dir false []))).1 = FAIL ∧
  ∃ v, gr (GraphReset:=tracer_reset) (ps_world (test (HE:=tracer_env true) (HG:=tracer_lib) (PState sim_tracer [] (at_work sim_dir false []))).2) =
    Tracer "nop" false v false [].
Proof.
  split; [by vm_compute|].
  exact (graph_test_cleans_up (HE:=tracer_env true) (HG:=tracer_lib) sim_dir (HR:=tracer_reset)
    (PState sim_tracer [] (at_work sim_dir false [])) sim_tracked).
Defined.
