(* ===== verification/Iozone.v ===== *)
(** * The file system benchmark: io/disk/iozone.py

    The classes [IOzoneAnalyzer] and [IOzonePlotter], which read the table that iozone prints,
    average it and write commands for gnuplot, and the test [IOZone], which builds iozone, sets up
    RAID, a logical volume and a file system, runs it and records its values.  avocado's
    [data_structures], [astring], [disk], [lv_utils], [softwareraid] and [Partition], the archive
    and the build functions, the file system and the handlers of the log are the class [IoLib]. *)

From S2P Require Import Prelude PyStr PyFloat PyVal PyRegex Avocado Logic.
Open Scope Z_scope.

(** ** Data *)

(** A line of the table: fifteen integers. *)
Abbreviation row := (list Z).
Definition LABELS : list string :=
  ["file_size"; "record_size"; "write"; "rewrite"; "read"; "reread"; "randread"; "randwrite"; "bkwdread"; "recordrewrite";
   "strideread"; "fwrite"; "frewrite"; "fread"; "freread"]%string.

(** The two objects, with the attributes that their methods read. *)
Record analyzer := Analyzer { an_list_files : list pyval; an_output_dir : string }.
Record plotter := Plotter {
  pl_active : bool;
  pl_results_file : option string;
  pl_output_dir : string;
  pl_datasource : option string;
}.

(** What [compare_matrices] gives: the matrix, improvements, regressions and the number of values. *)
Record comparison := Comparison { cm_matrix : list (list pyval); cm_improvements : Z; cm_regressions : Z; cm_total : Z }.

(** The values that are recorded: a number or the text of one. *)
Inductive keyval := KInt (z : Z) | KStr (s : string).

(** The attributes of the test; [None] is an attribute that is not set. *)
Record io_self := IoSelf {
  io_fs_create : option bool;
  io_lv_create : option bool;
  io_raid_create : option bool;
  io_disk : option pyval;
  io_source_url : option pyval;
  io_base_dir : option string;
  io_sourcedir : option string;
  io_dirs : option pyval;
  io_sraid : option (list pyval);             (* the arguments of SoftwareRaid *)
  io_part_obj : option (pyval * pyval);       (* the device and the mount point *)
  io_results : option string;
  io_auto_mode : option bool;
  io_whiteboard : option string;
}.

Definition new_io : io_self := IoSelf None None None None None None None None None None None None None.

Definition with_fs_create (v : bool) (x : io_self) : io_self :=
  IoSelf (Some v) (io_lv_create x) (io_raid_create x) (io_disk x) (io_source_url x) (io_base_dir x) (io_sourcedir x) (io_dirs x)
    (io_sraid x) (io_part_obj x) (io_results x) (io_auto_mode x) (io_whiteboard x).
Definition with_lv_create (v : bool) (x : io_self) : io_self :=
  IoSelf (io_fs_create x) (Some v) (io_raid_create x) (io_disk x) (io_source_url x) (io_base_dir x) (io_sourcedir x) (io_dirs x)
    (io_sraid x) (io_part_obj x) (io_results x) (io_auto_mode x) (io_whiteboard x).
Definition with_raid_create (v : bool) (x : io_self) : io_self :=
  IoSelf (io_fs_create x) (io_lv_create x) (Some v) (io_disk x) (io_source_url x) (io_base_dir x) (io_sourcedir x) (io_dirs x)
    (io_sraid x) (io_part_obj x) (io_results x) (io_auto_mode x) (io_whiteboard x).
Definition with_disk (v : pyval) (x : io_self) : io_self :=
  IoSelf (io_fs_create x) (io_lv_create x) (io_raid_create x) (Some v) (io_source_url x) (io_base_dir x) (io_sourcedir x) (io_dirs x)
    (io_sraid x) (io_part_obj x) (io_results x) (io_auto_mode x) (io_whiteboard x).
Definition with_source_url (v : pyval) (x : io_self) : io_self :=
  IoSelf (io_fs_create x) (io_lv_create x) (io_raid_create x) (io_disk x) (Some v) (io_base_dir x) (io_sourcedir x) (io_dirs x)
    (io_sraid x) (io_part_obj x) (io_results x) (io_auto_mode x) (io_whiteboard x).
Definition with_base_dir (v : string) (x : io_self) : io_self :=
  IoSelf (io_fs_create x) (io_lv_create x) (io_raid_create x) (io_disk x) (io_source_url x) (Some v) (io_sourcedir x) (io_dirs x)
    (io_sraid x) (io_part_obj x) (io_results x) (io_auto_mode x) (io_whiteboard x).
Definition with_sourcedir (v : string) (x : io_self) : io_self :=
  IoSelf (io_fs_create x) (io_lv_create x) (io_raid_create x) (io_disk x) (io_source_url x) (io_base_dir x) (Some v) (io_dirs x)
    (io_sraid x) (io_part_obj x) (io_results x) (io_auto_mode x) (io_whiteboard x).
Definition with_dirs (v : pyval) (x : io_self) : io_self :=
  IoSelf (io_fs_create x) (io_lv_create x) (io_raid_create x) (io_disk x) (io_source_url x) (io_base_dir x) (io_sourcedir x) (Some v)
    (io_sraid x) (io_part_obj x) (io_results x) (io_auto_mode x) (io_whiteboard x).
Definition with_sraid (v : list pyval) (x : io_self) : io_self :=
  IoSelf (io_fs_create x) (io_lv_create x) (io_raid_create x) (io_disk x) (io_source_url x) (io_base_dir x) (io_sourcedir x) (io_dirs x)
    (Some v) (io_part_obj x) (io_results x) (io_auto_mode x) (io_whiteboard x).
Definition with_part_obj (v : pyval * pyval) (x : io_self) : io_self :=
  IoSelf (io_fs_create x) (io_lv_create x) (io_raid_create x) (io_disk x) (io_source_url x) (io_base_dir x) (io_sourcedir x) (io_dirs x)
    (io_sraid x) (Some v) (io_results x) (io_auto_mode x) (io_whiteboard x).
Definition with_results (v : string) (x : io_self) : io_self :=
  IoSelf (io_fs_create x) (io_lv_create x) (io_raid_create x) (io_disk x) (io_source_url x) (io_base_dir x) (io_sourcedir x) (io_dirs x)
    (io_sraid x) (io_part_obj x) (Some v) (io_auto_mode x) (io_whiteboard x).
Definition with_auto_mode (v : bool) (x : io_self) : io_self :=
  IoSelf (io_fs_create x) (io_lv_create x) (io_raid_create x) (io_disk x) (io_source_url x) (io_base_dir x) (io_sourcedir x) (io_dirs x)
    (io_sraid x) (io_part_obj x) (io_results x) (Some v) (io_whiteboard x).
Definition with_whiteboard (v : string) (x : io_self) : io_self :=
  IoSelf (io_fs_create x) (io_lv_create x) (io_raid_create x) (io_disk x) (io_source_url x) (io_base_dir x) (io_sourcedir x) (io_dirs x)
    (io_sraid x) (io_part_obj x) (io_results x) (io_auto_mode x) (Some v).

(** The library functions that these classes call. *)
Class IoLib (W : Type) := {
  il_lib : string → list pyval → W → result pyval * W;
  il_isdir : string → W → bool * W;
  il_isfile : string → W → bool * W;
  il_disk_path : pyval → W → result pyval * W;          (* disk.get_absolute_disk_path *)
  il_disk_paths : W → result (list string) * W;         (* disk.get_all_disk_paths *)
  il_fetch : pyval → W → result string * W;             (* self.fetch_asset *)
  il_total_space : pyval → W → result num * W;          (* lv_utils.get_device_total_space *)
  il_geometric_mean : list Z → result num;
  il_ordered_list_unique : list Z → list Z;
  il_compare_matrices : list row → list row → result comparison;
  il_tabular_output : list (list pyval) → list string → string;
  il_data : pyval → pyval;                              (* self.get_data *)
  il_partition_error : exn_class → bool;                (* isinstance(e, PartitionError) *)
  il_distro : string;
  il_version : string;
  il_release : string;
  il_arch : string;
  il_basedir : string;                                  (* os.path.abspath(self.basedir) *)
  il_outputdir : string;
  il_workdir : string;
  il_teststmpdir : string;
}.

(** ** The table *)

(** The numbers of a line with fifteen of them. *)
Definition int_row (line : string) : option row :=
  let fields := py_split line in
  if negb (length fields =? 15)%nat then None
  else match results (map (λ s, py_int (VStr s)) fields) with Ret l => Some l | Raise _ => None end.

Definition parse_file (lines : list string) : list row := omap int_row lines.

(** [[line[i] for line in results]] *)
Definition column (i : nat) (rows : list row) : result (list Z) :=
  results (map (λ line, match line !! i with Some z => Ret z | None => raise_ IndexError "list index out of range" end) rows).

Definition index_of_label (label : string) : result nat :=
  match list_find (λ l, l = label) LABELS with
  | Some (i, _) => Ret i
  | None => raise_ ValueError (quote label +:+ " is not in list")
  end.

(** ** The values by key *)

(** [json.dumps(keylist, indent=1)] *)
Definition json_char (c : ascii) : chars :=
  if Ascii.eqb c (ascii_of_nat 34) || Ascii.eqb c (ascii_of_nat 92) then [ascii_of_nat 92; c]
  else if Ascii.eqb c (ascii_of_nat 10) then [ascii_of_nat 92; "n"%char]
  else if Ascii.eqb c (ascii_of_nat 13) then [ascii_of_nat 92; "r"%char]
  else if Ascii.eqb c (ascii_of_nat 9) then [ascii_of_nat 92; "t"%char]
  else if Ascii.eqb c (ascii_of_nat 8) then [ascii_of_nat 92; "b"%char]
  else if Ascii.eqb c (ascii_of_nat 12) then [ascii_of_nat 92; "f"%char]
  else if ch_code c <? 32 then ascii_of_nat 92 :: chars_of "u00" ++ [hex_char (ch_code c / 16); hex_char (ch_code c mod 16)]
  else [c].
Definition json_str (s : string) : string := DQ +:+ str_of (concat (map json_char (chars_of s))) +:+ DQ.
Definition json_value (v : keyval) : string := match v with KInt z => py_str_Z z | KStr s => json_str s end.
Definition json_dumps (d : dict keyval) : string :=
  match d with
  | [] => "{}"
  | _ => "{" +:+ NL +:+ py_join ("," +:+ NL) (map (λ kv, " " +:+ json_str kv.1 +:+ ": " +:+ json_value kv.2) d) +:+ NL +:+ "}"
  end.

Definition labels : list string :=
  ["write"; "rewrite"; "read"; "reread"; "randread"; "randwrite"; "bkwdread"; "recordrewrite"; "strideread"; "fwrite"; "frewrite";
   "fread"; "freread"]%string.

Definition key_name (fields : row) (lin : string) : string :=
  py_str_Z (nth 0 fields 0) +:+ "-" +:+ py_str_Z (nth 1 fields 0) +:+ "-" +:+ lin.
Definition add_row (keylist : dict keyval) (fields : row) : dict keyval :=
  foldl (λ d lv, dict_put (key_name fields lv.1) (KInt lv.2) d) keylist (combine labels (drop 2 fields)).

(** The automatic mode. *)
Definition auto_keylist (lines : list string) : dict keyval :=
  foldl (λ d line, match int_row line with Some fields => add_row d fields | None => d end) [] lines.

(** The patterns as they are written, without the backslashes: [[s]] is the letter s. *)
Definition throughput_pattern (start : string) : re :=
  (RLit start ~> RPlus (RChar "s") ~> RGroup 1 (RPlus (RChar "d")) ~> RPlus (RChar "s") ~>
   RGroup 2 (RPlus (RClass (λ c, Ascii.eqb c "-" || Ascii.eqb c "w")) ~>
             RStar (RClass (λ c, Ascii.eqb c "-" || Ascii.eqb c "w" || Ascii.eqb c "s"))) ~>
   RChar "=" ~> RPlus (RChar "s") ~> RGroup 3 (RStar (RClass (λ c, Ascii.eqb c "d" || Ascii.eqb c "."))) ~> RLit " KB/sec")%re.
Definition child_regexp : re := throughput_pattern "Children see throughput for".
Definition parent_regexp : re := throughput_pattern "Parent sees throughput for".
Definition kb_pattern (unit : string) : re :=
  (RChar "=" ~> RPlus (RChar "s") ~> RGroup 1 (RStar (RClass (λ c, Ascii.eqb c "d" || Ascii.eqb c "."))) ~> RLit unit)%re.
Definition kbsec_regexp : re := kb_pattern " KB/sec".
Definition kbval_regexp : re := kb_pattern " KB".

Definition get_section_name (desc : string) : string := py_replace " " "_" (py_strip desc).

(** What the loop carries: the values, the section and the number of workers. *)
Record kv_state := KvState { kv_list : dict keyval; kv_section : option string; kv_count : Z }.

Definition section_text (s : option string) : string := match s with Some n => n | None => "None" end.
Definition kv_key (s : kv_state) (what : string) : string := section_text (kv_section s) +:+ "-" +:+ py_str_Z (kv_count s) +:+ "-" +:+ what.

(** [line[a:b]] *)
Definition slice (a b : nat) (s : string) : string := str_of (take (b - a) (drop a (chars_of s))).

Definition record_value (s : kv_state) (basekey : string) (match_x : re) (line : string) : kv_state :=
  match re_search match_x line with
  | Some m => KvState (dict_put (kv_key s basekey) (KStr (m_group 1 m)) (kv_list s)) (kv_section s) (kv_count s)
  | None => s
  end.

(** The value of a parent is looked at, but not recorded. *)
Definition keyval_line (s : kv_state) (line : string) : result kv_state :=
  let line := py_strip line in
  match re_search child_regexp line with
  | Some m =>
      w_count ← py_int (VStr (m_group 1 m));
      let section := get_section_name (m_group 2 m) in
      let key_name := section +:+ "-" +:+ py_str_Z w_count +:+ "-kids" in
      Ret (KvState (dict_put key_name (KStr (m_group 3 m)) (kv_list s)) (Some section) w_count)
  | None =>
      if negb (py_in "=" line) then Ret s
      else
        match re_search parent_regexp line with
        | Some m => _ ← py_int (VStr (m_group 1 m)); Ret s
        | None =>
            if String.eqb (slice 3 26 line) " throughput per thread " then Ret (record_value s (slice 0 3 line) kbsec_regexp line)
            else if py_startswith "Min xfer " line then Ret (record_value s "MinXfer" kbval_regexp line)
            else Ret s
        end
  end.

(** The other mode. *)
Definition manual_keylist (lines : list string) : result (dict keyval) :=
  s ← foldl (λ s line, s ← s; keyval_line s line) (Ret (KvState [] None 0)) lines; Ret (kv_list s).

(** ** Commands *)

Definition header_of (first : string) : list string :=
  first :: ["INIT WRITE"; "RE WRITE"; "READ"; "RE READ"; "RANDOM READ"; "RANDOM WRITE"; "BACKWD READ"; "RECRE WRITE"; "STRIDE READ";
            "F WRITE"; "FRE WRITE"; "F READ"; "FRE READ"]%string.

(** A concatenation of lines. *)
Definition script (l : list string) : string := fold_right String.append ""%string l.

Definition commands_2d (output_dir datasource_2d label : string) (index : Z) : string :=
  script ["set title 'Iozone performance: " +:+ label +:+ "'" +:+ NL; "set logscale x" +:+ NL; "set xlabel 'File size (KB)'" +:+ NL;
          "set ylabel 'Througput (MB/s)'" +:+ NL; "set terminal png small size 450 350" +:+ NL;
          "set output '" +:+ path_join output_dir ("2d-" +:+ label +:+ ".png") +:+ "'" +:+ NL;
          "plot '" +:+ datasource_2d +:+ "' using 1:" +:+ py_str_Z index +:+ " title '" +:+ label +:+ "' with lines " +:+ NL]%string.

Definition commands_3d (output_dir datasource label : string) (index : Z) : string :=
  script ["set title 'Iozone performance: " +:+ label +:+ "'" +:+ NL; "set grid lt 2 lw 1" +:+ NL; "set surface" +:+ NL;
          "set parametric" +:+ NL; "set xtics" +:+ NL; "set ytics" +:+ NL; "set logscale x 2" +:+ NL; "set logscale y 2" +:+ NL;
          "set logscale z" +:+ NL; "set xrange [2.**5:2.**24]" +:+ NL; "set xlabel 'File size (KB)'" +:+ NL;
          "set ylabel 'Record size (KB)'" +:+ NL; "set zlabel 'Througput (KB/s)'" +:+ NL; "set style data lines" +:+ NL;
          "set dgrid3d 80,80, 3" +:+ NL; "set terminal png small size 900 700" +:+ NL;
          "set output '" +:+ path_join output_dir (label +:+ ".png") +:+ "'" +:+ NL;
          "splot '" +:+ datasource +:+ "' using 1:2:" +:+ py_str_Z index +:+ " title '" +:+ label +:+ "'" +:+ NL]%string.

Definition gnuplot_cmd (path : string) : string := "gnuplot " +:+ DQ +:+ path +:+ DQ.

(** A call that is not answered with a value. *)
Section calls.
Context {W : Type} {HE : Env W} {HI : IoLib W}.
Abbreviation T := (M W io_self).

Definition il_call (fn : string) (args : list pyval) : T pyval := ext (EvCall fn args) (il_lib fn args).
Definition il_do (fn : string) (args : list pyval) : T () := _ ← il_call fn args; mret ().
Definition isdir (path : string) : T bool := silent (λ w, let '(b, w') := il_isdir path w in (Ret b, w')).
Definition isfile (path : string) : T bool := silent (λ w, let '(b, w') := il_isfile path w in (Ret b, w')).
Definition make_dir (output_dir : string) : T () :=
  e ← isdir output_dir; when (negb e) (il_do "os.makedirs" [VStr output_dir]).
Definition write_text (path text : string) : T () := il_do "open.write" [VStr path; VStr text].

(** [open(path, 'r')] and its lines *)
Definition open_lines (path : pyval) : T (list string) :=
  match path with
  | VStr p => text ← read_file p; mret (readlines text)
  | _ => throw TypeError "expected str, bytes or os.PathLike object"
  end.

(** ** The class IOzoneAnalyzer *)

Definition IOzoneAnalyzer_init (list_files : list pyval) (output_dir : string) : T analyzer :=
  make_dir output_dir ;;
  log_info ("Results will be stored in " +:+ output_dir) ;;
  mret (Analyzer list_files output_dir).

(** The average of a column, in MB. *)
Definition average_of (rows : list row) (i : nat) : result Z :=
  c ← column i rows; g ← il_geometric_mean c; average ← num_div g (NFloat (fl 1024 0)); num_int average.

Definition average_performance (rows : list row) (size : option Z) : result row :=
  l ← results (map (average_of rows) (seq 2 13)); Ret (match size with Some s => s :: l | None => l end).

Definition process_results (rows : list row) (label : option string) : result (list row) :=
  match label with
  | Some label =>
      index ← index_of_label label;
      column ← column index rows;
      results (map (λ size, average_performance (List.filter (λ line, bool_decide (line !! index = Some size)) rows) (Some size))
        (il_ordered_list_unique column))
  | None => l ← average_performance rows None; Ret [l]
  end.

Definition rows_of (l : list row) : list (list pyval) := map (map VInt) l.

(** The logger writes to a file, too. *)
Definition logged_to (path : string) (m : T ()) : T () :=
  f ← isfile path;
  when f (il_do "os.unlink" [VStr path]) ;;
  il_do "logging.FileHandler" [VStr path] ;;
  il_do "FileHandler.setFormatter" [VStr path; VStr ""] ;;
  il_do "log.addHandler" [VStr path] ;;
  m ;;
  il_do "log.removeHandler" [VStr path].

Definition log_table (l : list (list pyval)) (header : list string) : T () := log_info (NL +:+ il_tabular_output l header).

(** The row of the overall results gets the word ALL in front; the results are returned as they are
    then. *)
Definition report (a : analyzer) (overall : list row) (record_size file_size : list row) : T (list (list pyval)) :=
  log_info "" ;;
  log_info "TABLE:  SUMMARY of ALL FILE and RECORD SIZES           Results in MB/sec" ;;
  log_info "" ;;
  overall ← match rows_of overall with
            | r :: l => mret ((VStr "ALL" :: r) :: l)
            | [] => throw IndexError "list index out of range"
            end;
  log_table overall (header_of "FILE & RECORD SIZES (KB)") ;;
  log_info "" ;;
  log_info "DRILLED DATA:" ;;
  log_info "" ;;
  log_info "TABLE:  RECORD Size against all FILE Sizes             Results in MB/sec" ;;
  log_info "" ;;
  logged_to (path_join (an_output_dir a) "2d-datasource-file") (log_table (rows_of record_size) (header_of "RECORD SIZE (KB)")) ;;
  log_info "" ;;
  log_info "TABLE:  FILE Size against all RECORD Sizes             Results in MB/sec" ;;
  log_info "" ;;
  logged_to (path_join (an_output_dir a) "2d-datasource-record") (log_table (rows_of file_size) (header_of "RECORD SIZE (KB)")) ;;
  log_info "" ;;
  mret overall.

(** [100 * part / float(total)] *)
Definition percentage (part total : Z) : result num := t ← float_of_int total; num_div (NInt (100 * part)) (NFloat t).

Definition log_changes (c : comparison) : T () :=
  regressions ← lift (percentage (cm_regressions c) (cm_total c));
  improvements ← lift (percentage (cm_improvements c) (cm_total c));
  log_fmt Info (r ← f_of 2 false regressions; i ← f_of 2 false improvements;
    Ret ("REGRESSIONS: " +:+ py_str_Z (cm_regressions c) +:+ " (" +:+ r +:+ "%)    Improvements: " +:+
         py_str_Z (cm_improvements c) +:+ " (" +:+ i +:+ "%)")).

Definition report_comparison (record files : comparison) : T () :=
  log_table (cm_matrix record) (header_of "RECORD SIZE (KB)") ;;
  log_info "ANALYSIS of DRILLED DATA:" ;;
  log_info "" ;;
  log_info "TABLE:  RECsize Difference between runs              Results are % DIFF" ;;
  log_info "" ;;
  log_changes record ;;
  log_info "" ;;
  log_info "" ;;
  log_info "TABLE:  FILEsize Difference between runs               Results are % DIFF" ;;
  log_info "" ;;
  log_table (cm_matrix files) (header_of "RECORD SIZE (KB)") ;;
  log_changes files ;;
  log_info "".

(** One file: its averages are kept when there are two files. *)
Definition analyze_step (a : analyzer) (kept : list (list (list pyval)) * list (list row) * list (list row)) (path : pyval)
    : T (list (list (list pyval)) * list (list row) * list (list row)) :=
  let '(overall, record_size, file_size) := kept in
  lines ← open_lines path;
  log_info ("FILE: " +:+ py_str path) ;;
  let rows := parse_file lines in
  overall_results ← lift (process_results rows None);
  record_size_results ← lift (process_results rows (Some "record_size"%string));
  file_size_results ← lift (process_results rows (Some "file_size"%string));
  overall_results ← report a overall_results record_size_results file_size_results;
  mret (if (length (an_list_files a) =? 2)%nat
        then (overall ++ [overall_results], record_size ++ [record_size_results], file_size ++ [file_size_results])
        else kept).

(** [compare_matrices( *l)] *)
Definition compare_all (l : list (list row)) : result comparison :=
  match l with [m1; m2] => il_compare_matrices m1 m2 | _ => raise_ TypeError "compare_matrices() takes 2 matrices" end.

Definition analyze (a : analyzer) : T () :=
  kept ← for_acc (an_list_files a) ([], [], []) (analyze_step a);
  when (length (an_list_files a) =? 2)%nat
    (record_comparison ← lift (compare_all kept.1.2);
     file_comparison ← lift (compare_all kept.2);
     report_comparison record_comparison file_comparison).

(** ** The class IOzonePlotter *)

(** The lines with fifteen numbers. *)
Definition generate_data_source (results_file output_dir : string) : T string :=
  lines ← open_lines (VStr results_file);
  let datasource := path_join output_dir "3d-datasource" in
  write_text datasource (script (List.filter (λ line, bool_decide (is_Some (int_row line))) lines)) ;;
  mret datasource.

Definition installed (package : string) : T bool :=
  c ← il_call "SoftwareManager.check_installed" [VStr package];
  if truthy c then mret true else i ← il_call "SoftwareManager.install" [VStr package]; mret (truthy i).

Definition IOzonePlotter_init (results_file output_dir : string) : T plotter :=
  g ← installed "gnuplot";
  when (negb g) (log_warning "Command gnuplot not found, disabling graph generation") ;;
  make_dir output_dir ;;
  f ← isfile results_file;
  if (f : bool) then
    datasource ← generate_data_source results_file output_dir;
    mret (Plotter g (Some results_file) output_dir (Some datasource))
  else
    log_error ("Invalid file " +:+ results_file +:+ " provided, disabling graph generation") ;;
    mret (Plotter false None output_dir None).

(** [except process.CmdError] *)
Definition is_cmd_error (c : exn_class) : bool := match c with CmdError => true | _ => false end.

Definition plot (commands_path commands : string) : T () :=
  write_text commands_path commands ;;
  try_except (_ ← process_system (gnuplot_cmd commands_path) [Shell]; mret ()) is_cmd_error
    (λ _, log_error ("Problem plotting from commands file " +:+ commands_path)).

Definition plot_2d_graphs (p : plotter) : T () :=
  let datasource_2d := path_join (pl_output_dir p) "2d-datasource-file" in
  for_each (combine (Zrange 2 15) (drop 2 LABELS)) (λ il,
    plot (path_join (pl_output_dir p) ("2d-" +:+ il.2 +:+ ".do")) (commands_2d (pl_output_dir p) datasource_2d il.2 il.1)).

Definition plot_3d_graphs (p : plotter) : T () :=
  for_each (combine (Zrange 1 14) (drop 2 LABELS)) (λ il,
    datasource ← lift (match pl_datasource p with Some d => Ret d | None => raise_ AttributeError "datasource" end);
    plot (path_join (pl_output_dir p) (il.2 +:+ ".do")) (commands_3d (pl_output_dir p) datasource il.2 il.1)).

Definition plot_all (p : plotter) : T () := when (pl_active p) (plot_2d_graphs p ;; plot_3d_graphs p).

(** ** The class IOZone *)

Definition the_disk : T pyval := attr "disk" io_disk.

Definition create_raid (l_disk l_raid_name : pyval) : T () :=
  disks ← lift (as_text l_disk);
  let args := [l_raid_name; VStr "0"; VList (map VStr (py_split disks)); VStr "1.2"] in
  il_do "SoftwareRaid" args ;;
  modify (with_sraid args) ;;
  il_do "SoftwareRaid.create" args.

Definition delete_raid : T () :=
  args ← attr "sraid" io_sraid; il_do "SoftwareRaid.stop" args ;; il_do "SoftwareRaid.clear_superblock" args.

Definition vgname : string := "avocado_vg".
Definition lvname : string := "avocado_lv".

Definition create_lv (l_disk : pyval) : T pyval :=
  space ← ext (EvCall "lv_utils.get_device_total_space" [l_disk]) (il_total_space l_disk);
  lv_size ← lift (num_div space (NInt 2330168));
  il_do "lv_utils.vg_create" [VStr vgname; l_disk; VBool true] ;;
  il_do "lv_utils.lv_create" [VStr vgname; VStr lvname; of_num lv_size] ;;
  mret (VStr ("/dev/" +:+ vgname +:+ "/" +:+ lvname)).

Definition delete_lv : T () :=
  il_do "lv_utils.lv_remove" [VStr vgname; VStr lvname] ;; il_do "lv_utils.vg_remove" [VStr vgname].

Definition part_do (method : string) (args : list pyval) : T () :=
  p ← attr "part_obj" io_part_obj; il_do ("Partition." +:+ method) (p.1 :: p.2 :: args).

Definition create_fs (l_disk mountpoint fstype : pyval) : T () :=
  il_do "Partition" [l_disk; mountpoint] ;;
  modify (with_part_obj (l_disk, mountpoint)) ;;
  part_do "unmount" [] ;;
  part_do "mkfs" [fstype] ;;
  try_except (part_do "mount" []) il_partition_error
    (λ _, test_fail ("Mounting disk " +:+ py_str l_disk +:+ " on directory " +:+ py_str mountpoint +:+ " failed")).

Definition wipe_cmd (l_disk : pyval) : string := "dd if=/dev/zero bs=512 count=512 of=" +:+ py_str l_disk.

Definition delete_fs (l_disk : pyval) : T () :=
  part_do "unmount" [] ;;
  status ← process_system (wipe_cmd l_disk) [Shell; IgnoreStatus];
  when (negb (status =? 0)) (test_fail ("Failed to delete filesystem on " +:+ py_str l_disk)).

(** *** setUp *)

Definition need (package msg : string) : T () := i ← installed package; when (negb i) (test_cancel msg).

(** The branch for Ubuntu stands inside that for RHEL. *)
Definition check_btrfs : T () :=
  ver ← lift (py_int (VStr (if String.eqb il_distro "Ubuntu" then default ""%string (head (py_split_on "." il_version)) else il_version)));
  rel ← lift (py_int (VStr il_release));
  when (String.eqb il_distro "rhel")
    (when ((ver =? 7) && (4 <=? rel) || (7 <? ver))
       (test_cancel "btrfs is not supported with                                 RHEL 7.4 onwards") ;;
     when (String.eqb il_distro "Ubuntu") (need "btrfs-progs" "btrfs-progs is needed for the test to be run")).

Definition make_target : list pyval :=
  [VStr (if String.eqb il_arch "ppc" then "linux-powerpc"
         else if String.eqb il_arch "ppc64" || String.eqb il_arch "ppc64le" then "linux-powerpc64"
         else if String.eqb il_arch "x86_64" then "linux-AMD64"
         else "linux")].

(** The layers that are put on the disk. *)
Definition make_layers (raid_needed lv_needed fstype : pyval) : T () :=
  when (truthy raid_needed)
    (let raid_name := VStr "/dev/md/sraid" in
     d ← the_disk; create_raid d raid_name ;;
     modify (with_raid_create true) ;; modify (with_disk raid_name) ;; d ← the_disk; modify (with_dirs d)) ;;
  when (truthy lv_needed)
    (d ← the_disk; lv ← create_lv d;
     modify (with_disk lv) ;; modify (with_lv_create true) ;; d ← the_disk; modify (with_dirs d)) ;;
  when (truthy fstype)
    (modify (with_dirs (VStr il_workdir)) ;;
     d ← the_disk; mountpoint ← attr "dirs" io_dirs; create_fs d mountpoint fstype ;;
     modify (with_fs_create true)).

Definition prepare_disk (raid_needed lv_needed fstype : pyval) : T () :=
  d ← the_disk;
  modify (with_dirs d) ;;
  when (negb (is_None d))
    (disks ← silent il_disk_paths;
     when (existsb (λ p, py_eq d (VStr p)) disks) (make_layers raid_needed lv_needed fstype)).

Definition build_iozone : T () :=
  url ← attr "source_url" io_source_url;
  tarball ← ext (EvCall "fetch_asset" [url]) (il_fetch url);
  il_do "archive.extract" [VStr tarball; VStr il_teststmpdir] ;;
  modify (with_sourcedir (path_join il_teststmpdir (basename (before_first ".tar" tarball)))) ;;
  dir ← attr "sourcedir" io_sourcedir;
  let make_dir := path_join (path_join dir "src") "current" in
  il_do "os.chdir" [VStr make_dir] ;;
  patch ← get_param "patch" (VStr "makefile.patch");
  _ ← process_run ("patch -p3 < " +:+ py_str (il_data patch)) [Shell];
  il_do "build.make" (VStr make_dir :: make_target).

Definition setUp : T () :=
  fstype ← get_param "fs" (VStr "");
  modify (with_fs_create false) ;;
  lv_needed ← get_param "lv" (VBool false);
  modify (with_lv_create false) ;;
  raid_needed ← get_param "raid" (VBool false);
  modify (with_raid_create false) ;;
  device ← get_param "disk" VNone;
  d ← ext (EvCall "disk.get_absolute_disk_path" [device]) (il_disk_path device);
  modify (with_disk d) ;;
  url ← get_param "source" VNone;
  modify (with_source_url url) ;;
  modify (with_base_dir il_basedir) ;;
  for_each (["gcc"; "make"; "patch"]%string ++ (if truthy raid_needed then ["mdadm"]%string else [])) (λ package,
    need package (package +:+ " is needed for the test to be run")) ;;
  when (py_eq fstype (VStr "btrfs")) check_btrfs ;;
  build_iozone ;;
  prepare_disk raid_needed lv_needed fstype.

(** *** The test *)

Definition generate_keyval : T () :=
  auto_mode ← attr "auto_mode" io_auto_mode;
  text ← attr "results" io_results;
  keylist ← (if (auto_mode : bool) then mret (auto_keylist (py_splitlines text)) else lift (manual_keylist (py_splitlines text)));
  modify (with_whiteboard (json_dumps keylist)).

Definition analyze_results (results_path analysisdir : string) (previous_results : pyval) : T () :=
  a ← IOzoneAnalyzer_init (if truthy previous_results then [VStr results_path; previous_results] else [VStr results_path]) analysisdir;
  analyze a ;;
  p ← IOzonePlotter_init results_path analysisdir;
  plot_2d_graphs p.

Definition test : T () :=
  dir ← get_param "dir" VNone;
  args ← get_param "args" VNone;
  previous_results ← get_param "previous_results" VNone;
  directory ← (if truthy dir then mret dir else base ← attr "base_dir" io_base_dir; mret (VStr base));
  il_do "os.chdir" [directory] ;;
  let args := if truthy args then args else VStr "-a" in
  sourcedir ← attr "sourcedir" io_sourcedir;
  let cmd := path_join (path_join (path_join sourcedir "src") "current") "iozone" in
  output ← process_system_output (cmd +:+ " " +:+ py_str args) [];
  modify (with_results output) ;;
  auto_mode ← lift (py_contains (VStr "-a") args);
  modify (with_auto_mode auto_mode) ;;
  let results_path := path_join il_outputdir "raw_output" in
  write_text results_path output ;;
  generate_keyval ;;
  when auto_mode (analyze_results results_path (path_join il_outputdir "analysis") previous_results).

Definition tearDown : T () :=
  d ← the_disk;
  when (negb (is_None d))
    (fs ← attr "fs_create" io_fs_create; when fs (delete_fs d) ;;
     lv ← attr "lv_create" io_lv_create; when lv delete_lv ;;
     raid ← attr "raid_create" io_raid_create; when raid delete_raid).
End calls.
