(* ===== verification/IozoneTable.v ===== *)
(** * What is read of the output of iozone

    The table that iozone prints is read back, its values are recorded under their keys, and the
    averages are taken over groups of its lines; of the output without the option for the automatic
    mode nothing is recorded. *)

From S2P Require Import Prelude PyStr PyFloat PyVal PyRegex Avocado Logic Iozone.
Open Scope Z_scope.

(** ** The printed table *)

(** A line of the output: fifteen numbers, each after some blanks, or something else. *)
Inductive out_line := Cells (cells : list (nat * Z)) | Other (text : chars).

Definition cell_chars (c : nat * Z) : chars := blanks (S c.1) ++ chars_of (py_str_Z c.2).
Definition print_out (l : out_line) : chars :=
  match l with Cells cells => concat (map cell_chars cells) | Other text => text end.
Definition output_text (ls : list out_line) : string := str_of (concat (map (λ l, print_out l ++ [LF]) ls)).

Definition wf_out (l : out_line) : Prop :=
  match l with
  | Cells cells => length cells = 15%nat
  | Other text => one_line text ∧ int_row (str_of text) = None
  end.

Definition row_of (l : out_line) : option row := match l with Cells cells => Some (map snd cells) | Other _ => None end.
Definition table (ls : list out_line) : list row := omap row_of ls.

Lemma number_no_spaces z : no_spaces (chars_of (py_str_Z z)).
Proof.
  rewrite chars_of_str_Z. destruct (Z.ltb_spec z 0) as [Hz|Hz]; [constructor; [done|]|];
    (eapply list.Forall_impl; [apply nat_chars_spec; lia|apply digit_not_space]).
Qed.

Lemma words_cells cells l : spaces l → words_of (concat (map cell_chars cells) ++ l) = map (λ c, chars_of (py_str_Z c.2)) cells.
Proof.
  intros Hl. induction cells as [|c cells IH]; cbn [map concat].
  - cbn [app]. rewrite <- (app_nil_r l). by apply words_spaces_l.
  - unfold cell_chars at 1. rewrite <- !app_assoc, words_spaces_l by apply blanks_spaces.
    destruct (str_Z_trimmed c.2) as [_ Hne].
    assert (∃ b t, concat (map cell_chars cells) ++ l = b :: t ∧ is_space b = true ∨ concat (map cell_chars cells) ++ l = []) as (b & t & [[E Hb]|E]).
    { destruct cells as [|c' cells]; cbn [map concat app].
      - destruct Hl as [|b l Hb Hl]; [exists " "%char, []; by right|]. exists b, l. by left.
      - exists " "%char. eexists. left. split; [reflexivity|done]. }
    + rewrite E in IH. rewrite E, words_app, words_word by (done || apply number_no_spaces). rewrite words_space in IH by done. by rewrite IH.
    + rewrite E in *. rewrite app_nil_r, words_word by (done || apply number_no_spaces). by rewrite <- IH.
Qed.

Lemma ints_read l : results (map (λ s, py_int (VStr s)) (map py_str_Z l)) = Ret l.
Proof. induction l as [|z l IH]; [done|]. cbn [map results]. by rewrite py_int_str, IH. Qed.

Lemma cells_read cells l : length cells = 15%nat → spaces l →
  int_row (str_of (concat (map cell_chars cells) ++ l)) = Some (map snd cells).
Proof.
  intros Hc Hl. unfold int_row. rewrite py_split_words, chars_of_str_of, words_cells by done. rewrite !length_map, Hc. cbn [Nat.eqb negb].
  assert (map str_of (map (λ c : nat * Z, chars_of (py_str_Z c.2)) cells) = map py_str_Z (map snd cells)) as ->
    by (rewrite !map_map; apply map_ext; intros c; apply str_of_chars_of).
  by rewrite ints_read.
Qed.

(** With or without the end of the line. *)
Lemma out_read l e : wf_out l → spaces e → int_row (str_of (print_out l ++ e)) = row_of l.
Proof.
  intros Hl He. destruct l as [cells|text]; cbn [print_out wf_out row_of] in *; [by apply cells_read|]. destruct Hl as [_ Hl].
  rewrite <- Hl. unfold int_row. by rewrite !py_split_words, !chars_of_str_of, words_spaces_r.
Qed.

Lemma out_one_line l : wf_out l → one_line (print_out l).
Proof.
  destruct l as [cells|text]; [|intros [H _]; exact H]. intros _. cbn [print_out]. induction cells as [|c cells IH]; cbn [map concat]; [constructor|].
  apply Forall_app. split; [|done]. apply Forall_app. split; [apply blanks_inline|apply word_inline, number_no_spaces].
Qed.

Lemma omap_rows (f : out_line → string) ls : (∀ l, l ∈ ls → int_row (f l) = row_of l) → omap int_row (map f ls) = table ls.
Proof.
  induction ls as [|l ls IH]; intros H; [done|]. cbn. rewrite (H l) by left. unfold table in IH. rewrite IH; [done|].
  intros l' Hl'. apply H. by right.
Qed.

Lemma lines_of_file ls : Forall wf_out ls → readlines (output_text ls) = map (λ l, str_of (print_out l ++ [LF])) ls.
Proof.
  intros H. unfold readlines, output_text. rewrite chars_of_str_of. rewrite <- (map_map (λ l, print_out l ++ [LF]) str_of). f_equal.
  induction H as [|l ls Hl H IH]; [done|]. cbn [map concat]. rewrite <- app_assoc. cbn [app]. rewrite readlines_line; [by rewrite IH|].
  eapply list.Forall_impl; [by apply out_one_line|]. intros c Hc. destruct (Ascii.eqb_spec c LF) as [->|]; done.
Qed.

Lemma lines_of_output ls : Forall wf_out ls → py_splitlines (output_text ls) = map (λ l, str_of (print_out l)) ls.
Proof.
  intros H. unfold output_text. rewrite <- (map_map print_out (λ l, l ++ [LF])), splitlines_ended; [by rewrite map_map|].
  apply List.Forall_map. eapply list.Forall_impl; [exact H|]. apply out_one_line.
Qed.

Lemma file_parsed ls : Forall wf_out ls → parse_file (readlines (output_text ls)) = table ls.
Proof.
  intros H. rewrite lines_of_file by done. unfold parse_file. apply omap_rows. intros l Hl. rewrite list.Forall_forall in H.
  apply out_read; [by apply H|by repeat constructor].
Qed.

(** ** The values of the table *)

(** The columns of the table after the two sizes, as iozone orders them. *)
Definition columns : list string :=
  ["write"; "rewrite"; "read"; "reread"; "randread"; "randwrite"; "bkwdread"; "recordrewrite"; "strideread"; "fwrite"; "frewrite";
   "fread"; "freread"]%string.
Definition row_keyvals (r : row) : dict keyval := map (λ lv, (key_name r lv.1, KInt lv.2)) (combine columns (drop 2 r)).
Definition table_keyvals (rows : list row) : dict keyval := concat (map row_keyvals rows).

Definition put_all (d : dict keyval) (l : dict keyval) : dict keyval := foldl (λ d kv, dict_put kv.1 kv.2 d) d l.

Lemma add_row_put d r : add_row d r = put_all d (row_keyvals r).
Proof.
  unfold add_row, put_all, row_keyvals. change labels with columns. revert d. induction (combine columns (drop 2 r)) as [|lv l IH]; intros d; [done|]. cbn. apply IH.
Qed.

Lemma put_all_app d l1 l2 : put_all d (l1 ++ l2) = put_all (put_all d l1) l2.
Proof. apply foldl_app. Qed.

Lemma put_fresh {V} k (v : V) d : k ∉ map fst d → dict_put k v d = d ++ [(k, v)].
Proof.
  induction d as [|[k' v'] d IH]; [done|]. cbn [map fst dict_put]. rewrite not_elem_of_cons. intros [Hk Hd].
  destruct (String.eqb_spec k' k); [congruence|]. by rewrite IH.
Qed.

Lemma put_all_fresh d l : NoDup (map fst (d ++ l)) → put_all d l = d ++ l.
Proof.
  revert d. induction l as [|[k v] l IH]; intros d H; [by rewrite app_nil_r|]. cbn [put_all foldl fst snd].
  rewrite put_fresh.
  - change (put_all (d ++ [(k, v)]) l = d ++ (k, v) :: l). rewrite IH; rewrite <- app_assoc; done.
  - rewrite map_app in H. cbn [map fst] in H. apply list.NoDup_app in H as (_ & H & _). intros Hk. apply (H k Hk). left.
Qed.

Lemma keylist_rows ls : auto_keylist (map (λ l, str_of (print_out l)) ls) = put_all [] (table_keyvals (omap (λ l, int_row (str_of (print_out l))) ls)).
Proof.
  unfold auto_keylist. generalize (@nil (string * keyval)) as d. induction ls as [|l ls IH]; intros d; [done|]. cbn [map foldl omap list_omap].
  destruct (int_row (str_of (print_out l))) as [r|]; [|apply IH].
  rewrite IH, add_row_put. unfold table_keyvals. cbn [map concat]. by rewrite put_all_app.
Qed.

(** *** Different cells have different keys *)

Lemma no_dash_number z : 0 ≤ z → without "-" (py_str_Z z).
Proof.
  intros Hz. unfold without. rewrite chars_of_str_Z. destruct (Z.ltb_spec z 0); [lia|]. destruct (nat_chars_spec z Hz) as (_ & Hd & _).
  eapply list.Forall_impl; [exact Hd|]. intros c Hc. destruct (digit_not_sign c Hc) as [H1 _]. by rewrite Ascii.eqb_sym.
Qed.

Lemma columns_no_dash : Forall (without "-") columns.
Proof. repeat constructor. Qed.

Lemma columns_nodup : NoDup columns.
Proof. apply (bool_decide_eq_true_1 _). by vm_compute. Qed.

Definition sized (r : row) : Prop := ∃ a b values, r = a :: b :: values ∧ 0 ≤ a ∧ 0 ≤ b.
Definition sizes (r : row) : list Z := take 2 r.

Lemma key_split r lin : sized r → lin ∈ columns → py_split_on "-" (key_name r lin) = map py_str_Z (sizes r) ++ [lin].
Proof.
  intros (a & b & values & -> & Ha & Hb) Hl. cbn [sizes take map app]. apply (split_join "-" [py_str_Z a; py_str_Z b; lin]); [|done].
  pose proof columns_no_dash as Hn. rewrite list.Forall_forall in Hn. repeat constructor; [by apply no_dash_number..|by apply Hn].
Qed.

Lemma key_inj r r' lin lin' : sized r → sized r' → lin ∈ columns → lin' ∈ columns →
  key_name r lin = key_name r' lin' → sizes r = sizes r' ∧ lin = lin'.
Proof.
  intros Hr Hr' Hl Hl' E. assert (map py_str_Z (sizes r) ++ [lin] = map py_str_Z (sizes r') ++ [lin']) as E2.
  { by rewrite <- !key_split, E by done. }
  apply app_inj_tail in E2 as [E2 ->]. split; [|done]. destruct Hr as (a & b & vs & -> & _), Hr' as (a' & b' & vs' & -> & _).
  cbn in *. by injection E2 as ->%py_str_Z_inj ->%py_str_Z_inj.
Qed.

Lemma row_keys r k : k ∈ map fst (row_keyvals r) → ∃ lin, lin ∈ columns ∧ k = key_name r lin.
Proof.
  unfold row_keyvals. rewrite map_map. cbn [fst]. intros H%list_elem_of_In. apply in_map_iff in H as ([lin v] & <- & H).
  exists lin. split; [|done]. apply list_elem_of_In. by eapply in_combine_l.
Qed.

Lemma combine_fst_nodup {A B} (l : list A) (l' : list B) : NoDup l → NoDup (map fst (combine l l')).
Proof.
  intros H. revert l'. induction H as [|a l Ha H IH]; intros [|b l']; cbn; constructor; [|apply IH].
  intros Hin. apply Ha. apply list_elem_of_In in Hin. apply in_map_iff in Hin as ([a' b'] & E & Hin). cbn in E. subst a'.
  apply list_elem_of_In. by eapply in_combine_l.
Qed.

Lemma row_keys_nodup r : sized r → NoDup (map fst (row_keyvals r)).
Proof.
  intros Hr. unfold row_keyvals. rewrite map_map. cbn [fst].
  pose proof (combine_fst_nodup columns (drop 2 r) columns_nodup) as H.
  assert (∀ lv, lv ∈ combine columns (drop 2 r) → lv.1 ∈ columns) as Hin.
  { intros [a b] Hl%list_elem_of_In. apply list_elem_of_In. by eapply in_combine_l. }
  induction (combine columns (drop 2 r)) as [|lv l IH]; [constructor|]. cbn [map] in *. inversion H as [|? ? Hn H']; subst.
  constructor; [|apply IH; [done|]; intros x Hx; apply Hin; by right].
  intros Hk. apply list_elem_of_In in Hk. apply in_map_iff in Hk as (lv' & E & Hl'). apply list_elem_of_In in Hl'.
  apply key_inj in E as [_ E]; [|done|done|apply Hin; by right|apply Hin; left]. apply Hn. rewrite <- E. apply list_elem_of_In, in_map.
  by apply list_elem_of_In.
Qed.

Lemma table_keys_nodup rows : Forall sized rows → NoDup (map sizes rows) → NoDup (map fst (table_keyvals rows)).
Proof.
  intros Hs Hd. unfold table_keyvals. induction Hs as [|r rows Hr Hs IH]; [constructor|]. cbn [map concat] in *.
  inversion Hd as [|? ? Hn Hd']; subst. rewrite map_app. apply list.NoDup_app. split; [by apply row_keys_nodup|]. split; [|by apply IH].
  intros k (lin & Hl & ->)%row_keys Hk. apply Hn. clear IH Hn Hd Hd'. induction Hs as [|r' rows Hr' Hs IH]; cbn [map concat] in *.
  - by apply elem_of_nil in Hk.
  - rewrite map_app in Hk. apply elem_of_app in Hk as [Hk|Hk]; [|right; by apply IH].
    apply row_keys in Hk as (lin' & Hl' & E). apply key_inj in E as [E _]; [|done..]. rewrite E. left.
Qed.

(** C31: in the automatic mode [generate_keyval] records the table that iozone prints, whatever else
    it prints and whatever the blanks: each value once, under its file size, its record size and
    its operation, in the order of the table. *)
Theorem keyvals_recorded {W} {HE : Env W} {HI : IoLib W} ls (w : W) x :
  Forall wf_out ls → Forall sized (table ls) → NoDup (map sizes (table ls)) →
  io_results x = Some (output_text ls) → io_auto_mode x = Some true →
  runs generate_keyval w x (Ret ()) w (with_whiteboard (json_dumps (table_keyvals (table ls))) x).
Proof.
  intros Hw Hs Hd Hr Ha. unfold generate_keyval. run_by runs_attr; [exact Ha|]. run_by runs_attr; [exact Hr|].
  eapply runs_bind; [apply runs_ret|]. cbv beta. rewrite lines_of_output, keylist_rows by done.
  assert (omap (λ l, int_row (str_of (print_out l))) ls = table ls) as ->.
  { unfold table. clear Hs Hd Hr. induction Hw as [|l ls Hl Hw IH]; [done|]. cbn. rewrite <- (app_nil_r (print_out l)), out_read by (done || constructor).
    by rewrite IH. }
  rewrite put_all_fresh by by apply table_keys_nodup. apply runs_modify.
Qed.

(** ** The values of the other mode, and the averages *)

(** ** Parts of a text *)

Definition infix (m l : chars) : Prop := ∃ a b, l = a ++ m ++ b.

Lemma infix_refl l : infix l l.
Proof. exists [], []. by rewrite app_nil_r. Qed.

Lemma infix_trans l1 l2 l3 : infix l1 l2 → infix l2 l3 → infix l1 l3.
Proof. intros (a & b & ->) (c & d & ->). exists (c ++ a), (b ++ d). by rewrite <- !app_assoc. Qed.

Lemma contains_infix p m l : infix m l → contains_chars p l = false → contains_chars p m = false.
Proof.
  intros (a & b & ->). induction a as [|c a IH]; cbn [app contains_chars]; [|by intros [_ ?%IH]%orb_false_iff].
  induction m as [|c m IH]; cbn [app contains_chars].
  - destruct p as [|d p]; [|done]. by destruct b.
  - intros [H1 H2]%orb_false_iff. rewrite (IH H2), orb_false_r. apply not_true_iff_false. intros H.
    apply (starts_with_app _ _ b) in H. cbn [app] in H. congruence.
Qed.

Lemma strip_infix s : infix (chars_of (py_strip s)) (chars_of s).
Proof.
  unfold py_strip. rewrite chars_of_str_of. destruct (strip_decompose (chars_of s)) as (w1 & w2 & _ & _ & E). by exists w1, w2.
Qed.

Lemma lines_infix cur l m : m ∈ lines_of cur l → infix m (rev cur ++ l).
Proof.
  revert cur. enough (∀ n cur l, (length l ≤ n)%nat → m ∈ lines_of cur l → infix m (rev cur ++ l)) as H by (intros cur; by apply (H (length l))).
  induction n as [|n IH]; intros cur l' Hn.
  - destruct l'; [|simpl in Hn; lia]. destruct cur; cbn [lines_of]; [by intros ?%elem_of_nil|].
    intros ->%list_elem_of_singleton. rewrite app_nil_r. apply infix_refl.
  - destruct l' as [|c l']; cbn [lines_of].
    { destruct cur; [by intros ?%elem_of_nil|]. intros ->%list_elem_of_singleton. rewrite app_nil_r. apply infix_refl. }
    simpl in Hn. assert (∀ t a, (length t ≤ n)%nat → c :: l' = a ++ t → m ∈ lines_of [] t → infix m (rev cur ++ c :: l')) as Hr.
    { intros t a Ht -> Hm. apply IH in Hm; [|done]. eapply infix_trans; [exact Hm|]. exists (rev cur ++ a), []. by rewrite app_nil_r, <- app_assoc. }
    assert (m = rev cur → infix m (rev cur ++ c :: l')) as Hc by (intros ->; by exists [], (c :: l')).
    destruct (is_linebreak c).
    + destruct l' as [|d l']; [intros [->|Hm]%elem_of_cons; [by apply Hc|apply (Hr [] [c]); [simpl; lia|done|done]]|].
      destruct (Ascii.eqb c CR && Ascii.eqb d LF).
      * intros [->|Hm]%elem_of_cons; [by apply Hc|]. apply (Hr l' [c; d]); [simpl in Hn; lia|done|done].
      * intros [->|Hm]%elem_of_cons; [by apply Hc|]. apply (Hr (d :: l') [c]); [lia|done|done].
    + intros Hm. apply IH in Hm; [|lia]. cbn [rev] in Hm. by rewrite <- app_assoc in Hm.
Qed.

Lemma splitlines_infix s line : line ∈ py_splitlines s → infix (chars_of line) (chars_of s).
Proof.
  unfold py_splitlines. intros H%list_elem_of_In. apply in_map_iff in H as (l & <- & H%list_elem_of_In). rewrite chars_of_str_of.
  by apply (lines_infix []) in H.
Qed.

(** ** The patterns need "=s" *)

Section patterns.
Context {R : Type}.

Lemma run_equals_s r p g (k : pos → groups → option R) :
  contains_chars (chars_of "=s") (rest p) = false → run false (RChar "=" ~> RPlus (RChar "s") ~> r)%re p g k = None.
Proof.
  destruct p as [b l]. cbn [rest]. intros H. destruct l as [|c l]; [done|]. destruct (Ascii.eqb_spec "=" c) as [<-|Hc].
  - rewrite run_seq, run_char, run_seq. apply run_plus_no. cbn [rest]. destruct l as [|d l]; [done|].
    destruct (Ascii.eqb "s" d) eqn:E; [|done]. apply Ascii.eqb_eq in E as <-. cbn in H. by destruct l.
  - rewrite run_seq. apply run_class_no. cbn [rest]. by apply Ascii.eqb_neq.
Qed.

Lemma run_after_equals_s r1 r p g (k : pos → groups → option R) :
  contains_chars (chars_of "=s") (rest p) = false → run false (r1 ~> RChar "=" ~> RPlus (RChar "s") ~> r)%re p g k = None.
Proof.
  intros H. rewrite run_seq. destruct (run false r1 p g _) as [x|] eqn:E; [|done]. apply run_consumes in E as (w & p' & g' & Ew & Hk & _).
  rewrite run_equals_s in Hk; [done|]. eapply contains_infix; [|exact H]. rewrite Ew. exists w, []. by rewrite app_nil_r.
Qed.
End patterns.

Lemma search_none r f p : (∀ p, contains_chars (chars_of "=s") (rest p) = false → match_at false r p = None) →
  contains_chars (chars_of "=s") (rest p) = false → search_from false r f p = None.
Proof.
  intros Hr. revert p. induction f as [|f IH]; intros [b l] H; cbn [search_from]; rewrite Hr by done; [done|].
  destruct l as [|c l]; [done|]. cbn [step rest]. apply IH. eapply contains_infix; [|exact H]. exists [c], []. by rewrite app_nil_r.
Qed.

Lemma kb_none unit line : py_in "=s" line = false → re_search (kb_pattern unit) line = None.
Proof. intros H. apply search_none; [|exact H]. intros p Hp. unfold match_at, kb_pattern. by apply run_equals_s. Qed.

Lemma throughput_none start line : py_in "=s" line = false → re_search (throughput_pattern start) line = None.
Proof.
  intros H. apply search_none; [|exact H]. intros p Hp. unfold match_at, throughput_pattern, RLit.
  set (r := (RPlus (RChar "s") ~> RGroup 3 _ ~> _)%re).
  assert (∀ r1 r2 r3 r4 r5 r6, run false (R:=rmatch) (r1 ~> r2 ~> r3 ~> r4 ~> r5 ~> r6)%re p [] = run false (R:=rmatch) ((r1 ~> r2 ~> r3 ~> r4 ~> r5) ~> r6)%re p [])
    as E by done.
  rewrite E. by apply run_after_equals_s.
Qed.

Lemma keyval_line_same s line : py_in "=s" line = false → keyval_line s line = Ret s.
Proof.
  intros H. assert (py_in "=s" (py_strip line) = false) as Hl by (eapply contains_infix; [apply strip_infix|exact H]).
  unfold keyval_line, child_regexp, parent_regexp. cbv zeta. rewrite !throughput_none by done. unfold record_value, kbsec_regexp, kbval_regexp.
  rewrite !kb_none by done. by repeat case_match.
Qed.

Lemma manual_none lines : (∀ line, line ∈ lines → py_in "=s" line = false) → manual_keylist lines = Ret [].
Proof.
  intros H. unfold manual_keylist. enough (∀ s, foldl (λ s line, s ← s; keyval_line s line) (Ret s) lines = Ret s) as -> by done.
  induction lines as [|line lines IH]; intros s; cbn [foldl]; [done|]. change (Ret s ≫= ?f) with (f s).
  cbv beta. rewrite keyval_line_same by (apply H; left). apply IH. intros l Hl. apply H. by right.
Qed.

(** in the other mode [generate_keyval] records nothing, for any output in which no letter s
    follows an equals sign: the patterns ask for it where they mean blanks. *)
Theorem manual_records_nothing {W} {HE : Env W} {HI : IoLib W} (w : W) x text :
  io_results x = Some text → io_auto_mode x = Some false → py_in "=s" text = false →
  runs generate_keyval w x (Ret ()) w (with_whiteboard "{}" x).
Proof.
  intros Hr Ha Hs. unfold generate_keyval. run_by runs_attr; [exact Ha|]. run_by runs_attr; [exact Hr|].
  rewrite manual_none; [run_by runs_lift; apply runs_modify|]. intros line Hl. eapply contains_infix; [by apply splitlines_infix|exact Hs].
Qed.

(** ** The groups of the averages *)

Section groups.
Context {W : Type} {HI : IoLib W}.

(** The lines of a group, and what their averages are. *)
Definition grouped (i : nat) (rows : list row) (groups : list (Z * list row)) : Prop :=
  concat (map snd groups) ≡ₚ rows ∧ NoDup (map fst groups) ∧
  Forall (λ g, g.2 ≠ [] ∧ ∀ r, r ∈ g.2 → r !! i = Some g.1) groups.

(** [ordered_list_unique] keeps each element once. *)
Definition keeps_unique : Prop := ∀ l, NoDup (il_ordered_list_unique l) ∧ ∀ z, z ∈ il_ordered_list_unique l ↔ z ∈ l.

Definition group_of (i : nat) (rows : list row) (size : Z) : list row :=
  List.filter (λ line, bool_decide (line !! i = Some size)) rows.

Lemma elem_group i rows size r : r ∈ group_of i rows size ↔ r ∈ rows ∧ r !! i = Some size.
Proof using Type. unfold group_of. rewrite list_elem_of_In, filter_In, <- list_elem_of_In, bool_decide_eq_true. done. Qed.

(** The groups of all sizes are the rows. *)
Lemma groups_permutation i (rows : list row) l : NoDup l → (∀ r, r ∈ rows → ∃ z, r !! i = Some z ∧ z ∈ l) →
  concat (map (group_of i rows) l) ≡ₚ rows.
Proof using Type.
  intros Hl Hrows. induction rows as [|r rows IH].
  - clear. induction l as [|z l IH]; [done|exact IH].
  - assert (∃ z, r !! i = Some z ∧ z ∈ l) as (z & Hz & Hin) by (apply Hrows; left).
    assert (∀ l, z ∉ l → concat (map (group_of i (r :: rows)) l) = concat (map (group_of i rows) l)) as Hno.
    { clear -Hz. induction l as [|y l IH]; intros Hn; [done|]. cbn [map concat]. rewrite IH by (intros ?; apply Hn; by right). f_equal.
      unfold group_of. cbn [List.filter]. rewrite Hz, bool_decide_false; [done|]. intros [= ->]. apply Hn. left. }
    apply list_elem_of_split in Hin as (l1 & l2 & ->). apply list.NoDup_app in Hl as (_ & H1 & H2).
    apply list.NoDup_cons in H2 as [H2 _]. assert (z ∉ l1) as H3 by (intros Hz1; apply (H1 z Hz1); left).
    transitivity (r :: concat (map (group_of i rows) (l1 ++ z :: l2))); [|by apply perm_skip, IH; intros r' Hr'; apply Hrows; right].
    rewrite !map_app, !concat_app. cbn [map concat]. rewrite !Hno by done.
    unfold group_of at 2. cbn [List.filter]. rewrite Hz, bool_decide_true by done. cbn [app]. symmetry. apply Permutation_middle.
Qed.

Lemma results_Forall2 {A B} (f : A → result B) l l' : results (map f l) = Ret l' → Forall2 (λ a b, f a = Ret b) l l'.
Proof using Type.
  revert l'. induction l as [|a l IH]; intros l'; cbn [map results]; [by intros [= <-]|].
  destruct (f a) as [b|e] eqn:E; [|done]. cbn. destruct (results (map f l)) as [bs|e]; [|done]. cbn. intros [= <-]. constructor; [done|by apply IH].
Qed.

Lemma column_values i rows c : column i rows = Ret c → Forall2 (λ r z, r !! i = Some z) rows c.
Proof using Type.
  intros H. apply results_Forall2 in H. eapply list.Forall2_impl; [exact H|]. intros r z Hz. cbv beta in Hz. destruct (r !! i) as [y|]; [by injection Hz as ->|done].
Qed.

(** the averages of a table, by file size or by record size: [process_results] puts each line
    of the table in exactly one group, that of its size, and gives for each size one row, with the
    size and the averages of its group. *)
Theorem process_results_groups rows label i perf :
  keeps_unique → index_of_label label = Ret i → process_results rows (Some label) = Ret perf →
  ∃ groups, grouped i rows groups ∧ Forall2 (λ g p, average_performance g.2 (Some g.1) = Ret p) groups perf.
Proof using Type.
  intros Hu Hi Hp. cbn in Hp. rewrite Hi in Hp. cbn in Hp. destruct (column i rows) as [c|e] eqn:Hc; [|done]. cbn in Hp.
  apply column_values in Hc. destruct (Hu c) as [Hn He]. exists (map (λ z, (z, group_of i rows z)) (il_ordered_list_unique c)).
  assert (∀ r, r ∈ rows → ∃ z, r !! i = Some z ∧ z ∈ il_ordered_list_unique c) as Hin.
  { intros r (k & Hk)%list_elem_of_lookup. destruct (Forall2_lookup_l _ _ _ _ _ Hc Hk) as (z & Hz & E). exists z. split; [done|].
    apply He. by eapply list_elem_of_lookup_2. }
  split.
  - split; [|split].
    + rewrite map_map. by apply groups_permutation.
    + rewrite map_map. cbn [fst]. by rewrite map_id.
    + apply List.Forall_map, list.Forall_forall. intros z Hz%He. cbn [fst snd]. split; [|by intros r [_ ?]%elem_group].
      apply list_elem_of_lookup in Hz as [k Hk]. destruct (Forall2_lookup_r _ _ _ _ _ Hc Hk) as (r & Hr & E).
      intros Hnil. assert (r ∈ group_of i rows z) as Hg by (apply elem_group; split; [by eapply list_elem_of_lookup_2|done]).
      rewrite Hnil in Hg. by apply elem_of_nil in Hg.
  - apply results_Forall2 in Hp. revert Hp. generalize (il_ordered_list_unique c). intros l Hp. induction Hp as [|z p l ps Hz Hp IH]; constructor; done.
Qed.
End groups.
