(* ===== verification/IozoneLayers.v ===== *)
(** * What the benchmark puts on a disk and takes off again

    RAID, a volume group, a logical volume and a file system are put on the disk one upon the
    other, as the parameters ask; tearDown takes them off in the opposite order. *)

From S2P Require Import Prelude PyStr PyFloat PyVal PyRegex Avocado Logic Iozone.
Open Scope Z_scope.

(** What is on the disk, the last first: the superblocks of the members and the array, a volume
    group and a volume of it, a file system on a device, and the directory where it is mounted. *)
Inductive layer :=
  | LSuperblock (members : list string)
  | LArray (name : string)
  | LGroup (vg : string)
  | LVolume (vg lv : string)
  | LFilesystem (device : string) (fstype : pyval)
  | LMounted (dir : string).

(** The device that the next layer can be put on; [base] is the disk. *)
Definition top (base : string) (s : list layer) : option string :=
  match s with
  | [] => Some base
  | LArray name :: _ => Some name
  | LVolume vg lv :: _ => Some ("/dev/" +:+ vg +:+ "/" +:+ lv)
  | _ => None
  end.

(** A call that returns, with the layers [s] after it. *)
Definition layers_to {W} {HI : IoLib W} (ly : W → list layer) (fn : string) (args : list pyval) (s : list layer) (w : W) : Prop :=
  ∃ r w', il_lib fn args w = (Ret r, w') ∧ ly w' = s.

(** The disk: a call puts a layer on the device that is on top, or takes off the layer that is on
    top, when its arguments name it; creating the volume may fail ([ly_volume]).  Nothing is known of
    calls with other arguments. *)
Class IoStack (W : Type) {HE : Env W} {HI : IoLib W} := {
  ly : W → list layer;
  ly_base : string;
  ly_volume : bool;
  ly_array name := [VStr name; VStr "0"; VList (map VStr (py_split ly_base)); VStr "1.2"];
  ly_raid name w : layers_to ly "SoftwareRaid" (ly_array name) (ly w) w;
  ly_raid_create name w : ly w = [] → layers_to ly "SoftwareRaid.create" (ly_array name) [LArray name; LSuperblock (py_split ly_base)] w;
  ly_raid_stop name s w : ly w = LArray name :: s → layers_to ly "SoftwareRaid.stop" (ly_array name) s w;
  ly_raid_clear name s w : ly w = LSuperblock (py_split ly_base) :: s → layers_to ly "SoftwareRaid.clear_superblock" (ly_array name) s w;
  ly_space d w : top ly_base (ly w) = Some d →
    ∃ n q w', il_total_space (VStr d) w = (Ret n, w') ∧ num_div n (NInt 2330168) = Ret q ∧ ly w' = ly w;
  ly_vg_create vg d w : top ly_base (ly w) = Some d → layers_to ly "lv_utils.vg_create" [VStr vg; VStr d; VBool true] (LGroup vg :: ly w) w;
  ly_lv_create vg lv size s w : ly w = LGroup vg :: s →
    if ly_volume then layers_to ly "lv_utils.lv_create" [VStr vg; VStr lv; size] (LVolume vg lv :: ly w) w
    else ∃ e w', il_lib "lv_utils.lv_create" [VStr vg; VStr lv; size] w = (Raise e, w') ∧ ly w' = ly w;
  ly_lv_remove vg lv s w : ly w = LVolume vg lv :: s → layers_to ly "lv_utils.lv_remove" [VStr vg; VStr lv] s w;
  ly_vg_remove vg s w : ly w = LGroup vg :: s → layers_to ly "lv_utils.vg_remove" [VStr vg] s w;
  ly_partition d dir w : layers_to ly "Partition" [VStr d; VStr dir] (ly w) w;
  ly_not_mounted d dir w : top ly_base (ly w) = Some d → layers_to ly "Partition.unmount" [VStr d; VStr dir] (ly w) w;
  ly_mkfs d dir fstype w : top ly_base (ly w) = Some d → layers_to ly "Partition.mkfs" [VStr d; VStr dir; fstype] (LFilesystem d fstype :: ly w) w;
  ly_mount d dir fstype s w : ly w = LFilesystem d fstype :: s → layers_to ly "Partition.mount" [VStr d; VStr dir] (LMounted dir :: ly w) w;
  ly_unmount d dir fstype s w : ly w = LMounted dir :: LFilesystem d fstype :: s →
    layers_to ly "Partition.unmount" [VStr d; VStr dir] (LFilesystem d fstype :: s) w;
  ly_wipe d fstype s w : ly w = LFilesystem d fstype :: s →
    ∃ w', env_system (wipe_cmd (VStr d)) [Shell; IgnoreStatus] w = (Ret 0, w') ∧ ly w' = s;
}.

Section stack.
Context {W : Type} {HE : Env W} {HI : IoLib W}.
Context {HS : IoStack W}.
Implicit Types (w : W) (x : io_self).

Lemma il_do_runs fn args s w x : layers_to ly fn args s w → ∃ w', runs (il_do fn args) w x (Ret ()) w' x ∧ ly w' = s.
Proof using Type.
  intros (r & w' & E & H). exists w'. split; [|done]. unfold il_do, il_call. eapply runs_bind; [by apply runs_ext|]. apply runs_ret.
Qed.

(** ** What is asked for *)

Definition raid_name : string := "/dev/md/sraid".
Definition raid_layers (b : bool) : list layer := if b then [LArray "/dev/md/sraid"; LSuperblock (py_split ly_base)] else [].
Definition lv_layers (b : bool) : list layer := if b then [LVolume "avocado_vg" "avocado_lv"; LGroup "avocado_vg"] else [].

(** The device with a volume, an array, or neither. *)
Definition device (raid lv : bool) : string :=
  if lv then "/dev/avocado_vg/avocado_lv" else if raid then "/dev/md/sraid" else ly_base.
Definition fs_layers (raid lv : bool) (fstype : pyval) : list layer :=
  if truthy fstype then [LMounted il_workdir; LFilesystem (device raid lv) fstype] else [].

Lemma top_device raid lv : top ly_base (lv_layers lv ++ raid_layers raid) = Some (device raid lv).
Proof using Type. by destruct lv, raid. Qed.

(** ** The layers one by one *)

Lemma create_raid_runs w x : ly w = [] →
  ∃ w', runs (create_raid (VStr ly_base) (VStr raid_name)) w x (Ret ()) w' (with_sraid (ly_array raid_name) x) ∧ ly w' = raid_layers true.
Proof using Type.
  intros Hw. destruct (il_do_runs _ _ _ _ x (ly_raid raid_name w)) as (w1 & R1 & E1). rewrite Hw in E1.
  destruct (il_do_runs _ _ _ _ (with_sraid (ly_array raid_name) x) (ly_raid_create raid_name w1 E1)) as (w2 & R2 & E2).
  exists w2. split; [|exact E2]. unfold create_raid. run_by runs_lift. cbv zeta. run_by R1. run_by runs_modify. exact R2.
Qed.

Lemma delete_raid_runs w x : io_sraid x = Some (ly_array raid_name) → ly w = raid_layers true →
  ∃ w', runs delete_raid w x (Ret ()) w' x ∧ ly w' = [].
Proof using Type.
  intros Hx Hw. destruct (il_do_runs _ _ _ _ x (ly_raid_stop raid_name _ w Hw)) as (w1 & R1 & E1).
  destruct (il_do_runs _ _ _ _ x (ly_raid_clear raid_name _ w1 E1)) as (w2 & R2 & E2). exists w2. split; [|exact E2].
  unfold delete_raid. run_by runs_attr; [exact Hx|]. run_by R1. exact R2.
Qed.

(** The part of [create_lv] before the volume. *)
Lemma create_group_runs d w x : top ly_base (ly w) = Some d → ∃ q w', ly w' = LGroup "avocado_vg" :: ly w ∧
  ∀ r w2 x2, runs (il_do "lv_utils.lv_create" [VStr vgname; VStr lvname; of_num q] ;;
                   mret (VStr ("/dev/" +:+ vgname +:+ "/" +:+ lvname))) w' x r w2 x2 → runs (create_lv (VStr d)) w x r w2 x2.
Proof using Type.
  intros Hd. destruct (ly_space d w Hd) as (n & q & w1 & E1 & Hq & L1). rewrite <- L1 in Hd.
  destruct (il_do_runs _ _ _ _ x (ly_vg_create vgname d w1 Hd)) as (w2 & R2 & L2). exists q, w2. split; [by rewrite L2, L1|].
  intros r w3 x3 H. unfold create_lv. eapply runs_bind; [by apply runs_ext|]. cbv beta. rewrite Hq. run_by runs_lift. run_by R2. exact H.
Qed.

Lemma create_lv_runs raid w x : ly_volume = true → ly w = raid_layers raid →
  ∃ w', runs (create_lv (VStr (device raid false))) w x (Ret (VStr (device raid true))) w' x ∧ ly w' = lv_layers true ++ raid_layers raid.
Proof using Type.
  intros Hv Hw. pose proof (top_device raid false) as Ht. cbn [lv_layers app] in Ht. rewrite <- Hw in Ht.
  destruct (create_group_runs _ w x Ht) as (q & w1 & L1 & R1). pose proof (ly_lv_create vgname lvname (of_num q) _ w1 L1) as H. rewrite Hv in H.
  destruct (il_do_runs _ _ _ _ x H) as (w2 & R2 & L2). exists w2. split; [|by rewrite L2, L1, Hw]. apply R1. run_by R2. apply runs_ret.
Qed.

Lemma create_lv_fails w x : ly_volume = false → ly w = [] →
  ∃ e w', runs (create_lv (VStr ly_base)) w x (Raise e) w' x ∧ ly w' = [LGroup "avocado_vg"].
Proof using Type.
  intros Hv Hw. assert (top ly_base (ly w) = Some ly_base) as Ht by by rewrite Hw.
  destruct (create_group_runs _ w x Ht) as (q & w1 & L1 & R1). pose proof (ly_lv_create vgname lvname (of_num q) _ w1 L1) as H. rewrite Hv in H.
  destruct H as (e & w2 & E2 & L2). exists e, w2. split; [|by rewrite L2, L1, Hw]. apply R1. apply runs_bind_raise.
  unfold il_do, il_call. apply runs_bind_raise. by apply runs_ext.
Qed.

Lemma delete_lv_runs s w x : ly w = lv_layers true ++ s → ∃ w', runs delete_lv w x (Ret ()) w' x ∧ ly w' = s.
Proof using Type.
  intros Hw. destruct (il_do_runs _ _ _ _ x (ly_lv_remove vgname lvname _ w Hw)) as (w1 & R1 & L1).
  destruct (il_do_runs _ _ _ _ x (ly_vg_remove vgname _ w1 L1)) as (w2 & R2 & L2). exists w2. split; [|exact L2].
  unfold delete_lv. run_by R1. exact R2.
Qed.

Lemma part_runs method args s d m w x : io_part_obj x = Some (d, m) → layers_to ly ("Partition." +:+ method) (d :: m :: args) s w →
  ∃ w', runs (part_do method args) w x (Ret ()) w' x ∧ ly w' = s.
Proof using Type.
  intros Hx (w' & R & L)%(il_do_runs _ _ _ _ x). exists w'. split; [|done]. unfold part_do. run_by runs_attr; [exact Hx|]. exact R.
Qed.

Lemma create_fs_runs d dir fstype w x : top ly_base (ly w) = Some d →
  ∃ w', runs (create_fs (VStr d) (VStr dir) fstype) w x (Ret ()) w' (with_part_obj (VStr d, VStr dir) x) ∧
    ly w' = LMounted dir :: LFilesystem d fstype :: ly w.
Proof using Type.
  intros Hd. set (x1 := with_part_obj (VStr d, VStr dir) x). destruct (il_do_runs _ _ _ _ x (ly_partition d dir w)) as (w1 & R1 & L1).
  rewrite <- L1 in Hd. destruct (part_runs "unmount" [] _ _ _ w1 x1 eq_refl (ly_not_mounted d dir w1 Hd)) as (w2 & R2 & L2).
  rewrite <- L2 in Hd. destruct (part_runs "mkfs" [fstype] _ _ _ w2 x1 eq_refl (ly_mkfs d dir fstype w2 Hd)) as (w3 & R3 & L3).
  destruct (part_runs "mount" [] _ _ _ w3 x1 eq_refl (ly_mount d dir fstype _ w3 L3)) as (w4 & R4 & L4).
  exists w4. split; [|by rewrite L4, L3, L2, L1].
  unfold create_fs. run_by R1. run_by runs_modify. fold x1. run_by R2. run_by R3. by apply runs_try_ret.
Qed.

Lemma delete_fs_runs d dir fstype s w x : io_part_obj x = Some (VStr d, VStr dir) → ly w = LMounted dir :: LFilesystem d fstype :: s →
  ∃ w', runs (delete_fs (VStr d)) w x (Ret ()) w' x ∧ ly w' = s.
Proof using Type.
  intros Hx Hw. destruct (part_runs "unmount" [] _ _ _ w x Hx (ly_unmount d dir fstype s w Hw)) as (w1 & R1 & L1).
  destruct (ly_wipe d fstype s w1 L1) as (w2 & E2 & L2). exists w2. split; [|exact L2].
  unfold delete_fs. run_by R1. eapply runs_bind; [by apply runs_ext|]. apply runs_when_false.
Qed.

(** ** All of them *)

(** What setUp has recorded: the layers by the flags, and the device that is on top of them. *)
Record made (raid lv fs : bool) x : Prop := {
  md_raid : io_raid_create x = Some raid;
  md_lv : io_lv_create x = Some lv;
  md_fs : io_fs_create x = Some fs;
  md_disk : io_disk x = Some (VStr (device raid lv));
  md_sraid : raid = true → io_sraid x = Some (ly_array raid_name);
  md_part : fs = true → io_part_obj x = Some (VStr (device raid lv), VStr il_workdir);
}.

Lemma the_disk_runs d w x : io_disk x = Some d → runs the_disk w x (Ret d) w x.
Proof using Type. apply runs_attr. Qed.

(** Each part, when it is asked for. *)
Lemma raid_part (b : bool) w x : ly w = [] → made false false false x →
  ∃ w' x', runs (when b (let raid_name := VStr "/dev/md/sraid" in
     d ← the_disk; create_raid d raid_name ;;
     modify (with_raid_create true) ;; modify (with_disk raid_name) ;; d ← the_disk; modify (with_dirs d))) w x (Ret ()) w' x' ∧
    ly w' = raid_layers b ∧ made b false false x'.
Proof using HS.
  intros Hw [H1 H2 H3 Hd _ _]. destruct b; [|exists w, x; split; [apply runs_when_false|by split]].
  destruct (create_raid_runs w x Hw) as (w1 & R1 & L1).
  eexists w1, _. split; [|split; [exact L1|]].
  - apply runs_when_true. cbv zeta. run_by the_disk_runs; [exact Hd|]. run_by R1. run_by runs_modify. run_by runs_modify.
    run_by the_disk_runs; [reflexivity|]. apply runs_modify.
  - by split.
Qed.

Lemma lv_part (b raid : bool) w x : ly_volume = true → ly w = raid_layers raid → made raid false false x →
  ∃ w' x', runs (when b (d ← the_disk; lv ← create_lv d;
     modify (with_disk lv) ;; modify (with_lv_create true) ;; d ← the_disk; modify (with_dirs d))) w x (Ret ()) w' x' ∧
    ly w' = lv_layers b ++ raid_layers raid ∧ made raid b false x'.
Proof using HS.
  intros Hv Hw [H1 H2 H3 Hd H5 _]. destruct b; [|exists w, x; split; [apply runs_when_false|by split]].
  destruct (create_lv_runs raid w x Hv Hw) as (w1 & R1 & L1). eexists w1, _. split; [|split; [exact L1|]].
  - apply runs_when_true. run_by the_disk_runs; [exact Hd|]. run_by R1. run_by runs_modify. run_by runs_modify.
    run_by the_disk_runs; [reflexivity|]. apply runs_modify.
  - by split.
Qed.

Lemma fs_part fstype raid lv w x : ly w = lv_layers lv ++ raid_layers raid → made raid lv false x →
  ∃ w' x', runs (when (truthy fstype)
    (modify (with_dirs (VStr il_workdir)) ;;
     d ← the_disk; mountpoint ← attr "dirs" io_dirs; create_fs d mountpoint fstype ;;
     modify (with_fs_create true))) w x (Ret ()) w' x' ∧
    ly w' = fs_layers raid lv fstype ++ ly w ∧ made raid lv (truthy fstype) x'.
Proof using HS.
  intros Hw [H1 H2 H3 Hd H5 _]. pose proof (top_device raid lv) as Ht. rewrite <- Hw in Ht. unfold fs_layers.
  destruct (truthy fstype); [|exists w, x; split; [apply runs_when_false|by split]].
  set (x1 := with_dirs (VStr il_workdir) x). destruct (create_fs_runs _ il_workdir fstype w x1 Ht) as (w1 & R1 & L1).
  eexists w1, _. split; [|split; [exact L1|]].
  - apply runs_when_true. run_by runs_modify. fold x1. run_by the_disk_runs; [exact Hd|]. run_by runs_attr; [reflexivity|].
    run_by R1. apply runs_modify.
  - by split.
Qed.

(** tearDown takes off what was recorded. *)
Lemma tearDown_runs raid lv fstype w x : made raid lv (truthy fstype) x → ly w = fs_layers raid lv fstype ++ lv_layers lv ++ raid_layers raid →
  ∃ w', runs tearDown w x (Ret ()) w' x ∧ ly w' = [].
Proof using HS.
  intros [H1 H2 H3 Hd H5 H6] Hw. unfold fs_layers in Hw.
  assert (∃ w1, runs (when (truthy fstype) (delete_fs (VStr (device raid lv)))) w x (Ret ()) w1 x ∧ ly w1 = lv_layers lv ++ raid_layers raid) as (w1 & R1 & L1).
  { destruct (truthy fstype); [|exists w; split; [apply runs_when_false|done]].
    exact (delete_fs_runs _ _ _ _ w x (H6 eq_refl) Hw). }
  assert (∃ w2, runs (when lv delete_lv) w1 x (Ret ()) w2 x ∧ ly w2 = raid_layers raid) as (w2 & R2 & L2).
  { destruct lv; [|exists w1; split; [apply runs_when_false|done]]. exact (delete_lv_runs _ w1 x L1). }
  assert (∃ w3, runs (when raid delete_raid) w2 x (Ret ()) w3 x ∧ ly w3 = []) as (w3 & R3 & L3).
  { destruct raid; [|exists w2; split; [apply runs_when_false|done]]. exact (delete_raid_runs w2 x (H5 eq_refl) L2). }
  exists w3. split; [|done]. unfold tearDown. run_by the_disk_runs; [exact Hd|]. apply runs_when_true.
  run_by runs_attr; [exact H3|]. run_by R1. run_by runs_attr; [exact H2|]. run_by R2. run_by runs_attr; [exact H1|]. exact R3.
Qed.

(** C32: whatever layers the parameters ask for - RAID, a logical volume, a file system -, on an empty
    disk where the calls succeed, setUp puts exactly these on it, each on the device of the one below:
    the array over the disks, the volume in a group on the array or the disk, the file system on the
    volume, the array or the disk, mounted on the working directory; and tearDown takes them all off
    again, from the top. *)
Theorem layers_removed raid_needed lv_needed fstype w x :
  ly_volume = true → ly w = [] → made false false false x →
  let raid := truthy raid_needed in let lv := truthy lv_needed in
  ∃ w1 x1, runs (make_layers raid_needed lv_needed fstype) w x (Ret ()) w1 x1 ∧
    ly w1 = fs_layers raid lv fstype ++ lv_layers lv ++ raid_layers raid ∧
    ∃ w2, runs tearDown w1 x1 (Ret ()) w2 x1 ∧ ly w2 = [].
Proof using HS.
  intros Hv Hw Hx raid lv. destruct (raid_part raid w x Hw Hx) as (w1 & x1 & R1 & L1 & M1).
  destruct (lv_part lv raid w1 x1 Hv L1 M1) as (w2 & x2 & R2 & L2 & M2).
  destruct (fs_part fstype raid lv w2 x2 L2 M2) as (w3 & x3 & R3 & L3 & M3). rewrite L2 in L3.
  exists w3, x3. split; [|split; [exact L3|]].
  - unfold make_layers. run_by R1. run_by R2. exact R3.
  - by apply (tearDown_runs _ _ _ _ _ M3).
Qed.

(** A volume that cannot be created leaves its group, since the volume is recorded only afterwards. *)
Theorem failed_volume_leaves_group fstype w x :
  ly_volume = false → ly w = [] → made false false false x →
  ∃ e w1 x1, runs (make_layers (VBool false) (VBool true) fstype) w x (Raise e) w1 x1 ∧
    ∃ w2, runs tearDown w1 x1 (Ret ()) w2 x1 ∧ ly w2 = [LGroup "avocado_vg"].
Proof using HS.
  intros Hv Hw [H1 H2 H3 Hd _ _]. destruct (create_lv_fails w x Hv Hw) as (e & w1 & R1 & L1). exists e, w1, x. split.
  - unfold make_layers. run_by runs_when_false. apply runs_bind_raise. apply runs_when_true. run_by the_disk_runs; [exact Hd|].
    by apply runs_bind_raise.
  - exists w1. split; [|exact L1]. unfold tearDown. run_by the_disk_runs; [exact Hd|]. apply runs_when_true.
    run_by runs_attr; [exact H3|]. run_by runs_when_false. run_by runs_attr; [exact H2|]. run_by runs_when_false.
    run_by runs_attr; [exact H1|]. apply runs_when_false.
Qed.
End stack.
