(* ===== verification/IozoneSim.v ===== *)
(** * Simulated disks and outputs for the benchmark

    A machine whose state is what is on the disk, and an output of iozone: the theorems are applied
    to them. *)

From S2P Require Import Prelude PyStr PyFloat PyVal PyRegex Avocado Logic Iozone IozoneTable IozoneLayers.
Open Scope Z_scope.

(** ** The machine *)

Definition sim_disk : string := "/dev/sdb".

(** dd takes off the file system of the device it writes to. *)
Definition wiped (cmd : string) (w : list layer) : Z * list layer :=
  match w with
  | LFilesystem d _ :: s => if String.eqb cmd (wipe_cmd (VStr d)) then (0, s) else (1, w)
  | _ => (1, w)
  end.

Definition disk_env : Env (list layer) := {|
  env_run := λ _ _ w, (Ret (CmdResult 0 ""), w);
  env_system := λ cmd _ w, let '(r, w') := wiped cmd w in (Ret r, w');
  env_system_output := λ _ _ w, (Ret ""%string, w);
  env_ssh := λ _ _ w, (Ret (CmdResult 0 ""), w);
  env_connect := λ _ _ _ w, (Ret true, w);
  env_show := λ r, stdout_text r;
  env_param := λ _ d, d;
  env_exists := λ _ w, (true, w);
  env_read := λ _ w, (Ret ""%string, w);
  env_append := λ _ _ w, (Ret (), w);
  env_remove := λ _ w, (Ret (), w);
  env_random := λ w, (0, w);
|}.

Definition text_of (v : pyval) : option string := match v with VStr s => Some s | _ => None end.
Definition on_top (d : string) (w : list layer) : bool := bool_decide (top sim_disk w = Some d).

(** The layers after a call, if it can be carried out. *)
Definition changed (volume : bool) (fn : string) (args : list pyval) (w : list layer) : option (list layer) :=
  if String.eqb fn "SoftwareRaid.create" then
    match args, w with
    | [VStr name; VStr _; VList members; VStr _], [] => let l := omap text_of members in
        if bool_decide (l = py_split sim_disk) then Some [LArray name; LSuperblock l] else None
    | _, _ => None
    end
  else if String.eqb fn "SoftwareRaid.stop" then
    match args, w with VStr name :: _, LArray n :: s => if String.eqb name n then Some s else None | _, _ => None end
  else if String.eqb fn "SoftwareRaid.clear_superblock" then
    match args, w with
    | [VStr _; VStr _; VList members; VStr _], LSuperblock l :: s => if bool_decide (omap text_of members = l) then Some s else None
    | _, _ => None
    end
  else if String.eqb fn "lv_utils.vg_create" then
    match args with [VStr vg; VStr d; VBool true] => if on_top d w then Some (LGroup vg :: w) else None | _ => None end
  else if String.eqb fn "lv_utils.lv_create" then
    match args, w with
    | [VStr vg; VStr lv; _], LGroup g :: _ => if volume && String.eqb vg g then Some (LVolume vg lv :: w) else None
    | _, _ => None
    end
  else if String.eqb fn "lv_utils.lv_remove" then
    match args, w with
    | [VStr vg; VStr lv], LVolume g v :: s => if String.eqb vg g && String.eqb lv v then Some s else None
    | _, _ => None
    end
  else if String.eqb fn "lv_utils.vg_remove" then
    match args, w with [VStr vg], LGroup g :: s => if String.eqb vg g then Some s else None | _, _ => None end
  else if String.eqb fn "Partition.unmount" then
    match args, w with
    | [VStr _; VStr dir], LMounted m :: s => if String.eqb dir m then Some s else None
    | _, _ => Some w
    end
  else if String.eqb fn "Partition.mkfs" then
    match args with [VStr d; VStr _; fstype] => if on_top d w then Some (LFilesystem d fstype :: w) else None | _ => None end
  else if String.eqb fn "Partition.mount" then
    match args, w with
    | [VStr d; VStr dir], LFilesystem d' _ :: _ => if String.eqb d d' then Some (LMounted dir :: w) else None
    | _, _ => None
    end
  else Some w.

Definition disk_call (volume : bool) (fn : string) (args : list pyval) (w : list layer) : result pyval * list layer :=
  match changed volume fn args w with Some w' => (Ret VNone, w') | None => (raise_ OtherError fn, w) end.

Definition disk_lib (volume : bool) : IoLib (list layer) := {|
  il_lib := disk_call volume;
  il_isdir := λ _ w, (true, w);
  il_isfile := λ _ w, (true, w);
  il_disk_path := λ v w, (Ret v, w);
  il_disk_paths := λ w, (Ret [sim_disk], w);
  il_fetch := λ _ w, (Ret "iozone3_492.tar"%string, w);
  il_total_space := λ _ w, (Ret (NInt 1073741824), w);
  (* the mean of equal numbers *)
  il_geometric_mean := λ l, Ret (NInt (default 0 (head l)));
  il_ordered_list_unique := remove_dups;
  il_compare_matrices := λ _ _, Ret (Comparison [] 0 0 1);
  il_tabular_output := λ _ _, ""%string;
  il_data := id;
  il_partition_error := λ c, false;
  il_distro := "rhel";
  il_version := "9";
  il_release := "4";
  il_arch := "ppc64le";
  il_basedir := "/tmp";
  il_outputdir := "/tmp/out";
  il_workdir := "/tmp/work";
  il_teststmpdir := "/tmp/tests";
|}.

Lemma called {volume fn args w} s : changed volume fn args w = Some s → layers_to (HI:=disk_lib volume) id fn args s w.
Proof. intros H. exists VNone, s. cbn [disk_lib il_lib]. unfold disk_call. by rewrite H. Qed.

#[local] Instance disk_stack (volume : bool) : IoStack (list layer) (HE:=disk_env) (HI:=disk_lib volume).
Proof.
  refine (Build_IoStack _ disk_env (disk_lib volume) id sim_disk volume _ _ _ _ _ _ _ _ _ _ _ _ _ _ _); unfold id.
  - intros name w. by apply called.
  - intros name w ->. by apply called.
  - intros name s w ->. apply called. cbn. by rewrite String.eqb_refl.
  - intros name s w ->. by apply called.
  - intros d w _. eexists (NInt 1073741824), _, w. split; [done|]. split; [by vm_compute|done].
  - intros vg d w Hd. apply called. cbn. unfold on_top. by rewrite bool_decide_eq_true_2.
  - intros vg lv size s w ->. destruct volume; [apply called|eexists _, _; split; [|done]]; cbn; [by rewrite String.eqb_refl|done].
  - intros vg lv s w ->. apply called. cbn. by rewrite !String.eqb_refl.
  - intros vg s w ->. apply called. cbn. by rewrite String.eqb_refl.
  - intros d dir w. by apply called.
  - intros d dir w Hd. apply called. cbn. destruct w as [|[] s]; done.
  - intros d dir fstype w Hd. apply called. cbn. unfold on_top. by rewrite bool_decide_eq_true_2.
  - intros d dir fstype s w ->. apply called. cbn. by rewrite String.eqb_refl.
  - intros d dir fstype s w ->. apply called. cbn. by rewrite String.eqb_refl.
  - intros d fstype s w ->. exists s. cbn [disk_env env_system wiped]. by rewrite String.eqb_refl.
Defined.

Definition prepared : io_self :=
  IoSelf (Some false) (Some false) (Some false) (Some (VStr sim_disk)) None None None None None None None None None.

Lemma prepared_made volume : made (HS:=disk_stack volume) false false false prepared.
Proof. by split. Qed.

Lemma layers_removed_witness :
  ∃ w1 x1, runs (make_layers (HI:=disk_lib true) (VBool true) (VBool true) (VStr "ext4")) [] prepared (Ret ()) w1 x1 ∧
    w1 = [LMounted "/tmp/work"; LFilesystem "/dev/avocado_vg/avocado_lv" (VStr "ext4"); LVolume "avocado_vg" "avocado_lv"; LGroup "avocado_vg";
          LArray "/dev/md/sraid"; LSuperblock ["/dev/sdb"%string]] ∧
    ∃ w2, runs (tearDown (HE:=disk_env) (HI:=disk_lib true)) w1 x1 (Ret ()) w2 x1 ∧ w2 = [].
Proof.
  exact (layers_removed (HE:=disk_env) (HI:=disk_lib true) (HS:=disk_stack true) (VBool true) (VBool true) (VStr "ext4") [] prepared
    eq_refl eq_refl (prepared_made _)).
Defined.

Lemma failed_volume_leaves_group_witness :
  ∃ e w1 x1, runs (make_layers (HI:=disk_lib false) (VBool false) (VBool true) (VStr "")) [] prepared (Raise e) w1 x1 ∧
    ∃ w2, runs (tearDown (HE:=disk_env) (HI:=disk_lib false)) w1 x1 (Ret ()) w2 x1 ∧ w2 = [LGroup "avocado_vg"].
Proof.
  exact (failed_volume_leaves_group (HE:=disk_env) (HI:=disk_lib false) (HS:=disk_stack false) (VStr "") [] prepared
    eq_refl eq_refl (prepared_made _)).
Defined.

(** ** An output *)

Definition cells (file_size record_size value : Z) : out_line :=
  Cells ((10%nat, file_size) :: (5%nat, record_size) :: repeat (2%nat, value) 13).

Definition sim_output : list out_line :=
  [Other (chars_of "	Iozone: Performance Test of File I/O"); Other [];
   Other (chars_of "              kB  reclen    write  rewrite    read    reread");
   cells 64 4 1048576; cells 64 8 2097152; cells 128 4 1048576; Other []; Other (chars_of "iozone test complete.")].

Lemma sim_output_wf : Forall wf_out sim_output.
Proof. repeat constructor. Qed.

Definition with_output (text : string) (auto_mode : bool) : io_self := with_auto_mode auto_mode (with_results text new_io).

Lemma keyvals_recorded_witness :
  runs (generate_keyval (W:=list layer)) [] (with_output (output_text sim_output) true) (Ret ()) []
    (with_whiteboard (json_dumps (table_keyvals (table sim_output))) (with_output (output_text sim_output) true)) ∧
  dict_find "128-4-randread" (table_keyvals (table sim_output)) = Some (KInt 1048576).
Proof.
  split; [|by vm_compute].
  refine (keyvals_recorded (HE:=disk_env) (HI:=disk_lib true) sim_output [] (with_output (output_text sim_output) true) sim_output_wf _ _ eq_refl eq_refl).
  - repeat constructor; by eexists _, _, _.
  - by apply (bool_decide_eq_true_1 _).
Defined.

Definition sim_manual : string :=
  "	Children see throughput for  1 initial writers 	=  742385.75 kB/sec" +:+ NL +:+
  "	Parent sees throughput for  1 initial writers 	=  741120.50 kB/sec" +:+ NL +:+
  "	Min throughput per thread 			=  742385.75 kB/sec" +:+ NL.

Lemma manual_records_nothing_witness :
  runs (generate_keyval (W:=list layer)) [] (with_output sim_manual false) (Ret ()) []
    (with_whiteboard "{}" (with_output sim_manual false)).
Proof.
  refine (manual_records_nothing (HE:=disk_env) (HI:=disk_lib true) [] (with_output sim_manual false) sim_manual eq_refl eq_refl _).
  by vm_compute.
Defined.

Lemma sim_unique : keeps_unique (HI:=disk_lib true).
Proof. intros l. split; [apply NoDup_remove_dups|]. intros z. apply elem_of_remove_dups. Qed.

Lemma process_results_groups_witness :
  ∃ groups, grouped 1 (table sim_output) groups ∧
    Forall2 (λ g p, average_performance (HI:=disk_lib true) g.2 (Some g.1) = Ret p) groups [8 :: repeat 2048 13; 4 :: repeat 1024 13].
Proof.
  refine (process_results_groups (HI:=disk_lib true) (table sim_output) "record_size" 1 _ sim_unique eq_refl _). by vm_compute.
Defined.
