(* ===== verification/Lsvpd.v ===== *)
(** * The tests of lsvpd: ras/ras_lsvpd.py

    The class [RASToolsLsvpd]: the tools that show the vital product data (VPD) of a machine are
    run, and what they print is compared with what the system knows: identifiers of PCI devices,
    their slots, the fields of Spyre cards.  The library functions are the class [LsvpdLib].
    The command counter [is_fail] starts as the attribute of the class, 0. *)

From S2P Require Import Prelude PyStr PyFloat PyVal PyRegex Avocado Logic.
Open Scope Z_scope.

(** ** Text *)

(** [s.lstrip(c)] *)
Definition py_lstrip_of (c : ascii) (s : string) : string := str_of (drop_while (Ascii.eqb c) (chars_of s)).

(** [s.endswith(p)] *)
Definition py_endswith (p s : string) : bool := starts_with (rev (chars_of p)) (rev (chars_of s)).

(** [s.strip(c)] for one character *)
Definition py_strip_char (c : ascii) (s : string) : string := str_of (strip_chars (Ascii.eqb c) (chars_of s)).

(** [s.split(None, 1)] *)
Definition py_split_once (s : string) : list string :=
  match drop_while is_space (chars_of s) with
  | [] => []
  | l => let '(w, r) := span (λ c, negb (is_space c)) l in
         match drop_while is_space r with [] => [str_of w] | r' => [str_of w; str_of r'] end
  end.

(** The text before and after the last [c], found by [s.rfind(c)]. *)
Definition before_last (c : ascii) (s : string) : string :=
  match span (λ d, negb (Ascii.eqb c d)) (rev (chars_of s)) with
  | (_, _ :: l) => str_of (rev l)
  | (_, []) => s
  end.
Definition after_last (c : ascii) (s : string) : string :=
  str_of (rev (span (λ d, negb (Ascii.eqb c d)) (rev (chars_of s))).1).

(** [line.split()[-1]]; the callers have a line with a word. *)
Definition last_word (line : string) : string := default ""%string (last_opt (py_split line)).

(** [fnmatch.fnmatch(s, p)] for a pattern whose only special character is [*] *)
Fixpoint glob_chars (p l : chars) {struct p} : bool :=
  match p with
  | [] => match l with [] => true | _ => false end
  | c :: p' =>
      if Ascii.eqb c "*" then
        (fix star (l : chars) : bool := glob_chars p' l || match l with [] => false | _ :: l' => star l' end) l
      else match l with d :: l' => Ascii.eqb c d && glob_chars p' l' | [] => false end
  end.
Definition fnmatch (s p : string) : bool := glob_chars (chars_of p) (chars_of s).

(** A method of a text, called on [v] *)
Definition text_method (name : string) (v : pyval) : result string :=
  match v with VStr s => Ret s | _ => raise_ AttributeError ("object has no attribute " +:+ quote name) end.

(** ** Data *)

Record ls_self := LsSelf {
  ls_is_fail : Z;
  ls_run_type : option pyval;
  ls_var_lib_dir : option string;
  ls_sourcedir : option string;
}.
Definition new_ls : ls_self := LsSelf 0 None None None.
Definition with_is_fail (v : Z) (x : ls_self) : ls_self := LsSelf v (ls_run_type x) (ls_var_lib_dir x) (ls_sourcedir x).
Definition with_run_type (v : pyval) (x : ls_self) : ls_self := LsSelf (ls_is_fail x) (Some v) (ls_var_lib_dir x) (ls_sourcedir x).
Definition with_var_lib_dir (v : string) (x : ls_self) : ls_self := LsSelf (ls_is_fail x) (ls_run_type x) (Some v) (ls_sourcedir x).
Definition with_lsvpd_source (v : string) (x : ls_self) : ls_self := LsSelf (ls_is_fail x) (ls_run_type x) (ls_var_lib_dir x) (Some v).

(** The library functions that this class calls. *)
Class LsvpdLib (W : Type) := {
  ls_lib : string → list pyval → W → result pyval * W;
  (* pci.get_pci_addresses: None where there is no device *)
  ls_addresses : W → result (option (list string)) * W;
  ls_class_name : string → W → result pyval * W;        (* pci.get_pci_class_name *)
  ls_vpd : string → W → result pyval * W;               (* pci.get_vpd *)
  ls_slot : string → W → result pyval * W;              (* pci.get_slot_from_sysfs *)
  ls_info : string → W → result pyval * W;              (* pci.get_pci_info *)
  (* os.walk: the directories, each with its files *)
  ls_walk : string → W → list (string * list string) * W;
  ls_listdir : string → W → result (list string) * W;
  (* process.run(cmd, ignore_bg_processes=True, ..): the standard error and the standard output *)
  ls_background : string → W → result (string * string) * W;
  ls_fetch : string → pyval → W → result string * W;    (* self.fetch_asset *)
  ls_cpuinfo : string;                                  (* /proc/cpuinfo when the file is loaded *)
  ls_arch : string;                                     (* distro.detect().arch *)
  ls_distro : string;                                   (* distro.detect().name *)
  ls_workdir : string;
  ls_outputdir : string;
}.

(** ** The output of lscfg *)

(** The dictionary, and the key whose value the next line has. *)
Record cfg_state := Cfg { cfg_data : dict string; cfg_current : option string }.

(** The key and the value of a line: the value begins after two dots in a row. *)
Record cut_state := Cut { key_chars : chars; value_chars : chars; in_value : bool; dot_count : nat }.

Definition cut_char (s : cut_state) (char : ascii) : cut_state :=
  if negb (in_value s) then
    if Ascii.eqb char "." then
      let dots := S (dot_count s) in
      Cut (key_chars s) (value_chars s) (2 <=? dots)%nat dots
    else
      Cut (key_chars s ++ repeat "."%char (dot_count s) ++ [char]) (value_chars s) false 0
  else Cut (key_chars s) (value_chars s ++ [char]) true (dot_count s).

Definition cut_line (stripped : string) : string * string :=
  let s := foldl cut_char (Cut [] [] false 0) (chars_of stripped) in
  (py_strip (str_of (key_chars s)), py_lstrip_of "." (str_of (value_chars s))).

(** The name of a field: what the last parentheses hold, where the key ends with them. *)
Definition field_name (key : string) : string :=
  if py_endswith ")" key && py_in "(" key then str_of (removelast (chars_of (after_last "(" key))) else key.

Definition cfg_line (s : cfg_state) (line : string) : cfg_state :=
  let stripped := py_strip line in
  if py_empty stripped then s
  else if py_startswith "." stripped then
    let value := py_lstrip_of "." stripped in
    match cfg_current s with
    | Some key => if negb (py_empty key) && negb (py_empty value) then Cfg (dict_put key value (cfg_data s)) None else s
    | None => s
    end
  else
    let '(key, value) := cut_line stripped in
    if py_empty key then s
    else if py_empty value then Cfg (cfg_data s) (Some (field_name key))
    else Cfg (dict_put (field_name key) value (cfg_data s)) None.

Definition parse_lscfg_output (lscfg_out : string) : dict string :=
  cfg_data (foldl cfg_line (Cfg [] None) (py_splitlines lscfg_out)).

(** ** The output of lsvpd *)

Record block_state := BlockState { bs_data : dict pyval; bs_missing : list string }.

(** A key that is given again gets the list of its values. *)
Definition add_value (key value : string) (data : dict pyval) : dict pyval :=
  match dict_find key data with
  | Some (VList l) => dict_put key (VList (l ++ [VStr value])) data
  | Some v => dict_put key (VList [v; VStr value]) data
  | None => dict_put key (VStr value) data
  end.

Definition block_line (s : block_state) (line : string) : block_state :=
  let stripped := py_strip line in
  if negb (py_startswith "*" stripped) then s
  else match py_split_once stripped with
       | w :: value :: _ => BlockState (add_value (py_lstrip_of "*" w) (py_strip value) (bs_data s)) (bs_missing s)
       | [w] => let key := py_lstrip_of "*" w in
                BlockState (dict_put key VNone (bs_data s)) (bs_missing s ++ [key])
       | [] => s
       end.

Definition parse_lsvpd_block (block : list string) : dict pyval :=
  let s := foldl block_line (BlockState [] []) block in
  match bs_missing s with
  | [] => bs_data s
  | l => dict_put "missing_fields" (VList (map VStr l)) (bs_data s)
  end.

(** The blocks that are found, the one that is read and its address. *)
Record spyre_state := Spyre { spyre_blocks : dict (list string); current_block : list string; address : string }.

(** The loop over the lines ends with the first that has a location of the set. *)
Definition has_location (location_codes : list string) (block : list string) : bool :=
  existsb (λ line, py_in "*YL" line && existsb (String.eqb (last_word line)) location_codes) block.

Definition process_block (location_codes : list string) (s : spyre_state) : dict (list string) :=
  if negb (bool_decide (current_block s = [])) && negb (py_empty (address s)) && has_location location_codes (current_block s)
  then dict_put (address s) (current_block s) (spyre_blocks s)
  else spyre_blocks s.

Definition spyre_line (location_codes : list string) (s : spyre_state) (line : string) : spyre_state :=
  let s := if py_in "*FC" line then Spyre (process_block location_codes s) [] "" else s in
  let block := current_block s ++ [line] in
  let ax_value := last_word line in
  let a := if py_in "*AX" line && py_empty (address s) && (py_in ":" ax_value && py_in "." ax_value) then ax_value else address s in
  Spyre (spyre_blocks s) block a.

Definition extract_spyre_block (lsvpd_out : string) (location_codes : list string) : dict (list string) :=
  process_block location_codes (foldl (spyre_line location_codes) (Spyre [] [] "") (py_splitlines lsvpd_out)).

(** ** Identifiers *)

Definition none_of (cs : chars) : re := RClass (λ c, negb (bool_decide (c ∈ cs))).
Definition is_hex (c : ascii) : bool :=
  is_digit c || ((97 <=? ch_code c) && (ch_code c <=? 102)) || ((65 <=? ch_code c) && (ch_code c <=? 70)).

(** Two texts in parentheses: [([^,]+),([^)]+)] *)
Definition vpd_id_pattern : re :=
  (RChar "(" ~> RGroup 1 (RPlus (none_of [","%char])) ~> RChar "," ~> RGroup 2 (RPlus (none_of [")"%char])) ~> RChar ")")%re.

(** A pair of numbers of four hexadecimal digits, in parentheses. *)
Definition hex4 : re := let h := RClass is_hex in (h ~> h ~> h ~> h)%re.
Definition hex_pair (n : nat) : re := (RChar "(" ~> RGroup n hex4 ~> RChar "," ~> RGroup (S n) hex4 ~> RChar ")")%re.
Definition lscfg_id_pattern : re := (hex_pair 1 ~> RChar "," ~> RStar Rspace ~> hex_pair 3)%re.

Definition is_location_char (c : ascii) : bool :=
  is_digit c || ((65 <=? ch_code c) && (ch_code c <=? 90)) || ((97 <=? ch_code c) && (ch_code c <=? 122))
  || bool_decide (c ∈ ["."; "-"; ":"]%char).
Definition yl_pattern : re :=
  (RLit "Location Code.(YL)" ~> RStar (RChar ".") ~> RGroup 1 (RPlus (RClass is_location_char)))%re.

Record pci_ids := Ids { id_vendor : string; id_device : string; id_subvendor : string; id_subdevice : string }.

Definition vpd_ids (vpd_pci_id : string) : result pci_ids :=
  match re_findall false vpd_id_pattern vpd_pci_id with
  | m :: n :: _ => Ret (Ids (py_strip (m_group 1 m)) (py_strip (m_group 2 m)) (py_strip (m_group 1 n)) (py_strip (m_group 2 n)))
  | _ => raise_ ValueError ("Unexpected VPD PCI ID format: " +:+ vpd_pci_id)
  end.

Definition lscfg_ids (raw_lscfg : string) : option pci_ids :=
  match re_search lscfg_id_pattern raw_lscfg with
  | Some m => Some (Ids (py_lower (m_group 1 m)) (py_lower (m_group 2 m)) (py_lower (m_group 3 m)) (py_lower (m_group 4 m)))
  | None => None
  end.

Definition yl_value (raw_lscfg : string) : string :=
  match re_search yl_pattern raw_lscfg with Some m => py_strip (m_group 1 m) | None => "" end.

(** ** The class RASToolsLsvpd *)

Definition equals_line : string := "================================================".

Section RASToolsLsvpd.
Context {W : Type} {HE : Env W} {HL : LsvpdLib W}.
Abbreviation T := (M W ls_self).

Definition ls_call (fn : string) (args : list pyval) : T pyval := ext (EvCall fn args) (ls_lib fn args).
Definition ls_do (fn : string) (args : list pyval) : T () := _ ← ls_call fn args; mret ().

Definition IS_POWER_NV : bool := py_in "PowerNV" ls_cpuinfo.

Definition is_fail : T Z := gets ls_is_fail.

Definition run_cmd (cmd : string) : T () :=
  r ← process_run cmd [IgnoreStatus; Sudo; Shell];
  when (negb (exit_status r =? 0)) (n ← is_fail; modify (with_is_fail (n + 1))).

Definition run_cmd_out (cmd : string) : T string :=
  output ← process_system_output cmd [Shell; IgnoreStatus; Sudo]; mret (py_strip output).

Definition require_package (package : string) : T () :=
  c ← ls_call "SoftwareManager.check_installed" [VStr package];
  when (negb (truthy c))
    (i ← ls_call "SoftwareManager.install" [VStr package];
     when (negb (truthy i)) (test_cancel ("Fail to install " +:+ package +:+ " required for this test."))).

Definition setUp : T () :=
  when (negb (py_in "ppc" ls_arch)) (test_cancel "supported only on Power platform") ;;
  run_type ← get_param "type" (VStr "distro");
  modify (with_run_type run_type) ;;
  for_each ["lsvpd"; "sysfsutils"; "pciutils"]%string require_package ;;
  modify (with_var_lib_dir "/var/lib/lsvpd/").

(** *** The build *)

Definition upstream_deps : T (list string) :=
  let deps := ["gcc"; "make"; "automake"; "autoconf"; "bison"; "flex"; "libtool"; "zlib-devel"; "ncurses-devel"; "librtas-devel"]%string in
  if py_in "SuSE" ls_distro then mret (deps ++ ["libsgutils-devel"; "sqlite3-devel"; "libvpd2-devel"]%string)
  else if existsb (String.eqb ls_distro) ["centos"; "fedora"; "rhel"]%string
  then mret (deps ++ ["sqlite-devel"; "libvpd-devel"; "sg3_utils-devel"]%string)
  else test_cancel "Unsupported Linux distribution".

Definition test_build_upstream : T () :=
  run_type ← attr "run_type" ls_run_type;
  if py_eq run_type (VStr "upstream") then
    deps ← upstream_deps;
    for_each deps require_package ;;
    url ← get_param "lsvpd_url" (VStr "https://github.com/power-ras/lsvpd/archive/refs/heads/master.zip");
    tarball ← ext (EvCall "fetch_asset" [VStr "lsvpd.zip"; url; VStr "7d"]) (ls_fetch "lsvpd.zip" url);
    ls_do "archive.extract" [VStr tarball; VStr ls_workdir] ;;
    modify (with_lsvpd_source (path_join ls_workdir "lsvpd-master")) ;;
    sourcedir ← attr "sourcedir" ls_sourcedir;
    ls_do "os.chdir" [VStr sourcedir] ;;
    run_cmd "./bootstrap.sh" ;;
    run_cmd "./configure --prefix=/usr" ;;
    n ← is_fail;
    when (1 <=? n) (test_fail "Source code compilation error") ;;
    ls_do "build.make" [VStr sourcedir] ;;
    ls_do "build.make" [VStr sourcedir; VStr "install"]
  else test_cancel "This test is supported with upstream as a target".

(** *** The database *)

(** The loops over the directories and their files keep the last file that qualifies. *)
Definition last_file (p : string → bool) (dirs : list (string * list string)) : string :=
  foldl (λ found '(root, files), foldl (λ found file, if p file then path_join root file else found) found files) ""%string dirs.

Definition walk (path : string) : T (list (string * list string)) := silent (λ w, let '(l, w') := ls_walk path w in (Ret l, w')).

Definition is_vpd_db (file : string) : bool := String.eqb (py_lower file) "vpd.db".
Definition is_vpd_gz (file : string) : bool := fnmatch (py_lower file) "vpd.*.gz".

Definition find_vpd_db_and_execute (path cmd : string) : T () :=
  dirs ← walk path;
  let path_db := last_file is_vpd_db dirs in
  when (negb (py_empty path_db))
    (let copyfile_path := path_join ls_outputdir "vpd.db" in
     ls_do "shutil.copyfile" [VStr path_db; VStr copyfile_path] ;;
     run_cmd (cmd +:+ "=" +:+ copyfile_path)).

Definition fail_if_any (tool : string) : T () :=
  n ← is_fail;
  when (1 <=? n) (test_fail (py_str_Z n +:+ " command(s) failed in " +:+ tool +:+ " tool verification")).

Definition find_vpd_gzip_and_execute (path cmd : string) : T () :=
  dirs ← walk path;
  let path_tar := last_file is_vpd_gz dirs in
  when (negb (py_empty path_tar)) (run_cmd (cmd +:+ " --zip=" +:+ path_tar)) ;;
  fail_if_any "lsvpd".

(** [self.var_lib_lsvpd_dir] as the argument of the two searches *)
Definition var_lib_dir : T string := attr "var_lib_lsvpd_dir" ls_var_lib_dir.
Definition find_db (cmd : string) : T () := path ← var_lib_dir; find_vpd_db_and_execute path cmd.
Definition find_gzip (cmd : string) : T () := path ← var_lib_dir; find_vpd_gzip_and_execute path cmd.

(** The marker of the last update, which is moved away and back. *)
Definition run_marker : T string :=
  let var_run := "/var/lib/lsvpd/run.vpdupdate"%string in
  let run_run := "/run/run.vpdupdate"%string in
  e ← path_exists var_run;
  if (e : bool) then mret var_run else e ← path_exists run_run; mret (if (e : bool) then run_run else ""%string).

(** An empty database has to be noticed. *)
Definition corrupted_step (command : string) : T () :=
  output ← run_cmd_out command;
  let flag := existsb (λ line, py_in "run" line && py_in "vpdupdate" line) (py_splitlines output) in
  when (negb flag) (test_fail "Error message is not displayed when vpd.db is corrupted.").

Definition test_vpdupdate : T () :=
  log_info "===============Executing vpdupdate tool test===============" ;;
  run_cmd "vpdupdate" ;;
  for_each ["--help"; "--version"; "--archive"; "--scsi"]%string (λ list_item, run_cmd ("vpdupdate " +:+ list_item)) ;;
  find_db "vpdupdate --path" ;;
  path ← run_marker;
  let move_path := "/root/run.vpdupdate"%string in
  ls_do "shutil.move" [VStr path; VStr move_path] ;;
  log_info "Running vpdupdate after removing run.vpdupdate" ;;
  run_cmd "vpdupdate" ;;
  ls_do "shutil.move" [VStr move_path; VStr path] ;;
  let vpd_db := "/var/lib/lsvpd/vpd.db"%string in
  e ← path_exists vpd_db;
  when e (ext (EvCall "os.remove" [VStr vpd_db]) (env_remove vpd_db)) ;;
  _ ← process_run ("touch " +:+ vpd_db) [Shell];
  for_each ["lsvpd"; "lscfg"; "lsmcode"]%string corrupted_step ;;
  run_cmd "vpdupdate" ;;
  fail_if_any "vpdupdate".

(** *** The tools *)

Definition test_lsvpd : T () :=
  log_info "===============Executing lsvpd tool test===============" ;;
  run_cmd "vpdupdate" ;;
  run_cmd "lsvpd" ;;
  for_each ["--debug"; "--version"; "--mark"; "--serial=STR"; "--type=STR"; "--list=raid"]%string
    (λ list_item, run_cmd ("lsvpd " +:+ list_item)) ;;
  find_db "lsvpd --path" ;;
  find_gzip "lsvpd".

(** The option that asks for the last device of the listing. *)
Definition device_option (listing : string) : result (list string) :=
  match last_opt (py_splitlines listing) with
  | None => raise_ IndexError "list index out of range"
  | Some device =>
      if py_startswith "+" device then
        match py_split_on " " device with
        | _ :: name :: _ => Ret ["-l" +:+ name]%string
        | _ => raise_ IndexError "list index out of range"
        end
      else Ret []
  end.

Definition test_lscfg : T () :=
  log_info "===============Executing lscfg tool test===============" ;;
  run_cmd "lscfg" ;;
  output ← run_cmd_out "lscfg";
  extra ← lift (device_option output);
  for_each (["--debug"; "--version"; "-p"]%string ++ extra) (λ list_item, run_cmd ("lscfg " +:+ list_item)) ;;
  find_db "lscfg --data" ;;
  find_gzip "lscfg".

(** [try: if pci.get_pci_class_name(dev) == 'accelerator': return True; except Exception: pass] *)
Definition accelerator_here (dev : string) : T bool :=
  try_except
    (c ← ext (EvCall "pci.get_pci_class_name" [VStr dev]) (ls_class_name dev);
     mret (py_eq c (VStr "accelerator"))) any_exn (λ _, mret false).

Fixpoint any_accelerator (devs : list string) : T bool :=
  match devs with
  | [] => mret false
  | dev :: devs' => b ← accelerator_here dev; if (b : bool) then mret true else any_accelerator devs'
  end.

Definition isAccelerator : T bool :=
  devs ← silent (ls_listdir "/sys/bus/pci/devices"); any_accelerator devs.

Definition lsmcode_failed : T () := test_fail "lsmcode command failed in verification".

Definition spyre_listed : T () :=
  log_info "Accelerator detected, verifying Spyre card details" ;;
  lsmcode_output ← run_cmd_out "lsmcode -A";
  output ← run_cmd_out "lspci | grep -i spyre | awk '{print $1}'";
  let spyre_devices := py_split_on LF (py_strip output) in
  when (bool_decide (spyre_devices = []) || bool_decide (spyre_devices = [""%string]))
    (test_fail "No Spyre devices found in the system") ;;
  for_each spyre_devices (λ device,
    when (negb (py_empty device) && negb (py_in device lsmcode_output))
      (test_fail ("Spyre device " +:+ device +:+ " not found in lsmcode -A output"))) ;;
  log_info "Spyre card details verified.".

Definition test_lsmcode : T () :=
  log_info "===============Executing lsmcode tool test===============" ;;
  run_cmd "vpdupdate" ;;
  output ← run_cmd_out "lsmcode";
  when (negb (py_in (if IS_POWER_NV then "bmc-firmware-version" else "FW") output)) lsmcode_failed ;;
  for_each ["-A"; "-v"; "-D"]%string (λ list_item, run_cmd ("lsmcode " +:+ list_item)) ;;
  b ← isAccelerator;
  when b spyre_listed ;;
  find_db "lsmcode --path" ;;
  find_gzip "lsmcode".

Definition test_lsvio : T () :=
  log_info "===============Executing lsvio tool test===============" ;;
  for_each ["-h"; "-v"; "-s"; "-e"; "-d"]%string (λ list_item, run_cmd ("lsvio " +:+ list_item)) ;;
  fail_if_any "lsvio".

Definition run_background (cmd : string) : T (string * string) := ext (EvRun cmd [IgnoreStatus; Shell]) (ls_background cmd).

Definition test_locking_mechanism : T () :=
  ret ← run_background "for i in $(seq 500) ; do vpdupdate & done ;";
  ret1 ← run_background "for in in $(seq 200) ; do lsvpd & done ;";
  if py_in "SQLITE Error" (py_strip ret.1) || py_in "corrupt" (py_strip ret1.2)
  then test_fail "Database corruption detected"
  else log_info "Locking mechanism prevented database corruption".

(** *** PCI devices *)

(** The addresses; a value [None] is not iterable. *)
Definition pci_addresses : T (list string) :=
  l ← ext (EvCall "pci.get_pci_addresses" []) ls_addresses;
  match l with Some l => mret l | None => throw TypeError "'NoneType' object is not iterable" end.

Definition check_title (pci_addr : string) : T () :=
  log_info equals_line ;; log_info ("Checking PCI Address: " +:+ pci_addr) ;; log_info equals_line.

(** [error.append(pci_addr + tag)] after a line of the log *)
Definition add_error (error : list string) (pci_addr tag msg : string) : T (list string) :=
  log_error msg ;; mret (error ++ [pci_addr +:+ tag]).

(** The slot: as it is, or without its last part. *)
Definition slot_base (vpd_slot : string) : string := if py_in "-" vpd_slot then before_last "-" vpd_slot else vpd_slot.

Definition check_slot (error : list string) (pci_addr : string) (vpd_output : pyval) : T (list string) :=
  has_slot ← lift (py_contains (VStr "slot") vpd_output);
  if (has_slot : bool) then
    sys_slot ← ext (EvCall "pci.get_slot_from_sysfs" [VStr pci_addr]) (ls_slot pci_addr);
    sys_slot ← (if truthy sys_slot then s ← lift (text_method "strip" sys_slot); mret (VStr (py_strip (py_strip_char "000" s)))
                else mret sys_slot);
    v ← lift (py_getkey vpd_output "slot");
    s ← lift (text_method "strip" v);
    let vpd_slot := py_strip s in
    log_info ("Slot from sysfs : " +:+ py_str sys_slot) ;;
    log_info ("Slot from lsvpd : " +:+ vpd_slot) ;;
    if existsb (py_eq sys_slot) [VStr vpd_slot; VStr (slot_base vpd_slot)]
    then log_info "Slot match successful" ;; mret error
    else add_error error pci_addr "-> slot" "Slot mismatch"
  else log_warning "Slot info not found in VPD output" ;; mret error.

Definition sysfs_id (pci_addr name : string) : T string :=
  output ← process_system_output ("cat /sys/bus/pci/devices/" +:+ pci_addr +:+ "/" +:+ name) [Shell];
  mret (py_replace "0x" "" (py_strip output)).

(** [None]: an exception was logged. *)
Definition sysfs_ids (pci_addr : string) : T (option pci_ids) :=
  try_except
    (v ← sysfs_id pci_addr "vendor"; d ← sysfs_id pci_addr "device";
     sv ← sysfs_id pci_addr "subsystem_vendor"; sd ← sysfs_id pci_addr "subsystem_device";
     mret (Some (Ids v d sv sd))) any_exn
    (λ e, log_error "Failed reading PCI IDs from sysfs" ;; log_error ("Exception: " +:+ ex_msg e) ;; mret None).

Definition read_vpd_ids (vpd_output : pyval) : T (option pci_ids) :=
  try_except
    (v ← lift (py_get vpd_output "pci_id" (VStr ""));
     s ← lift (text_method "strip" v);
     let vpd_pci_id := py_strip s in
     log_info ("Raw PCI ID from VPD : " +:+ vpd_pci_id) ;;
     i ← lift (vpd_ids vpd_pci_id);
     mret (Some i)) any_exn
    (λ e, log_error "Failed parsing VPD PCI ID" ;; log_error ("VPD output: " +:+ py_str vpd_output) ;;
          log_error ("Exception: " +:+ ex_msg e) ;; mret None).

Definition log_ids (sys vpd : pci_ids) (vpd_output : pyval) : T () :=
  log_info ("sys_vendor_id      = " +:+ id_vendor sys) ;;
  log_info ("sys_dev_id         = " +:+ id_device sys) ;;
  log_info ("sys_subvendor_id   = " +:+ id_subvendor sys) ;;
  log_info ("sys_subdev_id      = " +:+ id_subdevice sys) ;;
  log_info ("vpd_vendor_id      = " +:+ id_vendor vpd) ;;
  log_info ("vpd_dev_id         = " +:+ id_device vpd) ;;
  log_info ("vpd_subvendor_id   = " +:+ id_subvendor vpd) ;;
  log_info ("vpd_subdev_id      = " +:+ id_subdevice vpd) ;;
  log_info ("full_vpd_output    = " +:+ py_str vpd_output).

(** One of the four identifiers. *)
Definition match_id (pci_addr name tag sys vpd : string) (error : list string) : T (list string) :=
  log_info (name +:+ " from sysfs : " +:+ sys) ;;
  log_info (name +:+ " from VPD   : " +:+ vpd) ;;
  if String.eqb sys vpd then log_info (name +:+ " match successful") ;; mret error
  else add_error error pci_addr tag (name +:+ " mismatch").

(** The command that reads the configuration space. *)
Definition lspci_cmd (pci_addr : string) : string := "lspci -xxxx -s " +:+ pci_addr.

Definition check_config_space (error : list string) (pci_addr : string) (flags : list flag) : T (list string) :=
  status ← process_system (lspci_cmd pci_addr) flags;
  if negb (status =? 0) then add_error error pci_addr "-> pci_config_space" "PCI config space read failed" else mret error.

Definition pci_lsvpd_step (error : list string) (pci_addr : string) : T (list string) :=
  check_title pci_addr ;;
  vpd_output ← ext (EvCall "pci.get_vpd" [VStr pci_addr]) (ls_vpd pci_addr);
  if negb (truthy vpd_output) then log_warning ("No VPD output available for " +:+ pci_addr) ;; mret error
  else
    error ← check_slot error pci_addr vpd_output;
    sys ← sysfs_ids pci_addr;
    match sys with
    | None => mret (error ++ [pci_addr +:+ "-> pci_sysfs_read"])
    | Some sys =>
        vpd ← read_vpd_ids vpd_output;
        match vpd with
        | None => mret (error ++ [pci_addr +:+ "-> pci_id_parse"])
        | Some vpd =>
            log_ids sys vpd vpd_output ;;
            error ← match_id pci_addr "Vendor ID" "-> Vendor_id" (id_vendor sys) (id_vendor vpd) error;
            error ← match_id pci_addr "Device ID" "-> Device_id" (id_device sys) (id_device vpd) error;
            error ← match_id pci_addr "Subvendor ID" "-> Subvendor_id" (id_subvendor sys) (id_subvendor vpd) error;
            error ← match_id pci_addr "Subdevice ID" "-> Subdevice_id" (id_subdevice sys) (id_subdevice vpd) error;
            log_info ("Checking PCI config space using: " +:+ lspci_cmd pci_addr) ;;
            check_config_space error pci_addr [IgnoreStatus; Sudo]
        end
    end.

Definition fail_on_errors (error : list string) : T () :=
  when (negb (bool_decide (error = []))) (test_fail ("Errors for above pci addresses: " +:+ py_repr (VList (map VStr error)))).

Definition test_pci_lsvpd : T () :=
  status ← process_system "vpdupdate" [IgnoreStatus; Shell];
  when (negb (status =? 0)) (test_fail "VPD Update fails") ;;
  l ← pci_addresses;
  error ← for_acc l [] pci_lsvpd_step;
  fail_on_errors error ;;
  log_info "All PCI VPD checks passed successfully".

(** One of the fields of lspci, where it is given. *)
Definition match_info (info : pyval) (pci_addr key name tag id : string) (error : list string) : T (list string) :=
  given ← lift (py_contains (VStr key) info);
  if (given : bool) then
    v ← lift (py_getkey info key);
    log_info (name +:+ " from lspci : " +:+ py_str v) ;;
    s ← lift (text_method "lower" v);
    if String.eqb id (py_lower s) then log_info (name +:+ " matched") ;; mret error
    else add_error error pci_addr tag (name +:+ " mismatch")
  else mret error.

Definition match_physlot (info : pyval) (pci_addr yl : string) (error : list string) : T (list string) :=
  given ← lift (py_contains (VStr "PhySlot") info);
  if (given : bool) && negb (py_empty yl) then
    physlot ← lift (py_getkey info "PhySlot");
    log_info ("PhySlot from lspci : " +:+ py_str physlot) ;;
    b ← lift (py_contains physlot (VStr yl));
    if (b : bool) then log_info "Physical Slot matched" ;; mret error
    else add_error error pci_addr "-> physical_slot" "Physical Slot mismatch"
  else mret error.

(** What is logged before an error is recorded. *)
Definition logged_none {A} (msg : string) (e : exn) : T (option A) := log_error msg ;; log_error (ex_msg e) ;; mret None.

Definition collect_lscfg (pci_addr : string) : T (option string) :=
  try_except
    (r ← process_run ("lscfg -vl " +:+ pci_addr) [Sudo; Shell];
     log_info ("RAW LSCFG OUTPUT:" +:+ NL +:+ stdout_text r) ;; mret (Some (stdout_text r))) any_exn
    (logged_none ("Failed to collect lscfg output for " +:+ pci_addr)).

Definition collect_info (pci_addr : string) : T (option pyval) :=
  try_except
    (d ← ext (EvCall "pci.get_pci_info" [VStr pci_addr]) (ls_info pci_addr);
     log_info ("PCI INFO DICT : " +:+ py_str d) ;; mret (Some d)) any_exn
    (logged_none ("Failed to get pci info for " +:+ pci_addr)).

(** The comparisons with lspci. *)
Definition match_lspci (pci_addr : string) (ids : pci_ids) (yl : string) (info : pyval) (error : list string) : T (list string) :=
  error ← match_info info pci_addr "Vendor" "Vendor ID" "-> vendor_id" (id_vendor ids) error;
  error ← match_info info pci_addr "Device" "Device ID" "-> device_id" (id_device ids) error;
  error ← match_info info pci_addr "SVendor" "Subvendor ID" "-> subvendor_id" (id_subvendor ids) error;
  error ← match_info info pci_addr "SDevice" "Subdevice ID" "-> subdevice_id" (id_subdevice ids) error;
  error ← match_physlot info pci_addr yl error;
  log_info ("Running command: " +:+ lspci_cmd pci_addr) ;;
  check_config_space error pci_addr [Sudo; IgnoreStatus].

(** Nothing in the two blocks that parse the output of lscfg raises. *)
Definition pci_lscfg_step (error : list string) (pci_addr : string) : T (list string) :=
  check_title pci_addr ;;
  raw ← collect_lscfg pci_addr;
  match raw with
  | None => mret (error ++ [pci_addr +:+ "-> raw_lscfg"])
  | Some raw_lscfg =>
      info ← collect_info pci_addr;
      match info with
      | None => mret (error ++ [pci_addr +:+ "-> pci_info"])
      | Some info =>
          match lscfg_ids raw_lscfg with
          | None => add_error error pci_addr "-> pci_id_parse" "Failed to parse PCI IDs from lscfg output"
          | Some ids =>
              log_info ("vendor_id      = " +:+ id_vendor ids) ;;
              log_info ("device_id      = " +:+ id_device ids) ;;
              log_info ("subvendor_id   = " +:+ id_subvendor ids) ;;
              log_info ("subdevice_id   = " +:+ id_subdevice ids) ;;
              let yl := yl_value raw_lscfg in
              log_info ("YL Value = " +:+ yl) ;;
              match_lspci pci_addr ids yl info error
          end
      end
  end.

Definition test_pci_lscfg : T () :=
  l ← pci_addresses;
  error ← for_acc l [] pci_lscfg_step;
  fail_on_errors error ;;
  log_info "All PCI lscfg checks passed successfully".

(** *** Spyre cards *)

(** The keys of lsvpd and of lscfg that belong together. *)
Definition validations : dict string :=
  [("TM", "Machine Type-Model"); ("MF", "Manufacturer Name"); ("PN", "Part Number of assembly"); ("SN", "Serial Number");
   ("FN", "Field Replaceable Unit Number"); ("EC", "Engineering Change Level"); ("RL", "Non-alterable ROM level");
   ("CC", "CC"); ("YC", "YC"); ("YL", "YL")]%string.

(** A card: its location is added to the first list, its address to the second. *)
Definition spyre_device (s : list string * list string) (dev : string) : T (list string * list string) :=
  try_except
    (class_name ← ext (EvCall "pci.get_pci_class_name" [VStr dev]) (ls_class_name dev);
     if py_eq class_name (VStr "accelerator") then
       lscfg_out ← run_cmd_out ("lscfg -vl " +:+ dev);
       match dict_find "YL" (parse_lscfg_output lscfg_out) with
       | Some yl => mret (s.1 ++ [yl], s.2 ++ [dev])
       | None => mret s
       end
     else mret s) any_exn
    (λ e, log_warning ("Failed to get config for " +:+ dev +:+ ": " +:+ ex_msg e) ;; mret s).

(** [', '.join(v)]: the elements of [v] must be text. *)
Definition join_of (v : pyval) : result string :=
  l ← py_iter v;
  texts ← results (map (λ x, match x with VStr s => Ret s | _ => raise_ TypeError "sequence item: expected str instance" end) l);
  Ret (py_join ", " texts).

(** The value of lsvpd: the first one where there are several. *)
Definition first_value (v : pyval) : result pyval := match v with VList _ => py_getitem v 0 | _ => Ret v end.

Definition validate_field (dev : string) (lsvpd_data : dict pyval) (lscfg_data : dict string) (failures : list string)
    (keys : string * string) : result (list string) :=
  let '(lsvpd_key, lscfg_key) := keys in
  match dict_find lsvpd_key lsvpd_data, dict_find lscfg_key lscfg_data with
  | Some v, Some lscfg_val =>
      v ← first_value v;
      lsvpd_val ← text_method "strip" v;
      Ret (if String.eqb (py_strip lsvpd_val) (py_strip lscfg_val) then failures
           else failures ++ [dev +:+ ": " +:+ lsvpd_key +:+ " mismatch - lsvpd: " +:+ lsvpd_val +:+ ", lscfg: " +:+ lscfg_val])
  | _, _ => Ret failures
  end.

(** A loop of a computation without effects. *)
Fixpoint fold_result {A B} (f : B → A → result B) (b : B) (l : list A) : result B :=
  match l with [] => Ret b | x :: l' => b' ← f b x; fold_result f b' l' end.

Definition validate_device (spyre_blocks : dict (list string)) (failures : list string) (dev : string) : T (list string) :=
  match dict_find dev spyre_blocks with
  | None => mret (failures ++ [dev +:+ ": No lsvpd block found for this device"])
  | Some spyre_block =>
      let lsvpd_data := parse_lsvpd_block spyre_block in
      failures ← lift (match dict_find "missing_fields" lsvpd_data with
                       | Some v => missing ← join_of v; Ret (failures ++ [dev +:+ ": lsvpd fields missing values: " +:+ missing])
                       | None => Ret failures
                       end);
      lscfg_out ← run_cmd_out ("lscfg -vl " +:+ dev);
      lift (fold_result (validate_field dev lsvpd_data (parse_lscfg_output lscfg_out)) failures validations)
  end.

Definition test_spyre_lsvpd_validation : T () :=
  run_cmd "vpdupdate" ;;
  lsvpd_out ← run_cmd_out "lsvpd";
  l ← pci_addresses;
  s ← for_acc l ([], []) spyre_device;
  let '(location_codes, devices) := s in
  let spyre_blocks := extract_spyre_block lsvpd_out location_codes in
  let failures := if bool_decide (spyre_blocks = []) then ["No lsvpd entry found for the Spyre card(s)."]%string else [] in
  failures ← for_acc devices failures (validate_device spyre_blocks);
  when (negb (bool_decide (failures = [])))
    (test_fail ("Spyre device validation failed:" +:+ NL +:+ py_join NL failures)).
End RASToolsLsvpd.
