(* ===== verification/LsvpdText.v ===== *)
(** * What is read of the output of lscfg and lsvpd

    The fields that lscfg prints are read back, in their order; the listing of lsvpd, printed from
    blocks of fields, is cut into these blocks again, and they are assigned to the cards by their
    addresses. *)

From S2P Require Import Prelude PyStr PyFloat PyVal PyRegex Avocado Logic Lsvpd.
Open Scope Z_scope.

(** ** The fields of lscfg *)

(** A field as lscfg prints it: a text, perhaps a short name in parentheses, a row of dots and
    the value, which may stand on a line of its own after dots. *)
Record cfg_entry := Entry {
  en_indent : nat;
  en_text : chars;
  en_short : option chars;
  en_dots : nat;
  en_wrapped : option nat;
  en_value : chars;
}.

Definition dots (n : nat) : chars := repeat "."%char n.
Definition label (e : cfg_entry) : chars :=
  en_text e ++ match en_short e with Some n => "("%char :: n ++ [")"%char] | None => [] end.
Definition entry_key (e : cfg_entry) : string := str_of (match en_short e with Some n => n | None => en_text e end).
Definition entry_head (e : cfg_entry) : chars :=
  label e ++ dots (en_dots e) ++ match en_wrapped e with None => en_value e | Some _ => [] end.
Definition entry_rest (e : cfg_entry) : list chars :=
  match en_wrapped e with None => [] | Some m => [blanks (en_indent e) ++ dots m ++ en_value e] end.
Definition entry_lines (e : cfg_entry) : list chars := (blanks (en_indent e) ++ entry_head e) :: entry_rest e.
Definition cfg_listing (es : list cfg_entry) : string := str_of (concat (map (λ l, l ++ [LF]) (flat_map entry_lines es))).

(** Single dots only, none of them at the end. *)
Fixpoint single_dots (prev : bool) (l : chars) : bool :=
  match l with
  | [] => negb prev
  | c :: l' => if Ascii.eqb c "." then negb prev && single_dots true l' else single_dots false l'
  end.

Definition starts_plain (l : chars) : Prop :=
  match l with [] => False | c :: _ => is_space c = false ∧ Ascii.eqb c "." = false end.
Definition ends_plain (l : chars) : Prop := match last_opt l with Some c => is_space c = false | None => False end.

Record wf_entry (e : cfg_entry) : Prop := {
  wf_label_start : starts_plain (label e);
  wf_label_end : ends_plain (label e);
  wf_label_dots : single_dots false (label e) = true;
  wf_label_line : one_line (label e);
  wf_short : match en_short e with
             | Some n => "("%char ∉ n
             | None => last_opt (en_text e) ≠ Some ")"%char
             end;
  wf_dots : (2 ≤ en_dots e)%nat;
  wf_wrapped : match en_wrapped e with Some m => (1 ≤ m)%nat ∧ entry_key e ≠ ""%string | None => True end;
  wf_value_start : starts_plain (en_value e);
  wf_value_end : ends_plain (en_value e);
  wf_value_line : one_line (en_value e);
}.

Lemma plain_is_trimmed l : starts_plain l → ends_plain l → trimmed is_space l ∧ l ≠ [].
Proof.
  unfold trimmed, starts_plain, ends_plain. destruct l as [|c l]; [done|]. intros [Hc _] Hl. split; [|done].
  split; [done|]. by destruct (last_opt (c :: l)).
Qed.

Lemma ends_plain_app l1 l2 : ends_plain l2 → ends_plain (l1 ++ l2).
Proof.
  unfold ends_plain. intros H. assert (l2 ≠ []) as Hne by (intros ->; done). by rewrite last_opt_app.
Qed.

Lemma starts_plain_app l1 l2 : starts_plain l1 → starts_plain (l1 ++ l2).
Proof. by destruct l1. Qed.

Lemma dots_end n : (1 ≤ n)%nat → ends_plain (dots n).
Proof. destruct n as [|n]; [lia|]. intros _. unfold dots. cbn [repeat]. rewrite repeat_cons. by apply ends_plain_app. Qed.

Lemma dots_line n : one_line (dots n).
Proof. unfold dots. induction n; simpl; by constructor. Qed.

Lemma lstrip_dots n v : starts_plain v → py_lstrip_of "." (str_of (dots n ++ v)) = str_of v.
Proof.
  intros Hv. unfold py_lstrip_of. rewrite chars_of_str_of. f_equal. unfold dots.
  induction n as [|n IH]; [|exact IH]. destruct v as [|c v]; [done|]. destruct Hv as [_ Hv]. cbn [repeat app drop_while].
  by rewrite Ascii.eqb_sym, Hv.
Qed.

Lemma lstrip_only_dots n : py_lstrip_of "." (str_of (dots n)) = ""%string.
Proof. unfold py_lstrip_of. rewrite chars_of_str_of. unfold dots. by induction n. Qed.

(** *** One line *)

Lemma cut_key k d l : single_dots (bool_decide (d = 1%nat)) l = true → (d ≤ 1)%nat →
  foldl cut_char (Cut k [] false d) l = Cut (k ++ dots d ++ l) [] false 0.
Proof.
  revert k d. induction l as [|c l IH]; intros k d Hl Hd; cbn [single_dots foldl] in *.
  - case_bool_decide; [done|]. assert (d = 0%nat) as -> by lia. simpl. by rewrite app_nil_r.
  - unfold cut_char at 2. cbn [in_value key_chars value_chars dot_count negb]. destruct (Ascii.eqb_spec c ".") as [->|Hc].
    + apply andb_prop in Hl as [Hl1 Hl2]. case_bool_decide; [done|]. assert (d = 0%nat) as -> by lia. cbn [Nat.leb].
      by rewrite IH.
    + rewrite IH by (done || lia). cbn [dots repeat app]. fold (dots d). by rewrite <- !app_assoc.
Qed.

Lemma cut_value k v l : foldl cut_char (Cut k v true 2) l = Cut k (v ++ l) true 2.
Proof.
  revert v. induction l as [|c l IH]; intros v; cbn [foldl]; [by rewrite app_nil_r|]. unfold cut_char at 2. cbn. by rewrite IH, <- app_assoc.
Qed.

Lemma cut_dots k l : foldl cut_char (Cut k [] false 0) ("."%char :: "."%char :: l) = foldl cut_char (Cut k [] true 2) l.
Proof. done. Qed.

Lemma line_cut l n v : single_dots false l = true → starts_plain l → ends_plain l → (2 ≤ n)%nat →
  cut_line (str_of (l ++ dots n ++ v)) = (str_of l, py_lstrip_of "." (str_of (dots (n - 2) ++ v))).
Proof.
  intros Hl Hs He Hn. unfold cut_line. rewrite chars_of_str_of, foldl_app, (cut_key [] 0) by (done || lia). cbn [dots repeat app].
  destruct n as [|[|n]]; [lia..|]. change (dots (S (S n))) with ("."%char :: "."%char :: dots n). cbn [app]. rewrite cut_dots, cut_value. cbn [key_chars value_chars app Nat.sub]. rewrite Nat.sub_0_r.
  destruct (plain_is_trimmed l Hs He) as [Ht _]. unfold py_strip. by rewrite chars_of_str_of, strip_trimmed.
Qed.

(** *** The name of the field *)

Lemma short_name t n : "("%char ∉ n → field_name (str_of (t ++ "("%char :: n ++ [")"%char])) = str_of n.
Proof.
  intros Hn. unfold field_name, py_endswith. rewrite py_in_char, chars_of_str_of.
  assert (rev (t ++ "("%char :: n ++ [")"%char]) = ")"%char :: rev n ++ "("%char :: rev t) as E.
  { rewrite rev_app_distr. cbn [rev]. rewrite rev_app_distr, <- app_assoc. done. }
  rewrite E. change (starts_with _ _) with (starts_with [")"%char] (")"%char :: rev n ++ "("%char :: rev t)). cbn [starts_with].
  rewrite Ascii.eqb_refl, bool_decide_true by (apply elem_of_app; right; left). cbn [andb].
  unfold after_last. rewrite !chars_of_str_of, E.
  rewrite (span_app _ (")"%char :: rev n) ("("%char :: rev t)).
  - cbn [fst rev]. by rewrite rev_involutive, removelast_last.
  - constructor; [done|]. apply list.Forall_forall. intros c Hc. apply negb_true_iff, Ascii.eqb_neq. intros <-.
    apply Hn. apply list_elem_of_In in Hc. apply list_elem_of_In. by apply in_rev.
  - by rewrite Ascii.eqb_refl.
Qed.

Lemma plain_name l : last_opt l ≠ Some ")"%char → field_name (str_of l) = str_of l.
Proof.
  intros Hl. unfold field_name, py_endswith. rewrite chars_of_str_of.
  assert (starts_with (rev (chars_of ")")) (rev l) = false) as ->; [|done].
  destruct l as [|c l _] using rev_ind; [done|]. rewrite last_opt_snoc in Hl. rewrite rev_app_distr.
  change (Ascii.eqb ")" c && true = false). rewrite andb_true_r. apply Ascii.eqb_neq. by intros <-.
Qed.

Lemma label_name e : wf_entry e → field_name (str_of (label e)) = entry_key e.
Proof.
  intros [_ _ _ _ Hs _ _ _ _ _]. unfold label, entry_key. destruct (en_short e) as [n|]; [by apply short_name|].
  rewrite app_nil_r. by apply plain_name.
Qed.

(** *** The lines of a field *)

Lemma strip_indented n l : trimmed is_space l → l ≠ [] → py_strip (str_of (blanks n ++ l)) = str_of l.
Proof.
  intros H Hne. unfold py_strip. rewrite chars_of_str_of. f_equal. rewrite <- (app_nil_r l) at 1.
  apply strip_padded; [apply blanks_spaces|constructor|done|done].
Qed.

Lemma plain_not_empty l : starts_plain l → py_empty (str_of l) = false.
Proof. by destruct l. Qed.

Lemma plain_no_dot l : starts_plain l → py_startswith "." (str_of l) = false.
Proof.
  unfold py_startswith. rewrite chars_of_str_of. destruct l as [|c l]; [done|]. intros [_ H].
  change (Ascii.eqb "." c && true = false). by rewrite andb_true_r, Ascii.eqb_sym.
Qed.

Lemma head_plain e : wf_entry e → starts_plain (entry_head e) ∧ ends_plain (entry_head e).
Proof.
  intros [Hs He _ _ _ Hd _ Hvs Hve _]. unfold entry_head. split; [by apply starts_plain_app|].
  apply ends_plain_app. destruct (en_wrapped e); [rewrite app_nil_r; apply dots_end; lia|by apply ends_plain_app].
Qed.

Lemma entry_read e d cur : wf_entry e →
  foldl cfg_line (Cfg d cur) (map str_of (entry_lines e)) = Cfg (dict_put (entry_key e) (str_of (en_value e)) d) None.
Proof.
  intros He. destruct (head_plain e He) as [Hs Hend]. destruct (plain_is_trimmed _ Hs Hend) as [Ht Hne]. unfold entry_lines. cbn [map foldl].
  unfold cfg_line at 2. rewrite strip_indented by done. rewrite plain_not_empty, plain_no_dot by done.
  unfold entry_head. pose proof He as [Hls Hle Hld _ _ Hd Hw Hvs Hve _]. rewrite line_cut by done.
  rewrite (plain_not_empty _ Hls), label_name by done.
  destruct (plain_is_trimmed _ Hvs Hve) as [Hvt Hvne]. unfold entry_rest. destruct (en_wrapped e) as [m|].
  - rewrite app_nil_r, lstrip_only_dots. cbn [py_empty map foldl cfg_data]. destruct Hw as [Hm Hk].
    unfold cfg_line. cbn [cfg_current cfg_data].
    destruct m as [|m]; [lia|].
    rewrite strip_indented; [|split; [done|]|done].
    + change (py_empty (str_of (dots (S m) ++ en_value e))) with false. cbv iota.
      change (py_startswith "." (str_of (dots (S m) ++ en_value e))) with true. cbv iota.
      rewrite lstrip_dots by done. rewrite (plain_not_empty _ Hvs). destruct (entry_key e); [done|]. done.
    + rewrite last_opt_app by done. by destruct Hvt.
  - rewrite lstrip_dots by done. by rewrite (plain_not_empty _ Hvs).
Qed.

Lemma entries_read es d cur : Forall wf_entry es → es ≠ [] →
  foldl cfg_line (Cfg d cur) (map str_of (flat_map entry_lines es)) =
  Cfg (foldl (λ d e, dict_put (entry_key e) (str_of (en_value e)) d) d es) None.
Proof.
  intros H Hne. revert d cur. induction H as [|e es He H IH]; intros d cur; [done|]. cbn [flat_map]. rewrite map_app, foldl_app, entry_read by done.
  cbn [foldl]. destruct es as [|e' es]; [done|]. by apply IH.
Qed.

(** *** The whole output *)

Definition ended (ls : list chars) : chars := concat (map (λ l, l ++ [LF]) ls).

Lemma splitlines_last ls l : Forall (λ l, one_line l) ls → one_line l → l ≠ [] →
  py_splitlines (str_of (ended ls ++ l)) = map str_of (ls ++ [l]).
Proof.
  intros Hls Hl Hne. unfold py_splitlines. rewrite chars_of_str_of. f_equal. unfold ended.
  induction Hls as [|k ls Hk Hls IH]; [by apply lines_of_last|]. cbn [map concat app]. rewrite <- !app_assoc. cbn [app].
  rewrite lines_of_line by done. by rewrite IH.
Qed.

(** Lines that are printed with an indentation of the first and an end of the last. *)
Lemma stripped_lines i l ls : starts_plain l → Forall ends_plain (l :: ls) → Forall (λ l, one_line l) (l :: ls) →
  py_splitlines (py_strip (str_of (blanks i ++ ended (l :: ls)))) = map str_of (l :: ls).
Proof.
  intros Hs He Hl. assert (∃ init z, l :: ls = init ++ [z]) as (init & z & E).
  { destruct (exists_last (l := l :: ls)) as (init & z & E); [done|]. by exists init, z. }
  rewrite E in *. apply Forall_app in He as [_ He], Hl as [Hl1 Hl2]. apply list.Forall_cons in He as [He _], Hl2 as [Hl2 _].
  assert (ended (init ++ [z]) = (ended init ++ z) ++ [LF]) as ->.
  { unfold ended. rewrite map_app, concat_app. cbn [map concat]. by rewrite app_nil_r, app_assoc. }
  assert (z ≠ []) as Hz by (intros ->; done).
  unfold py_strip. rewrite chars_of_str_of, strip_padded.
  - by apply splitlines_last.
  - apply blanks_spaces.
  - by repeat constructor.
  - split; [|rewrite last_opt_app by done; unfold ends_plain in He; by destruct (last_opt z)].
    destruct init as [|k init]; cbn [app] in E; injection E as <- E; [|cbn [ended map concat]; rewrite <- !app_assoc].
    all: destruct l as [|c l]; [done|]; by destruct Hs.
  - by destruct (ended init).
Qed.

Lemma cfg_line_indent n l s : trimmed is_space l → l ≠ [] → cfg_line s (str_of (blanks n ++ l)) = cfg_line s (str_of l).
Proof. intros Ht Hne. unfold cfg_line. rewrite (strip_indented n l) by done. pose proof (strip_indented 0 l Ht Hne) as E. cbn [blanks repeat app] in E. by rewrite E. Qed.

Lemma lines_wf e : wf_entry e → Forall ends_plain (entry_lines e) ∧ Forall (λ l, one_line l) (entry_lines e).
Proof.
  intros He. destruct (head_plain e He) as [_ Hend]. destruct He as [_ _ _ Hll _ _ Hw _ Hve Hvl]. unfold entry_lines, entry_rest, entry_head in *.
  destruct (en_wrapped e); split;
    repeat first [done|apply list.Forall_cons; split|apply list.Forall_nil; done|apply Forall_app; split|apply blanks_inline|apply dots_line|apply ends_plain_app].
Qed.

(** The fields of the listing, in their order: a later one replaces an earlier one of its name. *)
Definition cfg_fields (es : list cfg_entry) : dict string :=
  foldl (λ d e, dict_put (entry_key e) (str_of (en_value e)) d) [] es.

Lemma lscfg_parsed (es : list cfg_entry) : Forall wf_entry es →
  parse_lscfg_output (py_strip (cfg_listing es)) = cfg_fields es.
Proof.
  intros H. unfold parse_lscfg_output, cfg_fields. destruct es as [|e es]; [done|].
  unfold cfg_listing. pose proof (proj1 (list.Forall_cons _ _ _) H) as [He Hes]. destruct (head_plain e He) as [Hs Hend].
  assert (Forall ends_plain (flat_map entry_lines (e :: es)) ∧ Forall (λ l, one_line l) (flat_map entry_lines (e :: es))) as [H1 H2].
  { rewrite flat_map_concat_map. split; apply Forall_concat, List.Forall_map; (eapply list.Forall_impl; [exact H|]; intros; by apply lines_wf). }
  pose proof (entries_read (e :: es) [] None H) as E.
  change (flat_map entry_lines (e :: es)) with ((blanks (en_indent e) ++ entry_head e) :: entry_rest e ++ flat_map entry_lines es) in *.
  apply list.Forall_cons in H1 as [_ H1], H2 as [H2 H3]. generalize dependent (entry_rest e ++ flat_map entry_lines es). intros ls H1 H3 E.
  assert (concat (map (λ l, l ++ [LF]) ((blanks (en_indent e) ++ entry_head e) :: ls)) = blanks (en_indent e) ++ ended (entry_head e :: ls)) as ->
    by (unfold ended; cbn [map concat]; by rewrite <- !app_assoc).
  rewrite stripped_lines; [|done|by constructor|constructor; [by apply Forall_app in H2 as [_ H2]|done]].
  destruct (plain_is_trimmed _ Hs Hend) as [Ht Hne]. cbn [map foldl] in *. rewrite cfg_line_indent in E by done.
  by rewrite E by done.
Qed.

(** C35: what lscfg prints, stripped as [run_cmd_out] does it, is read back: the dictionary has the
    value of each field under its short name where it has one, and under its text otherwise;
    values that stand on a line of their own are found, and single dots in a text do not end it. *)
Theorem lscfg_read (es : list cfg_entry) : Forall wf_entry es →
  parse_lscfg_output (py_strip (cfg_listing es)) = cfg_fields es.
Proof. apply lscfg_parsed. Qed.

(** A field of the listing: its last entry counts. *)
Definition cfg_value (es : list cfg_entry) (k : string) : option string :=
  last_opt (map (λ e, str_of (en_value e)) (List.filter (λ e, String.eqb (entry_key e) k) es)).

Lemma cfg_find es k : dict_find k (cfg_fields es) = cfg_value es k.
Proof.
  unfold cfg_fields, cfg_value. induction es as [|e es IH] using rev_ind; [done|]. rewrite foldl_app, filter_app. cbn [foldl List.filter].
  rewrite dict_find_put. destruct (String.eqb (entry_key e) k); [rewrite map_app; cbn [map]; by rewrite last_opt_snoc|by rewrite app_nil_r].
Qed.

(** ** The blocks of lsvpd *)

(** A block begins with each line that has *FC; what stands before the first one is a block, too. *)
Fixpoint blocks_of (lines : list string) : list string * list (list string) :=
  match lines with
  | [] => ([], [])
  | line :: lines' =>
      let '(b, bs) := blocks_of lines' in
      if py_in "*FC" line then ([], (line :: b) :: bs) else (line :: b, bs)
  end.
Definition all_blocks (lines : list string) : list (list string) := let '(b, bs) := blocks_of lines in b :: bs.

(** A line that gives an address. *)
Definition gives_address (line : string) : bool :=
  py_in "*AX" line && (py_in ":" (last_word line) && py_in "." (last_word line)).
Definition block_address (block : list string) : string :=
  match List.find gives_address block with Some line => last_word line | None => ""%string end.

(** The blocks of a card with a location of the list. *)
Definition is_block_of (location_codes : list string) (addr : string) (block : list string) : bool :=
  String.eqb (block_address block) addr && has_location location_codes block.

Lemma find_app {A} (p : A → bool) l1 l2 :
  List.find p (l1 ++ l2) = match List.find p l1 with Some x => Some x | None => List.find p l2 end.
Proof. induction l1 as [|x l1 IH]; [done|]. cbn. destruct (p x); [done|exact IH]. Qed.

Lemma address_given line : gives_address line = true → py_empty (last_word line) = false.
Proof. unfold gives_address. by destruct (last_word line); [rewrite andb_false_r|]. Qed.

Lemma block_address_snoc block line :
  block_address (block ++ [line]) =
  if py_in "*AX" line && py_empty (block_address block) && (py_in ":" (last_word line) && py_in "." (last_word line))
  then last_word line else block_address block.
Proof.
  unfold block_address. rewrite find_app. destruct (List.find gives_address block) as [l|] eqn:E.
  - apply find_some in E as [_ E]. apply address_given in E. by rewrite E, andb_false_r.
  - cbn. unfold gives_address. rewrite andb_true_r. by destruct (_ && _).
Qed.

Section blocks.
Context (codes : list string).

(** What is recorded at the end of a block. *)
Definition put_block (d : dict (list string)) (block : list string) : dict (list string) :=
  process_block codes (Spyre d block (block_address block)).

Lemma lines_in_blocks lines d cur :
  process_block codes (foldl (spyre_line codes) (Spyre d cur (block_address cur)) lines) =
  let '(b, bs) := blocks_of lines in foldl put_block d ((cur ++ b) :: bs).
Proof.
  revert d cur. induction lines as [|line lines IH]; intros d cur; cbn [foldl blocks_of]; [by rewrite app_nil_r|].
  unfold spyre_line at 2. destruct (py_in "*FC" line); cbn [spyre_blocks current_block address].
  - pose proof (block_address_snoc [] line) as E. cbn [app] in E. change (block_address []) with ""%string in E. rewrite <- E, IH. cbn [block_address List.find app].
    destruct (blocks_of lines) as [b bs]. by rewrite app_nil_r.
  - rewrite <- block_address_snoc, IH. destruct (blocks_of lines) as [b bs]. by rewrite <- app_assoc.
Qed.

Lemma block_found addr blocks :
  dict_find addr (foldl put_block [] blocks) =
  if py_empty addr then None else last_opt (List.filter (is_block_of codes addr) blocks).
Proof.
  induction blocks as [|block blocks IH] using rev_ind; [by destruct (py_empty addr)|].
  rewrite foldl_app, filter_app. cbn [foldl List.filter]. unfold put_block at 1, process_block, is_block_of at 2. cbn [current_block address spyre_blocks].
  destruct (has_location codes block); rewrite ?andb_true_r, ?andb_false_r; [|by rewrite app_nil_r].
  destruct (String.eqb_spec (block_address block) addr) as [<-|Hne].
  - rewrite last_opt_snoc. destruct (py_empty (block_address block)) eqn:E; cbn [negb]; [by rewrite andb_false_r|].
    rewrite bool_decide_false by (intros ->; done). cbn [negb andb]. by rewrite dict_find_put, String.eqb_refl.
  - rewrite app_nil_r, <- IH. destruct (_ && _); [|done]. rewrite dict_find_put. by apply String.eqb_neq in Hne as ->.
Qed.
End blocks.

(** the block that is found for an address is the last one of the listing with this address,
    among those with a location of the list: the listing is cut before each line that has *FC; the
    address of a block is the first one it gives. *)
Theorem spyre_block_found (lsvpd_out : string) (location_codes : list string) (addr : string) :
  dict_find addr (extract_spyre_block lsvpd_out location_codes) =
  if py_empty addr then None
  else last_opt (List.filter (is_block_of location_codes addr) (all_blocks (py_splitlines lsvpd_out))).
Proof.
  rewrite <- block_found. f_equal. unfold extract_spyre_block, all_blocks.
  change (Spyre [] [] "") with (Spyre [] [] (block_address [])). rewrite lines_in_blocks. by destruct (blocks_of _).
Qed.

(** ** The listing of lsvpd as it is printed *)

(** A field: the two letters after the star, and its value, if it has one. *)
Record vpd_field := VpdField { vf_key : string; vf_value : option string }.
(** A block begins with a field FC. *)
Record vpd_block := VpdBlock { vb_class : option string; vb_fields : list vpd_field }.

Definition print_field (f : vpd_field) : chars :=
  "*"%char :: chars_of (vf_key f) ++ match vf_value f with Some v => " "%char :: chars_of v | None => [] end.
Definition block_fields (b : vpd_block) : list vpd_field := VpdField "FC" (vb_class b) :: vb_fields b.
Definition vpd_listing (head : list vpd_field) (blocks : list vpd_block) : string :=
  str_of (ended (map print_field (head ++ flat_map block_fields blocks))).

Record wf_field (f : vpd_field) : Prop := {
  wf_key : match chars_of (vf_key f) with [a; b] => no_spaces [a; b] ∧ "*"%char ∉ [a; b] | _ => False end;
  wf_value : match vf_value f with
             | Some v => trimmed is_space (chars_of v) ∧ v ≠ ""%string ∧ one_line (chars_of v) ∧ "*"%char ∉ chars_of v
             | None => True
             end;
  (* addresses and locations are words *)
  wf_word : vf_key f ∈ ["AX"; "YL"]%string → match vf_value f with Some v => no_spaces (chars_of v) | None => True end;
}.
Record wf_block (b : vpd_block) : Prop := {
  wf_fields : Forall wf_field (block_fields b);
  wf_one_class : Forall (λ f, vf_key f ≠ "FC"%string) (vb_fields b);
}.

(** The address of a block: the first value of a field AX that has a colon and a dot. *)
Definition is_address (v : string) : bool := bool_decide (":"%char ∈ chars_of v) && bool_decide ("."%char ∈ chars_of v).
Definition address_field (f : vpd_field) : bool :=
  String.eqb (vf_key f) "AX" && match vf_value f with Some v => is_address v | None => false end.
Definition address_of (b : list vpd_field) : option string := f ← List.find address_field b; vf_value f.
Definition located_at (locations : list string) (b : list vpd_field) : bool :=
  existsb (λ f, String.eqb (vf_key f) "YL" && match vf_value f with Some v => bool_decide (v ∈ locations) | None => false end) b.
(** The last block of the device. *)
Definition block_for (locations : list string) (dev : string) (blocks : list (list vpd_field)) : option (list vpd_field) :=
  last_opt (List.filter (λ b, bool_decide (address_of b = Some dev) && located_at locations b) blocks).

Abbreviation field_line f := (str_of (print_field f)).

Lemma key_cases f : wf_field f → ∃ a b, vf_key f = String a (String b "") ∧ no_spaces [a; b] ∧ "*"%char ∉ [a; b].
Proof. intros [H _ _]. revert H. destruct (vf_key f) as [|a [|b [|? ?]]]; try done. intros [H1 H2]. by exists a, b. Qed.

(** A line is given by the first three characters. *)
Lemma line_key f a b : wf_field f → py_in (String "*" (String a (String b ""))) (field_line f) = String.eqb (vf_key f) (String a (String b "")).
Proof.
  intros Hf. destruct (key_cases f Hf) as (c & d & Ek & _ & Hk). unfold py_in, print_field. rewrite chars_of_str_of, Ek.
  assert ("*"%char ∉ c :: d :: match vf_value f with Some v => " "%char :: chars_of v | None => [] end) as Hs.
  { change (c :: d :: ?l) with ([c; d] ++ l). rewrite not_elem_of_app. split; [done|]. destruct Hf as [_ Hv _].
    destruct (vf_value f) as [v|]; [|by apply not_elem_of_nil]. rewrite not_elem_of_cons. by destruct Hv as (_ & _ & _ & ?). }
  change (chars_of (String "*" (String a (String b "")))) with ["*"%char; a; b]. change (chars_of (String c (String d ""))) with [c; d].
  generalize dependent (match vf_value f with Some v => " "%char :: chars_of v | None => [] end). intros l Hs. cbn [app] in *.
  assert (contains_chars ["*"%char; a; b] (c :: d :: l) = false) as E.
  { pose proof (py_in_missing "*" (str_of ["*"%char; a; b]) (str_of (c :: d :: l))) as H. unfold py_in in H. rewrite !chars_of_str_of in H. apply H; [left|done]. }
  change (contains_chars ["*"%char; a; b] ("*"%char :: c :: d :: l)) with
    (Ascii.eqb a c && (Ascii.eqb b d && true) || contains_chars ["*"%char; a; b] (c :: d :: l)).
  rewrite E, orb_false_r, andb_true_r. cbn [String.eqb]. rewrite (Ascii.eqb_sym a c), (Ascii.eqb_sym b d).
  destruct (Ascii.eqb_spec c a), (Ascii.eqb_spec d b); done.
Qed.

Lemma line_last_word f : wf_field f → vf_key f ∈ ["AX"; "YL"]%string →
  last_word (field_line f) = match vf_value f with Some v => v | None => "*" +:+ vf_key f end.
Proof.
  intros Hf Hk. destruct (key_cases f Hf) as (a & b & Ek & Hn & _). pose proof (wf_word f Hf Hk) as Hw. destruct Hf as [_ Hv _].
  assert (no_spaces ["*"%char; a; b]) as Hn' by (constructor; done).
  unfold last_word. rewrite py_split_words, chars_of_str_of. unfold print_field. rewrite Ek. change (chars_of (String a (String b ""))) with [a; b].
  destruct (vf_value f) as [v|].
  - change ("*"%char :: [a; b] ++ " "%char :: chars_of v) with (["*"%char; a; b] ++ " "%char :: chars_of v). rewrite words_app by done.
    assert (chars_of v ≠ []) as Hne by (destruct Hv as (_ & Hne & _); by destruct v).
    rewrite (words_word (chars_of v) Hw Hne), map_app. cbn [map]. rewrite last_opt_snoc. apply str_of_chars_of.
  - by rewrite app_nil_r, words_word.
Qed.

Lemma line_address f : wf_field f → gives_address (field_line f) = address_field f.
Proof.
  intros Hf. unfold gives_address, address_field. rewrite (line_key f "A" "X") by done. destruct (String.eqb_spec (vf_key f) "AX") as [E|]; [|done].
  rewrite line_last_word, !py_in_char by (done || (rewrite E; left)). unfold is_address. destruct (vf_value f); [done|]. by rewrite E.
Qed.

Lemma lines_address b : Forall wf_field b → block_address (map (λ f, field_line f) b) = default ""%string (address_of b).
Proof.
  unfold block_address, address_of. induction 1 as [|f b Hf _ IH]; [done|]. cbn [map List.find]. rewrite line_address by done.
  destruct (address_field f) eqn:E; [|exact IH]. unfold address_field in E. apply andb_true_iff in E as [Ek%String.eqb_eq Ev].
  rewrite line_last_word by (done || (rewrite Ek; left)). cbn. by destruct (vf_value f).
Qed.

Lemma address_colon b dev : address_of b = Some dev → py_empty dev = false.
Proof.
  unfold address_of. destruct (List.find address_field b) as [f|] eqn:E; [|done]. cbn. intros Hv. apply find_some in E as [_ E].
  unfold address_field in E. rewrite Hv in E. apply andb_true_iff in E as [_ E]. by destruct dev.
Qed.

Lemma lines_location codes b : Forall wf_field b → Forall (λ c, "*"%char ∉ chars_of c) codes →
  has_location codes (map (λ f, field_line f) b) = located_at codes b.
Proof.
  intros Hb Hc. unfold has_location, located_at. induction Hb as [|f b Hf _ IH]; [done|]. cbn [map existsb]. rewrite IH. f_equal.
  rewrite (line_key f "Y" "L") by done. destruct (String.eqb_spec (vf_key f) "YL") as [E|]; [|done].
  rewrite line_last_word by (done || (rewrite E; right; left)). cbn [andb]. apply eq_true_iff_eq. rewrite existsb_exists. destruct (vf_value f) as [v|].
  - rewrite bool_decide_eq_true. split; [by intros (c & Hi%list_elem_of_In & ->%String.eqb_eq)|]. intros Hi. exists v. by rewrite <- list_elem_of_In, String.eqb_refl.
  - split; [|done]. intros (c & Hi%list_elem_of_In & <-%String.eqb_eq). eapply list.Forall_forall in Hc; [|exact Hi]. destruct Hc. rewrite chars_of_app. by left.
Qed.

(** The listing is cut where a block begins. *)
Lemma plain_lines l rest : Forall wf_field l → Forall (λ f, vf_key f ≠ "FC"%string) l →
  blocks_of (map (λ f, field_line f) l ++ rest) = let '(b, bs) := blocks_of rest in (map (λ f, field_line f) l ++ b, bs).
Proof.
  intros Hl. induction Hl as [|f l Hf _ IH]; cbn [map app blocks_of]; [by destruct (blocks_of rest)|]. intros [Hk Hks]%list.Forall_cons.
  rewrite IH by done. destruct (blocks_of rest). rewrite (line_key f "F" "C") by done. by apply String.eqb_neq in Hk as ->.
Qed.

Lemma lines_cut blocks : Forall wf_block blocks →
  blocks_of (map (λ f, field_line f) (flat_map block_fields blocks)) = ([], map (λ b, map (λ f, field_line f) (block_fields b)) blocks).
Proof.
  induction 1 as [|b blocks [Hf Hc] _ IH]; [done|]. cbn [flat_map map]. rewrite map_app. unfold block_fields at 1. cbn [map app blocks_of].
  apply list.Forall_cons in Hf as [Hh Hf]. rewrite plain_lines, IH by done. rewrite app_nil_r. rewrite (line_key _ "F" "C") by done. done.
Qed.

Lemma listing_cut head blocks : Forall wf_field head → Forall (λ f, vf_key f ≠ "FC"%string) head → Forall wf_block blocks →
  all_blocks (map (λ f, field_line f) (head ++ flat_map block_fields blocks)) = map (map (λ f, field_line f)) (head :: map block_fields blocks).
Proof. intros Hh Hc Hb. unfold all_blocks. rewrite map_app, plain_lines, lines_cut by done. rewrite app_nil_r. cbn [map]. by rewrite map_map. Qed.

(** A line is printed without blanks at its ends. *)
Lemma field_plain f : wf_field f → starts_plain (print_field f) ∧ ends_plain (print_field f) ∧ one_line (print_field f).
Proof.
  intros Hf. destruct (key_cases f Hf) as (a & b & Ek & Hn & _). destruct Hf as [_ Hv _]. unfold print_field. rewrite Ek.
  change (chars_of (String a (String b ""))) with [a; b]. split; [done|]. cbn [app].
  assert (one_line ["*"%char; a; b]) as Hl by (apply word_inline; by constructor).
  destruct (vf_value f) as [v|].
  - destruct Hv as ([_ Ht] & Hne & Hl2 & _). change ("*"%char :: a :: b :: " "%char :: chars_of v) with (["*"%char; a; b; " "%char] ++ chars_of v). split.
    + apply ends_plain_app. unfold ends_plain. destruct (last_opt (chars_of v)) eqn:E; [done|]. apply last_opt_None in E. by destruct v.
    + apply Forall_app. split; [|done]. change ["*"%char; a; b; " "%char] with (["*"%char; a; b] ++ [" "%char]). apply Forall_app. split; [done|by repeat constructor].
  - split; [|done]. apply list.Forall_cons in Hn as [_ Hn]. apply list.Forall_cons in Hn as [Hn _]. done.
Qed.

Lemma lsvpd_lines head blocks : Forall wf_field head → Forall wf_block blocks →
  py_splitlines (py_strip (vpd_listing head blocks)) = map (λ f, field_line f) (head ++ flat_map block_fields blocks).
Proof.
  intros Hh Hb. unfold vpd_listing. rewrite <- (map_map print_field str_of).
  assert (Forall wf_field (head ++ flat_map block_fields blocks)) as Hf.
  { apply Forall_app. split; [done|]. rewrite flat_map_concat_map. apply Forall_concat, List.Forall_map. eapply list.Forall_impl; [exact Hb|]. by intros b [? _]. }
  destruct Hf as [|f l Hf Hl]; [done|]. apply (stripped_lines 0).
  - by apply field_plain.
  - apply (List.Forall_map print_field _ (f :: l)). eapply (list.Forall_impl wf_field); [by constructor|]. intros g Hg. by apply field_plain.
  - apply (List.Forall_map print_field _ (f :: l)). eapply (list.Forall_impl wf_field); [by constructor|]. intros g Hg. by apply field_plain.
Qed.

(** The block of a device is found in the printed listing. *)
Lemma block_in_listing head blocks codes dev :
  Forall wf_field head → Forall (λ f, vf_key f ≠ "FC"%string) head → Forall wf_block blocks → Forall (λ c, "*"%char ∉ chars_of c) codes →
  dict_find dev (extract_spyre_block (py_strip (vpd_listing head blocks)) codes) =
  map (λ f, field_line f) <$> block_for codes dev (head :: map block_fields blocks).
Proof.
  intros Hh Hc Hb Hcodes. rewrite spyre_block_found, lsvpd_lines, listing_cut by done. unfold block_for.
  assert (Forall (Forall wf_field) (head :: map block_fields blocks)) as Hall.
  { constructor; [done|]. apply List.Forall_map. eapply list.Forall_impl; [exact Hb|]. by intros b [? _]. }
  destruct (py_empty dev) eqn:E.
  - assert (List.filter (λ b, bool_decide (address_of b = Some dev) && located_at codes b) (head :: map block_fields blocks) = []) as ->; [|done].
    induction (head :: map block_fields blocks) as [|b bs IH]; [done|]. cbn [List.filter]. apply list.Forall_cons in Hall as [_ Hall].
    rewrite bool_decide_eq_false_2; [by apply IH|]. intros H%address_colon. by rewrite E in H.
  - assert (∀ bs, Forall (Forall wf_field) bs → List.filter (is_block_of codes dev) (map (map (λ f, field_line f)) bs) =
      map (map (λ f, field_line f)) (List.filter (λ b, bool_decide (address_of b = Some dev) && located_at codes b) bs)) as H.
    { induction 1 as [|b bs Hb' _ IH]; [done|]. cbn [map List.filter]. unfold is_block_of at 1. rewrite lines_address, lines_location, IH by done.
      assert (String.eqb (default ""%string (address_of b)) dev = bool_decide (address_of b = Some dev)) as ->; [|by destruct (_ && _)].
      apply eq_true_iff_eq. rewrite String.eqb_eq, bool_decide_eq_true. destruct (address_of b) as [d|]; cbn; [by split; [intros ->|intros [= ->]]|].
      split; [intros <-; done|done]. }
    rewrite H by done. generalize (List.filter (λ b, bool_decide (address_of b = Some dev) && located_at codes b) (head :: map block_fields blocks)).
    intros l. destruct l as [|b l _] using rev_ind; [done|]. rewrite map_app. cbn [map]. by rewrite !last_opt_snoc.
Qed.
