(* ===== verification/LsvpdSpyre.v ===== *)
(** * The test of the Spyre cards

    On a machine whose listings do not change while the test runs ([SpyreMachine], which gives them as
    blocks and entries), the test passes exactly when there is a card and every card has a block in
    the output of lsvpd, without fields that lack a value, that agrees with lscfg; a field without a
    value that lscfg shows ends it with AttributeError.  The verdict is first stated for what the code
    finds in the texts, then for the blocks and entries themselves. *)

From S2P Require Import Prelude PyStr PyFloat PyVal PyRegex Avocado Logic Lsvpd LsvpdText.
Open Scope Z_scope.

(** ** The values of a block *)

(** Nothing, a text, or several values. *)
Definition plain_value (v : pyval) : Prop := v = VNone ∨ ∃ s, v = VStr s.
Definition block_value (v : pyval) : Prop := plain_value v ∨ ∃ x l, v = VList (x :: l) ∧ plain_value x.
(** A value where none is missing. *)
Definition text_value (v : pyval) : Prop := (∃ s, v = VStr s) ∨ ∃ l, l ≠ [] ∧ v = VList (map VStr l).

(** All values of a dictionary. *)
Definition all_values (P : pyval → Prop) (d : dict pyval) : Prop := ∀ k v, dict_find k d = Some v → P v.

Lemma all_values_put P k v d : P v → all_values P d → all_values P (dict_put k v d).
Proof. intros Hv Hd q u. rewrite dict_find_put. destruct (String.eqb k q); [by intros [= <-]|apply Hd]. Qed.

Lemma text_is_block v : text_value v → block_value v.
Proof.
  intros [[s ->]|(l & Hl & ->)]; [left; right; by eexists|]. destruct l as [|s l]; [done|]. right.
  exists (VStr s), (map VStr l). split; [done|]. right. by eexists.
Qed.

Lemma add_value_blocks k s d : all_values block_value d → all_values block_value (add_value k s d).
Proof.
  intros Hd. unfold add_value. destruct (dict_find k d) as [v|] eqn:E.
  - destruct (Hd k v E) as [Hv|(x & l & -> & Hx)].
    + assert (match v with VList l => dict_put k (VList (l ++ [VStr s])) d | _ => dict_put k (VList [v; VStr s]) d end
              = dict_put k (VList [v; VStr s]) d) as -> by (destruct Hv as [->|[t ->]]; done).
      apply all_values_put; [|done]. right. by exists v, [VStr s].
    + apply all_values_put; [|done]. right. by exists x, (l ++ [VStr s]).
  - apply all_values_put; [|done]. left. right. by eexists.
Qed.

Lemma add_value_texts k s d : all_values text_value d → all_values text_value (add_value k s d).
Proof.
  intros Hd. unfold add_value. destruct (dict_find k d) as [v|] eqn:E.
  - destruct (Hd k v E) as [[t ->]|(l & Hl & ->)]; (apply all_values_put; [|done]); right.
    + by exists [t; s].
    + exists (l ++ [s]). split; [by destruct l|]. by rewrite map_app.
  - apply all_values_put; [|done]. left. by eexists.
Qed.

(** The dictionary of a block as it grows. *)
Lemma block_lines_values block s :
  all_values block_value (bs_data s) → (bs_missing s = [] → all_values text_value (bs_data s)) →
  let s' := foldl block_line s block in
  all_values block_value (bs_data s') ∧ (bs_missing s' = [] → all_values text_value (bs_data s')).
Proof.
  revert s. induction block as [|line block IH]; intros s H1 H2; [done|]. cbn [foldl]. apply IH; unfold block_line;
    destruct (negb _); try done; destruct (py_split_once _) as [|w [|v l]]; try done; cbn [bs_data bs_missing].
  - apply all_values_put; [by left; left|done].
  - by apply add_value_blocks.
  - intros H. by destruct (bs_missing s).
  - intros H. by apply add_value_texts, H2.
Qed.

Lemma no_values P : all_values P [].
Proof. by intros k v. Qed.

(** Every value of a block is one of these; the missing fields can be joined. *)
Lemma parsed_values block : all_values block_value (parse_lsvpd_block block).
Proof.
  unfold parse_lsvpd_block. destruct (block_lines_values block (BlockState [] [])) as [H _]; [apply no_values|intros _; apply no_values|].
  destruct (bs_missing _) as [|m l]; [exact H|]. apply all_values_put; [|exact H]. right. exists (VStr m), (map VStr l). split; [done|].
  right. by eexists.
Qed.

Lemma parsed_missing block v : dict_find "missing_fields" (parse_lsvpd_block block) = Some v → text_value v.
Proof.
  unfold parse_lsvpd_block. destruct (block_lines_values block (BlockState [] [])) as [_ H]; [apply no_values|intros _; apply no_values|].
  destruct (bs_missing _) as [|m l].
  - by apply H.
  - rewrite dict_find_put, String.eqb_refl. intros [= <-]. right. by exists (m :: l).
Qed.

Lemma texts_joined l : results (map (λ x, match x with VStr s => Ret s | _ => raise_ TypeError "sequence item: expected str instance" end) (map VStr l)) = Ret l.
Proof. induction l as [|s l IH]; [done|]. cbn [map results]. by rewrite IH. Qed.

Lemma text_joined v : text_value v → ∃ s, join_of v = Ret s.
Proof.
  unfold join_of. intros [[s ->]|(l & _ & ->)]; cbn [py_iter mbind result_bind].
  - rewrite <- (map_map (λ c, str_of [c]) VStr), texts_joined. by eexists.
  - rewrite texts_joined. by eexists.
Qed.

(** ** One card *)

Definition first_of (v : pyval) : pyval := match v with VList (x :: _) => x | _ => v end.

(** A field without a value that lscfg shows, and one that differs. *)
Definition bare_field (data : dict pyval) (cfg : dict string) (keys : string * string) : bool :=
  match dict_find keys.1 data, dict_find keys.2 cfg with Some v, Some _ => is_None (first_of v) | _, _ => false end.
Definition field_agrees (data : dict pyval) (cfg : dict string) (keys : string * string) : bool :=
  match dict_find keys.1 data, dict_find keys.2 cfg with
  | Some v, Some t => match first_of v with VStr s => String.eqb (py_strip s) (py_strip t) | _ => false end
  | _, _ => true
  end.

Lemma field_validated dev data cfg failures keys : all_values block_value data →
  (bare_field data cfg keys = true ∧ ∃ msg, validate_field dev data cfg failures keys = raise_ AttributeError msg) ∨
  (bare_field data cfg keys = false ∧ ∃ fs, validate_field dev data cfg failures keys = Ret (failures ++ fs) ∧ (fs = [] ↔ field_agrees data cfg keys = true)).
Proof.
  intros Hd. unfold validate_field, bare_field, field_agrees. destruct keys as [k k']. cbn [fst snd].
  destruct (dict_find k data) as [v|] eqn:E; [|right; split; [done|]; exists []; by rewrite app_nil_r].
  destruct (dict_find k' cfg) as [t|]; [|right; split; [done|]; exists []; by rewrite app_nil_r].
  assert (first_value v = Ret (first_of v) ∧ plain_value (first_of v)) as [-> Hv].
  { destruct (Hd k v E) as [[->|[s ->]]|(x & l & -> & Hx)]; cbn; (split; [done|]); [by left|right; by eexists|done]. }
  cbn [mbind result_bind]. destruct Hv as [->|[s ->]]; cbn [text_method is_None]; [left; split; [done|by eexists]|right; split; [done|]].
  cbn [mbind result_bind]. destruct (String.eqb _ _); [exists []; by rewrite app_nil_r|]. by eexists [_].
Qed.

(** The loop over the fields. *)
Lemma fields_validated dev data cfg failures l : all_values block_value data →
  if existsb (bare_field data cfg) l then ∃ msg, fold_result (validate_field dev data cfg) failures l = raise_ AttributeError msg
  else ∃ fs, fold_result (validate_field dev data cfg) failures l = Ret (failures ++ fs) ∧ (fs = [] ↔ forallb (field_agrees data cfg) l = true).
Proof.
  intros Hd. revert failures. induction l as [|keys l IH]; intros failures; cbn [existsb forallb fold_result].
  { exists []. by rewrite app_nil_r. }
  destruct (field_validated dev data cfg failures keys Hd) as [[-> [msg ->]]|[-> (fs & -> & Hfs)]]; cbn [orb mbind result_bind]; [by eexists|].
  specialize (IH (failures ++ fs)). destruct (existsb _ l); [done|]. destruct IH as (gs & -> & Hgs). exists (fs ++ gs).
  split; [by rewrite app_assoc|]. rewrite andb_true_iff, <- Hfs, <- Hgs. split; [apply app_eq_nil|by intros [-> ->]].
Qed.

(** Without a location no block is recorded. *)
Lemma no_locations text : extract_spyre_block text [] = [].
Proof.
  assert (∀ s, process_block [] s = spyre_blocks s) as Hp.
  { intros s. unfold process_block. assert (has_location [] (current_block s) = false) as ->; [|by rewrite andb_false_r].
    unfold has_location. induction (current_block s) as [|l b IH]; [done|]. cbn. by rewrite andb_false_r. }
  unfold extract_spyre_block. rewrite Hp. enough (∀ lines s, spyre_blocks (foldl (spyre_line []) s lines) = spyre_blocks s) as -> by done.
  induction lines as [|line lines IH]; intros s; [done|]. cbn [foldl]. rewrite IH. unfold spyre_line. cbn [spyre_blocks].
  destruct (py_in "*FC" line); [apply Hp|done].
Qed.

(** ** The fields of a printed block *)

(** The values of a field of a block, in their order. *)
Definition values_of (k : string) (b : list vpd_field) : list (option string) := map vf_value (List.filter (λ f, String.eqb (vf_key f) k) b).
Definition lacks_value (v : option string) : bool := match v with None => true | Some _ => false end.

(** What becomes of a further value. *)
Definition keep (u : option pyval) (v : option string) : option pyval :=
  Some match v, u with
       | None, _ => VNone
       | Some s, None => VStr s
       | Some s, Some (VList l) => VList (l ++ [VStr s])
       | Some s, Some u => VList [u; VStr s]
       end.

Lemma field_read s f : wf_field f → block_line s (field_line f) =
  match vf_value f with
  | Some v => BlockState (add_value (vf_key f) v (bs_data s)) (bs_missing s)
  | None => BlockState (dict_put (vf_key f) VNone (bs_data s)) (bs_missing s ++ [vf_key f])
  end.
Proof.
  intros Hf. destruct (field_plain f Hf) as (Hs & He & _). destruct (plain_is_trimmed _ Hs He) as [Ht _].
  destruct (key_cases f Hf) as (a & b & Ek & Hn & Hk). destruct Hf as [_ Hv _].
  assert (no_spaces ["*"%char; a; b]) as Hn' by by constructor.
  assert (Hw : Forall (λ c, negb (is_space c) = true) ["*"%char; a; b]) by (eapply list.Forall_impl; [exact Hn'|]; by intros c ->).
  assert (py_lstrip_of "*" (str_of ["*"%char; a; b]) = str_of [a; b]) as Hl.
  { unfold py_lstrip_of. rewrite chars_of_str_of. f_equal. apply not_elem_of_cons in Hk as [Hk _]. cbn [drop_while]. rewrite Ascii.eqb_refl. by apply Ascii.eqb_neq in Hk as ->. }
  unfold block_line. assert (py_strip (field_line f) = field_line f) as ->.
  { unfold py_strip. by rewrite chars_of_str_of, strip_trimmed. }
  change (py_startswith "*" (field_line f)) with true. cbn [negb]. unfold py_split_once. rewrite chars_of_str_of, drop_while_trimmed by done.
  unfold print_field. rewrite Ek. change (chars_of (String a (String b ""))) with [a; b].
  destruct (vf_value f) as [v|].
  - destruct Hv as (Hvt & Hne & _ & _). change ("*"%char :: [a; b] ++ " "%char :: chars_of v) with (["*"%char; a; b] ++ " "%char :: chars_of v).
    rewrite span_app by done. change (drop_while is_space (" "%char :: chars_of v)) with (drop_while is_space (chars_of v)).
    rewrite drop_while_trimmed by done. destruct (chars_of v) as [|c l] eqn:E; [by destruct v|]. rewrite <- E, str_of_chars_of, Hl.
    unfold py_strip. rewrite strip_trimmed, str_of_chars_of by by rewrite E. done.
  - pose proof (span_app _ ["*"%char; a; b] [] Hw I) as E. rewrite app_nil_r in *. cbn [app] in *. rewrite E. cbn [drop_while]. by rewrite Hl.
Qed.

Lemma fields_read k b s : Forall wf_field b →
  let s' := foldl block_line s (map (λ f, field_line f) b) in
  dict_find k (bs_data s') = foldl keep (dict_find k (bs_data s)) (values_of k b) ∧
  bs_missing s' = bs_missing s ++ map vf_key (List.filter (λ f, lacks_value (vf_value f)) b).
Proof.
  intros H. revert s. induction H as [|f b Hf _ IH]; intros s; [by rewrite app_nil_r|]. cbn [map foldl]. rewrite field_read by done.
  unfold values_of. cbn [List.filter]. specialize (IH (match vf_value f with
    | Some v => BlockState (add_value (vf_key f) v (bs_data s)) (bs_missing s)
    | None => BlockState (dict_put (vf_key f) VNone (bs_data s)) (bs_missing s ++ [vf_key f]) end)) as [-> ->].
  fold (values_of k b). destruct (vf_value f) as [v|] eqn:Ev; cbn [bs_data bs_missing lacks_value].
  - split; [|done]. unfold add_value. destruct (String.eqb_spec (vf_key f) k) as [<-|Hk].
    + cbn [map foldl]. fold (values_of (vf_key f) b). rewrite Ev. f_equal. destruct (dict_find (vf_key f) (bs_data s)) as [u|];
        [destruct u|]; by rewrite dict_find_put, String.eqb_refl.
    + apply String.eqb_neq in Hk. destruct (dict_find (vf_key f) (bs_data s)) as [u|]; [destruct u|]; by rewrite dict_find_put, Hk.
  - split; [|by rewrite <- app_assoc]. rewrite dict_find_put. destruct (String.eqb (vf_key f) k); [|done]. cbn [map foldl]. by rewrite Ev.
Qed.

(** The first value that is kept: None when one is missing. *)
Lemma first_kept v l : ∃ u, foldl keep None (v :: l) = Some u ∧ block_value u ∧
  first_of u = if existsb lacks_value (v :: l) then VNone else match v with Some s => VStr s | None => VNone end.
Proof.
  induction l as [|[s|] l IH] using rev_ind.
  - destruct v as [s|]; eexists; (split; [done|]); (split; [|done]); left; [right; by eexists|by left].
  - destruct IH as (u & E & Hu & Hf). change (v :: l ++ [Some s]) with ((v :: l) ++ [Some s]). rewrite foldl_app, existsb_app, E.
    change (existsb lacks_value [Some s]) with false. rewrite orb_false_r, <- Hf. destruct Hu as [Hp|(y & k & -> & Hy)].
    + exists (VList [u; VStr s]). assert (first_of u = u) as -> by (by destruct Hp as [->|[t ->]]). split; [by destruct Hp as [->|[t ->]]|].
      split; [|done]. right. by exists u, [VStr s].
    + exists (VList (y :: k ++ [VStr s])). split; [done|]. split; [|done]. right. by eexists _, _.
  - destruct IH as (u & E & _). change (v :: l ++ [None]) with ((v :: l) ++ [None]). rewrite foldl_app, existsb_app, E. exists VNone.
    split; [done|]. split; [left; by left|]. cbn [existsb lacks_value]. by rewrite orb_true_r.
Qed.

Lemma parsed_field b k : Forall wf_field b → k ≠ "missing_fields"%string →
  dict_find k (parse_lsvpd_block (map (λ f, field_line f) b)) = foldl keep None (values_of k b).
Proof.
  intros Hb Hk. unfold parse_lsvpd_block. destruct (fields_read k b (BlockState [] []) Hb) as [E _]. cbn [bs_data dict_find] in E. rewrite <- E.
  destruct (bs_missing _); [done|]. rewrite dict_find_put. by destruct (String.eqb_spec "missing_fields" k) as [<-|].
Qed.

Lemma parsed_complete b : Forall wf_field b →
  bool_decide (dict_find "missing_fields" (parse_lsvpd_block (map (λ f, field_line f) b)) = None) = negb (existsb (λ f, lacks_value (vf_value f)) b).
Proof.
  intros Hb. unfold parse_lsvpd_block. destruct (fields_read "missing_fields" b (BlockState [] []) Hb) as [E1 ->]. cbn [bs_missing app].
  destruct (existsb (λ f, lacks_value (vf_value f)) b) eqn:E.
  - apply existsb_exists in E as (f & Hf & Hv). destruct (List.filter (λ f, lacks_value (vf_value f)) b) as [|g l] eqn:Eg.
    + assert (In f []) as [] by (rewrite <- Eg; by apply filter_In).
    + cbn [map]. apply bool_decide_eq_false_2. by rewrite dict_find_put.
  - assert (List.filter (λ f, lacks_value (vf_value f)) b = []) as ->.
    { clear -E. induction b as [|f b IH]; [done|]. cbn in *. apply orb_false_iff in E as [-> E]. by apply IH. }
    cbn [map]. apply bool_decide_eq_true_2. rewrite E1. assert (values_of "missing_fields" b = []) as ->; [|done].
    unfold values_of. clear -Hb. induction Hb as [|f b Hf _ IH]; [done|]. cbn [List.filter].
    destruct (String.eqb_spec (vf_key f) "missing_fields") as [E|]; [|exact IH]. by destruct (key_cases f Hf) as (c & d & Ek & _); rewrite Ek in E.
Qed.

(** ** The machine *)

(** What the tools print is given as the fields of the blocks of lsvpd and the entries of lscfg. *)
Class SpyreMachine (W : Type) `{HE : Env W, HL : LsvpdLib W} := {
  sm_ok : W → Prop;
  sm_devices : list string;
  sm_class : string → result pyval;             (* the class name, or what asking for it raises *)
  sm_head : list vpd_field;                     (* before the first block *)
  sm_blocks : list vpd_block;
  sm_entries : string → list cfg_entry;
  sm_head_wf : Forall wf_field sm_head ∧ Forall (λ f, vf_key f ≠ "FC"%string) sm_head;
  sm_blocks_wf : Forall wf_block sm_blocks;
  sm_entries_wf dev : dev ∈ sm_devices → Forall wf_entry (sm_entries dev);
  sm_location dev v : dev ∈ sm_devices → cfg_value (sm_entries dev) "YL" = Some v → "*"%char ∉ chars_of v;
  sm_update : ∀ w, sm_ok w → ∃ r w', env_run "vpdupdate" [IgnoreStatus; Sudo; Shell] w = (Ret r, w') ∧ sm_ok w';
  sm_list : ∀ w, sm_ok w →
    ∃ w', env_system_output "lsvpd" [Shell; IgnoreStatus; Sudo] w = (Ret (vpd_listing sm_head sm_blocks), w') ∧ sm_ok w';
  sm_config : ∀ dev w, dev ∈ sm_devices → sm_ok w →
    ∃ w', env_system_output ("lscfg -vl " +:+ dev) [Shell; IgnoreStatus; Sudo] w = (Ret (cfg_listing (sm_entries dev)), w') ∧ sm_ok w';
  sm_addresses : ∀ w, sm_ok w → ∃ w', ls_addresses w = (Ret (Some sm_devices), w') ∧ sm_ok w';
  sm_class_name : ∀ dev w, dev ∈ sm_devices → sm_ok w → ∃ w', ls_class_name dev w = (sm_class dev, w') ∧ sm_ok w';
}.

Section machine.
Context {W : Type} {HE : Env W} {HL : LsvpdLib W} {HM : SpyreMachine W}.

(** *** What the test should say *)

(** The cards: the accelerators for which lscfg shows a location. *)
Definition card_location (dev : string) : option string :=
  match sm_class dev with
  | Ret c => if py_eq c (VStr "accelerator") then cfg_value (sm_entries dev) "YL" else None
  | Raise _ => None
  end.
Definition is_card (dev : string) : bool := bool_decide (is_Some (card_location dev)).
Definition cards : list string := List.filter is_card sm_devices.
Definition locations : list string := omap card_location sm_devices.

(** The block of a card: the last one that gives its address and the location of a card. *)
Definition card_block (dev : string) : option (list vpd_field) := block_for locations dev (sm_head :: map block_fields sm_blocks).

(** The letters of a field, and the name under which lscfg shows it. *)
Definition shown_as : list (string * string) :=
  [("TM", "Machine Type-Model"); ("MF", "Manufacturer Name"); ("PN", "Part Number of assembly"); ("SN", "Serial Number");
   ("FN", "Field Replaceable Unit Number"); ("EC", "Engineering Change Level"); ("RL", "Non-alterable ROM level");
   ("CC", "CC"); ("YC", "YC"); ("YL", "YL")]%string.

(** A field without a value that lscfg shows; a first value that is the one lscfg shows. *)
Definition shown_bare (b : list vpd_field) (dev : string) (keys : string * string) : bool :=
  existsb lacks_value (values_of keys.1 b) && bool_decide (is_Some (cfg_value (sm_entries dev) keys.2)).
Definition shown_same (b : list vpd_field) (dev : string) (keys : string * string) : bool :=
  match values_of keys.1 b, cfg_value (sm_entries dev) keys.2 with Some v :: _, Some t => String.eqb v t | _, _ => true end.

(** A card whose block has a field of the first kind; a card whose block has a value for each of its
    fields, and the fields are of the second kind. *)
Definition card_bare (dev : string) : bool :=
  match card_block dev with Some b => existsb (shown_bare b dev) shown_as | None => false end.
Definition card_good (dev : string) : bool :=
  match card_block dev with
  | Some b => negb (existsb (λ f, lacks_value (vf_value f)) b) && forallb (shown_same b dev) shown_as
  | None => false
  end.

(** *** What the code computes *)

Definition config_of (dev : string) : dict string := cfg_fields (sm_entries dev).
Definition blocks_found : dict (list string) := extract_spyre_block (py_strip (vpd_listing sm_head sm_blocks)) locations.
Definition found_bare (dev : string) : bool :=
  match dict_find dev blocks_found with
  | Some block => existsb (bare_field (parse_lsvpd_block block) (config_of dev)) validations
  | None => false
  end.
Definition found_good (dev : string) : bool :=
  match dict_find dev blocks_found with
  | Some block =>
      let data := parse_lsvpd_block block in
      bool_decide (dict_find "missing_fields" data = None) && forallb (field_agrees data (config_of dev)) validations
  | None => false
  end.

Lemma run_out cmd text w x : (∃ w', env_system_output cmd [Shell; IgnoreStatus; Sudo] w = (Ret text, w') ∧ sm_ok w') →
  ∃ w', runs (run_cmd_out cmd) w x (Ret (py_strip text)) w' x ∧ sm_ok w'.
Proof.
  intros (w' & E & Hok). exists w'. split; [|done]. unfold run_cmd_out. run_by runs_ext; [exact E|]. apply runs_ret.
Qed.

Lemma vpdupdate_runs w x : sm_ok w → ∃ w' x', runs (run_cmd "vpdupdate") w x (Ret ()) w' x' ∧ sm_ok w'.
Proof.
  intros (r & w' & E & Hok)%sm_update. unfold run_cmd. destruct (exit_status r =? 0) eqn:Er.
  - exists w', x. split; [|done]. run_by runs_ext; [exact E|]. rewrite Er. apply runs_when_false.
  - eexists w', _. split; [|done]. run_by runs_ext; [exact E|]. rewrite Er. cbn [negb when]. run.
Qed.

Lemma addresses_run w x : sm_ok w → ∃ w', runs pci_addresses w x (Ret sm_devices) w' x ∧ sm_ok w'.
Proof. intros (w' & E & Hok)%sm_addresses. exists w'. split; [|done]. unfold pci_addresses. run_by runs_ext; [exact E|]. apply runs_ret. Qed.

Lemma spyre_device_runs codes devs dev w x : dev ∈ sm_devices → sm_ok w →
  ∃ w', runs (spyre_device (codes, devs) dev) w x
    (Ret (codes ++ match card_location dev with Some yl => [yl] | None => [] end, devs ++ if is_card dev then [dev] else [])) w' x ∧ sm_ok w'.
Proof.
  intros Hdev Hok. destruct (sm_class_name dev w Hdev Hok) as (w1 & E1 & Hok1). unfold spyre_device, is_card, card_location.
  destruct (sm_class dev) as [c|e].
  - destruct (py_eq c (VStr "accelerator")) eqn:Ec.
    + destruct (run_out ("lscfg -vl " +:+ dev) (cfg_listing (sm_entries dev)) w1 x (sm_config dev w1 Hdev Hok1)) as (w2 & R2 & Hok2). exists w2. split; [|done].
      apply runs_try_ret. run_by runs_ext; [exact E1|]. rewrite Ec. run_by R2. rewrite lscfg_parsed, cfg_find by by apply sm_entries_wf.
      destruct (cfg_value (sm_entries dev) "YL"); cbn [fst snd]; [|rewrite !app_nil_r]; apply runs_ret.
    + exists w1. split; [|done]. apply runs_try_ret. run_by runs_ext; [exact E1|]. rewrite Ec. cbn. rewrite !app_nil_r. apply runs_ret.
  - exists w1. split; [|done]. eapply runs_try_raise; [eapply runs_bind_raise, runs_ext; exact E1|done|]. cbn. rewrite !app_nil_r. run.
Qed.

Lemma devices_run w x : sm_ok w →
  ∃ w', runs (for_acc sm_devices ([], []) spyre_device) w x (Ret (locations, cards)) w' x ∧ sm_ok w'.
Proof.
  intros Hok. destruct (runs_for_acc sm_devices spyre_device
    (λ done b w y, b = (omap card_location done, List.filter is_card done) ∧ y = x ∧ sm_ok w) ([], []) w x) as (b & w' & x' & R & -> & -> & Hok').
  - intros done dev todo b w1 y E (-> & -> & Hok1).
    destruct (spyre_device_runs (omap card_location done) (List.filter is_card done) dev w1 x) as (w2 & R2 & Hok2); [|done|].
    { rewrite E. apply elem_of_app. right. left. }
    eexists _, w2, x. split; [exact R2|]. split_and!; [|done|done]. rewrite omap_app, filter_app. cbn. by destruct (card_location dev), (is_card dev).
  - done.
  - by exists w'.
Qed.

(** What a step or a loop over cards does: AttributeError, or further failures. *)
Definition validates (m : M W ls_self (list string)) (failures : list string) (bare good : bool) (w : W) (x : ls_self) : Prop :=
  if bare then ∃ msg w', runs m w x (raise_ AttributeError msg) w' x
  else ∃ fs w', runs m w x (Ret (failures ++ fs)) w' x ∧ sm_ok w' ∧ (fs = [] ↔ good = true).

Lemma card_validated failures dev w x : dev ∈ sm_devices → sm_ok w →
  validates (validate_device blocks_found failures dev) failures (found_bare dev) (found_good dev) w x.
Proof.
  intros Hdev Hok. unfold validates, validate_device, found_bare, found_good. destruct (dict_find dev blocks_found) as [block|].
  2: { eexists [_], w. split_and!; [apply runs_ret|done|done]. }
  pose proof (parsed_values block) as Hv. set (data := parse_lsvpd_block block) in *.
  assert (∃ ms, (match dict_find "missing_fields" data with
                 | Some v => missing ← join_of v; Ret (failures ++ [dev +:+ ": lsvpd fields missing values: " +:+ missing])
                 | None => Ret failures
                 end) = Ret (failures ++ ms) ∧ (ms = [] ↔ dict_find "missing_fields" data = None)) as (ms & E & Hms).
  { destruct (dict_find "missing_fields" data) as [v|] eqn:Ev; [|exists []; by rewrite app_nil_r].
    apply parsed_missing, text_joined in Ev as [s ->]. by eexists [_]. }
  destruct (run_out ("lscfg -vl " +:+ dev) (cfg_listing (sm_entries dev)) w x (sm_config dev w Hdev Hok)) as (w2 & R2 & Hok2).
  pose proof (fields_validated dev data (config_of dev) (failures ++ ms) validations Hv) as Hf.
  destruct (existsb (bare_field data (config_of dev)) validations).
  - destruct Hf as [msg Hf]. exists msg, w2. rewrite E. run_step. run_by R2. rewrite lscfg_parsed by by apply sm_entries_wf. fold (config_of dev). rewrite Hf. apply runs_lift.
  - destruct Hf as (fs & Hf & Hfs). exists (ms ++ fs), w2. split_and!; [|done|].
    + rewrite E. run_step. run_by R2. rewrite lscfg_parsed by by apply sm_entries_wf. fold (config_of dev). rewrite Hf, app_assoc. apply runs_lift.
    + rewrite andb_true_iff, <- Hfs, bool_decide_eq_true, <- Hms. split; [apply app_eq_nil|by intros [-> ->]].
Qed.

Lemma cards_validated l failures w x : (∀ dev, dev ∈ l → dev ∈ sm_devices) → sm_ok w →
  validates (for_acc l failures (validate_device blocks_found)) failures (existsb found_bare l) (forallb found_good l) w x.
Proof.
  unfold validates. revert failures w. induction l as [|dev l IH]; intros failures w Hl Hok; cbn [existsb forallb for_acc].
  { exists [], w. rewrite app_nil_r. split_and!; [apply runs_ret|done|done]. }
  assert (Hc := card_validated failures dev w x (Hl dev ltac:(left)) Hok). unfold validates in Hc. destruct (found_bare dev); cbn [orb].
  { destruct Hc as (msg & w1 & R1). exists msg, w1. by apply runs_bind_raise. }
  destruct Hc as (fs & w1 & R1 & Hok1 & Hfs).
  assert (Hl' : ∀ d, d ∈ l → d ∈ sm_devices) by (intros d Hd; apply Hl; by right). specialize (IH (failures ++ fs) w1 Hl' Hok1).
  destruct (existsb found_bare l).
  - destruct IH as (msg & w2 & R2). exists msg, w2. run_by R1. exact R2.
  - destruct IH as (gs & w2 & R2 & Hok2 & Hgs). exists (fs ++ gs), w2. split_and!; [|done|].
    + run_by R1. rewrite app_assoc. exact R2.
    + rewrite andb_true_iff, <- Hfs, <- Hgs. split; [apply app_eq_nil|by intros [-> ->]].
Qed.

Lemma cards_devices dev : dev ∈ cards → dev ∈ sm_devices.
Proof. unfold cards. intros H. apply list_elem_of_In, filter_In in H as [H _]. by apply list_elem_of_In. Qed.

Lemma good_has_blocks dev : found_good dev = true → blocks_found ≠ [].
Proof. unfold found_good. intros H E. by rewrite E in H. Qed.

Lemma no_cards_no_blocks : cards = [] → blocks_found = [].
Proof.
  intros H. unfold blocks_found. assert (locations = []) as ->.
  { unfold locations. unfold cards, is_card in H. induction sm_devices as [|d l IH]; [done|]. cbn in *. destruct (card_location d); [done|]. by apply IH. }
  apply no_locations.
Qed.

(** The verdict in terms of what the code computes. *)
Lemma spyre_runs w x : sm_ok w → ∃ r w' x', runs test_spyre_lsvpd_validation w x r w' x' ∧
  verdict_of r = if existsb found_bare cards then ERROR
                 else if negb (bool_decide (cards = [])) && forallb found_good cards then PASS else FAIL.
Proof.
  intros Hok. destruct (vpdupdate_runs w x Hok) as (w1 & x1 & R1 & Hok1). destruct (run_out "lsvpd" (vpd_listing sm_head sm_blocks) w1 x1 (sm_list w1 Hok1)) as (w2 & R2 & Hok2).
  destruct (addresses_run w2 x1 Hok2) as (w3 & R3 & Hok3). destruct (devices_run w3 x1 Hok3) as (w4 & R4 & Hok4).
  set (failures := if bool_decide (blocks_found = []) then ["No lsvpd entry found for the Spyre card(s)."]%string else []).
  pose proof (cards_validated cards failures w4 x1 cards_devices Hok4) as Hv. unfold validates in Hv.
  unfold test_spyre_lsvpd_validation. destruct (existsb found_bare cards).
  - destruct Hv as (msg & w5 & R5). eexists (raise_ AttributeError msg), w5, x1. split; [|done].
    run_by R1. run_by R2. run_by R3. run_by R4. fold blocks_found failures. eapply runs_bind_raise. exact R5.
  - destruct Hv as (fs & w5 & R5 & _ & Hfs).
    exists (if bool_decide (failures ++ fs = []) then Ret () else raise_ TestFail ("Spyre device validation failed:" +:+ NL +:+ py_join NL (failures ++ fs))), w5, x1. split.
    + run_by R1. run_by R2. run_by R3. run_by R4. fold blocks_found failures. run_by R5.
      destruct (bool_decide (failures ++ fs = [])); cbn [negb when]; run_leaf.
    + assert (bool_decide (failures ++ fs = []) = negb (bool_decide (cards = [])) && forallb found_good cards) as ->; [|by destruct (_ && _)].
      apply eq_true_iff_eq. rewrite bool_decide_eq_true, andb_true_iff, negb_true_iff, bool_decide_eq_false, <- Hfs. subst failures. split.
      * intros [H1 H2]%app_eq_nil. split; [|done]. intros Hc%no_cards_no_blocks. by rewrite bool_decide_true in H1.
      * intros [Hc Hf]. rewrite Hf, app_nil_r. apply Hfs in Hf. destruct cards as [|dev l]; [done|]. apply andb_prop in Hf as [Hg%good_has_blocks _].
        by rewrite bool_decide_false.
Qed.
(** *** The two agree *)

Lemma locations_plain : Forall (λ c, "*"%char ∉ chars_of c) locations.
Proof.
  unfold locations, card_location. apply list.Forall_forall. intros c (dev & Hdev & Hc)%list_elem_of_omap. destruct (sm_class dev); [|done].
  destruct (py_eq _ _); [|done]. by eapply sm_location.
Qed.

Lemma found_block dev : dict_find dev blocks_found = map (λ f, field_line f) <$> card_block dev.
Proof. destruct sm_head_wf. apply block_in_listing; [done..|apply sm_blocks_wf|apply locations_plain]. Qed.

Lemma card_block_wf dev b : card_block dev = Some b → Forall wf_field b.
Proof.
  intros H%last_opt_elem. apply list_elem_of_In, filter_In in H as [H%list_elem_of_In _]. apply elem_of_cons in H as [->|H]; [apply sm_head_wf|].
  apply list_elem_of_In, in_map_iff in H as (k & <- & Hk%list_elem_of_In). eapply list.Forall_forall in Hk; [|apply sm_blocks_wf]. apply Hk.
Qed.

Lemma keys_listed keys : keys ∈ shown_as → keys.1 ≠ "missing_fields"%string.
Proof.
  assert (Forall (λ keys, keys.1 ≠ "missing_fields"%string) shown_as) as H by by apply (bool_decide_eq_true_1 _).
  intros Hk. by eapply list.Forall_forall in H.
Qed.

Lemma bare_found b dev keys : Forall wf_field b → keys ∈ shown_as →
  bare_field (parse_lsvpd_block (map (λ f, field_line f) b)) (config_of dev) keys = shown_bare b dev keys.
Proof.
  intros Hb Hk%keys_listed. unfold bare_field, shown_bare, config_of. rewrite cfg_find, parsed_field by done.
  destruct (values_of keys.1 b) as [|v l]; [done|]. destruct (first_kept v l) as (u & -> & _ & ->).
  destruct (cfg_value (sm_entries dev) keys.2); [rewrite bool_decide_eq_true_2, andb_true_r by done|by rewrite bool_decide_eq_false_2, andb_false_r by apply is_Some_None].
  destruct (existsb lacks_value (v :: l)) eqn:E; [done|]. by destruct v.
Qed.

Lemma value_trimmed dev b k v l name t : dev ∈ sm_devices → Forall wf_field b → values_of k b = Some v :: l → cfg_value (sm_entries dev) name = Some t →
  py_strip v = v ∧ py_strip t = t.
Proof.
  intros Hdev Hb Hv Ht. assert (trimmed is_space (chars_of v) ∧ trimmed is_space (chars_of t)) as [H1 H2].
  2: { unfold py_strip. by rewrite !strip_trimmed, !str_of_chars_of. }
  split.
  - assert (In (Some v) (values_of k b)) as H by (rewrite Hv; by left). apply in_map_iff in H as (f & Ef & [Hf%list_elem_of_In _]%filter_In).
    eapply list.Forall_forall in Hb; [|exact Hf]. destruct Hb as [_ Hw _]. rewrite Ef in Hw. apply Hw.
  - apply last_opt_elem, list_elem_of_In, in_map_iff in Ht as (e & <- & [He%list_elem_of_In _]%filter_In).
    pose proof (sm_entries_wf dev Hdev) as Hw. eapply list.Forall_forall in Hw; [|exact He]. rewrite chars_of_str_of. by apply plain_is_trimmed; apply Hw.
Qed.

Lemma agrees_found b dev keys : dev ∈ sm_devices → Forall wf_field b → keys ∈ shown_as → existsb (λ f, lacks_value (vf_value f)) b = false →
  field_agrees (parse_lsvpd_block (map (λ f, field_line f) b)) (config_of dev) keys = shown_same b dev keys.
Proof.
  intros Hdev Hb Hk%keys_listed Hm. unfold field_agrees, shown_same, config_of. rewrite cfg_find, parsed_field by done.
  assert (existsb lacks_value (values_of keys.1 b) = false) as Hl.
  { apply not_true_iff_false. intros (v & (f & <- & [Hf _]%filter_In)%in_map_iff & Hv)%existsb_exists. apply not_true_iff_false in Hm. apply Hm, existsb_exists. by exists f. }
  destruct (values_of keys.1 b) as [|v l] eqn:Ev; [done|]. destruct (first_kept v l) as (u & -> & _ & ->). rewrite Hl.
  destruct v as [v|]; [|done]. destruct (cfg_value (sm_entries dev) keys.2) as [t|] eqn:Et; [|done].
  by destruct (value_trimmed dev b keys.1 v l keys.2 t Hdev Hb Ev Et) as [-> ->].
Qed.

Lemma card_bare_found dev : found_bare dev = card_bare dev.
Proof.
  unfold found_bare, card_bare. rewrite found_block. destruct (card_block dev) as [b|] eqn:E; [|done]. cbn [fmap option_fmap option_map].
  change validations with shown_as. apply existsb_same. intros keys Hk. by apply bare_found, Hk; eapply card_block_wf.
Qed.

Lemma card_good_found dev : dev ∈ sm_devices → found_good dev = card_good dev.
Proof.
  intros Hdev. unfold found_good, card_good. rewrite found_block. destruct (card_block dev) as [b|] eqn:E; [|done]. cbn [fmap option_fmap option_map].
  pose proof (card_block_wf _ _ E) as Hb. cbv zeta. rewrite parsed_complete by done. destruct (existsb (λ f, lacks_value (vf_value f)) b) eqn:Em; [done|]. cbn [negb andb].
  change validations with shown_as. apply forallb_same. intros keys Hk. by apply agrees_found.
Qed.

(** C33: the test of the Spyre cards, where lsvpd and lscfg print their blocks and fields in their
    formats.  A card is an accelerator for which lscfg shows a location; its block is the last one of
    lsvpd whose first PCI address is its own and which gives the location of a card.  The test ends
    with an error (AttributeError) when a field of such a block has no value where lscfg shows one;
    otherwise it passes exactly when there is a card and every card has a block, in which every
    field has a value, and the first value of each of the ten fields that are compared is the one that lscfg
    shows, if it shows it; and it fails in all other cases. *)
Theorem spyre_verdict w x : sm_ok w → ∃ r w' x', runs test_spyre_lsvpd_validation w x r w' x' ∧
  verdict_of r = if existsb card_bare cards then ERROR
                 else if negb (bool_decide (cards = [])) && forallb card_good cards then PASS else FAIL.
Proof.
  intros Hok. destruct (spyre_runs w x Hok) as (r & w' & x' & H & E). exists r, w', x'. split; [exact H|]. rewrite E.
  rewrite (existsb_same _ card_bare) by (intros dev _; apply card_bare_found).
  by rewrite (forallb_same _ card_good) by (intros dev Hdev; by apply card_good_found, cards_devices).
Qed.
End machine.
