(* ===== verification/LsvpdPci.v ===== *)
(** * The test of PCI devices with lsvpd

    On a machine whose sources do not change while the test runs ([PciMachine]), the errors of
    the test are exactly the disagreements between lsvpd and the system, device by device. *)

From S2P Require Import Prelude PyStr PyFloat PyVal PyRegex Avocado Logic Lsvpd.
Open Scope Z_scope.

(** ** Identifiers *)

(** An identifier: hexadecimal digits. *)
Definition wf_id (s : string) : Prop := chars_of s ≠ [] ∧ Forall (λ c, is_hex c = true) (chars_of s).
Definition wf_ids (i : pci_ids) : Prop := wf_id (id_vendor i) ∧ wf_id (id_device i) ∧ wf_id (id_subvendor i) ∧ wf_id (id_subdevice i).

Definition pair_chars (a b : string) : chars := "("%char :: chars_of a ++ ","%char :: chars_of b ++ [")"%char].
Definition print_ids (i : pci_ids) : string :=
  str_of (pair_chars (id_vendor i) (id_device i) ++ ","%char :: " "%char :: pair_chars (id_subvendor i) (id_subdevice i)).

Lemma hex_not d c : is_hex d = false → is_hex c = true → Ascii.eqb c d = false.
Proof. intros Hd Hc. apply Ascii.eqb_neq. intros ->. by rewrite Hc in Hd. Qed.

Lemma hex_space c : is_hex c = true → is_space c = false.
Proof.
  unfold is_hex. intros H. destruct (is_digit c) eqn:Hd; [by apply digit_not_space|]. cbn [orb] in H.
  unfold is_space. bool_to_Z. apply orb_false_iff; split; apply andb_false_iff; rewrite !Z.leb_gt; apply orb_prop in H as [H|H]; bool_to_Z; lia.
Qed.

Lemma id_trimmed s : wf_id s → trimmed is_space (chars_of s) ∧ chars_of s ≠ [].
Proof.
  intros [Hne H]. split; [|done]. rewrite list.Forall_forall in H. split.
  - destruct (chars_of s) as [|c l]; [done|]. apply hex_space, H. left.
  - destruct (last_opt (chars_of s)) as [c|] eqn:E; [|done]. apply hex_space, H. by apply last_opt_elem.
Qed.

Lemma strip_id s : wf_id s → py_strip s = s.
Proof. intros [Ht _]%id_trimmed. unfold py_strip. by rewrite strip_trimmed, str_of_chars_of. Qed.

Lemma not_among d s : is_hex d = false → wf_id s → Forall (λ c, negb (bool_decide (c ∈ [d])) = true) (chars_of s).
Proof.
  intros Hd [_ H]. eapply list.Forall_impl; [exact H|]. intros c Hc. apply negb_true_iff, bool_decide_eq_false.
  intros ->%list_elem_of_singleton. by rewrite Hc in Hd.
Qed.

Lemma text_read b full w l b' : full = w ++ l → text_between (Pos b full) (Pos b' l) = w.
Proof. intros ->. apply text_between_app. Qed.

(** One pair is matched, with its two parts. *)
Lemma pair_matched a v r b : wf_id a → wf_id v →
  match_at false vpd_id_pattern (Pos b (pair_chars a v ++ r)) =
  Some (RMatch (pair_chars a v) [(2%nat, chars_of v); (1%nat, chars_of a)] (Pos (Some ")"%char) r)).
Proof.
  intros Ha Hv. pose proof (not_among "," a eq_refl Ha) as Fa. pose proof (not_among ")" v eq_refl Hv) as Fv.
  destruct Ha as [Na _], Hv as [Nv _]. unfold match_at, vpd_id_pattern, pair_chars, none_of. cbn [app].
  rewrite run_seq, run_char, run_seq, run_group, <- app_assoc. cbn [app].
  destruct (chars_of a) as [|c l]; [done|]. destruct (chars_of v) as [|d k]; [done|].
  apply run_plus_class; [exact Fa|done|]. rewrite run_seq, run_char, run_seq, run_group, <- app_assoc. cbn [app].
  apply run_plus_class; [exact Fv|done|]. rewrite run_char. f_equal.
  f_equal; [|repeat f_equal]; (apply text_read; cbn [app]; try done). rewrite <- !app_assoc. cbn [app]. by rewrite <- !app_assoc.
Qed.

Lemma no_pair b l : match l with c :: _ => Ascii.eqb "(" c = false | [] => True end → match_at false vpd_id_pattern (Pos b l) = None.
Proof. intros H. unfold match_at, vpd_id_pattern. rewrite run_seq. apply run_class_no. by destruct l. Qed.

Lemma pair_end a v : last_opt (pair_chars a v) = Some ")"%char.
Proof.
  unfold pair_chars. change ("("%char :: chars_of a ++ ","%char :: chars_of v ++ [")"%char]) with (("("%char :: chars_of a) ++ (","%char :: chars_of v) ++ [")"%char]).
  by rewrite app_assoc, last_opt_snoc.
Qed.

(** The fields of a VPD are read back. *)
Lemma ids_read i : wf_ids i → vpd_ids (py_strip (print_ids i)) = Ret i.
Proof.
  intros (H1 & H2 & H3 & H4). destruct i as [v d sv sd]. cbn [id_vendor id_device id_subvendor id_subdevice] in *.
  set (t := ","%char :: " "%char :: pair_chars sv sd).
  assert (py_strip (print_ids (Ids v d sv sd)) = str_of (pair_chars v d ++ t)) as ->.
  { unfold py_strip, print_ids. cbn [id_vendor id_device id_subvendor id_subdevice]. fold t. rewrite chars_of_str_of, strip_trimmed; [done|].
    split; [done|]. subst t. rewrite last_opt_app by done. change (","%char :: " "%char :: ?l) with ([","; " "]%char ++ l).
    by rewrite last_opt_app, pair_end. }
  unfold vpd_ids, re_findall, start. rewrite chars_of_str_of. cbn [rest].
  assert (∃ f, length (pair_chars v d ++ t) = S (S (S (S f)))) as [f ->].
  { exists (length (pair_chars v d ++ t) - 4)%nat. rewrite length_app. unfold t, pair_chars. cbn [length]. rewrite !length_app. cbn [length].
    rewrite !length_app. cbn [length]. lia. }
  cbn [find_from]. rewrite (pair_matched v d t None) by done. cbn [m_end rest].
  assert (Nat.ltb (length t) (length (pair_chars v d ++ t)) = true) as ->
    by (apply Nat.ltb_lt; rewrite length_app; unfold pair_chars; cbn [length]; lia).
  subst t. rewrite no_pair by done. cbn [step rest]. rewrite no_pair by done. cbn [step rest].
  rewrite <- (app_nil_r (pair_chars sv sd)) at 1. rewrite (pair_matched sv sd []) by done.
  cbn [m_end rest length]. rewrite no_pair by done. cbn [step rest]. change (Nat.ltb 0 (length (pair_chars sv sd))) with true. cbv iota.
  unfold m_group. cbn [m_groups group_chars Nat.eqb]. by rewrite !str_of_chars_of, !strip_id by done.
Qed.

Lemma replace_absent f l : Forall (λ c, is_hex c = true) l → replace_chars f (chars_of "0x") [] l = l.
Proof.
  intros H. revert f. induction H as [|c l Hc H IH]; intros [|f]; try done. cbn [replace_chars].
  assert (drop_prefix (chars_of "0x") (c :: l) = None) as ->; [|by rewrite IH].
  change (chars_of "0x") with ["0"; "x"]%char. cbn [drop_prefix]. destruct (Ascii.eqb "0" c); [|done]. destruct H as [|d l Hd H]; [done|].
  by rewrite Ascii.eqb_sym, (hex_not "x").
Qed.

(** What sysfs prints for an identifier. *)
Lemma sysfs_read s : wf_id s → py_replace "0x" "" (py_strip ("0x" +:+ s +:+ NL)) = s.
Proof.
  intros H. destruct (id_trimmed s H) as [[_ Ht] Hne].
  assert (py_strip ("0x" +:+ s +:+ NL) = "0x" +:+ s) as ->.
  { unfold py_strip. apply chars_of_inj. rewrite chars_of_str_of, !chars_of_app, app_assoc, <- (app_nil_l (_ ++ chars_of NL)).
    apply strip_padded; [constructor|by repeat constructor|split; [done|]|done]. by rewrite last_opt_app. }
  unfold py_replace. rewrite chars_of_app. change (chars_of "") with (@nil ascii).
  assert (∀ l, replace_chars (length (chars_of "0x" ++ l)) (chars_of "0x") [] (chars_of "0x" ++ l) = replace_chars (S (length l)) (chars_of "0x") [] l) as -> by done.
  rewrite replace_absent by apply H. apply str_of_chars_of.
Qed.

(** ** Slots *)

Lemma drop_prefix_some l m r : drop_prefix l m = Some r ↔ m = l ++ r.
Proof.
  split; [|intros ->; apply drop_prefix_app]. revert m. induction l as [|c l IH]; intros m; cbn; [by intros [= ->]|].
  destruct m as [|d m]; [done|]. destruct (Ascii.eqb_spec c d) as [->|]; [|done]. intros H. by rewrite (IH m H).
Qed.

Lemma before_last_app c l part : forallb (λ d, negb (Ascii.eqb c d)) part = true → before_last c (str_of (l ++ c :: part)) = str_of l.
Proof.
  intros H. unfold before_last. rewrite chars_of_str_of, rev_app_distr. cbn [rev]. rewrite <- app_assoc. cbn [app].
  rewrite span_app; [by rewrite rev_involutive| |by rewrite Ascii.eqb_refl].
  apply Forall_forall. intros d Hd. apply (proj1 (forallb_forall _ _) H). by apply in_rev.
Qed.

(** A text with a dash ends with a part without one. *)
Lemma last_part c l : c ∈ l → ∃ l1 part, l = l1 ++ c :: part ∧ forallb (λ d, negb (Ascii.eqb c d)) part = true.
Proof.
  induction l as [|d l IH] using rev_ind; [by intros ?%not_elem_of_nil|]. destruct (Ascii.eqb_spec c d) as [->|Hd]; [by exists l, []|].
  intros [H| ->%list_elem_of_singleton]%elem_of_app; [|done]. destruct (IH H) as (l1 & part & -> & Hp). exists l1, (part ++ [d]).
  rewrite <- app_assoc. split; [done|]. rewrite forallb_app, Hp. cbn. by apply Ascii.eqb_neq in Hd as ->.
Qed.

(** ** The machine *)

(** A device: what lsvpd shows of it (perhaps nothing, perhaps no slot), its slot and its
    identifiers in sysfs, and whether its configuration space can be read. *)
Record pci_device := Device {
  pd_addr : string;
  pd_vpd : option (option string * pci_ids);
  pd_slot : option string;
  pd_ids : pci_ids;
  pd_config : bool;
}.

Definition NUL : string := String "000" "".

Definition vpd_of (d : pci_device) : pyval :=
  match pd_vpd d with
  | None => VDict []
  | Some (slot, ids) =>
      VDict (match slot with Some s => [("slot"%string, VStr s)] | None => [] end ++ [("pci_id"%string, VStr (print_ids ids))])
  end.
Definition slot_of (d : pci_device) : pyval := match pd_slot d with Some s => VStr (s +:+ NUL) | None => VNone end.

(** The four files, with their values. *)
Definition id_files (i : pci_ids) : list (string * string) :=
  [("vendor", id_vendor i); ("device", id_device i); ("subsystem_vendor", id_subvendor i); ("subsystem_device", id_subdevice i)]%string.

(** The text of a slot: nothing to strip. *)
Definition wf_slot (s : string) : Prop := trimmed is_space (chars_of s) ∧ trimmed (Ascii.eqb "000") (chars_of s) ∧ chars_of s ≠ [].

Record wf_device (d : pci_device) : Prop := {
  wd_vpd : match pd_vpd d with Some (Some s, i) => wf_slot s ∧ wf_ids i | Some (None, i) => wf_ids i | None => True end;
  wd_slot : match pd_slot d with Some s => wf_slot s | None => True end;
  wd_ids : wf_ids (pd_ids d);
}.

Class PciMachine (W : Type) `{HE : Env W, HL : LsvpdLib W} := {
  pm_ok : W → Prop;
  pm_devices : list pci_device;
  pm_wf : Forall wf_device pm_devices;
  pm_update : ∀ w, pm_ok w → ∃ w', env_system "vpdupdate" [IgnoreStatus; Shell] w = (Ret 0, w') ∧ pm_ok w';
  pm_addresses : ∀ w, pm_ok w → ∃ w', ls_addresses w = (Ret (Some (map pd_addr pm_devices)), w') ∧ pm_ok w';
  pm_vpd : ∀ d w, d ∈ pm_devices → pm_ok w → ∃ w', ls_vpd (pd_addr d) w = (Ret (vpd_of d), w') ∧ pm_ok w';
  pm_slot : ∀ d w, d ∈ pm_devices → pm_ok w → ∃ w', ls_slot (pd_addr d) w = (Ret (slot_of d), w') ∧ pm_ok w';
  pm_id : ∀ d w file v, d ∈ pm_devices → pm_ok w → (file, v) ∈ id_files (pd_ids d) →
    ∃ w', env_system_output ("cat /sys/bus/pci/devices/" +:+ pd_addr d +:+ "/" +:+ file) [Shell] w = (Ret ("0x" +:+ v +:+ NL), w') ∧ pm_ok w';
  pm_config : ∀ d w, d ∈ pm_devices → pm_ok w →
    ∃ w', env_system (lspci_cmd (pd_addr d)) [IgnoreStatus; Sudo] w = (Ret (if pd_config d then 0 else 1), w') ∧ pm_ok w';
}.

(** *** What should be reported *)

(** The slot of sysfs is that of lsvpd, or the latter has one more part after a dash. *)
Definition same_slot (s vpd_slot : string) : bool :=
  match drop_prefix (chars_of s) (chars_of vpd_slot) with
  | Some [] => true
  | Some (c :: part) => Ascii.eqb "-" c && forallb (λ d, negb (Ascii.eqb "-" d)) part
  | None => false
  end.
Definition slot_agrees (d : pci_device) (vpd_slot : string) : bool :=
  match pd_slot d with Some s => same_slot s vpd_slot | None => false end.

Definition unless (b : bool) (tag : string) : list string := if b then [] else [tag].

(** The disagreements of a device, in order. *)
Definition disagreements (d : pci_device) : list string :=
  match pd_vpd d with
  | None => []
  | Some (slot, ids) =>
      match slot with Some s => unless (slot_agrees d s) "-> slot" | None => [] end ++
      unless (String.eqb (id_vendor (pd_ids d)) (id_vendor ids)) "-> Vendor_id" ++
      unless (String.eqb (id_device (pd_ids d)) (id_device ids)) "-> Device_id" ++
      unless (String.eqb (id_subvendor (pd_ids d)) (id_subvendor ids)) "-> Subvendor_id" ++
      unless (String.eqb (id_subdevice (pd_ids d)) (id_subdevice ids)) "-> Subdevice_id" ++
      unless (pd_config d) "-> pci_config_space"
  end.

Definition errors_of (d : pci_device) : list string := map (λ tag, pd_addr d +:+ tag) (disagreements d).

(** The comparison of the code. *)
Lemma slot_compared s v : String.eqb s v || String.eqb s (slot_base v) = same_slot s v.
Proof.
  apply eq_true_iff_eq. rewrite orb_true_iff, !String.eqb_eq. unfold same_slot, slot_base. rewrite py_in_char.
  destruct (drop_prefix (chars_of s) (chars_of v)) as [[|c part]|] eqn:E.
  - apply drop_prefix_some in E. rewrite app_nil_r in E. apply chars_of_inj in E as ->. naive_solver.
  - apply drop_prefix_some in E. rewrite andb_true_iff, Ascii.eqb_eq. assert (v = str_of (chars_of s ++ c :: part)) as -> by by rewrite <- E, str_of_chars_of.
    split.
    + intros [H|H].
      * exfalso. apply (f_equal (λ x, length (chars_of x))) in H. rewrite chars_of_str_of, length_app in H. cbn [length] in H. lia.
      * case_bool_decide as Hd; [|exfalso; apply (f_equal (λ x, length (chars_of x))) in H; rewrite chars_of_str_of, length_app in H; cbn [length] in H; lia].
        rewrite chars_of_str_of in Hd. apply last_part in Hd as (l1 & p1 & E1 & Hp). rewrite E1, before_last_app in H by done. subst s.
        rewrite chars_of_str_of in E1. apply app_inv_head in E1 as [= -> ->]. done.
    + intros [<- Hp]. right. rewrite bool_decide_true by (rewrite chars_of_str_of; apply elem_of_app; right; left). by rewrite before_last_app, str_of_chars_of.
  - split; [|done]. intros [->|H]; exfalso.
    + by rewrite (proj2 (drop_prefix_some _ _ []) (eq_sym (app_nil_r _))) in E.
    + case_bool_decide as Hd; [|subst s; by rewrite (proj2 (drop_prefix_some _ _ []) (eq_sym (app_nil_r _))) in E].
      apply last_part in Hd as (l1 & p1 & E1 & Hp). assert (v = str_of (l1 ++ "-"%char :: p1)) as -> by by rewrite <- E1, str_of_chars_of.
      rewrite before_last_app in H by done. subst s. rewrite !chars_of_str_of in E. by rewrite drop_prefix_app in E.
Qed.

Section machine.
Context {W : Type} {HE : Env W} {HL : LsvpdLib W} {HM : PciMachine W}.

Lemma sysfs_runs d w x file v : d ∈ pm_devices → pm_ok w → (file, v) ∈ id_files (pd_ids d) → wf_id v →
  ∃ w', runs (sysfs_id (pd_addr d) file) w x (Ret v) w' x ∧ pm_ok w'.
Proof.
  intros Hd Hok Hf Hv. destruct (pm_id d w file v Hd Hok Hf) as (w' & E & Hok'). exists w'. split; [|done].
  unfold sysfs_id. run_by runs_ext; [exact E|]. rewrite sysfs_read by done. apply runs_ret.
Qed.

Lemma sysfs_ids_run d w x : d ∈ pm_devices → pm_ok w → ∃ w', runs (sysfs_ids (pd_addr d)) w x (Ret (Some (pd_ids d))) w' x ∧ pm_ok w'.
Proof.
  intros Hd Hok. pose proof pm_wf as Hw. rewrite list.Forall_forall in Hw. destruct (Hw d Hd) as [_ _ (H1 & H2 & H3 & H4)].
  unfold sysfs_ids. destruct (sysfs_runs d w x "vendor" _ Hd Hok ltac:(left) H1) as (w1 & R1 & Hok1).
  destruct (sysfs_runs d w1 x "device" _ Hd Hok1 ltac:(right; left) H2) as (w2 & R2 & Hok2).
  destruct (sysfs_runs d w2 x "subsystem_vendor" _ Hd Hok2 ltac:(right; right; left) H3) as (w3 & R3 & Hok3).
  destruct (sysfs_runs d w3 x "subsystem_device" _ Hd Hok3 ltac:(right; right; right; left) H4) as (w4 & R4 & Hok4).
  exists w4. split; [|done]. apply runs_try_ret. run_by R1. run_by R2. run_by R3. run_by R4. destruct (pd_ids d). apply runs_ret.
Qed.

Lemma add_error_runs error addr tag msg w x : runs (W:=W) (add_error error addr tag msg) w x (Ret (error ++ [addr +:+ tag])) w x.
Proof. unfold add_error. run. Qed.

Lemma match_id_runs addr name tag sys vpd error w x :
  runs (W:=W) (match_id addr name tag sys vpd error) w x (Ret (error ++ map (λ t, addr +:+ t) (unless (String.eqb sys vpd) tag))) w x.
Proof.
  unfold match_id, unless. run_step. run_step. destruct (String.eqb sys vpd); [|apply add_error_runs]. cbn [map]. rewrite app_nil_r. run.
Qed.

Lemma config_runs error d w x : d ∈ pm_devices → pm_ok w →
  ∃ w', runs (check_config_space error (pd_addr d) [IgnoreStatus; Sudo]) w x
    (Ret (error ++ map (λ t, pd_addr d +:+ t) (unless (pd_config d) "-> pci_config_space"))) w' x ∧ pm_ok w'.
Proof.
  intros Hd Hok. destruct (pm_config d w Hd Hok) as (w' & E & Hok'). exists w'. split; [|done]. unfold check_config_space, unless.
  run_by runs_ext; [exact E|]. destruct (pd_config d); [|apply add_error_runs]. cbn [map]. rewrite app_nil_r. apply runs_ret.
Qed.

Lemma slot_stripped s : wf_slot s → py_strip (py_strip_char "000" (s +:+ NUL)) = s ∧ py_strip s = s ∧ truthy (VStr (s +:+ NUL)) = true.
Proof.
  intros (H1 & H2 & Hne). assert (py_strip s = s) as E by (unfold py_strip; rewrite strip_trimmed by done; apply str_of_chars_of). split_and!; [|done|].
  - unfold py_strip_char. rewrite chars_of_app, <- (app_nil_l (_ ++ _)), strip_padded by (done || by repeat constructor). by rewrite str_of_chars_of.
  - destruct s; done.
Qed.

Lemma slot_runs error d slot ids w x : d ∈ pm_devices → pm_ok w → pd_vpd d = Some (slot, ids) →
  ∃ w', runs (check_slot error (pd_addr d) (vpd_of d)) w x
    (Ret (error ++ map (λ t, pd_addr d +:+ t) (match slot with Some s => unless (slot_agrees d s) "-> slot" | None => [] end))) w' x ∧ pm_ok w'.
Proof.
  intros Hd Hok E. pose proof pm_wf as Hw. rewrite list.Forall_forall in Hw. destruct (Hw d Hd) as [Hv Hs _]. rewrite E in Hv.
  unfold vpd_of, check_slot. rewrite E. destruct slot as [s|].
  2: { exists w. split; [|done]. rewrite app_nil_r. run. }
  destruct Hv as [Hv _]. destruct (slot_stripped s Hv) as (_ & Ev & _). destruct (pm_slot d w Hd Hok) as (w1 & E1 & Hok1). exists w1. split; [|done].
  run_step. rewrite bool_decide_true by by eexists. run_by runs_ext; [exact E1|]. unfold slot_of, slot_agrees, unless. destruct (pd_slot d) as [t|].
  - destruct (slot_stripped t Hs) as (Et & _ & Hn). rewrite Hn. eapply runs_bind; [eapply runs_bind; [apply runs_lift|apply runs_ret]|]. cbv beta. rewrite Et.
    run_step. run_step. rewrite Ev. run_step. run_step. cbn [existsb py_eq]. rewrite orb_false_r, slot_compared.
    destruct (same_slot t s); [|apply add_error_runs]. cbn [map]. rewrite app_nil_r. run.
  - change (truthy VNone) with false. cbv iota. run_step. run_step. run_step. rewrite Ev. run_step. run_step. cbn [existsb py_eq]. apply add_error_runs.
Qed.

Lemma read_ids_run d slot ids w x : wf_ids ids → pd_vpd d = Some (slot, ids) → runs (W:=W) (read_vpd_ids (vpd_of d)) w x (Ret (Some ids)) w x.
Proof.
  intros Hi E. unfold read_vpd_ids. apply runs_try_ret.
  assert (py_get (vpd_of d) "pci_id" (VStr "") = Ret (VStr (print_ids ids))) as ->.
  { unfold vpd_of, py_get. rewrite E. by destruct slot. }
  run_step. run_step. run_step. rewrite ids_read by done. run.
Qed.

Lemma device_checked error d w x : d ∈ pm_devices → pm_ok w →
  ∃ w', runs (pci_lsvpd_step error (pd_addr d)) w x (Ret (error ++ errors_of d)) w' x ∧ pm_ok w'.
Proof.
  intros Hd Hok. destruct (pm_vpd d w Hd Hok) as (w1 & E1 & Hok1). unfold pci_lsvpd_step, errors_of, disagreements, check_title.
  destruct (pd_vpd d) as [[slot ids]|] eqn:E.
  2: { exists w1. split; [|done]. rewrite app_nil_r. run_step. run_by runs_ext; [exact E1|]. unfold vpd_of. rewrite E. run. }
  assert (wf_ids ids) as Hi.
  { pose proof pm_wf as Hw. rewrite list.Forall_forall in Hw. destruct (Hw d Hd) as [Hv _ _]. rewrite E in Hv. by destruct slot; [destruct Hv|]. }
  assert (truthy (vpd_of d) = true) as Et by (unfold vpd_of; rewrite E; by destruct slot).
  destruct (slot_runs error d slot ids w1 x Hd Hok1 E) as (w2 & R2 & Hok2). destruct (sysfs_ids_run d w2 x Hd Hok2) as (w3 & R3 & Hok3).
  rewrite !map_app, !app_assoc.
  match goal with |- context [Ret (?e ++ map _ (unless (pd_config d) _))] => destruct (config_runs e d w3 x Hd Hok3) as (w4 & R4 & Hok4) end.
  exists w4. split; [|done]. run_step. run_by runs_ext; [exact E1|]. rewrite Et. cbn [negb]. run_by R2. run_by R3. run_by (read_ids_run d slot ids w3 x Hi E).
  unfold log_ids. run_step. do 4 (eapply runs_bind; [apply match_id_runs|]; cbv beta). run_step. exact R4.
Qed.

Lemma devices_checked w x : pm_ok w →
  ∃ w', runs (for_acc (map pd_addr pm_devices) [] pci_lsvpd_step) w x (Ret (flat_map errors_of pm_devices)) w' x ∧ pm_ok w'.
Proof.
  intros Hok. enough (∀ l error w, (∀ d, d ∈ l → d ∈ pm_devices) → pm_ok w →
    ∃ w', runs (for_acc (map pd_addr l) error pci_lsvpd_step) w x (Ret (error ++ flat_map errors_of l)) w' x ∧ pm_ok w') as H by by apply (H pm_devices []).
  clear w Hok. induction l as [|d l IH]; intros error w Hl Hok; cbn [map for_acc flat_map].
  - exists w. rewrite app_nil_r. split; [apply runs_ret|done].
  - destruct (device_checked error d w x (Hl d ltac:(left)) Hok) as (w1 & R1 & Hok1).
    destruct (IH (error ++ errors_of d) w1) as (w2 & R2 & Hok2); [intros d' Hd'; apply Hl; by right|done|].
    exists w2. split; [|done]. run_by R1. rewrite app_assoc. exact R2.
Qed.

(** C34: the test reports exactly the disagreements between lsvpd and the system: of each device with
    a VPD, in order, a slot that differs from the one in sysfs, also without its last part, each of
    the four identifiers that differs, and a configuration space that cannot be read. It passes
    when there is none, and otherwise fails with their list. *)
Theorem pci_lsvpd_reports w x : pm_ok w →
  ∃ w', runs test_pci_lsvpd w x
    (match flat_map errors_of pm_devices with
     | [] => Ret ()
     | errors => raise_ TestFail ("Errors for above pci addresses: " +:+ py_repr (VList (map VStr errors)))
     end) w' x.
Proof.
  intros Hok. destruct (pm_update w Hok) as (w1 & E1 & Hok1). destruct (pm_addresses w1 Hok1) as (w2 & E2 & Hok2).
  destruct (devices_checked w2 x Hok2) as (w3 & R3 & _). exists w3. unfold test_pci_lsvpd. run_by runs_ext; [exact E1|].
  cbn [Z.eqb negb]. run_step. unfold pci_addresses. eapply runs_bind; [run_by runs_ext; [exact E2|]; apply runs_ret|]. cbv beta. run_by R3.
  unfold fail_on_errors. destruct (flat_map errors_of pm_devices) as [|e errors].
  - run.
  - eapply runs_bind_raise. apply runs_throw.
Qed.
End machine.
