(* ===== verification/LsvpdSim.v ===== *)
(** * Simulated machines for the tests of lsvpd

    Machines that answer from the listings of a card, and from a table of PCI devices: the theorems
    are applied to them. *)

From S2P Require Import Prelude PyStr PyFloat PyVal PyRegex Avocado Logic Lsvpd LsvpdText LsvpdSpyre LsvpdPci.
Open Scope Z_scope.

(** ** Listings of a card *)

Definition field (text short value : string) : cfg_entry :=
  Entry 6 (chars_of text) (if py_empty short then None else Some (chars_of short)) 8 None (chars_of value).

(** The serial number stands on a line of its own. *)
Definition card_fields : list cfg_entry :=
  [field "Machine Type-Model" "" "SPYRE-1"; field "Manufacturer Name" "" "IBM";
   Entry 6 (chars_of "Serial Number") None 20 (Some 4%nat) (chars_of "YL10HP3A0012");
   field "Device Specific." "YL" "U78D8.ND0.FGD0074-P0-C5"].

Lemma card_fields_wf : Forall wf_entry card_fields.
Proof.
  repeat (apply list.Forall_cons; split); [..|apply list.Forall_nil; done].
  all: constructor; try (cbn; lia); try (by repeat constructor); try (by vm_compute); try done.
  change ("("%char ∉ chars_of "YL"). by apply (bool_decide_eq_false_1 _).
Qed.

Lemma lscfg_read_witness :
  parse_lscfg_output (py_strip (cfg_listing card_fields)) = cfg_fields card_fields ∧
  dict_find "YL" (cfg_fields card_fields) = Some "U78D8.ND0.FGD0074-P0-C5"%string ∧
  dict_find "Serial Number" (cfg_fields card_fields) = Some "YL10HP3A0012"%string.
Proof. split; [exact (lscfg_read card_fields card_fields_wf)|]. split; by vm_compute. Defined.

(** The blocks of lsvpd: another adapter and the card, with its serial number, if it has one. *)
Definition some_field (k v : string) : vpd_field := VpdField k (Some v).
Definition card_head : list vpd_field := [some_field "VC" "5.0"].
Definition card_blocks (serial : option string) : list vpd_block :=
  [VpdBlock (Some "????????"%string) [some_field "DS" "Ethernet"; some_field "AX" "enP5p1s0"; some_field "YL" "U78D8.ND0.FGD0074-P0-C1"];
   VpdBlock (Some "????????"%string)
     [some_field "DS" "Accelerator"; some_field "AX" "0005:01:00.0"; some_field "TM" "SPYRE-1"; some_field "MF" "IBM";
      VpdField "SN" serial; some_field "YL" "U78D8.ND0.FGD0074-P0-C5"]].

(** A field can be checked by evaluation. *)
Definition field_ok (f : vpd_field) : bool :=
  let word l := forallb (λ c, negb (is_space c)) l in
  let plain l := bool_decide ("*"%char ∉ l) in
  match chars_of (vf_key f) with [a; b] => word [a; b] && plain [a; b] | _ => false end &&
  match vf_value f with Some v => negb (py_empty v) && word (chars_of v) && plain (chars_of v) | None => true end.

Lemma words_no_spaces l : forallb (λ c, negb (is_space c)) l = true → no_spaces l.
Proof. rewrite forallb_forall. intros H. apply list.Forall_forall. intros c Hc%list_elem_of_In. by apply H, negb_true_iff in Hc. Qed.

Lemma no_spaces_trimmed l : no_spaces l → trimmed is_space l.
Proof.
  intros H. split; [by destruct H|]. destruct (last_opt l) as [c|] eqn:E; [|done]. apply last_opt_elem in E.
  exact (proj1 (list.Forall_forall _ _) H c E).
Qed.

Lemma field_ok_wf f : field_ok f = true → wf_field f.
Proof.
  unfold field_ok. rewrite andb_true_iff. intros [Hk Hv]. assert (match vf_value f with Some v => v ≠ ""%string ∧ no_spaces (chars_of v) ∧ "*"%char ∉ chars_of v | None => True end) as Hw.
  { destruct (vf_value f) as [v|]; [|done]. apply andb_true_iff in Hv as [[Hne Hw%words_no_spaces]%andb_true_iff Hp%bool_decide_eq_true]. by destruct v. }
  split.
  - destruct (chars_of (vf_key f)) as [|a [|b [|? ?]]]; try done. apply andb_true_iff in Hk as [Hn%words_no_spaces Hp%bool_decide_eq_true]. done.
  - destruct (vf_value f); [|done]. destruct Hw as (Hne & Hw & Hp). split_and!; [by apply no_spaces_trimmed|done|by apply word_inline|done].
  - intros _. destruct (vf_value f); [apply Hw|done].
Qed.

Lemma fields_ok_wf l : forallb field_ok l = true → Forall wf_field l.
Proof. rewrite forallb_forall. intros H. apply list.Forall_forall. intros f Hf%list_elem_of_In. by apply field_ok_wf, H. Qed.

Lemma card_blocks_wf serial : forallb field_ok [VpdField "SN" serial] = true → Forall wf_block (card_blocks serial).
Proof.
  cbn [forallb]. rewrite andb_true_r. intros Hs. unfold card_blocks. apply list.Forall_cons; split; [|apply list.Forall_singleton]; split.
  - by apply fields_ok_wf.
  - cbn [vb_fields]. by repeat constructor.
  - apply fields_ok_wf. cbn [block_fields vb_class vb_fields forallb]. by rewrite Hs.
  - cbn [vb_fields]. by repeat constructor.
Qed.

(** ** The machine with a card *)

Definition card_devices : list string := ["0001:01:00.0"; "0005:01:00.0"]%string.
Definition class_of (dev : string) : result pyval :=
  if String.eqb dev "0005:01:00.0" then Ret (VStr "accelerator") else raise_ ValueError "no class".
Definition config_entries (dev : string) : list cfg_entry := if String.eqb dev "0005:01:00.0" then card_fields else [].

Definition card_output (serial : option string) (cmd : string) : string :=
  if String.eqb cmd "lsvpd" then vpd_listing card_head (card_blocks serial)
  else match drop_prefix (chars_of "lscfg -vl ") (chars_of cmd) with Some dev => cfg_listing (config_entries (str_of dev)) | None => "" end.

Definition card_env (serial : option string) : Env Z := {|
  env_run := λ _ _ w, (Ret (CmdResult 0 ""), w + 1);
  env_system := λ _ _ w, (Ret 0, w + 1);
  env_system_output := λ cmd _ w, (Ret (card_output serial cmd), w + 1);
  env_ssh := λ _ _ w, (Ret (CmdResult 0 ""), w);
  env_connect := λ _ _ _ w, (Ret true, w);
  env_show := λ r, stdout_text r;
  env_param := λ _ d, d;
  env_exists := λ _ w, (true, w);
  env_read := λ _ w, (Ret ""%string, w);
  env_append := λ _ _ w, (Ret (), w);
  env_remove := λ _ w, (Ret (), w);
  env_random := λ w, (0, w);
|}.

Definition card_lib : LsvpdLib Z := {|
  ls_lib := λ _ _ w, (Ret VNone, w);
  ls_addresses := λ w, (Ret (Some card_devices), w);
  ls_class_name := λ dev w, (class_of dev, w);
  ls_vpd := λ _ w, (Ret VNone, w);
  ls_slot := λ _ w, (Ret VNone, w);
  ls_info := λ _ w, (Ret VNone, w);
  ls_walk := λ _ w, ([], w);
  ls_listdir := λ _ w, (Ret card_devices, w);
  ls_background := λ _ w, (Ret (""%string, ""%string), w);
  ls_fetch := λ name _ w, (Ret name, w);
  ls_cpuinfo := "";
  ls_arch := "ppc64le";
  ls_distro := "rhel";
  ls_workdir := "/tmp/work";
  ls_outputdir := "/tmp/out";
|}.

#[local, refine] Instance card_machine (serial : option string) (Hs : forallb field_ok [VpdField "SN" serial] = true) : SpyreMachine Z (HE:=card_env serial) (HL:=card_lib) := {|
  sm_ok := λ _, True;
  sm_devices := card_devices;
  sm_class := class_of;
  sm_head := card_head;
  sm_blocks := card_blocks serial;
  sm_entries := config_entries;
  sm_update := _;
  sm_list := _;
  sm_config := _;
  sm_addresses := _;
  sm_class_name := _;
|}.
Proof.
  - split; [by apply fields_ok_wf|by repeat constructor].
  - apply card_blocks_wf, Hs.
  - intros dev _. unfold config_entries. destruct (String.eqb _ _); [apply card_fields_wf|constructor].
  - intros dev v _. unfold config_entries. destruct (String.eqb _ _); [|done]. intros [= <-]. by apply (bool_decide_eq_true_1 _).
  - intros w _. by eexists _, _.
  - intros w _. by eexists _.
  - intros dev w _ _. exists (w + 1). split; [|done]. cbn [card_env env_system_output]. unfold card_output. do 2 f_equal.
    assert (String.eqb ("lscfg -vl " +:+ dev) "lsvpd" = false) as -> by done. by rewrite chars_of_app, drop_prefix_app, str_of_chars_of.
  - intros w _. by eexists _.
  - intros dev w _ _. by eexists _.
Defined.

(** The serial number that lscfg shows, another one, and none. *)
Lemma spyre_verdict_witness :
  (∃ r w' x', runs (test_spyre_lsvpd_validation (HE:=card_env (Some "YL10HP3A0012"%string)) (HL:=card_lib)) 0 new_ls r w' x' ∧ verdict_of r = PASS) ∧
  (∃ r w' x', runs (test_spyre_lsvpd_validation (HE:=card_env (Some "YL10HP3A0099"%string)) (HL:=card_lib)) 0 new_ls r w' x' ∧ verdict_of r = FAIL) ∧
  (∃ r w' x', runs (test_spyre_lsvpd_validation (HE:=card_env None) (HL:=card_lib)) 0 new_ls r w' x' ∧ verdict_of r = ERROR).
Proof.
  split_and!.
  - destruct (spyre_verdict (HM:=card_machine (Some "YL10HP3A0012"%string) eq_refl) 0 new_ls I) as (r & w' & x' & H & V). exists r, w', x'. split; [exact H|]. rewrite V. by vm_compute.
  - destruct (spyre_verdict (HM:=card_machine (Some "YL10HP3A0099"%string) eq_refl) 0 new_ls I) as (r & w' & x' & H & V). exists r, w', x'. split; [exact H|]. rewrite V. by vm_compute.
  - destruct (spyre_verdict (HM:=card_machine None eq_refl) 0 new_ls I) as (r & w' & x' & H & V). exists r, w', x'. split; [exact H|]. rewrite V. by vm_compute.
Defined.

(** ** The machine with PCI devices *)

Definition adapter_ids : pci_ids := Ids "10df" "f500" "1014" "06c2".

(** A slot with a suffix; nothing in lsvpd; another device and no configuration space. *)
Definition adapters : list pci_device :=
  [Device "0005:01:00.0" (Some (Some "U78D8.ND0.FGD0074-P0-C5-T1"%string, adapter_ids)) (Some "U78D8.ND0.FGD0074-P0-C5"%string) adapter_ids true;
   Device "0006:01:00.0" None None adapter_ids true;
   Device "0007:01:00.0" (Some (None, adapter_ids)) None (Ids "10df" "f400" "1014" "06c2") false]%string.

Definition find_adapter (addr : string) : option pci_device := List.find (λ d, String.eqb (pd_addr d) addr) adapters.
Definition of_adapter {A} (addr : string) (f : pci_device → A) (none : A) : A := match find_adapter addr with Some d => f d | None => none end.

(** The two parts of a path below the directory of the devices. *)
Definition read_id (cmd : string) : string :=
  match drop_prefix (chars_of "cat /sys/bus/pci/devices/") (chars_of cmd) with
  | Some path =>
      match py_split_on "/" (str_of path) with
      | [addr; file] => of_adapter addr (λ d, match dict_find file (id_files (pd_ids d)) with Some v => "0x" +:+ v +:+ NL | None => ""%string end) ""%string
      | _ => ""
      end
  | None => ""
  end.
Definition config_status (cmd : string) : Z :=
  match drop_prefix (chars_of (lspci_cmd "")) (chars_of cmd) with
  | Some addr => of_adapter (str_of addr) (λ d, if pd_config d then 0 else 1) 1
  | None => 0
  end.

Definition adapter_env : Env Z := {|
  env_run := λ _ _ w, (Ret (CmdResult 0 ""), w + 1);
  env_system := λ cmd _ w, (Ret (config_status cmd), w + 1);
  env_system_output := λ cmd _ w, (Ret (read_id cmd), w + 1);
  env_ssh := λ _ _ w, (Ret (CmdResult 0 ""), w);
  env_connect := λ _ _ _ w, (Ret true, w);
  env_show := λ r, stdout_text r;
  env_param := λ _ d, d;
  env_exists := λ _ w, (true, w);
  env_read := λ _ w, (Ret ""%string, w);
  env_append := λ _ _ w, (Ret (), w);
  env_remove := λ _ w, (Ret (), w);
  env_random := λ w, (0, w);
|}.

Definition adapter_lib : LsvpdLib Z := {|
  ls_lib := λ _ _ w, (Ret VNone, w);
  ls_addresses := λ w, (Ret (Some (map pd_addr adapters)), w);
  ls_class_name := λ dev w, (Ret (VStr "ethernet"), w);
  ls_vpd := λ addr w, (Ret (of_adapter addr vpd_of (VDict [])), w);
  ls_slot := λ addr w, (Ret (of_adapter addr slot_of VNone), w);
  ls_info := λ _ w, (Ret VNone, w);
  ls_walk := λ _ w, ([], w);
  ls_listdir := λ _ w, (Ret [], w);
  ls_background := λ _ w, (Ret (""%string, ""%string), w);
  ls_fetch := λ name _ w, (Ret name, w);
  ls_cpuinfo := "";
  ls_arch := "ppc64le";
  ls_distro := "rhel";
  ls_workdir := "/tmp/work";
  ls_outputdir := "/tmp/out";
|}.

Lemma adapter_cases (P : pci_device → Prop) : Forall P adapters → ∀ d, d ∈ adapters → P d.
Proof. intros H d Hd. by apply (proj1 (list.Forall_forall P adapters) H). Qed.

Lemma adapters_wf : Forall wf_device adapters.
Proof. repeat (apply list.Forall_cons; split); [..|apply list.Forall_nil; done]; constructor; cbn; try done; repeat split; try done; by repeat constructor. Qed.

#[local, refine] Instance adapter_machine : PciMachine Z (HE:=adapter_env) (HL:=adapter_lib) := {|
  pm_ok := λ _, True;
  pm_devices := adapters;
  pm_wf := adapters_wf;
  pm_update := _;
  pm_addresses := _;
  pm_vpd := _;
  pm_slot := _;
  pm_id := _;
  pm_config := _;
|}.
Proof.
  - intros w _. by eexists _.
  - intros w _. by eexists _.
  - intros d w Hd _. exists w. split; [|done]. revert d Hd. refine (adapter_cases (λ d, _) _). repeat constructor.
  - intros d w Hd _. exists w. split; [|done]. revert d Hd. refine (adapter_cases (λ d, _) _). repeat constructor.
  - intros d w file v Hd _ Hf. exists (w + 1). split; [|done]. revert d Hd file v Hf. refine (adapter_cases (λ d, _) _).
    repeat constructor; intros file v Hf; repeat (apply elem_of_cons in Hf as [[= -> ->]|Hf]; [by vm_compute|]); by apply not_elem_of_nil in Hf.
  - intros d w Hd _. exists (w + 1). split; [|done]. revert d Hd. refine (adapter_cases (λ d, _) _). repeat constructor.
Defined.

Lemma pci_lsvpd_reports_witness :
  ∃ w', runs (test_pci_lsvpd (HE:=adapter_env) (HL:=adapter_lib)) 0 new_ls
    (raise_ TestFail "Errors for above pci addresses: ['0007:01:00.0-> Device_id', '0007:01:00.0-> pci_config_space']") w' new_ls.
Proof.
  destruct (pci_lsvpd_reports (HM:=adapter_machine) 0 new_ls I) as [w' H]. exists w'.
  match type of H with runs _ _ _ ?r _ _ =>
    replace r with (@raise_ () TestFail "Errors for above pci addresses: ['0007:01:00.0-> Device_id', '0007:01:00.0-> pci_config_space']") in H; [exact H|by vm_compute] end.
Defined.
