(* ===== verification/PyJson.v ===== *)
(** * Python's json.loads

    The reader of JSON text: objects, arrays, strings with their escapes, numbers and the three
    names, with blanks between the parts.  A text that is not JSON raises JSONDecodeError, which is a
    ValueError; its message is not modelled.  Escapes [\u] are read for ASCII.

    The grammar is the inductive predicate [json]; the reader is complete for it. *)

From S2P Require Import Prelude PyStr PyFloat PyVal.
Open Scope Z_scope.

(** ** The reader *)

Definition json_blank (c : ascii) : bool := (ch_code c =? 9) || (ch_code c =? 10) || (ch_code c =? 13) || (ch_code c =? 32).
Definition skip (l : chars) : chars := drop_while json_blank l.
Definition quote_char : ascii := ascii_of_nat 34.
Definition backslash : ascii := ascii_of_nat 92.

(** What stands for a character after a backslash. *)
Definition escape (c : ascii) : option ascii :=
  if Ascii.eqb c quote_char || Ascii.eqb c backslash || Ascii.eqb c "/" then Some c
  else if Ascii.eqb c "b" then Some (ascii_of_nat 8)
  else if Ascii.eqb c "f" then Some (ascii_of_nat 12)
  else if Ascii.eqb c "n" then Some LF
  else if Ascii.eqb c "r" then Some CR
  else if Ascii.eqb c "t" then Some (ascii_of_nat 9)
  else None.

Definition unicode_char (a b c d : ascii) : option ascii :=
  n ← hex_digits 0 [a; b; c; d]; if n <? 128 then Some (ascii_of_nat (Z.to_nat n)) else None.

(** The rest of a string after its first quote. *)
Fixpoint json_string (l : chars) : option (chars * chars) :=
  match l with
  | [] => None
  | c :: l' =>
      if Ascii.eqb c quote_char then Some ([], l')
      else if Ascii.eqb c backslash then
        match l' with
        | "u"%char :: a :: b :: d :: e :: l'' =>
            u ← unicode_char a b d e; '(s, r) ← json_string l''; Some (u :: s, r)
        | e :: l'' => u ← escape e; '(s, r) ← json_string l''; Some (u :: s, r)
        | [] => None
        end
      else if ch_code c <? 32 then None
      else '(s, r) ← json_string l'; Some (c :: s, r)
  end.

(** A part of a number that may be missing: a first character and then digits. *)
Definition fraction (l : chars) : chars * chars :=
  match l with
  | c :: l' => if Ascii.eqb c "." then match span is_digit l' with ([], _) => ([], l) | (ds, r) => (c :: ds, r) end else ([], l)
  | [] => ([], l)
  end.
Definition exponent (l : chars) : chars * chars :=
  match l with
  | c :: l' =>
      if Ascii.eqb c "e" || Ascii.eqb c "E" then
        let '(sign, l'') := match l' with
                            | d :: l'' => if Ascii.eqb d "+" || Ascii.eqb d "-" then ([d], l'') else ([], l')
                            | [] => ([], l')
                            end in
        match span is_digit l'' with ([], _) => ([], l) | (ds, r) => (c :: sign ++ ds, r) end
      else ([], l)
  | [] => ([], l)
  end.

(** The digits of an integer: a zero stands alone. *)
Definition integer (l : chars) : option (chars * chars) :=
  match span is_digit l with
  | ([], _) => None
  | (c :: ds, r) => if Ascii.eqb c "0" then Some ([c], ds ++ r) else Some (c :: ds, r)
  end.

Definition json_number (l : chars) : option (pyval * chars) :=
  let '(neg, l1) := match l with c :: l' => if Ascii.eqb c "-" then (true, l') else (false, l) | [] => (false, l) end in
  '(ds, l2) ← integer l1;
  let '(fr, l3) := fraction l2 in
  let '(ex, l4) := exponent l3 in
  match fr, ex with
  | [], [] => let z := digits_val 0 ds in Some (VInt (if neg then - z else z), l4)
  | _, _ => f ← py_float_of_str (str_of ((if neg then ["-"%char] else []) ++ ds ++ fr ++ ex)); Some (VFloat f, l4)
  end.

(** The three names, and numbers. *)
Definition json_scalar (l : chars) : option (pyval * chars) :=
  match drop_prefix (chars_of "null") l with
  | Some r => Some (VNone, r)
  | None =>
      match drop_prefix (chars_of "true") l with
      | Some r => Some (VBool true, r)
      | None => match drop_prefix (chars_of "false") l with Some r => Some (VBool false, r) | None => json_number l end
      end
  end.

(** A value; the elements of an array and the members of an object, of which there is one at
    least, up to the closing bracket.  The fuel bounds the depth. *)
Fixpoint json_value (fuel : nat) (l : chars) {struct fuel} : option (pyval * chars) :=
  match fuel with
  | O => None
  | S f =>
      match l with
      | [] => None
      | c :: l' =>
          if Ascii.eqb c quote_char then '(s, r) ← json_string l'; Some (VStr (str_of s), r)
          else if Ascii.eqb c "[" then
            match skip l' with
            | d :: r => if Ascii.eqb d "]" then Some (VList [], r) else '(vs, r) ← json_elements f (d :: r); Some (VList vs, r)
            | [] => None
            end
          else if Ascii.eqb c "{" then
            match skip l' with
            | d :: r => if Ascii.eqb d "}" then Some (VDict [], r)
                        else '(ms, r) ← json_members f (d :: r); Some (VDict (foldl (λ d kv, dict_put kv.1 kv.2 d) [] ms), r)
            | [] => None
            end
          else json_scalar l
      end
  end
with json_elements (fuel : nat) (l : chars) {struct fuel} : option (list pyval * chars) :=
  match fuel with
  | O => None
  | S f =>
      '(v, r) ← json_value f l;
      match skip r with
      | c :: r' => if Ascii.eqb c "," then '(vs, r'') ← json_elements f (skip r'); Some (v :: vs, r'')
                   else if Ascii.eqb c "]" then Some ([v], r') else None
      | [] => None
      end
  end
with json_members (fuel : nat) (l : chars) {struct fuel} : option (list (string * pyval) * chars) :=
  match fuel with
  | O => None
  | S f =>
      match l with
      | q :: l' =>
          if negb (Ascii.eqb q quote_char) then None
          else
            '(k, r) ← json_string l';
            match skip r with
            | c :: r' =>
                if negb (Ascii.eqb c ":") then None
                else
                  '(v, r) ← json_value f (skip r');
                  match skip r with
                  | c :: r' => if Ascii.eqb c "," then '(ms, r'') ← json_members f (skip r'); Some ((str_of k, v) :: ms, r'')
                               else if Ascii.eqb c "}" then Some ([(str_of k, v)], r') else None
                  | [] => None
                  end
            | [] => None
            end
      | [] => None
      end
  end.

(** [json.loads(s)]: each round of the reader takes a character, so twice their number is fuel enough. *)
Definition json_loads (s : string) : result pyval :=
  let l := chars_of s in
  match json_value (2 * length l + 2) (skip l) with
  | Some (v, r) => match skip r with [] => Ret v | _ => raise_ ValueError "JSONDecodeError" end
  | None => raise_ ValueError "JSONDecodeError"
  end.

Example loads_nested :
  json_loads (str_of (map (λ c, if Ascii.eqb c "'" then quote_char else c) (chars_of " {'a' : [1, -20, 'x y', {}], 'b': null, 'a': true} "))) =
  Ret (VDict [("a", VBool true); ("b", VNone)]%string).
Proof. by vm_compute. Qed.

(** ** The grammar *)

Abbreviation gap l := (Forall (λ c, json_blank c = true) l).

(** A character that stands for itself. *)
Definition plain_char (c : ascii) : bool := negb (Ascii.eqb c quote_char) && negb (Ascii.eqb c backslash) && (32 <=? ch_code c).
Definition quoted (s : chars) : chars := quote_char :: s ++ [quote_char].

Inductive json : pyval → chars → Prop :=
| JNull : json VNone (chars_of "null")
| JTrue : json (VBool true) (chars_of "true")
| JFalse : json (VBool false) (chars_of "false")
| JInt z : json (VInt z) (chars_of (py_str_Z z))
| JStr s : Forall (λ c, plain_char c = true) s → json (VStr (str_of s)) (quoted s)
| JNil w : gap w → json (VList []) ("["%char :: w ++ ["]"%char])
| JArr w vs l : gap w → elements vs l → json (VList vs) ("["%char :: w ++ l)
| JEmpty w : gap w → json (VDict []) ("{"%char :: w ++ ["}"%char])
| JObj w ms l : gap w → members ms l → NoDup ms.*1 → json (VDict ms) ("{"%char :: w ++ l)
with elements : list pyval → chars → Prop :=
| ELast v l w : json v l → gap w → elements [v] (l ++ w ++ ["]"%char])
| ECons v l w1 w2 vs r : json v l → gap w1 → gap w2 → elements vs r → elements (v :: vs) (l ++ w1 ++ ","%char :: w2 ++ r)
with members : list (string * pyval) → chars → Prop :=
| MLast k w1 w2 v l w3 : Forall (λ c, plain_char c = true) k → gap w1 → gap w2 → json v l → gap w3 →
    members [(str_of k, v)] (quoted k ++ w1 ++ ":"%char :: w2 ++ l ++ w3 ++ ["}"%char])
| MCons k w1 w2 v l w3 w4 ms r : Forall (λ c, plain_char c = true) k → gap w1 → gap w2 → json v l → gap w3 → gap w4 → members ms r →
    members ((str_of k, v) :: ms) (quoted k ++ w1 ++ ":"%char :: w2 ++ l ++ w3 ++ ","%char :: w4 ++ r).

Scheme json_mut := Minimality for json Sort Prop
  with elements_mut := Minimality for elements Sort Prop
  with members_mut := Minimality for members Sort Prop.
Combined Scheme json_mutind from json_mut, elements_mut, members_mut.

(** ** The reader reads the grammar *)

Lemma skip_gap w l : gap w → skip (w ++ l) = skip l.
Proof. apply drop_while_all. Qed.

Definition solid (l : chars) : Prop := match l with c :: _ => json_blank c = false | [] => False end.

Lemma skip_solid l : solid l → skip l = l.
Proof. destruct l as [|c l]; [done|]. intros H. unfold skip. cbn in *. by rewrite H. Qed.

Lemma skip_to w l r : gap w → solid l → skip (w ++ l ++ r) = l ++ r.
Proof. intros Hw Hl. rewrite skip_gap by done. apply skip_solid. by destruct l. Qed.

(** What may follow a value. *)
Definition ends (r : chars) : Prop :=
  match r with [] => True | c :: _ => json_blank c = true ∨ c ∈ [","; "]"; "}"]%char end.

Lemma ends_gap w c r : gap w → c ∈ [","; "]"; "}"]%char → ends (w ++ c :: r).
Proof. intros [|d w' Hd Hw] Hc; cbn; [by right|by left]. Qed.

Lemma ends_not r p : ends r → (∀ c, json_blank c = true ∨ c ∈ [","; "]"; "}"]%char → p c = false) →
  match r with [] => True | c :: _ => p c = false end.
Proof. destruct r as [|c r]; [done|]. cbn. auto. Qed.

Lemma blank_code c : json_blank c = true → ch_code c < 33.
Proof. unfold json_blank. intros H. bool_to_Z. repeat (apply orb_prop in H as [H|H]); apply Z.eqb_eq in H; lia. Qed.

Lemma end_not_digit c : json_blank c = true ∨ c ∈ [","; "]"; "}"]%char → is_digit c = false.
Proof.
  intros [H%blank_code|H].
  - unfold is_digit. apply andb_false_iff. left. apply Z.leb_gt. lia.
  - repeat (apply elem_of_cons in H as [->|H]; [done|]). by apply not_elem_of_nil in H.
Qed.

Lemma end_not d c : 33 <= ch_code d → d ∉ [","; "]"; "}"]%char → json_blank c = true ∨ c ∈ [","; "]"; "}"]%char → Ascii.eqb c d = false.
Proof. intros Hd Hn [H%blank_code|H]; apply Ascii.eqb_neq; intros ->; [lia|done]. Qed.

Lemma string_read s r : Forall (λ c, plain_char c = true) s → json_string (s ++ quote_char :: r) = Some (s, r).
Proof.
  induction 1 as [|c s Hc _ IH]; [done|]. cbn [app json_string]. unfold plain_char in Hc. rewrite !andb_true_iff, !negb_true_iff in Hc.
  destruct Hc as [[-> ->] Hc]. assert (ch_code c <? 32 = false) as -> by (apply Z.ltb_ge; by apply Z.leb_le). by rewrite IH.
Qed.

(** *** Integers *)

Lemma digits_of_head fuel n acc : 0 < n < 2 ^ Z.of_nat fuel →
  match digits_of fuel n acc with c :: _ => Ascii.eqb c "0" = false | [] => False end.
Proof.
  revert n acc. induction fuel as [|f IH]; intros n acc Hn; [simpl in Hn; lia|]. cbn [digits_of].
  pose proof (Z.div_mod n 10 ltac:(lia)) as Hdm. pose proof (Z.mod_pos_bound n 10 ltac:(lia)) as Hm. destruct (Z.eqb_spec (n / 10) 0) as [H0|H0].
  - apply Ascii.eqb_neq. intros E. apply (f_equal ch_code) in E. rewrite digit_char_code in E by lia. change (ch_code "0") with 48 in E. lia.
  - apply IH. assert (0 ≤ n / 10) by (apply Z.div_pos; lia). split; [lia|]. apply Z.div_lt_upper_bound; [lia|].
    rewrite Nat2Z.inj_succ, Z.pow_succ_r in Hn by lia. lia.
Qed.

Lemma integer_read n r : 0 ≤ n → ends r → integer (nat_chars n ++ r) = Some (nat_chars n, r).
Proof.
  intros Hn Hr. destruct (nat_chars_spec n Hn) as (Hne & Hd & _). unfold integer.
  rewrite span_app; [|exact Hd|exact (ends_not r is_digit Hr end_not_digit)].
  destruct (Z.eq_dec n 0) as [->|Hz]; [done|].
  assert (match nat_chars n with c :: _ => Ascii.eqb c "0" = false | [] => False end) as Hh.
  { apply digits_of_head. split; [lia|]. rewrite Nat2Z.inj_succ, Z2Nat.id by apply Z.log2_nonneg. apply Z.log2_spec. lia. }
  destruct (nat_chars n) as [|c l]; [done|]. by rewrite Hh.
Qed.

Lemma no_fraction r : ends r → fraction r = ([], r).
Proof. destruct r as [|c r]; [done|]. intros H. unfold fraction. by rewrite (end_not "." c) by (done || by apply (bool_decide_eq_false_1 _)). Qed.

Lemma no_exponent r : ends r → exponent r = ([], r).
Proof.
  destruct r as [|c r]; [done|]. intros H. unfold exponent.
  by rewrite (end_not "e" c), (end_not "E" c) by (done || by apply (bool_decide_eq_false_1 _)).
Qed.

Lemma number_read z r : ends r → json_number (chars_of (py_str_Z z) ++ r) = Some (VInt z, r).
Proof.
  intros Hr. rewrite chars_of_str_Z. unfold json_number. destruct (Z.ltb_spec z 0) as [Hz|Hz].
  - cbn [app]. rewrite Ascii.eqb_refl. rewrite integer_read by (done || lia). cbn [mbind option_bind].
    rewrite no_fraction, no_exponent by done. destruct (nat_chars_spec (- z)) as (_ & _ & Hv); [lia|].
    rewrite Hv. do 3 f_equal. lia.
  - destruct (nat_chars_spec z Hz) as (Hne & Hd & Hv).
    assert (∃ c l, nat_chars z = c :: l ∧ Ascii.eqb c "-" = false) as (c & l & E & Hc).
    { destruct (nat_chars z) as [|c l]; [done|]. exists c, l. split; [done|]. inversion Hd as [|? ? Hc _]; subst.
      apply Ascii.eqb_neq. by intros ->. }
    rewrite E at 1. cbn [app]. rewrite Hc, integer_read by done. cbn [mbind option_bind].
    rewrite no_fraction, no_exponent by done. by rewrite Hv.
Qed.

Lemma scalar_int z r : ends r → json_scalar (chars_of (py_str_Z z) ++ r) = Some (VInt z, r).
Proof.
  intros Hr. assert (∃ c l, chars_of (py_str_Z z) = c :: l ∧ (c = "-"%char ∨ is_digit c = true)) as (c & l & E & Hc).
  { rewrite chars_of_str_Z. destruct (Z.ltb_spec z 0) as [Hz|Hz]; [by eexists _, _; split; [|left]|].
    destruct (nat_chars_spec z Hz) as (Hne & Hd & _). destruct (nat_chars z) as [|c l]; [done|]. exists c, l. split; [done|]. right. by inversion Hd. }
  unfold json_scalar.
  assert (∀ d p, Ascii.eqb d c = false → drop_prefix (d :: p) (chars_of (py_str_Z z) ++ r) = None) as H by (intros d p Hd; rewrite E; cbn; by rewrite Hd).
  change (chars_of "null") with ("n"%char :: chars_of "ull"). change (chars_of "true") with ("t"%char :: chars_of "rue").
  change (chars_of "false") with ("f"%char :: chars_of "alse").
  assert (Ascii.eqb "n" c = false ∧ Ascii.eqb "t" c = false ∧ Ascii.eqb "f" c = false) as (H1 & H2 & H3).
  { destruct Hc as [->|Hc]; [done|]. split_and!; apply Ascii.eqb_neq; intros He; by rewrite <- He in Hc. }
  rewrite !H by done. by apply number_read.
Qed.

(** *** The head of a value *)

Definition head_ok (c : ascii) : Prop := json_blank c = false ∧ Ascii.eqb c "]" = false ∧ Ascii.eqb c "}" = false.

Lemma json_head v l : json v l → match l with c :: _ => head_ok c | [] => False end.
Proof.
  intros H. destruct H; try (by repeat split). rewrite chars_of_str_Z. destruct (z <? 0) eqn:Hz; [by repeat split|].
  destruct (nat_chars_spec z) as (Hne & Hd & _); [lia|]. destruct (nat_chars z) as [|c l]; [done|]. inversion Hd as [|? ? Hc _]; subst.
  assert (48 <= ch_code c <= 57) as Hcode by (unfold is_digit in Hc; bool_to_Z; lia). repeat split.
  - unfold json_blank. repeat (apply orb_false_iff; split); apply Z.eqb_neq; lia.
  - apply Ascii.eqb_neq. intros ->. change (ch_code "]") with 93 in Hcode. lia.
  - apply Ascii.eqb_neq. intros ->. change (ch_code "}") with 125 in Hcode. lia.
Qed.

Lemma json_solid v l : json v l → solid l.
Proof. intros H%json_head. destruct l as [|c l]; [done|]. by destruct H. Qed.

Lemma elements_head vs l : elements vs l → match l with c :: _ => head_ok c | [] => False end.
Proof. intros [v k w H _|v k w1 w2 vs' r H _ _ _]; apply json_head in H; by destruct k. Qed.

(** A dictionary with different keys is built in the order of its members. *)
Lemma dict_built (ms d : dict pyval) : NoDup (d.*1 ++ ms.*1) → foldl (λ d kv, dict_put kv.1 kv.2 d) d ms = d ++ ms.
Proof.
  revert d. induction ms as [|[k v] ms IH]; intros d H; cbn [foldl fst snd]; [by rewrite app_nil_r|].
  assert (dict_put k v d = d ++ [(k, v)]) as ->.
  { apply list.NoDup_app in H as (_ & H & _). assert (k ∉ d.*1) as Hk by (intros Hk; apply (H k Hk); left). clear -Hk.
    induction d as [|[k' v'] d IH]; [done|]. cbn. destruct (String.eqb_spec k' k) as [->|_]; [destruct Hk; left|]. rewrite IH; [done|].
    intros Hd. apply Hk. by right. }
  rewrite IH; [by rewrite <- app_assoc|]. by rewrite fmap_app, <- app_assoc.
Qed.

(** *** Completeness *)

Lemma value_array f w l : gap w → (match l with c :: _ => head_ok c | [] => False end) →
  json_value (S f) ("["%char :: w ++ l) = ('(vs, r) ← json_elements f l; Some (VList vs, r)).
Proof.
  intros Hw Hl. destruct l as [|c l]; [done|]. destruct Hl as (Hb & Hc & _).
  change (json_value (S f) ("["%char :: w ++ c :: l)) with
    (match skip (w ++ c :: l) with
     | d :: r => if Ascii.eqb d "]" then Some (VList [], r) else '(vs, r) ← json_elements f (d :: r); Some (VList vs, r)
     | [] => None end).
  rewrite skip_gap, skip_solid by done. by rewrite Hc.
Qed.

Lemma value_object f w l : gap w → (match l with c :: _ => head_ok c | [] => False end) →
  json_value (S f) ("{"%char :: w ++ l) = ('(ms, r) ← json_members f l; Some (VDict (foldl (λ d kv, dict_put kv.1 kv.2 d) [] ms), r)).
Proof.
  intros Hw Hl. destruct l as [|c l]; [done|]. destruct Hl as (Hb & _ & Hc).
  change (json_value (S f) ("{"%char :: w ++ c :: l)) with
    (match skip (w ++ c :: l) with
     | d :: r => if Ascii.eqb d "}" then Some (VDict [], r) else '(ms, r) ← json_members f (d :: r); Some (VDict (foldl (λ d kv, dict_put kv.1 kv.2 d) [] ms), r)
     | [] => None end).
  rewrite skip_gap, skip_solid by done. by rewrite Hc.
Qed.

Lemma elements_value f l v r : json_value f l = Some (v, r) →
  json_elements (S f) l =
  match skip r with
  | c :: r' => if Ascii.eqb c "," then '(vs, r'') ← json_elements f (skip r'); Some (v :: vs, r'')
               else if Ascii.eqb c "]" then Some ([v], r') else None
  | [] => None
  end.
Proof. intros H. cbn [json_elements]. by rewrite H. Qed.

Lemma members_key f k w1 w2 l : Forall (λ c, plain_char c = true) k → gap w1 → gap w2 → solid l →
  json_members (S f) (quoted k ++ w1 ++ ":"%char :: w2 ++ l) =
  ('(v, r) ← json_value f l;
   match skip r with
   | c :: r' => if Ascii.eqb c "," then '(ms, r'') ← json_members f (skip r'); Some ((str_of k, v) :: ms, r'')
                else if Ascii.eqb c "}" then Some ([(str_of k, v)], r') else None
   | [] => None
   end).
Proof.
  intros Hk H1 H2 Hl. unfold quoted. cbn [app json_members]. rewrite Ascii.eqb_refl. cbn [negb]. rewrite <- app_assoc. cbn [app].
  rewrite string_read by done. cbn [mbind option_bind]. rewrite skip_gap by done. rewrite (skip_solid (":"%char :: _)) by done.
  rewrite Ascii.eqb_refl. cbn [negb]. by rewrite skip_gap, skip_solid by done.
Qed.

(** The fuel that is left for a part of a text. *)
Ltac take_fuel f := destruct f as [|f]; [cbn [length app] in *; rewrite ?length_app in *; cbn [length] in *; lia|].
Ltac fuel_left := unfold quoted in *; cbn [length app] in *; repeat (rewrite !length_app in * || cbn [length] in *); lia.

Lemma reader_complete :
  (∀ v l, json v l → ∀ f r, ends r → (2 * length l ≤ f)%nat → json_value f (l ++ r) = Some (v, r)) ∧
  (∀ vs l, elements vs l → ∀ f r, (2 * length l ≤ f)%nat → json_elements f (l ++ r) = Some (vs, r)) ∧
  (∀ ms l, members ms l → ∀ f r, (2 * length l ≤ f)%nat → json_members f (l ++ r) = Some (ms, r)).
Proof.
  apply json_mutind.
  - intros [|f] r _ Hf; [simpl in Hf; lia|done].
  - intros [|f] r _ Hf; [simpl in Hf; lia|done].
  - intros [|f] r _ Hf; [simpl in Hf; lia|done].
  - intros z f r Hr Hf. pose proof (json_head _ _ (JInt z)) as Hh. pose proof (scalar_int z r Hr) as Hs.
    destruct (chars_of (py_str_Z z)) as [|c l] eqn:E; [done|]. destruct f as [|f]; [cbn in Hf; lia|]. cbn [app json_value] in *.
    assert (Ascii.eqb c quote_char = false ∧ Ascii.eqb c "[" = false ∧ Ascii.eqb c "{" = false) as (-> & -> & ->); [|exact Hs].
    clear -E. rewrite chars_of_str_Z in E. destruct (z <? 0) eqn:Hz; [by injection E as <- _|].
    destruct (nat_chars_spec z) as (_ & Hd & _); [lia|]. rewrite E in Hd. inversion Hd as [|? ? Hc _]; subst.
    split_and!; apply Ascii.eqb_neq; intros ->; done.
  - intros s Hs [|f] r _ Hf; [simpl in Hf; lia|]. unfold quoted. cbn [app json_value]. rewrite Ascii.eqb_refl, <- app_assoc. cbn [app].
    by rewrite string_read.
  - intros w Hw [|f] r _ Hf; [simpl in Hf; lia|]. cbn [app json_value]. rewrite <- app_assoc, skip_gap by done. done.
  - intros w vs l Hw Hl IH f r _ Hf. take_fuel f. pose proof (elements_head _ _ Hl) as Hh. cbn [app]. rewrite <- app_assoc, value_array; [|done|by destruct l].
    rewrite IH; [done|fuel_left].
  - intros w Hw [|f] r _ Hf; [simpl in Hf; lia|]. cbn [app json_value]. rewrite <- app_assoc, skip_gap by done. done.
  - intros w ms l Hw Hl IH Hd f r _ Hf. take_fuel f.
    assert (match l with c :: _ => head_ok c | [] => False end) as Hh by (destruct Hl; by repeat split).
    cbn [app]. rewrite <- app_assoc, value_object; [|done|by destruct l]. rewrite IH by fuel_left. cbn [mbind option_bind]. by rewrite dict_built.
  - intros v l w Hl IH Hw f r Hf. take_fuel f. rewrite <- !app_assoc. cbn [app].
    rewrite (elements_value f _ v (w ++ "]"%char :: r)); [|apply IH; [apply ends_gap; [done|by apply (bool_decide_eq_true_1 _)]|fuel_left]].
    rewrite skip_gap by done. done.
  - intros v l w1 w2 vs r' Hl IH H1 H2 Hr IHr f r Hf. take_fuel f. rewrite <- !app_assoc. cbn [app]. rewrite <- !app_assoc.
    rewrite (elements_value f _ v (w1 ++ ","%char :: w2 ++ r' ++ r)); [|apply IH; [apply ends_gap; [done|by apply (bool_decide_eq_true_1 _)]|fuel_left]].
    rewrite skip_gap, (skip_solid (","%char :: _)) by done. rewrite Ascii.eqb_refl, skip_to; [|done|].
    + rewrite IHr by fuel_left. done.
    + apply elements_head in Hr. destruct r'; [done|]. by destruct Hr.
  - intros k w1 w2 v l w3 Hk H1 H2 Hl IH H3 f r Hf. take_fuel f. rewrite <- !app_assoc. cbn [app]. rewrite <- !app_assoc. cbn [app].
    pose proof (json_solid _ _ Hl) as Hs. rewrite members_key; [|done..|by destruct l].
    rewrite IH; [|apply ends_gap; [done|by apply (bool_decide_eq_true_1 _)]|fuel_left]. cbn [mbind option_bind]. rewrite skip_gap by done. done.
  - intros k w1 w2 v l w3 w4 ms r' Hk H1 H2 Hl IH H3 H4 Hr IHr f r Hf. take_fuel f. rewrite <- !app_assoc. cbn [app]. rewrite <- !app_assoc. cbn [app]. rewrite <- !app_assoc.
    pose proof (json_solid _ _ Hl) as Hs. rewrite members_key; [|done..|by destruct l].
    rewrite IH; [|apply ends_gap; [done|by apply (bool_decide_eq_true_1 _)]|fuel_left]. cbn [mbind option_bind]. rewrite skip_gap, (skip_solid (","%char :: _)) by done.
    rewrite Ascii.eqb_refl, skip_to; [|done|by destruct Hr]. rewrite IHr by fuel_left. done.
Qed.

(** A text of the grammar, with blanks around it, is read. *)
Lemma json_read v l w1 w2 : json v l → gap w1 → gap w2 → json_loads (str_of (w1 ++ l ++ w2)) = Ret v.
Proof.
  intros Hl H1 H2. unfold json_loads. rewrite chars_of_str_of, skip_to by (done || by apply json_solid with v).
  rewrite (proj1 reader_complete v l Hl).
  - assert (skip w2 = []) as ->; [|done]. rewrite <- (app_nil_r w2). by rewrite skip_gap.
  - rewrite <- (app_nil_r w2). destruct H2; [done|by left].
  - rewrite !length_app. lia.
Qed.
