(* ===== verification/NvmeTcp.v ===== *)
(** * The initiator for NVMe over TCP: io/disk/nvmetcp/nvme_tcp_initiator.py

    The class [NVMeTCPInitiator]: the network of the initiator is set up, the targets are
    discovered and connected, the paths and the namespaces are looked at in the JSON listings of
    nvme-cli.  The library functions are the class [TcpLib].  setUp sets every attribute before a
    test method reads it; [new_nt] stands for the object before. *)

From S2P Require Import Prelude PyStr PyFloat PyVal PyJson Avocado Logic.
Open Scope Z_scope.

(** ** Data *)

Record nt_self := NtSelf {
  nt_primary_ip : pyval; nt_primary_interface : pyval; nt_primary_subnet : pyval; nt_primary_gateway : pyval;
  nt_secondary_ip : pyval; nt_secondary_interface : pyval; nt_secondary_subnet : pyval; nt_secondary_gateway : pyval;
  nt_target_ips : list string;
  nt_subsystem_nqn : pyval;
  nt_target_port : pyval;
  nt_network_mode : string;
  nt_connected_controllers : list pyval;
  nt_namespaces : list pyval;
  nt_multipath_enabled : bool;
  nt_os_family : string;
}.

Definition new_nt : nt_self := NtSelf VNone VNone VNone VNone VNone VNone VNone VNone [] VNone VNone "" [] [] false "".

Definition with_primary_interface (v : pyval) (x : nt_self) : nt_self :=
  NtSelf (nt_primary_ip x) v (nt_primary_subnet x) (nt_primary_gateway x) (nt_secondary_ip x) (nt_secondary_interface x)
    (nt_secondary_subnet x) (nt_secondary_gateway x) (nt_target_ips x) (nt_subsystem_nqn x) (nt_target_port x) (nt_network_mode x)
    (nt_connected_controllers x) (nt_namespaces x) (nt_multipath_enabled x) (nt_os_family x).
Definition with_secondary_interface (v : pyval) (x : nt_self) : nt_self :=
  NtSelf (nt_primary_ip x) (nt_primary_interface x) (nt_primary_subnet x) (nt_primary_gateway x) (nt_secondary_ip x) v
    (nt_secondary_subnet x) (nt_secondary_gateway x) (nt_target_ips x) (nt_subsystem_nqn x) (nt_target_port x) (nt_network_mode x)
    (nt_connected_controllers x) (nt_namespaces x) (nt_multipath_enabled x) (nt_os_family x).
Definition with_connected_controllers (v : list pyval) (x : nt_self) : nt_self :=
  NtSelf (nt_primary_ip x) (nt_primary_interface x) (nt_primary_subnet x) (nt_primary_gateway x) (nt_secondary_ip x) (nt_secondary_interface x)
    (nt_secondary_subnet x) (nt_secondary_gateway x) (nt_target_ips x) (nt_subsystem_nqn x) (nt_target_port x) (nt_network_mode x)
    v (nt_namespaces x) (nt_multipath_enabled x) (nt_os_family x).
Definition with_namespaces (v : list pyval) (x : nt_self) : nt_self :=
  NtSelf (nt_primary_ip x) (nt_primary_interface x) (nt_primary_subnet x) (nt_primary_gateway x) (nt_secondary_ip x) (nt_secondary_interface x)
    (nt_secondary_subnet x) (nt_secondary_gateway x) (nt_target_ips x) (nt_subsystem_nqn x) (nt_target_port x) (nt_network_mode x)
    (nt_connected_controllers x) v (nt_multipath_enabled x) (nt_os_family x).
Definition with_multipath_enabled (v : bool) (x : nt_self) : nt_self :=
  NtSelf (nt_primary_ip x) (nt_primary_interface x) (nt_primary_subnet x) (nt_primary_gateway x) (nt_secondary_ip x) (nt_secondary_interface x)
    (nt_secondary_subnet x) (nt_secondary_gateway x) (nt_target_ips x) (nt_subsystem_nqn x) (nt_target_port x) (nt_network_mode x)
    (nt_connected_controllers x) (nt_namespaces x) v (nt_os_family x).
Definition with_os_family (v : string) (x : nt_self) : nt_self :=
  NtSelf (nt_primary_ip x) (nt_primary_interface x) (nt_primary_subnet x) (nt_primary_gateway x) (nt_secondary_ip x) (nt_secondary_interface x)
    (nt_secondary_subnet x) (nt_secondary_gateway x) (nt_target_ips x) (nt_subsystem_nqn x) (nt_target_port x) (nt_network_mode x)
    (nt_connected_controllers x) (nt_namespaces x) (nt_multipath_enabled x) v.

(** The library functions that this class calls. *)
Class TcpLib (W : Type) := {
  tl_lib : string → list pyval → W → result pyval * W;
  (* localhost.get_interface_by_ipaddr(ip): the name of the interface, where there is one *)
  tl_interface_of : pyval → W → result (option string) * W;
  tl_default_interfaces : W → result (list string) * W;   (* localhost.get_default_route_interface *)
  tl_nw_exception : exn_class → bool;                     (* isinstance(e, NWException) *)
  tl_distro : string;                                     (* distro.detect().name *)
  tl_release : string;                                    (* os.uname().release *)
}.

(** ** The listings *)

(** The classes of the handlers; JSONDecodeError is a ValueError, and nothing else raises one there. *)
Definition cmd_error (c : exn_class) : bool := bool_decide (c = CmdError).
Definition os_error (c : exn_class) : bool := bool_decide (c = OSError).
Definition cmd_or_json_error (c : exn_class) : bool := bool_decide (c ∈ [CmdError; ValueError]).
Definition listing_error (c : exn_class) : bool := bool_decide (c ∈ [CmdError; ValueError; KeyError]).

(** [x.get(key, default)] as a list to go through *)
Definition get_list (v : pyval) (key : string) : result (list pyval) := l ← py_get v key (VList []); py_iter l.

(** The names of the paths, those that are not empty. *)
Fixpoint path_names (paths : list pyval) : result (list pyval) :=
  match paths with
  | [] => Ret []
  | path :: paths' => ctrl_name ← py_get path "Name" VNone; names ← path_names paths'; Ret (if truthy ctrl_name then ctrl_name :: names else names)
  end.

Fixpoint subsystem_names (nqn : pyval) (subsystems : list pyval) : result (list pyval) :=
  match subsystems with
  | [] => Ret []
  | subsys :: l =>
      n ← py_get subsys "NQN" VNone;
      names ← (if py_eq n nqn then paths ← get_list subsys "Paths"; path_names paths else Ret []);
      rest ← subsystem_names nqn l;
      Ret (names ++ rest)
  end.

Fixpoint controllers_in (nqn : pyval) (hosts : list pyval) : result (list pyval) :=
  match hosts with
  | [] => Ret []
  | host :: hosts' =>
      l ← get_list host "Subsystems"; names ← subsystem_names nqn l; rest ← controllers_in nqn hosts'; Ret (names ++ rest)
  end.

(** The state of the first path with this name. *)
Fixpoint state_of (ctrl : pyval) (paths : list pyval) : result pyval :=
  match paths with
  | [] => Ret (VStr "unknown")
  | p :: paths' => n ← py_get p "Name" VNone; if py_eq n ctrl then py_get p "State" VNone else state_of ctrl paths'
  end.

Definition subsys_cmd : string := "nvme list-subsys -o json".
Definition multipath_param : string := "/sys/module/nvme_core/parameters/multipath".
Definition discovery_conf : string := "/etc/nvme/discovery.conf".
Definition rule70 : string := "======================================================================".
Definition rule60 : string := "============================================================".

(** ** The class NVMeTCPInitiator *)

Section NVMeTCPInitiator.
Context {W : Type} {HE : Env W} {HT : TcpLib W}.
Abbreviation T := (M W nt_self).

Definition tl_call (fn : string) (args : list pyval) : T pyval := ext (EvCall fn args) (tl_lib fn args).
Definition tl_do (fn : string) (args : list pyval) : T () := _ ← tl_call fn args; mret ().

(** A loop that an iteration can leave by [return]. *)
Fixpoint for_until {X} (l : list X) (body : X → T bool) : T bool :=
  match l with [] => mret false | x :: l' => b ← body x; if (b : bool) then mret true else for_until l' body end.

(** The subsystems of the listing with the NQN of the test, in order. *)
Definition each_subsystem (data : pyval) (body : pyval → T bool) : T bool :=
  hosts ← lift (py_iter data);
  for_until hosts (λ host,
    subsystems ← lift (get_list host "Subsystems");
    for_until subsystems (λ subsys,
      n ← lift (py_get subsys "NQN" VNone);
      nqn ← gets nt_subsystem_nqn;
      if py_eq n nqn then body subsys else mret false)).

(** [json.loads(process.system_output(cmd, shell=True, sudo=True).decode())] *)
Definition listing (cmd : string) : T pyval := output ← process_system_output cmd [Shell; Sudo]; lift (json_loads output).

(** *** setUp *)

Definition detect_family : T () :=
  let distro_name := py_lower tl_distro in
  if existsb (String.eqb distro_name) ["rhel"; "centos"; "rocky"; "alma"; "fedora"]%string then
    modify (with_os_family "rhel") ;; log_info ("Detected RHEL-based distribution: " +:+ distro_name)
  else if existsb (String.eqb distro_name) ["suse"; "sles"; "opensuse"; "opensuse-leap"]%string then
    modify (with_os_family "suse") ;; log_info ("Detected SUSE-based distribution: " +:+ distro_name)
  else test_cancel ("Unsupported OS: " +:+ distro_name).

Definition install_required_packages : T () :=
  os_family ← gets nt_os_family;
  let packages := ["nvme-cli"; "util-linux"; if String.eqb os_family "rhel" then "iproute" else "iproute2"]%string in
  log_info "Installing required packages for NVMe/TCP initiator..." ;;
  installed ← tl_call "install_distro_packages" [VDict [(py_lower tl_distro, VList (map VStr packages))]];
  log_info (if truthy installed then "Packages installed successfully" else "Packages already installed or installation skipped") ;;
  c ← tl_call "SoftwareManager.check_installed" [VStr "nvme-cli"];
  when (negb (truthy c)) (test_cancel "nvme-cli package is required but not installed. Please install it manually and retry.").

Definition load_nvme_modules : T () :=
  try_except
    (loaded ← tl_call "linux_modules.module_is_loaded" [VStr "nvme-tcp"];
     (if truthy loaded then log_info "nvme-tcp module already loaded"
      else log_info "Loading nvme-tcp module..." ;; tl_do "linux_modules.load_module" [VStr "nvme-tcp"] ;;
           log_info "nvme-tcp module loaded successfully") ;;
     fabrics ← tl_call "linux_modules.module_is_loaded" [VStr "nvme-fabrics"];
     if truthy fabrics then log_info "nvme-fabrics module is loaded"
     else log_warning "nvme-fabrics module not loaded - may load automatically") cmd_error
    (λ e, test_cancel ("Failed to load nvme-tcp module: " +:+ ex_msg e)).

Definition write_file (path text : string) : T () := tl_do "genio.write_file" [VStr path; VStr text].

Definition configure_module_autoload : T () :=
  let module_conf := "/etc/modules-load.d/nvme-tcp.conf"%string in
  e ← path_exists module_conf;
  if negb e then
    log_info "Configuring nvme-tcp module auto-load..." ;;
    try_except (write_file module_conf ("nvme-tcp" +:+ NL) ;; log_info ("Created " +:+ module_conf)) os_error
      (λ e, log_warning ("Failed to create module auto-load config: " +:+ ex_msg e))
  else log_info "Module auto-load already configured".

Definition validate_prerequisites : T () :=
  log_info "Validating prerequisites..." ;;
  log_info ("Kernel version: " +:+ tl_release) ;;
  install_required_packages ;;
  load_nvme_modules ;;
  configure_module_autoload.

Definition setUp : T () :=
  primary_ip ← get_param "primary_ip" VNone;
  primary_interface ← get_param "primary_interface" VNone;
  primary_subnet ← get_param "primary_subnet" VNone;
  primary_gateway ← get_param "primary_gateway" VNone;
  secondary_ip ← get_param "secondary_ip" VNone;
  secondary_interface ← get_param "secondary_interface" VNone;
  secondary_subnet ← get_param "secondary_subnet" VNone;
  secondary_gateway ← get_param "secondary_gateway" VNone;
  target_ips ← get_param "target_ips" (VStr "");
  subsystem_nqn ← get_param "subsystem_nqn" VNone;
  target_port ← get_param "target_port" (VInt 4420);
  when (negb (truthy primary_ip)) (test_cancel "primary_ip parameter is required") ;;
  when (negb (truthy target_ips)) (test_cancel "target_ips parameter is required") ;;
  when (negb (truthy subsystem_nqn)) (test_cancel "subsystem_nqn parameter is required") ;;
  targets ← lift (as_text target_ips);
  let network_mode := (if truthy secondary_ip then "multi_path" else "single_path")%string in
  modify (λ _, NtSelf primary_ip primary_interface primary_subnet primary_gateway secondary_ip secondary_interface secondary_subnet
    secondary_gateway (py_split targets) subsystem_nqn target_port network_mode [] [] false "") ;;
  tl_do "LocalHost" [] ;;
  log_info ("Network mode: " +:+ network_mode) ;;
  log_info ("Primary IP: " +:+ py_str primary_ip) ;;
  when (truthy primary_interface) (log_info ("Primary Interface: " +:+ py_str primary_interface)) ;;
  when (truthy secondary_ip)
    (log_info ("Secondary IP: " +:+ py_str secondary_ip) ;;
     when (truthy secondary_interface) (log_info ("Secondary Interface: " +:+ py_str secondary_interface))) ;;
  log_info ("Target IPs: " +:+ py_repr (VList (map VStr (py_split targets)))) ;;
  log_info ("Subsystem NQN: " +:+ py_str subsystem_nqn) ;;
  detect_family ;;
  validate_prerequisites.

(** *** The network *)

Definition net_if (method : string) (interface : pyval) (args : list pyval) : T pyval := tl_call ("NetworkInterface." +:+ method) (interface :: args).
Definition net_if_do (method : string) (interface : pyval) (args : list pyval) : T () := _ ← net_if method interface args; mret ().

(** The first handler that takes the exception; both only log. *)
Definition nw_handler (nw other : string) (e : exn) : T () :=
  log_warning ((if tl_nw_exception (ex_class e) then nw else other) +:+ ex_msg e).

Definition configure_ip_on_interface (ip_addr interface subnet gateway : pyval) : T () :=
  log_info ("Configuring IP " +:+ py_str ip_addr +:+ " on interface " +:+ py_str interface) ;;
  try_except
    (net_if_do "add_ipaddr" interface [ip_addr; subnet] ;;
     log_info ("Added IP " +:+ py_str ip_addr +:+ "/" +:+ py_str subnet +:+ " to " +:+ py_str interface) ;;
     net_if_do "bring_up" interface [] ;;
     log_info ("Brought interface " +:+ py_str interface +:+ " UP") ;;
     when (truthy gateway)
       (log_info ("Gateway " +:+ py_str gateway +:+ " specified but NOT configured to preserve existing routing and prevent management connection loss. Configure gateway manually if needed for specific routes.")) ;;
     log_info ("Successfully configured IP " +:+ py_str ip_addr +:+ " on " +:+ py_str interface) ;;
     try_except
       (log_info "Saving network configuration to make it persistent..." ;;
        net_if_do "save" interface [ip_addr; subnet] ;;
        log_info ("Network configuration saved persistently for " +:+ py_str interface)) any_exn
       (λ e, log_warning (if tl_nw_exception (ex_class e)
                          then "Failed to save persistent network config: " +:+ ex_msg e +:+ ". IP is configured but may not survive reboot."
                          else "Unexpected error saving network config: " +:+ ex_msg e))) any_exn
    (nw_handler "Network configuration failed: " "Failed to configure IP: ").

Definition interface_by_ipaddr (ip_addr : pyval) : T (option string) :=
  ext (EvCall "LocalHost.get_interface_by_ipaddr" [ip_addr]) (tl_interface_of ip_addr).

(** The name of the interface with the address; [None] also where the search raises. *)
Definition validate_ip_on_interface (ip_addr interface : pyval) : T (option string) :=
  try_except
    (detected_if ← interface_by_ipaddr ip_addr;
     match detected_if with
     | Some detected_name =>
         when (truthy interface && negb (py_eq (VStr detected_name) interface))
           (log_warning ("IP " +:+ py_str ip_addr +:+ " found on " +:+ detected_name +:+ ", not on specified " +:+ py_str interface)) ;;
         log_info ("Validated IP " +:+ py_str ip_addr +:+ " on interface " +:+ detected_name) ;;
         mret (Some detected_name)
     | None => log_info ("IP " +:+ py_str ip_addr +:+ " not found on any interface") ;; mret None
     end) any_exn
    (λ e, nw_handler "Failed to validate IP: " "Unexpected error during IP validation: " e ;; mret None).

(** One of the two addresses: it is looked for, configured where it is missing, and its interface is kept. *)
Definition validate_address (which : string) (ip interface subnet gateway : pyval) (keep : pyval → nt_self → nt_self) : T () :=
  detected ← validate_ip_on_interface ip interface;
  let known := match detected with Some name => negb (py_empty name) | None => false end in
  when (negb known && truthy interface)
    (if truthy subnet then
       log_info ("IP " +:+ py_str ip +:+ " not found, configuring on " +:+ py_str interface +:+ "...") ;;
       configure_ip_on_interface ip interface subnet gateway
     else test_fail ("IP " +:+ py_str ip +:+ " not found and no subnet provided for configuration")) ;;
  match detected with
  | Some name =>
      when (negb (truthy interface) && known)
        (modify (keep (VStr name)) ;; log_info ("Auto-detected " +:+ which +:+ " interface: " +:+ name))
  | None => mret ()
  end.

Definition verify_interface_status (ip_addr interface : pyval) : T () :=
  log_info ("Verifying IP " +:+ py_str ip_addr +:+ " configuration...") ;;
  detected_if ← interface_by_ipaddr ip_addr;
  match detected_if with
  | None => test_fail ("IP " +:+ py_str ip_addr +:+ " not found on any interface after configuration")
  | Some detected_name =>
      when (negb (py_eq (VStr detected_name) interface))
        (log_warning ("IP " +:+ py_str ip_addr +:+ " found on " +:+ detected_name +:+ " instead of specified " +:+ py_str interface +:+ ". Using " +:+ detected_name +:+ " for this test.") ;;
         x ← gets id;
         if py_eq ip_addr (nt_primary_ip x) then modify (with_primary_interface (VStr detected_name))
         else when (py_eq ip_addr (nt_secondary_ip x)) (modify (with_secondary_interface (VStr detected_name)))) ;;
      up ← net_if "is_link_up" (VStr detected_name) [];
      when (negb (truthy up)) (test_fail ("Interface " +:+ detected_name +:+ " with IP " +:+ py_str ip_addr +:+ " is not UP")) ;;
      log_info ("Verified: IP " +:+ py_str ip_addr +:+ " on interface " +:+ detected_name +:+ " is UP")
  end.

Definition validate_network_configuration : T () :=
  log_info "Validating network configuration..." ;;
  x ← gets id;
  validate_address "primary" (nt_primary_ip x) (nt_primary_interface x) (nt_primary_subnet x) (nt_primary_gateway x) with_primary_interface ;;
  when (truthy (nt_secondary_ip x))
    (validate_address "secondary" (nt_secondary_ip x) (nt_secondary_interface x) (nt_secondary_subnet x) (nt_secondary_gateway x)
       with_secondary_interface) ;;
  sleep (VInt 2) ;;
  log_info "Waiting for network interfaces to stabilize..." ;;
  x ← gets id;
  verify_interface_status (nt_primary_ip x) (nt_primary_interface x) ;;
  x ← gets id;
  when (truthy (nt_secondary_ip x) && truthy (nt_secondary_interface x))
    (verify_interface_status (nt_secondary_ip x) (nt_secondary_interface x)) ;;
  log_info "Network configuration validated successfully".

(** *** Connectivity *)

Definition ping_target (target_ip : string) (source_interface : pyval) : T bool :=
  try_except
    (defaults ← (if truthy source_interface then mret [source_interface]
                 else l ← ext (EvCall "LocalHost.get_default_route_interface" []) tl_default_interfaces; mret (map VStr l));
     match defaults with
     | [] =>
         log_warning "No default route interface found, using system default" ;;
         _ ← process_run ("ping -c 3 -W 2 " +:+ target_ip) [Shell; Sudo];
         log_info ("Ping to " +:+ target_ip +:+ " successful") ;;
         mret true
     | interface :: _ =>
         net_if_do "ping_check" interface [VStr target_ip; VInt 3; VStr "-W 2"] ;;
         log_info ("Ping to " +:+ target_ip +:+ " from " +:+ py_str interface +:+ " successful") ;;
         mret true
     end) any_exn
    (λ e, (if tl_nw_exception (ex_class e) || cmd_error (ex_class e)
           then log_warning ("Ping to " +:+ target_ip +:+ " failed: " +:+ ex_msg e)
           else log_warning ("Ping test failed: " +:+ ex_msg e)) ;;
          mret false).

(** What is logged of a port; formatting it may not be possible, and then nothing is. *)
Definition log_port (l : level) (port : pyval) (text : string → string) : T () := log_fmt l (p ← fmt_d port; Ret (text p)).

Definition port_cmd (target_ip port : string) : string :=
  "timeout 5 bash -c 'cat < /dev/null > /dev/tcp/" +:+ target_ip +:+ "/" +:+ port +:+ "'".

Definition port_result (target_ip : string) (port : pyval) (how : string) (result : cmd_result) : T bool :=
  if exit_status result =? 0 then
    log_port Info port (λ p, "Port " +:+ p +:+ " on " +:+ target_ip +:+ " is reachable" +:+ how) ;; mret true
  else log_port Warning port (λ p, "Port " +:+ p +:+ " on " +:+ target_ip +:+ " is not reachable") ;; mret false.

Definition test_port_connectivity (target_ip : string) (port : pyval) : T bool :=
  p ← lift (fmt_d port);
  try_except
    (result ← process_run (port_cmd target_ip p) [Shell; IgnoreStatus]; port_result target_ip port "" result) cmd_error
    (λ _, try_except
       (result ← process_run ("nc -zv -w 5 " +:+ target_ip +:+ " " +:+ p) [Shell; IgnoreStatus];
        port_result target_ip port " (via nc)" result) cmd_error
       (λ e, log_warning ("Port connectivity test failed: " +:+ ex_msg e) ;; mret false)).

(** The first target is pinged from the primary interface, the second from the secondary one. *)
Definition source_interface (i : nat) (x : nt_self) : pyval :=
  match i with
  | O => nt_primary_interface x
  | S O => if truthy (nt_secondary_interface x) then nt_secondary_interface x else VNone
  | _ => VNone
  end.

Definition connectivity_step (all_reachable : bool) (target : nat * string) : T bool :=
  let '(i, target_ip) := target in
  log_info ("Testing connectivity to target " +:+ target_ip +:+ "...") ;;
  x ← gets id;
  ping_success ← ping_target target_ip (source_interface i x);
  when (negb ping_success) (log_warning ("ICMP ping to " +:+ target_ip +:+ " failed (may be blocked by firewall)")) ;;
  port_success ← test_port_connectivity target_ip (nt_target_port x);
  if negb port_success then
    log_port Error (nt_target_port x) (λ p, "Port " +:+ p +:+ " on " +:+ target_ip +:+ " is not reachable") ;; mret false
  else log_port Info (nt_target_port x) (λ p, "Target " +:+ target_ip +:+ ":" +:+ p +:+ " is reachable") ;; mret all_reachable.

Definition validate_connectivity : T () :=
  log_info "Testing connectivity to targets..." ;;
  x ← gets id;
  all_reachable ← for_acc (imap pair (nt_target_ips x)) true connectivity_step;
  when (negb all_reachable)
    (p ← lift (fmt_d (nt_target_port x)); test_fail ("One or more targets are not reachable on port " +:+ p)) ;;
  log_info "All targets are reachable".

(** *** Discovery and connection *)

Definition discover_single_target (target_ip : string) : T string :=
  x ← gets id;
  p ← lift (fmt_d (nt_target_port x));
  try_except
    (output ← process_system_output ("nvme discover -t tcp -a " +:+ target_ip +:+ " -s " +:+ p) [Shell; Sudo];
     log_info ("Discovery output for " +:+ target_ip +:+ ":" +:+ NL +:+ output) ;;
     found ← lift (py_contains (nt_subsystem_nqn x) (VStr output));
     when (negb found)
       (log_warning ("Subsystem NQN " +:+ py_str (nt_subsystem_nqn x) +:+ " not found in discovery log for " +:+ target_ip)) ;;
     mret output) cmd_error
    (λ e, test_fail ("Discovery failed for " +:+ target_ip +:+ ": " +:+ ex_msg e)).

Definition discover_targets : T () :=
  log_info "Discovering NVMe/TCP targets..." ;;
  targets ← gets nt_target_ips;
  for_each targets (λ target_ip, _ ← discover_single_target target_ip; mret ()).

Definition connect_cmd (nqn : pyval) (target_ip port : string) : string :=
  "nvme connect -t tcp -n " +:+ py_str nqn +:+ " -a " +:+ target_ip +:+ " -s " +:+ port.

Definition connect_to_single_target (target_ip : string) : T () :=
  x ← gets id;
  p ← lift (fmt_d (nt_target_port x));
  try_except
    (output ← process_system_output (connect_cmd (nt_subsystem_nqn x) target_ip p) [Shell; Sudo];
     log_info ("Connection output for " +:+ target_ip +:+ ": " +:+ output)) cmd_error
    (λ e, test_fail ("Connection failed for " +:+ target_ip +:+ ": " +:+ ex_msg e)).

Definition get_connected_controllers : T (list pyval) :=
  nqn ← gets nt_subsystem_nqn;
  try_except
    (data ← listing subsys_cmd; lift (hosts ← py_iter data; controllers_in nqn hosts)) listing_error
    (λ e, log_warning ("Failed to get connected controllers: " +:+ ex_msg e) ;; mret []).

Definition show_list (l : list pyval) : string := py_repr (VList l).

Definition connect_to_subsystem : T () :=
  nqn ← gets nt_subsystem_nqn;
  log_info ("Connecting to subsystem " +:+ py_str nqn +:+ "...") ;;
  existing_controllers ← get_connected_controllers;
  if negb (bool_decide (length existing_controllers = 0%nat)) then
    log_info rule70 ;;
    log_info "NVMe/TCP configuration already exists for subsystem:" ;;
    log_info ("  Subsystem NQN: " +:+ py_str nqn) ;;
    log_info ("  Connected Controllers: " +:+ show_list existing_controllers) ;;
    log_info "  Status: ACTIVE" ;;
    log_info "Skipping connection - using existing configuration" ;;
    log_info rule70 ;;
    modify (with_connected_controllers existing_controllers)
  else
    targets ← gets nt_target_ips;
    for_each targets connect_to_single_target ;;
    sleep (VInt 5) ;;
    connected ← get_connected_controllers;
    modify (with_connected_controllers connected) ;;
    when (bool_decide (length connected = 0%nat)) (test_fail "No controllers created after connection") ;;
    log_info ("Successfully connected controllers: " +:+ show_list connected).

(** *** Multipath *)

(** The paths that are live, and those that are optimized. *)
Fixpoint count_paths (paths : list pyval) (live_count optimized_count : Z) : T (Z * Z) :=
  match paths with
  | [] => mret (live_count, optimized_count)
  | path :: paths' =>
      state ← lift (py_get path "State" (VStr "unknown"));
      ana_state ← lift (py_get path "ANAState" (VStr "unknown"));
      name ← lift (py_get path "Name" VNone);
      log_info ("Path " +:+ py_str name +:+ ": state=" +:+ py_str state +:+ ", ana_state=" +:+ py_str ana_state) ;;
      count_paths paths' (if py_eq state (VStr "live") then live_count + 1 else live_count)
        (if py_eq ana_state (VStr "optimized") then optimized_count + 1 else optimized_count)
  end.

Definition multipath_subsystem (subsys : pyval) : T bool :=
  v ← lift (py_get subsys "Paths" (VList []));
  n ← lift (py_len v);
  log_info ("Found " +:+ py_str_Z n +:+ " paths for subsystem") ;;
  when (n <? 2) (test_fail ("Expected at least 2 paths for multipath, found " +:+ py_str_Z n)) ;;
  paths ← lift (py_iter v);
  c ← count_paths paths 0 0;
  let '(live_count, optimized_count) := c in
  (if 0 <? optimized_count then
     log_info ("Multipath validation successful: " +:+ py_str_Z optimized_count +:+ " optimized paths (ANA-aware)")
   else if 2 <=? live_count then
     log_info ("Multipath validation successful: " +:+ py_str_Z live_count +:+ " live paths (non-ANA target)")
   else test_fail ("Insufficient active paths: " +:+ py_str_Z live_count +:+ " live, " +:+ py_str_Z optimized_count +:+ " optimized")) ;;
  mret false.

Definition validate_multipath_paths : T () :=
  enabled ← gets nt_multipath_enabled;
  when enabled
    (log_info "Validating multipath paths..." ;;
     try_except
       (data ← listing subsys_cmd; _ ← each_subsystem data multipath_subsystem; mret ()) listing_error
       (λ e, log_warning ("Failed to validate multipath: " +:+ ex_msg e))).

Definition enable_multipath : T () :=
  try_except
    (text ← read_file multipath_param;
     if String.eqb (py_strip text) "Y" then
       log_info "NVMe multipath already enabled" ;; modify (with_multipath_enabled true)
     else
       log_info "Enabling NVMe multipath..." ;;
       write_file multipath_param "Y" ;;
       modify (with_multipath_enabled true) ;;
       log_info "NVMe multipath enabled") os_error
    (λ e, log_warning ("Failed to enable multipath: " +:+ ex_msg e)).

Definition configure_multipath : T () :=
  mode ← gets nt_network_mode;
  if negb (String.eqb mode "multi_path") then log_info "Skipping multipath configuration (single_path mode)"
  else
    log_info "Configuring NVMe multipath..." ;;
    enable_multipath ;;
    validate_multipath_paths.

(** *** Persistence *)

Definition conf_line (port target_ip : string) : string := "-t tcp -a " +:+ target_ip +:+ " -s " +:+ port +:+ NL.

(** The text of discovery.conf; the port is formatted for each target. *)
Definition conf_text (port : pyval) (targets : list string) : result string :=
  l ← results (map (λ target_ip, p ← fmt_d port; Ret (conf_line p target_ip)) targets); Ret (py_join "" l).

(** The services in turn, until one is enabled. *)
Fixpoint enable_first (services : list string) : T bool :=
  match services with
  | [] => mret false
  | service_name :: services' =>
      b ← try_except
            (tl_do "SpecificServiceManager" [VStr service_name] ;;
             e ← tl_call "service.enable" [VStr service_name];
             when (truthy e) (log_info ("Enabled " +:+ service_name +:+ ".service")) ;;
             mret (truthy e)) any_exn
            (λ e, log_debug ("Could not enable " +:+ service_name +:+ ".service: " +:+ ex_msg e) ;; mret false);
      if (b : bool) then mret true else enable_first services'
  end.

Definition configure_persistence : T () :=
  log_info "Configuring persistence..." ;;
  tl_do "os.makedirs" [VStr "/etc/nvme"; VBool true] ;;
  x ← gets id;
  text ← lift (conf_text (nt_target_port x) (nt_target_ips x));
  try_except
    (write_file discovery_conf text ;;
     log_info ("Created " +:+ discovery_conf +:+ " for discovery controllers") ;;
     log_info ("Discovery config: " +:+ py_strip text)) os_error
    (λ e, log_warning ("Failed to create discovery.conf: " +:+ ex_msg e)) ;;
  service_enabled ← enable_first ["nvme-connect"; "nvmf-autoconnect"]%string;
  when (negb service_enabled)
    (log_info "No systemd service available (nvme-connect or nvmf-autoconnect). Persistence relies on discovery.conf only.").

(** *** Validation *)

(** Every connected controller is a path of the subsystem; the loops end here. *)
Definition controllers_subsystem (connected : list pyval) (subsys : pyval) : T bool :=
  paths ← lift (get_list subsys "Paths");
  found_controllers ← lift (path_names paths);
  for_each connected (λ ctrl,
    if existsb (py_eq ctrl) found_controllers then
      state ← lift (state_of ctrl paths); log_info ("Controller " +:+ py_str ctrl +:+ " validated: state=" +:+ py_str state)
    else test_fail ("Controller " +:+ py_str ctrl +:+ " not found in subsystem")) ;;
  mret true.

Definition validate_controllers : T () :=
  log_info "Validating controllers..." ;;
  x ← gets id;
  let connected := nt_connected_controllers x in
  when (bool_decide (length connected = 0%nat)) (test_fail "No connected controllers found") ;;
  when (negb (bool_decide (length connected = length (nt_target_ips x))))
    (log_warning ("Controller count mismatch: expected=" +:+ py_str_Z (Z.of_nat (length (nt_target_ips x))) +:+
                  ", actual=" +:+ py_str_Z (Z.of_nat (length connected)))) ;;
  try_except
    (data ← listing subsys_cmd;
     b ← each_subsystem data (controllers_subsystem connected);
     when (negb b) (test_fail ("Subsystem " +:+ py_str (nt_subsystem_nqn x) +:+ " not found in nvme list-subsys"))) cmd_or_json_error
    (λ e, log_warning ("Failed to validate controllers: " +:+ ex_msg e)).

Definition namespace_step (device : pyval) : T () :=
  ns_path ← lift (py_get device "DevicePath" VNone);
  when (truthy ns_path)
    (l ← gets nt_namespaces;
     modify (with_namespaces (l ++ [ns_path])) ;;
     size ← lift (py_get device "Size" (VStr "unknown"));
     log_info ("Found namespace: " +:+ py_str ns_path +:+ " (size: " +:+ py_str size +:+ ")")).

Definition validate_namespaces : T () :=
  log_info "Validating namespaces..." ;;
  try_except
    (data ← listing "nvme list -o json";
     modify (with_namespaces []) ;;
     devices ← lift (get_list data "Devices");
     for_each devices namespace_step ;;
     l ← gets nt_namespaces;
     when (bool_decide (length l = 0%nat)) (test_fail "No namespaces found") ;;
     log_info ("Found " +:+ py_str_Z (Z.of_nat (length l)) +:+ " namespace(s)")) cmd_or_json_error
    (λ e, test_fail ("Failed to validate namespaces: " +:+ ex_msg e)).

Definition validate_configuration : T () :=
  log_info "Validating configuration..." ;;
  validate_controllers ;;
  validate_namespaces ;;
  enabled ← gets nt_multipath_enabled;
  when enabled validate_multipath_paths ;;
  log_info "Configuration validation successful".

(** *** The report *)

Definition if_given (v : pyval) (line : string) : list string := if truthy v then [line +:+ py_str v]%string else [].

Definition status_report (x : nt_self) : result string :=
  port ← fmt_d (nt_target_port x);
  Ret (py_join NL (
    [rule60; "NVMe/TCP Initiator Configuration Report"; rule60; ""; "Status: SUCCESS"; ""; "System Information:";
     "  OS Family: " +:+ nt_os_family x; "  Kernel: " +:+ tl_release; ""; "Network Configuration:";
     "  Network Mode: " +:+ nt_network_mode x; "  Primary IP: " +:+ py_str (nt_primary_ip x)]%string ++
    if_given (nt_primary_interface x) "  Primary Interface: " ++
    if_given (nt_primary_subnet x) "  Primary Subnet: " ++
    if_given (nt_primary_gateway x) "  Primary Gateway: " ++
    (if truthy (nt_secondary_ip x) then
       ["  Secondary IP: " +:+ py_str (nt_secondary_ip x)]%string ++
       if_given (nt_secondary_interface x) "  Secondary Interface: " ++
       if_given (nt_secondary_subnet x) "  Secondary Subnet: " ++
       if_given (nt_secondary_gateway x) "  Secondary Gateway: "
     else []) ++
    [""; "Target Configuration:"; "  Subsystem NQN: " +:+ py_str (nt_subsystem_nqn x); "  Target IPs: " +:+ py_join ", " (nt_target_ips x);
     "  Port: " +:+ port; ""; "Connected Controllers:"]%string ++
    map (λ ctrl, "  - " +:+ py_str ctrl) (nt_connected_controllers x) ++
    [""; "Namespaces:"]%string ++ map (λ ns, "  - " +:+ py_str ns) (nt_namespaces x) ++
    [""; "Multipath Status:"; "  Enabled: " +:+ (if nt_multipath_enabled x then "yes" else "no"); ""; "Persistence:";
     "  Discovery Config: /etc/nvme/discovery.conf (configured)"; "  Systemd Service: nvme-connect.service (enabled)";
     "  Module Auto-load: nvme-tcp (configured)"; ""; rule60]%string)).

Definition generate_status_report : T string := x ← gets id; lift (status_report x).

(** *** Removing the configuration *)

Definition disconnect_step (disconnected_count : Z) (ctrl : pyval) : T Z :=
  try_except
    (log_info ("Disconnecting controller " +:+ py_str ctrl +:+ "...") ;;
     _ ← process_system ("nvme disconnect -d /dev/" +:+ py_str ctrl) [Shell; Sudo];
     log_info ("Successfully disconnected " +:+ py_str ctrl) ;;
     mret (disconnected_count + 1)) cmd_error
    (λ e, log_warning ("Failed to disconnect " +:+ py_str ctrl +:+ ": " +:+ ex_msg e) ;; mret disconnected_count).

Definition remove_persistence : T () :=
  log_info "Removing persistence configuration..." ;;
  e ← path_exists discovery_conf;
  when e
    (try_except (ext (EvCall "os.remove" [VStr discovery_conf]) (env_remove discovery_conf) ;; log_info ("Removed " +:+ discovery_conf)) os_error
       (λ e, log_warning ("Failed to remove " +:+ discovery_conf +:+ ": " +:+ ex_msg e))) ;;
  try_except
    (tl_do "SpecificServiceManager" [VStr "nvme-connect"] ;;
     d ← tl_call "service.disable" [VStr "nvme-connect"];
     log_info (if truthy d then "Disabled nvme-connect.service" else "nvme-connect.service not enabled or does not exist")) any_exn
    (λ e, log_info ("Could not disable nvme-connect.service: " +:+ ex_msg e)).

Definition deconfigure_nvme_tcp : T () :=
  log_info rule70 ;; log_info "Deconfiguring NVMe/TCP Initiator" ;; log_info rule70 ;;
  nqn ← gets nt_subsystem_nqn;
  controllers ← get_connected_controllers;
  if bool_decide (length controllers = 0%nat) then log_info ("No controllers found for subsystem " +:+ py_str nqn +:+ " - already clean")
  else
    let total := py_str_Z (Z.of_nat (length controllers)) in
    log_info ("Found " +:+ total +:+ " controller(s) to disconnect: " +:+ show_list controllers) ;;
    disconnected_count ← for_acc controllers 0 disconnect_step;
    sleep (VInt 2) ;;
    remove_persistence ;;
    remaining_controllers ← get_connected_controllers;
    let clean := bool_decide (length remaining_controllers = 0%nat) in
    (if negb clean then log_warning ("Some controllers still connected: " +:+ show_list remaining_controllers)
     else log_info "All controllers successfully disconnected") ;;
    log_info rule70 ;;
    log_info "Deconfiguration Summary:" ;;
    log_info ("  Subsystem NQN: " +:+ py_str nqn) ;;
    log_info ("  Controllers Disconnected: " +:+ py_str_Z disconnected_count +:+ "/" +:+ total) ;;
    log_info "  Persistence Removed: Yes" ;;
    log_info ("  Status: " +:+ (if clean then "CLEAN" else "PARTIAL")) ;;
    log_info rule70.

(** *** The tests *)

Definition test_00_cleanup_existing_configuration : T () :=
  log_info (NL +:+ rule70) ;;
  log_info "CLEANUP TEST: Removing existing NVMe/TCP configuration" ;;
  log_info rule70 ;;
  try_except (deconfigure_nvme_tcp ;; log_info "Cleanup completed successfully") any_exn
    (λ e, log_warning ("Cleanup encountered issues: " +:+ ex_msg e) ;;
          log_warning "Continuing anyway - main test will handle any remaining config").

Definition test_initiator_configuration : T () :=
  validate_network_configuration ;;
  validate_connectivity ;;
  discover_targets ;;
  connect_to_subsystem ;;
  configure_multipath ;;
  configure_persistence ;;
  validate_configuration ;;
  report ← generate_status_report;
  log_info (NL +:+ report).

Definition tearDown : T () := log_info "Test completed. Controllers remain connected for persistence.".
End NVMeTCPInitiator.
