(* ===== verification/NvmeTcpSystem.v ===== *)
(** * The host of the initiator

    The listings of nvme-cli - hosts with their subsystems and the paths of these - are read from JSON
    text, whatever its layout.  What the test sees of a host: the paths to the subsystems, discovery.conf,
    the addresses of its interfaces and the links that are up.  The class [TcpHost] states what nvme-cli and
    the library functions do to them; [does] is the triple of a computation over this view. *)

From S2P Require Import Prelude PyStr PyFloat PyVal PyJson Avocado Logic NvmeTcp.
Open Scope Z_scope.

(** ** Listings *)

(** A path to a subsystem: its controller, the address of the target, its state, and its state of
    asymmetric access where the target has one. *)
Record tcp_path := Path { tp_name : string; tp_address : string; tp_state : string; tp_ana : option string }.
#[export] Instance tcp_path_eq_dec : EqDecision tcp_path.
Proof. solve_decision. Defined.
Record subsystem := Subsystem { sb_nqn : string; sb_paths : list tcp_path }.
Abbreviation hosts := (list (list subsystem)).

Definition path_json (p : tcp_path) : pyval :=
  VDict ([("Name", VStr (tp_name p)); ("Transport", VStr "tcp"); ("Address", VStr (tp_address p)); ("State", VStr (tp_state p))]%string ++
         match tp_ana p with Some a => [("ANAState"%string, VStr a)] | None => [] end).
Definition subsystem_json (s : subsystem) : pyval :=
  VDict [("NQN", VStr (sb_nqn s)); ("Paths", VList (map path_json (sb_paths s)))]%string.
Definition host_json (l : list subsystem) : pyval := VDict [("Subsystems"%string, VList (map subsystem_json l))].
Definition hosts_json (h : hosts) : pyval := VList (map host_json h).

(** The subsystems with an NQN, and their paths. *)
Definition subsystems_of (nqn : string) (h : hosts) : list subsystem := List.filter (λ s, String.eqb (sb_nqn s) nqn) (concat h).
Definition paths_of (nqn : string) (h : hosts) : list tcp_path := flat_map sb_paths (subsystems_of nqn h).

(** A path without a name is not taken. *)
Definition named (p : tcp_path) : bool := negb (py_empty (tp_name p)).
Definition names_of (paths : list tcp_path) : list pyval := map (λ p, VStr (tp_name p)) (List.filter named paths).

(** A JSON text of a value, with blanks around it. *)
Definition json_text (v : pyval) (text : string) : Prop :=
  ∃ l w1 w2, json v l ∧ gap w1 ∧ gap w2 ∧ text = str_of (w1 ++ l ++ w2).

Lemma text_loaded v text : json_text v text → json_loads text = Ret v.
Proof. intros (l & w1 & w2 & Hl & H1 & H2 & ->). by apply json_read. Qed.

(** ** The names of the controllers *)

Lemma names_read paths : path_names (map path_json paths) = Ret (names_of paths).
Proof.
  unfold names_of. induction paths as [|p paths IH]; [done|]. cbn [map path_names List.filter]. rewrite IH.
  assert (py_get (path_json p) "Name" VNone = Ret (VStr (tp_name p))) as -> by done. cbn [mbind result_bind truthy]. unfold named.
  by destruct (py_empty (tp_name p)).
Qed.

Lemma names_app l1 l2 : names_of (l1 ++ l2) = names_of l1 ++ names_of l2.
Proof. unfold names_of. by rewrite filter_app, map_app. Qed.

Lemma subsystem_read nqn l : subsystem_names (VStr nqn) (map subsystem_json l) = Ret (names_of (paths_of nqn [l])).
Proof.
  induction l as [|s l IH]; [done|]. cbn [map subsystem_names]. rewrite IH.
  assert (py_get (subsystem_json s) "NQN" VNone = Ret (VStr (sb_nqn s))) as -> by done. cbn [mbind result_bind py_eq].
  assert (get_list (subsystem_json s) "Paths" = Ret (map path_json (sb_paths s))) as -> by done. cbn [mbind result_bind].
  rewrite names_read. unfold paths_of, subsystems_of. cbn [concat]. rewrite !app_nil_r. cbn [List.filter].
  destruct (String.eqb (sb_nqn s) nqn); [|done]. cbn [flat_map]. by rewrite names_app.
Qed.

Lemma paths_app nqn h1 h2 : paths_of nqn (h1 ++ h2) = paths_of nqn h1 ++ paths_of nqn h2.
Proof. unfold paths_of, subsystems_of. by rewrite concat_app, filter_app, flat_map_app. Qed.

Lemma controllers_read nqn (h : hosts) : controllers_in (VStr nqn) (map host_json h) = Ret (names_of (paths_of nqn h)).
Proof.
  induction h as [|l h IH]; [done|]. cbn [map controllers_in]. rewrite IH.
  assert (get_list (host_json l) "Subsystems" = Ret (map subsystem_json l)) as -> by done. cbn [mbind result_bind].
  rewrite subsystem_read. cbn [mbind result_bind]. change (l :: h) with ([l] ++ h). by rewrite paths_app, names_app.
Qed.

(** ** The paths *)

Definition is_live (p : tcp_path) : bool := String.eqb (tp_state p) "live".
Definition is_optimized (p : tcp_path) : bool := match tp_ana p with Some a => String.eqb a "optimized" | None => false end.
Definition count (f : tcp_path → bool) (paths : list tcp_path) : Z := Z.of_nat (length (List.filter f paths)).

(** What the multipath check asks of a subsystem. *)
Definition enough_paths (paths : list tcp_path) : bool :=
  (2 <=? Z.of_nat (length paths)) && ((0 <? count is_optimized paths) || (2 <=? count is_live paths)).

Section checks.
Context {W : Type} {HE : Env W} {HT : TcpLib W}.

Lemma paths_counted paths live optimized w (x : nt_self) :
  runs (W:=W) (count_paths (map path_json paths) live optimized) w x (Ret (live + count is_live paths, optimized + count is_optimized paths)) w x.
Proof.
  revert live optimized. induction paths as [|p paths IH]; intros live optimized; cbn [map count_paths].
  - unfold count. cbn. rewrite !Z.add_0_r. apply runs_ret.
  - assert (py_get (path_json p) "State" (VStr "unknown") = Ret (VStr (tp_state p))) as -> by done.
    assert (py_get (path_json p) "ANAState" (VStr "unknown") = Ret (VStr (default "unknown"%string (tp_ana p)))) as -> by (unfold path_json; by destruct (tp_ana p)).
    assert (py_get (path_json p) "Name" VNone = Ret (VStr (tp_name p))) as -> by done.
    run_step. run_step. run_step. run_step. cbn [py_eq].
    assert (String.eqb (default "unknown"%string (tp_ana p)) "optimized" = is_optimized p) as -> by (unfold is_optimized; by destruct (tp_ana p)).
    fold (is_live p). specialize (IH (if is_live p then live + 1 else live) (if is_optimized p then optimized + 1 else optimized)).
    assert (∀ f n, (if (f p : bool) then n + 1 else n) + count f paths = n + count f (p :: paths)) as E.
    { intros f n. unfold count. cbn [List.filter]. destruct (f p); [|done]. cbn [length]. lia. }
    by rewrite !E in IH.
Qed.

Lemma subsystem_checked s w x :
  ∃ r, runs (W:=W) (multipath_subsystem (subsystem_json s)) w x r w x ∧
    if enough_paths (sb_paths s) then r = Ret false else ∃ msg, r = raise_ TestFail msg.
Proof.
  unfold multipath_subsystem, enough_paths.
  assert (py_get (subsystem_json s) "Paths" (VList []) = Ret (VList (map path_json (sb_paths s)))) as -> by done.
  assert (py_len (VList (map path_json (sb_paths s))) = Ret (Z.of_nat (length (sb_paths s)))) as Hn by (cbn [py_len]; by rewrite length_map).
  destruct (Z.ltb_spec (Z.of_nat (length (sb_paths s))) 2) as [Hl|Hl].
  - assert (2 <=? Z.of_nat (length (sb_paths s)) = false) as -> by (apply Z.leb_gt; lia). eexists. split; [|by eexists].
    run_step. rewrite Hn. run_step. run_step. assert (Z.of_nat (length (sb_paths s)) <? 2 = true) as -> by (by apply Z.ltb_lt).
    apply runs_bind_raise, runs_throw.
  - assert (2 <=? Z.of_nat (length (sb_paths s)) = true) as -> by (by apply Z.leb_le). cbn [andb].
    assert (Z.of_nat (length (sb_paths s)) <? 2 = false) as Hge by (by apply Z.ltb_ge).
    pose proof (paths_counted (sb_paths s) 0 0 w x) as Hc. rewrite !Z.add_0_l in Hc.
    destruct (0 <? count is_optimized (sb_paths s)) eqn:Ho; cbn [orb]; [|destruct (2 <=? count is_live (sb_paths s)) eqn:Hv].
    all: eexists; (split; [|first [done|by eexists]]); run_step; rewrite Hn; run_step; run_step; rewrite Hge; run_step; run_step; run_by Hc; rewrite Ho.
    + run.
    + rewrite Hv. run.
    + rewrite Hv. apply runs_bind_raise, runs_throw.
Qed.

(** the controllers are the names of the paths to the subsystem, in the order of the listing,
    whatever the layout of its JSON text; where nvme-cli fails there is none. *)
Theorem controllers_listed nqn w w' x : nt_subsystem_nqn x = VStr nqn →
  (∀ h text, env_system_output subsys_cmd [Shell; Sudo] w = (Ret text, w') → json_text (hosts_json h) text →
     runs get_connected_controllers w x (Ret (names_of (paths_of nqn h))) w' x) ∧
  (∀ e, env_system_output subsys_cmd [Shell; Sudo] w = (Raise e, w') → ex_class e = CmdError →
     runs get_connected_controllers w x (Ret []) w' x).
Proof.
  intros Hn. split.
  - intros h text He Ht%text_loaded. unfold get_connected_controllers. run_step. rewrite Hn. apply runs_try_ret. unfold listing.
    eapply runs_bind; [eapply runs_bind; [by apply runs_ext|rewrite Ht; apply runs_lift]|]. unfold hosts_json. cbn [py_iter mbind result_bind].
    rewrite controllers_read. apply runs_lift.
  - intros e He Hc. unfold get_connected_controllers. run_step. eapply runs_try_raise.
    + unfold listing. apply runs_bind_raise, runs_bind_raise. by apply runs_ext.
    + unfold listing_error. by rewrite Hc.
    + run.
Qed.
End checks.

(** ** The view *)

Record tcp_view := View { v_hosts : hosts; v_conf : option string; v_addr : list (string * string); v_up : list string }.

Definition set_hosts (h : hosts) (v : tcp_view) : tcp_view := View h (v_conf v) (v_addr v) (v_up v).
Definition set_conf (c : option string) (v : tcp_view) : tcp_view := View (v_hosts v) c (v_addr v) (v_up v).
Definition set_addr (l : list (string * string)) (v : tcp_view) : tcp_view := View (v_hosts v) (v_conf v) l (v_up v).
Definition set_up (l : list string) (v : tcp_view) : tcp_view := View (v_hosts v) (v_conf v) (v_addr v) l.

Definition all_paths (h : hosts) : list tcp_path := flat_map sb_paths (concat h).
Definition tcp_address (target port : string) : string := "traddr=" +:+ target +:+ ",trsvcid=" +:+ port.

(** The path [p] joins the others of its subsystem; the other subsystems stay as they are. *)
Definition joined (nqn : string) (p : tcp_path) (h h' : hosts) : Prop :=
  subsystems_of nqn h' = [Subsystem nqn (paths_of nqn h ++ [p])] ∧ ∀ n, n ≠ nqn → subsystems_of n h' = subsystems_of n h.

Definition not_named (name : string) (p : tcp_path) : bool := negb (String.eqb (tp_name p) name).

(** The controller [name] is gone. *)
Definition left_by (name : string) (h h' : hosts) : Prop := ∀ n, paths_of n h' = List.filter (not_named name) (paths_of n h).

(** The devices of [nvme list]: the path of a namespace and its size. *)
Definition device_json (d : string * Z) : pyval := VDict [("DevicePath", VStr d.1); ("Size", VInt d.2)]%string.
Definition devices_json (l : list (string * Z)) : pyval := VDict [("Devices"%string, VList (map device_json l))].

(** ** The host *)

Definition returned {A} (r : result A) : Prop := ∃ a, r = Ret a.

(** The calls that change nothing that the test looks at; they may raise. *)
Definition harmless_calls : list string :=
  ["SpecificServiceManager"; "service.enable"; "service.disable"; "NetworkInterface.save"; "NetworkInterface.ping_check"]%string.

Class TcpHost (W : Type) {HE : Env W} {HT : TcpLib W} := {
  th_ok : W → Prop;
  th_view : W → tcp_view;
  th_targets : list string;                     (* the targets that can be reached *)
  th_nqns : list string;                        (* the subsystems they export *)
  th_port : string;
  th_devices : hosts → list (string * Z);       (* the namespaces of the host *)

  (* nvme-cli *)
  th_names w : th_ok w → NoDup (map tp_name (all_paths (v_hosts (th_view w)))) ∧ Forall (λ p, named p = true) (all_paths (v_hosts (th_view w)));
  th_listing v : answers th_ok th_view (env_system_output subsys_cmd [Shell; Sudo]) v
    (λ r v', v' = v ∧ ∃ text, r = Ret text ∧ json_text (hosts_json (v_hosts v)) text);
  th_namespaces v : answers th_ok th_view (env_system_output "nvme list -o json" [Shell; Sudo]) v
    (λ r v', v' = v ∧ ∃ text, r = Ret text ∧ json_text (devices_json (th_devices (v_hosts v))) text);
  th_device_names h : Forall (λ d, d.1 ≠ ""%string) (th_devices h);
  th_exported nqn h : paths_of nqn h ≠ [] → th_devices h ≠ [];
  th_discover target v : target ∈ th_targets →
    answers th_ok th_view (env_system_output ("nvme discover -t tcp -a " +:+ target +:+ " -s " +:+ th_port) [Shell; Sudo]) v
      (λ r v', v' = v ∧ returned r);
  th_connect nqn target v : target ∈ th_targets → nqn ∈ th_nqns → tcp_address target th_port ∉ map tp_address (paths_of nqn (v_hosts v)) →
    answers th_ok th_view (env_system_output (connect_cmd (VStr nqn) target th_port) [Shell; Sudo]) v
      (λ r v', returned r ∧ ∃ p h', v' = set_hosts h' v ∧ joined nqn p (v_hosts v) h' ∧ is_live p = true ∧ tp_address p = tcp_address target th_port);
  th_disconnect name v : name ∈ map tp_name (all_paths (v_hosts v)) →
    answers th_ok th_view (env_system ("nvme disconnect -d /dev/" +:+ name) [Shell; Sudo]) v
      (λ r v', returned r ∧ ∃ h', v' = set_hosts h' v ∧ left_by name (v_hosts v) h');

  (* files *)
  th_conf_exists v : answers th_ok th_view (λ w, let '(b, w') := env_exists discovery_conf w in (Ret b, w')) v
    (λ r v', v' = v ∧ r = Ret (bool_decide (v_conf v ≠ None)));
  th_conf_remove v : v_conf v ≠ None → answers th_ok th_view (env_remove discovery_conf) v (λ r v', r = Ret () ∧ v' = set_conf None v);
  th_conf_write text v : answers th_ok th_view (tl_lib "genio.write_file" [VStr discovery_conf; VStr text]) v
    (λ r v', returned r ∧ v' = set_conf (Some text) v);
  th_param_read v : answers th_ok th_view (env_read multipath_param) v (λ r v', v' = v ∧ (returned r ∨ ∃ e, r = Raise e ∧ ex_class e = OSError));
  th_param_write v : answers th_ok th_view (tl_lib "genio.write_file" [VStr multipath_param; VStr "Y"]) v
    (λ r v', v' = v ∧ (returned r ∨ ∃ e, r = Raise e ∧ ex_class e = OSError));
  th_makedirs v : answers th_ok th_view (tl_lib "os.makedirs" [VStr "/etc/nvme"; VBool true]) v (λ r v', v' = v ∧ returned r);

  (* the network *)
  th_harmless fn args v : fn ∈ harmless_calls → answers th_ok th_view (tl_lib fn args) v (λ r v', v' = v);
  th_if_names w : th_ok w → Forall (λ a, a.2 ≠ ""%string) (v_addr (th_view w));
  th_interface ip v : answers th_ok th_view (tl_interface_of (VStr ip)) v (λ r v', v' = v ∧ r = Ret (dict_find ip (v_addr v)));
  th_add_addr ip interface subnet v : interface ≠ ""%string →
    answers th_ok th_view (tl_lib "NetworkInterface.add_ipaddr" [VStr interface; VStr ip; subnet]) v
      (λ r v', returned r ∧ v' = set_addr ((ip, interface) :: v_addr v) v);
  th_bring_up interface v : answers th_ok th_view (tl_lib "NetworkInterface.bring_up" [VStr interface]) v
    (λ r v', returned r ∧ v' = set_up (interface :: v_up v) v);
  th_link_up interface v : answers th_ok th_view (tl_lib "NetworkInterface.is_link_up" [VStr interface]) v
    (λ r v', v' = v ∧ r = Ret (VBool (existsb (String.eqb interface) (v_up v))));
  th_defaults v : answers th_ok th_view tl_default_interfaces v (λ r v', v' = v);
  th_ping target v : answers th_ok th_view (env_run ("ping -c 3 -W 2 " +:+ target) [Shell; Sudo]) v (λ r v', v' = v);
  th_port_open target v : target ∈ th_targets → answers th_ok th_view (env_run (port_cmd target th_port) [Shell; IgnoreStatus]) v
    (λ r v', v' = v ∧ ∃ out, r = Ret (CmdResult 0 out));
}.

(** ** Triples over the view *)

(** From the attributes [x] on a host with the view [v], [m] ends with a result, a view and attributes in [Q]. *)
Abbreviation does := (triple th_ok th_view).

Section triples.
Context {W : Type} {HE : Env W} {HT : TcpLib W} {HH : TcpHost W}.

(** What holds of every host. *)
Lemma does_names {A} (m : M W nt_self A) x v (Q : result A → tcp_view → nt_self → Prop) :
  (NoDup (map tp_name (all_paths (v_hosts v))) → Forall (λ p, named p = true) (all_paths (v_hosts v)) → does m x v Q) → does m x v Q.
Proof.
  intros H. apply (triple_ok _ _ (λ v, NoDup (map tp_name (all_paths (v_hosts v))) ∧ Forall (λ p, named p = true) (all_paths (v_hosts v)))).
  { intros w Hw. by apply th_names. }
  intros [Hd Hn]. by apply H.
Qed.
Lemma does_if_names {A} (m : M W nt_self A) x v (Q : result A → tcp_view → nt_self → Prop) :
  (Forall (λ a, a.2 ≠ ""%string) (v_addr v) → does m x v Q) → does m x v Q.
Proof. apply (triple_ok _ _ (λ v, Forall (λ a, a.2 ≠ ""%string) (v_addr v))). intros w Hw. by apply th_if_names. Qed.
End triples.

Ltac does_leaf :=
  lazymatch goal with
  | |- triple _ _ (log_port _ _ _) _ _ _ => apply triple_log_fmt; cbv beta iota
  | |- _ => triple_leaf
  end.
Ltac does_run := cbv beta iota; repeat does_leaf.
(** A call with the law [H], or a part of the test with the lemma [H]. *)
Tactic Notation "does_call" uconstr(H) := triple_call H.
