(* ===== verification/NvmeTcpNetwork.v ===== *)
(** * The network of the initiator

    The specification [network_spec] of the network phase: the host after it, or a failure; and
    [validate_network_configuration] meets it. *)

From S2P Require Import Prelude PyStr PyFloat PyVal PyJson Avocado Logic NvmeTcp NvmeTcpSystem.
Open Scope Z_scope.

(** ** The specification *)

(** An address of the parameters: its interface may be left to detection. *)
Record address := Address { ad_ip : string; ad_if : option string; ad_subnet : pyval }.

Definition if_value (i : option string) : pyval := match i with Some s => VStr s | None => VNone end.
Definition wf_address (a : address) : Prop := ad_if a ≠ Some ""%string.
Definition carrier (a : address) (v : tcp_view) : option string := dict_find (ad_ip a) (v_addr v).
Definition is_up (name : string) (v : tcp_view) : bool := existsb (String.eqb name) (v_up v).

(** An address that no interface carries is configured, where an interface and a subnet are given. *)
Definition addressed (a : address) (v : tcp_view) : option tcp_view :=
  match carrier a v, ad_if a with
  | None, Some i => if truthy (ad_subnet a) then Some (set_up (i :: v_up v) (set_addr ((ad_ip a, i) :: v_addr v) v)) else None
  | _, _ => Some v
  end.

(** The link of the interface that carries the address is up. *)
Definition linked (a : address) (v : tcp_view) (missing : bool) : bool :=
  match carrier a v with Some name => is_up name v | None => missing end.

(** A secondary address that is carried by no interface is not looked for again. *)
Definition network_spec (primary : address) (secondary : option address) (v : tcp_view) : option tcp_view :=
  match addressed primary v with
  | None => None
  | Some v1 =>
      match secondary with
      | None => if linked primary v1 false then Some v1 else None
      | Some a =>
          match addressed a v1 with
          | Some v2 => if linked primary v2 false && linked a v2 true then Some v2 else None
          | None => None
          end
      end
  end.

(** ** Steps *)

Section network.
Context {W : Type} {HE : Env W} {HT : TcpLib W} {HH : TcpHost W}.

Lemma eqb_str a b : py_eq (VStr a) (VStr b) = String.eqb a b.
Proof. done. Qed.

Lemma ip_validated ip interface x v :
  does (validate_ip_on_interface (VStr ip) interface) x v (λ r v' x', r = Ret (dict_find ip (v_addr v)) ∧ v' = v ∧ x' = x).
Proof.
  unfold validate_ip_on_interface, interface_by_ipaddr. does_run. does_call th_interface. intros r v' [-> ->].
  destruct (dict_find ip (v_addr v)) as [name|]; does_run; [|done]. destruct (_ && _); does_run; done.
Qed.

Lemma ip_configured ip i subnet gateway x v : i ≠ ""%string →
  does (configure_ip_on_interface (VStr ip) (VStr i) subnet gateway) x v
    (λ r v' x', r = Ret () ∧ v' = set_up (i :: v_up v) (set_addr ((ip, i) :: v_addr v) v) ∧ x' = x).
Proof.
  intros Hi. unfold configure_ip_on_interface, net_if_do, net_if, tl_call, nw_handler. does_run.
  does_call th_add_addr; [done|]. intros ? ? [[a ->] ->]. does_run. does_call th_bring_up. intros ? ? [[b ->] ->]. does_run.
  assert (∀ Q, Q (Ret ()) (set_up (i :: v_up v) (set_addr ((ip, i) :: v_addr v) v)) x →
    does (when (truthy gateway) (log_info ("Gateway " +:+ py_str gateway +:+ " specified but NOT configured to preserve existing routing and prevent management connection loss. Configure gateway manually if needed for specific routes."))) x
      (set_up (i :: v_up v) (set_addr ((ip, i) :: v_addr v) v)) Q) as Hg.
  { intros Q HQ. destruct (truthy gateway); does_run; done. }
  apply Hg. clear Hg. does_run.
  does_call th_harmless; [by apply (bool_decide_eq_true_1 _)|]. intros [c|e] ? ->; does_run; [done|]. done.
Qed.

Lemma known_carrier v ip (H : Forall (λ a, a.2 ≠ ""%string) (v_addr v)) :
  match dict_find ip (v_addr v) with Some name => negb (py_empty name) | None => false end =
  match dict_find ip (v_addr v) with Some _ => true | None => false end.
Proof.
  destruct (dict_find ip (v_addr v)) as [name|] eqn:E; [|done]. induction H as [|[k y] l Hk Hl IH]; [done|]. cbn in E, Hk.
  destruct (String.eqb k ip); [|by apply IH]. injection E as ->. by destruct name.
Qed.

Lemma given_interface a : wf_address a → truthy (if_value (ad_if a)) = match ad_if a with Some _ => true | None => false end.
Proof. unfold wf_address. destruct (ad_if a) as [[|c s]|]; done. Qed.

Lemma address_validated which a gateway keep x v : wf_address a →
  does (validate_address which (VStr (ad_ip a)) (if_value (ad_if a)) (ad_subnet a) gateway keep) x v (λ r v' x',
    match addressed a v with
    | Some v1 => r = Ret () ∧ v' = v1 ∧ x' = match carrier a v, ad_if a with Some name, None => keep (VStr name) x | _, _ => x end
    | None => ∃ msg, r = raise_ TestFail msg
    end).
Proof.
  intros Ha. apply does_if_names. intros Hn. unfold validate_address. apply triple_bind. does_call ip_validated. intros ? ? ? (-> & -> & ->).
  cbv zeta. rewrite (known_carrier v (ad_ip a) Hn), (given_interface a Ha). unfold addressed, carrier, wf_address in *.
  destruct (dict_find (ad_ip a) (v_addr v)) as [name|]; cbn [negb andb].
  - destruct (ad_if a); cbn [negb andb]; does_run; done.
  - destruct (ad_if a) as [i|]; cbn [if_value]; [|does_run; done]. apply triple_bind. destruct (truthy (ad_subnet a)); does_run; [|by eexists].
    does_call ip_configured; [congruence|]. intros ? ? ? (-> & -> & ->). does_run. done.
Qed.

(** The interface of an address becomes the one that carries it. *)
Definition settled (ip : string) (interface : pyval) (name : string) (x : nt_self) : nt_self :=
  if py_eq (VStr name) interface then x
  else if py_eq (VStr ip) (nt_primary_ip x) then with_primary_interface (VStr name) x
  else if py_eq (VStr ip) (nt_secondary_ip x) then with_secondary_interface (VStr name) x else x.

Lemma interface_verified ip interface x v :
  does (verify_interface_status (VStr ip) interface) x v (λ r v' x',
    match dict_find ip (v_addr v) with
    | Some name => if is_up name v then r = Ret () ∧ v' = v ∧ x' = settled ip interface name x else ∃ msg, r = raise_ TestFail msg
    | None => ∃ msg, r = raise_ TestFail msg
    end).
Proof.
  unfold verify_interface_status, interface_by_ipaddr. does_run. does_call th_interface. intros ? ? [-> ->].
  destruct (dict_find ip (v_addr v)) as [name|]; [|does_run; by eexists].
  apply triple_bind. apply (triple_mono _ _ _ _ _ (λ r v' x', r = Ret () ∧ v' = v ∧ x' = settled ip interface name x)).
  { unfold settled. destruct (py_eq (VStr name) interface); cbn [negb]; [by does_run|]. does_run. unfold id. destruct (py_eq (VStr ip) (nt_primary_ip x)); [by does_run|].
    destruct (py_eq (VStr ip) (nt_secondary_ip x)); by does_run. }
  intros ? ? ? (-> & -> & ->). unfold net_if, tl_call, is_up. does_run. does_call th_link_up. intros ? ? [-> ->].
  destruct (existsb _ _); [change (negb (truthy (VBool true))) with false|change (negb (truthy (VBool false))) with true]; does_run; [done|by eexists].
Qed.

(** ** The phase *)

Definition of_address (f : address → pyval) (a : option address) : pyval := match a with Some a => f a | None => VNone end.

(** The attributes of a test with these addresses. *)
Record has_addresses (primary : address) (secondary : option address) (x : nt_self) : Prop := {
  ha_primary : nt_primary_ip x = VStr (ad_ip primary) ∧ nt_primary_interface x = if_value (ad_if primary) ∧ nt_primary_subnet x = ad_subnet primary;
  ha_secondary : nt_secondary_ip x = of_address (λ a, VStr (ad_ip a)) secondary ∧
                 nt_secondary_interface x = of_address (λ a, if_value (ad_if a)) secondary ∧
                 nt_secondary_subnet x = of_address ad_subnet secondary;
  ha_wf : wf_address primary ∧ match secondary with Some a => wf_address a ∧ ad_ip a ≠ ""%string ∧ ad_ip a ≠ ad_ip primary | None => True end;
}.

(** The interfaces that a passed phase leaves in the attributes. *)
Definition carriers (primary : address) (secondary : option address) (v : tcp_view) (x : nt_self) : nt_self :=
  with_primary_interface (if_value (carrier primary v))
    (match secondary with Some a => with_secondary_interface (if_value (carrier a v)) x | None => x end).

Lemma addressed_carrier a v v1 : addressed a v = Some v1 → carrier a v1 = match carrier a v with Some n => Some n | None => ad_if a end.
Proof.
  unfold addressed, carrier. destruct (dict_find (ad_ip a) (v_addr v)) as [n|] eqn:E; [by intros [= <-]|].
  destruct (ad_if a) as [i|]; [|by intros [= <-]]. destruct (truthy _); [|done]. intros [= <-]. cbn. by rewrite String.eqb_refl.
Qed.

Lemma addressed_other a b v v1 : ad_ip a ≠ ad_ip b → addressed a v = Some v1 → carrier b v1 = carrier b v.
Proof.
  intros Hn. unfold addressed, carrier. destruct (dict_find (ad_ip a) (v_addr v)); [by intros [= <-]|].
  destruct (ad_if a); [|by intros [= <-]]. destruct (truthy _); [|done]. intros [= <-]. cbn. by apply String.eqb_neq in Hn as ->.
Qed.

Lemma py_eq_str n v : py_eq (VStr n) v = true → v = VStr n.
Proof. destruct v; cbn; try done. by intros ->%String.eqb_eq. Qed.

Lemma settled_primary ip n x : nt_primary_ip x = VStr ip → settled ip (nt_primary_interface x) n x = with_primary_interface (VStr n) x.
Proof.
  intros H. unfold settled. destruct (py_eq (VStr n) _) eqn:E; [|by rewrite H, eqb_str, String.eqb_refl].
  apply py_eq_str in E. destruct x; cbn in *. by subst.
Qed.

Lemma settled_secondary ip p n x : nt_primary_ip x = VStr p → nt_secondary_ip x = VStr ip → ip ≠ p →
  settled ip (nt_secondary_interface x) n x = with_secondary_interface (VStr n) x.
Proof.
  intros Hp H Hn%String.eqb_neq. unfold settled. destruct (py_eq (VStr n) _) eqn:E; [|by rewrite Hp, H, !eqb_str, String.eqb_refl, Hn].
  apply py_eq_str in E. destruct x; cbn in *. by subst.
Qed.

(** What the detection leaves as the interface of an address. *)
Definition detected (a : address) (v : tcp_view) : pyval :=
  match carrier a v, ad_if a with Some name, None => VStr name | _, _ => if_value (ad_if a) end.

Lemma detected_none a v v1 : addressed a v = Some v1 → carrier a v1 = None → detected a v = VNone.
Proof. intros ->%addressed_carrier. unfold detected. destruct (carrier a v), (ad_if a); done. Qed.

Lemma detected_some a v v1 n : addressed a v = Some v1 → carrier a v1 = Some n → wf_address a → Forall (λ a, a.2 ≠ ""%string) (v_addr v1) →
  truthy (detected a v) = true.
Proof.
  intros Hc%addressed_carrier Hn Hwf Hall. pose proof (known_carrier v1 (ad_ip a) Hall) as Hk. unfold carrier in Hn. rewrite Hn in Hk.
  assert (carrier a v1 = Some n) as E by done. rewrite E in Hc. clear Hn E. unfold detected, wf_address in *.
  destruct (carrier a v), (ad_if a) as [[|c1 i]|]; cbn in *; try done. by injection Hc as <-.
Qed.

Lemma primary_validated primary secondary x v gateway (H : has_addresses primary secondary x) :
  does (validate_address "primary" (nt_primary_ip x) (nt_primary_interface x) (nt_primary_subnet x) gateway with_primary_interface) x v (λ r v' x',
    match addressed primary v with
    | Some v1 => r = Ret () ∧ v' = v1 ∧ x' = with_primary_interface (detected primary v) x
    | None => verdict_of r = FAIL
    end).
Proof.
  destruct H as [(-> & Hi & ->) _ [Hw _]]. rewrite Hi. eapply triple_mono; [by apply address_validated|]. intros r v' x'. cbn beta.
  destruct (addressed primary v); [|by intros [msg ->]]. intros (-> & -> & ->). split_and!; [done..|]. unfold detected.
  destruct (carrier primary v), (ad_if primary); try done; destruct x; cbn in *; by subst.
Qed.

Lemma secondary_validated primary a x i v gateway (H : has_addresses primary (Some a) x) :
  does (validate_address "secondary" (nt_secondary_ip x) (nt_secondary_interface x) (nt_secondary_subnet x) gateway with_secondary_interface)
    (with_primary_interface i x) v (λ r v' x',
    match addressed a v with
    | Some v1 => r = Ret () ∧ v' = v1 ∧ x' = with_secondary_interface (detected a v) (with_primary_interface i x)
    | None => verdict_of r = FAIL
    end).
Proof.
  destruct H as [_ (-> & Hi & ->) (_ & Hw & _)]. cbn [of_address] in *. rewrite Hi. eapply triple_mono; [by apply address_validated|]. intros r v' x'. cbn beta.
  destruct (addressed a v); [|by intros [msg ->]]. intros (-> & -> & ->). split_and!; [done..|]. unfold detected.
  destruct (carrier a v), (ad_if a); try done; destruct x; cbn in *; by subst.
Qed.

(** The verification of the primary address. *)
Lemma primary_verified a x v : nt_primary_ip x = VStr (ad_ip a) →
  does (verify_interface_status (nt_primary_ip x) (nt_primary_interface x)) x v (λ r v' x',
    if linked a v false then r = Ret () ∧ v' = v ∧ x' = with_primary_interface (if_value (carrier a v)) x else verdict_of r = FAIL).
Proof.
  intros H. rewrite H at 1. eapply triple_mono; [apply interface_verified|]. intros r v' x'. cbn beta. unfold linked, carrier.
  destruct (dict_find (ad_ip a) (v_addr v)) as [n|]; [|by intros [msg ->]]. destruct (is_up n v); [|by intros [msg ->]].
  intros (-> & -> & ->). by rewrite settled_primary.
Qed.

Lemma secondary_verified primary a x v : nt_primary_ip x = VStr (ad_ip primary) → nt_secondary_ip x = VStr (ad_ip a) →
  ad_ip a ≠ ad_ip primary → ad_ip a ≠ ""%string →
  (if carrier a v then truthy (nt_secondary_interface x) = true else nt_secondary_interface x = VNone) →
  does (when (truthy (nt_secondary_ip x) && truthy (nt_secondary_interface x)) (verify_interface_status (nt_secondary_ip x) (nt_secondary_interface x))) x v
    (λ r v' x', if linked a v true then r = Ret () ∧ v' = v ∧ x' = with_secondary_interface (if_value (carrier a v)) x else verdict_of r = FAIL).
Proof.
  intros Hp Hs Hn He Ht. rewrite Hs at 1 2. assert (truthy (VStr (ad_ip a)) = true) as -> by (by destruct (ad_ip a)). cbn [andb].
  unfold linked. destruct (carrier a v) as [n|] eqn:Ec; cbn in Ht; rewrite Ht; cbn [truthy].
  - unfold when. eapply triple_mono; [apply interface_verified|]. intros r v' x'. cbn beta. unfold carrier in Ec. rewrite Ec.
    destruct (is_up n v); [|by intros [msg ->]]. intros (-> & -> & ->). by rewrite (settled_secondary _ (ad_ip primary)).
  - does_run. split_and!; [done..|]. destruct x; cbn in *; by subst.
Qed.

(** The network phase, whatever the interfaces of the parameters: it passes where the specification
    gives a host, and that host is the one it leaves. *)
Lemma network_meets primary secondary x v : has_addresses primary secondary x →
  does validate_network_configuration x v (λ r v' x',
    match network_spec primary secondary v with
    | Some v2 => r = Ret () ∧ v' = v2 ∧ x' = carriers primary secondary v2 x
    | None => verdict_of r = FAIL
    end).
Proof.
  intros H. pose proof H as [(Hp & _ & _) (Hs & Hsi & _) [Hw1 Hw2]]. unfold validate_network_configuration, network_spec. does_run. unfold id.
  does_call (primary_validated primary secondary x v (nt_primary_gateway x) H). intros r v' x'.
  destruct (addressed primary v) as [v1|] eqn:E1; [|by destruct r]. intros (-> & -> & ->). apply triple_bind.
  destruct secondary as [a|]; cbn [of_address] in *.
  - destruct Hw2 as (Hw2 & He & Hn). assert (truthy (nt_secondary_ip x) = true) as -> by (rewrite Hs; by destruct (ad_ip a)).
    unfold when at 1. does_call (secondary_validated primary a x (detected primary v) v1 (nt_secondary_gateway x) H). intros r v' x'.
    destruct (addressed a v1) as [v2|] eqn:E2; [|by destruct r]. intros (-> & -> & ->). does_run. unfold id. apply does_if_names. intros Hall.
    does_call (primary_verified primary); [done|]. intros r v' x'. destruct (linked primary v2 false) eqn:Ep; cbn [andb]; [|by destruct r].
    intros (-> & -> & ->). does_run. unfold id.
    does_call (secondary_verified primary a); [exact Hp|exact Hs|exact Hn|exact He| |].
    { assert (nt_secondary_interface (with_primary_interface (if_value (carrier primary v2))
        (with_secondary_interface (detected a v1) (with_primary_interface (detected primary v) x))) = detected a v1) as -> by done.
      destruct (carrier a v2) as [n|] eqn:Ec; [by eapply detected_some|by eapply detected_none]. }
    intros r v' x'. destruct (linked a v2 true); [|by destruct r]. intros (-> & -> & ->). does_run. by destruct x.
  - assert (truthy (nt_secondary_ip x) = false) as -> by (by rewrite Hs). does_run. unfold id.
    does_call (primary_verified primary); [done|]. intros r v' x'. destruct (linked primary v1 false); [|by destruct r]. intros (-> & -> & ->).
    does_run. unfold id. cbn [nt_secondary_ip with_primary_interface]. rewrite Hs. cbn [truthy andb]. does_run. by destruct x.
Qed.

(** C36: the network phase passes where the specification gives a host, and fails otherwise; a phase
    that passed leaves that host, with the primary address on an interface whose link is up, and the interfaces
    that carry the addresses in the attributes. *)
Theorem network_verdict primary secondary x v : has_addresses primary secondary x →
  does validate_network_configuration x v (λ r v' x',
    verdict_of r = (match network_spec primary secondary v with Some _ => PASS | None => FAIL end) ∧
    (verdict_of r = PASS → network_spec primary secondary v = Some v' ∧ x' = carriers primary secondary v' x ∧
       ∃ name, carrier primary v' = Some name ∧ is_up name v' = true)).
Proof.
  intros H. eapply triple_mono; [by apply network_meets|]. intros r v' x'. cbn beta. destruct (network_spec primary secondary v) as [v2|] eqn:E.
  - intros (-> & -> & ->). split; [done|]. intros _. split_and!; [done..|]. unfold network_spec in E.
    assert (linked primary v2 false = true) as Hl.
    { destruct (addressed primary v) as [v1|]; [|done]. destruct secondary as [a|].
      - destruct (addressed a v1) as [v3|]; [|done]. destruct (linked primary v3 false) eqn:El; [|done]. destruct (linked a v3 true); [|done]. by injection E as <-.
      - destruct (linked primary v1 false) eqn:El; [|done]. by injection E as <-. }
    unfold linked in Hl. destruct (carrier primary v2) as [n|]; [by exists n|done].
  - intros ->. split; [done|]. by destruct r.
Qed.
End network.
