(* ===== verification/NvmeTcpConnect.v ===== *)
(** * Connecting the initiator

    Reachability, discovery and connection: one live path to the subsystem for each target, in the order
    of the parameters; nothing is connected where the subsystem has a path already.  Validation: the
    listing is gone through subsystem by subsystem, up to the first that ends the loops; what the checks of
    the paths, of the controllers and of the namespaces accept. *)

From S2P Require Import Prelude PyStr PyFloat PyVal PyJson Avocado Logic NvmeTcp NvmeTcpSystem.
Open Scope Z_scope.

(** ** Paths *)

Lemma joined_paths nqn p h h' : joined nqn p h h' → paths_of nqn h' = paths_of nqn h ++ [p].
Proof. intros [E _]. unfold paths_of at 1. rewrite E. cbn. by rewrite app_nil_r. Qed.

Lemma paths_within nqn h p : p ∈ paths_of nqn h → p ∈ all_paths h.
Proof.
  unfold paths_of, all_paths, subsystems_of. rewrite !list_elem_of_In, !in_flat_map. intros (s & [Hs _]%filter_In & Hp). by exists s.
Qed.

Lemma name_listed nqn h p : p ∈ paths_of nqn h → tp_name p ∈ map tp_name (all_paths h).
Proof. intros Hp%paths_within%list_elem_of_In. by apply list_elem_of_In, in_map. Qed.

(** Every path of a listing has a name. *)
Lemma names_all nqn h : Forall (λ p, named p = true) (all_paths h) → names_of (paths_of nqn h) = map (λ p, VStr (tp_name p)) (paths_of nqn h).
Proof.
  intros H. unfold names_of. f_equal.
  assert (Forall (λ p, named p = true) (paths_of nqn h)) as Hp.
  { apply list.Forall_forall. intros p Hp%paths_within. by eapply list.Forall_forall in H. }
  induction Hp as [|p l Hp Hl IH]; [done|]. cbn. by rewrite Hp, IH.
Qed.

(** The live paths to the targets [l], in order, at this port. *)
Definition live_at (port : string) (p : tcp_path) (target : string) : Prop := is_live p = true ∧ tp_address p = tcp_address target port.
Definition paths_to (port : string) (paths : list tcp_path) (l : list string) : Prop := Forall2 (live_at port) paths l.

Lemma address_inj port a b : tcp_address a port = tcp_address b port → a = b.
Proof.
  unfold tcp_address. intros H%(f_equal chars_of). rewrite !chars_of_app in H. apply app_inv_head, app_inv_tail in H.
  by rewrite <- (str_of_chars_of a), <- (str_of_chars_of b), H.
Qed.

Lemma paths_to_fresh port paths l target : paths_to port paths l → target ∉ l → tcp_address target port ∉ map tp_address paths.
Proof.
  induction 1 as [|p t paths l [_ Hp] Hl IH]; intros Hn; cbn; [by apply not_elem_of_nil|].
  apply not_elem_of_cons in Hn as [Hn1 Hn2]. apply not_elem_of_cons. split; [|by apply IH]. rewrite Hp. by intros E%address_inj.
Qed.

(** The other subsystems stay as they are. *)
Definition same_others (nqn : string) (h h' : hosts) : Prop := ∀ n, n ≠ nqn → subsystems_of n h' = subsystems_of n h.

Lemma others_trans nqn h1 h2 h3 : same_others nqn h1 h2 → same_others nqn h2 h3 → same_others nqn h1 h3.
Proof. intros H1 H2 n Hn. by rewrite H2, H1. Qed.

Section connect.
Context {W : Type} {HE : Env W} {HT : TcpLib W} {HH : TcpHost W}.

(** The attributes of a test with this subsystem and these targets. *)
Record targeted (nqn : string) (targets : list string) (x : nt_self) : Prop := {
  tg_nqn : nt_subsystem_nqn x = VStr nqn;
  tg_port : fmt_d (nt_target_port x) = Ret th_port;
  tg_targets : nt_target_ips x = targets;
  tg_exported : nqn ∈ th_nqns;
}.

(** ** Reachability *)

Lemma target_pinged target interface x v :
  does (ping_target target interface) x v (λ r v' x', returned r ∧ v' = v ∧ x' = x).
Proof.
  unfold ping_target. apply triple_try.
  assert (∀ e, does ((if tl_nw_exception (ex_class e) || cmd_error (ex_class e)
           then log_warning ("Ping to " +:+ target +:+ " failed: " +:+ ex_msg e)
           else log_warning ("Ping test failed: " +:+ ex_msg e)) ;; mret false) x v (λ r v' x', returned r ∧ v' = v ∧ x' = x)) as Hh.
  { intros e. destruct (_ || _); does_run; (split_and!; [by eexists|done..]). }
  assert (∀ i, does (net_if_do "ping_check" i [VStr target; VInt 3; VStr "-W 2"]) x v (λ r v' x', v' = v ∧ x' = x)) as Hi.
  { intros i. unfold net_if_do, net_if, tl_call. does_run. does_call th_harmless; [by apply (bool_decide_eq_true_1 _)|]. intros [a|e] ? ->; does_run; done. }
  apply triple_bind. destruct (truthy interface).
  - does_run. does_call Hi. intros [a|e] ? ? [-> ->]; does_run; [|apply Hh]. split_and!; [by eexists|done..].
  - does_run. does_call th_defaults. intros [l|e] ? ->; does_run; [|apply Hh]. destruct l as [|i l]; cbn [map].
    + unfold process_run. does_run. does_call th_ping. intros [a|e] ? ->; does_run; [|apply Hh]. split_and!; [by eexists|done..].
    + does_run. does_call Hi. intros [a|e] ? ? [-> ->]; does_run; [|apply Hh]. split_and!; [by eexists|done..].
Qed.

Lemma port_open target port x v : fmt_d port = Ret th_port → target ∈ th_targets →
  does (test_port_connectivity target port) x v (λ r v' x', r = Ret true ∧ v' = v ∧ x' = x).
Proof.
  intros Hp Ht. unfold test_port_connectivity. rewrite Hp. unfold process_run. does_run. does_call th_port_open; [done|].
  intros ? ? [-> [out ->]]. unfold port_result. cbn [exit_status]. change (0 =? 0) with true. does_run. done.
Qed.

Lemma indexed_targets (targets : list string) : targets ⊆ th_targets → Forall (λ p : nat * string, p.2 ∈ th_targets) (imap pair targets).
Proof.
  intros Hs. apply Forall_lookup. intros i p Hi. rewrite list_lookup_imap in Hi.
  destruct (targets !! i) as [t|] eqn:E; cbn in Hi; [|done]. injection Hi as <-. by eapply Hs, list_elem_of_lookup_2.
Qed.

Lemma target_reachable i t x v : fmt_d (nt_target_port x) = Ret th_port → t ∈ th_targets →
  does (connectivity_step true (i, t)) x v (λ r v' x', r = Ret true ∧ v' = v ∧ x' = x).
Proof.
  intros Hp Ht. unfold connectivity_step. does_run. unfold id. does_call target_pinged. intros ? ? ? ([b ->] & -> & ->). cbv beta iota.
  apply triple_bind. apply (triple_mono _ _ _ _ _ (λ r v' x', r = Ret () ∧ v' = v ∧ x' = x)).
  { destruct b; cbn [negb]; does_run; done. }
  intros ? ? ? (-> & -> & ->). does_run. does_call port_open; [done..|]. intros ? ? ? (-> & -> & ->). cbn [negb]. does_run. done.
Qed.

Lemma targets_reachable nqn targets x v : targeted nqn targets x → targets ⊆ th_targets →
  does validate_connectivity x v (λ r v' x', r = Ret () ∧ v' = v ∧ x' = x).
Proof.
  intros [_ Hp Ht _] Hs%indexed_targets. unfold validate_connectivity. does_run. unfold id. rewrite Ht.
  apply (triple_mono _ _ _ _ _ (λ r v' x', r = Ret true ∧ v' = v ∧ x' = x)).
  2: { intros ? ? ? (-> & -> & ->). does_run. cbn [negb]. does_run. done. }
  induction Hs as [|[i t] l Hi Hl IH]; cbn [for_acc]; does_run; [done|]. does_call target_reachable; [done..|].
  intros ? ? ? (-> & -> & ->). exact IH.
Qed.

(** ** Discovery and connection *)

Lemma target_discovered nqn targets target x v : targeted nqn targets x → target ∈ th_targets →
  does (discover_single_target target) x v (λ r v' x', returned r ∧ v' = v ∧ x' = x).
Proof.
  intros [Hn Hp _ _] Ht. unfold discover_single_target. does_run. unfold id. rewrite Hp, Hn. does_run. unfold process_system_output.
  does_call th_discover; [done|]. intros ? ? [-> [out ->]]. does_run. cbn [py_contains].
  destruct (py_in _ _); cbn [negb]; does_run; (split_and!; [by eexists|done..]).
Qed.

Lemma targets_discovered nqn targets x v : targeted nqn targets x → targets ⊆ th_targets →
  does discover_targets x v (λ r v' x', r = Ret () ∧ v' = v ∧ x' = x).
Proof.
  intros Hx Hs. unfold discover_targets. does_run. rewrite (tg_targets _ _ _ Hx).
  assert (Forall (λ t, t ∈ th_targets) targets) as Hf by (by apply list.Forall_forall). clear Hs. revert Hx. generalize targets at 1 as l0. intros l0 Hx.
  induction Hf as [|t l Ht Hl IH]; cbn [for_each]; [by does_run|]. does_run.
  does_call (target_discovered nqn l0); [done..|]. intros ? ? ? ([o ->] & -> & ->). does_run. exact IH.
Qed.

Lemma target_connected nqn targets target x v : targeted nqn targets x → target ∈ th_targets →
  tcp_address target th_port ∉ map tp_address (paths_of nqn (v_hosts v)) →
  does (connect_to_single_target target) x v (λ r v' x', r = Ret () ∧ x' = x ∧
    ∃ p h', v' = set_hosts h' v ∧ joined nqn p (v_hosts v) h' ∧ live_at th_port p target).
Proof.
  intros [Hn Hp _ He] Ht Hf. unfold connect_to_single_target. does_run. unfold id. rewrite Hp, Hn. does_run. unfold process_system_output.
  does_call th_connect; [done..|]. intros ? ? ([out ->] & p & h' & -> & Hj & Hl & Ha). does_run. split_and!; [done..|]. by exists p, h'.
Qed.

(** The hosts with one more live path for each of the targets. *)
Definition connected_to (nqn : string) (l : list string) (h h' : hosts) : Prop :=
  same_others nqn h h' ∧ ∃ paths, paths_of nqn h' = paths_of nqn h ++ paths ∧ paths_to th_port paths l ∧
  (l = [] ∨ subsystems_of nqn h' = [Subsystem nqn (paths_of nqn h')]).

Lemma connected_snoc nqn l t p h h1 h2 : connected_to nqn l h h1 → joined nqn p h1 h2 → live_at th_port p t → connected_to nqn (l ++ [t]) h h2.
Proof.
  intros (Ho & paths & Hp & Hl & _) Hj Ht. pose proof (joined_paths _ _ _ _ Hj) as Hp2. destruct Hj as [Hs Hj]. split; [by eapply others_trans|].
  exists (paths ++ [p]). split_and!; [by rewrite Hp2, Hp, app_assoc|apply Forall2_app; [done|by constructor]|right]. by rewrite Hs, Hp2.
Qed.

(** The loop over the targets, none of which has a path before. *)
Lemma all_connected nqn targets l0 l x v h0 : targeted nqn targets x → paths_of nqn h0 = [] → NoDup (l0 ++ l) → Forall (λ t, t ∈ th_targets) l →
  connected_to nqn l0 h0 (v_hosts v) →
  does (for_each l connect_to_single_target) x v (λ r v' x', r = Ret () ∧ x' = x ∧ ∃ h', v' = set_hosts h' v ∧ connected_to nqn (l0 ++ l) h0 h').
Proof.
  intros Hx Hh. revert l0 v. induction l as [|t l IH]; intros l0 v Hd Hl Hc; cbn [for_each].
  - does_run. split_and!; [done..|]. exists (v_hosts v). rewrite app_nil_r. by destruct v.
  - apply list.Forall_cons in Hl as [Ht Hl]. does_run. does_call (target_connected nqn targets t); [done..| |].
    { destruct Hc as (_ & paths & -> & Hp & _). rewrite Hh. cbn [app]. eapply paths_to_fresh; [done|].
      apply list.NoDup_app in Hd as (_ & Hd & _). intros Hin%Hd. apply Hin. by left. }
    intros ? ? ? (-> & -> & p & h' & -> & Hj & Hp). cbv beta iota. rewrite cons_middle, app_assoc in Hd.
    eapply triple_mono; [apply (IH (l0 ++ [t])); [done..|by eapply connected_snoc]|]. intros r v' x' (-> & -> & h2 & -> & Hc2).
    split_and!; [done..|]. exists h2. split; [done|]. by rewrite <- app_assoc in Hc2.
Qed.

(** ** The controllers *)

Lemma listing_read x v :
  does (listing subsys_cmd) x v (λ r v' x', r = Ret (hosts_json (v_hosts v)) ∧ v' = v ∧ x' = x).
Proof.
  unfold listing, process_system_output. does_run. does_call th_listing. intros ? ? (-> & text & -> & Ht%text_loaded). does_run. done.
Qed.

Definition controllers_of (nqn : string) (h : hosts) : list pyval := map (λ p, VStr (tp_name p)) (paths_of nqn h).

(** The names of the controllers in the listing, whatever its layout. *)
Lemma controllers_got nqn x v : nt_subsystem_nqn x = VStr nqn →
  does get_connected_controllers x v (λ r v' x', r = Ret (controllers_of nqn (v_hosts v)) ∧ v' = v ∧ x' = x).
Proof.
  intros Hn. unfold get_connected_controllers. apply does_names. intros _ Hall. does_run. rewrite Hn.
  does_call listing_read. intros ? ? ? (-> & -> & ->). does_run. unfold hosts_json. cbn [py_iter mbind result_bind].
  rewrite controllers_read, names_all; done.
Qed.

(** A path of the subsystem is enough: nothing is connected, whatever the targets. *)
Lemma connection_kept nqn x v : nt_subsystem_nqn x = VStr nqn → paths_of nqn (v_hosts v) ≠ [] →
  does connect_to_subsystem x v (λ r v' x', r = Ret () ∧ v' = v ∧ x' = with_connected_controllers (controllers_of nqn (v_hosts v)) x).
Proof.
  intros Hn Hp. unfold connect_to_subsystem. does_run. does_call (controllers_got nqn); [done|]. intros ? ? ? (-> & -> & ->). cbv beta iota.
  assert (bool_decide (length (controllers_of nqn (v_hosts v)) = 0%nat) = false) as ->.
  { apply bool_decide_eq_false_2. unfold controllers_of. by destruct (paths_of nqn (v_hosts v)). }
  cbn [negb]. does_run. done.
Qed.

Lemma connection_made nqn targets x v : targeted nqn targets x → paths_of nqn (v_hosts v) = [] → NoDup targets → targets ⊆ th_targets → targets ≠ [] →
  does connect_to_subsystem x v (λ r v' x', r = Ret () ∧ ∃ h', v' = set_hosts h' v ∧ connected_to nqn targets (v_hosts v) h' ∧
    x' = with_connected_controllers (controllers_of nqn h') x).
Proof.
  intros Hx Hp Hd Hs Hne. pose proof Hx as [Hn _ Ht _]. unfold connect_to_subsystem. does_run. does_call (controllers_got nqn); [done|].
  intros ? ? ? (-> & -> & ->). unfold controllers_of at 1 2 3 4 5. rewrite Hp. cbn [map length]. cbv beta iota. rewrite bool_decide_eq_true_2 by done. cbn [negb]. does_run. rewrite Ht.
  does_call (all_connected nqn targets [] targets x v (v_hosts v)); [done..| | |].
  { by apply list.Forall_forall. }
  { split; [done|]. exists []. rewrite app_nil_r. split_and!; [done|constructor|by left]. }
  cbn [app]. intros ? ? ? (-> & -> & h' & -> & Hc). does_run. does_call (controllers_got nqn); [done|]. intros ? ? ? (-> & -> & ->). does_run.
  change (v_hosts (set_hosts h' v)) with h'.
  assert (bool_decide (length (controllers_of nqn h') = 0%nat) = false) as ->.
  { apply bool_decide_eq_false_2. destruct Hc as (_ & paths & E & Hl & _). unfold controllers_of. rewrite E, Hp, length_map. cbn [app].
    apply Forall2_length in Hl. rewrite Hl. by destruct targets. }
  does_run. split; [done|]. by exists h'.
Qed.
End connect.

(** ** The loops over the listing *)

(** The bodies run in turn, until one raises or ends the loops. *)
Inductive first_of (R : subsystem → result bool → Prop) : list subsystem → result bool → Prop :=
| first_none : first_of R [] (Ret false)
| first_next s l r : R s (Ret false) → first_of R l r → first_of R (s :: l) r
| first_end s l : R s (Ret true) → first_of R (s :: l) (Ret true)
| first_raise s l e : R s (Raise e) → first_of R (s :: l) (Raise e).

Lemma first_app R l1 l2 r1 : first_of R l1 r1 → r1 ≠ Ret false → first_of R (l1 ++ l2) r1.
Proof.
  induction 1; intros Hr; cbn; [done| |by apply first_end|by apply first_raise]. apply first_next; [done|]. auto.
Qed.

Lemma first_app_next R l1 l2 r : first_of R l1 (Ret false) → first_of R l2 r → first_of R (l1 ++ l2) r.
Proof.
  intros H1 H2. remember (Ret false) as r1 eqn:E. induction H1; cbn; try done. apply first_next; [done|]. auto.
Qed.

(** One subsystem: a single body. *)
Lemma first_single R s r : first_of R [s] r → R s r.
Proof. inversion 1 as [|? ? ? Hf Hn| |]; subst; try done. by inversion Hn; subst. Qed.

Section listed.
Context {W : Type} {HE : Env W} {HT : TcpLib W} {HH : TcpHost W}.

(** A pass over one list, where an element stands for the subsystems [f] gives. *)
Lemma loop_listed {X} (l : list X) (f : X → list subsystem) (body : X → M W nt_self bool) R x v :
  (∀ a, a ∈ l → does (body a) x v (λ r v' x', v' = v ∧ x' = x ∧ first_of R (f a) r)) →
  does (for_until l body) x v (λ r v' x', v' = v ∧ x' = x ∧ first_of R (flat_map f l) r).
Proof.
  induction l as [|a l IH]; intros Hb; cbn [for_until flat_map].
  - does_run. split_and!; [done..|]. constructor.
  - does_run. does_call Hb; [by left|]. intros [[]|e] ? ? (-> & -> & Hf); cbv beta iota.
    + does_run. split_and!; [done..|]. by apply first_app.
    + eapply triple_mono; [apply IH; intros b Hin; apply Hb; by right|]. intros r v' x' (-> & -> & Hl). split_and!; [done..|]. by apply first_app_next.
    + split_and!; [done..|]. by apply first_app.
Qed.

Lemma for_until_map {X Y} (g : X → Y) (l : list X) (body : Y → M W nt_self bool) : for_until (map g l) body = for_until l (λ a, body (g a)).
Proof. induction l as [|a l IH]; [done|]. cbn [map for_until]. by rewrite IH. Qed.

Lemma subsystems_split nqn h : subsystems_of nqn h = flat_map (flat_map (λ s, if String.eqb (sb_nqn s) nqn then [s] else [])) h.
Proof.
  unfold subsystems_of. induction h as [|l h IH]; [done|]. cbn [concat flat_map]. rewrite filter_app, IH. f_equal. clear IH.
  induction l as [|s l IH]; [done|]. cbn. rewrite IH. by destruct (String.eqb _ _).
Qed.

Lemma subsystem_in nqn h l s : l ∈ h → s ∈ l → sb_nqn s = nqn → s ∈ subsystems_of nqn h.
Proof.
  intros Hl%list_elem_of_In Hs%list_elem_of_In <-. apply list_elem_of_In. unfold subsystems_of. apply filter_In.
  split; [apply in_concat; by exists l|apply String.eqb_refl].
Qed.

(** The loops over a listing are a pass over the subsystems with the NQN. *)
Lemma each_listed nqn h body R x v : nt_subsystem_nqn x = VStr nqn →
  (∀ s, s ∈ subsystems_of nqn h → does (body (subsystem_json s)) x v (λ r v' x', v' = v ∧ x' = x ∧ R s r)) →
  does (each_subsystem (hosts_json h) body) x v (λ r v' x', v' = v ∧ x' = x ∧ first_of R (subsystems_of nqn h) r).
Proof.
  intros Hn Hb. unfold each_subsystem, hosts_json. cbn [py_iter]. does_run. rewrite for_until_map, subsystems_split.
  apply loop_listed. intros l Hl. assert (get_list (host_json l) "Subsystems" = Ret (map subsystem_json l)) as -> by done. does_run.
  rewrite for_until_map. apply loop_listed. intros s Hs. assert (py_get (subsystem_json s) "NQN" VNone = Ret (VStr (sb_nqn s))) as -> by done.
  does_run. rewrite Hn. cbn [py_eq]. destruct (String.eqb_spec (sb_nqn s) nqn) as [E|E].
  - eapply triple_mono; [by eapply Hb, subsystem_in|]. intros r v' x' (-> & -> & Hr). split_and!; [done..|].
    destruct r as [[]|e]; [by apply first_end|apply first_next; [done|constructor]|by apply first_raise].
  - does_run. split_and!; [done..|]. constructor.
Qed.

(** ** Multipath *)

Lemma multipath_first l r : first_of (λ s r, if enough_paths (sb_paths s) then r = Ret false else ∃ msg, r = raise_ TestFail msg) l r →
  if forallb (λ s, enough_paths (sb_paths s)) l then r = Ret false else ∃ msg, r = raise_ TestFail msg.
Proof.
  induction 1 as [|s l r Hs Hl IH|s l Hs|s l e Hs]; cbn [forallb]; [done|..]; destruct (enough_paths (sb_paths s)); cbn [andb]; try done; by destruct Hs.
Qed.

(** With multipath enabled, the subsystems with the NQN all need enough paths; without, nothing is looked at. *)
Lemma multipath_checked nqn x v : nt_subsystem_nqn x = VStr nqn →
  does validate_multipath_paths x v (λ r v' x', v' = v ∧ x' = x ∧
    if nt_multipath_enabled x && negb (forallb (λ s, enough_paths (sb_paths s)) (subsystems_of nqn (v_hosts v)))
    then ∃ msg, r = raise_ TestFail msg else r = Ret ()).
Proof.
  intros Hn. unfold validate_multipath_paths. does_run. destruct (nt_multipath_enabled x); cbn [andb]; [|by does_run].
  does_run. does_call listing_read. intros ? ? ? (-> & -> & ->). does_run.
  does_call (each_listed nqn (v_hosts v) multipath_subsystem (λ s r, if enough_paths (sb_paths s) then r = Ret false else ∃ msg, r = raise_ TestFail msg)); [done| |].
  { intros s _. eapply triple_runs; [intros w; apply subsystem_checked|]. done. }
  intros r v' x' (-> & -> & Hr%multipath_first). destruct (forallb _ _); cbn [negb].
  - subst r. does_run. done.
  - destruct Hr as [msg ->]. split_and!; [done..|]. by eexists.
Qed.

(** Two live paths are enough. *)
Lemma live_enough port paths l : paths_to port paths l → (2 ≤ length l)%nat → enough_paths paths = true.
Proof.
  intros Hp Hl. unfold enough_paths. pose proof Hp as Hlen%Forall2_length.
  assert (count is_live paths = Z.of_nat (length paths)) as ->.
  { unfold count. f_equal. clear Hl Hlen. induction Hp as [|p t paths l [E _] _ IH]; [done|]. cbn. rewrite E. cbn. by rewrite IH. }
  rewrite Hlen. assert (2 <=? Z.of_nat (length l) = true) as -> by (apply Z.leb_le; lia). by rewrite orb_true_r.
Qed.

(** ** Controllers *)

Lemma state_found ctrl paths : ∃ st, state_of ctrl (map path_json paths) = Ret st.
Proof.
  induction paths as [|p paths [st IH]]; [by eexists|]. cbn [map state_of].
  assert (py_get (path_json p) "Name" VNone = Ret (VStr (tp_name p))) as -> by done. cbn [mbind result_bind].
  destruct (py_eq _ _); [|by exists st]. by eexists.
Qed.

Lemma own_controllers s x v : Forall (λ p, named p = true) (sb_paths s) →
  does (controllers_subsystem (map (λ p, VStr (tp_name p)) (sb_paths s)) (subsystem_json s)) x v (λ r v' x', v' = v ∧ x' = x ∧ r = Ret true).
Proof.
  intros Hall. unfold controllers_subsystem. assert (get_list (subsystem_json s) "Paths" = Ret (map path_json (sb_paths s))) as -> by done. does_run.
  rewrite names_read. does_run. apply (triple_mono _ _ _ _ _ (λ r v' x', r = Ret () ∧ v' = v ∧ x' = x)).
  2: { intros ? ? ? (-> & -> & ->). by does_run. }
  assert (∀ p, p ∈ sb_paths s → existsb (py_eq (VStr (tp_name p))) (names_of (sb_paths s)) = true) as Hin.
  { intros p Hp. apply existsb_exists. exists (VStr (tp_name p)). split; [|apply String.eqb_refl].
    apply in_map_iff. exists p. split; [done|]. apply filter_In. split; [by apply list_elem_of_In|]. by eapply list.Forall_forall in Hall. }
  revert Hin. generalize (names_of (sb_paths s)) as names. generalize (sb_paths s) at 1 2 as l. intros l names. induction l as [|p l IH]; intros Hin; cbn [map for_each]; [by does_run|].
  rewrite Hin by left. destruct (state_found (VStr (tp_name p)) (sb_paths s)) as [st ->]. does_run. apply IH. intros q Hq. apply Hin. by right.
Qed.

Lemma controllers_validated nqn s x v : nt_subsystem_nqn x = VStr nqn → subsystems_of nqn (v_hosts v) = [s] → sb_paths s ≠ [] →
  nt_connected_controllers x = map (λ p, VStr (tp_name p)) (sb_paths s) →
  does validate_controllers x v (λ r v' x', r = Ret () ∧ v' = v ∧ x' = x).
Proof.
  intros Hn Hs Hne Hc. unfold validate_controllers. does_run. unfold id. cbv zeta. apply does_names. intros _ Hall.
  rewrite bool_decide_eq_false_2 by (rewrite Hc; by destruct (sb_paths s)). does_run.
  apply (triple_mono _ _ _ _ _ (λ r v' x', r = Ret () ∧ v' = v ∧ x' = x)).
  { destruct (negb _); by does_run. }
  intros ? ? ? (-> & -> & ->). does_run. does_call listing_read. intros ? ? ? (-> & -> & ->). does_run.
  does_call (each_listed nqn (v_hosts v) _ (λ _ r, r = Ret true)); [done| |].
  { rewrite Hs. intros s0 ->%list_elem_of_singleton. rewrite Hc. apply own_controllers. apply list.Forall_forall. intros p Hp.
    eapply list.Forall_forall in Hall; [done|]. apply (paths_within nqn). unfold paths_of. rewrite Hs. cbn. by rewrite app_nil_r. }
  rewrite Hs. intros r v' x' (-> & -> & ->%first_single). cbn [negb]. by does_run.
Qed.

(** ** Namespaces *)

(** Every device of the host is taken for a namespace. *)
Lemma namespaces_validated x v : th_devices (v_hosts v) ≠ [] →
  does validate_namespaces x v (λ r v' x', r = Ret () ∧ v' = v ∧ x' = with_namespaces (map (λ d, VStr d.1) (th_devices (v_hosts v))) x).
Proof.
  intros Hne. pose proof (th_device_names (v_hosts v)) as Hd. unfold validate_namespaces, listing, process_system_output. does_run.
  does_call th_namespaces. intros ? ? (-> & text & -> & Ht%text_loaded). does_run. rewrite Ht. does_run.
  assert (∀ l, get_list (devices_json l) "Devices" = Ret (map device_json l)) as -> by done. does_run.
  revert Hne Hd. generalize (th_devices (v_hosts v)) as l. intros l Hne Hd.
  apply (triple_mono _ _ _ _ _ (λ r v' x', r = Ret () ∧ v' = v ∧ x' = with_namespaces (map (λ d, VStr d.1) l) x)).
  2: { intros ? ? ? (-> & -> & ->). does_run. rewrite bool_decide_eq_false_2 by (by destruct l). does_run. done. }
  clear Hne. assert (map (λ d : string * Z, VStr d.1) l = [] ++ map (λ d, VStr d.1) l) as -> by done. generalize (@nil pyval) as l0.
  induction Hd as [|[n z] l Hn Hl IH]; intros l0; cbn [map for_each]; [does_run; by rewrite app_nil_r|].
  does_run. apply (triple_mono _ _ _ _ _ (λ r v' x', r = Ret () ∧ v' = v ∧ x' = with_namespaces (l0 ++ [VStr n]) x)).
  { unfold namespace_step. cbn in Hn. assert (py_get (device_json (n, z)) "DevicePath" VNone = Ret (VStr n)) as -> by done. does_run.
    assert (truthy (VStr n) = true) as -> by (by destruct n). does_run.
    assert (py_get (device_json (n, z)) "Size" (VStr "unknown") = Ret (VInt z)) as -> by done. does_run. done. }
  intros ? ? ? (-> & -> & ->). cbv beta iota. eapply triple_mono; [apply (IH (l0 ++ [VStr n]))|]. intros r v' x' (-> & -> & ->). by rewrite <- app_assoc.
Qed.
End listed.
