(* ===== verification/NvmeTcpRun.v ===== *)
(** * The tests of the initiator

    The configuration of a host that has no path to the subsystem, and its removal. *)

From S2P Require Import Prelude PyStr PyFloat PyVal PyJson Avocado Logic NvmeTcp NvmeTcpSystem NvmeTcpNetwork NvmeTcpConnect.
Open Scope Z_scope.

(** ** Names and subsystems *)

Lemma paths_of_all nqn h : paths_of nqn h = flat_map (λ s, if String.eqb (sb_nqn s) nqn then sb_paths s else []) (concat h).
Proof.
  unfold paths_of, subsystems_of. induction (concat h) as [|s l IH]; [done|]. cbn [List.filter flat_map]. rewrite <- IH. by destruct (String.eqb _ _).
Qed.

(** No two controllers have the same name, of whichever subsystems. *)
Lemma own_names_distinct nqn h : NoDup (map tp_name (all_paths h)) → NoDup (map tp_name (paths_of nqn h)).
Proof.
  rewrite paths_of_all. unfold all_paths. induction (concat h) as [|s l IH]; [done|]. cbn [flat_map]. rewrite !map_app.
  intros (Hs & Hd & Hl)%list.NoDup_app. destruct (String.eqb _ _); [|by apply IH]. apply list.NoDup_app. split_and!; [done| |by apply IH].
  intros n Hn Hin. apply (Hd n Hn). apply list_elem_of_In, in_map_iff in Hin as (p & <- & (s' & Hs' & Hp)%in_flat_map).
  apply list_elem_of_In, in_map, in_flat_map. exists s'. split; [done|]. by destruct (String.eqb _ _).
Qed.

Lemma names_apart nqn n h p q : NoDup (map tp_name (all_paths h)) → n ≠ nqn → p ∈ paths_of nqn h → q ∈ paths_of n h → tp_name p ≠ tp_name q.
Proof.
  intros Hd Hn Hp Hq. rewrite paths_of_all in *. unfold all_paths in Hd. induction (concat h) as [|s l IH]; [by apply not_elem_of_nil in Hp|].
  cbn [flat_map] in *. rewrite map_app in Hd. apply list.NoDup_app in Hd as (Hs & Hd & Hl).
  assert (∀ m r, r ∈ flat_map (λ s, if String.eqb (sb_nqn s) m then sb_paths s else []) l → tp_name r ∈ map tp_name (flat_map sb_paths l)) as Hin.
  { intros m r (s' & Hs' & Hr)%list_elem_of_In%in_flat_map. apply list_elem_of_In, in_map, in_flat_map. exists s'. split; [done|]. by destruct (String.eqb (sb_nqn s') m). }
  assert (∀ m r, r ∈ (if String.eqb (sb_nqn s) m then sb_paths s else []) → sb_nqn s = m ∧ tp_name r ∈ map tp_name (sb_paths s)) as Hhd.
  { intros m r. destruct (String.eqb_spec (sb_nqn s) m); [|by intros ?%not_elem_of_nil]. intros Hr%list_elem_of_In. split; [done|]. by apply list_elem_of_In, in_map. }
  apply elem_of_app in Hp as [[Ep Hp]%Hhd|Hp], Hq as [[Eq Hq]%Hhd|Hq].
  - congruence.
  - intros E. apply (Hd _ Hp). rewrite E. by eapply Hin.
  - intros E. apply (Hd _ Hq). rewrite <- E. by eapply Hin.
  - by apply IH.
Qed.

(** The subsystem has no path left; the paths to the others stay as they are. *)
Definition cleaned (nqn : string) (h h' : hosts) : Prop := paths_of nqn h' = [] ∧ ∀ n, n ≠ nqn → paths_of n h' = paths_of n h.

(** The controllers [names] are gone. *)
Definition without (names : list string) (p : tcp_path) : bool := negb (existsb (String.eqb (tp_name p)) names).
Definition disconnected (names : list string) (h h' : hosts) : Prop := ∀ n, paths_of n h' = List.filter (without names) (paths_of n h).

Lemma disconnected_more names name h h1 h2 : disconnected names h h1 → left_by name h1 h2 → disconnected (names ++ [name]) h h2.
Proof.
  intros H1 H2 n. rewrite H2, H1. induction (paths_of n h) as [|p l IH]; [done|]. cbn [List.filter]. rewrite <- IH. unfold without, not_named in *.
  rewrite existsb_app. cbn [existsb]. rewrite orb_false_r. destruct (existsb _ names); cbn [negb orb List.filter]; [done|]. by destruct (String.eqb _ _).
Qed.

Lemma without_in names p : without names p = negb (bool_decide (tp_name p ∈ names)).
Proof.
  unfold without. f_equal. destruct (existsb _ _) eqn:E; symmetry.
  - apply bool_decide_eq_true_2. apply existsb_exists in E as (n & Hn & ->%String.eqb_eq). by apply list_elem_of_In.
  - apply bool_decide_eq_false_2. intros Hn%list_elem_of_In. by rewrite (proj2 (existsb_exists _ _)) in E by (exists (tp_name p); by rewrite String.eqb_refl).
Qed.

Lemma disconnected_all nqn h h' : NoDup (map tp_name (all_paths h)) → disconnected (map tp_name (paths_of nqn h)) h h' → cleaned nqn h h'.
Proof.
  intros Hd H. assert (∀ l (f : tcp_path → bool), (∀ p, p ∈ l → f p = true) → List.filter f l = l) as Hkeep.
  { intros l f. induction l as [|p l IH]; intros Hf; [done|]. cbn. rewrite Hf by left. f_equal. apply IH. intros q Hq. apply Hf. by right. }
  split.
  - rewrite H. assert (∀ p, p ∈ paths_of nqn h → without (map tp_name (paths_of nqn h)) p = false) as Hw.
    { intros p Hp. rewrite without_in, bool_decide_eq_true_2; [done|]. by apply list_elem_of_In, in_map, list_elem_of_In. }
    revert Hw. generalize (map tp_name (paths_of nqn h)) as names. clear. intros names. induction (paths_of nqn h) as [|p l IH]; intros Hw; [done|].
    cbn. rewrite Hw by left. apply IH. intros q Hq. apply Hw. by right.
  - intros n Hn. rewrite H. apply Hkeep. intros q Hq. rewrite without_in, bool_decide_eq_false_2; [done|].
    intros (p & E & Hp%list_elem_of_In)%list_elem_of_In%in_map_iff. exact (names_apart nqn n h p q Hd Hn Hp Hq E).
Qed.

Section run.
Context {W : Type} {HE : Env W} {HT : TcpLib W} {HH : TcpHost W}.

(** ** Cleanup *)

Lemma controller_disconnected k p x v : tp_name p ∈ map tp_name (all_paths (v_hosts v)) →
  does (disconnect_step k (VStr (tp_name p))) x v (λ r v' x', r = Ret (k + 1) ∧ x' = x ∧ ∃ h', v' = set_hosts h' v ∧ left_by (tp_name p) (v_hosts v) h').
Proof.
  intros Hp. unfold disconnect_step, process_system. does_run. does_call (th_disconnect (tp_name p)); [done|].
  intros ? ? ([n ->] & h' & -> & Hl). does_run. split_and!; [done..|]. by exists h'.
Qed.

Lemma controllers_disconnected nqn h0 done_ l k x v : NoDup (map tp_name (all_paths h0)) → paths_of nqn h0 = done_ ++ l →
  disconnected (map tp_name done_) h0 (v_hosts v) →
  does (for_acc (map (λ p, VStr (tp_name p)) l) k disconnect_step) x v (λ r v' x', r = Ret (k + Z.of_nat (length l)) ∧ x' = x ∧
    ∃ h', v' = set_hosts h' v ∧ disconnected (map tp_name (done_ ++ l)) h0 h').
Proof.
  intros Hd. revert done_ k v. induction l as [|p l IH]; intros done_ k v Hl H; cbn [map for_acc].
  - does_run. split_and!; [f_equal; cbn; lia|done|]. exists (v_hosts v). rewrite app_nil_r. by destruct v.
  - does_run. does_call (controller_disconnected k p).
    { apply (name_listed nqn). rewrite H. apply list_elem_of_In, filter_In. split; [rewrite Hl; apply in_or_app; right; by left|].
      rewrite without_in, bool_decide_eq_false_2; [done|]. apply (own_names_distinct nqn) in Hd. rewrite Hl, map_app in Hd.
      apply list.NoDup_app in Hd as (_ & Hd & _). intros Hin%Hd. apply Hin. by left. }
    intros ? ? ? (-> & -> & h1 & -> & Hl1). cbv beta iota. rewrite cons_middle, app_assoc in Hl.
    eapply triple_mono; [apply (IH (done_ ++ [p])); [done|]|].
    { rewrite map_app. by eapply disconnected_more. }
    intros r v' x' (-> & -> & h2 & -> & H2). split_and!; [f_equal; cbn [length]; lia|done|]. exists h2. split; [done|]. by rewrite <- app_assoc in H2.
Qed.

Lemma persistence_removed x v : does remove_persistence x v (λ r v' x', r = Ret () ∧ v' = set_conf None v ∧ x' = x).
Proof.
  unfold remove_persistence, path_exists. does_run. does_call th_conf_exists. intros ? ? [-> ->]. does_run.
  apply (triple_mono _ _ _ _ _ (λ r v' x', r = Ret () ∧ v' = set_conf None v ∧ x' = x)).
  { destruct (v_conf v) as [c|] eqn:Ec; [rewrite bool_decide_eq_true_2 by done|rewrite bool_decide_eq_false_2 by (by intros [])]; does_run.
    - does_call th_conf_remove; [congruence|]. intros ? ? [-> ->]. by does_run.
    - split_and!; [done| |done]. destruct v. cbn in *. by subst. }
  intros ? ? ? (-> & -> & ->). unfold tl_do, tl_call. does_run. does_call th_harmless; [by apply (bool_decide_eq_true_1 _)|].
  intros [a|e] ? ->; does_run; [|done]. does_call th_harmless; [by apply (bool_decide_eq_true_1 _)|]. intros [b|e] ? ->; by does_run.
Qed.

(** What the cleanup leaves: discovery.conf stays where the subsystem had no path. *)
Definition cleaned_view (nqn : string) (v v' : tcp_view) : Prop :=
  if bool_decide (paths_of nqn (v_hosts v) = []) then v' = v
  else ∃ h', v' = set_conf None (set_hosts h' v) ∧ cleaned nqn (v_hosts v) h'.

Lemma deconfigured nqn x v : nt_subsystem_nqn x = VStr nqn →
  does deconfigure_nvme_tcp x v (λ r v' x', r = Ret () ∧ cleaned_view nqn v v' ∧ x' = x).
Proof.
  intros Hn. unfold deconfigure_nvme_tcp, cleaned_view. apply does_names. intros Hd _. does_run. does_call (controllers_got nqn); [done|].
  intros ? ? ? (-> & -> & ->). cbv beta iota. destruct (paths_of nqn (v_hosts v)) as [|p l] eqn:Ep.
  { unfold controllers_of. rewrite Ep. cbn [map length]. rewrite bool_decide_eq_true_2 by done. by does_run. }
  unfold controllers_of. rewrite Ep. rewrite !bool_decide_eq_false_2 by done. does_run.
  does_call (controllers_disconnected nqn (v_hosts v) [] (p :: l) 0); [done|done| |].
  { intros n. cbn [map]. generalize (paths_of n (v_hosts v)). intros l0. induction l0 as [|q l0 IH]; [done|]. cbn. by rewrite <- IH. }
  cbn [app]. intros ? ? ? (-> & -> & h1 & -> & H1). rewrite <- Ep in H1. apply disconnected_all in H1; [|done]. does_run.
  does_call persistence_removed. intros ? ? ? (-> & -> & ->). does_run. does_call (controllers_got nqn); [done|]. intros ? ? ? (-> & -> & ->).
  assert (controllers_of nqn (v_hosts (set_conf None (set_hosts h1 v))) = []) as ->.
  { unfold controllers_of. change (v_hosts _) with h1. by destruct H1 as [-> _]. }
  cbn [length]. cbv beta iota zeta. rewrite bool_decide_eq_true_2 by done. cbn [negb]. does_run. split_and!; [done| |done]. by exists h1.
Qed.

Lemma cleanup_run nqn x v : nt_subsystem_nqn x = VStr nqn →
  does test_00_cleanup_existing_configuration x v (λ r v' x', r = Ret () ∧ cleaned_view nqn v v' ∧ x' = x).
Proof.
  intros Hn. unfold test_00_cleanup_existing_configuration. does_run. does_call (deconfigured nqn); [done|].
  intros ? ? ? (-> & Hc & ->). by does_run.
Qed.

(** ** Configuration *)

Lemma conf_lines port targets : fmt_d port = Ret th_port → conf_text port targets = Ret (py_join "" (map (conf_line th_port) targets)).
Proof.
  intros Hp. unfold conf_text. rewrite Hp.
  assert (results (map (λ t, Ret th_port ≫= λ p, Ret (conf_line p t)) targets) = Ret (map (conf_line th_port) targets)) as ->; [|done].
  induction targets as [|t l IH]; [done|]. cbn [map results]. by rewrite IH.
Qed.

Lemma persistence_configured nqn targets x v : targeted nqn targets x →
  does configure_persistence x v (λ r v' x', r = Ret () ∧ x' = x ∧ v' = set_conf (Some (py_join "" (map (conf_line th_port) targets))) v).
Proof.
  intros [_ Hp Ht _]. unfold configure_persistence, tl_do, tl_call. does_run. does_call th_makedirs. intros ? ? [-> [a ->]]. does_run. unfold id.
  rewrite Ht, (conf_lines (nt_target_port x)) by done.
  does_run. unfold write_file, tl_do, tl_call. does_run. does_call th_conf_write. intros ? ? [[b ->] ->]. does_run.
  set (v1 := set_conf _ v). apply (triple_mono _ _ _ _ _ (λ r v' x', returned r ∧ v' = v1 ∧ x' = x)).
  2: { intros r ? ? ([c ->] & -> & ->). cbv beta iota. destruct c; cbn [negb]; by does_run. }
  generalize ["nvme-connect"; "nvmf-autoconnect"]%string as services. intros services.
  induction services as [|n l IH]; cbn [enable_first]; [does_run; split_and!; [by eexists|done..]|]. does_run.
  assert (∀ b : bool, does (if b then mret true else enable_first l) x v1 (λ r v' x', returned r ∧ v' = v1 ∧ x' = x)) as Hb.
  { intros []; [|exact IH]. does_run. split_and!; [by eexists|done..]. }
  unfold tl_do, tl_call. does_run. does_call th_harmless; [by apply (bool_decide_eq_true_1 _)|]. intros [a1|e] ? ->; does_run; [|unfold any_exn; does_run; apply (Hb false)].
  does_call th_harmless; [by apply (bool_decide_eq_true_1 _)|]. intros [a2|e] ? ->; does_run; [|unfold any_exn; does_run; apply (Hb false)].
  destruct (truthy a2); does_run; [split_and!; [by eexists|done..]|exact IH].
Qed.

(** Multipath may not be enabled on this machine; then nothing is checked. *)
Lemma multipath_configured nqn mode x v : nt_subsystem_nqn x = VStr nqn → nt_network_mode x = mode → nt_multipath_enabled x = false →
  (mode = "multi_path"%string → forallb (λ s, enough_paths (sb_paths s)) (subsystems_of nqn (v_hosts v)) = true) →
  does configure_multipath x v (λ r v' x', r = Ret () ∧ v' = v ∧ ∃ b, x' = with_multipath_enabled b x ∧ (b = true → mode = "multi_path"%string)).
Proof.
  intros Hn Hm He Hen. unfold configure_multipath. does_run. rewrite Hm. destruct (String.eqb_spec mode "multi_path") as [E|E]; cbn [negb]; does_run.
  2: { split_and!; [done..|]. exists false. split; [destruct x; cbn in *; by subst|done]. }
  apply (triple_mono _ _ _ _ _ (λ r v' x', r = Ret () ∧ v' = v ∧ ∃ b, x' = with_multipath_enabled b x)).
  - unfold enable_multipath, write_file, tl_do, tl_call.
    assert (with_multipath_enabled false x = x) as Hx by (destruct x; cbn in *; by subst).
    assert (∀ e, ex_class e = OSError → os_error (ex_class e) = true) as Ho by (intros e H; unfold os_error; by rewrite bool_decide_eq_true_2).
    does_run. does_call th_param_read. intros ? ? [-> [[text ->]|(e & -> & Hc)]]; cbv beta iota.
    + destruct (String.eqb (py_strip text) "Y"); does_run; [split_and!; [done..|]; by exists true|].
      does_call th_param_write. intros ? ? [-> [[a ->]|(e & -> & Hc)]]; cbv beta iota; [does_run; split_and!; [done..|]; by exists true|].
      rewrite Ho by done. does_run. split_and!; [done..|]. by exists false.
    + rewrite Ho by done. does_run. split_and!; [done..|]. by exists false.
  - intros ? ? ? (-> & -> & b & ->). cbv beta iota. eapply triple_mono; [by apply (multipath_checked nqn)|]. intros r v' x' (-> & -> & Hr).
    rewrite Hen in Hr by done. rewrite andb_false_r in Hr. subst r. split_and!; [done..|]. by exists b.
Qed.

Lemma configuration_validated nqn s x v : nt_subsystem_nqn x = VStr nqn → subsystems_of nqn (v_hosts v) = [s] → sb_paths s ≠ [] →
  nt_connected_controllers x = controllers_of nqn (v_hosts v) → (nt_multipath_enabled x = true → enough_paths (sb_paths s) = true) →
  does validate_configuration x v (λ r v' x', r = Ret () ∧ v' = v ∧ x' = with_namespaces (map (λ d, VStr d.1) (th_devices (v_hosts v))) x).
Proof.
  intros Hn Hs Hne Hc Hen. assert (paths_of nqn (v_hosts v) = sb_paths s) as Hp by (unfold paths_of; rewrite Hs; cbn; by rewrite app_nil_r).
  unfold validate_configuration. does_run. does_call (controllers_validated nqn s); [done..| |].
  { rewrite Hc. unfold controllers_of. by rewrite Hp. }
  intros ? ? ? (-> & -> & ->). does_run. does_call namespaces_validated; [apply (th_exported nqn); by rewrite Hp|].
  intros ? ? ? (-> & -> & ->). does_run. set (x1 := with_namespaces _ x).
  apply (triple_mono _ _ _ _ _ (λ r v' x', r = Ret () ∧ v' = v ∧ x' = x1)); [|intros ? ? ? (-> & -> & ->); by does_run].
  assert (nt_multipath_enabled x1 = nt_multipath_enabled x) as Ee by done. rewrite Ee. destruct (nt_multipath_enabled x) eqn:E; [|by does_run].
  unfold when. eapply triple_mono; [by apply (multipath_checked nqn)|]. intros r v' x' (-> & -> & Hr). rewrite Hs in Hr. cbn [forallb] in Hr.
  rewrite Hen, andb_true_r in Hr by done. by rewrite andb_false_r in Hr.
Qed.

(** A test whose network can be set up, with targets that can be reached. *)
Record ready (primary : address) (secondary : option address) (nqn : string) (targets : list string) (x : nt_self) : Prop := {
  rd_addresses : has_addresses primary secondary x;
  rd_targeted : targeted nqn targets x;
  rd_mode : nt_network_mode x = match secondary with Some _ => "multi_path"%string | None => "single_path"%string end;
  rd_multipath : nt_multipath_enabled x = false;
  rd_distinct : NoDup targets;
  rd_reachable : targets ⊆ th_targets;
  rd_enough : match secondary with Some _ => (2 ≤ length targets)%nat | None => targets ≠ [] end;
}.

Lemma addressed_hosts a v v1 : addressed a v = Some v1 → v_hosts v1 = v_hosts v ∧ v_conf v1 = v_conf v.
Proof.
  unfold addressed. destruct (carrier a v); [by intros [= <-]|]. destruct (ad_if a); [|by intros [= <-]]. destruct (truthy _); [|done]. by intros [= <-].
Qed.

Lemma network_hosts primary secondary v v1 : network_spec primary secondary v = Some v1 → v_hosts v1 = v_hosts v ∧ v_conf v1 = v_conf v.
Proof.
  unfold network_spec. destruct (addressed primary v) as [v2|] eqn:E; [|done]. apply addressed_hosts in E as [<- <-].
  destruct secondary as [a|].
  - destruct (addressed a v2) as [v3|] eqn:E; [|done]. apply addressed_hosts in E as [<- <-]. destruct (_ && _); [|done]. by intros [= <-].
  - destruct (linked _ _ _); [|done]. by intros [= <-].
Qed.

(** What the configuration leaves on a host whose network is set up as [v]. *)
Definition configured (nqn : string) (targets : list string) (v : tcp_view) (v' : tcp_view) (x' : nt_self) : Prop :=
  ∃ h, v' = set_conf (Some (py_join "" (map (conf_line th_port) targets))) (set_hosts h v) ∧ connected_to nqn targets (v_hosts v) h ∧
  nt_connected_controllers x' = controllers_of nqn h ∧ nt_namespaces x' = map (λ d, VStr d.1) (th_devices h) ∧ nt_subsystem_nqn x' = VStr nqn.

Lemma initiator_run primary secondary nqn targets x v v1 : ready primary secondary nqn targets x →
  network_spec primary secondary v = Some v1 → paths_of nqn (v_hosts v) = [] →
  does test_initiator_configuration x v (λ r v' x', r = Ret () ∧ configured nqn targets v1 v' x').
Proof.
  intros [Ha Ht Hm He Hd Hr Hen] Hv Hp. pose proof (network_hosts _ _ _ _ Hv) as [Eh Ec]. rewrite <- Eh in Hp. unfold test_initiator_configuration. does_run.
  does_call (network_meets primary secondary); [done|]. rewrite Hv. intros ? ? ? (-> & -> & ->). cbv beta iota.
  assert (Hx : targeted nqn targets (carriers primary secondary v1 x)) by (destruct Ht, secondary; by constructor).
  assert (nt_network_mode (carriers primary secondary v1 x) = nt_network_mode x) as Hm1 by (by destruct secondary). rewrite Hm in Hm1.
  assert (nt_multipath_enabled (carriers primary secondary v1 x) = false) as He1 by (by destruct secondary). clear Ha Ht Hm He Hv.
  revert Hx Hm1 He1. generalize (carriers primary secondary v1 x) as x1. intros x1 Hx Hm He. does_run.
  assert (targets ≠ []) as Hne by (destruct secondary, targets; cbn in Hen; (lia || done)).
  does_call (targets_reachable nqn targets); [done..|]. intros ? ? ? (-> & -> & ->). does_run.
  does_call (targets_discovered nqn targets); [done..|]. intros ? ? ? (-> & -> & ->). does_run.
  does_call (connection_made nqn targets); [done..|]. intros ? ? ? (-> & h & -> & Hc & ->). does_run.
  pose proof Hc as (_ & paths & Epaths & Hl & Es). rewrite Hp in Epaths. cbn [app] in Epaths. destruct Es as [Es|Es]; [done|]. rewrite Epaths in Es.
  assert (paths ≠ []) as Hpn by (intros ->; by inversion Hl; subst).
  assert (nt_network_mode x1 = "multi_path"%string → enough_paths paths = true) as Hep.
  { rewrite Hm. intros E. eapply live_enough; [done|]. by destruct secondary. }
  does_call (multipath_configured nqn (nt_network_mode x1)); [by apply Hx|done|done| |].
  { intros E. change (v_hosts (set_hosts h v1)) with h. rewrite Es. cbn [forallb sb_paths]. by rewrite Hep. }
  intros ? ? ? (-> & -> & b & -> & Hb). does_run. set (x2 := with_multipath_enabled b _).
  does_call (persistence_configured nqn targets x2); [by destruct Hx|]. intros ? ? ? (-> & -> & ->). does_run.
  does_call (configuration_validated nqn (Subsystem nqn paths) x2); [by apply Hx|exact Es|done|done|by intros E; apply Hep, Hb|].
  intros ? ? ? (-> & -> & ->). unfold generate_status_report. does_run. unfold id, status_report.
  assert (∀ l, fmt_d (nt_target_port (with_namespaces l x2)) = Ret th_port) as -> by (intros; apply Hx). cbn [mbind result_bind]. does_run.
  split; [done|]. exists h. split_and!; [done..|by apply Hx].
Qed.

(** ** What the tests do *)

(** C9: [test_initiator_configuration] followed by the cleanup of another test.  Where the parameters
    name targets that the host reaches, each once, at least one in the mode single_path or two, with a
    secondary address, in the mode multi_path; where the interfaces can be given their addresses and their links are up
    ([network_spec]); where multipath is not recorded as enabled yet, and the host has no path to the
    subsystem: the test passes, with one live path to the subsystem for each target, in the order of
    the parameters, with these targets in discovery.conf, and with the controllers and the namespaces
    of the host in its attributes; then the cleanup passes, brings back the paths the host had, and
    removes discovery.conf. *)
Theorem initiator_round_trip primary secondary nqn targets x y v v1 : ready primary secondary nqn targets x →
  network_spec primary secondary v = Some v1 → paths_of nqn (v_hosts v) = [] → nt_subsystem_nqn y = VStr nqn →
  does test_initiator_configuration x v (λ r v' x', verdict_of r = PASS ∧ configured nqn targets v1 v' x' ∧
    does test_00_cleanup_existing_configuration y v' (λ r' v'' _, verdict_of r' = PASS ∧ v_conf v'' = None ∧
      ∀ n, paths_of n (v_hosts v'') = paths_of n (v_hosts v))).
Proof.
  intros Hr Hv Hp Hy. pose proof (network_hosts _ _ _ _ Hv) as [Eh _]. pose proof Hr as [_ _ _ _ _ _ Hen].
  eapply triple_mono; [by eapply initiator_run|]. intros r v' x' [-> Hc]. split_and!; [done..|].
  destruct Hc as (h & -> & (Ho & paths & Ep & Hl & _) & _). eapply triple_mono; [by apply (cleanup_run nqn)|].
  intros r2 v2 x2 (-> & Hcl & _). unfold cleaned_view in Hcl. change (v_hosts (set_conf _ _)) with h in Hcl. rewrite Eh, Hp in Ep. cbn [app] in Ep.
  rewrite Ep, bool_decide_eq_false_2 in Hcl.
  2: { intros ->. apply Forall2_length in Hl. destruct secondary, targets; cbn in *; (lia || done). }
  destruct Hcl as (h2 & -> & Hc1 & Hc2). split_and!; [done..|]. intros n. change (paths_of n h2 = paths_of n (v_hosts v)).
  destruct (String.eqb_spec n nqn) as [->|Hn]; [by rewrite Hc1, Hp|]. rewrite Hc2 by done. unfold paths_of. by rewrite Ho, Eh.
Qed.

(** C38: the cleanup passes on every host: where the subsystem has paths, none is left and discovery.conf is removed,
    the paths to the other subsystems stay; where it has none, the host is left as it is, with
    discovery.conf. *)
Theorem cleanup_leaves nqn x v : nt_subsystem_nqn x = VStr nqn →
  does test_00_cleanup_existing_configuration x v (λ r v' x', verdict_of r = PASS ∧ x' = x ∧
    (paths_of nqn (v_hosts v) = [] → v' = v) ∧
    (paths_of nqn (v_hosts v) ≠ [] → v_conf v' = None ∧ v_addr v' = v_addr v ∧ v_up v' = v_up v ∧ paths_of nqn (v_hosts v') = [] ∧
      ∀ n, n ≠ nqn → paths_of n (v_hosts v') = paths_of n (v_hosts v))).
Proof.
  intros Hn. eapply triple_mono; [by apply (cleanup_run nqn)|]. intros r v' x' (-> & Hc & ->). unfold cleaned_view in Hc.
  split_and!; [done..| |].
  - intros Hp. by rewrite bool_decide_eq_true_2 in Hc.
  - intros Hp. rewrite bool_decide_eq_false_2 in Hc by done. by destruct Hc as (h & -> & H1 & H2).
Qed.

(** A host with some path to the subsystem is left as it is, whatever targets the parameters name: none of those that are
    not connected is, and the controllers of the host are the ones that are kept. *)
Theorem existing_connection_kept nqn x v : nt_subsystem_nqn x = VStr nqn → paths_of nqn (v_hosts v) ≠ [] →
  does connect_to_subsystem x v (λ r v' x', verdict_of r = PASS ∧ v' = v ∧ nt_connected_controllers x' = controllers_of nqn (v_hosts v) ∧
    nt_target_ips x' = nt_target_ips x).
Proof. intros Hn Hp. eapply triple_mono; [by apply (connection_kept nqn)|]. by intros r v' x' (-> & -> & ->). Qed.

(** C37: with multipath enabled, the paths check passes if and only if each listed subsystem with the NQN
    has two paths, and an optimized one or two that are live; it passes where no subsystem is listed, and where
    multipath is not enabled. *)
Theorem multipath_verdict nqn x v : nt_subsystem_nqn x = VStr nqn →
  does validate_multipath_paths x v (λ r v' x', v' = v ∧ x' = x ∧
    verdict_of r = if nt_multipath_enabled x then
                     if decide (Forall (λ s, enough_paths (sb_paths s) = true) (subsystems_of nqn (v_hosts v))) then PASS else FAIL
                   else PASS).
Proof.
  intros Hn. eapply triple_mono; [by apply (multipath_checked nqn)|]. intros r v' x' (-> & -> & Hr). split_and!; [done..|].
  destruct (nt_multipath_enabled x); cbn [andb] in Hr; [|by subst].
  destruct (forallb _ _) eqn:E; cbn [negb] in Hr.
  - subst r. rewrite decide_True; [done|]. apply list.Forall_forall. intros s Hs%list_elem_of_In. by eapply forallb_forall in E.
  - destruct Hr as [msg ->]. rewrite decide_False; [done|]. intros Hall. apply not_true_iff_false in E. apply E, forallb_forall.
    intros s Hs%list_elem_of_In. by eapply list.Forall_forall in Hall.
Qed.
End run.
