(* ===== verification/NvmeTcpSim.v ===== *)
(** * A simulated host of the initiator

    A machine with a local subsystem and two targets that export another one: its listings are printed as
    JSON, and the theorems are applied to it. *)

From S2P Require Import Prelude PyStr PyFloat PyVal PyJson Avocado Logic NvmeTcp NvmeTcpSystem NvmeTcpNetwork NvmeTcpConnect NvmeTcpRun.
Open Scope Z_scope.

(** ** Printing *)

Abbreviation plain s := (forallb plain_char (chars_of s) = true).

Fixpoint arr_rest (l : chars) (ls : list chars) : chars :=
  match ls with [] => l ++ ["]"%char] | l' :: ls' => l ++ ","%char :: arr_rest l' ls' end.
Definition arr (ls : list chars) : chars := match ls with [] => ["["; "]"]%char | l :: ls' => "["%char :: arr_rest l ls' end.

Lemma arr_json vs ls : Forall2 json vs ls → json (VList vs) (arr ls).
Proof.
  intros [|v l vs' ls' Hv Hl]; [by apply (JNil [])|]. cbn [arr]. apply (JArr []); [done|]. revert v l Hv.
  induction Hl as [|v2 l2 vs' ls' Hv2 Hl IH]; intros v l Hv; cbn [arr_rest].
  - by apply (ELast v l []).
  - apply (ECons v l [] []); [done..|]. by apply IH.
Qed.

Definition member_text (m : string * chars) : chars := quoted (chars_of m.1) ++ ":"%char :: m.2.
Fixpoint obj_rest (m : string * chars) (ms : list (string * chars)) : chars :=
  match ms with [] => member_text m ++ ["}"%char] | m' :: ms' => member_text m ++ ","%char :: obj_rest m' ms' end.
Definition obj (ms : list (string * chars)) : chars := match ms with [] => ["{"; "}"]%char | m :: ms' => "{"%char :: obj_rest m ms' end.

Definition member_json (m : string * pyval) (t : string * chars) : Prop := m.1 = t.1 ∧ plain t.1 ∧ json m.2 t.2.

Lemma plain_forall s : plain s → Forall (λ c, plain_char c = true) (chars_of s).
Proof. intros H. apply list.Forall_forall. intros c Hc%list_elem_of_In. by eapply forallb_forall in H. Qed.

Lemma obj_json ms ts : Forall2 member_json ms ts → NoDup ms.*1 → json (VDict ms) (obj ts).
Proof.
  intros H Hd. destruct H as [|[k v] [k' l] ms' ts' (Ek & Hk & Hv) Hl]; [by apply (JEmpty [])|]. cbn [obj fst snd] in *. subst k'.
  apply (JObj []); [done| |done]. clear Hd. revert k v l Hk Hv.
  induction Hl as [|[k2 v2] [k2' l2] ms' ts' (Ek & Hk2 & Hv2) Hl IH]; intros k v l Hk%plain_forall Hv; cbn [obj_rest].
  - unfold member_text. cbn [fst snd]. rewrite <- (str_of_chars_of k) at 1. rewrite <- app_assoc. by apply (MLast (chars_of k) [] [] v l []).
  - cbn [fst snd] in *. subst k2'. unfold member_text at 1. cbn [fst snd]. rewrite <- (str_of_chars_of k) at 1. rewrite <- app_assoc.
    apply (MCons (chars_of k) [] [] v l [] []); [done..|]. by apply IH.
Qed.

Lemma str_json s : plain s → json (VStr s) (quoted (chars_of s)).
Proof. intros H%plain_forall. rewrite <- (str_of_chars_of s) at 1. by apply JStr. Qed.

Lemma text_of v l : json v l → json_text v (str_of l).
Proof. intros H. exists l, [], []. split_and!; [done..|]. cbn. by rewrite app_nil_r. Qed.

(** The members of an object of strings. *)
Ltac members := apply obj_json; [repeat constructor; try reflexivity; cbn [fst snd]; try (by apply str_json)|by apply (bool_decide_eq_true_1 _)].

Definition path_text (p : tcp_path) : chars :=
  obj ([("Name", quoted (chars_of (tp_name p))); ("Transport", quoted (chars_of "tcp")); ("Address", quoted (chars_of (tp_address p)));
        ("State", quoted (chars_of (tp_state p)))]%string ++ match tp_ana p with Some a => [("ANAState"%string, quoted (chars_of a))] | None => [] end).
Definition plain_path (p : tcp_path) : Prop :=
  plain (tp_name p) ∧ plain (tp_address p) ∧ plain (tp_state p) ∧ match tp_ana p with Some a => plain a | None => True end.

Lemma path_text_json p : plain_path p → json (path_json p) (path_text p).
Proof. intros (Hn & Ha & Hs & Hana). unfold path_json, path_text. destruct (tp_ana p) as [a|]; cbn [app]; members. Qed.

Definition subsystem_text (s : subsystem) : chars := obj [("NQN", quoted (chars_of (sb_nqn s))); ("Paths", arr (map path_text (sb_paths s)))]%string.

Lemma subsystem_text_json s : plain (sb_nqn s) → Forall plain_path (sb_paths s) → json (subsystem_json s) (subsystem_text s).
Proof.
  intros Hn Hp. unfold subsystem_json, subsystem_text. members. apply arr_json.
  induction Hp as [|p l Hp Hl IH]; cbn [map]; constructor; [by apply path_text_json|exact IH].
Qed.

Definition hosts_text (h : hosts) : chars := arr (map (λ l, obj [("Subsystems"%string, arr (map subsystem_text l))]) h).

Lemma hosts_text_json h : Forall (Forall (λ s, plain (sb_nqn s) ∧ Forall plain_path (sb_paths s))) h → json (hosts_json h) (hosts_text h).
Proof.
  intros H. unfold hosts_json, hosts_text. apply arr_json. induction H as [|l h Hl Hh IH]; cbn [map]; constructor; [|exact IH]. unfold host_json.
  members. apply arr_json. induction Hl as [|s l [Hn Hp] Hl IHl]; cbn [map]; constructor; [by apply subsystem_text_json|exact IHl].
Qed.

(** ** The machine *)

Definition nqn0 : string := "nqn.2014-08.org.nvmexpress:uuid:local".
Definition nqn1 : string := "nqn.2014-08.com.vendor:storage".
Definition target1 : string := "192.168.100.1".
Definition target2 : string := "192.168.100.2".
Definition path0 : tcp_path := Path "nvme0" "traddr=10.0.0.9,trsvcid=4420" "live" None.
Definition path1 : tcp_path := Path "nvme1" (tcp_address target1 "4420") "live" (Some "optimized"%string).
Definition path2 : tcp_path := Path "nvme2" (tcp_address target2 "4420") "live" None.

Record sim := Sim { si_local : bool; si_paths : list tcp_path; si_conf : option string; si_addr : list (string * string); si_up : list string }.

Definition hosts_of (local : bool) (paths : list tcp_path) : hosts :=
  [(if local then [Subsystem nqn0 [path0]] else []) ++ match paths with [] => [] | _ => [Subsystem nqn1 paths] end].
Definition sim_hosts (w : sim) : hosts := hosts_of (si_local w) (si_paths w).
Definition sim_view (w : sim) : tcp_view := View (sim_hosts w) (si_conf w) (si_addr w) (si_up w).

(** The paths in the orders in which they may have been connected. *)
Definition orders : list (list tcp_path) := [[]; [path1]; [path2]; [path1; path2]; [path2; path1]].
Definition sim_ok (w : sim) : Prop := si_paths w ∈ orders ∧ Forall (λ a, a.2 ≠ ""%string) (si_addr w).

Definition sim_devices (h : hosts) : list (string * Z) := match all_paths h with [] => [] | _ => [("/dev/nvme1n1"%string, 1073741824)] end.
Definition devices_text (l : list (string * Z)) : chars :=
  obj [("Devices"%string, arr (map (λ d : string * Z, obj [("DevicePath", quoted (chars_of d.1)); ("Size", chars_of (py_str_Z d.2))]%string) l))].

Lemma in_orders (P : list tcp_path → Prop) l : l ∈ orders → P [] → P [path1] → P [path2] → P [path1; path2] → P [path2; path1] → P l.
Proof. intros H ?????. repeat (apply elem_of_cons in H as [->|H]; [done|]). by apply not_elem_of_nil in H. Qed.

Lemma sim_hosts_text w : sim_ok w → json (hosts_json (sim_hosts w)) (hosts_text (sim_hosts w)).
Proof.
  intros [H _]. apply hosts_text_json. unfold sim_hosts, hosts_of. constructor; [|constructor]. apply Forall_app. split.
  { destruct (si_local w); constructor; [|constructor]. split; [done|]. by repeat constructor. }
  revert H. generalize (si_paths w) as l. intros l H. pattern l. by apply in_orders; [done|repeat constructor..].
Qed.

Lemma devices_text_json h : json (devices_json (sim_devices h)) (devices_text (sim_devices h)).
Proof.
  unfold devices_json, devices_text, sim_devices. members. apply arr_json. destruct (all_paths h); cbn [map]; [constructor|constructor; [|constructor]].
  unfold device_json. cbn [fst snd]. members.
Qed.

Lemma paths_sim n local l : paths_of n (hosts_of local l) = (if local && String.eqb nqn0 n then [path0] else []) ++ (if String.eqb nqn1 n then l else []).
Proof.
  rewrite paths_of_all. unfold hosts_of. cbn [concat]. rewrite app_nil_r, flat_map_app. f_equal.
  - destruct local; [|done]. cbn [flat_map sb_nqn sb_paths andb]. by destruct (String.eqb _ _).
  - destruct l; [by destruct (String.eqb _ _)|]. cbn [flat_map sb_nqn sb_paths]. destruct (String.eqb _ _); [|done]. by rewrite app_nil_r.
Qed.

Definition on_sim {A} (f : sim → result A) (w : sim) : result A * sim := (f w, w).
Definition set_sim_paths (l : list tcp_path) (w : sim) : sim := Sim (si_local w) l (si_conf w) (si_addr w) (si_up w).
Definition set_sim_conf (c : option string) (w : sim) : sim := Sim (si_local w) (si_paths w) c (si_addr w) (si_up w).
Definition disconnect_sim (name : string) (w : sim) : sim :=
  Sim (si_local w && negb (String.eqb "nvme0" name)) (List.filter (not_named name) (si_paths w)) (si_conf w) (si_addr w) (si_up w).

Definition sim_output (cmd : string) (w : sim) : result string * sim :=
  if String.eqb cmd subsys_cmd then (Ret (str_of (hosts_text (sim_hosts w))), w)
  else if String.eqb cmd "nvme list -o json" then (Ret (str_of (devices_text (sim_devices (sim_hosts w)))), w)
  else if String.eqb cmd (connect_cmd (VStr nqn1) target1 "4420") then (Ret "connected", set_sim_paths (si_paths w ++ [path1]) w)
  else if String.eqb cmd (connect_cmd (VStr nqn1) target2 "4420") then (Ret "connected", set_sim_paths (si_paths w ++ [path2]) w)
  else (Ret ("subnqn: " +:+ nqn1), w).

Definition sim_system (cmd : string) (w : sim) : result Z * sim :=
  match drop_prefix (chars_of "nvme disconnect -d /dev/") (chars_of cmd) with
  | Some name => (Ret 0, disconnect_sim (str_of name) w)
  | None => (Ret 0, w)
  end.

Definition sim_env : Env sim := {|
  env_run := λ _ _ w, (Ret (CmdResult 0 ""), w);
  env_system := λ cmd _ w, sim_system cmd w;
  env_system_output := λ cmd _ w, sim_output cmd w;
  env_ssh := λ _ _ w, (Ret (CmdResult 0 ""), w);
  env_connect := λ _ _ _ w, (Ret true, w);
  env_show := λ r, stdout_text r;
  env_param := λ _ d, d;
  env_exists := λ p w, (String.eqb p discovery_conf && bool_decide (si_conf w ≠ None), w);
  env_read := λ _ w, (Ret ("N" +:+ NL), w);
  env_append := λ _ _ w, (Ret (), w);
  env_remove := λ _ w, (Ret (), set_sim_conf None w);
  env_random := λ w, (0, w);
|}.

Definition sim_lib (fn : string) (args : list pyval) (w : sim) : result pyval * sim :=
  match args with
  | [VStr p; VStr text] => if String.eqb fn "genio.write_file" && String.eqb p discovery_conf then (Ret VNone, set_sim_conf (Some text) w) else (Ret VNone, w)
  | [VStr i; VStr ip; _] =>
      if String.eqb fn "NetworkInterface.add_ipaddr" then (Ret VNone, Sim (si_local w) (si_paths w) (si_conf w) ((ip, i) :: si_addr w) (si_up w)) else (Ret VNone, w)
  | [VStr i] =>
      if String.eqb fn "NetworkInterface.bring_up" then (Ret VNone, Sim (si_local w) (si_paths w) (si_conf w) (si_addr w) (i :: si_up w))
      else if String.eqb fn "NetworkInterface.is_link_up" then (Ret (VBool (existsb (String.eqb i) (si_up w))), w)
      else (Ret VNone, w)
  | _ => (Ret VNone, w)
  end.

Definition sim_tcp : TcpLib sim := {|
  tl_lib := sim_lib;
  tl_interface_of := λ ip w, (Ret (match ip with VStr s => dict_find s (si_addr w) | _ => None end), w);
  tl_default_interfaces := λ w, (Ret ["eth0"%string], w);
  tl_nw_exception := λ _, false;
  tl_distro := "rhel";
  tl_release := "6.4.0";
|}.

(** ** The machine is a host *)

Lemma orders_subset l name : l ∈ orders → List.filter (not_named name) l ∈ orders.
Proof.
  intros H. pattern l. apply in_orders; [done|..]; cbn [List.filter]; unfold not_named; cbn [tp_name path1 path2];
    repeat destruct (String.eqb _ name); cbn [negb]; by apply (bool_decide_eq_true_1 _).
Qed.

Lemma sim_names local l : l ∈ orders → NoDup (map tp_name (all_paths (hosts_of local l))) ∧ Forall (λ p, named p = true) (all_paths (hosts_of local l)).
Proof.
  intros H. pattern l. apply in_orders; [done|..]; destruct local; split; first [by apply (bool_decide_eq_true_1 _)|by repeat constructor].
Qed.

Lemma sim_left local l name n : paths_of n (hosts_of (local && negb (String.eqb "nvme0" name)) (List.filter (not_named name) l)) =
  List.filter (not_named name) (paths_of n (hosts_of local l)).
Proof.
  rewrite !paths_sim, filter_app. f_equal; [|by destruct (String.eqb nqn1 n)]. destruct local; [|done]. cbn [andb].
  destruct (String.eqb nqn0 n); [|by rewrite andb_false_r]. rewrite !andb_true_r. unfold not_named. cbn [List.filter tp_name path0].
  by destruct (String.eqb "nvme0" name).
Qed.

Lemma sim_joined local l p : l ∈ orders → joined nqn1 p (hosts_of local l) (hosts_of local (l ++ [p])).
Proof.
  intros _. split.
  - rewrite paths_sim. assert (String.eqb nqn0 nqn1 = false) as -> by done. rewrite andb_false_r, String.eqb_refl. cbn [app].
    unfold subsystems_of, hosts_of. cbn [concat]. rewrite app_nil_r, filter_app. destruct local, l; done.
  - intros n Hn%not_eq_sym%String.eqb_neq. unfold subsystems_of, hosts_of. cbn [concat]. rewrite !app_nil_r, !filter_app. f_equal.
    destruct l; cbn [app List.filter sb_nqn]; by rewrite Hn.
Qed.

#[local, refine] Instance sim_host : TcpHost sim (HE:=sim_env) (HT:=sim_tcp) := {|
  th_ok := sim_ok;
  th_view := sim_view;
  th_targets := [target1; target2];
  th_nqns := [nqn1];
  th_port := "4420";
  th_devices := sim_devices;
|}.
Proof.
  - intros w [H _]. by apply sim_names.
  - intros v w H <-. split; [done|]. split; [done|]. eexists. split; [reflexivity|]. by apply text_of, sim_hosts_text.
  - intros v w H <-. split; [done|]. split; [done|]. eexists. split; [reflexivity|]. apply text_of, devices_text_json.
  - intros h. unfold sim_devices. destruct (all_paths h); by repeat constructor.
  - intros nqn h H. unfold sim_devices. destruct (paths_of nqn h) as [|p l] eqn:E; [done|].
    assert (p ∈ all_paths h) as Hp by (apply (paths_within nqn); rewrite E; by left). destruct (all_paths h); [|done]. by apply not_elem_of_nil in Hp.
  - intros t v Ht w H <-. repeat (apply elem_of_cons in Ht as [->|Ht]; [split_and!; [done..|by eexists]|]). by apply not_elem_of_nil in Ht.
  - intros nqn t v Ht Hn Hf w [H Ha] <-. apply list_elem_of_singleton in Hn as ->. destruct w as [o l c a u].
    assert (Hf' : tcp_address t "4420" ∉ map tp_address (paths_of nqn1 (hosts_of o l))) by exact Hf. clear Hf. rename Hf' into Hf.
    rewrite paths_sim in Hf. assert (String.eqb nqn0 nqn1 = false) as E by done. rewrite E, andb_false_r, String.eqb_refl in Hf. cbn [app] in Hf.
    repeat (apply elem_of_cons in Ht as [->|Ht]; [|]); [..|by apply not_elem_of_nil in Ht].
    + split; [split; [|done]|].
      { revert Hf. pattern l. by apply in_orders; [done|intros Hf; by apply (bool_decide_eq_true_1 _) + (exfalso; apply Hf; by apply (bool_decide_eq_true_1 _))..]. }
      split; [by eexists|]. exists path1, (hosts_of o (l ++ [path1])). split_and!; [done|by apply sim_joined|done..].
    + split; [split; [|done]|].
      { revert Hf. pattern l. by apply in_orders; [done|intros Hf; by apply (bool_decide_eq_true_1 _) + (exfalso; apply Hf; by apply (bool_decide_eq_true_1 _))..]. }
      split; [by eexists|]. exists path2, (hosts_of o (l ++ [path2])). split_and!; [done|by apply sim_joined|done..].
  - intros name v Hn w [H Ha] <-. destruct w as [o l c a u]. cbn [sim_env env_system]. unfold sim_system.
    rewrite chars_of_app, drop_prefix_app, str_of_chars_of. split; [split; [by apply orders_subset|done]|]. split; [by eexists|].
    eexists. split; [reflexivity|]. intros n. apply sim_left.
  - intros v w H <-. split; [done|]. split; [done|]. cbn [sim_env env_exists]. by rewrite String.eqb_refl.
  - intros v Hc w H <-. done.
  - intros text v w H <-. split; [done|]. split; [by eexists|done].
  - intros v w H <-. split; [done|]. split; [done|]. left. by eexists.
  - intros v w H <-. split; [done|]. split; [done|]. left. by eexists.
  - intros v w H <-. split; [done|]. split; [done|]. by eexists.
  - intros fn args v Hfn w H <-. assert (sim_lib fn args w = (Ret VNone, w)) as E.
    { unfold sim_lib. repeat (apply elem_of_cons in Hfn as [->|Hfn]; [by repeat case_match|]). by apply not_elem_of_nil in Hfn. }
    cbn [sim_tcp tl_lib]. by rewrite E.
  - intros w [_ H]. exact H.
  - intros ip v w H <-. done.
  - intros ip i subnet v Hi w [H Ha] <-. assert (sim_lib "NetworkInterface.add_ipaddr" [VStr i; VStr ip; subnet] w =
      (Ret VNone, Sim (si_local w) (si_paths w) (si_conf w) ((ip, i) :: si_addr w) (si_up w))) as E by done.
    cbn [sim_tcp tl_lib]. rewrite E. split; [split; [done|by constructor]|]. split; [by eexists|done].
  - intros i v w H <-. split; [done|]. split; [by eexists|done].
  - intros i v w H <-. done.
  - intros v w H <-. done.
  - intros t v w H <-. done.
  - intros t v Ht w H <-. split; [done|]. split; [done|]. by eexists.
Defined.

(** ** The theorems on the machine *)

Abbreviation at_sim m w x := (m (PState (w : sim) [] (x : nt_self))).

(** The primary address is not configured yet, the secondary one is carried by eth2. *)
Definition first_address : address := Address "192.168.100.10" (Some "eth1"%string) (VStr "24").
Definition second_address : address := Address "192.168.100.11" None VNone.
Definition fresh_sim : sim := Sim true [] None [("192.168.100.11", "eth2")]%string ["eth2"]%string.
Definition initiator : nt_self :=
  NtSelf (VStr "192.168.100.10") (VStr "eth1") (VStr "24") VNone (VStr "192.168.100.11") VNone VNone VNone [target1; target2] (VStr nqn1) (VInt 4420)
    "multi_path" [] [] false "rhel".
Definition with_paths (l : list tcp_path) : sim := Sim true l (Some ""%string) [] [].

Lemma fresh_ok : sim_ok fresh_sim.
Proof. split; [by apply (bool_decide_eq_true_1 _)|by repeat constructor]. Qed.
Lemma paths_ok l : l ∈ orders → sim_ok (with_paths l).
Proof. intros H. split; [done|constructor]. Qed.

Lemma initiator_addresses : has_addresses first_address (Some second_address) initiator.
Proof. constructor; [done..|]. split; [done|]. by split_and!. Qed.

Lemma network_verdict_witness :
  verdict_of (at_sim (validate_network_configuration (HT:=sim_tcp)) fresh_sim initiator).1 = PASS ∧
  verdict_of (at_sim (validate_network_configuration (HT:=sim_tcp))
    (Sim true [] None [("192.168.100.10", "eth1"); ("192.168.100.11", "eth2")]%string ["eth2"]%string) initiator).1 = FAIL.
Proof.
  split.
  - destruct (triple_at _ _ _ _ _ _ fresh_ok (network_verdict (HH:=sim_host) first_address (Some second_address) initiator (sim_view fresh_sim) initiator_addresses)) as [-> _].
    reflexivity.
  - assert (sim_ok (Sim true [] None [("192.168.100.10", "eth1"); ("192.168.100.11", "eth2")]%string ["eth2"]%string)) as Hk
      by (split; [by apply (bool_decide_eq_true_1 _)|by repeat constructor]).
    destruct (triple_at _ _ _ _ _ _ Hk (network_verdict (HH:=sim_host) first_address (Some second_address) initiator _ initiator_addresses)) as [-> _].
    reflexivity.
Defined.

Lemma initiator_ready : ready (HH:=sim_host) first_address (Some second_address) nqn1 [target1; target2] initiator.
Proof.
  constructor; [exact initiator_addresses| |done|done|by apply (bool_decide_eq_true_1 _)|by intros ?|cbn; lia].
  constructor; [done|reflexivity|done|by left].
Qed.

Lemma initiator_round_trip_witness :
  verdict_of (at_sim (test_initiator_configuration (HE:=sim_env) (HT:=sim_tcp)) fresh_sim initiator).1 = PASS ∧
  ∃ v, v_conf v ≠ None ∧ v = sim_view (ps_world (at_sim (test_initiator_configuration (HE:=sim_env) (HT:=sim_tcp)) fresh_sim initiator).2).
Proof.
  destruct (triple_at _ _ _ _ _ _ fresh_ok (initiator_round_trip (HH:=sim_host) first_address (Some second_address) nqn1 [target1; target2] initiator initiator
    (sim_view fresh_sim) (View (hosts_of true []) None [("192.168.100.10", "eth1"); ("192.168.100.11", "eth2")]%string ["eth1"; "eth2"]%string)
    initiator_ready eq_refl eq_refl eq_refl)) as (H & (h & E & _) & _).
  split; [exact H|]. eexists. split; [|symmetry; exact E]. done.
Defined.

Lemma cleanup_leaves_witness :
  verdict_of (at_sim (test_00_cleanup_existing_configuration (HE:=sim_env) (HT:=sim_tcp)) (with_paths [path2; path1]) initiator).1 = PASS ∧
  paths_of nqn1 (sim_hosts (ps_world (at_sim (test_00_cleanup_existing_configuration (HE:=sim_env) (HT:=sim_tcp)) (with_paths [path2; path1]) initiator).2)) = [].
Proof.
  assert (sim_ok (with_paths [path2; path1])) as Hk by (apply paths_ok; by apply (bool_decide_eq_true_1 _)).
  destruct (triple_at _ _ _ _ _ _ Hk (cleanup_leaves (HH:=sim_host) nqn1 initiator _ eq_refl)) as (H & _ & _ & H2). split; [exact H|].
  destruct H2 as (_ & _ & _ & H2 & _); [done|exact H2].
Defined.

(** One of the two targets is connected: the other one stays without a path. *)
Lemma existing_connection_kept_witness :
  verdict_of (at_sim (connect_to_subsystem (HE:=sim_env)) (with_paths [path1]) initiator).1 = PASS ∧
  nt_connected_controllers (ps_self (at_sim (connect_to_subsystem (HE:=sim_env)) (with_paths [path1]) initiator).2) = [VStr "nvme1"].
Proof.
  assert (sim_ok (with_paths [path1])) as Hk by (apply paths_ok; by apply (bool_decide_eq_true_1 _)).
  destruct (triple_at _ _ _ _ _ _ Hk (existing_connection_kept (HH:=sim_host) nqn1 initiator (sim_view (with_paths [path1])) eq_refl ltac:(by intros ?))) as (H & _ & H2 & _).
  split; [exact H|]. rewrite H2. reflexivity.
Defined.

(** Two paths, one path, and a path to another subsystem only. *)
Lemma multipath_verdict_witness :
  verdict_of (at_sim (validate_multipath_paths (HE:=sim_env)) (with_paths [path1; path2]) (with_multipath_enabled true initiator)).1 = PASS ∧
  verdict_of (at_sim (validate_multipath_paths (HE:=sim_env)) (with_paths [path2]) (with_multipath_enabled true initiator)).1 = FAIL ∧
  verdict_of (at_sim (validate_multipath_paths (HE:=sim_env)) (with_paths []) (with_multipath_enabled true initiator)).1 = PASS.
Proof.
  assert (∀ l, l ∈ orders → verdict_of (at_sim (validate_multipath_paths (HE:=sim_env)) (with_paths l) (with_multipath_enabled true initiator)).1 =
    if decide (Forall (λ s, enough_paths (sb_paths s) = true) (subsystems_of nqn1 (hosts_of true l))) then PASS else FAIL) as H.
  { intros l Hl. by destruct (triple_at _ _ _ _ _ _ (paths_ok l Hl) (multipath_verdict (HH:=sim_host) nqn1 (with_multipath_enabled true initiator) _ eq_refl)) as (_ & _ & ->). }
  split_and!; rewrite H by (by apply (bool_decide_eq_true_1 _)); by vm_compute.
Defined.

Lemma controllers_listed_witness :
  runs (get_connected_controllers (HE:=sim_env)) (with_paths [path2; path1]) initiator (Ret [VStr "nvme2"; VStr "nvme1"]) (with_paths [path2; path1]) initiator.
Proof.
  apply (proj1 (controllers_listed nqn1 (with_paths [path2; path1]) (with_paths [path2; path1]) initiator eq_refl) (hosts_of true [path2; path1]) (str_of (hosts_text (hosts_of true [path2; path1])))).
  - reflexivity.
  - apply text_of, (sim_hosts_text (with_paths [path2; path1])). apply paths_ok. by apply (bool_decide_eq_true_1 _).
Defined.
