(* ===== verification/PciDlpar.v ===== *)
(** * Dynamic partitioning of PCI slots: io/pci/dlpar.py

    The class [DlparPci]: an adapter is taken out of the partition, put back, and moved to another
    partition and back, through the management console or by drmgr; then the system has to have the
    adapter again, with what hangs on it.  The functions of avocado that this class calls are the class
    [PciLib].  setUp sets the attributes of the parameters before a test method reads them; the
    attributes that [set_adapter_details] reads from the console are kept by their names. *)

From S2P Require Import Prelude PyStr PyFloat PyVal Avocado Logic.
Open Scope Z_scope.

(** ** Data *)

Record pd_self := PdSelf {
  pd_session : option string;              (* the host of the session *)
  pd_sriov : pyval;
  pd_peer_ip : pyval;
  pd_lpar_1 : string;
  pd_server : pyval;
  pd_lpar_2 : pyval;
  pd_pci_device : list string;
  pd_num_of_dlpar : Z;
  pd_lockdown_mode : pyval;
  pd_loc_code : string;
  pd_adapter_type : string;
  pd_contr_name : pyval;
  pd_ns_list : list pyval;
  pd_found : dict string;                  (* adapter_id, .., drc_index, lpar2_id *)
}.

Definition new_pd : pd_self := PdSelf None VNone VNone "" VNone VNone [] 0 VNone "" "" VNone [] [].

Definition with_session (v : option string) (x : pd_self) : pd_self :=
  PdSelf v (pd_sriov x) (pd_peer_ip x) (pd_lpar_1 x) (pd_server x) (pd_lpar_2 x) (pd_pci_device x) (pd_num_of_dlpar x)
    (pd_lockdown_mode x) (pd_loc_code x) (pd_adapter_type x) (pd_contr_name x) (pd_ns_list x) (pd_found x).
Definition with_loc_code (v : string) (x : pd_self) : pd_self :=
  PdSelf (pd_session x) (pd_sriov x) (pd_peer_ip x) (pd_lpar_1 x) (pd_server x) (pd_lpar_2 x) (pd_pci_device x) (pd_num_of_dlpar x)
    (pd_lockdown_mode x) v (pd_adapter_type x) (pd_contr_name x) (pd_ns_list x) (pd_found x).
Definition with_adapter_type (v : string) (x : pd_self) : pd_self :=
  PdSelf (pd_session x) (pd_sriov x) (pd_peer_ip x) (pd_lpar_1 x) (pd_server x) (pd_lpar_2 x) (pd_pci_device x) (pd_num_of_dlpar x)
    (pd_lockdown_mode x) (pd_loc_code x) v (pd_contr_name x) (pd_ns_list x) (pd_found x).
Definition with_contr_name (v : pyval) (x : pd_self) : pd_self :=
  PdSelf (pd_session x) (pd_sriov x) (pd_peer_ip x) (pd_lpar_1 x) (pd_server x) (pd_lpar_2 x) (pd_pci_device x) (pd_num_of_dlpar x)
    (pd_lockdown_mode x) (pd_loc_code x) (pd_adapter_type x) v (pd_ns_list x) (pd_found x).
Definition with_ns_list (v : list pyval) (x : pd_self) : pd_self :=
  PdSelf (pd_session x) (pd_sriov x) (pd_peer_ip x) (pd_lpar_1 x) (pd_server x) (pd_lpar_2 x) (pd_pci_device x) (pd_num_of_dlpar x)
    (pd_lockdown_mode x) (pd_loc_code x) (pd_adapter_type x) (pd_contr_name x) v (pd_found x).
Definition with_found (v : dict string) (x : pd_self) : pd_self :=
  PdSelf (pd_session x) (pd_sriov x) (pd_peer_ip x) (pd_lpar_1 x) (pd_server x) (pd_lpar_2 x) (pd_pci_device x) (pd_num_of_dlpar x)
    (pd_lockdown_mode x) (pd_loc_code x) (pd_adapter_type x) (pd_contr_name x) (pd_ns_list x) v.

(** The library functions that this class calls.  [pd_wait_for f t] is [wait.wait_for(f, timeout=t)]: it
    polls [f] until it gives a true value or the time is over, and tells whether it did. *)
Class PciLib (W : Type) := {
  pd_lib : string → list pyval → W → result pyval * W;
  pd_wait_for : M W pd_self bool → Z → M W pd_self bool;
  pd_slot : string → W → result (option string) * W;         (* pci.get_slot_from_sysfs *)
  pd_class_name : string → W → result string * W;            (* pci.get_pci_class_name *)
  pd_addresses : W → result (list string) * W;               (* pci.get_pci_addresses *)
  pd_disks : string → W → result (list string) * W;          (* pci.get_disks_in_pci_address *)
  pd_interfaces : string → W → result (list string) * W;     (* pci.get_interfaces_in_pci_address *)
  pd_path_status : string → W → result (list string) * W;    (* multipath.get_path_status *)
  pd_controller : string → W → result pyval * W;             (* nvme.get_controller_name *)
  pd_ns_ids : pyval → W → result (list pyval) * W;           (* nvme.get_current_ns_ids *)
  pd_ns_status : pyval → pyval → W → result (list string) * W;  (* nvme.get_ns_status *)
  pd_stderr : cmd_result → string;
  pd_distro : string;
}.

(** [l[i]], [i] not negative. *)
Definition item {A} (l : list A) (i : nat) : result A :=
  match l !! i with Some a => Ret a | None => raise_ IndexError "list index out of range" end.

(** [line.split(',')[i]] *)
Definition column (i : nat) (line : string) : result string := item (py_split_on "," line) i.
Definition last_part (c : ascii) (line : string) : string := default ""%string (last_opt (py_split_on c line)).

(** The first character. *)
Definition first_char (s : string) : result string :=
  match chars_of s with c :: _ => Ret (str_of [c]) | [] => raise_ IndexError "string index out of range" end.

(** ** The commands *)

Definition lpar_id_cmd (server lpar : string) : string :=
  "lshwres -r io -m " +:+ server +:+ " --rsubtype slot --filter                    lpar_names=" +:+ lpar +:+ " -F lpar_id".
Definition ports_cmd (server lpar : string) : string :=
  "lshwres -r sriov --rsubtype logport -m " +:+ server +:+ "             --level eth --filter lpar_names=" +:+ lpar +:+
  " -F             'adapter_id,logical_port_id,phys_port_id,lpar_id,location_code,drc_name'".
Definition slots_cmd (server lpar : string) : string :=
  "lshwres -r io -m " +:+ server +:+ " --rsubtype slot                    --filter lpar_names=" +:+ lpar +:+ " -F drc_index,lpar_id,drc_name,bus_id".
Definition list_cmd (server lpar drc_index : string) : string :=
  "lshwres -r io -m " +:+ server +:+ "                --rsubtype slot --filter lpar_names= " +:+ lpar +:+ "                | grep -i " +:+ drc_index.
Definition list_sriov_cmd (server lpar logical_port_id : string) : string :=
  "lshwres -r sriov -m " +:+ server +:+ "               --rsubtype logport --filter lpar_names= " +:+ lpar +:+
  " --level eth               | grep -i " +:+ logical_port_id.
Definition change_cmd (server operation lpar_id lpar drc_index : string) : string :=
  if String.eqb operation "m" then
    "chhwres -r io --rsubtype slot -m " +:+ server +:+ "                -o " +:+ operation +:+ " --id " +:+ lpar_id +:+ " -t " +:+ lpar +:+
    " -l " +:+ drc_index +:+ " "
  else
    "chhwres -r io --rsubtype slot -m " +:+ server +:+ "                    -o " +:+ operation +:+ " --id " +:+ lpar_id +:+ " -l " +:+ drc_index +:+ " ".
Definition change_sriov_cmd (server operation lpar_id adapter_id logical_port_id phys_port_id : string) : string :=
  if String.eqb operation "r" then
    "chhwres -r sriov -m " +:+ server +:+ " --rsubtype logport -o r --id " +:+ lpar_id +:+ " -a                   adapter_id=" +:+ adapter_id +:+
    ",logical_port_id=" +:+ logical_port_id
  else
    "chhwres -r sriov -m " +:+ server +:+ " --rsubtype logport -o a --id " +:+ lpar_id +:+ " -a                   phys_port_id=" +:+ phys_port_id +:+
    ",adapter_id=" +:+ adapter_id +:+ ",logical_port_id=" +:+ logical_port_id +:+ ",                   logical_port_type=eth".
Definition drmgr_pci_cmd (loc_code operation : string) : string :=
  "echo -e " +:+ DQ +:+ NL +:+ DQ +:+ " | drmgr -c pci -s " +:+ loc_code +:+ " -" +:+ operation.
Definition drmgr_phb_cmd (phb operation : string) : string := "drmgr -c phb -s " +:+ DQ +:+ "PHB " +:+ phb +:+ DQ +:+ " -" +:+ operation.

Definition no_result : string := "No results were found".
Definition lockdown_path : string := "/sys/kernel/security/lockdown".
Definition dlpar_packages : list string := ["ksh"; "src"; "rsct.basic"; "rsct.core.utils"; "rsct.core"; "DynamicRM"; "pciutils"].

(** ** The class DlparPci *)

Section DlparPci.
Context {W : Type} {HE : Env W} {HP : PciLib W}.
Abbreviation T := (M W pd_self).

Definition pd_call (fn : string) (args : list pyval) : T pyval := ext (EvCall fn args) (pd_lib fn args).
Definition query {A} (fn : string) (args : list pyval) (f : W → result A * W) : T A := ext (EvCall fn args) f.

(** [self.session.cmd(cmd)] *)
Definition session_cmd (cmd : string) : T cmd_result := host ← attr "session" pd_session; ssh_cmd host cmd.

(** An attribute that [set_adapter_details] sets. *)
Definition detail (name : string) : T string := attr name (λ x, dict_find name (pd_found x)).
Definition set_detail (name : string) (v : result string) : T () := s ← lift v; modify (λ x, with_found (dict_put name s (pd_found x)) x).

Definition is_sriov : T bool := gets (λ x, py_eq (pd_sriov x) (VStr "yes")).
Definition server_name : T string := gets (λ x, py_str (pd_server x)).

(** *** setUp *)

Definition get_mcp_component (component : string) : T string :=
  out ← process_system_output ("lsrsrc IBM.MCP " +:+ component) [IgnoreStatus; Shell; Sudo];
  match List.find (py_in component) (py_splitlines out) with
  | Some line =>
      match last_opt (py_split line) with
      | Some w => mret (py_strip_of ("{}" +:+ DQ) w)
      | None => throw IndexError "list index out of range"
      end
  | None => mret ""
  end.

Definition get_partition_name (component : string) : T string :=
  out ← process_system_output "lparstat -i" [IgnoreStatus; Shell; Sudo];
  mret (match List.find (py_in component) (py_splitlines out) with Some line => py_strip (last_part ":" line) | None => "" end).

Definition install_packages : T () :=
  log_info ("Test is running on: " +:+ pd_distro) ;;
  for_each (dlpar_packages ++ (if String.eqb pd_distro "Ubuntu" then ["python-paramiko"%string] else [])) (λ pkg,
    c ← pd_call "SoftwareManager.check_installed" [VStr pkg];
    when (negb (truthy c))
      (i ← pd_call "SoftwareManager.install" [VStr pkg];
       when (negb (truthy i)) (test_cancel (pkg +:+ " is needed for the test to be run")))).

Definition cmd_failed (c : exn_class) : bool := bool_decide (c = CmdError).

Definition start_group (group : string) : T () :=
  let cmd := "startsrc -g " +:+ group in
  try_except (_ ← process_run cmd [Shell; Sudo]; mret ()) cmd_failed
    (λ details, log_debug (ex_msg details) ;; test_cancel ("Command " +:+ cmd +:+ " failed")).

Definition rsct_service_start : T () :=
  start_group "rsct" ;;
  start_group "rsct_rm" ;;
  output ← process_system_output "lssrc -a" [IgnoreStatus; Shell; Sudo];
  when (py_in "inoperative" output) (test_cancel "Failed to start the rsct and rsct_rm services").

(** *** Lockdown *)

Definition check_lockdown_support : T bool :=
  e ← path_exists lockdown_path;
  if negb e then log_warning "Kernel lockdown not supported on this system" ;; mret false else mret true.

Definition lockdown_state_in (output : string) : pyval :=
  if py_in "[none]" output then VStr "none"
  else if py_in "[integrity]" output then VStr "integrity"
  else if py_in "[confidentiality]" output then VStr "confidentiality"
  else VNone.

Definition get_lockdown_state : T pyval :=
  try_except
    (output ← process_system_output ("cat " +:+ lockdown_path) [Shell; Sudo]; mret (lockdown_state_in output)) any_exn
    (λ e, log_error ("Failed to get lockdown state: " +:+ ex_msg e) ;; mret VNone).

Definition set_lockdown_mode (mode : pyval) : T bool :=
  supported ← check_lockdown_support;
  if negb supported then mret false
  else
    current_state ← get_lockdown_state;
    log_info ("Current lockdown state: " +:+ py_str current_state) ;;
    if py_eq mode current_state then log_info ("Lockdown already set to " +:+ py_str mode) ;; mret true
    else
      try_except
        (_ ← process_run ("echo " +:+ DQ +:+ py_str mode +:+ DQ +:+ " > " +:+ lockdown_path) [Shell; Sudo];
         new_state ← get_lockdown_state;
         if py_eq new_state mode then log_info ("Successfully set lockdown to " +:+ py_str mode) ;; mret true
         else log_error ("Failed to set lockdown to " +:+ py_str mode +:+ ", current: " +:+ py_str new_state) ;; mret false) any_exn
        (λ e, log_error ("Error setting lockdown mode to " +:+ py_str mode +:+ ": " +:+ ex_msg e) ;; mret false).

Definition setUp : T () :=
  modify (with_session None) ;;
  install_packages ;;
  rsct_service_start ;;
  hmc_ip ← get_mcp_component "HMCIPAddr";
  when (py_empty hmc_ip) (test_cancel "HMC IP not got") ;;
  hmc_user ← get_param "hmc_username" (VStr "*******");
  hmc_pwd ← get_param "hmc_pwd" (VStr "********");
  sriov ← get_param "sriov" (VStr "no");
  peer_ip ← get_param "peer_ip" VNone;
  lpar_1 ← get_partition_name "Partition Name";
  when (py_empty lpar_1) (test_cancel "LPAR Name not got from lparstat command") ;;
  modify (with_session (Some hmc_ip)) ;;
  connected ← ext (EvCall "Session.connect" [VStr hmc_ip]) (env_connect (VStr hmc_ip) hmc_user hmc_pwd);
  when (negb connected) (test_cancel "failed connecting to HMC") ;;
  server ← get_param "manageSystem" VNone;
  when (negb (truthy server)) (test_cancel "Managed System not got") ;;
  lpar_2 ← get_param "lpar_2" VNone;
  devices ← get_param "pci_devices" VNone;
  pci_device ← lift (as_text devices);
  n ← get_param "num_of_dlpar" (VStr "1");
  num_of_dlpar ← lift (py_int n);
  lockdown_mode ← get_param "lockdown_mode" (VStr "integrity");
  lockdown_enable ← get_param "lockdown_enable" (VBool false);
  modify (λ x, PdSelf (pd_session x) sriov peer_ip lpar_1 server lpar_2 (py_split_on " " pci_device) num_of_dlpar lockdown_mode
                 (pd_loc_code x) (pd_adapter_type x) (pd_contr_name x) (pd_ns_list x) (pd_found x)) ;;
  match lockdown_enable with
  | VBool true =>
      original_state ← get_lockdown_state;
      when (py_eq original_state (VStr "none"))
        (done_ ← set_lockdown_mode lockdown_mode;
         when (negb done_) (test_fail ("Failed to set lockdown to " +:+ py_str lockdown_mode)))
  | _ => log_info "Running DLPAR test case by default without setting lockdown feature"
  end.

(** *** The adapter *)

(** A listing of the console, unless its discovery is not complete. *)
Definition complete_output (cmd : string) : T string :=
  output ← session_cmd cmd;
  when (py_in no_result (stdout_text output))
    (log_warning "Incomplete hardware discovery!!. Refresh it" ;; test_cancel "Incomplete hardware discovery, skipping tests") ;;
  mret (stdout_text output).

(** The attributes from a line of the listing, one after the other. *)
Definition port_details (line : string) : T () :=
  set_detail "adapter_id" (column 0 line) ;;
  set_detail "logical_port_id" (column 1 line) ;;
  set_detail "phys_port_id" (column 2 line) ;;
  set_detail "lpar_id" (column 3 line) ;;
  set_detail "location_code" (column 4 line) ;;
  set_detail "phb" (drc_name ← column 5 line; item (py_split_on " " drc_name) 1).
Definition slot_details (line : string) : T () :=
  set_detail "drc_index" (column 0 line) ;;
  set_detail "lpar_id" (column 1 line) ;;
  set_detail "phb" (column 3 line).

(** The first line with the location code. *)
Definition first_with (loc_code output : string) (body : string → T ()) : T () :=
  match List.find (py_in loc_code) (py_splitlines output) with Some line => body line | None => mret () end.

Definition set_adapter_details (pci_device : string) : T () :=
  lpar_2 ← gets pd_lpar_2;
  server ← server_name;
  when (negb (is_None lpar_2))
    (output ← complete_output (lpar_id_cmd server (py_str lpar_2)); set_detail "lpar2_id" (first_char output)) ;;
  loc ← query "pci.get_slot_from_sysfs" [VStr pci_device] (pd_slot pci_device);
  match loc with
  | None => test_cancel "Failed to get the location code for the pci device"
  | Some loc_code =>
      modify (with_loc_code loc_code) ;;
      adapter_type ← query "pci.get_pci_class_name" [VStr pci_device] (pd_class_name pci_device);
      modify (with_adapter_type adapter_type) ;;
      when (String.eqb adapter_type "nvme")
        (c ← query "nvme.get_controller_name" [VStr pci_device] (pd_controller pci_device);
         modify (with_contr_name c) ;;
         l ← query "nvme.get_current_ns_ids" [c] (pd_ns_ids c);
         modify (with_ns_list l)) ;;
      _ ← session_cmd "uname -a";
      lpar_1 ← gets pd_lpar_1;
      sriov ← is_sriov;
      if (sriov : bool) then
        output ← complete_output (ports_cmd server lpar_1);
        first_with loc_code output port_details ;;
        lpar_id ← detail "lpar_id";
        log_info ("lpar_id : " +:+ lpar_id +:+ ", loc_code: " +:+ loc_code)
      else
        output ← complete_output (slots_cmd server lpar_1);
        first_with loc_code output slot_details ;;
        lpar_id ← detail "lpar_id"; drc_index ← detail "drc_index"; phb ← detail "phb";
        log_info ("lpar_id : " +:+ lpar_id +:+ ", loc_code: " +:+ loc_code +:+ ", drc_index: " +:+ drc_index +:+ ", phb: " +:+ phb)
  end.

(** *** The console *)

Definition list_output (cmd : string) : T string :=
  try_except (r ← session_cmd cmd; mret (stdout_text r)) cmd_failed
    (λ details, log_debug (ex_msg details) ;; test_fail "lshwres operation failed ").
Definition listhwres (server lpar drc_index : string) : T string := list_output (list_cmd server lpar drc_index).
Definition listhwres_sriov (server lpar logical_port_id : string) : T string := list_output (list_sriov_cmd server lpar logical_port_id).

Definition change_output (cmd msg : string) : T () :=
  r ← session_cmd cmd;
  when (negb (exit_status r =? 0)) (log_debug (pd_stderr r) ;; test_fail ("dlpar " +:+ msg +:+ " operation failed")).
Definition changehwres (server operation lpar_id lpar drc_index msg : string) : T () :=
  change_output (change_cmd server operation lpar_id lpar drc_index) msg.
Definition changehwres_sriov (server operation lpar_id adapter_id logical_port_id phys_port_id msg : string) : T () :=
  change_output (change_sriov_cmd server operation lpar_id adapter_id logical_port_id phys_port_id) msg.

Definition fail_with (output msg : string) : T () := log_debug output ;; test_fail msg.

Definition sriov_op (operation msg : string) : T string :=
  server ← server_name; lpar_1 ← gets pd_lpar_1;
  lpar_id ← detail "lpar_id"; adapter_id ← detail "adapter_id"; logical_port_id ← detail "logical_port_id"; phys_port_id ← detail "phys_port_id";
  changehwres_sriov server operation lpar_id adapter_id logical_port_id phys_port_id msg ;;
  listhwres_sriov server lpar_1 logical_port_id.
Definition slot_op (operation msg : string) : T string :=
  server ← server_name; lpar_1 ← gets pd_lpar_1; lpar_id ← detail "lpar_id"; drc_index ← detail "drc_index";
  changehwres server operation lpar_id lpar_1 drc_index msg ;;
  listhwres server lpar_1 drc_index.

Definition dlpar_remove : T () :=
  sriov ← is_sriov;
  if (sriov : bool) then
    output ← sriov_op "r" "remove";
    when (negb (py_empty output)) (fail_with output "lshwres still lists the drc after dlpar remove")
  else
    output ← slot_op "r" "remove"; drc_index ← detail "drc_index";
    when (negb (py_empty output) && py_in (",drc_index=" +:+ drc_index) output)
      (fail_with output "lshwres still lists the drc after dlpar remove").

Definition dlpar_add : T () :=
  sriov ← is_sriov;
  if (sriov : bool) then
    output ← sriov_op "a" "add"; logical_port_id ← detail "logical_port_id";
    when (negb (py_in logical_port_id output)) (fail_with output "lshwres fails to list the drc after dlpar add")
  else
    output ← slot_op "a" "add"; drc_index ← detail "drc_index";
    when (negb (py_in drc_index output)) (fail_with output "lshwres fails to list the drc after dlpar add").

(** The listing of a partition has the slot, or has it not. *)
Definition expect_listed (listed : bool) (lpar msg : string) : T () :=
  server ← server_name; drc_index ← detail "drc_index";
  output ← listhwres server lpar drc_index;
  when (negb (Bool.eqb (py_in drc_index output) listed)) (fail_with output msg).

Definition dlpar_move : T () :=
  l2 ← gets pd_lpar_2;
  when (negb (is_None l2))
    (let lpar_2 := py_str l2 in
     server ← server_name; lpar_1 ← gets pd_lpar_1; lpar_id ← detail "lpar_id"; drc_index ← detail "drc_index";
     changehwres server "m" lpar_id lpar_2 drc_index "move" ;;
     expect_listed false lpar_1 "lshwres still lists the drc in lpar_1 after                       dlpar move to lpar_2" ;;
     expect_listed true lpar_2 "lshwres fails to list the drc in lpar_2 after                        dlpar move" ;;
     lpar2_id ← detail "lpar2_id";
     changehwres server "m" lpar2_id lpar_1 drc_index "move" ;;
     expect_listed true lpar_1 "lshwres fails to list the drc in lpar_1 after                        dlpar move" ;;
     expect_listed false lpar_2 "lshwres still lists the drc in lpar_2 after                       dlpar move to lpar_1").

(** *** drmgr *)

Definition drmgr (cmd operation kind : string) : T () :=
  s ← process_system cmd [Shell; Sudo; IgnoreStatus];
  when (negb (s =? 0)) (test_fail ("drmgr operation " +:+ operation +:+ " fails for " +:+ kind)).
Definition do_drmgr_pci (operation : string) : T () :=
  loc_code ← gets pd_loc_code; drmgr (drmgr_pci_cmd loc_code operation) operation "PCI".
Definition do_drmgr_phb (operation : string) : T () := phb ← detail "phb"; drmgr (drmgr_phb_cmd phb operation) operation "PHB".

(** *** Validation in the system *)

Definition is_added (pci_device : string) : T bool :=
  l ← query "pci.get_pci_addresses" [] pd_addresses; mret (existsb (String.eqb pci_device) l).

Definition is_path_online (curr_path : string) : T bool :=
  path_stat ← query "multipath.get_path_status" [VStr curr_path] (pd_path_status curr_path);
  a ← lift (item path_stat 0);
  if negb (String.eqb a "active") then mret false
  else b ← lift (item path_stat 2); mret (String.eqb b "ready").

Definition disk_step (err_disks : list string) (disk : string) : T (list string) :=
  let curr_path := last_part "/" disk in
  log_info ("curr_path=" +:+ curr_path) ;;
  online ← pd_wait_for (is_path_online curr_path) 10;
  if negb online then log_info (disk +:+ " failed to recover after add") ;; mret (err_disks ++ [disk]) else mret err_disks.

Definition fc_recovery_check (pci_device : string) : T bool :=
  disks ← query "pci.get_disks_in_pci_address" [VStr pci_device] (pd_disks pci_device);
  err_disks ← for_acc disks [] disk_step;
  if negb (bool_decide (length err_disks = 0%nat)) then
    log_info ("few paths failed to recover : " +:+ py_repr (VList (map VStr err_disks))) ;; mret false
  else mret true.

Definition is_link_up (interface : string) : T bool := v ← pd_call "NetworkInterface.is_link_up" [VStr interface]; mret (truthy v).

Definition net_recovery_check (pci_device : string) : T bool :=
  log_info "entering the net recovery check" ;;
  iface ← query "pci.get_interfaces_in_pci_address" [VStr pci_device; VStr "net"] (pd_interfaces pci_device);
  interface ← lift (item iface 0);
  up ← pd_wait_for (is_link_up interface) 120;
  if (up : bool) then
    peer_ip ← gets pd_peer_ip;
    r ← pd_call "NetworkInterface.ping_check" [VStr interface; peer_ip; VInt 5];
    if is_None r then log_info "interface is up and pinging" ;; mret true else mret false
  else mret false.

(** The namespaces that are missing or not live and optimized, in order. *)
Fixpoint bad_namespaces (current : list pyval) (contr_name : pyval) (ns_list : list pyval) : T (list pyval) :=
  match ns_list with
  | [] => mret []
  | ns_id :: l =>
      bad ← (if negb (existsb (py_eq ns_id) current) then mret true
             else status ← query "nvme.get_ns_status" [contr_name; ns_id] (pd_ns_status contr_name ns_id);
                  mret (negb (bool_decide (take 2 status = ["live"; "optimized"]%string))));
      rest ← bad_namespaces current contr_name l;
      mret (if (bad : bool) then ns_id :: rest else rest)
  end.

Definition nvme_recovery_check (pci_device : string) : T bool :=
  there ← is_added pci_device;
  if negb there then log_error ("NVMe device " +:+ pci_device +:+ " not found after DLPAR") ;; mret false
  else
    ns_list ← gets pd_ns_list;
    if bool_decide (length ns_list = 0%nat) then
      log_info ("NVMe device " +:+ pci_device +:+ " recovered (no namespaces to check)") ;; mret true
    else
      contr_name ← gets pd_contr_name;
      current ← query "nvme.get_current_ns_ids" [contr_name] (pd_ns_ids contr_name);
      err_ns ← bad_namespaces current contr_name ns_list;
      if negb (bool_decide (length err_ns = 0%nat)) then
        log_info ("Namespaces missing or not recovered after DLPAR: " +:+ py_repr (VList err_ns)) ;; mret false
      else
        log_info ("NVMe device " +:+ pci_device +:+ " and all " +:+ py_str_Z (Z.of_nat (length ns_list)) +:+ " namespaces recovered successfully") ;;
        mret true.

Definition recovered (check : T bool) (msg : string) : T () := ok ← pd_wait_for check 30; when (negb ok) (test_fail msg).

Definition validation_in_os (pci_device : string) : T () :=
  added ← pd_wait_for (is_added pci_device) 30;
  if (added : bool) then
    sleep (VInt 45) ;;
    adapter_type ← gets pd_adapter_type;
    if String.eqb adapter_type "net" then recovered (net_recovery_check pci_device) "Network adapter failed to ping after dlapr"
    else if String.eqb adapter_type "nvme" then recovered (nvme_recovery_check pci_device) "nvme adapter failed to recover"
    else if String.eqb adapter_type "fc_host" then recovered (fc_recovery_check pci_device) "FC_adapter failed to recover"
    else log_warning "OS validation for this adapter not available                               please check manually"
  else test_fail "pci_address not showing up in OS after dlpar".

(** *** The tests *)

(** For each device: its details, and then [num_of_dlpar] rounds. *)
Definition rounds (body : T ()) : T () := n ← gets pd_num_of_dlpar; for_each (Zrange 0 n) (λ _, body).
Definition each_device (body : string → T ()) : T () :=
  devices ← gets pd_pci_device; for_each devices (λ pci, set_adapter_details pci ;; body pci).
Definition checked (pci : string) : T () := set_adapter_details pci ;; validation_in_os pci.

Definition test_dlpar : T () :=
  each_device (λ pci, rounds (dlpar_remove ;; dlpar_add ;; checked pci ;; dlpar_move)).

Definition test_drmgr_pci : T () :=
  sriov ← is_sriov;
  when sriov (test_cancel "drmgr -c pci test is not supported for this device") ;;
  each_device (λ pci,
    rounds (do_drmgr_pci "r" ;; do_drmgr_pci "a" ;; checked pci) ;;
    rounds (do_drmgr_pci "R" ;; checked pci)).

Definition test_drmgr_phb : T () :=
  each_device (λ pci, rounds (do_drmgr_phb "r" ;; do_drmgr_phb "a" ;; checked pci)).

Definition tearDown : T () :=
  session ← gets pd_session;
  match session with Some host => _ ← pd_call "Session.quit" [VStr host]; mret () | None => mret () end.
End DlparPci.
