(* ===== verification/PciSystem.v ===== *)
(** * PCI slots on a console

    The class [PciConsole] has what the console does with the slots of the partitions, and what the
    system knows of the adapters.  The listings are read; the test ends with the slots where they were, or
    leaves one in the other partition, depending on the number of that partition. *)

From stdpp Require Import gmap.
From S2P Require Import Prelude PyStr PyFloat PyVal Avocado Logic PciDlpar.
Open Scope Z_scope.

(** ** Slots *)

(** The index of a slot, its bus, and its name, which has the location code. *)
Record pci_slot := Slot { sl_drc : string; sl_bus : string; sl_name : string }.
#[export] Instance pci_slot_eq_dec : EqDecision pci_slot.
Proof. solve_decision. Defined.

(** Which partition has a slot, by its index. *)
Abbreviation slot_view := (gmap string string).

Definition row (id : string) (s : pci_slot) : string := py_join "," [sl_drc s; id; sl_name s; sl_bus s].
Definition listing (rows : list string) : string := str_of (concat (map (λ l, chars_of l ++ [LF]) rows)).
Definition or_none (rows : list string) : string := match rows with [] => no_result +:+ "." | _ => listing rows end.

(** A field of a listing: a word without a comma. *)
Definition plain (s : string) : Prop := Forall (λ c, is_space c = false ∧ Ascii.eqb "," c = false) (chars_of s).
Definition plain_slot (s : pci_slot) : Prop := plain (sl_drc s) ∧ plain (sl_bus s) ∧ plain (sl_name s) ∧ sl_drc s ≠ ""%string.

(** ** What the console does *)

(** The partitions by name, with their identifiers. *)
Definition named (lpars : dict string) (id : string) : option string := fst <$> List.find (λ p, String.eqb p.2 id) lpars.
Definition has_slot (lpars : dict string) (id drc : string) (v : slot_view) : bool :=
  match v !! drc with Some l => bool_decide (dict_find l lpars = Some id) | None => false end.

Definition changed (lpars : dict string) (op id target drc : string) (v : slot_view) : option slot_view :=
  if String.eqb op "a" then match v !! drc, named lpars id with None, Some l => Some (<[drc := l]> v) | _, _ => None end
  else if has_slot lpars id drc v then
    if String.eqb op "m" then (if dict_find target lpars then Some (<[drc := target]> v) else None) else Some (delete drc v)
  else None.

Definition owned (slots : list pci_slot) (l : string) (v : slot_view) : list pci_slot :=
  List.filter (λ s, bool_decide (v !! sl_drc s = Some l)) slots.

Class PciConsole (W : Type) {HE : Env W} {HP : PciLib W} := {
  pn_ok : W → Prop;
  pn_view : W → slot_view;
  pn_host : string;
  pn_server : string;
  pn_lpars : dict string;
  pn_slots : list pci_slot;
  pn_lpar : string;                          (* the partition that runs the test *)
  pn_loc : string → string;                  (* the location code of a device *)
  pn_type : string → string;                 (* its class *)
  pn_slot_of : string → pci_slot;
  pn_contr : string → pyval;
  pn_ns : pyval → list pyval;
  pn_ns_status : pyval → pyval → list string;
  pn_disks : string → list string;
  pn_paths : string → list string;
  pn_ifaces : string → list string;
  pn_link : string → bool;
  pn_ping : string → bool;

  pn_slots_plain : Forall plain_slot pn_slots;
  pn_ids : Forall (λ p, plain p.2 ∧ p.2 ≠ ""%string) pn_lpars ∧ NoDup (map snd pn_lpars) ∧ NoDup (map fst pn_lpars);

  (* the console *)
  pn_lpar_id l id v : dict_find l pn_lpars = Some id →
    answers pn_ok pn_view (env_ssh pn_host (lpar_id_cmd pn_server l)) v
      (λ r v', v' = v ∧ ∃ st, r = Ret (CmdResult st (or_none (map (λ _, id) (owned pn_slots l v)))));
  pn_rows l id v : dict_find l pn_lpars = Some id →
    answers pn_ok pn_view (env_ssh pn_host (slots_cmd pn_server l)) v
      (λ r v', v' = v ∧ ∃ st, r = Ret (CmdResult st (or_none (map (row id) (owned pn_slots l v)))));
  pn_list l s v : s ∈ pn_slots → is_Some (dict_find l pn_lpars) →
    answers pn_ok pn_view (env_ssh pn_host (list_cmd pn_server l (sl_drc s))) v
      (λ r v', v' = v ∧ ∃ st text, r = Ret (CmdResult st text) ∧
         if decide (v !! sl_drc s = Some l) then py_in (",drc_index=" +:+ sl_drc s) text = true else text = ""%string);
  pn_change op id target s v : op ∈ ["r"; "a"; "m"]%string → s ∈ pn_slots → plain id ∧ id ≠ ""%string → is_Some (dict_find target pn_lpars) →
    answers pn_ok pn_view (env_ssh pn_host (change_cmd pn_server op id target (sl_drc s))) v
      (λ r v', ∃ st text, r = Ret (CmdResult st text) ∧
         match changed pn_lpars op id target (sl_drc s) v with Some v1 => st = 0 ∧ v' = v1 | None => st ≠ 0 ∧ v' = v end);
  pn_uname v : answers pn_ok pn_view (env_ssh pn_host "uname -a") v (λ r v', v' = v ∧ ∃ c, r = Ret c);

  (* the system *)
  pn_get_slot d v : answers pn_ok pn_view (pd_slot d) v (λ r v', v' = v ∧ r = Ret (Some (pn_loc d)));
  pn_class d v : answers pn_ok pn_view (pd_class_name d) v (λ r v', v' = v ∧ r = Ret (pn_type d));
  pn_addresses d v : sl_drc (pn_slot_of d) ∈ map sl_drc pn_slots →
    answers pn_ok pn_view pd_addresses v
      (λ r v', v' = v ∧ ∃ l, r = Ret l ∧ (d ∈ l ↔ v !! sl_drc (pn_slot_of d) = Some pn_lpar));
  pn_controller d v : answers pn_ok pn_view (pd_controller d) v (λ r v', v' = v ∧ r = Ret (pn_contr d));
  pn_namespaces c v : answers pn_ok pn_view (pd_ns_ids c) v (λ r v', v' = v ∧ r = Ret (pn_ns c));
  pn_status c ns v : answers pn_ok pn_view (pd_ns_status c ns) v (λ r v', v' = v ∧ r = Ret (pn_ns_status c ns));
  pn_disks_of d v : answers pn_ok pn_view (pd_disks d) v (λ r v', v' = v ∧ r = Ret (pn_disks d));
  pn_path p v : answers pn_ok pn_view (pd_path_status p) v (λ r v', v' = v ∧ r = Ret (pn_paths p));
  pn_path_fields p : (3 ≤ length (pn_paths p))%nat;
  pn_interfaces d v : answers pn_ok pn_view (pd_interfaces d) v (λ r v', v' = v ∧ r = Ret (pn_ifaces d));
  pn_has_iface d : pn_type d = "net"%string → pn_ifaces d ≠ [];
  pn_link_up i v : answers pn_ok pn_view (pd_lib "NetworkInterface.is_link_up" [VStr i]) v (λ r v', v' = v ∧ r = Ret (VBool (pn_link i)));
  pn_pings i peer n v : answers pn_ok pn_view (pd_lib "NetworkInterface.ping_check" [VStr i; peer; n]) v
    (λ r v', v' = v ∧ r = Ret (if pn_ping i then VNone else VBool false));

  (* polling: an answer that changes nothing stays as it is *)
  pn_wait f t b x v : 0 < t → triple pn_ok pn_view f x v (λ r v' x', r = Ret b ∧ v' = v ∧ x' = x) →
    triple pn_ok pn_view (pd_wait_for f t) x v (λ r v' x', r = Ret b ∧ v' = v ∧ x' = x);
}.

(** ** Text *)

Lemma contains_suffix p q s : contains_chars (p ++ q) s = true → contains_chars q s = true.
Proof.
  induction p as [|c p IH]; [done|]. intros H. apply IH. clear IH. induction s as [|d s IHs]; [done|]. cbn in H |- *.
  apply orb_true_iff in H as [H|H]; apply orb_true_iff; right; [|by apply IHs].
  apply andb_true_iff in H as [_ H]. destruct s; cbn; by rewrite H.
Qed.

Lemma py_in_suffix p q s : py_in (p +:+ q) s = true → py_in q s = true.
Proof. unfold py_in. rewrite chars_of_app. apply contains_suffix. Qed.

Lemma py_in_empty p : p ≠ ""%string → py_in p "" = false.
Proof. by destruct p. Qed.

Lemma plain_row id s : plain id → plain_slot s → one_line (chars_of (row id s)) ∧ " "%char ∉ chars_of (row id s).
Proof.
  intros Hi (Hd & Hb & Hn & _). assert (∀ t, plain t → one_line (chars_of t) ∧ " "%char ∉ chars_of t) as H.
  { intros t Ht. split; [by eapply list.Forall_impl; [exact Ht|intros c [? _]; by apply no_space_inline]|].
    intros Hin. by destruct (proj1 (list.Forall_forall _ _) Ht _ Hin). }
  unfold row. cbn [py_join]. rewrite !chars_of_app. change (chars_of ",") with [","%char].
  apply H in Hi as [Hi1 Hi2], Hd as [Hd1 Hd2], Hb as [Hb1 Hb2], Hn as [Hn1 Hn2].
  split.
  - repeat (apply Forall_app; split); try done; by repeat constructor.
  - rewrite !not_elem_of_app. split_and!; try done; by apply (bool_decide_eq_true_1 _).
Qed.

Lemma plain_no_comma s : plain s → without "," s.
Proof. intros H. eapply list.Forall_impl; [exact H|]. by intros c [_ ?]. Qed.

Lemma row_columns id s : plain id → plain_slot s → py_split_on "," (row id s) = [sl_drc s; id; sl_name s; sl_bus s].
Proof. intros Hi (Hd & Hb & Hn & _). unfold row. apply split_join; [|done]. repeat constructor; by apply plain_no_comma. Qed.

Lemma listing_lines rows : Forall (λ l, one_line (chars_of l)) rows → py_splitlines (listing rows) = rows.
Proof.
  intros H. unfold listing. rewrite <- (map_map chars_of (λ l, l ++ [LF])), splitlines_ended; [|by apply List.Forall_map].
  rewrite map_map. clear H. induction rows as [|l rows IH]; [done|]. cbn. by rewrite str_of_chars_of, IH.
Qed.

Lemma listing_complete rows : Forall (λ l, " "%char ∉ chars_of l) rows → py_in no_result (listing rows) = false.
Proof.
  intros H. apply (py_in_missing " "); [by apply (bool_decide_eq_true_1 _)|]. unfold listing. rewrite chars_of_str_of.
  induction H as [|l rows Hl H IH]; cbn; [by apply not_elem_of_nil|]. rewrite !not_elem_of_app. split_and!; [done|by apply (bool_decide_eq_true_1 _)|done].
Qed.

Section console.
Context {W : Type} {HE : Env W} {HP : PciLib W} {HC : PciConsole W}.
Abbreviation does := (triple pn_ok pn_view).
Implicit Types (v : slot_view) (x : pd_self).

(** ** Settings *)

(** The attributes of a test on this console: the partition [l1] runs it, [l2] is the other one. *)
Record set_for (l2 : option (string * string)) (x : pd_self) : Prop := {
  sf_session : pd_session x = Some pn_host;
  sf_sriov : py_eq (pd_sriov x) (VStr "yes") = false;
  sf_server : pd_server x = VStr pn_server;
  sf_lpar_1 : pd_lpar_1 x = pn_lpar;
  sf_lpar_2 : pd_lpar_2 x = match l2 with Some (l, _) => VStr l | None => VNone end;
  sf_other : match l2 with Some (l, id) => dict_find l pn_lpars = Some id ∧ l ≠ pn_lpar | None => True end;
}.

(** The identifier of the other partition, as far as the test reads it. *)
Definition short_id (id : string) : string := match chars_of id with c :: _ => str_of [c] | [] => "" end.

(** The attributes of a device are read from the console. *)
Record detailed (d id1 : string) (l2 : option (string * string)) (x : pd_self) : Prop := {
  dt_set : set_for l2 x;
  dt_drc : dict_find "drc_index" (pd_found x) = Some (sl_drc (pn_slot_of d));
  dt_lpar : dict_find "lpar_id" (pd_found x) = Some id1;
  dt_lpar2 : match l2 with Some (_, id2) => dict_find "lpar2_id" (pd_found x) = Some (short_id id2) | None => True end;
  dt_type : pd_adapter_type x = pn_type d;
  dt_nvme : pn_type d = "nvme"%string → pd_contr_name x = pn_contr d ∧ pd_ns_list x = pn_ns (pn_contr d);
}.

(** A device whose slot this partition has, and whose location code stands in the row of this slot only. *)
Record located (id1 d : string) (v : slot_view) : Prop := {
  lc_slot : pn_slot_of d ∈ pn_slots;
  lc_owner : v !! sl_drc (pn_slot_of d) = Some pn_lpar;
  lc_row : ∀ s, s ∈ pn_slots → py_in (pn_loc d) (row id1 s) = bool_decide (s = pn_slot_of d);
}.

(** The other partition has a slot of its own. *)
Definition has_slots (l2 : option (string * string)) (v : slot_view) : Prop :=
  match l2 with Some (l, _) => owned pn_slots l v ≠ [] | None => True end.

Lemma session_does cmd (Q0 : result cmd_result → slot_view → Prop) x v (Q : result cmd_result → slot_view → pd_self → Prop) l2 : set_for l2 x →
  answers pn_ok pn_view (env_ssh pn_host cmd) v Q0 → (∀ r v', Q0 r v' → Q r v' x) → does (session_cmd cmd) x v Q.
Proof. intros Hx Ha HQ. unfold session_cmd, ssh_cmd. apply triple_bind. eapply triple_attr; [apply Hx|]. by eapply triple_ext. Qed.

Lemma id_plain l id : dict_find l pn_lpars = Some id → plain id ∧ id ≠ ""%string.
Proof.
  destruct pn_ids as [H _]. induction H as [|[k y] d Hk Hd IH]; [done|]. cbn. destruct (String.eqb k l); [by intros [= <-]|exact IH].
Qed.

Lemma rows_plain l id v : dict_find l pn_lpars = Some id →
  Forall (λ t, one_line (chars_of t) ∧ " "%char ∉ chars_of t) (map (row id) (owned pn_slots l v)).
Proof.
  intros [Hid _]%id_plain. apply List.Forall_map. apply list.Forall_forall. intros s Hs. apply plain_row; [done|].
  apply list_elem_of_In, filter_In in Hs as [Hs%list_elem_of_In _]. by eapply list.Forall_forall in Hs; [|apply pn_slots_plain].
Qed.

(** ** The details of a device *)

Lemma lpar2_read l id x v : set_for (Some (l, id)) x → owned pn_slots l v ≠ [] →
  does (complete_output (lpar_id_cmd pn_server l)) x v (λ r v' x', v' = v ∧ x' = x ∧ ∃ out, r = Ret out ∧ first_char out = Ret (short_id id)).
Proof.
  intros Hx Hne. pose proof (sf_other _ _ Hx) as [Hid _]. pose proof (id_plain _ _ Hid) as [Hp Hi]. unfold complete_output. apply triple_bind.
  eapply session_does; [done|by apply (pn_lpar_id l id)|]. intros ? ? (-> & st & ->). cbv beta iota. cbn [stdout_text].
  assert (or_none (map (λ _, id) (owned pn_slots l v)) = listing (map (λ _, id) (owned pn_slots l v))) as -> by (by destruct (owned pn_slots l v)).
  rewrite listing_complete.
  - triple_run. split_and!; [done..|]. eexists. split; [done|]. destruct (owned pn_slots l v) as [|s ss]; [done|]. unfold first_char, listing.
    rewrite chars_of_str_of. unfold short_id. cbn. destruct id; [done|]. done.
  - apply List.Forall_map, list.Forall_forall. intros s _ Hin. by destruct (proj1 (list.Forall_forall _ _) Hp _ Hin).
Qed.

Lemma find_row id1 d v : dict_find pn_lpar pn_lpars = Some id1 → located id1 d v →
  List.find (py_in (pn_loc d)) (map (row id1) (owned pn_slots pn_lpar v)) = Some (row id1 (pn_slot_of d)).
Proof.
  intros Hid [Hs Ho Hr]. assert (pn_slot_of d ∈ owned pn_slots pn_lpar v) as Hin.
  { apply list_elem_of_In, filter_In. split; [by apply list_elem_of_In|]. by apply bool_decide_eq_true_2. }
  assert (∀ s, s ∈ owned pn_slots pn_lpar v → s ∈ pn_slots) as Hsub by (intros s [? _]%list_elem_of_In%filter_In; by apply list_elem_of_In).
  induction (owned pn_slots pn_lpar v) as [|s l IH]; [by apply not_elem_of_nil in Hin|]. cbn [map List.find]. rewrite Hr by (apply Hsub; by left).
  destruct (bool_decide_reflect (s = pn_slot_of d)) as [->|Hne]; [done|]. apply IH.
  - apply elem_of_cons in Hin as [E|Hin]; [by rewrite E in Hne|done].
  - intros t Ht. apply Hsub. by right.
Qed.

Lemma set_detail_does name t x v (Q : result () → slot_view → pd_self → Prop) :
  Q (Ret ()) v (with_found (dict_put name t (pd_found x)) x) → does (set_detail name (Ret t)) x v Q.
Proof. intros HQ. unfold set_detail. triple_run. exact HQ. Qed.

Lemma set_found l2 x f : set_for l2 x → set_for l2 (with_found f x).
Proof. by intros [? ? ? ? ? ?]. Qed.

Lemma slot_read l2 id1 d x v : set_for l2 x → dict_find pn_lpar pn_lpars = Some id1 → located id1 d v →
  does (complete_output (slots_cmd pn_server pn_lpar)) x v (λ r v' x', v' = v ∧ x' = x ∧
    ∃ out, r = Ret out ∧ List.find (py_in (pn_loc d)) (py_splitlines out) = Some (row id1 (pn_slot_of d))).
Proof.
  intros Hx Hid Hd. pose proof (rows_plain _ _ v Hid) as Hrows. pose proof (find_row _ _ _ Hid Hd) as Hf. unfold complete_output. apply triple_bind.
  eapply session_does; [done|by apply (pn_rows pn_lpar id1)|]. intros ? ? (-> & st & ->). cbv beta iota. cbn [stdout_text].
  revert Hrows Hf. generalize (map (row id1) (owned pn_slots pn_lpar v)) as rows. intros rows Hrows Hf.
  assert (or_none rows = listing rows) as -> by (by destruct rows).
  rewrite listing_complete by (eapply list.Forall_impl; [exact Hrows|by intros t [_ ?]]). triple_run. split_and!; [done..|].
  eexists. split; [done|]. rewrite listing_lines; [done|]. eapply list.Forall_impl; [exact Hrows|by intros t [? _]].
Qed.

Lemma details_read l2 id1 d x v : set_for l2 x → dict_find pn_lpar pn_lpars = Some id1 → located id1 d v → has_slots l2 v →
  does (set_adapter_details d) x v (λ r v' x', r = Ret () ∧ v' = v ∧ detailed d id1 l2 x' ∧ pd_num_of_dlpar x' = pd_num_of_dlpar x).
Proof.
  intros Hx Hid Hd Ho. unfold set_adapter_details, server_name, is_sriov. triple_run. rewrite (sf_server _ _ Hx). cbn [py_str].
  apply (triple_mono _ _ _ _ _ (λ r v' x', r = Ret () ∧ v' = v ∧ set_for l2 x' ∧ pd_num_of_dlpar x' = pd_num_of_dlpar x ∧
    match l2 with Some (_, id2) => dict_find "lpar2_id" (pd_found x') = Some (short_id id2) | None => True end)).
  { rewrite (sf_lpar_2 _ _ Hx). destruct l2 as [[l id2]|]; cbn [is_None negb]; [|by triple_run]. triple_run. cbn [py_str].
    triple_call (lpar2_read l id2); [done..|]. intros ? ? ? (-> & -> & out & -> & Hout). cbv beta iota. rewrite Hout. apply set_detail_does.
    split_and!; [done..|by apply set_found|done|]. cbn [with_found pd_found]. by rewrite dict_find_put. }
  clear Hx. intros ? ? x1 (-> & -> & Hx & Hn & H2). cbv beta iota. unfold query. triple_run. triple_call pn_get_slot. intros ? ? [-> ->]. triple_run.
  triple_call pn_class. intros ? ? [-> ->]. triple_run. set (x2 := with_adapter_type _ _).
  apply (triple_mono _ _ _ _ _ (λ r v' x', r = Ret () ∧ v' = v ∧ set_for l2 x' ∧ pd_num_of_dlpar x' = pd_num_of_dlpar x ∧ pd_found x' = pd_found x1 ∧
    pd_adapter_type x' = pn_type d ∧ (pn_type d = "nvme"%string → pd_contr_name x' = pn_contr d ∧ pd_ns_list x' = pn_ns (pn_contr d)))).
  { assert (set_for l2 x2) as Hx2 by (by destruct Hx). destruct (String.eqb_spec (pn_type d) "nvme") as [E|E].
    - triple_run. triple_call pn_controller. intros ? ? [-> ->]. triple_run. triple_call pn_namespaces. intros ? ? [-> ->]. triple_run.
      split_and!; try done. by destruct Hx.
    - triple_run. by split_and!. }
  intros ? ? x3 (-> & -> & Hx3 & Hn3 & Hf3 & Ht3 & Hv3). cbv beta iota. rewrite <- Hf3 in H2. clear Hx Hn Hf3 x2 x1. triple_run.
  eapply session_does; [done|apply pn_uname|]. intros ? ? [-> [c ->]]. triple_run. rewrite (sf_sriov _ _ Hx3), (sf_lpar_1 _ _ Hx3). triple_run.
  triple_call (slot_read l2 id1 d); [done..|]. intros ? ? ? (-> & -> & out & -> & Hfind). triple_run. unfold first_with. rewrite Hfind. unfold slot_details.
  assert (py_split_on "," (row id1 (pn_slot_of d)) = [sl_drc (pn_slot_of d); id1; sl_name (pn_slot_of d); sl_bus (pn_slot_of d)]) as Hcol.
  { apply row_columns; [by apply (id_plain pn_lpar)|]. destruct Hd as [Hs _ _]. by eapply list.Forall_forall in Hs; [|apply pn_slots_plain]. }
  unfold column. rewrite Hcol. cbn [item lookup list_lookup]. unfold item. cbn. triple_run. apply set_detail_does. triple_run. apply set_detail_does.
  triple_run. apply set_detail_does. unfold detail. cbv beta iota. cbn [with_found pd_found].
  do 3 (apply triple_bind; eapply triple_attr; [cbn [with_found pd_found]; rewrite !dict_find_put; reflexivity|]; cbv beta iota).
  triple_run. split_and!; [done..| |done]. constructor; cbn [with_found pd_found].
  - by apply (set_found l2 x3).
  - by rewrite !dict_find_put.
  - by rewrite !dict_find_put.
  - destruct l2 as [[l id2]|]; [|done]. by rewrite !dict_find_put.
  - done.
  - done.
Qed.

(** ** Operations of the console *)

Lemma server_does l2 x v (Q : result string → slot_view → pd_self → Prop) : set_for l2 x → Q (Ret pn_server) v x → does server_name x v Q.
Proof. intros Hx HQ. unfold server_name. apply triple_gets. by rewrite (sf_server _ _ Hx). Qed.

Lemma detail_does name t x v (Q : result string → slot_view → pd_self → Prop) :
  dict_find name (pd_found x) = Some t → Q (Ret t) v x → does (detail name) x v Q.
Proof. intros Ht HQ. unfold detail. by eapply triple_attr. Qed.

(** A listing of a partition has the slot if and only if the partition has it. *)
Lemma listed l2 l s x v : set_for l2 x → s ∈ pn_slots → is_Some (dict_find l pn_lpars) →
  does (listhwres pn_server l (sl_drc s)) x v (λ r v' x', v' = v ∧ x' = x ∧ ∃ text, r = Ret text ∧
    if decide (v !! sl_drc s = Some l) then py_in (",drc_index=" +:+ sl_drc s) text = true ∧ py_in (sl_drc s) text = true
    else text = ""%string ∧ py_in (sl_drc s) text = false).
Proof.
  intros Hx Hs Hl. unfold listhwres, list_output. triple_run. eapply session_does; [done|by apply pn_list|]. intros ? ? (-> & st & text & -> & Ht). triple_run.
  split_and!; [done..|]. exists text. split; [done|]. destruct (decide _); [split; [done|by eapply py_in_suffix]|].
  subst text. split; [done|]. apply py_in_empty. by destruct (proj1 (list.Forall_forall _ _) pn_slots_plain _ Hs) as (_ & _ & _ & ?).
Qed.

Lemma changed_does l2 op id target s msg x v : set_for l2 x → op ∈ ["r"; "a"; "m"]%string → s ∈ pn_slots → plain id ∧ id ≠ ""%string →
  is_Some (dict_find target pn_lpars) →
  does (changehwres pn_server op id target (sl_drc s) msg) x v (λ r v' x', x' = x ∧
    match changed pn_lpars op id target (sl_drc s) v with Some v1 => r = Ret () ∧ v' = v1 | None => v' = v ∧ ∃ text, r = raise_ TestFail text end).
Proof.
  intros Hx Hop Hs Hid Ht. unfold changehwres, change_output. triple_run. eapply session_does; [done|by apply pn_change|].
  intros ? ? (st & text & -> & Hc). cbv beta iota. cbn [exit_status]. destruct (changed _ _ _ _ _ _) as [v1|]; destruct Hc as [Hst ->].
  - subst st. change (negb (0 =? 0)) with false. by triple_run.
  - apply Z.eqb_neq in Hst as ->. cbn [negb]. triple_run. split_and!; [done..|]. by eexists.
Qed.

Lemma has_slot_is l id drc v : dict_find l pn_lpars = Some id → v !! drc = Some l → has_slot pn_lpars id drc v = true.
Proof. intros Hid Hv. unfold has_slot. rewrite Hv. by apply bool_decide_eq_true_2. Qed.

Lemma named_is l id : dict_find l pn_lpars = Some id → named pn_lpars id = Some l.
Proof.
  destruct pn_ids as (_ & Hd & _). unfold named. induction pn_lpars as [|[k y] p IH]; [done|]. cbn in *. apply list.NoDup_cons in Hd as [Hy Hd].
  destruct (String.eqb_spec k l) as [->|Hk].
  - intros [= ->]. by rewrite String.eqb_refl.
  - intros Hf. destruct (String.eqb_spec y id) as [->|]; [|by apply IH]. destruct Hy. clear IH Hd. induction p as [|[k' y'] p IH]; [done|]. cbn in *.
    destruct (String.eqb k' l); [injection Hf as ->; by left|right; by apply IH].
Qed.

Section device.
Context (l2 : option (string * string)) (id1 d : string) (Hid : dict_find pn_lpar pn_lpars = Some id1).

(** The slot is taken out and put back. *)
Lemma removed x v : detailed d id1 l2 x → located id1 d v →
  does dlpar_remove x v (λ r v' x', r = Ret () ∧ v' = delete (sl_drc (pn_slot_of d)) v ∧ x' = x).
Proof using Hid.
  intros [Hx Hdrc Hlpar _ _ _] [Hs Hv _]. unfold dlpar_remove, is_sriov, slot_op. triple_run. rewrite (sf_sriov _ _ Hx). triple_run.
  eapply server_does; [done|]. triple_run. rewrite (sf_lpar_1 _ _ Hx). eapply detail_does; [done|]. triple_run. eapply detail_does; [done|]. triple_run.
  triple_call (changed_does l2 "r" id1 pn_lpar (pn_slot_of d)); [done|by apply (bool_decide_eq_true_1 _)|done|by apply (id_plain pn_lpar)|by eexists|].
  intros r v' x'. unfold changed. change (String.eqb "r" "a") with false. change (String.eqb "r" "m") with false. rewrite (has_slot_is pn_lpar) by done.
  intros (-> & -> & ->). triple_run. triple_call (listed l2 pn_lpar (pn_slot_of d)); [done|done|by eexists|]. intros ? ? ? (-> & -> & text & -> & Ht). cbv beta iota.
  rewrite decide_False in Ht by (by rewrite lookup_delete_eq). destruct Ht as [-> _]. apply triple_bind. eapply detail_does; [done|]. by triple_run.
Qed.

Lemma added x v : detailed d id1 l2 x → pn_slot_of d ∈ pn_slots → v !! sl_drc (pn_slot_of d) = None →
  does dlpar_add x v (λ r v' x', r = Ret () ∧ v' = <[sl_drc (pn_slot_of d) := pn_lpar]> v ∧ x' = x).
Proof using Hid.
  intros [Hx Hdrc Hlpar _ _ _] Hs Hv. unfold dlpar_add, is_sriov, slot_op. triple_run. rewrite (sf_sriov _ _ Hx). triple_run.
  eapply server_does; [done|]. triple_run. rewrite (sf_lpar_1 _ _ Hx). eapply detail_does; [done|]. triple_run. eapply detail_does; [done|]. triple_run.
  triple_call (changed_does l2 "a" id1 pn_lpar (pn_slot_of d)); [done|by apply (bool_decide_eq_true_1 _)|done|by apply (id_plain pn_lpar)|by eexists|].
  intros r v' x'. unfold changed. change (String.eqb "a" "a") with true. rewrite Hv, (named_is _ _ Hid).
  intros (-> & -> & ->). triple_run. triple_call (listed l2 pn_lpar (pn_slot_of d)); [done|done|by eexists|]. intros ? ? ? (-> & -> & text & -> & Ht). cbv beta iota.
  rewrite decide_True in Ht by (by rewrite lookup_insert_eq). destruct Ht as [_ Ht]. apply triple_bind. eapply detail_does; [done|]. rewrite Ht. by triple_run.
Qed.

Lemma expected l (b : bool) msg x v : detailed d id1 l2 x → pn_slot_of d ∈ pn_slots → is_Some (dict_find l pn_lpars) → (v !! sl_drc (pn_slot_of d) = Some l ↔ b = true) →
  does (expect_listed b l msg) x v (λ r v' x', r = Ret () ∧ v' = v ∧ x' = x).
Proof using Hid.
  intros [Hx Hdrc Hlpar _ _ _] Hs Hl Hb. unfold expect_listed. apply triple_bind. eapply server_does; [done|]. apply triple_bind.
  eapply detail_does; [done|]. triple_run. triple_call (listed l2 l (pn_slot_of d)); [done..|]. intros ? ? ? (-> & -> & text & -> & Ht). cbv beta iota.
  destruct (decide _) as [E|E]; destruct Ht as [_ ->]; destruct b; try (by triple_run); [by apply Hb in E|by destruct E; apply Hb].
Qed.

(** ** Recovery *)

Definition online (disk : string) : bool :=
  match pn_paths (last_part "/" disk) with a :: _ :: b :: _ => String.eqb a "active" && String.eqb b "ready" | _ => false end.
Definition namespace_good (c ns : pyval) : bool :=
  existsb (py_eq ns) (pn_ns c) && bool_decide (take 2 (pn_ns_status c ns) = ["live"; "optimized"]%string).

(** What hangs on the adapter is there: the first interface answers, each namespace that the test
    recorded is live and optimized, each path of each disk is active and ready. *)
Definition sound (dev : string) : bool :=
  if String.eqb (pn_type dev) "net" then match pn_ifaces dev with i :: _ => pn_link i && pn_ping i | [] => false end
  else if String.eqb (pn_type dev) "nvme" then forallb (namespace_good (pn_contr dev)) (pn_ns (pn_contr dev))
  else if String.eqb (pn_type dev) "fc_host" then forallb online (pn_disks dev)
  else true.

Lemma is_added_does x v : located id1 d v → does (is_added d) x v (λ r v' x', r = Ret true ∧ v' = v ∧ x' = x).
Proof using Type*.
  intros [Hs Ho _]. unfold is_added, query. triple_run. triple_call (pn_addresses d).
  { apply list_elem_of_In, in_map. by apply list_elem_of_In. }
  intros ? ? (-> & l & -> & Hl). triple_run. split_and!; [|done..]. f_equal. apply existsb_exists. exists d.
  split; [by apply list_elem_of_In, Hl|apply String.eqb_refl].
Qed.

Lemma net_checked x v : pn_type d = "net"%string → does (net_recovery_check d) x v (λ r v' x', r = Ret (sound d) ∧ v' = v ∧ x' = x).
Proof using Type*.
  intros Ht. pose proof (pn_has_iface d Ht) as Hi. unfold sound. rewrite Ht. change (String.eqb "net" "net") with true. cbv iota.
  unfold net_recovery_check, query. triple_run. triple_call pn_interfaces. intros ? ? [-> ->]. destruct (pn_ifaces d) as [|i l]; [done|].
  change (item (i :: l) 0) with (Ret i). triple_run. triple_call (pn_wait (is_link_up i) 120 (pn_link i)); [done| |].
  { unfold is_link_up, pd_call. triple_run. triple_call pn_link_up. intros ? ? [-> ->]. triple_run. by destruct (pn_link i). }
  intros ? ? ? (-> & -> & ->). cbv beta iota. destruct (pn_link i); cbn [andb]; [|by triple_run]. unfold pd_call. triple_run.
  triple_call pn_pings. intros ? ? [-> ->]. cbv beta iota. destruct (pn_ping i); cbn [is_None]; by triple_run.
Qed.

Lemma disks_checked x v : does (fc_recovery_check d) x v (λ r v' x', r = Ret (forallb online (pn_disks d)) ∧ v' = v ∧ x' = x).
Proof using Type*.
  unfold fc_recovery_check, query. triple_run. triple_call pn_disks_of. intros ? ? [-> ->]. triple_run.
  assert (∀ l err, does (for_acc l err disk_step) x v (λ r v' x', v' = v ∧ x' = x ∧ ∃ e, r = Ret e ∧ (e = [] ↔ err = [] ∧ forallb online l = true))) as H.
  { induction l as [|k l IH]; intros err; cbn [for_acc forallb]; [triple_run; split_and!; [done..|]; exists err; naive_solver|].
    unfold disk_step. triple_run. triple_call (pn_wait (is_path_online (last_part "/" k)) 10 (online k)); [done| |].
    - unfold is_path_online, query, online. triple_run. triple_call pn_path. intros ? ? [-> ->]. pose proof (pn_path_fields (last_part "/" k)) as Hl.
      destruct (pn_paths (last_part "/" k)) as [|a [|a2 [|b p]]]; cbn in Hl; try lia.
      change (item (a :: a2 :: b :: p) 0) with (Ret a). change (item (a :: a2 :: b :: p) 2) with (Ret b). triple_run. destruct (String.eqb a "active"); cbn [negb andb]; by triple_run.
    - intros ? ? ? (-> & -> & ->). cbv beta iota. destruct (online k); cbn [negb andb]; triple_run.
      + eapply triple_mono; [apply IH|]. done.
      + eapply triple_mono; [apply IH|]. intros r v' x' (-> & -> & e & -> & He). split_and!; [done..|]. exists e. split; [done|]. rewrite He. split; [|by intros [_ ?]].
        intros [Habs _]. by destruct err. }
  triple_call H. intros ? ? ? (-> & -> & e & -> & He). cbv beta iota. destruct e as [|k e]; cbn [length].
  - rewrite bool_decide_eq_true_2 by done. cbn [negb]. triple_run. by rewrite (proj2 (proj1 He eq_refl)).
  - rewrite bool_decide_eq_false_2 by done. cbn [negb]. triple_run. split_and!; [|done..]. destruct (forallb online (pn_disks d)); [|done].
    discriminate (proj2 He (conj eq_refl eq_refl)).
Qed.

Lemma bad_listed c ns x v : does (bad_namespaces (pn_ns c) c ns) x v (λ r v' x', v' = v ∧ x' = x ∧ ∃ l, r = Ret l ∧ (l = [] ↔ forallb (namespace_good c) ns = true)).
Proof using Type*.
  induction ns as [|n ns IH]; cbn [bad_namespaces forallb]; [triple_run; split_and!; [done..|]; by eexists|]. unfold query. apply triple_bind.
  apply (triple_mono _ _ _ _ _ (λ r v' x', r = Ret (negb (namespace_good c n)) ∧ v' = v ∧ x' = x)).
  { unfold namespace_good. destruct (existsb _ _); cbn [negb andb]; [|by triple_run]. triple_run. triple_call pn_status. intros ? ? [-> ->]. by triple_run. }
  intros ? ? ? (-> & -> & ->). triple_run. triple_call IH. intros ? ? ? (-> & -> & l & -> & Hl). triple_run. split_and!; [done..|].
  destruct (namespace_good c n); cbn [negb andb]; eexists; (split; [done|]); [done|]. by split.
Qed.

Lemma namespaces_checked x v : detailed d id1 l2 x → located id1 d v → pn_type d = "nvme"%string →
  does (nvme_recovery_check d) x v (λ r v' x', r = Ret (sound d) ∧ v' = v ∧ x' = x).
Proof using Type*.
  intros Hx Hd Ht. destruct (dt_nvme _ _ _ _ Hx Ht) as [Hc Hn]. unfold sound. rewrite Ht. change (String.eqb "nvme" "net") with false.
  change (String.eqb "nvme" "nvme") with true. cbv iota. unfold nvme_recovery_check, query. triple_run. triple_call is_added_does; [done|].
  intros ? ? ? (-> & -> & ->). cbn [negb]. triple_run. rewrite Hn. destruct (bool_decide_reflect (length (pn_ns (pn_contr d)) = 0%nat)) as [E|E].
  { triple_run. by destruct (pn_ns (pn_contr d)). }
  triple_run. rewrite Hc. triple_call pn_namespaces. intros ? ? [-> ->]. triple_run. triple_call bad_listed. intros ? ? ? (-> & -> & l & -> & Hl). cbv beta iota.
  destruct l as [|k l]; cbn [length].
  - rewrite bool_decide_eq_true_2 by done. cbn [negb]. triple_run. by rewrite (proj1 Hl eq_refl).
  - rewrite bool_decide_eq_false_2 by done. cbn [negb]. triple_run. split_and!; [|done..]. destruct (forallb _ _); [|done]. discriminate (proj2 Hl eq_refl).
Qed.

Lemma recovered_does check b msg x v : does check x v (λ r v' x', r = Ret b ∧ v' = v ∧ x' = x) →
  does (recovered check msg) x v (λ r v' x', v' = v ∧ x' = x ∧ r = if b then Ret () else raise_ TestFail msg).
Proof using Type*.
  intros H. unfold recovered. triple_run. triple_call (pn_wait check 30 b); [done|done|]. intros ? ? ? (-> & -> & ->). cbv beta iota. destruct b; by triple_run.
Qed.

(** A device of this partition passes the validation if and only if it is sound. *)
Lemma validated x v : detailed d id1 l2 x → located id1 d v →
  does (validation_in_os d) x v (λ r v' x', v' = v ∧ x' = x ∧ if sound d then r = Ret () else ∃ msg, r = raise_ TestFail msg).
Proof using Type*.
  intros Hx Hd. unfold validation_in_os. triple_run. triple_call (pn_wait (is_added d) 30 true); [done|by apply is_added_does|].
  intros ? ? ? (-> & -> & ->). triple_run. rewrite (dt_type _ _ _ _ Hx).
  assert (∀ b (r : result ()) msg, r = (if (b : bool) then Ret () else raise_ TestFail msg) → if b then r = Ret () else ∃ msg, r = raise_ TestFail msg) as Hr.
  { intros [] r msg ->; [done|by eexists]. }
  destruct (String.eqb_spec (pn_type d) "net") as [E|E1]; [|destruct (String.eqb_spec (pn_type d) "nvme") as [E|E2]; [|destruct (String.eqb_spec (pn_type d) "fc_host") as [E|E3]]].
  - eapply triple_mono; [by apply (recovered_does _ (sound d)), net_checked|]. intros r v' x' (-> & -> & H). by apply Hr in H.
  - eapply triple_mono; [by apply (recovered_does _ (sound d)), namespaces_checked|]. intros r v' x' (-> & -> & H). by apply Hr in H.
  - eapply triple_mono; [apply (recovered_does _ (forallb online (pn_disks d))), disks_checked|]. intros r v' x' (-> & -> & H). unfold sound. rewrite E. by apply Hr in H.
  - triple_run. unfold sound. apply String.eqb_neq in E1 as ->, E2 as ->, E3 as ->. done.
Qed.
End device.
End console.

(** ** Verdicts *)

Section tests.
Context {W : Type} {HE : Env W} {HP : PciLib W} {HC : PciConsole W}.
Abbreviation does := (triple pn_ok pn_view).
Implicit Types (v : slot_view) (x : pd_self).

(** The identifier of the other partition, where there is one, is a single character. *)
Definition one_digit (l2 : option (string * string)) : bool :=
  match l2 with Some (_, id) => (length (chars_of id) =? 1)%nat | None => true end.

Lemma short_one id : id ≠ ""%string → short_id id = id ↔ (length (chars_of id) =? 1)%nat = true.
Proof.
  intros Hne. unfold short_id. rewrite Nat.eqb_eq. destruct id as [|c id]; [done|]. change (chars_of (String c id)) with (c :: chars_of id).
  cbn [length]. split.
  - intros E. change (String c "" = String c id) in E. injection E as <-. done.
  - intros E. assert (chars_of id = []) as Hi by (apply length_zero_iff_nil; lia). destruct id; [done|by cbn in Hi].
Qed.

Lemma short_plain id : plain id ∧ id ≠ ""%string → plain (short_id id) ∧ short_id id ≠ ""%string.
Proof.
  intros [Hp Hne]. unfold short_id. destruct id as [|c id]; [done|]. change (chars_of (String c id)) with (c :: chars_of id) in *.
  split; [|done]. inversion Hp as [|? ? Hc]; subst. by constructor.
Qed.

(** The slot is where the move leaves it. *)
Definition left_at (d : string) (l2 : option (string * string)) v : slot_view :=
  match l2 with Some (l, _) => <[sl_drc (pn_slot_of d) := l]> v | None => v end.

Section device.
Context (l2 : option (string * string)) (id1 d : string) (Hid : dict_find pn_lpar pn_lpars = Some id1).

Lemma moved x v : detailed d id1 l2 x → located id1 d v →
  does dlpar_move x v (λ r v' x', x' = x ∧
    if one_digit l2 then r = Ret () ∧ v' = v else v' = left_at d l2 v ∧ ∃ msg, r = raise_ TestFail msg).
Proof using Hid.
  intros Hx [Hs Hv _]. pose proof Hx as [Hset Hdrc Hlpar H2 _ _]. unfold dlpar_move. triple_run. rewrite (sf_lpar_2 _ _ Hset).
  pose proof (sf_other _ _ Hset) as Ho. unfold one_digit, left_at in *. destruct l2 as [[l id2]|]; cbn [is_None negb]; [|by triple_run].
  destruct Ho as [Hid2 Hne]. pose proof (id_plain _ _ Hid2) as Hp2. triple_run. cbn [py_str]. eapply server_does; [done|]. triple_run.
  rewrite (sf_lpar_1 _ _ Hset). eapply detail_does; [done|]. triple_run. eapply detail_does; [done|]. triple_run.
  triple_call (changed_does (Some (l, id2)) "m" id1 l (pn_slot_of d)); [done|by apply (bool_decide_eq_true_1 _)|done|by apply (id_plain pn_lpar)|by eexists|].
  intros r v' x'. unfold changed at 1. change (String.eqb "m" "a") with false. change (String.eqb "m" "m") with true.
  rewrite (has_slot_is pn_lpar) by done. rewrite Hid2. intros (-> & -> & ->). set (v1 := <[sl_drc (pn_slot_of d) := l]> v).
  assert (v1 !! sl_drc (pn_slot_of d) = Some l) as Hv1 by apply lookup_insert_eq. triple_run.
  triple_call (expected (Some (l, id2)) id1 d Hid pn_lpar false); [done|done|by eexists| |]; [rewrite Hv1; split; [congruence|done]|]. intros ? ? ? (-> & -> & ->). triple_run.
  triple_call (expected (Some (l, id2)) id1 d Hid l true); [done|done|by eexists|done|]. intros ? ? ? (-> & -> & ->). triple_run. eapply detail_does; [done|]. triple_run.
  triple_call (changed_does (Some (l, id2)) "m" (short_id id2) pn_lpar (pn_slot_of d));
    [done|by apply (bool_decide_eq_true_1 _)|done|by apply short_plain|by eexists|].
  intros r v' x'. unfold changed. change (String.eqb "m" "a") with false. change (String.eqb "m" "m") with true. unfold has_slot. rewrite Hv1, Hid2, Hid.
  destruct ((length (chars_of id2) =? 1)%nat) eqn:El.
  - rewrite bool_decide_eq_true_2 by (f_equal; symmetry; apply short_one; [apply Hp2|done]). intros (-> & -> & ->).
    assert (<[sl_drc (pn_slot_of d) := pn_lpar]> v1 = v) as -> by (unfold v1; rewrite insert_insert_eq; by apply insert_id). triple_run.
    triple_call (expected (Some (l, id2)) id1 d Hid pn_lpar true); [done|done|by eexists|done|]. intros ? ? ? (-> & -> & ->). triple_run.
    eapply triple_mono; [apply (expected (Some (l, id2)) id1 d Hid l false); [done|done|by eexists|]|].
    + rewrite Hv. split; [congruence|done].
    + by intros r v' x' (-> & -> & ->).
  - rewrite bool_decide_eq_false_2.
    2: { intros [= E]. symmetry in E. apply short_one in E; [|apply Hp2]. by rewrite El in E. }
    intros (-> & -> & text & ->). split_and!; [done..|]. by eexists.
Qed.

(** A round of the test. *)
Lemma round_done x v : detailed d id1 l2 x → located id1 d v → has_slots l2 v → sound d = true →
  does (dlpar_remove ;; dlpar_add ;; checked d ;; dlpar_move) x v (λ r v' x',
    if one_digit l2 then r = Ret () ∧ v' = v ∧ detailed d id1 l2 x' ∧ pd_num_of_dlpar x' = pd_num_of_dlpar x
    else v' = left_at d l2 v ∧ ∃ msg, r = raise_ TestFail msg).
Proof using Hid.
  intros Hx Hd Ho Hok. pose proof Hd as [Hs Hv _]. triple_run. triple_call (removed l2 id1 d Hid); [done..|]. intros ? ? ? (-> & -> & ->). triple_run.
  triple_call (added l2 id1 d Hid); [done|done|apply lookup_delete_eq|]. intros ? ? ? (-> & -> & ->). rewrite insert_delete_id by done. triple_run.
  unfold checked. triple_run. triple_call (details_read l2 id1 d); [by apply Hx|done..|]. intros ? ? x1 (-> & -> & Hx1 & Hn). cbv beta iota.
  triple_call (validated l2 id1 d Hid); [done..|]. rewrite Hok. intros ? ? ? (-> & -> & ->). cbv beta iota.
  eapply triple_mono; [by apply moved|]. intros r v' x' [-> H]. destruct (one_digit l2); [|done]. by destruct H as [-> ->].
Qed.
End device.

(** C10: [test_dlpar] with whole slots (sriov is not yes), on a console that works and with sound devices,
    at least one, whose slots this partition has; where another partition is given, it has a slot of its own.
    Where the identifier of that partition has one character (or there is no other partition), the
    test passes and every slot is where it was; where it has more, the move back is refused, the
    test fails, and the slot of the first device stays in the other partition. *)
Theorem dlpar_verdict l2 id1 x v : set_for l2 x → dict_find pn_lpar pn_lpars = Some id1 → has_slots l2 v →
  (∀ d, d ∈ pd_pci_device x → located id1 d v ∧ sound d = true) → pd_pci_device x ≠ [] → 0 < pd_num_of_dlpar x →
  does test_dlpar x v (λ r v' _,
    if one_digit l2 then verdict_of r = PASS ∧ v' = v
    else verdict_of r = FAIL ∧ ∃ d devices, pd_pci_device x = d :: devices ∧ v' = left_at d l2 v).
Proof.
  intros Hx Hid Ho Hdev Hne Hn. unfold test_dlpar, each_device. triple_run. destruct (one_digit l2) eqn:El.
  - eapply triple_mono; [apply (triple_for_each _ _ (λ y, set_for l2 y ∧ pd_num_of_dlpar y = pd_num_of_dlpar x))|].
    + intros d y Hd [Hy Hyn]. destruct (Hdev d Hd) as [Hl Hok]. triple_run. triple_call (details_read l2 id1 d); [done..|].
      intros ? ? y1 (-> & -> & Hy1 & Hn1). cbv beta iota. unfold rounds. triple_run.
      eapply triple_mono; [apply (triple_for_each _ _ (λ y, detailed d id1 l2 y ∧ pd_num_of_dlpar y = pd_num_of_dlpar x))|].
      * intros k z _ [Hz Hzn]. eapply triple_mono; [by apply (round_done l2 id1 d Hid)|]. rewrite El. intros r v' x' (-> & -> & Hx' & Hn').
        split_and!; [done..|congruence].
      * split; [done|congruence].
      * intros r v' x' (-> & -> & Hx' & Hn'). split_and!; [done..|by apply Hx'|done].
    + done.
    + by intros r v' x' (-> & -> & _).
  - destruct (pd_pci_device x) as [|d devices]; [done|]. destruct (Hdev d) as [Hl Hok]; [by left|]. cbn [for_each]. triple_run.
    triple_call (details_read l2 id1 d); [done..|]. intros ? ? y1 (-> & -> & Hy1 & Hn1). cbv beta iota. unfold rounds. triple_run.
    assert (∃ k l, Zrange 0 (pd_num_of_dlpar y1) = k :: l) as (k & l & ->).
    { unfold Zrange. rewrite Hn1. rewrite seqZ_cons by lia. by eexists _, _. }
    cbn [for_each]. apply triple_bind. eapply triple_mono; [by apply (round_done l2 id1 d Hid)|]. rewrite El.
    intros r v' x' (-> & msg & ->). cbv beta iota. split; [done|]. by exists d, devices.
Qed.

(** C39: after an addition, a device of this partition passes the validation in the system if and only if
    what hangs on it is there: a link that is up and answers, every namespace that was recorded live and
    optimized, every path of every disk active and ready; adapters of other classes pass. *)
Theorem recovery_verdict l2 id1 d x v : dict_find pn_lpar pn_lpars = Some id1 → detailed d id1 l2 x → located id1 d v →
  does (validation_in_os d) x v (λ r v' x', v' = v ∧ x' = x ∧ verdict_of r = if sound d then PASS else FAIL).
Proof.
  intros Hid Hx Hd. eapply triple_mono; [by apply (validated l2 id1 d Hid)|]. intros r v' x' (-> & -> & H). split_and!; [done..|].
  destruct (sound d); [by subst|by destruct H as [msg ->]].
Qed.
End tests.
