(* ===== verification/PciSim.v ===== *)
(** * A simulated console for the PCI slot tests

    Two partitions and three slots; the console decodes the words of the commands.  The identifier of
    the other partition has one character or two, and the theorems are applied to both. *)

From stdpp Require Import gmap.
From S2P Require Import Prelude PyStr PyFloat PyVal Avocado Logic PciDlpar PciSystem.
Open Scope Z_scope.

(** ** The machine *)

Definition slot1 : pci_slot := Slot "21010010" "16" "U78D2.001.WZS0001-P1-C3".
Definition slot2 : pci_slot := Slot "21020011" "17" "U78D2.001.WZS0001-P1-C4".
Definition slot3 : pci_slot := Slot "21030012" "18" "U78D2.001.WZS0001-P1-C5".
Definition no_slot : pci_slot := Slot "" "" "".
Definition sim_slots : list pci_slot := [slot1; slot2; slot3].
Definition device1 : string := "0001:01:00.0".
Definition device2 : string := "0002:01:00.0".
Definition device3 : string := "0003:01:00.0".

Section sim.
Context (id2 : string).

Definition sim_lpars : dict string := [("lpar1", "3"); ("lpar2", id2)]%string.
Definition sim_slot (d : string) : pci_slot := if String.eqb d device1 then slot1 else if String.eqb d device2 then slot2 else if String.eqb d device3 then slot3 else no_slot.
Definition sim_loc (d : string) : string := sl_name (sim_slot d).
Definition sim_type (d : string) : string := if String.eqb d device1 then "nvme" else if String.eqb d device2 then "net" else if String.eqb d device3 then "fc_host" else "".
Definition sim_owner (l : string) (v : slot_view) : list pci_slot := owned sim_slots l v.

Definition output (text : string) (v : slot_view) : result cmd_result * slot_view := (Ret (CmdResult 0 text), v).
Definition id_of (l : string) : string := default ""%string (dict_find l sim_lpars).

(** What follows a prefix. *)
Definition after (p s : string) : string := match drop_prefix (chars_of p) (chars_of s) with Some r => str_of r | None => "" end.

Definition change (op id target drc : string) (v : slot_view) : result cmd_result * slot_view :=
  match changed sim_lpars op id target drc v with Some v1 => output "" v1 | None => (Ret (CmdResult 1 "HSCL"), v) end.

Definition sim_ssh (cmd : string) (v : slot_view) : result cmd_result * slot_view :=
  match py_split cmd with
  | ["lshwres"; _; _; _; _; _; _; _; names; _; "lpar_id"]%string =>
      let l := after "lpar_names=" names in output (or_none (map (λ _, id_of l) (sim_owner l v))) v
  | ["lshwres"; _; _; _; _; _; _; _; names; _; _]%string =>
      let l := after "lpar_names=" names in output (or_none (map (row (id_of l)) (sim_owner l v))) v
  | ["lshwres"; _; _; _; _; _; _; _; _; l; _; _; _; drc]%string =>
      output (if decide (v !! drc = Some l) then "lpar_name=" +:+ l +:+ ",drc_index=" +:+ drc +:+ NL else "") v
  | ["chhwres"; _; _; _; _; _; _; _; op; _; id; _; target; _; drc]%string => change op id target drc v
  | ["chhwres"; _; _; _; _; _; _; _; op; _; id; _; drc]%string => change op id "" drc v
  | _ => output "" v
  end.

Definition sim_env : Env slot_view := {|
  env_run := λ _ _ w, (Ret (CmdResult 0 ""), w);
  env_system := λ _ _ w, (Ret 0, w);
  env_system_output := λ _ _ w, (Ret ""%string, w);
  env_ssh := λ _ cmd w, sim_ssh cmd w;
  env_connect := λ _ _ _ w, (Ret true, w);
  env_show := λ r, stdout_text r;
  env_param := λ _ d, d;
  env_exists := λ _ w, (true, w);
  env_read := λ _ w, (Ret ""%string, w);
  env_append := λ _ _ w, (Ret (), w);
  env_remove := λ _ w, (Ret (), w);
  env_random := λ w, (0, w);
|}.

(** A wait is one attempt. *)
Definition sim_pci : PciLib slot_view := {|
  pd_lib := λ fn _ w, (Ret (if String.eqb fn "NetworkInterface.is_link_up" then VBool true else VNone), w);
  pd_wait_for := λ f _, f;
  pd_slot := λ d w, (Ret (Some (sim_loc d)), w);
  pd_class_name := λ d w, (Ret (sim_type d), w);
  pd_addresses := λ w, (Ret (List.filter (λ d, bool_decide (w !! sl_drc (sim_slot d) = Some "lpar1"%string)) [device1; device2; device3]), w);
  pd_disks := λ _ w, (Ret ["/dev/sda"]%string, w);
  pd_interfaces := λ _ w, (Ret ["eth0"%string], w);
  pd_path_status := λ _ w, (Ret ["failed"; "undef"; "faulty"]%string, w);
  pd_controller := λ _ w, (Ret (VStr "nvme0"), w);
  pd_ns_ids := λ _ w, (Ret [VInt 1; VInt 2], w);
  pd_ns_status := λ _ _ w, (Ret ["live"; "optimized"; "1"]%string, w);
  pd_stderr := λ _, ""%string;
  pd_distro := "rhel";
|}.
End sim.

(** ** The machine is a console *)

Lemma words_id (a b : chars) id : plain id → id ≠ ""%string → words_of (a ++ " "%char :: chars_of id ++ " "%char :: b) = words_of a ++ chars_of id :: words_of b.
Proof.
  intros Hp Hne. rewrite (words_app a), (words_app (chars_of id)) by done. f_equal. rewrite words_word; [done| |by destruct id].
  eapply list.Forall_impl; [exact Hp|]. by intros c [? _].
Qed.

Definition other_ids : list string := ["4"; "12"]%string.

(** Each element of a concrete list. *)
Ltac each_of H := repeat (apply elem_of_cons in H as [->|H]; [try reflexivity|]); try by apply not_elem_of_nil in H.

Lemma in_lpars id2 l id : dict_find l (sim_lpars id2) = Some id → (l = "lpar1" ∧ id = "3") ∨ (l = "lpar2" ∧ id = id2)%string.
Proof.
  unfold sim_lpars. cbn [dict_find]. destruct (String.eqb_spec "lpar1" l) as [<-|]; [intros [= <-]; by left|].
  destruct (String.eqb_spec "lpar2" l) as [<-|]; [intros [= <-]; by right|done].
Qed.

(** The words of the commands that change a slot. *)
Lemma removed_words op id target s : plain id → id ≠ ""%string → op ∈ ["r"; "a"]%string → s ∈ sim_slots →
  py_split (change_cmd "server" op id target (sl_drc s)) =
  ["chhwres"; "-r"; "io"; "--rsubtype"; "slot"; "-m"; "server"; "-o"; op; "--id"; id; "-l"; sl_drc s]%string.
Proof.
  intros Hp Hne Hop Hs. unfold change_cmd.
  assert (String.eqb op "m" = false) as -> by (by each_of Hop).
  rewrite py_split_words, !chars_of_app.
  change (chars_of " --id ") with (chars_of " --id" ++ [" "%char]). change (chars_of " -l ") with (" "%char :: chars_of "-l ").
  match goal with |- context [words_of ?l] =>
    assert (l = (chars_of "chhwres -r io --rsubtype slot -m server                    -o " ++ chars_of op ++ chars_of " --id") ++
      " "%char :: chars_of id ++ " "%char :: (chars_of "-l " ++ chars_of (sl_drc s) ++ chars_of " ")) as -> end.
  { rewrite <- !app_assoc. done. }
  rewrite words_id by done. rewrite map_app. cbn [map]. rewrite str_of_chars_of. each_of Hop; each_of Hs.
Qed.

Lemma moved_words id target s : plain id → id ≠ ""%string → target ∈ ["lpar1"; "lpar2"]%string → s ∈ sim_slots →
  py_split (change_cmd "server" "m" id target (sl_drc s)) =
  ["chhwres"; "-r"; "io"; "--rsubtype"; "slot"; "-m"; "server"; "-o"; "m"; "--id"; id; "-t"; target; "-l"; sl_drc s]%string.
Proof.
  intros Hp Hne Ht Hs. unfold change_cmd. change (String.eqb "m" "m") with true. cbv iota.
  rewrite py_split_words, !chars_of_app.
  change (chars_of " --id ") with (chars_of " --id" ++ [" "%char]). change (chars_of " -t ") with (" "%char :: chars_of "-t ").
  match goal with |- context [words_of ?l] =>
    assert (l = (chars_of "chhwres -r io --rsubtype slot -m server                -o m --id") ++
      " "%char :: chars_of id ++ " "%char :: (chars_of "-t " ++ chars_of target ++ chars_of " -l " ++ chars_of (sl_drc s) ++ chars_of " ")) as -> end.
  { rewrite <- !app_assoc. done. }
  rewrite words_id by done. rewrite map_app. cbn [map]. rewrite str_of_chars_of. each_of Ht; each_of Hs.
Qed.

Lemma has_slot_owner (lpars : dict string) id drc v l : has_slot lpars id drc v = true → v !! drc = Some l → dict_find l lpars = Some id.
Proof. unfold has_slot. intros H E. rewrite E in H. by apply bool_decide_eq_true in H. Qed.

(** A concrete field is plain. *)
Lemma plain_word s : forallb (λ c, negb (is_space c) && negb (Ascii.eqb "," c)) (chars_of s) = true → plain s.
Proof. rewrite forallb_forall. intros H. apply list.Forall_forall. intros c Hc%list_elem_of_In. apply H in Hc. by destruct (is_space c), (Ascii.eqb "," c). Qed.

(** A test of this partition with one device, once; and where the slots are. *)
Definition sim_test (device : string) : pd_self :=
  PdSelf (Some "hmc"%string) (VStr "no") (VStr "10.0.0.2") "lpar1" (VStr "server") (VStr "lpar2") [device] 1 VNone "" "" VNone [] [].
Definition sim_view : slot_view := {[ "21010010" := "lpar1"; "21020011" := "lpar1"; "21030012" := "lpar2" ]}%string.

Section instance.
Context (id2 : string) (Hplain : plain id2) (Hne : id2 ≠ ""%string) (H3 : id2 ≠ "3"%string).

Lemma change_does op id target s v : op ∈ ["r"; "a"; "m"]%string → s ∈ sim_slots → plain id ∧ id ≠ ""%string → is_Some (dict_find target (sim_lpars id2)) →
  sim_ssh id2 (change_cmd "server" op id target (sl_drc s)) v = change id2 op id target (sl_drc s) v.
Proof.
  intros Hop Hs [Hp Hi] [t Ht]. unfold sim_ssh. destruct (decide (op = "m"%string)) as [->|Hm].
  - rewrite moved_words; [done..| |done]. destruct (in_lpars _ _ _ Ht) as [[-> _]|[-> _]]; [by left|by right; left].
  - assert (op ∈ ["r"; "a"]%string) as Hop' by (each_of Hop; [by left|by right; left|done]).
    rewrite removed_words by done. unfold change, changed. apply String.eqb_neq in Hm as ->. done.
Qed.

(** The listing of a slot. *)
Definition slot_line (l drc : string) : string := "lpar_name=" +:+ l +:+ ",drc_index=" +:+ drc +:+ NL.

Lemma list_does l s id v : dict_find l (sim_lpars id2) = Some id → s ∈ sim_slots →
  sim_ssh id2 (list_cmd "server" l (sl_drc s)) v = output (if decide (v !! sl_drc s = Some l) then slot_line l (sl_drc s) else "") v
  ∧ py_in (",drc_index=" +:+ sl_drc s) (slot_line l (sl_drc s)) = true.
Proof. intros Hl Hs. destruct (in_lpars _ _ _ Hl) as [[-> _]|[-> _]]; (each_of Hs; (split; reflexivity)). Qed.

#[local, refine] Instance sim_console : PciConsole slot_view (HE:=sim_env id2) (HP:=sim_pci) := {|
  pn_ok := λ _, True;
  pn_view := λ w, w;
  pn_host := "hmc";
  pn_server := "server";
  pn_lpars := sim_lpars id2;
  pn_slots := sim_slots;
  pn_lpar := "lpar1";
  pn_loc := sim_loc;
  pn_type := sim_type;
  pn_slot_of := sim_slot;
  pn_contr := λ _, VStr "nvme0";
  pn_ns := λ _, [VInt 1; VInt 2];
  pn_ns_status := λ _ _, ["live"; "optimized"; "1"]%string;
  pn_disks := λ _, ["/dev/sda"]%string;
  pn_paths := λ _, ["failed"; "undef"; "faulty"]%string;
  pn_ifaces := λ _, ["eth0"]%string;
  pn_link := λ _, true;
  pn_ping := λ _, true;
|}.
Proof.
  - repeat constructor; try apply plain_word; done.
  - split_and!.
    + apply list.Forall_cons; split; [split; [by apply plain_word|done]|]. by repeat constructor.
    + cbn [map snd sim_lpars]. apply list.NoDup_cons; split; [|apply NoDup_singleton]. intros E%list_elem_of_singleton. congruence.
    + by apply (bool_decide_eq_true_1 _).
  - intros l id v Hl w _ <-. destruct (in_lpars _ _ _ Hl) as [[-> ->]|[-> ->]]; (split; [done|]; split; [done|by exists 0]).
  - intros l id v Hl w _ <-. destruct (in_lpars _ _ _ Hl) as [[-> ->]|[-> ->]]; (split; [done|]; split; [done|by exists 0]).
  - intros l s v Hs [id Hl] w _ <-. destruct (list_does l s id w Hl Hs) as [E1 E2]. cbn [env_ssh sim_env]. rewrite E1. split; [done|]. split; [done|].
    eexists 0, _. split; [done|]. by destruct (decide _).
  - intros op id target s v Hop Hs Hi Ht w _ <-. cbn [env_ssh sim_env]. rewrite change_does by done. unfold change. split; [done|].
    destruct (changed (sim_lpars id2) op id target (sl_drc s) w); (eexists _, _; split; [done|]; by split).
  - intros v w _ <-. split; [done|]. split; [done|by eexists].
  - intros d v w _ <-. by split_and!.
  - intros d v w _ <-. by split_and!.
  - intros d v Hd w _ <-. split; [done|]. split; [done|]. eexists. split; [done|]. rewrite list_elem_of_In, filter_In, bool_decide_eq_true.
    split; [by intros [_ ?]|]. intros Hw. split; [|done]. apply list_elem_of_In. revert Hd. cbn [pn_slot_of]. unfold sim_slot.
    destruct (String.eqb_spec d device1) as [->|]; [intros _; by left|]. destruct (String.eqb_spec d device2) as [->|]; [intros _; by right; left|].
    destruct (String.eqb_spec d device3) as [->|]; [intros _; by right; right; left|].
    intros Hd. exfalso. revert Hd. by apply (bool_decide_eq_false_1 _).
  - intros d v w _ <-. by split_and!.
  - intros c v w _ <-. by split_and!.
  - intros c n v w _ <-. by split_and!.
  - intros d v w _ <-. by split_and!.
  - intros p v w _ <-. by split_and!.
  - intros _. cbn. lia.
  - intros d v w _ <-. by split_and!.
  - done.
  - intros i v w _ <-. by split_and!.
  - intros i peer n v w _ <-. by split_and!.
  - by intros.
Defined.

Lemma sim_set device : set_for (HC:=sim_console) (Some ("lpar2", id2)%string) (sim_test device).
Proof. by constructor. Qed.

Lemma sim_located d v : d ∈ [device1; device2; device3] → v !! sl_drc (sim_slot d) = Some "lpar1"%string → located (HC:=sim_console) "3" d v.
Proof.
  intros Hd Hv. constructor; [|exact Hv|].
  - cbn [pn_slot_of sim_console pn_slots]. clear Hv. each_of Hd; by apply (bool_decide_eq_true_1 _).
  - clear Hv. intros s Hs. each_of Hd; each_of Hs.
Qed.

Lemma sim_has : has_slots (HC:=sim_console) (Some ("lpar2", id2)%string) sim_view.
Proof. done. Qed.

Lemma sim_devices d : d ∈ pd_pci_device (sim_test device1) → located (HC:=sim_console) "3" d sim_view ∧ sound (HC:=sim_console) d = true.
Proof. intros ->%list_elem_of_singleton. split; [|done]. apply sim_located; [by left|done]. Qed.

(** The attributes of a device, read. *)
Definition sim_read (device : string) : pd_self :=
  PdSelf (Some "hmc"%string) (VStr "no") (VStr "10.0.0.2") "lpar1" (VStr "server") (VStr "lpar2") [device] 1 VNone
    (sim_loc device) (sim_type device) (VStr "nvme0") [VInt 1; VInt 2]
    [("lpar2_id", short_id id2); ("drc_index", sl_drc (sim_slot device)); ("lpar_id", "3")]%string.

Lemma sim_detailed d : detailed (HC:=sim_console) d "3" (Some ("lpar2", id2)%string) (sim_read d).
Proof. by constructor. Qed.
End instance.

(** ** The theorems on the machine *)

(** The other partition is the fourth, or the twelfth. *)
Lemma plain_4 : plain "4". Proof. by apply plain_word. Qed.
Lemma plain_12 : plain "12". Proof. by apply plain_word. Qed.
Definition console_4 := sim_console "4" plain_4 ltac:(discriminate) ltac:(discriminate).
Definition console_12 := sim_console "12" plain_12 ltac:(discriminate) ltac:(discriminate).

Definition at_sim {A} (m : M slot_view pd_self A) (v : slot_view) (x : pd_self) : result A * pstate slot_view pd_self := m (PState v [] x).

Lemma dlpar_verdict_witness :
  (verdict_of (at_sim (test_dlpar (HE:=sim_env "4") (HP:=sim_pci)) sim_view (sim_test device1)).1 = PASS ∧
   ps_world (at_sim (test_dlpar (HE:=sim_env "4") (HP:=sim_pci)) sim_view (sim_test device1)).2 = sim_view) ∧
  verdict_of (at_sim (test_dlpar (HE:=sim_env "12") (HP:=sim_pci)) sim_view (sim_test device1)).1 = FAIL ∧
  ps_world (at_sim (test_dlpar (HE:=sim_env "12") (HP:=sim_pci)) sim_view (sim_test device1)).2 !! "21010010"%string = Some "lpar2"%string.
Proof.
  split.
  - apply (triple_at _ _ _ _ _ _ I (dlpar_verdict (HC:=console_4) (Some ("lpar2", "4")%string) "3" (sim_test device1) sim_view
      (sim_set _ _ _ _ _) eq_refl (sim_has _ _ _ _) (sim_devices _ _ _ _) ltac:(done) eq_refl)).
  - destruct (triple_at _ _ _ _ _ _ I (dlpar_verdict (HC:=console_12) (Some ("lpar2", "12")%string) "3" (sim_test device1) sim_view
      (sim_set _ _ _ _ _) eq_refl (sim_has _ _ _ _) (sim_devices _ _ _ _) ltac:(done) eq_refl)) as (H1 & d & l & [= <- <-] & H2).
    split; [exact H1|]. etransitivity; [exact (f_equal (lookup "21010010"%string) H2)|reflexivity].
Defined.

Definition all_here : slot_view := {[ "21010010" := "lpar1"; "21020011" := "lpar1"; "21030012" := "lpar1" ]}%string.

(** An NVMe adapter, a network adapter, and a Fibre Channel adapter with a path that failed. *)
Lemma recovery_verdict_witness :
  map (λ d, verdict_of (at_sim (validation_in_os (HP:=sim_pci) d) all_here (sim_read "4" d)).1) [device1; device2; device3] = [PASS; PASS; FAIL].
Proof.
  assert (∀ d, d ∈ [device1; device2; device3] → located (HC:=console_4) "3" d all_here) as Hl.
  { intros d Hd. apply sim_located; [done|]. each_of Hd. }
  assert (∀ d, d ∈ [device1; device2; device3] →
    verdict_of (at_sim (validation_in_os (HP:=sim_pci) d) all_here (sim_read "4" d)).1 = if sound (HC:=console_4) d then PASS else FAIL) as H.
  { intros d Hd. destruct (triple_at _ _ _ _ _ _ I (recovery_verdict (HC:=console_4) (Some ("lpar2", "4")%string) "3" d (sim_read "4" d) all_here
      eq_refl (sim_detailed _ _ _ _ _) (Hl d Hd))) as (_ & _ & H). exact H. }
  cbn [map]. rewrite !H by (by apply (bool_decide_eq_true_1 _)). reflexivity.
Defined.
